(* ===== verification/_CoqProject ===== *)
-Q . S2P
Prelude.v
Virtio.v
SplitRing.v
SplitRingSpec.v
SplitSystem.v
SplitExamples.v
PackedRing.v
PackedRingSpec.v
PackedExamples.v
VirtQueue.v
SplitQueue.v
PackedQueue.v
VioMemRanges.v
VioMemRangesSpec.v
VioMem.v
VioMemSpec.v
VioMemExamples.v
VioInput.v
VioInputSpec.v
VioInputLed.v
VioInputProbe.v
NetChecksum.v
NetChecksumSpec.v
NetOffload.v
NetOffloadSpec.v
NetIpv6Spec.v
NetRx.v
NetRxSpec.v
NetRss.v
NetRssSpec.v
NetRxBuffer.v
NetRxBufferSpec.v
NetRxPath.v
NetRxInv.v
NetRxRingSpec.v
NetRxDpcSpec.v
NetRxLifeSpec.v
NetVirtQueue.v
NetRxSplit.v
NetExamples.v
VioSock.v
VioSockRx.v
VioSockTx.v
VioSockSystem.v
VioSockSpec.v
VioSockCreditSpec.v
VioSockInv.v
VioSockRxSpec.v
VioSockTxSpec.v
VioSockSystemSpec.v
VioSockSockSpec.v
VioSockExamples.v
Effects.v
Pci.v
PciSpec.v
PciQueueSpec.v
PciCapSpec.v
PciDeviceSpec.v
PciInitSpec.v
PciExamples.v
Wdf.v
WdfSpec.v
WdfLifeSpec.v
WdfDma.v
WdfTransSpec.v
WdfExamples.v
Balloon.v
BalloonSpec.v
BalloonLifeSpec.v
BalloonHost.v
BalloonExamples.v
VioInputClasses.v
VioInputHid.v
VioInputHidSpec.v
VioInputMouseSpec.v
VioInputMouseEvents.v
VioInputControlsSpec.v
VioInputTabletSpec.v
VioInputBuildSpec.v
VioInputExamples.v
