(* ===== verification/Prelude.v ===== *)
(** * Verification of the virtio guest drivers for Windows

    The repository holds the paravirtualised drivers for Windows guests.  Every
    driver talks to its device through virtqueues, which the VirtIO library
    implements in two memory formats; above it stand one driver per device type.
    This development models the VirtIO library (the rings, the PCI transports that
    find and configure a device and its queues, and the WDF helper library that the
    framework drivers use) and, on top of it, drivers whose logic is their own:
    virtio-mem (memory hot-plug), the memory balloon, virtio-input (keyboards, mice,
    joysticks, tablets and consumer controls), the receive side of the network driver
    NetKVM, and the socket driver viosock.

    ** Files

    - [Prelude]: the fault monad [res], record update notation, the fixed-width
      integers ([u8] ... [u64], [s32], [s64]), lists indexed by [Z], the shared
      lemmas, the rewrite database [varray] and the tactics.
    - [Virtio]: constants, feature bits, [vring_need_event] (VirtIO/VirtIORing.c,
      virtio_pci.h).
    - [SplitRing]: VirtIO/VirtIORing.c.  [virtqueue_split] is the C structure
      together with the ring memory it points to; each C function is a definition
      of the same name, its loops separate fixpoints.
    - [SplitRingSpec]: the invariant [split_wf vq free live] (the free list, the
      chains of the outstanding buffers and the partition of the descriptors
      between them) and what each operation does to it.
    - [SplitSystem]: driver operations and a conforming device as one step
      relation; safety, exactly-once delivery, the answer of
      [virtqueue_get_buf_split] and the absence of lost interrupts hold in every
      reachable state.
    - [PackedRing], [PackedRingSpec]: the same for VirtIO/VirtIORing-Packed.c with
      the invariant [packed_wf].
    - [VirtQueue]: the type class [VirtQueueOps] of the operations reached through
      the function pointers of [struct virtqueue] (VirtIO/VirtIO.h), the class
      [SyncQueue] of the laws that a client with one outstanding buffer needs, and the
      classes [AsyncQueue] and [AsyncQueueLaws] for clients with several in flight;
      [SplitQueue] and [PackedQueue] prove the former for both formats, [SplitQueue] also the
      latter, for the split ring with its device.
    - [VioMemRanges], [VioMemRangesSpec]: the functions of viomem/sys/viomem.c on
      the block bitmap and on MDLs.
    - [VioMem], [VioMemSpec]: the rest of viomem/sys/viomem.c (requests, plug,
      unplug, start-up synchronisation, worker thread, init), proved once for any
      [SyncQueue], hence for both ring formats.
    - [VioInput]: the key table of vioinput/sys/KeyMap.c, transcribed, Array.c, the item
      encoding and registration helper of Hid.c, and HidKeyboard.c.
    - [VioInputSpec]: key events; the HID report refines an abstract keyboard (a
      set of modifiers and a set of keys).  [VioInputLed]: output reports and
      LEDs.  [VioInputProbe]: the growing array, the round trip of descriptor
      items through a parser of HID short items, and the probe.
    - [VioInputClasses]: HidMouse.c, HidJoystick.c, HidTablet.c, HidConsumer.c and the
      configuration access of Hid.c, over the record [config_env].  [VioInputHid]: which
      classes a device gets, the report descriptor, the distribution of events and the HID
      requests (Hid.c), over the record [hid_env].
    - [VioInputHidSpec]: what a report descriptor declares, by the HID specification, and how
      the probes extend it.  [VioInputMouseSpec], [VioInputMouseEvents]: the mouse, against an
      abstract pointer.  [VioInputControlsSpec]: joystick and consumer controls.
      [VioInputTabletSpec]: tablets and touch screens.  [VioInputBuildSpec]: the device with
      all its classes.
    - [NetChecksum], [NetChecksumSpec]: the checksum routines of
      NetKVM/Common/sw_offload.cpp on its three build targets, against RFC 1071.
    - [NetOffload], [NetOffloadSpec], [NetIpv6Spec]: classification of IP packets
      and verification of their checksums (sw_offload.cpp, and
      [ParaNdis_CheckRxChecksum] of ParaNdis_Common.cpp).
    - [NetRx], [NetRxSpec]: the analysis of received packets, VLAN stripping and
      padding (sw_offload.cpp).
    - [NetRss], [NetRssSpec]: the Toeplitz hash and the distribution over queues
      (wlh/ParaNdis6_RSS.cpp).
    - [NetRxBuffer], [NetRxBufferSpec]: layout, allocation and release of receive
      buffers (ParaNdis_Common.cpp, ParaNdis_RX.cpp).
    - [NetRxPath]: the receive path, from creation to release (ParaNdis_RX.cpp,
      ParaNdis_Common.cpp, wlh/ParaNdis6_Impl.cpp), over the class [RxVirtQueue].
      [NetRxInv]: the laws [RxVirtQueueLaws] of that class and the invariant
      [rx_inv] of the path.  [NetRxRingSpec], [NetRxDpcSpec], [NetRxLifeSpec]: ring
      processing, the DPC, and creation and release preserve it.
    - [NetVirtQueue]: [CVirtQueue] (ParaNdis-VirtQueue.h) over the split ring, and
      the proof of the laws.  [NetRxSplit]: receive path, wrapper, ring and device
      together.
    - [VioSock]: data and single-socket operations of viosock/sys/viosock.h,
      Socket.c and Rx.c (credit, timers, events, ports, states, pended requests).
      [VioSockRx]: the receive path of Rx.c over the class [AsyncQueue].
      [VioSockTx]: Tx.c, the slices of VirtIO/WDF/Dma.c and Loopback.c.
      [VioSockSystem]: the socket requests of Socket.c, Evt.c and the DPC, and the
      knot between sending and receiving.
    - [VioSockSpec]: the byte stream of a socket.  [VioSockCreditSpec]: flow control
      between two sockets.  [VioSockInv]: the
      invariant of the device context; [VioSockRxSpec], [VioSockTxSpec],
      [VioSockSystemSpec]: every operation preserves it, the driver as a
      transition system, and the driver over split rings with conforming devices.
      [VioSockSockSpec]: ports, connections and options.
    - [Effects]: the state and fault monad [M] of the models below and its
      weakest-precondition rules.
    - [Pci]: the transports, VirtIO/VirtIOPCICommon.c, VirtIOPCIModern.c and
      VirtIOPCILegacy.c, over the class [VirtIOSystemOps] of the callbacks that a driver
      gives them (VirtIO/virtio_pci.h).  [PciSpec]: the laws [SystemLaws] of the callbacks
      with a ledger of the memory they gave out, and the invariant [vinv] of the device
      structure.  [PciQueueSpec]: set-up and deletion of queues.  [PciCapSpec]:
      the capability list and the device configuration.
      [PciDeviceSpec]: what the device of a [ModernPlatform] has been told.  [PciInitSpec]:
      initialisation, reset and shutdown.
    - [Wdf]: VirtIO/WDF/VirtIOWdf.c, Callbacks.c, PCI.c, MemPortIO.c and the common buffers
      of Dma.c over the class [WdfKernel].  [WdfSpec]: the laws [KernelLaws], and that the
      callbacks keep the laws of the transport; common buffers.
      [WdfLifeSpec]: a device from its preparation to its release.
    - [WdfDma], [WdfTransSpec]: the DMA transactions of VirtIO/WDF/Dma.c and their
      reference counts.
    - [Balloon]: Balloon/sys/balloon.c, Device.c and memstat.c in the 64-bit build without
      the balloon service, over the class [BalloonKernel] and any [AsyncQueue]; a thread
      that waits lets the others run, in any order ([meanwhile]).  [BalloonSpec]: the laws
      [BalloonLaws] of the kernel with a ledger of pages and list entries, the invariant of
      the driver, inflating and deflating, and the memory statistics.  [BalloonLifeSpec]: the driver as a
      transition system from the addition of the device to its removal.  [BalloonHost]: the
      driver over split rings, with a host that reads the page numbers from memory.
    - [BalloonExamples], [PciExamples], [WdfExamples], [SplitExamples], [PackedExamples], [VioMemExamples], [VioInputExamples],
      [NetExamples], [VioSockExamples]: concrete queues, platform, keyboard, packets
      and adapter, on which the hypotheses of the theorems hold; the parameters
      are instantiated with executable functions.

    ** Conventions

    An operation is a function from the old state to [res] of the result and the
    new state.  [Fault] stands for what C leaves undefined or what stops the
    machine: an access outside an array, NULL, a failed [ASSERT], [KeBugCheck], a
    division by zero.  A theorem that an operation equals [Ok ...] therefore also
    says that none of these happens.  Integers are [Z] with the wrap-around of
    their C type written out.  Memory barriers are the order of the updates; spin
    locks are not modelled, as each operation runs under its lock.  Calls to the
    Windows kernel, the framework and the device are fields of the records
    [platform] (virtio-mem), [input_env], [config_env] and [hid_env] (virtio-input) and of the class [WdfEnv]
    (viosock), over an arbitrary state; what the theorems need of them is a named hypothesis
    ([device_answers], [find_clear_ok], [removal_ok]).

    Loops of the C code run on fuel where the bound is not syntactic.  The bounds
    are the ones the data gives: a descriptor chain has at most as many elements
    as the ring, the MDL loops at most as many iterations as there are pages, the
    doubling loop of the array at most 64, and the theorems prove that [OutOfFuel]
    does not occur.  The receive loop of NetKVM runs as long as the device returns
    buffers: its fuel is the number of buffers that a device returns, the budget of
    [device_ok].  The walk over IPv6 headers needs 8200 steps for packets below
    63504 bytes and does not end for some longer ones.  The stack loop of
    [SynchronizeDeviceAndDriverMemory] takes any fuel, because it is never entered.
    The wait for a reset to finish takes as many rounds as the device, the configuration
    loop one more than the configuration changes, the capability loop the length of the
    list, the allocation of a legacy ring 16 halvings, and freeing by tag the number of
    blocks.  Deflating takes one round for each page list of the balloon, the statistics
    loop one round for each request.
    In viosock sending and receiving call each other: [calls fuel n] allows [n] nested
    rounds and [fuel] iterations of a loop inside one.  The invariant theorems hold for
    every [fuel] and [n] and speak of the runs that end within them; the theorems on
    single operations, the transport reset among them, say that they end.

    ** What the theorems show

    For the rings: creation gives a well-formed queue; adding publishes exactly
    the caller's buffer list or fails without a change; getting hands back exactly
    the buffers the device returned; detaching hands back all; notification and
    interrupt suppression ask for an event exactly when the virtio arithmetic
    says so; the layout fits the allocation.  For virtio-mem: each request is a
    complete exchange, only free blocks are plugged, exactly the acknowledged
    blocks change in the bitmap, and the worker thread never faults.  For
    virtio-input: the report shows the keys held, LEDs follow the output report, and
    descriptors parse back; the report of a mouse, read as its descriptor says, shows the
    buttons, axes and wheels of an abstract pointer; building the descriptor of a device
    never faults, and what goes up afterwards, whatever events and requests arrive, has
    the identifiers and lengths that the descriptor declares.
    For NetKVM: the checksum routines compute the Internet checksum, received
    packets get the verdict they deserve, the analysis stays within the room behind
    the packet, the RSS hash is Toeplitz and leads to an existing queue, receive
    buffers fit their layout and are returned exactly, and the receive path keeps
    each buffer in exactly one place from its creation to its release, over the
    split ring and any conforming device.  For viosock: every receive packet and
    every buffer of the pool has one owner in every state the driver reaches with
    conforming devices, the packets on the transmit ring are distinct slices and the
    queued replies are counted; what a socket reads is what it received, byte by byte;
    a sender that respects the credit it is given never makes the receiver drop data;
    ports have one owner; a transport reset closes every connection and ends.
    For the transports: queues own distinct rings and control blocks and deletion gives
    back all memory; the modern device is told what the driver asked; a capability list
    is parsed as it is; initialisation ends and leaves a device that works or nothing.
    For the WDF library: over any number of power cycles the kernel gets back every BAR,
    mapping, ring and control block except those that an error path forgets, which the
    theorem names; DMA memory answers address queries exactly; a DMA transaction is
    deleted once, when driver and framework are done with it.
    For the balloon: whatever happens while a thread waits, the pages on its list are
    exactly those it took from the kernel and are counted, and the power-down before a
    removal gives all of them back; when memory suffices the balloon reaches the size the
    host asks for; a host that answers in time knows exactly the pages on the list; the
    statistics are those of the kernel, extended to 64 bits.
    Several theorems state what the code does where that is not what it means to
    do: the wrap counter of a packed ring filled by one buffer, the inverted
    [virtqueue_is_interrupt_enabled_packed], the delayed callback after the used
    index wraps, [RtlFindLongestRunSet] with several runs, the synchronisation
    loop, the plug request that was never sent, the size of the bitmap buffer,
    32-bit megabyte counts, consumer keys in the keyboard report, the padding of the
    LED report and the credit of a socket whose peer shrinks its buffer; an example shows
    the balloon with a host that answers late.

    ** Not modelled

    Of the WDF helper library the creation of sliced memory (its slices are in
    [VioSockTx]), the device and interrupt glue of the drivers, of NetKVM the transmit
    path, the control queue, the OIDs and the driver entry points, of viosock the timer
    of the read queue, select, the dispatch of control codes, the creation of framework
    objects and the Winsock and WSK providers, the balloon service with its device
    queue, and the other drivers: viostor, vioscsi, vioserial, viorng, viogpu, viofs,
    viocrypt, pvpanic, fwcfg, ivshmem.  Of these, the transmit path of NetKVM, select in
    viosock and the control protocol of vioserial have logic of their own, and the
    packed ring has no system theorem like that of the split ring. *)

From Stdlib Require Import ZArith Lia Morphisms.
From stdpp Require Import base decidable list numbers option gmap.

Declare Scope virtio_scope.
Delimit Scope virtio_scope with virtio.
#[global] Open Scope Z_scope.
#[global] Open Scope virtio_scope.

(** ** Faults and the fault monad

    A C expression either produces a value or goes wrong: an access outside
    an array, a dereference of NULL, a failed [ASSERT], a [KeBugCheck], a variable
    that is read before it is written, or a loop that exceeds the bound given to
    it. *)

Inductive fault :=
  | OutOfBounds
  | NullPointer
  | AssertFailed
  | BugCheck
  | DivideByZero
  | Uninitialized
  | OutOfFuel.

Inductive res (A : Type) :=
  | Ok (a : A)
  | Fault (f : fault).
Arguments Ok {A} a.
Arguments Fault {A} f.

#[export] Instance fault_eq_dec : EqDecision fault.
Proof. solve_decision. Defined.

#[export] Instance res_ret : MRet res := fun A a => Ok a.
#[export] Instance res_bind : MBind res :=
  fun A B k m => match m with Ok a => k a | Fault f => Fault f end.

Definition is_ok {A} (m : res A) : bool :=
  match m with Ok _ => true | Fault _ => false end.

(** [ASSERT(b)] of the WDK's checked builds. *)
Definition ASSERT (b : bool) : res unit := if b then Ok tt else Fault AssertFailed.

(** [BUG_ON(b)]: stop the machine with [KeBugCheck] when [b] holds. *)
Definition BUG_ON (b : bool) : res unit := if b then Fault BugCheck else Ok tt.

(** Integer division in C truncates, and faults on a zero divisor. *)
Definition cdiv (a b : Z) : res Z := if b =? 0 then Fault DivideByZero else Ok (Z.quot a b).

Lemma bind_ok {A B} (m : res A) (k : A -> res B) b :
  (m ≫= k) = Ok b <-> exists a, m = Ok a /\ k a = Ok b.
Proof. destruct m; cbn; naive_solver. Qed.

Lemma ASSERT_ok b : b = true -> ASSERT b = Ok tt.
Proof. by intros ->. Qed.

(** ** Record update

    [r <| f := v |>] is [r] with its field [f] replaced.  Each record declares
    its eta expansion, and the setter is obtained by abstracting the field. *)

Class Eta (R : Type) := eta_expand : R -> R.
Class Setter {R T : Type} (get : R -> T) := set_field : T -> R -> R.
Arguments set_field {R T} get {_} _ _ : simpl nomatch.

Ltac derive_setter R get :=
  let i := constr:(_ : Eta R) in
  let e := eval hnf in i in
  lazymatch eval pattern get in e with
  | (fun _ => ?b) _ => fail "not a field:" get
  | ?u _ => let t := eval cbv beta in (fun v r => u (fun _ => v) r) in exact t
  end.

#[global] Hint Extern 1 (@Setter ?R ?T ?get) => derive_setter R get : typeclass_instances.

Notation "r <| f := v |>" := (set_field f v r)
  (at level 1, left associativity, f constr at level 9, v constr at level 200,
   format "r  <| f  :=  v |>") : virtio_scope.

(** ** Machine integers

    Values of the unsigned C types are integers in their range; [u8] ... [u64]
    are the conversions to them.  The conversions are written with their
    literal moduli so that [lia] sees constants. *)

Definition u8 (x : Z) : Z := x mod 256.
Definition u16 (x : Z) : Z := x mod 65536.
Definition u32 (x : Z) : Z := x mod 4294967296.
Definition u64 (x : Z) : Z := x mod 18446744073709551616.

(** Conversion to a signed type, two's complement as on every Windows target. *)
Definition s32 (x : Z) : Z := (x + 2147483648) mod 4294967296 - 2147483648.
Definition s64 (x : Z) : Z :=
  (x + 9223372036854775808) mod 18446744073709551616 - 9223372036854775808.

(** [1 << n] *)
Definition BIT (n : Z) : Z := Z.shiftl 1 n.

(** The truth value of a C integer, and the integer of a C comparison. *)
Definition truth (x : Z) : bool := negb (x =? 0).
Definition b2z (b : bool) : Z := if b then 1 else 0.

(** NTSTATUS values used by the drivers, as 32-bit patterns. *)
Definition STATUS_SUCCESS : Z := 0.
Definition STATUS_UNSUCCESSFUL : Z := 0xC0000001.
Definition STATUS_INVALID_PARAMETER : Z := 0xC000000D.
Definition STATUS_BUFFER_TOO_SMALL : Z := 0xC0000023.
Definition STATUS_INSUFFICIENT_RESOURCES : Z := 0xC000009A.
Definition STATUS_NOT_SUPPORTED : Z := 0xC00000BB.
Definition STATUS_CANCELLED : Z := 0xC0000120.

(** [NT_SUCCESS(s)]: the severity bit is clear. *)
Definition NT_SUCCESS (s : Z) : bool := s <? 0x80000000.

Ltac unfold_words := unfold u8, u16, u32, u64, s32, s64 in *.

(** [word_lia]: linear arithmetic with the word conversions expanded. *)
Ltac word_lia := unfold_words; Z.to_euclidean_division_equations; lia.

Lemma u8_small x : 0 <= x < 256 -> u8 x = x.
Proof. apply Z.mod_small. Qed.
Lemma u16_small x : 0 <= x < 65536 -> u16 x = x.
Proof. apply Z.mod_small. Qed.
Lemma u32_small x : 0 <= x < 4294967296 -> u32 x = x.
Proof. apply Z.mod_small. Qed.
Lemma u64_small x : 0 <= x < 18446744073709551616 -> u64 x = x.
Proof. apply Z.mod_small. Qed.
Lemma u8_range x : 0 <= u8 x < 256.
Proof. by apply Z.mod_pos_bound. Qed.
Lemma u16_range x : 0 <= u16 x < 65536.
Proof. by apply Z.mod_pos_bound. Qed.
Lemma u32_range x : 0 <= u32 x < 4294967296.
Proof. by apply Z.mod_pos_bound. Qed.
Lemma u64_range x : 0 <= u64 x < 18446744073709551616.
Proof. by apply Z.mod_pos_bound. Qed.
Lemma s64_small x :
  -9223372036854775808 <= x < 9223372036854775808 -> s64 x = x.
Proof. intros. unfold s64. rewrite Z.mod_small; lia. Qed.

(** [x & (2^k - 1)] is the remainder modulo [2^k]. *)
Lemma land_pow2_mod x k : 0 <= k -> Z.land x (2 ^ k - 1) = x mod 2 ^ k.
Proof.
  intros Hk. rewrite <- Z.land_ones by done.
  f_equal. rewrite Z.ones_equiv. lia.
Qed.

(** Rounding up to a multiple of [2^k] with [(x + a - 1) & ~(a - 1)]. *)
Lemma align_up_spec x k :
  0 <= k -> 0 <= x ->
  let a := 2 ^ k in
  let r := Z.land (x + a - 1) (Z.lnot (a - 1)) in
  x <= r < x + a /\ r mod a = 0.
Proof.
  intros Hk Hx a r.
  assert (0 < a) by (apply Z.pow_pos_nonneg; lia).
  assert (Hr : r = (x + a - 1) / a * a).
  { unfold r, a. replace (Z.lnot (2 ^ k - 1)) with (Z.shiftl (-1) k).
    - rewrite <- (Z.shiftl_mul_pow2 _ k), <- (Z.shiftr_div_pow2 _ k) by done.
      apply Z.bits_inj'. intros n Hn.
      rewrite Z.land_spec, !Z.shiftl_spec by done.
      destruct (Z.ltb_spec n k).
      + rewrite !(Z.testbit_neg_r _ (n - k)) by lia. by rewrite andb_false_r.
      + rewrite Z.bits_m1, Z.shiftr_spec, andb_true_r by lia. f_equal. lia.
    - rewrite Z.shiftl_mul_pow2 by done. unfold Z.lnot. lia. }
  rewrite Hr. split.
  - pose proof (Z.div_mod (x + a - 1) a). pose proof (Z.mod_pos_bound (x + a - 1) a). nia.
  - apply Z.mod_mul. lia.
Qed.

Lemma lor_range n a b : 0 <= n -> 0 <= a < 2 ^ n -> 0 <= b < 2 ^ n -> 0 <= Z.lor a b < 2 ^ n.
Proof.
  intros Hn Ha Hb.
  assert (E : Z.lor a b = Z.lor a b mod 2 ^ n).
  { rewrite <- Z.land_ones, Z.land_lor_distr_l, !Z.land_ones by done.
    by rewrite !Z.mod_small. }
  rewrite E. apply Z.mod_pos_bound. lia.
Qed.

(** [x & (1 << n)] tests bit [n]. *)
Lemma truth_land_bit x n : 0 <= n -> truth (Z.land x (BIT n)) = Z.testbit x n.
Proof.
  intros Hn. unfold truth, BIT. rewrite Z.shiftl_1_l. destruct (Z.testbit x n) eqn:E.
  - destruct (Z.eqb_spec (Z.land x (2 ^ n)) 0) as [E0|]; [|done].
    assert (Z.testbit (Z.land x (2 ^ n)) n = true) as HT
      by (by rewrite Z.land_spec, Z.pow2_bits_true, E by lia).
    rewrite E0, Z.bits_0 in HT. done.
  - replace (Z.land x (2 ^ n)) with 0; [done|]. symmetry. apply Z.bits_inj'. intros m Hm.
    rewrite Z.land_spec, Z.bits_0. destruct (decide (n = m)) as [->|Hne]; [by rewrite E|].
    rewrite Z.pow2_bits_false by done. apply andb_false_r.
Qed.

(** Packing a field above another one. *)
Lemma lor_shiftl_add x y n :
  0 <= n -> 0 <= x < 2 ^ n -> Z.lor x (Z.shiftl y n) = x + y * 2 ^ n.
Proof.
  intros Hn Hx. rewrite <- Z.shiftl_mul_pow2 by done.
  assert (Hl : Z.land x (Z.shiftl y n) = 0).
  { apply Z.bits_inj'. intros m Hm. rewrite Z.land_spec, Z.bits_0, Z.shiftl_spec by done.
    destruct (Z.ltb_spec m n).
    - by rewrite (Z.testbit_neg_r y) by lia; rewrite andb_false_r.
    - by rewrite <- (Z.mod_small x (2 ^ n)), Z.mod_pow2_bits_high by lia. }
  by rewrite Z.add_nocarry_lxor, Z.lxor_lor.
Qed.

(** ** Arrays indexed by C integers *)

Definition zlookup {A} (l : list A) (i : Z) : option A :=
  if 0 <=? i then l !! Z.to_nat i else None.
Definition zinsert {A} (i : Z) (x : A) (l : list A) : list A :=
  if 0 <=? i then <[Z.to_nat i := x]> l else l.

(** Reading and writing an array element; outside the array is a fault. *)
Definition zget {A} (l : list A) (i : Z) : res A :=
  match zlookup l i with Some x => Ok x | None => Fault OutOfBounds end.
Definition zset {A} (l : list A) (i : Z) (x : A) : res (list A) :=
  match zlookup l i with Some _ => Ok (zinsert i x l) | None => Fault OutOfBounds end.
Definition zlen {A} (l : list A) : Z := Z.of_nat (length l).

Notation "l ⟦ i ⟧" := (zlookup l i) (at level 1, i at level 200, format "l ⟦ i ⟧") : virtio_scope.

Section arrays.
Context {A : Type}.
Implicit Types (l : list A) (i j : Z) (x y : A).

Lemma zlen_nonneg l : 0 <= zlen l.
Proof. unfold zlen. lia. Qed.

Lemma zlookup_is_Some l i : is_Some (l⟦i⟧) <-> 0 <= i < zlen l.
Proof.
  unfold zlookup, zlen. destruct (Z.leb_spec 0 i).
  - rewrite lookup_lt_is_Some. lia.
  - split; [by intros [? ?] | lia].
Qed.

Lemma zlookup_lt l i x : l⟦i⟧ = Some x -> 0 <= i < zlen l.
Proof. intros H. apply zlookup_is_Some. eauto. Qed.

Lemma zlookup_Forall (P : A -> Prop) l i x : Forall P l -> l⟦i⟧ = Some x -> P x.
Proof.
  unfold zlookup. destruct (0 <=? i); [|done]. apply Forall_lookup_1.
Qed.

(** Lists with the same indices have the same length. *)
Lemma zlen_same_domain l l' : (forall i, is_Some (l'⟦i⟧) <-> is_Some (l⟦i⟧)) -> zlen l' = zlen l.
Proof.
  intros H. pose proof (zlen_nonneg l). pose proof (zlen_nonneg l').
  pose proof (H (zlen l)) as D1. pose proof (H (zlen l')) as D2.
  rewrite !zlookup_is_Some in D1, D2. lia.
Qed.

Lemma zlookup_in_range l i : 0 <= i < zlen l -> exists x, l⟦i⟧ = Some x.
Proof. apply zlookup_is_Some. Qed.

Lemma zlen_zinsert l i x : zlen (zinsert i x l) = zlen l.
Proof.
  unfold zlen, zinsert. destruct (0 <=? i); [by rewrite length_insert | done].
Qed.

Lemma zlookup_zinsert_eq l i x : 0 <= i < zlen l -> (zinsert i x l)⟦i⟧ = Some x.
Proof.
  intros H. unfold zlookup, zinsert, zlen in *.
  destruct (Z.leb_spec 0 i); [|lia]. apply list_lookup_insert_eq. lia.
Qed.

Lemma zlookup_zinsert_ne l i j x : i <> j -> (zinsert i x l)⟦j⟧ = l⟦j⟧.
Proof.
  intros H. unfold zlookup, zinsert.
  destruct (Z.leb_spec 0 i), (Z.leb_spec 0 j); try done.
  apply list_lookup_insert_ne. lia.
Qed.

Lemma zinsert_id l i x : l⟦i⟧ = Some x -> zinsert i x l = l.
Proof. unfold zlookup, zinsert. destruct (0 <=? i); [|done]. apply list_insert_id. Qed.

Lemma zinsert_zinsert l i x y : zinsert i x (zinsert i y l) = zinsert i x l.
Proof. unfold zinsert. destruct (0 <=? i); [apply list_insert_insert_eq | done]. Qed.

Lemma zget_ok l i x : l⟦i⟧ = Some x -> zget l i = Ok x.
Proof. unfold zget. by intros ->. Qed.

Lemma zset_ok l i x : 0 <= i < zlen l -> zset l i x = Ok (zinsert i x l).
Proof.
  intros [y Hy]%zlookup_in_range. unfold zset. by rewrite Hy.
Qed.

Lemma zget_ok_inv l i x : zget l i = Ok x -> l⟦i⟧ = Some x.
Proof. unfold zget. destruct (l⟦i⟧); congruence. Qed.

Lemma zlookup_replicate n i x : 0 <= i < Z.of_nat n -> (replicate n x)⟦i⟧ = Some x.
Proof.
  intros H. unfold zlookup. destruct (Z.leb_spec 0 i); [|lia].
  apply lookup_replicate. split; [done | lia].
Qed.

Lemma zlookup_imap {B} (f : nat -> B -> A) (l : list B) i :
  (imap f l)⟦i⟧ = f (Z.to_nat i) <$> l⟦i⟧.
Proof. unfold zlookup. destruct (0 <=? i); [apply list_lookup_imap | done]. Qed.

Lemma zlen_replicate n x : zlen (replicate n x) = Z.of_nat n.
Proof. unfold zlen. by rewrite length_replicate. Qed.

Lemma zlist_eq l1 l2 :
  zlen l1 = zlen l2 -> (forall i, 0 <= i < zlen l1 -> l1⟦i⟧ = l2⟦i⟧) -> l1 = l2.
Proof.
  intros Hlen H. apply list_eq. intros i. unfold zlen in *.
  destruct (decide (i < length l1)%nat).
  - specialize (H (Z.of_nat i) ltac:(lia)). unfold zlookup in H.
    destruct (Z.leb_spec 0 (Z.of_nat i)); [|lia]. by rewrite Nat2Z.id in H.
  - rewrite !lookup_ge_None_2 by lia. done.
Qed.

End arrays.

Lemma zlookup_fmap {A B} (f : A -> B) l i : (f <$> l)⟦i⟧ = f <$> l⟦i⟧.
Proof. unfold zlookup. destruct (0 <=? i); [|done]. apply list_lookup_fmap. Qed.

Lemma zlen_fmap {A B} (f : A -> B) (l : list A) : zlen (f <$> l) = zlen l.
Proof. unfold zlen. by rewrite length_fmap. Qed.


(** ** Lists *)

Lemma zlen_cons {A} (x : A) l : zlen (x :: l) = zlen l + 1.
Proof. unfold zlen. cbn. lia. Qed.

Lemma zlen_app {A} (l1 l2 : list A) : zlen (l1 ++ l2) = zlen l1 + zlen l2.
Proof. unfold zlen. rewrite length_app. lia. Qed.

Lemma zlen_nil {A} : zlen (@nil A) = 0.
Proof. done. Qed.

Lemma zlookup_drop {A} (l : list A) i x tl :
  0 <= i -> drop (Z.to_nat i) l = x :: tl ->
  l⟦i⟧ = Some x /\ drop (Z.to_nat (i + 1)) l = tl.
Proof.
  intros Hi Hd. unfold zlookup. destruct (Z.leb_spec 0 i); [|lia].
  replace (Z.to_nat (i + 1)) with (Z.to_nat i + 1)%nat by lia.
  rewrite <- drop_drop, Hd. split; [|done].
  rewrite <- (Nat.add_0_r (Z.to_nat i)), <- lookup_drop, Hd. done.
Qed.

Lemma zlookup_cons_0 {A} (x : A) l : (x :: l)⟦0⟧ = Some x.
Proof. done. Qed.

Lemma zlookup_cons_S {A} (x : A) l i : 0 <= i -> (x :: l)⟦i + 1⟧ = l⟦i⟧.
Proof.
  intros. unfold zlookup. replace (0 <=? i + 1) with true by lia. replace (0 <=? i) with true by lia.
  by replace (Z.to_nat (i + 1)) with (S (Z.to_nat i)) by lia.
Qed.

Lemma zlookup_app_l {A} (l1 l2 : list A) i : i < zlen l1 -> (l1 ++ l2)⟦i⟧ = l1⟦i⟧.
Proof.
  intros Hi. unfold zlookup, zlen in *. destruct (Z.leb_spec 0 i); [|done].
  apply lookup_app_l. lia.
Qed.

Lemma zlookup_app_r {A} (l1 l2 : list A) i : zlen l1 <= i -> (l1 ++ l2)⟦i⟧ = l2⟦i - zlen l1⟧.
Proof.
  intros Hi. unfold zlookup, zlen in *. replace (0 <=? i) with true by lia.
  replace (0 <=? i - Z.of_nat (length l1)) with true by lia.
  rewrite lookup_app_r by lia. f_equal. lia.
Qed.

Lemma last_cons_default {A} (x d : A) l : List.last (x :: l) d = List.last l x.
Proof.
  revert x d. induction l as [|y l IH]; intros x d; [done|].
  change (List.last (x :: y :: l) d) with (List.last (y :: l) d). by rewrite !IH.
Qed.

Lemma last_elem_of (h : Z) tl : List.last tl h ∈ h :: tl.
Proof.
  destruct (exists_last (l := h :: tl)) as (l' & x & E); [done|].
  rewrite <- (last_cons_default h h tl), E, List.last_last.
  apply elem_of_app. right. constructor.
Qed.

Lemma land_mod_pow2 x m n :
  0 <= n -> 0 <= x < 2 ^ n -> Z.land x (m mod 2 ^ n) = Z.land x m.
Proof.
  intros Hn Hx. rewrite <- Z.land_ones, (Z.land_comm m), Z.land_assoc by done.
  by rewrite Z.land_ones, Z.mod_small by done.
Qed.

Lemma seqZ_cons' i n : seqZ i (Z.of_nat (S n)) = i :: seqZ (i + 1) (Z.of_nat n).
Proof. rewrite seqZ_cons by lia. f_equal. f_equal; lia. Qed.

Lemma last_seqZ i n d : List.last (seqZ i (Z.of_nat (S n))) d = i + Z.of_nat n.
Proof.
  revert i. induction n as [|n IH]; intros i; [simpl; lia|].
  rewrite seqZ_cons', last_cons_default.
  rewrite seqZ_cons', last_cons_default, <- (last_cons_default (i + 1) d), <- seqZ_cons', IH. lia.
Qed.

Lemma zlen_seqZ i n : 0 <= n -> zlen (seqZ i n) = n.
Proof. intros H. unfold zlen. rewrite length_seqZ. lia. Qed.

(** Writing [rs] into an array from [index] on. *)
Definition written {A} (arr : list A) (index : Z) (rs : list A) : list A :=
  take (Z.to_nat index) arr ++ rs ++ drop (Z.to_nat index + length rs) arr.

Lemma written_cons {A} (arr : list A) index x rs :
  0 <= index < zlen arr ->
  written (zinsert index x arr) (index + 1) rs = written arr index (x :: rs).
Proof.
  intros Hi. unfold written, zinsert, zlen in *. replace (0 <=? index) with true by lia.
  replace (Z.to_nat (index + 1)) with (S (Z.to_nat index)) by lia.
  rewrite (take_S_r _ _ x) by (apply list_lookup_insert_eq; lia).
  rewrite take_insert_ge, drop_insert_lt by lia. cbn [app length].
  rewrite <- app_assoc. cbn [app]. do 3 f_equal. f_equal. lia.
Qed.

Lemma written_nil {A} (arr : list A) index : written arr index [] = arr.
Proof. unfold written. cbn. by rewrite Nat.add_0_r, take_drop. Qed.

(** ** Automation *)

Create HintDb virtio.
Create Rewrite HintDb varray.
#[export] Hint Resolve zlen_nonneg u8_range u16_range u32_range u64_range : virtio.
#[export] Hint Rewrite @zlen_zinsert @zlen_replicate : varray.
#[export] Hint Rewrite @zlookup_zinsert_ne using (done || lia) : varray.
#[export] Hint Rewrite @zlookup_zinsert_eq using (autorewrite with varray; done || lia) : varray.

(** Reduce record projections of updated records and known array reads. *)
Ltac vsimpl := cbn; autorewrite with varray.
