(* ===== verification/Virtio.v ===== *)
(** * Definitions shared by the two virtqueue formats

    Constants and records of VirtIO/VirtIO.h, osdep.h, virtio_config.h and
    virtio_ring.h, the feature-bit macros, and the notification hold-off test
    that both ring implementations use. *)

From Stdlib Require Import ZArith Lia.
From stdpp Require Import base list numbers option.
From S2P Require Import Prelude.

Definition ENOSPC : Z := 28.
Definition PAGE_SIZE : Z := 4096.
Definition SMP_CACHE_BYTES : Z := 64.
Definition VQ_ADD_BUFFER_SUCCESS : Z := 0.

Definition VIRTIO_TRANSPORT_F_START : Z := 28.
Definition VIRTIO_TRANSPORT_F_END : Z := 32.
Definition VIRTIO_RING_F_INDIRECT_DESC : Z := 28.
Definition VIRTIO_RING_F_EVENT_IDX : Z := 29.
Definition VIRTIO_F_VERSION_1 : Z := 32.

(** [struct VirtIOBufferDescriptor], alias [struct scatterlist]. *)
Record VirtIOBufferDescriptor := mk_sg { physAddr : Z; sg_length : Z }.

(** The fields of [VirtIODevice] that the ring code reads: the negotiated
    event suppression and the legacy I/O base. *)
Record VirtIODevice := mk_vdev { event_suppression_enabled : bool; vdev_addr : Z }.

(** ** Feature bits *)

Definition virtio_is_feature_enabled (features f : Z) : bool :=
  truth (Z.land features (Z.shiftl 1 f)).
Definition virtio_feature_enable (features f : Z) : Z := Z.lor features (Z.shiftl 1 f).
Definition virtio_feature_disable (features f : Z) : Z :=
  Z.land features (u64 (Z.lnot (Z.shiftl 1 f))).

(** The loop of [vring_transport_features], [n] iterations from bit [i]. *)
Fixpoint transport_features_loop (n : nat) (i features : Z) : Z :=
  match n with
  | O => features
  | S n =>
      let features :=
        if negb (i =? VIRTIO_RING_F_INDIRECT_DESC) && negb (i =? VIRTIO_RING_F_EVENT_IDX)
           && negb (i =? VIRTIO_F_VERSION_1)
        then virtio_feature_disable features i else features in
      transport_features_loop n (i + 1) features
  end.
Definition vring_transport_features (features : Z) : Z :=
  transport_features_loop (Z.to_nat (VIRTIO_TRANSPORT_F_END - VIRTIO_TRANSPORT_F_START))
    VIRTIO_TRANSPORT_F_START features.

(** ** Notification hold-off *)

Definition vring_need_event (event_idx new_idx old : Z) : bool :=
  u16 (new_idx - event_idx - 1) <? u16 (new_idx - old).

(** The test is true exactly when the event index is one of the free-running
    indices passed on the way from [old] to [new_idx], modulo 2^16. *)
Lemma vring_need_event_window event_idx new_idx old :
  0 <= event_idx < 65536 -> 0 <= new_idx < 65536 -> 0 <= old < 65536 ->
  vring_need_event event_idx new_idx old = true <->
  exists k, 0 <= k < u16 (new_idx - old) /\ event_idx = u16 (old + k).
Proof.
  intros He Hn Ho. unfold vring_need_event. rewrite Z.ltb_lt. split.
  - intros H. exists (u16 (event_idx - old)). word_lia.
  - intros (k & Hk & ->). word_lia.
Qed.

Lemma testbit_land_lnot_bit x i n :
  0 <= i -> 0 <= n < 64 ->
  Z.testbit (virtio_feature_disable x i) n = Z.testbit x n && negb (n =? i).
Proof.
  intros Hi Hn. unfold virtio_feature_disable, u64.
  change 18446744073709551616 with (2 ^ 64).
  rewrite Z.land_spec, Z.mod_pow2_bits_low, Z.lnot_spec, Z.shiftl_spec by lia.
  f_equal. f_equal. destruct (Z.eqb_spec n i) as [->|Hne].
  - by rewrite Z.sub_diag.
  - destruct (decide (n < i)); [by rewrite Z.testbit_neg_r by lia|].
    change 1 with (2 ^ 0). rewrite Z.pow2_bits_false by lia. done.
Qed.

(** Negotiation drops the reserved transport bits it does not know and keeps
    every other bit of the device's offer. *)
Lemma vring_transport_features_bits features n :
  0 <= n < 64 ->
  Z.testbit (vring_transport_features features) n =
  Z.testbit features n && negb ((n =? 30) || (n =? 31)).
Proof.
  intros Hn.
  change (vring_transport_features features)
    with (virtio_feature_disable (virtio_feature_disable features 30) 31).
  rewrite !testbit_land_lnot_bit by lia.
  destruct (Z.testbit features n), (n =? 30), (n =? 31); done.
Qed.
