(* ===== verification/SplitRing.v ===== *)
(** * The split virtqueue (VirtIO/VirtIORing.c)

    The descriptor table, the available and used rings, the free list threaded
    through unused descriptors, and the operations drivers call through
    [struct virtqueue].  The device's part of the shared memory (the used ring
    and the avail event index) is ordinary state that the device may change
    between two operations. *)

From Stdlib Require Import ZArith Lia.
From stdpp Require Import base list numbers option.
From S2P Require Import Prelude.
From S2P Require Import Virtio.

Definition VIRTQ_DESC_F_NEXT : Z := 1.
Definition VIRTQ_DESC_F_WRITE : Z := 2.
Definition VIRTQ_DESC_F_INDIRECT : Z := 4.
Definition VIRTQ_USED_F_NO_NOTIFY : Z := 1.
Definition VIRTQ_AVAIL_F_NO_INTERRUPT : Z := 1.

Record vring_desc := mk_desc { addr : Z; len : Z; flags : Z; next : Z }.
#[export] Instance eta_vring_desc : Eta vring_desc :=
  fun d => mk_desc (addr d) (len d) (flags d) (next d).

(** [struct vring_avail]; [av_ring] has [num + 1] entries, the last of which is
    [vring_used_event]. *)
Record vring_avail := mk_avail { av_flags : Z; av_idx : Z; av_ring : list Z }.
#[export] Instance eta_vring_avail : Eta vring_avail :=
  fun a => mk_avail (av_flags a) (av_idx a) (av_ring a).

Record vring_used_elem := mk_used_elem { ue_id : Z; ue_len : Z }.

(** [struct vring_used]; [us_avail_event] is the 16-bit word after the ring,
    [vring_avail_event]. *)
Record vring_used := mk_used {
  us_flags : Z; us_idx : Z; us_ring : list vring_used_elem; us_avail_event : Z }.
#[export] Instance eta_vring_used : Eta vring_used :=
  fun u => mk_used (us_flags u) (us_idx u) (us_ring u) (us_avail_event u).

(** [struct virtqueue_split], with the memory its [vring] points to. *)
Record virtqueue_split := mk_split {
  vdev : VirtIODevice;
  index : Z;
  notification_cb : Z;
  num : Z;
  desc : list vring_desc;
  avail : vring_avail;
  used : vring_used;
  master_flags : Z;
  master_idx : Z;
  num_unused : Z;
  num_added_since_kick : Z;
  first_unused : Z;
  last_used : Z;
  opaque : list Z }.
#[export] Instance eta_virtqueue_split : Eta virtqueue_split := fun q =>
  mk_split (vdev q) (index q) (notification_cb q) (num q) (desc q) (avail q) (used q)
    (master_flags q) (master_idx q) (num_unused q) (num_added_since_kick q)
    (first_unused q) (last_used q) (opaque q).

(** ** Layout of the ring memory *)

Definition DESC_INDEX (num i : Z) : Z := Z.land i (num - 1).

Definition sizeof_vring_desc : Z := 16.
Definition sizeof_vring_used_elem : Z := 8.
Definition sizeof_virtio16 : Z := 2.

(** [vring_init]: the addresses of the descriptor table, of the available
    ring and of the used ring in the block at [p]. *)
Definition vring_init (num p align : Z) : Z * Z * Z :=
  let avail := u64 (p + num * sizeof_vring_desc) in
  let ring_end := avail + 4 + sizeof_virtio16 * num in
  (p, avail,
   Z.land (u64 (ring_end + sizeof_virtio16 + align - 1)) (u64 (Z.lnot (align - 1)))).

(** [vring_size_split]: [size_t] arithmetic, with the 32-bit mask zero
    extended, and a 32-bit result. *)
Definition vring_size_split (num align : Z) : Z :=
  u32 (Z.land (u64 (sizeof_vring_desc * num + sizeof_virtio16 * u32 (3 + num) + align - 1))
              (u32 (Z.lnot (u32 (align - 1)))) +
       sizeof_virtio16 * 3 + sizeof_vring_used_elem * num).

(** ** The free list *)

Definition get_unused_desc (vq : virtqueue_split) : res (Z * virtqueue_split) :=
  let idx := first_unused vq in
  _ ← ASSERT (num_unused vq >? 0);
  d ← zget (desc vq) idx;
  Ok (idx, vq <| first_unused := next d |> <| num_unused := u32 (num_unused vq - 1) |>).

(** The [while] loop of [put_unused_desc_chain]: follow NEXT links. *)
Fixpoint skip_chain (fuel : nat) (vq : virtqueue_split) (idx : Z)
    : res (Z * virtqueue_split) :=
  d ← zget (desc vq) idx;
  if truth (Z.land (flags d) VIRTQ_DESC_F_NEXT) then
    match fuel with
    | O => Fault OutOfFuel
    | S fuel => skip_chain fuel (vq <| num_unused := u32 (num_unused vq + 1) |>) (next d)
    end
  else Ok (idx, vq).

Definition set_desc (vq : virtqueue_split) (i : Z) (f : vring_desc -> vring_desc)
    : res virtqueue_split :=
  d ← zget (desc vq) i;
  Ok (vq <| desc := zinsert i (f d) (desc vq) |>).

Definition put_unused_desc_chain (vq : virtqueue_split) (idx : Z) : res virtqueue_split :=
  let start := idx in
  op ← zset (opaque vq) idx 0;
  let vq := vq <| opaque := op |> in
  '(idx, vq) ← skip_chain (length (desc vq)) vq idx;
  vq ← set_desc vq idx (fun d =>
         d <| flags := VIRTQ_DESC_F_NEXT |> <| next := first_unused vq |>);
  Ok (vq <| num_unused := u32 (num_unused vq + 1) |> <| first_unused := start |>).

(** ** Adding buffers *)

(** The [for] loop that fills the indirect table; [n] iterations from [i]. *)
Fixpoint fill_indirect (n : nat) (i out : Z) (sg : list VirtIOBufferDescriptor)
    (tbl : list vring_desc) : res (list vring_desc) :=
  match n with
  | O => Ok tbl
  | S n =>
      s ← zget sg i;
      let fl := Z.lor (if i <? out then 0 else VIRTQ_DESC_F_WRITE) VIRTQ_DESC_F_NEXT in
      tbl ← zset tbl i (mk_desc (physAddr s) (sg_length s) fl (u16 (u16 i + 1)));
      fill_indirect n (i + 1) out sg tbl
  end.

(** The [for] loop over the remaining direct descriptors; returns [last_idx]. *)
Fixpoint add_rest (n : nat) (i out last_idx : Z) (sg : list VirtIOBufferDescriptor)
    (vq : virtqueue_split) : res (Z * virtqueue_split) :=
  match n with
  | O => Ok (last_idx, vq)
  | S n =>
      '(last_idx, vq) ← get_unused_desc vq;
      s ← zget sg i;
      let fl := if i >=? out then Z.lor VIRTQ_DESC_F_NEXT VIRTQ_DESC_F_WRITE
                else VIRTQ_DESC_F_NEXT in
      vq ← set_desc vq last_idx (fun _ =>
             mk_desc (physAddr s) (sg_length s) fl (first_unused vq));
      add_rest n (i + 1) out last_idx sg vq
  end.

(** The common tail: publish [idx] in the available ring. *)
Definition publish (vq : virtqueue_split) (idx : Z) : res virtqueue_split :=
  ring ← zset (av_ring (avail vq)) (DESC_INDEX (num vq) (master_idx vq)) idx;
  let m := u16 (master_idx vq + 1) in
  Ok (vq <| master_idx := m |>
         <| avail := (avail vq) <| av_ring := ring |> <| av_idx := m |> |>
         <| num_added_since_kick := u32 (num_added_since_kick vq + 1) |>).

(** [d.flags &= ~VIRTQ_DESC_F_NEXT] *)
Definition clear_next (d : vring_desc) : vring_desc :=
  d <| flags := u16 (Z.land (flags d) (Z.lnot VIRTQ_DESC_F_NEXT)) |>.

(** The [else] branch of [virtqueue_add_buf_split]: [total] regular descriptors. *)
Definition add_direct (vq : virtqueue_split) (sg : list VirtIOBufferDescriptor)
    (out total opq : Z) (va_indirect : option (list vring_desc))
    : res (Z * option (list vring_desc) * virtqueue_split) :=
  if total >? num_unused vq then Ok (- ENOSPC, va_indirect, vq)
  else
    '(idx, vq) ← get_unused_desc vq;
    op ← zset (opaque vq) idx opq;
    let vq := vq <| opaque := op |> in
    s ← zget sg 0;
    let fl := if out =? 0 then Z.lor VIRTQ_DESC_F_NEXT VIRTQ_DESC_F_WRITE
              else VIRTQ_DESC_F_NEXT in
    vq ← set_desc vq idx (fun _ =>
           mk_desc (physAddr s) (sg_length s) fl (first_unused vq));
    '(last_idx, vq) ← add_rest (Z.to_nat (total - 1)) 1 out idx sg vq;
    vq ← set_desc vq last_idx clear_next;
    vq ← publish vq idx;
    Ok (VQ_ADD_BUFFER_SUCCESS, va_indirect, vq).

(** [virtqueue_add_buf_split].  [va_indirect] is the memory behind the pointer
    ([None] for NULL); the result has the updated indirect memory. *)
Definition virtqueue_add_buf_split (vq : virtqueue_split)
    (sg : list VirtIOBufferDescriptor) (out in_ opq : Z)
    (va_indirect : option (list vring_desc)) (phys_indirect : Z)
    : res (Z * option (list vring_desc) * virtqueue_split) :=
  let total := u32 (out + in_) in
  match va_indirect with
  | Some tbl =>
      if (total >? 1) && (num_unused vq >? 0) then
        tbl ← fill_indirect (Z.to_nat total) 0 out sg tbl;
        d ← zget tbl (total - 1);
        tbl ← zset tbl (total - 1)
                (clear_next d);
        '(idx, vq) ← get_unused_desc vq;
        vq ← set_desc vq idx (fun d =>
               d <| flags := VIRTQ_DESC_F_INDIRECT |> <| addr := phys_indirect |>
                 <| len := u32 (total * sizeof_vring_desc) |>);
        op ← zset (opaque vq) idx opq;
        vq ← publish (vq <| opaque := op |>) idx;
        Ok (VQ_ADD_BUFFER_SUCCESS, Some tbl, vq)
      else add_direct vq sg out total opq (Some tbl)
  | None => add_direct vq sg out total opq None
  end.

(** ** Getting buffers back *)

Definition virtqueue_is_interrupt_enabled_split (vq : virtqueue_split) : bool :=
  negb (truth (Z.land (master_flags vq) VIRTQ_AVAIL_F_NO_INTERRUPT)).

(** [vring_used_event(&vq->vring) = v] *)
Definition set_used_event (vq : virtqueue_split) (v : Z) : res virtqueue_split :=
  ring ← zset (av_ring (avail vq)) (num vq) v;
  Ok (vq <| avail := (avail vq) <| av_ring := ring |> |>).

(** [virtqueue_get_buf_split]: [None] for NULL, otherwise the opaque pointer
    and the length reported by the device. *)
Definition virtqueue_get_buf_split (vq : virtqueue_split)
    : res (option (Z * Z) * virtqueue_split) :=
  if last_used vq =? us_idx (used vq) then Ok (None, vq)
  else
    let idx := DESC_INDEX (num vq) (last_used vq) in
    e ← zget (us_ring (used vq)) idx;
    let len := ue_len e in
    let idx := u16 (ue_id e) in
    opq ← zget (opaque vq) idx;
    vq ← put_unused_desc_chain vq idx;
    let vq := vq <| last_used := u16 (last_used vq + 1) |> in
    vq ← (if event_suppression_enabled (vdev vq) && virtqueue_is_interrupt_enabled_split vq
          then set_used_event vq (last_used vq) else Ok vq);
    _ ← ASSERT (truth opq);
    Ok (Some (opq, len), vq).

Definition virtqueue_has_buf_split (vq : virtqueue_split) : bool :=
  negb (last_used vq =? us_idx (used vq)).

(** The loop of [virtqueue_detach_unused_buf_split], [n] iterations from [idx]. *)
Fixpoint detach_loop (n : nat) (idx : Z) (vq : virtqueue_split) : res (Z * virtqueue_split) :=
  match n with
  | O => Ok (0, vq)
  | S n =>
      opq ← zget (opaque vq) idx;
      if truth opq then
        vq ← put_unused_desc_chain vq idx;
        let m := u16 (master_idx vq - 1) in
        Ok (opq, vq <| master_idx := m |> <| avail := (avail vq) <| av_idx := m |> |>)
      else detach_loop n (idx + 1) vq
  end.
Definition virtqueue_detach_unused_buf_split (vq : virtqueue_split) : res (Z * virtqueue_split) :=
  detach_loop (Z.to_nat (u16 (num vq))) 0 vq.

(** ** Notifications *)

Definition virtqueue_kick_prepare_split (vq : virtqueue_split) : bool * virtqueue_split :=
  let wrap_around := num_added_since_kick vq >=? 65536 in
  let old := u16 (master_idx vq - num_added_since_kick vq) in
  let new := master_idx vq in
  let vq := vq <| num_added_since_kick := 0 |> in
  if event_suppression_enabled (vdev vq)
  then (wrap_around || vring_need_event (us_avail_event (used vq)) new old, vq)
  else (negb (truth (Z.land (us_flags (used vq)) VIRTQ_USED_F_NO_NOTIFY)), vq).

(** [virtqueue_kick_always_split]: the callback that is invoked and the state. *)
Definition virtqueue_kick_always_split (vq : virtqueue_split) : Z * virtqueue_split :=
  (notification_cb vq, vq <| num_added_since_kick := 0 |>).

(** The first statement of both [enable_cb] variants. *)
Definition clear_no_interrupt (vq : virtqueue_split) : virtqueue_split :=
  if negb (virtqueue_is_interrupt_enabled_split vq) then
    let f := u16 (Z.land (master_flags vq) (Z.lnot VIRTQ_AVAIL_F_NO_INTERRUPT)) in
    let vq := vq <| master_flags := f |> in
    if negb (event_suppression_enabled (vdev vq))
    then vq <| avail := (avail vq) <| av_flags := f |> |> else vq
  else vq.

Definition virtqueue_enable_cb_split (vq : virtqueue_split) : res (bool * virtqueue_split) :=
  let vq := clear_no_interrupt vq in
  vq ← set_used_event vq (last_used vq);
  Ok (last_used vq =? us_idx (used vq), vq).

(** The comparison is in [int], so neither side wraps. *)
Definition virtqueue_enable_cb_delayed_split (vq : virtqueue_split)
    : res (bool * virtqueue_split) :=
  let vq := clear_no_interrupt vq in
  let bufs := u16 (u16 (master_idx vq - last_used vq) * 3 / 4) in
  vq ← set_used_event vq (u16 (last_used vq + bufs));
  Ok (us_idx (used vq) - last_used vq <=? bufs, vq).

Definition virtqueue_disable_cb_split (vq : virtqueue_split) : virtqueue_split :=
  if virtqueue_is_interrupt_enabled_split vq then
    let f := Z.lor (master_flags vq) VIRTQ_AVAIL_F_NO_INTERRUPT in
    let vq := vq <| master_flags := f |> in
    if negb (event_suppression_enabled (vdev vq))
    then vq <| avail := (avail vq) <| av_flags := f |> |> else vq
  else vq.

(** ** Creation and shutdown *)

(** The loop that threads the free list; [i] is a [u16], so for more than
    65536 descriptors it never reaches [num - 1]. *)
Fixpoint init_free (fuel : nat) (i num : Z) (ds : list vring_desc) : res (list vring_desc) :=
  if i <? u32 (num - 1) then
    match fuel with
    | O => Fault OutOfFuel
    | S fuel =>
        d ← zget ds i;
        ds ← zset ds i (d <| flags := VIRTQ_DESC_F_NEXT |> <| next := u16 (i + 1) |>);
        init_free fuel (u16 (i + 1)) num ds
    end
  else Ok ds.

(** The memory at [pages]. *)
Record vring_mem := mk_mem {
  mem_desc : list vring_desc; mem_avail : vring_avail; mem_used : vring_used }.

(** [vring_new_virtqueue_split]; [None] for NULL. *)
Definition vring_new_virtqueue_split (index num : Z) (vdev : VirtIODevice)
    (pages : vring_mem) (notify : Z) : res (option virtqueue_split) :=
  if negb (DESC_INDEX num num =? 0) then Ok None
  else
    ds ← init_free (Z.to_nat 65536) 0 num (mem_desc pages);
    Ok (Some (mk_split vdev index notify num ds (mem_avail pages) (mem_used pages)
                0 0 num 0 0 0 (replicate (Z.to_nat num) 0))).

(** [RtlZeroMemory] over a ring of [num] entries. *)
Definition zero_mem (num : Z) : vring_mem :=
  mk_mem (replicate (Z.to_nat num) (mk_desc 0 0 0 0))
    (mk_avail 0 0 (replicate (S (Z.to_nat num)) 0))
    (mk_used 0 0 (replicate (Z.to_nat num) (mk_used_elem 0 0)) 0).

(** [virtqueue_shutdown_split]; the control block is overwritten in place, and
    stays as it was when the re-creation refuses the size. *)
Definition virtqueue_shutdown_split (vq : virtqueue_split) : res virtqueue_split :=
  let mem := zero_mem (num vq) in
  r ← vring_new_virtqueue_split (index vq) (num vq) (vdev vq) mem (notification_cb vq);
  match r with
  | Some vq' => Ok vq'
  | None => Ok (vq <| desc := mem_desc mem |> <| avail := mem_avail mem |>
                   <| used := mem_used mem |>)
  end.

Definition virtio_get_indirect_page_capacity : Z := PAGE_SIZE / sizeof_vring_desc.
