(* ===== verification/SplitRingSpec.v ===== *)
(** * Correctness of the split virtqueue

    The invariant [split_wf vq free live] ties the memory of a split virtqueue
    to two ghost lists: the free list in link order and the buffers the device
    owns.  Every operation of SplitRing is shown to preserve it, and the chain
    the device reads is shown to be the caller's scatter-gather list. *)

From Stdlib Require Import ZArith Lia.
From stdpp Require Import base list numbers option.
From S2P Require Import Prelude.
From S2P Require Import Virtio.
From S2P Require Import SplitRing.

(** One element of a buffer as the device sees it; [seg_flags] is the
    descriptor's flags without NEXT. *)
Record seg := mk_seg { seg_addr : Z; seg_len : Z; seg_flags : Z }.

(** A buffer owned by the device: its descriptors in chain order, its elements
    and the driver's opaque pointer. *)
Record chain := mk_chain { ch_ids : list Z; ch_segs : list seg; ch_opaque : Z }.

Definition head_of (l : list Z) (d : Z) : Z := default d (head l).
Definition ch_head (c : chain) : Z := head_of (ch_ids c) (-1).

(** The descriptors [ids] form a list linked by [next] that starts at [h]. *)
Fixpoint free_at (ds : list vring_desc) (h : Z) (ids : list Z) : Prop :=
  match ids with
  | [] => True
  | i :: ids => h = i /\ exists d, ds⟦i⟧ = Some d /\ free_at ds (next d) ids
  end.

(** [ids] carry the elements [ss], every one with NEXT set; the last link goes
    to [nx]. *)
Fixpoint open_at (ds : list vring_desc) (ids : list Z) (ss : list seg) (nx : Z) : Prop :=
  match ids, ss with
  | [], [] => True
  | i :: ids, s :: ss =>
      ds⟦i⟧ = Some (mk_desc (seg_addr s) (seg_len s) (Z.lor VIRTQ_DESC_F_NEXT (seg_flags s))
                      (head_of ids nx)) /\
      open_at ds ids ss nx
  | _, _ => False
  end.

(** [ids] carry the elements [ss] as a complete chain: NEXT on all but the last. *)
Fixpoint chain_at (ds : list vring_desc) (ids : list Z) (ss : list seg) : Prop :=
  match ids, ss with
  | [i], [s] => exists nx, ds⟦i⟧ = Some (mk_desc (seg_addr s) (seg_len s) (seg_flags s) nx)
  | i :: (j :: _) as ids, s :: ss =>
      ds⟦i⟧ = Some (mk_desc (seg_addr s) (seg_len s) (Z.lor VIRTQ_DESC_F_NEXT (seg_flags s)) j) /\
      chain_at ds ids ss
  | _, _ => False
  end.

Definition seg_ok (s : seg) : Prop := seg_flags s = 0 \/ seg_flags s = 2 \/ seg_flags s = 4.

(** The elements of a scatter-gather list whose first element has index [i]. *)
Fixpoint segs_from (out i : Z) (sg : list VirtIOBufferDescriptor) : list seg :=
  match sg with
  | [] => []
  | s :: sg =>
      mk_seg (physAddr s) (sg_length s) (if i <? out then 0 else VIRTQ_DESC_F_WRITE)
      :: segs_from out (i + 1) sg
  end.

Record split_wf (vq : virtqueue_split) (free : list Z) (live : list chain) : Prop := {
  wf_num : exists k, 0 <= k <= 15 /\ num vq = 2 ^ k;
  wf_desc : zlen (desc vq) = num vq;
  wf_opaque : zlen (opaque vq) = num vq;
  wf_avail : zlen (av_ring (avail vq)) = num vq + 1;
  wf_used : zlen (us_ring (used vq)) = num vq;
  wf_master : 0 <= master_idx vq < 65536;
  wf_last : 0 <= last_used vq < 65536;
  wf_idx : av_idx (avail vq) = master_idx vq;
  wf_unused : num_unused vq = zlen free;
  wf_free : free_at (desc vq) (first_unused vq) free;
  wf_part : free ++ mjoin (ch_ids <$> live) ≡ₚ seqZ 0 (num vq);
  wf_live : Forall (fun c =>
      chain_at (desc vq) (ch_ids c) (ch_segs c) /\ Forall seg_ok (ch_segs c) /\
      ch_opaque c <> 0 /\ (opaque vq)⟦ch_head c⟧ = Some (ch_opaque c)) live;
  wf_null : forall i, 0 <= i < num vq -> i ∉ (ch_head <$> live) -> (opaque vq)⟦i⟧ = Some 0 }.

(** ** Frame lemmas: descriptors outside a chain do not matter to it *)

Lemma free_at_frame ds ds' h ids :
  (forall i, i ∈ ids -> ds'⟦i⟧ = ds⟦i⟧) -> free_at ds h ids -> free_at ds' h ids.
Proof.
  revert h. induction ids as [|i ids IH]; intros h Hf; cbn; [done|].
  intros (-> & d & Hd & H). split; [done|]. exists d. split.
  - rewrite Hf; [done | constructor].
  - apply IH; [|done]. intros j Hj. apply Hf. by constructor.
Qed.

Lemma chain_at_frame ds ds' ids ss :
  (forall i, i ∈ ids -> ds'⟦i⟧ = ds⟦i⟧) -> chain_at ds ids ss -> chain_at ds' ids ss.
Proof.
  revert ss. induction ids as [|i [|j ids] IH]; intros [|s ss] Hf; cbn; try done.
  - rewrite Hf by constructor. done.
  - intros [H1 H2]. rewrite Hf by constructor. split; [done|].
    apply IH; [|done]. intros; apply Hf; by constructor.
Qed.

Lemma open_at_frame ds ds' ids ss nx :
  (forall i, i ∈ ids -> ds'⟦i⟧ = ds⟦i⟧) -> open_at ds ids ss nx -> open_at ds' ids ss nx.
Proof.
  revert ss. induction ids as [|i ids IH]; intros [|s ss] Hf; cbn; try done.
  intros [H1 H2]. rewrite Hf by constructor. split; [done|].
  apply IH; [|done]. intros; apply Hf; by constructor.
Qed.

Lemma free_at_lookup ds h ids i : free_at ds h ids -> i ∈ ids -> exists d, ds⟦i⟧ = Some d.
Proof.
  revert h. induction ids as [|j ids IH]; intros h; [by intros _ ?%elem_of_nil|].
  cbn. intros (-> & d & Hd & H) [->|Hi]%elem_of_cons; eauto.
Qed.

(** ** Allocation *)

Lemma get_unused_desc_ok vq i free d :
  free_at (desc vq) (first_unused vq) (i :: free) -> (desc vq)⟦i⟧ = Some d ->
  num_unused vq = zlen (i :: free) -> zlen (i :: free) < 4294967296 ->
  get_unused_desc vq =
    Ok (i, vq <| first_unused := next d |> <| num_unused := zlen free |>) /\
  free_at (desc vq) (next d) free.
Proof.
  intros (Hh & d' & Hd' & Hf) Hd Hn Hlt. rewrite Hd in Hd'. injection Hd' as <-.
  unfold get_unused_desc. rewrite Hn, Hh.
  assert (zlen (i :: free) = zlen free + 1) as Hz by (unfold zlen; cbn; lia).
  pose proof (zlen_nonneg free). rewrite ASSERT_ok by (rewrite Hz; lia).
  cbn. rewrite (zget_ok _ _ _ Hd). cbn. split; [|done].
  rewrite u32_small by lia. replace (zlen (i :: free) - 1) with (zlen free) by lia. done.
Qed.

Lemma set_desc_ok vq i d f :
  (desc vq)⟦i⟧ = Some d ->
  set_desc vq i f = Ok (vq <| desc := zinsert i (f d) (desc vq) |>).
Proof. intros Hd. unfold set_desc. by rewrite (zget_ok _ _ _ Hd). Qed.

(** One iteration of the loops of [add_direct]: take a descriptor off the free
    list and fill it, linked to the new head of the free list. *)
Lemma take_and_fill vq i free (mk : Z -> vring_desc) :
  free_at (desc vq) (first_unused vq) (i :: free) -> i ∉ free ->
  num_unused vq = zlen (i :: free) -> zlen (i :: free) < 4294967296 ->
  exists fu, get_unused_desc vq =
      Ok (i, vq <| first_unused := fu |> <| num_unused := zlen free |>) /\
    0 <= i < zlen (desc vq) /\
    (forall vq', desc vq' = desc vq ->
       set_desc vq' i (fun _ => mk fu) =
       Ok (vq' <| desc := zinsert i (mk fu) (desc vq) |>)) /\
    free_at (zinsert i (mk fu) (desc vq)) fu free /\ fu = head_of free fu.
Proof.
  intros Hf Hni Hn Hlt. destruct (free_at_lookup _ _ _ i Hf) as [d Hd]; [constructor|].
  destruct (get_unused_desc_ok _ _ _ _ Hf Hd Hn Hlt) as [Hg Hf'].
  exists (next d). split; [done|]. split; [by eapply zlookup_lt|]. split_and!.
  - intros vq' E. rewrite <- E in *. by rewrite (set_desc_ok _ _ _ _ Hd).
  - eapply free_at_frame; [|exact Hf']. intros j Hj.
    apply zlookup_zinsert_ne. by intros ->.
  - destruct free; [done|]. by destruct Hf'.
Qed.

Lemma add_rest_ok sgs : forall ids rest i out prev sg tl vq,
  length ids = length sgs ->
  drop (Z.to_nat i) sg = sgs ++ tl -> 0 <= i ->
  free_at (desc vq) (first_unused vq) (ids ++ rest) -> NoDup (ids ++ rest) ->
  num_unused vq = zlen (ids ++ rest) -> zlen (ids ++ rest) < 4294967296 ->
  exists ds fu,
    add_rest (length sgs) i out prev sg vq =
      Ok (List.last ids prev,
          vq <| desc := ds |> <| first_unused := fu |> <| num_unused := zlen rest |>) /\
    zlen ds = zlen (desc vq) /\ (forall j, j ∉ ids -> ds⟦j⟧ = (desc vq)⟦j⟧) /\
    open_at ds ids (segs_from out i sgs) fu /\ free_at ds fu rest /\
    first_unused vq = head_of ids fu /\ fu = head_of rest fu.
Proof.
  induction sgs as [|s sgs IH]; intros [|id ids] rest i out prev sg tl vq Hl Hd Hi Hf Hnd Hn Hlt;
    try done.
  - exists (desc vq), (first_unused vq). cbn in *. split_and!; try done.
    + rewrite <- Hn. by destruct vq.
    + destruct rest; [done|]. by destruct Hf.
  - cbn [length add_rest app] in *.
    apply list.NoDup_cons in Hnd as [Hni Hnd].
    destruct (zlookup_drop _ _ _ _ Hi Hd) as [Hs Hd'].
    set (fl := if i >=? out then _ else _).
    destruct (take_and_fill vq id (ids ++ rest) (mk_desc (physAddr s) (sg_length s) fl)
      Hf Hni Hn Hlt) as (fu & Hg & Hr & Hset & Hf' & Hfu).
    rewrite Hg. cbn. rewrite (zget_ok _ _ _ Hs). cbn. rewrite Hset by done. cbn.
    edestruct (IH ids rest (i + 1) out id sg tl) with
      (vq := vq <| first_unused := fu |> <| num_unused := zlen (ids ++ rest) |>
                <| desc := zinsert id (mk_desc (physAddr s) (sg_length s) fl fu) (desc vq) |>)
      as (ds & fu' & He & Hlen & Hfr & Hop & Hfree & Hh & Hh');
      [lia|done|lia|done|done|done|rewrite zlen_cons in Hlt; lia|].
    cbn [desc first_unused set_field] in *.
    exists ds, fu'. rewrite He. split_and!.
    + by rewrite <- (last_cons_default id prev ids).
    + by rewrite Hlen, zlen_zinsert.
    + intros j [Hj1 Hj2]%not_elem_of_cons. rewrite Hfr by done.
      by apply zlookup_zinsert_ne.
    + rewrite Hfr by (intros ?; apply Hni, elem_of_app; by left).
      rewrite zlookup_zinsert_eq by done. cbn in Hh. rewrite <- Hh.
      do 2 f_equal. unfold fl.
      destruct (Z.geb_spec i out), (Z.ltb_spec i out); try lia; done.
    + done.
    + done.
    + by destruct Hf.
    + done.
Qed.

Lemma clear_next_seg s nx :
  seg_ok s ->
  clear_next (mk_desc (seg_addr s) (seg_len s) (Z.lor VIRTQ_DESC_F_NEXT (seg_flags s)) nx) =
  mk_desc (seg_addr s) (seg_len s) (seg_flags s) nx.
Proof. unfold clear_next. by intros [->|[->| ->]]. Qed.

(** Clearing NEXT on the last descriptor of an open chain completes it. *)
Lemma close_chain ids : forall ds ss nx prev,
  ids <> [] -> open_at ds ids ss nx -> NoDup ids -> Forall seg_ok ss ->
  exists d, ds⟦List.last ids prev⟧ = Some d /\
    chain_at (zinsert (List.last ids prev) (clear_next d) ds) ids ss.
Proof.
  induction ids as [|i ids IH]; intros ds [|s ss] nx prev Hne Hop Hnd Hok; try done.
  destruct Hop as [Hd Hop]. apply list.NoDup_cons in Hnd as [Hni Hnd].
  apply list.Forall_cons in Hok as [Hs Hok]. rewrite last_cons_default.
  destruct ids as [|j ids].
  - destruct ss; [|done]. cbn in *. eexists. split; [done|]. exists nx.
    rewrite clear_next_seg by done. apply zlookup_zinsert_eq. by eapply zlookup_lt.
  - destruct (IH ds ss nx i) as (d & Hd' & Hc); try done.
    exists d. split; [done|]. split; [|done].
    rewrite zlookup_zinsert_ne; [done|]. intros E. apply Hni. rewrite <- E. clear.
    destruct (exists_last (l := j :: ids)) as (l' & x & ->); [done|].
    rewrite List.last_last. apply elem_of_app. right. constructor.
Qed.

Lemma DESC_INDEX_range num i :
  (exists k, 0 <= k <= 15 /\ num = 2 ^ k) -> 0 <= DESC_INDEX num i < num.
Proof.
  intros (k & Hk & ->). unfold DESC_INDEX. rewrite land_pow2_mod by lia.
  apply Z.mod_pos_bound. apply Z.pow_pos_nonneg; lia.
Qed.

Lemma wf_num_bound vq free live : split_wf vq free live -> 1 <= num vq <= 32768.
Proof.
  intros H. destruct (wf_num _ _ _ H) as (k & Hk & ->). split.
  - pose proof (Z.pow_pos_nonneg 2 k). lia.
  - change 32768 with (2 ^ 15). apply Z.pow_le_mono_r; lia.
Qed.

(** The frame of an operation that hands a buffer to the device. *)
Definition published (vq vq' : virtqueue_split) (h : Z) : Prop :=
  num vq' = num vq /\ vdev vq' = vdev vq /\ used vq' = used vq /\
  last_used vq' = last_used vq /\ master_flags vq' = master_flags vq /\
  master_idx vq' = u16 (master_idx vq + 1) /\
  av_flags (avail vq') = av_flags (avail vq) /\
  av_ring (avail vq') =
    zinsert (DESC_INDEX (num vq) (master_idx vq)) h (av_ring (avail vq)) /\
  av_idx (avail vq') = u16 (master_idx vq + 1) /\
  num_added_since_kick vq' = u32 (num_added_since_kick vq + 1).

(** Operations on the free list and the descriptors leave the rest alone. *)
Definition same_frame (vq vq' : virtqueue_split) : Prop :=
  vdev vq' = vdev vq /\ num vq' = num vq /\ avail vq' = avail vq /\ used vq' = used vq /\
  master_flags vq' = master_flags vq /\ master_idx vq' = master_idx vq /\
  num_added_since_kick vq' = num_added_since_kick vq /\ last_used vq' = last_used vq /\
  opaque vq' = opaque vq.

Lemma publish_ok vq idx :
  (exists k, 0 <= k <= 15 /\ num vq = 2 ^ k) -> zlen (av_ring (avail vq)) = num vq + 1 ->
  exists vq', publish vq idx = Ok vq' /\ published vq vq' idx /\
    desc vq' = desc vq /\ opaque vq' = opaque vq /\
    num_unused vq' = num_unused vq /\ first_unused vq' = first_unused vq.
Proof.
  intros Hn Hl. pose proof (DESC_INDEX_range _ (master_idx vq) Hn).
  unfold publish. rewrite zset_ok by lia. cbn. eexists. split; [done|].
  unfold published. cbn. done.
Qed.

(** A partition of the descriptors: no index is in two places. *)
Lemma wf_nodup vq free live :
  split_wf vq free live -> NoDup (free ++ mjoin (ch_ids <$> live)).
Proof. intros H. rewrite (wf_part _ _ _ H). apply NoDup_seqZ. Qed.

Lemma wf_live_ids vq free live c i :
  split_wf vq free live -> c ∈ live -> i ∈ ch_ids c -> (i ∉ free) /\ 0 <= i < num vq.
Proof.
  intros H Hc Hi.
  assert (i ∈ mjoin (ch_ids <$> live)) as Hin.
  { apply list_elem_of_join. exists (ch_ids c). split; [done|].
    apply list_elem_of_fmap. eauto. }
  split.
  - pose proof (wf_nodup _ _ _ H) as Hnd. apply list.NoDup_app in Hnd as (_ & Hd & _).
    intros Hf. by apply (Hd i).
  - apply (elem_of_seqZ 0 (num vq)). rewrite <- (wf_part _ _ _ H).
    apply elem_of_app. by right.
Qed.

Lemma wf_free_ids vq free live i : split_wf vq free live -> i ∈ free -> 0 <= i < num vq.
Proof.
  intros H Hi. apply (elem_of_seqZ 0 (num vq)). rewrite <- (wf_part _ _ _ H).
  apply elem_of_app. by left.
Qed.

Lemma wf_free_len vq free live : split_wf vq free live -> zlen free <= num vq.
Proof.
  intros H. pose proof (Permutation_length (wf_part _ _ _ H)) as Hl.
  rewrite length_app, length_seqZ in Hl. pose proof (wf_num_bound _ _ _ H).
  unfold zlen. lia.
Qed.

Lemma segs_from_ok out i sg : Forall seg_ok (segs_from out i sg).
Proof.
  revert i. induction sg as [|s sg IH]; intros i; constructor; [|apply IH].
  unfold seg_ok. cbn. destruct (i <? out); auto.
Qed.

Lemma length_segs_from out i sg : length (segs_from out i sg) = length sg.
Proof. revert i. induction sg as [|s sg IH]; intros i; cbn; auto. Qed.

(** Handing the first descriptors of the free list to the device: the shape
    shared by the direct and the indirect branch of [virtqueue_add_buf_split].
    [ids] leave the free list, and only they and the opaque slot of the head
    change. *)
Lemma split_wf_give vq vq' h tl rest live ss opq :
  split_wf vq ((h :: tl) ++ rest) live ->
  opq <> 0 -> Forall seg_ok ss ->
  num vq' = num vq -> zlen (desc vq') = zlen (desc vq) ->
  (forall j, j ∉ h :: tl -> (desc vq')⟦j⟧ = (desc vq)⟦j⟧) ->
  opaque vq' = zinsert h opq (opaque vq) ->
  zlen (av_ring (avail vq')) = num vq + 1 -> used vq' = used vq ->
  0 <= master_idx vq' < 65536 -> last_used vq' = last_used vq ->
  av_idx (avail vq') = master_idx vq' -> num_unused vq' = zlen rest ->
  free_at (desc vq') (first_unused vq') rest ->
  chain_at (desc vq') (h :: tl) ss ->
  split_wf vq' rest (mk_chain (h :: tl) ss opq :: live).
Proof.
  intros H Ho Hss Hn Hdl Hfr Hop Hal Hu Hm Hl Hav Hnu Hfree Hc.
  pose proof (wf_free_ids _ _ _ h H ltac:(constructor)) as Hh.
  pose proof (wf_opaque _ _ _ H) as Hol.
  assert (Hni : forall c i, c ∈ live -> i ∈ ch_ids c -> i ∉ h :: tl).
  { intros c i Hc' Hi Hin. destruct (wf_live_ids _ _ _ c i H Hc' Hi) as [Hx _].
    apply Hx, elem_of_app. by left. }
  assert (Hhead : forall c, c ∈ live -> ch_head c ∈ ch_ids c).
  { intros c Hc'. pose proof (wf_live _ _ _ H) as Hf. rewrite list.Forall_forall in Hf.
    destruct (Hf c Hc') as [Hca _]. unfold ch_head.
    destruct (ch_ids c); [done|constructor]. }
  constructor; rewrite ?Hn, ?Hu, ?Hl; try apply H; try done.
  - rewrite Hdl. apply H.
  - rewrite Hop, zlen_zinsert. apply H.
  - cbn. rewrite <- (wf_part _ _ _ H). solve_Permutation.
  - constructor.
    + cbn. split_and!; try done. rewrite Hop. apply zlookup_zinsert_eq. lia.
    + pose proof (wf_live _ _ _ H) as Hf. rewrite list.Forall_forall in *.
      intros c Hc'. destruct (Hf c Hc') as (H1 & H2 & H3 & H4). split_and!; try done.
      * eapply chain_at_frame; [|done]. intros i Hi. apply Hfr. by eapply Hni.
      * rewrite Hop, zlookup_zinsert_ne; [done|].
        intros ->. eapply (Hni c); eauto. constructor.
  - intros i Hi [Hne Hnin]%not_elem_of_cons.
    rewrite Hop, zlookup_zinsert_ne by (intros E; by apply Hne). by apply H.
Qed.

(** The direct branch after its first descriptor [h] has been filled: the loop
    and the clearing of NEXT leave the complete chain in memory. *)
Lemma rest_and_close vq h tl rest s sgs sg out ds0 fl :
  fl = (if out =? 0 then Z.lor VIRTQ_DESC_F_NEXT VIRTQ_DESC_F_WRITE else VIRTQ_DESC_F_NEXT) ->
  desc vq = zinsert h (mk_desc (physAddr s) (sg_length s) fl (first_unused vq)) ds0 ->
  0 <= out -> 0 <= h < zlen ds0 -> length tl = length sgs -> (exists sg', sg = sgs ++ sg') ->
  free_at (desc vq) (first_unused vq) (tl ++ rest) -> NoDup (h :: tl ++ rest) ->
  num_unused vq = zlen (tl ++ rest) -> zlen (tl ++ rest) < 4294967296 ->
  exists vq2 vq3,
    add_rest (length sgs) 1 out h (s :: sg) vq = Ok (List.last tl h, vq2) /\
    set_desc vq2 (List.last tl h) clear_next = Ok vq3 /\
    same_frame vq vq3 /\ num_unused vq3 = zlen rest /\
    zlen (desc vq3) = zlen ds0 /\ (forall j, j ∉ h :: tl -> (desc vq3)⟦j⟧ = ds0⟦j⟧) /\
    chain_at (desc vq3) (h :: tl) (segs_from out 0 (s :: sgs)) /\
    free_at (desc vq3) (first_unused vq3) rest.
Proof.
  intros -> Hds Hout Hh Hl [sg' ->] Hf [Hni Hnd]%list.NoDup_cons Hn Hlt.
  destruct (add_rest_ok sgs tl rest 1 out h (s :: sgs ++ sg') sg' vq)
    as (ds & fu & He & Hlen & Hfr & Hop & Hfree & Hhd & _); try done.
  assert (Hhtl : h ∉ tl) by (intros ?; apply Hni, elem_of_app; by left).
  assert (Hopen : open_at ds (h :: tl) (segs_from out 0 (s :: sgs)) fu).
  { split; [|done]. rewrite Hfr, Hds, zlookup_zinsert_eq by done. cbn. rewrite <- Hhd.
    do 2 f_equal. destruct (Z.eqb_spec out 0), (Z.ltb_spec 0 out); done || lia. }
  pose proof Hnd as (Hndt & Hdis & _)%list.NoDup_app.
  destruct (close_chain (h :: tl) ds _ _ h ltac:(done) Hopen) as (d & Hd & Hca).
  { by constructor. }
  { apply segs_from_ok. }
  rewrite last_cons_default in Hd, Hca. pose proof (last_elem_of h tl) as Hlast.
  eexists _, _. split; [exact He|]. split; [by apply set_desc_ok|]. cbn.
  split; [by unfold same_frame|]. split; [done|]. split_and!; try done.
  - by rewrite zlen_zinsert, Hlen, Hds, zlen_zinsert.
  - intros j [Hj1 Hj2]%not_elem_of_cons.
    rewrite zlookup_zinsert_ne by (intros E; rewrite E in Hlast; by apply elem_of_cons in Hlast as []).
    rewrite Hfr, Hds, zlookup_zinsert_ne by done. done.
  - eapply free_at_frame; [|exact Hfree]. intros j Hj. apply zlookup_zinsert_ne.
    intros E. rewrite E in Hlast.
    apply elem_of_cons in Hlast as [->|Hin]; [|by eapply Hdis].
    apply Hni. apply elem_of_app. by right.
Qed.

Lemma add_direct_ok vq free live sg out total opq va :
  split_wf vq free live -> opq <> 0 ->
  0 <= out -> 1 <= total <= zlen free -> total <= zlen sg ->
  exists vq',
    add_direct vq sg out total opq va = Ok (VQ_ADD_BUFFER_SUCCESS, va, vq') /\
    split_wf vq' (drop (Z.to_nat total) free)
      (mk_chain (take (Z.to_nat total) free)
         (segs_from out 0 (take (Z.to_nat total) sg)) opq :: live) /\
    published vq vq' (head_of free (-1)).
Proof.
  intros H Ho Hout Ht Hsg. pose proof (wf_free_len _ _ _ H). pose proof (wf_num_bound _ _ _ H).
  destruct (Z.to_nat total) as [|n] eqn:En; [lia|]. unfold zlen in Ht, Hsg.
  destruct free as [|h free]; [cbn in *; lia|]. destruct sg as [|s sg]; [cbn in *; lia|].
  cbn [take drop length] in *.
  rewrite <- (take_drop n free) in H. set (tl := take n free) in *. set (rest := drop n free) in *.
  assert (Htr : tl ++ rest = free) by apply take_drop.
  pose proof (wf_nodup _ _ _ H) as (Hnd & _ & _)%list.NoDup_app.
  pose proof (wf_free _ _ _ H) as Hf. pose proof (wf_unused _ _ _ H) as Hu.
  rewrite zlen_cons in *. unfold add_direct.
  replace (total >? num_unused vq) with false by (unfold zlen in *; rewrite Htr in *; lia).
  set (fl := if out =? 0 then _ else _).
  destruct (take_and_fill vq h (tl ++ rest) (mk_desc (physAddr s) (sg_length s) fl))
    as (fu & Hg & Hr & Hset & Hf' & _); rewrite ?zlen_cons; try done; [..|].
  { by apply list.NoDup_cons in Hnd as []. }
  { rewrite Htr. lia. }
  pose proof (wf_opaque _ _ _ H) as Hol. pose proof (wf_desc _ _ _ H) as Hdl.
  rewrite Hg. cbn -[add_rest]. rewrite zset_ok by lia. cbn -[add_rest].
  change (zget (s :: sg) 0) with (Ok s). cbn -[add_rest]. rewrite Hset by done. cbn -[add_rest].
  replace (Z.to_nat (total - 1)) with (length (take n sg)) by (rewrite length_take; lia).
  match goal with |- context [add_rest _ _ _ _ _ ?v] =>
    destruct (rest_and_close v h tl rest s (take n sg) sg out (desc vq) fl)
      as (vq2 & vq3 & He & Hs & Hfrm & Hnu & Hlen & Hfr & Hca & Hfree) end; try done.
  { unfold tl. rewrite !length_take. lia. }
  { exists (drop n sg). symmetry. apply take_drop. }
  { rewrite Htr. lia. }
  rewrite He. cbn. rewrite Hs. cbn.
  destruct Hfrm as (F1 & F2 & F3 & F4 & F5 & F6 & F7 & F8 & F9). cbn in *.
  destruct (publish_ok vq3 h) as (vq4 & Hp & Hpub & P1 & P2 & P3 & P4).
  { rewrite F2. apply H. }
  { rewrite F2, F3. apply H. }
  rewrite Hp. cbn. exists vq4. unfold published in *. rewrite F1, F2, F3, F4, F5, F6, F7, F8 in Hpub.
  split; [done|]. split; [|done]. destruct_and! Hpub.
  eapply (split_wf_give vq); try apply H; rewrite ?P1, ?P2, ?P3, ?P4; try done.
  - apply (segs_from_ok _ 0 (s :: _)).
  - match goal with E : av_ring (avail vq4) = _ |- _ => rewrite E end.
    rewrite zlen_zinsert. apply H.
  - match goal with E : master_idx vq4 = _ |- _ => rewrite E end. apply u16_range.
  - congruence.
Qed.

(** ** The indirect table *)

Lemma fill_indirect_ok sgs : forall i out sg tl tbl,
  drop (Z.to_nat i) sg = sgs ++ tl -> 0 <= i -> 0 <= out ->
  i + zlen sgs <= zlen tbl -> i + zlen sgs <= 65535 ->
  exists tbl', fill_indirect (length sgs) i out sg tbl = Ok tbl' /\
    zlen tbl' = zlen tbl /\ (forall j, j < i -> tbl'⟦j⟧ = tbl⟦j⟧) /\
    open_at tbl' (seqZ i (zlen sgs)) (segs_from out i sgs) (i + zlen sgs).
Proof.
  induction sgs as [|s sgs IH]; intros i out sg tl tbl Hd Hi Hout Hl Hlt.
  - exists tbl. done.
  - destruct (zlookup_drop _ _ _ _ Hi Hd) as [Hs Hd']. rewrite zlen_cons in Hl, Hlt.
    pose proof (zlen_nonneg sgs). cbn [length fill_indirect].
    rewrite (zget_ok _ _ _ Hs). cbn. rewrite zset_ok by lia. cbn.
    match goal with |- context [fill_indirect _ _ _ _ ?t] =>
      destruct (IH (i + 1) out sg tl t) as (tbl' & He & Hlen & Hfr & Hop) end;
      rewrite ?zlen_zinsert; try done; try lia.
    exists tbl'. rewrite He. split; [done|]. split; [by rewrite Hlen, zlen_zinsert|]. split.
    + intros j Hj. rewrite Hfr, zlookup_zinsert_ne by lia. done.
    + unfold zlen in *. rewrite length_cons, seqZ_cons'. cbn [open_at segs_from].
      replace (i + Z.of_nat (S (length sgs))) with (i + 1 + Z.of_nat (length sgs)) by lia.
      split; [|done].
      rewrite Hfr, zlookup_zinsert_eq by (unfold zlen; lia). do 2 f_equal.
      * rewrite Z.lor_comm. done.
      * rewrite (u16_small i), u16_small by lia.
        destruct (length sgs) as [|m] eqn:E; [unfold head_of; simpl; lia|]. by rewrite seqZ_cons'.
Qed.

(** The indirect table as the device reads it: a chain over entries 0, 1, ... *)
Lemma indirect_table_ok sg out total tbl :
  0 <= out -> 1 <= total <= 65535 -> total <= zlen sg -> total <= zlen tbl ->
  exists tbl0 d tbl1,
    fill_indirect (Z.to_nat total) 0 out sg tbl = Ok tbl0 /\
    zget tbl0 (total - 1) = Ok d /\ zset tbl0 (total - 1) (clear_next d) = Ok tbl1 /\
    zlen tbl1 = zlen tbl /\
    chain_at tbl1 (seqZ 0 total) (segs_from out 0 (take (Z.to_nat total) sg)).
Proof.
  intros Hout Ht Hsg Htbl.
  assert (Hlt : length (take (Z.to_nat total) sg) = Z.to_nat total).
  { rewrite length_take. unfold zlen in *. lia. }
  destruct (fill_indirect_ok (take (Z.to_nat total) sg) 0 out sg (drop (Z.to_nat total) sg) tbl)
    as (tbl0 & He & Hlen & _ & Hop); unfold zlen in *; try lia.
  { by rewrite take_drop. }
  rewrite Hlt, Z2Nat.id in * by lia.
  assert (Hs : seqZ 0 total = seqZ 0 (Z.of_nat (S (Z.to_nat (total - 1)))))
    by (f_equal; lia).
  destruct (fun Hne => close_chain (seqZ 0 total) tbl0 _ _ 0 Hne Hop) as (d & Hd & Hc).
  { rewrite Hs, seqZ_cons'. done. }
  { apply NoDup_seqZ. }
  { apply segs_from_ok. }
  rewrite Hs, last_seqZ, <- Hs in *. replace (0 + Z.of_nat (Z.to_nat (total - 1))) with (total - 1) in * by lia.
  exists tbl0, d, (zinsert (total - 1) (clear_next d) tbl0). split_and!; try done.
  - by apply zget_ok.
  - apply zset_ok. by eapply zlookup_lt.
  - pose proof (zlen_zinsert tbl0 (total - 1) (clear_next d)). unfold zlen in *. lia.
Qed.

(** ** Reclaiming a chain *)

Lemma skip_chain_ok ids : forall ss fuel vq,
  chain_at (desc vq) ids ss -> Forall seg_ok ss -> (length ids <= S fuel)%nat ->
  0 <= num_unused vq -> num_unused vq + zlen ids < 4294967296 ->
  skip_chain fuel vq (head_of ids (-1)) =
  Ok (List.last ids (-1), vq <| num_unused := num_unused vq + (zlen ids - 1) |>).
Proof.
  induction ids as [|i ids IH]; intros [|s ss] fuel vq Hc Hok Hl H0 Hlt; try done;
    [by destruct ids|].
  apply list.Forall_cons in Hok as [Hs Hok]. rewrite zlen_cons in Hlt.
  pose proof (zlen_nonneg ids). change (head_of (i :: ids) (-1)) with i.
  destruct ids as [|j ids].
  - destruct ss; [|done]. destruct Hc as [nx Hd].
    assert (Hn : truth (Z.land (seg_flags s) VIRTQ_DESC_F_NEXT) = false)
      by (destruct Hs as [->|[->| ->]]; done).
    destruct fuel; cbn [skip_chain]; rewrite (zget_ok _ _ _ Hd); cbn; rewrite Hn;
      rewrite Z.add_0_r; by destruct vq.
  - destruct Hc as [Hd Hc]. cbn [length] in Hl. destruct fuel as [|fuel]; [lia|].
    cbn [skip_chain].
    rewrite (zget_ok _ _ _ Hd). cbn [mbind res_bind flags next].
    replace (truth _) with true by (by destruct Hs as [->|[->| ->]]).
    rewrite zlen_cons in *. pose proof (zlen_nonneg ids).
    change j with (head_of (j :: ids) (-1)) at 1.
    rewrite IH with (ss := ss); try done; cbn; rewrite ?u32_small; try lia.
    rewrite zlen_cons. replace (num_unused vq + 1 + (zlen ids + 1 - 1))
        with (num_unused vq + (zlen ids + 1 + 1 - 1)) by lia. done.
Qed.

Lemma free_at_reclaim ids : forall ds ss fu free d,
  chain_at ds ids ss -> NoDup (ids ++ free) -> free_at ds fu free ->
  ds⟦List.last ids (-1)⟧ = Some d ->
  free_at (zinsert (List.last ids (-1)) (d <| flags := VIRTQ_DESC_F_NEXT |> <| next := fu |>) ds)
    (head_of ids (-1)) (ids ++ free).
Proof.
  induction ids as [|i ids IH]; intros ds [|s ss] fu free d Hc Hnd Hf Hd; try done;
    [by destruct ids|].
  cbn [app] in Hnd. apply list.NoDup_cons in Hnd as [Hni Hnd].
  rewrite last_cons_default in *. destruct ids as [|j ids].
  - cbn in *. split; [done|]. eexists. split; [apply zlookup_zinsert_eq; by eapply zlookup_lt|].
    cbn. eapply free_at_frame; [|done]. intros k Hk. apply zlookup_zinsert_ne. by intros ->.
  - destruct Hc as [Hdi Hc]. cbn [app free_at]. split; [done|].
    rewrite last_cons_default in Hd. rewrite last_cons_default.
    exists (mk_desc (seg_addr s) (seg_len s) (Z.lor VIRTQ_DESC_F_NEXT (seg_flags s)) j). split.
    + rewrite zlookup_zinsert_ne; [done|]. intros E. apply Hni. rewrite <- E.
      apply elem_of_app. left. apply last_elem_of.
    + cbn [next]. rewrite <- (last_cons_default j (-1)) in Hd |- *.
      apply (IH _ ss); done.
Qed.

Lemma chain_at_last ds ids ss :
  chain_at ds ids ss -> exists d, ds⟦List.last ids (-1)⟧ = Some d.
Proof.
  revert ss. induction ids as [|i [|j ids] IH]; intros [|s ss]; try done.
  - destruct ss; [|done]. intros [nx Hd]. eauto.
  - intros [_ H]. exact (IH _ H).
Qed.

#[export] Instance split_wf_perm vq free : Proper ((≡ₚ) ==> iff) (split_wf vq free).
Proof.
  assert (Himp : forall l l', l ≡ₚ l' -> split_wf vq free l -> split_wf vq free l').
  { intros l l' E H. constructor; try apply H.
    - rewrite <- E. apply H.
    - rewrite <- E. apply H.
    - intros i Hi Hn. apply H; [done|]. by rewrite E. }
  intros l l' E. split; apply Himp; [done|by symmetry].
Qed.

(** Everything [put_unused_desc_chain] leaves alone. *)
Definition reclaimed (vq vq' : virtqueue_split) : Prop :=
  vdev vq' = vdev vq /\ num vq' = num vq /\ avail vq' = avail vq /\ used vq' = used vq /\
  master_flags vq' = master_flags vq /\ master_idx vq' = master_idx vq /\
  num_added_since_kick vq' = num_added_since_kick vq /\ last_used vq' = last_used vq.

Lemma chain_at_head c ds : chain_at ds (ch_ids c) (ch_segs c) -> ch_head c ∈ ch_ids c.
Proof. unfold ch_head. destruct (ch_ids c); [done|]. constructor. Qed.

(** The converse of [split_wf_give]: a live buffer goes back to the free list. *)
Lemma split_wf_take vq vq' free live c :
  split_wf vq free (c :: live) -> reclaimed vq vq' ->
  zlen (desc vq') = zlen (desc vq) ->
  (forall j, j ∉ ch_ids c -> (desc vq')⟦j⟧ = (desc vq)⟦j⟧) ->
  opaque vq' = zinsert (ch_head c) 0 (opaque vq) ->
  num_unused vq' = zlen (ch_ids c ++ free) ->
  free_at (desc vq') (first_unused vq') (ch_ids c ++ free) ->
  split_wf vq' (ch_ids c ++ free) live.
Proof.
  intros H (_ & Rn & Ra & Ru & _ & Rm & _ & Rl) Hdl Hfr Hop Hnu Hf.
  pose proof (wf_live _ _ _ H) as ((Hc & _ & _ & Ho) & Hlive)%list.Forall_cons.
  pose proof (wf_nodup _ _ _ H) as Hnd. cbn in Hnd.
  apply list.NoDup_app in Hnd as (_ & _ & (_ & Hdis & _)%list.NoDup_app).
  assert (Hni : forall c' i, c' ∈ live -> i ∈ ch_ids c' -> i ∉ ch_ids c).
  { intros c' i Hc' Hi Hin. apply (Hdis i Hin), list_elem_of_join.
    exists (ch_ids c'). split; [done|]. apply list_elem_of_fmap. eauto. }
  constructor; rewrite ?Rn, ?Ra, ?Ru, ?Rm, ?Rl; try apply H; try done.
  - rewrite Hdl. apply H.
  - rewrite Hop, zlen_zinsert. apply H.
  - rewrite <- (wf_part _ _ _ H). cbn. solve_Permutation.
  - rewrite list.Forall_forall in *. intros c' Hc'.
    destruct (Hlive c' Hc') as (H1 & H2 & H3 & H4). split_and!; try done.
    + eapply chain_at_frame; [|done]. intros i Hi. apply Hfr. by eapply Hni.
    + rewrite Hop, zlookup_zinsert_ne; [done|]. intros E.
      apply (Hni c' (ch_head c')); [done|by eapply chain_at_head|].
      rewrite <- E. by eapply chain_at_head.
  - intros i Hi Hn. rewrite Hop. destruct (decide (ch_head c = i)) as [<-|Hne].
    + apply zlookup_zinsert_eq. rewrite (wf_opaque _ _ _ H). done.
    + rewrite zlookup_zinsert_ne by done. apply H; [done|]. by apply not_elem_of_cons.
Qed.

(** Reclaiming the chain of a live buffer terminates and moves its descriptors,
    in chain order, to the front of the free list. *)
Lemma put_unused_desc_chain_ok vq free live c :
  split_wf vq free (c :: live) ->
  exists vq', put_unused_desc_chain vq (ch_head c) = Ok vq' /\
    split_wf vq' (ch_ids c ++ free) live /\ reclaimed vq vq'.
Proof.
  intros H. pose proof (wf_nodup _ _ _ H) as Hnd. pose proof (wf_num_bound _ _ _ H) as Hnb.
  pose proof (wf_live _ _ _ H) as ((Hc & Hok & _ & Ho) & Hlive)%list.Forall_cons.
  assert (Hlen : zlen free + zlen (ch_ids c) <= num vq).
  { pose proof (Permutation_length (wf_part _ _ _ H)) as Hl. cbn in Hl.
    rewrite !length_app, length_seqZ in Hl. unfold zlen. lia. }
  assert (Hnd' : NoDup (ch_ids c ++ free)).
  { cbn in Hnd. rewrite app_assoc in Hnd. apply list.NoDup_app in Hnd as (Hnd & _ & _).
    by rewrite Permutation_app_comm. }
  pose proof (wf_unused _ _ _ H) as Hu. pose proof (wf_desc _ _ _ H) as Hdl.
  pose proof (zlen_nonneg free). pose proof (zlen_nonneg (ch_ids c)).
  destruct (chain_at_last _ _ _ Hc) as [d Hd].
  unfold put_unused_desc_chain. rewrite zset_ok by (by eapply zlookup_lt). cbn -[skip_chain].
  change (ch_head c) with (head_of (ch_ids c) (-1)).
  rewrite (skip_chain_ok _ (ch_segs c)); cbn; try done; unfold zlen in *; try lia.
  erewrite set_desc_ok by exact Hd. cbn. rewrite u32_small by lia.
  eexists. split; [done|]. split; [|by unfold reclaimed].
  eapply split_wf_take; [done|by unfold reclaimed|..]; cbn; try done.
  - apply zlen_zinsert.
  - intros j Hj. apply zlookup_zinsert_ne. intros E. apply Hj. rewrite <- E.
    destruct (ch_ids c) as [|i ids]; [done|]. rewrite last_cons_default. apply last_elem_of.
  - unfold zlen. rewrite length_app. lia.
  - apply (free_at_reclaim _ _ (ch_segs c)); try done. apply H.
Qed.

(** ** The operations *)

(** Filling one free descriptor as an indirect one. *)
Lemma add_indirect_ok vq h rest live opq phys total :
  split_wf vq (h :: rest) live -> opq <> 0 -> 0 <= total <= 65535 ->
  exists vq1 vq2 vq',
    get_unused_desc vq = Ok (h, vq1) /\
    set_desc vq1 h (fun d => d <| flags := VIRTQ_DESC_F_INDIRECT |> <| addr := phys |>
                               <| len := u32 (total * sizeof_vring_desc) |>) = Ok vq2 /\
    zset (opaque vq2) h opq = Ok (zinsert h opq (opaque vq)) /\
    publish (vq2 <| opaque := zinsert h opq (opaque vq) |>) h = Ok vq' /\
    split_wf vq' rest (mk_chain [h] [mk_seg phys (total * 16) VIRTQ_DESC_F_INDIRECT] opq :: live) /\
    published vq vq' h.
Proof.
  intros H Ho Ht. pose proof (wf_num_bound _ _ _ H). pose proof (wf_free_len _ _ _ H).
  pose proof (wf_free_ids _ _ _ h H ltac:(constructor)) as Hh.
  pose proof (wf_opaque _ _ _ H) as Hol. pose proof (wf_desc _ _ _ H) as Hdl.
  pose proof (wf_free _ _ _ H) as Hf. pose proof (wf_unused _ _ _ H) as Hu.
  pose proof (wf_nodup _ _ _ H) as (Hnd & _ & _)%list.NoDup_app.
  apply list.NoDup_cons in Hnd as [Hni _].
  destruct (free_at_lookup _ _ _ h Hf) as [d Hd]; [constructor|].
  destruct (get_unused_desc_ok _ _ _ _ Hf Hd Hu) as [Hg Hf']; [lia|].
  set (d' := mk_desc phys (total * 16) VIRTQ_DESC_F_INDIRECT (next d)).
  match type of Hg with _ = Ok (_, ?v) =>
    destruct (publish_ok (v <| desc := zinsert h d' (desc vq) |>
                            <| opaque := zinsert h opq (opaque vq) |>) h)
      as (vq' & Hp & Hpub & P1 & P2 & P3 & P4); [apply H..|] end.
  eexists _, _, vq'. split; [exact Hg|]. split; [apply set_desc_ok; exact Hd|].
  split; [apply zset_ok; cbn; lia|]. unfold sizeof_vring_desc.
  cbn in *. rewrite u32_small by lia. split; [exact Hp|].
  split; [|unfold published in *; cbn in Hpub; done].
  unfold published in Hpub. destruct_and! Hpub. cbn in *.
  eapply (split_wf_give vq vq' h []); try apply H;
    rewrite ?P1, ?P2, ?P3, ?P4; cbn; rewrite ?zlen_zinsert; try done.
  - constructor; [right; by right|constructor].
  - intros j [Hj _]%not_elem_of_cons. by rewrite zlookup_zinsert_ne.
  - match goal with E : av_ring (avail vq') = _ |- _ => rewrite E end.
    rewrite zlen_zinsert. apply H.
  - match goal with E : master_idx vq' = _ |- _ => rewrite E end. apply u16_range.
  - congruence.
  - eapply free_at_frame; [|exact Hf']. intros j Hj. apply zlookup_zinsert_ne. by intros ->.
  - exists (next d). apply zlookup_zinsert_eq. lia.
Qed.

(** [virtqueue_add_buf_split] on a well-formed queue never faults.
    With an indirect page, more than one element and a free descriptor it uses
    one descriptor and leaves in the page a chain over entries 0, 1, ... that is
    the caller's list; otherwise, when enough descriptors are free, it uses one
    per element, and the chain the device finds at the published head is the
    caller's list, the first [out] elements device-readable and the others
    device-writable; otherwise it returns [-ENOSPC] and changes nothing.  All
    buffers already owned by the device keep their chains. *)
Lemma add_buf_split_ok vq free live sg out in_ opq va phys :
  split_wf vq free live -> opq <> 0 -> 0 <= out -> 0 <= in_ ->
  1 <= out + in_ <= 65535 -> out + in_ <= zlen sg ->
  (forall tbl, va = Some tbl -> out + in_ <= zlen tbl) ->
  let n := out + in_ in
  let segs := segs_from out 0 (take (Z.to_nat n) sg) in
  let r := virtqueue_add_buf_split vq sg out in_ opq va phys in
  if bool_decide (is_Some va) && (n >? 1) && (zlen free >? 0) then
    exists tbl' vq', r = Ok (VQ_ADD_BUFFER_SUCCESS, Some tbl', vq') /\
      chain_at tbl' (seqZ 0 n) segs /\ published vq vq' (head_of free (-1)) /\
      split_wf vq' (drop 1 free)
        (mk_chain (take 1 free) [mk_seg phys (n * 16) VIRTQ_DESC_F_INDIRECT] opq :: live)
  else if n <=? zlen free then
    exists vq', r = Ok (VQ_ADD_BUFFER_SUCCESS, va, vq') /\
      published vq vq' (head_of free (-1)) /\
      split_wf vq' (drop (Z.to_nat n) free)
        (mk_chain (take (Z.to_nat n) free) segs opq :: live)
  else r = Ok (- ENOSPC, va, vq).
Proof.
  intros H Ho Hout Hin Hn Hsg Hva n segs r.
  assert (Hdir : if n <=? zlen free then
      exists vq', add_direct vq sg out n opq va = Ok (VQ_ADD_BUFFER_SUCCESS, va, vq') /\
        published vq vq' (head_of free (-1)) /\
        split_wf vq' (drop (Z.to_nat n) free)
          (mk_chain (take (Z.to_nat n) free) segs opq :: live)
    else add_direct vq sg out n opq va = Ok (- ENOSPC, va, vq)).
  { destruct (Z.leb_spec n (zlen free)).
    - destruct (add_direct_ok vq free live sg out n opq va) as (vq' & ? & ? & ?); eauto; lia.
    - unfold add_direct. rewrite (wf_unused _ _ _ H).
      replace (n >? zlen free) with true by lia. done. }
  unfold r, virtqueue_add_buf_split. rewrite u32_small by lia. fold n.
  assert (En : n = out + in_) by done. clearbody n. rewrite <- En in *. clear En.
  destruct va as [tbl|]; [|done].
  rewrite (wf_unused _ _ _ H). cbn [bool_decide is_Some]. rewrite bool_decide_true by eauto.
  cbn [andb]. destruct ((n >? 1) && (zlen free >? 0)) eqn:E; [|done].
  destruct free as [|h rest]; [rewrite zlen_nil in E; lia|].
  destruct (indirect_table_ok sg out n tbl) as (t0 & d & t1 & E1 & E2 & E3 & _ & Hc); auto;
    [lia..|].
  destruct (add_indirect_ok vq h rest live opq phys n) as (v1 & v2 & v' & G1 & G2 & G3 & G4 & W & P);
    [done..|lia|].
  rewrite E1. cbn. rewrite E2. cbn. rewrite E3. cbn. rewrite G1. cbn. rewrite G2. cbn.
  rewrite G3. cbn. rewrite G4. cbn. eauto 10.
Qed.

(** What the device reads at head [i]: the elements of the chain, following NEXT. *)
Fixpoint read_chain (fuel : nat) (ds : list vring_desc) (i : Z) : option (list seg) :=
  match fuel with
  | O => None
  | S fuel =>
      d ← ds⟦i⟧;
      let s := mk_seg (addr d) (len d) (Z.land (flags d) (Z.lnot VIRTQ_DESC_F_NEXT)) in
      if truth (Z.land (flags d) VIRTQ_DESC_F_NEXT)
      then cons s <$> read_chain fuel ds (next d) else Some [s]
  end.

Lemma chain_at_read ds ids : forall ss fuel,
  chain_at ds ids ss -> Forall seg_ok ss -> (length ids <= fuel)%nat ->
  read_chain fuel ds (head_of ids (-1)) = Some ss.
Proof.
  induction ids as [|i ids IH]; intros [|[a l f] ss] fuel Hc Hok Hl; try done; [by destruct ids|].
  apply list.Forall_cons in Hok as [Hs Hok]. destruct fuel as [|fuel]; [cbn in Hl; lia|].
  change (head_of (i :: ids) (-1)) with i. cbn [read_chain].
  destruct ids as [|j ids].
  - destruct ss; [|done]. destruct Hc as [nx ->]. cbn. unfold seg_ok in Hs. cbn in Hs.
    by destruct Hs as [->|[->| ->]].
  - destruct Hc as [-> Hc]. cbn [mbind option_bind flags next addr len seg_addr seg_len seg_flags].
    specialize (IH _ fuel Hc Hok ltac:(cbn in *; lia)).
    change (head_of (j :: ids) (-1)) with j in IH. rewrite IH.
    unfold seg_ok in Hs. cbn in Hs. by destruct Hs as [->|[->| ->]].
Qed.

Lemma wf_read vq free live c :
  split_wf vq free live -> c ∈ live ->
  read_chain (length (desc vq)) (desc vq) (ch_head c) = Some (ch_segs c).
Proof.
  intros H Hc. pose proof (wf_live _ _ _ H) as Hl. rewrite list.Forall_forall in Hl.
  destruct (Hl c Hc) as (Hca & Hok & _). apply chain_at_read; [done..|].
  apply elem_of_Permutation in Hc as [live' Hp]. rewrite Hp in H.
  pose proof (Permutation_length (wf_part _ _ _ H)) as Hlen. cbn in Hlen.
  rewrite !length_app, length_seqZ in Hlen. pose proof (wf_desc _ _ _ H).
  unfold zlen in *. lia.
Qed.

(** Claim C11. After a successful [virtqueue_add_buf_split] a device that reads
    the head published in the available ring finds exactly the caller's
    scatter-gather list, the first [out] elements device-readable and the rest
    device-writable (directly, or through one INDIRECT descriptor and the chain
    in the indirect page), and every buffer it already owned reads as before; the
    only other outcome is [-ENOSPC] with nothing changed, when more descriptors
    are needed than are free. *)
Theorem virtqueue_add_buf_split_readable vq free live sg out in_ opq va phys :
  split_wf vq free live -> opq <> 0 -> 0 <= out -> 0 <= in_ ->
  1 <= out + in_ <= 65535 -> out + in_ <= zlen sg ->
  (forall tbl, va = Some tbl -> out + in_ <= zlen tbl) ->
  let n := out + in_ in
  let segs := segs_from out 0 (take (Z.to_nat n) sg) in
  let read vq := read_chain (length (desc vq)) (desc vq) in
  (exists va' vq' h,
     virtqueue_add_buf_split vq sg out in_ opq va phys = Ok (VQ_ADD_BUFFER_SUCCESS, va', vq') /\
     (av_ring (avail vq'))⟦DESC_INDEX (num vq) (master_idx vq)⟧ = Some h /\
     av_idx (avail vq') = u16 (master_idx vq + 1) /\
     (read vq' h = Some segs \/
      read vq' h = Some [mk_seg phys (n * 16) VIRTQ_DESC_F_INDIRECT] /\
      exists tbl', va' = Some tbl' /\ read_chain (Z.to_nat n) tbl' 0 = Some segs) /\
     forall c, c ∈ live -> read vq' (ch_head c) = read vq (ch_head c)) \/
  (num_unused vq < n /\
   virtqueue_add_buf_split vq sg out in_ opq va phys = Ok (- ENOSPC, va, vq)).
Proof.
  intros H Ho Hout Hin Hn Hsg Hva n segs read.
  pose proof (add_buf_split_ok vq free live sg out in_ opq va phys H Ho Hout Hin Hn Hsg Hva) as Hadd.
  cbv zeta in Hadd. fold n segs in Hadd.
  assert (Hold : forall vq' free' c', split_wf vq' free' (c' :: live) ->
    forall c, c ∈ live -> read vq' (ch_head c) = read vq (ch_head c)).
  { intros vq' free' c' W c Hc. unfold read. rewrite (wf_read _ _ _ _ H Hc).
    eapply wf_read; [exact W|]. by constructor. }
  assert (Hpub : forall vq' h, published vq vq' h ->
    (av_ring (avail vq'))⟦DESC_INDEX (num vq) (master_idx vq)⟧ = Some h /\
    av_idx (avail vq') = u16 (master_idx vq + 1)).
  { intros vq' h P. unfold published in P. destruct_and! P. split; [|done].
    pose proof (DESC_INDEX_range _ (master_idx vq) (wf_num _ _ _ H)).
    match goal with E : av_ring _ = _ |- _ => rewrite E end.
    apply zlookup_zinsert_eq. rewrite (wf_avail _ _ _ H). lia. }
  destruct (_ && _) eqn:E; [|destruct (Z.leb_spec n (zlen free))].
  - left. destruct Hadd as (tbl' & vq' & He & Ht & P & W).
    exists (Some tbl'), vq', (head_of free (-1)). destruct (Hpub _ _ P). split_and!; eauto.
    right. destruct free as [|h rest]; [rewrite zlen_nil in E; lia|]. split.
    + apply (wf_read _ _ _ (mk_chain [h] _ opq) W). constructor.
    + exists tbl'. split; [done|]. change 0 with (head_of (0 :: seqZ 1 (n - 1)) (-1)) at 1.
      assert (Hs : seqZ 0 n = 0 :: seqZ 1 (n - 1)) by (apply (seqZ_cons 0 n); unfold n; lia).
      rewrite <- Hs. apply chain_at_read; [done|apply segs_from_ok|].
      rewrite length_seqZ. done.
  - left. destruct Hadd as (vq' & He & P & W).
    exists va, vq', (head_of free (-1)). destruct (Hpub _ _ P). split_and!; eauto.
    left. destruct (Z.to_nat n) as [|m] eqn:Em; [unfold n in *; lia|].
    destruct free as [|h free]; [rewrite zlen_nil in *; unfold n in *; lia|].
    apply (wf_read _ _ _ (mk_chain (h :: take m free) _ opq) W). constructor.
  - right. rewrite (wf_unused _ _ _ H). done.
Qed.

Lemma set_used_event_ok vq v :
  zlen (av_ring (avail vq)) = num vq + 1 -> 0 <= num vq ->
  set_used_event vq v =
  Ok (vq <| avail := (avail vq) <| av_ring := zinsert (num vq) v (av_ring (avail vq)) |> |>).
Proof. intros Hl Hn. unfold set_used_event. rewrite zset_ok by lia. done. Qed.

(** Changes confined to fields that the invariant does not constrain. *)
Lemma split_wf_irrelevant vq vq' free live :
  split_wf vq free live ->
  num vq' = num vq -> desc vq' = desc vq -> opaque vq' = opaque vq ->
  zlen (av_ring (avail vq')) = zlen (av_ring (avail vq)) ->
  zlen (us_ring (used vq')) = zlen (us_ring (used vq)) ->
  0 <= master_idx vq' < 65536 -> av_idx (avail vq') = master_idx vq' ->
  0 <= last_used vq' < 65536 -> num_unused vq' = num_unused vq ->
  first_unused vq' = first_unused vq -> split_wf vq' free live.
Proof.
  intros H En Ed Eo Ea Eu Em Ei El Enu Ef.
  constructor; rewrite ?En, ?Ed, ?Eo, ?Ea, ?Eu, ?Ei, ?Enu, ?Ef; apply H || done.
Qed.

(** The tail of [virtqueue_get_buf_split] after the chain is reclaimed. *)
Lemma publish_used_event_ok vq free live :
  split_wf vq free live ->
  exists vq', (if event_suppression_enabled (vdev vq) && virtqueue_is_interrupt_enabled_split vq
       then set_used_event vq (last_used vq) else Ok vq) = Ok vq' /\
    split_wf vq' free live /\
    vdev vq' = vdev vq /\ num vq' = num vq /\ used vq' = used vq /\
    master_idx vq' = master_idx vq /\ last_used vq' = last_used vq /\
    master_flags vq' = master_flags vq /\ av_flags (avail vq') = av_flags (avail vq) /\
    (forall i, i <> num vq -> (av_ring (avail vq'))⟦i⟧ = (av_ring (avail vq))⟦i⟧) /\
    (event_suppression_enabled (vdev vq) = true ->
     virtqueue_is_interrupt_enabled_split vq = true ->
     (av_ring (avail vq'))⟦num vq⟧ = Some (last_used vq)).
Proof.
  intros H. pose proof (wf_num_bound _ _ _ H). pose proof (wf_avail _ _ _ H) as Ha.
  destruct (_ && _) eqn:E.
  - rewrite set_used_event_ok by (done || lia). eexists. split; [done|]. cbn.
    split_and!; try done.
    + eapply split_wf_irrelevant; try done; try apply H. cbn. apply zlen_zinsert.
    + intros i Hi. by rewrite zlookup_zinsert_ne.
    + intros. apply zlookup_zinsert_eq. lia.
  - exists vq. split_and!; try done. intros E1 E2. by rewrite E1, E2 in E.
Qed.

(** [virtqueue_get_buf_split] returns NULL and changes nothing when
    the device has returned no buffer; when the next used element names the head
    of a buffer the device owns, it returns that buffer's opaque pointer with the
    length the device wrote, puts exactly that buffer's descriptors back on the
    free list, keeps every other buffer, advances [last_used] and, with event
    suppression and interrupts on, asks for an interrupt at the new index. *)
Lemma get_buf_split_ok vq free live :
  split_wf vq free live ->
  (last_used vq = us_idx (used vq) -> virtqueue_get_buf_split vq = Ok (None, vq)) /\
  (forall c e, last_used vq <> us_idx (used vq) -> c ∈ live ->
     (us_ring (used vq))⟦DESC_INDEX (num vq) (last_used vq)⟧ = Some e ->
     ue_id e = ch_head c ->
     exists vq' live',
       virtqueue_get_buf_split vq = Ok (Some (ch_opaque c, ue_len e), vq') /\
       live ≡ₚ c :: live' /\ split_wf vq' (ch_ids c ++ free) live' /\
       last_used vq' = u16 (last_used vq + 1) /\ master_idx vq' = master_idx vq /\
       num vq' = num vq /\ used vq' = used vq /\ vdev vq' = vdev vq /\
       master_flags vq' = master_flags vq /\ av_flags (avail vq') = av_flags (avail vq) /\
       (forall i, i <> num vq -> (av_ring (avail vq'))⟦i⟧ = (av_ring (avail vq))⟦i⟧) /\
       (event_suppression_enabled (vdev vq) = true ->
        virtqueue_is_interrupt_enabled_split vq = true ->
        (av_ring (avail vq'))⟦num vq⟧ = Some (last_used vq'))).
Proof.
  intros H. split.
  - intros E. unfold virtqueue_get_buf_split. by rewrite (proj2 (Z.eqb_eq _ _) E).
  - intros c e Hne (live' & Hp)%elem_of_Permutation He Hid. rewrite Hp in H.
    pose proof (wf_live _ _ _ H) as ((Hc & _ & Hnz & Ho) & _)%list.Forall_cons.
    destruct (put_unused_desc_chain_ok _ _ _ _ H) as (vq1 & Hput & H1 & R).
    unfold reclaimed in R. destruct R as (R1 & R2 & R3 & R4 & R5 & R6 & _ & R8).
    assert (Hr : 0 <= ch_head c < 65536).
    { pose proof (wf_num_bound _ _ _ H). pose proof (zlookup_lt _ _ _ Ho).
      rewrite (wf_opaque _ _ _ H) in *. lia. }
    set (vq2 := vq1 <| last_used := u16 (last_used vq1 + 1) |>).
    assert (H2 : split_wf vq2 (ch_ids c ++ free) live').
    { eapply split_wf_irrelevant; try done; try apply H1. apply u16_range. }
    destruct (publish_used_event_ok _ _ _ H2)
      as (vq3 & He3 & W3 & V1 & V2 & V3 & V4 & V5 & V8 & V9 & V6 & V7).
    unfold virtqueue_get_buf_split.
    rewrite (proj2 (Z.eqb_neq _ _) Hne), (zget_ok _ _ _ He).
    cbn [mbind res_bind]. cbv zeta.
    rewrite Hid, u16_small, (zget_ok _ _ _ Ho) by done. cbn [mbind res_bind]. rewrite Hput.
    cbn [mbind res_bind]. cbv zeta. fold vq2. rewrite He3. cbn.
    rewrite ASSERT_ok by (unfold truth; lia). cbn.
    exists vq3, live'. cbn in *. rewrite V1, V2, V3, V4, V5, V8, V9, <- R8, ?R1, ?R2, ?R3, ?R4, ?R5, ?R6.
    split_and!; try done.
    + intros i Hi. rewrite V6 by congruence. by rewrite R3.
    + rewrite <- R2. intros E1 E2. apply V7; [by rewrite R1|].
      unfold virtqueue_is_interrupt_enabled_split in *. cbn. by rewrite R5.
Qed.

(** ** Creation *)

Lemma init_free_ok n : forall i fuel ds num,
  i + Z.of_nat n = num - 1 -> 0 <= i -> (n <= fuel)%nat -> num <= 65536 -> zlen ds = num ->
  exists ds', init_free fuel i num ds = Ok ds' /\ zlen ds' = num /\
    (forall j, j < i -> ds'⟦j⟧ = ds⟦j⟧) /\ free_at ds' i (seqZ i (num - i)).
Proof.
  induction n as [|n IH]; intros i fuel ds num Hn Hi Hf Hb Hl.
  - exists ds. assert (Hs : init_free fuel i num ds = Ok ds).
    { destruct fuel; cbn [init_free]; rewrite u32_small by lia;
        replace (i <? num - 1) with false by lia; done. }
    split_and!; try done. rewrite seqZ_cons by lia. split; [done|].
    destruct (zlookup_in_range ds i) as [d Hd]; [lia|]. exists d. split; [done|].
    by replace (Z.pred (num - i)) with 0 by lia.
  - destruct fuel as [|fuel]; [lia|]. cbn [init_free]. rewrite u32_small by lia.
    replace (i <? num - 1) with true by lia.
    destruct (zlookup_in_range ds i) as [d Hd]; [lia|].
    rewrite (zget_ok _ _ _ Hd). cbn -[init_free]. rewrite zset_ok by lia. cbn -[init_free].
    rewrite u16_small by lia.
    match goal with |- context [init_free _ _ _ ?t] =>
      destruct (IH (i + 1) fuel t num) as (ds' & He & Hl' & Hfr & Hfree) end;
      rewrite ?zlen_zinsert; try lia.
    exists ds'. split; [done|]. split; [done|]. split.
    + intros j Hj. rewrite Hfr, zlookup_zinsert_ne by lia. done.
    + rewrite seqZ_cons by lia. split; [done|]. eexists. split.
      * rewrite Hfr, zlookup_zinsert_eq by lia. done.
      * cbn. replace (Z.succ i) with (i + 1) by lia.
        by replace (Z.pred (num - i)) with (num - (i + 1)) by lia.
Qed.

Lemma new_split_ok index vdev notify k :
  0 <= k <= 15 ->
  exists vq, vring_new_virtqueue_split index (2 ^ k) vdev (zero_mem (2 ^ k)) notify = Ok (Some vq) /\
    split_wf vq (seqZ 0 (2 ^ k)) [] /\ last_used vq = 0 /\ master_idx vq = 0 /\
    master_flags vq = 0 /\ SplitRing.vdev vq = vdev /\ av_flags (avail vq) = 0 /\
    used vq = mem_used (zero_mem (2 ^ k)).
Proof.
  intros Hk. pose proof (Z.pow_pos_nonneg 2 k).
  pose proof (Z.pow_le_mono_r 2 k 15). change (2 ^ 15) with 32768 in *.
  unfold vring_new_virtqueue_split, DESC_INDEX.
  rewrite land_pow2_mod, Z.mod_same by lia. rewrite Z.eqb_refl. cbn [negb].
  destruct (init_free_ok (Z.to_nat (2 ^ k - 1)) 0 (Z.to_nat 65536)
    (mem_desc (zero_mem (2 ^ k))) (2 ^ k)) as (ds & He & Hl & _ & Hf);
    try (cbn [zero_mem mem_desc]; rewrite zlen_replicate); try lia.
  rewrite He. cbn [mbind res_bind]. eexists. split; [done|].
  rewrite Z.sub_0_r in Hf. split_and!; try done.
  constructor; rewrite ?zlen_seqZ by lia;
    cbn [num desc opaque avail used av_ring av_idx us_ring zero_mem mem_avail mem_used
         master_idx last_used num_unused first_unused];
    rewrite ?zlen_replicate; try lia; try done.
  - by exists k.
  - by rewrite app_nil_r.
  - intros i Hi _. apply zlookup_replicate. lia.
Qed.

Lemma not_pow2_land num k :
  0 <= k -> 2 ^ k < num < 2 ^ (k + 1) -> Z.land num (num - 1) <> 0.
Proof.
  intros Hk Hn E.
  assert (Z.testbit (Z.land num (num - 1)) k = true) as Hb.
  { rewrite Z.land_spec, !(Z.testbit_eqb _ k) by lia.
    assert (Hp : 2 ^ (k + 1) = 2 * 2 ^ k) by (rewrite Z.pow_add_r by lia; lia).
    assert (forall x, 2 ^ k <= x < 2 ^ (k + 1) -> (x / 2 ^ k) mod 2 = 1) as Hd.
    { intros x Hx. replace (x / 2 ^ k) with 1; [done|].
      apply (Z.div_unique x (2 ^ k) 1 (x - 2 ^ k)); lia. }
    rewrite !Hd by lia. done. }
  by rewrite E, Z.bits_0 in Hb.
Qed.

(** [vring_new_virtqueue_split] on zeroed ring memory accepts every
    power of two up to 2^15 and returns a queue with all its descriptors on the
    free list and no buffer owned by the device; a size that lies strictly between
    two powers of two is refused with NULL. *)
Theorem vring_new_virtqueue_split_correct index num vdev notify k :
  0 <= k -> 2 ^ k <= num < 2 ^ (k + 1) ->
  if num =? 2 ^ k then k <= 15 ->
    exists vq, vring_new_virtqueue_split index num vdev (zero_mem num) notify = Ok (Some vq) /\
      split_wf vq (seqZ 0 num) [] /\ num_unused vq = num /\ last_used vq = 0 /\
      master_idx vq = 0 /\ SplitRing.vdev vq = vdev
  else forall pages, vring_new_virtqueue_split index num vdev pages notify = Ok None.
Proof.
  intros Hk Hn. destruct (Z.eqb_spec num (2 ^ k)) as [->|Hne].
  - intros Hk'. destruct (new_split_ok index vdev notify k) as (vq & He & W & ? & ? & ? & ? & _);
      [lia|]. exists vq. rewrite (wf_unused _ _ _ W), zlen_seqZ by lia. done.
  - intros pages. unfold vring_new_virtqueue_split, DESC_INDEX.
    by rewrite (proj2 (Z.eqb_neq _ _) (not_pow2_land num k Hk ltac:(lia))).
Qed.

(** ** Detaching unused buffers *)

Lemma detach_loop_ok vq free live : split_wf vq free live ->
  forall n idx, idx + Z.of_nat n = num vq -> 0 <= idx ->
  (forall c, c ∈ live -> idx <= ch_head c) ->
  match live with
  | [] => detach_loop n idx vq = Ok (0, vq)
  | _ => exists c live' vq', live ≡ₚ c :: live' /\
      detach_loop n idx vq = Ok (ch_opaque c, vq') /\
      split_wf vq' (ch_ids c ++ free) live' /\
      master_idx vq' = u16 (master_idx vq - 1) /\ num vq' = num vq
  end.
Proof.
  intros H. induction n as [|n IH]; intros idx Hn Hi Hmin.
  - destruct live as [|c live]; [done|]. exfalso.
    pose proof (wf_live _ _ _ H) as ((_ & _ & _ & Ho) & _)%list.Forall_cons.
    specialize (Hmin c ltac:(constructor)). apply zlookup_lt in Ho.
    rewrite (wf_opaque _ _ _ H) in Ho. lia.
  - destruct (decide (idx ∈ ch_head <$> live)) as [Hin|Hnin].
    + apply list_elem_of_fmap in Hin as (c & -> & Hc).
      apply elem_of_Permutation in Hc as [live' Hp]. rewrite Hp in H.
      pose proof (wf_live _ _ _ H) as ((_ & _ & Hnz & Ho) & _)%list.Forall_cons.
      destruct (put_unused_desc_chain_ok _ _ _ _ H) as (vq1 & Hput & H1 & R).
      unfold reclaimed in R. destruct_and! R.
      destruct live as [|c0 live0]; [by apply Permutation_nil_cons in Hp|].
      cbn [detach_loop]. rewrite (zget_ok _ _ _ Ho). cbn [mbind res_bind].
      replace (truth (ch_opaque c)) with true by (unfold truth; lia).
      rewrite Hput. cbn [mbind res_bind]. cbv zeta.
      eexists c, live', _. split; [done|]. split; [done|]. cbn. split; [|split; congruence].
      eapply split_wf_irrelevant; try done; try apply H1. apply u16_range.
    + cbn [detach_loop]. rewrite (zget_ok _ _ _ (wf_null _ _ _ H idx ltac:(lia) Hnin)).
      cbn -[detach_loop]. apply IH; [lia..|].
      intros c Hc. specialize (Hmin c Hc). enough (idx <> ch_head c) by lia.
      intros ->. apply Hnin, list_elem_of_fmap. eauto.
Qed.

(** The clean-up loop of the drivers: detach until NULL. *)
Fixpoint detach_all (fuel : nat) (vq : virtqueue_split) : res (list Z * virtqueue_split) :=
  match fuel with
  | O => Fault OutOfFuel
  | S fuel =>
      '(opq, vq) ← virtqueue_detach_unused_buf_split vq;
      if truth opq then '(l, vq) ← detach_all fuel vq; Ok (opq :: l, vq) else Ok ([], vq)
  end.

Lemma detach_ok vq free live : split_wf vq free live ->
  match live with
  | [] => virtqueue_detach_unused_buf_split vq = Ok (0, vq)
  | _ => exists c live' vq', live ≡ₚ c :: live' /\
      virtqueue_detach_unused_buf_split vq = Ok (ch_opaque c, vq') /\
      split_wf vq' (ch_ids c ++ free) live' /\
      master_idx vq' = u16 (master_idx vq - 1) /\ num vq' = num vq
  end.
Proof.
  intros H. pose proof (wf_num_bound _ _ _ H).
  unfold virtqueue_detach_unused_buf_split. rewrite u16_small by lia.
  apply detach_loop_ok; [done|..]; try lia. intros c Hc.
  pose proof (wf_live _ _ _ H) as Hl. rewrite list.Forall_forall in Hl.
  destruct (Hl c Hc) as (Hca & _). apply chain_at_head in Hca.
  destruct (wf_live_ids _ _ _ _ _ H Hc Hca) as [_ ?]. lia.
Qed.

(** Detaching until NULL hands back every buffer the device still
    owned, each exactly once, and leaves all descriptors free. *)
Theorem detach_all_correct vq free live :
  split_wf vq free live ->
  exists opqs free' vq', detach_all (S (length live)) vq = Ok (opqs, vq') /\
    opqs ≡ₚ (ch_opaque <$> live) /\ split_wf vq' free' [] /\ num_unused vq' = num vq.
Proof.
  intros H. enough (Hfuel : forall fuel, (length live < fuel)%nat -> exists opqs free' vq',
    detach_all fuel vq = Ok (opqs, vq') /\ opqs ≡ₚ (ch_opaque <$> live) /\
    split_wf vq' free' [] /\ num_unused vq' = num vq) by (apply Hfuel; lia).
  intros fuel. revert vq free live H.
  induction fuel as [|fuel IH]; intros vq free live H Hlt; [lia|]; cbn [detach_all];
    pose proof (detach_ok _ _ _ H) as Hd; destruct live as [|c0 live0]; try done.
  - rewrite Hd. cbn. exists [], free, vq. split_and!; try done.
    rewrite (wf_unused _ _ _ H). pose proof (Permutation_length (wf_part _ _ _ H)) as Hl.
    pose proof (wf_num_bound _ _ _ H). rewrite length_seqZ in Hl. cbn in Hl.
    rewrite app_nil_r in Hl. unfold zlen. lia.
  - destruct Hd as (c & live' & vq1 & Hp & Hd & H1 & _ & Hn). rewrite Hd. cbn -[detach_all].
    pose proof (wf_live _ _ _ H) as Hl. rewrite Hp in Hl.
    apply list.Forall_cons in Hl as ((_ & _ & Hnz & _) & _).
    replace (truth (ch_opaque c)) with true by (unfold truth; lia).
    destruct (IH vq1 (ch_ids c ++ free) live') as (opqs & free' & vq' & E & Hperm & H' & Hu); [done|..].
    { apply Permutation_length in Hp. cbn in *. lia. }
    rewrite E. cbn. exists (ch_opaque c :: opqs), free', vq'.
    split; [done|]. split; [|split; [done|congruence]].
    change (ch_opaque c0 :: _) with (ch_opaque <$> (c0 :: live0)). rewrite Hp. cbn.
    by rewrite Hperm.
Qed.

(** ** Notifications *)

(** [virtqueue_kick_prepare_split] resets the count of added buffers
    and, with event suppression, asks for a notification exactly when the device's
    avail event index is one of the indices of the buffers added since the last
    kick (or more than 2^16 - 1 were added); without it, exactly when the device
    has not set NO_NOTIFY. *)
Theorem virtqueue_kick_prepare_split_correct vq :
  0 <= master_idx vq < 65536 -> 0 <= us_avail_event (used vq) < 65536 ->
  0 <= num_added_since_kick vq < 4294967296 ->
  let n := num_added_since_kick vq in
  let (b, vq') := virtqueue_kick_prepare_split vq in
  vq' = vq <| num_added_since_kick := 0 |> /\
  (event_suppression_enabled (vdev vq) = true ->
   b = true <-> 65536 <= n \/
     exists k, 0 <= k < n /\ us_avail_event (used vq) = u16 (master_idx vq - n + k)) /\
  (event_suppression_enabled (vdev vq) = false ->
   b = negb (Z.testbit (us_flags (used vq)) 0)).
Proof.
  intros Hm He Hn n. unfold virtqueue_kick_prepare_split. cbn [vdev set_field used].
  destruct (event_suppression_enabled (vdev vq)) eqn:Ev; cbn;
    (split; [done|]); split; try done; intros _.
  - rewrite orb_true_iff, vring_need_event_window by auto with virtio.
    fold n. fold n in Hn. clearbody n. rewrite Z.geb_le. split.
    + intros [?|(k & Hk & ->)]; [by left|]. destruct (decide (65536 <= n)); [by left|].
      right. exists k. word_lia.
    + intros [?|(k & Hk & ->)]; [by left|]. destruct (decide (65536 <= n)); [by left|].
      right. exists k. word_lia.
  - unfold truth, VIRTQ_USED_F_NO_NOTIFY. f_equal.
    change 1 with (Z.ones 1). rewrite <- Z.bit0_odd, Z.land_ones, Z.testbit_eqb by lia.
    rewrite Z.div_1_r. change (2 ^ 1) with 2.
    pose proof (Z.mod_pos_bound (us_flags (used vq)) 2 ltac:(lia)).
    destruct (Z.eqb_spec (us_flags (used vq) mod 2) 0), (Z.eqb_spec (us_flags (used vq) mod 2) 1);
      done || lia.
Qed.

Lemma clear_no_interrupt_ok vq free live :
  split_wf vq free live -> 0 <= master_flags vq < 65536 ->
  let vq' := clear_no_interrupt vq in
  split_wf vq' free live /\ virtqueue_is_interrupt_enabled_split vq' = true /\
  last_used vq' = last_used vq /\ used vq' = used vq /\ num vq' = num vq /\
  master_idx vq' = master_idx vq /\ vdev vq' = vdev vq /\
  av_ring (avail vq') = av_ring (avail vq) /\ 0 <= master_flags vq' < 65536 /\
  (event_suppression_enabled (vdev vq) = false -> av_flags (avail vq) = master_flags vq ->
   av_flags (avail vq') = master_flags vq').
Proof.
  intros H Hm. unfold clear_no_interrupt.
  destruct (virtqueue_is_interrupt_enabled_split vq) eqn:Ei; cbn; [done|].
  assert (Hb : Z.land (u16 (Z.land (master_flags vq) (Z.lnot VIRTQ_AVAIL_F_NO_INTERRUPT)))
                 VIRTQ_AVAIL_F_NO_INTERRUPT = 0).
  { unfold u16, VIRTQ_AVAIL_F_NO_INTERRUPT. change 65536 with (2 ^ 16). change 1 with (Z.ones 1).
    rewrite <- Z.land_ones by lia. rewrite <- Z.land_assoc.
    change (Z.land (Z.ones 16) (Z.ones 1)) with (Z.ones 1).
    rewrite <- Z.land_assoc. change (Z.land (Z.lnot (Z.ones 1)) (Z.ones 1)) with 0.
    apply Z.land_0_r. }
  pose proof (u16_range (Z.land (master_flags vq) (Z.lnot VIRTQ_AVAIL_F_NO_INTERRUPT))).
  destruct (event_suppression_enabled (vdev vq)) eqn:Ev; cbn; split_and!; try done; try lia;
    try (eapply split_wf_irrelevant; try done; apply H);
    unfold virtqueue_is_interrupt_enabled_split; cbn; by rewrite Hb.
Qed.

(** [virtqueue_enable_cb_split] never faults; afterwards interrupts are
    enabled, the used event index is the index of the next buffer to be taken,
    and the result is true exactly when the device has not returned a buffer that
    is still to be taken. *)
(** Clearing the flag and moving the used event index change nothing else. *)
Definition event_frame (vq vq' : virtqueue_split) (free : list Z) (live : list chain) (v : Z) : Prop :=
  split_wf vq' free live /\ virtqueue_is_interrupt_enabled_split vq' = true /\
  (av_ring (avail vq'))⟦num vq⟧ = Some v /\
  used vq' = used vq /\ last_used vq' = last_used vq /\ num vq' = num vq /\
  master_idx vq' = master_idx vq /\ vdev vq' = vdev vq /\
  (forall j, j <> num vq -> (av_ring (avail vq'))⟦j⟧ = (av_ring (avail vq))⟦j⟧) /\
  0 <= master_flags vq' < 65536 /\
  (event_suppression_enabled (vdev vq) = false -> av_flags (avail vq) = master_flags vq ->
   av_flags (avail vq') = master_flags vq').

Lemma enable_event_ok vq free live v :
  split_wf vq free live -> 0 <= master_flags vq < 65536 ->
  exists vq', set_used_event (clear_no_interrupt vq) v = Ok vq' /\ event_frame vq vq' free live v.
Proof.
  intros H Hm.
  destruct (clear_no_interrupt_ok _ _ _ H Hm) as (W & I & L & U & N & M & V & A & F & Mi).
  pose proof (wf_num_bound _ _ _ H). pose proof (wf_avail _ _ _ W) as Ha.
  rewrite set_used_event_ok by (done || lia).
  set (vq1 := clear_no_interrupt vq) in *. clearbody vq1.
  eexists. split; [done|]. unfold event_frame. cbn. split_and!; try done; try lia.
  - eapply split_wf_irrelevant; try done; try apply W. cbn. apply zlen_zinsert.
  - rewrite N in *. apply zlookup_zinsert_eq. lia.
  - intros j Hj. rewrite A, zlookup_zinsert_ne by congruence. done.
Qed.

Lemma enable_cb_split_ok vq free live :
  split_wf vq free live -> 0 <= master_flags vq < 65536 ->
  exists vq', virtqueue_enable_cb_split vq = Ok (negb (virtqueue_has_buf_split vq), vq') /\
    event_frame vq vq' free live (last_used vq).
Proof.
  intros H Hm. unfold virtqueue_enable_cb_split.
  destruct (clear_no_interrupt_ok _ _ _ H Hm) as (_ & _ & L & _). rewrite L.
  destruct (enable_event_ok vq free live (last_used vq) H Hm) as (vq' & -> & Fr).
  cbn [mbind res_bind]. exists vq'. split; [|done].
  pose proof Fr as (_ & _ & _ & U & L' & _). rewrite U, L'.
  unfold virtqueue_has_buf_split. by rewrite negb_involutive.
Qed.

Lemma enable_cb_delayed_ok vq free live :
  split_wf vq free live -> 0 <= master_flags vq < 65536 ->
  let bufs := u16 (master_idx vq - last_used vq) * 3 / 4 in
  exists vq', virtqueue_enable_cb_delayed_split vq =
      Ok (us_idx (used vq) - last_used vq <=? bufs, vq') /\
    event_frame vq vq' free live (u16 (last_used vq + bufs)).
Proof.
  intros H Hm bufs. unfold virtqueue_enable_cb_delayed_split.
  destruct (clear_no_interrupt_ok _ _ _ H Hm) as (_ & _ & L & _ & _ & M & _). rewrite L, M. cbv zeta.
  pose proof (u16_range (master_idx vq - last_used vq)).
  rewrite (u16_small (_ * 3 / 4)) by (Z.to_euclidean_division_equations; lia). fold bufs.
  destruct (enable_event_ok vq free live (u16 (last_used vq + bufs)) H Hm) as (vq' & -> & Fr).
  cbn [mbind res_bind]. exists vq'. split; [|done].
  pose proof Fr as (_ & _ & _ & U & L' & _). by rewrite U, L'.
Qed.

(** [virtqueue_enable_cb_delayed_split] moves the used event three
    quarters of the pending buffers ahead; while the used index has not wrapped
    past [last_used] the result says whether at most that many were returned, but
    the comparison is made in [int], so once the used index has wrapped below
    [last_used] the result is true however many buffers the device has returned. *)
Theorem virtqueue_enable_cb_delayed_split_result vq free live :
  split_wf vq free live -> 0 <= master_flags vq < 65536 ->
  0 <= us_idx (used vq) < 65536 ->
  let bufs := u16 (master_idx vq - last_used vq) * 3 / 4 in
  exists b vq', virtqueue_enable_cb_delayed_split vq = Ok (b, vq') /\
    split_wf vq' free live /\
    (av_ring (avail vq'))⟦num vq⟧ = Some (u16 (last_used vq + bufs)) /\
    (last_used vq <= us_idx (used vq) ->
     b = (u16 (us_idx (used vq) - last_used vq) <=? bufs)) /\
    (us_idx (used vq) < last_used vq -> b = true).
Proof.
  intros H Hm Hui bufs. pose proof (wf_last _ _ _ H).
  destruct (enable_cb_delayed_ok vq free live H Hm) as (vq' & E & W & _ & A & _). fold bufs in E, A.
  pose proof (u16_range (master_idx vq - last_used vq)).
  assert (0 <= bufs < 65536) by (unfold bufs; Z.to_euclidean_division_equations; lia).
  eexists _, vq'. split; [exact E|]. split; [done|]. split; [done|]. split.
  - intros Hle. by rewrite u16_small by lia.
  - intros Hlt. lia.
Qed.

(** ** Layout of the ring memory *)

(** For an aligned ring block of [num] descriptors, [vring_init] places
    the descriptor table, the available ring (with the used event index behind
    it) and the used ring (with the avail event index behind it) one after the
    other without overlap, the used ring aligned, and the block ends exactly
    [vring_size_split] bytes after its start. *)
Theorem vring_layout_correct p num k a :
  num = 2 ^ k -> 0 <= k <= 15 -> 2 <= a <= 12 -> let align := 2 ^ a in
  0 <= p -> p mod align = 0 -> p + 1048576 < 18446744073709551616 ->
  let '(desc, avail, used) := vring_init num p align in
  desc = p /\ avail = p + 16 * num /\
  avail + 4 + 2 * num + 2 <= used /\ used mod align = 0 /\ used mod 4 = 0 /\
  used + 4 + 8 * num + 2 = p + vring_size_split num align.
Proof.
  intros Hnum Hk Ha align Hp Hpa Hlt.
  assert (Hal : 4 <= align <= 4096).
  { unfold align. change 4 with (2 ^ 2). change 4096 with (2 ^ 12).
    split; apply Z.pow_le_mono_r; lia. }
  assert (Hn : 1 <= num <= 32768).
  { subst num. change 1 with (2 ^ 0). change 32768 with (2 ^ 15).
    split; apply Z.pow_le_mono_r; lia. }
  set (m := 16 * num + 2 * num + 6).
  set (r := Z.land (m + align - 1) (Z.lnot (align - 1))).
  destruct (align_up_spec m a) as [Hr Hr0]; [lia..|]. fold align in Hr, Hr0. fold r in Hr, Hr0.
  assert (Hu : Z.land (p + m + align - 1) (Z.lnot (align - 1)) = p + r).
  { destruct (align_up_spec (p + m) a) as [Hq Hq0]; [lia..|]. fold align in Hq, Hq0.
    set (q := Z.land (p + m + align - 1) (Z.lnot (align - 1))) in *.
    apply Z.mod_divide in Hq0 as [x Hx], Hr0 as [y Hy], Hpa as [z Hz]; try lia.
    assert (- align < (x - z - y) * align < align) by lia.
    assert (x - z - y = 0) by nia. nia. }
  unfold vring_init, vring_size_split, sizeof_vring_desc, sizeof_virtio16, sizeof_vring_used_elem.
  rewrite (u64_small (p + num * 16)), (u32_small (3 + num)), (u32_small (align - 1)) by lia.
  rewrite (u64_small (16 * num + 2 * (3 + num) + align - 1)),
    (u64_small (p + num * 16 + 4 + 2 * num + 2 + align - 1)) by lia.
  unfold u64, u32 at 2.
  change 18446744073709551616 with (2 ^ 64). change 4294967296 with (2 ^ 32).
  rewrite !land_mod_pow2 by lia.
  replace (p + num * 16 + 4 + 2 * num + 2 + align - 1) with (p + m + align - 1) by (unfold m; lia).
  replace (16 * num + 2 * (3 + num) + align - 1) with (m + align - 1) by (unfold m; lia).
  rewrite Hu. fold r. rewrite u32_small by (unfold m in *; lia).
  split_and!; try (unfold m in *; lia).
  - apply Z.mod_divide in Hpa as [z Hz], Hr0 as [y Hy]; try lia.
    rewrite Hz, Hy, <- Z.mul_add_distr_r. apply Z.mod_mul. lia.
  - assert (Hd : align = 4 * 2 ^ (a - 2)).
    { unfold align. change 4 with (2 ^ 2). rewrite <- Z.pow_add_r by lia. f_equal. lia. }
    apply Z.mod_divide in Hpa as [z Hz], Hr0 as [y Hy]; try lia.
    rewrite Hz, Hy, <- Z.mul_add_distr_r, Hd, Z.mul_assoc, (Z.mul_comm (z + y)),
      <- !Z.mul_assoc, Z.mul_comm. apply Z.mod_mul. lia.
Qed.
