(* ===== verification/SplitSystem.v ===== *)
(** * A driver and a device sharing a split virtqueue

    A step relation in which the driver runs the operations of SplitRing and a
    conforming device fetches published heads, writes used elements for heads it
    fetched, and sets its notification preferences, in any interleaving.  The
    theorems are about every reachable state. *)

From Stdlib Require Import ZArith Lia.
From stdpp Require Import base list numbers option relations.
From S2P Require Import Prelude.
From S2P Require Import Virtio.
From S2P Require Import SplitRing.
From S2P Require Import SplitRingSpec.

(** The queue, the device's fetch index and the heads it holds, and two
    histories: the opaque pointers the driver handed over and those it got
    back. *)
Record sys := mk_sys {
  s_vq : virtqueue_split; s_seen : Z; s_held : list Z; s_given : list Z; s_taken : list Z }.
#[export] Instance eta_sys : Eta sys :=
  fun s => mk_sys (s_vq s) (s_seen s) (s_held s) (s_given s) (s_taken s).

(** The device writes a used element and publishes it. *)
Definition dev_use (vq : virtqueue_split) (h len : Z) : virtqueue_split :=
  let u := used vq in
  vq <| used := u <| us_ring := zinsert (DESC_INDEX (num vq) (us_idx u))
                                  (mk_used_elem h len) (us_ring u) |>
                  <| us_idx := u16 (us_idx u + 1) |> |>.

(** Valid arguments of [virtqueue_add_buf]. *)
Definition add_args_ok (sg : list VirtIOBufferDescriptor) (out in_ opq : Z)
    (va : option (list vring_desc)) : Prop :=
  opq <> 0 /\ 0 <= out /\ 0 <= in_ /\ 1 <= out + in_ <= 65535 /\ out + in_ <= zlen sg /\
  (forall tbl, va = Some tbl -> out + in_ <= zlen tbl).

Inductive step : sys -> sys -> Prop :=
  | step_add s sg out in_ opq va phys r va' vq' :
      add_args_ok sg out in_ opq va ->
      virtqueue_add_buf_split (s_vq s) sg out in_ opq va phys = Ok (r, va', vq') ->
      step s (s <| s_vq := vq' |>
                <| s_given := if r =? 0 then opq :: s_given s else s_given s |>)
  | step_get s r vq' :
      virtqueue_get_buf_split (s_vq s) = Ok (r, vq') ->
      step s (s <| s_vq := vq' |>
                <| s_taken := match r with Some (opq, _) => opq :: s_taken s
                              | None => s_taken s end |>)
  | step_kick s :
      step s (s <| s_vq := (virtqueue_kick_prepare_split (s_vq s)).2 |>)
  | step_enable s b vq' :
      virtqueue_enable_cb_split (s_vq s) = Ok (b, vq') -> step s (s <| s_vq := vq' |>)
  | step_enable_delayed s b vq' :
      virtqueue_enable_cb_delayed_split (s_vq s) = Ok (b, vq') -> step s (s <| s_vq := vq' |>)
  | step_kick_always s :
      step s (s <| s_vq := (virtqueue_kick_always_split (s_vq s)).2 |>)
  | step_disable s :
      step s (s <| s_vq := virtqueue_disable_cb_split (s_vq s) |>)
  | step_fetch s h :
      s_seen s <> av_idx (avail (s_vq s)) ->
      (av_ring (avail (s_vq s)))⟦DESC_INDEX (num (s_vq s)) (s_seen s)⟧ = Some h ->
      step s (s <| s_seen := u16 (s_seen s + 1) |> <| s_held := h :: s_held s |>)
  | step_use s h len held :
      s_held s ≡ₚ h :: held ->
      step s (s <| s_vq := dev_use (s_vq s) h len |> <| s_held := held |>)
  | step_event s fl ev :
      step s (s <| s_vq := (s_vq s) <| used := (used (s_vq s)) <| us_flags := fl |>
                                                 <| us_avail_event := u16 ev |> |> |>).

(** The ring slots [i, i+1, ...] (modulo the queue size) hold [l]. *)
Definition slots {A} (num : Z) (ring : list A) (i : Z) (l : list A) : Prop :=
  forall k x, l⟦k⟧ = Some x -> ring⟦(i + k) mod num⟧ = Some x.

Record sys_inv (s : sys) (free : list Z) (live : list chain) (avq : list Z)
    (usq : list vring_used_elem) : Prop := {
  si_wf : split_wf (s_vq s) free live;
  si_seen : 0 <= s_seen s < 65536;
  si_usidx : 0 <= us_idx (used (s_vq s)) < 65536;
  si_flags : 0 <= master_flags (s_vq s) < 65536;
  si_heads : (ch_head <$> live) ≡ₚ avq ++ s_held s ++ (ue_id <$> usq);
  si_master : master_idx (s_vq s) = u16 (s_seen s + zlen avq);
  si_used : us_idx (used (s_vq s)) = u16 (last_used (s_vq s) + zlen usq);
  si_avail_slots : slots (num (s_vq s)) (av_ring (avail (s_vq s))) (s_seen s) avq;
  si_used_slots : slots (num (s_vq s)) (us_ring (used (s_vq s))) (last_used (s_vq s)) usq;
  si_mirror : event_suppression_enabled (vdev (s_vq s)) = false ->
    av_flags (avail (s_vq s)) = master_flags (s_vq s);
  si_history : s_given s ≡ₚ s_taken s ++ (ch_opaque <$> live) }.

Definition good (s : sys) : Prop := exists free live avq usq, sys_inv s free live avq usq.

(** A freshly created queue and an idle device. *)
Definition initial (s : sys) : Prop :=
  exists k index vdev notify, 0 <= k <= 15 /\
    vring_new_virtqueue_split index (2 ^ k) vdev (zero_mem (2 ^ k)) notify =
      Ok (Some (s_vq s)) /\
    s_seen s = 0 /\ s_held s = [] /\ s_given s = [] /\ s_taken s = [].

Definition reachable (s : sys) : Prop := exists s0, initial s0 /\ rtc step s0 s.

(** ** Ring slots *)

Section slots.
Context {A : Type} (num : Z) (Hnum : 0 < num).
Implicit Types (ring l : list A).

Lemma slots_nil ring i : slots num ring i [].
Proof. intros k x Hx. apply zlookup_lt in Hx. rewrite (@zlen_nil A) in Hx. lia. Qed.

Lemma slots_tail ring i x l : slots num ring i (x :: l) -> slots num ring (i + 1) l.
Proof.
  intros H k y Hk. pose proof (zlookup_lt _ _ _ Hk).
  replace (i + 1 + k) with (i + (k + 1)) by lia. apply H.
  unfold zlookup in *. destruct (Z.leb_spec 0 k); [|lia].
  replace (0 <=? k + 1) with true by lia. by replace (Z.to_nat (k + 1)) with (S (Z.to_nat k)) by lia.
Qed.

Lemma slots_head ring i x l : slots num ring i (x :: l) -> ring⟦i mod num⟧ = Some x.
Proof. intros H. rewrite <- (Z.add_0_r i). by apply H. Qed.

(** Moving the base by a multiple of the size of the ring. *)
Lemma slots_mod ring i j l : i mod num = j mod num -> slots num ring i l -> slots num ring j l.
Proof.
  intros E H k x Hk. rewrite <- (H k x Hk). f_equal.
  rewrite Z.add_mod, <- E, <- Z.add_mod by lia. done.
Qed.

(** Writing the slot just after the occupied ones, when there is room. *)
Lemma slots_push ring i l x :
  zlen ring >= num -> zlen l < num -> slots num ring i l ->
  slots num (zinsert ((i + zlen l) mod num) x ring) i (l ++ [x]).
Proof.
  intros Hr Hl H k y Hk. pose proof (zlookup_lt _ _ _ Hk) as Hlt.
  assert (Hlt' : 0 <= k <= zlen l) by (unfold zlen in *; rewrite length_app in Hlt; cbn in Hlt; lia). clear Hlt.
  pose proof (Z.mod_pos_bound (i + zlen l) num Hnum). pose proof (zlen_nonneg l).
  destruct (decide (k = zlen l)) as [->|Hne].
  - rewrite zlookup_zinsert_eq by lia. f_equal.
    unfold zlookup, zlen in Hk. destruct (Z.leb_spec 0 (Z.of_nat (length l))); [|lia].
    rewrite Nat2Z.id, lookup_app_r, Nat.sub_diag in Hk by done. cbn in Hk. congruence.
  - rewrite zlookup_zinsert_ne.
    + apply H. unfold zlookup, zlen in *. destruct (Z.leb_spec 0 k); [|lia].
      by rewrite lookup_app_l in Hk by lia.
    + intros E. apply Hne.
      assert ((i + zlen l - (i + k)) mod num = 0).
      { rewrite Zminus_mod, E, Z.sub_diag. by apply Z.mod_0_l; lia. }
      rewrite Z.mod_small in * by lia. lia.
Qed.

Lemma slots_other ring i l j x :
  (forall k, 0 <= k < zlen l -> (i + k) mod num <> j) ->
  slots num ring i l -> slots num (zinsert j x ring) i l.
Proof.
  intros Hj H k y Hk. rewrite zlookup_zinsert_ne; [by apply H|].
  intros E. eapply Hj; [by eapply zlookup_lt|done].
Qed.

Lemma slots_ext ring ring' i l :
  (forall j, 0 <= j < num -> ring'⟦j⟧ = ring⟦j⟧) -> slots num ring i l -> slots num ring' i l.
Proof.
  intros E H k x Hk. rewrite E; [by apply H|]. by apply Z.mod_pos_bound.
Qed.

End slots.

(** ** Consequences of the invariant *)

Lemma num_pos vq free live : split_wf vq free live -> 0 < num vq.
Proof. intros H. pose proof (wf_num_bound _ _ _ H). lia. Qed.

Lemma u16_mod_num vq free live x :
  split_wf vq free live -> u16 x mod num vq = x mod num vq.
Proof.
  intros H. destruct (wf_num _ _ _ H) as (k & Hk & ->). unfold u16.
  apply Z.mod_mod_divide.
  exists (2 ^ (16 - k)). rewrite <- Z.pow_add_r by lia.
  by replace (16 - k + k) with 16 by lia.
Qed.

Lemma desc_index_mod vq free live i :
  split_wf vq free live -> DESC_INDEX (num vq) i = i mod num vq.
Proof.
  intros H. destruct (wf_num _ _ _ H) as (k & Hk & ->). unfold DESC_INDEX.
  by rewrite land_pow2_mod by lia.
Qed.

(** The device never owns more buffers than the queue has descriptors. *)
Lemma wf_live_bound vq free live : split_wf vq free live -> zlen live <= num vq - zlen free.
Proof.
  intros H. pose proof (Permutation_length (wf_part _ _ _ H)) as Hl.
  rewrite length_app, length_seqZ in Hl. pose proof (num_pos _ _ _ H).
  enough (length live <= length (mjoin (ch_ids <$> live)))%nat by (unfold zlen; lia).
  pose proof (wf_live _ _ _ H) as Hlive. clear -Hlive.
  induction Hlive as [|c live (Hc & _) _ IH]; [cbn; lia|].
  change (mjoin (ch_ids <$> c :: live)) with (ch_ids c ++ mjoin (ch_ids <$> live)).
  rewrite length_app. cbn [length]. destruct (ch_ids c); [done|]. cbn [length]. lia.
Qed.

Lemma inv_lengths s free live avq usq :
  sys_inv s free live avq usq ->
  zlen avq + zlen (s_held s) + zlen usq = zlen live /\ zlen live <= num (s_vq s).
Proof.
  intros H. pose proof (wf_live_bound _ _ _ (si_wf _ _ _ _ _ H)). pose proof (zlen_nonneg free).
  pose proof (Permutation_length (si_heads _ _ _ _ _ H)) as Hl.
  rewrite !length_app, !length_fmap in Hl. unfold zlen in *. lia.
Qed.

(** ** Preservation *)

Lemma inv_add s sg out in_ opq va phys r va' vq' :
  good s -> add_args_ok sg out in_ opq va ->
  virtqueue_add_buf_split (s_vq s) sg out in_ opq va phys = Ok (r, va', vq') ->
  good (s <| s_vq := vq' |> <| s_given := if r =? 0 then opq :: s_given s else s_given s |>).
Proof.
  intros (free & live & avq & usq & I) (Ho & H1 & H2 & H3 & H4 & H5) He.
  pose proof (si_wf _ _ _ _ _ I) as W.
  assert (Hgive : forall h tl rest ss,
    split_wf vq' rest (mk_chain (h :: tl) ss opq :: live) ->
    published (s_vq s) vq' h ->
    sys_inv (s <| s_vq := vq' |> <| s_given := opq :: s_given s |>)
      rest (mk_chain (h :: tl) ss opq :: live) (avq ++ [h]) usq).
  { intros h tl rest ss W' P. unfold published in P. destruct_and! P.
    pose proof (wf_live_bound _ _ _ W'). pose proof (inv_lengths _ _ _ _ _ I).
    rewrite zlen_cons in *. pose proof (zlen_nonneg rest).
    pose proof (zlen_nonneg (s_held s)). pose proof (zlen_nonneg usq).
    pose proof (wf_avail _ _ _ W). pose proof (num_pos _ _ _ W).
    destruct I. constructor; cbn; try done; try congruence.
    - rewrite si_heads0. cbn. solve_Permutation.
    - rewrite zlen_app, zlen_cons, zlen_nil. replace (master_idx vq') with (u16 (master_idx (s_vq s) + 1)).
      rewrite si_master0. word_lia.
    - replace (av_ring (avail vq')) with
        (zinsert (DESC_INDEX (num (s_vq s)) (master_idx (s_vq s))) h (av_ring (avail (s_vq s)))).
      replace (num vq') with (num (s_vq s)).
      rewrite (desc_index_mod _ _ _ _ W), si_master0, (u16_mod_num _ _ _ _ W).
      apply slots_push; try done; lia.
    - replace (used vq') with (used (s_vq s)). replace (last_used vq') with (last_used (s_vq s)).
      by replace (num vq') with (num (s_vq s)).
    - replace (vdev vq') with (vdev (s_vq s)). intros Ev.
      replace (master_flags vq') with (master_flags (s_vq s)). rewrite <- si_mirror0; done.
    - rewrite si_history0. solve_Permutation. }
  pose proof (add_buf_split_ok _ _ _ sg out in_ opq va phys W Ho H1 H2 H3 H4 H5) as Hadd.
  cbv zeta in Hadd. rewrite He in Hadd.
  destruct (_ && _) eqn:E; [|destruct (Z.leb_spec (out + in_) (zlen free))].
  - destruct Hadd as (tbl' & vq'' & [= -> -> ->] & _ & P & W').
    destruct free as [|h rest]; [rewrite zlen_nil in E; lia|].
    eexists _, _, _, _. apply Hgive; [exact W'|exact P].
  - destruct Hadd as (vq'' & [= -> -> ->] & P & W').
    destruct (Z.to_nat (out + in_)) as [|m] eqn:Em; [lia|].
    destruct free as [|h rest]; [rewrite zlen_nil in *; lia|].
    eexists _, _, _, _. apply Hgive; [exact W'|exact P].
  - injection Hadd as -> -> ->. exists free, live, avq, usq. by destruct I.
Qed.

Lemma used_head s free live avq usq :
  sys_inv s free live avq usq -> last_used (s_vq s) <> us_idx (used (s_vq s)) ->
  exists e usq' c, usq = e :: usq' /\ c ∈ live /\ ue_id e = ch_head c /\
    (us_ring (used (s_vq s)))⟦DESC_INDEX (num (s_vq s)) (last_used (s_vq s))⟧ = Some e.
Proof.
  intros I Hne. destruct usq as [|e usq].
  { destruct Hne. rewrite (si_used _ _ _ _ _ I), zlen_nil, Z.add_0_r.
    rewrite u16_small; [done|]. apply (si_wf _ _ _ _ _ I). }
  assert (Hin : ue_id e ∈ ch_head <$> live).
  { rewrite (si_heads _ _ _ _ _ I), !elem_of_app. right. right. constructor. }
  apply list_elem_of_fmap in Hin as (c & Hc & Hin).
  exists e, usq, c. split_and!; try done.
  rewrite (desc_index_mod _ _ _ _ (si_wf _ _ _ _ _ I)).
  eapply slots_head, (si_used_slots _ _ _ _ _ I).
Qed.

Lemma inv_get s r vq' :
  good s -> virtqueue_get_buf_split (s_vq s) = Ok (r, vq') ->
  good (s <| s_vq := vq' |> <| s_taken := match r with Some (opq, _) => opq :: s_taken s
                                          | None => s_taken s end |>).
Proof.
  intros (free & live & avq & usq & I) He. pose proof (si_wf _ _ _ _ _ I) as W.
  destruct (get_buf_split_ok _ _ _ W) as [Hnone Hsome].
  destruct (decide (last_used (s_vq s) = us_idx (used (s_vq s)))) as [E|E].
  - rewrite (Hnone E) in He. injection He as <- <-. exists free, live, avq, usq. by destruct I.
  - destruct (used_head _ _ _ _ _ I E) as (e & usq' & c & -> & Hc & Hid & Hslot).
    destruct (Hsome c e E Hc Hslot Hid)
      as (vq1 & live' & He1 & Hp & W' & L & M & N & U & V & F & AF & Hring & _).
    rewrite He in He1. injection He1 as -> ->.
    eexists (ch_ids c ++ free), live', avq, usq'.
    pose proof (num_pos _ _ _ W). destruct I. constructor; cbn; try done; try congruence.
    + assert (Hh : ch_head c :: (ch_head <$> live') ≡ₚ avq ++ s_held s ++ (ue_id <$> e :: usq'))
        by (rewrite <- si_heads0, Hp; done).
      rewrite fmap_cons, Hid in Hh. apply (Permutation_cons_inv (a := ch_head c)).
      rewrite Hh. solve_Permutation.
    + rewrite U, L, si_used0, zlen_cons. word_lia.
    + rewrite N. eapply slots_ext; [done| |exact si_avail_slots0]. intros j Hj.
      apply Hring. lia.
    + rewrite N, U, L. eapply slots_mod; [done| |by eapply slots_tail].
      by rewrite (u16_mod_num _ _ _ _ W).
    + rewrite V, F, AF. done.
    + rewrite si_history0, Hp. cbn. solve_Permutation.
Qed.

(** Steps that only touch fields outside the ring contents. *)
Lemma inv_frame s vq' free live avq usq :
  sys_inv s free live avq usq ->
  split_wf vq' free live -> num vq' = num (s_vq s) ->
  (forall j, 0 <= j < num (s_vq s) ->
     (av_ring (avail vq'))⟦j⟧ = (av_ring (avail (s_vq s)))⟦j⟧) ->
  us_ring (used vq') = us_ring (used (s_vq s)) -> us_idx (used vq') = us_idx (used (s_vq s)) ->
  last_used vq' = last_used (s_vq s) -> master_idx vq' = master_idx (s_vq s) ->
  0 <= master_flags vq' < 65536 ->
  (event_suppression_enabled (vdev vq') = false -> av_flags (avail vq') = master_flags vq') ->
  sys_inv (s <| s_vq := vq' |>) free live avq usq.
Proof.
  intros I W N A U1 U2 L M F Mi. pose proof (num_pos _ _ _ W). destruct I.
  constructor; cbn; rewrite ?N, ?U1, ?U2, ?L, ?M; try done.
  eapply slots_ext; [congruence|exact A|done].
Qed.

Lemma inv_fetch s h :
  good s -> s_seen s <> av_idx (avail (s_vq s)) ->
  (av_ring (avail (s_vq s)))⟦DESC_INDEX (num (s_vq s)) (s_seen s)⟧ = Some h ->
  good (s <| s_seen := u16 (s_seen s + 1) |> <| s_held := h :: s_held s |>).
Proof.
  intros (free & live & avq & usq & I) Hne Hh. pose proof (si_wf _ _ _ _ _ I) as W.
  pose proof (num_pos _ _ _ W).
  rewrite (wf_idx _ _ _ W), (desc_index_mod _ _ _ _ W) in *.
  destruct avq as [|h' avq].
  { destruct Hne. rewrite (si_master _ _ _ _ _ I), zlen_nil, Z.add_0_r, u16_small; [done|].
    apply I. }
  assert (h' = h) as ->.
  { pose proof (slots_head _ _ _ _ _ (si_avail_slots _ _ _ _ _ I)). congruence. }
  exists free, live, avq, usq. destruct I. constructor; cbn; try done.
  - apply u16_range.
  - rewrite si_heads0. solve_Permutation.
  - rewrite si_master0, zlen_cons. word_lia.
  - eapply slots_mod; [done| |by eapply slots_tail]. by rewrite (u16_mod_num _ _ _ _ W).
Qed.

Lemma inv_use s h len held :
  good s -> s_held s ≡ₚ h :: held ->
  good (s <| s_vq := dev_use (s_vq s) h len |> <| s_held := held |>).
Proof.
  intros (free & live & avq & usq & I) Hp. pose proof (si_wf _ _ _ _ _ I) as W.
  pose proof (inv_lengths _ _ _ _ _ I). pose proof (num_pos _ _ _ W).
  pose proof (Permutation_length Hp) as Hl. pose proof (wf_used _ _ _ W) as Hu.
  pose proof (zlen_nonneg avq). pose proof (zlen_nonneg held).
  exists free, live, avq, (usq ++ [mk_used_elem h len]).
  destruct I. constructor; cbn; try done.
  - eapply split_wf_irrelevant; try done; try apply W. cbn. apply zlen_zinsert.
  - apply u16_range.
  - rewrite si_heads0, Hp, fmap_app. cbn. solve_Permutation.
  - rewrite si_used0, zlen_app, zlen_cons, zlen_nil. word_lia.
  - rewrite (desc_index_mod _ _ _ _ W), si_used0, (u16_mod_num _ _ _ _ W).
    apply slots_push; try done; try lia. unfold zlen in *. cbn in *. lia.
Qed.

Lemma inv_disable s :
  good s -> good (s <| s_vq := virtqueue_disable_cb_split (s_vq s) |>).
Proof.
  intros (free & live & avq & usq & I). exists free, live, avq, usq.
  assert (F : 0 <= Z.lor (master_flags (s_vq s)) VIRTQ_AVAIL_F_NO_INTERRUPT < 65536).
  { apply (lor_range 16); [done|apply I|done]. }
  unfold virtqueue_disable_cb_split.
  destruct (virtqueue_is_interrupt_enabled_split (s_vq s)); [|by destruct I].
  cbn. destruct (event_suppression_enabled (vdev (s_vq s))) eqn:Ev;
    cbn; apply inv_frame; cbn; try done; try apply I; try congruence;
    apply (split_wf_irrelevant (s_vq s)); try done; apply I.
Qed.

Lemma inv_event s vq' v free live avq usq :
  sys_inv s free live avq usq -> event_frame (s_vq s) vq' free live v -> good (s <| s_vq := vq' |>).
Proof.
  intros I (W1 & _ & _ & U & L & N & M & V & A & F & Mi). exists free, live, avq, usq.
  pose proof (num_pos _ _ _ (si_wf _ _ _ _ _ I)).
  apply inv_frame; try done; try congruence.
  - intros j Hj. apply A. lia.
  - rewrite V. intros Ev. apply Mi; [done|]. by apply I.
Qed.

Lemma inv_enable s b vq' :
  good s -> virtqueue_enable_cb_split (s_vq s) = Ok (b, vq') -> good (s <| s_vq := vq' |>).
Proof.
  intros (free & live & avq & usq & I) He.
  destruct (enable_cb_split_ok _ _ _ (si_wf _ _ _ _ _ I) (si_flags _ _ _ _ _ I)) as (vq1 & He1 & Fr).
  rewrite He in He1. injection He1 as _ <-. by eapply inv_event.
Qed.

Lemma inv_enable_delayed s b vq' :
  good s -> virtqueue_enable_cb_delayed_split (s_vq s) = Ok (b, vq') -> good (s <| s_vq := vq' |>).
Proof.
  intros (free & live & avq & usq & I) He.
  destruct (enable_cb_delayed_ok _ _ _ (si_wf _ _ _ _ _ I) (si_flags _ _ _ _ _ I)) as (vq1 & He1 & Fr).
  rewrite He in He1. injection He1 as _ <-. by eapply inv_event.
Qed.

Lemma inv_kicked s : good s -> good (s <| s_vq := (s_vq s) <| num_added_since_kick := 0 |> |>).
Proof.
  intros (free & live & avq & usq & I). exists free, live, avq, usq.
  apply inv_frame; try done; try apply I. apply (split_wf_irrelevant (s_vq s)); try done; apply I.
Qed.

Lemma step_good s s' : step s s' -> good s -> good s'.
Proof.
  intros [s0 sg out in_ opq va phys r va' vq' Ha He|s0 r vq' He|s0|s0 b vq' He|s0 b vq' He|s0|s0
         |s0 h Hn Hh|s0 h len held Hp|s0 fl ev] G.
  - by eapply inv_add.
  - by eapply inv_get.
  - replace (virtqueue_kick_prepare_split (s_vq s0)).2
      with ((s_vq s0) <| num_added_since_kick := 0 |>)
      by (unfold virtqueue_kick_prepare_split; cbn; by destruct (event_suppression_enabled _)).
    by apply inv_kicked.
  - by eapply inv_enable.
  - by eapply inv_enable_delayed.
  - by apply inv_kicked.
  - by apply inv_disable.
  - by apply inv_fetch.
  - by eapply inv_use.
  - destruct G as (free & live & avq & usq & I). exists free, live, avq, usq.
    apply inv_frame; try done; try apply I.
    apply (split_wf_irrelevant (s_vq s0)); try done; apply I.
Qed.

Lemma initial_good s : initial s -> good s.
Proof.
  intros (k & index & vd & notify & Hk & He & Es & Eh & Eg & Et).
  destruct (new_split_ok index vd notify k Hk) as (vq & He' & W & L & M & F & V & A & U).
  rewrite He in He'. injection He' as <-.
  exists (seqZ 0 (2 ^ k)), [], [], [].
  constructor; rewrite ?Es, ?Eh, ?Eg, ?Et, ?L, ?M, ?F, ?A, ?U; try done; try lia;
    apply slots_nil.
Qed.

Lemma reachable_good s : reachable s -> good s.
Proof.
  intros (s0 & H0 & Hr). apply initial_good in H0.
  induction Hr as [s|s s1 s2 Hs _ IH]; [done|]. by eapply IH, step_good.
Qed.

(** ** Theorems about every reachable state *)

(** Claim C12. In no interleaving of driver operations and device steps does a
    driver operation fault (out-of-range access, failed [ASSERT], endless chain
    walk): [virtqueue_add_buf] with valid arguments, [virtqueue_get_buf],
    [virtqueue_enable_cb], [virtqueue_enable_cb_delayed] and
    [virtqueue_detach_unused_buf] all return, and the device never owns more buffers than the ring has descriptors. *)
Theorem split_system_no_fault s :
  reachable s ->
  (forall sg out in_ opq va phys, add_args_ok sg out in_ opq va ->
     is_ok (virtqueue_add_buf_split (s_vq s) sg out in_ opq va phys) = true) /\
  is_ok (virtqueue_get_buf_split (s_vq s)) = true /\
  is_ok (virtqueue_enable_cb_split (s_vq s)) = true /\
  is_ok (virtqueue_enable_cb_delayed_split (s_vq s)) = true /\
  is_ok (virtqueue_detach_unused_buf_split (s_vq s)) = true /\
  zlen (s_held s) <= num (s_vq s).
Proof.
  intros (free & live & avq & usq & I)%reachable_good. pose proof (si_wf _ _ _ _ _ I) as W.
  split_and!.
  - intros sg out in_ opq va phys (Ho & H1 & H2 & H3 & H4 & H5).
    pose proof (add_buf_split_ok _ _ _ sg out in_ opq va phys W Ho H1 H2 H3 H4 H5) as Hadd.
    cbv zeta in Hadd. destruct (_ && _); [|destruct (_ <=? _)].
    + by destruct Hadd as (? & ? & -> & _).
    + by destruct Hadd as (? & -> & _).
    + by rewrite Hadd.
  - destruct (get_buf_split_ok _ _ _ W) as [Hnone Hsome].
    destruct (decide (last_used (s_vq s) = us_idx (used (s_vq s)))) as [E|E].
    + by rewrite (Hnone E).
    + destruct (used_head _ _ _ _ _ I E) as (e & usq' & c & _ & Hc & Hid & Hslot).
      by destruct (Hsome c e E Hc Hslot Hid) as (? & ? & -> & _).
  - by destruct (enable_cb_split_ok _ _ _ W (si_flags _ _ _ _ _ I)) as (? & -> & _).
  - by destruct (enable_cb_delayed_ok _ _ _ W (si_flags _ _ _ _ _ I)) as (? & -> & _).
  - pose proof (detach_ok _ _ _ W) as Hd. destruct live; [by rewrite Hd|].
    by destruct Hd as (? & ? & ? & _ & -> & _).
  - pose proof (inv_lengths _ _ _ _ _ I). pose proof (zlen_nonneg avq).
    pose proof (zlen_nonneg usq). lia.
Qed.

(** Claim C1. Buffers are neither lost nor duplicated: in every reachable state
    the opaque pointers the driver handed over are, as a multiset, those it has
    got back together with those of the buffers still in flight, and the chain
    the device reads for each of these is intact. *)
Theorem split_system_exactly_once s :
  reachable s ->
  exists live, s_given s ≡ₚ s_taken s ++ (ch_opaque <$> live) /\
    (forall h, h ∈ s_held s -> exists c, c ∈ live /\ h = ch_head c) /\
    forall c, c ∈ live ->
      (opaque (s_vq s))⟦ch_head c⟧ = Some (ch_opaque c) /\
      read_chain (length (desc (s_vq s))) (desc (s_vq s)) (ch_head c) = Some (ch_segs c).
Proof.
  intros (free & live & avq & usq & I)%reachable_good. exists live.
  pose proof (si_wf _ _ _ _ _ I) as W. split; [apply I|]. split.
  - intros h Hh. assert (Hin : h ∈ ch_head <$> live).
    { rewrite (si_heads _ _ _ _ _ I), !elem_of_app. right. by left. }
    apply list_elem_of_fmap in Hin as (c & -> & Hc). eauto.
  - intros c Hc. split; [|by eapply wf_read].
    pose proof (wf_live _ _ _ W) as Hl. rewrite list.Forall_forall in Hl.
    by destruct (Hl c Hc) as (_ & _ & _ & ?).
Qed.

(** The driver takes buffers back in the order the device returned
    them: if the device writes a used element for a head it holds while no other
    is waiting, the next [virtqueue_get_buf_split] returns the opaque pointer the
    driver associated with that head and the length the device wrote. *)
Theorem split_system_get_returns_used s h len held :
  reachable s -> s_held s ≡ₚ h :: held -> virtqueue_has_buf_split (s_vq s) = false ->
  exists opq vq', (opaque (s_vq s))⟦h⟧ = Some opq /\ opq <> 0 /\
    virtqueue_get_buf_split (dev_use (s_vq s) h len) = Ok (Some (opq, len), vq') /\
    virtqueue_has_buf_split vq' = false.
Proof.
  intros Hr Hp Hb.
  assert (G' : good (s <| s_vq := dev_use (s_vq s) h len |> <| s_held := held |>)).
  { apply inv_use; [by apply reachable_good|done]. }
  apply reachable_good in Hr as (free & live & avq & usq & I).
  unfold virtqueue_has_buf_split in *. apply negb_false_iff, Z.eqb_eq in Hb.
  assert (Hin : h ∈ ch_head <$> live).
  { rewrite (si_heads _ _ _ _ _ I), Hp, !elem_of_app. right. left. constructor. }
  apply list_elem_of_fmap in Hin as (c & -> & Hc).
  pose proof (si_wf _ _ _ _ _ I) as W.
  pose proof (wf_live _ _ _ W) as Hl. rewrite list.Forall_forall in Hl.
  destruct (Hl c Hc) as (_ & _ & Hnz & Ho). exists (ch_opaque c).
  set (vq1 := dev_use (s_vq s) (ch_head c) len).
  assert (W1 : split_wf vq1 free live).
  { apply (split_wf_irrelevant (s_vq s)); try done; try apply W. apply zlen_zinsert. }
  pose proof (wf_last _ _ _ W). pose proof (DESC_INDEX_range _ (us_idx (used (s_vq s))) (wf_num _ _ _ W)).
  destruct (proj2 (get_buf_split_ok _ _ _ W1) c (mk_used_elem (ch_head c) len))
    as (vq' & live' & He & _ & _ & L & _ & _ & U & _); try done.
  - cbn. rewrite <- Hb. word_lia.
  - cbn. rewrite Hb. apply zlookup_zinsert_eq. rewrite (wf_used _ _ _ W). lia.
  - exists vq'. split_and!; try done. apply negb_false_iff, Z.eqb_eq.
    rewrite L, U. cbn. by rewrite Hb.
Qed.

(** Claim C23. No wake-up is lost: if [virtqueue_enable_cb_split] reports that
    nothing is pending, then the very next used element the device writes makes
    it interrupt the driver: with event suppression the used event index is
    passed, without it NO_INTERRUPT is clear in the available ring. *)
Theorem split_system_no_lost_interrupt s h len vq' :
  reachable s -> virtqueue_enable_cb_split (s_vq s) = Ok (true, vq') ->
  let vq'' := dev_use vq' h len in
  if event_suppression_enabled (vdev (s_vq s)) then
    exists ev, (av_ring (avail vq''))⟦num vq''⟧ = Some ev /\
      vring_need_event ev (us_idx (used vq'')) (us_idx (used vq')) = true
  else Z.land (av_flags (avail vq'')) VIRTQ_AVAIL_F_NO_INTERRUPT = 0.
Proof.
  intros (free & live & avq & usq & I)%reachable_good He vq''.
  pose proof (si_wf _ _ _ _ _ I) as W.
  destruct (enable_cb_split_ok _ _ _ W (si_flags _ _ _ _ _ I))
    as (vq1 & He1 & W1 & En & Ev & U & L & N & M & V & A & F & Mi).
  rewrite He in He1. injection He1 as Hb <-.
  unfold virtqueue_has_buf_split in Hb. rewrite negb_involutive in Hb.
  symmetry in Hb. apply Z.eqb_eq in Hb. pose proof (wf_last _ _ _ W).
  destruct (event_suppression_enabled (vdev (s_vq s))) eqn:Es.
  - exists (last_used (s_vq s)). cbn. rewrite N. split; [done|].
    rewrite U, <- Hb. unfold vring_need_event. apply Z.ltb_lt. word_lia.
  - cbn. rewrite Mi; [|done|by apply I].
    unfold virtqueue_is_interrupt_enabled_split, truth in En.
    rewrite negb_involutive in En. by apply Z.eqb_eq.
Qed.
