(* ===== verification/SplitExamples.v ===== *)
(** * The split ring theorems on a concrete queue

    A queue of four descriptors with event suppression, a request of one readable
    and one writable element, and the states of a short run of the driver and the
    device.  Each lemma applies a theorem of [SplitRingSpec] or [SplitSystem] to
    them. *)

From Stdlib Require Import ZArith Lia.
From stdpp Require Import base list numbers option relations.
From S2P Require Import Prelude.
From S2P Require Import Virtio.
From S2P Require Import SplitRing.
From S2P Require Import SplitRingSpec.
From S2P Require Import SplitSystem.

Definition queue_of (r : res (option virtqueue_split)) :
    match r with Ok (Some _) => virtqueue_split | _ => unit end :=
  match r with Ok (Some vq) => vq | _ => tt end.

Definition dev0 : VirtIODevice := mk_vdev true 0.
Definition q4 : virtqueue_split :=
  Eval vm_compute in queue_of (vring_new_virtqueue_split 0 4 dev0 (zero_mem 4) 0).
Definition sg2 : list VirtIOBufferDescriptor := [mk_sg 4096 24; mk_sg 8192 10].

Definition queue_after (r : res (Z * option (list vring_desc) * virtqueue_split)) :
    match r with Ok _ => virtqueue_split | _ => unit end :=
  match r with Ok (_, _, vq) => vq | _ => tt end.

(** The queue after adding the request, and a system in which the device has
    fetched it. *)
Definition q4_added : virtqueue_split :=
  Eval vm_compute in queue_after (virtqueue_add_buf_split q4 sg2 1 1 7 None 0).
Definition sys0 : sys := mk_sys q4 0 [] [] [].
Definition sys1 : sys := mk_sys q4_added 0 [] [7] [].
Definition sys2 : sys := mk_sys q4_added 1 [0] [7] [].

Lemma q4_new : vring_new_virtqueue_split 0 4 dev0 (zero_mem 4) 0 = Ok (Some q4).
Proof. vm_compute. reflexivity. Qed.

Lemma q4_add : virtqueue_add_buf_split q4 sg2 1 1 7 None 0 = Ok (VQ_ADD_BUFFER_SUCCESS, None, q4_added).
Proof. vm_compute. reflexivity. Qed.

Lemma q4_wf : split_wf q4 (seqZ 0 4) [].
Proof.
  destruct (new_split_ok 0 dev0 0 2 ltac:(lia)) as (vq & E & W & _).
  change (2 ^ 2) with 4 in E, W. rewrite q4_new in E. by injection E as <-.
Qed.

Lemma sys0_reachable : reachable sys0.
Proof.
  exists sys0. split; [|done]. exists 2, 0, dev0, 0. split; [lia|]. split; [exact q4_new|done].
Qed.

Lemma sys1_reachable : reachable sys1.
Proof.
  destruct sys0_reachable as (s0 & Hi & Hs). exists s0. split; [done|].
  eapply rtc_r; [exact Hs|]. refine (step_add sys0 sg2 1 1 7 None 0 _ None q4_added _ q4_add).
  by split_and!.
Qed.

Lemma sys2_reachable : reachable sys2.
Proof.
  destruct sys1_reachable as (s0 & Hi & Hs). exists s0. split; [done|].
  eapply rtc_r; [exact Hs|]. by refine (step_fetch sys1 0 _ _).
Qed.

Lemma q4_added_wf : exists free live, split_wf q4_added free live /\ (ch_opaque <$> live) = [7].
Proof.
  destruct (reachable_good sys1 sys1_reachable) as (free & live & avq & usq & I).
  exists free, live. split; [exact (si_wf _ _ _ _ _ I)|].
  pose proof (si_history _ _ _ _ _ I) as H. symmetry in H. by apply Permutation_singleton_r in H.
Qed.

Lemma virtqueue_add_buf_split_readable_witness :
  exists va' vq' h, virtqueue_add_buf_split q4 sg2 1 1 7 None 0 = Ok (VQ_ADD_BUFFER_SUCCESS, va', vq') /\
    read_chain 4 (desc vq') h = Some (segs_from 1 0 sg2).
Proof.
  destruct (virtqueue_add_buf_split_readable q4 (seqZ 0 4) [] sg2 1 1 7 None 0 q4_wf) as
    [(va' & vq' & h & E & _ & _ & R & _)|[Hn _]]; [lia|lia|lia|lia|done|done| |done].
  exists va', vq', h. split; [exact E|]. rewrite q4_add in E. injection E as <- <-.
  destruct R as [R|[_ (tbl & [=] & _)]]. exact R.
Defined.

Lemma vring_new_virtqueue_split_correct_witness :
  exists vq, vring_new_virtqueue_split 0 4 dev0 (zero_mem 4) 0 = Ok (Some vq) /\
    split_wf vq (seqZ 0 4) [].
Proof.
  destruct (vring_new_virtqueue_split_correct 0 4 dev0 0 2) as (vq & E & W & _); [lia|lia|lia|].
  by exists vq.
Defined.

Lemma detach_all_correct_witness :
  exists vq', detach_all 2 q4_added = Ok ([7], vq') /\ num_unused vq' = 4.
Proof.
  destruct q4_added_wf as (free & live & W & L).
  destruct (detach_all_correct q4_added free live W) as (opqs & free' & vq' & E & P & _ & N).
  exists vq'. rewrite L in P. apply Permutation_singleton_r in P as ->. split; [|exact N].
  by assert (length live = 1%nat) as <- by (by rewrite <- (length_fmap ch_opaque), L).
Defined.

Lemma virtqueue_kick_prepare_split_correct_witness :
  exists vq', virtqueue_kick_prepare_split q4_added = (true, vq') /\ num_added_since_kick vq' = 0.
Proof.
  pose proof (virtqueue_kick_prepare_split_correct q4_added ltac:(done) ltac:(done) ltac:(done)) as H.
  destruct (virtqueue_kick_prepare_split q4_added) as [b vq']. destruct H as (-> & He & _).
  eexists. split; [f_equal; apply He; [done|]; right; by exists 0|reflexivity].
Defined.

Lemma virtqueue_enable_cb_delayed_split_result_witness :
  exists vq', virtqueue_enable_cb_delayed_split q4_added = Ok (true, vq') /\
    (av_ring (avail vq'))⟦4⟧ = Some 0.
Proof.
  destruct q4_added_wf as (free & live & W & L).
  destruct (virtqueue_enable_cb_delayed_split_result q4_added free live W) as
    (b & vq' & E & _ & A & B & _); [done|done|].
  exists vq'. split; [|exact A]. rewrite E. by rewrite B.
Defined.

Lemma vring_layout_correct_witness :
  let '(_, avail, used) := vring_init 4 4096 4096 in
  avail = 4160 /\ used mod 4096 = 0 /\ used + 38 = 4096 + vring_size_split 4 4096.
Proof.
  pose proof (vring_layout_correct 4096 4 2 12 ltac:(done) ltac:(lia) ltac:(lia) ltac:(lia) ltac:(done)
    ltac:(lia)) as H.
  change (2 ^ 12) with 4096 in H. destruct (vring_init 4 4096 4096) as [[d a] u].
  destruct H as (_ & Ha & _ & Hu & _ & Hs). split; [exact Ha|]. split; [exact Hu|]. lia.
Defined.

Lemma split_system_no_fault_witness : is_ok (virtqueue_get_buf_split q4_added) = true.
Proof. apply (split_system_no_fault sys1 sys1_reachable). Defined.

Lemma split_system_exactly_once_witness :
  exists live, [7] ≡ₚ ch_opaque <$> live /\ forall c, c ∈ live ->
    read_chain 4 (desc q4_added) (ch_head c) = Some (ch_segs c).
Proof.
  destruct (split_system_exactly_once sys2 sys2_reachable) as (live & H & _ & R).
  exists live. split; [exact H|]. intros c Hc. apply (R c Hc).
Defined.

Lemma split_system_get_returns_used_witness :
  exists vq', virtqueue_get_buf_split (dev_use q4_added 0 10) = Ok (Some (7, 10), vq').
Proof.
  destruct (split_system_get_returns_used sys2 0 10 [] sys2_reachable) as (opq & vq' & O & _ & E & _);
    [done|done|].
  injection O as <-. by exists vq'.
Defined.

Lemma split_system_no_lost_interrupt_witness :
  exists vq' ev, virtqueue_enable_cb_split q4_added = Ok (true, vq') /\
    let vq'' := dev_use vq' 0 10 in
    (av_ring (avail vq''))⟦4⟧ = Some ev /\
    vring_need_event ev (us_idx (used vq'')) (us_idx (used vq')) = true.
Proof.
  destruct (virtqueue_enable_cb_split q4_added) as [[b vq']|] eqn:E; [|done].
  assert (b = true) as -> by (vm_compute in E; congruence).
  pose proof (split_system_no_lost_interrupt sys1 0 10 vq' sys1_reachable E) as (ev & H).
  exists vq', ev. split; [done|]. cbv zeta. replace 4 with (num vq'); [exact H|].
  vm_compute in E. injection E as <-. reflexivity.
Defined.
