(* ===== verification/PackedRing.v ===== *)
(** * The packed virtqueue (VirtIO/VirtIORing-Packed.c)

    One ring of descriptors shared by driver and device, two wrap counters, and
    a private array of per-buffer states whose [next] fields thread the list of
    free buffer ids. *)

From Stdlib Require Import ZArith Lia.
From stdpp Require Import base list numbers option.
From S2P Require Import Prelude.
From S2P Require Import Virtio.

Definition VRING_DESC_F_NEXT : Z := 1.
Definition VRING_DESC_F_WRITE : Z := 2.
Definition VRING_DESC_F_INDIRECT : Z := 4.
Definition VRING_PACKED_DESC_F_AVAIL : Z := 7.
Definition VRING_PACKED_DESC_F_USED : Z := 15.
Definition VRING_PACKED_EVENT_FLAG_ENABLE : Z := 0.
Definition VRING_PACKED_EVENT_FLAG_DISABLE : Z := 1.
Definition VRING_PACKED_EVENT_FLAG_DESC : Z := 2.
Definition VRING_PACKED_EVENT_F_WRAP_CTR : Z := 15.

Record vring_packed_desc_event := mk_event { off_wrap : Z; ev_flags : Z }.
#[export] Instance eta_event : Eta vring_packed_desc_event :=
  fun e => mk_event (off_wrap e) (ev_flags e).

Record vring_packed_desc := mk_pdesc { pd_addr : Z; pd_len : Z; pd_id : Z; pd_flags : Z }.
#[export] Instance eta_pdesc : Eta vring_packed_desc :=
  fun d => mk_pdesc (pd_addr d) (pd_len d) (pd_id d) (pd_flags d).

Record vring_desc_state_packed := mk_state { data : Z; st_num : Z; st_next : Z; st_last : Z }.
#[export] Instance eta_state : Eta vring_desc_state_packed :=
  fun s => mk_state (data s) (st_num s) (st_next s) (st_last s).

(** [struct virtqueue_packed], with the memory its [vring] points to. *)
Record virtqueue_packed := mk_packed {
  vdev : VirtIODevice;
  index : Z;
  notification_cb : Z;
  num_added : Z;
  free_head : Z;
  num_free : Z;
  last_used_idx : Z;
  avail_used_flags : Z;
  avail_wrap_counter : bool;
  used_wrap_counter : bool;
  next_avail_idx : Z;
  event_flags_shadow : Z;
  num : Z;
  desc : list vring_packed_desc;
  driver : vring_packed_desc_event;
  device : vring_packed_desc_event;
  desc_state : list vring_desc_state_packed }.
#[export] Instance eta_packed : Eta virtqueue_packed := fun q =>
  mk_packed (vdev q) (index q) (notification_cb q) (num_added q) (free_head q) (num_free q)
    (last_used_idx q) (avail_used_flags q) (avail_wrap_counter q) (used_wrap_counter q)
    (next_avail_idx q) (event_flags_shadow q) (num q) (desc q) (driver q) (device q)
    (desc_state q).

(** [1 << VRING_PACKED_DESC_F_AVAIL | 1 << VRING_PACKED_DESC_F_USED] *)
Definition AVAIL_USED_BITS : Z :=
  Z.lor (BIT VRING_PACKED_DESC_F_AVAIL) (BIT VRING_PACKED_DESC_F_USED).

Definition sizeof_vring_packed_desc : Z := 16.
Definition sizeof_vring_packed_desc_event : Z := 4.

Definition vring_size_packed (num align : Z) : Z :=
  u32 (u32 (num * sizeof_vring_packed_desc) + 2 * sizeof_vring_packed_desc_event).

(** ** Adding buffers *)

(** The loop that fills the indirect table. *)
Fixpoint fill_indirect_packed (n : nat) (i out : Z) (sg : list VirtIOBufferDescriptor)
    (tbl : list vring_packed_desc) : res (list vring_packed_desc) :=
  match n with
  | O => Ok tbl
  | S n =>
      s ← zget sg i;
      d ← zget tbl i;
      tbl ← zset tbl i (d <| pd_flags := if i <? out then 0 else VRING_DESC_F_WRITE |>
                          <| pd_addr := physAddr s |> <| pd_len := sg_length s |>);
      fill_indirect_packed n (i + 1) out sg tbl
  end.

Definition set_pdesc (vq : virtqueue_packed) (i : Z)
    (f : vring_packed_desc -> vring_packed_desc) : res virtqueue_packed :=
  d ← zget (desc vq) i;
  Ok (vq <| desc := zinsert i (f d) (desc vq) |>).

Definition set_state (vq : virtqueue_packed) (i : Z)
    (f : vring_desc_state_packed -> vring_desc_state_packed) : res virtqueue_packed :=
  s ← zget (desc_state vq) i;
  Ok (vq <| desc_state := zinsert i (f s) (desc_state vq) |>).

(** The branch of [virtqueue_add_buf_packed] that uses an indirect table. *)
Definition add_indirect_packed (vq : virtqueue_packed) (sg : list VirtIOBufferDescriptor)
    (out descs_used head id opq : Z) (tbl : list vring_packed_desc) (phys : Z)
    : res (Z * option (list vring_packed_desc) * virtqueue_packed) :=
  tbl ← fill_indirect_packed (Z.to_nat descs_used) 0 out sg tbl;
  vq ← set_pdesc vq head (fun d => d <| pd_addr := phys |>
         <| pd_len := u32 (descs_used * sizeof_vring_packed_desc) |> <| pd_id := id |>);
  vq ← set_pdesc vq head (fun d =>
         d <| pd_flags := Z.lor VRING_DESC_F_INDIRECT (avail_used_flags vq) |>);
  let head := u16 (head + 1) in
  let '(head, vq) :=
    if head >=? num vq
    then (0, vq <| avail_wrap_counter := negb (avail_wrap_counter vq) |>
                <| avail_used_flags := Z.lxor (avail_used_flags vq) AVAIL_USED_BITS |>)
    else (head, vq) in
  let vq := vq <| next_avail_idx := head |> <| num_free := u32 (num_free vq - 1) |>
               <| num_added := u32 (num_added vq + 1) |> in
  s ← zget (desc_state vq) id;
  let vq := vq <| free_head := st_next s |> in
  vq ← set_state vq id (fun s =>
         s <| st_num := 1 |> <| data := opq |> <| st_last := id |>);
  Ok (VQ_ADD_BUFFER_SUCCESS, Some tbl, vq).

(** The loop over the elements in the other branch, [k] iterations from [n];
    returns [i], [curr], [prev] and [head_flags]. *)
Fixpoint packed_fill (k : nat) (n total out : Z) (sg : list VirtIOBufferDescriptor)
    (id i curr prev head_flags : Z) (vq : virtqueue_packed)
    : res (Z * Z * Z * Z * virtqueue_packed) :=
  match k with
  | O => Ok (i, curr, prev, head_flags, vq)
  | S k =>
      let flags := avail_used_flags vq in
      let flags := Z.lor flags (if n <? out then 0 else VRING_DESC_F_WRITE) in
      let flags := if negb (n =? u32 (total - 1)) then Z.lor flags VRING_DESC_F_NEXT else flags in
      s ← zget sg n;
      vq ← set_pdesc vq i (fun d =>
             d <| pd_addr := physAddr s |> <| pd_len := sg_length s |> <| pd_id := id |>);
      '(head_flags, vq) ← (if n =? 0 then Ok (flags, vq)
        else vq ← set_pdesc vq i (fun d => d <| pd_flags := flags |>); Ok (head_flags, vq));
      let prev := curr in
      st ← zget (desc_state vq) curr;
      let curr := st_next st in
      let i := u16 (i + 1) in
      let '(i, vq) :=
        if i >=? num vq
        then (0, vq <| avail_used_flags := Z.lxor (avail_used_flags vq) AVAIL_USED_BITS |>)
        else (i, vq) in
      packed_fill k (n + 1) total out sg id i curr prev head_flags vq
  end.

(** The branch of [virtqueue_add_buf_packed] that uses ring descriptors. *)
Definition add_direct_packed (vq : virtqueue_packed) (sg : list VirtIOBufferDescriptor)
    (out descs_used head id opq : Z) (va_indirect : option (list vring_packed_desc))
    : res (Z * option (list vring_packed_desc) * virtqueue_packed) :=
  if num_free vq <? descs_used then Ok (- ENOSPC, va_indirect, vq)
  else
    '(i, curr, prev, head_flags, vq) ←
      packed_fill (Z.to_nat descs_used) 0 descs_used out sg id head id 0 0 vq;
    let vq := if i <? head
              then vq <| avail_wrap_counter := negb (avail_wrap_counter vq) |> else vq in
    let vq := vq <| num_free := u32 (num_free vq - descs_used) |> <| next_avail_idx := i |>
                 <| free_head := curr |> in
    vq ← set_state vq id (fun s =>
           s <| st_num := u16 descs_used |> <| data := opq |> <| st_last := prev |>);
    vq ← set_pdesc vq head (fun d => d <| pd_flags := head_flags |>);
    Ok (VQ_ADD_BUFFER_SUCCESS, va_indirect,
        vq <| num_added := u32 (num_added vq + descs_used) |>).

Definition virtqueue_add_buf_packed (vq : virtqueue_packed)
    (sg : list VirtIOBufferDescriptor) (out in_ opq : Z)
    (va_indirect : option (list vring_packed_desc)) (phys_indirect : Z)
    : res (Z * option (list vring_packed_desc) * virtqueue_packed) :=
  let descs_used := u32 (out + in_) in
  let head := next_avail_idx vq in
  let id := u16 (free_head vq) in
  _ ← BUG_ON (descs_used =? 0);
  _ ← BUG_ON (id >=? num vq);
  match va_indirect with
  | Some tbl =>
      if num_free vq >? 0
      then add_indirect_packed vq sg out descs_used head id opq tbl phys_indirect
      else add_direct_packed vq sg out descs_used head id opq (Some tbl)
  | None => add_direct_packed vq sg out descs_used head id opq None
  end.

(** ** Getting buffers back *)

Definition detach_buf_packed (vq : virtqueue_packed) (id : Z) : res virtqueue_packed :=
  vq ← set_state vq id (fun s => s <| data := 0 |>);
  st ← zget (desc_state vq) id;
  vq ← set_state vq (st_last st) (fun s => s <| st_next := u16 (free_head vq) |>);
  st ← zget (desc_state vq) id;
  Ok (vq <| free_head := id |> <| num_free := u32 (num_free vq + st_num st) |>).

(** The loop of [virtqueue_detach_unused_buf_packed], [n] iterations from [i]. *)
Fixpoint detach_unused_loop (n : nat) (i : Z) (vq : virtqueue_packed)
    : res (Z * virtqueue_packed) :=
  match n with
  | O =>
      _ ← BUG_ON (negb (num_free vq =? num vq));
      Ok (0, vq)
  | S n =>
      st ← zget (desc_state vq) i;
      if negb (truth (data st)) then detach_unused_loop n (i + 1) vq
      else
        let buf := data st in
        vq ← detach_buf_packed vq i;
        Ok (buf, vq)
  end.
Definition virtqueue_detach_unused_buf_packed (vq : virtqueue_packed)
    : res (Z * virtqueue_packed) :=
  detach_unused_loop (Z.to_nat (num vq)) 0 vq.

Definition is_used_desc_packed (vq : virtqueue_packed) (idx : Z) (used_wrap : bool) : res bool :=
  d ← zget (desc vq) idx;
  let avail := truth (Z.land (pd_flags d) (BIT VRING_PACKED_DESC_F_AVAIL)) in
  let used := truth (Z.land (pd_flags d) (BIT VRING_PACKED_DESC_F_USED)) in
  Ok (Bool.eqb avail used && Bool.eqb used used_wrap).

Definition more_used_packed (vq : virtqueue_packed) : res bool :=
  is_used_desc_packed vq (last_used_idx vq) (used_wrap_counter vq).
Definition virtqueue_has_buf_packed (vq : virtqueue_packed) : res bool := more_used_packed vq.

(** [idx | (wrap << VRING_PACKED_EVENT_F_WRAP_CTR)] *)
Definition mk_off_wrap (idx : Z) (wrap : bool) : Z :=
  Z.lor idx (Z.shiftl (b2z wrap) VRING_PACKED_EVENT_F_WRAP_CTR).

(** [virtqueue_get_buf_packed]; a bad id from the device is [BAD_RING], which
    ends in [KeBugCheck]. *)
Definition virtqueue_get_buf_packed (vq : virtqueue_packed)
    : res (option (Z * Z) * virtqueue_packed) :=
  more ← more_used_packed vq;
  if negb more then Ok (None, vq)
  else
    let last_used := last_used_idx vq in
    d ← zget (desc vq) last_used;
    let id := pd_id d in
    let len := pd_len d in
    if id >=? num vq then Fault BugCheck
    else
      st ← zget (desc_state vq) id;
      if negb (truth (data st)) then Fault BugCheck
      else
        let ret := data st in
        vq ← detach_buf_packed vq id;
        st ← zget (desc_state vq) id;
        let lu := u16 (last_used_idx vq + st_num st) in
        let vq :=
          if lu >=? num vq
          then vq <| last_used_idx := u16 (lu - u16 (num vq)) |>
                  <| used_wrap_counter := negb (used_wrap_counter vq) |>
          else vq <| last_used_idx := lu |> in
        let vq :=
          if event_flags_shadow vq =? VRING_PACKED_EVENT_FLAG_DESC
          then vq <| driver := (driver vq)
                       <| off_wrap := mk_off_wrap (last_used_idx vq) (used_wrap_counter vq) |> |>
          else vq in
        Ok (Some (ret, len), vq).

(** ** Interrupts *)

Definition virtqueue_disable_cb_packed (vq : virtqueue_packed) : virtqueue_packed :=
  if negb (event_flags_shadow vq =? VRING_PACKED_EVENT_FLAG_DISABLE)
  then vq <| event_flags_shadow := VRING_PACKED_EVENT_FLAG_DISABLE |>
          <| driver := (driver vq) <| ev_flags := VRING_PACKED_EVENT_FLAG_DISABLE |> |>
  else vq.

Definition virtqueue_poll_packed (vq : virtqueue_packed) (off_wrap : Z) : res bool :=
  let wrap_counter := truth (Z.shiftr off_wrap VRING_PACKED_EVENT_F_WRAP_CTR) in
  let used_idx := u16 (Z.land off_wrap (Z.lnot (BIT VRING_PACKED_EVENT_F_WRAP_CTR))) in
  is_used_desc_packed vq used_idx wrap_counter.

(** The end of both [enable_cb] variants: turn the events back on. *)
Definition enable_event_flags (vq : virtqueue_packed) : virtqueue_packed :=
  if event_flags_shadow vq =? VRING_PACKED_EVENT_FLAG_DISABLE
  then
    let f := if event_suppression_enabled (vdev vq) then VRING_PACKED_EVENT_FLAG_DESC
             else VRING_PACKED_EVENT_FLAG_ENABLE in
    vq <| event_flags_shadow := f |> <| driver := (driver vq) <| ev_flags := f |> |>
  else vq.

Definition virtqueue_enable_cb_prepare_packed (vq : virtqueue_packed) : Z * virtqueue_packed :=
  let vq :=
    if event_suppression_enabled (vdev vq)
    then vq <| driver := (driver vq)
                 <| off_wrap := mk_off_wrap (last_used_idx vq) (used_wrap_counter vq) |> |>
    else vq in
  let vq := enable_event_flags vq in
  (mk_off_wrap (last_used_idx vq) (used_wrap_counter vq), vq).

Definition virtqueue_enable_cb_packed (vq : virtqueue_packed) : res (bool * virtqueue_packed) :=
  let '(last_used_idx, vq) := virtqueue_enable_cb_prepare_packed vq in
  b ← virtqueue_poll_packed vq (u16 last_used_idx);
  Ok (negb b, vq).

Definition virtqueue_enable_cb_delayed_packed (vq : virtqueue_packed)
    : res (bool * virtqueue_packed) :=
  let vq :=
    if event_suppression_enabled (vdev vq)
    then
      let bufs := u16 (u32 (u32 (num vq - num_free vq) * 3) / 4) in
      let wrap_counter := used_wrap_counter vq in
      let used_idx := u16 (last_used_idx vq + bufs) in
      let '(used_idx, wrap_counter) :=
        if used_idx >=? num vq then (u16 (used_idx - u16 (num vq)), negb wrap_counter)
        else (used_idx, wrap_counter) in
      vq <| driver := (driver vq) <| off_wrap := mk_off_wrap used_idx wrap_counter |> |>
    else vq in
  let vq := enable_event_flags vq in
  b ← is_used_desc_packed vq (last_used_idx vq) (used_wrap_counter vq);
  Ok (negb b, vq).

Definition virtqueue_is_interrupt_enabled_packed (vq : virtqueue_packed) : bool :=
  truth (Z.land (event_flags_shadow vq) VRING_PACKED_EVENT_FLAG_DISABLE).

(** ** Notifications *)

Definition virtqueue_kick_prepare_packed (vq : virtqueue_packed) : bool * virtqueue_packed :=
  let old := u16 (next_avail_idx vq - num_added vq) in
  let new := next_avail_idx vq in
  let vq := vq <| num_added := 0 |> in
  let flags := ev_flags (device vq) in
  if negb (flags =? VRING_PACKED_EVENT_FLAG_DESC)
  then (negb (flags =? VRING_PACKED_EVENT_FLAG_DISABLE), vq)
  else
    let off_wrap := off_wrap (device vq) in
    let wrap_counter := Z.shiftr off_wrap VRING_PACKED_EVENT_F_WRAP_CTR in
    let event_idx := u16 (Z.land off_wrap (Z.lnot (BIT VRING_PACKED_EVENT_F_WRAP_CTR))) in
    let event_idx :=
      if negb (wrap_counter =? b2z (avail_wrap_counter vq))
      then u16 (event_idx - u16 (num vq)) else event_idx in
    (vring_need_event event_idx new old, vq).

Definition virtqueue_kick_always_packed (vq : virtqueue_packed) : Z * virtqueue_packed :=
  (notification_cb vq, vq <| num_added := 0 |>).

(** ** Creation and shutdown *)

Fixpoint init_states (n : nat) (i : Z) (ss : list vring_desc_state_packed)
    : res (list vring_desc_state_packed) :=
  match n with
  | O => Ok ss
  | S n =>
      s ← zget ss i;
      ss ← zset ss i (s <| st_next := u16 (i + 1) |>);
      init_states n (i + 1) ss
  end.

(** [vring_new_virtqueue_packed]: the ring memory at [pages] is left as it is. *)
Definition vring_new_virtqueue_packed (index num : Z) (vdev : VirtIODevice)
    (ring : list vring_packed_desc) (drv dev : vring_packed_desc_event) (notify : Z)
    : res virtqueue_packed :=
  ss ← init_states (Z.to_nat (u32 (num - 1))) 0
         (replicate (Z.to_nat num) (mk_state 0 0 0 0));
  Ok (mk_packed vdev index notify 0 0 num 0 (BIT VRING_PACKED_DESC_F_AVAIL) true true 0 0
        num ring drv dev ss).

Definition zero_packed_ring (num : Z) : list vring_packed_desc :=
  replicate (Z.to_nat num) (mk_pdesc 0 0 0 0).

Definition virtqueue_shutdown_packed (vq : virtqueue_packed) : res virtqueue_packed :=
  vring_new_virtqueue_packed (index vq) (num vq) (vdev vq) (zero_packed_ring (num vq))
    (mk_event 0 0) (mk_event 0 0) (notification_cb vq).
