(* ===== verification/PackedRingSpec.v ===== *)
(** * Correctness of the packed virtqueue

    [packed_wf vq free live] relates the state array to the free buffer ids in
    link order and to the buffers the device owns.  The theorems give the ring
    slots an added buffer occupies, the result of taking a buffer back on every
    branch, the notification decision in terms of ring positions, and the two
    places where the code departs from its intent. *)

From Stdlib Require Import ZArith Lia.
From stdpp Require Import base list numbers option.
From S2P Require Import Prelude.
From S2P Require Import Virtio.
From S2P Require Import PackedRing.

(** A buffer owned by the device: its ids (the first one names it) and the
    driver's opaque pointer. *)
Record pbuf := mk_pbuf { pb_ids : list Z; pb_opaque : Z }.

Definition head_id (l : list Z) : Z := default (-1) (head l).
Definition pb_id (b : pbuf) : Z := head_id (pb_ids b).

(** The ids [ids] are linked by [st_next], starting at [h]. *)
Fixpoint linked (ss : list vring_desc_state_packed) (h : Z) (ids : list Z) : Prop :=
  match ids with
  | [] => True
  | i :: ids => h = i /\ exists s, ss⟦i⟧ = Some s /\ linked ss (st_next s) ids
  end.

Definition buf_ok (ss : list vring_desc_state_packed) (b : pbuf) : Prop :=
  pb_ids b <> [] /\ linked ss (pb_id b) (pb_ids b) /\ pb_opaque b <> 0 /\
  exists s, ss⟦pb_id b⟧ = Some s /\ data s = pb_opaque b /\
    st_num s = zlen (pb_ids b) /\ st_last s = List.last (pb_ids b) (-1).

Record packed_wf (vq : virtqueue_packed) (free : list Z) (live : list pbuf) : Prop := {
  pw_num : 1 <= num vq <= 32768;
  pw_desc : zlen (desc vq) = num vq;
  pw_state : zlen (desc_state vq) = num vq;
  pw_next : 0 <= next_avail_idx vq < num vq;
  pw_last : 0 <= last_used_idx vq < num vq;
  pw_head : 0 <= free_head vq < num vq;
  pw_free : num_free vq = zlen free;
  pw_linked : linked (desc_state vq) (free_head vq) free;
  pw_part : free ++ mjoin (pb_ids <$> live) ≡ₚ seqZ 0 (num vq);
  pw_live : Forall (buf_ok (desc_state vq)) live;
  pw_range : forall i s, (desc_state vq)⟦i⟧ = Some s -> 0 <= st_next s < num vq;
  pw_null : forall i s, (desc_state vq)⟦i⟧ = Some s -> i ∉ (pb_id <$> live) -> data s = 0 }.

(** ** Frame lemmas *)

(** Two state arrays agree on the links of [i]. *)
Definition same_next (ss ss' : list vring_desc_state_packed) (i : Z) : Prop :=
  st_next <$> ss'⟦i⟧ = st_next <$> ss⟦i⟧.

Lemma linked_frame ss ss' h ids :
  (forall i, i ∈ ids -> same_next ss ss' i) -> linked ss h ids -> linked ss' h ids.
Proof.
  revert h. induction ids as [|i ids IH]; intros h Hf; [done|].
  intros (-> & s & Hs & H). split; [done|].
  assert (Hi : same_next ss ss' i) by (apply Hf; constructor).
  unfold same_next in Hi. rewrite Hs in Hi. cbn in Hi.
  destruct (ss'⟦i⟧) as [s'|] eqn:E; [|done]. injection Hi as Hi.
  exists s'. split; [done|]. rewrite Hi.
  apply IH; [|done]. intros j Hj. apply Hf. by constructor.
Qed.

Lemma same_next_insert ss i s s' j :
  ss⟦i⟧ = Some s -> st_next s' = st_next s -> same_next ss (zinsert i s' ss) j.
Proof.
  intros Hs Hn. unfold same_next. destruct (decide (i = j)) as [->|Hne].
  - rewrite zlookup_zinsert_eq, Hs by (by eapply zlookup_lt). cbn. by rewrite Hn.
  - by rewrite zlookup_zinsert_ne.
Qed.

Lemma linked_lookup ss h ids i : linked ss h ids -> i ∈ ids -> exists s, ss⟦i⟧ = Some s.
Proof.
  revert h. induction ids as [|j ids IH]; intros h; [by intros _ ?%elem_of_nil|].
  cbn. intros (-> & d & Hd & H) [->|Hi]%elem_of_cons; eauto.
Qed.

Lemma set_pdesc_ok vq i d f :
  (desc vq)⟦i⟧ = Some d -> set_pdesc vq i f = Ok (vq <| desc := zinsert i (f d) (desc vq) |>).
Proof. intros Hd. unfold set_pdesc. by rewrite (zget_ok _ _ _ Hd). Qed.

Lemma set_state_ok vq i s f :
  (desc_state vq)⟦i⟧ = Some s ->
  set_state vq i f = Ok (vq <| desc_state := zinsert i (f s) (desc_state vq) |>).
Proof. intros Hd. unfold set_state. by rewrite (zget_ok _ _ _ Hd). Qed.

(** ** Filling ring slots *)

(** The AVAIL/USED bits for the slot [j] places after [i]: they flip at the end
    of the ring. *)
Definition slot_bits (auf num i j : Z) : Z :=
  if i + j <? num then auf else Z.lxor auf AVAIL_USED_BITS.

(** The flags of element [n] of a list of [total], [j] places after [i]. *)
Definition slot_flags (auf num total out i n j : Z) : Z :=
  let f := Z.lor (slot_bits auf num i j) (if n + j <? out then 0 else VRING_DESC_F_WRITE) in
  if n + j =? total - 1 then f else Z.lor f VRING_DESC_F_NEXT.

(** What the loop writes in slot [j]; the flags of element 0 are held back. *)
Definition slot_desc (auf num total out id i n j : Z) (s : VirtIOBufferDescriptor)
    (old : vring_packed_desc) : vring_packed_desc :=
  mk_pdesc (physAddr s) (sg_length s) id
    (if n + j =? 0 then pd_flags old else slot_flags auf num total out i n j).

Lemma next_slot i num : 1 <= num <= 32768 -> 0 <= i < num ->
  (if u16 (i + 1) >=? num then 0 else u16 (i + 1)) = (i + 1) mod num.
Proof.
  intros Hn Hi. rewrite u16_small by lia. destruct (Z.geb_spec (i + 1) num).
  - replace (i + 1) with num by lia. by rewrite Z.mod_same by lia.
  - by rewrite Z.mod_small by lia.
Qed.

Lemma slot_bits_step auf num i j : 0 <= i < num -> 0 <= j < num ->
  slot_bits (slot_bits auf num i 1) num ((i + 1) mod num) j = slot_bits auf num i (j + 1).
Proof.
  intros Hi Hj. unfold slot_bits.
  destruct (decide (i + 1 = num)) as [E|E].
  - rewrite E, Z.mod_same by lia. rewrite Z.ltb_irrefl, Z.add_0_l.
    replace (j <? num) with true by lia. by replace (i + (j + 1) <? num) with false by lia.
  - rewrite Z.mod_small by lia. replace (i + 1 <? num) with true by lia.
    by replace (i + 1 + j) with (i + (j + 1)) by lia.
Qed.

Lemma mod_step i j num : 0 < num -> ((i + 1) mod num + j) mod num = (i + (j + 1)) mod num.
Proof.
  intros. rewrite Z.add_mod_idemp_l by lia. f_equal. lia.
Qed.

Lemma slot_distinct i j num : 0 < num -> 0 < j < num -> 0 <= i < num -> (i + j) mod num <> i.
Proof.
  intros Hn Hj Hi E. destruct (decide (i + j < num)).
  - rewrite Z.mod_small in E by lia. lia.
  - replace (i + j) with (i + j - num + 1 * num) in E by lia.
    rewrite Z.mod_add, Z.mod_small in E by lia. lia.
Qed.

(** One iteration of [packed_fill], as an equation. *)
Lemma packed_fill_step k n total out sg id i curr prev hf vq s old st :
  1 <= num vq <= 32768 -> 0 <= i < num vq -> 1 <= total <= 32768 ->
  zlen (desc vq) = num vq ->
  sg⟦n⟧ = Some s -> (desc vq)⟦i⟧ = Some old -> (desc_state vq)⟦curr⟧ = Some st ->
  let auf := avail_used_flags vq in
  packed_fill (S k) n total out sg id i curr prev hf vq =
  packed_fill k (n + 1) total out sg id ((i + 1) mod num vq) (st_next st) curr
    (if n =? 0 then slot_flags auf (num vq) total out i n 0 else hf)
    (vq <| desc := zinsert i (slot_desc auf (num vq) total out id i n 0 s old) (desc vq) |>
        <| avail_used_flags := slot_bits auf (num vq) i 1 |>).
Proof.
  intros Hn Hi Ht Hl Hs Ho Hst auf. cbn [packed_fill].
  rewrite (zget_ok _ _ _ Hs). cbn [mbind res_bind]. erewrite set_pdesc_ok by exact Ho.
  cbn [mbind res_bind]. rewrite u32_small by lia.
  assert (Hfl : (if negb (n =? total - 1)
      then Z.lor (Z.lor auf (if n <? out then 0 else VRING_DESC_F_WRITE)) VRING_DESC_F_NEXT
      else Z.lor auf (if n <? out then 0 else VRING_DESC_F_WRITE)) =
      slot_flags auf (num vq) total out i n 0).
  { unfold slot_flags, slot_bits. rewrite !Z.add_0_r. replace (i <? num vq) with true by lia.
    by destruct (n =? total - 1). }
  unfold slot_desc. rewrite Z.add_0_r. fold auf. rewrite Hfl.
  rewrite <- (next_slot i (num vq)) by done. unfold slot_bits.
  destruct (Z.eqb_spec n 0) as [->|Hn0].
  - cbn [mbind res_bind]. cbn. rewrite (zget_ok _ _ _ Hst). cbn. rewrite u16_small by lia.
    destruct (Z.geb_spec (i + 1) (num vq)), (Z.ltb_spec (i + 1) (num vq)); try lia; done.
  - erewrite set_pdesc_ok by (cbn [desc set_field]; apply zlookup_zinsert_eq; lia).
    cbn [mbind res_bind]. cbn. rewrite (zget_ok _ _ _ Hst), zinsert_zinsert. cbn.
    rewrite u16_small by lia.
    destruct (Z.geb_spec (i + 1) (num vq)), (Z.ltb_spec (i + 1) (num vq)); try lia; done.
Qed.


Lemma slot_flags_step auf num total out i n j : 0 <= i < num -> 0 <= j < num ->
  slot_flags (slot_bits auf num i 1) num total out ((i + 1) mod num) (n + 1) j =
  slot_flags auf num total out i n (j + 1).
Proof.
  intros Hi Hj. unfold slot_flags. rewrite slot_bits_step by done.
  by replace (n + 1 + j) with (n + (j + 1)) by lia.
Qed.

(** What [packed_fill] did to the ring: slot [j] places after [i] describes
    element [n + j], the other slots are unchanged. *)
Definition filled (ds ds' : list vring_packed_desc) (auf num total out id i n : Z)
    (sgs : list VirtIOBufferDescriptor) : Prop :=
  zlen ds' = zlen ds /\
  (forall j s, sgs⟦j⟧ = Some s -> exists old, ds⟦(i + j) mod num⟧ = Some old /\
     ds'⟦(i + j) mod num⟧ = Some (slot_desc auf num total out id i n j s old)) /\
  (forall p, (forall j, 0 <= j < zlen sgs -> p <> (i + j) mod num) -> ds'⟦p⟧ = ds⟦p⟧).

Lemma filled_cons ds ds' auf num total out id i n s sgs old :
  0 <= n -> 0 <= i < num -> zlen ds = num -> zlen (s :: sgs) <= num -> ds⟦i⟧ = Some old ->
  filled (zinsert i (slot_desc auf num total out id i n 0 s old) ds) ds'
    (slot_bits auf num i 1) num total out id ((i + 1) mod num) (n + 1) sgs ->
  filled ds ds' auf num total out id i n (s :: sgs).
Proof.
  intros Hn Hi Hl Hle Ho (Hl' & Hin & Hout). rewrite zlen_cons in Hle.
  rewrite zlen_zinsert in Hl'. split; [done|]. split.
  - intros j s' Hj. pose proof (zlookup_lt _ _ _ Hj) as Hr. rewrite zlen_cons in Hr.
    destruct (decide (j = 0)) as [->|Hj0].
    + injection Hj as <-. rewrite Z.add_0_r, Z.mod_small by lia. exists old. split; [done|].
      rewrite Hout; [apply zlookup_zinsert_eq; lia|].
      intros j Hj E. rewrite mod_step in E by lia. symmetry in E.
      apply slot_distinct in E; lia.
    + destruct (Hin (j - 1) s') as (o & Ho' & Hd).
      { unfold zlookup in *. replace (0 <=? j) with true in Hj by lia.
        replace (0 <=? j - 1) with true by lia.
        replace (Z.to_nat j) with (S (Z.to_nat (j - 1))) in Hj by lia. done. }
      rewrite mod_step in Ho', Hd by lia. replace (j - 1 + 1) with j in Ho', Hd by lia.
      rewrite zlookup_zinsert_ne in Ho'
        by (intros E; symmetry in E; apply slot_distinct in E; lia).
      exists o. split; [done|]. rewrite Hd. unfold slot_desc.
      rewrite slot_flags_step by lia.
      replace (n + 1 + (j - 1)) with (n + j) by lia. by replace (j - 1 + 1) with j by lia.
  - intros p Hp. rewrite Hout.
    + apply zlookup_zinsert_ne. specialize (Hp 0). rewrite zlen_cons, Z.add_0_r in Hp.
      rewrite Z.mod_small in Hp by lia. pose proof (zlen_nonneg sgs).
      intros <-. by apply Hp; [lia|].
    + intros j Hj. rewrite mod_step by lia. apply Hp. rewrite zlen_cons. lia.
Qed.

Lemma packed_fill_ok sgs : forall n total out sg tl id i curr prev hf vq ids rest,
  1 <= num vq <= 32768 -> 0 <= i < num vq -> zlen (desc vq) = num vq ->
  1 <= total <= 32768 -> 0 <= n -> drop (Z.to_nat n) sg = sgs ++ tl ->
  length ids = length sgs -> zlen sgs <= num vq ->
  linked (desc_state vq) curr (ids ++ rest) -> 0 <= curr < num vq ->
  (forall i s, (desc_state vq)⟦i⟧ = Some s -> 0 <= st_next s < num vq) ->
  let auf := avail_used_flags vq in
  exists ds curr',
    packed_fill (length sgs) n total out sg id i curr prev hf vq =
    Ok ((i + zlen sgs) mod num vq, curr', List.last ids prev,
        (if (n =? 0) && negb (zlen sgs =? 0) then slot_flags auf (num vq) total out i n 0 else hf),
        vq <| desc := ds |>
           <| avail_used_flags := slot_bits auf (num vq) i (zlen sgs) |>) /\
    filled (desc vq) ds auf (num vq) total out id i n sgs /\
    linked (desc_state vq) curr' rest /\ 0 <= curr' < num vq.
Proof.
  induction sgs as [|s sgs IH]; intros n total out sg tl id i curr prev hf vq ids rest
    Hnum Hi Hl Ht Hn Hd Hlen Hle Hlk Hc Hrg auf.
  - destruct ids; [|done]. exists (desc vq), curr. cbn. rewrite !Z.add_0_r, Z.mod_small by lia.
    rewrite andb_false_r. unfold slot_bits. rewrite Z.add_0_r.
    replace (i <? num vq) with true by lia. split_and!; try done; try lia.
    + unfold auf. by destruct vq.
    + split; [done|]. split; [|done]. intros j ? Hj%zlookup_lt. unfold zlen in Hj; cbn in Hj; lia.
  - destruct ids as [|c ids]; [done|]. cbn in Hlk. destruct Hlk as (-> & st & Hst & Hlk).
    destruct (zlookup_in_range (desc vq) i) as [old Ho]; [lia|].
    destruct (zlookup_drop sg n s (sgs ++ tl)) as [Hs Hd']; [done..|].
    cbn [length]. rewrite (packed_fill_step _ _ _ _ _ _ _ _ _ _ _ s old st) by done. fold auf.
    rewrite zlen_cons in Hle |- *. cbn in Hlen. pose proof (zlen_nonneg sgs) as Hz.
    edestruct (IH (n + 1) total out sg tl id ((i + 1) mod num vq) (st_next st) c
      (if n =? 0 then slot_flags auf (num vq) total out i n 0 else hf)
      (vq <| desc := zinsert i (slot_desc auf (num vq) total out id i n 0 s old) (desc vq) |>
          <| avail_used_flags := slot_bits auf (num vq) i 1 |>) ids rest)
      as (ds & curr' & E & F & L & C); [try done; cbn; try lia .. |].
    { apply Z.mod_pos_bound. lia. }
    { by rewrite zlen_zinsert. }
    { by apply Hrg in Hst. }
    cbn in E, F. exists ds, curr'. rewrite E, last_cons_default, mod_step, slot_bits_step by lia.
    rewrite (Z.add_comm (zlen sgs) 1) at 1. replace (1 + zlen sgs) with (zlen sgs + 1) by lia.
    replace (n + 1 =? 0) with false by lia. replace (zlen sgs + 1 =? 0) with false by lia.
    cbn. rewrite andb_true_r. split_and!; try done; try apply C.
    apply (filled_cons _ _ _ _ _ _ _ _ _ _ _ old); try done. rewrite zlen_cons; lia.
Qed.

(** ** Consequences of the invariant *)

Section wf.
Context {vq : virtqueue_packed} {free : list Z} {live : list pbuf}.
Hypothesis W : packed_wf vq free live.

Lemma pw_nodup : NoDup (free ++ mjoin (pb_ids <$> live)).
Proof. rewrite (pw_part _ _ _ W). apply NoDup_seqZ. Qed.

Lemma pw_id_range i : i ∈ free ++ mjoin (pb_ids <$> live) -> 0 <= i < num vq.
Proof. rewrite (pw_part _ _ _ W). rewrite elem_of_seqZ. lia. Qed.

Lemma pw_join b i : b ∈ live -> i ∈ pb_ids b -> i ∈ mjoin (pb_ids <$> live).
Proof.
  intros Hb Hi. apply list_elem_of_join. exists (pb_ids b). split; [done|].
  apply list_elem_of_fmap. eauto.
Qed.

Lemma pw_buf b : b ∈ live -> buf_ok (desc_state vq) b.
Proof. pose proof (pw_live _ _ _ W) as H. rewrite list.Forall_forall in H. apply H. Qed.

Lemma pw_id_in b : b ∈ live -> pb_id b ∈ pb_ids b.
Proof.
  intros (Hne & _)%pw_buf. unfold pb_id. destruct (pb_ids b); [done|]. constructor.
Qed.

Lemma pw_count : zlen free + zlen (mjoin (pb_ids <$> live)) = num vq.
Proof.
  pose proof (Permutation_length (pw_part _ _ _ W)) as H. pose proof (pw_num _ _ _ W).
  rewrite length_app, length_seqZ in H. unfold zlen. lia.
Qed.
End wf.

Lemma pw_count_cons vq free live b :
  packed_wf vq free (b :: live) -> zlen free + zlen (pb_ids b) <= num vq.
Proof.
  intros W. pose proof (pw_count W) as H.
  change (mjoin (pb_ids <$> b :: live)) with (pb_ids b ++ mjoin (pb_ids <$> live)) in H.
  rewrite zlen_app in H. pose proof (zlen_nonneg (mjoin (pb_ids <$> live))). lia.
Qed.

#[export] Instance packed_wf_perm vq free : Proper ((≡ₚ) ==> iff) (packed_wf vq free).
Proof.
  assert (Himp : forall l l', l ≡ₚ l' -> packed_wf vq free l -> packed_wf vq free l').
  { intros l l' E H. constructor; try apply H.
    - rewrite <- E. apply H.
    - rewrite <- E. apply H.
    - intros i s Hi Hn. eapply H; [done|]. by rewrite E. }
  intros l l' E. split; apply Himp; [done|by symmetry].
Qed.

(** The state of another buffer is untouched by an update that keeps the links. *)
Lemma buf_ok_frame ss ss' b :
  (forall i, i ∈ pb_ids b -> same_next ss ss' i) -> ss'⟦pb_id b⟧ = ss⟦pb_id b⟧ ->
  buf_ok ss b -> buf_ok ss' b.
Proof.
  intros Hn He (H1 & H2 & H3 & H4). split; [done|]. split; [by eapply linked_frame|].
  rewrite He. done.
Qed.

(** Everything the add and get operations leave alone. *)
Definition packed_frame (vq vq' : virtqueue_packed) : Prop :=
  num vq' = num vq /\ vdev vq' = vdev vq /\ index vq' = index vq /\
  notification_cb vq' = notification_cb vq /\ device vq' = device vq /\
  event_flags_shadow vq' = event_flags_shadow vq.

(** The first ids of the free list become a live buffer. *)
Lemma packed_wf_give vq vq' ids rest live opq s :
  packed_wf vq (ids ++ rest) live -> ids <> [] -> opq <> 0 ->
  num vq' = num vq -> zlen (desc vq') = num vq -> 0 <= next_avail_idx vq' < num vq ->
  last_used_idx vq' = last_used_idx vq -> 0 <= free_head vq' < num vq ->
  num_free vq' = zlen rest -> linked (desc_state vq) (free_head vq') rest ->
  (desc_state vq)⟦head_id ids⟧ = Some s ->
  desc_state vq' =
    zinsert (head_id ids) (mk_state opq (zlen ids) (st_next s) (List.last ids (-1)))
      (desc_state vq) ->
  packed_wf vq' rest (mk_pbuf ids opq :: live).
Proof.
  intros W Hne Hopq Rn Rd Rx Rl Rh Rf Hlk Hs Hss.
  pose proof (pw_nodup W) as Hnd. rewrite <- app_assoc in Hnd.
  apply list.NoDup_app in Hnd as (_ & Hdis & (_ & _ & _)%list.NoDup_app).
  assert (Hhd : head_id ids ∈ ids) by (destruct ids; [done|constructor]).
  assert (Hsn : forall j, same_next (desc_state vq) (desc_state vq') j).
  { intros j. rewrite Hss. by eapply same_next_insert. }
  assert (Hr := zlookup_lt _ _ _ Hs).
  constructor; rewrite ?Rn; try done; try apply W.
  - rewrite Hss, zlen_zinsert. apply W.
  - rewrite Rl. apply W.
  - eapply linked_frame; [|done]. auto.
  - rewrite <- (pw_part _ _ _ W). cbn. solve_Permutation.
  - apply list.Forall_cons. split.
    + split; [done|]. cbn. split; [|split; [done|]].
      * eapply linked_frame; [auto|]. pose proof (pw_linked _ _ _ W) as H.
        destruct ids as [|i ids]; [done|]. cbn in H |- *. destruct H as (_ & s' & Hs' & H).
        split; [done|]. exists s'. split; [done|]. clear -H. revert H. generalize (st_next s').
        induction ids as [|j ids IH]; intros h; [done|]. cbn. intros (-> & t & Ht & H).
        split; [done|]. eauto.
      * exists (mk_state opq (zlen ids) (st_next s) (List.last ids (-1))).
        rewrite Hss. split; [by apply zlookup_zinsert_eq|done].
    + rewrite list.Forall_forall. intros b Hb. eapply buf_ok_frame; [auto| |by eapply pw_buf].
      rewrite Hss. apply zlookup_zinsert_ne. intros E.
      apply (Hdis (head_id ids) Hhd). rewrite E. apply elem_of_app. right.
      eapply pw_join; [done..|]. by eapply pw_id_in.
  - intros i t Ht. specialize (Hsn i). unfold same_next in Hsn. rewrite Ht in Hsn.
    destruct ((desc_state vq)⟦i⟧) as [t'|] eqn:E; [|done]. injection Hsn as ->.
    eapply W. done.
  - intros i t Ht [Hn1 Hn2]%not_elem_of_cons. rewrite Hss, zlookup_zinsert_ne in Ht
      by (intros E; by apply Hn1). by eapply W.
Qed.

(** ** Adding a buffer *)

(** The ring after a buffer of [total] elements was written at slot [i]: slot
    [j] places after [i] describes element [j], the other slots are as before. *)
Definition chain_written (ds ds' : list vring_packed_desc) (auf num total out id i : Z)
    (sg : list VirtIOBufferDescriptor) : Prop :=
  (forall j s, 0 <= j < total -> sg⟦j⟧ = Some s ->
     ds'⟦(i + j) mod num⟧ =
     Some (mk_pdesc (physAddr s) (sg_length s) id (slot_flags auf num total out i 0 j))) /\
  (forall p, (forall j, 0 <= j < total -> p <> (i + j) mod num) -> ds'⟦p⟧ = ds⟦p⟧).

(** Writing the head's flags last completes what [packed_fill] left. *)
Lemma filled_written ds ds' auf num total out id i sg d :
  0 <= i < num -> zlen sg = total -> 1 <= total <= num ->
  filled ds ds' auf num total out id i 0 sg -> ds'⟦i⟧ = Some d ->
  chain_written ds (zinsert i (d <| pd_flags := slot_flags auf num total out i 0 0 |>) ds')
    auf num total out id i sg.
Proof.
  intros Hi Hl Ht (_ & Hin & Hout) Hd. split.
  - intros j s Hj Hs. destruct (Hin j s Hs) as (old & _ & Hn).
    destruct (decide (j = 0)) as [->|Hj0].
    + rewrite Z.add_0_r, Z.mod_small in * by lia.
      rewrite zlookup_zinsert_eq by (by eapply zlookup_lt).
      rewrite Hn in Hd. injection Hd as <-. done.
    + rewrite zlookup_zinsert_ne by (intros E; symmetry in E; apply slot_distinct in E; lia).
      rewrite Hn. unfold slot_desc. by replace (0 + j =? 0) with false by lia.
  - intros p Hp. rewrite zlookup_zinsert_ne; [apply Hout; by rewrite Hl|].
    intros <-. apply (Hp 0); [lia|]. by rewrite Z.add_0_r, Z.mod_small by lia.
Qed.

Lemma wrap_if vq (b : bool) :
  (if b then vq <| avail_wrap_counter := negb (avail_wrap_counter vq) |> else vq) =
  vq <| avail_wrap_counter := xorb (avail_wrap_counter vq) b |>.
Proof. destruct vq, b; cbn; by rewrite ?xorb_true_r, ?xorb_false_r. Qed.

Lemma add_direct_packed_ok vq ids rest live sg out opq va :
  packed_wf vq (ids ++ rest) live -> ids <> [] -> zlen sg = zlen ids -> opq <> 0 ->
  let n := zlen ids in
  let i := next_avail_idx vq in
  exists vq', add_direct_packed vq sg out n i (head_id ids) opq va =
      Ok (VQ_ADD_BUFFER_SUCCESS, va, vq') /\
    packed_wf vq' rest (mk_pbuf ids opq :: live) /\ packed_frame vq vq' /\
    last_used_idx vq' = last_used_idx vq /\ used_wrap_counter vq' = used_wrap_counter vq /\
    next_avail_idx vq' = (i + n) mod num vq /\
    avail_used_flags vq' = slot_bits (avail_used_flags vq) (num vq) i n /\
    avail_wrap_counter vq' = xorb (avail_wrap_counter vq) (next_avail_idx vq' <? i) /\
    num_added vq' = u32 (num_added vq + n) /\ driver vq' = driver vq /\
    chain_written (desc vq) (desc vq') (avail_used_flags vq) (num vq) n out (head_id ids) i sg.
Proof.
  intros W Hne Hsg Hopq n i. pose proof (pw_num _ _ _ W) as Hn. pose proof (pw_next _ _ _ W) as Hi.
  pose proof (pw_count W) as Hc. rewrite zlen_app in Hc. pose proof (zlen_nonneg rest).
  pose proof (zlen_nonneg (mjoin (pb_ids <$> live))).
  assert (1 <= n) by (unfold n, zlen; destruct ids; [done|cbn; lia]). fold i in Hi.
  unfold add_direct_packed. rewrite (pw_free _ _ _ W), zlen_app. fold n.
  replace (n + zlen rest <? n) with false by lia.
  assert (Hfh : free_head vq = head_id ids).
  { destruct ids; [done|]. by destruct (pw_linked _ _ _ W). }
  destruct (packed_fill_ok sg 0 n out sg [] (head_id ids) i (head_id ids) 0 0 vq ids rest)
    as (ds & curr & E & F & L & C); try done; try (unfold n in *; lia); try apply W.
  { by rewrite app_nil_r. }
  { unfold zlen in Hsg. lia. }
  { rewrite <- Hfh. apply W. }
  { rewrite <- Hfh. apply W. }
  replace (Z.to_nat n) with (length sg) by (unfold n; rewrite <- Hsg; unfold zlen; lia).
  rewrite E, Hsg. fold n. cbn [mbind res_bind]. cbv zeta.
  replace (_ && _) with true by (cbn; lia).
  destruct (linked_lookup (desc_state vq) (free_head vq) (ids ++ rest) (head_id ids))
    as [s Hs]; [apply W| |].
  { apply elem_of_app. left. destruct ids; [done|constructor]. }
  pose proof F as (Fl & _). rewrite (pw_desc _ _ _ W) in Fl.
  destruct (zlookup_in_range ds i) as [d Hd]; [lia|].
  rewrite wrap_if. erewrite set_state_ok by exact Hs. cbn [mbind res_bind].
  erewrite set_pdesc_ok by exact Hd. cbn [mbind res_bind].
  eexists. split; [done|]. split; [|split_and!; try done; eapply filled_written; try done; lia].
  eapply (packed_wf_give vq) with (s := s); try done; cbn; try done; try lia.
  - by rewrite zlen_zinsert.
  - apply Z.mod_pos_bound. lia.
  - rewrite (pw_free _ _ _ W), zlen_app. fold n. rewrite u32_small; lia.
  - rewrite u16_small by lia. do 2 f_equal. destruct ids; [done|]. by rewrite !last_cons_default.
Qed.

(** The indirect table holds one entry per element, in order. *)
Definition table_written (tbl : list vring_packed_desc) (total out : Z)
    (sg : list VirtIOBufferDescriptor) : Prop :=
  forall j s, 0 <= j < total -> sg⟦j⟧ = Some s -> exists id,
    tbl⟦j⟧ = Some (mk_pdesc (physAddr s) (sg_length s) id
                     (if j <? out then 0 else VRING_DESC_F_WRITE)).

Lemma fill_indirect_packed_ok n : forall i out sg tbl,
  0 <= i -> i + Z.of_nat n <= zlen sg -> i + Z.of_nat n <= zlen tbl ->
  table_written tbl i out sg ->
  exists tbl', fill_indirect_packed n i out sg tbl = Ok tbl' /\
    table_written tbl' (i + Z.of_nat n) out sg /\ zlen tbl' = zlen tbl.
Proof.
  induction n as [|n IH]; intros i out sg tbl Hi Hs Ht H.
  - exists tbl. by rewrite Z.add_0_r.
  - destruct (zlookup_in_range sg i) as [s Es]; [lia|].
    destruct (zlookup_in_range tbl i) as [d Ed]; [lia|].
    cbn [fill_indirect_packed]. rewrite (zget_ok _ _ _ Es), (zget_ok _ _ _ Ed).
    cbn [mbind res_bind]. rewrite zset_ok by lia. cbn [mbind res_bind].
    match goal with |- context [zinsert i ?x tbl] => set (d' := x) end.
    destruct (IH (i + 1) out sg (zinsert i d' tbl)) as (tbl' & E & H' & Hl);
      rewrite ?zlen_zinsert in *; try lia.
    + intros j s' Hj Hs'. destruct (decide (j = i)) as [->|Hne].
      * rewrite zlookup_zinsert_eq by lia. rewrite Es in Hs'. injection Hs' as <-.
        by exists (pd_id d).
      * rewrite zlookup_zinsert_ne by lia. apply H; [lia|done].
    + exists tbl'. split; [done|]. split; [|done].
      by replace (i + Z.of_nat (S n)) with (i + 1 + Z.of_nat n) by lia.
Qed.

Lemma wrap_both vq (b : bool) h :
  (if b then (0, vq <| avail_wrap_counter := negb (avail_wrap_counter vq) |>
                    <| avail_used_flags := Z.lxor (avail_used_flags vq) AVAIL_USED_BITS |>)
   else (h, vq)) =
  (if b then 0 else h,
   vq <| avail_wrap_counter := xorb (avail_wrap_counter vq) b |>
      <| avail_used_flags := if b then Z.lxor (avail_used_flags vq) AVAIL_USED_BITS
                             else avail_used_flags vq |>).
Proof. destruct vq, b; cbn; by rewrite ?xorb_true_r, ?xorb_false_r. Qed.

Lemma add_indirect_packed_ok vq id rest live sg out total opq tbl phys :
  packed_wf vq (id :: rest) live -> opq <> 0 -> 1 <= total -> total <= zlen tbl ->
  zlen sg = total -> total * 16 < 4294967296 ->
  let i := next_avail_idx vq in
  exists tbl' vq', add_indirect_packed vq sg out total i id opq tbl phys =
      Ok (VQ_ADD_BUFFER_SUCCESS, Some tbl', vq') /\
    packed_wf vq' rest (mk_pbuf [id] opq :: live) /\ packed_frame vq vq' /\
    last_used_idx vq' = last_used_idx vq /\ used_wrap_counter vq' = used_wrap_counter vq /\
    next_avail_idx vq' = (i + 1) mod num vq /\
    avail_used_flags vq' = slot_bits (avail_used_flags vq) (num vq) i 1 /\
    avail_wrap_counter vq' = xorb (avail_wrap_counter vq) (num vq <=? i + 1) /\
    num_added vq' = u32 (num_added vq + 1) /\ driver vq' = driver vq /\
    table_written tbl' total out sg /\
    desc vq' = zinsert i (mk_pdesc phys (16 * total) id
                 (Z.lor VRING_DESC_F_INDIRECT (avail_used_flags vq))) (desc vq).
Proof.
  intros W Hopq Ht Htl Hsg Hlt i. pose proof (pw_num _ _ _ W) as Hn.
  pose proof (pw_next _ _ _ W) as Hi. fold i in Hi. pose proof (pw_desc _ _ _ W) as Hdl.
  pose proof (pw_count W) as Hc. rewrite zlen_cons in Hc. pose proof (zlen_nonneg rest).
  pose proof (zlen_nonneg (mjoin (pb_ids <$> live))).
  destruct (fill_indirect_packed_ok (Z.to_nat total) 0 out sg tbl) as (tbl' & E & T & _); try lia.
  { intros j s Hj. lia. }
  rewrite Z2Nat.id, Z.add_0_l in T by lia.
  destruct (pw_linked _ _ _ W) as (_ & s & Hs & Hlk).
  destruct (zlookup_in_range (desc vq) i) as [d Hd]; [lia|].
  unfold add_indirect_packed. rewrite E. cbn [mbind res_bind].
  erewrite set_pdesc_ok by exact Hd. cbn [mbind res_bind].
  erewrite set_pdesc_ok by (cbn [desc set_field]; apply zlookup_zinsert_eq; lia).
  cbn [mbind res_bind]. cbv zeta. rewrite wrap_both. cbv beta iota.
  rewrite (zget_ok _ id s) by exact Hs. cbn [mbind res_bind].
  erewrite set_state_ok by exact Hs. cbn [mbind res_bind].
  cbn [desc set_field]. rewrite zinsert_zinsert.
  assert (Hx : (u16 (i + 1) >=? num vq) = (num vq <=? i + 1)).
  { rewrite u16_small by lia. destruct (Z.geb_spec (i + 1) (num vq)); lia. }
  eexists tbl', _. split; [done|]. split; [|split_and!; try done; cbn].
  - eapply (packed_wf_give vq _ [id]) with (s := s); try done; cbn; try done.
    + by rewrite zlen_zinsert.
    + rewrite next_slot by done. apply Z.mod_pos_bound. lia.
    + by eapply W.
    + rewrite (pw_free _ _ _ W), zlen_cons, u32_small by lia. lia.
  - by rewrite next_slot.
  - rewrite Hx. unfold slot_bits.
    by destruct (Z.leb_spec (num vq) (i + 1)), (Z.ltb_spec (i + 1) (num vq)); try lia.
  - by rewrite Hx.
  - unfold sizeof_vring_packed_desc. by rewrite u32_small, (Z.mul_comm total) by lia.
Qed.

(** What [virtqueue_add_buf_packed] promises on success: the new buffer owns the
    ids [ids] and occupies [zlen ids] ring slots from [next_avail_idx]. *)
Record packed_added (vq vq' : virtqueue_packed) (n : Z) : Prop := {
  pa_frame : packed_frame vq vq';
  pa_last : last_used_idx vq' = last_used_idx vq;
  pa_used : used_wrap_counter vq' = used_wrap_counter vq;
  pa_driver : driver vq' = driver vq;
  pa_next : next_avail_idx vq' = (next_avail_idx vq + n) mod num vq;
  pa_flags : avail_used_flags vq' = slot_bits (avail_used_flags vq) (num vq) (next_avail_idx vq) n;
  pa_added : num_added vq' = u32 (num_added vq + n) }.

(** The ways a call to [virtqueue_add_buf_packed] can end on a well-formed queue. *)
Inductive add_result (vq : virtqueue_packed) (free : list Z) (live : list pbuf)
    (sg : list VirtIOBufferDescriptor) (out opq : Z) (va : option (list vring_packed_desc))
    (phys : Z) : res (Z * option (list vring_packed_desc) * virtqueue_packed) -> Prop :=
  | add_nospace :
      zlen free < zlen sg -> (va = None \/ free = []) ->
      add_result vq free live sg out opq va phys (Ok (- ENOSPC, va, vq))
  | add_direct ids rest vq' :
      free = ids ++ rest -> zlen ids = zlen sg -> (va = None \/ free = []) ->
      packed_wf vq' rest (mk_pbuf ids opq :: live) -> packed_added vq vq' (zlen sg) ->
      avail_wrap_counter vq' =
        xorb (avail_wrap_counter vq) (next_avail_idx vq' <? next_avail_idx vq) ->
      chain_written (desc vq) (desc vq') (avail_used_flags vq) (num vq) (zlen sg) out
        (head_id ids) (next_avail_idx vq) sg ->
      add_result vq free live sg out opq va phys (Ok (VQ_ADD_BUFFER_SUCCESS, va, vq'))
  | add_indirect tbl tbl' id rest vq' :
      va = Some tbl -> free = id :: rest ->
      packed_wf vq' rest (mk_pbuf [id] opq :: live) -> packed_added vq vq' 1 ->
      avail_wrap_counter vq' =
        xorb (avail_wrap_counter vq) (num vq <=? next_avail_idx vq + 1) ->
      table_written tbl' (zlen sg) out sg ->
      desc vq' = zinsert (next_avail_idx vq) (mk_pdesc phys (16 * zlen sg) id
                   (Z.lor VRING_DESC_F_INDIRECT (avail_used_flags vq))) (desc vq) ->
      add_result vq free live sg out opq va phys (Ok (VQ_ADD_BUFFER_SUCCESS, Some tbl', vq')).

Lemma add_buf_packed_ok vq free live sg out in_ opq va phys :
  packed_wf vq free live -> opq <> 0 -> 0 <= out -> 0 <= in_ -> zlen sg = out + in_ ->
  1 <= zlen sg -> zlen sg * 16 < 4294967296 ->
  (forall tbl, va = Some tbl -> zlen sg <= zlen tbl) ->
  add_result vq free live sg out opq va phys
    (virtqueue_add_buf_packed vq sg out in_ opq va phys).
Proof.
  intros W Hopq Hout Hin Hsg H1 Hlt Htbl. pose proof (pw_num _ _ _ W) as Hn.
  pose proof (pw_head _ _ _ W) as Hh.
  unfold virtqueue_add_buf_packed. rewrite <- Hsg, u32_small, (u16_small (free_head vq)) by lia.
  unfold BUG_ON. replace (zlen sg =? 0) with false by lia.
  cbn [mbind res_bind]. destruct (Z.geb_spec (free_head vq) (num vq)); [lia|].
  cbn [mbind res_bind].
  assert (Hdir : va = None \/ free = [] ->
    add_result vq free live sg out opq va phys
      (add_direct_packed vq sg out (zlen sg) (next_avail_idx vq) (free_head vq) opq va)).
  { intros Hva. destruct (Z.ltb_spec (zlen free) (zlen sg)) as [Hs|Hs].
    - unfold add_direct_packed. rewrite (pw_free _ _ _ W).
      replace (zlen free <? zlen sg) with true by lia. by constructor.
    - pose (ids := take (length sg) free). pose (rest := drop (length sg) free).
      assert (Hf : free = ids ++ rest) by (symmetry; apply take_drop).
      assert (Hl : zlen ids = zlen sg).
      { unfold ids, zlen in *. rewrite length_take. lia. }
      assert (Hne : ids <> []) by (intros E; rewrite E, zlen_nil in Hl; lia).
      assert (Hfh : free_head vq = head_id ids).
      { pose proof (pw_linked _ _ _ W) as L. rewrite Hf in L. destruct ids; [done|]. by destruct L. }
      rewrite Hf in W.
      destruct (add_direct_packed_ok vq ids rest live sg out opq va) as
        (vq' & E & W' & F & A1 & A2 & A3 & A4 & A5 & A6 & A7 & C); [done..|].
      rewrite <- Hl, Hfh, E. rewrite Hl in *. by eapply add_direct. }
  destruct va as [tbl|]; [|by apply Hdir; left].
  rewrite (pw_free _ _ _ W). destruct free as [|id rest]; [by apply Hdir; right|].
  rewrite zlen_cons. pose proof (zlen_nonneg rest).
  destruct (Z.gtb_spec (zlen rest + 1) 0); [|lia].
  assert (free_head vq = id) as -> by (by destruct (pw_linked _ _ _ W)).
  destruct (add_indirect_packed_ok vq id rest live sg out (zlen sg) opq tbl phys) as
    (tbl' & vq' & E & W' & F & A1 & A2 & A3 & A4 & A5 & A6 & A7 & T & D); try done; [by apply Htbl|].
  rewrite E. by eapply add_indirect.
Qed.

(** ** Taking a buffer back *)

Lemma linked_reclaim ss ss' l x free t : forall h,
  linked ss h (l ++ [x]) -> x ∉ l -> x ∉ free -> linked ss (st_next t) free ->
  (forall i, i <> x -> same_next ss ss' i) -> ss'⟦x⟧ = Some t ->
  linked ss' h ((l ++ [x]) ++ free).
Proof.
  induction l as [|i l IH]; intros h Hl Hx Hxf Hf Hsn Ht.
  - destruct Hl as [-> _]. cbn. split; [done|]. exists t. split; [done|].
    eapply linked_frame; [|done]. intros i Hi. apply Hsn. by intros ->.
  - cbn in Hl |- *. destruct Hl as (-> & s & Hs & Hl).
    apply not_elem_of_cons in Hx as [Hxi Hx]. split; [done|].
    specialize (Hsn i ltac:(done)) as Hi. unfold same_next in Hi. rewrite Hs in Hi.
    destruct (ss'⟦i⟧) as [s'|]; [|done]. injection Hi as Hi. exists s'. split; [done|].
    rewrite Hi. by apply IH.
Qed.

(** Two updates of the state array, in the order of [detach_buf_packed]. *)
Lemma detach_states ss id lst s f :
  ss⟦id⟧ = Some s -> 0 <= lst < zlen ss ->
  let ss1 := zinsert id (s <| data := 0 |>) ss in
  exists t, ss1⟦lst⟧ = Some t /\
    let ss' := zinsert lst (t <| st_next := f |>) ss1 in
    (exists s', ss'⟦id⟧ = Some s' /\ data s' = 0 /\ st_num s' = st_num s) /\
    (exists t', ss'⟦lst⟧ = Some t' /\ st_next t' = f) /\
    (forall i, i <> lst -> same_next ss ss' i) /\
    (forall i u', ss'⟦i⟧ = Some u' -> i <> id ->
       exists u, ss⟦i⟧ = Some u /\ data u' = data u /\ (i <> lst -> u' = u)) /\
    (forall i, is_Some (ss'⟦i⟧) <-> is_Some (ss⟦i⟧)).
Proof.
  intros Hs Hr ss1. assert (Hl1 : zlen ss1 = zlen ss) by apply zlen_zinsert.
  pose proof (zlookup_lt _ _ _ Hs) as Hid.
  destruct (zlookup_in_range ss1 lst) as [t Ht]; [lia|]. exists t. split; [done|]. intros ss'.
  assert (H1 : ss1⟦id⟧ = Some (s <| data := 0 |>)) by (by apply zlookup_zinsert_eq).
  split_and!.
  - destruct (decide (lst = id)) as [->|Hne].
    + exists (t <| st_next := f |>). rewrite H1 in Ht. injection Ht as <-.
      unfold ss'. by rewrite zlookup_zinsert_eq by lia.
    + exists (s <| data := 0 |>). unfold ss'. by rewrite zlookup_zinsert_ne.
  - exists (t <| st_next := f |>). unfold ss'. by rewrite zlookup_zinsert_eq by lia.
  - intros i Hi. unfold same_next, ss'. rewrite zlookup_zinsert_ne by done.
    by eapply same_next_insert.
  - intros i u' Hu Hi. destruct (decide (i = lst)) as [->|Hne].
    + unfold ss' in Hu. rewrite zlookup_zinsert_eq in Hu by lia. injection Hu as <-.
      unfold ss1 in Ht. rewrite zlookup_zinsert_ne in Ht by done. by exists t.
    + unfold ss', ss1 in Hu. rewrite !zlookup_zinsert_ne in Hu by done. by exists u'.
  - intros i. rewrite !zlookup_is_Some. unfold ss', ss1. by rewrite !zlen_zinsert.
Qed.

(** A live buffer goes back to the front of the free list. *)
Lemma packed_wf_take vq vq' free live b :
  packed_wf vq free (b :: live) ->
  num vq' = num vq -> desc vq' = desc vq -> next_avail_idx vq' = next_avail_idx vq ->
  0 <= last_used_idx vq' < num vq -> free_head vq' = pb_id b ->
  num_free vq' = num_free vq + zlen (pb_ids b) ->
  (forall i, is_Some ((desc_state vq')⟦i⟧) <-> is_Some ((desc_state vq)⟦i⟧)) ->
  (exists s', (desc_state vq')⟦pb_id b⟧ = Some s' /\ data s' = 0) ->
  (exists t', (desc_state vq')⟦List.last (pb_ids b) (-1)⟧ = Some t' /\ st_next t' = free_head vq) ->
  (forall i, i <> List.last (pb_ids b) (-1) -> same_next (desc_state vq) (desc_state vq') i) ->
  (forall i u', (desc_state vq')⟦i⟧ = Some u' -> i <> pb_id b ->
     exists u, (desc_state vq)⟦i⟧ = Some u /\ data u' = data u /\
       (i <> List.last (pb_ids b) (-1) -> u' = u)) ->
  packed_wf vq' (pb_ids b ++ free) live.
Proof.
  intros W Rn Rd Rx Rl Rh Rf Hdom (s' & Hs' & Hd0) (t' & Ht' & Hfh) Hsn Hother.
  pose proof (pw_buf W b ltac:(constructor)) as (Hne & Hlk & Hop & _).
  destruct (exists_last Hne) as (l & x & El). rewrite El, List.last_last in *.
  pose proof (pw_nodup W) as Hnd. cbn in Hnd. rewrite El in Hnd.
  apply list.NoDup_app in Hnd as (_ & Hfd & (Hndb & Hdis & _)%list.NoDup_app).
  apply list.NoDup_app in Hndb as (_ & Hxl & _).
  pose proof (zlen_same_domain _ _ Hdom) as Hlen.
  assert (Hbr : forall i, i ∈ l ++ [x] -> 0 <= i < num vq).
  { intros i Hi. apply (pw_id_range W), elem_of_app. right. cbn. rewrite El.
    apply elem_of_app. by left. }
  constructor; rewrite ?Rn, ?Rd, ?Rx, ?Rl; try done; try apply W.
  - rewrite Hlen. apply W.
  - rewrite Rh. apply Hbr. rewrite <- El. eapply (pw_id_in W). constructor.
  - rewrite Rf, (pw_free _ _ _ W), !zlen_app. lia.
  - rewrite Rh. eapply linked_reclaim; try done.
    + intros Hx. apply (Hxl x Hx). constructor.
    + intros Hx. apply (Hfd x Hx). apply elem_of_app. left. apply elem_of_app. right. constructor.
    + rewrite Hfh. apply W.
  - rewrite <- (pw_part _ _ _ W). cbn. rewrite El. solve_Permutation.
  - rewrite list.Forall_forall. intros c Hc.
    pose proof (pw_buf W c ltac:(by constructor)) as Hok.
    assert (Hni : forall i, i ∈ pb_ids c -> i ∉ l ++ [x]).
    { intros i Hi Hin. apply (Hdis i Hin). by eapply pw_join. }
    assert (Hnx : forall i, i ∈ pb_ids c -> i <> x).
    { intros i Hi ->. apply (Hni x Hi), elem_of_app. right. constructor. }
    assert (Hci : pb_id c ∈ pb_ids c) by (eapply (pw_id_in W); by constructor).
    eapply buf_ok_frame; [intros i Hi; apply Hsn; by apply Hnx | | done].
    destruct Hok as (_ & _ & _ & s & Hs & _).
    destruct (proj2 (Hdom (pb_id c))) as [u' Hu']; [by eexists|].
    destruct (Hother _ _ Hu') as (u & Hu & _ & Hq).
    + intros E. apply (Hni _ Hci). rewrite E, <- El. eapply (pw_id_in W). constructor.
    + rewrite Hu', Hu. f_equal. apply Hq. by apply Hnx.
  - intros i s Hi. destruct (decide (i = x)) as [->|Hix].
    + rewrite Ht' in Hi. injection Hi as <-. rewrite Hfh. apply W.
    + specialize (Hsn i Hix). unfold same_next in Hsn. rewrite Hi in Hsn.
      destruct ((desc_state vq)⟦i⟧) eqn:E; [|done]. injection Hsn as ->. by eapply W.
  - intros i s Hi Hn. destruct (decide (i = pb_id b)) as [->|Hib]; [congruence|].
    destruct (Hother _ _ Hi Hib) as (u & Hu & -> & _). eapply W; [done|].
    by apply not_elem_of_cons.
Qed.

(** What reclaiming a buffer leaves alone. *)
Definition packed_reclaimed (vq vq' : virtqueue_packed) : Prop :=
  packed_frame vq vq' /\ last_used_idx vq' = last_used_idx vq /\
  used_wrap_counter vq' = used_wrap_counter vq /\ next_avail_idx vq' = next_avail_idx vq /\
  avail_used_flags vq' = avail_used_flags vq /\
  avail_wrap_counter vq' = avail_wrap_counter vq /\ driver vq' = driver vq /\
  num_added vq' = num_added vq /\ desc vq' = desc vq.

Lemma detach_buf_packed_ok vq free live b :
  packed_wf vq free (b :: live) ->
  exists vq' s', detach_buf_packed vq (pb_id b) = Ok vq' /\
    packed_wf vq' (pb_ids b ++ free) live /\ packed_reclaimed vq vq' /\
    (desc_state vq')⟦pb_id b⟧ = Some s' /\ st_num s' = zlen (pb_ids b).
Proof.
  intros W. pose proof (pw_num _ _ _ W). pose proof (pw_head _ _ _ W).
  pose proof (pw_count_cons _ _ _ _ W) as Hc.
  pose proof (zlen_nonneg free). pose proof (zlen_nonneg (pb_ids b)).
  pose proof (pw_buf W b ltac:(constructor)) as (Hne & _ & Hop & s & Hs & Hd & Hnm & Hlst).
  destruct (detach_states (desc_state vq) (pb_id b) (st_last s) s (u16 (free_head vq)))
    as (t & Ht & D); [done| |].
  { rewrite Hlst, (pw_state _ _ _ W). apply (pw_id_range W), elem_of_app. right. cbn.
    apply elem_of_app. left. destruct (pb_ids b); [done|]. rewrite last_cons_default.
    apply last_elem_of. }
  unfold detach_buf_packed. erewrite set_state_ok by exact Hs. cbn [mbind res_bind].
  rewrite (zget_ok _ _ (s <| data := 0 |>))
    by (cbn [desc_state set_field]; apply zlookup_zinsert_eq; by eapply zlookup_lt).
  cbn [mbind res_bind]. erewrite set_state_ok by exact Ht. cbn [mbind res_bind].
  cbv zeta in D. cbn [desc_state set_field free_head num_free].
  destruct D as ((s' & Hs' & Hd0 & Hsn) & (t' & Ht' & Hn') & D1 & D2 & D3).
  rewrite (zget_ok _ (pb_id b) s') by exact Hs'. cbn [mbind res_bind].
  eexists _, s'. split; [done|]. split; [|split; [done|]; split; [done|congruence]].
  rewrite u16_small in Hn' by lia. rewrite Hlst in Ht', D1, D2.
  eapply packed_wf_take; try exact W; cbn; try done.
  - apply W.
  - rewrite Hsn, Hnm, (pw_free _ _ _ W), u32_small; lia.
  - eauto.
  - rewrite Hlst. eauto.
  - by rewrite Hlst.
  - by rewrite Hlst.
Qed.

(** The slot of the next buffer to take, and whether the device has marked it. *)
Lemma is_used_ok vq idx wrap d : (desc vq)⟦idx⟧ = Some d ->
  is_used_desc_packed vq idx wrap =
  Ok (Bool.eqb (Z.testbit (pd_flags d) 7) wrap && Bool.eqb (Z.testbit (pd_flags d) 15) wrap).
Proof.
  intros Hd. unfold is_used_desc_packed. rewrite (zget_ok _ _ _ Hd). cbn [mbind res_bind].
  rewrite !truth_land_bit by done. unfold VRING_PACKED_DESC_F_AVAIL, VRING_PACKED_DESC_F_USED.
  by destruct (Z.testbit (pd_flags d) 7), (Z.testbit (pd_flags d) 15), wrap.
Qed.

(** The device's view of a slot: used in the round [wrap]. *)
Definition used_mark (d : vring_packed_desc) (wrap : bool) : bool :=
  Bool.eqb (Z.testbit (pd_flags d) 7) wrap && Bool.eqb (Z.testbit (pd_flags d) 15) wrap.

(** The ring position [n] places after [(idx, wrap)]. *)
Definition advance (num idx : Z) (wrap : bool) (n : Z) : Z * bool :=
  ((idx + n) mod num, xorb wrap (num <=? idx + n)).

(** The ways a call to [virtqueue_get_buf_packed] can end on a well-formed queue. *)
Inductive get_result (vq : virtqueue_packed) (free : list Z) (live : list pbuf)
    (d : vring_packed_desc) : res (option (Z * Z) * virtqueue_packed) -> Prop :=
  | get_none : used_mark d (used_wrap_counter vq) = false ->
      get_result vq free live d (Ok (None, vq))
  | get_bad_id : used_mark d (used_wrap_counter vq) = true ->
      pd_id d ∉ (pb_id <$> live) -> get_result vq free live d (Fault BugCheck)
  | get_some b live' vq' : used_mark d (used_wrap_counter vq) = true ->
      pd_id d = pb_id b -> live ≡ₚ b :: live' ->
      packed_wf vq' (pb_ids b ++ free) live' -> packed_frame vq vq' ->
      (last_used_idx vq', used_wrap_counter vq') =
        advance (num vq) (last_used_idx vq) (used_wrap_counter vq) (zlen (pb_ids b)) ->
      next_avail_idx vq' = next_avail_idx vq -> avail_used_flags vq' = avail_used_flags vq ->
      avail_wrap_counter vq' = avail_wrap_counter vq -> num_added vq' = num_added vq ->
      desc vq' = desc vq ->
      driver vq' = (if event_flags_shadow vq =? VRING_PACKED_EVENT_FLAG_DESC
        then mk_event (mk_off_wrap (last_used_idx vq') (used_wrap_counter vq'))
               (ev_flags (driver vq)) else driver vq) ->
      get_result vq free live d (Ok (Some (pb_opaque b, pd_len d), vq')).

(** Fields the invariant does not read may change freely. *)
Lemma packed_wf_irrelevant vq vq' free live :
  packed_wf vq free live -> num vq' = num vq -> desc vq' = desc vq ->
  desc_state vq' = desc_state vq -> next_avail_idx vq' = next_avail_idx vq ->
  0 <= last_used_idx vq' < num vq -> free_head vq' = free_head vq ->
  num_free vq' = num_free vq -> packed_wf vq' free live.
Proof.
  intros W R1 R2 R3 R4 R5 R6 R7. constructor; rewrite ?R1, ?R2, ?R3, ?R4, ?R6, ?R7; try done;
    try apply W.
Qed.

Lemma advance_ok num idx wrap n : 1 <= num <= 32768 -> 0 <= idx < num -> 1 <= n <= num ->
  let lu := u16 (idx + n) in
  (if lu >=? num then (u16 (lu - u16 num), negb wrap) else (lu, wrap)) = advance num idx wrap n /\
  0 <= (advance num idx wrap n).1 < num.
Proof.
  intros Hn Hi Hc lu. unfold lu, advance. rewrite (u16_small (idx + n)), (u16_small num) by lia.
  split; [|apply Z.mod_pos_bound; lia].
  destruct (Z.geb_spec (idx + n) num), (Z.leb_spec num (idx + n)); try lia.
  - rewrite u16_small, xorb_true_r by lia. f_equal.
    rewrite <- (Z.mod_small (idx + n - num) num) by lia.
    replace (idx + n) with (idx + n - num + 1 * num) at 2 by lia. by rewrite Z.mod_add by lia.
  - rewrite xorb_false_r, Z.mod_small by lia. done.
Qed.

Lemma pw_live_range vq free live b : packed_wf vq free live -> b ∈ live -> 0 <= pb_id b < num vq.
Proof.
  intros W Hb. apply (pw_id_range W), elem_of_app. right.
  eapply pw_join; [done|]. by eapply (pw_id_in W).
Qed.

Lemma get_buf_packed_ok vq free live d :
  packed_wf vq free live -> (desc vq)⟦last_used_idx vq⟧ = Some d -> 0 <= pd_id d ->
  get_result vq free live d (virtqueue_get_buf_packed vq).
Proof.
  intros W Hd Hid. pose proof (pw_num _ _ _ W) as Hn. pose proof (pw_last _ _ _ W) as Hl.
  unfold virtqueue_get_buf_packed, more_used_packed. rewrite (is_used_ok _ _ _ _ Hd).
  fold (used_mark d (used_wrap_counter vq)). cbn [mbind res_bind].
  destruct (used_mark d (used_wrap_counter vq)) eqn:Hu; cbn [negb]; [|by constructor].
  rewrite (zget_ok _ _ _ Hd). cbn [mbind res_bind]. cbv zeta.
  destruct (Z.geb_spec (pd_id d) (num vq)) as [Hge|Hlt].
  { constructor; [done|]. intros (b & E & Hb)%list_elem_of_fmap.
    pose proof (pw_live_range _ _ _ _ W Hb). lia. }
  destruct (zlookup_in_range (desc_state vq) (pd_id d)) as [s Hs]; [rewrite (pw_state _ _ _ W); lia|].
  rewrite (zget_ok _ _ _ Hs). cbn [mbind res_bind].
  destruct (decide (pd_id d ∈ pb_id <$> live)) as [Hin|Hni].
  - apply list_elem_of_fmap in Hin as (b & E & Hb).
    pose proof (pw_buf W b Hb) as (Hne & _ & Hop & s0 & Hs0 & Hdt & _).
    apply elem_of_Permutation in Hb as [live' Hp]. rewrite Hp in W.
    rewrite E in Hs. rewrite Hs in Hs0. injection Hs0 as <-.
    rewrite Hdt. replace (truth (pb_opaque b)) with true by (unfold truth; lia). cbn [negb].
    destruct (detach_buf_packed_ok _ _ _ _ W) as (vq1 & s' & Ed & W1 & R & Hs' & Hnum).
    rewrite E, Ed. cbn [mbind res_bind]. rewrite (zget_ok _ _ _ Hs'). cbn [mbind res_bind].
    unfold packed_reclaimed, packed_frame in R. destruct_and! R.
    pose proof (pw_count_cons _ _ _ _ W). pose proof (zlen_nonneg free).
    assert (1 <= zlen (pb_ids b)) by (unfold zlen; destruct (pb_ids b); [done|cbn; lia]).
    destruct (advance_ok (num vq) (last_used_idx vq) (used_wrap_counter vq) (zlen (pb_ids b)))
      as [Ha Hr]; [lia..|].
    rewrite Hnum. replace (last_used_idx vq1) with (last_used_idx vq) by done.
    replace (num vq1) with (num vq) by done.
    match goal with |- context [if event_flags_shadow ?q =? _ then _ else ?q'] =>
      set (vq2 := q) end.
    assert (Hvq2 : vq2 = vq1 <| last_used_idx := (advance (num vq) (last_used_idx vq)
          (used_wrap_counter vq) (zlen (pb_ids b))).1 |>
        <| used_wrap_counter := (advance (num vq) (last_used_idx vq)
          (used_wrap_counter vq) (zlen (pb_ids b))).2 |>).
    { unfold vq2. rewrite <- Ha. replace (used_wrap_counter vq) with (used_wrap_counter vq1) by done.
      destruct (_ >=? _); by destruct vq1. }
    clearbody vq2. subst vq2. set (adv := advance _ _ _ _) in *.
    destruct adv as [a1 a2] eqn:Eadv. cbn [fst snd] in *.
    eapply get_some with (live' := live'); try done; try (destruct (_ =? _); cbn; congruence).
    + destruct (_ =? _); cbn; (eapply packed_wf_irrelevant; [exact W1|..]; try done; cbn; congruence || lia).
    + unfold packed_frame. destruct (_ =? _); cbn; split_and!; done.
    + destruct (_ =? _); cbn; by fold adv.
    + cbn. replace (event_flags_shadow vq1) with (event_flags_shadow vq) by done.
      destruct (event_flags_shadow vq =? _); cbn; by replace (driver vq1) with (driver vq) by done.
  - rewrite (pw_null _ _ _ W _ _ Hs Hni). by constructor.
Qed.

(** ** Creation *)

Lemma init_states_ok n : forall i ss, 0 <= i -> i + Z.of_nat n < zlen ss -> zlen ss <= 32768 ->
  (forall j s, ss⟦j⟧ = Some s -> data s = 0 /\ st_next s = (if j <? i then j + 1 else 0)) ->
  exists ss', init_states n i ss = Ok ss' /\ zlen ss' = zlen ss /\
    (forall j s, ss'⟦j⟧ = Some s ->
       data s = 0 /\ st_next s = (if j <? i + Z.of_nat n then j + 1 else 0)).
Proof.
  induction n as [|n IH]; intros i ss Hi Hl Hm H; cbn [init_states].
  - exists ss. by rewrite Z.add_0_r.
  - destruct (zlookup_in_range ss i) as [s Hs]; [lia|].
    rewrite (zget_ok _ _ _ Hs). cbn [mbind res_bind]. rewrite zset_ok by lia.
    cbn [mbind res_bind]. rewrite u16_small by lia.
    destruct (IH (i + 1) (zinsert i (s <| st_next := i + 1 |>) ss)) as (ss' & E & L & P);
      rewrite ?zlen_zinsert in *; try lia.
    { intros j t Hj. destruct (decide (j = i)) as [->|Hne].
      - rewrite zlookup_zinsert_eq in Hj by lia. injection Hj as <-. cbn.
        replace (i <? i + 1) with true by lia. apply H in Hs as [? _]. done.
      - rewrite zlookup_zinsert_ne in Hj by lia. apply H in Hj as [-> ->]. split; [done|].
        destruct (Z.ltb_spec j i), (Z.ltb_spec j (i + 1)); lia. }
    exists ss'. split; [done|]. split; [lia|].
    by replace (i + Z.of_nat (S n)) with (i + 1 + Z.of_nat n) by lia.
Qed.

Lemma linked_seqZ ss n : forall i,
  (forall j, i <= j < i + Z.of_nat n -> exists s, ss⟦j⟧ = Some s /\
     (j + 1 < i + Z.of_nat n -> st_next s = j + 1)) ->
  linked ss i (seqZ i (Z.of_nat n)).
Proof.
  induction n as [|n IH]; intros i H; [done|]. rewrite seqZ_cons'. split; [done|].
  destruct (H i) as (s & Hs & Hn); [lia|]. exists s. split; [done|].
  destruct n as [|n]; [done|]. rewrite Hn by lia. apply IH. intros j Hj.
  destruct (H j) as (t & Ht & Hx); [lia|]. exists t. split; [done|]. intros. apply Hx. lia.
Qed.

Lemma new_packed_ok index num vdev ring drv dev notify :
  1 <= num <= 32768 -> zlen ring = num ->
  exists vq, vring_new_virtqueue_packed index num vdev ring drv dev notify = Ok vq /\
    packed_wf vq (seqZ 0 num) [] /\ PackedRing.num vq = num /\ PackedRing.vdev vq = vdev /\
    PackedRing.index vq = index /\ notification_cb vq = notify /\ desc vq = ring /\
    driver vq = drv /\ device vq = dev /\ next_avail_idx vq = 0 /\ last_used_idx vq = 0 /\
    avail_used_flags vq = BIT VRING_PACKED_DESC_F_AVAIL /\ avail_wrap_counter vq = true /\
    used_wrap_counter vq = true /\ num_added vq = 0.
Proof.
  intros Hn Hr. unfold vring_new_virtqueue_packed. rewrite u32_small by lia.
  destruct (init_states_ok (Z.to_nat (num - 1)) 0 (replicate (Z.to_nat num) (mk_state 0 0 0 0)))
    as (ss & E & L & P); rewrite ?zlen_replicate in *; try lia.
  { intros j s Hj. pose proof (zlookup_lt _ _ _ Hj) as Hj'. rewrite zlen_replicate in Hj'.
    rewrite zlookup_replicate in Hj by lia. injection Hj as <-. cbn.
    by replace (j <? 0) with false by lia. }
  rewrite E. cbn [mbind res_bind]. eexists. split; [done|]. split; [|by split_and!].
  rewrite Z.add_0_l, Z2Nat.id in P by lia.
  constructor; cbn; try lia; try done.
  - by rewrite zlen_seqZ by lia.
  - rewrite <- (Z2Nat.id num) by lia. apply linked_seqZ. intros j Hj.
    destruct (zlookup_in_range ss j) as [s Hs]; [lia|]. exists s. split; [done|].
    intros Hj'. apply P in Hs as [_ ->]. destruct (Z.ltb_spec j (num - 1)); lia.
  - by rewrite app_nil_r.
  - intros i s Hs. pose proof (zlookup_lt _ _ _ Hs). apply P in Hs as [_ ->].
    destruct (Z.ltb_spec i (num - 1)); lia.
  - intros i s Hs _. by apply P in Hs as [-> _].
Qed.

(** ** Detaching unused buffers *)

Lemma detach_unused_loop_ok vq free live : packed_wf vq free live ->
  forall n idx, idx + Z.of_nat n = num vq -> 0 <= idx ->
  (forall b, b ∈ live -> idx <= pb_id b) ->
  match live with
  | [] => detach_unused_loop n idx vq = Ok (0, vq)
  | _ => exists b live' vq', live ≡ₚ b :: live' /\
      detach_unused_loop n idx vq = Ok (pb_opaque b, vq') /\
      packed_wf vq' (pb_ids b ++ free) live' /\ packed_reclaimed vq vq'
  end.
Proof.
  intros W. induction n as [|n IH]; intros idx Hn Hi Hmin.
  - destruct live as [|b live].
    + cbn. unfold BUG_ON. rewrite (pw_free _ _ _ W). pose proof (pw_count W) as Hc.
      change (zlen free + 0 = num vq) in Hc. by replace (zlen free =? num vq) with true by lia.
    + exfalso. specialize (Hmin b ltac:(constructor)).
      assert (0 <= pb_id b < num vq); [|lia]. apply (pw_id_range W), elem_of_app. right.
      eapply pw_join; [constructor|]. eapply (pw_id_in W). constructor.
  - cbn [detach_unused_loop].
    destruct (zlookup_in_range (desc_state vq) idx) as [s Hs]; [rewrite (pw_state _ _ _ W); lia|].
    rewrite (zget_ok _ _ _ Hs). cbn [mbind res_bind].
    destruct (decide (idx ∈ pb_id <$> live)) as [Hin|Hnin].
    + apply list_elem_of_fmap in Hin as (b & -> & Hb).
      pose proof (pw_buf W b Hb) as (_ & _ & Hop & s0 & Hs0 & Hd & _).
      rewrite Hs in Hs0. injection Hs0 as <-. rewrite Hd.
      replace (truth (pb_opaque b)) with true by (unfold truth; lia). cbn [negb].
      apply elem_of_Permutation in Hb as [live' Hp]. rewrite Hp in W.
      destruct (detach_buf_packed_ok _ _ _ _ W) as (vq1 & s' & E & W1 & R & _).
      rewrite E. cbn [mbind res_bind].
      destruct live as [|b0 live0]; [by apply Permutation_nil_cons in Hp|].
      by exists b, live', vq1.
    + rewrite (pw_null _ _ _ W _ _ Hs Hnin). cbn [truth negb Z.eqb].
      apply IH; [lia..|]. intros b Hb. specialize (Hmin b Hb).
      enough (idx <> pb_id b) by lia. intros ->. apply Hnin, list_elem_of_fmap. eauto.
Qed.

Lemma detach_packed_ok vq free live : packed_wf vq free live ->
  match live with
  | [] => virtqueue_detach_unused_buf_packed vq = Ok (0, vq)
  | _ => exists b live' vq', live ≡ₚ b :: live' /\
      virtqueue_detach_unused_buf_packed vq = Ok (pb_opaque b, vq') /\
      packed_wf vq' (pb_ids b ++ free) live' /\ packed_reclaimed vq vq'
  end.
Proof.
  intros W. pose proof (pw_num _ _ _ W). unfold virtqueue_detach_unused_buf_packed.
  apply detach_unused_loop_ok; try done; try lia. intros b Hb.
  assert (0 <= pb_id b < num vq); [|lia]. apply (pw_id_range W), elem_of_app. right.
  eapply pw_join; [done|]. by eapply (pw_id_in W).
Qed.

(** ** Claims: ownership of buffers *)


(** Claim C14. On a well-formed packed queue [virtqueue_get_buf_packed] returns NULL
    and changes nothing unless the slot at [last_used_idx] carries the used mark
    of the current round; a used id that names no outstanding buffer stops the
    machine; otherwise exactly the named buffer is handed back with the device's
    length, its ids go to the front of the free list, and [last_used_idx] and the
    used wrap counter advance by the number of slots the buffer occupied. *)
Theorem virtqueue_get_buf_packed_outcomes vq free live d :
  packed_wf vq free live -> (desc vq)⟦last_used_idx vq⟧ = Some d -> 0 <= pd_id d ->
  get_result vq free live d (virtqueue_get_buf_packed vq).
Proof. apply get_buf_packed_ok. Qed.

(** The clean-up loop of the drivers: detach until NULL. *)
Fixpoint detach_all_packed (fuel : nat) (vq : virtqueue_packed)
    : res (list Z * virtqueue_packed) :=
  match fuel with
  | O => Fault OutOfFuel
  | S fuel =>
      '(opq, vq) ← virtqueue_detach_unused_buf_packed vq;
      if truth opq then '(l, vq) ← detach_all_packed fuel vq; Ok (opq :: l, vq) else Ok ([], vq)
  end.

(** Detaching until NULL hands back every outstanding buffer of a packed
    queue exactly once and frees every id; in particular the [BUG_ON] at the end
    of [virtqueue_detach_unused_buf_packed] never fires. *)
Theorem detach_all_packed_correct vq free live :
  packed_wf vq free live ->
  exists opqs free' vq', detach_all_packed (S (length live)) vq = Ok (opqs, vq') /\
    opqs ≡ₚ (pb_opaque <$> live) /\ packed_wf vq' free' [] /\ num_free vq' = num vq.
Proof.
  intros W. enough (Hfuel : forall fuel, (length live < fuel)%nat -> exists opqs free' vq',
    detach_all_packed fuel vq = Ok (opqs, vq') /\ opqs ≡ₚ (pb_opaque <$> live) /\
    packed_wf vq' free' [] /\ num_free vq' = num vq) by (apply Hfuel; lia).
  intros fuel. revert vq free live W.
  induction fuel as [|fuel IH]; intros vq free live W Hlt; [lia|]; cbn [detach_all_packed];
    pose proof (detach_packed_ok _ _ _ W) as Hd; destruct live as [|b0 live0].
  - rewrite Hd. exists [], free, vq. split_and!; try done.
    rewrite (pw_free _ _ _ W). pose proof (pw_count W) as Hc.
    change (zlen free + 0 = num vq) in Hc. lia.
  - destruct Hd as (b & live' & vq1 & Hp & Hd & W1 & ((Rn & _) & _)). rewrite Hd.
    cbn [mbind res_bind].
    assert (Hop : pb_opaque b <> 0).
    { rewrite Hp in W. by destruct (pw_buf W b ltac:(constructor)) as (_ & _ & ? & _). }
    replace (truth (pb_opaque b)) with true by (unfold truth; lia).
    destruct (IH vq1 (pb_ids b ++ free) live') as (opqs & free' & vq' & E & Hperm & W' & Hu); [done|..].
    { apply Permutation_length in Hp. cbn in *. lia. }
    rewrite E. cbn [mbind res_bind]. exists (pb_opaque b :: opqs), free', vq'.
    split; [done|]. split; [|split; [done|congruence]].
    rewrite Hp. cbn. by rewrite Hperm.
Qed.

(** A packed queue created over any ring memory of 1 to 32768 slots is
    well formed with every id free, and shutting a queue down gives a queue with
    zeroed ring memory, every id free and the original identity. *)
Theorem vring_new_virtqueue_packed_correct index num vdev ring drv dev notify :
  1 <= num <= 32768 -> zlen ring = num ->
  exists vq, vring_new_virtqueue_packed index num vdev ring drv dev notify = Ok vq /\
    packed_wf vq (seqZ 0 num) [] /\ desc vq = ring /\
    forall vq1 free live, packed_wf vq1 free live -> exists vq2,
      virtqueue_shutdown_packed vq1 = Ok vq2 /\
      packed_wf vq2 (seqZ 0 (PackedRing.num vq1)) [] /\
      desc vq2 = zero_packed_ring (PackedRing.num vq1) /\
      PackedRing.vdev vq2 = PackedRing.vdev vq1 /\ PackedRing.index vq2 = PackedRing.index vq1 /\
      virtqueue_has_buf_packed vq2 = Ok false.
Proof.
  intros Hn Hr. destruct (new_packed_ok index num vdev ring drv dev notify Hn Hr)
    as (vq & E & W & _ & _ & _ & _ & D & _).
  exists vq. split_and!; try done. intros vq1 free live W1. pose proof (pw_num _ _ _ W1).
  unfold virtqueue_shutdown_packed.
  destruct (new_packed_ok (PackedRing.index vq1) (PackedRing.num vq1) (PackedRing.vdev vq1)
    (zero_packed_ring (PackedRing.num vq1)) (mk_event 0 0) (mk_event 0 0) (notification_cb vq1))
    as (vq2 & E2 & W2 & N2 & V2 & I2 & _ & D2 & _ & _ & _ & L2 & _ & _ & U2 & _);
    [done| unfold zero_packed_ring; rewrite zlen_replicate; lia|].
  exists vq2. split_and!; try done.
  unfold virtqueue_has_buf_packed, more_used_packed.
  rewrite (is_used_ok _ _ _ (mk_pdesc 0 0 0 0)), U2; [done|].
  rewrite D2, L2. unfold zero_packed_ring. rewrite zlookup_replicate by lia. done.
Qed.

(** ** Claims: notifications *)

(** The two fields of an event position. *)
Lemma off_wrap_shift off wrap : 0 <= off < 32768 ->
  Z.shiftr (off + 32768 * b2z wrap) VRING_PACKED_EVENT_F_WRAP_CTR = b2z wrap.
Proof.
  intros H. unfold VRING_PACKED_EVENT_F_WRAP_CTR. rewrite Z.shiftr_div_pow2 by lia.
  change (2 ^ 15) with 32768. rewrite Z.mul_comm, Z.div_add, Z.div_small by lia. lia.
Qed.

Lemma off_wrap_wrap off wrap : 0 <= off < 32768 ->
  truth (Z.shiftr (off + 32768 * b2z wrap) VRING_PACKED_EVENT_F_WRAP_CTR) = wrap.
Proof. intros H. rewrite off_wrap_shift by done. by destruct wrap. Qed.

Lemma off_wrap_off off wrap : 0 <= off < 32768 ->
  u16 (Z.land (off + 32768 * b2z wrap) (Z.lnot (BIT VRING_PACKED_EVENT_F_WRAP_CTR))) = off.
Proof.
  intros H. unfold u16, VRING_PACKED_EVENT_F_WRAP_CTR, BIT. change 65536 with (2 ^ 16).
  rewrite <- (land_pow2_mod _ 16), <- Z.land_assoc by lia.
  change (Z.land (Z.lnot (Z.shiftl 1 15)) (2 ^ 16 - 1)) with (2 ^ 15 - 1).
  rewrite land_pow2_mod by lia. change (2 ^ 15) with 32768.
  rewrite Z.mul_comm, Z.mod_add, Z.mod_small by lia. done.
Qed.

(** [virtqueue_kick_prepare_packed] resets the count of added slots.
    Without an event position it obeys the device's flags.  With one, let the
    device's position be [off] in the driver's current round or [off - num] in the
    round before: a notification is asked for exactly when that position lies
    among the slots added since the last kick. *)
Theorem virtqueue_kick_prepare_packed_correct vq off wrap :
  1 <= num vq <= 32768 -> 0 <= next_avail_idx vq < num vq -> 0 <= num_added vq <= num vq ->
  0 <= off < num vq -> off_wrap (device vq) = off + 32768 * b2z wrap ->
  let (b, vq') := virtqueue_kick_prepare_packed vq in
  vq' = vq <| num_added := 0 |> /\
  (ev_flags (device vq) <> VRING_PACKED_EVENT_FLAG_DESC ->
   b = negb (ev_flags (device vq) =? VRING_PACKED_EVENT_FLAG_DISABLE)) /\
  (ev_flags (device vq) = VRING_PACKED_EVENT_FLAG_DESC ->
   let e := if Bool.eqb wrap (avail_wrap_counter vq) then off else off - num vq in
   b = true <-> next_avail_idx vq - num_added vq <= e < next_avail_idx vq).
Proof.
  intros Hn Hx Ha Ho Hw. unfold virtqueue_kick_prepare_packed. cbn [device set_field ev_flags].
  change (device vq <| num_added := 0 |>) with (device vq).
  destruct (Z.eqb_spec (ev_flags (device vq)) VRING_PACKED_EVENT_FLAG_DESC) as [Ef|Ef];
    cbn [negb]; (split; [done|]); split; try done; intros _ || (intros; congruence).
  rewrite Hw.
  change (avail_wrap_counter vq <| num_added := 0 |>) with (avail_wrap_counter vq).
  change (num vq <| num_added := 0 |>) with (num vq).
  rewrite off_wrap_shift, off_wrap_off by lia. replace (b2z wrap =? b2z (avail_wrap_counter vq))
    with (Bool.eqb wrap (avail_wrap_counter vq)) by (by destruct wrap, (avail_wrap_counter vq)).
  unfold vring_need_event. destruct (Bool.eqb wrap (avail_wrap_counter vq)); cbn [negb];
    rewrite Z.ltb_lt; word_lia.
Qed.

(** The avail wrap counter and the bits written in new descriptors agree. *)
Definition wrap_consistent (vq : virtqueue_packed) : Prop :=
  avail_used_flags vq =
    BIT (if avail_wrap_counter vq then VRING_PACKED_DESC_F_AVAIL else VRING_PACKED_DESC_F_USED).

Lemma wrap_consistent_flip vq vq' (b : bool) :
  wrap_consistent vq -> avail_wrap_counter vq' = xorb (avail_wrap_counter vq) b ->
  avail_used_flags vq' = (if b then Z.lxor (avail_used_flags vq) AVAIL_USED_BITS
                          else avail_used_flags vq) ->
  wrap_consistent vq'.
Proof.
  unfold wrap_consistent. intros E -> ->. rewrite E.
  by destruct (avail_wrap_counter vq), b.
Qed.

(** A successful [virtqueue_add_buf_packed] keeps the avail wrap counter
    in step with the AVAIL/USED bits it writes, unless the buffer fills all the
    slots of the ring with direct descriptors: then the write position comes back
    to where it was, the test [i < head] misses the wrap, the bits flip and the
    counter does not. *)
Theorem add_buf_packed_wrap_counter vq free live sg out in_ opq va phys va' vq' :
  packed_wf vq free live -> opq <> 0 -> 0 <= out -> 0 <= in_ -> zlen sg = out + in_ ->
  1 <= zlen sg -> zlen sg * 16 < 4294967296 ->
  (forall tbl, va = Some tbl -> zlen sg <= zlen tbl) -> wrap_consistent vq ->
  virtqueue_add_buf_packed vq sg out in_ opq va phys = Ok (VQ_ADD_BUFFER_SUCCESS, va', vq') ->
  (wrap_consistent vq' <-> ~ (va = None /\ zlen sg = num vq)).
Proof.
  intros W Hop H1 H2 H3 H4 H5 H6 Hc E. pose proof (pw_num _ _ _ W). pose proof (pw_next _ _ _ W).
  pose proof (add_buf_packed_ok vq free live sg out in_ opq va phys W Hop H1 H2 H3 H4 H5 H6) as R.
  rewrite E in R. inversion R as [|ids rest ? Hf Hl Hva W' A Aw C | tbl ? id rest ? Hva Hf W' A Aw T D];
    subst; try done.
  - pose proof (pa_next _ _ _ A) as Hnx. pose proof (pa_flags _ _ _ A) as Hfl.
    pose proof (pw_count W) as Hcnt. rewrite zlen_app, Hl in Hcnt. pose proof (zlen_nonneg rest).
    pose proof (zlen_nonneg (mjoin (pb_ids <$> live))).
    assert (va' = None) as ->.
    { destruct Hva as [?|Hnil]; [done|]. destruct ids; [|done]. rewrite zlen_nil in Hl. lia. }
    assert (Hcase : slot_bits (avail_used_flags vq) (num vq) (next_avail_idx vq) (zlen sg) =
      (if num vq <=? next_avail_idx vq + zlen sg
       then Z.lxor (avail_used_flags vq) AVAIL_USED_BITS else avail_used_flags vq)).
    { unfold slot_bits. destruct (Z.ltb_spec (next_avail_idx vq + zlen sg) (num vq)),
        (Z.leb_spec (num vq) (next_avail_idx vq + zlen sg)); try lia; done. }
    rewrite Hcase in Hfl. clear Hcase. rewrite Hnx in Aw.
    destruct (Z.leb_spec (num vq) (next_avail_idx vq + zlen sg)) as [Hw|Hw].
    + assert (Hm : (next_avail_idx vq + zlen sg) mod num vq = next_avail_idx vq + zlen sg - num vq).
      { symmetry. apply (Z.mod_unique_pos _ _ 1); lia. }
      rewrite Hm in Aw. destruct (decide (zlen sg = num vq)) as [Hfull|Hpart].
      * replace (_ <? _) with false in Aw by lia. rewrite xorb_false_r in Aw.
        split; [|intros Hx; exfalso; by apply Hx].
        unfold wrap_consistent in *. rewrite Hfl, Aw, Hc. by destruct (avail_wrap_counter vq).
      * replace (_ <? _) with true in Aw by lia.
        split; [by intros _ [_ ?]|]. intros _. by apply (wrap_consistent_flip vq vq' true).
    + rewrite Z.mod_small in Aw by lia. replace (_ <? _) with false in Aw by lia.
      split; [intros _ [_ ?]; lia|]. intros _. by apply (wrap_consistent_flip vq vq' false).
  - split; [by intros _ [? _]|]. intros _. apply (wrap_consistent_flip vq vq' _ Hc Aw).
    rewrite (pa_flags _ _ _ A). unfold slot_bits.
    by destruct (Z.ltb_spec (next_avail_idx vq + 1) (num vq)),
      (Z.leb_spec (num vq) (next_avail_idx vq + 1)); try lia.
Qed.

(** ** Claims: interrupts *)

Definition interrupts_off (vq : virtqueue_packed) : Prop :=
  ev_flags (driver vq) = VRING_PACKED_EVENT_FLAG_DISABLE.

(** The driver's shadow of its event flags is what the device reads. *)
Definition shadow_ok (vq : virtqueue_packed) : Prop :=
  event_flags_shadow vq = ev_flags (driver vq) /\
  ev_flags (driver vq) ∈ [VRING_PACKED_EVENT_FLAG_ENABLE; VRING_PACKED_EVENT_FLAG_DISABLE;
                          VRING_PACKED_EVENT_FLAG_DESC].

(** [virtqueue_is_interrupt_enabled_packed] answers the opposite of its
    name: it is true exactly when the device has been told not to interrupt, in
    particular false after [virtqueue_enable_cb_packed] and true after
    [virtqueue_disable_cb_packed]. *)
Theorem virtqueue_is_interrupt_enabled_packed_inverted vq :
  shadow_ok vq ->
  (virtqueue_is_interrupt_enabled_packed vq = true <-> interrupts_off vq) /\
  virtqueue_is_interrupt_enabled_packed (virtqueue_disable_cb_packed vq) = true /\
  virtqueue_is_interrupt_enabled_packed (virtqueue_enable_cb_prepare_packed vq).2 = false.
Proof.
  intros [Hs Hin]. unfold virtqueue_is_interrupt_enabled_packed, interrupts_off, truth.
  rewrite !elem_of_cons, elem_of_nil in Hin.
  assert (Hsh : event_flags_shadow vq = 0 \/ event_flags_shadow vq = 1 \/ event_flags_shadow vq = 2)
    by (rewrite Hs; destruct Hin as [->|[->|[->|Hf]]]; auto; done). rewrite <- Hs. split; [|split].
  - unfold VRING_PACKED_EVENT_FLAG_DISABLE. destruct Hsh as [->|[->| ->]]; done.
  - unfold virtqueue_disable_cb_packed, VRING_PACKED_EVENT_FLAG_DISABLE.
    destruct Hsh as [E|[E|E]]; rewrite E; cbn; rewrite ?E; done.
  - unfold virtqueue_enable_cb_prepare_packed, enable_event_flags, VRING_PACKED_EVENT_FLAG_DISABLE.
    destruct (event_suppression_enabled (vdev vq)) eqn:Ev; cbn;
    destruct Hsh as [E|[E|E]]; rewrite E; cbn; rewrite ?E, ?Ev; done.
Qed.

(** After [virtqueue_enable_cb_packed] the device is not told to stay
    quiet, with event suppression the event position is exactly the slot of the
    next buffer to be taken in its round, and the result is true exactly when that
    slot is not yet marked used, so no completion between the last
    [virtqueue_get_buf_packed] and this call goes unnoticed. *)
Theorem virtqueue_enable_cb_packed_correct vq free live d :
  packed_wf vq free live -> shadow_ok vq -> (desc vq)⟦last_used_idx vq⟧ = Some d ->
  exists vq', virtqueue_enable_cb_packed vq =
      Ok (negb (used_mark d (used_wrap_counter vq)), vq') /\
    packed_wf vq' free live /\ shadow_ok vq' /\ ~ interrupts_off vq' /\ desc vq' = desc vq /\
    (event_suppression_enabled (vdev vq) = true ->
     off_wrap (driver vq') = last_used_idx vq + 32768 * b2z (used_wrap_counter vq)).
Proof.
  intros W [Hs Hin] Hd. pose proof (pw_num _ _ _ W). pose proof (pw_last _ _ _ W) as Hl.
  rewrite !elem_of_cons, elem_of_nil in Hin.
  assert (Hmk : mk_off_wrap (last_used_idx vq) (used_wrap_counter vq) =
                last_used_idx vq + 32768 * b2z (used_wrap_counter vq)).
  { unfold mk_off_wrap, VRING_PACKED_EVENT_F_WRAP_CTR. rewrite lor_shiftl_add; lia. }
  destruct (virtqueue_enable_cb_prepare_packed vq) as [ow vq1] eqn:Ep.
  assert (P : ow = mk_off_wrap (last_used_idx vq) (used_wrap_counter vq) /\
    packed_wf vq1 free live /\ desc vq1 = desc vq /\ shadow_ok vq1 /\ ~ interrupts_off vq1 /\
    (event_suppression_enabled (vdev vq) = true -> off_wrap (driver vq1) = ow)).
  { unfold virtqueue_enable_cb_prepare_packed, enable_event_flags in Ep. injection Ep as <- <-.
    assert (Hsh : event_flags_shadow vq = 0 \/ event_flags_shadow vq = 1 \/ event_flags_shadow vq = 2)
      by (rewrite Hs; destruct Hin as [->|[->|[->|Hf]]]; auto; done).
    destruct (event_suppression_enabled (vdev vq)) eqn:Ev; cbn;
      destruct Hsh as [E|[E|E]]; rewrite E; cbn; rewrite ?E, ?Ev; cbn; split_and!; try done;
      try (eapply packed_wf_irrelevant; [exact W|..]; done || apply W);
      unfold shadow_ok, interrupts_off; cbn; rewrite <- ?Hs, ?E, ?Ev; try done;
      split; try done; rewrite !elem_of_cons; auto. }
  destruct P as (-> & W1 & D1 & S1 & I1 & O1). unfold virtqueue_enable_cb_packed. rewrite Ep.
  unfold virtqueue_poll_packed. 
  rewrite Hmk, (u16_small (last_used_idx vq + _)) by (destruct (used_wrap_counter vq); cbn [b2z]; lia).
  rewrite off_wrap_wrap, off_wrap_off, (is_used_ok _ _ _ d) by (rewrite ?D1; done || lia).
  exists vq1. split_and!; try done. intros Hev. by rewrite (O1 Hev).
Qed.
