(* ===== verification/PackedExamples.v ===== *)
(** * The packed ring theorems on a concrete queue

    A packed queue of four slots, a request of two elements, and the state after
    the device has returned it. *)

From Stdlib Require Import ZArith Lia.
From stdpp Require Import base list numbers option.
From S2P Require Import Prelude.
From S2P Require Import Virtio.
From S2P Require Import PackedRing.
From S2P Require Import PackedRingSpec.

Definition pqueue_of (r : res virtqueue_packed) :
    match r with Ok _ => virtqueue_packed | _ => unit end :=
  match r with Ok vq => vq | _ => tt end.
Definition pqueue_after (r : res (Z * option (list vring_packed_desc) * virtqueue_packed)) :
    match r with Ok _ => virtqueue_packed | _ => unit end :=
  match r with Ok (_, _, vq) => vq | _ => tt end.

Definition pdev : VirtIODevice := mk_vdev true 0.
Definition p4 : virtqueue_packed := Eval vm_compute in
  pqueue_of (vring_new_virtqueue_packed 0 4 pdev (zero_packed_ring 4) (mk_event 0 0) (mk_event 0 0) 0).
Definition psg : list VirtIOBufferDescriptor := [mk_sg 4096 24; mk_sg 8192 10].
Definition psg4 : list VirtIOBufferDescriptor := replicate 4 (mk_sg 4096 24).
Definition p4_added : virtqueue_packed := Eval vm_compute in
  pqueue_after (virtqueue_add_buf_packed p4 psg 1 1 7 None 0).
Definition p4_full : virtqueue_packed := Eval vm_compute in
  pqueue_after (virtqueue_add_buf_packed p4 psg4 4 0 7 None 0).

(** The device marks the first slot used and returns ten bytes for id 0. *)
Definition used_slot : vring_packed_desc := mk_pdesc 4096 10 0 0x8080.
Definition p4_used : virtqueue_packed := p4_added <| desc := zinsert 0 used_slot (desc p4_added) |>.

Lemma p4_wf : packed_wf p4 (seqZ 0 4) [].
Proof.
  destruct (new_packed_ok 0 4 pdev (zero_packed_ring 4) (mk_event 0 0) (mk_event 0 0) 0) as
    (vq & E & W & _); [lia|done|].
  assert (H : Ok vq = Ok p4) by (rewrite <- E; vm_compute; reflexivity). by injection H as <-.
Qed.

Lemma p4_add : virtqueue_add_buf_packed p4 psg 1 1 7 None 0 = Ok (VQ_ADD_BUFFER_SUCCESS, None, p4_added).
Proof. vm_compute. reflexivity. Qed.

Lemma p4_fill : virtqueue_add_buf_packed p4 psg4 4 0 7 None 0 = Ok (VQ_ADD_BUFFER_SUCCESS, None, p4_full).
Proof. vm_compute. reflexivity. Qed.

(** A successful addition without a table is a direct one. *)
Lemma added_inv vq free live sg out opq phys vq' :
  add_result vq free live sg out opq None phys (Ok (VQ_ADD_BUFFER_SUCCESS, None, vq')) ->
  exists ids rest, free = ids ++ rest /\ zlen ids = zlen sg /\ packed_wf vq' rest (mk_pbuf ids opq :: live).
Proof. inversion 1; eauto 6. Qed.

Lemma p4_added_wf : packed_wf p4_added [2; 3] [mk_pbuf [0; 1] 7].
Proof.
  pose proof (add_buf_packed_ok p4 (seqZ 0 4) [] psg 1 1 7 None 0 p4_wf ltac:(lia) ltac:(lia)
    ltac:(lia) eq_refl ltac:(done) ltac:(done) ltac:(done)) as A.
  rewrite p4_add in A. apply added_inv in A as (ids & rest & Hf & Hl & W).
  destruct ids as [|a [|b [|]]]; change (zlen psg) with 2 in Hl; unfold zlen in Hl; cbn [length] in Hl; try lia.
  change (seqZ 0 4) with [0; 1; 2; 3] in Hf. cbn in Hf. by injection Hf as <- <- <-.
Qed.

Lemma p4_used_wf : packed_wf p4_used [2; 3] [mk_pbuf [0; 1] 7].
Proof. constructor; apply p4_added_wf. Qed.


Lemma got_inv vq free b d r vq' :
  get_result vq free [b] d (Ok (r, vq')) -> used_mark d (used_wrap_counter vq) = true ->
  r = Some (pb_opaque b, pd_len d) /\
  (last_used_idx vq', used_wrap_counter vq') =
    advance (num vq) (last_used_idx vq) (used_wrap_counter vq) (zlen (pb_ids b)).
Proof.
  inversion 1; [congruence|]. intros _.
  match goal with H : [b] ≡ₚ _ |- _ => apply Permutation_singleton_l in H; injection H as <- <- end.
  done.
Qed.

Lemma virtqueue_get_buf_packed_outcomes_witness :
  exists vq', virtqueue_get_buf_packed p4_used = Ok (Some (7, 10), vq') /\ last_used_idx vq' = 2.
Proof.
  pose proof (virtqueue_get_buf_packed_outcomes p4_used [2; 3] [mk_pbuf [0; 1] 7] used_slot p4_used_wf
    eq_refl ltac:(done)) as G.
  destruct (virtqueue_get_buf_packed p4_used) as [[r vq']|f] eqn:E; [|by vm_compute in E].
  exists vq'. apply got_inv in G as [-> [= -> _]]; done.
Defined.

Lemma detach_all_packed_correct_witness :
  exists vq', detach_all_packed 2 p4_added = Ok ([7], vq') /\ num_free vq' = 4.
Proof.
  destruct (detach_all_packed_correct p4_added _ _ p4_added_wf) as (opqs & free' & vq' & E & P & _ & N).
  exists vq'. apply Permutation_singleton_r in P as ->. split; [exact E|exact N].
Defined.

Lemma vring_new_virtqueue_packed_correct_witness :
  exists vq vq2, vring_new_virtqueue_packed 0 4 pdev (zero_packed_ring 4) (mk_event 0 0) (mk_event 0 0) 0 = Ok vq /\
    virtqueue_shutdown_packed p4_added = Ok vq2 /\ packed_wf vq2 (seqZ 0 4) [].
Proof.
  destruct (vring_new_virtqueue_packed_correct 0 4 pdev (zero_packed_ring 4) (mk_event 0 0)
    (mk_event 0 0) 0) as (vq & E & _ & _ & S); [lia|done|].
  destruct (S _ _ _ p4_added_wf) as (vq2 & E2 & W & _). by exists vq, vq2.
Defined.

Lemma virtqueue_kick_prepare_packed_correct_witness :
  exists vq', virtqueue_kick_prepare_packed p4_added = (true, vq') /\ num_added vq' = 0.
Proof.
  pose proof (virtqueue_kick_prepare_packed_correct p4_added 0 false ltac:(done) ltac:(done)
    ltac:(done) ltac:(done) ltac:(done)) as H.
  destruct (virtqueue_kick_prepare_packed p4_added) as [b vq']. destruct H as (-> & He & _).
  eexists. split; [f_equal; by apply He|reflexivity].
Defined.

Lemma add_buf_packed_wrap_counter_witness : wrap_consistent p4_added /\ ~ wrap_consistent p4_full.
Proof.
  split.
  - by apply (add_buf_packed_wrap_counter p4 (seqZ 0 4) [] psg 1 1 7 None 0 None p4_added p4_wf
      ltac:(lia) ltac:(lia) ltac:(lia) eq_refl ltac:(done) ltac:(done) ltac:(done) eq_refl p4_add);
      intros [_ ?].
  - rewrite (add_buf_packed_wrap_counter p4 (seqZ 0 4) [] psg4 4 0 7 None 0 None p4_full p4_wf
      ltac:(lia) ltac:(lia) ltac:(lia) eq_refl ltac:(done) ltac:(done) ltac:(done) eq_refl p4_fill).
    intros H. by apply H.
Defined.

Lemma p4_shadow : shadow_ok p4.
Proof. split; [done|]. constructor. Qed.

Lemma virtqueue_is_interrupt_enabled_packed_inverted_witness :
  virtqueue_is_interrupt_enabled_packed (virtqueue_disable_cb_packed p4) = true.
Proof. apply (virtqueue_is_interrupt_enabled_packed_inverted p4 p4_shadow). Defined.

Lemma virtqueue_enable_cb_packed_correct_witness :
  exists vq', virtqueue_enable_cb_packed p4 = Ok (true, vq') /\ ~ interrupts_off vq' /\
    off_wrap (driver vq') = 32768.
Proof.
  destruct (virtqueue_enable_cb_packed_correct p4 (seqZ 0 4) [] (mk_pdesc 0 0 0 0) p4_wf p4_shadow eq_refl)
    as (vq' & E & _ & _ & I & _ & O).
  exists vq'. split; [exact E|]. split; [exact I|]. by apply O.
Defined.
