(* ===== verification/VirtQueue.v ===== *)
(** * The interface between a virtqueue and its clients

    [VirtQueueOps] are the operations the drivers call through the function
    pointers of [struct virtqueue] (VirtIO/VirtIO.h), and [SyncQueue] states
    what a client that has at most one buffer outstanding relies on: an idle
    queue accepts a buffer, the device completes it, and the client gets exactly
    that buffer back and an idle queue with the same room.  The split queue
    (SplitQueue) and the packed queue (PackedQueue) are instances, so the
    theorems of such a client are proved once for both layouts.

    [AsyncQueue] and [AsyncQueueLaws] are the same for a client with any number of
    buffers outstanding, which are numbers of its own; SplitQueue has the instance of
    the split queue. *)

From Stdlib Require Import ZArith Lia.
From stdpp Require Import base list numbers option.
From S2P Require Import Prelude.
From S2P Require Import Virtio.

(** The operations a queue offers; buffers are added without an indirect page. *)
Class VirtQueueOps (Q : Type) := {
  virtqueue_add_buf : Q -> list VirtIOBufferDescriptor -> Z -> Z -> Z -> res (Z * Q);
  virtqueue_kick_prepare : Q -> bool * Q;
  virtqueue_has_buf : Q -> res bool;
  virtqueue_get_buf : Q -> res (option (Z * Z) * Q) }.

(** Arguments [virtqueue_add_buf] is called with. *)
Definition valid_buf (sg : list VirtIOBufferDescriptor) (out in_ opq : Z) : Prop :=
  opq <> 0 /\ 0 <= out /\ 0 <= in_ /\ zlen sg = out + in_ /\ 1 <= zlen sg <= 65535.

(** [vq_idle q room]: no buffer is outstanding and [room] elements fit.
    [vq_busy q room opq]: exactly the buffer [opq] is outstanding and the device
    has not answered.  [vq_complete q len q']: the device returns it. *)
Class SyncQueue (Q : Type) `{VirtQueueOps Q} := {
  vq_idle : Q -> Z -> Prop;
  vq_busy : Q -> Z -> Z -> Prop;
  vq_complete : Q -> Z -> Q -> Prop;
  vq_idle_room : forall q room, vq_idle q room -> 1 <= room;
  vq_idle_add : forall q room sg out in_ opq,
    vq_idle q room -> valid_buf sg out in_ opq -> zlen sg <= room ->
    exists q', virtqueue_add_buf q sg out in_ opq = Ok (VQ_ADD_BUFFER_SUCCESS, q') /\
      vq_busy q' room opq;
  vq_idle_full : forall q room sg out in_ opq,
    vq_idle q room -> valid_buf sg out in_ opq -> room < zlen sg ->
    virtqueue_add_buf q sg out in_ opq = Ok (- ENOSPC, q);
  vq_idle_has : forall q room, vq_idle q room -> virtqueue_has_buf q = Ok false;
  vq_idle_kick : forall q room, vq_idle q room -> vq_idle (virtqueue_kick_prepare q).2 room;
  vq_busy_kick : forall q room opq,
    vq_busy q room opq -> vq_busy (virtqueue_kick_prepare q).2 room opq;
  vq_busy_has : forall q room opq, vq_busy q room opq -> virtqueue_has_buf q = Ok false;
  vq_busy_complete : forall q room opq len,
    vq_busy q room opq -> exists q', vq_complete q len q';
  vq_complete_get : forall q room opq len q',
    vq_busy q room opq -> vq_complete q len q' ->
    virtqueue_has_buf q' = Ok true /\
    exists q'', virtqueue_get_buf q' = Ok (Some (opq, len), q'') /\ vq_idle q'' room }.

(** The operations of a client with many buffers.  The last argument of [vsq_add_buf] is the
    indirect area: its size in bytes and its physical address. *)
Class AsyncQueue (Q : Type) := {
  vsq_add_buf : Q -> list VirtIOBufferDescriptor -> Z -> Z -> Z -> option (Z * Z) -> res (Z * Q);
  vsq_get_buf : Q -> res (option (Z * Z) * Q);
  vsq_detach_unused_buf : Q -> res (option Z * Q);
  vsq_kick_prepare : Q -> bool * Q;
  vsq_notify : Q -> Q;
  vsq_enable_cb : Q -> res (bool * Q);
  vsq_disable_cb : Q -> Q }.

(** [vsq_live q l]: exactly the buffers [l] are with the device.  [vsq_room q]: a descriptor is
    free, which there is after a buffer came back and which suffices for a buffer of one
    element and for a longer one with an indirect area. *)
Class AsyncQueueLaws (Q : Type) `{AsyncQueue Q} := {
  vsq_live : Q -> list Z -> Prop;
  vsq_room : Q -> Prop;
  vsq_perm : forall q l l', l ≡ₚ l' -> vsq_live q l -> vsq_live q l';
  vsq_add : forall q l sg out in_ p area, vsq_live q l -> p <> 0 -> 0 <= out -> 0 <= in_ ->
    zlen sg = out + in_ -> 1 <= zlen sg <= 65535 -> (forall n pa, area = Some (n, pa) -> zlen sg * 16 <= n) ->
    exists rc q', vsq_add_buf q sg out in_ p area = Ok (rc, q') /\ vsq_live q' (if 0 <=? rc then p :: l else l) /\
      (vsq_room q -> zlen sg = 1 \/ is_Some area -> 0 <= rc);
  vsq_get : forall q l, vsq_live q l ->
    exists b q', vsq_get_buf q = Ok (b, q') /\
      match b with
      | Some (p, _) => vsq_room q' /\ exists l', l ≡ₚ p :: l' /\ vsq_live q' l'
      | None => vsq_live q' l
      end;
  vsq_empty : forall q, vsq_live q [] -> vsq_room q;
  vsq_kick : forall q l, vsq_live q l -> vsq_live (vsq_kick_prepare q).2 l;
  vsq_notified : forall q l, vsq_live q l -> vsq_live (vsq_notify q) l;
  vsq_enable : forall q l, vsq_live q l -> exists b q', vsq_enable_cb q = Ok (b, q') /\ vsq_live q' l;
  vsq_disable : forall q l, vsq_live q l -> vsq_live (vsq_disable_cb q) l }.
