(* ===== verification/SplitQueue.v ===== *)
(** * The split virtqueue implements the queue interfaces

    The synchronous one: idle means that no chain is live and the used index has been caught
    up with.  And the asynchronous one, for the ring together with its device. *)

From Stdlib Require Import ZArith Lia.
From stdpp Require Import base list numbers option gmap relations.
From S2P Require Import Prelude.
From S2P Require Import Virtio.
From S2P Require Import SplitRing.
From S2P Require Import SplitRingSpec.
From S2P Require Import SplitSystem.
From S2P Require Import VirtQueue.

#[export] Instance split_ops : VirtQueueOps virtqueue_split := {|
  virtqueue_add_buf q sg out in_ opq :=
    '(r, _, q) ← virtqueue_add_buf_split q sg out in_ opq None 0; Ok (r, q);
  virtqueue_kick_prepare := virtqueue_kick_prepare_split;
  virtqueue_has_buf q := Ok (virtqueue_has_buf_split q);
  virtqueue_get_buf := virtqueue_get_buf_split |}.

Definition split_quiet (q : virtqueue_split) : Prop :=
  us_idx (used q) = last_used q.

Definition split_idle (q : virtqueue_split) (room : Z) : Prop :=
  exists free, split_wf q free [] /\ split_quiet q /\ room = zlen free.

Definition split_busy (q : virtqueue_split) (room opq : Z) : Prop :=
  exists free c, split_wf q free [c] /\ split_quiet q /\ ch_opaque c = opq /\
    room = zlen free + zlen (ch_ids c).

(** The device returns a buffer whose opaque pointer is recorded. *)
Definition split_complete (q : virtqueue_split) (len : Z) (q' : virtqueue_split) : Prop :=
  exists h o, (opaque q)⟦h⟧ = Some o /\ o <> 0 /\ q' = dev_use q h len.

Lemma split_idle_add q room sg out in_ opq :
  split_idle q room -> valid_buf sg out in_ opq ->
  if zlen sg <=? room
  then exists q', virtqueue_add_buf q sg out in_ opq = Ok (VQ_ADD_BUFFER_SUCCESS, q') /\
         split_busy q' room opq
  else virtqueue_add_buf q sg out in_ opq = Ok (- ENOSPC, q).
Proof.
  intros (free & W & Hq & ->) (Ho & H1 & H2 & H3 & H4).
  pose proof (add_buf_split_ok q free [] sg out in_ opq None 0 W Ho H1 H2
    ltac:(lia) ltac:(lia) ltac:(done)) as A.
  cbv zeta in A. rewrite bool_decide_false in A by (by intros [? ?]). cbn [andb] in A.
  rewrite <- H3 in A. cbn [virtqueue_add_buf split_ops].
  destruct (Z.leb_spec (zlen sg) (zlen free)) as [Hle|Hgt].
  - destruct A as (q' & E & P & W'). rewrite E. exists q'. split; [done|].
    unfold published in P. destruct_and! P.
    eexists _, _. split; [exact W'|]. unfold split_quiet. split; [congruence|]. split; [done|].
    cbn [ch_ids]. unfold zlen in *. rewrite length_drop, length_take. lia.
  - by rewrite A.
Qed.

Lemma split_complete_get q room opq len q' :
  split_busy q room opq -> split_complete q len q' ->
  virtqueue_has_buf q' = Ok true /\
  exists q'', virtqueue_get_buf q' = Ok (Some (opq, len), q'') /\ split_idle q'' room.
Proof.
  intros (free & c & W & Hq & Ho & ->) (h & o & Hh & Hnz & ->).
  assert (Hc : h = ch_head c).
  { destruct (decide (h ∈ ch_head <$> [c])) as [Hin|Hni]; [by apply list_elem_of_singleton in Hin|].
    rewrite (wf_null _ _ _ W h) in Hh; [congruence| |done].
    rewrite <- (wf_opaque _ _ _ W). by eapply zlookup_lt. }
  pose proof (wf_last _ _ _ W) as Hl. unfold split_quiet in Hq.
  set (q' := dev_use q h len).
  assert (W' : split_wf q' free [c]).
  { eapply split_wf_irrelevant; try done; try apply W. cbn. apply zlen_zinsert. }
  assert (Hu : us_idx (used q') = u16 (last_used q' + 1)) by (cbn; congruence).
  assert (Hne : last_used q' <> us_idx (used q')).
  { rewrite Hu. change (last_used q') with (last_used q). word_lia. }
  split.
  { cbn [virtqueue_has_buf split_ops]. unfold virtqueue_has_buf_split.
    by rewrite (proj2 (Z.eqb_neq _ _) Hne). }
  destruct (get_buf_split_ok q' free [c] W') as [_ G].
  destruct (G c (mk_used_elem h len) Hne) as (q'' & live' & E & Hp & W'' & L & M & N & U & _).
  { constructor. }
  { cbn. rewrite Hq. apply zlookup_zinsert_eq. rewrite (wf_used _ _ _ W).
    apply DESC_INDEX_range, W. }
  { done. }
  assert (live' = []) as -> by (apply Permutation_length in Hp; by destruct live').
  exists q''. split; [by rewrite <- Ho|]. exists (ch_ids c ++ free). split; [done|].
  unfold split_quiet. split; [congruence|]. rewrite zlen_app. lia.
Qed.

#[export] Program Instance split_sync : SyncQueue virtqueue_split := {|
  vq_idle := split_idle; vq_busy := split_busy; vq_complete := split_complete |}.
Next Obligation.
  intros q room (free & W & _ & ->). pose proof (wf_num_bound _ _ _ W).
  pose proof (Permutation_length (wf_part _ _ _ W)) as Hl. cbn in Hl.
  rewrite app_nil_r, length_seqZ in Hl. unfold zlen. lia.
Qed.
Next Obligation.
  intros q room sg out in_ opq Hi Hv Hle. pose proof (split_idle_add _ _ _ _ _ _ Hi Hv) as H.
  by replace (zlen sg <=? room) with true in H by lia.
Qed.
Next Obligation.
  intros q room sg out in_ opq Hi Hv Hle. pose proof (split_idle_add _ _ _ _ _ _ Hi Hv) as H.
  by replace (zlen sg <=? room) with false in H by lia.
Qed.
Next Obligation.
  intros q room (free & W & Hq & _). cbn. unfold virtqueue_has_buf_split, split_quiet in *.
  by rewrite Hq, Z.eqb_refl.
Qed.
Next Obligation.
  intros q room (free & W & Hq & ->). exists free. unfold split_quiet in *. cbn.
  unfold virtqueue_kick_prepare_split.
  destruct (event_suppression_enabled _); cbn; (split; [|done]);
    by eapply split_wf_irrelevant; try done; apply W.
Qed.
Next Obligation.
  intros q room opq (free & c & W & Hq & Ho & ->). exists free, c. unfold split_quiet in *. cbn.
  unfold virtqueue_kick_prepare_split.
  destruct (event_suppression_enabled _); cbn; (split; [|done]);
    by eapply split_wf_irrelevant; try done; apply W.
Qed.
Next Obligation.
  intros q room opq (free & c & W & Hq & _). cbn. unfold virtqueue_has_buf_split, split_quiet in *.
  by rewrite Hq, Z.eqb_refl.
Qed.
Next Obligation.
  intros q room opq len (free & c & W & Hq & Ho & _). eexists _, (ch_head c), (ch_opaque c).
  pose proof (wf_live _ _ _ W) as ((_ & _ & Hnz & Hop) & _)%list.Forall_cons. done.
Qed.
Next Obligation. intros. by eapply split_complete_get. Qed.

(** ** The split virtqueue as an asynchronous queue

    A split ring (SplitRing) with the device beside it (SplitSystem) keeps the promises of
    [AsyncQueueLaws], also while the device works. *)

(** ** The operations *)

(** The indirect area as descriptors, overwritten as far as it is used. *)
Definition async_table (area : option (Z * Z)) : option (list vring_desc) :=
  (fun a => replicate (Z.to_nat (a.1 / 16)) (mk_desc 0 0 0 0)) <$> area.

Definition async_add_buf (s : sys) (sg : list VirtIOBufferDescriptor) (out in_ p : Z) (area : option (Z * Z)) : res (Z * sys) :=
  '(rc, _, vq) ← virtqueue_add_buf_split (s_vq s) sg out in_ p (async_table area) (default 0 (snd <$> area));
  Ok (rc, s <| s_vq := vq |> <| s_given := if rc =? 0 then p :: s_given s else s_given s |>).

Definition async_get_buf (s : sys) : res (option (Z * Z) * sys) :=
  '(b, vq) ← virtqueue_get_buf_split (s_vq s);
  Ok (b, s <| s_vq := vq |> <| s_taken := match b with Some (p, _) => p :: s_taken s | None => s_taken s end |>).

(** NULL ends the drain. *)
Definition async_detach_unused_buf (s : sys) : res (option Z * sys) :=
  '(p, vq) ← virtqueue_detach_unused_buf_split (s_vq s);
  Ok (if p =? 0 then None else Some p, s <| s_vq := vq |> <| s_taken := if p =? 0 then s_taken s else p :: s_taken s |>).

Definition async_kick_prepare (s : sys) : bool * sys :=
  let '(b, vq) := virtqueue_kick_prepare_split (s_vq s) in (b, s <| s_vq := vq |>).

Definition async_enable_cb (s : sys) : res (bool * sys) :=
  '(b, vq) ← virtqueue_enable_cb_split (s_vq s); Ok (b, s <| s_vq := vq |>).

#[export] Instance async_split_ops : AsyncQueue sys := {|
  vsq_add_buf := async_add_buf;
  vsq_get_buf := async_get_buf;
  vsq_detach_unused_buf := async_detach_unused_buf;
  vsq_kick_prepare := async_kick_prepare;
  vsq_notify := id;
  vsq_enable_cb := async_enable_cb;
  vsq_disable_cb := fun s => s <| s_vq := virtqueue_disable_cb_split (s_vq s) |> |}.

(** ** The promises *)

Definition ring_live (s : sys) (l : list Z) : Prop := good s /\ s_given s ≡ₚ s_taken s ++ l.
Definition ring_room (s : sys) : Prop := 0 < num_unused (s_vq s).

Lemma ring_add s l sg out in_ p area : ring_live s l -> p <> 0 -> 0 <= out -> 0 <= in_ ->
  zlen sg = out + in_ -> 1 <= zlen sg <= 65535 -> (forall n pa, area = Some (n, pa) -> zlen sg * 16 <= n) ->
  exists rc s', async_add_buf s sg out in_ p area = Ok (rc, s') /\ ring_live s' (if 0 <=? rc then p :: l else l) /\
    (ring_room s -> zlen sg = 1 \/ is_Some area -> 0 <= rc).
Proof.
  intros [G Hl] Hp H1 H2 Hsg H3 Ha. unfold async_add_buf.
  assert (Ht : forall tbl, async_table area = Some tbl -> out + in_ <= zlen tbl).
  { intros tbl E. destruct area as [[n pa]|]; [|done]. injection E as <-. specialize (Ha n pa eq_refl). rewrite zlen_replicate. cbn.
    assert (zlen sg <= n / 16) by (apply Z.div_le_lower_bound; lia). lia. }
  pose proof G as (free & live & avq & usq & I). pose proof (si_wf _ _ _ _ _ I) as WF.
  pose proof (add_buf_split_ok _ _ _ sg out in_ p (async_table area) (default 0 (snd <$> area)) WF Hp H1 H2 ltac:(lia) ltac:(lia) Ht) as Hadd. cbv zeta in Hadd.
  assert (exists rc va vq, virtqueue_add_buf_split (s_vq s) sg out in_ p (async_table area) (default 0 (snd <$> area)) = Ok (rc, va, vq) /\
    (0 <=? rc) = (rc =? 0) /\ (ring_room s -> zlen sg = 1 \/ is_Some area -> 0 <= rc)) as (rc & va & vq & E & E3 & Hr).
  { unfold ring_room. rewrite (wf_unused _ _ _ WF). destruct (_ && _) eqn:Ec; [|destruct (_ <=? _) eqn:El].
    - destruct Hadd as (? & ? & -> & _). by eexists _, _, _.
    - destruct Hadd as (? & -> & _). by eexists _, _, _.
    - rewrite Hadd. eexists _, _, _. split_and!; [done|done|]. intros Hfree Hlen. exfalso. apply Z.leb_gt in El.
      destruct Hlen as [Hlen|[a ->]]; [lia|]. revert Ec. cbn. replace (out + in_ >? 1) with true by lia. by replace (zlen free >? 0) with true by lia. }
  rewrite E. cbn [mbind res_bind]. eexists _, _. split; [done|]. split; [|exact Hr]. split.
  - eapply inv_add; [exact G| |exact E]. unfold add_args_ok. split_and!; try done; lia.
  - cbn. rewrite E3. destruct (rc =? 0); [|done]. rewrite Hl. solve_Permutation.
Qed.

Lemma ring_get s l : ring_live s l ->
  exists b s', async_get_buf s = Ok (b, s') /\
    match b with
    | Some (p, _) => ring_room s' /\ exists l', l ≡ₚ p :: l' /\ ring_live s' l'
    | None => ring_live s' l
    end.
Proof.
  intros [G Hl]. unfold async_get_buf. pose proof G as (free & live & avq & usq & I). pose proof (si_wf _ _ _ _ _ I) as WF.
  destruct (get_buf_split_ok _ _ _ WF) as [Hnone Hsome].
  destruct (decide (last_used (s_vq s) = us_idx (used (s_vq s)))) as [E|E].
  - pose proof (Hnone E) as EG. rewrite EG. cbn [mbind res_bind]. eexists _, _. split; [done|]. split; [exact (inv_get s None (s_vq s) G EG)|done].
  - destruct (used_head _ _ _ _ _ I E) as (e & usq' & c & Eu & Hc & Hid & Hslot).
    destruct (Hsome c e E Hc Hslot Hid) as (vq1 & live' & He1 & Hp & W' & _). rewrite He1. cbn [mbind res_bind]. eexists _, _. split; [done|].
    cbv beta iota. split.
    + unfold ring_room. cbn. rewrite (wf_unused _ _ _ W'), zlen_app. pose proof (zlen_nonneg free).
      pose proof (wf_live _ _ _ WF) as HF. rewrite Forall_forall in HF. destruct (HF c Hc) as (Hch & _). apply chain_at_head in Hch.
      destruct (ch_ids c) as [|i ids]; [by apply not_elem_of_nil in Hch|]. rewrite zlen_cons. pose proof (zlen_nonneg ids). lia.
    + pose proof (inv_get _ _ _ G He1) as G'. cbn in G'. pose proof G' as (free2 & live2 & avq2 & usq2 & I2).
      pose proof (si_history _ _ _ _ _ I2) as Hh. cbn in Hh. exists (ch_opaque <$> live2). split; [|by split].
      rewrite Hl in Hh. apply (Permutation_app_inv_l (s_taken s)). rewrite Hh. solve_Permutation.
Qed.

(** All descriptors of an empty ring are free. *)
Lemma ring_empty s : ring_live s [] -> ring_room s.
Proof.
  intros [(free & live & avq & usq & I) Hl]. pose proof (si_wf _ _ _ _ _ I) as WF. pose proof (si_history _ _ _ _ _ I) as Hh.
  assert (live = []) as ->.
  { rewrite Hl, app_nil_r in Hh. apply Permutation_length in Hh. rewrite length_app, length_fmap in Hh. destruct live; [done|cbn in Hh; lia]. }
  pose proof (wf_part _ _ _ WF) as Hp. cbn in Hp. rewrite app_nil_r in Hp. apply Permutation_length in Hp. rewrite length_seqZ in Hp.
  destruct (wf_num _ _ _ WF) as (k & Hk & En). unfold ring_room. rewrite (wf_unused _ _ _ WF). unfold zlen. rewrite Hp, En.
  pose proof (Z.pow_pos_nonneg 2 k). lia.
Qed.

#[export] Program Instance async_split_laws : AsyncQueueLaws sys := {| vsq_live := ring_live; vsq_room := ring_room |}.
Next Obligation. intros s l l' E [G Hl]. split; [done|by rewrite <- E]. Qed.
Next Obligation. intros. by apply ring_add. Qed.
Next Obligation. intros. by apply ring_get. Qed.
Next Obligation. intros. by apply ring_empty. Qed.
Next Obligation.
  intros s l [G Hl]. pose proof (step_good _ _ (step_kick s) G) as Gk. cbn. unfold async_kick_prepare. by destruct (virtqueue_kick_prepare_split (s_vq s)).
Qed.
Next Obligation. done. Qed.
Next Obligation.
  intros s l [G Hl]. cbn. unfold async_enable_cb. pose proof G as (free & live & avq & usq & I).
  destruct (enable_cb_split_ok _ _ _ (si_wf _ _ _ _ _ I) (si_flags _ _ _ _ _ I)) as (vq' & E & _). rewrite E. cbn [mbind res_bind]. eexists _, _. split; [done|].
  split; [|done]. exact (step_good _ _ (step_enable s _ vq' E) G).
Qed.
Next Obligation. intros s l [G Hl]. split; [|done]. exact (step_good _ _ (step_disable s) G). Qed.

(** ** The device *)

(** A step of SplitSystem that hands no buffer over: the device fetches, uses, or sets its
    notification preferences. *)
Definition device_ring_step (s s' : sys) : Prop := step s s' /\ s_given s' = s_given s /\ s_taken s' = s_taken s.

Lemma device_ring_live s s' l : device_ring_step s s' -> ring_live s l -> ring_live s' l.
Proof. intros (Hs & E1 & E2) [G Hl]. split; [by eapply step_good|congruence]. Qed.

Lemma device_fetch s h : s_seen s <> av_idx (avail (s_vq s)) -> (av_ring (avail (s_vq s)))⟦DESC_INDEX (num (s_vq s)) (s_seen s)⟧ = Some h ->
  device_ring_step s (s <| s_seen := u16 (s_seen s + 1) |> <| s_held := h :: s_held s |>).
Proof. intros. split; [by apply step_fetch|done]. Qed.
Lemma device_use s h len held : s_held s ≡ₚ h :: held -> device_ring_step s (s <| s_vq := dev_use (s_vq s) h len |> <| s_held := held |>).
Proof. intros. split; [by apply step_use|done]. Qed.

Lemma new_ring_live s : initial s -> ring_live s [].
Proof. intros Hi. split; [by apply initial_good|]. by destruct Hi as (k & index & vd & notify & Hk & He & _ & _ & -> & ->). Qed.
