(* ===== verification/PackedQueue.v ===== *)
(** * The packed virtqueue implements the synchronous queue interface

    An idle queue has no marked slot, so the next used element is the one the
    device writes for the only outstanding buffer. *)

From Stdlib Require Import ZArith Lia.
From stdpp Require Import base list numbers option.
From S2P Require Import Prelude.
From S2P Require Import Virtio.
From S2P Require Import VirtQueue.
From S2P Require Import PackedRing.
From S2P Require Import PackedRingSpec.

#[export] Instance packed_ops : VirtQueueOps virtqueue_packed := {|
  virtqueue_add_buf q sg out in_ opq :=
    '(r, _, q) ← virtqueue_add_buf_packed q sg out in_ opq None 0; Ok (r, q);
  virtqueue_kick_prepare := virtqueue_kick_prepare_packed;
  virtqueue_has_buf := virtqueue_has_buf_packed;
  virtqueue_get_buf := virtqueue_get_buf_packed |}.

(** The AVAIL/USED bits of descriptors made available in the round [wrap]. *)
Definition round_bits (wrap : bool) : Z :=
  BIT (if wrap then VRING_PACKED_DESC_F_AVAIL else VRING_PACKED_DESC_F_USED).

(** No slot carries the used mark of the round in which it will be looked at. *)
Definition unmarked (ds : list vring_packed_desc) (num last : Z) (wrap : bool) : Prop :=
  forall j d, 0 <= j < num -> ds⟦(last + j) mod num⟧ = Some d ->
    used_mark d (xorb wrap (num <=? last + j)) = false.

(** A descriptor that is available but not used: its two bits differ. *)
Definition neutral (d : vring_packed_desc) : Prop :=
  Z.testbit (pd_flags d) 7 <> Z.testbit (pd_flags d) 15.

Lemma neutral_unmarked d wrap : neutral d -> used_mark d wrap = false.
Proof.
  unfold neutral, used_mark.
  by destruct (Z.testbit (pd_flags d) 7), (Z.testbit (pd_flags d) 15), wrap.
Qed.

Lemma slot_flags_neutral w num total out i n j :
  Z.testbit (slot_flags (round_bits w) num total out i n j) 7 <>
  Z.testbit (slot_flags (round_bits w) num total out i n j) 15.
Proof.
  unfold slot_flags, slot_bits, round_bits.
  by destruct w, (i + j <? num), (n + j <? out), (n + j =? total - 1).
Qed.

Definition packed_idle (q : virtqueue_packed) (room : Z) : Prop :=
  exists free, packed_wf q free [] /\ room = zlen free /\
    next_avail_idx q = last_used_idx q /\ avail_used_flags q = round_bits (used_wrap_counter q) /\
    unmarked (desc q) (num q) (last_used_idx q) (used_wrap_counter q).

Definition packed_busy (q : virtqueue_packed) (room opq : Z) : Prop :=
  exists free b, let n := zlen (pb_ids b) in
    packed_wf q free [b] /\ room = zlen free + n /\ pb_opaque b = opq /\
    next_avail_idx q = (last_used_idx q + n) mod num q /\
    avail_used_flags q = slot_bits (round_bits (used_wrap_counter q)) (num q) (last_used_idx q) n /\
    unmarked (desc q) (num q) (last_used_idx q) (used_wrap_counter q) /\
    (forall j d, 0 <= j < n -> (desc q)⟦(last_used_idx q + j) mod num q⟧ = Some d -> neutral d).

(** The device returns a buffer whose opaque pointer is recorded, by writing the
    used mark of its round, the id and the length in the next used slot. *)
Definition packed_complete (q : virtqueue_packed) (len : Z) (q' : virtqueue_packed) : Prop :=
  exists s d, (desc_state q)⟦pd_id d⟧ = Some s /\ data s <> 0 /\ pd_len d = len /\
    used_mark d (used_wrap_counter q) = true /\
    q' = q <| desc := zinsert (last_used_idx q) d (desc q) |>.

Lemma packed_idle_add q room sg out in_ opq :
  packed_idle q room -> valid_buf sg out in_ opq ->
  if zlen sg <=? room
  then exists q', virtqueue_add_buf q sg out in_ opq = Ok (VQ_ADD_BUFFER_SUCCESS, q') /\
         packed_busy q' room opq
  else virtqueue_add_buf q sg out in_ opq = Ok (- ENOSPC, q).
Proof.
  intros (free & W & -> & Hx & Hf & Hu) (Ho & H1 & H2 & H3 & H4).
  pose proof (add_buf_packed_ok q free [] sg out in_ opq None 0 W Ho H1 H2 H3
    ltac:(lia) ltac:(lia) ltac:(done)) as A.
  cbn [virtqueue_add_buf packed_ops].
  inversion A as [Hn _ E | ids rest q' Hfree Hl _ W' Ad _ C E | tbl]; [..|done].
  - replace (zlen sg <=? zlen free) with false by lia. done.
  - pose proof (zlen_nonneg rest). pose proof (pw_num _ _ _ W) as Hnum.
    pose proof (pw_next _ _ _ W) as Hnx. pose proof (pw_count W) as Hc.
    change (zlen free + 0 = num q) in Hc. rewrite Hfree, zlen_app, Hl in *.
    replace (zlen sg <=? zlen sg + zlen rest) with true by lia.
    destruct Ad as [(Fn & _) Al Au _ An Af _]. destruct C as [Cin Cout].
    assert (Hneu : forall j d, 0 <= j < zlen sg ->
      (desc q')⟦(last_used_idx q + j) mod num q⟧ = Some d -> neutral d).
    { intros j d Hj Hd. destruct (zlookup_in_range sg j Hj) as [s Hs].
      rewrite <- Hx, (Cin j s Hj Hs) in Hd. injection Hd as <-. unfold neutral. cbn.
      rewrite Hf. apply slot_flags_neutral. }
    exists q'. split; [done|]. exists rest, (mk_pbuf ids opq). cbn.
    rewrite Fn, Al, Au, Hl. split_and!; try done; try lia.
    + by rewrite An, Hx.
    + by rewrite Af, Hf, Hx.
    + intros j d Hj Hd. destruct (decide (j < zlen sg)) as [Hlt|Hge].
      * apply neutral_unmarked. eapply Hneu; [|done]. lia.
      * rewrite Cout in Hd; [by eapply Hu|]. intros k Hk E'. rewrite Hx in E'.
        assert (Hz : (j - k) mod num q = 0).
        { replace (j - k) with (last_used_idx q + j - (last_used_idx q + k)) by lia.
          rewrite Zminus_mod, E', Z.sub_diag. apply Z.mod_0_l. lia. }
        rewrite Z.mod_small in Hz by lia. lia.
Qed.

Lemma rounds last n j num : 0 <= last < num -> 1 <= n <= num -> 0 <= j < num ->
  xorb (num <=? last + n) (num <=? (last + n) mod num + j) =
  (if n + j <? num then num <=? last + (n + j) else negb (num <=? last + (n + j - num))).
Proof.
  intros Hl Hn Hj. destruct (Z.leb_spec num (last + n)) as [H|H].
  - replace ((last + n) mod num) with (last + n - num)
      by (apply (Z.mod_unique_pos _ _ 1); lia).
    destruct (Z.ltb_spec (n + j) num), (Z.leb_spec num (last + n - num + j));
      cbn; destruct (Z.leb_spec num (last + (n + j))) || idtac;
      destruct (Z.leb_spec num (last + (n + j - num))) || idtac; try done; lia.
  - rewrite Z.mod_small by lia.
    destruct (Z.ltb_spec (n + j) num), (Z.leb_spec num (last + n + j));
      cbn; destruct (Z.leb_spec num (last + (n + j))) || idtac;
      destruct (Z.leb_spec num (last + (n + j - num))) || idtac; try done; lia.
Qed.

(** Taking the completed buffer back leaves no stale used mark behind. *)
Lemma unmarked_after ds num last wrap n d :
  1 <= num -> 0 <= last < num -> 1 <= n <= num -> zlen ds = num ->
  unmarked ds num last wrap ->
  (forall j d, 0 <= j < n -> ds⟦(last + j) mod num⟧ = Some d -> neutral d) ->
  used_mark d wrap = true ->
  unmarked (zinsert last d ds) num ((last + n) mod num) (xorb wrap (num <=? last + n)).
Proof.
  intros Hnum Hl Hn Hlen Hu Hneu Hd j e Hj He.
  rewrite xorb_assoc_reverse, rounds by done.
  rewrite Z.add_mod_idemp_l in He by lia.
  assert (Hcase : forall k, 0 <= k < num -> (zinsert last d ds)⟦(last + k) mod num⟧ = Some e ->
    (k = 0 /\ e = d) \/ (k <> 0 /\ ds⟦(last + k) mod num⟧ = Some e)).
  { intros k Hk Hke. destruct (decide (k = 0)) as [->|Hk0]; [left|right]; (split; [done|]).
    - rewrite Z.add_0_r, Z.mod_small, zlookup_zinsert_eq in Hke by lia. congruence.
    - rewrite zlookup_zinsert_ne in Hke; [done|]. intros E. symmetry in E.
      apply slot_distinct in E; lia. }
  destruct (Z.ltb_spec (n + j) num) as [Hk|Hk].
  - replace (last + n + j) with (last + (n + j)) in He by lia.
    destruct (Hcase (n + j)) as [[? _]|[_ He']]; [lia|done|lia|]. eapply Hu; [|done]. lia.
  - replace (last + n + j) with (last + (n + j - num) + 1 * num) in He by lia.
    rewrite Z.mod_add in He by lia.
    destruct (Hcase (n + j - num)) as [[-> ->]|[Hne He']]; [lia|done| |].
    + rewrite Z.add_0_r. replace (num <=? last) with false by lia.
      unfold used_mark in *.
      by destruct wrap, (Z.testbit (pd_flags d) 7), (Z.testbit (pd_flags d) 15).
    + apply neutral_unmarked. eapply Hneu; [|done]. lia.
Qed.

Lemma packed_complete_get q room opq len q' :
  packed_busy q room opq -> packed_complete q len q' ->
  virtqueue_has_buf q' = Ok true /\
  exists q'', virtqueue_get_buf q' = Ok (Some (opq, len), q'') /\ packed_idle q'' room.
Proof.
  intros (free & b & W & -> & Ho & Hx & Hf & Hu & Hneu) (s & d & Hs & Hnz & Hlen & Hd & ->).
  pose proof (pw_num _ _ _ W) as Hn. pose proof (pw_last _ _ _ W) as Hl.
  pose proof (pw_desc _ _ _ W) as Hdl. pose proof (pw_count_cons _ _ _ _ W) as Hc.
  pose proof (zlen_nonneg free).
  assert (1 <= zlen (pb_ids b)).
  { destruct (pw_buf W b ltac:(constructor)) as (Hne & _). unfold zlen.
    destruct (pb_ids b); [done|cbn; lia]. }
  set (q1 := q <| desc := zinsert (last_used_idx q) d (desc q) |>).
  assert (W1 : packed_wf q1 free [b]).
  { constructor; try apply W. cbn. rewrite zlen_zinsert. apply W. }
  assert (Hd1 : (desc q1)⟦last_used_idx q1⟧ = Some d) by (cbn; apply zlookup_zinsert_eq; lia).
  assert (Hid : pd_id d = pb_id b).
  { destruct (decide (pd_id d ∈ pb_id <$> [b])) as [Hin|Hni]; [by apply list_elem_of_singleton in Hin|].
    by rewrite (pw_null _ _ _ W _ _ Hs Hni) in Hnz. }
  split.
  { cbn [virtqueue_has_buf packed_ops]. unfold virtqueue_has_buf_packed, more_used_packed.
    rewrite (is_used_ok _ _ _ _ Hd1). f_equal. exact Hd. }
  pose proof (get_buf_packed_ok q1 free [b] d W1 Hd1) as G.
  cbn [virtqueue_get_buf packed_ops].
  destruct G as [Hno|Hno Hbad|b' live' q'' Hm Hid' Hp W'' Fr Adv Hnx Hfl Haw Hna Hds Hdr].
  { rewrite Hid. apply zlookup_lt in Hs. lia. }
  { change (used_wrap_counter q1) with (used_wrap_counter q) in Hno. congruence. }
  { exfalso. apply Hbad. rewrite Hid. constructor. }
  assert (live' = []) as -> by (apply Permutation_length in Hp; by destruct live').
  assert (b' = b) as -> by (symmetry in Hp; apply Permutation_singleton_r in Hp; congruence).
  destruct Fr as (Fn & _). unfold advance in Adv. injection Adv as Al Aw.
  change (last_used_idx q1) with (last_used_idx q) in *. change (num q1) with (num q) in *.
  change (used_wrap_counter q1) with (used_wrap_counter q) in *.
  exists q''. split; [by rewrite Ho, Hlen|]. exists (pb_ids b ++ free).
  rewrite Fn, Al, Aw, Hnx, Hfl, Hds. split_and!; try done.
  - rewrite zlen_app. lia.
  - cbn. rewrite Hf. unfold slot_bits.
    destruct (Z.ltb_spec (last_used_idx q + zlen (pb_ids b)) (num q)),
      (Z.leb_spec (num q) (last_used_idx q + zlen (pb_ids b))); try lia;
      by destruct (used_wrap_counter q).
  - cbn. apply unmarked_after; try done; lia.
Qed.

Lemma unmarked_has q : 1 <= num q -> 0 <= last_used_idx q < num q -> zlen (desc q) = num q ->
  unmarked (desc q) (num q) (last_used_idx q) (used_wrap_counter q) ->
  virtqueue_has_buf q = Ok false.
Proof.
  intros Hn Hl Hd Hu. destruct (zlookup_in_range (desc q) (last_used_idx q)) as [d Ed]; [lia|].
  cbn. unfold virtqueue_has_buf_packed, more_used_packed. rewrite (is_used_ok _ _ _ _ Ed).
  f_equal. specialize (Hu 0 d). rewrite Z.add_0_r, Z.mod_small in Hu by lia.
  replace (num q <=? last_used_idx q) with false in Hu by lia. rewrite xorb_false_r in Hu.
  apply Hu; [lia|done].
Qed.

Lemma kick_packed_frame q : (virtqueue_kick_prepare_packed q).2 = q <| num_added := 0 |>.
Proof. unfold virtqueue_kick_prepare_packed. by destruct (negb _). Qed.

#[export] Program Instance packed_sync : SyncQueue virtqueue_packed := {|
  vq_idle := packed_idle; vq_busy := packed_busy; vq_complete := packed_complete |}.
Next Obligation.
  intros q room (free & W & -> & _). pose proof (pw_num _ _ _ W). pose proof (pw_count W) as Hc.
  change (zlen free + 0 = num q) in Hc. lia.
Qed.
Next Obligation.
  intros q room sg out in_ opq Hi Hv Hle. pose proof (packed_idle_add _ _ _ _ _ _ Hi Hv) as H.
  by replace (zlen sg <=? room) with true in H by lia.
Qed.
Next Obligation.
  intros q room sg out in_ opq Hi Hv Hle. pose proof (packed_idle_add _ _ _ _ _ _ Hi Hv) as H.
  by replace (zlen sg <=? room) with false in H by lia.
Qed.
Next Obligation.
  intros q room (free & W & _ & _ & _ & Hu). eapply unmarked_has; try done; apply W.
Qed.
Next Obligation.
  intros q room (free & W & H). exists free. cbn [virtqueue_kick_prepare packed_ops].
  rewrite kick_packed_frame. split; [|done].
  by eapply packed_wf_irrelevant; [exact W|..]; try done; apply W.
Qed.
Next Obligation.
  intros q room opq (free & b & W & H). exists free, b. cbn [virtqueue_kick_prepare packed_ops].
  rewrite kick_packed_frame. split; [|done].
  by eapply packed_wf_irrelevant; [exact W|..]; try done; apply W.
Qed.
Next Obligation.
  intros q room opq (free & b & W & _ & _ & _ & _ & Hu & _).
  eapply unmarked_has; try done; apply W.
Qed.
Next Obligation.
  intros q room opq len (free & b & W & _).
  destruct (pw_buf W b ltac:(constructor)) as (_ & _ & Ho & s & Hs & Hd & _).
  eexists _, s, (mk_pdesc 0 len (pb_id b) (if used_wrap_counter q then AVAIL_USED_BITS else 0)).
  cbn. split; [done|]. split; [congruence|]. split; [done|]. split; [|done].
  by destruct (used_wrap_counter q).
Qed.
Next Obligation. intros. by eapply packed_complete_get. Qed.

