(* ===== verification/VioMemRanges.v ===== *)
(** * virtio-mem: memory ranges (viomem/sys/viomem.c)

    The driver keeps one bit per memory block of the device's region.  This
    file models the functions that search and update that bitmap and those that
    turn the page list of an MDL into ranges. *)

From Stdlib Require Import ZArith Lia.
From stdpp Require Import base list numbers option.
From S2P Require Import Prelude.
From S2P Require Import Virtio.

Definition PAGE_SHIFT : Z := 12.

Record PHYSICAL_MEMORY_RANGE := mk_range { BaseAddress : Z; NumberOfBytes : Z }.

(** An MDL: the byte count and the page frame numbers behind it. *)
Record MDL := mk_mdl { ByteCount : Z; pfns : list Z }.

(** ** The run-time library's bitmaps

    [RTL_BITMAP] as the list of its bits; an access outside is a fault. *)

Definition bitmap := list bool.
Definition SizeOfBitMap (bm : bitmap) : Z := zlen bm.
Definition RtlCheckBit (bm : bitmap) (i : Z) : res bool := zget bm i.
Definition RtlClearAllBits (bm : bitmap) : bitmap := replicate (length bm) false.

Definition write_bits (b : bool) (bm : bitmap) (start n : Z) : res bitmap :=
  if (0 <=? start) && (start + n <=? zlen bm)
  then Ok (imap (fun i x => if (start <=? Z.of_nat i) && (Z.of_nat i <? start + n) then b else x) bm)
  else Fault OutOfBounds.
Definition RtlSetBits := write_bits true.
Definition RtlClearBits := write_bits false.
Definition RtlNumberOfSetBits (bm : bitmap) : Z := foldr (fun b n => b2z b + n) 0 bm.

(** ** Ranges of an MDL *)

(** The [while] of [FindConsecutivePagesCountMDL] at page [off]. *)
Fixpoint consecutive_loop (fuel : nat) (pages : list Z) (off start index Remaining : Z) : res Z :=
  if index <? Remaining then
    match fuel with
    | O => Fault OutOfFuel
    | S fuel =>
        p ← zget pages (off + index);
        if negb (p =? u64 (start + index)) then Ok index
        else consecutive_loop fuel pages off start (u32 (index + 1)) Remaining
    end
  else Ok index.

Definition FindConsecutivePagesCountMDL (pages : list Z) (off Remaining : Z) : res Z :=
  start ← zget pages off;
  consecutive_loop (Z.to_nat Remaining) pages off start 1 Remaining.

(** The loop of [GetMemoryRangesCountFromMdl]. *)
Fixpoint count_loop (fuel : nat) (pages : list Z) (pagesToScan pos index : Z) : res Z :=
  if pagesToScan >? 0 then
    match fuel with
    | O => Fault OutOfFuel
    | S fuel =>
        n ← FindConsecutivePagesCountMDL pages pos pagesToScan;
        count_loop fuel pages (pagesToScan - n) (pos + n) (u32 (index + 1))
    end
  else Ok index.

Definition GetMemoryRangesCountFromMdl (m : MDL) : res Z :=
  let pagesToScan := Z.shiftr (ByteCount m) PAGE_SHIFT in
  count_loop (Z.to_nat pagesToScan) (pfns m) pagesToScan 0 0.

(** The loop of [GetMemoryRangesFromMdl], which writes the caller's array. *)
Fixpoint ranges_loop (fuel : nat) (pages : list Z) (pagesToScan pos index : Z)
    (MemoryRanges : list PHYSICAL_MEMORY_RANGE) : res (Z * list PHYSICAL_MEMORY_RANGE) :=
  if pagesToScan >? 0 then
    match fuel with
    | O => Fault OutOfFuel
    | S fuel =>
        n ← FindConsecutivePagesCountMDL pages pos pagesToScan;
        p ← zget pages pos;
        rs ← zset MemoryRanges index
               (mk_range (s64 (u64 (Z.shiftl p PAGE_SHIFT))) (s64 (Z.shiftl n PAGE_SHIFT)));
        ranges_loop fuel pages (pagesToScan - n) (pos + n) (u32 (index + 1)) rs
    end
  else Ok (index, MemoryRanges).

Definition GetMemoryRangesFromMdl (m : MDL) (MemoryRanges : list PHYSICAL_MEMORY_RANGE)
    : res (Z * list PHYSICAL_MEMORY_RANGE) :=
  let pagesToScan := Z.shiftr (ByteCount m) PAGE_SHIFT in
  ranges_loop (Z.to_nat pagesToScan) (pfns m) pagesToScan 0 0 MemoryRanges.

(** ** The bitmap of blocks *)

(** 32-bit arithmetic throughout. *)
Definition GetNumberOfMBytesAllocatedInBitmap (bm : bitmap) (BlockSize : Z) : Z :=
  u32 (u32 (RtlNumberOfSetBits bm) * BlockSize) / 1048576.

(** One line of trace output: base, size and whether the range is printed as
    filled. *)
Record dumped := mk_dumped { d_base : Z; d_bytes : Z; d_filled : bool }.

(** The loop of [DumpBitmapMemoryRanges]; [n] iterations from [i]. *)
Fixpoint dump_loop (n : nat) (bm : bitmap) (base bs i rangeStart : Z) (prev cur : bool)
    : res (list dumped * Z * Z * bool) :=
  match n with
  | O => Ok ([], i, rangeStart, cur)
  | S n =>
      cur ← RtlCheckBit bm i;
      if negb (Bool.eqb prev cur) then
        '(ds, i', rs, c) ← dump_loop n bm base bs (i + 1) i cur cur;
        Ok (mk_dumped (s64 (base + rangeStart * bs)) (s64 ((i - rangeStart) * bs)) prev :: ds,
            i', rs, c)
      else dump_loop n bm base bs (i + 1) rangeStart prev cur
  end.

Definition DumpBitmapMemoryRanges (base : Z) (bm : bitmap) (bs : Z) : res (list dumped) :=
  prev ← RtlCheckBit bm 0;
  '(ds, i, rangeStart, cur) ← dump_loop (Z.to_nat (SizeOfBitMap bm - 1)) bm base bs 1 0 prev false;
  Ok (ds ++ [mk_dumped (s64 (base + rangeStart * bs)) (s64 ((i - rangeStart) * bs)) cur]).

(** [ResizeBitmap] over a buffer that holds [buffer] bits. *)
Definition ResizeBitmap (bm buffer : bitmap) (NewSizeOfBitmap : Z) : res bitmap :=
  let oldSizeOfBitmap := SizeOfBitMap bm in
  let bm := take (Z.to_nat NewSizeOfBitmap) buffer in
  if NewSizeOfBitmap >? oldSizeOfBitmap
  then RtlSetBits bm oldSizeOfBitmap (NewSizeOfBitmap - oldSizeOfBitmap)
  else Ok bm.

Definition DeallocateMemoryRangeInMemoryBitmap (base : Z) (r : PHYSICAL_MEMORY_RANGE)
    (bm : bitmap) (BlockSizeBytes : Z) : res bitmap :=
  let addressOffset := s64 (BaseAddress r - base) in
  i ← cdiv addressOffset BlockSizeBytes;
  n ← cdiv (NumberOfBytes r) BlockSizeBytes;
  RtlClearBits bm (u32 i) (u32 n).

Definition AllocateMemoryRangeInMemoryBitmap (base : Z) (r : PHYSICAL_MEMORY_RANGE)
    (bm : bitmap) (BlockSize : Z) : res bitmap :=
  let addressOffset := s64 (BaseAddress r - base) in
  i ← cdiv addressOffset BlockSize;
  n ← cdiv (NumberOfBytes r) BlockSize;
  RtlSetBits bm (u32 i) (u32 n).

(** The loop of [RtlFindLongestRunSet], [n] iterations from [i]; returns the
    current run, the longest run and its start. *)
Fixpoint longest_loop (n : nat) (bm : bitmap) (i cur longest start : Z) : res (Z * Z * Z * Z) :=
  match n with
  | O => Ok (i, cur, longest, start)
  | S n =>
      b ← RtlCheckBit bm i;
      if (b : bool) then longest_loop n bm (u32 (i + 1)) (u32 (cur + 1)) longest start
      else if cur >? longest
      then longest_loop n bm (u32 (i + 1)) cur cur (u32 (i - cur))
      else longest_loop n bm (u32 (i + 1)) cur longest start
  end.

Definition RtlFindLongestRunSet (bm : bitmap) : res (Z * Z) :=
  '(i, cur, longest, start) ← longest_loop (Z.to_nat (SizeOfBitMap bm)) bm 0 0 0 0;
  if cur >? longest then Ok (cur, u32 (i - cur)) else Ok (longest, start).

(** The common body of [FindAllocatedMemoryRangeInBitmap] and
    [FindFreeMemoryRangeInBitmap]: the run found, cut to the wanted size. *)
Definition range_of_run (numberOfBits index base bs limit : Z) : option PHYSICAL_MEMORY_RANGE :=
  if truth numberOfBits then
    let numberOfBits := Z.min numberOfBits limit in
    Some (mk_range (s64 (base + u64 (index * bs))) (s64 (u64 (numberOfBits * bs))))
  else None.

Definition FindAllocatedMemoryRangeInBitmap (bm : bitmap) (base bs limit : Z)
    : res (option PHYSICAL_MEMORY_RANGE) :=
  '(numberOfBits, index) ← RtlFindLongestRunSet bm;
  Ok (range_of_run numberOfBits index base bs limit).

(** [find_clear] stands for the run-time library's [RtlFindLongestRunClear]. *)
Definition FindFreeMemoryRangeInBitmap (find_clear : bitmap -> Z * Z) (bm : bitmap)
    (base bs limit : Z) : option PHYSICAL_MEMORY_RANGE :=
  let '(numberOfBits, index) := find_clear bm in
  range_of_run numberOfBits index base bs limit.
