(* ===== verification/VioMemRangesSpec.v ===== *)
(** * Correctness of the virtio-mem range computations

    Runs of page frames, runs of bits, and the arithmetic between blocks and
    addresses. *)

From Stdlib Require Import ZArith Lia.
From stdpp Require Import base list numbers option.
From S2P Require Import Prelude.
From S2P Require Import Virtio.
From S2P Require Import VioMemRanges.

(** ** Writing bits *)

Lemma write_bits_ok b bm start n :
  0 <= start -> start + n <= zlen bm ->
  exists bm', write_bits b bm start n = Ok bm' /\ zlen bm' = zlen bm /\
    (forall i, 0 <= i < zlen bm ->
       bm'⟦i⟧ = if (start <=? i) && (i <? start + n) then Some b else bm⟦i⟧).
Proof.
  intros Hs Hn. unfold write_bits. replace (_ && _) with true by lia. eexists.
  split; [done|]. split; [unfold zlen; by rewrite length_imap|].
  intros i Hi. rewrite zlookup_imap, Z2Nat.id by lia.
  destruct (zlookup_in_range bm i Hi) as [x Hx]. rewrite Hx. cbn.
  by destruct ((start <=? i) && (i <? start + n)).
Qed.

Lemma quot_exact a b : 0 < b -> Z.quot (a * b) b = a.
Proof. intros. apply Z.quot_mul. lia. Qed.

(** Block [i] of a region at [base] with blocks of [bs] bytes. *)
Definition block_range (base bs i n : Z) : PHYSICAL_MEMORY_RANGE :=
  mk_range (base + i * bs) (n * bs).

(** The region's addresses and the block size fit the types the code uses. *)
Definition region_fits (base bs size : Z) : Prop :=
  0 <= base /\ 0 < bs < 4294967296 /\ 0 <= size < 4294967296 /\
  base + size * bs < 9223372036854775808.

Lemma alloc_dealloc_bits (b : bool) base bs i n bm :
  region_fits base bs (zlen bm) -> 0 <= i -> 0 <= n -> i + n <= zlen bm ->
  (if b then AllocateMemoryRangeInMemoryBitmap else DeallocateMemoryRangeInMemoryBitmap)
    base (block_range base bs i n) bm bs = write_bits b bm i n.
Proof.
  intros (Hb & Hbs & Hsz & Hfit) Hi Hn Hin.
  assert (i * bs <= zlen bm * bs) by nia. assert (n * bs <= zlen bm * bs) by nia.
  destruct b; unfold AllocateMemoryRangeInMemoryBitmap, DeallocateMemoryRangeInMemoryBitmap, cdiv;
    cbn [BaseAddress NumberOfBytes block_range];
    replace (base + i * bs - base) with (i * bs) by lia; rewrite s64_small by nia;
    replace (bs =? 0) with false by lia; cbn [mbind res_bind];
    by rewrite !quot_exact, !u32_small by lia.
Qed.

Lemma range_of_run_block n i base bs limit size :
  region_fits base bs size -> 0 < n -> 0 <= i -> 0 <= limit -> i + n <= size ->
  range_of_run n i base bs limit = Some (block_range base bs i (Z.min n limit)).
Proof.
  intros (Hb & Hbs & Hsz & Hfit) Hn Hi Hl Hin. unfold range_of_run, block_range.
  replace (truth n) with true by (unfold truth; lia).
  assert (i * bs <= size * bs) by nia. assert (Z.min n limit * bs <= size * bs) by nia.
  rewrite !u64_small, !s64_small by (rewrite ?u64_small; nia). done.
Qed.

(** ** Counting set bits *)

Definition nset (bm : bitmap) : Z := RtlNumberOfSetBits bm.

Lemma nset_cons b l : nset (b :: l) = b2z b + nset l.
Proof. done. Qed.

Lemma nset_app l1 l2 : nset (l1 ++ l2) = nset l1 + nset l2.
Proof. induction l1 as [|b l1 IH]; [done|]. cbn [app]. rewrite !nset_cons, IH. lia. Qed.

Lemma nset_bounds l : 0 <= nset l <= zlen l.
Proof.
  induction l as [|b l IH]; [done|]. rewrite nset_cons, zlen_cons. destruct b; cbn; lia.
Qed.

Lemma nset_full l : nset l = zlen l <-> forall i, 0 <= i < zlen l -> l⟦i⟧ = Some true.
Proof.
  induction l as [|b l IH]; [split; [intros _ i Hi; change (zlen (@nil bool)) with 0 in Hi; lia|done]|].
  rewrite nset_cons, zlen_cons. pose proof (nset_bounds l). split.
  - intros H0. destruct b; [|cbn in H0; lia]. intros i Hi.
    destruct (decide (i = 0)) as [->|]; [done|]. replace i with (i - 1 + 1) by lia.
    rewrite zlookup_cons_S by lia. apply IH; [cbn in H0; lia|lia].
  - intros H0. pose proof (H0 0 ltac:(lia)) as E. rewrite zlookup_cons_0 in E. injection E as ->.
    cbn. enough (nset l = zlen l) by lia. apply IH. intros i Hi.
    rewrite <- (zlookup_cons_S true) by lia. apply H0. lia.
Qed.

Lemma nset_none l : nset l = 0 <-> forall i, l⟦i⟧ <> Some true.
Proof.
  induction l as [|b l IH]; [split; [by intros _ i Hi%zlookup_lt; change (zlen (@nil bool)) with 0 in Hi; lia|done]|].
  rewrite nset_cons. pose proof (nset_bounds l). split.
  - intros H0 i Hi. destruct b; [cbn in H0; lia|]. pose proof (zlookup_lt _ _ _ Hi).
    destruct (decide (i = 0)) as [->|]; [done|]. replace i with (i - 1 + 1) in Hi by lia.
    rewrite zlookup_cons_S in Hi by lia. revert Hi. apply IH. cbn in H0. lia.
  - intros H0. destruct b; [by destruct (H0 0)|]. cbn. apply IH. intros i Hi.
    pose proof (zlookup_lt _ _ _ Hi). apply (H0 (i + 1)). by rewrite zlookup_cons_S by lia.
Qed.

(** One past the last set bit. *)
Fixpoint set_end (l : bitmap) : Z :=
  match l with
  | [] => 0
  | b :: l => if b || (0 <? set_end l) then set_end l + 1 else 0
  end.

Lemma set_end_app_false l : set_end (l ++ [false]) = set_end l.
Proof. induction l as [|b l IH]; [done|]. cbn. by rewrite IH. Qed.

Lemma set_end_app_true l : set_end (l ++ [true]) = zlen l + 1.
Proof.
  induction l as [|b l IH]; [done|]. cbn [app set_end]. rewrite IH, zlen_cons.
  pose proof (zlen_nonneg l). by replace (0 <? zlen l + 1) with true by lia; rewrite orb_true_r.
Qed.

Lemma set_end_bounds l : nset l <= set_end l <= zlen l.
Proof.
  induction l as [|b l IH] using rev_ind; [done|]. rewrite nset_app, zlen_app.
  pose proof (nset_bounds l). pose proof (zlen_nonneg l). change (zlen [b]) with 1. destruct b.
  - rewrite set_end_app_true. change (nset [true]) with 1. lia.
  - rewrite set_end_app_false. change (nset [false]) with 0. lia.
Qed.

(** The state of [RtlFindLongestRunSet] after the prefix [l]: the current run is
    the number of set bits so far, because it is never reset. *)
Definition run_inv (l : bitmap) (longest start : Z) : Prop :=
  (longest = nset l /\ start = set_end l - nset l) \/
  (0 <= longest < nset l /\ set_end l = zlen l).

Lemma nset_0_end l : nset l = 0 -> set_end l = 0.
Proof.
  induction l as [|b l IH]; [done|]. rewrite nset_cons. pose proof (nset_bounds l).
  destruct b; cbn; intros; [lia|]. rewrite IH by lia. done.
Qed.

Lemma longest_loop_ok l2 : forall l1 longest start,
  zlen (l1 ++ l2) < 4294967296 -> run_inv l1 longest start ->
  exists longest' start',
    longest_loop (length l2) (l1 ++ l2) (zlen l1) (nset l1) longest start =
      Ok (zlen (l1 ++ l2), nset (l1 ++ l2), longest', start') /\
    run_inv (l1 ++ l2) longest' start'.
Proof.
  induction l2 as [|b l2 IH]; intros l1 longest start Hlen Hinv; cbn [longest_loop length].
  - rewrite app_nil_r. eauto.
  - rewrite zlen_app, zlen_cons in Hlen. pose proof (zlen_nonneg l1). pose proof (zlen_nonneg l2).
    pose proof (nset_bounds l1). pose proof (set_end_bounds l1).
    unfold RtlCheckBit. rewrite (zget_ok _ _ b).
    2:{ by rewrite zlookup_app_r, Z.sub_diag by lia. }
    cbn [mbind res_bind]. rewrite (u32_small (zlen l1 + 1)) by lia.
    replace (l1 ++ b :: l2) with ((l1 ++ [b]) ++ l2) by (by rewrite <- app_assoc).
    assert (Hz : zlen l1 + 1 = zlen (l1 ++ [b])) by (rewrite zlen_app; done).
    rewrite Hz. assert (Hl' : zlen ((l1 ++ [b]) ++ l2) < 4294967296) by (rewrite zlen_app; lia).
    assert (Hn : nset (l1 ++ [b]) = nset l1 + b2z b) by (rewrite nset_app; by destruct b).
    destruct b; cbn in Hn.
    + rewrite (u32_small (nset l1 + 1)), <- Hn by lia. apply IH; [done|].
      right. rewrite Hn, set_end_app_true. unfold run_inv in Hinv. lia.
    + rewrite Z.add_0_r in Hn. rewrite <- Hn. destruct (Z.gtb_spec (nset (l1 ++ [false])) longest).
      * apply IH; [done|]. left. rewrite set_end_app_false, u32_small by lia.
        unfold run_inv in Hinv. lia.
      * apply IH; [done|]. left. rewrite set_end_app_false. unfold run_inv in Hinv. lia.
Qed.

Lemma RtlFindLongestRunSet_ok bm : zlen bm < 4294967296 ->
  RtlFindLongestRunSet bm = Ok (nset bm, set_end bm - nset bm).
Proof.
  intros Hl. unfold RtlFindLongestRunSet, SizeOfBitMap, zlen. rewrite Nat2Z.id.
  destruct (longest_loop_ok bm [] 0 0) as (longest & start & E & Hinv); [done|by left|].
  cbn [app] in *. change (zlen (@nil bool)) with 0 in E. change (nset []) with 0 in E.
  rewrite E. cbn [mbind res_bind]. pose proof (set_end_bounds bm). pose proof (nset_bounds bm).
  destruct Hinv as [[-> ->]|[Hlt He]].
  - rewrite Z.gtb_ltb, Z.ltb_irrefl. done.
  - replace (nset bm >? longest) with true by lia. rewrite u32_small by lia. by rewrite He.
Qed.

Lemma lookup_segment {A} (l1 l2 l3 : list A) i :
  zlen l1 <= i < zlen l1 + zlen l2 -> (l1 ++ l2 ++ l3)⟦i⟧ = l2⟦i - zlen l1⟧.
Proof.
  intros Hi. rewrite zlookup_app_r, zlookup_app_l by lia. done.
Qed.

(** [RtlFindLongestRunSet] returns the number of all set bits of the
    bitmap and the range of that length ending at the last set bit: its run
    length is never reset.  The range it returns consists of set bits exactly
    when all the set bits of the bitmap form a single run; otherwise it contains
    blocks that are not allocated. *)
Theorem RtlFindLongestRunSet_single_run bm :
  zlen bm < 4294967296 ->
  exists n st, RtlFindLongestRunSet bm = Ok (n, st) /\ n = RtlNumberOfSetBits bm /\
    0 <= st /\ st + n <= zlen bm /\
    ((forall i, st <= i < st + n -> bm⟦i⟧ = Some true) <->
     (forall i, bm⟦i⟧ = Some true -> st <= i < st + n)).
Proof.
  intros Hl. pose proof (set_end_bounds bm). pose proof (nset_bounds bm).
  eexists _, _. split; [by apply RtlFindLongestRunSet_ok|]. split; [done|].
  set (st := set_end bm - nset bm). assert (Hst : 0 <= st /\ st + nset bm <= zlen bm) by lia.
  split; [lia|]. split; [lia|].
  pose (l1 := take (Z.to_nat st) bm). pose (l2 := take (Z.to_nat (nset bm)) (drop (Z.to_nat st) bm)).
  pose (l3 := drop (Z.to_nat (nset bm)) (drop (Z.to_nat st) bm)).
  assert (Hsplit : bm = l1 ++ l2 ++ l3) by (unfold l1, l2, l3; by rewrite !take_drop).
  assert (H1 : zlen l1 = st) by (unfold l1, zlen in *; rewrite length_take; lia).
  assert (H2 : zlen l2 = nset bm) by (unfold l2, zlen in *; rewrite length_take, length_drop; lia).
  assert (Hc : nset bm = nset l1 + nset l2 + nset l3)
    by (rewrite Hsplit at 1; rewrite !nset_app; lia).
  pose proof (nset_bounds l1). pose proof (nset_bounds l2). pose proof (nset_bounds l3).
  assert (L : forall i, st <= i < st + nset bm -> bm⟦i⟧ = l2⟦i - st⟧).
  { intros i Hi. rewrite Hsplit at 1. rewrite lookup_segment, H1 by lia. done. }
  assert (O : forall i, bm⟦i⟧ = Some true -> ~ (st <= i < st + nset bm) ->
    exists j, l1⟦j⟧ = Some true \/ l3⟦j⟧ = Some true).
  { intros i Hi Hn. rewrite Hsplit in Hi. pose proof (zlookup_lt _ _ _ Hi) as Hr.
    destruct (decide (i < st)) as [Hlt|Hge].
    - exists i. left. rewrite zlookup_app_l in Hi by lia. done.
    - exists (i - zlen l1 - zlen l2). right. by rewrite !zlookup_app_r in Hi by lia. }
  rewrite <- H2. split.
  - intros Hall i Hi. assert (Hfull : nset l2 = zlen l2).
    { apply nset_full. intros k Hk. replace k with (st + k - st) by lia. rewrite <- L by lia.
      apply Hall. lia. }
    apply dec_stable. intros Hno. rewrite H2 in Hno. destruct (O i Hi Hno) as [j [Hj|Hj]].
    + revert Hj. apply (nset_none l1). lia.
    + revert Hj. apply (nset_none l3). lia.
  - intros Hout. assert (N1 : nset l1 = 0).
    { apply nset_none. intros k Hk. pose proof (zlookup_lt _ _ _ Hk).
      specialize (Hout k). rewrite Hsplit, zlookup_app_l in Hout at 1 by lia. specialize (Hout Hk). lia. }
    assert (N3 : nset l3 = 0).
    { apply nset_none. intros k Hk. pose proof (zlookup_lt _ _ _ Hk).
      specialize (Hout (zlen l1 + zlen l2 + k)). rewrite Hsplit, !zlookup_app_r in Hout at 1 by lia.
      replace (zlen l1 + zlen l2 + k - zlen l1 - zlen l2) with k in Hout by lia.
      specialize (Hout Hk). lia. }
    intros i Hi. rewrite L by lia. apply nset_full; lia.
Qed.

(** ** Ranges of an MDL *)

(** [rs] lists the maximal runs of consecutive page frames of [l], in order. *)
Inductive ranges_of : list Z -> list PHYSICAL_MEMORY_RANGE -> Prop :=
  | ranges_nil : ranges_of [] []
  | ranges_cons p n l rs :
      1 <= n -> head l <> Some (p + n) -> ranges_of l rs ->
      ranges_of (seqZ p n ++ l) (mk_range (4096 * p) (4096 * n) :: rs).

(** Page frame numbers whose addresses are positive 64-bit integers. *)
Definition pfn_ok (p : Z) : Prop := 0 <= p < 2251799813685248.

Lemma consecutive_loop_ok fuel : forall pages off start index Remaining,
  Z.of_nat fuel = Remaining - index -> 1 <= index <= Remaining -> Remaining < 4294967296 ->
  0 <= off -> off + Remaining <= zlen pages -> Forall pfn_ok pages -> pages⟦off⟧ = Some start ->
  (forall i, 0 <= i < index -> pages⟦off + i⟧ = Some (start + i)) ->
  exists n, consecutive_loop fuel pages off start index Remaining = Ok n /\
    index <= n <= Remaining /\
    (forall i, 0 <= i < n -> pages⟦off + i⟧ = Some (start + i)) /\
    (n < Remaining -> pages⟦off + n⟧ <> Some (start + n)).
Proof.
  induction fuel as [|fuel IH]; intros pages off start index Remaining Hf Hi Hr Ho Hl Hok Hst Hpre;
    cbn [consecutive_loop].
  - replace (index <? Remaining) with false by lia. exists index. split_and!; try done; lia.
  - replace (index <? Remaining) with true by lia.
    destruct (zlookup_in_range pages (off + index)) as [p Hp]; [lia|].
    rewrite (zget_ok _ _ _ Hp). cbn [mbind res_bind].
    assert (Hst' : pfn_ok start).
    { rewrite list.Forall_forall in Hok. apply Hok. unfold zlookup in Hst.
      destruct (0 <=? off); [|done]. by apply list_elem_of_lookup_2 in Hst. }
    unfold pfn_ok in Hst'. rewrite u64_small by lia.
    destruct (Z.eqb_spec p (start + index)) as [->|Hne]; cbn [negb].
    + rewrite u32_small by lia. destruct (IH pages off start (index + 1) Remaining)
        as (n & E & B & P & N); try done; try lia.
      { intros i Hi'. destruct (decide (i = index)) as [->|]; [done|]. apply Hpre. lia. }
      exists n. split_and!; try done; lia.
    + exists index. split_and!; try done; try lia. rewrite Hp. congruence.
Qed.

Lemma FindConsecutive_ok pages off Remaining :
  1 <= Remaining < 4294967296 -> 0 <= off -> off + Remaining <= zlen pages ->
  Forall pfn_ok pages ->
  exists n start, FindConsecutivePagesCountMDL pages off Remaining = Ok n /\
    1 <= n <= Remaining /\ pages⟦off⟧ = Some start /\ pfn_ok start /\
    (forall i, 0 <= i < n -> pages⟦off + i⟧ = Some (start + i)) /\
    (n < Remaining -> pages⟦off + n⟧ <> Some (start + n)).
Proof.
  intros Hr Ho Hl Hok. destruct (zlookup_in_range pages off) as [start Hs]; [lia|].
  unfold FindConsecutivePagesCountMDL. rewrite (zget_ok _ _ _ Hs). cbn [mbind res_bind].
  assert (Hps : pfn_ok start).
  { rewrite list.Forall_forall in Hok. apply Hok. unfold zlookup in Hs.
    destruct (0 <=? off); [|done]. by apply list_elem_of_lookup_2 in Hs. }
  destruct (Z.to_nat Remaining) as [|fuel] eqn:Ef; [lia|].
  assert (Hmono : forall f pages off start i r x, consecutive_loop f pages off start i r = Ok x ->
    consecutive_loop (S f) pages off start i r = Ok x).
  { induction f as [|f IHf]; intros ps o st i r x; cbn [consecutive_loop].
    - by destruct (i <? r).
    - destruct (i <? r); [|done]. destruct (zget ps (o + i)); cbn [mbind res_bind]; [|done].
      destruct (negb _); [done|]. apply IHf. }
  destruct (consecutive_loop_ok fuel pages off start 1 Remaining) as (n & E & B & P & N);
    try done; try lia.
  { intros i Hi. replace i with 0 by lia. by rewrite !Z.add_0_r. }
  apply Hmono in E. exists n, start. split_and!; try done; lia.
Qed.

(** The pages [off, off + k) of the list, as a list. *)
Definition sub_pages (pages : list Z) (off k : Z) : list Z :=
  take (Z.to_nat k) (drop (Z.to_nat off) pages).

Lemma zlookup_sub pages off k i : 0 <= off -> 0 <= i < k ->
  (sub_pages pages off k)⟦i⟧ = pages⟦off + i⟧.
Proof.
  intros Ho Hi. unfold sub_pages, zlookup. replace (0 <=? i) with true by lia.
  replace (0 <=? off + i) with true by lia.
  rewrite lookup_take_lt, lookup_drop by lia. f_equal. lia.
Qed.

Lemma sub_pages_run pages off k n start :
  0 <= off -> 1 <= n <= k -> off + k <= zlen pages ->
  (forall i, 0 <= i < n -> pages⟦off + i⟧ = Some (start + i)) ->
  sub_pages pages off k = seqZ start n ++ sub_pages pages (off + n) (k - n).
Proof.
  intros Ho Hn Hl Hrun. unfold sub_pages.
  replace (Z.to_nat k) with (Z.to_nat n + Z.to_nat (k - n))%nat by lia.
  rewrite <- take_take_drop, drop_drop.
  replace (Z.to_nat off + Z.to_nat n)%nat with (Z.to_nat (off + n)) by lia. f_equal.
  apply zlist_eq.
  - unfold zlen in *. rewrite length_take, length_drop, length_seqZ. lia.
  - intros i Hi. unfold zlen in Hi. rewrite length_take, length_drop in Hi.
    change (take (Z.to_nat n) (drop (Z.to_nat off) pages)) with (sub_pages pages off n).
    rewrite zlookup_sub, Hrun by lia. unfold zlookup. replace (0 <=? i) with true by lia.
    symmetry. apply lookup_seqZ. lia.
Qed.

Lemma head_sub pages off k : 0 <= off -> off + k <= zlen pages -> 0 <= k ->
  head (sub_pages pages off k) = if 0 <? k then pages⟦off⟧ else None.
Proof.
  intros Ho Hl Hk. destruct (Z.ltb_spec 0 k).
  - rewrite head_lookup. pose proof (zlookup_sub pages off k 0 Ho ltac:(lia)) as E.
    rewrite Z.add_0_r in E. rewrite <- E. done.
  - unfold sub_pages. by replace (Z.to_nat k) with 0%nat by lia.
Qed.

Lemma mdl_loops_ok fuel : forall pages scan pos index,
  (Z.to_nat scan <= fuel)%nat -> 0 <= scan < 4294967296 -> 0 <= pos -> pos + scan <= zlen pages ->
  Forall pfn_ok pages -> 0 <= index -> index + scan < 4294967296 ->
  exists rs, ranges_of (sub_pages pages pos scan) rs /\ zlen rs <= scan /\
    count_loop fuel pages scan pos index = Ok (index + zlen rs) /\
    forall arr, index + zlen rs <= zlen arr ->
      ranges_loop fuel pages scan pos index arr = Ok (index + zlen rs, written arr index rs).
Proof.
  induction fuel as [|fuel IH]; intros pages scan pos index Hf Hs Hp Hl Hok Hi Hit;
    cbn [count_loop ranges_loop].
  - assert (scan = 0) as -> by lia. exists []. cbn. rewrite Z.add_0_r. split_and!; try done.
    + constructor.
    + intros arr _. unfold written. cbn. by rewrite Nat.add_0_r, take_drop.
  - destruct (Z.gtb_spec scan 0).
    + destruct (FindConsecutive_ok pages pos scan) as (n & start & E & B & Hst & Hpok & Hrun & Hmax);
        try done; [lia|]. rewrite E, (zget_ok _ _ _ Hst). cbn [mbind res_bind].
      rewrite u32_small by lia.
      destruct (IH pages (scan - n) (pos + n) (index + 1)) as (rs & R & L & C & W); try done; try lia.
      unfold pfn_ok in Hpok. pose proof (zlen_nonneg rs).
      eexists (mk_range (4096 * start) (4096 * n) :: rs). rewrite zlen_cons. split_and!.
      * rewrite (sub_pages_run _ _ _ n start) by (done || lia). constructor; [lia| |done].
        rewrite head_sub by lia. destruct (Z.ltb_spec 0 (scan - n)); [|done]. apply Hmax. lia.
      * lia.
      * rewrite C. f_equal. lia.
      * intros arr Ha. rewrite zset_ok by lia. cbn [mbind res_bind].
        unfold PAGE_SHIFT. rewrite !Z.shiftl_mul_pow2 by lia. change (2 ^ 12) with 4096.
        rewrite u64_small, !s64_small, W by (rewrite ?zlen_zinsert; lia).
        rewrite (Z.mul_comm start), (Z.mul_comm n), written_cons by lia. do 2 f_equal. lia.
    + assert (scan = 0) as -> by lia. exists []. cbn. rewrite Z.add_0_r. split_and!; try done.
      * constructor.
      * intros arr _. unfold written. cbn. by rewrite Nat.add_0_r, take_drop.
Qed.

(** An MDL as the memory manager builds it. *)
Definition mdl_ok (m : MDL) : Prop :=
  0 <= ByteCount m < 4294967296 /\ ByteCount m / 4096 <= zlen (pfns m) /\
  Forall pfn_ok (pfns m).

Definition mdl_pages (m : MDL) : list Z := take (Z.to_nat (ByteCount m / 4096)) (pfns m).

Lemma mdl_ranges_ok m : mdl_ok m ->
  exists rs, ranges_of (mdl_pages m) rs /\ zlen rs < 1048576 /\
    GetMemoryRangesCountFromMdl m = Ok (zlen rs) /\
    forall arr, zlen arr = zlen rs -> GetMemoryRangesFromMdl m arr = Ok (zlen rs, rs).
Proof.
  intros (Hb & Hl & Hok). unfold GetMemoryRangesCountFromMdl, GetMemoryRangesFromMdl, PAGE_SHIFT.
  rewrite Z.shiftr_div_pow2 by lia. change (2 ^ 12) with 4096.
  assert (0 <= ByteCount m / 4096 < 1048576)
    by (split; [apply Z.div_pos|apply Z.div_lt_upper_bound]; lia).
  destruct (mdl_loops_ok (Z.to_nat (ByteCount m / 4096)) (pfns m) (ByteCount m / 4096) 0 0)
    as (rs & R & L & C & W); try done; try lia.
  exists rs. split; [done|]. split; [lia|]. split; [done|]. intros arr Ha. rewrite W by lia.
  do 2 f_equal. unfold written, zlen in *. cbn. rewrite drop_ge by lia. apply app_nil_r.
Qed.

(** Claim C24. For an MDL of the memory manager, [GetMemoryRangesCountFromMdl]
    returns the number of maximal runs of consecutive page frames, and
    [GetMemoryRangesFromMdl] fills an array of exactly that many entries, never
    past its end, with the address and the size of each run in order; both loops
    terminate. *)
Theorem GetMemoryRanges_correct m :
  mdl_ok m ->
  exists rs, ranges_of (mdl_pages m) rs /\
    GetMemoryRangesCountFromMdl m = Ok (zlen rs) /\
    forall arr, zlen arr = zlen rs -> GetMemoryRangesFromMdl m arr = Ok (zlen rs, rs).
Proof. intros (rs & ? & _ & ? & ?)%mdl_ranges_ok. by exists rs. Qed.

(** [GetNumberOfMBytesAllocatedInBitmap] computes in 32 bits: with
    blocks of [k] megabytes it returns the true number of megabytes modulo 4096,
    so it is right exactly while less than 4 GB is allocated. *)
Theorem GetNumberOfMBytes_modulo bm k :
  zlen bm < 4294967296 -> 0 < k < 4096 ->
  GetNumberOfMBytesAllocatedInBitmap bm (k * 1048576) = (RtlNumberOfSetBits bm * k) mod 4096.
Proof.
  intros Hl Hk. unfold GetNumberOfMBytesAllocatedInBitmap. pose proof (nset_bounds bm) as Hb.
  unfold nset in Hb. rewrite (u32_small (RtlNumberOfSetBits bm)) by lia. unfold u32.
  set (n := RtlNumberOfSetBits bm) in *. rewrite Z.mul_assoc.
  change 4294967296 with (4096 * 1048576). rewrite Z.mul_mod_distr_r by lia.
  apply Z.div_mul. lia.
Qed.

(** ** Trace output of the bitmap *)

(** The bits a list of printed ranges stands for. *)
Definition dumped_bits (bs : Z) (ds : list dumped) : bitmap :=
  mjoin ((fun d => replicate (Z.to_nat (d_bytes d / bs)) (d_filled d)) <$> ds).

Lemma dump_loop_ok bs base l2 : forall l1 rs prev cur,
  region_fits base bs (zlen (l1 ++ replicate rs prev ++ l2)) -> (l2 = [] -> cur = prev) -> (1 <= rs)%nat ->
  let bm := l1 ++ replicate rs prev ++ l2 in
  exists ds start c, dump_loop (length l2) bm base bs (zlen l1 + Z.of_nat rs) (zlen l1) prev cur =
      Ok (ds, zlen bm, start, c) /\ 0 <= start <= zlen bm /\
    dumped_bits bs ds ++ replicate (Z.to_nat (zlen bm - start)) c = replicate rs prev ++ l2.
Proof.
  induction l2 as [|b l2 IH]; intros l1 rs prev cur Hfit Hcur Hrs bm; cbn [dump_loop length].
  - exists [], (zlen l1), cur. unfold bm. rewrite app_nil_r, zlen_app, zlen_replicate.
    split; [done|]. pose proof (zlen_nonneg l1). split; [lia|]. cbn.
    rewrite Hcur by done. f_equal. lia.
  - assert (Hb : bm⟦zlen l1 + Z.of_nat rs⟧ = Some b).
    { unfold bm. rewrite zlookup_app_r by lia. rewrite zlookup_app_r by (rewrite zlen_replicate; lia).
      rewrite zlen_replicate. by replace (zlen l1 + Z.of_nat rs - zlen l1 - Z.of_nat rs) with 0 by lia. }
    unfold RtlCheckBit. rewrite (zget_ok _ _ _ Hb). cbn [mbind res_bind].
    pose proof (zlen_nonneg l1) as H1. pose proof (zlen_nonneg l2) as H2.
    pose proof Hfit as (F1 & F2 & F3 & F4).
    rewrite !zlen_app, zlen_replicate, zlen_cons in F3, F4.
    destruct (Bool.eqb prev b) eqn:Eb; cbn [negb].
    + apply eqb_prop in Eb as <-.
      assert (E : bm = l1 ++ replicate (S rs) prev ++ l2)
        by (unfold bm; rewrite replicate_S_end, <- app_assoc; done).
      rewrite E. replace (zlen l1 + Z.of_nat rs + 1) with (zlen l1 + Z.of_nat (S rs)) by lia.
      destruct (IH l1 (S rs) prev prev) as (ds & start & c & D & B & P); [by rewrite <- E|done|lia|].
      exists ds, start, c. split; [done|]. split; [done|]. rewrite P.
      by rewrite replicate_S_end, <- app_assoc.
    + assert (E : bm = (l1 ++ replicate rs prev) ++ replicate 1 b ++ l2)
        by (unfold bm; by rewrite <- app_assoc).
      assert (Hz : zlen l1 + Z.of_nat rs = zlen (l1 ++ replicate rs prev))
        by (by rewrite zlen_app, zlen_replicate).
      destruct (IH (l1 ++ replicate rs prev) 1%nat b b) as (ds & start & c & D & B & P);
        [by rewrite <- E|done|lia|].
      rewrite E, Hz. change (Z.of_nat 1) with 1 in D. rewrite D. cbn [mbind res_bind].
      eexists _, start, c. split; [done|]. split; [done|].
      cbn [fmap list_fmap mjoin list_join dumped_bits d_bytes d_filled].
      rewrite <- Hz at 1. replace (zlen l1 + Z.of_nat rs - zlen l1) with (Z.of_nat rs) by lia.
      rewrite s64_small by nia. rewrite Z.div_mul, Nat2Z.id by lia. rewrite <- app_assoc. f_equal.
      exact P.
Qed.

(** For a bitmap of at least two blocks the ranges printed by
    [DumpBitmapMemoryRanges] are, end to end, the bitmap: each range has the
    length of a run and is labelled by the value of its bits.  (A bitmap of one
    block is printed as empty whatever its bit is.) *)
Theorem DumpBitmapMemoryRanges_partition base bs b0 b1 l :
  region_fits base bs (zlen (b0 :: b1 :: l)) ->
  exists ds, DumpBitmapMemoryRanges base (b0 :: b1 :: l) bs = Ok ds /\
    dumped_bits bs ds = b0 :: b1 :: l.
Proof.
  intros Hfit. pose proof Hfit as (F1 & F2 & F3 & F4). set (bm := b0 :: b1 :: l) in *.
  destruct (dump_loop_ok bs base (b1 :: l) [] 1%nat b0 false) as (ds & start & c & D & B & P);
    [done..|lia|]. cbn [app replicate] in D, B, P. fold bm in D, B, P.
  unfold DumpBitmapMemoryRanges. change (RtlCheckBit bm 0) with (@Ok bool b0). cbn [mbind res_bind].
  replace (Z.to_nat (SizeOfBitMap bm - 1)) with (length (b1 :: l))
    by (unfold SizeOfBitMap, bm; rewrite zlen_cons; unfold zlen; lia).
  change (zlen (@nil bool) + Z.of_nat 1) with 1 in D. change (zlen (@nil bool)) with 0 in D.
  rewrite D. cbn [mbind res_bind]. eexists. split; [done|].
  unfold dumped_bits in *. rewrite fmap_app, join_app. cbn [fmap list_fmap mjoin list_join d_bytes d_filled].
  rewrite app_nil_r. rewrite s64_small by nia. rewrite Z.div_mul by lia. done.
Qed.
