(* ===== verification/VioMem.v ===== *)
(** * virtio-mem: the driver (viomem/sys/viomem.c)

    The device context, the four requests the driver sends over its queue,
    plugging and unplugging of memory, the synchronisation at start-up and the
    worker thread.  The queue is any [VirtQueueOps]; the memory manager, the
    pool allocator and the device on the other side of the queue are the
    parameters gathered in [platform]. *)

From Stdlib Require Import ZArith Lia.
From stdpp Require Import base list numbers option.
From S2P Require Import Prelude.
From S2P Require Import Virtio.
From S2P Require Import VirtQueue.
From S2P Require Import VioMemRanges.

Definition VIRTIO_MEM_F_ACPI_PXM : Z := 0.
Definition VIRTIO_MEM_F_UNPLUGGED_INACCESSIBLE : Z := 1.
Definition VIRTIO_MEM_REQ_PLUG : Z := 0.
Definition VIRTIO_MEM_REQ_UNPLUG : Z := 1.
Definition VIRTIO_MEM_REQ_UNPLUG_ALL : Z := 2.
Definition VIRTIO_MEM_REQ_STATE : Z := 3.
Definition VIRTIO_MEM_RESP_ACK : Z := 0.
Definition VIRTIO_MEM_STATE_PLUGGED : Z := 0.
Definition VIRTIO_MEM_STATE_UNPLUGGED : Z := 1.
Definition VIRTIO_MEM_STATE_MIXED : Z := 2.

Record virtio_mem_config := mk_config {
  block_size : Z; node_id : Z; cfg_addr : Z; region_size : Z; usable_region_size : Z;
  plugged_size : Z; requested_size : Z }.

(** The three arms of the request union have the same fields. *)
Record virtio_mem_req := mk_req { req_type : Z; req_addr : Z; nb_blocks : Z }.
#[export] Instance eta_req : Eta virtio_mem_req := fun r =>
  mk_req (req_type r) (req_addr r) (nb_blocks r).
Record virtio_mem_resp := mk_resp { resp_type : Z; resp_state : Z }.
Definition sizeof_virtio_mem_req : Z := 24.
Definition sizeof_virtio_mem_resp : Z := 10.
Definition sizeof_PHYSICAL_MEMORY_RANGE : Z := 16.
Definition sizeof_stack : Z := 12.

Inductive viomem_state := VIOMEM_PROCESS_STATE_INIT | VIOMEM_PROCESS_STATE_RUNNING.

(** [DEVICE_CONTEXT]; [driver_status] is the last of DRIVER_OK and FAILED told
    to the device, [ctx_ptr] the address of the context itself. *)
Record DEVICE_CONTEXT {Q : Type} := mk_ctx {
  ctx_ptr : Z;
  infVirtQueue : Q;
  plugRequest : virtio_mem_req;
  MemoryResponse : virtio_mem_resp;
  memoryBitmapHandle : bitmap;
  state : viomem_state;
  finishProcessing : bool;
  ACPIProximityIdActive : bool;
  driver_status : option bool }.
Arguments DEVICE_CONTEXT : clear implicits.
#[export] Instance eta_ctx {Q} : Eta (DEVICE_CONTEXT Q) := fun c =>
  mk_ctx _ (ctx_ptr c) (infVirtQueue c) (plugRequest c) (MemoryResponse c) (memoryBitmapHandle c)
    (state c) (finishProcessing c) (ACPIProximityIdActive c) (driver_status c).

(** What the driver calls outside its own sources, over a state [E] of the
    system and the device.  [wait_ack] is the wait for [hostAcknowledge], during
    which the device may work on the queue and write the response; [init_queues]
    gives the queue or the failing status. *)
Record platform {Q E : Type} := mk_platform {
  phys_request : Z; phys_response : Z;
  notify : E -> E;
  wait_ack : E -> DEVICE_CONTEXT Q -> Z * E * DEVICE_CONTEXT Q;
  device_get : E -> virtio_mem_config;
  device_features : E -> Z;
  set_driver_features : E -> Z -> Z * E;
  init_queues : E -> (Q + Z) * E;
  destroy_queues : E -> E;
  pool_alloc : E -> Z -> bool * E;
  MmAddPhysicalMemory : E -> PHYSICAL_MEMORY_RANGE -> Z * E;
  MmAllocateNodePagesForMdlEx : E -> Z -> Z -> Z -> Z -> option MDL * E;
  RtlFindLongestRunClear : bitmap -> Z * Z }.
Arguments platform : clear implicits.

Record world {Q E : Type} := mk_world { env : E; ctx : DEVICE_CONTEXT Q }.
Arguments world : clear implicits.
#[export] Instance eta_world {Q E} : Eta (world Q E) := fun w => mk_world _ _ (env w) (ctx w).

Section driver.
Context {Q E : Type} `{VirtQueueOps Q} (P : platform Q E).

(** ** Requests *)

(** [memset] of the response and of the request. *)
Definition clear_buffers (c : DEVICE_CONTEXT Q) : DEVICE_CONTEXT Q :=
  c <| MemoryResponse := mk_resp 0 0 |> <| plugRequest := mk_req 0 0 0 |>.

(** The two elements of every request: the request and the response buffer. *)
Definition request_sg : list VirtIOBufferDescriptor :=
  [mk_sg (phys_request P) sizeof_virtio_mem_req; mk_sg (phys_response P) sizeof_virtio_mem_resp].

Definition add_request (w : world Q E) : res (Z * world Q E) :=
  '(r, q) ← virtqueue_add_buf (infVirtQueue (ctx w)) request_sg 1 1 (ctx_ptr (ctx w));
  Ok (r, w <| ctx := (ctx w) <| infVirtQueue := q |> |>).

(** [virtqueue_kick_prepare] and, when it says so, [virtqueue_notify]. *)
Definition kick (w : world Q E) : world Q E :=
  let '(do_notify, q) := virtqueue_kick_prepare (infVirtQueue (ctx w)) in
  let w := w <| ctx := (ctx w) <| infVirtQueue := q |> |> in
  if (do_notify : bool) then w <| env := notify P (env w) |> else w.

Definition wait (w : world Q E) : Z * world Q E :=
  let '(s, e, c) := wait_ack P (env w) (ctx w) in (s, mk_world _ _ e c).

(** Remove the buffer from the queue; false when the queue says it has a buffer
    and then gives none. *)
Definition take_answer (w : world Q E) : res (bool * world Q E) :=
  has ← virtqueue_has_buf (infVirtQueue (ctx w));
  if (has : bool) then
    '(b, q) ← virtqueue_get_buf (infVirtQueue (ctx w));
    Ok (bool_decide (is_Some b), w <| ctx := (ctx w) <| infVirtQueue := q |> |>)
  else Ok (true, w).

(** What three of the requests have in common after building the request; false
    when the function returns FALSE on the way. *)
Definition exchange (w : world Q E) : res (bool * world Q E) :=
  '(result, w) ← add_request w;
  if result <? 0 then Ok (false, w)
  else
    let w := kick w in
    let '(status, w) := wait w in
    if negb (NT_SUCCESS status) then Ok (false, w) else take_answer w.

Definition SendUnplugAllRequest (w : world Q E) : res (bool * world Q E) :=
  let c := clear_buffers (ctx w) in
  let w := w <| ctx := c <| plugRequest := (plugRequest c)
                            <| req_type := VIRTIO_MEM_REQ_UNPLUG_ALL |> |> |> in
  '(ok, w) ← exchange w;
  if negb ok then Ok (false, w)
  else if resp_type (MemoryResponse (ctx w)) =? VIRTIO_MEM_RESP_ACK
  then Ok (negb (truth (plugged_size (device_get P (env w)))) , w)
  else Ok (false, w).

Definition SendUnPlugRequest (w : world Q E) (Address NumberOfBlocks : Z) : res (bool * world Q E) :=
  let c := clear_buffers (ctx w) in
  let w := w <| ctx := c <| plugRequest := mk_req VIRTIO_MEM_REQ_UNPLUG Address NumberOfBlocks |> |> in
  '(ok, w) ← exchange w;
  if negb ok then Ok (false, w)
  else Ok (resp_type (MemoryResponse (ctx w)) =? VIRTIO_MEM_RESP_ACK, w).

(** A failure to add the buffer is traced and otherwise ignored, and so is a
    buffer that cannot be taken back. *)
Definition SendPlugRequest (w : world Q E) (Address NumberOfBlocks : Z) : res (bool * world Q E) :=
  let c := clear_buffers (ctx w) in
  let w := w <| ctx := c <| plugRequest := mk_req VIRTIO_MEM_REQ_PLUG Address NumberOfBlocks |> |> in
  '(_, w) ← add_request w;
  let w := kick w in
  let '(status, w) := wait w in
  if negb (NT_SUCCESS status) then Ok (false, w)
  else
    '(_, w) ← take_answer w;
    Ok (resp_type (MemoryResponse (ctx w)) =? VIRTIO_MEM_RESP_ACK, w).

(** The state is [None] when the function does not write it. *)
Definition SendStateRequest (w : world Q E) (Address NumberOfBlocks : Z)
    : res (bool * option Z * world Q E) :=
  let c := clear_buffers (ctx w) in
  let w := w <| ctx := c <| plugRequest := mk_req VIRTIO_MEM_REQ_STATE Address NumberOfBlocks |> |> in
  '(ok, w) ← exchange w;
  if negb ok then Ok (false, None, w)
  else if resp_type (MemoryResponse (ctx w)) =? VIRTIO_MEM_RESP_ACK
  then Ok (true, Some (resp_state (MemoryResponse (ctx w))), w)
  else Ok (false, None, w).

(** ** Plugging and unplugging *)

Definition set_bitmap (w : world Q E) (bm : bitmap) : world Q E :=
  w <| ctx := (ctx w) <| memoryBitmapHandle := bm |> |>.

(** C division of unsigned 64-bit values. *)
Definition udiv (a b : Z) : res Z := if b =? 0 then Fault DivideByZero else Ok (a / b).

Definition VirtioMemAddPhysicalMemory (w : world Q E) (c : virtio_mem_config) : res (bool * world Q E) :=
  let sizeDifference := u64 (requested_size c - plugged_size c) in
  let address := s64 (cfg_addr c) in
  limit ← udiv sizeDifference (block_size c);
  match FindFreeMemoryRangeInBitmap (RtlFindLongestRunClear P) (memoryBitmapHandle (ctx w))
          address (block_size c) (u32 limit) with
  | None => Ok (false, w)
  | Some range =>
      nb ← udiv (u64 (NumberOfBytes range)) (block_size c);
      '(result, w) ← SendPlugRequest w (u64 (BaseAddress range)) (u16 nb);
      if negb result then Ok (false, w)
      else
        let '(status, e) := MmAddPhysicalMemory P (env w) range in
        let w := w <| env := e |> in
        if negb (NT_SUCCESS status) then Ok (false, w)
        else
          bm ← AllocateMemoryRangeInMemoryBitmap address range
                 (memoryBitmapHandle (ctx w)) (u32 (block_size c));
          Ok (true, set_bitmap w bm)
  end.

(** The loop over the ranges of the removed memory. *)
Fixpoint unplug_ranges (w : world Q E) (c : virtio_mem_config) (address : Z)
    (ranges : list PHYSICAL_MEMORY_RANGE) : res (world Q E) :=
  match ranges with
  | [] => Ok w
  | r :: ranges =>
      nb ← udiv (u64 (NumberOfBytes r)) (block_size c);
      '(ok, w) ← SendUnPlugRequest w (u64 (BaseAddress r)) (u16 nb);
      w ← (if (ok : bool) then
             bm ← DeallocateMemoryRangeInMemoryBitmap address r
                    (memoryBitmapHandle (ctx w)) (u32 (block_size c));
             Ok (set_bitmap w bm)
           else Ok (w <| env := (MmAddPhysicalMemory P (env w) r).2 |>));
      unplug_ranges w c address ranges
  end.

(** What follows a successful [MmAllocateNodePagesForMdlEx]. *)
Definition process_removed (w : world Q E) (c : virtio_mem_config) (address : Z) (m : MDL)
    : res (bool * world Q E) :=
  rangeCount ← GetMemoryRangesCountFromMdl m;
  if rangeCount >? 0 then
    let '(ok, e) := pool_alloc P (env w) (u64 (rangeCount * sizeof_PHYSICAL_MEMORY_RANGE)) in
    let w := w <| env := e |> in
    if negb ok then Ok (false, w)
    else
      '(_, memoryRanges) ← GetMemoryRangesFromMdl m
                             (replicate (Z.to_nat rangeCount) (mk_range 0 0));
      w ← unplug_ranges w c address memoryRanges;
      Ok (true, w)
  else Ok (false, w).

Definition VirtioMemRemovePhysicalMemory (w : world Q E) (c : virtio_mem_config)
    : res (bool * world Q E) :=
  let address := s64 (cfg_addr c) in
  let sizeDifference := s64 (u64 (plugged_size c - requested_size c)) in
  limit ← udiv (u64 sizeDifference) (block_size c);
  found ← FindAllocatedMemoryRangeInBitmap (memoryBitmapHandle (ctx w)) address (block_size c)
            (u32 limit);
  match found with
  | None => Ok (false, w)
  | Some range =>
      let highAddress := s64 (BaseAddress range + NumberOfBytes range) in
      let '(removed, e) := MmAllocateNodePagesForMdlEx P (env w) (BaseAddress range) highAddress
                             (s64 (block_size c)) (NumberOfBytes range) in
      let w := w <| env := e |> in
      match removed with
      | None => Ok (true, w)
      | Some m => process_removed w c address m
      end
  end.

(** ** Synchronisation at start-up *)

Record stack := mk_stack { st_address : Z; numberOfBlocks : Z }.

(** The [while (Top)] loop of [SynchronizeDeviceAndDriverMemory]. *)
Fixpoint sync_loop (fuel : nat) (w : world Q E) (c : virtio_mem_config)
    (address Top startBlockAddr NumberOfBlocks : Z) (st : list stack) : res (bool * world Q E) :=
  if truth Top then
    match fuel with
    | O => Fault OutOfFuel
    | S fuel =>
        '(ok, answer, w) ← SendStateRequest w startBlockAddr (u16 NumberOfBlocks);
        if negb ok then Ok (false, w)
        else
          let s := default 0 answer in
          if (s =? VIRTIO_MEM_STATE_PLUGGED) || (s =? VIRTIO_MEM_STATE_UNPLUGGED) then
            w ← (if s =? VIRTIO_MEM_STATE_PLUGGED then
                   bm ← AllocateMemoryRangeInMemoryBitmap address
                          (mk_range (s64 startBlockAddr)
                             (s64 (s64 (block_size c) * NumberOfBlocks)))
                          (memoryBitmapHandle (ctx w)) (u32 (block_size c));
                   Ok (set_bitmap w bm)
                 else Ok w);
            let Top := u32 (Top - 1) in
            e ← zget st Top;
            let NumberOfBlocks := numberOfBlocks e in
            let startBlockAddr := u64 (st_address e + NumberOfBlocks * block_size c) in
            sync_loop fuel w c address Top startBlockAddr NumberOfBlocks st
          else if s =? VIRTIO_MEM_STATE_MIXED then
            let NumberOfBlocks := NumberOfBlocks / 2 in
            st ← zset st Top (mk_stack (s64 startBlockAddr) NumberOfBlocks);
            sync_loop fuel w c address (u32 (Top + 1)) startBlockAddr NumberOfBlocks st
          else sync_loop fuel w c address Top startBlockAddr NumberOfBlocks st
    end
  else Ok (true, w).

(** The part for the blocks left after the odd one: allocate the stack, write
    its first entry and run the loop. *)
Definition sync_even (fuel : nat) (w : world Q E) (c : virtio_mem_config)
    (address remaining NumberOfBlocks : Z) : res (bool * world Q E) :=
  if truth NumberOfBlocks then
    let Top := 0 in
    let '(ok, e) := pool_alloc P (env w) (u64 (NumberOfBlocks * sizeof_stack)) in
    let w := w <| env := e |> in
    if negb ok then Ok (false, w)
    else
      let startBlockAddr := u64 (cfg_addr c + remaining * block_size c) in
      st ← zset (replicate (Z.to_nat NumberOfBlocks) (mk_stack 0 0)) Top
             (mk_stack (s64 startBlockAddr) NumberOfBlocks);
      sync_loop fuel w c address Top startBlockAddr NumberOfBlocks st
  else Ok (true, w).

Definition SynchronizeDeviceAndDriverMemory (fuel : nat) (w : world Q E) (c : virtio_mem_config)
    : res (bool * world Q E) :=
  let w := set_bitmap w (RtlClearAllBits (memoryBitmapHandle (ctx w))) in
  nb ← udiv (Z.min (region_size c) (usable_region_size c)) (block_size c);
  let NumberOfBlocks := u32 nb in
  if NumberOfBlocks >? 65535 then Ok (false, w)
  else
    let address := s64 (cfg_addr c) in
    let remaining := Z.land NumberOfBlocks 1 in
    if truth remaining then
      let NumberOfBlocks := u32 (NumberOfBlocks - 1) in
      '(ok, answer, w) ← SendStateRequest w (cfg_addr c) 1;
      if negb ok then Ok (false, w)
      else
        w ← (if default 0 answer =? VIRTIO_MEM_STATE_PLUGGED then
               bm ← AllocateMemoryRangeInMemoryBitmap address
                      (mk_range (s64 (cfg_addr c)) (s64 (block_size c)))
                      (memoryBitmapHandle (ctx w)) (u32 (block_size c));
               Ok (set_bitmap w bm)
             else Ok w);
        sync_even fuel w c address remaining NumberOfBlocks
    else sync_even fuel w c address remaining NumberOfBlocks.

(** ** The worker thread *)

(** The part of an iteration for the state INIT: false when the thread quits. *)
Definition worker_start (fuel : nat) (w : world Q E) (c : virtio_mem_config)
    : res (bool * world Q E) :=
  match state (ctx w) with
  | VIOMEM_PROCESS_STATE_INIT =>
      '(result, w) ← (if plugged_size c >? 0
                      then SynchronizeDeviceAndDriverMemory fuel w c else Ok (true, w));
      if negb result then Ok (false, w)
      else Ok (true, w <| ctx := (ctx w) <| state := VIOMEM_PROCESS_STATE_RUNNING |> |>)
  | VIOMEM_PROCESS_STATE_RUNNING => Ok (true, w)
  end.

(** One iteration after a successful wait: false when the thread ends. *)
Definition worker_iteration (fuel : nat) (w : world Q E) : res (bool * world Q E) :=
  if finishProcessing (ctx w) then Ok (false, w)
  else
    let c := device_get P (env w) in
    '(go, w) ← worker_start fuel w c;
    if negb go then Ok (false, w)
    else if requested_size c >? plugged_size c then
      '(_, w) ← VirtioMemAddPhysicalMemory w c; Ok (true, w)
    else if requested_size c <? plugged_size c then
      '(_, w) ← VirtioMemRemovePhysicalMemory w c; Ok (true, w)
    else Ok (true, w).

(** The thread over a sequence of wake-ups: the status of each wait, and what
    the system, the device and the other threads did before it.  The flag says
    whether the thread has ended. *)
Fixpoint ViomemWorkerThread (fuel : nat) (wakes : list (Z * (world Q E -> world Q E)))
    (w : world Q E) : res (bool * world Q E) :=
  match wakes with
  | [] => Ok (false, w)
  | (status, f) :: wakes =>
      let w := f w in
      if status =? 0 then
        '(go, w) ← worker_iteration fuel w;
        if (go : bool) then ViomemWorkerThread fuel wakes w else Ok (true, w)
      else ViomemWorkerThread fuel wakes w
  end.

(** ** Start and stop *)

Definition ViomemInit (w : world Q E) : res (Z * world Q E) :=
  let host := device_features P (env w) in
  let '(guest, c) :=
    if virtio_is_feature_enabled host VIRTIO_MEM_F_ACPI_PXM
    then (virtio_feature_enable 0 VIRTIO_MEM_F_ACPI_PXM,
          (ctx w) <| ACPIProximityIdActive := true |>)
    else (0, ctx w) in
  let guest :=
    if virtio_is_feature_enabled host VIRTIO_MEM_F_UNPLUGGED_INACCESSIBLE
    then virtio_feature_enable guest VIRTIO_MEM_F_UNPLUGGED_INACCESSIBLE else guest in
  let '(status, e) := set_driver_features P (env w) guest in
  let w := mk_world _ _ e c in
  let failed (w : world Q E) := w <| ctx := (ctx w) <| driver_status := Some false |> |> in
  if NT_SUCCESS status then
    let '(r, e) := init_queues P (env w) in
    let w := w <| env := e |> in
    match r with
    | inl q =>
        let w := w <| ctx := (ctx w) <| infVirtQueue := q |> |> in
        let cfg := device_get P (env w) in
        nb ← udiv (region_size cfg) (block_size cfg);
        let bitmapSizeInBits := u32 nb in
        let '(ok, e) := pool_alloc P (env w) (Z.shiftr bitmapSizeInBits 3) in
        let w := w <| env := e |> in
        if (ok : bool) then
          let w := set_bitmap w (RtlClearAllBits (replicate (Z.to_nat bitmapSizeInBits) false)) in
          Ok (STATUS_SUCCESS, w <| ctx := (ctx w) <| driver_status := Some true |> |>)
        else Ok (STATUS_INSUFFICIENT_RESOURCES, failed w)
    | inr status => Ok (status, failed w)
    end
  else Ok (status, failed w).

Definition ViomemTerminate (w : world Q E) : world Q E := w <| env := destroy_queues P (env w) |>.
End driver.
