(* ===== verification/VioMemSpec.v ===== *)
(** * Correctness of the virtio-mem driver

    The theorems are proved against the [SyncQueue] interface, for any platform
    whose device answers the requests it is sent. *)

From Stdlib Require Import ZArith Lia.
From stdpp Require Import base list numbers option.
From S2P Require Import Prelude.
From S2P Require Import Virtio.
From S2P Require Import VirtQueue.
From S2P Require Import VioMemRanges.
From S2P Require Import VioMemRangesSpec.
From S2P Require Import VioMem.

(** ** The environment *)

Section spec.
Context {Q E : Type} `{SyncQueue Q} (P : platform Q E).

(** [dev] is the device: its answer to a request and its next state. *)
Variable dev : E -> virtio_mem_req -> virtio_mem_resp * E.

(** While the driver waits with its request in the queue, the device answers it:
    it writes the response and returns the buffer. *)
Definition device_answers : Prop := forall e c room,
  vq_busy (infVirtQueue c) room (ctx_ptr c) ->
  exists len q', vq_complete (infVirtQueue c) len q' /\
    wait_ack P e c = (STATUS_SUCCESS, (dev e (plugRequest c)).2,
      c <| MemoryResponse := (dev e (plugRequest c)).1 |> <| infVirtQueue := q' |>).

(** The queue is idle and large enough for a request. *)
Definition ready (w : world Q E) (room : Z) : Prop :=
  vq_idle (infVirtQueue (ctx w)) room /\ 2 <= room /\ ctx_ptr (ctx w) <> 0.

(** [w'] is [w] after the device has answered the request [r]: only the buffers,
    the queue (idle again) and the outside have changed. *)
Definition answered (w w' : world Q E) (r : virtio_mem_req) (room : Z) : Prop :=
  exists e0 q', (e0 = env w \/ e0 = notify P (env w)) /\
    w' = mk_world _ _ (dev e0 r).2
           ((ctx w) <| plugRequest := r |> <| MemoryResponse := (dev e0 r).1 |>
                    <| infVirtQueue := q' |>) /\
    vq_idle q' room.

Lemma answered_ready w w' r room : ready w room -> answered w w' r room -> ready w' room.
Proof. intros (_ & ? & ?) (e0 & q' & _ & -> & ?). by split_and!. Qed.

Lemma answered_bitmap w w' r room :
  answered w w' r room -> memoryBitmapHandle (ctx w') = memoryBitmapHandle (ctx w) /\
    state (ctx w') = state (ctx w) /\ finishProcessing (ctx w') = finishProcessing (ctx w).
Proof. by intros (e0 & q' & _ & -> & _). Qed.

Hypothesis Hdev : device_answers.

(** Adding the request, kicking, waiting and taking the answer. *)
Lemma round_trip w room : ready w room ->
  exists w1 w2 w3, add_request P w = Ok (VQ_ADD_BUFFER_SUCCESS, w1) /\
    wait P (kick P w1) = (STATUS_SUCCESS, w2) /\ take_answer w2 = Ok (true, w3) /\
    answered w w3 (plugRequest (ctx w)) room.
Proof.
  intros (Hi & Hr & Hp). unfold add_request.
  destruct (vq_idle_add _ _ (request_sg P) 1 1 (ctx_ptr (ctx w)) Hi) as (q1 & Ea & Hb).
  { unfold valid_buf, request_sg, zlen. cbn. lia. }
  { unfold request_sg, zlen. cbn. lia. }
  rewrite Ea. cbn [mbind res_bind]. eexists. 
  pose proof (vq_busy_kick _ _ _ Hb) as Hb2.
  destruct (virtqueue_kick_prepare q1) as [dn q2] eqn:Ek. cbn [snd] in Hb2.
  set (e0 := if dn then notify P (env w) else env w).
  destruct (Hdev e0 ((ctx w) <| infVirtQueue := q2 |>) room) as (len & q3 & Hc & Hw); [done|].
  destruct (vq_complete_get _ _ _ _ _ Hb2 Hc) as (Hh & q4 & Hg & Hi4).
  eexists _, _. split; [done|]. split.
  { match goal with |- wait P ?k = _ =>
      assert (k = mk_world _ _ e0 ((ctx w) <| infVirtQueue := q2 |>)) as -> end.
    { unfold kick. cbn. rewrite Ek. unfold e0. by destruct dn. }
    unfold wait. cbn [env ctx]. rewrite Hw. done. }
  split.
  { unfold take_answer. cbn. rewrite Hh. cbn [mbind res_bind]. rewrite Hg. cbn [mbind res_bind].
    by rewrite bool_decide_true. }
  exists e0, q4. split; [unfold e0; destruct dn; auto|]. split; [|done]. done.
Qed.

Lemma exchange_ok w room : ready w room ->
  exists w', exchange P w = Ok (true, w') /\ answered w w' (plugRequest (ctx w)) room.
Proof.
  intros (w1 & w2 & w3 & E1 & E2 & E3 & A)%round_trip. exists w3. split; [|done].
  unfold exchange. rewrite E1. cbn [mbind res_bind]. change (VQ_ADD_BUFFER_SUCCESS <? 0) with false.
  cbv iota. by rewrite E2.
Qed.

(** Whether the device acknowledged. *)
Definition acked (w : world Q E) : bool :=
  resp_type (MemoryResponse (ctx w)) =? VIRTIO_MEM_RESP_ACK.

(** Building the request does not change what [answered] is about. *)
Lemma answered_built w c w' r room :
  c = clear_buffers (ctx w) ->
  answered (w <| ctx := c <| plugRequest := r |> |>) w' r room -> answered w w' r room.
Proof. intros -> (e0 & q' & He & -> & Hi). by exists e0, q'. Qed.

Lemma SendUnPlugRequest_ok w room a n : ready w room ->
  exists w', SendUnPlugRequest P w a n = Ok (acked w', w') /\
    answered w w' (mk_req VIRTIO_MEM_REQ_UNPLUG a n) room.
Proof.
  intros Hr. destruct (exchange_ok (w <| ctx := (clear_buffers (ctx w))
    <| plugRequest := mk_req VIRTIO_MEM_REQ_UNPLUG a n |> |>) room) as (w' & Ex & A); [done|].
  exists w'. split; [|exact (answered_built _ _ _ _ _ eq_refl A)].
  unfold SendUnPlugRequest. by rewrite Ex.
Qed.

Lemma SendPlugRequest_ok w room a n : ready w room ->
  exists w', SendPlugRequest P w a n = Ok (acked w', w') /\
    answered w w' (mk_req VIRTIO_MEM_REQ_PLUG a n) room.
Proof.
  intros Hr. destruct (round_trip (w <| ctx := (clear_buffers (ctx w))
    <| plugRequest := mk_req VIRTIO_MEM_REQ_PLUG a n |> |>) room)
    as (w1 & w2 & w3 & E1 & E2 & E3 & A); [done|].
  exists w3. split; [|exact (answered_built _ _ _ _ _ eq_refl A)].
  unfold SendPlugRequest. rewrite E1. cbn [mbind res_bind]. rewrite E2.
  change (negb (NT_SUCCESS STATUS_SUCCESS)) with false. cbv iota. by rewrite E3.
Qed.

Lemma SendStateRequest_ok w room a n : ready w room ->
  exists w', SendStateRequest P w a n =
      Ok (acked w', if acked w' then Some (resp_state (MemoryResponse (ctx w'))) else None, w') /\
    answered w w' (mk_req VIRTIO_MEM_REQ_STATE a n) room.
Proof.
  intros Hr. destruct (exchange_ok (w <| ctx := (clear_buffers (ctx w))
    <| plugRequest := mk_req VIRTIO_MEM_REQ_STATE a n |> |>) room) as (w' & Ex & A); [done|].
  exists w'. split; [|exact (answered_built _ _ _ _ _ eq_refl A)].
  unfold SendStateRequest. rewrite Ex. cbn [mbind res_bind negb]. unfold acked.
  by destruct (resp_type _ =? _).
Qed.

Lemma SendUnplugAllRequest_ok w room : ready w room ->
  exists w', SendUnplugAllRequest P w =
      Ok (acked w' && (plugged_size (device_get P (env w')) =? 0), w') /\
    answered w w' (mk_req VIRTIO_MEM_REQ_UNPLUG_ALL 0 0) room.
Proof.
  intros Hr. destruct (exchange_ok (w <| ctx := (clear_buffers (ctx w))
    <| plugRequest := mk_req VIRTIO_MEM_REQ_UNPLUG_ALL 0 0 |> |>) room) as (w' & Ex & A); [done|].
  exists w'. split; [|exact (answered_built _ _ _ _ _ eq_refl A)].
  unfold SendUnplugAllRequest. cbv zeta.
  match goal with |- context [exchange P ?x] =>
    replace (exchange P x) with (Ok (true, w')) by (symmetry; exact Ex) end.
  cbn [mbind res_bind negb]. unfold acked, truth. rewrite negb_involutive.
  by destruct (resp_type _ =? _).
Qed.

(** ** Plugging *)

(** The documented behaviour of the run-time library's search for clear bits. *)
Definition find_clear_ok (f : bitmap -> Z * Z) : Prop := forall bm,
  0 <= (f bm).1 /\ 0 <= (f bm).2 /\ (f bm).2 + (f bm).1 <= zlen bm /\
  (forall j, (f bm).2 <= j < (f bm).2 + (f bm).1 -> bm⟦j⟧ = Some false) /\
  ((f bm).1 = 0 -> forall j, bm⟦j⟧ <> Some false).

(** A configuration that describes a region of [size] blocks. *)
Definition config_ok (c : virtio_mem_config) (size : Z) : Prop :=
  region_fits (cfg_addr c) (block_size c) size /\
  0 <= plugged_size c < 9223372036854775808 /\ 0 <= requested_size c < 9223372036854775808 /\
  0 <= region_size c < 18446744073709551616 /\ 0 <= usable_region_size c < 18446744073709551616 /\
  region_size c / block_size c = size.

Definition same_but_bits (bm bm' : bitmap) (i n : Z) (b : bool) : Prop :=
  zlen bm' = zlen bm /\
  forall j, 0 <= j < zlen bm -> bm'⟦j⟧ = if (i <=? j) && (j <? i + n) then Some b else bm⟦j⟧.

Lemma write_bits_same b bm i n : 0 <= i -> i + n <= zlen bm ->
  exists bm', write_bits b bm i n = Ok bm' /\ same_but_bits bm bm' i n b.
Proof.
  intros Hi Hn. destruct (write_bits_ok b bm i n Hi Hn) as (bm' & E0 & L & B). by exists bm'.
Qed.

(** [udiv] by the block size. *)
Lemma udiv_ok a b : 0 < b -> udiv a b = Ok (a / b).
Proof. intros. unfold udiv. by replace (b =? 0) with false by lia. Qed.

(** What a call to [VirtioMemAddPhysicalMemory] does. *)
Inductive add_outcome (w : world Q E) (c : virtio_mem_config) (room : Z)
    : bool -> world Q E -> Prop :=
  | add_no_range : (forall j, (memoryBitmapHandle (ctx w))⟦j⟧ <> Some false) ->
      add_outcome w c room false w
  | add_range i n w1 b w2 :
      0 <= i -> 0 <= n -> i + n <= zlen (memoryBitmapHandle (ctx w)) ->
      n <= (requested_size c - plugged_size c) / block_size c ->
      (forall j, i <= j < i + n -> (memoryBitmapHandle (ctx w))⟦j⟧ = Some false) ->
      let r := block_range (cfg_addr c) (block_size c) i n in
      answered w w1 (mk_req VIRTIO_MEM_REQ_PLUG (BaseAddress r) (u16 n)) room ->
      (if acked w1 then
         env w2 = (MmAddPhysicalMemory P (env w1) r).2 /\
         b = NT_SUCCESS (MmAddPhysicalMemory P (env w1) r).1 /\
         exists bm', ctx w2 = (ctx w1) <| memoryBitmapHandle := bm' |> /\
           if (b : bool) then same_but_bits (memoryBitmapHandle (ctx w)) bm' i n true
           else bm' = memoryBitmapHandle (ctx w)
       else b = false /\ w2 = w1) ->
      add_outcome w c room b w2.

Hypothesis Hclear : find_clear_ok (RtlFindLongestRunClear P).

Lemma blocks_fit base bs size i n : region_fits base bs size -> 0 <= i -> 0 <= n -> i + n <= size ->
  0 <= base + i * bs < 9223372036854775808 /\ 0 <= n * bs < 9223372036854775808 /\
  n * bs / bs = n.
Proof.
  intros (Hb & Hbs & Hs & Hf) Hi Hn Hin. split; [nia|]. split; [nia|]. apply Z.div_mul. lia.
Qed.

Lemma add_physical_ok w c room :
  ready w room -> config_ok c (zlen (memoryBitmapHandle (ctx w))) ->
  plugged_size c <= requested_size c ->
  exists b w', VirtioMemAddPhysicalMemory P w c = Ok (b, w') /\ add_outcome w c room b w' /\
    ready w' room.
Proof.
  intros Hr (Hfit & Hp & Hq & _) Hle. pose proof Hfit as (F1 & F2 & F3 & F4).
  unfold VirtioMemAddPhysicalMemory. rewrite u64_small, udiv_ok by lia. cbn [mbind res_bind].
  rewrite (s64_small (cfg_addr c)) by nia.
  destruct (Hclear (memoryBitmapHandle (ctx w))) as (C1 & C2 & C3 & C4 & C5).
  unfold FindFreeMemoryRangeInBitmap.
  destruct (RtlFindLongestRunClear P (memoryBitmapHandle (ctx w))) as [k i]. cbn [fst snd] in *.
  set (d := (requested_size c - plugged_size c) / block_size c).
  assert (Hd : 0 <= d) by (apply Z.div_pos; lia).
  destruct (decide (k = 0)) as [->|Hk].
  { exists false, w. split; [done|]. split; [|done]. constructor. by apply C5. }
  pose proof (u32_range d).
  rewrite (range_of_run_block _ _ _ _ _ (zlen (memoryBitmapHandle (ctx w)))) by (done || lia).
  set (n := Z.min k (u32 d)).
  assert (Hn : 0 <= n <= k /\ n <= d).
  { unfold n. assert (u32 d <= d) by (apply Z.mod_le; lia). lia. }
  destruct (blocks_fit _ _ _ i n Hfit) as (B1 & B2 & B3); [lia..|].
  cbn [BaseAddress NumberOfBytes block_range].
  rewrite (u64_small (n * _)), udiv_ok, B3, u64_small by lia. cbn [mbind res_bind].
  destruct (SendPlugRequest_ok w room (cfg_addr c + i * block_size c) (u16 n) Hr) as (w1 & S1 & A).
  rewrite S1. cbn [mbind res_bind].
  pose proof (answered_ready _ _ _ _ Hr A) as Hr1. pose proof (answered_bitmap _ _ _ _ A) as (Hbm & _).
  assert (Hfree : forall j, i <= j < i + n -> (memoryBitmapHandle (ctx w))⟦j⟧ = Some false)
    by (intros; apply C4; lia).
  destruct (acked w1) eqn:Ha; cbn [negb].
  2:{ exists false, w1. split; [done|]. split; [|done].
      eapply (add_range w c room i n w1); try done; try lia. rewrite Ha. done. }
  fold (block_range (cfg_addr c) (block_size c) i n).
  destruct (MmAddPhysicalMemory P (env w1) (block_range (cfg_addr c) (block_size c) i n))
    as [st e] eqn:Em.
  destruct (NT_SUCCESS st) eqn:Hst; cbn [negb].
  2:{ eexists false, _. split; [done|]. split; [|done].
      eapply (add_range w c room i n w1); try done; try lia. rewrite Ha, Em. cbn.
      split; [done|]. split; [done|]. exists (memoryBitmapHandle (ctx w)). split; [|done].
      rewrite <- Hbm. by destruct (ctx w1). }
  cbn [ctx set_field]. change (ctx w1 <| env := e |>) with (ctx w1). rewrite Hbm.
  rewrite (u32_small (block_size c)), (alloc_dealloc_bits true) by (done || lia).
  destruct (write_bits_same true (memoryBitmapHandle (ctx w)) i n) as (bm' & Ew & Hs); [lia..|].
  rewrite Ew. cbn [mbind res_bind]. eexists true, _. split; [done|]. split; [|done].
  eapply (add_range w c room i n w1); try done; try lia. rewrite Ha, Em. cbn.
  split; [done|]. split; [done|]. by exists bm'.
Qed.

(** ** Unplugging *)

(** The ranges [rs] handed to the device one after the other: its answers, and
    the outside after telling the memory manager to take back what was refused. *)
Inductive unplug_run (bs : Z) : E -> list PHYSICAL_MEMORY_RANGE -> list bool -> E -> Prop :=
  | run_nil e : unplug_run bs e [] [] e
  | run_cons e e0 r rs ack acks e' :
      e0 = e \/ e0 = notify P e ->
      let a := dev e0 (mk_req VIRTIO_MEM_REQ_UNPLUG (BaseAddress r) (u16 (NumberOfBytes r / bs))) in
      ack = (resp_type a.1 =? VIRTIO_MEM_RESP_ACK) ->
      unplug_run bs (if ack then a.2 else (MmAddPhysicalMemory P a.2 r).2) rs acks e' ->
      unplug_run bs e (r :: rs) (ack :: acks) e'.

(** Block [j] lies in the range [r]. *)
Definition block_in (base bs : Z) (r : PHYSICAL_MEMORY_RANGE) (j : Z) : bool :=
  (BaseAddress r <=? base + j * bs) && (base + j * bs <? BaseAddress r + NumberOfBytes r).

(** The bits after the answers: the blocks of acknowledged ranges are clear. *)
Definition unplugged_bits (base bs : Z) (rs : list PHYSICAL_MEMORY_RANGE) (acks : list bool)
    (bm bm' : bitmap) : Prop :=
  zlen bm' = zlen bm /\
  forall j, 0 <= j < zlen bm ->
    bm'⟦j⟧ = if existsb (fun ra => ra.2 && block_in base bs ra.1 j) (zip rs acks)
             then Some false else bm⟦j⟧.

(** Whole blocks of the region, from block [lo] up to block [hi]. *)
Definition whole_blocks (base bs lo hi : Z) (r : PHYSICAL_MEMORY_RANGE) : Prop :=
  exists i n, r = block_range base bs i n /\ lo <= i /\ 0 <= n /\ i + n <= hi.

Lemma block_in_range base bs i n j : 0 < bs ->
  block_in base bs (block_range base bs i n) j = (i <=? j) && (j <? i + n).
Proof. intros Hbs. unfold block_in, block_range. cbn. nia. Qed.

Lemma unplug_ranges_ok c room rs : forall w,
  ready w room -> config_ok c (zlen (memoryBitmapHandle (ctx w))) ->
  Forall (whole_blocks (cfg_addr c) (block_size c) 0 (zlen (memoryBitmapHandle (ctx w)))) rs ->
  exists acks w', unplug_ranges P w c (cfg_addr c) rs = Ok w' /\ ready w' room /\
    unplug_run (block_size c) (env w) rs acks (env w') /\
    unplugged_bits (cfg_addr c) (block_size c) rs acks
      (memoryBitmapHandle (ctx w)) (memoryBitmapHandle (ctx w')) /\
    state (ctx w') = state (ctx w) /\ finishProcessing (ctx w') = finishProcessing (ctx w).
Proof.
  induction rs as [|r rs IH]; intros w Hr Hc Hall; cbn [unplug_ranges].
  - exists [], w. split_and!; try done. constructor.
  - apply list.Forall_cons in Hall as ((i & n & -> & Hi & Hn & Hin) & Hall).
    pose proof Hc as (Hfit & Hc'). pose proof Hfit as (F1 & F2 & F3 & F4).
    destruct (blocks_fit _ _ _ i n Hfit) as (B1 & B2 & B3); [lia..|].
    cbn [BaseAddress NumberOfBytes block_range].
    rewrite (u64_small (n * _)), udiv_ok, B3, u64_small by lia. cbn [mbind res_bind].
    destruct (SendUnPlugRequest_ok w room (cfg_addr c + i * block_size c) (u16 n) Hr)
      as (w1 & S1 & A).
    rewrite S1. cbn [mbind res_bind]. pose proof (answered_ready _ _ _ _ Hr A) as Hr1.
    pose proof (answered_bitmap _ _ _ _ A) as (Hbm & Hst & Hfin).
    destruct A as (e0 & q' & He & Ew1 & _).
    assert (Hack : acked w1 = (resp_type (dev e0 (mk_req VIRTIO_MEM_REQ_UNPLUG
        (cfg_addr c + i * block_size c) (u16 n))).1 =? VIRTIO_MEM_RESP_ACK)) by (by rewrite Ew1).
    assert (Henv : env w1 = (dev e0 (mk_req VIRTIO_MEM_REQ_UNPLUG
        (cfg_addr c + i * block_size c) (u16 n))).2) by (by rewrite Ew1).
    clear Ew1. fold (block_range (cfg_addr c) (block_size c) i n).
    destruct (acked w1) eqn:Ha.
    + rewrite Hbm, (u32_small (block_size c)), (alloc_dealloc_bits false) by (done || lia).
      destruct (write_bits_same false (memoryBitmapHandle (ctx w)) i n) as (bm' & Ew & Hl & Hb); [lia..|].
      rewrite Ew. cbn [mbind res_bind].
      destruct (IH (set_bitmap w1 bm')) as (acks & w' & Eu & Hr' & Hrun & (Hl2 & Hb2) & Hs' & Hf');
        [done| |by cbn; rewrite Hl|].
      { cbn. by rewrite Hl. }
      exists (true :: acks), w'. split; [done|]. split; [done|]. split.
      { econstructor; [done|..]; cbn [BaseAddress NumberOfBytes block_range]; rewrite B3; [done|].
        rewrite <- Henv. done. }
      cbn in Hl2, Hb2, Hs', Hf'. split; [|split; congruence]. split; [lia|]. intros j Hj.
      rewrite Hb2, Hb by lia. cbn [zip zip_with existsb fst snd andb].
      rewrite block_in_range by lia. by destruct (existsb _ _), ((i <=? j) && (j <? i + n)).
    + destruct (IH (w1 <| env := (MmAddPhysicalMemory P (env w1)
          (block_range (cfg_addr c) (block_size c) i n)).2 |>))
        as (acks & w' & Eu & Hr' & Hrun & (Hl2 & Hb2) & Hs' & Hf'); [done|cbn; by rewrite Hbm..|].
      cbn [mbind res_bind]. exists (false :: acks), w'. split; [done|]. split; [done|]. split.
      { econstructor; [done|..]; cbn [BaseAddress NumberOfBytes block_range]; rewrite B3; [done|].
        rewrite <- Henv. done. }
      cbn in Hl2, Hb2, Hs', Hf'. rewrite Hbm in Hl2, Hb2. split; [|split; congruence].
      split; [done|]. intros j Hj. rewrite Hb2 by lia. done.
Qed.

(** The documented behaviour of [MmAllocateNodePagesForMdlEx] with contiguous
    chunks: the pages it removes lie in the given range and come in whole chunks
    of the given size. *)
Definition removal_ok : Prop := forall e low bs bytes m e',
  MmAllocateNodePagesForMdlEx P e low (low + bytes) bs bytes = (Some m, e') ->
  mdl_ok m /\ forall rs, ranges_of (mdl_pages m) rs ->
    Forall (whole_blocks low bs 0 (bytes / bs)) rs.

Hypothesis Hremove : removal_ok.

(** The call that asks the memory manager for the blocks [i, i + n). *)
Definition remove_call (w : world Q E) (c : virtio_mem_config) (i n : Z) : option MDL * E :=
  MmAllocateNodePagesForMdlEx P (env w) (cfg_addr c + i * block_size c)
    (cfg_addr c + i * block_size c + n * block_size c) (block_size c) (n * block_size c).

(** What a call to [VirtioMemRemovePhysicalMemory] does.  In [remove_lost] the
    memory is gone from the system, but neither the device nor the bitmap know. *)
Inductive remove_outcome (w : world Q E) (c : virtio_mem_config)
    : bool -> world Q E -> Prop :=
  | remove_no_range : RtlNumberOfSetBits (memoryBitmapHandle (ctx w)) = 0 ->
      remove_outcome w c false w
  | remove_refused i n e :
      remove_call w c i n = (None, e) -> remove_outcome w c true (w <| env := e |>)
  | remove_lost i n m e e' :
      remove_call w c i n = (Some m, e) ->
      (mdl_pages m = [] /\ e' = e \/ exists size, pool_alloc P e size = (false, e')) ->
      remove_outcome w c false (w <| env := e' |>)
  | remove_ranges i n m e1 e2 rs acks w' :
      0 <= i -> i + n <= zlen (memoryBitmapHandle (ctx w)) ->
      0 <= n <= (plugged_size c - requested_size c) / block_size c ->
      remove_call w c i n = (Some m, e1) ->
      ranges_of (mdl_pages m) rs ->
      Forall (whole_blocks (cfg_addr c) (block_size c) i (i + n)) rs ->
      unplug_run (block_size c) e2 rs acks (env w') ->
      unplugged_bits (cfg_addr c) (block_size c) rs acks
        (memoryBitmapHandle (ctx w)) (memoryBitmapHandle (ctx w')) ->
      state (ctx w') = state (ctx w) -> finishProcessing (ctx w') = finishProcessing (ctx w) ->
      remove_outcome w c true w'.

Lemma whole_blocks_shift base bs i n r :
  whole_blocks (base + i * bs) bs 0 n r -> whole_blocks base bs i (i + n) r.
Proof.
  intros (k & m & -> & Hk & Hm & Hle). exists (i + k), m. split; [|lia].
  unfold block_range. f_equal. lia.
Qed.

Lemma whole_blocks_mono base bs lo hi lo' hi' r :
  lo' <= lo -> hi <= hi' -> whole_blocks base bs lo hi r -> whole_blocks base bs lo' hi' r.
Proof. intros H1 H2 (i & n & -> & ?). exists i, n. split; [done|]. lia. Qed.

Lemma remove_physical_ok w c room :
  ready w room -> config_ok c (zlen (memoryBitmapHandle (ctx w))) ->
  requested_size c <= plugged_size c ->
  exists b w', VirtioMemRemovePhysicalMemory P w c = Ok (b, w') /\ remove_outcome w c b w' /\
    ready w' room.
Proof.
  intros Hr Hc Hle. pose proof Hc as (Hfit & Hp & Hq & _). pose proof Hfit as (F1 & F2 & F3 & F4).
  unfold VirtioMemRemovePhysicalMemory.
  rewrite (u64_small (plugged_size c - _)), (s64_small (plugged_size c - _)), u64_small, udiv_ok by lia.
  cbn [mbind res_bind]. rewrite (s64_small (cfg_addr c)) by nia.
  set (bm := memoryBitmapHandle (ctx w)) in *. set (bs := block_size c) in *.
  unfold FindAllocatedMemoryRangeInBitmap. rewrite RtlFindLongestRunSet_ok by lia.
  cbn [mbind res_bind]. pose proof (nset_bounds bm). pose proof (set_end_bounds bm).
  set (d := (plugged_size c - requested_size c) / bs).
  assert (Hd : 0 <= d) by (apply Z.div_pos; lia).
  destruct (decide (nset bm = 0)) as [Hz|Hnz].
  { rewrite Hz. exists false, w. split; [done|]. split; [|done]. by constructor. }
  pose proof (u32_range d). set (i := set_end bm - nset bm).
  rewrite (range_of_run_block _ _ _ _ _ (zlen bm)) by (done || lia).
  set (n := Z.min (nset bm) (u32 d)).
  assert (Hn : 0 <= n <= nset bm /\ n <= d).
  { unfold n. assert (u32 d <= d) by (apply Z.mod_le; lia). lia. }
  destruct (blocks_fit _ _ _ i n Hfit) as (B1 & B2 & B3); [lia..|].
  cbn [BaseAddress NumberOfBytes block_range].
  assert (Hend : (i + n) * bs <= zlen bm * bs) by nia.
  rewrite (s64_small bs), s64_small by lia.
  destruct (MmAllocateNodePagesForMdlEx P (env w) _ _ bs (n * bs)) as [[m|] e] eqn:Em.
  2:{ eexists true, _. split; [done|]. split; [by eapply (remove_refused w c i n)|done]. }
  destruct (Hremove _ _ _ _ _ _ Em) as (Hm & Hwb). rewrite B3 in Hwb.
  destruct (mdl_ranges_ok m Hm) as (rs & R & Hlt & C1 & C2).
  unfold process_removed. rewrite C1. cbn [mbind res_bind].
  destruct (Z.gtb_spec (zlen rs) 0) as [Hpos|Hneg].
  2:{ eexists false, _. split; [done|]. split; [|done]. eapply (remove_lost w c i n); [done|].
      left. split; [|done]. inversion R; subst; [done|]. rewrite zlen_cons in *.
      pose proof (zlen_nonneg rs0). lia. }
  cbn [env set_field]. change (env w <| env := e |>) with e.
  destruct (pool_alloc P e _) as [[] e2] eqn:Ep; cbn [negb].
  2:{ eexists false, _. split; [done|]. split; [|done]. exact (remove_lost w c i n m e e2 Em (or_intror (ex_intro _ _ Ep))). }
  rewrite C2 by (rewrite zlen_replicate; lia). cbn [mbind res_bind].
  assert (Hall : Forall (whole_blocks (cfg_addr c) bs i (i + n)) rs).
  { eapply list.Forall_impl; [by apply Hwb|]. intros r. apply whole_blocks_shift. }
  destruct (unplug_ranges_ok c room rs (w <| env := e |> <| env := e2 |>))
    as (acks & w' & Eu & Hr' & Hrun & Hub & Hs & Hf); [done|done| |].
  { eapply list.Forall_impl; [exact Hall|]. intros r. apply whole_blocks_mono; cbn; fold bm; lia. }
  rewrite Eu. cbn [mbind res_bind]. exists true, w'. split; [done|]. split; [|done].
  eapply (remove_ranges w c i n m e e2); try done; fold bm bs; fold d; lia.
Qed.

(** ** Synchronisation *)

(** Everything but the outside, the queue, the buffers and the bitmap. *)
Definition same_control (w w' : world Q E) : Prop :=
  state (ctx w') = state (ctx w) /\ finishProcessing (ctx w') = finishProcessing (ctx w) /\
  zlen (memoryBitmapHandle (ctx w')) = zlen (memoryBitmapHandle (ctx w)).

(** The [while (Top)] loop is not entered: [Top] is 0 after the first push. *)
Lemma sync_even_ok fuel w c address remaining n room :
  ready w room -> 0 <= n -> exists b w', sync_even P fuel w c address remaining n = Ok (b, w') /\
    ready w' room /\ ctx w' = ctx w.
Proof.
  intros Hr Hn. unfold sync_even. destruct (truth n) eqn:Et; [|by exists true, w].
  destruct (pool_alloc P (env w) _) as [[] e]; cbn [negb]; [|by eexists false, _].
  rewrite zset_ok by (rewrite zlen_replicate; unfold truth in Et; lia). cbn [mbind res_bind].
  eexists true, _. split; [by destruct fuel|done].
Qed.

Lemma clear_all_bits bm j : (RtlClearAllBits bm)⟦j⟧ <> Some true.
Proof.
  unfold RtlClearAllBits. intros E0. pose proof (zlookup_lt _ _ _ E0) as Hl.
  rewrite zlen_replicate in Hl. by rewrite zlookup_replicate in E0 by lia.
Qed.

Lemma zlen_clear_all bm : zlen (RtlClearAllBits bm) = zlen bm.
Proof. unfold RtlClearAllBits, zlen. by rewrite length_replicate. Qed.

(** Marking the first block of a cleared bitmap. *)
Lemma first_block_marked base bs bm : region_fits base bs (zlen bm) -> 1 <= zlen bm ->
  exists bm', AllocateMemoryRangeInMemoryBitmap base (mk_range base bs) (RtlClearAllBits bm) bs = Ok bm' /\
    zlen bm' = zlen bm /\ forall j, 1 <= j -> bm'⟦j⟧ <> Some true.
Proof.
  intros Hfit H1. pose proof (zlen_clear_all bm) as Hl0.
  replace (mk_range base bs) with (block_range base bs 0 1) by (unfold block_range; f_equal; lia).
  rewrite (alloc_dealloc_bits true) by (rewrite ?Hl0; done || lia).
  destruct (write_bits_same true (RtlClearAllBits bm) 0 1) as (bm' & Ew & Hl & Hb); [lia..|].
  exists bm'. split; [done|]. split; [congruence|]. intros j Hj E0.
  pose proof (zlookup_lt _ _ _ E0). rewrite Hb in E0 by lia.
  replace ((0 <=? j) && (j <? 0 + 1)) with false in E0 by lia. by apply clear_all_bits in E0.
Qed.

Lemma sync_ok fuel w c room :
  ready w room -> config_ok c (zlen (memoryBitmapHandle (ctx w))) ->
  exists b w', SynchronizeDeviceAndDriverMemory P fuel w c = Ok (b, w') /\ ready w' room /\
    same_control w w' /\
    (forall j, 1 <= j -> (memoryBitmapHandle (ctx w'))⟦j⟧ <> Some true).
Proof.
  intros Hr (Hfit & Hp & Hq & Hrs & Hus & Hsz). pose proof Hfit as (F1 & F2 & F3 & F4).
  unfold SynchronizeDeviceAndDriverMemory. rewrite udiv_ok by lia. cbn [mbind res_bind].
  set (bm := memoryBitmapHandle (ctx w)) in *.
  set (w0 := set_bitmap w (RtlClearAllBits bm)). set (N := Z.min _ _ / _).
  assert (HN : 0 <= N <= zlen bm).
  { unfold N. split; [apply Z.div_pos; lia|]. rewrite <- Hsz. apply Z.div_le_mono; lia. }
  rewrite (u32_small N) by lia. pose proof (zlen_clear_all bm) as Hl0.
  assert (Hc0 : forall w', ctx w' = ctx w0 -> same_control w w' /\
    (forall j, 1 <= j -> (memoryBitmapHandle (ctx w'))⟦j⟧ <> Some true)).
  { intros w' Ew. unfold same_control. rewrite Ew. split; [done|]. intros. apply clear_all_bits. }
  destruct (Z.gtb_spec N 65535); [eexists false, w0; split; [done|]; split; [done|]; by apply Hc0|].
  destruct (truth (Z.land N 1)) eqn:Eo.
  2:{ destruct (sync_even_ok fuel w0 c (s64 (cfg_addr c)) (Z.land N 1) N room) as (b & w' & Es & Hr' & Hctx);
        [done|lia|]. exists b, w'. split; [done|]. split; [done|]. by apply Hc0. }
  assert (HN1 : 1 <= N).
  { destruct (decide (N = 0)) as [E0|]; [|lia]. by rewrite E0 in Eo. }
  destruct (SendStateRequest_ok w0 room (cfg_addr c) 1) as (w1 & S1 & A); [done|].
  rewrite S1. cbn [mbind res_bind]. pose proof (answered_ready _ _ _ _ (Hr : ready w0 room) A) as Hr1.
  pose proof (answered_bitmap _ _ _ _ A) as (Hb1 & Hst1 & Hf1). cbn in Hb1, Hst1, Hf1.
  destruct (acked w1); cbn [negb].
  2:{ exists false, w1. split; [done|]. split; [done|]. split; [split_and!; rewrite ?Hb1; done|].
      intros j _. rewrite Hb1. apply clear_all_bits. }
  rewrite (u32_small (N - 1)) by lia.
  destruct (default 0 (Some (resp_state (MemoryResponse (ctx w1)))) =? VIRTIO_MEM_STATE_PLUGGED);
    cbn [mbind res_bind].
  - rewrite Hb1, !(s64_small (cfg_addr c)), (s64_small (block_size c)), u32_small by nia.
    destruct (first_block_marked _ _ bm Hfit ltac:(lia)) as (bm' & Ew & Hl & Hb).
    rewrite Ew. cbn [mbind res_bind].
    destruct (sync_even_ok fuel (set_bitmap w1 bm') c (cfg_addr c) (Z.land N 1) (N - 1) room)
      as (b & w' & Es & Hr' & Hctx); [done|lia|].
    exists b, w'. split; [done|]. split; [done|]. unfold same_control. rewrite Hctx. cbn.
    split; [split_and!; rewrite ?Hl; done|]. exact Hb.
  - destruct (sync_even_ok fuel w1 c (s64 (cfg_addr c)) (Z.land N 1) (N - 1) room)
      as (b & w' & Es & Hr' & Hctx); [done|lia|].
    exists b, w'. split; [done|]. split; [done|]. unfold same_control. rewrite Hctx.
    split; [split_and!; rewrite ?Hb1; done|]. intros j _. rewrite Hb1. apply clear_all_bits.
Qed.

(** ** The worker thread *)

Lemma add_outcome_control w c room b w' : add_outcome w c room b w' -> same_control w w'.
Proof.
  intros [|i n w1 b0 w2 ? ? ? ? ? r A Hb]; [done|].
  pose proof (answered_bitmap _ _ _ _ A) as (B1 & B2 & B3). unfold same_control.
  destruct (acked w1).
  - destruct Hb as (_ & _ & bm' & -> & Hbm). cbn. split_and!; try done.
    destruct b0; [by destruct Hbm|by rewrite Hbm].
  - destruct Hb as [_ ->]. split_and!; congruence.
Qed.

Lemma remove_outcome_control w c b w' : remove_outcome w c b w' -> same_control w w'.
Proof. intros [| | |? ? ? ? ? ? ? ? ? ? ? ? ? ? ? Hu ? ?]; try done. split_and!; try done. apply Hu. Qed.

(** Every configuration the device shows describes the region of [size] blocks. *)
Definition device_config_ok (size : Z) : Prop := forall e, config_ok (device_get P e) size.

Lemma worker_iteration_ok fuel w room size :
  ready w room -> device_config_ok size -> zlen (memoryBitmapHandle (ctx w)) = size ->
  exists go w', worker_iteration P fuel w = Ok (go, w') /\ ready w' room /\
    zlen (memoryBitmapHandle (ctx w')) = size /\
    (go = true -> state (ctx w') = VIOMEM_PROCESS_STATE_RUNNING) /\
    finishProcessing (ctx w') = finishProcessing (ctx w) /\
    (finishProcessing (ctx w) = true -> go = false /\ w' = w).
Proof.
  intros Hr Hcfg Hsz. unfold worker_iteration.
  destruct (finishProcessing (ctx w)) eqn:Ef; [by exists false, w|].
  set (c := device_get P (env w)). pose proof (Hcfg (env w)) as Hc. fold c in Hc.
  assert (F : exists go w1, worker_start P fuel w c = Ok (go, w1) /\ ready w1 room /\
    zlen (memoryBitmapHandle (ctx w1)) = size /\
    (go = true -> state (ctx w1) = VIOMEM_PROCESS_STATE_RUNNING) /\
    finishProcessing (ctx w1) = false).
  { unfold worker_start. destruct (state (ctx w)) eqn:Es; [|by exists true, w].
    destruct (plugged_size c >? 0).
    - destruct (sync_ok fuel w c room Hr) as (b & w1 & E1 & Hr1 & (S1 & S2 & S3) & _); [by rewrite Hsz|].
      rewrite E1. cbn [mbind res_bind]. destruct b; cbn [negb];
        [eexists true, _ | eexists false, w1]; (split; [done|]); cbn; split_and!; try done; congruence.
    - cbn [mbind res_bind negb]. eexists true, _. split; [done|]. by split_and!. }
  destruct F as (go & w1 & -> & Hr1 & Hl1 & Hg1 & Hf1). cbn [mbind res_bind].
  destruct go; cbn [negb]; [|by exists false, w1]. specialize (Hg1 eq_refl).
  rewrite <- Hl1 in Hc.
  destruct (Z.gtb_spec (requested_size c) (plugged_size c)).
  - destruct (add_physical_ok w1 c room Hr1 Hc) as (b & w2 & E2 & O & Hr2); [lia|].
    rewrite E2. apply add_outcome_control in O as (S1 & S2 & S3). cbn [mbind res_bind].
    exists true, w2. split_and!; try done; congruence.
  - destruct (Z.ltb_spec (requested_size c) (plugged_size c)); [|by exists true, w1].
    destruct (remove_physical_ok w1 c room Hr1 Hc) as (b & w2 & E2 & O & Hr2); [lia|].
    rewrite E2. apply remove_outcome_control in O as (S1 & S2 & S3). cbn [mbind res_bind].
    exists true, w2. split_and!; try done; congruence.
Qed.

(** ** Claims *)

(** Claim C22. With an idle queue and a device that answers, each of the four
    requests is a complete exchange: the device gets exactly the request that was
    built, the queue is idle again with the same room, nothing else in the context
    changes, and the result is TRUE exactly when the device acknowledged (for
    UNPLUG_ALL: and reports nothing plugged; for STATE: the reported state is
    handed to the caller). *)
Theorem virtio_mem_requests_complete w room a n :
  ready w room ->
  (exists w', SendPlugRequest P w a n = Ok (acked w', w') /\
     answered w w' (mk_req VIRTIO_MEM_REQ_PLUG a n) room) /\
  (exists w', SendUnPlugRequest P w a n = Ok (acked w', w') /\
     answered w w' (mk_req VIRTIO_MEM_REQ_UNPLUG a n) room) /\
  (exists w', SendStateRequest P w a n =
       Ok (acked w', if acked w' then Some (resp_state (MemoryResponse (ctx w'))) else None, w') /\
     answered w w' (mk_req VIRTIO_MEM_REQ_STATE a n) room) /\
  (exists w', SendUnplugAllRequest P w =
       Ok (acked w' && (plugged_size (device_get P (env w')) =? 0), w') /\
     answered w w' (mk_req VIRTIO_MEM_REQ_UNPLUG_ALL 0 0) room).
Proof.
  intros Hr. split_and!.
  - by apply SendPlugRequest_ok.
  - by apply SendUnPlugRequest_ok.
  - by apply SendStateRequest_ok.
  - by apply SendUnplugAllRequest_ok.
Qed.

(** Claim C20. [VirtioMemAddPhysicalMemory] never faults.  It fails without a
    request when no block is free; otherwise it picks blocks that are free in the
    bitmap, at most as many as the device still wants plugged, asks the device to
    plug them, and only when the device acknowledges and the memory manager
    accepts the range marks exactly these blocks; in every other case the bitmap
    is unchanged.  (The number of blocks in the request is cut to 16 bits.) *)
Theorem VirtioMemAddPhysicalMemory_correct w c room :
  ready w room -> config_ok c (zlen (memoryBitmapHandle (ctx w))) ->
  plugged_size c <= requested_size c ->
  exists b w', VirtioMemAddPhysicalMemory P w c = Ok (b, w') /\ add_outcome w c room b w' /\
    ready w' room.
Proof. apply add_physical_ok. Qed.


(** [SynchronizeDeviceAndDriverMemory] never learns of any plugged block
    but the first: its stack loop tests [Top], which is still 0 after the initial
    push, so it returns without entering the loop and every other bit of the
    bitmap is clear whatever the device has plugged. *)
Theorem SynchronizeDeviceAndDriverMemory_first_block_only fuel w c room :
  ready w room -> config_ok c (zlen (memoryBitmapHandle (ctx w))) ->
  exists b w', SynchronizeDeviceAndDriverMemory P fuel w c = Ok (b, w') /\ ready w' room /\
    same_control w w' /\
    (forall j, 1 <= j -> (memoryBitmapHandle (ctx w'))⟦j⟧ <> Some true).
Proof. apply sync_ok. Qed.

(** What other threads and the device may do between two wake-ups: anything to
    the outside, and the stop flag. *)
Definition interferes (f : world Q E -> world Q E) : Prop := forall w,
  exists e fin, f w = mk_world _ _ e ((ctx w) <| finishProcessing := fin |>).

Definition stop (w : world Q E) : world Q E :=
  w <| ctx := (ctx w) <| finishProcessing := true |> |>.


End spec.

(** [SendPlugRequest] ignores a failure to queue its request, and a
    zeroed response buffer reads as an acknowledgement: when the request does not
    fit in the queue and the wait ends without an answer, it reports success. *)
Theorem SendPlugRequest_reports_unsent {Q E} `{SyncQueue Q} (P : platform Q E) w a n :
  vq_idle (infVirtQueue (ctx w)) 1 -> ctx_ptr (ctx w) <> 0 ->
  (forall e c, wait_ack P e c = (STATUS_SUCCESS, e, c)) ->
  add_request P w = Ok (- ENOSPC, w <| ctx := (ctx w) <| infVirtQueue := infVirtQueue (ctx w) |> |>) /\
  exists w', SendPlugRequest P w a n = Ok (true, w').
Proof.
  intros Hi Hp Hw.
  assert (Ha : forall w0, infVirtQueue (ctx w0) = infVirtQueue (ctx w) ->
    ctx_ptr (ctx w0) = ctx_ptr (ctx w) -> add_request P w0 =
    Ok (- ENOSPC, w0 <| ctx := (ctx w0) <| infVirtQueue := infVirtQueue (ctx w) |> |>)).
  { intros w0 Eq Ep. unfold add_request. rewrite Eq, Ep.
    rewrite (vq_idle_full _ 1) by (done || (unfold valid_buf, request_sg, zlen; cbn; lia)). done. }
  split; [by apply Ha|]. unfold SendPlugRequest. rewrite Ha by done. cbn [mbind res_bind]. cbv zeta.
  pose proof (vq_idle_kick _ _ Hi) as Hk.
  unfold wait. rewrite Hw. unfold kick. cbn [ctx infVirtQueue set_field].
  match goal with |- context [virtqueue_kick_prepare ?q] =>
    change q with (infVirtQueue (ctx w)); destruct (virtqueue_kick_prepare (infVirtQueue (ctx w)))
      as [dn q2] eqn:Ek end.
  change (negb (NT_SUCCESS STATUS_SUCCESS)) with false. cbv iota. unfold take_answer.
  cbn [snd] in Hk. pose proof (vq_idle_has _ _ Hk) as Hh.
  destruct dn; cbn; rewrite Hh; cbn; by eexists.
Qed.

(** The guest features computed by [ViomemInit], one bit at a time. *)
Lemma acpi_bit host : Z.land host 1 =
  if virtio_is_feature_enabled host VIRTIO_MEM_F_ACPI_PXM
  then virtio_feature_enable 0 VIRTIO_MEM_F_ACPI_PXM else 0.
Proof.
  unfold virtio_is_feature_enabled, virtio_feature_enable, truth.
  change (Z.shiftl 1 VIRTIO_MEM_F_ACPI_PXM) with (Z.ones 1). change 1 with (Z.ones 1) at 1.
  rewrite Z.land_ones by lia. change (2 ^ 1) with 2.
  pose proof (Z.mod_pos_bound host 2 ltac:(lia)).
  change (Z.lor 0 (Z.ones 1)) with 1.
  destruct (Z.eqb_spec (host mod 2) 0); cbn [negb]; lia.
Qed.

Lemma guest_bits host :
  (if virtio_is_feature_enabled host VIRTIO_MEM_F_UNPLUGGED_INACCESSIBLE
   then virtio_feature_enable (Z.land host 1) VIRTIO_MEM_F_UNPLUGGED_INACCESSIBLE
   else Z.land host 1) = Z.land host 3.
Proof.
  unfold virtio_is_feature_enabled, virtio_feature_enable.
  fold (BIT VIRTIO_MEM_F_UNPLUGGED_INACCESSIBLE). rewrite truth_land_bit by done.
  change 3 with (Z.lor 1 (BIT 1)). rewrite Z.land_lor_distr_r.
  unfold VIRTIO_MEM_F_UNPLUGGED_INACCESSIBLE. pose proof (truth_land_bit host 1 ltac:(lia)) as Ht.
  destruct (Z.testbit host 1) eqn:E0.
  - f_equal. apply Z.bits_inj'. intros m Hm. rewrite Z.land_spec. unfold BIT. rewrite Z.shiftl_1_l.
    destruct (decide (m = 1)) as [->|Hne]; [by rewrite E0|].
    by rewrite Z.pow2_bits_false, andb_false_r by done.
  - unfold truth in Ht. destruct (Z.eqb_spec (Z.land host (BIT 1)) 0) as [E1|]; [|done].
    by rewrite E1, Z.lor_0_r.
Qed.

(** Claim C26. [ViomemInit] accepts of the device's features exactly the two it
    knows, and tells the device DRIVER_OK exactly when it returns success and
    FAILED otherwise.  On success the bitmap has one clear bit per block of the
    region; the buffer it asks for is [bits / 8] bytes, which is less than the
    whole 32-bit words the run-time library's bitmaps occupy unless the number of
    blocks is a multiple of 32. *)
Theorem ViomemInit_correct {Q E} (P : platform Q E) w :
  (forall e, 0 < block_size (device_get P e)) ->
  (forall e s e', init_queues P e = (inr s, e') -> NT_SUCCESS s = false) ->
  let r := set_driver_features P (env w) (Z.land (device_features P (env w)) 3) in
  exists status w', ViomemInit P w = Ok (status, w') /\
    driver_status (ctx w') = Some (NT_SUCCESS status) /\
    (NT_SUCCESS r.1 = false -> status = r.1) /\
    (NT_SUCCESS status = true -> exists q e e', init_queues P r.2 = (inl q, e) /\
       let bm := memoryBitmapHandle (ctx w') in
       infVirtQueue (ctx w') = q /\
       zlen bm = u32 (region_size (device_get P e) / block_size (device_get P e)) /\
       (forall j, bm⟦j⟧ <> Some true) /\
       pool_alloc P e (zlen bm / 8) = (true, e') /\
       (zlen bm / 8 < 4 * ((zlen bm + 31) / 32) <-> zlen bm mod 32 <> 0)).
Proof.
  intros Hbs Hq r. unfold ViomemInit.
  assert (G : forall c0 : DEVICE_CONTEXT Q, exists c1,
    (if virtio_is_feature_enabled (device_features P (env w)) VIRTIO_MEM_F_ACPI_PXM
     then (virtio_feature_enable 0 VIRTIO_MEM_F_ACPI_PXM, c0 <| ACPIProximityIdActive := true |>)
     else (0, c0)) =
    (Z.land (device_features P (env w)) 1, c1)).
  { intros c0. rewrite acpi_bit. destruct (virtio_is_feature_enabled _ _); by eexists. }
  destruct (G (ctx w)) as [c1 ->]. rewrite guest_bits. fold r. destruct r as [st e0]. cbn [fst snd].
  destruct (NT_SUCCESS st) eqn:Hst.
  2:{ eexists st, _. split; [done|]. cbn. rewrite Hst. done. }
  cbn [env]. destruct (init_queues P e0) as [[q|st'] e] eqn:Ei.
  2:{ eexists st', _. split; [done|]. cbn. rewrite (Hq _ _ _ Ei). done. }
  cbn [env set_field]. match goal with |- context [device_get P ?x] => change x with e end.
  rewrite udiv_ok by done. cbn [mbind res_bind].
  set (bits := u32 _). pose proof (u32_range (region_size (device_get P e) / block_size (device_get P e))).
  fold bits in H.
  match goal with |- context [pool_alloc P ?x _] => change x with e end.
  rewrite Z.shiftr_div_pow2 by lia. change (2 ^ 3) with 8.
  destruct (pool_alloc P e (bits / 8)) as [[] e'] eqn:Ep.
  2:{ eexists _, _. split; [done|]. by cbn. }
  eexists _, _. split; [done|]. split; [done|]. split; [done|]. intros _.
  exists q, e, e'. split; [done|]. cbn.
  assert (Hz : zlen (RtlClearAllBits (replicate (Z.to_nat bits) false)) = bits).
  { unfold RtlClearAllBits, zlen. rewrite !length_replicate. lia. }
  rewrite Hz. split_and!; try done; try apply clear_all_bits.
  all: intros; Z.to_euclidean_division_equations; lia.
Qed.
