(* ===== verification/VioMemExamples.v ===== *)
(** * The virtio-mem theorems on a concrete platform

    A region of eight 2 MB blocks at 4 GB, a device that acknowledges every
    request and keeps a log of them, a memory manager that gives up whole blocks,
    and the split queue of [SplitExamples].  Each lemma applies a theorem to
    them. *)

From Stdlib Require Import ZArith Lia.
From stdpp Require Import base list numbers option.
From S2P Require Import Prelude.
From S2P Require Import Virtio.
From S2P Require Import SplitRing.
From S2P Require Import SplitRingSpec.
From S2P Require Import SplitSystem.
From S2P Require Import VirtQueue.
From S2P Require Import SplitQueue.
From S2P Require Import SplitExamples.
From S2P Require Import VioMemRanges.
From S2P Require Import VioMemRangesSpec.
From S2P Require Import VioMem.
From S2P Require Import VioMemSpec.

(** ** Ranges *)

Definition mdl3 : MDL := mk_mdl 12288 [16; 17; 40].

Lemma GetMemoryRanges_correct_witness :
  exists rs, ranges_of [16; 17; 40] rs /\ GetMemoryRangesCountFromMdl mdl3 = Ok (zlen rs).
Proof.
  destruct (GetMemoryRanges_correct mdl3) as (rs & R & C & _).
  - split; [done|]. split; [done|]. repeat (apply list.Forall_cons; split; [done|]). done.
  - exists rs. split; [exact R|exact C].
Defined.

Lemma RtlFindLongestRunSet_single_run_witness :
  exists st, RtlFindLongestRunSet [true; false; true] = Ok (2, st) /\
    ~ (forall i, st <= i < st + 2 -> [true; false; true]⟦i⟧ = Some true).
Proof.
  destruct (RtlFindLongestRunSet_single_run [true; false; true]) as (n & st & E & N & H0 & H1 & H);
    [done|].
  change (RtlNumberOfSetBits [true; false; true]) with 2 in N. subst n. exists st. split; [exact E|].
  intros A. pose proof (proj1 H A 0 eq_refl). pose proof (proj1 H A 2 eq_refl). lia.
Defined.

Lemma GetNumberOfMBytes_modulo_witness :
  GetNumberOfMBytesAllocatedInBitmap (replicate 3 true) (2048 * 1048576) = 2048.
Proof. by rewrite (GetNumberOfMBytes_modulo (replicate 3 true) 2048). Defined.

Lemma DumpBitmapMemoryRanges_partition_witness :
  exists ds, DumpBitmapMemoryRanges 4294967296 [true; false; true] 2097152 = Ok ds /\
    dumped_bits 2097152 ds = [true; false; true].
Proof. by apply DumpBitmapMemoryRanges_partition. Defined.

(** ** The platform *)

Definition cfg (plugged requested : Z) : virtio_mem_config :=
  mk_config 2097152 0 4294967296 16777216 16777216 plugged requested.

(** The longest run of clear bits, with its start. *)
Fixpoint clear_prefix (bm : bitmap) : Z :=
  match bm with false :: bm => 1 + clear_prefix bm | _ => 0 end.
Fixpoint longest_clear (i : Z) (bm : bitmap) : Z * Z :=
  match bm with
  | [] => (0, i)
  | _ :: bm' =>
      let r := longest_clear (i + 1) bm' in
      if r.1 <=? clear_prefix bm then (clear_prefix bm, i) else r
  end.

(** The index of the first buffer that is outstanding. *)
Fixpoint find_opaque (i : Z) (l : list Z) : option Z :=
  match l with
  | [] => None
  | o :: l => if o =? 0 then find_opaque (i + 1) l else Some i
  end.

Definition log_dev (e : list virtio_mem_req) (r : virtio_mem_req) : virtio_mem_resp * list virtio_mem_req :=
  (mk_resp VIRTIO_MEM_RESP_ACK VIRTIO_MEM_STATE_PLUGGED, r :: e).

(** Whole pages and blocks below 2 GB of memory at non-negative addresses. *)
Definition removable (low bs bytes : Z) : bool :=
  (0 <=? low) && (low mod 4096 =? 0) && (low + bytes <? 2 ^ 60) && (0 <? bs) && (bs mod 4096 =? 0) &&
  (bytes mod bs =? 0) && (0 <? bytes) && (bytes <? 2 ^ 31).

Definition plat (c : virtio_mem_config) : platform virtqueue_split (list virtio_mem_req) :=
  mk_platform _ _ 4096 8192 (fun e => e)
    (fun e c => match find_opaque 0 (opaque (infVirtQueue c)) with
      | Some h => (STATUS_SUCCESS, (log_dev e (plugRequest c)).2,
          c <| MemoryResponse := (log_dev e (plugRequest c)).1 |>
            <| infVirtQueue := dev_use (infVirtQueue c) h 10 |>)
      | None => (STATUS_SUCCESS, e, c) end)
    (fun _ => c) (fun _ => 3) (fun e _ => (STATUS_SUCCESS, e)) (fun e => (inl q4, e)) (fun e => e)
    (fun e _ => (true, e)) (fun e _ => (STATUS_SUCCESS, e))
    (fun e low high bs bytes =>
       (if removable low bs bytes then Some (mk_mdl bytes (seqZ (low / 4096) (bytes / 4096))) else None, e))
    (longest_clear 0).

Definition ctx0 (bm : bitmap) : DEVICE_CONTEXT virtqueue_split :=
  mk_ctx _ 77 q4 (mk_req 0 0 0) (mk_resp 0 0) bm VIOMEM_PROCESS_STATE_INIT false false None.
Definition world0 (bm : bitmap) : world virtqueue_split (list virtio_mem_req) := mk_world _ _ [] (ctx0 bm).

Lemma clear_prefix_ok bm : 0 <= clear_prefix bm <= zlen bm /\
  (forall j, 0 <= j < clear_prefix bm -> bm⟦j⟧ = Some false) /\
  (clear_prefix bm = 0 -> bm⟦0⟧ <> Some false).
Proof.
  induction bm as [|[] bm (IH1 & IH2 & _)]; cbn [clear_prefix].
  - rewrite (@zlen_nil bool). split_and!; (done || lia).
  - rewrite zlen_cons. pose proof (zlen_nonneg bm). split_and!; (done || lia).
  - rewrite zlen_cons. split; [lia|]. split; [|lia]. intros j Hj.
    destruct (decide (j = 0)) as [->|]; [done|].
    replace j with (j - 1 + 1) by lia. rewrite zlookup_cons_S by lia. apply IH2. lia.
Qed.

Lemma longest_clear_ok bm : forall i, let r := longest_clear i bm in
  0 <= r.1 /\ i <= r.2 /\ r.2 + r.1 <= i + zlen bm /\
  (forall j, r.2 <= j < r.2 + r.1 -> bm⟦j - i⟧ = Some false) /\
  (r.1 = 0 -> forall j, bm⟦j⟧ <> Some false).
Proof.
  induction bm as [|b bm IH]; intros i; cbn [longest_clear fst snd].
  - rewrite (@zlen_nil bool). split_and!; try lia. intros _ j Hj. apply zlookup_lt in Hj.
    rewrite (@zlen_nil bool) in Hj. lia.
  - destruct (clear_prefix_ok (b :: bm)) as (C1 & C2 & C3). rewrite zlen_cons in *.
    destruct (IH (i + 1)) as (H1 & H2 & H3 & H4 & H5).
    destruct (Z.leb_spec (longest_clear (i + 1) bm).1 (clear_prefix (b :: bm))); cbn [fst snd].
    + split_and!; try lia; [intros j Hj; apply C2; lia|]. intros Hz j Hj.
      pose proof (zlookup_lt _ _ _ Hj). destruct (decide (j = 0)) as [->|]; [by apply C3|].
      apply (H5 ltac:(lia) (j - 1)). rewrite <- Hj. replace j with (j - 1 + 1) at 2 by lia.
      by rewrite zlookup_cons_S by lia.
    + split_and!; try lia. intros j Hj. replace (j - i) with (j - (i + 1) + 1) by lia.
      rewrite zlookup_cons_S by lia. by apply H4.
Qed.

Lemma plat_clear c : find_clear_ok (RtlFindLongestRunClear (plat c)).
Proof.
  intros bm. destruct (longest_clear_ok bm 0) as (H1 & H2 & H3 & H4 & H5). cbn -[longest_clear].
  split; [done|]. split; [lia|]. split; [lia|]. split; [|done].
  intros j Hj. rewrite <- (Z.sub_0_r j). by apply H4.
Qed.

Lemma find_opaque_ok l h : forall i, 0 <= i -> find_opaque i l = Some h ->
  exists o, l⟦h - i⟧ = Some o /\ o <> 0.
Proof.
  induction l as [|o l IH]; intros i Hi Hf; cbn in Hf; [done|].
  destruct (Z.eqb_spec o 0) as [->|Hne].
  - destruct (IH (i + 1) ltac:(lia) Hf) as (o & Ho & Hn). exists o. split; [|done].
    pose proof (zlookup_lt _ _ _ Ho). replace (h - i) with (h - (i + 1) + 1) by lia.
    by rewrite zlookup_cons_S by lia.
  - injection Hf as <-. rewrite Z.sub_diag. by exists o.
Qed.

Lemma find_opaque_none l j o : forall i, find_opaque i l = None -> l⟦j⟧ = Some o -> o = 0.
Proof.
  revert j. induction l as [|x l IH]; intros j i Hf Hj.
  - apply zlookup_lt in Hj. rewrite (@zlen_nil Z) in Hj. lia.
  - cbn in Hf. destruct (Z.eqb_spec x 0) as [->|]; [|done]. pose proof (zlookup_lt _ _ _ Hj).
    destruct (decide (j = 0)) as [->|]; [by injection Hj|].
    apply (IH (j - 1) (i + 1) Hf). rewrite <- Hj. replace j with (j - 1 + 1) at 2 by lia.
    by rewrite zlookup_cons_S by lia.
Qed.

Lemma plat_answers c : device_answers (plat c) log_dev.
Proof.
  intros e x room (free & ch & W & _ & Ho & _). cbn [wait_ack plat].
  pose proof (wf_live _ _ _ W) as HL. apply list.Forall_cons in HL as [(_ & _ & Hn & Hop) _].
  destruct (find_opaque 0 (opaque (infVirtQueue x))) as [h|] eqn:Ef.
  - destruct (find_opaque_ok _ _ 0 ltac:(lia) Ef) as (o & Ho' & Hne). rewrite Z.sub_0_r in Ho'.
    exists 10, (dev_use (infVirtQueue x) h 10). split; [by exists h, o|done].
  - by pose proof (find_opaque_none _ _ _ 0 Ef Hop).
Qed.

Lemma ranges_of_run p n rs : 1 <= n -> ranges_of (seqZ p n) rs -> rs = [mk_range (4096 * p) (4096 * n)].
Proof.
  intros Hn R. inversion R as [E0|p' n' l rs' Hn' Hh R' El].
  - apply (f_equal length) in E0. rewrite length_seqZ in E0. cbn in E0. lia.
  - assert (Hp : p' = p).
    { apply (f_equal head) in El. rewrite (seqZ_cons p n), (seqZ_cons p' n') in El by lia. cbn in El. by injection El. }
    subst p'. pose proof (f_equal length El) as Hl. rewrite length_app, !length_seqZ in Hl.
    assert (n' <= n) by lia.
    replace n with (n' + (n - n')) in El by lia. rewrite (seqZ_app p n' (n - n')) in El by lia.
    apply app_inv_head in El. subst l. destruct (decide (n = n')) as [->|].
    + rewrite Z.sub_diag in R'. inversion R' as [|? ? ? ? ? ? ? E0]; [done|].
      apply (f_equal length) in E0. rewrite length_app, !length_seqZ in E0. cbn in E0. lia.
    + rewrite seqZ_cons in Hh by lia. done.
Qed.

Lemma plat_removes c : removal_ok (plat c).
Proof.
  intros e low bs bytes m e' Hm. cbn in Hm. destruct (removable low bs bytes) eqn:Er; [|done].
  injection Hm as <- <-. unfold removable in Er. rewrite !andb_true_iff in Er.
  destruct Er as [[[[[[[R1 R2] R3] R4] R5] R6] R7] R8].
  assert (Hb : bytes = bs * (bytes / bs)) by (rewrite (Z.div_mod bytes bs) at 1; lia).
  assert (Hk : 1 <= bytes / bs) by nia.
  assert (Hs : bs = 4096 * (bs / 4096)) by (rewrite (Z.div_mod bs 4096) at 1; lia).
  assert (Hl : low = 4096 * (low / 4096)) by (rewrite (Z.div_mod low 4096) at 1; lia).
  assert (Hp : bytes / 4096 = bs / 4096 * (bytes / bs)).
  { rewrite Hb at 1. rewrite Hs at 1. rewrite <- Z.mul_assoc, Z.mul_comm. apply Z.div_mul. lia. }
  assert (H1 : 1 <= bytes / 4096) by nia.
  assert (Hp2 : bytes = 4096 * (bytes / 4096)) by nia.
  split.
  - split; [cbn; lia|]. split; [cbn [pfns ByteCount]; rewrite zlen_seqZ; lia|].
    apply list.Forall_forall. intros p Hp'. apply elem_of_seqZ in Hp'. unfold pfn_ok. lia.
  - unfold mdl_pages. cbn [pfns ByteCount]. intros rs R.
    rewrite take_ge in R by (rewrite length_seqZ; lia). apply ranges_of_run in R as ->; [|done].
    apply list.Forall_cons. split; [|done]. exists 0, (bytes / bs). unfold block_range.
    split; [f_equal; lia|lia].
Qed.

Lemma q4_idle : vq_idle q4 4.
Proof. exists (seqZ 0 4). split; [exact q4_wf|]. done. Qed.

Lemma world0_ready bm : ready (world0 bm) 4.
Proof. split; [exact q4_idle|]. done. Qed.

Lemma cfg_ok plugged requested : 0 <= plugged <= 16777216 -> 0 <= requested <= 16777216 ->
  config_ok (cfg plugged requested) 8.
Proof.
  intros Hp Hr. unfold config_ok, region_fits. cbn. split_and!; (done || lia).
Qed.

(** ** The theorems on it *)

(** Two of eight blocks are plugged. *)
Definition bm8 : bitmap := [true; true; false; false; false; false; false; false].

Lemma virtio_mem_requests_complete_witness :
  exists w', SendPlugRequest (plat (cfg 0 0)) (world0 bm8) 4294967296 2 = Ok (acked w', w') /\
    env w' = [mk_req VIRTIO_MEM_REQ_PLUG 4294967296 2].
Proof.
  destruct (virtio_mem_requests_complete (plat (cfg 0 0)) log_dev (plat_answers _) (world0 bm8) 4
    4294967296 2 (world0_ready _)) as ((w' & E & e0 & q' & He & -> & _) & _).
  eexists. split; [exact E|]. by destruct He as [->| ->].
Defined.

Lemma VirtioMemAddPhysicalMemory_correct_witness :
  exists b w', VirtioMemAddPhysicalMemory (plat (cfg 4194304 8388608)) (world0 bm8)
      (cfg 4194304 8388608) = Ok (b, w') /\
    add_outcome (plat (cfg 4194304 8388608)) log_dev (world0 bm8) (cfg 4194304 8388608) 4 b w'.
Proof.
  destruct (VirtioMemAddPhysicalMemory_correct (plat (cfg 4194304 8388608)) log_dev (plat_answers _)
    (plat_clear _) (world0 bm8) (cfg 4194304 8388608) 4 (world0_ready _)) as (b & w' & E & O & _);
    [by apply cfg_ok|done|].
  exists b, w'. split; [exact E|exact O].
Defined.


Lemma SynchronizeDeviceAndDriverMemory_first_block_only_witness :
  exists b w', SynchronizeDeviceAndDriverMemory (plat (cfg 4194304 4194304)) 10 (world0 bm8)
      (cfg 4194304 4194304) = Ok (b, w') /\
    (memoryBitmapHandle (ctx w'))⟦1⟧ <> Some true.
Proof.
  destruct (SynchronizeDeviceAndDriverMemory_first_block_only (plat (cfg 4194304 4194304)) log_dev
    (plat_answers _) 10 (world0 bm8) (cfg 4194304 4194304) 4 (world0_ready _)) as
    (b & w' & E & _ & _ & B); [by apply cfg_ok|].
  exists b, w'. split; [exact E|]. apply B. lia.
Defined.


(** A queue of one descriptor, and a platform on which nothing answers. *)
Definition q1 : virtqueue_split := Eval vm_compute in
  queue_of (vring_new_virtqueue_split 0 1 dev0 (zero_mem 1) 0).

Lemma q1_idle : vq_idle q1 1.
Proof.
  destruct (new_split_ok 0 dev0 0 0 ltac:(lia)) as (vq & E & W & _).
  assert (H : Ok (Some vq) = Ok (Some q1)) by (rewrite <- E; vm_compute; reflexivity).
  injection H as ->. exists (seqZ 0 1). split; [exact W|]. done.
Qed.

Definition silent : platform virtqueue_split (list virtio_mem_req) :=
  mk_platform _ _ 4096 8192 (fun e => e) (fun e c => (STATUS_SUCCESS, e, c))
    (fun _ => cfg 0 0) (fun _ => 3) (fun e _ => (STATUS_SUCCESS, e)) (fun e => (inl q1, e)) (fun e => e)
    (fun e _ => (true, e)) (fun e _ => (STATUS_SUCCESS, e)) (fun e _ _ _ _ => (None, e)) (longest_clear 0).

Definition world1 : world virtqueue_split (list virtio_mem_req) :=
  mk_world _ _ [] ((ctx0 bm8) <| infVirtQueue := q1 |>).

Lemma SendPlugRequest_reports_unsent_witness :
  exists w', SendPlugRequest silent world1 4294967296 2 = Ok (true, w').
Proof.
  destruct (SendPlugRequest_reports_unsent silent world1 4294967296 2) as [_ H];
    [exact q1_idle|done|done|].
  exact H.
Defined.

Lemma ViomemInit_correct_witness :
  exists status w', ViomemInit (plat (cfg 4194304 4194304)) (world0 bm8) = Ok (status, w') /\
    driver_status (ctx w') = Some (NT_SUCCESS status).
Proof.
  destruct (ViomemInit_correct (plat (cfg 4194304 4194304)) (world0 bm8)) as (st & w' & E & D & _);
    [done|done|].
  exists st, w'. split; [exact E|exact D].
Defined.
