(* ===== verification/VioInput.v ===== *)
(** * virtio-input: report descriptors and the keyboard
      (vioinput/sys/Array.c, Hid.c, HidKeyboard.c, KeyMap.c)

    The key table, the growing byte array in which report descriptors are built, the encoding of
    descriptor items, and the keyboard class: translation of Linux key events to
    HID input reports, of HID output reports to LED events, and the probe that
    sets the class up. *)

From Stdlib Require Import ZArith Lia.
From stdpp Require Import base list numbers option.
From S2P Require Import Prelude.

(** ** The keyboard translation table (vioinput/sys/KeyMap.c)

    [ReportCodeToUsageCodeTable] gives, for each Linux input event code, the HID
    usage code, with the usage page in the upper half for the keys that belong to
    the consumer page.  The table is transcribed in parts of its source lines. *)

Definition HID_USAGE_PAGE_CONSUMER : Z := 0x0C.
Definition KEY_USAGE_MASK : Z := 0x0000FFFF.
Definition KEY_TYPE_MASK : Z := 0xFFFF0000.
Definition KEY_TYPE_KEYBOARD : Z := 0x00000000.
Definition KEY_TYPE_CONSUMER : Z := Z.shiftl HID_USAGE_PAGE_CONSUMER 16.

(** A key of the consumer page. *)
Definition consumer (code : Z) : Z := Z.lor KEY_TYPE_CONSUMER code.

(** A run of [n] codes without a usage. *)
Definition unused (n : nat) : list Z := replicate n 0x00.

Definition usage_table_1 : list Z :=
  [0x00; 0x29; 0x1E; 0x1F; 0x20; 0x21; 0x22; 0x23; 0x24; 0x25; 0x26; 0x27; 0x2D; 0x2E;
   0x2A; 0x2B; 0x14; 0x1A; 0x08; 0x15; 0x17; 0x1C; 0x18; 0x0C; 0x12; 0x13; 0x2F; 0x30;
   0x28; 0xE0; 0x04; 0x16; 0x07; 0x09; 0x0A; 0x0B; 0x0D; 0x0E; 0x0F; 0x33; 0x34; 0x35;
   0xE1; 0x32; 0x1D; 0x1B; 0x06; 0x19; 0x05; 0x11; 0x10; 0x36; 0x37; 0x38; 0xE5; 0x55;
   0xE2; 0x2C; 0x39; 0x3A; 0x3B; 0x3C; 0x3D; 0x3E; 0x3F; 0x40; 0x41; 0x42; 0x43; 0x53;
   0x47; 0x5F; 0x60; 0x61; 0x56; 0x5C; 0x5D; 0x5E; 0x57; 0x59; 0x5A; 0x5B; 0x62; 0x63;
   0x00; 0x94; 0x64; 0x44; 0x45; 0x87; 0x92; 0x93; 0x8A; 0x88; 0x8B; 0x8C; 0x58; 0xE4;
   0x54; 0x46; 0xE6; 0x00; 0x4A; 0x52; 0x4B; 0x50; 0x4F; 0x4D; 0x51; 0x4E; 0x49; 0x4C;
   0x00; consumer 0xE2; consumer 0xEA; consumer 0xE9; consumer 0x30; 0x67; 0x00; 0x48;
   0x00; 0x85; 0x90; 0x91; 0x89; 0xE3; 0xE7; 0x65; consumer 0x226; 0x79].

Definition usage_table_2 : list Z :=
  [0x76; 0x7A; 0x77; 0x7C; 0x74; 0x7D; 0xF4; 0x7B; 0x75; 0x65; consumer 0x192; 0x00;
   consumer 0x32; 0x00; consumer 0x194; 0x00; 0x00; 0x00; 0x00; 0x00; consumer 0x196;
   0x00; consumer 0x19E; 0x00; 0x00; consumer 0x18A; consumer 0x182; 0x00;
   consumer 0x224; consumer 0x225; 0x00; consumer 0xB8; 0x00; consumer 0xB5;
   consumer 0xCD; consumer 0xB6; consumer 0xB7; consumer 0xB2; consumer 0xB4;
   consumer 0x8C; 0x00; consumer 0x183; consumer 0x223; consumer 0x227; consumer 0x94;
   0x00; consumer 0x23D; consumer 0x233; consumer 0x234; 0xB6; 0xB7; consumer 0x201;
   consumer 0x279; 0x68; 0x69; 0x6A; 0x6B; 0x6C; 0x6D; 0x6E; 0x6F; 0x70; 0x71; 0x72;
   0x73] ++
  unused 11 ++
  [consumer 0x203; consumer 0xB0; consumer 0xB3; consumer 0xE5; consumer 0x208; 0x00;
   consumer 0x65; 0x00; 0x00; 0x00; consumer 0x199; consumer 0x221; 0x00;
   consumer 0x191; 0x00; 0x00; 0x00; consumer 0x25F; consumer 0x70; consumer 0x6F;
   0x00; 0x00; consumer 0x35; 0x00; 0x00; consumer 0x28C; consumer 0x289;
   consumer 0x28B; consumer 0x207; consumer 0x1A7; 0x00; 0x00; 0x00; 0x00; 0x00;
   consumer 0x82; 0x00; 0x00; consumer 0x75] ++
  unused 15.

Definition usage_table_3 : list Z :=
  unused 93 ++
  [consumer 0x41; consumer 0x222; 0x00; 0x00; 0x00; consumer 0x60; 0x00; 0x00; 0x00;
   consumer 0x8D; 0x00; 0x00; 0x00; consumer 0x9A; 0x00; 0x00; 0x00; consumer 0x61;
   0x00; consumer 0x6D; 0x00; consumer 0x1AE; 0x00; consumer 0x88; consumer 0x89;
   consumer 0x97; consumer 0x92; consumer 0xA0; consumer 0x98; 0x00; consumer 0x91;
   consumer 0x96; 0x00; consumer 0x93; consumer 0x193; 0x00; consumer 0x8B].

Definition usage_table_4 : list Z :=
  [0x00; 0x00; consumer 0x1B7; consumer 0x1B8; 0x00; 0x00; consumer 0x90;
   consumer 0x18E; consumer 0x69; consumer 0x6A; consumer 0x6C; consumer 0x6B;
   consumer 0x9C; consumer 0x9D; 0x00; consumer 0x83; 0x00; consumer 0x1A3;
   consumer 0x31; consumer 0xF5; consumer 0xB9; 0x00; consumer 0x1A4; 0x00; 0x00; 0x00;
   consumer 0x8E; consumer 0x8F; consumer 0x22D; consumer 0x22E; consumer 0x22F;
   consumer 0x184; consumer 0x185; consumer 0x186; consumer 0x187; consumer 0x188;
   consumer 0x189; consumer 0x18B; consumer 0x18C; consumer 0x18D; consumer 0x1BC;
   consumer 0x72; consumer 0x1AB; consumer 0x19C; 0x00; 0x00; 0x00; 0x00; 0x00;
   consumer 0xBC; 0x00; 0x00; consumer 0x1B6] ++
  unused 77.

Definition usage_table_5 : list Z :=
  unused 56 ++
  [consumer 0x181; consumer 0x18F; consumer 0x190; consumer 0x19F; consumer 0x1A2;
   consumer 0x1B1; consumer 0xCF] ++
  unused 9 ++
  [consumer 0x73; consumer 0x74] ++
  unused 14 ++
  [consumer 0x2C7; consumer 0x2C8; consumer 0x2C9; consumer 0x2CA; consumer 0x2CB;
   consumer 0x2CC].

Definition ReportCodeToUsageCodeTable : list Z :=
  usage_table_1 ++ usage_table_2 ++ usage_table_3 ++ usage_table_4 ++ usage_table_5.

Definition HIDKeyboardEventCodeToUsageCode (uEventCode : Z) : res Z :=
  if uEventCode <? zlen ReportCodeToUsageCodeTable
  then zget ReportCodeToUsageCodeTable uEventCode else Ok 0.

Record VIRTIO_INPUT_EVENT := mk_ev { ev_type : Z; ev_code : Z; ev_value : Z }.

(** The pool allocator and the status queue of the device, over an outside
    state [E].  [get_slice] and [return_slice] belong to the memory block of the
    status queue; [add_out_buf] is [VIOInputAddOutBuf] with the event and the
    request stored in the slice; [WdfRequestComplete] ends a request. *)

Record input_env {E : Type} := mk_env {
  ExAllocatePool : E -> Z -> bool * E;
  get_slice : E -> option Z * E;
  return_slice : E -> Z -> E;
  add_out_buf : E -> Z -> VIRTIO_INPUT_EVENT -> option Z -> Z * E;
  WdfRequestComplete : E -> Z -> Z -> E }.
Arguments input_env : clear implicits.

(** ** The dynamic array (Array.c) *)

(** [Ptr]: NULL, the failure mark -1, or a buffer of [MaxSize] bytes of which
    the model keeps the first [Size]. *)
Inductive array_ptr := PtrNull | PtrFailed | PtrBuf (bytes : list Z).
Record DYNAMIC_ARRAY := mk_array { Ptr : array_ptr; Size : Z; MaxSize : Z }.
#[export] Instance eta_array : Eta DYNAMIC_ARRAY := fun a => mk_array (Ptr a) (Size a) (MaxSize a).

(** [while (cbSize > MaxSize) MaxSize *= 2] *)
Fixpoint grow (fuel : nat) (cbSize max : Z) : res Z :=
  if cbSize >? max then
    match fuel with O => Fault OutOfFuel | S fuel => grow fuel cbSize (u64 (max * 2)) end
  else Ok max.

Section array.
Context {E : Type} (I : input_env E).

Definition DynamicArrayReserve (e : E) (a : DYNAMIC_ARRAY) (cbSize : Z)
    : res (bool * DYNAMIC_ARRAY * E) :=
  match Ptr a with
  | PtrFailed => Ok (false, a, e)
  | _ =>
      let '(ok, a, e) :=
        match Ptr a with
        | PtrNull =>
            let '(ok, e) := ExAllocatePool I e cbSize in
            (ok, mk_array (if (ok : bool) then PtrBuf [] else PtrFailed) 0 cbSize, e)
        | _ => (true, a, e)
        end in
      if negb ok then Ok (false, a, e)
      else if cbSize >? MaxSize a then
        max ← grow 64 cbSize (MaxSize a);
        let '(ok, e) := ExAllocatePool I e max in
        if (ok : bool) then Ok (true, a <| MaxSize := max |>, e)
        else Ok (false, a <| MaxSize := max |> <| Ptr := PtrFailed |>, e)
      else Ok (true, a, e)
  end.

Definition DynamicArrayAppend (e : E) (a : DYNAMIC_ARRAY) (data : list Z)
    : res (bool * DYNAMIC_ARRAY * E) :=
  '(ok, a, e) ← DynamicArrayReserve e a (u64 (Size a + zlen data));
  if (ok : bool) then
    match Ptr a with
    | PtrBuf bytes =>
        if Size a + zlen data <=? MaxSize a
        then Ok (true, mk_array (PtrBuf (bytes ++ data)) (Size a + zlen data) (MaxSize a), e)
        else Fault OutOfBounds
    | _ => Fault NullPointer
    end
  else Ok (false, a, e).

Definition DynamicArrayIsEmpty (a : DYNAMIC_ARRAY) : bool :=
  match Ptr a with PtrNull => true | _ => Size a =? 0 end.

Definition DynamicArrayDestroy (a : DYNAMIC_ARRAY) : DYNAMIC_ARRAY :=
  match Ptr a with PtrBuf _ => a <| Ptr := PtrNull |> | _ => a end.

(** The buffer handed to the caller and its size. *)
Definition DynamicArrayGet (a : DYNAMIC_ARRAY) : option (list Z * Z) * DYNAMIC_ARRAY :=
  match Ptr a with
  | PtrBuf bytes => (Some (bytes, Size a), a <| Ptr := PtrNull |>)
  | _ => (None, a)
  end.

(** ** Descriptor items (Hid.c) *)

(** The first [n] bytes of a 32-bit little-endian integer. *)
Definition le_bytes (n : nat) (v : Z) : list Z :=
  (fun i => Z.land (Z.shiftr (u32 v) (8 * i)) 255) <$> seqZ 0 (Z.of_nat n).

(** Both calls ignore the result of the append. *)
Definition HIDAppend1 (e : E) (a : DYNAMIC_ARRAY) (tag : Z) : res (DYNAMIC_ARRAY * E) :=
  '(_, a, e) ← DynamicArrayAppend e a [tag]; Ok (a, e).

Definition HIDAppend2 (e : E) (a : DYNAMIC_ARRAY) (tag value : Z) : res (DYNAMIC_ARRAY * E) :=
  let '(size, n) :=
    if (-128 <=? value) && (value <=? 127) then (0x01, 1%nat)
    else if (-32768 <=? value) && (value <=? 32767) then (0x02, 2%nat)
    else (0x03, 4%nat) in
  '(a, e) ← HIDAppend1 e a (Z.lor tag size);
  '(_, a, e) ← DynamicArrayAppend e a (le_bytes n value);
  Ok (a, e).

(** A sequence of [HIDAppend2] calls. *)
Fixpoint append_items (e : E) (a : DYNAMIC_ARRAY) (items : list (Z * Z))
    : res (DYNAMIC_ARRAY * E) :=
  match items with
  | [] => Ok (a, e)
  | (tag, value) :: items => '(a, e) ← HIDAppend2 e a tag value; append_items e a items
  end.
End array.

(** ** Bits *)

(** [BitScanForward]: the lowest set bit, among [n] from [i]. *)
Fixpoint bit_scan (n : nat) (i x : Z) : option Z :=
  match n with
  | O => None
  | S n => if Z.testbit x i then Some i else bit_scan n (i + 1) x
  end.

(** The bit found and the byte with that bit cleared. *)
Definition DecodeNextBit (b : Z) : option (Z * Z) :=
  match bit_scan 32 0 b with
  | Some i => Some (i, Z.land b (u8 (Z.lnot (Z.shiftl 1 i))))
  | None => None
  end.

(** The values produced by [while (DecodeNextBit(&b, &v))]. *)
Fixpoint decode_loop (fuel : nat) (b : Z) : list Z :=
  match fuel with
  | O => []
  | S fuel => match DecodeNextBit b with Some (v, b) => v :: decode_loop fuel b | None => [] end
  end.
Definition decode_bits (b : Z) : list Z := decode_loop 8 b.

(** ** The keyboard class (HidKeyboard.c) *)

Definition HID_KEYBOARD_KEY_SLOTS : Z := 6.
Definition HID_REPORT_ID_OFFSET : Z := 0.
Definition HID_REPORT_DATA_OFFSET : Z := 1.
Definition HID_USAGE_KEYBOARD_ROLLOVER : Z := 0x01.
Definition EV_KEY : Z := 1.
Definition EV_LED : Z := 0x11.

Record INPUT_CLASS_KEYBOARD := mk_kbd {
  uReportID : Z; bDirty : bool; pHidReport : list Z;
  pKeysPressed : list Z; cbKeysPressedLen : Z; nKeysPressed : Z;
  cbOutputReport : Z; pLastOutputReport : list Z }.
#[export] Instance eta_kbd : Eta INPUT_CLASS_KEYBOARD := fun k =>
  mk_kbd (uReportID k) (bDirty k) (pHidReport k) (pKeysPressed k) (cbKeysPressedLen k)
    (nKeysPressed k) (cbOutputReport k) (pLastOutputReport k).

Definition HIDLEDEventCodeToUsageCode (uEventCode : Z) : Z :=
  match uEventCode with
  | 0x00 => 0x01 | 0x01 => 0x02 | 0x02 => 0x03 | 0x03 => 0x04 | 0x04 => 0x05 | 0x05 => 0x27
  | 0x06 => 0x4C | 0x07 => 0x09 | 0x08 => 0x4B | 0x09 => 0x19 | 0x0a => 0x4D
  | _ => 0
  end.

Definition HIDLEDUsageCodeToEventCode (uCode : Z) : Z :=
  match uCode with
  | 0x01 => 0x00 | 0x02 => 0x01 | 0x03 => 0x02 | 0x04 => 0x03 | 0x05 => 0x04 | 0x27 => 0x05
  | 0x4C => 0x06 | 0x09 => 0x07 | 0x4B => 0x08 | 0x19 => 0x09 | 0x4D => 0x0a
  | _ => 0xFF
  end.

(** The key array starts after the report id, the modifiers and the padding. *)
Definition KEY_ARRAY : Z := HID_REPORT_DATA_OFFSET + 2.

(** [memchr(pKeyArray, c, HID_KEYBOARD_KEY_SLOTS)]: the offset in the report. *)
Fixpoint mem_chr (n : nat) (off c : Z) (report : list Z) : res (option Z) :=
  match n with
  | O => Ok None
  | S n => b ← zget report off; if b =? c then Ok (Some off) else mem_chr n (off + 1) c report
  end.

(** [pSlot = memchr(...); ASSERT(pSlot); if (pSlot) *pSlot = v], as in a build in
    which a failed assertion stops the driver. *)
Definition put_slot (report : list Z) (find v : Z) : res (list Z) :=
  s ← mem_chr (Z.to_nat HID_KEYBOARD_KEY_SLOTS) KEY_ARRAY find report;
  match s with Some off => zset report off v | None => Fault AssertFailed end.

(** [RtlFillMemory(pKeyArray, HID_KEYBOARD_KEY_SLOTS, v)], [n] bytes from [off]. *)
Fixpoint fill_slots (n : nat) (off v : Z) (report : list Z) : res (list Z) :=
  match n with
  | O => Ok report
  | S n => r ← zset report off v; fill_slots n (off + 1) v r
  end.

(** The inner loop that rebuilds the key array from one byte of the bitmap. *)
Fixpoint refill_bits (bits : list Z) (iIndex i : Z) (report : list Z) : res (Z * list Z) :=
  match bits with
  | [] => Ok (i, report)
  | uBit :: bits =>
      _ ← ASSERT (i <? HID_KEYBOARD_KEY_SLOTS);
      r ← zset report (KEY_ARRAY + i) (u8 (8 * iIndex + uBit));
      refill_bits bits iIndex (i + 1) r
  end.

Fixpoint refill (n : nat) (iIndex i : Z) (pressed report : list Z) : res (list Z) :=
  match n with
  | O => Ok report
  | S n =>
      uByte ← zget pressed iIndex;
      '(i, r) ← refill_bits (decode_bits uByte) iIndex i report;
      refill n (iIndex + 1) i pressed r
  end.

Definition HIDKeyboardEventKeyToReportKey (k : INPUT_CLASS_KEYBOARD) (uCode uValue : Z)
    : res INPUT_CLASS_KEYBOARD :=
  let iIndex := uCode / 8 in
  let uMask := u8 (Z.shiftl 1 (uCode mod 8)) in
  byte ← zget (pKeysPressed k) iIndex;
  if truth uValue then
    if negb (truth (Z.land byte uMask)) then
      let n := u64 (nKeysPressed k + 1) in
      let k := k <| nKeysPressed := n |>
                 <| pKeysPressed := zinsert iIndex (Z.lor byte uMask) (pKeysPressed k) |> in
      if n <=? HID_KEYBOARD_KEY_SLOTS then
        r ← put_slot (pHidReport k) 0 uCode; Ok (k <| pHidReport := r |>)
      else if n =? HID_KEYBOARD_KEY_SLOTS + 1 then
        r ← fill_slots (Z.to_nat HID_KEYBOARD_KEY_SLOTS) KEY_ARRAY HID_USAGE_KEYBOARD_ROLLOVER
              (pHidReport k);
        Ok (k <| pHidReport := r |>)
      else Ok k
    else Ok k
  else
    if truth (Z.land byte uMask) then
      let n := u64 (nKeysPressed k - 1) in
      let k := k <| nKeysPressed := n |>
                 <| pKeysPressed := zinsert iIndex (Z.land byte (u8 (Z.lnot uMask))) (pKeysPressed k) |> in
      if n <? HID_KEYBOARD_KEY_SLOTS then
        r ← put_slot (pHidReport k) uCode 0; Ok (k <| pHidReport := r |>)
      else if n =? HID_KEYBOARD_KEY_SLOTS then
        r ← refill (Z.to_nat (cbKeysPressedLen k)) 0 0 (pKeysPressed k) (pHidReport k);
        Ok (k <| pHidReport := r |>)
      else Ok k
    else Ok k.

Definition HIDKeyboardEventToReport (k : INPUT_CLASS_KEYBOARD) (ev : VIRTIO_INPUT_EVENT)
    : res INPUT_CLASS_KEYBOARD :=
  r ← zset (pHidReport k) HID_REPORT_ID_OFFSET (uReportID k);
  let k := k <| pHidReport := r |> in
  if ev_type ev =? EV_KEY then
    uCode ← HIDKeyboardEventCodeToUsageCode (ev_code ev);
    if (uCode >=? 0xE0) && (uCode <=? 0xE7) then
      let uMask := u8 (Z.shiftl 1 (uCode - 0xE0)) in
      m ← zget (pHidReport k) HID_REPORT_DATA_OFFSET;
      let m := if truth (ev_value ev) then Z.lor m uMask else Z.land m (u8 (Z.lnot uMask)) in
      r ← zset (pHidReport k) HID_REPORT_DATA_OFFSET m;
      Ok (k <| pHidReport := r |> <| bDirty := true |>)
    else if negb (uCode =? 0) then
      k ← HIDKeyboardEventKeyToReportKey k (u8 uCode) (ev_value ev);
      Ok (k <| bDirty := true |>)
    else Ok k
  else Ok k.

(** Both buffers are freed and their pointers set to NULL. *)
Definition HIDKeyboardCleanup (k : INPUT_CLASS_KEYBOARD) : INPUT_CLASS_KEYBOARD :=
  k <| pLastOutputReport := [] |> <| pKeysPressed := [] |>.

(** ** LEDs *)

Section output.
Context {E : Type} (I : input_env E).

Definition HIDKeyboardSendStatus (e : E) (uType uCode uValue : Z) (Request : option Z) : Z * E :=
  let '(slice, e) := get_slice I e in
  match slice with
  | None => (STATUS_INSUFFICIENT_RESOURCES, e)
  | Some p =>
      let '(status, e) := add_out_buf I e p (mk_ev uType uCode uValue) Request in
      if NT_SUCCESS status then (status, e) else (status, return_slice I e p)
  end.

(** The state of the loops: the pending LED and its value, the last status and
    the outside; [inl] when the function has returned. *)
Record led_state := mk_led { pending : Z; pend_value : Z; led_status : Z; led_env : E }.

(** The inner loop: the changed bits of byte [i], whose new value is [byte]. *)
Fixpoint led_bits (bits : list Z) (i byte : Z) (s : led_state) : (Z * E) + led_state :=
  match bits with
  | [] => inr s
  | uValue :: bits =>
      let uCode := u32 (uValue + 8 * u32 (i - HID_REPORT_DATA_OFFSET)) in
      let uLedCode := HIDLEDUsageCodeToEventCode (u32 (uCode + 1)) in
      if negb (uLedCode =? 0xFF) then
        let v := b2z (truth (Z.land byte (Z.shiftl 1 uValue))) in
        if negb (pending s =? 0xFF) then
          let '(status, e) := HIDKeyboardSendStatus (led_env s) EV_LED (pending s) (pend_value s) None in
          if negb (NT_SUCCESS status) then inl (status, e)
          else led_bits bits i byte (mk_led uLedCode v status e)
        else led_bits bits i byte (mk_led uLedCode v (led_status s) (led_env s))
      else led_bits bits i byte s
  end.

(** The outer loop, [n] iterations from [i]. *)
Fixpoint led_loop (n : nat) (i : Z) (last report : list Z) (s : led_state)
    : res ((Z * E) + led_state) :=
  match n with
  | O => Ok (inr s)
  | S n =>
      old ← zget last i;
      new ← zget report i;
      match led_bits (decode_bits (Z.lxor old new)) i new s with
      | inl r => Ok (inl r)
      | inr s => led_loop n (i + 1) last report s
      end
  end.

(** [RtlCopyMemory(pLastOutputReport, pReport, cbOutputReport)] *)
Definition copy_report (report : list Z) (n : Z) : list Z := take (Z.to_nat n) report.

Definition HIDKeyboardReportToEvent (e : E) (k : INPUT_CLASS_KEYBOARD) (Request : Z)
    (pReport : list Z) (cbReport : Z) : res (Z * INPUT_CLASS_KEYBOARD * E) :=
  if cbReport <? cbOutputReport k then Ok (STATUS_BUFFER_TOO_SMALL, k, e)
  else
    id ← zget pReport HID_REPORT_ID_OFFSET;
    if negb (id =? uReportID k) then Ok (STATUS_INVALID_PARAMETER, k, e)
    else
      r ← led_loop (Z.to_nat (cbOutputReport k - HID_REPORT_DATA_OFFSET)) HID_REPORT_DATA_OFFSET
            (pLastOutputReport k) pReport (mk_led 0xFF 0 STATUS_SUCCESS e);
      match r with
      | inl (status, e) => Ok (status, k, e)
      | inr s =>
          let '(status, e) :=
            if negb (pending s =? 0xFF)
            then HIDKeyboardSendStatus (led_env s) EV_LED (pending s) (pend_value s) (Some Request)
            else (led_status s, led_env s) in
          let k := if NT_SUCCESS status
                   then k <| pLastOutputReport := copy_report pReport (cbOutputReport k) |>
                   else k in
          let e := if pending s =? 0xFF then WdfRequestComplete I e Request status else e in
          Ok (status, k, e)
      end.
End output.

(** ** The probe *)

Definition HID_TAG_USAGE_PAGE : Z := 0x04.
Definition HID_TAG_USAGE : Z := 0x08.
Definition HID_TAG_LOGICAL_MINIMUM : Z := 0x14.
Definition HID_TAG_USAGE_MINIMUM : Z := 0x18.
Definition HID_TAG_LOGICAL_MAXIMUM : Z := 0x24.
Definition HID_TAG_USAGE_MAXIMUM : Z := 0x28.
Definition HID_TAG_REPORT_SIZE : Z := 0x74.
Definition HID_TAG_INPUT : Z := 0x80.
Definition HID_TAG_REPORT_ID : Z := 0x84.
Definition HID_TAG_OUTPUT : Z := 0x90.
Definition HID_TAG_REPORT_COUNT : Z := 0x94.
Definition HID_TAG_COLLECTION : Z := 0xa0.
Definition HID_TAG_END_COLLECTION : Z := 0xc0.
Definition HID_COLLECTION_APPLICATION : Z := 0x01.
Definition HID_DATA_FLAG_CONSTANT : Z := 0x01.
Definition HID_DATA_FLAG_VARIABLE : Z := 0x02.
Definition HID_USAGE_PAGE_GENERIC : Z := 0x01.
Definition HID_USAGE_PAGE_KEYBOARD : Z := 0x07.
Definition HID_USAGE_PAGE_LED : Z := 0x08.
Definition HID_USAGE_GENERIC_KEYBOARD : Z := 0x06.
Definition MAX_INPUT_CLASS_COUNT : Z := 5.
Definition sizeof_INPUT_CLASS_KEYBOARD : Z := 104.

(** The inner loop over the key bits of byte [i]: the highest key code, whether
    a keyboard key was seen, and the bits that are not keyboard keys. *)
Fixpoint probe_key_bits (bits : list Z) (i uMaxKey : Z) (bGotKey : bool) (uNonKeys : Z)
    : res (Z * bool * Z) :=
  match bits with
  | [] => Ok (uMaxKey, bGotKey, uNonKeys)
  | uValue :: bits =>
      uCode ← HIDKeyboardEventCodeToUsageCode (u16 (uValue + 8 * i));
      if negb (uCode =? 0) && (Z.land uCode KEY_TYPE_MASK =? KEY_TYPE_KEYBOARD) then
        let uMaxKey := if (uCode <? 0xE0) || (uCode >? 0xE7)
                       then Z.max uMaxKey (u8 uCode) else uMaxKey in
        probe_key_bits bits i uMaxKey true uNonKeys
      else probe_key_bits bits i uMaxKey bGotKey (Z.lor uNonKeys (u8 (Z.shiftl 1 uValue)))
  end.

(** The outer loop; also returns the bitmap left to the other classes. *)
Fixpoint probe_keys (bitmap : list Z) (i uMaxKey : Z) (bGotKey : bool)
    : res (Z * bool * list Z) :=
  match bitmap with
  | [] => Ok (uMaxKey, bGotKey, [])
  | b :: bitmap =>
      '(m, g, non) ← probe_key_bits (decode_bits b) i uMaxKey bGotKey 0;
      '(m, g, rest) ← probe_keys bitmap (i + 1) m g;
      Ok (m, g, non :: rest)
  end.

(** The loops over the LED bitmap: the highest usage code of a known LED, and
    whether there is one. *)
Definition probe_led_bits (bits : list Z) (i : Z) (acc : Z * bool) : Z * bool :=
  foldl (fun acc uValue =>
    let uCode := HIDLEDEventCodeToUsageCode (u16 (uValue + 8 * i)) in
    if negb (uCode =? 0) then (Z.max acc.1 uCode, true) else acc) acc bits.
Fixpoint probe_leds (bitmap : list Z) (i : Z) (acc : Z * bool) : Z * bool :=
  match bitmap with
  | [] => acc
  | b :: bitmap => probe_leds bitmap (i + 1) (probe_led_bits (decode_bits b) i acc)
  end.

(** The items of the descriptor, in the order of the calls. *)
Definition keyboard_head_items (id : Z) : list (Z * Z) :=
  [(HID_TAG_USAGE_PAGE, HID_USAGE_PAGE_GENERIC); (HID_TAG_USAGE, HID_USAGE_GENERIC_KEYBOARD);
   (HID_TAG_COLLECTION, HID_COLLECTION_APPLICATION); (HID_TAG_REPORT_ID, id);
   (HID_TAG_USAGE_PAGE, HID_USAGE_PAGE_KEYBOARD); (HID_TAG_USAGE_MINIMUM, 0xE0);
   (HID_TAG_USAGE_MAXIMUM, 0xE7); (HID_TAG_LOGICAL_MINIMUM, 0x00);
   (HID_TAG_LOGICAL_MAXIMUM, 0x01); (HID_TAG_REPORT_SIZE, 0x01);
   (HID_TAG_REPORT_COUNT, 0x08); (HID_TAG_INPUT, HID_DATA_FLAG_VARIABLE);
   (HID_TAG_REPORT_SIZE, 0x01); (HID_TAG_REPORT_COUNT, 0x08);
   (HID_TAG_INPUT, HID_DATA_FLAG_CONSTANT)].

Definition keyboard_led_items (uMaxLed cbOutput : Z) : list (Z * Z) :=
  let uNumOfLEDs := uMaxLed + 1 in
  [(HID_TAG_REPORT_SIZE, 0x01); (HID_TAG_REPORT_COUNT, uMaxLed + 1);
   (HID_TAG_USAGE_PAGE, HID_USAGE_PAGE_LED); (HID_TAG_USAGE_MINIMUM, 1);
   (HID_TAG_USAGE_MAXIMUM, uMaxLed + 1); (HID_TAG_OUTPUT, HID_DATA_FLAG_VARIABLE)] ++
  (if truth (uNumOfLEDs mod 8) then
     [(HID_TAG_REPORT_COUNT, 0x01); (HID_TAG_REPORT_SIZE, u32 (u32 (cbOutput * 8) - uNumOfLEDs));
      (HID_TAG_OUTPUT, HID_DATA_FLAG_CONSTANT)]
   else []).

Definition keyboard_key_items (uMaxKey : Z) : list (Z * Z) :=
  [(HID_TAG_REPORT_SIZE, 0x08); (HID_TAG_REPORT_COUNT, HID_KEYBOARD_KEY_SLOTS);
   (HID_TAG_LOGICAL_MINIMUM, 0x00); (HID_TAG_LOGICAL_MAXIMUM, uMaxKey);
   (HID_TAG_USAGE_PAGE, HID_USAGE_PAGE_KEYBOARD); (HID_TAG_USAGE_MINIMUM, 0x00);
   (HID_TAG_USAGE_MAXIMUM, uMaxKey); (HID_TAG_INPUT, 0)].

Section probe.
Context {E : Type} (I : input_env E).

(** [RegisterClass] for a class without a report: the status, the report that is
    allocated, and the number of classes; on success the class becomes the last
    one of [InputClasses]. *)
Definition RegisterClass (e : E) (uNumOfClasses cbHidReportSize : Z) : Z * list Z * Z * E :=
  if uNumOfClasses >=? MAX_INPUT_CLASS_COUNT
  then (STATUS_INSUFFICIENT_RESOURCES, [], uNumOfClasses, e)
  else
    let '(ok, e) := ExAllocatePool I e cbHidReportSize in
    if (ok : bool)
    then (STATUS_SUCCESS, replicate (Z.to_nat cbHidReportSize) 0, uNumOfClasses + 1, e)
    else (STATUS_INSUFFICIENT_RESOURCES, [], uNumOfClasses, e).

(** The size of the output report for [uMaxLed]. *)
Definition led_report_size (uMaxLed : Z) : Z := HID_REPORT_DATA_OFFSET + (uMaxLed + 1 + 7) / 8.

(** The LED part: append the items and allocate the last report; [inl] is the
    early return, which frees nothing. *)
Definition probe_output (e : E) (a : DYNAMIC_ARRAY) (uMaxLed : Z) (bGotLed : bool)
    : res ((Z * DYNAMIC_ARRAY * E) + (Z * list Z * DYNAMIC_ARRAY * E)) :=
  if bGotLed then
    let cb := led_report_size uMaxLed in
    '(a, e) ← append_items I e a (keyboard_led_items uMaxLed cb);
    let '(ok, e) := ExAllocatePool I e cb in
    if (ok : bool) then Ok (inr (cb, replicate (Z.to_nat cb) 0, a, e))
    else Ok (inl (STATUS_INSUFFICIENT_RESOURCES, a, e))
  else Ok (inr (0, [], a, e)).

(** [HIDKeyboardProbe]: the status, the class that was registered, the number of
    classes, the descriptor, and the key bitmap left over. *)
Definition HIDKeyboardProbe (e : E) (uNumOfClasses : Z) (a : DYNAMIC_ARRAY)
    (pKeys pLeds : list Z)
    : res (Z * option INPUT_CLASS_KEYBOARD * Z * DYNAMIC_ARRAY * list Z * E) :=
  '(uMaxKey, bGotKey, pKeys) ← probe_keys pKeys 0 0 false;
  if negb bGotKey then Ok (STATUS_SUCCESS, None, uNumOfClasses, a, pKeys, e)
  else
    let '(ok, e) := ExAllocatePool I e sizeof_INPUT_CLASS_KEYBOARD in
    if negb ok then Ok (STATUS_INSUFFICIENT_RESOURCES, None, uNumOfClasses, a, pKeys, e)
    else
      let id := u8 (uNumOfClasses + 1) in
      '(a, e) ← append_items I e a (keyboard_head_items id);
      let '(uMaxLed, bGotLed) := probe_leds pLeds 0 (0, false) in
      r ← probe_output e a uMaxLed bGotLed;
      match r with
      | inl (status, a, e) => Ok (status, None, uNumOfClasses, a, pKeys, e)
      | inr (cbOut, last, a, e) =>
          '(a, e) ← append_items I e a (keyboard_key_items uMaxKey);
          '(a, e) ← HIDAppend1 I e a HID_TAG_END_COLLECTION;
          let cbLen := (uMaxKey + 1 + 7) / 8 in
          let '(ok, e) := ExAllocatePool I e cbLen in
          if negb ok then Ok (STATUS_INSUFFICIENT_RESOURCES, None, uNumOfClasses, a, pKeys, e)
          else
            let cbHidReportSize := HID_REPORT_DATA_OFFSET + 2 + HID_KEYBOARD_KEY_SLOTS in
            let '(status, report, n, e) := RegisterClass e uNumOfClasses cbHidReportSize in
            if negb (NT_SUCCESS status) then Ok (status, None, n, a, pKeys, e)
            else Ok (status,
                     Some (mk_kbd id false report (replicate (Z.to_nat cbLen) 0) cbLen 0 cbOut last),
                     n, a, pKeys, e)
      end.
End probe.
