(* ===== verification/VioInputSpec.v ===== *)
(** * Correctness of the virtio-input keyboard

    [kb_wf k S] says that the bitmap, the counter and the key array of the report
    all show the set [S] of pressed keys; every key event keeps it. *)

From Stdlib Require Import ZArith Lia.
From stdpp Require Import base list numbers option sets gmap.
From S2P Require Import Prelude.
From S2P Require Import VioInput.

(** ** Bits of a byte *)

Definition byte_ok (b : Z) : Prop := 0 <= b < 256.

Lemma decode_bits_eq b : byte_ok b -> decode_bits b = List.filter (Z.testbit b) (seqZ 0 8).
Proof.
  intros Hb. assert (H : forallb (fun b => bool_decide (decode_bits b =
    List.filter (Z.testbit b) (seqZ 0 8))) (seqZ 0 256) = true) by (vm_compute; reflexivity).
  rewrite List.forallb_forall in H. specialize (H b). rewrite bool_decide_eq_true in H.
  apply H, list_elem_of_In, elem_of_seqZ. unfold byte_ok in Hb. lia.
Qed.

(** ** The set of pressed keys *)

Definition key_bit (p : list Z) (c : Z) : bool :=
  match p⟦c / 8⟧ with Some b => Z.testbit b (c mod 8) | None => false end.

Lemma key_bit_range p c : key_bit p c = true -> 0 <= c < 8 * zlen p.
Proof.
  unfold key_bit. destruct (p⟦c / 8⟧) eqn:E; [|done]. intros _. apply zlookup_lt in E.
  Z.to_euclidean_division_equations. lia.
Qed.

Lemma mask_bit c j : 0 <= j < 8 -> Z.testbit (u8 (Z.shiftl 1 (c mod 8))) j = (c mod 8 =? j).
Proof.
  intros Hj. assert (0 <= c mod 8 < 8) by (apply Z.mod_pos_bound; lia).
  rewrite u8_small.
  - rewrite Z.shiftl_1_l, Z.pow2_bits_eqb by lia. done.
  - rewrite Z.shiftl_1_l. split; [lia|]. change 256 with (2 ^ 8). apply Z.pow_lt_mono_r; lia.
Qed.

Lemma unmask_bit c j : 0 <= j < 8 ->
  Z.testbit (u8 (Z.lnot (u8 (Z.shiftl 1 (c mod 8))))) j = negb (c mod 8 =? j).
Proof.
  intros Hj. unfold u8 at 1. change 256 with (2 ^ 8).
  rewrite Z.mod_pow2_bits_low, Z.lnot_spec, mask_bit by lia. done.
Qed.

Lemma mask_test byte c : truth (Z.land byte (u8 (Z.shiftl 1 (c mod 8)))) = Z.testbit byte (c mod 8).
Proof.
  assert (0 <= c mod 8 < 8) by (apply Z.mod_pos_bound; lia).
  rewrite u8_small; [apply (truth_land_bit byte (c mod 8)); lia|].
  rewrite Z.shiftl_1_l. split; [lia|]. change 256 with (2 ^ 8). apply Z.pow_lt_mono_r; lia.
Qed.

(** Replacing the byte of [c] by one that differs at most in the bit of [c]. *)
Lemma key_bit_update p c byte byte' b c' :
  p⟦c / 8⟧ = Some byte ->
  (forall j, 0 <= j < 8 -> Z.testbit byte' j = if c mod 8 =? j then b else Z.testbit byte j) ->
  key_bit (zinsert (c / 8) byte' p) c' = if c' =? c then b else key_bit p c'.
Proof.
  intros Hp Hb. unfold key_bit. pose proof (zlookup_lt _ _ _ Hp).
  assert (0 <= c' mod 8 < 8) by (apply Z.mod_pos_bound; lia).
  destruct (decide (c' / 8 = c / 8)) as [E|E].
  - rewrite E, zlookup_zinsert_eq, Hp, Hb by done.
    assert (Hc : (c' =? c) = (c mod 8 =? c' mod 8)) by (Z.to_euclidean_division_equations; lia).
    by rewrite Hc.
  - rewrite zlookup_zinsert_ne by congruence. replace (c' =? c) with false; [done|].
    symmetry. apply Z.eqb_neq. congruence.
Qed.

(** What the report shows for a set of pressed keys: the keys in some order and
    zeros, or the roll-over code in every slot. *)
Definition shows (arr : list Z) (S : gset Z) : Prop :=
  if bool_decide (size S <= 6)%nat
  then arr ≡ₚ elements S ++ replicate (6 - size S) 0
  else arr = replicate 6 HID_USAGE_KEYBOARD_ROLLOVER.

Definition key_array (k : INPUT_CLASS_KEYBOARD) : list Z := drop 3 (pHidReport k).
Definition head_bytes (k : INPUT_CLASS_KEYBOARD) : list Z := take 3 (pHidReport k).

Record kb_wf (k : INPUT_CLASS_KEYBOARD) (S : gset Z) : Prop := {
  kw_report : zlen (pHidReport k) = 9;
  kw_len : zlen (pKeysPressed k) = cbKeysPressedLen k;
  kw_small : 1 <= cbKeysPressedLen k <= 32;
  kw_bytes : Forall byte_ok (pKeysPressed k);
  kw_bits : forall c, key_bit (pKeysPressed k) c = true <-> c ∈ S;
  kw_zero : 0 ∉ S;
  kw_count : nKeysPressed k = Z.of_nat (size S);
  kw_shows : shows (key_array k) S }.

(** ** Searching and writing slots *)

Lemma mem_chr_ok n : forall off c r, 0 <= off -> off + Z.of_nat n <= zlen r ->
  match mem_chr n off c r with
  | Ok (Some j) => off <= j < off + Z.of_nat n /\ r⟦j⟧ = Some c
  | Ok None => forall j, off <= j < off + Z.of_nat n -> r⟦j⟧ <> Some c
  | Fault _ => False
  end.
Proof.
  induction n as [|n IH]; intros off c r Ho Hl; cbn [mem_chr]; [intros; lia|].
  destruct (zlookup_in_range r off) as [b Hb]; [lia|]. rewrite (zget_ok _ _ _ Hb).
  cbn [mbind res_bind]. destruct (Z.eqb_spec b c) as [->|Hne]; [split; [lia|done]|].
  specialize (IH (off + 1) c r ltac:(lia) ltac:(lia)).
  destruct (mem_chr n (off + 1) c r) as [[j|]|]; [|intros j Hj|done].
  - split; [lia|apply IH].
  - destruct (decide (j = off)) as [->|]; [congruence|]. apply IH. lia.
Qed.

Lemma insert_perm {A} (l : list A) i x y rest :
  l !! i = Some x -> l ≡ₚ x :: rest -> <[i := y]> l ≡ₚ y :: rest.
Proof.
  intros Hi Hp. rewrite <- (take_drop_middle l i x Hi) in Hp.
  rewrite insert_take_drop by (by eapply lookup_lt_Some).
  rewrite <- Permutation_middle in Hp |- *. f_equiv. by apply (Permutation_cons_inv (a := x)).
Qed.

Lemma zinsert_parts {A} (l : list A) j x : 3 <= j < zlen l ->
  take 3 (zinsert j x l) = take 3 l /\ drop 3 (zinsert j x l) = <[(Z.to_nat j - 3)%nat := x]> (drop 3 l).
Proof.
  intros Hj. unfold zinsert. replace (0 <=? j) with true by lia. split.
  - apply take_insert_ge. lia.
  - rewrite drop_insert_ge by lia. done.
Qed.

Lemma put_slot_ok r find v rest :
  zlen r = 9 -> drop 3 r ≡ₚ find :: rest ->
  exists r', put_slot r find v = Ok r' /\ zlen r' = 9 /\ take 3 r' = take 3 r /\
    drop 3 r' ≡ₚ v :: rest.
Proof.
  intros Hl Hp. unfold put_slot, KEY_ARRAY, HID_REPORT_DATA_OFFSET, HID_KEYBOARD_KEY_SLOTS.
  pose proof (mem_chr_ok (Z.to_nat 6) 3 find r ltac:(lia) ltac:(lia)) as M.
  destruct (mem_chr (Z.to_nat 6) 3 find r) as [[j|]|] eqn:E; [..|done].
  - destruct M as [Hj Hr]. change (1 + 2) with 3. rewrite E. cbn [mbind res_bind].
    rewrite zset_ok by lia. eexists. split; [done|].
    destruct (zinsert_parts r j v) as [H1 H2]; [lia|]. split; [by rewrite zlen_zinsert|].
    split; [done|]. rewrite H2. eapply insert_perm; [|done].
    unfold zlookup in Hr. destruct (0 <=? j); [|done].
    rewrite lookup_drop. rewrite <- Hr. f_equal. lia.
  - exfalso. assert (Hin : find ∈ drop 3 r) by (rewrite Hp; constructor).
    apply list_elem_of_lookup in Hin as [i Hi]. rewrite lookup_drop in Hi.
    pose proof (lookup_lt_Some _ _ _ Hi). unfold zlen in Hl.
    apply (M (Z.of_nat (3 + i))); [lia|]. unfold zlookup.
    destruct (Z.leb_spec 0 (Z.of_nat (3 + i))); [|lia]. by rewrite Nat2Z.id.
Qed.

Lemma fill_slots_ok r v : zlen r = 9 ->
  exists r', fill_slots 6 3 v r = Ok r' /\ zlen r' = 9 /\ take 3 r' = take 3 r /\
    drop 3 r' = replicate 6 v.
Proof.
  intros Hl. unfold zlen in Hl.
  destruct r as [|x0 [|x1 [|x2 [|x3 [|x4 [|x5 [|x6 [|x7 [|x8 [|]]]]]]]]]]; cbn in Hl; try lia.
  eexists. split; [reflexivity|]. done.
Qed.

(** ** Rebuilding the key array from the bitmap *)

(** The pressed keys in the order of the loops. *)
Fixpoint codes_from (i : Z) (p : list Z) : list Z :=
  match p with
  | [] => []
  | b :: p => ((fun v => 8 * i + v) <$> decode_bits b) ++ codes_from (i + 1) p
  end.

Lemma filter_map_comm {A B} (f : B -> bool) (g : A -> B) l :
  List.filter f (g <$> l) = g <$> List.filter (fun x => f (g x)) l.
Proof. induction l as [|x l IH]; [done|]. cbn. destruct (f (g x)); cbn; by rewrite IH. Qed.

Lemma key_bit_app p1 b p2 v : 0 <= v < 8 ->
  key_bit (p1 ++ b :: p2) (8 * zlen p1 + v) = Z.testbit b v.
Proof.
  intros Hv. unfold key_bit.
  replace ((8 * zlen p1 + v) / 8) with (zlen p1) by (Z.to_euclidean_division_equations; lia).
  replace ((8 * zlen p1 + v) mod 8) with v by (Z.to_euclidean_division_equations; lia).
  rewrite zlookup_app_r, Z.sub_diag by lia. done.
Qed.

Lemma codes_from_filter p2 : forall p1, Forall byte_ok p2 ->
  codes_from (zlen p1) p2 =
  List.filter (key_bit (p1 ++ p2)) (seqZ (8 * zlen p1) (8 * zlen p2)).
Proof.
  induction p2 as [|b p2 IH]; intros p1 Hok; [done|].
  apply list.Forall_cons in Hok as [Hb Hok]. cbn [codes_from].
  pose proof (zlen_nonneg p2). rewrite zlen_cons.
  replace (8 * (zlen p2 + 1)) with (8 + 8 * zlen p2) by lia. rewrite seqZ_app by lia.
  rewrite List.filter_app. f_equal.
  - rewrite decode_bits_eq by done.
    replace (seqZ (8 * zlen p1) 8) with ((fun v => 8 * zlen p1 + v) <$> seqZ 0 8).
    + rewrite filter_map_comm. f_equal. apply List.filter_ext_in. intros v Hv.
      apply list_elem_of_In, elem_of_seqZ in Hv. by rewrite key_bit_app by lia.
    + rewrite (fmap_add_seqZ (8 * zlen p1)). f_equal; lia.
  - specialize (IH (p1 ++ [b]) Hok). rewrite <- app_assoc in IH. cbn [app] in IH.
    rewrite zlen_app in IH. change (zlen [b]) with 1 in IH. rewrite IH. f_equal. f_equal; lia.
Qed.

(** The loops list exactly the pressed keys. *)
Lemma codes_perm p (S : gset Z) : Forall byte_ok p -> (forall c, key_bit p c = true <-> c ∈ S) ->
  codes_from 0 p ≡ₚ elements S.
Proof.
  intros Hok Hb. pose proof (codes_from_filter p [] Hok) as E. cbn [app] in E.
  change (zlen (@nil Z)) with 0 in E. rewrite E. apply NoDup_Permutation.
  - apply base.NoDup_ListNoDup, List.NoDup_filter, base.NoDup_ListNoDup, NoDup_seqZ.
  - apply NoDup_elements.
  - intros c. rewrite elem_of_elements, <- Hb, list_elem_of_In, List.filter_In, <- list_elem_of_In.
    rewrite elem_of_seqZ. split; [by intros [_ ?]|]. intros Hc. split; [|done].
    apply key_bit_range in Hc. lia.
Qed.

Lemma refill_bits_ok bits : forall iIndex i r, 0 <= i -> i + zlen bits <= 6 -> zlen r = 9 ->
  0 <= iIndex < 32 -> Forall (fun v => 0 <= v < 8) bits ->
  exists r', refill_bits bits iIndex i r = Ok (i + zlen bits, r') /\ zlen r' = 9 /\
    forall l, i + zlen bits + zlen l <= 6 ->
      written r' (3 + i + zlen bits) l =
      written r (3 + i) (((fun v => 8 * iIndex + v) <$> bits) ++ l).
Proof.
  induction bits as [|v bits IH]; intros iIndex i r Hi Hl Hr Hx Hok; cbn [refill_bits].
  - exists r. change (zlen (@nil Z)) with 0. rewrite !Z.add_0_r. done.
  - rewrite zlen_cons in Hl |- *. pose proof (zlen_nonneg bits).
    apply list.Forall_cons in Hok as [Hv Hok].
    unfold KEY_ARRAY, HID_REPORT_DATA_OFFSET, HID_KEYBOARD_KEY_SLOTS.
    rewrite ASSERT_ok by lia. cbn [mbind res_bind]. rewrite zset_ok by lia.
    cbn [mbind res_bind]. rewrite u8_small by lia.
    destruct (IH iIndex (i + 1) (zinsert (1 + 2 + i) (8 * iIndex + v) r)) as (r' & E & L & W);
      try done; try lia; [by rewrite zlen_zinsert|].
    exists r'. split; [rewrite E; do 2 f_equal; lia|]. split; [done|]. intros l Hll.
    replace (3 + i + (zlen bits + 1)) with (3 + (i + 1) + zlen bits) by lia.
    rewrite W by lia. change (1 + 2) with 3. replace (3 + (i + 1)) with (3 + i + 1) by lia.
    cbn [fmap list_fmap app]. apply written_cons. lia.
Qed.

Lemma decode_bits_range b : byte_ok b -> Forall (fun v => 0 <= v < 8) (decode_bits b).
Proof.
  intros Hb. rewrite decode_bits_eq by done. apply list.Forall_forall. intros v Hv.
  apply list_elem_of_In, List.filter_In in Hv as [Hv _].
  apply list_elem_of_In, elem_of_seqZ in Hv. lia.
Qed.

Lemma refill_ok p2 : forall p1 i r, 0 <= i -> Forall byte_ok p2 -> zlen p1 + zlen p2 <= 32 ->
  i + zlen (codes_from (zlen p1) p2) <= 6 -> zlen r = 9 ->
  refill (length p2) (zlen p1) i (p1 ++ p2) r = Ok (written r (3 + i) (codes_from (zlen p1) p2)).
Proof.
  induction p2 as [|b p2 IH]; intros p1 i r Hi Hok Hl Hc Hr; cbn [refill length].
  - cbn [codes_from]. by rewrite written_nil.
  - apply list.Forall_cons in Hok as [Hb Hok]. rewrite zlen_cons in Hl. pose proof (zlen_nonneg p2).
    pose proof (zlen_nonneg p1).
    rewrite (zget_ok _ _ b) by (by rewrite zlookup_app_r, Z.sub_diag by lia).
    cbn [mbind res_bind]. cbn [codes_from] in Hc |- *.
    assert (Hz : zlen ((fun v => 8 * zlen p1 + v) <$> decode_bits b) = zlen (decode_bits b))
      by (unfold zlen; by rewrite length_fmap).
    rewrite zlen_app, Hz in Hc. pose proof (zlen_nonneg (codes_from (zlen p1 + 1) p2)).
    destruct (refill_bits_ok (decode_bits b) (zlen p1) i r) as (r' & E & L & W);
      try done; try lia; [by apply decode_bits_range|].
    rewrite E. cbn [mbind res_bind].
    specialize (IH (p1 ++ [b]) (i + zlen (decode_bits b)) r').
    rewrite <- app_assoc, zlen_app in IH. change (zlen [b]) with 1 in IH. cbn [app] in IH.
    pose proof (zlen_nonneg (decode_bits b)). rewrite IH by (done || lia).
    f_equal. rewrite Z.add_assoc. apply W. lia.
Qed.

(** The whole rebuild, when exactly six keys are pressed. *)
Lemma refill_all k (S : gset Z) r :
  zlen r = 9 -> zlen (pKeysPressed k) = cbKeysPressedLen k -> cbKeysPressedLen k <= 32 ->
  Forall byte_ok (pKeysPressed k) ->
  (forall c, key_bit (pKeysPressed k) c = true <-> c ∈ S) -> size S = 6%nat ->
  exists r', refill (Z.to_nat (cbKeysPressedLen k)) 0 0 (pKeysPressed k) r = Ok r' /\
    zlen r' = 9 /\ take 3 r' = take 3 r /\ drop 3 r' ≡ₚ elements S.
Proof.
  intros Hr Hl H32 Hok Hb Hs. pose proof (codes_perm _ _ Hok Hb) as Hp.
  assert (Hc : length (codes_from 0 (pKeysPressed k)) = 6%nat)
    by (rewrite Hp; exact Hs).
  replace (Z.to_nat (cbKeysPressedLen k)) with (length (pKeysPressed k))
    by (rewrite <- Hl; unfold zlen; lia).
  pose proof (refill_ok (pKeysPressed k) [] 0 r) as R. cbn [app] in R.
  change (zlen (@nil Z)) with 0 in R. rewrite R; try done; try (unfold zlen in *; lia).
  eexists. split; [done|]. change (3 + 0) with 3. unfold written. change (Z.to_nat 3) with 3%nat.
  rewrite Hc, drop_ge, app_nil_r by (unfold zlen in *; lia).
  assert (H3 : length (take 3 r) = 3%nat) by (rewrite length_take; unfold zlen in *; lia).
  split; [unfold zlen in *; rewrite length_app; lia|].
  rewrite take_app_length', drop_app_length' by done. done.
Qed.

(** ** One key event *)

(** The abstract effect of a key event on the set of pressed keys. *)
Definition key_set (S : gset Z) (c v : Z) : gset Z := if truth v then {[c]} ∪ S else S ∖ {[c]}.

Lemma shows_small arr S : (size S <= 6)%nat ->
  shows arr S <-> arr ≡ₚ elements S ++ replicate (6 - size S) 0.
Proof. intros. unfold shows. by rewrite bool_decide_true. Qed.

Lemma shows_large arr S : (6 < size S)%nat ->
  shows arr S <-> arr = replicate 6 HID_USAGE_KEYBOARD_ROLLOVER.
Proof. intros. unfold shows. by rewrite bool_decide_false by lia. Qed.

Lemma press_size (S : gset Z) c : c ∉ S ->
  size ({[c]} ∪ S) = Datatypes.S (size S) /\ elements ({[c]} ∪ S) ≡ₚ c :: elements S.
Proof.
  intros Hc. split.
  - rewrite size_union by set_solver. by rewrite size_singleton.
  - by apply elements_union_singleton.
Qed.

Lemma release_size (S : gset Z) c : c ∈ S ->
  size S = Datatypes.S (size (S ∖ {[c]})) /\ elements S ≡ₚ c :: elements (S ∖ {[c]}).
Proof.
  intros Hc. assert (E : S = {[c]} ∪ (S ∖ {[c]})).
  { apply leibniz_equiv. intros x. destruct (decide (x = c)); set_solver. }
  rewrite E at 1 3. apply press_size. set_solver.
Qed.

(** The report after a press, in the three cases of the code. *)
Lemma press_report k (S : gset Z) c : zlen (pHidReport k) = 9 ->
  shows (key_array k) S -> c ∉ S ->
  exists r, (if Z.of_nat (size S) + 1 <=? 6 then put_slot (pHidReport k) 0 c
             else if Z.of_nat (size S) + 1 =? 7 then fill_slots 6 3 1 (pHidReport k)
             else Ok (pHidReport k)) = Ok r /\
    zlen r = 9 /\ take 3 r = take 3 (pHidReport k) /\ shows (drop 3 r) ({[c]} ∪ S).
Proof.
  intros Hr Hs Hc. destruct (press_size S c Hc) as [Hsz Hel].
  destruct (Z.leb_spec (Z.of_nat (size S) + 1) 6) as [Hle|Hgt].
  - rewrite shows_small in Hs by lia.
    destruct (put_slot_ok (pHidReport k) 0 c (elements S ++ replicate (6 - size ({[c]} ∪ S)) 0))
      as (r & E & L & T & D); [done| |].
    { unfold key_array in Hs. rewrite Hs, Hsz.
      replace (6 - size S)%nat with (Datatypes.S (6 - Datatypes.S (size S))) by lia.
      cbn [replicate]. by rewrite Permutation_middle. }
    exists r. split_and!; try done. rewrite shows_small by lia. rewrite D, Hel. done.
  - destruct (Z.eqb_spec (Z.of_nat (size S) + 1) 7).
    + destruct (fill_slots_ok (pHidReport k) 1 Hr) as (r & E & L & T & D).
      exists r. split_and!; try done. by rewrite shows_large by lia.
    + exists (pHidReport k). split_and!; try done. rewrite shows_large in Hs |- * by lia. done.
Qed.

(** The report after a release. *)
Lemma release_report k k' (S : gset Z) c : zlen (pHidReport k) = 9 ->
  shows (key_array k) S -> c ∈ S -> pHidReport k' = pHidReport k ->
  zlen (pKeysPressed k') = cbKeysPressedLen k' -> cbKeysPressedLen k' <= 32 ->
  Forall byte_ok (pKeysPressed k') ->
  (forall x, key_bit (pKeysPressed k') x = true <-> x ∈ S ∖ {[c]}) ->
  exists r, (if Z.of_nat (size S) - 1 <? 6 then put_slot (pHidReport k) c 0
             else if Z.of_nat (size S) - 1 =? 6
             then refill (Z.to_nat (cbKeysPressedLen k')) 0 0 (pKeysPressed k') (pHidReport k)
             else Ok (pHidReport k)) = Ok r /\
    zlen r = 9 /\ take 3 r = take 3 (pHidReport k) /\ shows (drop 3 r) (S ∖ {[c]}).
Proof.
  intros Hr Hs Hc Er Hl H32 Hok Hb. destruct (release_size S c Hc) as [Hsz Hel].
  destruct (Z.ltb_spec (Z.of_nat (size S) - 1) 6) as [Hlt|Hge].
  - rewrite shows_small in Hs by lia.
    destruct (put_slot_ok (pHidReport k) c 0 (elements (S ∖ {[c]}) ++ replicate (6 - size S) 0))
      as (r & E & L & T & D); [done| |].
    { unfold key_array in Hs. by rewrite Hs, Hel. }
    exists r. split_and!; try done. rewrite shows_small by lia. rewrite D.
    replace (6 - size (S ∖ {[c]}))%nat with (Datatypes.S (6 - size S)) by lia.
    cbn [replicate]. apply Permutation_middle.
  - destruct (Z.eqb_spec (Z.of_nat (size S) - 1) 6) as [E6|].
    + destruct (refill_all k' (S ∖ {[c]}) (pHidReport k)) as (r & E & L & T & D); try done; [lia|].
      exists r. split_and!; try done. rewrite shows_small by lia. rewrite D.
      replace (6 - size (S ∖ {[c]}))%nat with 0%nat by lia. by rewrite app_nil_r.
    + exists (pHidReport k). split_and!; try done. rewrite shows_large in Hs |- * by lia. done.
Qed.

Lemma kb_wf_update k k' S (S' : gset Z) r c byte' b byte :
  kb_wf k S -> 0 < c -> (pKeysPressed k)⟦c / 8⟧ = Some byte -> byte_ok byte' ->
  (forall j, 0 <= j < 8 -> Z.testbit byte' j = if c mod 8 =? j then b else Z.testbit byte j) ->
  (forall x, x ∈ S' <-> (if x =? c then b = true else x ∈ S)) ->
  pKeysPressed k' = zinsert (c / 8) byte' (pKeysPressed k) ->
  cbKeysPressedLen k' = cbKeysPressedLen k ->
  (forall x, key_bit (pKeysPressed k') x = true <-> x ∈ S') /\
  Forall byte_ok (pKeysPressed k') /\ zlen (pKeysPressed k') = cbKeysPressedLen k' /\
  (nKeysPressed k' = Z.of_nat (size S') -> pHidReport k' = r -> zlen r = 9 ->
   shows (drop 3 r) S' -> kb_wf k' S').
Proof.
  intros W Hc Hb Hb' Hbits Hset Hp Hl.
  assert (H1 : forall x, key_bit (pKeysPressed k') x = true <-> x ∈ S').
  { intros x. rewrite Hp, (key_bit_update _ _ _ _ _ _ Hb Hbits), Hset.
    destruct (x =? c); [done|]. apply W. }
  assert (H2 : Forall byte_ok (pKeysPressed k')).
  { rewrite Hp. unfold zinsert. destruct (0 <=? c / 8); [|apply W].
    apply Forall_insert; [apply W|done]. }
  assert (H3 : zlen (pKeysPressed k') = cbKeysPressedLen k').
  { rewrite Hp, Hl, zlen_zinsert. apply W. }
  split_and!; try done. intros Hn Hr Hr9 Hs. constructor; try done.
  - by rewrite Hr.
  - rewrite Hl. apply W.
  - rewrite Hset. replace (0 =? c) with false by lia. apply W.
  - unfold key_array. by rewrite Hr.
Qed.

Lemma byte_ok_lor a c : byte_ok a -> byte_ok (Z.lor a (u8 c)).
Proof.
  intros Ha. unfold byte_ok in *. change 256 with (2 ^ 8). apply lor_range; [lia|done|].
  apply u8_range.
Qed.

Lemma byte_ok_land a c : byte_ok a -> byte_ok (Z.land a c).
Proof.
  unfold byte_ok. intros Ha. assert (E : Z.land a c = Z.land a c mod 2 ^ 8).
  { rewrite <- Z.land_ones, <- (Z.land_comm (Z.ones 8)), Z.land_assoc, (Z.land_comm (Z.ones 8)) by lia.
    by rewrite Z.land_ones, (Z.mod_small a) by lia. }
  rewrite E. apply Z.mod_pos_bound. lia.
Qed.

(** The fields a key event does not touch. *)
Definition same_class (k k' : INPUT_CLASS_KEYBOARD) : Prop :=
  head_bytes k' = head_bytes k /\ uReportID k' = uReportID k /\
  cbKeysPressedLen k' = cbKeysPressedLen k /\
  cbOutputReport k' = cbOutputReport k /\ pLastOutputReport k' = pLastOutputReport k.

Section key.
Context (k : INPUT_CLASS_KEYBOARD) (S : gset Z) (c byte : Z).
Hypothesis W : kb_wf k S.
Hypothesis Hc : 0 < c < 8 * cbKeysPressedLen k.
Hypothesis Hb : (pKeysPressed k)⟦c / 8⟧ = Some byte.

Lemma key_byte_ok : byte_ok byte.
Proof. exact (zlookup_Forall _ _ _ _ (kw_bytes _ _ W) Hb). Qed.

Lemma key_size_bound : (size S < 257)%nat.
Proof.
  assert (H : (length (elements S) <= length (seqZ 0 256))%nat).
  { apply submseteq_length, NoDup_submseteq; [apply NoDup_elements|].
    intros x Hx. apply elem_of_elements, (kw_bits _ _ W), key_bit_range in Hx.
    pose proof (kw_len _ _ W). pose proof (kw_small _ _ W). apply elem_of_seqZ. lia. }
  rewrite length_seqZ in H. change (length (elements S)) with (size S) in H. lia.
Qed.

Lemma press_event_ok : c ∉ S ->
  let k1 := k <| nKeysPressed := u64 (nKeysPressed k + 1) |>
              <| pKeysPressed := zinsert (c / 8) (Z.lor byte (u8 (Z.shiftl 1 (c mod 8)))) (pKeysPressed k) |> in
  exists r, (if u64 (nKeysPressed k + 1) <=? 6 then put_slot (pHidReport k) 0 c
             else if u64 (nKeysPressed k + 1) =? 7 then fill_slots 6 3 1 (pHidReport k)
             else Ok (pHidReport k)) = Ok r /\
    kb_wf (k1 <| pHidReport := r |>) ({[c]} ∪ S) /\ same_class k (k1 <| pHidReport := r |>).
Proof.
  intros Hni k1. destruct (press_size S c Hni) as [Hs _]. pose proof key_size_bound.
  destruct (press_report k S c (kw_report _ _ W) (kw_shows _ _ W) Hni) as (r & E & L & T & Sh).
  assert (Hn : u64 (nKeysPressed k + 1) = Z.of_nat (size S) + 1)
    by (rewrite (kw_count _ _ W), u64_small; lia).
  rewrite Hn. exists r. split; [done|]. split; [|by split_and!].
  destruct (kb_wf_update k (k1 <| pHidReport := r |>) S ({[c]} ∪ S) r c
    (Z.lor byte (u8 (Z.shiftl 1 (c mod 8)))) true byte) as (_ & _ & _ & Hwf); try done; try lia.
  - apply byte_ok_lor, key_byte_ok.
  - intros j Hj. rewrite Z.lor_spec, mask_bit by done.
    by destruct (c mod 8 =? j); rewrite ?orb_true_r, ?orb_false_r.
  - intros x. destruct (Z.eqb_spec x c); set_solver.
  - apply Hwf; try done. cbn. lia.
Qed.

Lemma release_event_ok : c ∈ S ->
  let k1 := k <| nKeysPressed := u64 (nKeysPressed k - 1) |>
              <| pKeysPressed := zinsert (c / 8)
                   (Z.land byte (u8 (Z.lnot (u8 (Z.shiftl 1 (c mod 8)))))) (pKeysPressed k) |> in
  exists r, (if u64 (nKeysPressed k - 1) <? 6 then put_slot (pHidReport k) c 0
             else if u64 (nKeysPressed k - 1) =? 6
             then refill (Z.to_nat (cbKeysPressedLen k1)) 0 0 (pKeysPressed k1) (pHidReport k)
             else Ok (pHidReport k)) = Ok r /\
    kb_wf (k1 <| pHidReport := r |>) (S ∖ {[c]}) /\ same_class k (k1 <| pHidReport := r |>).
Proof.
  intros Hi k1. destruct (release_size S c Hi) as [Hs _]. pose proof key_size_bound.
  assert (Hset : forall x, x ∈ S ∖ {[c]} <-> (if x =? c then false = true else x ∈ S))
    by (intros x; destruct (Z.eqb_spec x c); set_solver).
  assert (Hbit : forall j, 0 <= j < 8 ->
    Z.testbit (Z.land byte (u8 (Z.lnot (u8 (Z.shiftl 1 (c mod 8)))))) j =
    if c mod 8 =? j then false else Z.testbit byte j).
  { intros j Hj. rewrite Z.land_spec, unmask_bit by done.
    destruct (c mod 8 =? j); cbn; by rewrite ?andb_true_r, ?andb_false_r. }
  pose proof (fun k' r => kb_wf_update k k' S (S ∖ {[c]}) r c _ false byte W ltac:(lia) Hb
    (byte_ok_land _ _ key_byte_ok) Hbit Hset) as U.
  destruct (U k1 [] eq_refl eq_refl) as (U1 & U2 & U3 & _). pose proof (kw_small _ _ W).
  destruct (release_report k k1 S c (kw_report _ _ W) (kw_shows _ _ W) Hi eq_refl U3
    ltac:(cbn; lia) U2 U1) as (r & E & L & T & Sh).
  assert (Hn : u64 (nKeysPressed k - 1) = Z.of_nat (size S) - 1)
    by (rewrite (kw_count _ _ W), u64_small; lia).
  rewrite Hn. exists r. split; [done|]. split; [|by split_and!].
  destruct (U (k1 <| pHidReport := r |>) r) as (_ & _ & _ & Hwf); [done..|].
  apply Hwf; try done. cbn. lia.
Qed.
End key.

(** Every key code of the bitmap is handled without a fault or a failed
    assertion, and the report shows the new set of pressed keys. *)
Lemma key_event_ok k S c v :
  kb_wf k S -> 0 < c < 8 * cbKeysPressedLen k ->
  exists k', HIDKeyboardEventKeyToReportKey k c v = Ok k' /\ kb_wf k' (key_set S c v) /\
    same_class k k'.
Proof.
  intros W Hc. destruct (zlookup_in_range (pKeysPressed k) (c / 8)) as [byte Hb].
  { rewrite (kw_len _ _ W). split; [apply Z.div_pos; lia|]. apply Z.div_lt_upper_bound; lia. }
  assert (Hin : Z.testbit byte (c mod 8) = true <-> c ∈ S).
  { rewrite <- (kw_bits _ _ W). unfold key_bit. by rewrite Hb. }
  unfold HIDKeyboardEventKeyToReportKey, key_set. rewrite (zget_ok _ _ _ Hb).
  cbn [mbind res_bind]. rewrite mask_test.
  unfold HID_KEYBOARD_KEY_SLOTS, HID_USAGE_KEYBOARD_ROLLOVER, KEY_ARRAY, HID_REPORT_DATA_OFFSET.
  change (6 + 1) with 7. change (Z.to_nat 6) with 6%nat. change (1 + 2) with 3.
  destruct (truth v), (Z.testbit byte (c mod 8)) eqn:Et; cbn [negb].
  - exists k. split; [done|]. assert (c ∈ S) by (by apply Hin).
    replace ({[c]} ∪ S) with S by (apply leibniz_equiv; set_solver). by split_and!.
  - destruct (press_event_ok k S c byte W Hc Hb) as (r & E & Hwf & Hsame); [rewrite <- Hin; done|].
    eexists. split; [|by split]. cbv zeta. cbn [pHidReport set_field].
    destruct (_ <=? 6); [by rewrite E|]. destruct (_ =? 7); [by rewrite E|].
    injection E as <-. by destruct k.
  - destruct (release_event_ok k S c byte W Hc Hb) as (r & E & Hwf & Hsame); [by apply Hin|].
    eexists. split; [|by split]. cbv zeta in E |- *. cbn [pHidReport set_field].
    destruct (_ <? 6); [by rewrite E|]. destruct (_ =? 6); [by rewrite E|].
    injection E as <-. by destruct k.
  - exists k. split; [done|]. assert (c ∉ S) by (rewrite <- Hin; done).
    replace (S ∖ {[c]}) with S by (apply leibniz_equiv; set_solver). by split_and!.
Qed.

(** ** The keyboard as a state machine *)

(** The modifier byte [m] shows the set [M] of modifier usages. *)
Definition shows_mods (m : Z) (M : gset Z) : Prop :=
  byte_ok m /\ forall j, 0 <= j < 8 -> Z.testbit m j = bool_decide (0xE0 + j ∈ M).

Record kb_shows (k : INPUT_CLASS_KEYBOARD) (M S : gset Z) : Prop := {
  ks_keys : kb_wf k S;
  ks_mods : exists m, (pHidReport k)⟦1⟧ = Some m /\ shows_mods m M }.

(** The abstract keyboard: the pressed modifiers and the pressed keys. *)
Definition abs_event (MS : gset Z * gset Z) (ev : VIRTIO_INPUT_EVENT) : gset Z * gset Z :=
  if ev_type ev =? EV_KEY then
    match HIDKeyboardEventCodeToUsageCode (ev_code ev) with
    | Ok u => if (u >=? 0xE0) && (u <=? 0xE7) then (key_set MS.1 u (ev_value ev), MS.2)
              else if u =? 0 then MS else (MS.1, key_set MS.2 u (ev_value ev))
    | Fault _ => MS
    end
  else MS.

(** Events the class can translate: their usage is none, a modifier, or a key
    that the bitmap of pressed keys has room for. *)
Definition event_fits (len : Z) (ev : VIRTIO_INPUT_EVENT) : Prop :=
  0 <= ev_code ev /\
  forall u, HIDKeyboardEventCodeToUsageCode (ev_code ev) = Ok u ->
    0 <= u < 8 * len \/ 0xE0 <= u <= 0xE7.

Fixpoint run_events (k : INPUT_CLASS_KEYBOARD) (evs : list VIRTIO_INPUT_EVENT)
    : res INPUT_CLASS_KEYBOARD :=
  match evs with
  | [] => Ok k
  | ev :: evs => k ← HIDKeyboardEventToReport k ev; run_events k evs
  end.

Lemma usage_total c : 0 <= c -> exists u, HIDKeyboardEventCodeToUsageCode c = Ok u.
Proof.
  intros Hc. unfold HIDKeyboardEventCodeToUsageCode.
  destruct (Z.ltb_spec c (zlen ReportCodeToUsageCodeTable)); [|eauto].
  destruct (zlookup_in_range ReportCodeToUsageCodeTable c) as [u Hu]; [lia|].
  rewrite (zget_ok _ _ _ Hu). eauto.
Qed.

(** Writing one of the first bytes of the report keeps the key array. *)
Lemma head_write k S i x r' :
  kb_wf k S -> 0 <= i < 3 -> r' = zinsert i x (pHidReport k) -> kb_wf (k <| pHidReport := r' |>) S.
Proof.
  intros W Hi ->. constructor; cbn; try apply W.
  - rewrite zlen_zinsert. apply W.
  - unfold key_array. cbn. unfold zinsert. replace (0 <=? i) with true by lia.
    rewrite drop_insert_lt by lia. apply W.
Qed.

Lemma take3_lookup {A} (l l' : list A) : take 3 l = take 3 l' -> l⟦0⟧ = l'⟦0⟧ /\ l⟦1⟧ = l'⟦1⟧.
Proof.
  intros E. change (l⟦1⟧) with (l !! 1%nat). change (l'⟦1⟧) with (l' !! 1%nat). change (l⟦0⟧) with (l !! 0%nat). change (l'⟦0⟧) with (l' !! 0%nat).
  rewrite <- (lookup_take_lt l 3 0), <- (lookup_take_lt l' 3 0), <- (lookup_take_lt l 3 1), <- (lookup_take_lt l' 3 1), E by lia. done.
Qed.

Lemma mods_event m M u v : shows_mods m M -> 0xE0 <= u <= 0xE7 ->
  shows_mods (if truth v then Z.lor m (u8 (Z.shiftl 1 (u - 0xE0)))
              else Z.land m (u8 (Z.lnot (u8 (Z.shiftl 1 (u - 0xE0)))))) (key_set M u v).
Proof.
  intros [Hb Hm] Hu. assert (E : u - 0xE0 = u mod 8) by (Z.to_euclidean_division_equations; lia).
  rewrite E. unfold key_set. split.
  - destruct (truth v); [by apply byte_ok_lor|by apply byte_ok_land].
  - intros j Hj. assert (Ej : (u mod 8 =? j) = bool_decide (0xE0 + j = u))
      by (rewrite <- E; destruct (Z.eqb_spec (u - 0xE0) j); case_bool_decide; (done || lia)).
    specialize (Hm j Hj). destruct (truth v).
    + rewrite Z.lor_spec, mask_bit, Hm, Ej by done. repeat case_bool_decide; set_solver.
    + rewrite Z.land_spec, unmask_bit, Hm, Ej by done. repeat case_bool_decide; set_solver.
Qed.

Lemma event_ok k M S ev :
  kb_shows k M S -> event_fits (cbKeysPressedLen k) ev ->
  exists k', HIDKeyboardEventToReport k ev = Ok k' /\
    kb_shows k' (abs_event (M, S) ev).1 (abs_event (M, S) ev).2 /\
    cbKeysPressedLen k' = cbKeysPressedLen k /\ uReportID k' = uReportID k /\
    (pHidReport k')⟦HID_REPORT_ID_OFFSET⟧ = Some (uReportID k).
Proof.
  intros [W (m & Hm & HM)] [Hc Hfit]. pose proof (kw_report _ _ W) as H9.
  pose proof (kw_small _ _ W) as Hsm.
  unfold HIDKeyboardEventToReport, HID_REPORT_ID_OFFSET, HID_REPORT_DATA_OFFSET.
  rewrite zset_ok by lia. cbn [mbind res_bind].
  set (k0 := k <| pHidReport := zinsert 0 (uReportID k) (pHidReport k) |>).
  assert (W0 : kb_wf k0 S) by (by eapply (head_write k S 0)).
  assert (Hm0 : (pHidReport k0)⟦1⟧ = Some m)
    by (change (pHidReport k0) with (zinsert 0 (uReportID k) (pHidReport k)); by rewrite zlookup_zinsert_ne).
  assert (Hi0 : (pHidReport k0)⟦0⟧ = Some (uReportID k)) by (apply zlookup_zinsert_eq; lia).
  unfold abs_event. destruct (ev_type ev =? EV_KEY); [|exists k0; split; [done|]; split; [|done]; by split; eauto].
  destruct (usage_total (ev_code ev) Hc) as [u Hu]. rewrite Hu. cbn [mbind res_bind fst snd].
  specialize (Hfit u Hu).
  destruct ((u >=? 0xE0) && (u <=? 0xE7)) eqn:Eu.
  - rewrite (zget_ok _ _ _ Hm0). cbn [mbind res_bind].
    rewrite zset_ok by (rewrite (kw_report _ _ W0); lia). cbn [mbind res_bind].
    eexists. split; [done|]. split; [|split; [done|]; split; [done|]; rewrite <- Hi0; by apply zlookup_zinsert_ne].
    cbn [fst snd]. split.
    + pose proof (fun x => head_write k0 S 1 x _ W0 ltac:(lia) eq_refl) as W1.
      by constructor; try apply W1.
    + eexists. split; [apply zlookup_zinsert_eq; rewrite (kw_report _ _ W0); lia|].
      apply mods_event; [done|]. lia.
  - destruct (Z.eqb_spec u 0) as [->|Hu0]; cbn [negb].
    + exists k0. split; [done|]. split; [|done]. by split; eauto.
    + rewrite u8_small by lia.
      destruct (key_event_ok k0 S u (ev_value ev) W0) as (k' & Ek & W' & Hh & Hid & Hl & _); [cbn; lia|].
      rewrite Ek. cbn [mbind res_bind]. eexists. split; [done|].
      split; [|split; [done|]; split; [exact Hid|]; cbn [pHidReport set_field]; rewrite <- Hi0; by apply take3_lookup]. split.
      * by constructor; try apply W'.
      * exists m. split; [|done]. cbn [pHidReport set_field]. rewrite <- Hm0. by apply take3_lookup.
Qed.

(** Claim C15. The keyboard report refines the abstract keyboard: over any
    sequence of events whose keys the bitmap has room for, no event faults or
    fails an assertion, the modifier byte shows exactly the modifiers held, and
    the six key slots show exactly the set of held keys (each once, zeros in the
    rest) or, when more than six are held, the roll-over code in every slot,
    whatever presses, repeats and releases led there. *)
Theorem keyboard_report_refines k M S evs :
  kb_shows k M S -> Forall (event_fits (cbKeysPressedLen k)) evs ->
  exists k', run_events k evs = Ok k' /\
    kb_shows k' (foldl abs_event (M, S) evs).1 (foldl abs_event (M, S) evs).2.
Proof.
  revert k M S. induction evs as [|ev evs IH]; intros k M S Hk Hall; cbn [run_events foldl].
  - by exists k.
  - apply list.Forall_cons in Hall as [Hev Hall].
    destruct (event_ok k M S ev Hk Hev) as (k' & E & Hk' & Hl & _). rewrite E. cbn [mbind res_bind].
    destruct (abs_event (M, S) ev) as [M' S'] eqn:Ea. cbn [fst snd] in Hk'.
    apply IH; [done|]. by rewrite Hl.
Qed.

(** [HIDKeyboardEventToReport] does not look at the usage page: a key of
    the consumer page is entered under the low byte of its usage.  KEY_POWER
    therefore acts exactly as KEY_RIGHTBRACE in every state, and KEY_MUTE writes
    byte 28 of the bitmap of pressed keys, out of bounds of any keyboard whose
    highest key is below 0xE0. *)
Theorem consumer_keys_hit_keyboard k v :
  HIDKeyboardEventToReport k (mk_ev EV_KEY 116 v) =
    HIDKeyboardEventToReport k (mk_ev EV_KEY 27 v) /\
  (zlen (pHidReport k) = 9 -> zlen (pKeysPressed k) <= 28 ->
   HIDKeyboardEventToReport k (mk_ev EV_KEY 113 v) = Fault OutOfBounds).
Proof.
  split; [reflexivity|]. intros H9 Hl. unfold HIDKeyboardEventToReport, HID_REPORT_ID_OFFSET.
  rewrite zset_ok by lia. cbn [mbind res_bind ev_type ev_code ev_value].
  change (EV_KEY =? EV_KEY) with true. cbv iota.
  change (HIDKeyboardEventCodeToUsageCode 113) with (@Ok Z (consumer 0xE2)). cbn [mbind res_bind].
  change ((consumer 0xE2 >=? 0xE0) && (consumer 0xE2 <=? 0xE7)) with false.
  change (negb (consumer 0xE2 =? 0)) with true. cbv iota.
  change (u8 (consumer 0xE2)) with 226. unfold HIDKeyboardEventKeyToReportKey.
  change (226 / 8) with 28. unfold zget. cbn [pKeysPressed set_field].
  destruct ((pKeysPressed k)⟦28⟧) eqn:E; [|done]. apply zlookup_lt in E. lia.
Qed.
