(* ===== verification/VioInputLed.v ===== *)
(** * Correctness of the virtio-input LED path

    [HIDKeyboardReportToEvent] is shown equal to a reference that compares the two
    reports bit by bit and sends one event for each known LED that changed. *)

From Stdlib Require Import ZArith Lia.
From stdpp Require Import base list numbers option sets gmap.
From S2P Require Import Prelude.
From S2P Require Import VioInput.
From S2P Require Import VioInputSpec.

(** The bit of LED usage [u] (1-based) in an output report. *)
Definition led_bit (report : list Z) (u : Z) : bool :=
  key_bit (drop 1 report) (u - 1).

(** The change that usage [u] asks for: the event code and the new value. *)
Definition led_change (last report : list Z) (u : Z) : option (Z * Z) :=
  let l := HIDLEDUsageCodeToEventCode u in
  if (l =? 0xFF) || Bool.eqb (led_bit last u) (led_bit report u) then None
  else Some (l, b2z (led_bit report u)).

(** The changed LEDs of an output report of [cb] bytes, by usage. *)
Definition led_changes (last report : list Z) (cb : Z) : list (Z * Z) :=
  omap (led_change last report) (seqZ 1 (8 * (cb - 1))).

Section led.
Context {E : Type} (I : input_env E).

(** Send the changes in order, the request with the last; stop at a failure. *)
Fixpoint send_leds (e : E) (cs : list (Z * Z)) (Request : Z) : Z * E :=
  match cs with
  | [] => (STATUS_SUCCESS, e)
  | [(l, v)] => HIDKeyboardSendStatus I e EV_LED l v (Some Request)
  | (l, v) :: cs =>
      let '(status, e) := HIDKeyboardSendStatus I e EV_LED l v None in
      if NT_SUCCESS status then send_leds e cs Request else (status, e)
  end.

(** The loops on a list of changes. *)
Fixpoint pend (cs : list (Z * Z)) (s : @led_state E) : (Z * E) + @led_state E :=
  match cs with
  | [] => inr s
  | (l, v) :: cs =>
      if negb (pending s =? 0xFF) then
        let '(status, e) := HIDKeyboardSendStatus I (led_env s) EV_LED (pending s) (pend_value s) None in
        if negb (NT_SUCCESS status) then inl (status, e) else pend cs (mk_led l v status e)
      else pend cs (mk_led l v (led_status s) (led_env s))
  end.

Lemma pend_app cs1 : forall cs2 s,
  pend (cs1 ++ cs2) s = match pend cs1 s with inl r => inl r | inr s' => pend cs2 s' end.
Proof.
  induction cs1 as [|[l v] cs1 IH]; intros cs2 s; cbn [app pend]; [done|].
  destruct (pending s =? 0xFF); cbn [negb]; [apply IH|].
  destruct (HIDKeyboardSendStatus _ _ _ _ _ _) as [st e].
  destruct (NT_SUCCESS st); cbn [negb]; [apply IH|done].
Qed.

(** The change that bit [v] of byte [i] asks for, as the inner loop computes it. *)
Definition bit_change (i byte v : Z) : option (Z * Z) :=
  let l := HIDLEDUsageCodeToEventCode (u32 (u32 (v + 8 * u32 (i - HID_REPORT_DATA_OFFSET)) + 1)) in
  if l =? 0xFF then None else Some (l, b2z (truth (Z.land byte (Z.shiftl 1 v)))).

Lemma led_bits_pend bits i byte : forall s,
  led_bits I bits i byte s = pend (omap (bit_change i byte) bits) s.
Proof.
  induction bits as [|v bits IH]; intros s; cbn [led_bits omap list_omap]; [done|].
  unfold bit_change at 1. cbv zeta.
  set (l := HIDLEDUsageCodeToEventCode _). destruct (l =? 0xFF); cbn [negb]; [apply IH|].
  cbn [pend]. destruct (pending s =? 0xFF); cbn [negb]; [apply IH|].
  destruct (HIDKeyboardSendStatus _ _ _ _ _ _) as [st e].
  destruct (NT_SUCCESS st); cbn [negb]; [apply IH|done].
Qed.

Lemma omap_filter {A B} (p : A -> bool) (f : A -> option B) (l : list A) :
  omap f (List.filter p l) = omap (fun x => if p x then f x else None) l.
Proof.
  induction l as [|x l IH]; [done|]. cbn. destruct (p x); cbn; [|done].
  destruct (f x); by rewrite IH.
Qed.

Lemma omap_fmap {A B C} (g : A -> B) (f : B -> option C) (l : list A) :
  omap f (g <$> l) = omap (fun x => f (g x)) l.
Proof. induction l as [|x l IH]; [done|]. cbn. destruct (f (g x)); by rewrite IH. Qed.

Lemma omap_ext_in {A B} (f g : A -> option B) (l : list A) :
  (forall x, x ∈ l -> f x = g x) -> omap f l = omap g l.
Proof.
  induction l as [|x l IH]; intros H; [done|]. cbn. rewrite (H x) by constructor.
  rewrite IH; [done|]. intros y Hy. apply H. by constructor.
Qed.

Lemma byte_ok_lxor a b : byte_ok a -> byte_ok b -> byte_ok (Z.lxor a b).
Proof.
  unfold byte_ok. intros Ha Hb. destruct (decide (Z.lxor a b = 0)) as [->|Hn]; [lia|].
  assert (0 <= Z.lxor a b) by (apply Z.lxor_nonneg; lia). split; [done|].
  change 256 with (2 ^ 8). apply Z.log2_lt_pow2; [lia|].
  pose proof (Z.log2_lxor a b ltac:(lia) ltac:(lia)).
  assert (Z.log2 a < 8) by (destruct (decide (a = 0)) as [->|]; [done|apply Z.log2_lt_pow2; lia]).
  assert (Z.log2 b < 8) by (destruct (decide (b = 0)) as [->|]; [done|apply Z.log2_lt_pow2; lia]).
  lia.
Qed.

(** One byte: the inner loop makes the changes of its eight usages. *)
Lemma byte_changes last report i old new :
  1 <= i -> i < 2 ^ 28 -> last⟦i⟧ = Some old -> report⟦i⟧ = Some new -> byte_ok old -> byte_ok new ->
  omap (bit_change i new) (decode_bits (Z.lxor old new)) =
  omap (led_change last report) (seqZ (8 * (i - 1) + 1) 8).
Proof.
  intros Hi Hi2 Ho Hn Bo Bn. rewrite decode_bits_eq, omap_filter by (by apply byte_ok_lxor).
  replace (seqZ (8 * (i - 1) + 1) 8) with ((fun v => (8 * (i - 1) + 1) + v) <$> seqZ 0 8)
    by (rewrite (fmap_add_seqZ (8 * (i - 1) + 1)); f_equal; lia).
  rewrite omap_fmap. apply omap_ext_in. intros v Hv. apply elem_of_seqZ in Hv.
  assert (Hbit : forall r b, r⟦i⟧ = Some b -> led_bit r (8 * (i - 1) + 1 + v) = Z.testbit b v).
  { intros r b Hr. unfold led_bit, key_bit.
    replace ((8 * (i - 1) + 1 + v - 1) / 8) with (i - 1) by (Z.to_euclidean_division_equations; lia).
    replace ((8 * (i - 1) + 1 + v - 1) mod 8) with v by (Z.to_euclidean_division_equations; lia).
    replace ((drop 1 r)⟦i - 1⟧) with (Some b); [done|]. rewrite <- Hr. unfold zlookup.
    destruct (Z.leb_spec 0 i), (Z.leb_spec 0 (i - 1)); try lia. rewrite lookup_drop. f_equal. lia. }
  cbn beta. unfold led_change, bit_change, HID_REPORT_DATA_OFFSET.
  rewrite (Hbit last old Ho), (Hbit report new Hn), Z.lxor_spec.
  rewrite (u32_small (i - 1)), (u32_small (v + _)), u32_small by lia.
  replace (v + 8 * (i - 1) + 1) with (8 * (i - 1) + 1 + v) by lia.
  change (Z.shiftl 1 v) with (BIT v). rewrite truth_land_bit by lia.
  by destruct (Z.testbit old v), (Z.testbit new v), (_ =? 255).
Qed.

Lemma led_loop_pend n : forall i last report s,
  1 <= i -> i + Z.of_nat n <= zlen last -> i + Z.of_nat n <= zlen report -> i + Z.of_nat n <= 2 ^ 28 ->
  Forall byte_ok last -> Forall byte_ok report ->
  led_loop I n i last report s =
  Ok (pend (omap (led_change last report) (seqZ (8 * (i - 1) + 1) (8 * Z.of_nat n))) s).
Proof.
  induction n as [|n IH]; intros i last report s Hi Hl Hr Hb Bl Br; cbn [led_loop]; [done|].
  destruct (zlookup_in_range last i) as [old Ho]; [lia|].
  destruct (zlookup_in_range report i) as [new Hn]; [lia|].
  rewrite (zget_ok _ _ _ Ho), (zget_ok _ _ _ Hn). cbn [mbind res_bind].
  rewrite led_bits_pend, (byte_changes last report i old new Hi ltac:(lia) Ho Hn
    (zlookup_Forall _ _ _ _ Bl Ho) (zlookup_Forall _ _ _ _ Br Hn)).
  replace (8 * Z.of_nat (S n)) with (8 + 8 * Z.of_nat n) by lia.
  rewrite seqZ_app, omap_app, pend_app by lia.
  destruct (pend _ s) as [r|s']; [done|]. rewrite IH by (done || lia). do 4 f_equal; lia.
Qed.

Definition known (c : Z * Z) : Prop := c.1 <> 0xFF.

(** Running the loops and the final send from a pending change. *)
Lemma pend_send cs : forall s Request, Forall known cs -> pending s <> 0xFF ->
  match pend cs s with
  | inl r => r
  | inr s' => HIDKeyboardSendStatus I (led_env s') EV_LED (pending s') (pend_value s') (Some Request)
  end = send_leds (led_env s) ((pending s, pend_value s) :: cs) Request /\
  match pend cs s with
  | inl r => NT_SUCCESS r.1 = false
  | inr s' => pending s' <> 0xFF
  end.
Proof.
  induction cs as [|[l v] cs IH]; intros s Request Hk Hp; [done|].
  apply list.Forall_cons in Hk as [Hl Hk]. cbn [pend].
  rewrite (proj2 (Z.eqb_neq _ _) Hp). cbn [negb].
  change (send_leds (led_env s) ((pending s, pend_value s) :: (l, v) :: cs) Request) with
    (let '(status, e) := HIDKeyboardSendStatus I (led_env s) EV_LED (pending s) (pend_value s) None in
     if NT_SUCCESS status then send_leds e ((l, v) :: cs) Request else (status, e)).
  destruct (HIDKeyboardSendStatus _ _ _ _ _ _) as [st e].
  destruct (NT_SUCCESS st) eqn:Es; cbn [negb]; [|done]. by apply (IH (mk_led l v st e)).
Qed.

Lemma led_changes_known last report cb : Forall known (led_changes last report cb).
Proof.
  apply list.Forall_forall. intros [l v] H. apply list_elem_of_omap in H as (u & _ & H).
  unfold led_change in H. unfold known. cbn [fst].
  destruct (Z.eqb_spec (HIDLEDUsageCodeToEventCode u) 0xFF); [done|].
  destruct (Bool.eqb _ _); [done|]. cbn in H. congruence.
Qed.

(** Claim C25. Output reports are turned into LED events exactly: a report that is
    too short or has another id is refused without a change; otherwise one event
    is sent for each known LED whose bit differs from the last saved report, in
    the order of the usages, with the new value, the last of them carrying the
    request; sending stops at the first failure; a report without a change
    completes the request at once; and the report is saved exactly when every
    event was sent. *)
Theorem HIDKeyboardReportToEvent_correct e k Request report id :
  Forall byte_ok (pLastOutputReport k) -> Forall byte_ok report -> report⟦0⟧ = Some id ->
  zlen (pLastOutputReport k) = cbOutputReport k -> cbOutputReport k <= 2 ^ 28 ->
  HIDKeyboardReportToEvent I e k Request report (zlen report) =
  Ok (if zlen report <? cbOutputReport k then (STATUS_BUFFER_TOO_SMALL, k, e)
      else if negb (id =? uReportID k) then (STATUS_INVALID_PARAMETER, k, e)
      else
        let cs := led_changes (pLastOutputReport k) report (cbOutputReport k) in
        let '(status, e') :=
          match cs with
          | [] => (STATUS_SUCCESS, WdfRequestComplete I e Request STATUS_SUCCESS)
          | _ => send_leds e cs Request
          end in
        (status,
         if NT_SUCCESS status
         then k <| pLastOutputReport := take (Z.to_nat (cbOutputReport k)) report |> else k,
         e')).
Proof.
  intros Bl Br Hid Hl Hcb. pose proof (zlen_nonneg (pLastOutputReport k)).
  unfold HIDKeyboardReportToEvent, HID_REPORT_ID_OFFSET, HID_REPORT_DATA_OFFSET, copy_report.
  destruct (Z.ltb_spec (zlen report) (cbOutputReport k)); [done|].
  rewrite (zget_ok _ _ _ Hid). cbn [mbind res_bind].
  destruct (id =? uReportID k); cbn [negb]; [|done].
  assert (Hc : omap (led_change (pLastOutputReport k) report)
    (seqZ (8 * (1 - 1) + 1) (8 * Z.of_nat (Z.to_nat (cbOutputReport k - 1)))) =
    led_changes (pLastOutputReport k) report (cbOutputReport k)).
  { unfold led_changes. destruct (decide (cbOutputReport k = 0)) as [->|]; [done|].
    do 2 f_equal; lia. }
  destruct (decide (cbOutputReport k = 0)) as [E0|E0].
  { rewrite E0. unfold led_changes. cbn. destruct k; cbn in *. done. }
  rewrite led_loop_pend by (done || lia). rewrite Hc. cbn [mbind res_bind]. clear Hc.
  pose proof (led_changes_known (pLastOutputReport k) report (cbOutputReport k)) as Hk.
  destruct (led_changes _ _ _) as [|[l v] cs]; [done|].
  apply list.Forall_cons in Hk as [Hv Hk]. cbv zeta.
  change (pend ((l, v) :: cs) (mk_led 0xFF 0 STATUS_SUCCESS e)) with
    (pend cs (mk_led l v STATUS_SUCCESS e)).
  destruct (pend_send cs (mk_led l v STATUS_SUCCESS e) Request Hk Hv) as [Es Ep].
  cbn [led_env pending pend_value] in Es. rewrite <- Es.
  destruct (pend cs _) as [[st e']|s'].
  - cbn in Ep. by rewrite Ep.
  - rewrite (proj2 (Z.eqb_neq _ _) Ep). cbn [negb].
    by destruct (HIDKeyboardSendStatus _ _ _ _ _ _) as [st e'].
Qed.
End led.

(** The two LED tables are inverse to each other on the LEDs that the
    driver knows (an event code with a
    usage, a usage with an event code), in both directions. *)
Theorem led_codes_roundtrip c u :
  (HIDLEDEventCodeToUsageCode c <> 0 ->
   HIDLEDUsageCodeToEventCode (HIDLEDEventCodeToUsageCode c) = c) /\
  (HIDLEDUsageCodeToEventCode u <> 0xFF ->
   HIDLEDEventCodeToUsageCode (HIDLEDUsageCodeToEventCode u) = u).
Proof.
  split.
  - unfold HIDLEDEventCodeToUsageCode. intros H. by repeat case_match.
  - unfold HIDLEDUsageCodeToEventCode. intros H. by repeat case_match.
Qed.
