(* ===== verification/VioInputProbe.v ===== *)
(** * Correctness of the report descriptor and of the keyboard probe

    The growing array keeps its contents and doubles in bounds, the encoded items
    parse back, and the probe registers a keyboard for which every advertised key
    fits. *)

From Stdlib Require Import ZArith Lia.
From stdpp Require Import base list numbers option sets gmap.
From S2P Require Import Prelude.
From S2P Require Import VioInput.
From S2P Require Import VioInputSpec.

(** ** The dynamic array *)

(** The contents; [None] once an allocation has failed. *)
Definition contents (a : DYNAMIC_ARRAY) : option (list Z) :=
  match Ptr a with PtrNull => Some [] | PtrFailed => None | PtrBuf bytes => Some bytes end.

(** A buffer has its [Size] bytes within its non-zero capacity; an array without
    a buffer has the size 0. *)
Definition array_ok (a : DYNAMIC_ARRAY) : Prop :=
  match Ptr a with
  | PtrNull => Size a = 0
  | PtrFailed => 0 <= Size a
  | PtrBuf bytes => zlen bytes = Size a /\ Size a <= MaxSize a /\ 0 < MaxSize a
  end.

(** [a'] is [a] after appending [data], unless an allocation failed. *)
Definition appended (a a' : DYNAMIC_ARRAY) (data : list Z) : Prop :=
  array_ok a' /\ Size a' <= Size a + zlen data /\
  (contents a' = None \/ exists bytes, contents a = Some bytes /\ contents a' = Some (bytes ++ data)).

Lemma array_ok_size a : array_ok a -> 0 <= Size a.
Proof.
  unfold array_ok. destruct (Ptr a) as [| |bytes]; [lia..|]. intros (<- & _). apply zlen_nonneg.
Qed.

(** The doubling loop ends with a capacity that is enough. *)
Lemma grow_ok n : forall c max, 0 < max -> c <= 2 ^ 63 -> c <= max * 2 ^ Z.of_nat n ->
  exists m, grow n c max = Ok m /\ c <= m /\ max <= m.
Proof.
  induction n as [|n IH]; intros c max Hm Hc Hn; cbn [grow].
  - change (2 ^ Z.of_nat 0) with 1 in Hn. destruct (Z.gtb_spec c max); [lia|]. exists max. split; [done|lia].
  - rewrite Nat2Z.inj_succ, Z.pow_succ_r in Hn by lia.
    destruct (Z.gtb_spec c max); [|exists max; split; [done|lia]]. rewrite u64_small by lia.
    destruct (IH c (max * 2)) as (m & E & H1 & H2); [lia|lia|lia|]. exists m. split; [done|lia].
Qed.

Section array.
Context {E : Type} (I : input_env E).

Lemma reserve_ok e a c :
  array_ok a -> 0 < c <= 2 ^ 63 ->
  exists ok a' e', DynamicArrayReserve I e a c = Ok (ok, a', e') /\ array_ok a' /\ Size a' = Size a /\
    if (ok : bool) then contents a <> None /\ Ptr a' <> PtrNull /\ contents a' = contents a /\ c <= MaxSize a'
    else contents a' = None.
Proof.
  unfold array_ok, DynamicArrayReserve, contents. intros Hok Hc.
  destruct a as [[| |bytes] sz mx]; cbn -[grow] in Hok |- *.
  - subst sz. destruct (ExAllocatePool I e c) as [[|] e1]; cbn.
    + destruct (Z.gtb_spec c c); [lia|]. do 3 eexists. split; [done|]. cbn. change (zlen (@nil Z)) with 0.
      split_and!; (done || lia).
    + do 3 eexists. split; [done|]. done.
  - do 3 eexists. split; [done|]. done.
  - destruct (Z.gtb_spec c mx).
    + destruct (grow_ok 64 c mx) as (m & -> & H1 & H2); [lia|lia| |].
      { assert (1 * 2 ^ 64 <= mx * 2 ^ 64) by (apply Z.mul_le_mono_nonneg_r; lia).
        change (2 ^ Z.of_nat 64) with (2 ^ 64). lia. }
      cbn [mbind res_bind]. pose proof (zlen_nonneg bytes).
      destruct (ExAllocatePool I e m) as [[|] e1]; do 3 eexists; (split; [done|]); cbn;
        split_and!; (done || lia).
    + do 3 eexists. split; [done|]. split_and!; (done || lia).
Qed.

Lemma append_ok e a data :
  array_ok a -> 0 < zlen data -> Size a + zlen data <= 2 ^ 63 ->
  exists ok a' e', DynamicArrayAppend I e a data = Ok (ok, a', e') /\ appended a a' data /\
    (ok = true <-> contents a' <> None).
Proof.
  intros Hok Hd Hs. pose proof (array_ok_size a Hok). unfold DynamicArrayAppend.
  rewrite u64_small by lia.
  destruct (reserve_ok e a (Size a + zlen data) Hok ltac:(lia)) as (ok & a' & e' & -> & Ok' & Sz & Hr).
  cbn [mbind res_bind]. destruct ok.
  - destruct Hr as (Hs' & Hn & Hc & Hm). unfold array_ok, contents in Ok', Hc.
    destruct (Ptr a') as [| |bytes] eqn:Ep; [done|by unfold contents in *; destruct (Ptr a)|].
    replace (Size a' + zlen data <=? MaxSize a') with true by lia.
    do 3 eexists. split; [done|]. unfold appended, array_ok, contents. cbn.
    rewrite zlen_app. split_and!; try lia; [|done].
    right. exists bytes. destruct (Ptr a); by rewrite ?Hc.
  - do 3 eexists. split; [done|]. unfold appended. rewrite Hr. split_and!; (done || lia || by left).
Qed.
End array.

Lemma appended_trans a a1 a2 d1 d2 :
  appended a a1 d1 -> appended a1 a2 d2 -> appended a a2 (d1 ++ d2).
Proof.
  intros (O1 & S1 & H1) (O2 & S2 & H2). unfold appended. rewrite zlen_app.
  split; [done|]. split; [lia|]. destruct H2 as [H2|(b2 & E2 & H2)]; [by left|].
  destruct H1 as [H1|(b1 & E1 & H1)]; [congruence|]. right. exists b1. split; [done|].
  rewrite H1 in E2. injection E2 as <-. by rewrite app_assoc.
Qed.

Lemma appended_nil a : array_ok a -> appended a a [].
Proof.
  intros Hok. unfold appended. rewrite zlen_nil. split; [done|]. split; [lia|].
  destruct (contents a) as [b|] eqn:Ec; [right|by left]. exists b. by rewrite app_nil_r.
Qed.

(** ** Items *)

(** A short item: the prefix byte and its data. *)
Definition encode_item (item : Z * Z) : list Z :=
  let '(tag, value) := item in
  if (-128 <=? value) && (value <=? 127) then Z.lor tag 1 :: le_bytes 1 value
  else if (-32768 <=? value) && (value <=? 32767) then Z.lor tag 2 :: le_bytes 2 value
  else Z.lor tag 3 :: le_bytes 4 value.

Definition encode_items (items : list (Z * Z)) : list Z := items ≫= encode_item.

Definition item_ok (item : Z * Z) : Prop :=
  0 <= item.1 < 256 /\ item.1 mod 4 = 0 /\ - 2 ^ 31 <= item.2 < 2 ^ 31.

Fixpoint le_value (bytes : list Z) : Z :=
  match bytes with [] => 0 | b :: bytes => b + 256 * le_value bytes end.

(** The value of [n] bytes as a signed integer. *)
Definition signed_value (bytes : list Z) : Z :=
  let x := le_value bytes in
  let m := 256 ^ zlen bytes in
  if 2 * x <? m then x else x - m.

(** The parser of short items of the HID specification (6.2.2.2): the two low
    bits of the prefix give the number of data bytes, 0, 1, 2 or 4. *)
Fixpoint parse_items (fuel : nat) (bytes : list Z) : option (list (Z * Z)) :=
  match bytes, fuel with
  | [], _ => Some []
  | _, O => None
  | p :: rest, S fuel =>
      let n := match p mod 4 with 0 => 0%nat | 1 => 1%nat | 2 => 2%nat | _ => 4%nat end in
      if bool_decide (length rest < n)%nat then None
      else
        items ← parse_items fuel (drop n rest);
        Some ((p - p mod 4, if bool_decide (n = 0%nat) then 0 else signed_value (take n rest)) :: items)
  end.

Lemma le_bytes_n n v :
  le_bytes n v = (fun i => u32 v / 2 ^ (8 * i) mod 256) <$> seqZ 0 (Z.of_nat n).
Proof.
  apply list_fmap_ext. intros i x Hx. apply lookup_seqZ in Hx as [-> _].
  change 255 with (2 ^ 8 - 1). rewrite land_pow2_mod, Z.shiftr_div_pow2 by lia. done.
Qed.

Lemma le_value_bytes x n : forall k, 0 <= k ->
  le_value ((fun i => x / 2 ^ (8 * i) mod 256) <$> seqZ k (Z.of_nat n)) =
  (x / 2 ^ (8 * k)) mod 256 ^ Z.of_nat n.
Proof.
  induction n as [|n IH]; intros k Hk.
  - change (256 ^ Z.of_nat 0) with 1. rewrite Z.mod_1_r. done.
  - rewrite seqZ_cons'. cbn [fmap list_fmap le_value].
    change (list_fmap Z Z) with (@fmap list _ Z Z). rewrite IH by lia.
    replace (8 * (k + 1)) with (8 * k + 8) by lia. rewrite Z.pow_add_r by lia.
    rewrite <- Z.div_div by lia. change (2 ^ 8) with 256.
    rewrite Nat2Z.inj_succ, Z.pow_succ_r by lia. rewrite Z.rem_mul_r by lia. lia.
Qed.

Lemma signed_le_bytes n v : (n <= 4)%nat ->
  - 256 ^ Z.of_nat n <= 2 * v < 256 ^ Z.of_nat n -> signed_value (le_bytes n v) = v.
Proof.
  intros Hn Hv. unfold signed_value. rewrite le_bytes_n, le_value_bytes by lia.
  unfold zlen. rewrite length_fmap, length_seqZ, Nat2Z.id.
  change (2 ^ (8 * 0)) with 1. rewrite Z.div_1_r. set (m := 256 ^ Z.of_nat n) in *.
  assert (Hm : 0 < m) by (apply Z.pow_pos_nonneg; lia).
  replace (u32 v mod m) with (v mod m).
  - assert (Hc : v mod m = v \/ v mod m = v + m).
    { destruct (Z.ltb_spec v 0); [right|left; apply Z.mod_small; lia].
      rewrite <- (Z.mod_add v 1) by lia. rewrite Z.mod_small; lia. }
    pose proof (Z.mod_pos_bound v m Hm). destruct (Z.ltb_spec (2 * (v mod m)) m); lia.
  - unfold u32. replace 4294967296 with (m * 256 ^ (4 - Z.of_nat n)).
    + symmetry. apply Z.mod_mod_divide. exists (256 ^ (4 - Z.of_nat n)). lia.
    + unfold m. rewrite <- Z.pow_add_r by lia.
      replace (Z.of_nat n + (4 - Z.of_nat n)) with 4 by lia. done.
Qed.

Lemma prefix_lor tag n : tag mod 4 = 0 -> 0 <= n < 4 -> Z.lor tag n mod 4 = n /\ Z.lor tag n - n = tag.
Proof.
  intros Ht Hn. assert (E : Z.lor tag n = tag + n).
  { pose proof (lor_shiftl_add n (tag / 4) 2 ltac:(lia) ltac:(lia)) as L.
    pose proof (Z.div_mod tag 4 ltac:(lia)) as D. rewrite Z.shiftl_mul_pow2 in L by lia.
    replace (tag / 4 * 2 ^ 2) with tag in L by lia. rewrite Z.lor_comm. lia. }
  rewrite E. split; [|lia]. rewrite Z.add_mod, Ht, Z.add_0_l, Z.mod_mod by lia. by apply Z.mod_small.
Qed.

Lemma length_le_bytes n v : length (le_bytes n v) = n.
Proof. unfold le_bytes. rewrite length_fmap, length_seqZ. lia. Qed.

(** The size code and the number of bytes that the value needs. *)
Lemma encode_item_cases tag value : - 2 ^ 31 <= value < 2 ^ 31 ->
  exists size n, encode_item (tag, value) = Z.lor tag size :: le_bytes n value /\
    In (size, n) [(1, 1%nat); (2, 2%nat); (3, 4%nat)] /\
    - 256 ^ Z.of_nat n <= 2 * value < 256 ^ Z.of_nat n.
Proof.
  intros Hv. unfold encode_item.
  destruct ((-128 <=? value) && (value <=? 127)) eqn:E1.
  { exists 1, 1%nat. split; [done|]. split; [cbn; auto|]. change (256 ^ Z.of_nat 1) with 256. lia. }
  destruct ((-32768 <=? value) && (value <=? 32767)) eqn:E2.
  { exists 2, 2%nat. split; [done|]. split; [cbn; auto|]. change (256 ^ Z.of_nat 2) with 65536. lia. }
  exists 3, 4%nat. split; [done|]. split; [cbn; auto|]. change (256 ^ Z.of_nat 4) with 4294967296. lia.
Qed.

Lemma parse_encode_items items : forall fuel rest parsed, Forall item_ok items ->
  parse_items fuel rest = Some parsed ->
  parse_items (length items + fuel) (encode_items items ++ rest) = Some (items ++ parsed).
Proof.
  induction items as [|[tag value] items IH]; intros fuel rest parsed Hok Hr; [done|].
  apply list.Forall_cons in Hok as [(Ht & Hm & Hv) Hok]. cbn [fst snd] in *.
  destruct (encode_item_cases tag value Hv) as (size & n & Ei & Hs & Hb).
  unfold encode_items. rewrite bind_cons, Ei, <- app_assoc. cbn [app length Nat.add parse_items].
  assert (Hsz : 0 < size < 4 /\ (0 < n <= 4)%nat /\
    match size with 0 => 0%nat | 1 => 1%nat | 2 => 2%nat | _ => 4%nat end = n)
    by (repeat destruct Hs as [[= <- <-]|Hs]; [..|done]; split_and!; (done || lia)).
  destruct Hsz as (Hsz & Hn & Esz). destruct (prefix_lor tag size Hm ltac:(lia)) as [E1 E2].
  rewrite E1, E2, Esz. rewrite bool_decide_false by (rewrite !length_app, length_le_bytes; lia).
  rewrite drop_app_length' by (by rewrite length_le_bytes).
  rewrite take_app_length' by (by rewrite length_le_bytes).
  change (items ≫= encode_item) with (encode_items items). rewrite (IH fuel rest parsed) by done. cbn [mbind option_bind].
  rewrite bool_decide_false by lia. by rewrite signed_le_bytes by (done || lia).
Qed.

Lemma length_encode_item item : item_ok item -> 1 < zlen (encode_item item) <= 5.
Proof.
  destruct item as [tag value]. intros (_ & _ & Hv).
  destruct (encode_item_cases tag value Hv) as (size & n & -> & Hs & _).
  rewrite zlen_cons. unfold zlen. rewrite length_le_bytes.
  repeat destruct Hs as [[= <- <-]|Hs]; [..|done]; lia.
Qed.

Section items.
Context {E : Type} (I : input_env E).

Lemma append1_ok e a tag : array_ok a -> Size a < 2 ^ 62 ->
  exists a' e', HIDAppend1 I e a tag = Ok (a', e') /\ appended a a' [tag].
Proof.
  intros Hok Hs. unfold HIDAppend1.
  destruct (append_ok I e a [tag] Hok) as (ok & a' & e' & -> & Ha & _); [done|change (zlen [tag]) with 1; lia|].
  cbn [mbind res_bind]. eauto.
Qed.

Lemma append2_ok e a tag value : array_ok a -> Size a + 5 < 2 ^ 62 -> item_ok (tag, value) ->
  exists a' e', HIDAppend2 I e a tag value = Ok (a', e') /\ appended a a' (encode_item (tag, value)).
Proof.
  intros Hok Hs Hi. unfold HIDAppend2, encode_item.
  assert (Hn : forall size n, (0 < n <= 4)%nat -> exists a' e',
    ('(a, e) ← HIDAppend1 I e a (Z.lor tag size);
     '(_, a, e) ← DynamicArrayAppend I e a (le_bytes n value); Ok (a, e)) = Ok (a', e') /\
    appended a a' (Z.lor tag size :: le_bytes n value)).
  { intros size n Hn. destruct (append1_ok e a (Z.lor tag size) Hok) as (a1 & e1 & -> & A1); [lia|].
    cbn [mbind res_bind]. pose proof A1 as (O1 & S1 & _). change (zlen [_]) with 1 in S1.
    destruct (append_ok I e1 a1 (le_bytes n value) O1) as (ok & a2 & e2 & -> & A2 & _);
      [unfold zlen; rewrite length_le_bytes; lia..|].
    cbn [mbind res_bind]. do 2 eexists. split; [done|]. by apply (appended_trans _ _ _ [_] _ A1). }
  destruct ((-128 <=? value) && (value <=? 127)); [apply Hn; lia|].
  destruct ((-32768 <=? value) && (value <=? 32767)); apply Hn; lia.
Qed.

Lemma append_items_ok items : forall e a, array_ok a -> Size a + 5 * zlen items < 2 ^ 62 ->
  Forall item_ok items ->
  exists a' e', append_items I e a items = Ok (a', e') /\ appended a a' (encode_items items).
Proof.
  induction items as [|[tag value] items IH]; intros e a Hok Hs Hi; cbn [append_items].
  - do 2 eexists. split; [done|]. by apply appended_nil.
  - apply list.Forall_cons in Hi as [Hi Hr]. rewrite zlen_cons in Hs. pose proof (zlen_nonneg items).
    destruct (append2_ok e a tag value Hok ltac:(lia) Hi) as (a1 & e1 & -> & A1).
    cbn [mbind res_bind]. pose proof A1 as (O1 & S1 & _). pose proof (length_encode_item _ Hi).
    destruct (IH e1 a1 O1 ltac:(lia) Hr) as (a2 & e2 & -> & A2).
    do 2 eexists. split; [done|]. by apply (appended_trans _ _ _ _ _ A1).
Qed.

(** Appending to the descriptor array always ends, never writes outside
    the buffer, and adds exactly the new bytes; when an allocation fails the call
    says so and the array is marked failed, and a failed array stays failed. *)
Theorem DynamicArrayAppend_correct e a data :
  array_ok a -> 0 < zlen data -> Size a + zlen data <= 2 ^ 63 ->
  exists ok a' e', DynamicArrayAppend I e a data = Ok (ok, a', e') /\ array_ok a' /\
    if (ok : bool) then exists bytes, contents a = Some bytes /\ contents a' = Some (bytes ++ data)
    else contents a' = None.
Proof.
  intros Hok Hd Hs. destruct (append_ok I e a data Hok Hd Hs) as (ok & a' & e' & Ea & (O1 & _ & Ha) & Hi).
  exists ok, a', e'. split; [done|]. split; [done|]. destruct ok.
  - destruct Ha as [Ha|Ha]; [|done]. by destruct (proj1 Hi eq_refl).
  - destruct (contents a') eqn:Ec; [|done]. by assert (false = true) by (by apply Hi).
Qed.

(** The descriptor items round trip: a sequence of [HIDAppend2] calls on
    an empty array leaves either a failed array or bytes from which a parser of
    HID short items reads back exactly the tags and the signed values, whatever
    the mixture of one, two and four byte encodings. *)
Theorem HIDAppend2_roundtrip e a items :
  array_ok a -> contents a = Some [] -> 5 * zlen items < 2 ^ 61 -> Forall item_ok items ->
  exists a' e', append_items I e a items = Ok (a', e') /\
    (contents a' = None \/
     exists bytes, contents a' = Some bytes /\ parse_items (length items) bytes = Some items).
Proof.
  intros Hok Hc Hl Hi. assert (Size a = 0).
  { unfold array_ok, contents in *. destruct (Ptr a); [done|done|].
    injection Hc as ->. destruct Hok as (<- & _). done. }
  destruct (append_items_ok items e a Hok ltac:(lia) Hi) as (a' & e' & E' & _ & _ & Ha).
  exists a', e'. split; [done|]. destruct Ha as [Ha|(b & Hb & Ha)]; [by left|right].
  rewrite Hc in Hb. injection Hb as <-. eexists. split; [done|]. cbn [app].
  pose proof (parse_encode_items items 0 [] [] Hi eq_refl) as P.
  by rewrite Nat.add_0_r, !app_nil_r in P.
Qed.
End items.

(** ** The scan of the key bitmap *)

(** An event code that the table gives a usage of the keyboard page. *)
Definition keyboard_code (c : Z) : bool :=
  match HIDKeyboardEventCodeToUsageCode c with
  | Ok u => negb (u =? 0) && (Z.land u KEY_TYPE_MASK =? KEY_TYPE_KEYBOARD)
  | Fault _ => false
  end.

Definition modifier (u : Z) : bool := (0xE0 <=? u) && (u <=? 0xE7).

Lemma table_keyboard_byte u : u ∈ ReportCodeToUsageCodeTable ->
  Z.land u KEY_TYPE_MASK = KEY_TYPE_KEYBOARD -> 0 <= u < 256.
Proof.
  assert (H : forallb (fun u => negb (Z.land u KEY_TYPE_MASK =? KEY_TYPE_KEYBOARD) ||
    ((0 <=? u) && (u <? 256))) ReportCodeToUsageCodeTable = true) by (vm_compute; reflexivity).
  rewrite List.forallb_forall in H. intros Hu Hk. apply list_elem_of_In in Hu. specialize (H u Hu).
  rewrite Hk in H. change (KEY_TYPE_KEYBOARD =? KEY_TYPE_KEYBOARD) with true in H. cbn [negb orb] in H. lia.
Qed.

Lemma usage_byte c u : HIDKeyboardEventCodeToUsageCode c = Ok u ->
  Z.land u KEY_TYPE_MASK = KEY_TYPE_KEYBOARD -> 0 <= u < 256.
Proof.
  unfold HIDKeyboardEventCodeToUsageCode. intros Hu Hk.
  destruct (c <? _); [|injection Hu as <-; lia]. apply table_keyboard_byte; [|done].
  apply zget_ok_inv in Hu. unfold zlookup in Hu. destruct (0 <=? c); [|done].
  by apply list_elem_of_lookup_2 in Hu.
Qed.

Lemma lor_bit_byte non v j : 0 <= v < 8 -> 0 <= j < 8 ->
  Z.testbit (Z.lor non (u8 (Z.shiftl 1 v))) j = Z.testbit non j || (v =? j).
Proof.
  intros Hv Hj. replace v with (v mod 8) at 1 by (apply Z.mod_small; lia).
  rewrite Z.lor_spec, mask_bit, Z.mod_small by lia. done.
Qed.

Lemma elem_of_tail (j v : Z) bits : j <> v -> bool_decide (j ∈ bits) = bool_decide (j ∈ v :: bits).
Proof. intros Hne. apply bool_decide_ext. rewrite elem_of_cons. naive_solver. Qed.

(** The inner loop on bits of byte [i]. *)
Lemma probe_key_bits_ok bits i : forall m g non,
  0 <= i < 256 -> 0 <= m < 256 -> Forall (fun v => 0 <= v < 8) bits ->
  exists m' non', probe_key_bits bits i m g non =
      Ok (m', g || existsb (fun v => keyboard_code (8 * i + v)) bits, non') /\
    m <= m' < 256 /\
    (forall v u, v ∈ bits -> keyboard_code (8 * i + v) = true ->
       HIDKeyboardEventCodeToUsageCode (8 * i + v) = Ok u -> modifier u = false -> u <= m') /\
    (forall j, 0 <= j < 8 -> Z.testbit non' j =
       Z.testbit non j || (bool_decide (j ∈ bits) && negb (keyboard_code (8 * i + j)))).
Proof.
  induction bits as [|v bits IH]; intros m g non Hi Hm Hv; cbn [probe_key_bits existsb].
  - exists m, non. rewrite orb_false_r. split; [done|]. split; [lia|]. split; [by intros v u ?%not_elem_of_nil|].
    intros j Hj. rewrite bool_decide_false by apply not_elem_of_nil. by rewrite orb_false_r.
  - apply list.Forall_cons in Hv as [Hv Hr]. rewrite u16_small by lia.
    replace (v + 8 * i) with (8 * i + v) by lia.
    destruct (usage_total (8 * i + v)) as [u Hu]; [lia|]. rewrite Hu. cbn [mbind res_bind].
    assert (Ek : keyboard_code (8 * i + v) =
      negb (u =? 0) && (Z.land u KEY_TYPE_MASK =? KEY_TYPE_KEYBOARD))
      by (unfold keyboard_code; by rewrite Hu).
    rewrite <- Ek. destruct (keyboard_code (8 * i + v)) eqn:Ekv.
    + symmetry in Ek. apply andb_true_iff in Ek as [_ Ek%Z.eqb_eq].
      pose proof (usage_byte _ _ Hu Ek) as Hb. rewrite u8_small by lia.
      set (m1 := if (u <? 0xE0) || (u >? 0xE7) then Z.max m u else m).
      assert (Hm1 : m <= m1 < 256 /\ (modifier u = false -> u <= m1)).
      { unfold m1, modifier. destruct ((u <? 0xE0) || (u >? 0xE7)) eqn:Eo; lia. }
      destruct (IH m1 true non Hi ltac:(lia) Hr) as (m' & non' & -> & Hm' & Hmax & Hnon).
      exists m', non'. split; [by destruct g|]. split; [lia|]. split.
      * intros v' u' Hv' Hk' Hu' Hmod. apply elem_of_cons in Hv' as [->|Hv'].
        { rewrite Hu in Hu'. injection Hu' as <-. apply Hm1 in Hmod. lia. }
        by eapply Hmax.
      * intros j Hj. rewrite Hnon by done. f_equal.
        destruct (decide (j = v)) as [->|]; [rewrite Ekv, !andb_false_r; done|].
        f_equal. by apply elem_of_tail.
    + destruct (IH m g (Z.lor non (u8 (Z.shiftl 1 v))) Hi Hm Hr) as (m' & non' & -> & Hm' & Hmax & Hnon).
      exists m', non'. split; [done|]. split; [done|]. split.
      * intros v' u' Hv' Hk'. apply elem_of_cons in Hv' as [->|Hv']; [congruence|]. by apply Hmax.
      * intros j Hj. rewrite Hnon, lor_bit_byte by done. rewrite <- orb_assoc. f_equal.
        destruct (Z.eqb_spec v j) as [->|Hne].
        { rewrite Ekv, (bool_decide_true (j ∈ j :: bits)) by constructor. done. }
        cbn [orb]. f_equal. by apply elem_of_tail.
Qed.

Lemma elem_of_decode_bits b v : byte_ok b -> v ∈ decode_bits b <-> 0 <= v < 8 /\ Z.testbit b v = true.
Proof.
  intros Hb. rewrite decode_bits_eq, list_elem_of_In, List.filter_In, <- list_elem_of_In, elem_of_seqZ by done.
  intuition lia.
Qed.

Lemma key_bit_cons b p c : 0 <= c ->
  key_bit (b :: p) c = if c <? 8 then Z.testbit b c else key_bit p (c - 8).
Proof.
  intros Hc. unfold key_bit. destruct (Z.ltb_spec c 8).
  - rewrite Z.div_small, Z.mod_small by lia. by rewrite zlookup_cons_0.
  - replace (c / 8) with ((c - 8) / 8 + 1) by (Z.to_euclidean_division_equations; lia).
    rewrite zlookup_cons_S by (apply Z.div_pos; lia).
    replace (c mod 8) with ((c - 8) mod 8) by (Z.to_euclidean_division_equations; lia). done.
Qed.

Lemma key_bit_nil c : key_bit [] c = false.
Proof.
  destruct (key_bit [] c) eqn:Ec; [|done]. apply key_bit_range in Ec. change (zlen (@nil Z)) with 0 in Ec. lia.
Qed.

(** The whole scan: the highest key, whether there is a keyboard key, and the
    bitmap that is left. *)
Lemma probe_keys_ok p : forall i m g,
  0 <= i -> i + zlen p <= 256 -> 0 <= m < 256 -> Forall byte_ok p ->
  exists m' g' rest, probe_keys p i m g = Ok (m', g', rest) /\ m <= m' < 256 /\
    (g' = true <-> g = true \/ exists c, key_bit p c = true /\ keyboard_code (8 * i + c) = true) /\
    (forall c u, key_bit p c = true -> keyboard_code (8 * i + c) = true ->
       HIDKeyboardEventCodeToUsageCode (8 * i + c) = Ok u -> modifier u = false -> u <= m') /\
    (forall c, key_bit rest c = key_bit p c && negb (keyboard_code (8 * i + c))).
Proof.
  induction p as [|b p IH]; intros i m g Hi Hl Hm Hok; cbn [probe_keys].
  { exists m, g, []. split; [done|]. split; [lia|]. setoid_rewrite key_bit_nil. naive_solver. }
  apply list.Forall_cons in Hok as [Hb Hok]. rewrite zlen_cons in Hl. pose proof (zlen_nonneg p).
  destruct (probe_key_bits_ok (decode_bits b) i m g 0) as (m1 & non & -> & Hm1 & Hx & Hn);
    [lia|lia|by apply decode_bits_range|].
  cbn [mbind res_bind]. set (g1 := g || _).
  destruct (IH (i + 1) m1 g1) as (m' & g' & rest & -> & Hm' & Hg & Hx' & Hn'); [lia|lia|lia|done|].
  cbn [mbind res_bind]. exists m', g', (non :: rest). split; [done|]. split; [lia|].
  assert (Hg1 : g1 = true <-> g = true \/ exists v, 0 <= v < 8 /\ Z.testbit b v = true /\ keyboard_code (8 * i + v) = true).
  { unfold g1. rewrite orb_true_iff, List.existsb_exists. f_equiv. split.
    - intros (v & Hv & Hk). apply list_elem_of_In, elem_of_decode_bits in Hv; naive_solver.
    - intros (v & Hv & Ht & Hk). exists v. by rewrite <- list_elem_of_In, elem_of_decode_bits. }
  assert (Hcase : forall c, key_bit (b :: p) c = true -> 0 <= c /\
    (c < 8 /\ Z.testbit b c = true \/ 8 <= c /\ key_bit p (c - 8) = true)).
  { intros c Hc. pose proof (key_bit_range _ _ Hc). rewrite key_bit_cons in Hc by lia.
    destruct (Z.ltb_spec c 8); split; try lia; [left|right]; by split. }
  assert (Hsh : forall c, 8 * (i + 1) + (c - 8) = 8 * i + c) by lia.
  split; [|split].
  - rewrite Hg, Hg1. split.
    + intros [[?|(v & Hv & Ht & Hk)]|(c & Hc & Hk)]; [by left|right..].
      * exists v. rewrite key_bit_cons by lia. replace (v <? 8) with true by lia. done.
      * pose proof (key_bit_range _ _ Hc). exists (c + 8). rewrite key_bit_cons by lia.
        replace (c + 8 <? 8) with false by lia. replace (c + 8 - 8) with c by lia.
        split; [done|]. by replace (8 * i + (c + 8)) with (8 * (i + 1) + c) by lia.
    + intros [?|(c & Hc & Hk)]; [by left; left|]. destruct (Hcase c Hc) as [H0 [[H1 H2]|[H1 H2]]].
      * left. right. exists c. done.
      * right. exists (c - 8). by rewrite Hsh.
  - intros c u Hc Hk Hu Hmod. destruct (Hcase c Hc) as [H0 [[H1 H2]|[H1 H2]]].
    + assert (u <= m1); [|lia]. eapply Hx; [|done..]. by apply elem_of_decode_bits.
    + eapply (Hx' (c - 8)); by rewrite ?Hsh.
  - intros c. destruct (decide (0 <= c)).
    + rewrite !key_bit_cons by done. destruct (Z.ltb_spec c 8).
      * rewrite Hn by lia. rewrite Z.bits_0. cbn [orb]. f_equal.
        destruct (Z.testbit b c) eqn:Et; [apply bool_decide_true|apply bool_decide_false];
          rewrite elem_of_decode_bits by done; [done|]. intros [_ ?]; congruence.
      * rewrite Hn', Hsh. done.
    + destruct (key_bit (b :: p) c) eqn:Ec; [apply key_bit_range in Ec; lia|].
      destruct (key_bit (non :: rest) c) eqn:Ec'; [apply key_bit_range in Ec'; lia|]. done.
Qed.

(** ** The scan of the LED bitmap *)

Lemma led_usage_range c : 0 <= HIDLEDEventCodeToUsageCode c <= 0x4D.
Proof. unfold HIDLEDEventCodeToUsageCode. repeat case_match; lia. Qed.

Lemma probe_led_bits_ok bits i : forall acc, 0 <= i < 256 -> 0 <= acc.1 <= 0x4D ->
  Forall (fun v => 0 <= v < 8) bits ->
  let r := probe_led_bits bits i acc in
  acc.1 <= r.1 <= 0x4D /\ (acc.2 = true -> r.2 = true) /\
  forall v, v ∈ bits -> HIDLEDEventCodeToUsageCode (8 * i + v) <> 0 ->
    HIDLEDEventCodeToUsageCode (8 * i + v) <= r.1 /\ r.2 = true.
Proof.
  unfold probe_led_bits. induction bits as [|v bits IH]; intros [m g] Hi Hm Hv; cbn [foldl fst snd] in *.
  - split; [lia|]. split; [done|]. by intros v ?%not_elem_of_nil.
  - apply list.Forall_cons in Hv as [Hv Hr]. rewrite u16_small by lia.
    replace (v + 8 * i) with (8 * i + v) by lia. set (u := HIDLEDEventCodeToUsageCode (8 * i + v)).
    pose proof (led_usage_range (8 * i + v)) as Hu. fold u in Hu.
    set (acc1 := if negb (u =? 0) then _ else _).
    assert (H1 : m <= acc1.1 <= 0x4D /\ (g = true -> acc1.2 = true) /\ (u <> 0 -> u <= acc1.1 /\ acc1.2 = true)).
    { unfold acc1. destruct (Z.eqb_spec u 0); cbn [negb fst snd]; split_and!; try done; try lia. }
    destruct (IH acc1 Hi ltac:(lia) Hr) as (Hm' & Hg' & Hx). split; [lia|]. split; [naive_solver|].
    intros v' Hv' Hu'. apply elem_of_cons in Hv' as [->|Hv']; [|by apply Hx].
    destruct H1 as (_ & _ & H1). destruct (H1 Hu') as [H2 H3]. split; [fold u; lia|by apply Hg'].
Qed.

Lemma probe_leds_ok p : forall i acc, 0 <= i -> i + zlen p <= 256 -> 0 <= acc.1 <= 0x4D ->
  Forall byte_ok p ->
  let r := probe_leds p i acc in
  acc.1 <= r.1 <= 0x4D /\ (acc.2 = true -> r.2 = true) /\
  forall c, key_bit p c = true -> HIDLEDEventCodeToUsageCode (8 * i + c) <> 0 ->
    HIDLEDEventCodeToUsageCode (8 * i + c) <= r.1 /\ r.2 = true.
Proof.
  induction p as [|b p IH]; intros i acc Hi Hl Hm Hok; cbn [probe_leds].
  - split; [lia|]. split; [done|]. intros c. by rewrite key_bit_nil.
  - apply list.Forall_cons in Hok as [Hb Hok]. rewrite zlen_cons in Hl. pose proof (zlen_nonneg p).
    destruct (probe_led_bits_ok (decode_bits b) i acc) as (H1 & H2 & H3);
      [lia|lia|by apply decode_bits_range|].
    destruct (IH (i + 1) (probe_led_bits (decode_bits b) i acc)) as (I1 & I2 & I3); [lia..|done|].
    split; [lia|]. split; [naive_solver|]. intros c Hc Hu.
    pose proof (key_bit_range _ _ Hc). rewrite key_bit_cons in Hc by lia.
    destruct (Z.ltb_spec c 8).
    + destruct (H3 c) as [L1 L2]; [apply elem_of_decode_bits; [done|split; [lia|done]]|done|]. split; [lia|by apply I2].
    + specialize (I3 (c - 8) Hc). replace (8 * (i + 1) + (c - 8)) with (8 * i + c) in I3 by lia.
      by apply I3.
Qed.

(** ** The probe *)

(** The descriptor of a keyboard: the modifiers, the LEDs if any, the keys. *)
Definition keyboard_items (id uMaxKey : Z) (led : option Z) : list (Z * Z) :=
  keyboard_head_items id ++
  match led with Some uMaxLed => keyboard_led_items uMaxLed (led_report_size uMaxLed) | None => [] end ++
  keyboard_key_items uMaxKey.

Lemma item_ok_const tag v : (0 <=? tag) && (tag <? 256) && (tag mod 4 =? 0) && (- 2 ^ 31 <=? v) && (v <? 2 ^ 31) = true ->
  item_ok (tag, v).
Proof. unfold item_ok. cbn [fst snd]. lia. Qed.

Ltac items_ok := repeat (apply list.Forall_cons; split; [first [by apply item_ok_const | split; [done|split; [done|cbn; lia]]]|]); try done.

Lemma head_items_ok id : 0 <= id < 256 -> Forall item_ok (keyboard_head_items id).
Proof. intros Hid. unfold keyboard_head_items. items_ok. Qed.

Lemma key_items_ok m : 0 <= m < 256 -> Forall item_ok (keyboard_key_items m).
Proof. intros Hid. unfold keyboard_key_items. items_ok. Qed.

Lemma led_size_range m : 0 <= m <= 0x4D -> 2 <= led_report_size m <= 11.
Proof.
  intros Hm. unfold led_report_size, HID_REPORT_DATA_OFFSET. Z.to_euclidean_division_equations; lia.
Qed.

(** The width of the padding: it includes the byte of the report id. *)
Lemma led_pad m : 0 <= m <= 0x4D ->
  u32 (u32 (led_report_size m * 8) - (m + 1)) = 8 * led_report_size m - (m + 1) /\
  0 <= 8 * led_report_size m - (m + 1) < 16.
Proof.
  intros Hm. pose proof (led_size_range m Hm). assert (0 <= 8 * led_report_size m - (m + 1) < 16)
    by (unfold led_report_size, HID_REPORT_DATA_OFFSET in *; Z.to_euclidean_division_equations; lia).
  split; [|done]. rewrite (u32_small (led_report_size m * 8)), u32_small by lia. lia.
Qed.

Lemma led_items_ok m : 0 <= m <= 0x4D -> Forall item_ok (keyboard_led_items m (led_report_size m)).
Proof.
  intros Hm. destruct (led_pad m Hm) as [Hp1 Hp2]. unfold keyboard_led_items. rewrite Hp1.
  apply list.Forall_app. split; [items_ok|]. destruct (truth _); items_ok.
Qed.

Lemma length_encode_items items : Forall item_ok items -> zlen (encode_items items) <= 5 * zlen items.
Proof.
  induction items as [|it items IH]; intros H; [done|]. apply list.Forall_cons in H as [Hi H].
  unfold encode_items. rewrite bind_cons, zlen_app, zlen_cons. pose proof (length_encode_item it Hi).
  specialize (IH H). unfold encode_items in IH. lia.
Qed.

Lemma encode_items_app l1 l2 : encode_items (l1 ++ l2) = encode_items l1 ++ encode_items l2.
Proof. apply bind_app. Qed.

(** The LEDs that the scan found, and the class that the probe builds. *)
Definition led_option (leds : Z * bool) : option Z := if leds.2 then Some leds.1 else None.

Definition fresh_class (id uMaxKey : Z) (led : option Z) (report : list Z) : INPUT_CLASS_KEYBOARD :=
  let cb := match led with Some m => led_report_size m | None => 0 end in
  let len := (uMaxKey + 1 + 7) / 8 in
  mk_kbd id false report (replicate (Z.to_nat len) 0) len 0 cb (replicate (Z.to_nat cb) 0).

Lemma key_bit_zeros n c : key_bit (replicate n 0) c = false.
Proof.
  unfold key_bit. destruct ((replicate n 0)⟦c / 8⟧) eqn:Ez; [|done].
  pose proof (zlookup_lt _ _ _ Ez) as Hl. rewrite zlen_replicate in Hl.
  rewrite zlookup_replicate in Ez by done. injection Ez as <-. apply Z.bits_0.
Qed.

Lemma fresh_class_shows id m led : 0 <= m < 256 ->
  kb_shows (fresh_class id m led (replicate 9 0)) ∅ ∅.
Proof.
  intros Hm. assert (1 <= (m + 1 + 7) / 8 <= 32) by (Z.to_euclidean_division_equations; lia).
  split.
  - constructor; cbn [fresh_class pHidReport pKeysPressed cbKeysPressedLen nKeysPressed]; try done.
    + rewrite zlen_replicate. lia.
    + by apply Forall_replicate.
    + intros c. rewrite key_bit_zeros. set_solver.
    + by apply shows_small; rewrite ?size_empty; [lia|].
  - exists 0. split; [done|]. split; [done|]. intros j Hj. rewrite Z.bits_0.
    symmetry. apply bool_decide_false. set_solver.
Qed.

Lemma fresh_class_last id m led report : (forall lm, led = Some lm -> 0 <= lm <= 0x4D) ->
  zlen (pLastOutputReport (fresh_class id m led report)) = cbOutputReport (fresh_class id m led report).
Proof.
  intros Hlm. unfold fresh_class. cbn [pLastOutputReport cbOutputReport]. rewrite zlen_replicate.
  destruct led as [lm|]; [|done]. pose proof (led_size_range lm (Hlm lm eq_refl)). lia.
Qed.

Lemma fresh_class_fits id m led report c v :
  0 <= m < 256 -> 0 <= c -> keyboard_code c = true ->
  (forall u, HIDKeyboardEventCodeToUsageCode c = Ok u -> modifier u = false -> u <= m) ->
  event_fits (cbKeysPressedLen (fresh_class id m led report)) (mk_ev EV_KEY c v).
Proof.
  intros Hm Hc Hk Hu. split; [done|]. cbn [ev_code fresh_class cbKeysPressedLen]. intros u Eu.
  unfold keyboard_code in Hk. rewrite Eu in Hk. apply andb_true_iff in Hk as [_ Hk%Z.eqb_eq].
  pose proof (usage_byte c u Eu Hk). specialize (Hu u Eu). unfold modifier in Hu.
  destruct ((0xE0 <=? u) && (u <=? 0xE7)) eqn:Em; [right; lia|left]. specialize (Hu eq_refl).
  Z.to_euclidean_division_equations; lia.
Qed.

Lemma fresh_class_led id m led report u :
  (exists lm, led = Some lm /\ u <= lm) -> u <= 8 * (cbOutputReport (fresh_class id m led report) - 1).
Proof.
  intros (lm & -> & Hu). cbn [fresh_class cbOutputReport].
  unfold led_report_size, HID_REPORT_DATA_OFFSET. Z.to_euclidean_division_equations; lia.
Qed.

Lemma keyboard_items_ok id m led : 0 <= id < 256 -> 0 <= m < 256 ->
  (forall lm, led = Some lm -> 0 <= lm <= 0x4D) -> Forall item_ok (keyboard_items id m led).
Proof.
  intros Hid Hm Hlm. unfold keyboard_items. rewrite !Forall_app. split; [by apply head_items_ok|].
  split; [|by apply key_items_ok]. destruct led as [lm|]; [|done]. by apply led_items_ok, Hlm.
Qed.

(** The parser reads a descriptor of items and the end of the collection. *)
Lemma descriptor_parses items : Forall item_ok items ->
  let bytes := encode_items items ++ [HID_TAG_END_COLLECTION] in
  parse_items (length bytes) bytes = Some (items ++ [(HID_TAG_END_COLLECTION, 0)]).
Proof.
  intros Hi. cbv zeta. rewrite length_app. cbn [length].
  assert (Hl : (length items <= length (encode_items items))%nat).
  { clear -Hi. induction items as [|it items IH]; [done|]. apply list.Forall_cons in Hi as [H Hi].
    unfold encode_items. rewrite bind_cons, length_app. pose proof (length_encode_item it H) as L.
    unfold zlen in L. specialize (IH Hi). unfold encode_items in IH. cbn [length]. lia. }
  replace (length (encode_items items) + 1)%nat
    with (length items + S (length (encode_items items) - length items))%nat by lia.
  apply parse_encode_items; [done|]. by destruct (length (encode_items items) - length items)%nat.
Qed.

Section probe.
Context {E : Type} (I : input_env E).

Lemma probe_output_ok e a leds : array_ok a -> Size a < 2 ^ 40 -> 0 <= leds.1 <= 0x4D ->
  exists r, probe_output I e a leds.1 leds.2 = Ok r /\
    match r with
    | inl (st, _, _) => NT_SUCCESS st = false
    | inr (cb, last, a', e') =>
        let led := led_option leds in
        appended a a' (encode_items (match led with
          Some m => keyboard_led_items m (led_report_size m) | None => [] end)) /\
        cb = (match led with Some m => led_report_size m | None => 0 end) /\
        last = replicate (Z.to_nat cb) 0
    end.
Proof.
  intros Hok Hs Hm. unfold probe_output, led_option. destruct leds as [m [|]]; cbn [fst snd] in *.
  - assert (Hz : zlen (keyboard_led_items m (led_report_size m)) <= 9)
      by (unfold keyboard_led_items; destruct (truth _); done).
    destruct (append_items_ok I (keyboard_led_items m (led_report_size m)) e a Hok ltac:(lia) (led_items_ok m Hm)) as (a' & e' & -> & Ha).
    cbn [mbind res_bind]. destruct (ExAllocatePool I e' _) as [[|] e2]; by eexists.
  - eexists. split; [done|]. cbv zeta. split; [by apply appended_nil|done].
Qed.

(** What the probe does, with the results of its two scans. *)
Lemma probe_ok e n a pKeys pLeds m g rest :
  array_ok a -> Size a < 2 ^ 39 -> 0 <= n < 255 -> 0 <= m < 256 ->
  probe_keys pKeys 0 0 false = Ok (m, g, rest) ->
  0 <= (probe_leds pLeds 0 (0, false)).1 <= 0x4D ->
  exists st kopt n' a' e', HIDKeyboardProbe I e n a pKeys pLeds = Ok (st, kopt, n', a', rest, e') /\
    n' = match kopt with Some _ => n + 1 | None => n end /\
    match kopt with
    | None => (g = false /\ st = STATUS_SUCCESS /\ a' = a /\ e' = e) \/ (g = true /\ NT_SUCCESS st = false)
    | Some k =>
        g = true /\ st = STATUS_SUCCESS /\ n < MAX_INPUT_CLASS_COUNT /\
        let led := led_option (probe_leds pLeds 0 (0, false)) in
        k = fresh_class (n + 1) m led (replicate 9 0) /\
        appended a a' (encode_items (keyboard_items (n + 1) m led) ++ [HID_TAG_END_COLLECTION])
    end.
Proof.
  intros Hok Hs Hn Hm Hk Hl. unfold HIDKeyboardProbe. rewrite Hk. cbn [mbind res_bind].
  destruct g; cbn [negb]; [|do 5 eexists; split; [done|]; split; [done|]; by left].
  destruct (ExAllocatePool I e _) as [[|] e1]; cbn [negb]; [|do 5 eexists; split; [done|]; split; [done|]; by right].
  rewrite u8_small by lia. pose proof (head_items_ok (n + 1) ltac:(lia)) as Hh.
  assert (Hz : Size a + 5 * zlen (keyboard_head_items (n + 1)) < 2 ^ 62).
  { change (zlen (keyboard_head_items (n + 1))) with 15. lia. }
  destruct (append_items_ok I _ e1 a Hok Hz Hh) as (a1 & e2 & -> & A1).
  cbn [mbind res_bind]. pose proof A1 as (O1 & S1 & _). pose proof (length_encode_items _ Hh) as L1.
  change (zlen (keyboard_head_items (n + 1))) with 15 in L1.
  set (leds := probe_leds pLeds 0 (0, false)) in *. rewrite (surjective_pairing leds).
  destruct (probe_output_ok e2 a1 leds O1 ltac:(lia) Hl) as (r & -> & Hr). cbn [mbind res_bind].
  destruct r as [[[st a2] e3]|[[[cb last] a2] e3]]; [do 5 eexists; split; [done|]; split; [done|]; by right|].
  destruct Hr as (A2 & Hcb & Hlast). pose proof A2 as (O2 & S2 & _).
  set (ledi := match led_option _ with Some m => _ | None => [] end) in *.
  assert (L2 : zlen (encode_items ledi) <= 45).
  { unfold ledi, led_option. destruct leds as [lm [|]]; cbn [fst snd] in *; [|done].
    pose proof (length_encode_items _ (led_items_ok lm Hl)).
    enough (zlen (keyboard_led_items lm (led_report_size lm)) <= 9) by lia.
    unfold keyboard_led_items. by destruct (truth _). }
  pose proof (key_items_ok m Hm) as Hki. pose proof (length_encode_items _ Hki) as L3.
  change (zlen (keyboard_key_items m)) with 8 in L3.
  destruct (append_items_ok I (keyboard_key_items m) e3 a2 O2) as (a3 & e4 & -> & A3);
    [change (zlen (keyboard_key_items m)) with 8; lia|done|].
  cbn [mbind res_bind]. pose proof A3 as (O3 & S3 & _).
  destruct (append1_ok I e4 a3 HID_TAG_END_COLLECTION O3 ltac:(lia)) as (a4 & e5 & -> & A4).
  cbn [mbind res_bind].
  destruct (ExAllocatePool I e5 _) as [[|] e6]; cbn [negb]; [|do 5 eexists; split; [done|]; split; [done|]; by right].
  unfold RegisterClass. destruct (Z.geb_spec n MAX_INPUT_CLASS_COUNT); [do 5 eexists; split; [done|]; split; [done|]; by right|].
  destruct (ExAllocatePool I e6 _) as [[|] e7]; [|do 5 eexists; split; [done|]; split; [done|]; by right].
  do 5 eexists. split; [done|]. split; [done|]. split; [done|]. split; [done|]. split; [lia|]. cbv zeta.
  unfold fresh_class. split; [by rewrite Hlast, Hcb|].
  unfold keyboard_items. rewrite !encode_items_app, <- !app_assoc.
  eapply appended_trans; [exact A1|]. eapply appended_trans; [exact A2|].
  by eapply appended_trans.
Qed.

(** The probe of a keyboard never faults, leaves to the other classes
    exactly the key bits that are not keyboard keys, and succeeds without a class
    exactly when there is no keyboard key.  When it registers a keyboard, it is
    one more class with the next report id, the class shows no key pressed, every advertised keyboard key is a modifier or has
    room in the bitmap of pressed keys, and every advertised LED that the driver
    knows has a bit in the output report; the descriptor it appended, if no
    allocation failed, parses back to the items of the keyboard. *)
Theorem HIDKeyboardProbe_correct e n a pKeys pLeds :
  array_ok a -> contents a = Some [] -> Size a < 2 ^ 39 -> 0 <= n < 255 ->
  Forall byte_ok pKeys -> Forall byte_ok pLeds -> zlen pKeys <= 128 -> zlen pLeds <= 128 ->
  exists st kopt n' a' rest e',
    HIDKeyboardProbe I e n a pKeys pLeds = Ok (st, kopt, n', a', rest, e') /\
    n' = match kopt with Some _ => n + 1 | None => n end /\
    (forall c, key_bit rest c = key_bit pKeys c && negb (keyboard_code c)) /\
    match kopt with
    | None => NT_SUCCESS st = true <-> forall c, key_bit pKeys c = true -> keyboard_code c = false
    | Some k =>
        NT_SUCCESS st = true /\ uReportID k = n + 1 /\ kb_shows k ∅ ∅ /\
        zlen (pLastOutputReport k) = cbOutputReport k /\
        (forall c v, key_bit pKeys c = true -> keyboard_code c = true ->
           event_fits (cbKeysPressedLen k) (mk_ev EV_KEY c v)) /\
        (forall c, key_bit pLeds c = true -> HIDLEDEventCodeToUsageCode c <> 0 ->
           HIDLEDEventCodeToUsageCode c <= 8 * (cbOutputReport k - 1)) /\
        (contents a' = None \/
         exists bytes uMaxKey led, contents a' = Some bytes /\
           parse_items (length bytes) bytes =
             Some (keyboard_items (n + 1) uMaxKey led ++ [(HID_TAG_END_COLLECTION, 0)]))
    end.
Proof.
  intros Hok Hc Hs Hn Bk Bl Lk Ll. pose proof (zlen_nonneg pKeys). pose proof (zlen_nonneg pLeds).
  destruct (probe_keys_ok pKeys 0 0 false) as (m & g & rest & Ek & Hm & Hg & Hmax & Hrest); [lia..|done|].
  destruct (probe_leds_ok pLeds 0 (0, false)) as (Hl & _ & Hled); [lia|lia|cbn; lia|done|].
  destruct (probe_ok e n a pKeys pLeds m g rest) as (st & kopt & n' & a' & e' & Ep & En & Hr);
    try done; [lia..|].
  exists st, kopt, n', a', rest, e'. split; [done|]. split; [done|]. split; [exact Hrest|].
  set (leds := probe_leds pLeds 0 (0, false)) in *. destruct kopt as [k|].
  - destruct Hr as (-> & -> & Hcl & -> & Ha). cbv zeta in *.
    assert (Hlm : forall lm, led_option leds = Some lm -> 0 <= lm <= 0x4D).
    { intros lm. unfold led_option. destruct leds as [x [|]]; cbn in *; [intros [= <-]; lia|done]. }
    split; [done|]. split; [done|]. split; [by apply fresh_class_shows|].
    split; [by apply fresh_class_last|]. split; [|split].
    + intros c v Hb Hk. apply fresh_class_fits; [lia|apply key_bit_range in Hb; lia|done|].
      intros u Hu Hmod. by apply (Hmax c u).
    + intros c Hb Hu. destruct (Hled c Hb Hu) as [H1 H2]. apply fresh_class_led.
      unfold led_option. rewrite H2. eauto.
    + destruct Ha as (_ & _ & [Ha|(b & Eb & Ha)]); [by left|right].
      rewrite Hc in Eb. injection Eb as <-. do 3 eexists. split; [done|]. cbn [app].
      apply descriptor_parses. apply keyboard_items_ok; [lia|lia|done].
  - destruct Hr as [(-> & -> & _)|(-> & Est)].
    + split; [|done]. intros _ c Hb. destruct (keyboard_code c) eqn:Ec; [|done].
      by assert (false = true) by (apply Hg; right; by exists c).
    + rewrite Est. split; [done|]. intros Hno. destruct (proj1 Hg eq_refl) as [?|(c & Hb & Hk)]; [done|].
      change (8 * 0 + c) with c in Hk. by rewrite Hno in Hk.
Qed.
End probe.

(** ** The sizes of the reports *)

(** The number of bits of the fields that main items [tag] declare. *)
Fixpoint field_bits (tag size count : Z) (items : list (Z * Z)) : Z :=
  match items with
  | [] => 0
  | (t, v) :: items =>
      if t =? HID_TAG_REPORT_SIZE then field_bits tag v count items
      else if t =? HID_TAG_REPORT_COUNT then field_bits tag size v items
      else if t =? tag then size * count + field_bits tag size count items
      else field_bits tag size count items
  end.

(** The input report that the descriptor declares has exactly the 64
    bits of the report buffer after the report id.  The output report is declared
    8 bits longer than the output report that the driver keeps whenever the
    number of LEDs is not a multiple of 8: the padding item counts the byte of
    the report id. *)
Theorem keyboard_report_sizes id uMaxKey uMaxLed :
  0 <= uMaxLed <= 0x4D ->
  let items := keyboard_items id uMaxKey (Some uMaxLed) in
  field_bits HID_TAG_INPUT 0 0 items = 8 * (HID_REPORT_DATA_OFFSET + 2 + HID_KEYBOARD_KEY_SLOTS - 1) /\
  field_bits HID_TAG_OUTPUT 0 0 items =
    8 * (led_report_size uMaxLed - 1) + (if truth ((uMaxLed + 1) mod 8) then 8 else 0).
Proof.
  intros Hm. destruct (led_pad uMaxLed Hm) as [Hp _]. cbv zeta.
  unfold keyboard_items, keyboard_led_items. rewrite Hp.
  unfold led_report_size, HID_REPORT_DATA_OFFSET, truth.
  destruct (Z.eqb_spec ((uMaxLed + 1) mod 8) 0); cbn [negb]; split; try done;
    cbn -[Z.mul Z.div Z.modulo Z.sub]; Z.to_euclidean_division_equations; lia.
Qed.
