(* ===== verification/NetChecksum.v ===== *)
(** * Packet memory and the Internet checksum of NetKVM

    The data pages of a packet, the header fields that the offload code reads,
    and the checksum calculators of NetKVM/Common/sw_offload.cpp for the three
    targets the driver is built for. *)

From Stdlib Require Import ZArith Lia.
From stdpp Require Import base list numbers.
From S2P Require Import Prelude.

(** ** Memory *)

(** The bytes at a C pointer; an access outside them is a fault. *)
Definition mem := list Z.

Definition rd8 (m : mem) (o : Z) : res Z := zget m o.
Definition rd16 (m : mem) (o : Z) : res Z :=
  a ← zget m o; b ← zget m (o + 1); Ok (a + 256 * b).
Definition rd32 (m : mem) (o : Z) : res Z :=
  a ← rd16 m o; b ← rd16 m (o + 2); Ok (a + 65536 * b).
Definition wr16 (m : mem) (o v : Z) : res mem :=
  m ← zset m o (u8 v); zset m (o + 1) (u8 (Z.shiftr v 8)).

(** A page of a packet: the memory at [Virtual] and the size in use. *)
Record tCompletePhysicalAddress := mk_page { Virtual : mem; size : Z }.
#[export] Instance eta_page : Eta tCompletePhysicalAddress :=
  fun p => mk_page (Virtual p) (size p).

Definition swap_short (us : Z) : Z := u16 (Z.lor (Z.shiftl us 8) (Z.shiftr us 8)).

(** ** The checksum *)

(** The target of the build: [_WIN64] without [_ARM64_], [_ARM64_], and 32-bit
    x86, with the width of [UINT_PTR]. *)
Inductive target := WIN64 | ARM64 | WIN32.

#[export] Instance target_eq_dec : EqDecision target.
Proof. solve_decision. Defined.

Definition uptr (t : target) (x : Z) : Z :=
  match t with WIN32 => u32 x | _ => u64 x end.

(** [ptr[0] + (ptr[1] << 8)] of the ARM64 variant. *)
Definition rd_bytes (m : mem) (o : Z) : res Z :=
  a ← rd8 m o; b ← rd8 m (o + 1); Ok (a + Z.shiftl b 8).

(** [while (count--) { val += *ptr; ptr += step; }] *)
Fixpoint sum_words (t : target) (rd : mem -> Z -> res Z) (step : Z) (count : nat)
    (m : mem) (ptr val : Z) : res (Z * Z) :=
  match count with
  | O => Ok (val, ptr)
  | S c => x ← rd m ptr; sum_words t rd step c m (ptr + step) (uptr t (val + x))
  end.

(** The whole words of the data, as each target adds them. *)
Definition sum_even (t : target) (m : mem) (ptr len : Z) : res (Z * Z) :=
  match t with
  | WIN64 =>
      '(val, ptr) ← sum_words t rd32 4 (Z.to_nat (Z.shiftr len 2)) m ptr 0;
      if truth (Z.land len 2) then x ← rd16 m ptr; Ok (uptr t (val + x), ptr + 2)
      else Ok (val, ptr)
  | ARM64 => sum_words t rd_bytes 2 (Z.to_nat (Z.shiftr len 1)) m ptr 0
  | WIN32 => sum_words t rd16 2 (Z.to_nat (Z.shiftr len 1)) m ptr 0
  end.

Definition RawCheckSumCalculator (t : target) (m : mem) (ptr len : Z) : res Z :=
  '(val, ptr) ← sum_even t m ptr len;
  if truth (Z.land len 1) then x ← rd8 m ptr; Ok (uptr t (val + x)) else Ok val.

Definition RawCheckSumFinalize (t : target) (sum : Z) : Z :=
  let sum32 :=
    match t with
    | WIN32 => sum
    | _ => u32 (Z.shiftr (u64 (Z.lor (Z.shiftr sum 32) (u64 (Z.shiftl sum 32)) + sum)) 32)
    end in
  let sum16 := u16 (Z.shiftr (u32 (Z.lor (Z.shiftr sum32 16) (u32 (Z.shiftl sum32 16)) + sum32)) 16) in
  u16 (Z.lnot sum16).

Definition CheckSumCalculatorFlat (t : target) (m : mem) (buffer len : Z) : res Z :=
  raw ← RawCheckSumCalculator t m buffer len; Ok (RawCheckSumFinalize t raw).

(** [while (ulStartOffset > 0)]: the page and the offset in it. *)
Fixpoint seek_page (pages : list tCompletePhysicalAddress) (ulCurrPageOffset ulStartOffset : Z) :
    res (list tCompletePhysicalAddress * Z) :=
  if ulStartOffset >? 0 then
    match pages with
    | [] => Fault OutOfBounds
    | pCurrentPage :: next =>
        let ulCurrPageOffset := Z.min (size pCurrentPage) ulStartOffset in
        if ulCurrPageOffset <? ulStartOffset
        then seek_page next ulCurrPageOffset (ulStartOffset - ulCurrPageOffset)
        else Ok (pages, ulCurrPageOffset)
    end
  else Ok (pages, ulCurrPageOffset).

(** [while (len > 0)] *)
Fixpoint sum_pages (t : target) (pages : list tCompletePhysicalAddress)
    (ulCurrPageOffset len uRawCSum : Z) : res Z :=
  if len >? 0 then
    match pages with
    | [] => Fault OutOfBounds
    | pCurrentPage :: next =>
        let ulCurrentPageDataLength := Z.min len (u32 (size pCurrentPage - ulCurrPageOffset)) in
        raw ← RawCheckSumCalculator t (Virtual pCurrentPage) ulCurrPageOffset ulCurrentPageDataLength;
        sum_pages t next 0 (len - ulCurrentPageDataLength) (uptr t (uRawCSum + raw))
    end
  else Ok uRawCSum.

Definition CheckSumCalculator (t : target) (pDataPages : list tCompletePhysicalAddress)
    (ulStartOffset len : Z) : res Z :=
  '(pages, off) ← seek_page pDataPages 0 ulStartOffset;
  raw ← sum_pages t pages off len 0;
  Ok (RawCheckSumFinalize t raw).
