(* ===== verification/NetChecksumSpec.v ===== *)
(** * The checksum calculators compute the Internet checksum

    The reference is RFC 1071: the one's complement of the one's complement sum
    of the 16-bit words of the data, with a zero byte appended to an odd length.
    The calculators of the three targets add words of different width without
    folding the carries; they agree with the reference because all of them agree
    with the plain sum up to [ones]. *)

From Stdlib Require Import ZArith Lia.
From stdpp Require Import base list numbers.
From S2P Require Import Prelude.
From S2P Require Import NetChecksum.

(** ** The reference *)

Fixpoint words (l : list Z) : list Z :=
  match l with
  | a :: b :: l => a + 256 * b :: words l
  | [a] => [a]
  | [] => []
  end.

(** One's complement addition: the carry is added back. *)
Definition onec_add (x y : Z) : Z := let s := x + y in if s <? 65536 then s else s - 65535.

Definition rfc1071 (l : list Z) : Z := 65535 - foldl onec_add 0 (words l).

Definition byte (b : Z) : Prop := 0 <= b < 256.

(** The plain sum of the words. *)
Fixpoint wsum (l : list Z) : Z :=
  match l with
  | a :: b :: l => a + 256 * b + wsum l
  | [a] => a
  | [] => 0
  end.

(** The 16-bit one's complement representative of a sum: modulo 65535, zero
    only for zero. *)
Definition ones (x : Z) : Z := if x =? 0 then 0 else (x - 1) mod 65535 + 1.

(** [slice m o n]: the [n] bytes of [m] from [o] on. *)
Definition slice (m : list Z) (o n : Z) : list Z := take (Z.to_nat n) (drop (Z.to_nat o) m).

(** ** Lemmas on [ones] *)

Lemma ones_small x : 0 <= x <= 65535 -> ones x = x.
Proof. intros. unfold ones. destruct (Z.eqb_spec x 0); [done|]. rewrite Z.mod_small; lia. Qed.

Lemma ones_range x : 0 <= x -> 0 <= ones x <= 65535.
Proof.
  intros. unfold ones. destruct (x =? 0); [lia|].
  pose proof (Z.mod_pos_bound (x - 1) 65535). lia.
Qed.

(** [ones] characterises the sum modulo 65535 and its being zero. *)
Lemma ones_eq x y :
  0 <= x -> 0 <= y -> (ones x = ones y <-> x mod 65535 = y mod 65535 /\ (x = 0 <-> y = 0)).
Proof.
  intros. unfold ones. destruct (Z.eqb_spec x 0), (Z.eqb_spec y 0); word_lia.
Qed.

Lemma ones_add x x' y :
  0 <= x -> 0 <= x' -> 0 <= y -> ones x = ones x' -> ones (x + y) = ones (x' + y).
Proof.
  intros Hx Hx' Hy [E Z]%ones_eq; [|done..]. apply ones_eq; [lia..|]. split; [|lia].
  rewrite Z.add_mod, E, <- Z.add_mod by lia. done.
Qed.

Lemma ones_add2 x x' y y' :
  0 <= x -> 0 <= x' -> 0 <= y -> 0 <= y' ->
  ones x = ones x' -> ones y = ones y' -> ones (x + y) = ones (x' + y').
Proof.
  intros. rewrite (ones_add x x' y) by done. rewrite !(Z.add_comm x'). by apply ones_add.
Qed.

Lemma ones_idem x : 0 <= x -> ones (ones x) = ones x.
Proof. intros. apply ones_small, ones_range. done. Qed.

(** A higher word counts like a lower one. *)
Lemma ones_high x y : 0 <= x -> 0 <= y -> ones (x + 65536 * y) = ones (x + y).
Proof.
  intros. apply ones_eq; [lia..|]. split; [|lia].
  replace (x + 65536 * y) with (x + y + y * 65535) by lia. apply Z.mod_add. lia.
Qed.

Lemma onec_add_ones x y :
  0 <= x <= 65535 -> 0 <= y < 65536 -> onec_add x y = ones (x + y).
Proof.
  intros. unfold onec_add, ones.
  destruct (Z.ltb_spec (x + y) 65536), (Z.eqb_spec (x + y) 0); word_lia.
Qed.

Lemma bytes_pair_ind (P : list Z -> Prop) :
  P [] -> (forall a, P [a]) -> (forall a b l, P l -> P (a :: b :: l)) -> forall l, P l.
Proof.
  intros H0 H1 H2 l. assert (P l /\ forall a, P (a :: l)) as [? _]; [|done].
  induction l as [|a l [IH IHa]]; [done|]. split; [done|]. intros b. by apply H2.
Qed.

Lemma wsum_range l : Forall byte l -> 0 <= wsum l.
Proof.
  induction l as [|a|a b l IH] using bytes_pair_ind; cbn; intros Hl; [done| |].
  - apply Forall_cons_1 in Hl as [Ha _]. unfold byte in Ha. lia.
  - apply Forall_cons_1 in Hl as [Ha [Hb Hl]%Forall_cons_1]. specialize (IH Hl). unfold byte in *. lia.
Qed.

Lemma wsum_app l1 l2 : Z.Even (zlen l1) -> wsum (l1 ++ l2) = wsum l1 + wsum l2.
Proof.
  intros [k Hk]. revert k Hk. induction l1 as [|a|a b l1 IH] using bytes_pair_ind; intros k Hk; cbn.
  - done.
  - rewrite zlen_cons, zlen_nil in Hk. lia.
  - rewrite !zlen_cons in Hk. rewrite (IH (k - 1)); lia.
Qed.

Lemma foldl_onec_add a l :
  0 <= a <= 65535 -> Forall byte l -> foldl onec_add a (words l) = ones (a + wsum l).
Proof.
  revert a. induction l as [|x|x y l IH] using bytes_pair_ind; intros a Ha Hl; cbn.
  - rewrite Z.add_0_r, ones_small; done.
  - apply Forall_cons_1 in Hl as [Hx _]. unfold byte in Hx. apply onec_add_ones; lia.
  - apply Forall_cons_1 in Hl as [Hx [Hy Hl]%Forall_cons_1]. unfold byte in *.
    pose proof (wsum_range l Hl).
    rewrite onec_add_ones, IH by (done || lia || apply ones_range; lia).
    pose proof (ones_range (a + (x + 256 * y)) ltac:(lia)).
    rewrite (ones_add _ (a + (x + 256 * y))) by (rewrite ?ones_idem; lia).
    f_equal. lia.
Qed.

Lemma rfc1071_ones l : Forall byte l -> rfc1071 l = 65535 - ones (wsum l).
Proof. intros. unfold rfc1071. by rewrite foldl_onec_add. Qed.

(** ** The calculators *)

(** What [n] bytes can contribute at most to the sum. *)
Definition weight (t : target) : Z := match t with WIN64 => 2 ^ 30 | _ => 2 ^ 15 end.

Lemma uptr_small t x : 0 <= x < 131072 * weight t -> uptr t x = x.
Proof. destruct t; cbn [weight uptr]; intros; [apply u64_small|apply u64_small|apply u32_small]; lia. Qed.

Section reading.
Context (t : target) (m : mem).

(** What a reader of [k] bytes at a time does. *)
Definition reads (rd : mem -> Z -> res Z) (k : Z) : Prop :=
  forall o l rest, 0 <= o -> Forall byte l -> zlen l = k ->
    drop (Z.to_nat o) m = l ++ rest ->
    exists x, rd m o = Ok x /\ 0 <= x <= k * weight t /\ ones x = ones (wsum l).

Lemma drop_add o (l rest : list Z) :
  0 <= o -> drop (Z.to_nat o) m = l ++ rest -> drop (Z.to_nat (o + zlen l)) m = rest.
Proof.
  intros Ho H. unfold zlen. rewrite Z2Nat.inj_add, Nat2Z.id by lia.
  by rewrite <- drop_drop, H, drop_app_length.
Qed.

Lemma rd8_drop o a rest : 0 <= o -> drop (Z.to_nat o) m = a :: rest -> rd8 m o = Ok a.
Proof. intros Ho [H _]%zlookup_drop; [|done]. by apply zget_ok. Qed.

Lemma rd16_drop o a b rest :
  0 <= o -> drop (Z.to_nat o) m = a :: b :: rest -> rd16 m o = Ok (a + 256 * b).
Proof.
  intros Ho [H1 H2]%zlookup_drop; [|done].
  apply zlookup_drop in H2 as [H2 _]; [|lia]. unfold rd16. by rewrite (zget_ok _ _ _ H1), (zget_ok _ _ _ H2).
Qed.

Lemma rd_bytes_drop o a b rest :
  0 <= o -> drop (Z.to_nat o) m = a :: b :: rest -> rd_bytes m o = Ok (a + 256 * b).
Proof.
  intros Ho H. rewrite <- (rd16_drop o a b rest) by done. unfold rd_bytes, rd16, rd8.
  destruct (zget m o); [|done]. destruct (zget m (o + 1)); [|done]. cbn.
  by rewrite Z.shiftl_mul_pow2, Z.mul_comm.
Qed.

Lemma reads_pair rd :
  (forall o a b rest, 0 <= o -> drop (Z.to_nat o) m = a :: b :: rest -> rd m o = Ok (a + 256 * b)) ->
  reads rd 2.
Proof.
  intros Hrd o l rest Ho Hl Hlen Hd.
  destruct l as [|a [|b [|? l]]]; rewrite ?zlen_cons, ?zlen_nil in Hlen;
    try (pose proof (zlen_nonneg l)); try lia.
  apply Forall_cons_1 in Hl as [Ha [Hb _]%Forall_cons_1]. unfold byte in *.
  exists (a + 256 * b). split; [by apply (Hrd o a b rest)|].
  cbn [wsum]. rewrite Z.add_0_r. destruct t; cbn [weight]; lia.
Qed.

Lemma reads_quad : t = WIN64 -> reads rd32 4.
Proof.
  intros Ht o l rest Ho Hl Hlen Hd.
  destruct l as [|a [|b [|c [|d [|? l]]]]]; rewrite ?zlen_cons, ?zlen_nil in Hlen;
    try (pose proof (zlen_nonneg l)); try lia.
  apply Forall_cons_1 in Hl as [Ha [Hb [Hc [Hd' _]%Forall_cons_1]%Forall_cons_1]%Forall_cons_1].
  unfold byte in *. exists (a + 256 * b + 65536 * (c + 256 * d)). split.
  - unfold rd32. rewrite (rd16_drop o a b (c :: d :: rest)) by done. cbn.
    rewrite (rd16_drop (o + 2) c d rest); [done|lia|].
    by apply (drop_add o [a; b]).
  - rewrite Ht. split; [cbn; lia|]. rewrite ones_high by lia. f_equal. cbn. lia.
Qed.

Lemma sum_words_spec rd k count o l rest val :
  reads rd k -> 0 < k -> Z.Even k -> 0 <= o -> Forall byte l -> zlen l = k * Z.of_nat count ->
  drop (Z.to_nat o) m = l ++ rest ->
  0 <= val -> val + zlen l * weight t < 131072 * weight t ->
  exists val', sum_words t rd k count m o val = Ok (val', o + zlen l) /\
    val <= val' <= val + zlen l * weight t /\ ones val' = ones (val + wsum l).
Proof.
  intros Hrd Hk He. revert o l val. induction count as [|c IH]; intros o l val Ho Hl Hlen Hd Hv Hw.
  - destruct l; [|rewrite zlen_cons in Hlen; pose proof (zlen_nonneg l); lia].
    exists val. rewrite zlen_nil. cbn [sum_words wsum]. rewrite Z.mul_0_l, !Z.add_0_r. split_and!; done || lia.
  - assert (Hk' : zlen (take (Z.to_nat k) l) = k) by (unfold zlen in *; rewrite length_take; lia).
    assert (Hk2 : zlen (drop (Z.to_nat k) l) = k * Z.of_nat c) by (unfold zlen in *; rewrite length_drop; lia).
    rewrite <- (take_drop (Z.to_nat k) l) in Hl, Hd, Hw |- *.
    set (l1 := take (Z.to_nat k) l) in *. set (l2 := drop (Z.to_nat k) l) in *.
    rewrite <- app_assoc in Hd. rewrite zlen_app in Hw |- *.
    apply Forall_app in Hl as [Hl1 Hl2].
    assert (0 < weight t) by (destruct t; cbn; lia).
    destruct (Hrd o l1 (l2 ++ rest) Ho Hl1 Hk' Hd) as (x & Ex & Hx & Ox).
    cbn [sum_words]. rewrite Ex. cbn [mbind res_bind].
    rewrite uptr_small by nia.
    apply drop_add in Hd; [|done].
    destruct (IH (o + k) l2 (val + x)) as (v & -> & Hvb & Ov); [lia|done|done|congruence|lia|nia|].
    exists v. split; [do 2 f_equal; lia|]. split; [nia|].
    rewrite Ov, wsum_app by congruence.
    pose proof (wsum_range _ Hl1). pose proof (wsum_range _ Hl2).
    rewrite (Z.add_assoc val). apply ones_add; [lia..|].
    rewrite !(Z.add_comm val). apply ones_add; lia.
Qed.

End reading.

Lemma truth_land_1 x : truth (Z.land x 1) = (x mod 2 =? 1).
Proof.
  change 1 with (BIT 0) at 1. rewrite truth_land_bit, Z.bit0_odd, Zmod_odd by done. by destruct (Z.odd x).
Qed.

Lemma truth_land_2 x : truth (Z.land x 2) = ((x / 2) mod 2 =? 1).
Proof.
  change 2 with (BIT 1) at 1. rewrite truth_land_bit, Z.testbit_odd, Z.shiftr_div_pow2, Zmod_odd by done.
  by destruct (Z.odd _).
Qed.

Lemma take_zlen (l : list Z) n : 0 <= n <= zlen l -> zlen (take (Z.to_nat n) l) = n.
Proof. unfold zlen. intros. rewrite length_take. lia. Qed.

Lemma Even_mod n : n mod 2 = 0 -> Z.Even n.
Proof. intros H. exists (n / 2). pose proof (Z.div_mod n 2). lia. Qed.

Section raw.
Context (t : target) (m : mem).
Implicit Types (o : Z) (l rest : list Z).

(** The whole words of a buffer that has an even length up to its last byte. *)
Lemma sum_even_spec o l rest n :
  0 <= o -> Forall byte l -> n / 2 * 2 = zlen l -> zlen l < 131072 ->
  drop (Z.to_nat o) m = l ++ rest ->
  exists val, sum_even t m o n = Ok (val, o + zlen l) /\
    0 <= val <= zlen l * weight t /\ ones val = ones (wsum l).
Proof.
  intros Ho Hl Hn Hlen Hd. assert (Hw : 0 < weight t) by (destruct t; cbn; lia).
  pose proof (zlen_nonneg l).
  assert (Hpair : forall rd, reads t m rd 2 -> exists val,
    sum_words t rd 2 (Z.to_nat (Z.shiftr n 1)) m o 0 = Ok (val, o + zlen l) /\
    0 <= val <= zlen l * weight t /\ ones val = ones (wsum l)).
  { intros rd Hrd. rewrite Z.shiftr_div_pow2 by done. change (2 ^ 1) with 2.
    destruct (sum_words_spec t m rd 2 (Z.to_nat (n / 2)) o l rest 0) as (v & E & Hv & Ov);
      [done|lia|by exists 1|lia|done|lia|done|lia|nia|]. exists v. split_and!; done || lia. }
  destruct t eqn:Et; cbn [sum_even];
    [|apply Hpair, reads_pair, rd_bytes_drop | apply Hpair, reads_pair, rd16_drop].
  rewrite truth_land_2, Z.shiftr_div_pow2 by done. change (2 ^ 2) with 4.
  set (l1 := take (Z.to_nat (n / 4 * 4)) l). set (l2 := drop (Z.to_nat (n / 4 * 4)) l).
  assert (El : l = l1 ++ l2) by (symmetry; apply take_drop).
  assert (H1 : zlen l1 = 4 * (n / 4)) by (unfold l1; rewrite take_zlen; word_lia).
  assert (Hs : zlen l = zlen l1 + zlen l2) by (rewrite El at 1; apply zlen_app).
  rewrite El, <- app_assoc in Hd. rewrite El in Hl. apply Forall_app in Hl as [Hl1 Hl2].
  destruct (sum_words_spec WIN64 m rd32 4 (Z.to_nat (n / 4)) o l1 (l2 ++ rest) 0)
    as (v & -> & Hv & Ov); [by apply reads_quad|lia|by exists 2|lia|done|word_lia|done|lia| |].
  { pose proof (zlen_nonneg l2). cbn [weight] in *. lia. }
  cbn [mbind res_bind]. pose proof (wsum_range l1 Hl1). pose proof (wsum_range l2 Hl2).
  apply drop_add in Hd; [|done]. rewrite El, wsum_app by (exists (2 * (n / 4)); lia).
  destruct (Z.eqb_spec ((n / 2) mod 2) 1).
  - assert (H2' : zlen l2 = 2) by word_lia.
    destruct (reads_pair WIN64 m rd16 (rd16_drop m) (o + zlen l1) l2 rest) as (x & -> & Hx & Ox);
      [lia|done..|].
    cbn [mbind res_bind]. rewrite <- El, Hs. cbn [weight] in *.
    exists (v + x). rewrite uptr_small by (cbn [weight]; lia).
    split; [do 2 f_equal; lia|]. split; [lia|]. rewrite Z.add_0_l in Ov. by apply ones_add2; try lia.
  - assert (l2 = []) as -> by (destruct l2; [done|]; rewrite zlen_cons in *; pose proof (zlen_nonneg l2); word_lia).
    rewrite app_nil_r. exists v. cbn [wsum]. rewrite Z.add_0_r. split_and!; done || lia.
Qed.

Lemma RawCheckSumCalculator_spec o l rest :
  0 <= o -> Forall byte l -> zlen l < 131072 -> drop (Z.to_nat o) m = l ++ rest ->
  exists raw, RawCheckSumCalculator t m o (zlen l) = Ok raw /\
    0 <= raw <= zlen l * weight t /\ ones raw = ones (wsum l).
Proof.
  intros Ho Hl Hlen Hd. assert (Hw : 32768 <= weight t) by (destruct t; cbn; lia).
  unfold RawCheckSumCalculator. rewrite truth_land_1. pose proof (zlen_nonneg l).
  set (n := zlen l / 2 * 2). set (l1 := take (Z.to_nat n) l). set (l2 := drop (Z.to_nat n) l).
  assert (El : l = l1 ++ l2) by (symmetry; apply take_drop).
  assert (H1 : zlen l1 = n) by (unfold l1, n; rewrite take_zlen; word_lia).
  assert (Hs : zlen l = zlen l1 + zlen l2) by (rewrite El at 1; apply zlen_app).
  rewrite El, <- app_assoc in Hd. rewrite El in Hl. apply Forall_app in Hl as [Hl1 Hl2].
  destruct (sum_even_spec o l1 (l2 ++ rest) (zlen l)) as (v & -> & Hv & Ov);
    [done|done|lia|pose proof (zlen_nonneg l2); lia|done|].
  cbn [mbind res_bind]. apply drop_add in Hd; [|done].
  assert (wsum l = wsum l1 + wsum l2) as ->
    by (rewrite El at 1; apply wsum_app; exists (zlen l / 2); lia).
  pose proof (wsum_range l1 Hl1).
  destruct (Z.eqb_spec (zlen l mod 2) 1).
  - destruct l2 as [|a [|b l2]]; rewrite ?zlen_cons, ?zlen_nil in Hs;
      try (pose proof (zlen_nonneg l2)); try word_lia.
    apply Forall_cons_1 in Hl2 as [Ha _]. unfold byte in Ha.
    rewrite (rd8_drop m _ a rest) by (done || lia). cbn [mbind res_bind wsum].
    exists (v + a). rewrite uptr_small by nia. split; [done|]. split; [nia|]. by apply ones_add; try lia.
  - assert (l2 = []) as -> by (destruct l2; [done|]; rewrite zlen_cons in *; pose proof (zlen_nonneg l2); word_lia).
    exists v. cbn [wsum]. rewrite Z.add_0_r. rewrite zlen_nil in Hs. split_and!; done || nia.
Qed.

End raw.

(** ** Folding *)

(** Adding the two halves of a word with the carry of the upper half. *)
Lemma fold_halves n s :
  0 < n -> 0 <= s < 2 ^ (2 * n) ->
  let r := Z.shiftr ((Z.lor (Z.shiftr s n) (Z.shiftl s n mod 2 ^ (2 * n)) + s) mod 2 ^ (2 * n)) n in
  exists k, 0 <= r < 2 ^ n /\ s = r + k * (2 ^ n - 1) /\ 0 <= k /\ (s = 0 <-> r = 0).
Proof.
  intros Hn Hs r. set (N := 2 ^ n) in *. assert (0 < N) by (apply Z.pow_pos_nonneg; lia).
  assert (HN : 2 ^ (2 * n) = N * N) by (rewrite Z.mul_comm, Z.pow_mul_r, Z.pow_2_r by lia; done).
  set (h := s / N). set (lo := s mod N).
  assert (Es : s = h * N + lo) by (unfold h, lo; pose proof (Z.div_mod s N); lia).
  assert (Hlo : 0 <= lo < N) by (by apply Z.mod_pos_bound).
  assert (Hh : 0 <= h < N)
    by (unfold h; split; [apply Z.div_pos; lia | apply Z.div_lt_upper_bound; lia]).
  assert (El : Z.shiftl s n mod 2 ^ (2 * n) = Z.shiftl lo n).
  { rewrite !Z.shiftl_mul_pow2, HN by lia. fold N. unfold lo.
    rewrite Z.mul_mod_distr_r by lia. done. }
  assert (Er : r = (h + lo * N + s) mod (N * N) / N).
  { unfold r. rewrite El, HN, !Z.shiftr_div_pow2 by lia. fold N. fold h.
    rewrite lor_shiftl_add by (fold N; lia). done. }
  rewrite Er. destruct (Z.lt_ge_cases (h + lo) N) as [Hc|Hc].
  - assert ((h + lo * N + s) mod (N * N) / N = h + lo) as ->.
    { rewrite Z.mod_small by nia. symmetry. apply (Z.div_unique_pos _ _ _ (h + lo)); nia. }
    exists h. split_and!; [lia|lia|nia|nia|nia].
  - assert ((h + lo * N + s) mod (N * N) / N = h + lo - N + 1) as ->.
    { replace ((h + lo * N + s) mod (N * N)) with (h + lo * N + s - N * N)
        by (apply (Z.mod_unique_pos _ _ 1); nia).
      symmetry. apply (Z.div_unique_pos _ _ _ (h + lo - N)); nia. }
    exists (h + 1). split_and!; [lia|lia|nia|nia|nia].
Qed.

Lemma fold_ones n s r k c :
  0 <= s -> 0 <= r -> 2 ^ n - 1 = c * 65535 -> s = r + k * (2 ^ n - 1) -> (s = 0 <-> r = 0) ->
  ones r = ones s.
Proof.
  intros Hs Hr Hc -> Hz. apply ones_eq; [done..|]. split; [|lia].
  rewrite Hc, Z.mul_assoc, Z.mod_add by lia. done.
Qed.

Lemma RawCheckSumFinalize_ones t s :
  0 <= s < 131072 * weight t -> RawCheckSumFinalize t s = 65535 - ones s.
Proof.
  intros Hs. unfold RawCheckSumFinalize.
  assert (exists s32, match t with WIN32 => s
     | _ => u32 (Z.shiftr (u64 (Z.lor (Z.shiftr s 32) (u64 (Z.shiftl s 32)) + s)) 32) end = s32
     /\ 0 <= s32 < 2 ^ 32 /\ ones s32 = ones s) as (s32 & -> & Hb & <-).
  { assert (Hf : t <> WIN32 -> exists s32,
      u32 (Z.shiftr (u64 (Z.lor (Z.shiftr s 32) (u64 (Z.shiftl s 32)) + s)) 32) = s32
      /\ 0 <= s32 < 2 ^ 32 /\ ones s32 = ones s).
    { intros Ht. destruct (fold_halves 32 s) as (k & Hr & Es & Hk & Hz);
        [lia|destruct t; cbn [weight] in Hs; (done || lia)|].
      eexists. split; [apply u32_small; exact Hr|]. split; [exact Hr|].
      eapply (fold_ones 32 _ _ k 65537); [lia|exact (proj1 Hr)|done|exact Es|exact Hz]. }
    destruct t; [by apply Hf..|]. exists s. cbn [weight] in Hs. split_and!; done || lia. }
  destruct (fold_halves 16 s32) as (k & Hr & Es & Hk & Hz); [lia|done|].
  set (r := Z.shiftr _ _) in *. rewrite (u16_small r) by done.
  assert (E : ones r = ones s32) by (eapply (fold_ones 16 _ _ k 1); [lia..|done|done|done]).
  rewrite ones_small in E by lia. rewrite <- E. unfold Z.lnot, u16.
  symmetry. apply (Z.mod_unique_pos _ _ (-1)); lia.
Qed.

(** ** The two calculators *)

Lemma CheckSumCalculatorFlat_ok t m o l rest :
  0 <= o -> Forall byte l -> zlen l < 131072 -> drop (Z.to_nat o) m = l ++ rest ->
  CheckSumCalculatorFlat t m o (zlen l) = Ok (rfc1071 l).
Proof.
  intros Ho Hl Hlen Hd. unfold CheckSumCalculatorFlat.
  destruct (RawCheckSumCalculator_spec t m o l rest) as (raw & -> & Hb & E); [done..|].
  cbn [mbind res_bind]. rewrite RawCheckSumFinalize_ones, E, rfc1071_ones; [done|done|].
  assert (0 < weight t) by (destruct t; cbn; lia). nia.
Qed.

(** ** Data in pages *)

(** The bytes in use are allocated; a page that another one follows holds an
    even number of bytes, so that no 16-bit word is split. *)
Record page_ok (p : tCompletePhysicalAddress) : Prop := {
  po_size : 0 <= size p < 4294967296;
  po_alloc : size p <= zlen (Virtual p);
  po_bytes : Forall byte (Virtual p) }.

Inductive pages_ok : list tCompletePhysicalAddress -> Prop :=
  | pages_nil : pages_ok []
  | pages_cons p ps :
      page_ok p -> (ps <> [] -> Z.Even (size p)) -> pages_ok ps -> pages_ok (p :: ps).

Definition page_data (p : tCompletePhysicalAddress) : list Z := take (Z.to_nat (size p)) (Virtual p).
Definition pages_data (pages : list tCompletePhysicalAddress) : list Z := concat (page_data <$> pages).

Lemma page_data_len p : page_ok p -> zlen (page_data p) = size p.
Proof. intros [? ? _]. apply take_zlen. lia. Qed.

Lemma page_data_bytes p : page_ok p -> Forall byte (page_data p).
Proof. intros H. by apply Forall_take, po_bytes. Qed.

Lemma pages_data_cons p pages : pages_data (p :: pages) = page_data p ++ pages_data pages.
Proof. done. Qed.

Lemma zlen_pages_nil : zlen (pages_data []) = 0.
Proof. done. Qed.

Lemma pages_data_bytes pages : pages_ok pages -> Forall byte (pages_data pages).
Proof.
  induction 1 as [|p pages Hp _ _ IH]; [constructor|]. cbn. apply Forall_app. split; [|done].
  by apply page_data_bytes.
Qed.

Lemma drop_app_zlen (l1 l2 : list Z) n :
  zlen l1 <= n -> drop (Z.to_nat n) (l1 ++ l2) = drop (Z.to_nat (n - zlen l1)) l2.
Proof. intros. unfold zlen in *. rewrite drop_app_ge by lia. f_equal. lia. Qed.

Lemma even_sub a b : Z.Even a -> Z.Even b -> Z.Even (a - b).
Proof. intros [x ->] [y ->]. exists (x - y). lia. Qed.

Definition in_head (pages : list tCompletePhysicalAddress) (off : Z) : Prop :=
  0 <= off /\ Z.Even off /\ match pages with [] => off = 0 | p :: _ => off <= size p end.

Lemma seek_page_spec pages cur start :
  pages_ok pages -> 0 < start -> Z.Even start -> start <= zlen (pages_data pages) ->
  exists pages' off, seek_page pages cur start = Ok (pages', off) /\ pages_ok pages' /\
    in_head pages' off /\
    drop (Z.to_nat off) (pages_data pages') = drop (Z.to_nat start) (pages_data pages).
Proof.
  intros Hp. revert cur start. induction Hp as [|p pages Hok Hev Hpages IH]; intros cur start Hs He Hle.
  - rewrite zlen_pages_nil in Hle. lia.
  - cbn [seek_page]. replace (start >? 0) with true by lia.
    rewrite pages_data_cons, zlen_app, page_data_len in Hle by done. pose proof (po_size _ Hok).
    destruct (Z.ltb_spec (Z.min (size p) start) start).
    + rewrite Z.min_l by lia.
      destruct (IH (size p) (start - size p)) as (pages' & off & -> & H1 & H2 & H3); [lia| |lia|].
      { apply even_sub; [done|]. apply Hev. intros ->. rewrite zlen_pages_nil in Hle. lia. }
      exists pages', off. split_and!; [done..|]. rewrite H3, pages_data_cons.
      rewrite drop_app_zlen, page_data_len by (rewrite ?page_data_len; done || lia). done.
    + exists (p :: pages), start. rewrite Z.min_r by lia.
      split_and!; [done|by constructor|by split_and!; try lia|done].
Qed.

Lemma sum_pages_spec t pages off len acc :
  pages_ok pages -> in_head pages off ->
  0 <= len -> off + len <= zlen (pages_data pages) ->
  0 <= acc -> acc + len * weight t < 131072 * weight t ->
  exists raw, sum_pages t pages off len acc = Ok raw /\
    acc <= raw <= acc + len * weight t /\
    ones raw = ones (acc + wsum (slice (pages_data pages) off len)).
Proof.
  intros Hp. revert off len acc. assert (Hw : 0 < weight t) by (destruct t; cbn; lia).
  assert (Hzero : forall pages off acc, 0 <= acc -> exists raw, Ok acc = Ok raw /\
    acc <= raw <= acc + 0 * weight t /\ ones raw = ones (acc + wsum (slice (pages_data pages) off 0))).
  { intros ps o a Ha. exists a. change (slice (pages_data ps) o 0) with (@nil Z). cbn [wsum].
    rewrite Z.mul_0_l, !Z.add_0_r.
    split_and!; done || lia. }
  induction Hp as [|p pages Hok Hev Hpages IH]; intros off len acc (Ho & He & Hh) Hlen Hle Ha Hb;
    cbn [sum_pages]; (destruct (Z.gtb_spec len 0); [|replace len with 0 by lia; by apply Hzero]).
  - rewrite zlen_pages_nil in Hle. lia.
  - pose proof (po_size _ Hok). rewrite u32_small by lia.
    rewrite pages_data_cons, zlen_app, page_data_len in Hle by done.
    set (n := Z.min len (size p - off)).
    set (l1 := slice (page_data p) off n).
    assert (Hl1 : zlen l1 = n).
    { unfold l1, slice. apply take_zlen. unfold n, zlen in *. rewrite length_drop.
      pose proof (page_data_len p Hok). unfold zlen in *. lia. }
    assert (Hd : drop (Z.to_nat off) (Virtual p) =
      l1 ++ drop (Z.to_nat n) (drop (Z.to_nat off) (Virtual p))).
    { unfold l1, slice, page_data. rewrite skipn_firstn_comm, take_take.
      rewrite Nat.min_l by lia. by rewrite take_drop. }
    assert (Hby : Forall byte l1) by (by apply Forall_take, Forall_drop, page_data_bytes).
    destruct (RawCheckSumCalculator_spec t _ off l1 _ Ho Hby ltac:(nia) Hd) as (raw & Eraw & Hraw & Oraw).
    rewrite Hl1 in Eraw, Hraw. rewrite Eraw. cbn [mbind res_bind].
    rewrite uptr_small by nia.
    destruct (IH 0 (len - n) (acc + raw)) as (r & -> & Hr & Or); [| lia | | lia | nia |].
    { split_and!; [done|by exists 0|]. destruct Hpages as [|? ? Hq]; [done|]. apply Hq. }
    { pose proof (zlen_nonneg (pages_data pages)). unfold n. lia. }
    exists r. split; [done|]. split; [nia|]. rewrite Or.
    set (l2 := slice (pages_data pages) 0 (len - n)).
    assert (Es : slice (pages_data (p :: pages)) off len = l1 ++ l2).
    { unfold l1, l2, slice. rewrite pages_data_cons, drop_0.
      pose proof (page_data_len p Hok) as Hpd.
      rewrite drop_app_le by (unfold zlen in Hpd; lia). rewrite take_app.
      rewrite length_drop. unfold zlen in Hpd.
      f_equal; [|f_equal; lia]. unfold n. destruct (Z.min_spec len (size p - off)) as [[? ->]|[? ->]]; [done|].
      rewrite !take_ge; [done|rewrite length_drop; lia..]. }
    assert (Hby2 : Forall byte l2) by (by apply Forall_take, Forall_drop, pages_data_bytes).
    pose proof (wsum_range _ Hby). pose proof (wsum_range _ Hby2).
    rewrite Es. destruct (decide (len - n = 0)) as [E0|E0].
    + assert (l2 = []) as -> by (unfold l2, slice; by rewrite E0).
      rewrite app_nil_r. cbn [wsum]. rewrite !Z.add_0_r. rewrite !(Z.add_comm acc). apply ones_add; lia.
    + rewrite wsum_app.
      * rewrite (Z.add_assoc acc). apply ones_add; [lia..|]. rewrite !(Z.add_comm acc). apply ones_add; lia.
      * rewrite Hl1. unfold n. rewrite Z.min_r by lia. apply even_sub; [|done].
        apply Hev. intros ->. rewrite zlen_pages_nil in Hle. unfold n in E0. lia.
Qed.

Lemma CheckSumCalculator_ok t pages start len :
  pages_ok pages -> 0 <= start -> Z.Even start -> 0 <= len < 131072 ->
  start + len <= zlen (pages_data pages) ->
  CheckSumCalculator t pages start len = Ok (rfc1071 (slice (pages_data pages) start len)).
Proof.
  intros Hp Hs He Hlen Hle. unfold CheckSumCalculator.
  assert (exists pages' off, seek_page pages 0 start = Ok (pages', off) /\ pages_ok pages' /\
    in_head pages' off /\
    drop (Z.to_nat off) (pages_data pages') = drop (Z.to_nat start) (pages_data pages))
    as (pages' & off & -> & Hp' & Hh & Hd).
  { destruct (decide (start = 0)) as [->|]; [|apply seek_page_spec; done || lia].
    exists pages, 0. split_and!; [by destruct pages|done| |done].
    split_and!; [done|by exists 0|]. destruct Hp as [|? ? Hq]; [done|]. apply Hq. }
  cbn [mbind res_bind]. assert (0 < weight t) by (destruct t; cbn; lia).
  pose proof (f_equal length Hd) as Hl. rewrite !length_drop in Hl. destruct Hh as (Ho & Hh).
  destruct (decide (len = 0)) as [->|].
  { assert (sum_pages t pages' off 0 0 = Ok 0) as -> by (by destruct pages').
    cbn [mbind res_bind]. by destruct t. }
  destruct (sum_pages_spec t pages' off len 0) as (raw & -> & Hr & Er);
    [done|done|lia|unfold zlen in *; lia|lia|nia|].
  cbn [mbind res_bind]. rewrite RawCheckSumFinalize_ones by nia.
  rewrite Er, Z.add_0_l, rfc1071_ones; [unfold slice; by rewrite Hd|].
  by apply Forall_take, Forall_drop, pages_data_bytes.
Qed.

