(* ===== verification/NetOffload.v ===== *)
(** * Checksum offload of NetKVM

    Packet classification and checksum verification of
    NetKVM/Common/sw_offload.cpp and their use on receive
    ([ParaNdis_CheckRxChecksum] of ParaNdis_Common.cpp).  A pointer to a header is
    an offset into the memory of the first page; header fields are the offsets of
    the structures of NetKVM/Common/ethernetutils.h. *)

From Stdlib Require Import ZArith Lia.
From stdpp Require Import base list numbers.
From S2P Require Import Prelude.
From S2P Require Import NetChecksum.

(** ** Constants *)

Definition PROTOCOL_TCP : Z := 6.
Definition PROTOCOL_UDP : Z := 17.
Definition MAX_SUPPORTED_IPV6_HEADERS : Z := 256 - 4.

(** [sizeof] of the headers. *)
Definition sizeof_IPv4Header : Z := 20.
Definition sizeof_IPv6Header : Z := 40.
Definition sizeof_TCPHeader : Z := 20.
Definition sizeof_UDPHeader : Z := 8.

(** [FIELD_OFFSET] of the fields used. *)
Definition ip_verlen : Z := 0.
Definition ip_length : Z := 2.
Definition ip_offset : Z := 6.
Definition ip_protocol : Z := 9.
Definition ip_xsum : Z := 10.
Definition ip_src : Z := 12.
Definition ip_dest : Z := 16.
Definition ip6_ver_tc : Z := 0.
Definition ip6_payload_len : Z := 4.
Definition ip6_next_header : Z := 6.
Definition ip6_src_address : Z := 8.
Definition ip6_dst_address : Z := 24.
Definition ip6ext_next_header : Z := 0.
Definition ip6ext_hdr_len : Z := 1.
Definition tcp_flags : Z := 12.
Definition tcp_xsum : Z := 16.
Definition udp_length : Z := 4.
Definition udp_xsum : Z := 6.

(** [enum class ppResult]; its values are shared by the fields. *)
Definition ppresNotIP : Z := 1.
Definition ppresIPV4 : Z := 2.
Definition ppresIPV6 : Z := 3.
Definition ppresIPTooShort : Z := 1.
Definition ppresPCSOK : Z := 1.
Definition ppresCSOK : Z := 2.
Definition ppresCSBad : Z := 3.
Definition ppresXxpOther : Z := 1.
Definition ppresXxpKnown : Z := 2.
Definition ppresXxpIncomplete : Z := 3.
Definition ppresIsTCP : Z := 0.
Definition ppresIsUDP : Z := 1.

(** [enum class tPacketOffloadRequest] *)
Definition pcrIpChecksum : Z := BIT 0.
Definition pcrTcpV4Checksum : Z := BIT 1.
Definition pcrUdpV4Checksum : Z := BIT 2.
Definition pcrTcpV6Checksum : Z := BIT 3.
Definition pcrUdpV6Checksum : Z := BIT 4.
Definition pcrTcpChecksum : Z := Z.lor pcrTcpV4Checksum pcrTcpV6Checksum.
Definition pcrUdpChecksum : Z := Z.lor pcrUdpV4Checksum pcrUdpV6Checksum.
Definition pcrFixIPChecksum : Z := BIT 7.
Definition pcrFixPHChecksum : Z := BIT 8.
Definition pcrFixTcpV4Checksum : Z := BIT 9.
Definition pcrFixUdpV4Checksum : Z := BIT 10.
Definition pcrFixTcpV6Checksum : Z := BIT 11.
Definition pcrFixUdpV6Checksum : Z := BIT 12.
Definition pcrFixXxpChecksum : Z :=
  Z.lor pcrFixTcpV4Checksum (Z.lor pcrFixUdpV4Checksum (Z.lor pcrFixTcpV6Checksum pcrFixUdpV6Checksum)).

(** [union tTcpIpPacketParsingResult]: bit fields of 2, 1 and 8 bits. *)
Record tTcpIpPacketParsingResult := mk_ppr {
  ipStatus : Z; ipCheckSum : Z; xxpCheckSum : Z; xxpStatus : Z; xxpFull : bool; TcpUdp : Z;
  fixedIpCS : bool; fixedXxpCS : bool; IsFragment : bool; ipHeaderSize : Z; XxpIpHeaderSize : Z }.
#[export] Instance eta_ppr : Eta tTcpIpPacketParsingResult :=
  fun r => mk_ppr (ipStatus r) (ipCheckSum r) (xxpCheckSum r) (xxpStatus r) (xxpFull r) (TcpUdp r)
    (fixedIpCS r) (fixedXxpCS r) (IsFragment r) (ipHeaderSize r) (XxpIpHeaderSize r).

(** [res.value = 0] *)
Definition ppr_zero : tTcpIpPacketParsingResult :=
  mk_ppr 0 0 0 0 false 0 false false false 0 0.

(** ** Classification *)

Definition TCP_HEADER_LENGTH (flags : Z) : Z := Z.shiftr (Z.land flags 0xF0) 2.

Definition ProcessTCPHeader (_res : tTcpIpPacketParsingResult) (m : mem) (pIpHeader len ipHSize : Z) :
    res tTcpIpPacketParsingResult :=
  let tcpipDataAt := ipHSize + sizeof_TCPHeader in
  let r := _res <| TcpUdp := ppresIsTCP |> in
  if len >=? tcpipDataAt then
    flags ← rd16 m (pIpHeader + ipHSize + tcp_flags);
    Ok (r <| xxpStatus := ppresXxpKnown |> <| xxpFull := true |>
          <| XxpIpHeaderSize := u8 (ipHSize + TCP_HEADER_LENGTH flags) |>)
  else Ok (r <| xxpFull := false |> <| xxpStatus := ppresXxpIncomplete |>).

Definition ProcessUDPHeader (_res : tTcpIpPacketParsingResult) (m : mem) (pIpHeader len ipHSize : Z) :
    res tTcpIpPacketParsingResult :=
  let udpDataStart := ipHSize + sizeof_UDPHeader in
  let r := _res <| TcpUdp := ppresIsUDP |> <| XxpIpHeaderSize := u8 udpDataStart |> in
  if len >=? udpDataStart then
    datagramLength ← rd16 m (pIpHeader + ipHSize + udp_length);
    Ok (r <| xxpStatus := ppresXxpKnown |> <| xxpFull := true |>)
  else Ok (r <| xxpFull := false |> <| xxpStatus := ppresXxpIncomplete |>).

(** The extension headers that the loop steps over. *)
Definition is_ext_header (h : Z) : bool :=
  (h =? 0) || (h =? 60) || (h =? 43) || (h =? 44) || (h =? 51) || (h =? 50) || (h =? 135).

(** [while (nextHeader != 59)] *)
Fixpoint ext_loop (fuel : nat) (m : mem) (p len fullLength nextHeader ipHSize : Z)
    (r : tTcpIpPacketParsingResult) : res (Z * tTcpIpPacketParsingResult) :=
  match fuel with
  | O => Fault OutOfFuel
  | S fuel =>
      if nextHeader =? 59 then Ok (ipHSize, r)
      else if nextHeader =? PROTOCOL_TCP then
        r ← ProcessTCPHeader (r <| xxpStatus := ppresXxpKnown |> <| TcpUdp := ppresIsTCP |>
                                <| xxpFull := len >=? fullLength |>) m p len ipHSize;
        Ok (ipHSize, r)
      else if nextHeader =? PROTOCOL_UDP then
        r ← ProcessUDPHeader (r <| xxpStatus := ppresXxpKnown |> <| TcpUdp := ppresIsUDP |>
                                <| xxpFull := len >=? fullLength |>) m p len ipHSize;
        Ok (ipHSize, r)
      else if is_ext_header nextHeader then
        if len >=? ipHSize + 8 then
          nextHeader ← rd8 m (p + ipHSize + ip6ext_next_header);
          hlen ← rd8 m (p + ipHSize + ip6ext_hdr_len);
          ext_loop fuel m p len fullLength nextHeader (u16 (u16 (ipHSize + 8) + hlen * 8)) r
        else Ok (ipHSize, r <| ipStatus := ppresNotIP |>)
      else Ok (ipHSize, r <| xxpStatus := ppresXxpOther |>)
  end.

(** The branch for version 4, with the common part below it. *)
Definition qualify_v4 (m : mem) (p len : Z) (verifyLength : bool) (ver_len : Z) :
    res tTcpIpPacketParsingResult :=
  let r := ppr_zero in
  if len <? sizeof_IPv4Header then Ok (r <| ipStatus := ppresNotIP |>)
  else
    let ipHSize := Z.shiftl (Z.land ver_len 0xF) 2 in
    l ← rd16 m (p + ip_length);
    let fullLength := swap_short l in
    if negb (ipHSize >=? sizeof_IPv4Header) then Ok (r <| ipStatus := ppresNotIP |>)
    else
      let r := r <| ipStatus := ppresIPV4 |> in
      if (ipHSize >=? fullLength) || (verifyLength && (len <? fullLength)) then
        Ok (r <| ipCheckSum := ppresIPTooShort |>)
      else
        let r := r <| ipHeaderSize := u8 ipHSize |> in
        off ← rd16 m (p + ip_offset);
        let r := r <| IsFragment := negb (Z.land off (Z.lnot 0xC0) =? 0) |> in
        proto ← rd8 m (p + ip_protocol);
        if proto =? PROTOCOL_TCP then ProcessTCPHeader r m p len ipHSize
        else if proto =? PROTOCOL_UDP then ProcessUDPHeader r m p len ipHSize
        else Ok (r <| xxpStatus := ppresXxpOther |>).

Definition qualify_v6 (fuel : nat) (m : mem) (p len : Z) (verifyLength : bool) :
    res tTcpIpPacketParsingResult :=
  let r := ppr_zero in
  if len <? sizeof_IPv6Header then Ok (r <| ipStatus := ppresNotIP |>)
  else
    nextHeader ← rd8 m (p + ip6_next_header);
    let ipHSize := sizeof_IPv6Header in
    let r := r <| ipStatus := ppresIPV6 |> <| ipCheckSum := ppresCSOK |> in
    l ← rd16 m (p + ip6_payload_len);
    let fullLength := u16 (swap_short l + ipHSize) in
    if verifyLength && (len <? fullLength) then Ok (r <| ipStatus := ppresNotIP |>)
    else
      '(ipHSize, r) ← ext_loop fuel m p len fullLength nextHeader ipHSize r;
      if (ipHSize <=? MAX_SUPPORTED_IPV6_HEADERS) && (ipHSize <=? fullLength)
      then Ok (r <| ipHeaderSize := u8 ipHSize |>)
      else Ok (r <| ipStatus := ppresNotIP |>).

Definition QualifyIpPacket (fuel : nat) (m : mem) (pIpHeader len : Z) (verifyLength : bool) :
    res tTcpIpPacketParsingResult :=
  if len <? 4 then Ok (ppr_zero <| ipStatus := ppresNotIP |>)
  else
    ver_len ← rd8 m (pIpHeader + ip_verlen);
    let ip_version := Z.shiftr (Z.land ver_len 0xF0) 4 in
    if ip_version =? 4 then qualify_v4 m pIpHeader len verifyLength ver_len
    else if ip_version =? 6 then qualify_v6 fuel m pIpHeader len verifyLength
    else Ok (ppr_zero <| ipStatus := ppresNotIP |>).

Definition ParaNdis_ReviewIPPacket (fuel : nat) (buffer : mem) (size : Z) (verifyLength : bool) :
    res tTcpIpPacketParsingResult :=
  QualifyIpPacket fuel buffer 0 size verifyLength.

(** ** Checksums of a packet *)

(** [n] bytes from [o] on. *)
Definition rd_range (m : mem) (o n : Z) : res (list Z) :=
  if (0 <=? o) && (o + n <=? zlen m) then Ok (take (Z.to_nat n) (drop (Z.to_nat o) m))
  else Fault OutOfBounds.

Definition le16 (v : Z) : list Z := [u8 v; u8 (Z.shiftr v 8)].

Definition IP_HEADER_LENGTH (verlen : Z) : Z := Z.shiftl (Z.land verlen 0x0F) 2.

Definition CalculateIpChecksum (t : target) (m : mem) (pIpHeader : Z) : res mem :=
  m ← wr16 m (pIpHeader + ip_xsum) 0;
  verlen ← rd8 m (pIpHeader + ip_verlen);
  x ← CheckSumCalculatorFlat t m pIpHeader (IP_HEADER_LENGTH verlen);
  wr16 m (pIpHeader + ip_xsum) x.

Definition GetXxpHeaderAndPayloadLen (m : mem) (pIpHeader : Z) (r : tTcpIpPacketParsingResult) : res Z :=
  if ipStatus r =? ppresIPV4 then
    verlen ← rd8 m (pIpHeader + ip_verlen);
    l ← rd16 m (pIpHeader + ip_length);
    Ok (u16 (swap_short l - IP_HEADER_LENGTH verlen))
  else if ipStatus r =? ppresIPV6 then
    l ← rd16 m (pIpHeader + ip6_payload_len);
    Ok (u16 (swap_short l + sizeof_IPv6Header - ipHeaderSize r))
  else Ok 0.

(** [tIPv4PseudoHeader] in memory: source, destination, zero, protocol, length. *)
Definition CalculateIpv4PseudoHeaderChecksum (t : target) (m : mem) (pIpHeader headerAndPayloadLen : Z) :
    res Z :=
  ipph_src ← rd_range m (pIpHeader + ip_src) 4;
  ipph_dest ← rd_range m (pIpHeader + ip_dest) 4;
  proto ← rd8 m (pIpHeader + ip_protocol);
  let ipph := ipph_src ++ ipph_dest ++ [0; proto] ++ le16 (swap_short headerAndPayloadLen) in
  checksum ← CheckSumCalculatorFlat t ipph 0 12;
  Ok (u16 (Z.lnot checksum)).

(** [tIPv6PseudoHeader]: source, destination, length (32 bits), zeros, protocol. *)
Definition CalculateIpv6PseudoHeaderChecksum (t : target) (m : mem) (pIpHeader headerAndPayloadLen : Z) :
    res Z :=
  ipph_src ← rd_range m (pIpHeader + ip6_src_address) 16;
  ipph_dest ← rd_range m (pIpHeader + ip6_dst_address) 16;
  proto ← rd8 m (pIpHeader + ip6_next_header);
  let ipph := ipph_src ++ ipph_dest ++ le16 (swap_short headerAndPayloadLen) ++ [0; 0; 0; 0; 0; proto] in
  checksum ← CheckSumCalculatorFlat t ipph 0 40;
  Ok (u16 (Z.lnot checksum)).

Definition CalculateIpPseudoHeaderChecksum (t : target) (m : mem) (pIpHeader : Z)
    (r : tTcpIpPacketParsingResult) (headerAndPayloadLen : Z) : res Z :=
  if ipStatus r =? ppresIPV4 then CalculateIpv4PseudoHeaderChecksum t m pIpHeader headerAndPayloadLen
  else if ipStatus r =? ppresIPV6 then CalculateIpv6PseudoHeaderChecksum t m pIpHeader headerAndPayloadLen
  else Ok 0.

Definition CompareNetCheckSumOnEndSystem (computedChecksum arrivedChecksum : Z) : bool :=
  computedChecksum =? (if arrivedChecksum =? 0xFFFF then 0 else arrivedChecksum).

Definition VerifyIpChecksum (t : target) (m : mem) (pIpHeader : Z) (known : tTcpIpPacketParsingResult)
    (bFix : bool) : res (mem * tTcpIpPacketParsingResult) :=
  let r := known in
  if negb (ipCheckSum r =? ppresIPTooShort) then
    saved ← rd16 m (pIpHeader + ip_xsum);
    m ← CalculateIpChecksum t m pIpHeader;
    x ← rd16 m (pIpHeader + ip_xsum);
    let r := r <| ipCheckSum := if CompareNetCheckSumOnEndSystem x saved then ppresCSOK else ppresCSBad |> in
    if negb bFix then m ← wr16 m (pIpHeader + ip_xsum) saved; Ok (m, r)
    else Ok (m, r <| fixedIpCS := ipCheckSum r =? ppresCSBad |>)
  else Ok (m, r).

(** The first page, and a 16-bit store into it. *)
Definition page0 (pages : list tCompletePhysicalAddress) : res mem :=
  match pages with p :: _ => Ok (Virtual p) | [] => Fault OutOfBounds end.
Definition store16 (pages : list tCompletePhysicalAddress) (o v : Z) :
    res (list tCompletePhysicalAddress) :=
  match pages with
  | p :: ps => m ← wr16 (Virtual p) o v; Ok (p <| Virtual := m |> :: ps)
  | [] => Fault OutOfBounds
  end.

(** [CalculateTcpChecksumGivenPseudoCS] and [CalculateUdpChecksumGivenPseudoCS]:
    the checksum field is at [xsum]. *)
Definition CalculateChecksumGivenPseudoCS (t : target) (xsum : Z)
    (pDataPages : list tCompletePhysicalAddress) (ulStartOffset length : Z) :
    res (list tCompletePhysicalAddress) :=
  x ← CheckSumCalculator t pDataPages ulStartOffset length;
  store16 pDataPages xsum x.

Definition verified := (list tCompletePhysicalAddress * tTcpIpPacketParsingResult)%type.

(** Compare the field with the value that arrived. *)
Definition note_match (pages : list tCompletePhysicalAddress) (xsum saved : Z)
    (r : tTcpIpPacketParsingResult) : res tTcpIpPacketParsingResult :=
  m ← page0 pages;
  x ← rd16 m xsum;
  Ok (if CompareNetCheckSumOnEndSystem x saved then r <| xxpCheckSum := ppresCSOK |> else r).

Definition VerifyTcpChecksum (t : target) (pDataPages : list tCompletePhysicalAddress)
    (ulDataLength ulStartOffset : Z) (known : tTcpIpPacketParsingResult) (whatToFix : Z) : res verified :=
  let r := known in
  m ← page0 pDataPages;
  let pTcpHeader := ulStartOffset + ipHeaderSize r in
  saved ← rd16 m (pTcpHeader + tcp_xsum);
  xxpLen ← GetXxpHeaderAndPayloadLen m ulStartOffset r;
  if ulDataLength >=? ipHeaderSize r then
    phcs ← CalculateIpPseudoHeaderChecksum t m ulStartOffset r xxpLen;
    let r := r <| xxpCheckSum := if CompareNetCheckSumOnEndSystem phcs saved then ppresPCSOK else ppresCSBad |> in
    if negb (xxpCheckSum r =? ppresPCSOK) || truth whatToFix then
      if truth (Z.land whatToFix pcrFixPHChecksum) then
        if ulDataLength >=? ipHeaderSize r + sizeof_TCPHeader then
          pages ← store16 pDataPages (pTcpHeader + tcp_xsum) phcs;
          Ok (pages, r <| fixedXxpCS := negb (xxpCheckSum r =? ppresPCSOK) |>)
        else Ok (pDataPages, r <| xxpStatus := ppresXxpIncomplete |>)
      else if xxpFull r then
        pages ← store16 pDataPages (pTcpHeader + tcp_xsum) phcs;
        pages ← CalculateChecksumGivenPseudoCS t (pTcpHeader + tcp_xsum) pages
                  (ulStartOffset + ipHeaderSize r) xxpLen;
        r ← note_match pages (pTcpHeader + tcp_xsum) saved r;
        if negb (truth (Z.land whatToFix pcrFixXxpChecksum)) then
          pages ← store16 pages (pTcpHeader + tcp_xsum) saved; Ok (pages, r)
        else Ok (pages, r <| fixedXxpCS := (xxpCheckSum r =? ppresCSBad) || (xxpCheckSum r =? ppresPCSOK) |>)
      else if truth whatToFix then Ok (pDataPages, r <| xxpStatus := ppresXxpIncomplete |>)
      else Ok (pDataPages, r)
    else if xxpFull r then
      pages ← CalculateChecksumGivenPseudoCS t (pTcpHeader + tcp_xsum) pDataPages
                (ulStartOffset + ipHeaderSize r) xxpLen;
      r ← note_match pages (pTcpHeader + tcp_xsum) saved r;
      pages ← store16 pages (pTcpHeader + tcp_xsum) saved;
      Ok (pages, r)
    else Ok (pDataPages, r)
  else Ok (pDataPages, r <| ipCheckSum := ppresIPTooShort |>).

Definition VerifyUdpChecksum (t : target) (pDataPages : list tCompletePhysicalAddress)
    (ulDataLength ulStartOffset : Z) (known : tTcpIpPacketParsingResult) (whatToFix : Z) : res verified :=
  let r := known in
  m ← page0 pDataPages;
  let pUdpHeader := ulStartOffset + ipHeaderSize r in
  saved ← rd16 m (pUdpHeader + udp_xsum);
  xxpLen ← GetXxpHeaderAndPayloadLen m ulStartOffset r;
  if ulDataLength >=? ipHeaderSize r then
    phcs ← CalculateIpPseudoHeaderChecksum t m ulStartOffset r xxpLen;
    let r := r <| xxpCheckSum := if CompareNetCheckSumOnEndSystem phcs saved then ppresPCSOK else ppresCSBad |> in
    if truth (Z.land whatToFix pcrFixPHChecksum) then
      if ulDataLength >=? ipHeaderSize r + sizeof_UDPHeader then
        pages ← store16 pDataPages (pUdpHeader + udp_xsum) phcs;
        Ok (pages, r <| fixedXxpCS := negb (xxpCheckSum r =? ppresPCSOK) |>)
      else Ok (pDataPages, r <| xxpStatus := ppresXxpIncomplete |>)
    else if negb (xxpCheckSum r =? ppresPCSOK) || truth (Z.land whatToFix pcrFixXxpChecksum) then
      if xxpFull r then
        pages ← store16 pDataPages (pUdpHeader + udp_xsum) phcs;
        pages ← CalculateChecksumGivenPseudoCS t (pUdpHeader + udp_xsum) pages
                  (ulStartOffset + ipHeaderSize r) xxpLen;
        r ← note_match pages (pUdpHeader + udp_xsum) saved r;
        if negb (truth (Z.land whatToFix pcrFixXxpChecksum)) then
          pages ← store16 pages (pUdpHeader + udp_xsum) saved; Ok (pages, r)
        else Ok (pages, r <| fixedXxpCS := (xxpCheckSum r =? ppresCSBad) || (xxpCheckSum r =? ppresPCSOK) |>)
      else Ok (pDataPages, r <| xxpCheckSum := ppresXxpIncomplete |>)
    else if xxpFull r then
      pages ← CalculateChecksumGivenPseudoCS t (pUdpHeader + udp_xsum) pDataPages
                (ulStartOffset + ipHeaderSize r) xxpLen;
      r ← note_match pages (pUdpHeader + udp_xsum) saved r;
      pages ← store16 pages (pUdpHeader + udp_xsum) saved;
      Ok (pages, r)
    else Ok (pDataPages, r)
  else Ok (pDataPages, r <| ipCheckSum := ppresIPTooShort |>).

(** The TCP or UDP part of [ParaNdis_CheckSumVerify] for one IP version. *)
Definition verify_xxp (t : target) (pages : list tCompletePhysicalAddress) (ulDataLength ulStartOffset flags : Z)
    (r : tTcpIpPacketParsingResult) (tcpFlag udpFlag fixTcp fixUdp : Z) : res verified :=
  if xxpStatus r =? ppresXxpKnown then
    if TcpUdp r =? ppresIsTCP then
      if truth (Z.land flags tcpFlag) then
        VerifyTcpChecksum t pages ulDataLength ulStartOffset r (Z.land flags (Z.lor pcrFixPHChecksum fixTcp))
      else Ok (pages, r)
    else if truth (Z.land flags udpFlag) then
      VerifyUdpChecksum t pages ulDataLength ulStartOffset r (Z.land flags (Z.lor pcrFixPHChecksum fixUdp))
    else Ok (pages, r)
  else Ok (pages, r).

Definition ParaNdis_CheckSumVerify (fuel : nat) (t : target) (pDataPages : list tCompletePhysicalAddress)
    (ulDataLength ulStartOffset flags : Z) (verifyLength : bool) : res verified :=
  m ← page0 pDataPages;
  r ← QualifyIpPacket fuel m ulStartOffset ulDataLength verifyLength;
  if (ipStatus r =? ppresNotIP) || (ipCheckSum r =? ppresIPTooShort) then Ok (pDataPages, r)
  else if ipStatus r =? ppresIPV4 then
    '(pages, r) ←
      (if truth (Z.land flags pcrIpChecksum) then
         '(m, r) ← VerifyIpChecksum t m ulStartOffset r (negb (Z.land flags pcrFixIPChecksum =? 0));
         match pDataPages with
         | p :: ps => Ok (p <| Virtual := m |> :: ps, r)
         | [] => Fault OutOfBounds
         end
       else Ok (pDataPages, r));
    verify_xxp t pages ulDataLength ulStartOffset flags r
      pcrTcpV4Checksum pcrUdpV4Checksum pcrFixTcpV4Checksum pcrFixUdpV4Checksum
  else if ipStatus r =? ppresIPV6 then
    verify_xxp t pDataPages ulDataLength ulStartOffset flags r
      pcrTcpV6Checksum pcrUdpV6Checksum pcrFixTcpV6Checksum pcrFixUdpV6Checksum
  else Ok (pDataPages, r).

Definition ParaNdis_CheckSumVerifyFlat (fuel : nat) (t : target) (pBuffer : mem) (ulDataLength flags : Z)
    (verifyLength : bool) : res verified :=
  ParaNdis_CheckSumVerify fuel t [mk_page pBuffer ulDataLength] ulDataLength 0 flags verifyLength.

(** ** Receive *)

Definition VIRTIO_NET_HDR_F_NEEDS_CSUM : Z := 1.
Definition VIRTIO_NET_HDR_F_DATA_VALID : Z := 2.
Definition ETH_HEADER_SIZE : Z := 14.

(** The receive flags of [tOffloadSettingsFlags]. *)
Record tOffloadSettingsFlags := mk_offload {
  fRxIPChecksum : bool; fRxTCPChecksum : bool; fRxUDPChecksum : bool;
  fRxTCPv6Checksum : bool; fRxUDPv6Checksum : bool }.

Record tChecksumCheckResult := mk_cs {
  TcpFailed : bool; UdpFailed : bool; IpFailed : bool; TcpOK : bool; UdpOK : bool; IpOK : bool }.
#[export] Instance eta_cs : Eta tChecksumCheckResult :=
  fun r => mk_cs (TcpFailed r) (UdpFailed r) (IpFailed r) (TcpOK r) (UdpOK r) (IpOK r).
Definition cs_zero : tChecksumCheckResult := mk_cs false false false false false false.

(** [flagsToCalculate] *)
Definition rx_flags (f : tOffloadSettingsFlags) (virtioFlags : Z) : Z :=
  let on (b : bool) x := if b then x else 0 in
  let ip := on (fRxIPChecksum f) pcrIpChecksum in
  if truth (Z.land virtioFlags VIRTIO_NET_HDR_F_DATA_VALID) then ip
  else if truth (Z.land virtioFlags VIRTIO_NET_HDR_F_NEEDS_CSUM) then
    Z.lor ip (Z.lor pcrFixXxpChecksum (Z.lor pcrTcpChecksum pcrUdpChecksum))
  else
    Z.lor ip (Z.lor (on (fRxTCPChecksum f) pcrTcpV4Checksum)
             (Z.lor (on (fRxUDPChecksum f) pcrUdpV4Checksum)
             (Z.lor (on (fRxTCPv6Checksum f) pcrTcpV6Checksum) (on (fRxUDPv6Checksum f) pcrUdpV6Checksum)))).

(** The TCP and UDP flags of the result. *)
Definition rx_xxp (ppr : tTcpIpPacketParsingResult) (rxTcp rxUdp : bool) (r : tChecksumCheckResult) :
    tChecksumCheckResult :=
  let ok := (xxpCheckSum ppr =? ppresCSOK) || fixedXxpCS ppr in
  if xxpStatus ppr =? ppresXxpKnown then
    if TcpUdp ppr =? ppresIsTCP then
      if rxTcp then r <| TcpOK := ok |> <| TcpFailed := negb ok |> else r
    else if rxUdp then r <| UdpOK := ok |> <| UdpFailed := negb ok |> else r
  else r.

Definition ParaNdis_CheckRxChecksum (fuel : nat) (t : target) (f : tOffloadSettingsFlags) (virtioFlags : Z)
    (pPacketPages : list tCompletePhysicalAddress) (isIP4 isIP6 : bool) (dataLength ulDataOffset : Z)
    (verifyLength : bool) : res (list tCompletePhysicalAddress * tChecksumCheckResult) :=
  '(pages, ppr) ←
    (if isIP4 || isIP6 then
       ParaNdis_CheckSumVerify fuel t pPacketPages (u32 (dataLength - ETH_HEADER_SIZE))
         (ulDataOffset + ETH_HEADER_SIZE) (rx_flags f virtioFlags) verifyLength
     else Ok (pPacketPages, ppr_zero <| ipStatus := ppresNotIP |>));
  if (ipCheckSum ppr =? ppresIPTooShort) || (xxpStatus ppr =? ppresXxpIncomplete) then
    Ok (pages, cs_zero <| IpFailed := true |>)
  else
    let ppr := if truth (Z.land virtioFlags VIRTIO_NET_HDR_F_DATA_VALID)
               then ppr <| xxpCheckSum := ppresCSOK |> else ppr in
    if (ipStatus ppr =? ppresIPV4) && negb (IsFragment ppr) then
      let r := if fRxIPChecksum f
               then cs_zero <| IpOK := ipCheckSum ppr =? ppresCSOK |>
                            <| IpFailed := ipCheckSum ppr =? ppresCSBad |>
               else cs_zero in
      Ok (pages, rx_xxp ppr (fRxTCPChecksum f) (fRxUDPChecksum f) r)
    else if ipStatus ppr =? ppresIPV6 then
      Ok (pages, rx_xxp ppr (fRxTCPv6Checksum f) (fRxUDPv6Checksum f) cs_zero)
    else Ok (pages, cs_zero).
