(* ===== verification/NetOffloadSpec.v ===== *)
(** * Checksum verification is correct

    A received header or segment is accepted exactly when its Internet checksum,
    as RFC 1071 has the receiver compute it (over the data with the checksum in
    place), is zero; a fixed one has that property afterwards; and the rest of
    the packet is not changed. *)

From Stdlib Require Import ZArith Lia.
From stdpp Require Import base list numbers.
From S2P Require Import Prelude.
From S2P Require Import NetChecksum.
From S2P Require Import NetChecksumSpec.
From S2P Require Import NetOffload.

Lemma even_add a b : Z.Even a -> Z.Even b -> Z.Even (a + b).
Proof. intros [x ->] [y ->]. exists (x + y). lia. Qed.

(** ** 16-bit fields in memory *)

Definition upd16 (l : list Z) (o v : Z) : list Z :=
  zinsert (o + 1) (u8 (Z.shiftr v 8)) (zinsert o (u8 v) l).

(** The little-endian word at [o]. *)
Definition word_at (l : list Z) (o : Z) : Z :=
  default 0 (l⟦o⟧) + 256 * default 0 (l⟦o + 1⟧).

Lemma u8_shiftr_8 v : 0 <= v < 65536 -> u8 (Z.shiftr v 8) = v / 256.
Proof. intros. rewrite Z.shiftr_div_pow2 by done. change (2 ^ 8) with 256. word_lia. Qed.

Lemma wr16_ok m o v : 0 <= o -> o + 2 <= zlen m -> wr16 m o v = Ok (upd16 m o v).
Proof.
  intros. unfold wr16. rewrite zset_ok by lia. cbn [mbind res_bind].
  rewrite zset_ok by (rewrite zlen_zinsert; lia). done.
Qed.

Lemma rd16_ok m o : 0 <= o -> o + 2 <= zlen m -> rd16 m o = Ok (word_at m o).
Proof.
  intros. unfold rd16, word_at.
  destruct (zlookup_in_range m o ltac:(lia)) as [a Ha].
  destruct (zlookup_in_range m (o + 1) ltac:(lia)) as [b Hb].
  by rewrite (zget_ok _ _ _ Ha), (zget_ok _ _ _ Hb), Ha, Hb.
Qed.

Lemma rd8_ok m o : 0 <= o < zlen m -> rd8 m o = Ok (default 0 (m⟦o⟧)).
Proof. intros [x Hx]%zlookup_in_range. unfold rd8. by rewrite (zget_ok _ _ _ Hx), Hx. Qed.

Lemma zlen_upd16 l o v : zlen (upd16 l o v) = zlen l.
Proof. unfold upd16. by rewrite !zlen_zinsert. Qed.

Lemma byte_at l o : Forall byte l -> 0 <= default 0 (l⟦o⟧) < 256.
Proof.
  intros H. destruct (l⟦o⟧) as [x|] eqn:E; cbn; [|lia]. exact (zlookup_Forall byte l o x H E).
Qed.

Lemma word_range l o : Forall byte l -> 0 <= word_at l o < 65536.
Proof. intros H. pose proof (byte_at l o H). pose proof (byte_at l (o + 1) H). unfold word_at. lia. Qed.

Lemma zinsert_bytes l o v : Forall byte l -> byte v -> Forall byte (zinsert o v l).
Proof. intros. unfold zinsert. destruct (0 <=? o); [by apply Forall_insert|done]. Qed.

Lemma upd16_bytes l o v : Forall byte l -> Forall byte (upd16 l o v).
Proof. intros. apply zinsert_bytes; [|apply u8_range]. apply zinsert_bytes; [done|apply u8_range]. Qed.

Lemma word_upd16 l o v :
  0 <= o -> o + 2 <= zlen l -> 0 <= v < 65536 -> word_at (upd16 l o v) o = v.
Proof.
  intros. unfold word_at, upd16. rewrite zlookup_zinsert_ne by lia.
  rewrite zlookup_zinsert_eq by lia. rewrite zlookup_zinsert_eq by (rewrite zlen_zinsert; lia).
  cbn. rewrite u8_shiftr_8 by done. word_lia.
Qed.

Lemma upd16_upd16 l o v w : upd16 (upd16 l o v) o w = upd16 l o w.
Proof.
  apply zlist_eq; [by rewrite !zlen_upd16|]. intros i Hi. rewrite !zlen_upd16 in Hi. unfold upd16.
  destruct (decide (i = o + 1)) as [->|].
  { rewrite !zlookup_zinsert_eq by (rewrite ?zlen_zinsert; lia). done. }
  rewrite !(zlookup_zinsert_ne _ (o + 1)) by done. destruct (decide (i = o)) as [->|].
  { rewrite !zlookup_zinsert_eq by (rewrite ?zlen_zinsert; lia). done. }
  rewrite !(zlookup_zinsert_ne _ o) by done. by rewrite !zlookup_zinsert_ne by done.
Qed.

(** Storing the word that is there changes nothing. *)
Lemma upd16_same l o :
  Forall byte l -> 0 <= o -> o + 2 <= zlen l -> upd16 l o (word_at l o) = l.
Proof.
  intros Hb Ho Hl. apply zlist_eq; [apply zlen_upd16|]. intros i Hi. rewrite zlen_upd16 in Hi.
  destruct (zlookup_in_range l o ltac:(lia)) as [a Ha].
  destruct (zlookup_in_range l (o + 1) ltac:(lia)) as [b Hb'].
  pose proof (byte_at l o Hb) as Ba. pose proof (byte_at l (o + 1) Hb) as Bb.
  unfold upd16, word_at. rewrite Ha, Hb' in *. cbn in *.
  rewrite u8_shiftr_8 by lia.
  destruct (decide (i = o + 1)) as [->|].
  { rewrite zlookup_zinsert_eq by (rewrite zlen_zinsert; lia). rewrite Hb'. f_equal. word_lia. }
  rewrite zlookup_zinsert_ne by done. destruct (decide (i = o)) as [->|].
  { rewrite zlookup_zinsert_eq by lia. rewrite Ha. f_equal. word_lia. }
  by rewrite zlookup_zinsert_ne by done.
Qed.

Lemma zinsert_app_r (l1 l2 : list Z) o x :
  zlen l1 <= o -> zinsert o x (l1 ++ l2) = l1 ++ zinsert (o - zlen l1) x l2.
Proof.
  intros H. pose proof (zlen_nonneg l1). unfold zinsert, zlen in *.
  replace (0 <=? o) with true by lia. replace (0 <=? o - Z.of_nat (length l1)) with true by lia.
  rewrite insert_app_r_alt by lia. f_equal. f_equal. lia.
Qed.

Lemma zinsert_app_l (l1 l2 : list Z) o x : o < zlen l1 -> zinsert o x (l1 ++ l2) = zinsert o x l1 ++ l2.
Proof.
  intros H. unfold zinsert, zlen in *. destruct (Z.leb_spec 0 o); [|done]. apply insert_app_l. lia.
Qed.

Lemma upd16_app_r (l1 l2 : list Z) o v :
  zlen l1 <= o -> upd16 (l1 ++ l2) o v = l1 ++ upd16 l2 (o - zlen l1) v.
Proof.
  intros. unfold upd16. rewrite !zinsert_app_r by lia. do 2 f_equal. lia.
Qed.

Lemma upd16_app_l (l1 l2 : list Z) o v :
  o + 1 < zlen l1 -> upd16 (l1 ++ l2) o v = upd16 l1 o v ++ l2.
Proof.
  intros. unfold upd16. rewrite zinsert_app_l by lia. by rewrite zinsert_app_l by (rewrite zlen_zinsert; lia).
Qed.

(** Changing an aligned field changes the sum of the words by the difference. *)
Lemma wsum_upd16 l o v :
  Forall byte l -> Z.Even o -> 0 <= o -> o + 2 <= zlen l -> 0 <= v < 65536 ->
  wsum (upd16 l o v) = wsum l - word_at l o + v.
Proof.
  intros Hb [k Hk] Ho Hl Hv. subst o. revert k Ho Hl.
  induction l as [|x|x y l IH] using bytes_pair_ind; intros k Ho Hl.
  - rewrite zlen_nil in Hl. lia.
  - rewrite zlen_cons, zlen_nil in Hl. lia.
  - rewrite !zlen_cons in Hl. apply Forall_cons_1 in Hb as [Hx [Hy Hb]%Forall_cons_1].
    change (x :: y :: l) with ([x; y] ++ l). destruct (decide (k = 0)) as [->|].
    + rewrite upd16_app_l by done.
      change (upd16 [x; y] (2 * 0) v) with [u8 v; u8 (Z.shiftr v 8)].
      change (word_at ([x; y] ++ l) (2 * 0)) with (x + 256 * y).
      rewrite u8_shiftr_8, !wsum_app by (done || by exists 1). cbn [wsum]. word_lia.
    + assert (zlen [x; y] = 2) by done.
      rewrite upd16_app_r by lia. rewrite !wsum_app by (by exists 1).
      replace (2 * k - zlen [x; y]) with (2 * (k - 1)) by lia. rewrite (IH Hb) by lia.
      unfold word_at. rewrite !zlookup_app_r by lia.
      replace (2 * k - zlen [x; y]) with (2 * (k - 1)) by lia.
      replace (2 * k + 1 - zlen [x; y]) with (2 * (k - 1) + 1) by lia. lia.
Qed.

(** ** When a computed checksum matches *)

(** A checksum computed over a sum [S] that excludes the checksum field matches
    the field [c] exactly when the sum with the field is a multiple of 65535. *)
Lemma compare_checksum S c :
  0 < S -> 0 <= c < 65536 ->
  CompareNetCheckSumOnEndSystem (65535 - ones S) c = ((S + c) mod 65535 =? 0).
Proof.
  intros HS Hc. unfold CompareNetCheckSumOnEndSystem, ones. replace (S =? 0) with false by lia.
  apply eq_true_iff_eq. rewrite !Z.eqb_eq. destruct (Z.eqb_spec c 65535); word_lia.
Qed.

(** The receiver's test of RFC 1071. *)
Lemma rfc1071_zero l : Forall byte l -> 0 < wsum l -> (rfc1071 l = 0 <-> wsum l mod 65535 = 0).
Proof.
  intros Hb Hs. rewrite rfc1071_ones by done. unfold ones. replace (wsum l =? 0) with false by lia.
  word_lia.
Qed.

(** ** Slices *)

Lemma zlookup_slice m o n i :
  0 <= o -> 0 <= i < n -> (slice m o n)⟦i⟧ = m⟦o + i⟧.
Proof.
  intros Ho Hi. unfold slice, zlookup. replace (0 <=? i) with true by lia. replace (0 <=? o + i) with true by lia.
  rewrite lookup_take_lt by lia. rewrite lookup_drop. f_equal. lia.
Qed.

Lemma zlen_slice m o n : 0 <= o -> 0 <= n -> o + n <= zlen m -> zlen (slice m o n) = n.
Proof. intros. unfold slice. apply take_zlen. unfold zlen in *. rewrite length_drop. lia. Qed.

Lemma slice_bytes m o n : Forall byte m -> Forall byte (slice m o n).
Proof. intros. by apply Forall_take, Forall_drop. Qed.

Lemma slice_upd16 m o p n v :
  0 <= p -> p <= o -> o + 2 <= p + n -> p + n <= zlen m ->
  slice (upd16 m o v) p n = upd16 (slice m p n) (o - p) v.
Proof.
  intros. apply zlist_eq; [by rewrite zlen_upd16, !zlen_slice by (rewrite ?zlen_upd16; lia)|].
  intros i Hi. rewrite zlen_slice in Hi by (rewrite ?zlen_upd16; lia).
  rewrite zlookup_slice by lia. unfold upd16.
  destruct (decide (i = o + 1 - p)) as [->|].
  { replace (p + (o + 1 - p)) with (o + 1) by lia. replace (o + 1 - p) with (o - p + 1) by lia.
    rewrite !zlookup_zinsert_eq by (rewrite ?zlen_zinsert, ?zlen_slice; lia). done. }
  rewrite !(zlookup_zinsert_ne _ (_ + 1)) by lia. destruct (decide (i = o - p)) as [->|].
  { replace (p + (o - p)) with o by lia.
    rewrite !zlookup_zinsert_eq by (rewrite ?zlen_zinsert, ?zlen_slice; lia). done. }
  rewrite !zlookup_zinsert_ne by lia. by rewrite zlookup_slice by lia.
Qed.

Lemma word_slice m p n o :
  0 <= p -> 0 <= o -> o + 2 <= n -> word_at (slice m p n) o = word_at m (p + o).
Proof. intros. unfold word_at. rewrite !zlookup_slice by lia. do 4 f_equal. lia. Qed.

Lemma flat_slice t m o n :
  Forall byte m -> 0 <= o -> 0 <= n < 131072 -> o + n <= zlen m ->
  CheckSumCalculatorFlat t m o n = Ok (rfc1071 (slice m o n)).
Proof.
  intros Hb Ho Hn Hl. rewrite <- (zlen_slice m o n) at 1 by lia.
  apply (CheckSumCalculatorFlat_ok t m o _ (drop (Z.to_nat n) (drop (Z.to_nat o) m))); [done| | |].
  - by apply slice_bytes.
  - rewrite zlen_slice; lia.
  - symmetry. apply take_drop.
Qed.

(** A byte other than zero at an even offset makes the sum positive. *)
Lemma wsum_ge_word l o :
  Forall byte l -> Z.Even o -> 0 <= o -> o + 2 <= zlen l -> word_at l o <= wsum l.
Proof.
  intros Hb He Ho Hl. pose proof (wsum_upd16 l o 0 Hb He Ho Hl ltac:(lia)).
  pose proof (wsum_range _ (upd16_bytes l o 0 Hb)). lia.
Qed.

(** Putting the checksum of the rest into the field makes the whole valid. *)
Lemma rfc1071_fixed l ph o :
  Forall byte l -> Forall byte ph -> Z.Even (zlen ph) -> Z.Even o -> 0 <= o -> o + 2 <= zlen l ->
  0 < wsum ph + (wsum l - word_at l o) ->
  rfc1071 (ph ++ upd16 l o (65535 - ones (wsum ph + (wsum l - word_at l o)))) = 0.
Proof.
  intros Hl Hph Hp He Ho Hlen Hs. set (S := wsum ph + (wsum l - word_at l o)) in *.
  pose proof (ones_range S ltac:(lia)).
  assert (Hw : wsum (ph ++ upd16 l o (65535 - ones S)) = S + (65535 - ones S)).
  { rewrite wsum_app, wsum_upd16 by (done || lia). unfold S. lia. }
  apply rfc1071_zero; [by apply Forall_app; split; [|apply upd16_bytes]|lia|].
  rewrite Hw. unfold ones. replace (S =? 0) with false by lia. word_lia.
Qed.

(** The comparison is the receiver's test. *)
Lemma compare_rfc1071 l ph o :
  Forall byte l -> Forall byte ph -> Z.Even (zlen ph) -> Z.Even o -> 0 <= o -> o + 2 <= zlen l ->
  0 < wsum ph + (wsum l - word_at l o) ->
  CompareNetCheckSumOnEndSystem (65535 - ones (wsum ph + (wsum l - word_at l o))) (word_at l o) =
  (rfc1071 (ph ++ l) =? 0).
Proof.
  intros Hl Hph Hp He Ho Hlen Hs. pose proof (word_range l o Hl).
  rewrite compare_checksum by done.
  replace (wsum ph + (wsum l - word_at l o) + word_at l o) with (wsum (ph ++ l))
    by (rewrite wsum_app by done; lia).
  apply eq_true_iff_eq. rewrite !Z.eqb_eq, rfc1071_zero; [done|by apply Forall_app|].
  rewrite wsum_app by done. lia.
Qed.

(** ** The IP header *)

(** The IPv4 header at [p] has [n] bytes, all in memory. *)
Record ip4_header (m : mem) (p n : Z) : Prop := {
  i4_bytes : Forall byte m;
  i4_p : 0 <= p;
  i4_len : n = IP_HEADER_LENGTH (default 0 (m⟦p⟧));
  i4_min : 20 <= n;
  i4_in : p + n <= zlen m }.

Lemma IP_HEADER_LENGTH_range v : 0 <= v -> 0 <= IP_HEADER_LENGTH v <= 60 /\ IP_HEADER_LENGTH v <= 4 * v
  /\ Z.Even (IP_HEADER_LENGTH v).
Proof.
  intros Hv. unfold IP_HEADER_LENGTH. rewrite Z.shiftl_mul_pow2 by done.
  change 15 with (Z.ones 4). rewrite Z.land_ones by done. change (2 ^ 4) with 16. change (2 ^ 2) with 4.
  pose proof (Z.mod_pos_bound v 16). pose proof (Z.mod_le v 16). split; [lia|]. split; [lia|].
  exists (2 * (v mod 16)). lia.
Qed.

Lemma ip4_header_facts m p n :
  ip4_header m p n ->
  n <= 60 /\ 0 < wsum (slice m p n) - word_at (slice m p n) 10 /\
  Forall byte (slice m p n) /\ zlen (slice m p n) = n.
Proof.
  intros [Hb Hp Hn Hmin Hin]. pose proof (byte_at m p Hb) as Hv.
  pose proof (IP_HEADER_LENGTH_range (default 0 (m⟦p⟧))) as HR.
  assert (Hl : zlen (slice m p n) = n) by (apply zlen_slice; lia).
  assert (Hsb : Forall byte (slice m p n)) by (by apply slice_bytes).
  split; [lia|]. split; [|done].
  rewrite <- (Z.add_0_r (_ - _)), <- wsum_upd16 by (done || lia || by exists 5).
  pose proof (wsum_ge_word (upd16 (slice m p n) 10 0) 0 (upd16_bytes _ _ _ Hsb)
    ltac:(by exists 0) ltac:(lia) ltac:(rewrite zlen_upd16; lia)) as Hge.
  assert (word_at (upd16 (slice m p n) 10 0) 0 = word_at m p) as E.
  { unfold word_at, upd16. rewrite !zlookup_zinsert_ne by lia. rewrite !zlookup_slice by lia.
    by rewrite !Z.add_0_r. }
  rewrite E in Hge. unfold word_at in Hge. pose proof (byte_at m (p + 1) Hb). lia.
Qed.

Lemma CalculateIpChecksum_ok t m p n :
  ip4_header m p n ->
  CalculateIpChecksum t m p =
  Ok (upd16 m (p + 10) (65535 - ones (wsum (slice m p n) - word_at (slice m p n) 10))).
Proof.
  intros Hh. destruct (ip4_header_facts _ _ _ Hh) as (Hn & HS & Hsb & Hl).
  destruct Hh as [Hb Hp HN Hmin Hin]. unfold CalculateIpChecksum, ip_xsum, ip_verlen.
  rewrite wr16_ok by lia. cbn [mbind res_bind]. rewrite Z.add_0_r.
  rewrite rd8_ok by (rewrite zlen_upd16; lia). cbn [mbind res_bind].
  assert ((upd16 m (p + 10) 0)⟦p⟧ = m⟦p⟧) as -> by (unfold upd16; by rewrite !zlookup_zinsert_ne by lia).
  rewrite <- HN, flat_slice by (try apply upd16_bytes; rewrite ?zlen_upd16; done || lia).
  cbn [mbind res_bind]. rewrite wr16_ok by (rewrite ?zlen_upd16; lia). rewrite upd16_upd16.
  rewrite slice_upd16 by lia. replace (p + 10 - p) with 10 by lia.
  rewrite rfc1071_ones by (by apply upd16_bytes). rewrite wsum_upd16 by (done || lia || by exists 5).
  by rewrite Z.add_0_r.
Qed.

Lemma VerifyIpChecksum_ok t m p n known bFix :
  ip4_header m p n -> ipCheckSum known <> ppresIPTooShort ->
  let valid := rfc1071 (slice m p n) =? 0 in
  let known' := known <| ipCheckSum := if valid then ppresCSOK else ppresCSBad |> in
  exists m', VerifyIpChecksum t m p known bFix =
      Ok (m', if bFix then known' <| fixedIpCS := negb valid |> else known') /\
    (if bFix then (exists x, 0 <= x < 65536 /\ m' = upd16 m (p + 10) x) /\ rfc1071 (slice m' p n) = 0
     else m' = m).
Proof.
  intros Hh Hk valid known'. destruct (ip4_header_facts _ _ _ Hh) as (Hn & HS & Hsb & Hl).
  pose proof (CalculateIpChecksum_ok t m p n Hh) as HC. destruct Hh as [Hb Hp HN Hmin Hin].
  unfold VerifyIpChecksum, ip_xsum. rewrite (proj2 (Z.eqb_neq _ _) Hk). cbn [negb].
  rewrite rd16_ok by lia. cbn [mbind res_bind]. rewrite HC. cbn [mbind res_bind].
  set (x := 65535 - ones _) in *.
  assert (Hx : 0 <= x < 65536) by (unfold x; pose proof (ones_range (wsum (slice m p n) - word_at (slice m p n) 10) ltac:(lia)); lia).
  rewrite rd16_ok by (rewrite ?zlen_upd16; lia). cbn [mbind res_bind]. rewrite word_upd16 by lia.
  assert (CompareNetCheckSumOnEndSystem x (word_at m (p + 10)) = valid) as ->.
  { rewrite <- (word_slice m p n 10) by lia.
    apply (compare_rfc1071 (slice m p n) [] 10); try done; [by exists 0|by exists 5|lia]. }
  destruct bFix; cbn [negb].
  - eexists. split; [|split; [by exists x|]].
    + unfold known'. cbn. destruct valid; done.
    + rewrite slice_upd16 by lia. replace (p + 10 - p) with 10 by lia.
      apply (rfc1071_fixed (slice m p n) [] 10); try done; [by exists 0|by exists 5|lia].
  - rewrite wr16_ok by (rewrite ?zlen_upd16; lia). cbn [mbind res_bind]. rewrite upd16_upd16.
    rewrite upd16_same by (done || lia). by exists m.
Qed.

(** ** Stores into the first page *)

Definition put (pages : list tCompletePhysicalAddress) (o v : Z) : list tCompletePhysicalAddress :=
  match pages with p :: ps => p <| Virtual := upd16 (Virtual p) o v |> :: ps | [] => [] end.

Definition mem0 (pages : list tCompletePhysicalAddress) : mem :=
  match pages with p :: _ => Virtual p | [] => [] end.
Definition size0 (pages : list tCompletePhysicalAddress) : Z :=
  match pages with p :: _ => size p | [] => 0 end.

Section pages.
Context (pages : list tCompletePhysicalAddress) (Hok : pages_ok pages) (Hne : pages <> []).

Lemma page0_ok : page0 pages = Ok (mem0 pages).
Proof using Hne. clear Hok. by destruct pages. Qed.

Lemma mem0_bytes : Forall byte (mem0 pages).
Proof using Hok. clear Hne. destruct Hok as [|p ps Hp]; cbn; [constructor|]. apply Hp. Qed.

Lemma mem0_len : size0 pages <= zlen (mem0 pages).
Proof using Hok. clear Hne. destruct Hok as [|p ps Hp]; cbn; [done|]. apply Hp. Qed.

Lemma put_nil o v : put pages o v <> [].
Proof using Hne. clear Hok. by destruct pages. Qed.

Lemma put_ok o v : pages_ok (put pages o v).
Proof using Hok.
  clear Hne. destruct Hok as [|p ps [H1 H2 H3] He Hps]; cbn; [constructor|]. constructor; [|done..].
  constructor; cbn; try done; [by rewrite zlen_upd16|by apply upd16_bytes].
Qed.

Lemma put_mem0 o v : mem0 (put pages o v) = upd16 (mem0 pages) o v.
Proof using Hne. clear Hok. by destruct pages. Qed.

Lemma put_size0 o v : size0 (put pages o v) = size0 pages.
Proof using. clear Hok Hne. by destruct pages. Qed.

Lemma put_put o v w : put (put pages o v) o w = put pages o w.
Proof using. clear Hok Hne. destruct pages as [|p ps]; [done|]. cbn. by rewrite upd16_upd16. Qed.

Lemma put_same o : 0 <= o -> o + 2 <= size0 pages -> put pages o (word_at (mem0 pages) o) = pages.
Proof using Hok.
  clear Hne. intros. pose proof mem0_len. pose proof mem0_bytes.
  destruct pages as [|p ps]; [done|]. cbn in *. rewrite upd16_same by (done || lia). by destruct p.
Qed.

Lemma store16_ok o v : 0 <= o -> o + 2 <= size0 pages -> store16 pages o v = Ok (put pages o v).
Proof using Hok Hne.
  intros. pose proof mem0_len. destruct pages as [|p ps]; [done|]. cbn in *. by rewrite wr16_ok by lia.
Qed.

Lemma take_upd16 l n o v :
  0 <= o -> o + 2 <= n <= zlen l -> take (Z.to_nat n) (upd16 l o v) = upd16 (take (Z.to_nat n) l) o v.
Proof using.
  intros. pose proof (slice_upd16 l o 0 n v ltac:(lia) ltac:(lia) ltac:(lia) ltac:(lia)) as H1.
  unfold slice in H1. rewrite !drop_0, Z.sub_0_r in H1. exact H1.
Qed.

Lemma put_data o v :
  0 <= o -> o + 2 <= size0 pages -> pages_data (put pages o v) = upd16 (pages_data pages) o v.
Proof using Hok.
  clear Hne. intros. destruct Hok as [|p ps Hp _ Hps]; cbn [put size0 mem0] in *; [lia|]. pose proof (po_size _ Hp). pose proof (po_alloc _ Hp).
  rewrite !pages_data_cons. unfold page_data at 1. cbn [Virtual size set_field].
  rewrite upd16_app_l by (rewrite page_data_len; done || lia).
  f_equal. unfold page_data. cbn. by rewrite take_upd16 by lia.
Qed.

(** The first page is the beginning of the data. *)
Lemma data_word o : 0 <= o -> o + 2 <= size0 pages -> word_at (pages_data pages) o = word_at (mem0 pages) o.
Proof using Hok.
  clear Hne. intros. destruct Hok as [|p ps Hp _ Hps]; cbn [put size0 mem0] in *; [lia|]. pose proof (po_alloc _ Hp).
  pose proof (page_data_len p Hp) as Hpl.
  unfold word_at. rewrite pages_data_cons, !zlookup_app_l by lia.
  assert (forall i, 0 <= i < size p -> (page_data p)⟦i⟧ = (Virtual p)⟦i⟧) as Hd.
  { intros i Hi. change (page_data p) with (slice (Virtual p) 0 (size p)).
    rewrite zlookup_slice by lia. done. }
  by rewrite !Hd by lia.
Qed.

Lemma size0_le_data : size0 pages <= zlen (pages_data pages).
Proof using Hok.
  clear Hne. destruct Hok as [|p ps Hp _ Hps]; cbn [size0]; [by rewrite zlen_pages_nil|].
  rewrite pages_data_cons, zlen_app, page_data_len by done. pose proof (zlen_nonneg (pages_data ps)). lia.
Qed.

End pages.

(** ** A TCP or UDP segment *)

(** The segment of [n] bytes at [start], its checksum field at [xo] in the first
    page, and the bytes [ph] of its pseudo header. *)
Record segment (pages : list tCompletePhysicalAddress) (ph : list Z) (start n xo : Z) : Prop := {
  sg_pages : pages_ok pages;
  sg_ne : pages <> [];
  sg_start : 0 <= start /\ Z.Even start;
  sg_n : n < 65536;
  sg_field : 0 <= xo /\ Z.Even xo /\ xo + 2 <= n;
  sg_first : start + xo + 2 <= size0 pages;
  sg_in : start + n <= zlen (pages_data pages);
  sg_ph : Forall byte ph /\ Z.Even (zlen ph) /\ 0 < wsum ph }.

(** The bytes that the checksum covers. *)
Definition covered (pages : list tCompletePhysicalAddress) (ph : list Z) (start n : Z) : list Z :=
  ph ++ slice (pages_data pages) start n.

(** The checksum that the sender should have put into the field. *)
Definition xxp_checksum (pages : list tCompletePhysicalAddress) (ph : list Z) (start n xo : Z) : Z :=
  65535 - ones (wsum ph + (wsum (slice (pages_data pages) start n) - word_at (mem0 pages) (start + xo))).

Section segment.
Context (t : target) (pages : list tCompletePhysicalAddress) (ph : list Z) (start n xo : Z).
Context (Hs : segment pages ph start n xo).

Let o := start + xo.
Let seg := slice (pages_data pages) start n.
Let saved := word_at (mem0 pages) o.
Let T := xxp_checksum pages ph start n xo.

Lemma seg_facts :
  Forall byte seg /\ zlen seg = n /\ word_at seg xo = saved /\ 0 <= saved < 65536 /\
  saved <= wsum seg /\ 0 <= T < 65536 /\ 0 <= o /\ o + 2 <= size0 pages.
Proof using Hs.
  destruct Hs as [Hp Hne [Hst Hev] Hn (Hx & Hxe & Hxn) Hf Hin (Hph & Hpe & Hpw)].
  assert (Forall byte seg) as Hb by (by apply slice_bytes, pages_data_bytes).
  assert (zlen seg = n) as Hl by (unfold seg; apply zlen_slice; lia).
  assert (word_at seg xo = saved) as Hw.
  { unfold seg, saved, o. rewrite word_slice by lia. apply data_word; [done|lia..]. }
  pose proof (word_range seg xo Hb). pose proof (wsum_ge_word seg xo Hb Hxe Hx ltac:(lia)).
  split_and!; try done; try lia; unfold T, xxp_checksum; fold seg o saved;
    pose proof (ones_range (wsum ph + (wsum seg - saved)) ltac:(lia)); lia.
Qed.

(** Computing over the segment with the pseudo header's checksum in the field
    gives the checksum of the whole. *)
Lemma calculate_ok :
  CalculateChecksumGivenPseudoCS t o (put pages o (ones (wsum ph))) start n = Ok (put pages o T).
Proof using Hs.
  destruct seg_facts as (Hb & Hl & Hw & Hsv & Hle & HT & Ho & Ho2).
  destruct Hs as [Hp Hne [Hst Hev] Hn (Hx & Hxe & Hxn) Hf Hin (Hph & Hpe & Hpw)].
  unfold CalculateChecksumGivenPseudoCS.
  assert (Hr : 0 <= ones (wsum ph) <= 65535) by (apply ones_range; lia).
  assert (Hdl : zlen (pages_data (put pages o (ones (wsum ph)))) = zlen (pages_data pages))
    by (by rewrite put_data, zlen_upd16).
  rewrite CheckSumCalculator_ok by (try apply put_ok; done || lia). cbn [mbind res_bind].
  rewrite store16_ok, put_put by (try apply put_ok; try apply put_nil; rewrite ?put_size0; done).
  do 2 f_equal. rewrite put_data by done. rewrite slice_upd16 by (unfold o; lia). fold seg.
  replace (o - start) with xo by (unfold o; lia).
  rewrite rfc1071_ones by (by apply upd16_bytes). rewrite wsum_upd16 by (done || lia).
  unfold T, xxp_checksum. fold seg o saved. rewrite Hw. f_equal.
  rewrite (Z.add_comm (wsum ph)), !(Z.add_comm (wsum seg - saved)).
  apply ones_add; try lia. by rewrite ones_idem by lia.
Qed.

Lemma match_valid :
  CompareNetCheckSumOnEndSystem T saved = (rfc1071 (covered pages ph start n) =? 0).
Proof using Hs.
  destruct seg_facts as (Hb & Hl & Hw & Hsv & Hle & HT & Ho & Ho2).
  destruct Hs as [Hp Hne [Hst Hev] Hn (Hx & Hxe & Hxn) Hf Hin (Hph & Hpe & Hpw)].
  unfold T, xxp_checksum, covered. fold seg o saved. rewrite <- Hw. apply compare_rfc1071; done || lia.
Qed.

(** With the computed checksum in the field the segment is valid. *)
Lemma fixed_valid : rfc1071 (covered (put pages o T) ph start n) = 0.
Proof using Hs.
  destruct seg_facts as (Hb & Hl & Hw & Hsv & Hle & HT & Ho & Ho2).
  destruct Hs as [Hp Hne [Hst Hev] Hn (Hx & Hxe & Hxn) Hf Hin (Hph & Hpe & Hpw)].
  unfold covered. rewrite put_data by done. rewrite slice_upd16 by (unfold o; lia). fold seg.
  replace (o - start) with xo by (unfold o; lia). unfold T, xxp_checksum. fold seg o saved.
  rewrite <- Hw. apply rfc1071_fixed; done || lia.
Qed.

Lemma note_match_ok r :
  note_match (put pages o T) o saved r =
  Ok (if rfc1071 (covered pages ph start n) =? 0 then r <| xxpCheckSum := ppresCSOK |> else r).
Proof using Hs.
  destruct seg_facts as (Hb & Hl & Hw & Hsv & Hle & HT & Ho & Ho2).
  unfold note_match. rewrite page0_ok by (apply put_nil, Hs). cbn [mbind res_bind].
  rewrite put_mem0 by apply Hs. pose proof (mem0_len pages (sg_pages _ _ _ _ _ Hs)).
  rewrite rd16_ok by (rewrite ?zlen_upd16; lia). cbn [mbind res_bind].
  rewrite word_upd16 by lia. by rewrite match_valid.
Qed.

Lemma restore_ok : store16 (put pages o T) o saved = Ok pages.
Proof using Hs.
  destruct seg_facts as (Hb & Hl & Hw & Hsv & Hle & HT & Ho & Ho2).
  rewrite store16_ok by (try apply put_ok; try apply put_nil; rewrite ?put_size0; try apply Hs; done).
  rewrite put_put. f_equal. apply put_same; [apply Hs|done..].
Qed.

End segment.

(** ** Verification of a segment *)

(** What verification does with a complete segment: [fix_] asks to fix it. *)
Definition verify_result (pages : list tCompletePhysicalAddress) (ph : list Z) (start n xo : Z)
    (known : tTcpIpPacketParsingResult) (fix_ : bool) : verified :=
  let valid := rfc1071 (covered pages ph start n) =? 0 in
  let pcs := CompareNetCheckSumOnEndSystem (ones (wsum ph)) (word_at (mem0 pages) (start + xo)) in
  let r := known <| xxpCheckSum := if valid then ppresCSOK else if pcs then ppresPCSOK else ppresCSBad |> in
  if fix_ then (put pages (start + xo) (xxp_checksum pages ph start n xo), r <| fixedXxpCS := negb valid |>)
  else (pages, r).

Section verify.
Context (t : target) (pages : list tCompletePhysicalAddress) (ph : list Z) (off len n : Z).
Context (known : tTcpIpPacketParsingResult) (w : Z).
Context (Hlen : ipHeaderSize known <= len) (Hfull : xxpFull known = true).
Context (Hget : GetXxpHeaderAndPayloadLen (mem0 pages) off known = Ok n).
Context (Hph : CalculateIpPseudoHeaderChecksum t (mem0 pages) off known n = Ok (ones (wsum ph))).
Context (Hw : truth (Z.land w pcrFixPHChecksum) = false /\ truth (Z.land w pcrFixXxpChecksum) = truth w).

(** A pseudo header checksum in the field leaves the field as it is. *)
Lemma pcs_in_place start xo :
  segment pages ph start n xo ->
  CompareNetCheckSumOnEndSystem (ones (wsum ph)) (word_at (mem0 pages) (start + xo)) = true ->
  put pages (start + xo) (ones (wsum ph)) = pages.
Proof using.
  intros Hs. destruct (seg_facts _ _ _ _ _ Hs) as (_ & _ & _ & Hsv & _ & _ & Ho & Ho2).
  destruct Hs as [Hp Hne _ _ _ _ _ (_ & _ & Hpw)]. unfold CompareNetCheckSumOnEndSystem.
  intros E%Z.eqb_eq. assert (0 < ones (wsum ph)).
  { unfold ones. destruct (Z.eqb_spec (wsum ph) 0); [lia|]. pose proof (Z.mod_pos_bound (wsum ph - 1) 65535). lia. }
  destruct (Z.eqb_spec (word_at (mem0 pages) (start + xo)) 65535); [lia|].
  rewrite E. by apply put_same.
Qed.

Ltac verify_start Hs :=
  let Hsv := fresh "Hsv" in let Ho := fresh "Ho" in let Ho2 := fresh "Ho2" in
  destruct (seg_facts _ _ _ _ _ Hs) as (_ & _ & _ & Hsv & _ & _ & Ho & Ho2);
  pose proof (mem0_len pages (sg_pages _ _ _ _ _ Hs));
  rewrite page0_ok by apply Hs; cbn [mbind res_bind];
  rewrite rd16_ok by lia; cbn [mbind res_bind];
  rewrite Hget; cbn [mbind res_bind];
  replace (len >=? ipHeaderSize known) with true by lia;
  rewrite Hph; cbn [mbind res_bind].

(** Store the pseudo header's checksum, compute, compare. *)
Ltac verify_compute Hs :=
  rewrite ?store16_ok by (try apply Hs; done); cbn [mbind res_bind];
  rewrite (calculate_ok t _ _ _ _ _ Hs); cbn [mbind res_bind];
  rewrite (note_match_ok _ _ _ _ _ Hs); cbn [mbind res_bind].

Ltac verify_finish Hs :=
  rewrite ?(restore_ok _ _ _ _ _ Hs); cbn [mbind res_bind]; do 2 f_equal;
  destruct known; cbn; by repeat case_match.

Lemma VerifyTcpChecksum_ok :
  segment pages ph (off + ipHeaderSize known) n tcp_xsum ->
  VerifyTcpChecksum t pages len off known w =
  Ok (verify_result pages ph (off + ipHeaderSize known) n tcp_xsum known (truth w)).
Proof using Hlen Hfull Hget Hph Hw.
  intros Hs. unfold VerifyTcpChecksum. verify_start Hs. destruct Hw as [Hw1 Hw2].
  rewrite Hw1, Hw2. unfold verify_result.
  destruct (CompareNetCheckSumOnEndSystem (ones _) _) eqn:Epcs; cbn [xxpCheckSum set_field].
  - destruct (truth w) eqn:Ew.
    + change (negb _ || true) with true. cbv iota. cbn [xxpFull ipHeaderSize set_field]. rewrite Hfull. verify_compute Hs.
      cbn [negb]. verify_finish Hs.
    + change (negb _ || false) with false. cbv iota. cbn [xxpFull ipHeaderSize set_field]. rewrite Hfull.
      rewrite <- (pcs_in_place _ _ Hs Epcs) at 1. verify_compute Hs. verify_finish Hs.
  - change (negb _ || truth w) with true. cbv iota. cbn [xxpFull ipHeaderSize set_field]. rewrite Hfull. verify_compute Hs.
    destruct (truth w); cbn [negb]; verify_finish Hs.
Qed.

Lemma VerifyUdpChecksum_ok :
  segment pages ph (off + ipHeaderSize known) n udp_xsum ->
  VerifyUdpChecksum t pages len off known w =
  Ok (verify_result pages ph (off + ipHeaderSize known) n udp_xsum known (truth w)).
Proof using Hlen Hfull Hget Hph Hw.
  intros Hs. unfold VerifyUdpChecksum. verify_start Hs. destruct Hw as [Hw1 Hw2].
  rewrite Hw1, Hw2. unfold verify_result.
  destruct (CompareNetCheckSumOnEndSystem (ones _) _) eqn:Epcs; cbn [xxpCheckSum set_field].
  - destruct (truth w) eqn:Ew.
    + change (negb _ || true) with true. cbv iota. cbn [xxpFull ipHeaderSize set_field]. rewrite Hfull. verify_compute Hs.
      cbn [negb]. verify_finish Hs.
    + change (negb _ || false) with false. cbv iota. cbn [xxpFull ipHeaderSize set_field]. rewrite Hfull.
      rewrite <- (pcs_in_place _ _ Hs Epcs) at 1. verify_compute Hs. verify_finish Hs.
  - change (negb _ || truth w) with true. cbv iota. cbn [xxpFull ipHeaderSize set_field]. rewrite Hfull. verify_compute Hs.
    destruct (truth w); cbn [negb]; verify_finish Hs.
Qed.

End verify.

(** ** Pseudo headers *)

Lemma swap_short_val n : 0 <= n < 65536 -> swap_short n = n mod 256 * 256 + n / 256.
Proof.
  intros Hn. unfold swap_short. rewrite Z.lor_comm, lor_shiftl_add.
  - rewrite Z.shiftr_div_pow2 by done. change (2 ^ 8) with 256. word_lia.
  - done.
  - rewrite Z.shiftr_div_pow2 by done. change (2 ^ 8) with 256. word_lia.
Qed.

Lemma swap_short_range n : 0 <= swap_short n < 65536.
Proof. apply u16_range. Qed.

(** A length in network byte order. *)
Lemma le16_swap_short n : 0 <= n < 65536 -> le16 (swap_short n) = [n / 256; n mod 256].
Proof.
  intros Hn. unfold le16. rewrite u8_shiftr_8 by apply swap_short_range. rewrite swap_short_val by done.
  f_equal; [|f_equal]; word_lia.
Qed.

Lemma rd_range_ok m o n : 0 <= o -> o + n <= zlen m -> rd_range m o n = Ok (slice m o n).
Proof. intros. unfold rd_range. replace ((0 <=? o) && (o + n <=? zlen m)) with true by lia. done. Qed.

(** The pseudo headers of RFC 768/793 and RFC 2460, for a segment of [n] bytes. *)
Definition ph4 (m : mem) (p n : Z) : list Z :=
  slice m (p + 12) 4 ++ slice m (p + 16) 4 ++ [0; default 0 (m⟦p + 9⟧); n / 256; n mod 256].
Definition ph6 (m : mem) (p n : Z) : list Z :=
  slice m (p + 8) 16 ++ slice m (p + 24) 16 ++
  [n / 256; n mod 256; 0; 0; 0; 0; 0; default 0 (m⟦p + 6⟧)].

Lemma lnot_rfc1071 l : Forall byte l -> u16 (Z.lnot (rfc1071 l)) = ones (wsum l).
Proof.
  intros H. rewrite rfc1071_ones by done. pose proof (ones_range (wsum l) (wsum_range l H)).
  unfold Z.lnot, u16. symmetry. apply (Z.mod_unique_pos _ _ (-1)); lia.
Qed.

Ltac solve_bytes :=
  repeat first [ apply Forall_app_2 | apply Forall_cons_2 | apply Forall_nil_2 | apply slice_bytes; assumption
               | apply byte_at; assumption | (unfold byte; word_lia) ].

Section pseudo.
Context (t : target) (m : mem) (p n : Z).
Context (Hb : Forall byte m) (Hp : 0 <= p) (Hn : 0 <= n < 65536).

Lemma ph4_facts :
  p + 20 <= zlen m -> Forall byte (ph4 m p n) /\ zlen (ph4 m p n) = 12 /\
  (0 < default 0 (m⟦p + 9⟧) -> 0 < wsum (ph4 m p n)).
Proof using Hb Hp Hn.
  intros Hl. assert (Forall byte (ph4 m p n)) as HB by (unfold ph4; solve_bytes).
  assert (zlen (ph4 m p n) = 12) as HL.
  { unfold ph4. rewrite !zlen_app, !zlen_slice by lia. done. }
  split; [done|]. split; [done|]. intros Hpos.
  pose proof (wsum_ge_word (ph4 m p n) 8 HB ltac:(by exists 4) ltac:(lia) ltac:(lia)) as Hw.
  unfold word_at, ph4 in Hw. rewrite !app_assoc in Hw.
  rewrite !(zlookup_app_r (_ ++ _)) in Hw by (rewrite zlen_app, !zlen_slice; lia).
  rewrite zlen_app, !zlen_slice in Hw by lia. rewrite <- app_assoc in Hw.
  change (0 + 256 * default 0 (m⟦p + 9⟧) <= wsum (ph4 m p n)) in Hw. lia.
Qed.

Lemma ph6_facts :
  p + 40 <= zlen m -> Forall byte (ph6 m p n) /\ zlen (ph6 m p n) = 40 /\
  (0 < default 0 (m⟦p + 6⟧) -> 0 < wsum (ph6 m p n)).
Proof using Hb Hp Hn.
  intros Hl. assert (Forall byte (ph6 m p n)) as HB by (unfold ph6; solve_bytes).
  assert (zlen (ph6 m p n) = 40) as HL.
  { unfold ph6. rewrite !zlen_app, !zlen_slice by lia. done. }
  split; [done|]. split; [done|]. intros Hpos.
  pose proof (wsum_ge_word (ph6 m p n) 38 HB ltac:(by exists 19) ltac:(lia) ltac:(lia)) as Hw.
  unfold word_at, ph6 in Hw. rewrite !app_assoc in Hw.
  rewrite !(zlookup_app_r (_ ++ _)) in Hw by (rewrite zlen_app, !zlen_slice; lia).
  rewrite zlen_app, !zlen_slice in Hw by lia. rewrite <- app_assoc in Hw.
  change (0 + 256 * default 0 (m⟦p + 6⟧) <= wsum (ph6 m p n)) in Hw. lia.
Qed.

Lemma ph4_checksum :
  p + 20 <= zlen m -> CalculateIpv4PseudoHeaderChecksum t m p n = Ok (ones (wsum (ph4 m p n))).
Proof using Hb Hp Hn.
  intros Hl. destruct (ph4_facts Hl) as (HB & HL & _).
  unfold CalculateIpv4PseudoHeaderChecksum, ip_src, ip_dest, ip_protocol.
  rewrite !rd_range_ok, rd8_ok by lia. cbn [mbind res_bind].
  rewrite le16_swap_short by done. change (_ ++ _ ++ [_; _] ++ [_; _]) with (ph4 m p n).
  rewrite <- HL at 1. rewrite (CheckSumCalculatorFlat_ok t _ 0 (ph4 m p n) []);
    [|done|done|lia|by rewrite app_nil_r].
  cbn [mbind res_bind]. by rewrite lnot_rfc1071.
Qed.

Lemma ph6_checksum :
  p + 40 <= zlen m -> CalculateIpv6PseudoHeaderChecksum t m p n = Ok (ones (wsum (ph6 m p n))).
Proof using Hb Hp Hn.
  intros Hl. destruct (ph6_facts Hl) as (HB & HL & _).
  unfold CalculateIpv6PseudoHeaderChecksum, ip6_src_address, ip6_dst_address, ip6_next_header.
  rewrite !rd_range_ok, rd8_ok by lia. cbn [mbind res_bind].
  rewrite le16_swap_short by done. change (_ ++ _ ++ [_; _] ++ _) with (ph6 m p n).
  rewrite <- HL at 1. rewrite (CheckSumCalculatorFlat_ok t _ 0 (ph6 m p n) []);
    [|done|done|lia|by rewrite app_nil_r].
  cbn [mbind res_bind]. by rewrite lnot_rfc1071.
Qed.

End pseudo.

(** ** Received packets *)

Inductive l4 := TCP | UDP.
Definition l4_proto (x : l4) : Z := match x with TCP => PROTOCOL_TCP | UDP => PROTOCOL_UDP end.
Definition l4_kind (x : l4) : Z := match x with TCP => ppresIsTCP | UDP => ppresIsUDP end.
Definition l4_xsum (x : l4) : Z := match x with TCP => tcp_xsum | UDP => udp_xsum end.
Definition l4_header (x : l4) : Z := match x with TCP => sizeof_TCPHeader | UDP => sizeof_UDPHeader end.

(** An IPv4 packet at [off]: header of [hs] bytes, [full] bytes in all, carrying
    a complete TCP or UDP header; the headers are in the first page. *)
Record packet4 (pages : list tCompletePhysicalAddress) (off hs full : Z) (x : l4) : Prop := {
  p4_pages : pages_ok pages;
  p4_ne : pages <> [];
  p4_off : 0 <= off /\ Z.Even off;
  p4_version : Z.shiftr (Z.land (default 0 ((mem0 pages)⟦off⟧)) 0xF0) 4 = 4;
  p4_hs : hs = IP_HEADER_LENGTH (default 0 ((mem0 pages)⟦off⟧));
  p4_min : 20 <= hs;
  p4_full : full = swap_short (word_at (mem0 pages) (off + ip_length));
  p4_proto : default 0 ((mem0 pages)⟦off + ip_protocol⟧) = l4_proto x;
  p4_header : hs + l4_header x <= full;
  p4_first : off + hs + l4_header x <= size0 pages;
  p4_in : off + full <= zlen (pages_data pages) }.

Definition is_fragment (m : mem) (off : Z) : bool :=
  negb (Z.land (word_at m (off + ip_offset)) (Z.lnot 0xC0) =? 0).

(** What classification finds. *)
Definition classified (status cs : Z) (x : l4) (frag : bool) (hs X : Z) : tTcpIpPacketParsingResult :=
  mk_ppr status cs 0 ppresXxpKnown true (l4_kind x) false false frag hs X.

Lemma process_ok r m p len hs x :
  0 <= p + hs -> p + hs + l4_header x <= zlen m -> hs + l4_header x <= len ->
  exists X, match x with TCP => ProcessTCPHeader r m p len hs | UDP => ProcessUDPHeader r m p len hs end =
    Ok (r <| TcpUdp := l4_kind x |> <| xxpStatus := ppresXxpKnown |> <| xxpFull := true |> <| XxpIpHeaderSize := X |>).
Proof.
  intros. destruct x; cbn in *; unfold ProcessTCPHeader, ProcessUDPHeader, tcp_flags, udp_length,
    sizeof_TCPHeader, sizeof_UDPHeader in *.
  - replace (len >=? hs + 20) with true by lia. rewrite rd16_ok by lia. by eexists.
  - replace (len >=? hs + 8) with true by lia. rewrite rd16_ok by lia. by eexists.
Qed.

Lemma l4_header_facts x : 8 <= l4_header x <= 20 /\ 0 <= l4_xsum x /\ Z.Even (l4_xsum x) /\ l4_xsum x + 2 <= l4_header x.
Proof. destruct x; cbn; split_and!; try done; [by exists 8|by exists 3]. Qed.

Section packet4.
Context (pages : list tCompletePhysicalAddress) (off hs full : Z) (x : l4).
Context (HP : packet4 pages off hs full x).
Abbreviation m := (mem0 pages).

Lemma packet4_facts :
  Forall byte m /\ 0 <= off /\ hs <= 60 /\ Z.Even hs /\ full < 65536 /\
  off + hs + l4_header x <= zlen m /\ 8 <= l4_header x.
Proof using HP.
  destruct HP as [Hok Hne [Ho He] Hv Hhs Hmin Hf Hpr Hh Hfi Hin].
  pose proof (mem0_bytes pages Hok) as Hb. pose proof (mem0_len pages Hok).
  pose proof (IP_HEADER_LENGTH_range (default 0 (m⟦off⟧)) ltac:(apply byte_at; done)) as (H1 & H2 & H3).
  pose proof (l4_header_facts x). pose proof (swap_short_range (word_at m (off + ip_length))).
  rewrite <- Hhs in *. split_and!; done || lia.
Qed.

Lemma qualify4 fuel len v :
  full <= len ->
  exists X, QualifyIpPacket fuel m off len v =
    Ok (classified ppresIPV4 0 x (is_fragment m off) hs X).
Proof using HP.
  intros Hlen. destruct packet4_facts as (Hb & Ho & Hhs & _ & Hf & Hm & Hx8).
  destruct HP as [Hok Hne _ Hv HH Hmin HF Hpr Hh Hfi Hin].
  unfold QualifyIpPacket. replace (len <? 4) with false by lia.
  unfold ip_verlen. rewrite Z.add_0_r. rewrite rd8_ok by lia. cbn [mbind res_bind].
  rewrite Hv. change (4 =? 4) with true. cbv iota. unfold qualify_v4, sizeof_IPv4Header.
  replace (len <? 20) with false by lia. unfold ip_length, ip_offset, ip_protocol in *.
  rewrite (rd16_ok m (off + 2)) by lia. cbn [mbind res_bind]. rewrite <- HF.
  fold (IP_HEADER_LENGTH (default 0 (m⟦off⟧))). rewrite <- HH.
  replace (hs >=? 20) with true by lia. cbn [negb].
  replace ((hs >=? full) || (v && (len <? full))) with false by (destruct v; lia).
  rewrite (rd16_ok m (off + 6)), (rd8_ok m (off + 9)) by lia. cbn [mbind res_bind]. rewrite Hpr.
  destruct (process_ok ((ppr_zero <| ipStatus := ppresIPV4 |>) <| ipHeaderSize := u8 hs |>
     <| IsFragment := is_fragment m off |>) m off len hs x) as [X HX]; [lia..|].
  exists X. destruct x; cbn [l4_proto]; change (PROTOCOL_TCP =? PROTOCOL_TCP) with true;
    change (PROTOCOL_UDP =? PROTOCOL_TCP) with false; change (PROTOCOL_UDP =? PROTOCOL_UDP) with true; cbv iota;
    unfold is_fragment, ip_offset in HX; rewrite HX; cbn; rewrite u8_small by lia; done.
Qed.

Lemma packet4_segment :
  segment pages (ph4 m off (full - hs)) (off + hs) (full - hs) (l4_xsum x).
Proof using HP.
  destruct packet4_facts as (Hb & Ho & Hhs & Hev & Hf & Hm & Hx8). pose proof (l4_header_facts x) as (Hx1 & Hx2 & Hx3 & Hx4).
  destruct HP as [Hok Hne [_ He] Hv HH Hmin HF Hpr Hh Hfi Hin].
  destruct (ph4_facts m off (full - hs) Hb Ho ltac:(lia) ltac:(lia)) as (P1 & P2 & P3).
  constructor; try done; try lia.
  - split; [lia|]. by apply even_add.
  - split_and!; done || lia.
  - split_and!; [done|rewrite P2; by exists 6|apply P3]. unfold ip_protocol in Hpr. rewrite Hpr. by destruct x.
Qed.

Lemma packet4_get X cs frag :
  GetXxpHeaderAndPayloadLen m off (classified ppresIPV4 cs x frag hs X) = Ok (full - hs).
Proof using HP.
  destruct packet4_facts as (Hb & Ho & Hhs & Hev & Hf & Hm & Hx8).
  destruct HP as [Hok Hne [_ He] Hv HH Hmin HF Hpr Hh Hfi Hin].
  unfold GetXxpHeaderAndPayloadLen, ip_verlen, ip_length in *. cbn [classified ipStatus].
  change (ppresIPV4 =? ppresIPV4) with true. cbv iota. rewrite Z.add_0_r.
  rewrite rd8_ok, rd16_ok by lia. cbn [mbind res_bind]. rewrite <- HF, <- HH, u16_small by lia. done.
Qed.

Lemma packet4_ip : ip4_header m off hs.
Proof using HP.
  destruct packet4_facts as (Hb & Ho & Hhs & Hev & Hf & Hm & Hx8).
  destruct HP as [Hok Hne _ Hv HH Hmin HF Hpr Hh Hfi Hin].
  constructor; done || lia.
Qed.

End packet4.

(** The bits of the device's header. *)
Definition data_valid (virtioFlags : Z) : bool := truth (Z.land virtioFlags VIRTIO_NET_HDR_F_DATA_VALID).
Definition needs_csum (virtioFlags : Z) : bool :=
  negb (data_valid virtioFlags) && truth (Z.land virtioFlags VIRTIO_NET_HDR_F_NEEDS_CSUM).

(** The verdict given to the protocol stack: [ip] and [xxp] say whether the two
    checksums are right, [rx_ip] and [rx] whether the stack asked for them. *)
Definition verdict (x : l4) (rx_ip ip rx xxp : bool) : tChecksumCheckResult :=
  let tcp := match x with TCP => rx | UDP => false end in
  let udp := match x with TCP => false | UDP => rx end in
  mk_cs (tcp && negb xxp) (udp && negb xxp) (rx_ip && negb ip) (tcp && xxp) (udp && xxp) (rx_ip && ip).

Definition rx_enabled4 (f : tOffloadSettingsFlags) (x : l4) : bool :=
  match x with TCP => fRxTCPChecksum f | UDP => fRxUDPChecksum f end.
Definition rx_enabled6 (f : tOffloadSettingsFlags) (x : l4) : bool :=
  match x with TCP => fRxTCPv6Checksum f | UDP => fRxUDPv6Checksum f end.

(** Verification of a classified packet, for either IP version. *)
Lemma verify_xxp_ok t pages ph off len flags status cs x frag hs X n tcpFlag udpFlag fixTcp fixUdp :
  segment pages ph (off + hs) n (l4_xsum x) -> hs <= len ->
  let r := classified status cs x frag hs X in
  let w := Z.land flags (Z.lor pcrFixPHChecksum (match x with TCP => fixTcp | UDP => fixUdp end)) in
  GetXxpHeaderAndPayloadLen (mem0 pages) off r = Ok n ->
  CalculateIpPseudoHeaderChecksum t (mem0 pages) off r n = Ok (ones (wsum ph)) ->
  truth (Z.land w pcrFixPHChecksum) = false /\ truth (Z.land w pcrFixXxpChecksum) = truth w ->
  verify_xxp t pages len off flags r tcpFlag udpFlag fixTcp fixUdp =
  Ok (if truth (Z.land flags (match x with TCP => tcpFlag | UDP => udpFlag end))
      then verify_result pages ph (off + hs) n (l4_xsum x) r (truth w) else (pages, r)).
Proof.
  intros Hs Hlen r w Hget Hph Hw. unfold verify_xxp, r. cbn [classified xxpStatus TcpUdp].
  change (ppresXxpKnown =? ppresXxpKnown) with true. cbv iota. fold (classified status cs x frag hs X).
  destruct x; cbn [l4_kind]; [change (ppresIsTCP =? ppresIsTCP) with true|change (ppresIsUDP =? ppresIsTCP) with false];
    cbv iota; (case_match; [|done]).
  - by rewrite (VerifyTcpChecksum_ok t pages ph off len n).
  - by rewrite (VerifyUdpChecksum_ok t pages ph off len n).
Qed.

(** The request to fix a segment that [VerifyTcpChecksum] gets. *)
Definition fix_flags (w : Z) (nc : bool) : Prop :=
  truth w = nc /\ truth (Z.land w pcrFixPHChecksum) = false /\
  truth (Z.land w pcrFixXxpChecksum) = truth w.

(** What the flags computed on receive ask for. *)
Lemma rx_flags_spec f v :
  let flags := rx_flags f v in
  let dv := data_valid v in let nc := needs_csum v in
  truth (Z.land flags pcrIpChecksum) = fRxIPChecksum f /\ Z.land flags pcrFixIPChecksum = 0 /\
  truth (Z.land flags pcrTcpV4Checksum) = negb dv && (nc || fRxTCPChecksum f) /\
  truth (Z.land flags pcrUdpV4Checksum) = negb dv && (nc || fRxUDPChecksum f) /\
  truth (Z.land flags pcrTcpV6Checksum) = negb dv && (nc || fRxTCPv6Checksum f) /\
  truth (Z.land flags pcrUdpV6Checksum) = negb dv && (nc || fRxUDPv6Checksum f) /\
  fix_flags (Z.land flags (Z.lor pcrFixPHChecksum pcrFixTcpV4Checksum)) nc /\
  fix_flags (Z.land flags (Z.lor pcrFixPHChecksum pcrFixUdpV4Checksum)) nc /\
  fix_flags (Z.land flags (Z.lor pcrFixPHChecksum pcrFixTcpV6Checksum)) nc /\
  fix_flags (Z.land flags (Z.lor pcrFixPHChecksum pcrFixUdpV6Checksum)) nc.
Proof.
  unfold rx_flags, needs_csum, data_valid, fix_flags.
  destruct (truth (Z.land v VIRTIO_NET_HDR_F_DATA_VALID)), (truth (Z.land v VIRTIO_NET_HDR_F_NEEDS_CSUM)),
    f as [[] [] [] [] []]; repeat split.
Qed.

Section receive.
Context (t : target) (f : tOffloadSettingsFlags) (v : Z).
Context (pages : list tCompletePhysicalAddress) (ph : list Z) (off len hs n X : Z) (x : l4) (frag : bool).
Context (Hs : segment pages ph (off + hs) n (l4_xsum x)) (Hlen : hs <= len).

(** What is known of the transport checksum after verification: it is right, or
    it was not asked for, or the device vouched for it. *)
Definition xxp_known (rx : bool) (xxpcs : Z) (fixed : bool) : Prop :=
  (xxpcs =? ppresCSOK) || fixed = needs_csum v || (rfc1071 (covered pages ph (off + hs) n) =? 0) \/
  rx = false /\ needs_csum v = false \/ data_valid v = true.

(** The packet afterwards. *)
Definition filled_in (pages' : list tCompletePhysicalAddress) : Prop :=
  if needs_csum v
  then exists c, 0 <= c < 65536 /\ pages' = put pages (off + hs + l4_xsum x) c /\
                 rfc1071 (covered pages' ph (off + hs) n) = 0
  else pages' = pages.

Lemma verify_rx status cs tcpFlag udpFlag fixTcp fixUdp rx :
  let r := classified status cs x frag hs X in
  GetXxpHeaderAndPayloadLen (mem0 pages) off r = Ok n ->
  CalculateIpPseudoHeaderChecksum t (mem0 pages) off r n = Ok (ones (wsum ph)) ->
  truth (Z.land (rx_flags f v) (match x with TCP => tcpFlag | UDP => udpFlag end)) =
    negb (data_valid v) && (needs_csum v || rx) ->
  fix_flags (Z.land (rx_flags f v) (Z.lor pcrFixPHChecksum (match x with TCP => fixTcp | UDP => fixUdp end)))
    (needs_csum v) ->
  exists pages' xxpcs fixed,
    verify_xxp t pages len off (rx_flags f v) r tcpFlag udpFlag fixTcp fixUdp =
      Ok (pages', mk_ppr status cs xxpcs ppresXxpKnown true (l4_kind x) false fixed frag hs X) /\
    xxp_known rx xxpcs fixed /\ filled_in pages'.
Proof using Hs Hlen.
  intros r Hget Hph Ha [Hw Hw']. subst r.
  rewrite (verify_xxp_ok t pages ph _ _ _ _ _ x _ _ _ n) by done. rewrite Ha, Hw.
  destruct (seg_facts _ _ _ _ _ Hs) as (_ & _ & _ & _ & _ & HT & _).
  pose proof (fixed_valid _ _ _ _ _ Hs) as Hfix.
  unfold verify_result, xxp_known, filled_in.
  set (ok := rfc1071 (covered pages ph (off + hs) n) =? 0) in *.
  destruct (data_valid v) eqn:Edv; cbn [negb andb].
  { assert (needs_csum v = false) as -> by (unfold needs_csum; by rewrite Edv).
    do 3 eexists. split; [reflexivity|]. split; [by right; right|done]. }
  destruct (needs_csum v); cbn [orb].
  { do 3 eexists. split; [reflexivity|]. split; [left; by destruct ok; cbn; repeat case_match|].
    eexists. by split_and!; [apply HT..| |]. }
  destruct rx; do 3 eexists; (split; [reflexivity|]); (split; [|done]); [left|by right; left].
  destruct ok; cbn; by repeat case_match.
Qed.

(** From the parsing result to the flags for the stack. *)
Lemma rx_verdict status cs rx xxpcs fixed (rx_ip ip : bool) :
  xxp_known rx xxpcs fixed ->
  rx_xxp (if data_valid v
          then (mk_ppr status cs xxpcs ppresXxpKnown true (l4_kind x) false fixed frag hs X) <| xxpCheckSum := ppresCSOK |>
          else mk_ppr status cs xxpcs ppresXxpKnown true (l4_kind x) false fixed frag hs X)
    (match x with TCP => rx | UDP => false end) (match x with TCP => false | UDP => rx end)
    (mk_cs false false (rx_ip && negb ip) false false (rx_ip && ip)) =
  verdict x rx_ip ip rx (data_valid v || needs_csum v || (rfc1071 (covered pages ph (off + hs) n) =? 0)).
Proof using.
  clear Hs. unfold xxp_known. set (ok := rfc1071 _ =? 0). intros Hk. unfold rx_xxp, verdict.
  destruct (data_valid v) eqn:Edv; cbn [xxpStatus xxpCheckSum fixedXxpCS TcpUdp set_field];
    change (ppresXxpKnown =? ppresXxpKnown) with true; cbv iota.
  - destruct x, rx; cbn; by rewrite ?andb_true_r.
  - cbn [orb]. destruct Hk as [->|[[-> ->]|?]]; [|by destruct x|done].
    destruct x, rx; cbn; by rewrite ?andb_true_r.
Qed.

End receive.

(** The IP part: the header is verified when asked, and never changed. *)
Lemma check_ip4 fuel t f v pages off hs full x len verifyLength :
  packet4 pages off hs full x -> full <= len ->
  let ip := rfc1071 (slice (mem0 pages) off hs) =? 0 in
  exists X cs,
    ParaNdis_CheckSumVerify fuel t pages len off (rx_flags f v) verifyLength =
      verify_xxp t pages len off (rx_flags f v) (classified ppresIPV4 cs x (is_fragment (mem0 pages) off) hs X)
        pcrTcpV4Checksum pcrUdpV4Checksum pcrFixTcpV4Checksum pcrFixUdpV4Checksum /\
    cs = if fRxIPChecksum f then if ip then ppresCSOK else ppresCSBad else 0.
Proof.
  intros HP Hlen ip. destruct (qualify4 _ _ _ _ _ HP fuel len verifyLength Hlen) as [X HQ].
  destruct (rx_flags_spec f v) as (F1 & F2 & _). exists X. eexists. split; [|reflexivity].
  unfold ParaNdis_CheckSumVerify. rewrite page0_ok by apply HP. cbn [mbind res_bind]. rewrite HQ. cbn [mbind res_bind].
  cbn [classified ipStatus ipCheckSum].
  change ((ppresIPV4 =? ppresNotIP) || (0 =? ppresIPTooShort)) with false.
  change (ppresIPV4 =? ppresIPV4) with true. cbv iota. rewrite F1, F2.
  destruct (fRxIPChecksum f); [|done].
  destruct (VerifyIpChecksum_ok t (mem0 pages) off hs (classified ppresIPV4 0 x (is_fragment (mem0 pages) off) hs X) false)
    as (m' & HV & ->); [by eapply packet4_ip|done|].
  change (negb (0 =? 0)) with false. rewrite HV. cbn [mbind res_bind].
  destruct pages as [|[mp sp] ps]; [by destruct (p4_ne _ _ _ _ _ HP)|]. done.
Qed.

