(* ===== verification/NetIpv6Spec.v ===== *)
(** * IPv6 packets in the offload code

    Verification of IPv6 packets without extension headers, and the loop of
    [QualifyIpPacket] over extension headers: it ends, inside the packet, for
    packets below 63504 bytes, and there is a packet of every larger size on which
    it does not. *)

From Stdlib Require Import ZArith Lia.
From stdpp Require Import base list numbers.
From S2P Require Import Prelude.
From S2P Require Import NetChecksum.
From S2P Require Import NetChecksumSpec.
From S2P Require Import NetOffload.
From S2P Require Import NetOffloadSpec.

(** An IPv6 packet at [off] whose TCP or UDP header follows the IP header
    directly, [full] bytes in all. *)
Record packet6 (pages : list tCompletePhysicalAddress) (off full : Z) (x : l4) : Prop := {
  p6_pages : pages_ok pages;
  p6_ne : pages <> [];
  p6_off : 0 <= off /\ Z.Even off;
  p6_version : Z.shiftr (Z.land (default 0 ((mem0 pages)⟦off⟧)) 0xF0) 4 = 6;
  p6_full : full = swap_short (word_at (mem0 pages) (off + ip6_payload_len)) + 40;
  p6_small : full < 65536;
  p6_proto : default 0 ((mem0 pages)⟦off + ip6_next_header⟧) = l4_proto x;
  p6_header : 40 + l4_header x <= full;
  p6_first : off + 40 + l4_header x <= size0 pages;
  p6_in : off + full <= zlen (pages_data pages) }.

Section packet6.
Context (pages : list tCompletePhysicalAddress) (off full : Z) (x : l4).
Context (HP : packet6 pages off full x).
Abbreviation m := (mem0 pages).

Lemma packet6_facts :
  Forall byte m /\ 0 <= off /\ off + 40 + l4_header x <= zlen m /\ 8 <= l4_header x.
Proof using HP.
  destruct HP as [Hok Hne [Ho He] Hv HF Hs Hpr Hh Hfi Hin].
  pose proof (mem0_bytes pages Hok) as Hb. pose proof (mem0_len pages Hok).
  pose proof (l4_header_facts x). split_and!; done || lia.
Qed.

Lemma ext_loop_l4 fuel len full' r :
  40 + l4_header x <= len ->
  exists X b, ext_loop (S fuel) m off len full' (l4_proto x) 40 r =
    Ok (40, r <| xxpStatus := ppresXxpKnown |> <| TcpUdp := l4_kind x |> <| xxpFull := b |>
              <| xxpStatus := ppresXxpKnown |> <| TcpUdp := l4_kind x |> <| xxpFull := true |> <| XxpIpHeaderSize := X |>).
Proof using HP.
  intros Hlen. destruct packet6_facts as (Hb & Ho & Hm & Hx8). cbn [ext_loop].
  destruct (process_ok (r <| xxpStatus := ppresXxpKnown |> <| TcpUdp := l4_kind x |>
    <| xxpFull := len >=? full' |>) m off len 40 x) as [X HX]; [lia..|].
  exists X, (len >=? full'). clear HP. destruct x; cbn [l4_proto l4_kind] in *;
    change (PROTOCOL_TCP =? 59) with false; change (PROTOCOL_UDP =? 59) with false;
    change (PROTOCOL_TCP =? PROTOCOL_TCP) with true;
    change (PROTOCOL_UDP =? PROTOCOL_TCP) with false; change (PROTOCOL_UDP =? PROTOCOL_UDP) with true; cbv iota;
    rewrite HX; done.
Qed.

Lemma qualify6 fuel len v :
  full <= len ->
  exists X, QualifyIpPacket (S fuel) m off len v = Ok (classified ppresIPV6 ppresCSOK x false 40 X).
Proof using HP.
  intros Hlen. destruct packet6_facts as (Hb & Ho & Hm & Hx8).
  destruct HP as [Hok Hne _ Hv HF Hs Hpr Hh Hfi Hin].
  unfold QualifyIpPacket. replace (len <? 4) with false by lia.
  unfold ip_verlen. rewrite Z.add_0_r. rewrite rd8_ok by lia. cbn [mbind res_bind].
  rewrite Hv. change (6 =? 4) with false. change (6 =? 6) with true. cbv iota. unfold qualify_v6, sizeof_IPv6Header.
  replace (len <? 40) with false by lia. unfold ip6_next_header, ip6_payload_len in *.
  rewrite (rd8_ok m (off + 6)) by lia. cbn [mbind res_bind].
  rewrite (rd16_ok m (off + 4)) by lia. cbn [mbind res_bind].
  rewrite <- HF, u16_small by lia.
  replace (v && (len <? full)) with false by (destruct v; lia). rewrite Hpr.
  destruct (ext_loop_l4 fuel len full (ppr_zero <| ipStatus := ppresIPV6 |> <| ipCheckSum := ppresCSOK |>))
    as (X & b & ->); [lia|]. cbn [mbind res_bind].
  replace ((40 <=? MAX_SUPPORTED_IPV6_HEADERS) && (40 <=? full)) with true by (unfold MAX_SUPPORTED_IPV6_HEADERS; lia).
  by exists X.
Qed.

Lemma packet6_segment : segment pages (ph6 m off (full - 40)) (off + 40) (full - 40) (l4_xsum x).
Proof using HP.
  destruct packet6_facts as (Hb & Ho & Hm & Hx8). pose proof (l4_header_facts x) as (Hx1 & Hx2 & Hx3 & Hx4).
  destruct HP as [Hok Hne [_ He] Hv HF Hs Hpr Hh Hfi Hin].
  destruct (ph6_facts m off (full - 40) Hb Ho ltac:(lia) ltac:(lia)) as (P1 & P2 & P3).
  constructor; try done; try lia.
  - split; [lia|]. apply even_add; [done|by exists 20].
  - split_and!; done || lia.
  - split_and!; [done|rewrite P2; by exists 20|apply P3]. unfold ip6_next_header in Hpr. rewrite Hpr. by destruct x.
Qed.

Lemma packet6_get X cs frag :
  GetXxpHeaderAndPayloadLen m off (classified ppresIPV6 cs x frag 40 X) = Ok (full - 40).
Proof using HP.
  destruct packet6_facts as (Hb & Ho & Hm & Hx8). destruct HP as [Hok Hne [_ He] Hv HF Hs Hpr Hh Hfi Hin].
  unfold GetXxpHeaderAndPayloadLen, ip6_payload_len in *. cbn [classified ipStatus ipHeaderSize].
  change (ppresIPV6 =? ppresIPV4) with false. change (ppresIPV6 =? ppresIPV6) with true. cbv iota.
  rewrite rd16_ok by lia. cbn [mbind res_bind]. unfold sizeof_IPv6Header. rewrite <- HF, u16_small by lia. done.
Qed.

End packet6.

(** The same for an IPv6 packet without extension headers: the TCP or UDP
    flags say whether the checksum of the IPv6 pseudo header and the segment is
    right (or was vouched for or left to the driver by the device), no IP flags
    are given, nothing faults, and only a checksum left to the driver changes. *)
Theorem ParaNdis_CheckRxChecksum_v6_correct fuel t f v pages off full x isIP4 dataLength verifyLength :
  packet6 pages (off + 14) full x -> full + 14 <= dataLength < 4294967296 ->
  let m := mem0 pages in
  let ph := ph6 m (off + 14) (full - 40) in
  let start := off + 14 + 40 in
  let xxp := rfc1071 (covered pages ph start (full - 40)) =? 0 in
  exists pages',
    ParaNdis_CheckRxChecksum (S fuel) t f v pages isIP4 true dataLength off verifyLength =
      Ok (pages', verdict x false false (rx_enabled6 f x) (data_valid v || needs_csum v || xxp)) /\
    (if needs_csum v
     then exists c, 0 <= c < 65536 /\ pages' = put pages (start + l4_xsum x) c /\
                    rfc1071 (covered pages' ph start (full - 40)) = 0
     else pages' = pages).
Proof.
  intros HP Hd m ph start xxp.
  pose proof (packet6_segment _ _ _ _ HP) as Hs. fold m ph in Hs.
  destruct (packet6_facts _ _ _ _ HP) as (Hb & Ho & Hm & Hx8). pose proof (p6_header _ _ _ _ HP).
  pose proof (p6_small _ _ _ _ HP).
  destruct (qualify6 _ _ _ _ HP fuel (dataLength - 14) verifyLength ltac:(lia)) as [X HQ]. fold m in HQ.
  destruct (rx_flags_spec f v) as (_ & _ & _ & _ & F3 & F4 & _ & _ & F5 & F6).
  destruct (verify_rx t f v pages ph (off + 14) (dataLength - 14) 40 (full - 40) X x false Hs
    ltac:(lia) ppresIPV6 ppresCSOK pcrTcpV6Checksum pcrUdpV6Checksum pcrFixTcpV6Checksum pcrFixUdpV6Checksum (rx_enabled6 f x))
    as (pages' & xxpcs & fixed & HV & Hk & Hfill).
  { by apply packet6_get. }
  { apply ph6_checksum; done || lia. }
  { by destruct x. }
  { by destruct x. }
  exists pages'. split; [|exact Hfill].
  unfold ParaNdis_CheckRxChecksum, ETH_HEADER_SIZE. rewrite orb_true_r, u32_small by lia.
  unfold ParaNdis_CheckSumVerify. rewrite page0_ok by apply HP. cbn [mbind res_bind]. fold m. rewrite HQ. cbn [mbind res_bind].
  cbn [ipStatus ipCheckSum classified] in *.
  change ((ppresIPV6 =? ppresNotIP) || (ppresCSOK =? ppresIPTooShort)) with false.
  change (ppresIPV6 =? ppresIPV4) with false. change (ppresIPV6 =? ppresIPV6) with true. cbv iota.
  rewrite HV. cbn [mbind res_bind ipCheckSum xxpStatus].
  change ((ppresCSOK =? ppresIPTooShort) || (ppresXxpKnown =? ppresXxpIncomplete)) with false. cbv iota.
  fold (data_valid v). unfold xxp, start. rewrite <- (rx_verdict v pages ph (off + 14) 40 (full - 40) X x
    false ppresIPV6 ppresCSOK _ _ _ false false Hk).
  destruct (data_valid v); cbn; do 3 f_equal; by destruct x.
Qed.

(** ** The loop over extension headers *)

Section loop.
Context (m : mem) (p len : Z) (Hb : Forall byte m) (Hp : 0 <= p) (Hin : p + len <= zlen m).

Lemma process_safe (x : l4) r hs :
  0 <= hs ->
  exists r', match x with TCP => ProcessTCPHeader r m p len hs | UDP => ProcessUDPHeader r m p len hs end = Ok r' /\
    ipStatus r' = ipStatus r /\ ipCheckSum r' = ipCheckSum r /\ ipHeaderSize r' = ipHeaderSize r /\
    (xxpStatus r' = ppresXxpKnown -> hs + l4_header x <= len /\ TcpUdp r' = l4_kind x).
Proof using Hp Hin.
  intros Hhs. destruct x; unfold ProcessTCPHeader, ProcessUDPHeader, tcp_flags, udp_length; cbn [l4_header l4_kind];
    (destruct (Z.geb_spec len (hs + sizeof_TCPHeader)) + destruct (Z.geb_spec len (hs + sizeof_UDPHeader)));
    unfold sizeof_TCPHeader, sizeof_UDPHeader in *; rewrite ?rd16_ok by lia; eexists; (split; [reflexivity|]);
    cbn; split_and!; try done; intros; split; done || lia.
Qed.

(** One iteration at an extension header. *)
Lemma ext_loop_step fuel full nh hs r :
  is_ext_header nh = true -> 0 <= hs -> hs + 8 <= len ->
  ext_loop (S fuel) m p len full nh hs r =
  ext_loop fuel m p len full (default 0 (m⟦p + hs⟧)) (u16 (u16 (hs + 8) + default 0 (m⟦p + hs + 1⟧) * 8)) r.
Proof using Hp Hin.
  intros He Hhs Hl. cbn [ext_loop].
  assert ((nh =? 59) = false /\ (nh =? PROTOCOL_TCP) = false /\ (nh =? PROTOCOL_UDP) = false) as (-> & -> & ->).
  { unfold is_ext_header, PROTOCOL_TCP, PROTOCOL_UDP in *. lia. }
  rewrite He. replace (len >=? hs + 8) with true by lia.
  unfold ip6ext_next_header, ip6ext_hdr_len. rewrite Z.add_0_r, !rd8_ok by lia. done.
Qed.

(** One iteration that is not at an extension header inside the packet ends. *)
Lemma ext_loop_end fuel full nh hs r :
  0 <= hs -> is_ext_header nh = false \/ len < hs + 8 ->
  exists r', ext_loop (S fuel) m p len full nh hs r = Ok (hs, r') /\ ipCheckSum r' = ipCheckSum r /\
    (ipStatus r' = ipStatus r \/ ipStatus r' = ppresNotIP) /\
    (xxpStatus r <> ppresXxpKnown -> xxpStatus r' = ppresXxpKnown ->
       exists x, TcpUdp r' = l4_kind x /\ hs + l4_header x <= len).
Proof using Hp Hin.
  intros Hhs He. cbn [ext_loop]. destruct (nh =? 59).
  { exists r. split_and!; [done|done|by left|done]. }
  destruct (nh =? PROTOCOL_TCP).
  { destruct (process_safe TCP (r <| xxpStatus := ppresXxpKnown |> <| TcpUdp := ppresIsTCP |>
      <| xxpFull := len >=? full |>) hs Hhs) as (r' & -> & H1 & H2 & _ & H3).
    exists r'. split_and!; [done|done|by left|]. intros _ Hk. exists TCP. naive_solver. }
  destruct (nh =? PROTOCOL_UDP).
  { destruct (process_safe UDP (r <| xxpStatus := ppresXxpKnown |> <| TcpUdp := ppresIsUDP |>
      <| xxpFull := len >=? full |>) hs Hhs) as (r' & -> & H1 & H2 & _ & H3).
    exists r'. split_and!; [done|done|by left|]. intros _ Hk. exists UDP. naive_solver. }
  destruct (is_ext_header nh).
  - destruct He as [?|He]; [done|]. replace (len >=? hs + 8) with false by lia.
    eexists. split_and!; [reflexivity|done|by right|]. cbn. done.
  - eexists. split_and!; [reflexivity|done|by left|]. cbn. done.
Qed.

(** What every run that ends delivers. *)
Definition loop_ends (fuel : nat) (full nh hs : Z) (r : tTcpIpPacketParsingResult) : Prop :=
  exists hs' r', ext_loop fuel m p len full nh hs r = Ok (hs', r') /\ (0 <= hs' /\ Z.Even hs') /\ ipCheckSum r' = ipCheckSum r /\
    (ipStatus r' = ipStatus r \/ ipStatus r' = ppresNotIP) /\
    (xxpStatus r <> ppresXxpKnown -> xxpStatus r' = ppresXxpKnown ->
       exists x, TcpUdp r' = l4_kind x /\ hs' + l4_header x <= len).

Lemma loop_ends_now fuel full nh hs r :
  0 <= hs -> hs mod 8 = 0 -> is_ext_header nh = false \/ len < hs + 8 -> loop_ends (S fuel) full nh hs r.
Proof using Hp Hin.
  intros Hhs Hm He. destruct (ext_loop_end fuel full nh hs r Hhs He) as (r' & E & H). exists hs, r'.
  split; [done|]. split; [|done]. split; [done|]. exists (4 * (hs / 8)). word_lia.
Qed.

(** The sum of the sizes can wrap to 0 only, where the version byte stops the loop. *)
Lemma ext_loop_ends fuel full nh hs r :
  len < 63504 -> 96 <= default 0 (m⟦p⟧) <= 111 -> 40 <= hs < 65536 -> hs mod 8 = 0 ->
  (65536 - hs) / 8 + 3 <= Z.of_nat fuel ->
  loop_ends fuel full nh hs r.
Proof using Hb Hp Hin.
  intros Hlen Hver. revert nh hs. induction fuel as [|fuel IH]; intros nh hs Hhs Hm Hfuel; [word_lia|].
  destruct (is_ext_header nh && (hs + 8 <=? len)) eqn:E.
  2:{ apply loop_ends_now; [lia|done|]. destruct (is_ext_header nh); [right; lia|by left]. }
  apply andb_true_iff in E as [E Hl%Z.leb_le].
  unfold loop_ends. rewrite ext_loop_step by (done || lia).
  pose proof (byte_at m (p + hs + 1) Hb) as Hh. rewrite (u16_small (hs + 8)) by word_lia.
  set (h := default 0 (m⟦p + hs + 1⟧)) in *. set (nh' := default 0 (m⟦p + hs⟧)).
  destruct (Z.lt_ge_cases (hs + 8 + h * 8) 65536) as [Hs|Hs].
  { rewrite u16_small by lia. apply IH; word_lia. }
  assert (u16 (hs + 8 + h * 8) = 0) as -> by word_lia.
  destruct fuel as [|fuel]; [word_lia|].
  destruct (is_ext_header nh' && (0 + 8 <=? len)) eqn:E'.
  2:{ apply loop_ends_now; [lia|done|]. destruct (is_ext_header nh'); [right; lia|by left]. }
  apply andb_true_iff in E' as [E' Hl'%Z.leb_le]. destruct fuel as [|fuel]; [word_lia|].
  rewrite ext_loop_step by (done || lia). rewrite Z.add_0_r. apply loop_ends_now.
  - apply u16_range.
  - word_lia.
  - left. unfold is_ext_header. lia.
Qed.

End loop.

(** ** The packet that is never left *)

(** [len] bytes: version 6, all other headers "hop by hop" of 2048 bytes placed
    from offset 8 on in steps of 2048, with one of 2016 bytes leading to them. *)
Definition endless_byte (i : Z) : Z :=
  if i =? 0 then 96 else if i =? 41 then 251 else if i mod 2048 =? 9 then 255 else 0.
Definition endless (len : Z) : mem := endless_byte <$> seqZ 0 len.

Lemma endless_lookup len i : 0 <= i < len -> (endless len)⟦i⟧ = Some (endless_byte i).
Proof.
  intros Hi. unfold endless, zlookup. replace (0 <=? i) with true by lia.
  rewrite list_lookup_fmap, lookup_seqZ_lt by lia. cbn. do 2 f_equal. lia.
Qed.

Lemma endless_byte_range i : byte (endless_byte i).
Proof. unfold byte, endless_byte. repeat case_match; lia. Qed.

Lemma endless_bytes len : Forall byte (endless len).
Proof. apply Forall_fmap, Forall_true. apply endless_byte_range. Qed.

Lemma endless_len len : 0 <= len -> zlen (endless len) = len.
Proof. intros. unfold endless, zlen. rewrite length_fmap, length_seqZ. lia. Qed.

Lemma endless_loop len full fuel r :
  63504 <= len -> forall k, 0 <= k < 32 ->
  ext_loop fuel (endless len) 0 len full 0 (8 + 2048 * k) r = Fault OutOfFuel.
Proof.
  intros Hlen. induction fuel as [|fuel IH]; intros k Hk; [done|].
  rewrite ext_loop_step by (rewrite ?endless_len; done || lia).
  rewrite !endless_lookup by lia. cbn [from_option id].
  assert (endless_byte (0 + (8 + 2048 * k)) = 0) as -> by (unfold endless_byte; repeat case_match; word_lia).
  assert (endless_byte (0 + (8 + 2048 * k) + 1) = 255) as -> by (unfold endless_byte; repeat case_match; word_lia).
  destruct (decide (k = 31)) as [->|].
  - change (u16 (u16 (8 + 2048 * 31 + 8) + 255 * 8)) with (8 + 2048 * 0). apply IH. lia.
  - rewrite (u16_small (8 + 2048 * k + 8)), u16_small by lia.
    replace (8 + 2048 * k + 8 + 255 * 8) with (8 + 2048 * (k + 1)) by lia. apply IH. lia.
Qed.

(** ** Classification stays inside the packet *)

(** A classification that verification can use: the headers are inside the
    packet and the declared length is not beyond it. *)
Definition usable (m : mem) (p len : Z) (v : bool) (r : tTcpIpPacketParsingResult) : Prop :=
  (ipStatus r = ppresIPV4 /\
     (ipCheckSum r = ppresIPTooShort \/
      ipHeaderSize r = IP_HEADER_LENGTH (default 0 (m⟦p⟧)) /\ 20 <= ipHeaderSize r /\
      ipHeaderSize r < swap_short (word_at m (p + ip_length)) /\
      (v = true -> swap_short (word_at m (p + ip_length)) <= len))) \/
  (ipStatus r = ppresIPV6 /\ 40 <= len /\ (0 <= ipHeaderSize r /\ Z.Even (ipHeaderSize r)) /\
     ipHeaderSize r <= u16 (swap_short (word_at m (p + ip6_payload_len)) + 40) /\
     (v = true -> u16 (swap_short (word_at m (p + ip6_payload_len)) + 40) <= len)) \/
  ipStatus r = ppresNotIP.

Lemma version_range b k : byte b -> Z.shiftr (Z.land b 0xF0) 4 = k -> 16 * k <= b < 16 * (k + 1).
Proof.
  intros Hb <-. unfold byte in Hb. rewrite Z.shiftr_land. change (Z.shiftr 240 4) with (Z.ones 4).
  rewrite Z.land_ones, Z.shiftr_div_pow2 by done. change (2 ^ 4) with 16. word_lia.
Qed.

Lemma QualifyIpPacket_safe fuel m p len v :
  Forall byte m -> 0 <= p -> p + len <= zlen m -> len < 63504 -> 8200 <= Z.of_nat fuel ->
  exists r, QualifyIpPacket fuel m p len v = Ok r /\ usable m p len v r /\
    (xxpStatus r = ppresXxpKnown -> ipStatus r <> ppresNotIP -> exists x, TcpUdp r = l4_kind x /\
       ipHeaderSize r + l4_header x <= len).
Proof.
  intros Hb Hp Hin Hlen Hfuel. unfold QualifyIpPacket.
  destruct (Z.ltb_spec len 4). { eexists. split; [reflexivity|]. split; [by right; right|done]. }
  unfold ip_verlen. rewrite Z.add_0_r, rd8_ok by lia. cbn [mbind res_bind].
  set (b := default 0 (m⟦p⟧)). assert (byte b) as Hbb by (by apply byte_at).
  destruct (Z.eqb_spec (Z.shiftr (Z.land b 0xF0) 4) 4) as [H4|H4].
  - unfold qualify_v4, sizeof_IPv4Header. fold (IP_HEADER_LENGTH b).
    destruct (Z.ltb_spec len 20). { eexists. split; [reflexivity|]. split; [by right; right|done]. }
    unfold ip_length, ip_offset, ip_protocol in *. rewrite (rd16_ok m (p + 2)) by lia. cbn [mbind res_bind].
    pose proof (IP_HEADER_LENGTH_range b (proj1 Hbb)) as (Hr & _).
    destruct (Z.geb_spec (IP_HEADER_LENGTH b) 20); cbn [negb].
    2:{ eexists. split; [reflexivity|]. split; [by right; right|done]. }
    destruct (_ || _) eqn:Et. { eexists. split; [reflexivity|]. split; [left; split; [done|by left]|done]. }
    rewrite (rd16_ok m (p + 6)), (rd8_ok m (p + 9)) by lia. cbn [mbind res_bind].
    set (r0 := _ <| IsFragment := _ |>).
    assert (Hu : forall r, ipStatus r = ipStatus r0 -> ipCheckSum r = ipCheckSum r0 -> ipHeaderSize r = ipHeaderSize r0 ->
      usable m p len v r /\ ipHeaderSize r = IP_HEADER_LENGTH b).
    { intros r E1 E2 E3. rewrite E3. cbn. rewrite u8_small by lia. split; [|done]. left. split; [done|]. right.
      rewrite E3. cbn. rewrite u8_small by lia. unfold ip_length. fold b.
      split_and!; try done; try lia. intros ->. lia. }
    destruct (_ =? PROTOCOL_TCP); [|destruct (_ =? PROTOCOL_UDP)].
    + destruct (process_safe m p len Hp Hin TCP r0 (IP_HEADER_LENGTH b) ltac:(lia)) as (r & -> & K1 & K2 & K3 & K5).
      exists r. destruct (Hu r K1 K2 K3) as [HU HH]. split_and!; [done|done|]. intros Hk _. exists TCP. rewrite HH. naive_solver.
    + destruct (process_safe m p len Hp Hin UDP r0 (IP_HEADER_LENGTH b) ltac:(lia)) as (r & -> & K1 & K2 & K3 & K5).
      exists r. destruct (Hu r K1 K2 K3) as [HU HH]. split_and!; [done|done|]. intros Hk _. exists UDP. rewrite HH. naive_solver.
    + eexists. split; [reflexivity|]. split; [by apply Hu|done].
  - destruct (Z.eqb_spec (Z.shiftr (Z.land b 0xF0) 4) 6) as [H6|H6].
    2:{ eexists. split; [reflexivity|]. split; [by right; right|done]. }
    apply version_range in H6; [|done].
    unfold qualify_v6, sizeof_IPv6Header.
    destruct (Z.ltb_spec len 40). { eexists. split; [reflexivity|]. split; [by right; right|done]. }
    unfold ip6_next_header, ip6_payload_len.
    rewrite (rd8_ok m (p + 6)), (rd16_ok m (p + 4)) by lia. cbn [mbind res_bind].
    destruct (v && _) eqn:Ev. { eexists. split; [reflexivity|]. split; [by right; right|done]. }
    set (full := u16 (swap_short (word_at m (p + 4)) + 40)) in *.
    set (r0 := _ <| ipCheckSum := _ |>).
    destruct (ext_loop_ends m p len Hb Hp Hin fuel full (default 0 (m⟦p + 6⟧)) 40 r0)
      as (hs & r & -> & K1 & K2 & K3 & K5); [lia|fold b; lia|lia|done|word_lia|].
    cbn [mbind res_bind]. unfold MAX_SUPPORTED_IPV6_HEADERS. destruct ((hs <=? 256 - 4) && (hs <=? full)) eqn:Eh.
    + assert (u8 hs = hs) as E8 by (apply u8_small; lia).
      eexists. split; [reflexivity|]. split.
      * right. destruct K3 as [K3|K3]; [left|right; exact K3]. unfold ip6_payload_len. fold full.
        split; [exact K3|]. split; [done|]. cbn. rewrite E8. split; [done|]. split; [lia|]. intros ->. lia.
      * intros Hk _. cbn. rewrite E8. apply K5; done.
    + eexists. split; [reflexivity|]. split; [by right; right|]. cbn. done.
Qed.

(** Claim C32. Classifying an IP packet of fewer than 63504 bytes ends within a fixed
    number of iterations and reads only inside the packet, whatever its bytes
    are; from 63504 bytes on the 16-bit sum of the extension headers can come
    back to an earlier header, and for every such length there is a packet on
    which [QualifyIpPacket] runs forever, with or without length verification. *)
Theorem QualifyIpPacket_termination :
  (forall fuel m p len verifyLength,
     Forall byte m -> 0 <= p -> p + len <= zlen m -> len < 63504 -> 8200 <= Z.of_nat fuel ->
     is_ok (QualifyIpPacket fuel m p len verifyLength) = true) /\
  (forall len, 63504 <= len ->
     exists m, Forall byte m /\ zlen m = len /\
       forall fuel verifyLength, QualifyIpPacket fuel m 0 len verifyLength = Fault OutOfFuel).
Proof.
  split.
  - intros fuel m p len v Hb Hp Hin Hlen Hfuel. pose proof (zlen_nonneg m).
    destruct (QualifyIpPacket_safe fuel m p len v Hb Hp Hin Hlen Hfuel) as (r & -> & _). done.
  - intros len Hlen. exists (endless len). split; [apply endless_bytes|]. split; [apply endless_len; lia|].
    intros fuel v. unfold QualifyIpPacket. replace (len <? 4) with false by lia.
    rewrite rd8_ok by (rewrite endless_len; unfold ip_verlen; lia). rewrite endless_lookup by (unfold ip_verlen; lia).
    cbn [mbind res_bind from_option id]. change (Z.shiftr (Z.land (endless_byte _) 0xF0) 4) with 6.
    change (6 =? 4) with false. change (6 =? 6) with true. cbv iota.
    unfold qualify_v6, sizeof_IPv6Header. replace (len <? 40) with false by lia.
    unfold ip6_next_header, ip6_payload_len.
    rewrite rd8_ok by (rewrite endless_len; lia). rewrite endless_lookup by lia. cbn [mbind res_bind from_option id].
    rewrite (rd16_ok (endless len) (0 + 4)) by (rewrite ?endless_len; lia). cbn [mbind res_bind].
    unfold word_at. rewrite !endless_lookup by lia. cbn [from_option id].
    change (u16 (swap_short _ + 40)) with 40. replace (v && (len <? 40)) with false by (destruct v; lia).
    assert (forall r, ext_loop fuel (endless len) 0 len 40 (endless_byte (0 + 6)) 40 r = Fault OutOfFuel) as ->; [|done].
    intros r. change (endless_byte (0 + 6)) with 0. destruct fuel as [|fuel]; [done|].
    rewrite ext_loop_step by (rewrite ?endless_len; done || lia). rewrite !endless_lookup by lia. cbn [from_option id].
    change (endless_byte (0 + 40)) with 0. change (endless_byte (0 + 40 + 1)) with 251.
    change (u16 (u16 (40 + 8) + 251 * 8)) with (8 + 2048 * 1). apply endless_loop; lia.
Qed.

(** ** Verification stays inside the packet *)

Lemma calculate_safe t pages o start n :
  pages_ok pages -> pages <> [] -> 0 <= start -> Z.Even start -> 0 <= n < 65536 ->
  start + n <= zlen (pages_data pages) -> 0 <= o -> o + 2 <= size0 pages ->
  exists c, CalculateChecksumGivenPseudoCS t o pages start n = Ok (put pages o c).
Proof.
  intros. unfold CalculateChecksumGivenPseudoCS. rewrite CheckSumCalculator_ok by (done || lia).
  cbn [mbind res_bind]. rewrite store16_ok by done. by eexists.
Qed.

Section verify_safe.
Context (t : target) (pages : list tCompletePhysicalAddress) (off len n : Z).
Context (known : tTcpIpPacketParsingResult) (w : Z).
Context (Hok : pages_ok pages) (Hne : pages <> []) (Hoff : 0 <= off /\ Z.Even off).
Context (Hhs : 0 <= ipHeaderSize known /\ Z.Even (ipHeaderSize known)) (Hn : 0 <= n < 65536).
Context (Hget : GetXxpHeaderAndPayloadLen (mem0 pages) off known = Ok n).
Context (Hph : is_ok (CalculateIpPseudoHeaderChecksum t (mem0 pages) off known n) = true).
Context (Hin : off + ipHeaderSize known + n <= zlen (pages_data pages)).

(** Store, compute, read back and restore: every step that either function takes. *)
Ltac step_safe o :=
  first
  [ rewrite store16_ok by (first [apply put_ok; assumption | assumption | apply put_nil; assumption | rewrite ?put_size0; lia])
  | match goal with |- context [CalculateChecksumGivenPseudoCS t o ?pg ?st n] =>
      let c := fresh "c" in let E := fresh "E" in
      destruct (calculate_safe t pg o st n) as [c E];
        [ first [apply put_ok; assumption | assumption] | first [apply put_nil; assumption | assumption]
        | cbn [ipHeaderSize set_field]; lia | cbn [ipHeaderSize set_field]; apply even_add; tauto | lia
        | rewrite ?put_data, ?zlen_upd16 by (assumption || lia); cbn [ipHeaderSize set_field]; lia | lia
        | rewrite ?put_size0; lia |]; rewrite E; clear E; rewrite ?put_put end
  | progress (unfold note_match; rewrite page0_ok by (repeat apply put_nil; assumption); cbn [mbind res_bind];
      rewrite ?put_mem0 by (repeat apply put_nil; assumption); rewrite rd16_ok by (rewrite ?zlen_upd16; lia)) ];
  cbn [mbind res_bind].

Lemma VerifyTcpChecksum_safe :
  off + ipHeaderSize known + 20 <= size0 pages -> is_ok (VerifyTcpChecksum t pages len off known w) = true.
Proof using Hok Hne Hoff Hhs Hn Hget Hph Hin.
  intros Hfi. pose proof (mem0_len pages Hok). unfold VerifyTcpChecksum, tcp_xsum.
  rewrite page0_ok by done. cbn [mbind res_bind]. rewrite rd16_ok by lia. cbn [mbind res_bind].
  rewrite Hget. cbn [mbind res_bind].
  destruct (CalculateIpPseudoHeaderChecksum _ _ _ _ _) as [phcs|]; [|done]. cbn [mbind res_bind].
  set (o := off + ipHeaderSize known + 16).
  assert (Ho : 0 <= o /\ o + 2 <= size0 pages) by (unfold o; lia).
  repeat first [step_safe o | case_match; try done].
Qed.

Lemma VerifyUdpChecksum_safe :
  off + ipHeaderSize known + 8 <= size0 pages -> is_ok (VerifyUdpChecksum t pages len off known w) = true.
Proof using Hok Hne Hoff Hhs Hn Hget Hph Hin.
  intros Hfi. pose proof (mem0_len pages Hok). unfold VerifyUdpChecksum, udp_xsum.
  rewrite page0_ok by done. cbn [mbind res_bind]. rewrite rd16_ok by lia. cbn [mbind res_bind].
  rewrite Hget. cbn [mbind res_bind].
  destruct (CalculateIpPseudoHeaderChecksum _ _ _ _ _) as [phcs|]; [|done]. cbn [mbind res_bind].
  set (o := off + ipHeaderSize known + 6).
  assert (Ho : 0 <= o /\ o + 2 <= size0 pages) by (unfold o; lia).
  repeat first [step_safe o | case_match; try done].
Qed.

End verify_safe.

(** The number of bytes that verification covers ends with the packet. *)
Lemma xxp_len_inside m p len r :
  Forall byte m -> 0 <= p -> p + len <= zlen m -> 20 <= len ->
  usable m p len true r -> ipStatus r <> ppresNotIP -> ipCheckSum r <> ppresIPTooShort ->
  exists n, GetXxpHeaderAndPayloadLen m p r = Ok n /\ 0 <= n < 65536 /\ ipHeaderSize r + n <= len /\
    (0 <= ipHeaderSize r /\ Z.Even (ipHeaderSize r)) /\
    (forall t, is_ok (CalculateIpPseudoHeaderChecksum t m p r n) = true).
Proof.
  intros Hb Hp Hin Hlen [[E4 [?|(Hhs & Hmin & Hlt & Hle)]]|[(E6 & Hl & Hev & Hhs & Hle)|?]] Hnot Hshort; [done| | |done];
    specialize (Hle eq_refl); unfold GetXxpHeaderAndPayloadLen, CalculateIpPseudoHeaderChecksum.
  - rewrite E4. change (ppresIPV4 =? ppresIPV4) with true. cbv iota.
    pose proof (IP_HEADER_LENGTH_range (default 0 (m⟦p⟧)) ltac:(apply byte_at; done)) as (_ & _ & He).
    unfold ip_verlen, ip_length in *. rewrite Z.add_0_r, rd8_ok, rd16_ok by lia. cbn [mbind res_bind].
    rewrite <- Hhs in *. pose proof (swap_short_range (word_at m (p + 2))).
    eexists. split; [reflexivity|]. rewrite u16_small by lia. split_and!; try done; try lia.
    intros t. rewrite ph4_checksum by (done || lia). done.
  - rewrite E6. change (ppresIPV6 =? ppresIPV4) with false. change (ppresIPV6 =? ppresIPV6) with true. cbv iota.
    unfold ip6_payload_len, sizeof_IPv6Header in *. rewrite rd16_ok by lia. cbn [mbind res_bind].
    set (L := swap_short (word_at m (p + 4))) in *.
    assert (u16 (L + 40 - ipHeaderSize r) = u16 (L + 40) - ipHeaderSize r) as EL by word_lia.
    pose proof (u16_range (L + 40)).
    eexists. split; [reflexivity|]. rewrite EL. split_and!; try done; try lia; try tauto.
    intros t. rewrite ph6_checksum by (done || lia). done.
Qed.

Lemma usable_upd16 m p len r x :
  0 <= p -> usable m p len true r -> ipStatus r = ppresIPV4 -> usable (upd16 m (p + 10) x) p len true r.
Proof.
  intros Hp [[E4 H]|[[E6 _]|En]] E; [|by rewrite E6 in E|by rewrite En in E]. left. split; [done|].
  unfold word_at, upd16, ip_length in *. by rewrite !zlookup_zinsert_ne by lia.
Qed.

Section buffer.
Context (fuel : nat) (t : target) (m : mem) (s off len flags : Z).
Context (Hb : Forall byte m) (Hs : 0 <= s < 4294967296) (Hsm : s <= zlen m) (Hoff : 0 <= off /\ Z.Even off).
Context (Hlen : off + len <= s).

Lemma one_page_ok m' : Forall byte m' -> zlen m' = zlen m -> pages_ok [mk_page m' s].
Proof using Hs Hsm. intros Hb' E. repeat constructor; cbn; done || lia. Qed.

Lemma verify_xxp_safe m' r tcpFlag udpFlag fixTcp fixUdp :
  Forall byte m' -> zlen m' = zlen m -> usable m' off len true r ->
  ipStatus r <> ppresNotIP -> ipCheckSum r <> ppresIPTooShort ->
  (xxpStatus r = ppresXxpKnown -> exists x, TcpUdp r = l4_kind x /\ ipHeaderSize r + l4_header x <= len) ->
  is_ok (verify_xxp t [mk_page m' s] len off flags r tcpFlag udpFlag fixTcp fixUdp) = true.
Proof using Hs Hsm Hoff Hlen.
  intros Hb' El Hu H1 H2 Hk. unfold verify_xxp. destruct (Z.eqb_spec (xxpStatus r) ppresXxpKnown) as [Ek|]; [|done].
  destruct (Hk Ek) as (x & Ex & Hx). pose proof (l4_header_facts x) as (Hx8 & _).
  assert (0 <= ipHeaderSize r) as Hr0.
  { destruct Hu as [[_ [?|?]]|[?|?]]; [done|lia|tauto|done]. }
  assert (20 <= len) as H20.
  { destruct Hu as [[_ [?|(? & ? & ? & ?)]]|[(_ & ? & _)|?]]; [done|lia|lia|done]. }
  destruct (xxp_len_inside m' off len r Hb' ltac:(lia) ltac:(lia) H20 Hu H1 H2) as (n & Hg & Hn & Hin & Hev & Hph).
  assert (Hd : off + ipHeaderSize r + n <= zlen (pages_data [mk_page m' s])).
  { rewrite pages_data_cons, zlen_app, page_data_len, zlen_pages_nil by (constructor; cbn; done || lia). cbn. lia. }
  pose proof (one_page_ok m' Hb' El) as Hok.
  destruct (TcpUdp r =? ppresIsTCP) eqn:Et; (case_match; [|done]).
  - apply (VerifyTcpChecksum_safe t _ off len n); try done; try apply Hph.
    destruct x; [cbn in *; unfold sizeof_TCPHeader in Hx; lia|by rewrite Ex in Et].
  - apply (VerifyUdpChecksum_safe t _ off len n); try done; try apply Hph.
    destruct x; [by rewrite Ex in Et|cbn in *; unfold sizeof_UDPHeader in Hx; lia].
Qed.

End buffer.

Lemma CheckSumVerify_safe fuel t m s off len flags :
  Forall byte m -> s <= zlen m -> 0 <= off -> Z.Even off -> 0 <= len < 63504 -> off + len <= s < 4294967296 ->
  8200 <= Z.of_nat fuel ->
  is_ok (ParaNdis_CheckSumVerify fuel t [mk_page m s] len off flags true) = true.
Proof.
  intros Hb Hsm Ho He Hlen Hs Hfuel. unfold ParaNdis_CheckSumVerify. cbn [page0 mbind res_bind Virtual].
  destruct (QualifyIpPacket_safe fuel m off len true Hb Ho ltac:(lia) ltac:(lia) Hfuel) as (r & -> & Hu & Hk).
  cbn [mbind res_bind]. destruct (_ || _) eqn:En; [done|].
  apply orb_false_iff in En as [N1%Z.eqb_neq N2%Z.eqb_neq]. specialize (fun H => Hk H N1).
  destruct (Z.eqb_spec (ipStatus r) ppresIPV4) as [E4|]; [|destruct (ipStatus r =? ppresIPV6); [|done]].
  - destruct (truth (Z.land flags pcrIpChecksum)).
    2:{ cbn [mbind res_bind]. by eapply (verify_xxp_safe t m s); try done; try (cbn; lia). }
    destruct (VerifyIpChecksum_ok t m off (ipHeaderSize r) r (negb (Z.land flags pcrFixIPChecksum =? 0)))
      as (m' & -> & Hm'); [|done|].
    { destruct Hu as [[_ [?|(? & ? & ? & Hle)]]|[[? _]|?]]; [done| |by rewrite E4 in *|by rewrite E4 in *].
      specialize (Hle eq_refl). constructor; done || lia. }
    assert (Forall byte m' /\ zlen m' = zlen m /\ usable m' off len true r) as (Hb' & El & Hu').
    { destruct (negb _); [destruct Hm' as [(c & _ & ->) _]|by subst m'].
      split_and!; [by apply upd16_bytes|apply zlen_upd16|by apply usable_upd16]. }
    cbn [mbind res_bind set_field Virtual size].
    set (r' := if negb _ then _ else _).
    assert (ipStatus r' = ipStatus r /\ ipHeaderSize r' = ipHeaderSize r /\ xxpStatus r' = xxpStatus r /\
      TcpUdp r' = TcpUdp r /\ (ipCheckSum r' = ppresCSOK \/ ipCheckSum r' = ppresCSBad)) as (R1 & R2 & R3 & R4 & R5).
    { unfold r'. destruct (negb _), (_ =? 0); cbn; tauto. }
    assert (usable m' off len true r') as Hu2.
    { left. split; [congruence|]. right. rewrite R2.
      destruct Hu' as [[_ [?|?]]|[[? _]|?]]; [done|done|by rewrite E4 in *|done]. }
    eapply (verify_xxp_safe t m s); try done; try (cbn; lia); try congruence.
    + destruct R5 as [-> | ->]; done.
    + rewrite R2, R3, R4. done.
  - by eapply (verify_xxp_safe t m s); try done; try (cbn; lia).
Qed.

(** With length verification, checking or fixing the checksums of any
    bytes whatever in a buffer reads and writes only inside the buffer and ends,
    for every combination of requests, up to 63503 bytes. *)
Theorem ParaNdis_CheckSumVerify_safe fuel t m s off len flags :
  Forall byte m -> s <= zlen m -> 0 <= off -> Z.Even off -> 0 <= len < 63504 -> off + len <= s < 4294967296 ->
  8200 <= Z.of_nat fuel ->
  is_ok (ParaNdis_CheckSumVerify fuel t [mk_page m s] len off flags true) = true.
Proof. apply CheckSumVerify_safe. Qed.
