(* ===== verification/NetRx.v ===== *)
(** * Analysis of received packets in NetKVM

    [ParaNdis_AnalyzeReceivedPacket] with the header walks below it, VLAN
    stripping and padding (NetKVM/Common/sw_offload.cpp). *)

From Stdlib Require Import ZArith Lia.
From stdpp Require Import base list numbers.
From S2P Require Import Prelude.
From S2P Require Import NetChecksum.
From S2P Require Import NetOffload.

(** ** Packet information *)

Definition ETH_ALEN : Z := 6.
Definition ETH_PRIORITY_HEADER_SIZE : Z := 4.
Definition ETH_MIN_PACKET_SIZE : Z := 60.
Definition ETH_PROTO_IP4 : Z := 0x0800.
Definition ETH_PROTO_IP6 : Z := 0x86DD.
Definition IP6_HDR_HOP_BY_HOP : Z := 0.
Definition IP6_HDR_ROUTING : Z := 43.
Definition IP6_HDR_FRAGMENT : Z := 44.
Definition IP6_HDR_AUTHENTICATION : Z := 51.
Definition IP6_HDR_DESTINATION : Z := 60.
Definition IP6_HDR_MOBILITY : Z := 135.
Definition IP6_EXT_HDR_GRANULARITY : Z := 8.
Definition IP6_EXT_HDR_OPTION_PAD1 : Z := 0.
Definition IP6_EXT_HDR_OPTION_HOME_ADDR : Z := 201.

(** The hash of a packet and how it was computed. *)
Record rss_hash := mk_hash { Value : Z; Type_ : Z; Function_ : Z }.

(** [NET_PACKET_INFO]; pointers are offsets into the packet's memory. *)
Record NET_PACKET_INFO := mk_info {
  isBroadcast : bool; isMulticast : bool; isUnicast : bool; hasVlanHeader : bool;
  isIP4 : bool; isIP6 : bool; isTCP : bool; isUDP : bool; isFragment : bool;
  UserPriority : Z; VlanId : Z; RSSHash : rss_hash;
  L2HdrLen : Z; L3HdrLen : Z; L2PayloadLen : Z; ip6HomeAddrOffset : Z; ip6DestAddrOffset : Z;
  ethDestAddr : Z; headersBuffer : Z; dataLength : Z }.
#[export] Instance eta_info : Eta NET_PACKET_INFO := fun i =>
  mk_info (isBroadcast i) (isMulticast i) (isUnicast i) (hasVlanHeader i) (isIP4 i) (isIP6 i) (isTCP i)
    (isUDP i) (isFragment i) (UserPriority i) (VlanId i) (RSSHash i) (L2HdrLen i) (L3HdrLen i)
    (L2PayloadLen i) (ip6HomeAddrOffset i) (ip6DestAddrOffset i) (ethDestAddr i) (headersBuffer i) (dataLength i).

Definition zero_info : NET_PACKET_INFO :=
  mk_info false false false false false false false false false 0 0 (mk_hash 0 0 0) 0 0 0 0 0 0 0 0.

(** The address macros of the NDIS headers, on the six bytes of an address. *)
Record ndis_macros := mk_ndis {
  ETH_IS_BROADCAST : list Z -> bool;
  ETH_IS_MULTICAST : list Z -> bool;
  ETH_COMPARE_NETWORK_ADDRESSES_EQ_SAFE : list Z -> list Z -> Z }.

(** ** Headers *)

Definition AnalyzeL3Proto (L3Proto : Z) (i : NET_PACKET_INFO) : NET_PACKET_INFO :=
  i <| isIP4 := L3Proto =? swap_short ETH_PROTO_IP4 |> <| isIP6 := L3Proto =? swap_short ETH_PROTO_IP6 |>.

Definition ETH_HAS_PRIO_HEADER (a b : Z) : bool := (a =? 0x81) && (b =? 0).
Definition VLAN_GET_USER_PRIORITY (b : Z) : Z := Z.shiftr (Z.land b 0xE0) 5.
Definition VLAN_GET_VLAN_ID (a b : Z) : Z := Z.lor (Z.shiftl (Z.land a 0x0F) 8) b.

Definition AnalyzeL2Hdr (N : ndis_macros) (m : mem) (i : NET_PACKET_INFO) : res (bool * NET_PACKET_INFO) :=
  let p := headersBuffer i in
  if dataLength i <? ETH_HEADER_SIZE then Ok (false, i)
  else
    let i := i <| ethDestAddr := p |> in
    addr ← rd_range m p ETH_ALEN;
    let i := if ETH_IS_BROADCAST N addr then i <| isBroadcast := true |>
             else if ETH_IS_MULTICAST N addr then i <| isMulticast := true |>
             else i <| isUnicast := true |> in
    a ← rd8 m (p + 12);
    b ← rd8 m (p + 13);
    if ETH_HAS_PRIO_HEADER a b then
      let vlanHdr := p + ETH_HEADER_SIZE in
      if dataLength i <? ETH_HEADER_SIZE + ETH_PRIORITY_HEADER_SIZE then Ok (false, i)
      else
        v0 ← rd8 m vlanHdr;
        v1 ← rd8 m (vlanHdr + 1);
        type_ ← rd16 m (vlanHdr + 2);
        let i := AnalyzeL3Proto type_
          (i <| hasVlanHeader := true |> <| UserPriority := VLAN_GET_USER_PRIORITY v0 |>
             <| VlanId := VLAN_GET_VLAN_ID v0 v1 |> <| L2HdrLen := ETH_HEADER_SIZE + ETH_PRIORITY_HEADER_SIZE |>) in
        Ok (true, i <| L2PayloadLen := dataLength i - L2HdrLen i |>)
    else
      type_ ← rd16 m (p + 12);
      let i := AnalyzeL3Proto type_ (i <| L2HdrLen := ETH_HEADER_SIZE |>) in
      Ok (true, i <| L2PayloadLen := dataLength i - L2HdrLen i |>).

(** The new header length and next header, or [None] for [FALSE]. *)
Definition SkipIP6ExtensionHeader (m : mem) (ip6Hdr dataLength ip6HdrLength : Z) : res (option (Z * Z)) :=
  if ip6HdrLength + 4 >? dataLength then Ok None
  else
    nextHdr ← rd8 m (ip6Hdr + ip6HdrLength + ip6ext_next_header);
    l ← rd8 m (ip6Hdr + ip6HdrLength + ip6ext_hdr_len);
    Ok (Some (u32 (ip6HdrLength + (l + 1) * IP6_EXT_HDR_GRANULARITY), nextHdr)).

(** [sizeof(IP6_TYPE2_ROUTING_HEADER)] is 24.  The result is [None] for [FALSE],
    otherwise the offset of the address, if any. *)
Definition AnalyzeIP6RoutingExtension (m : mem) (routingHdr dataLength : Z) : res (option (option Z)) :=
  if dataLength <? 24 then Ok None
  else
    ty ← rd8 m (routingHdr + 2);
    if ty =? 2 then
      segs ← rd8 m (routingHdr + 3);
      if negb (dataLength =? 24) || negb (segs =? 1) then Ok None
      else Ok (Some (Some (routingHdr + 8)))
    else Ok (Some None).

(** [while (dataLength != 0)]; every option has at least one byte, so as many
    iterations as bytes are enough. *)
Fixpoint dest_options (fuel : nat) (m : mem) (destHdr dataLength : Z) (homeAddr : option Z) :
    res (option (option Z)) :=
  match fuel with
  | O => Fault OutOfFuel
  | S fuel =>
      if dataLength =? 0 then Ok (Some homeAddr)
      else
        ty ← rd8 m destHdr;
        step ← (if ty =? IP6_EXT_HDR_OPTION_HOME_ADDR then
                  if dataLength <? 2 then Ok None
                  else
                    l ← rd8 m (destHdr + 1);
                    if negb (l =? 16) then Ok None else Ok (Some (l + 2, Some (destHdr + 2)))
                else if ty =? IP6_EXT_HDR_OPTION_PAD1 then Ok (Some (1, homeAddr))
                else if dataLength <? 2 then Ok None
                else l ← rd8 m (destHdr + 1); Ok (Some (l + 2, homeAddr)));
        match step with
        | None => Ok None
        | Some (optionLen, homeAddr) =>
            if dataLength <? optionLen then Ok None
            else dest_options fuel m (destHdr + optionLen) (dataLength - optionLen) homeAddr
        end
  end.

Definition AnalyzeIP6DestinationExtension (m : mem) (destHdr dataLength : Z) : res (option (option Z)) :=
  dest_options (S (Z.to_nat dataLength)) m destHdr dataLength None.

(** [ip6HdrLength], [nextHdr], [homeAddrOffset], [destAddrOffset] *)
Record ip6_walk := mk_walk { w_len : Z; w_next : Z; w_home : Z; w_dest : Z }.

(** [for (;;) switch ( *nextHdr )] *)
Fixpoint ip6_loop (fuel : nat) (m : mem) (ip6Hdr dataLength : Z) (w : ip6_walk) : res (option ip6_walk) :=
  match fuel with
  | O => Fault OutOfFuel
  | S fuel =>
      let nh := w_next w in
      let skip := SkipIP6ExtensionHeader m ip6Hdr dataLength (w_len w) in
      if nh =? IP6_HDR_DESTINATION then
        s ← skip;
        match s with
        | None => Ok None
        | Some (l, nh) =>
            a ← AnalyzeIP6DestinationExtension m (ip6Hdr + w_len w) (u32 (l - w_len w));
            match a with
            | None => Ok None
            | Some home =>
                ip6_loop fuel m ip6Hdr dataLength
                  (mk_walk l nh (match home with Some h => h - ip6Hdr | None => 0 end) (w_dest w))
            end
        end
      else if nh =? IP6_HDR_ROUTING then
        s ← skip;
        match s with
        | None => Ok None
        | Some (l, nh) =>
            a ← AnalyzeIP6RoutingExtension m (ip6Hdr + w_len w) (u32 (l - w_len w));
            match a with
            | None => Ok None
            | Some dest =>
                ip6_loop fuel m ip6Hdr dataLength
                  (mk_walk l nh (w_home w) (match dest with Some h => h - ip6Hdr | None => 0 end))
            end
        end
      else if (nh =? IP6_HDR_HOP_BY_HOP) || (nh =? IP6_HDR_AUTHENTICATION) || (nh =? IP6_HDR_MOBILITY) then
        s ← skip;
        match s with
        | None => Ok None
        | Some (l, nh) => ip6_loop fuel m ip6Hdr dataLength (mk_walk l nh (w_home w) (w_dest w))
        end
      else Ok (Some w)
  end.

Definition AnalyzeIP6Hdr (fuel : nat) (m : mem) (ip6Hdr dataLength : Z) : res (option ip6_walk) :=
  if dataLength <? sizeof_IPv6Header then Ok None
  else
    nextHdr ← rd8 m (ip6Hdr + ip6_next_header);
    ip6_loop fuel m ip6Hdr dataLength (mk_walk sizeof_IPv6Header nextHdr 0 0).

Definition AnalyzeL4Proto (l4Protocol : Z) (i : NET_PACKET_INFO) : NET_PACKET_INFO :=
  i <| isTCP := l4Protocol =? PROTOCOL_TCP |> <| isUDP := l4Protocol =? PROTOCOL_UDP |>.

Definition AnalyzeL3Hdr (fuel : nat) (m : mem) (i : NET_PACKET_INFO) : res (bool * NET_PACKET_INFO) :=
  let hdr := headersBuffer i + L2HdrLen i in
  if isIP4 i then
    if dataLength i <? L2HdrLen i + sizeof_IPv4Header then Ok (false, i)
    else
      v ← rd8 m (hdr + ip_verlen);
      let i := i <| L3HdrLen := IP_HEADER_LENGTH v |> in
      if (L3HdrLen i <? sizeof_IPv4Header) || (dataLength i <? L2HdrLen i + L3HdrLen i) then Ok (false, i)
      else if negb (Z.shiftr (Z.land v 0xF0) 4 =? 4) then Ok (false, i)
      else
        off ← rd16 m (hdr + ip_offset);
        let i := i <| isFragment := negb (Z.land off (Z.lnot 0xC0) =? 0) |> in
        if negb (isFragment i) then
          proto ← rd8 m (hdr + ip_protocol); Ok (true, AnalyzeL4Proto proto i)
        else Ok (true, i)
  else if isIP6 i then
    v ← rd8 m (hdr + ip6_ver_tc);
    if negb (Z.shiftr (Z.land v 0xF0) 4 =? 6) then Ok (false, i)
    else
      w ← AnalyzeIP6Hdr fuel m hdr (L2PayloadLen i);
      match w with
      | None => Ok (false, i)
      | Some w =>
          let i := i <| L3HdrLen := w_len w |> in
          if w_len w >? MAX_SUPPORTED_IPV6_HEADERS then Ok (false, i)
          else
            let off x := if negb (x =? 0) then L2HdrLen i + x else 0 in
            let i := i <| ip6HomeAddrOffset := off (w_home w) |> <| ip6DestAddrOffset := off (w_dest w) |>
                       <| isFragment := w_next w =? IP6_HDR_FRAGMENT |> in
            if negb (isFragment i) then Ok (true, AnalyzeL4Proto (w_next w) i) else Ok (true, i)
      end
  else Ok (true, i).

Definition ParaNdis_AnalyzeReceivedPacket (N : ndis_macros) (fuel : nat) (m : mem) (buffer len : Z) :
    res (bool * NET_PACKET_INFO) :=
  let i := zero_info <| headersBuffer := buffer |> <| dataLength := len |> in
  '(ok, i) ← AnalyzeL2Hdr N m i;
  if negb (ok : bool) then Ok (false, i) else AnalyzeL3Hdr fuel m i.

(** ** VLAN header and padding *)

(** Copy the 32-bit word at index [from] over the one at index [to]. *)
Definition move32 (m : mem) (p from to : Z) : res mem :=
  w ← rd_range m (p + 4 * from) 4;
  let o := p + 4 * to in
  if (0 <=? o) && (o + 4 <=? zlen m) then Ok (written m o w) else Fault OutOfBounds.

Definition ParaNdis_StripVlanHeaderMoveHead (m : mem) (i : NET_PACKET_INFO) : res (Z * mem * NET_PACKET_INFO) :=
  let p := headersBuffer i in
  _ ← ASSERT (hasVlanHeader i);
  _ ← ASSERT (L2HdrLen i =? ETH_HEADER_SIZE + ETH_PRIORITY_HEADER_SIZE);
  m ← move32 m p 2 3;
  m ← move32 m p 1 2;
  m ← move32 m p 0 1;
  Ok (ETH_PRIORITY_HEADER_SIZE, m,
      i <| headersBuffer := p + ETH_PRIORITY_HEADER_SIZE |>
        <| dataLength := u32 (dataLength i - ETH_PRIORITY_HEADER_SIZE) |>
        <| L2HdrLen := ETH_HEADER_SIZE |>
        <| ethDestAddr := ethDestAddr i + ETH_PRIORITY_HEADER_SIZE |>
        <| ip6DestAddrOffset := u32 (ip6DestAddrOffset i - ETH_PRIORITY_HEADER_SIZE) |>
        <| ip6HomeAddrOffset := u32 (ip6HomeAddrOffset i - ETH_PRIORITY_HEADER_SIZE) |>).

Definition ParaNdis_PadPacketToMinimalLength (m : mem) (i : NET_PACKET_INFO) : res (mem * NET_PACKET_INFO) :=
  if dataLength i <? ETH_MIN_PACKET_SIZE then
    let o := headersBuffer i + dataLength i in
    let n := ETH_MIN_PACKET_SIZE - dataLength i in
    if (0 <=? o) && (o + n <=? zlen m)
    then Ok (written m o (replicate (Z.to_nat n) 0), i <| dataLength := ETH_MIN_PACKET_SIZE |>)
    else Fault OutOfBounds
  else Ok (m, i).
