(* ===== verification/NetRxSpec.v ===== *)
(** * The analysis of a received packet ends, stays near the packet, and finds
    headers that lie in it; stripping a VLAN tag and padding *)

From Stdlib Require Import ZArith Lia ZifyBool.
From stdpp Require Import base list numbers sets.
From S2P Require Import Prelude.
From S2P Require Import NetChecksum.
From S2P Require Import NetChecksumSpec.
From S2P Require Import NetOffload.
From S2P Require Import NetOffloadSpec.
From S2P Require Import NetRx.

(** An extension header may claim 2048 bytes when 4 are left of the packet. *)
Definition rx_slack : Z := 2048.

Lemma rd8_byte m o : Forall byte m -> 0 <= o < zlen m -> exists v, rd8 m o = Ok v /\ 0 <= v < 256.
Proof.
  intros Hb Ho. destruct (zlookup_in_range m o Ho) as [v Hv]. exists v. split; [by apply zget_ok|].
  by apply (zlookup_Forall byte m o).
Qed.

Section walk.
Context (m : mem) (Hm : Forall byte m).

(** ** Extension headers *)

Lemma SkipIP6ExtensionHeader_ok hdr len l :
  0 <= hdr -> 0 <= l -> len < 2147483648 -> hdr + len <= zlen m ->
  if l + 4 >? len then SkipIP6ExtensionHeader m hdr len l = Ok None
  else exists l' nh, SkipIP6ExtensionHeader m hdr len l = Ok (Some (l', nh)) /\ l + 8 <= l' <= l + rx_slack /\ 0 <= nh < 256.
Proof using Hm.
  intros Hh Hl Hlen Hz. unfold SkipIP6ExtensionHeader. destruct (Z.gtb_spec (l + 4) len) as [|Hle]; [done|].
  unfold ip6ext_next_header, ip6ext_hdr_len, IP6_EXT_HDR_GRANULARITY, rx_slack.
  destruct (rd8_byte m (hdr + l + 0) Hm ltac:(lia)) as (nh & -> & Hnh).
  destruct (rd8_byte m (hdr + l + 1) Hm ltac:(lia)) as (x & -> & Hx). cbn [mbind res_bind].
  rewrite u32_small by lia. eexists _, _. split; [done|]. lia.
Qed.

Lemma dest_options_ok fuel p n home :
  0 <= p -> 0 <= n -> p + n <= zlen m -> (Z.to_nat n < fuel)%nat ->
  exists r, dest_options fuel m p n home = Ok r /\
    match r with Some (Some h) => home = Some h \/ p < h /\ h + 16 <= p + n | _ => True end.
Proof using Hm.
  revert p n home. induction fuel as [|fuel IH]; intros p n home Hp Hn Hz Hf; [lia|]. cbn [dest_options].
  destruct (Z.eqb_spec n 0); [eexists; split; [done|]; destruct home; by auto|].
  destruct (rd8_byte m p Hm ltac:(lia)) as (ty & -> & Hty). cbn [mbind res_bind].
  assert (Hgo : forall k home', 1 <= k -> (home' = home \/ 18 <= k /\ home' = Some (p + 2)) ->
    exists r, (if n <? k then Ok None else dest_options fuel m (p + k) (n - k) home') = Ok r /\
      match r with Some (Some h) => home = Some h \/ p < h /\ h + 16 <= p + n | _ => True end).
  { intros k home' Hk Hh. destruct (Z.ltb_spec n k); [by eexists|].
    destruct (IH (p + k) (n - k) home') as (r & -> & Hr); [lia|lia|lia|lia|]. exists r. split; [done|].
    destruct r as [[h|]|]; [|done|done]. destruct Hr as [->|Hr]; [|right; lia].
    destruct Hh as [<-|[? [= ->]]]; [by left|right; lia]. }
  assert (Hrest : exists r, (step ← (if n <? 2 then Ok None else l ← rd8 m (p + 1); Ok (Some (l + 2, home)));
    match step with None => Ok None | Some (k, home) => if n <? k then Ok None else dest_options fuel m (p + k) (n - k) home end)
    = Ok r /\ match r with Some (Some h) => home = Some h \/ p < h /\ h + 16 <= p + n | _ => True end).
  { destruct (Z.ltb_spec n 2); [by eexists|]. destruct (rd8_byte m (p + 1) Hm ltac:(lia)) as (l & -> & Hl). cbn [mbind res_bind].
    apply Hgo; [lia|by left]. }
  destruct (Z.eqb_spec ty IP6_EXT_HDR_OPTION_HOME_ADDR); [|destruct (Z.eqb_spec ty IP6_EXT_HDR_OPTION_PAD1); [|exact Hrest]].
  - destruct (Z.ltb_spec n 2); [by eexists|]. destruct (rd8_byte m (p + 1) Hm ltac:(lia)) as (l & -> & Hl). cbn [mbind res_bind].
    destruct (Z.eqb_spec l 16) as [->|]; cbn [negb mbind res_bind]; [|by eexists]. apply Hgo; [lia|right; split; [lia|done]].
  - cbn [mbind res_bind]. apply Hgo; [lia|by left].
Qed.

Lemma AnalyzeIP6RoutingExtension_ok p n :
  0 <= p -> p + n <= zlen m ->
  exists r, AnalyzeIP6RoutingExtension m p n = Ok r /\
    match r with Some (Some h) => p < h /\ h + 16 <= p + n | _ => True end.
Proof using Hm.
  intros Hp Hz. unfold AnalyzeIP6RoutingExtension. destruct (Z.ltb_spec n 24); [by eexists|].
  destruct (rd8_byte m (p + 2) Hm ltac:(lia)) as (ty & -> & _). cbn [mbind res_bind]. destruct (ty =? 2); [|by eexists].
  destruct (rd8_byte m (p + 3) Hm ltac:(lia)) as (segs & -> & _). cbn [mbind res_bind].
  destruct (negb (n =? 24) || negb (segs =? 1)); [by eexists|]. eexists. split; [done|]. cbn. lia.
Qed.

(** An address found in an extension header lies before the end of the headers. *)
Definition addr_in (w : ip6_walk) (x : Z) : Prop := x = 0 \/ 40 < x /\ x + 16 <= w_len w.

Lemma ip6_loop_ok fuel hdr len w :
  0 <= hdr -> 0 <= len < 2147483648 -> hdr + len + rx_slack <= zlen m ->
  40 <= w_len w <= len + rx_slack -> addr_in w (w_home w) -> addr_in w (w_dest w) ->
  (Z.to_nat (len + 8 - w_len w) < 8 * fuel)%nat ->
  exists r, ip6_loop fuel m hdr len w = Ok r /\
    match r with
    | Some w' => 40 <= w_len w' <= len + rx_slack /\ addr_in w' (w_home w') /\ addr_in w' (w_dest w')
    | None => True
    end.
Proof using Hm.
  revert w. unfold rx_slack. induction fuel as [|fuel IH]; intros w Hh Hlen Hz Hw Hhome Hdest Hf; [lia|]. cbn [ip6_loop].
  pose proof (SkipIP6ExtensionHeader_ok hdr len (w_len w) Hh ltac:(lia) ltac:(lia) ltac:(lia)) as Hskip.
  assert (Hnext : forall l nh home dest, w_len w + 4 <= len -> w_len w + 8 <= l <= w_len w + 2048 ->
    (home = 0 \/ 40 < home /\ home + 16 <= l) -> (dest = 0 \/ 40 < dest /\ dest + 16 <= l) ->
    exists r, ip6_loop fuel m hdr len (mk_walk l nh home dest) = Ok r /\
      match r with
      | Some w' => 40 <= w_len w' <= len + 2048 /\ addr_in w' (w_home w') /\ addr_in w' (w_dest w')
      | None => True
      end).
  { intros l nh home dest H4 Hl Ho Hd. apply IH; cbn; try done; lia. }
  assert (Hold : forall l x, w_len w <= l -> addr_in w x -> x = 0 \/ 40 < x /\ x + 16 <= l).
  { unfold addr_in. intros l x Hl Hx. lia. }
  destruct (Z.gtb_spec (w_len w + 4) len) as [|H4].
  { rewrite Hskip. cbn [mbind res_bind].
    destruct (w_next w =? _); [by eexists|]. destruct (w_next w =? _); [by eexists|].
    destruct (_ || _); [by eexists|]. eexists. split; [done|]. done. }
  destruct Hskip as (l & nh & -> & Hl & _). unfold rx_slack in Hl. cbn [mbind res_bind].
  destruct (w_next w =? IP6_HDR_DESTINATION).
  { rewrite u32_small by lia. unfold AnalyzeIP6DestinationExtension.
    destruct (dest_options_ok (S (Z.to_nat (l - w_len w))) (hdr + w_len w) (l - w_len w) None) as (r & -> & Hr); [lia|lia|lia|lia|].
    cbn [mbind res_bind]. destruct r as [home|]; [|by eexists]. apply Hnext; [done|done| |by apply Hold; lia || done].
    destruct home as [h|]; [|by left]. destruct Hr as [?|Hr]; [done|]. right. lia. }
  destruct (w_next w =? IP6_HDR_ROUTING).
  { rewrite u32_small by lia.
    destruct (AnalyzeIP6RoutingExtension_ok (hdr + w_len w) (l - w_len w)) as (r & -> & Hr); [lia|lia|].
    cbn [mbind res_bind]. destruct r as [dest|]; [|by eexists]. apply Hnext; [done|done|by apply Hold; lia || done|].
    destruct dest as [h|]; [|by left]. right. lia. }
  destruct (_ || _).
  - apply Hnext; try done; apply Hold; lia || done.
  - eexists. split; [done|]. done.
Qed.

End walk.

(** ** The whole analysis *)

(** What a successful analysis of the [len] bytes at [buffer] reports. *)
Record analysed (buffer len : Z) (i : NET_PACKET_INFO) : Prop := {
  an_where : headersBuffer i = buffer /\ dataLength i = len /\ ethDestAddr i = buffer;
  an_class : (isBroadcast i, isMulticast i, isUnicast i) ∈ [(true, false, false); (false, true, false); (false, false, true)];
  an_l2 : L2HdrLen i = (if hasVlanHeader i then 18 else 14) /\ L2HdrLen i <= len;
  an_payload : L2PayloadLen i = len - L2HdrLen i;
  an_ip4 : isIP4 i = true -> 20 <= L3HdrLen i <= 60 /\ L2HdrLen i + L3HdrLen i <= len;
  an_ip6 : isIP4 i = false -> isIP6 i = true -> 40 <= L3HdrLen i <= MAX_SUPPORTED_IPV6_HEADERS /\ L2HdrLen i + 40 <= len;
  an_l3 : 0 <= L3HdrLen i <= MAX_SUPPORTED_IPV6_HEADERS;
  an_home : ip6HomeAddrOffset i = 0 \/ L2HdrLen i + 40 < ip6HomeAddrOffset i <= L2HdrLen i + L3HdrLen i - 16;
  an_dest : ip6DestAddrOffset i = 0 \/ L2HdrLen i + 40 < ip6DestAddrOffset i <= L2HdrLen i + L3HdrLen i - 16;
  an_l4 : isTCP i = true \/ isUDP i = true -> isFragment i = false /\ (isIP4 i = true \/ isIP6 i = true) }.

(** After the Ethernet header. *)
Record l2_ok (buffer len : Z) (i : NET_PACKET_INFO) : Prop := {
  l2_where : headersBuffer i = buffer /\ dataLength i = len /\ ethDestAddr i = buffer;
  l2_class : (isBroadcast i, isMulticast i, isUnicast i) ∈ [(true, false, false); (false, true, false); (false, false, true)];
  l2_len : L2HdrLen i = (if hasVlanHeader i then 18 else 14) /\ L2HdrLen i <= len;
  l2_payload : L2PayloadLen i = len - L2HdrLen i;
  l2_rest : ip6HomeAddrOffset i = 0 /\ ip6DestAddrOffset i = 0 /\ isTCP i = false /\ isUDP i = false /\ L3HdrLen i = 0 }.

Lemma AnalyzeL2Hdr_ok N m buffer len :
  Forall byte m -> 0 <= buffer -> 0 <= len -> buffer + len <= zlen m ->
  exists ok i, AnalyzeL2Hdr N m (zero_info <| headersBuffer := buffer |> <| dataLength := len |>) = Ok (ok, i) /\
    (ok = true -> l2_ok buffer len i).
Proof.
  intros Hm Hb Hl Hz. unfold AnalyzeL2Hdr. cbn [headersBuffer dataLength set_field zero_info].
  unfold ETH_HEADER_SIZE, ETH_PRIORITY_HEADER_SIZE, ETH_ALEN. cbn.
  destruct (Z.ltb_spec len 14); [by eexists _, _|].
  rewrite rd_range_ok by lia. cbn [mbind res_bind].
  set (b0 := zero_info <| headersBuffer := buffer |> <| dataLength := len |> <| ethDestAddr := buffer |>).
  set (i0 := if ETH_IS_BROADCAST N (slice m buffer 6) then b0 <| isBroadcast := true |>
             else if ETH_IS_MULTICAST N (slice m buffer 6) then b0 <| isMulticast := true |> else b0 <| isUnicast := true |>).
  assert (Hi0 : headersBuffer i0 = buffer /\ dataLength i0 = len /\ ethDestAddr i0 = buffer /\ hasVlanHeader i0 = false /\
    ip6HomeAddrOffset i0 = 0 /\ ip6DestAddrOffset i0 = 0 /\ isTCP i0 = false /\ isUDP i0 = false /\ L3HdrLen i0 = 0).
  { unfold i0. destruct (ETH_IS_BROADCAST N _); [done|by destruct (ETH_IS_MULTICAST N _)]. }
  assert (Hc0 : (isBroadcast i0, isMulticast i0, isUnicast i0) ∈ [(true, false, false); (false, true, false); (false, false, true)]).
  { unfold i0. destruct (ETH_IS_BROADCAST N _); [|destruct (ETH_IS_MULTICAST N _)]; cbn; set_solver. }
  clearbody i0. destruct Hi0 as (E1 & E2 & E3 & E4 & E5 & E6 & E7 & E8 & E9).
  destruct (rd8_byte m (buffer + 12) Hm ltac:(lia)) as (a & -> & _).
  destruct (rd8_byte m (buffer + 13) Hm ltac:(lia)) as (b & -> & _). cbn [mbind res_bind].
  destruct (ETH_HAS_PRIO_HEADER a b).
  - rewrite E2. destruct (Z.ltb_spec len (14 + 4)); [by eexists _, _|].
    destruct (rd8_byte m (buffer + 14) Hm ltac:(lia)) as (v0 & -> & _).
    destruct (rd8_byte m (buffer + 14 + 1) Hm ltac:(lia)) as (v1 & -> & _). rewrite rd16_ok by lia. cbn [mbind res_bind].
    eexists _, _. split; [done|]. intros _. unfold AnalyzeL3Proto. constructor; cbn; try done; lia.
  - rewrite rd16_ok by lia. cbn [mbind res_bind]. eexists _, _. split; [done|]. intros _. unfold AnalyzeL3Proto.
    constructor; cbn; rewrite ?E4; try done; lia.
Qed.

Lemma ip_header_length v : 0 <= v < 256 -> 0 <= IP_HEADER_LENGTH v <= 60.
Proof.
  intros Hv. unfold IP_HEADER_LENGTH. change 0x0F with (2 ^ 4 - 1). rewrite land_pow2_mod, Z.shiftl_mul_pow2 by lia.
  change (2 ^ 4) with 16. change (2 ^ 2) with 4. word_lia.
Qed.

Lemma AnalyzeL3Hdr_ok fuel m buffer len i :
  Forall byte m -> 0 <= buffer -> 0 <= len < 2147483648 -> buffer + len + rx_slack <= zlen m ->
  (Z.to_nat len < 8 * fuel)%nat -> l2_ok buffer len i ->
  exists ok i', AnalyzeL3Hdr fuel m i = Ok (ok, i') /\ (ok = true -> analysed buffer len i').
Proof.
  intros Hm Hb Hlen Hz Hf [(E1 & E2 & E3) Hc [EL HL] EP (R1 & R2 & R3 & R4 & R5)]. unfold rx_slack in Hz.
  assert (HL2 : 14 <= L2HdrLen i <= 18) by (rewrite EL; destruct (hasVlanHeader i); lia).
  unfold AnalyzeL3Hdr. rewrite E1, E2. destruct (isIP4 i) eqn:E4.
  - unfold sizeof_IPv4Header, ip_verlen, ip_offset, ip_protocol. destruct (Z.ltb_spec len (L2HdrLen i + 20)); [by eexists _, _|].
    destruct (rd8_byte m (buffer + L2HdrLen i + 0) Hm ltac:(lia)) as (v & -> & Hv). cbn [mbind res_bind]. cbn.
    pose proof (ip_header_length v Hv). destruct ((_ <? _) || (_ <? _)) eqn:Eh; [by eexists _, _|].
    destruct (negb (_ =? 4)); [by eexists _, _|]. rewrite rd16_ok by lia. cbn [mbind res_bind].
    destruct (negb (negb (_ =? 0))) eqn:Ef.
    + destruct (rd8_byte m (buffer + L2HdrLen i + 9) Hm ltac:(lia)) as (proto & -> & _). cbn [mbind res_bind].
      eexists _, _. split; [done|]. intros _. constructor; cbn; rewrite ?E4; unfold MAX_SUPPORTED_IPV6_HEADERS; try done; try lia; auto.
    + eexists _, _. split; [done|]. intros _. constructor; cbn; rewrite ?E4; unfold MAX_SUPPORTED_IPV6_HEADERS; try done; try lia; auto.
  - destruct (isIP6 i) eqn:E6.
    + unfold ip6_ver_tc. 
      destruct (rd8_byte m (buffer + L2HdrLen i + 0) Hm ltac:(lia)) as (v & -> & Hv). cbn [mbind res_bind].
      destruct (negb (_ =? 6)); [by eexists _, _|]. unfold AnalyzeIP6Hdr, sizeof_IPv6Header, ip6_next_header.
      destruct (Z.ltb_spec (L2PayloadLen i) 40); [by eexists _, _|].
      destruct (rd8_byte m (buffer + L2HdrLen i + 6) Hm ltac:(lia)) as (nh & -> & _). cbn [mbind res_bind].
      destruct (ip6_loop_ok m Hm fuel (buffer + L2HdrLen i) (L2PayloadLen i) (mk_walk 40 nh 0 0)) as (r & -> & Hr);
        unfold rx_slack; cbn; try lia; try by left.
      destruct r as [w|]; [|by eexists _, _]. destruct Hr as (Hw & Hh & Hd). unfold addr_in in Hh, Hd.
      destruct (Z.gtb_spec (w_len w) MAX_SUPPORTED_IPV6_HEADERS); [by eexists _, _|].
      assert (Hoff : forall x, x = 0 \/ 40 < x /\ x + 16 <= w_len w ->
        (if negb (x =? 0) then L2HdrLen i + x else 0) = 0 \/
        L2HdrLen i + 40 < (if negb (x =? 0) then L2HdrLen i + x else 0) <= L2HdrLen i + w_len w - 16).
      { intros x Hx. destruct (Z.eqb_spec x 0); cbn [negb]; [by left|right; lia]. }
      cbn. destruct (negb (w_next w =? IP6_HDR_FRAGMENT)) eqn:Ef.
      * eexists _, _. split; [done|]. intros _. constructor; cbn; rewrite ?E4, ?E6; try done; try lia; auto.
      * eexists _, _. split; [done|]. intros _. constructor; cbn; rewrite ?E4, ?E6; try done; try lia; auto.
    + eexists _, _. split; [done|]. intros _. constructor; rewrite ?E4, ?E6, ?R3, ?R4, ?R5; try done; auto; by intros [|].
Qed.

Lemma analyze_ok N fuel m buffer len :
  Forall byte m -> 0 <= buffer -> 0 <= len < 2147483648 -> buffer + len + rx_slack <= zlen m ->
  (Z.to_nat len < 8 * fuel)%nat ->
  exists ok i, ParaNdis_AnalyzeReceivedPacket N fuel m buffer len = Ok (ok, i) /\ (ok = true -> analysed buffer len i).
Proof.
  intros Hm Hb Hl Hz Hf. unfold ParaNdis_AnalyzeReceivedPacket.
  destruct (AnalyzeL2Hdr_ok N m buffer len Hm Hb) as (ok & i & -> & Hok); [lia|unfold rx_slack in Hz; lia|].
  cbn [mbind res_bind]. destruct ok; cbn [negb]; [|by eexists _, _].
  apply (AnalyzeL3Hdr_ok fuel m buffer len i); try done. by apply Hok.
Qed.

(** ** Stripping the VLAN header, padding *)

Lemma zlookup_written {A} (m : list A) o w j :
  0 <= o -> o + zlen w <= zlen m ->
  (written m o w)⟦j⟧ = if (o <=? j) && (j <? o + zlen w) then w⟦j - o⟧ else m⟦j⟧.
Proof.
  intros Ho Hw. unfold written, zlookup, zlen in *. destruct (Z.leb_spec 0 j) as [Hj|Hj].
  - destruct (Z.leb_spec o j); cbn [andb].
    + destruct (Z.ltb_spec j (o + Z.of_nat (length w))).
      * replace (0 <=? j - o) with true by lia. rewrite lookup_app_r by (rewrite length_take; lia).
        rewrite lookup_app_l by (rewrite length_take; lia). f_equal. rewrite length_take. lia.
      * rewrite !lookup_app_r by (rewrite ?length_take; lia). rewrite lookup_drop. f_equal. rewrite length_take. lia.
    + rewrite lookup_app_l by (rewrite length_take; lia). by rewrite lookup_take_lt by lia.
  - by replace (o <=? j) with false by lia.
Qed.

Lemma zlen_written {A} (m : list A) o w : 0 <= o -> o + zlen w <= zlen m -> zlen (written m o w) = zlen m.
Proof. intros Ho Hw. unfold written, zlen in *. rewrite !length_app, length_take, length_drop. lia. Qed.

Lemma Forall_written (P : Z -> Prop) m o w : Forall P m -> Forall P w -> Forall P (written m o w).
Proof. intros Hm Hw. unfold written. apply Forall_app_2; [by apply Forall_take|]. apply Forall_app_2; [done|by apply Forall_drop]. Qed.

Lemma move32_ok m p from to :
  0 <= p -> 0 <= from -> 0 <= to -> p + 4 * from + 4 <= zlen m -> p + 4 * to + 4 <= zlen m -> Forall byte m ->
  exists m', move32 m p from to = Ok m' /\ zlen m' = zlen m /\ Forall byte m' /\
    forall j, m'⟦p + j⟧ = if (4 * to <=? j) && (j <? 4 * to + 4) then m⟦p + (j - 4 * to + 4 * from)⟧ else m⟦p + j⟧.
Proof.
  intros Hp Hf Ht Hz1 Hz2 Hb. unfold move32. rewrite rd_range_ok by lia. cbn [mbind res_bind].
  replace ((0 <=? p + 4 * to) && (p + 4 * to + 4 <=? zlen m)) with true by lia.
  pose proof (zlen_slice m (p + 4 * from) 4 ltac:(lia) ltac:(lia) ltac:(lia)) as Hl.
  eexists. split; [done|]. split_and!.
  - apply zlen_written; lia.
  - apply Forall_written; [done|by apply slice_bytes].
  - intros j. rewrite zlookup_written by lia. rewrite Hl.
    replace ((p + 4 * to <=? p + j) && (p + j <? p + 4 * to + 4)) with ((4 * to <=? j) && (j <? 4 * to + 4)) by lia.
    destruct ((4 * to <=? j) && (j <? 4 * to + 4)) eqn:E; [|done]. rewrite zlookup_slice by lia. f_equal. lia.
Qed.

(** The frame without the four bytes of the tag. *)
Definition untagged (l : list Z) : list Z := take 12 l ++ drop 16 l.

(** The analysis of the frame without the tag. *)
Definition stripped (i : NET_PACKET_INFO) : NET_PACKET_INFO :=
  i <| headersBuffer := headersBuffer i + 4 |> <| dataLength := dataLength i - 4 |>
    <| L2HdrLen := 14 |> <| ethDestAddr := ethDestAddr i + 4 |>
    <| ip6DestAddrOffset := u32 (ip6DestAddrOffset i - 4) |>
    <| ip6HomeAddrOffset := u32 (ip6HomeAddrOffset i - 4) |>.

Lemma strip_ok m i :
  hasVlanHeader i = true -> L2HdrLen i = 18 -> 0 <= headersBuffer i -> 18 <= dataLength i < 4294967296 ->
  headersBuffer i + dataLength i <= zlen m -> Forall byte m ->
  exists m', ParaNdis_StripVlanHeaderMoveHead m i =
      Ok (4, m', stripped i) /\
    zlen m' = zlen m /\ Forall byte m' /\
    slice m' (headersBuffer i + 4) (dataLength i - 4) = untagged (slice m (headersBuffer i) (dataLength i)) /\
    (forall j, j < headersBuffer i + 4 \/ headersBuffer i + 16 <= j -> m'⟦j⟧ = m⟦j⟧).
Proof.
  intros Hv H2 Hp Hl Hz Hb. unfold ParaNdis_StripVlanHeaderMoveHead. rewrite Hv, H2. set (p := headersBuffer i) in *.
  cbn [ASSERT mbind res_bind]. change (18 =? ETH_HEADER_SIZE + ETH_PRIORITY_HEADER_SIZE) with true. cbn [ASSERT mbind res_bind].
  destruct (move32_ok m p 2 3) as (m1 & -> & L1 & B1 & J1); [lia|lia|lia|lia|lia|done|]. cbn [mbind res_bind].
  destruct (move32_ok m1 p 1 2) as (m2 & -> & L2 & B2 & J2); [lia|lia|lia|lia|lia|done|]. cbn [mbind res_bind].
  destruct (move32_ok m2 p 0 1) as (m3 & -> & L3 & B3 & J3); [lia|lia|lia|lia|lia|done|]. cbn [mbind res_bind].
  assert (J : forall j, m3⟦p + j⟧ = if (4 <=? j) && (j <? 16) then m⟦p + (j - 4)⟧ else m⟦p + j⟧).
  { intros j. rewrite J3. destruct ((4 * 1 <=? j) && (j <? 4 * 1 + 4)) eqn:E3.
    { replace ((4 <=? j) && (j <? 16)) with true by lia. rewrite J2.
      replace ((4 * 2 <=? j - 4 * 1 + 4 * 0) && (j - 4 * 1 + 4 * 0 <? 4 * 2 + 4)) with false by lia. rewrite J1.
      replace ((4 * 3 <=? j - 4 * 1 + 4 * 0) && (j - 4 * 1 + 4 * 0 <? 4 * 3 + 4)) with false by lia. f_equal. lia. }
    rewrite J2. destruct ((4 * 2 <=? j) && (j <? 4 * 2 + 4)) eqn:E2.
    { replace ((4 <=? j) && (j <? 16)) with true by lia. rewrite J1.
      replace ((4 * 3 <=? j - 4 * 2 + 4 * 1) && (j - 4 * 2 + 4 * 1 <? 4 * 3 + 4)) with false by lia. f_equal. lia. }
    rewrite J1. destruct ((4 * 3 <=? j) && (j <? 4 * 3 + 4)) eqn:E1.
    { replace ((4 <=? j) && (j <? 16)) with true by lia. f_equal. lia. }
    by replace ((4 <=? j) && (j <? 16)) with false by lia. }
  exists m3. split; [unfold ETH_PRIORITY_HEADER_SIZE, ETH_HEADER_SIZE; rewrite (u32_small (dataLength i - 4)) by lia; done|].
  split; [lia|]. split; [done|]. split.
  - apply zlist_eq.
    + unfold untagged. rewrite zlen_slice by lia. rewrite zlen_app. unfold zlen. rewrite length_take, length_drop.
      pose proof (zlen_slice m p (dataLength i) ltac:(lia) ltac:(lia) ltac:(lia)) as E. unfold zlen in E. lia.
    + rewrite zlen_slice by lia. intros j Hj. rewrite zlookup_slice by lia. replace (p + 4 + j) with (p + (4 + j)) by lia. rewrite J.
      pose proof (zlen_slice m p (dataLength i) ltac:(lia) ltac:(lia) ltac:(lia)) as E. unfold zlen in E.
      unfold untagged, zlookup at 3. replace (0 <=? j) with true by lia.
      destruct (Z.ltb_spec j 12).
      * replace ((4 <=? 4 + j) && (4 + j <? 16)) with true by lia. rewrite lookup_app_l by (rewrite length_take; lia).
        rewrite lookup_take_lt by lia. replace (4 + j - 4) with j by lia. rewrite <- (zlookup_slice m p (dataLength i)) by lia.
        unfold zlookup. by replace (0 <=? j) with true by lia.
      * replace ((4 <=? 4 + j) && (4 + j <? 16)) with false by lia. rewrite lookup_app_r by (rewrite length_take; lia).
        rewrite lookup_drop, length_take. rewrite <- (zlookup_slice m p (dataLength i)) by lia.
        unfold zlookup. replace (0 <=? 4 + j) with true by lia. f_equal. lia.
  - intros j Hj. replace j with (p + (j - p)) by lia. rewrite J.
    by replace ((4 <=? j - p) && (j - p <? 16)) with false by lia.
Qed.

Lemma pad_ok m i :
  0 <= headersBuffer i -> 0 <= dataLength i -> headersBuffer i + Z.max (dataLength i) 60 <= zlen m -> Forall byte m ->
  exists m', ParaNdis_PadPacketToMinimalLength m i = Ok (m', i <| dataLength := Z.max (dataLength i) 60 |>) /\
    zlen m' = zlen m /\ Forall byte m' /\
    slice m' (headersBuffer i) (Z.max (dataLength i) 60) =
      slice m (headersBuffer i) (dataLength i) ++ replicate (Z.to_nat (60 - dataLength i)) 0.
Proof.
  intros Hp Hl Hz Hb. unfold ParaNdis_PadPacketToMinimalLength, ETH_MIN_PACKET_SIZE.
  set (p := headersBuffer i) in *. destruct (Z.ltb_spec (dataLength i) 60) as [Hs|Hs]; cycle 1.
  { exists m. rewrite Z.max_l by lia. split; [by destruct i|]. split; [done|]. split; [done|].
    replace (Z.to_nat (60 - dataLength i)) with 0%nat by lia. by rewrite app_nil_r. }
  replace ((0 <=? p + dataLength i) && (p + dataLength i + (60 - dataLength i) <=? zlen m)) with true by lia.
  set (w := replicate (Z.to_nat (60 - dataLength i)) 0). assert (Hw : zlen w = 60 - dataLength i) by (unfold w; rewrite zlen_replicate; lia).
  eexists. rewrite Z.max_r by lia. split; [done|]. split; [apply zlen_written; lia|].
  split; [apply Forall_written; [done|by apply Forall_replicate]|].
  apply zlist_eq; [rewrite zlen_app, !zlen_slice, Hw by (rewrite ?zlen_written; lia); lia|].
  rewrite zlen_slice by (rewrite ?zlen_written; lia). intros j Hj. rewrite zlookup_slice, zlookup_written by lia. rewrite Hw.
  destruct (Z.ltb_spec j (dataLength i)).
  - replace ((p + dataLength i <=? p + j) && (p + j <? p + dataLength i + (60 - dataLength i))) with false by lia.
    rewrite zlookup_app_l, zlookup_slice by (rewrite ?zlen_slice; lia). done.
  - replace ((p + dataLength i <=? p + j) && (p + j <? p + dataLength i + (60 - dataLength i))) with true by lia.
    rewrite zlookup_app_r by (rewrite zlen_slice; lia). rewrite zlen_slice by lia. f_equal. lia.
Qed.

(** ** Theorems *)


(** A tagged frame that the analysis accepted loses exactly the four bytes
    of its tag and is padded with zeros to the Ethernet minimum of 60 bytes; the
    frame then starts four bytes later in the buffer, and the lengths recorded for
    it match. *)
Theorem VLAN_strip_and_pad N fuel m buffer len i :
  Forall byte m -> 0 <= buffer -> 0 <= len < 2147483648 -> buffer + len + rx_slack <= zlen m -> (Z.to_nat len < 8 * fuel)%nat ->
  ParaNdis_AnalyzeReceivedPacket N fuel m buffer len = Ok (true, i) -> hasVlanHeader i = true ->
  exists m1 i1 m2 i2,
    ParaNdis_StripVlanHeaderMoveHead m i = Ok (4, m1, i1) /\ ParaNdis_PadPacketToMinimalLength m1 i1 = Ok (m2, i2) /\
    headersBuffer i2 = buffer + 4 /\ ethDestAddr i2 = buffer + 4 /\ L2HdrLen i2 = 14 /\
    dataLength i2 = Z.max (len - 4) 60 /\
    slice m2 (buffer + 4) (Z.max (len - 4) 60) = untagged (slice m buffer len) ++ replicate (Z.to_nat (64 - len)) 0.
Proof.
  intros Hm Hb Hl Hz Hf E Hv. destruct (analyze_ok N fuel m buffer len Hm Hb Hl Hz Hf) as (ok & i' & E' & Hok).
  rewrite E in E'. injection E' as <- <-. destruct (Hok eq_refl) as [(W1 & W2 & W3) _ (L1 & L2) _ _ _ _ _ _ _].
  rewrite Hv in L1. unfold rx_slack in Hz.
  destruct (strip_ok m i Hv L1) as (m1 & E1 & Z1 & B1 & S1 & _); [lia|lia|lia|done|].
  set (i1 := stripped i) in *.
  destruct (pad_ok m1 i1) as (m2 & E2 & Z2 & B2 & S2); [cbn; lia|cbn; lia|cbn; lia|done|].
  exists m1, i1, m2, (i1 <| dataLength := Z.max (dataLength i1) 60 |>). split; [done|]. split; [done|]. cbn.
  rewrite W1, W2, W3 in *. split_and!; try done. cbn in S2. rewrite W1, W2 in S2. rewrite S2, S1.
  by replace (60 - (len - 4)) with (64 - len) by lia.
Qed.
