(* ===== verification/NetRss.v ===== *)
(** * Receive-side scaling in NetKVM

    wlh/ParaNdis6_RSS.cpp: the Toeplitz hash over the addresses and ports of a
    packet, the assignment of receive queues to processors and the choice of queue
    for a packet. *)

From Stdlib Require Import ZArith Lia.
From stdpp Require Import base list numbers.
From S2P Require Import Prelude.
From S2P Require Import NetChecksum.
From S2P Require Import NetOffload.
From S2P Require Import NetRx.

(** ** Constants of the NDIS interface *)

Definition NdisHashFunctionToeplitz : Z := 1.
Definition NDIS_HASH_IPV4 : Z := 0x100.
Definition NDIS_HASH_TCP_IPV4 : Z := 0x200.
Definition NDIS_HASH_IPV6 : Z := 0x400.
Definition NDIS_HASH_IPV6_EX : Z := 0x800.
Definition NDIS_HASH_TCP_IPV6 : Z := 0x1000.
Definition NDIS_HASH_TCP_IPV6_EX : Z := 0x2000.
Definition NDIS_HASH_UDP_IPV4 : Z := 0x4000.
Definition NDIS_HASH_UDP_IPV6 : Z := 0x8000.
Definition NDIS_HASH_UDP_IPV6_EX : Z := 0x10000.
Definition NDIS_RSS_HASH_TYPE_FROM_HASH_INFO (h : Z) : Z := Z.land h 0x00ffff00.
Definition NDIS_RSS_HASH_FUNC_FROM_HASH_INFO (h : Z) : Z := Z.land h 0x000000ff.

Definition PARANDIS_FIRST_RSS_RECEIVE_QUEUE : Z := 0.
Definition PARANDIS_RECEIVE_UNCLASSIFIED_PACKET : Z := -1.
Definition PARANDIS_RECEIVE_NO_QUEUE : Z := -2.
Definition INVALID_INDIRECTION_INDEX : Z := -1.
Definition INVALID_PROCESSOR_INDEX : Z := 0xFFFFFFFF.

(** ** The Toeplitz hash *)

(** A chunk of the input: pointer and length. *)
Record HASH_CALC_SG_BUF_ENTRY := mk_chunk { chunkPtr : Z; chunkLen : Z }.

Definition RtlUlongByteSwap (x : Z) : Z :=
  let b n := Z.land (Z.shiftr x n) 0xFF in
  Z.lor (Z.lor (Z.shiftl (b 0) 24) (Z.shiftl (b 8) 16)) (Z.lor (Z.shiftl (b 16) 8) (b 24)).

(** [TOEPLITZ_BYTE_HAS_BIT] and [TOEPLITZ_BYTE_BIT_STATE] *)
Definition TOEPLITZ_BYTE_HAS_BIT (byte bit : Z) : bool := truth (Z.land byte (Z.shiftl 1 (7 - bit))).
Definition TOEPLITZ_BYTE_BIT_STATE (byte bit : Z) : Z := Z.land (Z.shiftr byte (7 - bit)) 1.

(** One bit of the input: [(res, firstKeyWord)]. *)
Definition toeplitz_bit (byte key : Z) (s : Z * Z) (bit : Z) : Z * Z :=
  let '(res, firstKeyWord) := s in
  (if TOEPLITZ_BYTE_HAS_BIT byte bit then Z.lxor res firstKeyWord else res,
   u32 (Z.lor (Z.shiftl firstKeyWord 1) (TOEPLITZ_BYTE_BIT_STATE key bit))).

(** [for (bit = 0; bit <= TOEPLITZ_MAX_BIT_NUM; ++bit)] *)
Definition toeplitz_byte (byte key : Z) (s : Z * Z) : Z * Z :=
  foldl (toeplitz_bit byte key) s [0; 1; 2; 3; 4; 5; 6; 7].

(** The bytes of one chunk; [next] is the index of the next key byte. *)
Fixpoint toeplitz_chunk (m : mem) (fullKey : list Z) (n : nat) (ptr next : Z) (s : Z * Z) : res (Z * (Z * Z)) :=
  match n with
  | O => Ok (next, s)
  | S n =>
      byte ← rd8 m ptr;
      key ← rd8 fullKey next;
      toeplitz_chunk m fullKey n (ptr + 1) (next + 1) (toeplitz_byte byte key s)
  end.

Fixpoint toeplitz_chunks (m : mem) (fullKey : list Z) (sg : list HASH_CALC_SG_BUF_ENTRY) (next : Z) (s : Z * Z) :
    res (Z * Z) :=
  match sg with
  | [] => Ok s
  | e :: sg =>
      '(next, s) ← toeplitz_chunk m fullKey (Z.to_nat (chunkLen e)) (chunkPtr e) next s;
      toeplitz_chunks m fullKey sg next s
  end.

Definition ToeplitzHash (m : mem) (sgBuff : list HASH_CALC_SG_BUF_ENTRY) (fullKey : list Z) : res Z :=
  w ← rd32 fullKey 0;
  '(r, _) ← toeplitz_chunks m fullKey sgBuff 4 (0, RtlUlongByteSwap w);
  Ok r.

(** ** The bytes to hash *)

Record PARANDIS_HASHING_SETTINGS := mk_hashing {
  HashInformation : Z; HashSecretKey : list Z; HashSecretKeySize : Z }.
#[export] Instance eta_hashing : Eta PARANDIS_HASHING_SETTINGS :=
  fun h => mk_hashing (HashInformation h) (HashSecretKey h) (HashSecretKeySize h).

Definition GetIP6SrcAddrForHash (buf : Z) (i : NET_PACKET_INFO) (xEnabled : bool) : Z :=
  if xEnabled && negb (ip6HomeAddrOffset i =? 0) then buf + ip6HomeAddrOffset i
  else buf + (L2HdrLen i + ip6_src_address).
Definition GetIP6DstAddrForHash (buf : Z) (i : NET_PACKET_INFO) (xEnabled : bool) : Z :=
  if xEnabled && negb (ip6DestAddrOffset i =? 0) then buf + ip6DestAddrOffset i
  else buf + (L2HdrLen i + ip6_dst_address).

(** What is hashed, and the type reported for it: [None] when nothing is. *)
Definition hash_input (hashTypes : Z) (dataBuffer : Z) (i : NET_PACKET_INFO) :
    option (Z * list HASH_CALC_SG_BUF_ENTRY) :=
  let on f := truth (Z.land hashTypes f) in
  let ip := dataBuffer + L2HdrLen i in
  let ports := mk_chunk (ip + L3HdrLen i) 4 in
  let addr4 := mk_chunk (ip + ip_src) 8 in
  let addr6 x := [mk_chunk (GetIP6SrcAddrForHash dataBuffer i x) 16; mk_chunk (GetIP6DstAddrForHash dataBuffer i x) 16] in
  if isIP4 i then
    if isTCP i && on NDIS_HASH_TCP_IPV4 then Some (NDIS_HASH_TCP_IPV4, [addr4; ports])
    else if isUDP i && on NDIS_HASH_UDP_IPV4 then Some (NDIS_HASH_UDP_IPV4, [addr4; ports])
    else if on NDIS_HASH_IPV4 then Some (NDIS_HASH_IPV4, [addr4])
    else None
  else if isIP6 i then
    if isTCP i && on (Z.lor NDIS_HASH_TCP_IPV6 NDIS_HASH_TCP_IPV6_EX) then
      let x := on NDIS_HASH_TCP_IPV6_EX in
      Some (if x then NDIS_HASH_TCP_IPV6_EX else NDIS_HASH_TCP_IPV6, addr6 x ++ [ports])
    else if isUDP i && on (Z.lor NDIS_HASH_UDP_IPV6 NDIS_HASH_UDP_IPV6_EX) then
      let x := on NDIS_HASH_UDP_IPV6_EX in
      Some (if x then NDIS_HASH_UDP_IPV6_EX else NDIS_HASH_UDP_IPV6, addr6 x ++ [ports])
    else if on (Z.lor NDIS_HASH_IPV6 NDIS_HASH_IPV6_EX) then
      let x := on NDIS_HASH_IPV6_EX in
      Some (if x then NDIS_HASH_IPV6_EX else NDIS_HASH_IPV6, addr6 x)
    else None
  else None.

Definition RSSCalcHash_Unsafe (active : PARANDIS_HASHING_SETTINGS) (m : mem) (dataBuffer : Z) (i : NET_PACKET_INFO) :
    res NET_PACKET_INFO :=
  let hashTypes := NDIS_RSS_HASH_TYPE_FROM_HASH_INFO (HashInformation active) in
  match hash_input hashTypes dataBuffer i with
  | Some (ty, sg) =>
      v ← ToeplitzHash m sg (HashSecretKey active);
      Ok (i <| RSSHash := mk_hash v ty NdisHashFunctionToeplitz |>)
  | None => Ok (i <| RSSHash := mk_hash 0 0 0 |>)
  end.

(** ** Queues *)

(** [PROCESSOR_NUMBER] *)
Record PROCESSOR_NUMBER := mk_proc { Group : Z; Number : Z; Reserved : Z }.
#[export] Instance proc_eq_dec : EqDecision PROCESSOR_NUMBER.
Proof. solve_decision. Defined.
Definition proc_zero : PROCESSOR_NUMBER := mk_proc 0 0 0.

Record PARANDIS_SCALING_SETTINGS := mk_scaling {
  IndirectionTable : list PROCESSOR_NUMBER;
  IndirectionTableSize : Z;
  QueueIndirectionTable : list Z;
  RSSHashMask : Z;
  CPUIndexMapping : option (list Z);
  CPUIndexMappingSize : Z;
  FirstQueueIndirectionIndex : Z;
  DefaultProcessor : PROCESSOR_NUMBER;
  DefaultQueue : Z }.
#[export] Instance eta_scaling : Eta PARANDIS_SCALING_SETTINGS := fun s =>
  mk_scaling (IndirectionTable s) (IndirectionTableSize s) (QueueIndirectionTable s) (RSSHashMask s)
    (CPUIndexMapping s) (CPUIndexMappingSize s) (FirstQueueIndirectionIndex s) (DefaultProcessor s) (DefaultQueue s).

(** [sizeof(PROCESSOR_NUMBER)] *)
Definition sizeof_PROCESSOR_NUMBER : Z := 4.

(** The kernel's processor numbering and allocator. *)
Record cpus := mk_cpus {
  KeGetProcessorIndexFromNumber : PROCESSOR_NUMBER -> Z;
  KeGetProcessorNumberFromIndex : Z -> option PROCESSOR_NUMBER;
  KeQueryActiveProcessorCount : Z;
  alloc_succeeds : Z -> bool }.

Definition mapping (s : PARANDIS_SCALING_SETTINGS) : res (list Z) :=
  match CPUIndexMapping s with Some a => Ok a | None => Fault NullPointer end.

Definition AllocateCPUMappingArray (C : cpus) (s : PARANDIS_SCALING_SETTINGS) : bool * PARANDIS_SCALING_SETTINGS :=
  let CPUNumber := KeQueryActiveProcessorCount C in
  if negb (alloc_succeeds C CPUNumber) then (false, s)
  else (true, s <| CPUIndexMapping := Some (replicate (Z.to_nat CPUNumber) PARANDIS_RECEIVE_NO_QUEUE) |>
               <| CPUIndexMappingSize := CPUNumber |>).

(** The first loop of [FillCPUMappingArray]; [q] is [ReceiveQueue]. *)
Fixpoint assign_queues (C : cpus) (ReceiveQueuesNumber : Z) (n : nat) (i q : Z) (s : PARANDIS_SCALING_SETTINGS) :
    res PARANDIS_SCALING_SETTINGS :=
  match n with
  | O => Ok s
  | S n =>
      ProcNum ← zget (IndirectionTable s) i;
      let CurrProcIdx := KeGetProcessorIndexFromNumber C ProcNum in
      if negb (CurrProcIdx =? INVALID_PROCESSOR_INDEX) then
        map ← mapping s;
        cur ← zget map CurrProcIdx;
        '(q, s) ←
          (if cur =? PARANDIS_RECEIVE_NO_QUEUE then
             let s := if q =? PARANDIS_FIRST_RSS_RECEIVE_QUEUE then s <| FirstQueueIndirectionIndex := i |> else s in
             if negb (q =? ReceiveQueuesNumber) then
               map ← zset map CurrProcIdx q; Ok (q + 1, s <| CPUIndexMapping := Some map |>)
             else Ok (q, s)
           else Ok (q, s));
        map ← mapping s;
        v ← zget map CurrProcIdx;
        tbl ← zset (QueueIndirectionTable s) i v;
        assign_queues C ReceiveQueuesNumber n (i + 1) q (s <| QueueIndirectionTable := tbl |>)
      else
        tbl ← zset (QueueIndirectionTable s) i PARANDIS_RECEIVE_NO_QUEUE;
        assign_queues C ReceiveQueuesNumber n (i + 1) q (s <| QueueIndirectionTable := tbl |>)
  end.

(** The second loop: unassigned entries go to the first queue. *)
Fixpoint reassign (n : nat) (i : Z) (s : PARANDIS_SCALING_SETTINGS) : res PARANDIS_SCALING_SETTINGS :=
  match n with
  | O => Ok s
  | S n =>
      v ← zget (QueueIndirectionTable s) i;
      if v =? PARANDIS_RECEIVE_NO_QUEUE then
        tbl ← zset (QueueIndirectionTable s) i PARANDIS_FIRST_RSS_RECEIVE_QUEUE;
        p ← zget (IndirectionTable s) (FirstQueueIndirectionIndex s);
        it ← zset (IndirectionTable s) i p;
        reassign n (i + 1) (s <| QueueIndirectionTable := tbl |> <| IndirectionTable := it |>)
      else reassign n (i + 1) s
  end.

Definition FillCPUMappingArray (C : cpus) (s : PARANDIS_SCALING_SETTINGS) (ReceiveQueuesNumber : Z) :
    res PARANDIS_SCALING_SETTINGS :=
  let indirectionTableLen := IndirectionTableSize s / sizeof_PROCESSOR_NUMBER in
  s ← assign_queues C ReceiveQueuesNumber (Z.to_nat indirectionTableLen) 0 PARANDIS_FIRST_RSS_RECEIVE_QUEUE
        (s <| FirstQueueIndirectionIndex := INVALID_INDIRECTION_INDEX |>);
  if FirstQueueIndirectionIndex s =? INVALID_INDIRECTION_INDEX then Ok s
  else reassign (Z.to_nat indirectionTableLen) 0 s.

Definition SetDefaultQueue (C : cpus) (s : PARANDIS_SCALING_SETTINGS) (idx : Z) : res PARANDIS_SCALING_SETTINGS :=
  let fail := s <| DefaultQueue := PARANDIS_RECEIVE_UNCLASSIFIED_PACKET |> in
  if idx <? CPUIndexMappingSize s then
    match KeGetProcessorNumberFromIndex C idx with
    | Some p =>
        map ← mapping s;
        q ← zget map idx;
        Ok (s <| DefaultProcessor := p |> <| DefaultQueue := q |>)
    | None => Ok fail
    end
  else Ok fail.

Inductive PARANDIS_RSS_MODE := PARANDIS_RSS_DISABLED | PARANDIS_RSS_HASHING | PARANDIS_RSS_FULL.
#[export] Instance rss_mode_eq_dec : EqDecision PARANDIS_RSS_MODE.
Proof. solve_decision. Defined.

Record PARANDIS_RSS_PARAMS := mk_rss {
  ReceiveQueuesNumber : Z;
  RSSMode : PARANDIS_RSS_MODE;
  ReceiveHashingSettings : PARANDIS_HASHING_SETTINGS;
  RSSHashingSettings : PARANDIS_HASHING_SETTINGS;
  RSSScalingSettings : PARANDIS_SCALING_SETTINGS;
  ActiveHashingSettings : PARANDIS_HASHING_SETTINGS;
  ActiveRSSScalingSettings : PARANDIS_SCALING_SETTINGS }.
#[export] Instance eta_rss : Eta PARANDIS_RSS_PARAMS := fun r =>
  mk_rss (ReceiveQueuesNumber r) (RSSMode r) (ReceiveHashingSettings r) (RSSHashingSettings r)
    (RSSScalingSettings r) (ActiveHashingSettings r) (ActiveRSSScalingSettings r).

Definition ParaNdis6_RSSAnalyzeReceivedPacket (rss : PARANDIS_RSS_PARAMS) (m : mem) (dataBuffer : Z) (i : NET_PACKET_INFO) :
    res NET_PACKET_INFO :=
  if bool_decide (RSSMode rss = PARANDIS_RSS_DISABLED) then Ok i
  else RSSCalcHash_Unsafe (ActiveHashingSettings rss) m dataBuffer i.

(** The target queue, and the processor when it is written. *)
Definition ParaNdis6_RSSGetScalingDataForPacket (rss : PARANDIS_RSS_PARAMS) (i : NET_PACKET_INFO) :
    res (Z * option PROCESSOR_NUMBER) :=
  let s := ActiveRSSScalingSettings rss in
  if negb (bool_decide (RSSMode rss = PARANDIS_RSS_FULL)) ||
     (FirstQueueIndirectionIndex s =? INVALID_INDIRECTION_INDEX) then
    Ok (PARANDIS_RECEIVE_UNCLASSIFIED_PACKET, None)
  else if Type_ (RSSHash i) =? 0 then Ok (DefaultQueue s, Some (DefaultProcessor s))
  else
    let indirectionIndex := Z.land (Value (RSSHash i)) (RSSHashMask s) in
    q ← zget (QueueIndirectionTable s) indirectionIndex;
    if q =? PARANDIS_RECEIVE_NO_QUEUE then Ok (PARANDIS_RECEIVE_UNCLASSIFIED_PACKET, None)
    else p ← zget (IndirectionTable s) indirectionIndex; Ok (q, Some p).

Definition FindReceiveQueueForCurrentCpu (s : PARANDIS_SCALING_SETTINGS) (CurrProcIdx : Z) : res Z :=
  if CurrProcIdx >=? CPUIndexMappingSize s then Ok PARANDIS_RECEIVE_NO_QUEUE
  else map ← mapping s; zget map CurrProcIdx.

Definition ParaNdis6_RSSGetCurrentCpuReceiveQueue (rss : PARANDIS_RSS_PARAMS) (CurrProcIdx : Z) : res Z :=
  if negb (bool_decide (RSSMode rss = PARANDIS_RSS_FULL)) then Ok PARANDIS_RECEIVE_NO_QUEUE
  else FindReceiveQueueForCurrentCpu (ActiveRSSScalingSettings rss) CurrProcIdx.
