(* ===== verification/NetRssSpec.v ===== *)
(** * Receive-side scaling: the hash is the Toeplitz hash, and every packet gets a
    queue that some processor serves *)

From Stdlib Require Import ZArith Lia ZifyBool.
From stdpp Require Import base list numbers.
From S2P Require Import Prelude.
From S2P Require Import NetChecksum.
From S2P Require Import NetChecksumSpec.
From S2P Require Import NetOffload.
From S2P Require Import NetOffloadSpec.
From S2P Require Import NetRx.
From S2P Require Import NetRxSpec.
From S2P Require Import NetRss.

(** ** The reference hash *)

(** Bits of a byte and of a byte string, the most significant one first. *)
Definition byte_bits (b : Z) : list bool := (fun i => Z.testbit b (7 - i)) <$> [0; 1; 2; 3; 4; 5; 6; 7].
Definition bits (l : list Z) : list bool := concat (byte_bits <$> l).

(** The number that a bit string denotes. *)
Definition be_val (l : list bool) : Z := foldl (fun a b => 2 * a + b2z b) 0 l.

(** For every set bit of the input, the 32 bits of the key at its position. *)
Fixpoint toeplitz (key input : list bool) : Z :=
  match input with
  | [] => 0
  | b :: input => Z.lxor (if b then be_val (take 32 key) else 0) (toeplitz (tail key) input)
  end.

(** ** Lemmas *)

Lemma foldl_be_val l a : foldl (fun a b => 2 * a + b2z b) a l = a * 2 ^ zlen l + be_val l.
Proof.
  unfold be_val. revert a. induction l as [|b l IH]; intros a; [rewrite zlen_nil; cbn; lia|].
  cbn [foldl]. rewrite IH, (IH (2 * 0 + _)), zlen_cons, Z.pow_add_r by (pose proof (zlen_nonneg l); lia). lia.
Qed.

Lemma be_val_cons b l : be_val (b :: l) = b2z b * 2 ^ zlen l + be_val l.
Proof. unfold be_val at 1. cbn [foldl]. rewrite foldl_be_val. ring. Qed.

Lemma be_val_app l b : be_val (l ++ [b]) = 2 * be_val l + b2z b.
Proof. unfold be_val. by rewrite foldl_app. Qed.

Lemma be_val_range l : 0 <= be_val l < 2 ^ zlen l.
Proof.
  induction l as [|b l IH]; [change (0 <= 0 < 1); lia|]. rewrite be_val_cons, zlen_cons, Z.pow_add_r by (pose proof (zlen_nonneg l); lia).
  destruct b; cbn [b2z]; lia.
Qed.

(** Shifting the key by one bit. *)
Lemma shift_key b W k :
  zlen W = 31 -> u32 (Z.lor (Z.shiftl (be_val (b :: W)) 1) (b2z k)) = be_val (W ++ [k]).
Proof.
  intros HW. pose proof (be_val_range W) as HR. rewrite HW in HR.
  rewrite Z.lor_comm, lor_shiftl_add by (destruct k; cbn; lia).
  rewrite be_val_cons, be_val_app, HW. unfold u32. symmetry. change (2 ^ 1) with 2. change (2 ^ 31) with 2147483648.
  change (2 ^ 31) with 2147483648 in HR.
  apply (Z.mod_unique_pos _ _ (b2z b)); destruct k, b; cbn [b2z] in *; lia.
Qed.

Lemma byte_has_bit b i : 0 <= i <= 7 -> TOEPLITZ_BYTE_HAS_BIT b i = Z.testbit b (7 - i).
Proof. intros. unfold TOEPLITZ_BYTE_HAS_BIT. apply truth_land_bit. lia. Qed.

Lemma byte_bit_state b i : 0 <= i <= 7 -> TOEPLITZ_BYTE_BIT_STATE b i = b2z (Z.testbit b (7 - i)).
Proof.
  intros. unfold TOEPLITZ_BYTE_BIT_STATE. change 1 with (Z.ones 1). rewrite Z.land_ones by done.
  change (2 ^ 1) with 2. rewrite Zmod_odd, Z.testbit_odd. by destruct (Z.odd _).
Qed.

(** The state after the first bits of the input: the hash so far, and the 32 key
    bits at the current position. *)
Lemma toeplitz_bits_step byte key bs r W K I :
  zlen W = 32 -> Forall (fun i => 0 <= i <= 7) bs ->
  I = (fun i => Z.testbit byte (7 - i)) <$> bs -> K = (fun i => Z.testbit key (7 - i)) <$> bs ->
  foldl (toeplitz_bit byte key) (r, be_val W) bs =
  (Z.lxor r (toeplitz (W ++ K) I), be_val (drop (length bs) (W ++ K))).
Proof.
  intros HW Hbs -> ->. revert r W HW. induction Hbs as [|i bs Hi Hbs IH]; intros r W HW.
  { cbn. by rewrite Z.lxor_0_r, app_nil_r. }
  destruct W as [|w W]; [done|]. rewrite zlen_cons in HW. assert (HW' : zlen W = 31) by lia.
  cbn [foldl toeplitz_bit]. rewrite byte_has_bit, byte_bit_state by done. rewrite shift_key by done.
  rewrite IH by (rewrite zlen_app, HW'; done). cbn [fmap list_fmap toeplitz length drop app tail].
  rewrite <- app_assoc. cbn [app].
  assert (take 32 (w :: W ++ Z.testbit key (7 - i) :: ((fun j => Z.testbit key (7 - j)) <$> bs)) = w :: W) as ->.
  { cbn [take]. f_equal. rewrite take_app_le by (unfold zlen in HW'; lia). apply take_ge. unfold zlen in HW'. lia. }
  f_equal. destruct (Z.testbit byte (7 - i)); [by rewrite Z.lxor_assoc|]. by rewrite Z.lxor_0_l.
Qed.

Lemma toeplitz_app K I1 I2 :
  toeplitz K (I1 ++ I2) = Z.lxor (toeplitz K I1) (toeplitz (drop (length I1) K) I2).
Proof.
  revert K. induction I1 as [|b I1 IH]; intros K; cbn; [done|].
  rewrite IH, Z.lxor_assoc. do 3 f_equal. destruct K; cbn [tail]; by rewrite ?drop_nil.
Qed.

(** The hash looks at 32 key bits from each input bit on. *)
Lemma toeplitz_key K K' I :
  (length I + 31 <= length K)%nat -> toeplitz (K ++ K') I = toeplitz K I.
Proof.
  revert K. induction I as [|b I IH]; intros K HK; [done|]. cbn in *. destruct K as [|k K]; [cbn in HK; lia|].
  cbn [app tail] in *. rewrite IH by (cbn in HK; lia). do 2 f_equal. destruct b; [|done]. f_equal.
  cbn [take]. f_equal. apply take_app_le. cbn in HK. lia.
Qed.

Lemma byte_bits_length b : length (byte_bits b) = 8%nat.
Proof. done. Qed.

Lemma bits_length l : length (bits l) = (8 * length l)%nat.
Proof. induction l as [|b l IH]; [done|]. cbn [bits concat fmap list_fmap]. unfold bits in IH. rewrite length_app, IH. cbn. lia. Qed.

Lemma bits_app l1 l2 : bits (l1 ++ l2) = bits l1 ++ bits l2.
Proof. unfold bits. by rewrite fmap_app, concat_app. Qed.

Lemma toeplitz_byte_ok byte key r W :
  zlen W = 32 ->
  toeplitz_byte byte key (r, be_val W) =
  (Z.lxor r (toeplitz (W ++ byte_bits key) (byte_bits byte)), be_val (drop 8 (W ++ byte_bits key))).
Proof.
  intros HW. unfold toeplitz_byte. rewrite (toeplitz_bits_step _ _ _ _ W (byte_bits key) (byte_bits byte)); try done.
  repeat constructor; lia.
Qed.

(** A run of input bytes [l] at [ptr], the key bits from the current position
    being [W] followed by those of the key bytes [kl] from [next] on. *)
Lemma toeplitz_chunk_ok m key l ptr next r W kl rest krest :
  zlen W = 32 -> 0 <= ptr -> 0 <= next -> length kl = length l ->
  drop (Z.to_nat ptr) m = l ++ rest -> drop (Z.to_nat next) key = kl ++ krest ->
  toeplitz_chunk m key (length l) ptr next (r, be_val W) =
  Ok (next + zlen l, (Z.lxor r (toeplitz (W ++ bits kl) (bits l)), be_val (drop (8 * length l) (W ++ bits kl)))).
Proof.
  intros HW Hp Hn Hl Hm Hk. revert ptr next r W kl HW Hp Hn Hl Hm Hk.
  induction l as [|x l IH]; intros ptr next r W kl HW Hp Hn Hl Hm Hk; destruct kl as [|k kl]; try done.
  { rewrite zlen_nil, Z.add_0_r. cbn. by rewrite Z.lxor_0_r, app_nil_r. }
  cbn [length] in Hl. injection Hl as Hl. cbn [toeplitz_chunk length].
  cbn [app] in Hm, Hk. rewrite (rd8_drop m ptr x (l ++ rest)), (rd8_drop key next k (kl ++ krest)) by done.
  cbn [mbind res_bind]. rewrite toeplitz_byte_ok by done.
  apply zlookup_drop in Hm as [_ Hm]; [|done]. apply zlookup_drop in Hk as [_ Hk]; [|done].
  rewrite (IH (ptr + 1) (next + 1) _ _ kl); [|unfold zlen in *; rewrite length_drop, length_app, byte_bits_length; lia|lia|lia|done..].
  change (bits (k :: kl)) with (byte_bits k ++ bits kl). change (bits (x :: l)) with (byte_bits x ++ bits l).
  rewrite zlen_cons, toeplitz_app, byte_bits_length, (app_assoc W).
  assert (Hw : (length W = 32)%nat) by (unfold zlen in HW; lia).
  rewrite <- (drop_app_le (W ++ byte_bits k) (bits kl) 8) by (rewrite length_app, byte_bits_length; lia).
  rewrite (toeplitz_key (W ++ byte_bits k)) by (rewrite length_app, !byte_bits_length; lia).
  rewrite Z.lxor_assoc, drop_drop. do 2 f_equal; [lia|]. f_equal. f_equal. f_equal. lia.
Qed.

(** The bytes that the chunks select. *)
Definition selected (m : mem) (sg : list HASH_CALC_SG_BUF_ENTRY) : list Z :=
  concat ((fun e => slice m (chunkPtr e) (chunkLen e)) <$> sg).

Definition chunk_in (m : mem) (e : HASH_CALC_SG_BUF_ENTRY) : Prop :=
  0 <= chunkPtr e /\ 0 <= chunkLen e /\ chunkPtr e + chunkLen e <= zlen m.

Lemma toeplitz_chunks_ok m key sg next r W :
  zlen W = 32 -> 0 <= next -> Forall (chunk_in m) sg -> next + zlen (selected m sg) <= zlen key ->
  exists w, toeplitz_chunks m key sg next (r, be_val W) =
    Ok (Z.lxor r (toeplitz (W ++ bits (drop (Z.to_nat next) key)) (bits (selected m sg))), w).
Proof.
  intros HW Hn Hsg Hk. revert next r W HW Hn Hk. induction Hsg as [|e sg (Hp & Hl & He) Hsg IH]; intros next r W HW Hn Hk.
  { cbn. rewrite Z.lxor_0_r. by eexists. }
  change (selected m (e :: sg)) with (slice m (chunkPtr e) (chunkLen e) ++ selected m sg) in *.
  set (l := slice m (chunkPtr e) (chunkLen e)) in *.
  assert (Hll : zlen l = chunkLen e) by (by apply zlen_slice). rewrite zlen_app, Hll in Hk.
  pose proof (zlen_nonneg (selected m sg)).
  set (kl := slice key next (chunkLen e)).
  assert (Hkl : zlen kl = chunkLen e) by (apply zlen_slice; lia).
  assert (Hlen : length l = Z.to_nat (chunkLen e)) by (unfold zlen in Hll; lia).
  assert (Hkr : drop (Z.to_nat next) key = kl ++ drop (Z.to_nat (next + chunkLen e)) key).
  { unfold kl, slice. rewrite Z2Nat.inj_add, <- drop_drop by lia. by rewrite take_drop. }
  cbn [toeplitz_chunks]. rewrite <- Hlen.
  rewrite (toeplitz_chunk_ok m key l (chunkPtr e) next r W kl (drop (Z.to_nat (chunkLen e)) (drop (Z.to_nat (chunkPtr e)) m))
    (drop (Z.to_nat (next + chunkLen e)) key)); [|done|done|done|unfold zlen in *; lia|unfold l, slice; by rewrite take_drop|done].
  cbn [mbind res_bind].
  assert (HWl : (length W = 32)%nat) by (unfold zlen in HW; lia).
  assert (Hbk : (length (bits kl) = 8 * length l)%nat) by (rewrite bits_length; unfold zlen in *; lia).
  destruct (IH (next + zlen l) (Z.lxor r (toeplitz (W ++ bits kl) (bits l))) (drop (8 * length l) (W ++ bits kl)))
    as [w ->]; [unfold zlen; rewrite length_drop, length_app; lia|lia|rewrite Hll; lia|].
  exists w. do 2 f_equal. rewrite Z.lxor_assoc, Hkr, !bits_app, (app_assoc W), toeplitz_app, bits_length, Hll.
  rewrite <- (drop_app_le (W ++ bits kl)) by (rewrite length_app; lia).
  by rewrite (toeplitz_key (W ++ bits kl)) by (rewrite length_app, !bits_length in *; lia).
Qed.

Lemma be_val_byte b : byte b -> be_val (byte_bits b) = b.
Proof.
  intros Hb. assert (forallb (fun b => be_val (byte_bits b) =? b) (seqZ 0 256) = true) as HF by (by vm_compute).
  rewrite forallb_forall in HF. apply Z.eqb_eq, HF, list_elem_of_In, elem_of_seqZ. exact Hb.
Qed.

Lemma be_val_bits_cons b l : byte b -> be_val (bits (b :: l)) = b * 2 ^ (8 * zlen l) + be_val (bits l).
Proof.
  intros Hb. change (bits (b :: l)) with (byte_bits b ++ bits l). unfold be_val at 1. rewrite foldl_app, foldl_be_val.
  fold (be_val (byte_bits b)). rewrite be_val_byte by done. do 3 f_equal. unfold zlen. rewrite bits_length. lia.
Qed.

Lemma byte_swap a b c d :
  byte a -> byte b -> byte c -> byte d ->
  RtlUlongByteSwap (a + 256 * b + 65536 * (c + 256 * d)) = be_val (bits [a; b; c; d]).
Proof.
  intros Ha Hb Hc Hd. rewrite !be_val_bits_cons by done. rewrite !zlen_cons, zlen_nil. unfold byte in *.
  change (be_val (bits [])) with 0.
  unfold RtlUlongByteSwap. set (x := a + 256 * b + 65536 * (c + 256 * d)).
  assert (forall n, 0 <= n -> Z.land (Z.shiftr x n) 0xFF = x / 2 ^ n mod 256) as Hx.
  { intros n Hn. rewrite Z.shiftr_div_pow2 by done. change 255 with (Z.ones 8). by rewrite Z.land_ones. }
  rewrite !Hx by lia.
  replace (x / 2 ^ 0 mod 256) with a by (unfold x; change (2 ^ 0) with 1; word_lia).
  replace (x / 2 ^ 8 mod 256) with b by (unfold x; change (2 ^ 8) with 256; word_lia).
  replace (x / 2 ^ 16 mod 256) with c by (unfold x; change (2 ^ 16) with 65536; word_lia).
  replace (x / 2 ^ 24 mod 256) with d by (unfold x; change (2 ^ 24) with 16777216; word_lia).
  rewrite (Z.lor_comm (Z.shiftl c 8)), (lor_shiftl_add d c 8) by lia.
  rewrite (Z.lor_comm (Z.shiftl a 24)), (lor_shiftl_add _ a 24) by (rewrite ?Z.shiftl_mul_pow2; lia).
  rewrite Z.shiftl_mul_pow2 by lia. replace (b * 2 ^ 16 + a * 2 ^ 24) with (Z.shiftl (b + a * 256) 16)
    by (rewrite Z.shiftl_mul_pow2 by lia; lia).
  rewrite Z.lor_comm, lor_shiftl_add by lia. lia.
Qed.

Lemma ToeplitzHash_ok m sg key :
  Forall byte key -> 4 <= zlen key -> Forall (chunk_in m) sg -> 4 + zlen (selected m sg) <= zlen key ->
  ToeplitzHash m sg key = Ok (toeplitz (bits key) (bits (selected m sg))).
Proof.
  intros Hb H4 Hsg Hk. unfold ToeplitzHash.
  destruct key as [|a [|b [|c [|d key]]]]; rewrite ?zlen_cons, ?zlen_nil in H4; try lia.
  apply Forall_cons_1 in Hb as [Ha [Hb' [Hc [Hd _]%Forall_cons_1]%Forall_cons_1]%Forall_cons_1].
  change (rd32 (a :: b :: c :: d :: key) 0) with (Ok (a + 256 * b + 65536 * (c + 256 * d))). cbn [mbind res_bind].
  rewrite byte_swap by done.
  destruct (toeplitz_chunks_ok m (a :: b :: c :: d :: key) sg 4 0 (bits [a; b; c; d])) as [w ->]; [done|lia|done|lia|].
  cbn [mbind res_bind]. rewrite Z.lxor_0_l. do 2 f_equal.
Qed.

(** ** Hashing a packet *)

Lemma hash_input_len m types buf i ty sg :
  hash_input types buf i = Some (ty, sg) -> Forall (chunk_in m) sg -> zlen (selected m sg) <= 36.
Proof.
  intros H Hsg.
  assert (zlen (selected m sg) = foldr Z.add 0 (chunkLen <$> sg)) as ->.
  { clear H. induction Hsg as [|e sg (? & ? & ?) _ IH]; [done|].
    change (selected m (e :: sg)) with (slice m (chunkPtr e) (chunkLen e) ++ selected m sg).
    rewrite zlen_app, zlen_slice, IH by done. done. }
  unfold hash_input in H. repeat case_match; simplify_eq; cbn; lia.
Qed.

Lemma calc_hash_ok active m buf i :
  Forall byte (HashSecretKey active) -> zlen (HashSecretKey active) = 40 ->
  match hash_input (NDIS_RSS_HASH_TYPE_FROM_HASH_INFO (HashInformation active)) buf i with
  | Some (ty, sg) => Forall (chunk_in m) sg ->
      RSSCalcHash_Unsafe active m buf i =
      Ok (i <| RSSHash := mk_hash (toeplitz (bits (HashSecretKey active)) (bits (selected m sg))) ty
                            NdisHashFunctionToeplitz |>)
  | None => RSSCalcHash_Unsafe active m buf i = Ok (i <| RSSHash := mk_hash 0 0 0 |>)
  end.
Proof.
  intros Hb Hl. unfold RSSCalcHash_Unsafe. destruct (hash_input _ _ _) as [[ty sg]|] eqn:E; [|done].
  intros Hsg. pose proof (hash_input_len m _ _ _ _ _ E Hsg).
  by rewrite ToeplitzHash_ok by (done || lia).
Qed.

Lemma toeplitz_nonneg key input : 0 <= toeplitz key input.
Proof.
  revert key. induction input as [|b input IH]; intros key; cbn [toeplitz]; [done|].
  apply Z.lxor_nonneg. split; intros _; [apply IH|]. destruct b; [|done]. apply be_val_range.
Qed.

(** The bytes selected from an accepted packet are readable. *)
Lemma hash_chunks m buf len i types ty sg :
  0 <= buf -> buf + len + rx_slack <= zlen m -> analysed buf len i ->
  hash_input types buf i = Some (ty, sg) -> Forall (chunk_in m) sg.
Proof.
  intros Hb Hz [_ _ [EL HL] _ A4 A6 _ Ah Ad _] H. unfold rx_slack, MAX_SUPPORTED_IPV6_HEADERS in *.
  assert (14 <= L2HdrLen i <= 18) by (rewrite EL; destruct (hasVlanHeader i); lia).
  assert (Hsrc : forall x, isIP4 i = false -> isIP6 i = true -> chunk_in m (mk_chunk (GetIP6SrcAddrForHash buf i x) 16)).
  { intros x E4 E6. specialize (A6 E4 E6). unfold chunk_in, GetIP6SrcAddrForHash, ip6_src_address. cbn.
    destruct (x && _) eqn:E; lia. }
  assert (Hdst : forall x, isIP4 i = false -> isIP6 i = true -> chunk_in m (mk_chunk (GetIP6DstAddrForHash buf i x) 16)).
  { intros x E4 E6. specialize (A6 E4 E6). unfold chunk_in, GetIP6DstAddrForHash, ip6_dst_address. cbn.
    destruct (x && _) eqn:E; lia. }
  assert (Hports : isIP4 i = true \/ isIP6 i = true -> chunk_in m (mk_chunk (buf + L2HdrLen i + L3HdrLen i) 4)).
  { intros Hip. unfold chunk_in. cbn. destruct (isIP4 i); [specialize (A4 eq_refl); lia|].
    destruct Hip as [?|E6]; [done|]. specialize (A6 eq_refl E6). lia. }
  assert (H4 : isIP4 i = true -> chunk_in m (mk_chunk (buf + L2HdrLen i + ip_src) 8)).
  { intros E4. specialize (A4 E4). unfold chunk_in, ip_src. cbn. lia. }
  unfold hash_input in H. destruct (isIP4 i) eqn:E4; [|destruct (isIP6 i) eqn:E6; [|done]].
  all: repeat case_match; simplify_eq; cbn [app]; repeat (apply Forall_cons_2; [by auto|]); constructor.
Qed.


(** ** Assignment of queues to processors *)

Section assign.
Context (C : cpus) (N : Z) (HN : 0 < N).
Context (Hidx : forall p, KeGetProcessorIndexFromNumber C p = INVALID_PROCESSOR_INDEX \/
                          0 <= KeGetProcessorIndexFromNumber C p < KeQueryActiveProcessorCount C).
Abbreviation idx := (KeGetProcessorIndexFromNumber C).
Abbreviation valid p := (idx p <> INVALID_PROCESSOR_INDEX).

(** The queue that a table entry stands for. *)
Definition queue_of (map : list Z) (p : PROCESSOR_NUMBER) : Z :=
  if idx p =? INVALID_PROCESSOR_INDEX then PARANDIS_RECEIVE_NO_QUEUE else default PARANDIS_RECEIVE_NO_QUEUE (map⟦idx p⟧).

(** A processor map in which the queues below [q] are given out, each once. *)
Record map_ok (map : list Z) (q : Z) : Prop := {
  mo_len : zlen map = KeQueryActiveProcessorCount C;
  mo_q : 0 <= q <= N;
  mo_vals : forall c v, map⟦c⟧ = Some v -> v = PARANDIS_RECEIVE_NO_QUEUE \/ 0 <= v < q;
  mo_inj : forall c c' v, map⟦c⟧ = Some v -> map⟦c'⟧ = Some v -> v <> PARANDIS_RECEIVE_NO_QUEUE -> c = c' }.

(** After the first [i] entries. *)
Record assigned (s : PARANDIS_SCALING_SETTINGS) (map : list Z) (i q : Z) : Prop := {
  as_map : CPUIndexMapping s = Some map;
  as_ok : map_ok map q;
  as_tables : i <= zlen (IndirectionTable s) /\ zlen (QueueIndirectionTable s) = zlen (IndirectionTable s);
  as_done : forall j p, 0 <= j < i -> (IndirectionTable s)⟦j⟧ = Some p ->
              (QueueIndirectionTable s)⟦j⟧ = Some (queue_of map p) /\
              (valid p -> queue_of map p = PARANDIS_RECEIVE_NO_QUEUE -> q = N);
  as_first : if q =? 0 then FirstQueueIndirectionIndex s = INVALID_INDIRECTION_INDEX
             else exists p, (IndirectionTable s)⟦FirstQueueIndirectionIndex s⟧ = Some p /\
                    0 <= FirstQueueIndirectionIndex s < i /\ queue_of map p = PARANDIS_FIRST_RSS_RECEIVE_QUEUE }.

(** Giving the next queue to a processor that has none. *)
Lemma map_ok_give map q c :
  map_ok map q -> q < N -> map⟦c⟧ = Some PARANDIS_RECEIVE_NO_QUEUE -> map_ok (zinsert c q map) (q + 1).
Proof using.
  intros [Hl Hq Hv Hi] Hlt Hc. pose proof (zlookup_lt _ _ _ Hc). constructor.
  - by rewrite zlen_zinsert.
  - lia.
  - intros c' v. destruct (decide (c = c')) as [<-|].
    + rewrite zlookup_zinsert_eq by done. intros [= <-]. right. lia.
    + rewrite zlookup_zinsert_ne by done. intros [?|?]%Hv; [by left|right; lia].
  - intros c1 c2 v. destruct (decide (c = c1)) as [<-|], (decide (c = c2)) as [<-|]; try done;
      rewrite ?zlookup_zinsert_eq, ?zlookup_zinsert_ne by done.
    + intros [= <-] [->|?]%Hv; [done|lia].
    + intros [->|?]%Hv; [done|]. intros [= ->]. lia.
    + apply Hi.
Qed.

Lemma queue_of_give map q c p :
  0 <= c < zlen map -> queue_of (zinsert c q map) p = if decide (valid p /\ idx p = c) then q else queue_of map p.
Proof using.
  intros Hc. unfold queue_of. destruct (Z.eqb_spec (idx p) INVALID_PROCESSOR_INDEX) as [E|E].
  - rewrite decide_False by tauto. done.
  - case_decide as D.
    + destruct D as [_ <-]. by rewrite zlookup_zinsert_eq.
    + rewrite zlookup_zinsert_ne by naive_solver. done.
Qed.

Lemma queue_of_valid map q p :
  map_ok map q -> valid p -> map⟦idx p⟧ = Some (queue_of map p).
Proof using Hidx.
  intros [Hl _ _ _] Hv. unfold queue_of. rewrite (proj2 (Z.eqb_neq _ _) Hv).
  destruct (Hidx p) as [?|Hp]; [done|]. rewrite <- Hl in Hp.
  by destruct (zlookup_in_range map _ Hp) as [v ->].
Qed.

(** An entry whose processor keeps what it has. *)
Lemma assigned_keep s map i q p :
  assigned s map i q -> 0 <= i -> (IndirectionTable s)⟦i⟧ = Some p ->
  (valid p -> queue_of map p = PARANDIS_RECEIVE_NO_QUEUE -> q = N) ->
  assigned (s <| QueueIndirectionTable := zinsert i (queue_of map p) (QueueIndirectionTable s) |>) map (i + 1) q.
Proof using.
  intros [Hm Ho [Ht1 Ht2] Hd Hf] Hi Hp Hfull. pose proof (zlookup_lt _ _ _ Hp). constructor; cbn; try done.
  - rewrite zlen_zinsert. split; [lia|done].
  - intros j p' Hj Hp'. destruct (decide (j = i)) as [->|].
    + rewrite zlookup_zinsert_eq by lia. simplify_eq. done.
    + rewrite zlookup_zinsert_ne by done. apply Hd; [lia|done].
  - destruct (q =? 0); [done|]. destruct Hf as (pf & H1 & H2 & H3). exists pf. split_and!; done || lia.
Qed.

(** An entry whose processor gets the next queue. *)
Lemma assigned_give s map i q p :
  assigned s map i q -> 0 <= i -> (IndirectionTable s)⟦i⟧ = Some p -> valid p ->
  map⟦idx p⟧ = Some PARANDIS_RECEIVE_NO_QUEUE -> q < N ->
  assigned ((if q =? PARANDIS_FIRST_RSS_RECEIVE_QUEUE then s <| FirstQueueIndirectionIndex := i |> else s)
              <| CPUIndexMapping := Some (zinsert (idx p) q map) |>
              <| QueueIndirectionTable := zinsert i q (QueueIndirectionTable s) |>)
    (zinsert (idx p) q map) (i + 1) (q + 1).
Proof using.
  intros [Hm Ho [Ht1 Ht2] Hd Hf] Hi Hp Hv Hc Hlt. pose proof (zlookup_lt _ _ _ Hp). pose proof (zlookup_lt _ _ _ Hc).
  pose proof (mo_q _ _ Ho).
  assert (Hsame : forall p', queue_of map p' <> PARANDIS_RECEIVE_NO_QUEUE -> queue_of (zinsert (idx p) q map) p' = queue_of map p').
  { intros p' Hne. rewrite queue_of_give by done. case_decide as D; [|done]. destruct D as [D1 D2].
    destruct Hne. unfold queue_of. rewrite D2, Hc. by destruct (idx p =? _). }
  assert (Hdone : forall j p', 0 <= j < i -> (IndirectionTable s)⟦j⟧ = Some p' ->
    queue_of (zinsert (idx p) q map) p' = queue_of map p').
  { intros j p' Hj Hp'. destruct (Hd j p' Hj Hp') as [_ Hfull]. rewrite queue_of_give by done.
    case_decide as D; [|done]. destruct D as [D1 D2]. assert (queue_of map p' = PARANDIS_RECEIVE_NO_QUEUE) as E.
    { unfold queue_of. rewrite D2, Hc. by destruct (idx p =? _). }
    specialize (Hfull D1 E). lia. }
  assert (Hnew : queue_of (zinsert (idx p) q map) p = q) by (rewrite queue_of_give, decide_True by done; done).
  set (s1 := if q =? _ then _ else _).
  assert (IndirectionTable s1 = IndirectionTable s /\ QueueIndirectionTable s1 = QueueIndirectionTable s /\
    FirstQueueIndirectionIndex s1 = if q =? 0 then i else FirstQueueIndirectionIndex s) as (E1 & E2 & E3)
    by (unfold s1, PARANDIS_FIRST_RSS_RECEIVE_QUEUE; by destruct (q =? 0)).
  constructor; cbn; try done.
  - by apply map_ok_give.
  - rewrite E1, zlen_zinsert. split; [lia|done].
  - rewrite E1. intros j p' Hj Hp'. destruct (decide (j = i)) as [->|].
    + rewrite zlookup_zinsert_eq by lia. simplify_eq. rewrite Hnew. split; [done|]. unfold PARANDIS_RECEIVE_NO_QUEUE. lia.
    + rewrite zlookup_zinsert_ne by done. rewrite (Hdone j p') by (done || lia).
      destruct (Hd j p' ltac:(lia) Hp') as [? Hfull]. split; [done|]. intros. specialize (Hfull ltac:(done) ltac:(done)). lia.
  - replace (q + 1 =? 0) with false by lia. rewrite E1, E3. destruct (Z.eqb_spec q 0) as [->|].
    + exists p. split_and!; done || lia.
    + destruct Hf as (pf & H3 & H4 & H5). exists pf. split_and!; [done|lia|lia|]. by rewrite (Hdone _ _ H4 H3).
Qed.

Lemma assign_queues_ok n s map i q :
  assigned s map i q -> 0 <= i -> i + Z.of_nat n <= zlen (IndirectionTable s) ->
  exists s' map' q', assign_queues C N n i q s = Ok s' /\ assigned s' map' (i + Z.of_nat n) q' /\ q <= q' /\
    IndirectionTable s' = IndirectionTable s /\ RSSHashMask s' = RSSHashMask s /\
    ((exists j p, i <= j < i + Z.of_nat n /\ (IndirectionTable s)⟦j⟧ = Some p /\ valid p) -> 0 < q').
Proof using HN Hidx.
  revert s map i q. induction n as [|n IH]; intros s map i q Ha Hi Hn.
  { exists s, map, q. rewrite Z.add_0_r. split_and!; try done. intros (j & p & ? & _). lia. }
  destruct (zlookup_in_range (IndirectionTable s) i ltac:(lia)) as [p Hp].
  pose proof (as_tables _ _ _ _ Ha) as [_ Ht]. pose proof (as_ok _ _ _ _ Ha) as Ho. pose proof (mo_q _ _ Ho).
  assert (Hgo : forall s1 map1 q1, assigned s1 map1 (i + 1) q1 -> q <= q1 -> IndirectionTable s1 = IndirectionTable s ->
    RSSHashMask s1 = RSSHashMask s -> (valid p -> 0 < q1) ->
    exists s' map' q', assign_queues C N n (i + 1) q1 s1 = Ok s' /\ assigned s' map' (i + Z.of_nat (S n)) q' /\ q <= q' /\
      IndirectionTable s' = IndirectionTable s /\ RSSHashMask s' = RSSHashMask s /\
      ((exists j p, i <= j < i + Z.of_nat (S n) /\ (IndirectionTable s)⟦j⟧ = Some p /\ valid p) -> 0 < q')).
  { intros s1 map1 q1 Ha1 Hq1 E1 E2 Hv1. destruct (IH s1 map1 (i + 1) q1 Ha1 ltac:(lia) ltac:(rewrite E1; lia))
      as (s' & map' & q' & E & Ha' & Hq' & E3 & E4 & Hex).
    exists s', map', q'. replace (i + Z.of_nat (S n)) with (i + 1 + Z.of_nat n) by lia.
    split_and!; [done|done|lia|congruence|congruence|]. intros (j & p' & Hj & Hp' & Hv).
    destruct (decide (j = i)) as [->|]; [simplify_eq; specialize (Hv1 Hv); lia|].
    apply Hex. exists j, p'. rewrite E1. split_and!; done || lia. }
  cbn [assign_queues]. rewrite (zget_ok _ _ _ Hp). cbn [mbind res_bind].
  destruct (Z.eqb_spec (idx p) INVALID_PROCESSOR_INDEX) as [Ev|Ev]; cbn [negb].
  - rewrite zset_ok by lia. cbn [mbind res_bind].
    assert (queue_of map p = PARANDIS_RECEIVE_NO_QUEUE) as Eq by (unfold queue_of; by rewrite Ev).
    rewrite <- Eq. apply Hgo with map; cbn; try done. by apply assigned_keep.
  - unfold mapping. rewrite (as_map _ _ _ _ Ha). cbn [mbind res_bind].
    pose proof (queue_of_valid map q p Ho Ev) as Hc. rewrite (zget_ok _ _ _ Hc). cbn [mbind res_bind].
    destruct (Z.eqb_spec (queue_of map p) PARANDIS_RECEIVE_NO_QUEUE) as [E|E]; cbn [mbind res_bind].
    + rewrite E in Hc. destruct (Z.eqb_spec q N) as [->|Hq]; cbn [negb mbind res_bind].
      * replace (N =? PARANDIS_FIRST_RSS_RECEIVE_QUEUE) with false by (unfold PARANDIS_FIRST_RSS_RECEIVE_QUEUE; lia).
        rewrite (as_map _ _ _ _ Ha). cbn [mbind res_bind]. rewrite (zget_ok _ _ _ Hc). cbn [mbind res_bind].
        rewrite zset_ok by lia. cbn [mbind res_bind]. rewrite <- E. apply Hgo with map; cbn; try done.
        by apply assigned_keep.
      * pose proof (zlookup_lt _ _ _ Hc). rewrite zset_ok by done. cbn [mbind res_bind CPUIndexMapping set_field].
        rewrite (zget_ok _ _ q) by (by apply zlookup_zinsert_eq). cbn [mbind res_bind].
        pose proof (assigned_give s map i q p Ha Hi Hp Ev Hc ltac:(lia)) as Hg.
        destruct (q =? PARANDIS_FIRST_RSS_RECEIVE_QUEUE); cbn in Hg |- *;
          (rewrite zset_ok by lia); cbn [mbind res_bind]; apply Hgo with (zinsert (idx p) q map); cbn; try done; lia.
    + rewrite (as_map _ _ _ _ Ha). cbn [mbind res_bind]. rewrite (zget_ok _ _ _ Hc). cbn [mbind res_bind].
      rewrite zset_ok by lia. cbn [mbind res_bind]. apply Hgo with map; cbn; try done.
      { by apply assigned_keep. }
      intros _. destruct (mo_vals _ _ Ho _ _ Hc); [done|lia].
Qed.

(** ** Entries without a queue *)

(** What the second loop makes of an entry. *)
Definition moved (qt : list Z) (i n j : Z) : bool :=
  (i <=? j) && (j <? i + n) && bool_decide (qt⟦j⟧ = Some PARANDIS_RECEIVE_NO_QUEUE).

Lemma reassign_ok n i s pf f :
  FirstQueueIndirectionIndex s = f -> (IndirectionTable s)⟦f⟧ = Some pf ->
  (QueueIndirectionTable s)⟦f⟧ = Some PARANDIS_FIRST_RSS_RECEIVE_QUEUE ->
  0 <= i -> i + Z.of_nat n <= zlen (IndirectionTable s) -> zlen (QueueIndirectionTable s) = zlen (IndirectionTable s) ->
  exists it qt, reassign n i s = Ok (s <| QueueIndirectionTable := qt |> <| IndirectionTable := it |>) /\
    (forall j, it⟦j⟧ = if moved (QueueIndirectionTable s) i (Z.of_nat n) j then Some pf else (IndirectionTable s)⟦j⟧) /\
    (forall j, qt⟦j⟧ = if moved (QueueIndirectionTable s) i (Z.of_nat n) j then Some PARANDIS_FIRST_RSS_RECEIVE_QUEUE
                       else (QueueIndirectionTable s)⟦j⟧).
Proof using.
  revert i s. induction n as [|n IH]; intros i s Hf Hpf Hqf Hi Hn Hl.
  { exists (IndirectionTable s), (QueueIndirectionTable s). split; [by destruct s|]. unfold moved.
    split; intros j; replace ((i <=? j) && (j <? i + Z.of_nat 0)) with false by lia; done. }
  destruct (zlookup_in_range (QueueIndirectionTable s) i ltac:(lia)) as [v Hv].
  cbn [reassign]. rewrite (zget_ok _ _ _ Hv). cbn [mbind res_bind].
  destruct (Z.eqb_spec v PARANDIS_RECEIVE_NO_QUEUE) as [->|Hne].
  - assert (f <> i) by (intros ->; simplify_eq). rewrite zset_ok by lia. cbn [mbind res_bind].
    rewrite Hf, (zget_ok _ _ _ Hpf). cbn [mbind res_bind]. rewrite zset_ok by lia. cbn [mbind res_bind].
    edestruct (IH (i + 1) (s <| QueueIndirectionTable := zinsert i PARANDIS_FIRST_RSS_RECEIVE_QUEUE (QueueIndirectionTable s) |>
        <| IndirectionTable := zinsert i pf (IndirectionTable s) |>)) as (it & qt & E & Hit & Hqt);
      cbn; rewrite ?zlen_zinsert, ?zlookup_zinsert_ne by done; [done|done|done|lia|lia|done|].
    exists it, qt. split; [exact E|]. cbn in Hit, Hqt. split; intros j; rewrite ?Hit, ?Hqt; unfold moved.
    all: destruct (decide (i = j)) as [<-|];
      [replace (i + 1 <=? i) with false by lia; rewrite !zlookup_zinsert_eq by lia;
       rewrite Hv, (bool_decide_true (Some PARANDIS_RECEIVE_NO_QUEUE = _)) by done; by replace ((i <=? i) && (i <? i + Z.of_nat (S n))) with true by lia|].
    all: rewrite !zlookup_zinsert_ne by done.
    all: by replace ((i <=? j) && (j <? i + Z.of_nat (S n))) with ((i + 1 <=? j) && (j <? i + 1 + Z.of_nat n)) by lia.
  - edestruct (IH (i + 1) s) as (it & qt & E & Hit & Hqt); [done|done|done|lia|lia|done|].
    exists it, qt. split; [exact E|]. split; intros j; rewrite ?Hit, ?Hqt; unfold moved.
    all: destruct (decide (i = j)) as [<-|];
      [rewrite Hv, bool_decide_false, !andb_false_r by congruence; done|].
    all: by replace ((i <=? j) && (j <? i + Z.of_nat (S n))) with ((i + 1 <=? j) && (j <? i + 1 + Z.of_nat n)) by lia.
Qed.

(** ** The whole assignment *)

(** A usable table of [n] entries: every entry names a processor that serves the
    queue of the entry. *)
Record served (s : PARANDIS_SCALING_SETTINGS) (map : list Z) (n : Z) : Prop := {
  sv_map : CPUIndexMapping s = Some map;
  sv_first : 0 <= FirstQueueIndirectionIndex s < n;
  sv_entry : forall j, 0 <= j < n -> exists p q,
    (IndirectionTable s)⟦j⟧ = Some p /\ (QueueIndirectionTable s)⟦j⟧ = Some q /\
    valid p /\ map⟦idx p⟧ = Some q /\ 0 <= q < N }.

Lemma assigned_start s n :
  CPUIndexMapping s = Some (replicate (Z.to_nat (KeQueryActiveProcessorCount C)) PARANDIS_RECEIVE_NO_QUEUE) ->
  0 <= KeQueryActiveProcessorCount C -> 0 <= n <= zlen (IndirectionTable s) ->
  zlen (QueueIndirectionTable s) = zlen (IndirectionTable s) ->
  assigned (s <| FirstQueueIndirectionIndex := INVALID_INDIRECTION_INDEX |>)
    (replicate (Z.to_nat (KeQueryActiveProcessorCount C)) PARANDIS_RECEIVE_NO_QUEUE) 0 PARANDIS_FIRST_RSS_RECEIVE_QUEUE.
Proof using HN.
  intros Hm Hc Hn Hl. assert (Hall : forall c v,
    (replicate (Z.to_nat (KeQueryActiveProcessorCount C)) PARANDIS_RECEIVE_NO_QUEUE)⟦c⟧ = Some v -> v = PARANDIS_RECEIVE_NO_QUEUE).
  { intros c v H. pose proof (zlookup_lt _ _ _ H). rewrite zlen_replicate in *.
    rewrite zlookup_replicate in H by done. congruence. }
  constructor; cbn; try done; try lia. constructor; unfold PARANDIS_FIRST_RSS_RECEIVE_QUEUE; try lia.
  - rewrite zlen_replicate. lia.
  - intros c v H%Hall. by left.
  - intros c c' v H%Hall _. done.
Qed.

Definition table_len (s : PARANDIS_SCALING_SETTINGS) : Z := IndirectionTableSize s / sizeof_PROCESSOR_NUMBER.

Lemma FillCPUMappingArray_ok s :
  CPUIndexMapping s = Some (replicate (Z.to_nat (KeQueryActiveProcessorCount C)) PARANDIS_RECEIVE_NO_QUEUE) ->
  0 <= KeQueryActiveProcessorCount C -> 0 <= table_len s <= zlen (IndirectionTable s) ->
  zlen (QueueIndirectionTable s) = zlen (IndirectionTable s) ->
  exists s' map q, FillCPUMappingArray C s N = Ok s' /\ map_ok map q /\ RSSHashMask s' = RSSHashMask s /\
    zlen (IndirectionTable s') = zlen (IndirectionTable s) /\ zlen (QueueIndirectionTable s') = zlen (IndirectionTable s) /\
    ((exists j p, 0 <= j < table_len s /\ (IndirectionTable s)⟦j⟧ = Some p /\ valid p) ->
       served s' map (table_len s) /\
       (forall j p q, 0 <= j < table_len s -> (IndirectionTable s)⟦j⟧ = Some p -> valid p ->
          map⟦idx p⟧ = Some q -> q <> PARANDIS_RECEIVE_NO_QUEUE -> (IndirectionTable s')⟦j⟧ = Some p)) /\
    ((forall j p, 0 <= j < table_len s -> (IndirectionTable s)⟦j⟧ = Some p -> idx p = INVALID_PROCESSOR_INDEX) ->
       FirstQueueIndirectionIndex s' = INVALID_INDIRECTION_INDEX).
Proof using HN Hidx.
  intros Hm Hc Hn Hl. unfold FillCPUMappingArray. fold (table_len s). pose proof (assigned_start s _ Hm Hc Hn Hl) as Ha.
  destruct (assign_queues_ok (Z.to_nat (table_len s)) _ _ _ _ Ha) as (s1 & map & q & -> & Ha1 & _ & Et & Em & Hq); [lia|cbn; lia|].
  cbn in Et, Em, Hq. rewrite Z.add_0_l in Ha1, Hq. rewrite !Z2Nat.id in Ha1, Hq by lia. cbn [mbind res_bind].
  destruct Ha1 as [Hm1 Ho1 [_ Ht1] Hd1 Hf1]. rewrite Et in Hd1, Hf1, Ht1. pose proof (mo_q _ _ Ho1).
  assert (Hinv : (forall j p, 0 <= j < table_len s -> (IndirectionTable s)⟦j⟧ = Some p -> idx p = INVALID_PROCESSOR_INDEX) -> q = 0).
  { intros Hinv. destruct (Z.eqb_spec q 0) as [|Hne]; [done|]. destruct Hf1 as (pf & Hpf & Hr & Hqf).
    unfold queue_of in Hqf. rewrite (Hinv _ _ Hr Hpf) in Hqf. done. }
  destruct (Z.eqb_spec q 0) as [->|Hne].
  { exists s1, map, 0. rewrite Hf1, Z.eqb_refl, Et. split_and!; try done; try congruence. intros He. specialize (Hq He). lia. }
  destruct Hf1 as (pf & Hpf & Hr & Hqf).
  replace (FirstQueueIndirectionIndex s1 =? _) with false by (unfold INVALID_INDIRECTION_INDEX; lia).
  destruct (reassign_ok (Z.to_nat (table_len s)) 0 s1 pf _ eq_refl) as (it & qt & -> & Hit & Hqt);
    [by rewrite Et| |lia|rewrite Et; lia|by rewrite Et|].
  { destruct (Hd1 _ _ Hr Hpf) as [-> _]. by rewrite Hqf. }
  rewrite Z2Nat.id in Hit, Hqt by lia. rewrite Et in Hit.
  exists (s1 <| QueueIndirectionTable := qt |> <| IndirectionTable := it |>), map, q. cbn [mbind res_bind].
  assert (Hvpf : valid pf) by (intros E; unfold queue_of in Hqf; by rewrite E in Hqf).
  split_and!; [done|done|done| | |intros _; split|intros H'; destruct (Hne (Hinv H'))]; cbn.
  - apply zlen_same_domain. intros j. rewrite Hit. destruct (moved _ _ _ _) eqn:Em'; [|done]. unfold moved in Em'.
    split; [|done]. intros _. apply zlookup_is_Some. lia.
  - rewrite <- Ht1. apply zlen_same_domain. intros j. rewrite Hqt. destruct (moved _ _ _ _) eqn:Em'; [|done]. unfold moved in Em'.
    split; [|done]. intros _. apply zlookup_is_Some. lia.
  - constructor; cbn; [done|done|]. intros j Hj. destruct (zlookup_in_range (IndirectionTable s) j ltac:(lia)) as [p Hp].
    rewrite Hit, Hqt. destruct (Hd1 j p Hj Hp) as [Hqj _]. unfold moved. rewrite Hqj.
    replace ((0 <=? j) && (j <? 0 + table_len s)) with true by lia. cbn [andb]. case_bool_decide as E.
    + exists pf, PARANDIS_FIRST_RSS_RECEIVE_QUEUE. split_and!; try done. rewrite <- Hqf. by apply (queue_of_valid map q).
    + assert (valid p) by (intros Ev; destruct E; unfold queue_of; by rewrite Ev).
      exists p, (queue_of map p). pose proof (queue_of_valid map q p Ho1 ltac:(done)) as Hc'.
      destruct (mo_vals _ _ Ho1 _ _ Hc'); [congruence|]. split_and!; try done; lia.
  - intros j p v Hj Hp Hv Hc' Hnv. rewrite Hit. destruct (Hd1 j p Hj Hp) as [Hqj _]. unfold moved. rewrite Hqj.
    rewrite (queue_of_valid map q p Ho1 Hv) in Hc'. rewrite (bool_decide_false (Some (queue_of map p) = _)) by congruence.
    by rewrite !andb_false_r.
Qed.

End assign.

(** ** Distribution of packets *)

Lemma land_mask v k : 0 <= k -> 0 <= v -> 0 <= Z.land v (2 ^ k - 1) < 2 ^ k.
Proof.
  intros Hk Hv. replace (2 ^ k - 1) with (Z.ones k) by (rewrite Z.ones_equiv; lia). rewrite Z.land_ones by lia.
  apply Z.mod_pos_bound. by apply Z.pow_pos_nonneg.
Qed.

(** The fill keeps the size of the processor map. *)
Lemma assign_queues_size C N n i q s s' : assign_queues C N n i q s = Ok s' -> CPUIndexMappingSize s' = CPUIndexMappingSize s.
Proof.
  revert i q s. induction n as [|n IH]; intros i q s; cbn [assign_queues]; [by intros [= <-]|].
  destruct (zget _ _); [|done]. cbn [mbind res_bind]. destruct (negb _).
  - unfold mapping. destruct (CPUIndexMapping s) as [map|]; [|done]. cbn [mbind res_bind]. destruct (zget _ _); [|done]. cbn [mbind res_bind].
    destruct (_ =? PARANDIS_RECEIVE_NO_QUEUE).
    + destruct (negb _); [destruct (zset _ _ _); [|done]|]; cbn [mbind res_bind].
      all: destruct (match _ with Some _ => _ | None => _ end); [|done]; cbn [mbind res_bind].
      all: destruct (zget _ _); [|done]; cbn [mbind res_bind]; destruct (zset _ _ _); [|done]; cbn [mbind res_bind].
      all: intros ->%IH; by destruct (_ =? PARANDIS_FIRST_RSS_RECEIVE_QUEUE).
    + cbn [mbind res_bind]. destruct (match _ with Some _ => _ | None => _ end); [|done]. cbn [mbind res_bind].
      destruct (zget _ _); [|done]. cbn [mbind res_bind]. destruct (zset _ _ _); [|done]. cbn [mbind res_bind]. by intros ->%IH.
  - destruct (zset _ _ _); [|done]. cbn [mbind res_bind]. by intros ->%IH.
Qed.

Lemma reassign_size n i s s' : reassign n i s = Ok s' -> CPUIndexMappingSize s' = CPUIndexMappingSize s.
Proof.
  revert i s. induction n as [|n IH]; intros i s; cbn [reassign]; [by intros [= <-]|].
  destruct (zget (QueueIndirectionTable s) i); [|done]. cbn [mbind res_bind]. destruct (_ =? _); [|by intros ->%IH].
  destruct (zset (QueueIndirectionTable s) _ _); [|done]. cbn [mbind res_bind]. destruct (zget _ _); [|done]. cbn [mbind res_bind].
  destruct (zset _ _ _); [|done]. cbn [mbind res_bind]. by intros ->%IH.
Qed.

Lemma FillCPUMappingArray_size C N s s' : FillCPUMappingArray C s N = Ok s' -> CPUIndexMappingSize s' = CPUIndexMappingSize s.
Proof.
  unfold FillCPUMappingArray. destruct (assign_queues _ _ _ _ _ _) as [s1|] eqn:E; [|done]. apply assign_queues_size in E. cbn [mbind res_bind].
  destruct (_ =? _); [by intros [= <-]|]. by intros ->%reassign_size.
Qed.

(** When the indirection table has a power of two entries, the hash mask
    selects all of them and at least one names a processor that exists, allocating
    and filling the processor map ([AllocateCPUMappingArray],
    [FillCPUMappingArray]) gives each queue to at most one processor, and
    afterwards every hashed packet is distributed to one of the queues, together
    with a processor whose own lookup finds exactly that queue. *)
Theorem RSS_distribution C N s k j0 p0 :
  0 < N ->
  (forall p, KeGetProcessorIndexFromNumber C p = INVALID_PROCESSOR_INDEX \/
             0 <= KeGetProcessorIndexFromNumber C p < KeQueryActiveProcessorCount C) ->
  0 <= KeQueryActiveProcessorCount C -> alloc_succeeds C (KeQueryActiveProcessorCount C) = true ->
  0 <= k -> table_len s = 2 ^ k -> table_len s <= zlen (IndirectionTable s) ->
  zlen (QueueIndirectionTable s) = zlen (IndirectionTable s) -> RSSHashMask s = 2 ^ k - 1 ->
  0 <= j0 < table_len s -> (IndirectionTable s)⟦j0⟧ = Some p0 -> KeGetProcessorIndexFromNumber C p0 <> INVALID_PROCESSOR_INDEX ->
  exists s' map q, FillCPUMappingArray C (AllocateCPUMappingArray C s).2 N = Ok s' /\ CPUIndexMapping s' = Some map /\ map_ok C N map q /\
    forall rss i, RSSMode rss = PARANDIS_RSS_FULL -> ActiveRSSScalingSettings rss = s' -> Type_ (RSSHash i) <> 0 -> 0 <= Value (RSSHash i) ->
    exists p v, ParaNdis6_RSSGetScalingDataForPacket rss i = Ok (v, Some p) /\ 0 <= v < N /\
      ParaNdis6_RSSGetCurrentCpuReceiveQueue rss (KeGetProcessorIndexFromNumber C p) = Ok v.
Proof.
  intros HN Hidx Hc Ha Hk Ht Htl Hl Hmask Hj0 Hp0 Hv0. unfold AllocateCPUMappingArray. rewrite Ha. cbn [negb snd].
  set (s0 := s <| CPUIndexMapping := _ |> <| CPUIndexMappingSize := _ |>). change (table_len s) with (table_len s0) in *.
  destruct (FillCPUMappingArray_ok C N HN Hidx s0 eq_refl Hc ltac:(cbn; lia) Hl)
    as (s' & map & q & E & Ho & Em & _ & _ & Hs & _).
  destruct (Hs (ex_intro _ j0 (ex_intro _ p0 (conj Hj0 (conj Hp0 Hv0))))) as [[Sm Sf Se] _].
  pose proof (FillCPUMappingArray_size _ _ _ _ E) as Hsize. cbn in Hsize.
  exists s', map, q. split; [done|]. split; [done|]. split; [done|].
  intros rss i Hmode <- Hty Hval. unfold ParaNdis6_RSSGetScalingDataForPacket, ParaNdis6_RSSGetCurrentCpuReceiveQueue.
  rewrite (bool_decide_true (RSSMode rss = _)) by done. cbn [negb orb].
  replace (FirstQueueIndirectionIndex _ =? _) with false by (unfold INVALID_INDIRECTION_INDEX in *; lia).
  replace (Type_ (RSSHash i) =? 0) with false by lia. rewrite Em. cbn [RSSHashMask set_field s0]. rewrite Hmask.
  destruct (Se (Z.land (Value (RSSHash i)) (2 ^ k - 1))) as (p & v & Hp & Hq & Hvp & Hmp & Hvr);
    [rewrite Ht; by apply land_mask|].
  rewrite (zget_ok _ _ _ Hq). cbn [mbind res_bind].
  replace (v =? PARANDIS_RECEIVE_NO_QUEUE) with false by (unfold PARANDIS_RECEIVE_NO_QUEUE; lia).
  rewrite (zget_ok _ _ _ Hp). cbn [mbind res_bind]. exists p, v. split; [done|]. split; [done|].
  unfold FindReceiveQueueForCurrentCpu, mapping. rewrite Sm.
  pose proof (zlookup_lt _ _ _ Hmp) as Hlt. rewrite (mo_len _ _ _ _ Ho) in Hlt.
  replace (_ >=? _) with false by (rewrite Hsize; lia). cbn [mbind res_bind]. by apply zget_ok.
Qed.
