(* ===== verification/NetRxBuffer.v ===== *)
(** * Receive buffers of NetKVM

    The layout of a receive buffer ([PrepareRXLayout], Common/ParaNdis_Common.cpp),
    and the creation and destruction of its descriptor: shared memory blocks, the
    scatter-gather list handed to the device and the MDL chain handed to NDIS
    (Common/ParaNdis_RX.cpp). *)

From Stdlib Require Import ZArith Lia.
From stdpp Require Import base list numbers.
From S2P Require Import Prelude.
From S2P Require Import Virtio.

Definition sizeof_VirtIOBufferDescriptor : Z := 16.

(** ** Layout *)

Record tRxLayout := mk_layout {
  ReserveForHeader : Z; ReserveForIndirectArea : Z; ReserveForPacketTail : Z;
  HeaderPageAllocation : Z; TotalAllocationsPerBuffer : Z; IndirectEntries : Z }.
#[export] Instance eta_layout : Eta tRxLayout := fun l =>
  mk_layout (ReserveForHeader l) (ReserveForIndirectArea l) (ReserveForPacketTail l)
    (HeaderPageAllocation l) (TotalAllocationsPerBuffer l) (IndirectEntries l).
Definition zero_layout : tRxLayout := mk_layout 0 0 0 0 0 0.

Definition ALIGN_UP_BY (x a : Z) : Z := Z.land (x + a - 1) (Z.lnot (a - 1)).

Definition IsPowerOfTwo (n : Z) : bool := negb (n =? 0) && (Z.land n (u32 (u32 (Z.lnot n) + 1)) =? n).

(** [while (!IsPowerOfTwo(HeaderPageAllocation)) HeaderPageAllocation++] on a
    USHORT. *)
Fixpoint to_power_of_two (fuel : nat) (h : Z) : res Z :=
  match fuel with
  | O => Fault OutOfFuel
  | S fuel => if negb (IsPowerOfTwo h) then to_power_of_two fuel (u16 (h + 1)) else Ok h
  end.

(** [rxPayloadSize]: the data that a buffer must have room for. *)
Definition rxPayloadSize (bAnyLayout : bool) (nMaxDataSizeHwRx nVirtioHeaderSize : Z) : Z :=
  if bAnyLayout then u32 (nMaxDataSizeHwRx + nVirtioHeaderSize) else nMaxDataSizeHwRx.

Definition PrepareRXLayout (bAnyLayout : bool) (nMaxDataSizeHwRx nVirtioHeaderSize : Z) (l : tRxLayout) :
    res tRxLayout :=
  let alignment := 32 in
  let l := l <| ReserveForHeader := if bAnyLayout then 0 else u16 (ALIGN_UP_BY nVirtioHeaderSize alignment) |> in
  let payload := rxPayloadSize bAnyLayout nMaxDataSizeHwRx nVirtioHeaderSize in
  let l := l <| TotalAllocationsPerBuffer := u16 (u16 (payload / PAGE_SIZE) + 1) |> in
  let tail := u16 (payload mod PAGE_SIZE) in
  let l := l <| IndirectEntries := u16 (TotalAllocationsPerBuffer l + b2z (truth tail)) |> in
  let l := l <| ReserveForIndirectArea :=
                  u16 (ALIGN_UP_BY (IndirectEntries l * sizeof_VirtIOBufferDescriptor) alignment) |> in
  let l := l <| HeaderPageAllocation := u16 (ReserveForHeader l + ReserveForIndirectArea l) |> in
  let l := if HeaderPageAllocation l + tail >? PAGE_SIZE
           then l <| TotalAllocationsPerBuffer := u16 (TotalAllocationsPerBuffer l + 1) |>
           else l <| HeaderPageAllocation := u16 (HeaderPageAllocation l + tail) |>
                  <| ReserveForPacketTail := tail |> in
  h ← to_power_of_two (Z.to_nat 65538) (HeaderPageAllocation l);
  Ok (l <| HeaderPageAllocation := h |>).

(** ** The system's memory *)

(** A block of shared memory, and the blocks and MDLs that are allocated. *)
Record rx_block := mk_block { Physical : Z; blk_size : Z }.
#[export] Instance rx_block_eq_dec : EqDecision rx_block.
Proof. solve_decision. Defined.

Record host := mk_host { h_requests : nat; h_blocks : list rx_block; h_mdls : list nat }.
#[export] Instance eta_host : Eta host := fun h => mk_host (h_requests h) (h_blocks h) (h_mdls h).

(** Answers of the system: where the n-th request of a size is placed, and whether
    the n-th request for an MDL succeeds. *)
Record rx_alloc := mk_rx_alloc {
  NdisMAllocateSharedMemory : nat -> Z -> option Z;
  NdisAllocateMdl : nat -> bool }.

Section buffer.
Context (A : rx_alloc).

Definition ParaNdis_InitialAllocatePhysicalMemory (ulSize : Z) (h : host) : option rx_block * host :=
  let n := h_requests h in
  let h := h <| h_requests := S n |> in
  match NdisMAllocateSharedMemory A n ulSize with
  | Some pa => let b := mk_block pa ulSize in (Some b, h <| h_blocks := b :: h_blocks h |>)
  | None => (None, h)
  end.

(** Remove one occurrence. *)
Fixpoint take_out {T} `{EqDecision T} (x : T) (l : list T) : option (list T) :=
  match l with
  | [] => None
  | y :: l => if decide (x = y) then Some l else l' ← take_out x l; Some (y :: l')
  end.

(** Freeing what is not allocated stops the machine. *)
Definition ParaNdis_FreePhysicalMemory (b : rx_block) (h : host) : res host :=
  match take_out b (h_blocks h) with
  | Some l => Ok (h <| h_blocks := l |>)
  | None => Fault BugCheck
  end.

Definition NdisFreeMdl (m : nat) (h : host) : res host :=
  match take_out m (h_mdls h) with
  | Some l => Ok (h <| h_mdls := l |>)
  | None => Fault BugCheck
  end.

(** ** Descriptors *)

(** [BufferSGArray] up to [BufferSGLength], [PhysicalPages] up to [NumPages], and
    the MDL chain at [Holder]. *)
Record RxNetDescriptor := mk_rxd {
  HeaderPage : Z; DataStartOffset : Z;
  BufferSGArray : list VirtIOBufferDescriptor;
  PhysicalPages : list rx_block;
  IndirectArea : rx_block;
  Holder : list nat }.
#[export] Instance eta_rxd : Eta RxNetDescriptor := fun p =>
  mk_rxd (HeaderPage p) (DataStartOffset p) (BufferSGArray p) (PhysicalPages p) (IndirectArea p) (Holder p).

Definition PARANDIS_FIRST_RX_DATA_PAGE : Z := 1.

Fixpoint ParaNdis_UnbindRxBufferFromPacket (chain : list nat) (h : host) : res host :=
  match chain with
  | [] => Ok h
  | m :: chain => h ← NdisFreeMdl m h; ParaNdis_UnbindRxBufferFromPacket chain h
  end.

(** One MDL per data page; [None] for the first one that is not granted. *)
Fixpoint bind_pages (pages : list rx_block) (h : host) : bool * list nat * host :=
  match pages with
  | [] => (true, [], h)
  | _ :: pages =>
      let n := h_requests h in
      let h := h <| h_requests := S n |> in
      if NdisAllocateMdl A n then
        let '(ok, chain, h) := bind_pages pages (h <| h_mdls := n :: h_mdls h |>) in
        (ok, n :: chain, h)
      else (false, [], h)
  end.

Definition ParaNdis_BindRxBufferToPacket (p : RxNetDescriptor) (h : host) : res (bool * RxNetDescriptor * host) :=
  let '(ok, chain, h) := bind_pages (drop (Z.to_nat PARANDIS_FIRST_RX_DATA_PAGE) (PhysicalPages p)) h in
  let p := p <| Holder := chain |> in
  if ok then Ok (true, p, h)
  else h ← ParaNdis_UnbindRxBufferFromPacket (Holder p) h; Ok (false, p, h).

Definition IsRegionInside (a1 a2 : rx_block) : bool :=
  (Physical a1 >=? Physical a2) && (Physical a1 <=? Physical a2 + blk_size a2).

(** The loop over [PhysicalPages]; [first] is page 0. *)
Fixpoint free_pages (first : rx_block) (i : nat) (pages : list rx_block) (h : host) : res host :=
  match pages with
  | [] => Ok h
  | b :: pages =>
      if negb (Nat.eqb i 0) && IsRegionInside b first then free_pages first (S i) pages h
      else h ← ParaNdis_FreePhysicalMemory b h; free_pages first (S i) pages h
  end.

Definition ParaNdis_FreeRxBufferDescriptor (p : RxNetDescriptor) (h : host) : res host :=
  h ← ParaNdis_UnbindRxBufferFromPacket (Holder p) h;
  match PhysicalPages p with
  | [] => Ok h
  | first :: _ => free_pages first 0 (PhysicalPages p) h
  end.

(** [while (!ParaNdis_InitialAllocatePhysicalMemory(...))]: retry with half the
    pages; the block, the number of pages and [bLargeSingleAllocation]. *)
Fixpoint alloc_retry (fuel : nat) (ulPagesToAlloc sizeToAlloc : Z) (large : bool) (h : host) :
    res (option (rx_block * Z) * bool * host) :=
  match fuel with
  | O => Fault OutOfFuel
  | S fuel =>
      let '(b, h) := ParaNdis_InitialAllocatePhysicalMemory sizeToAlloc h in
      match b with
      | Some b => Ok (Some (b, ulPagesToAlloc), large, h)
      | None =>
          if ulPagesToAlloc =? 1 then Ok (None, large, h)
          else alloc_retry fuel (ulPagesToAlloc / 2) (PAGE_SIZE * (ulPagesToAlloc / 2)) false h
      end
  end.

(** Write the entry at the end of an array of [cap] elements. *)
Definition push {T} (cap : Z) (l : list T) (x : T) : res (list T) :=
  if zlen l <? cap then Ok (l ++ [x]) else Fault OutOfBounds.

(** [while (ulNumDataPages > 0)]; [true] when all pages were allocated. *)
Fixpoint alloc_pages (fuel : nat) (l : tRxLayout) (ulNumDataPages : Z) (large : bool) (p : RxNetDescriptor) (h : host) :
    res (bool * bool * RxNetDescriptor * host) :=
  match fuel with
  | O => Fault OutOfFuel
  | S fuel =>
      if ulNumDataPages >? 0 then
        let pageNumber := zlen (PhysicalPages p) in
        let ulPagesToAlloc := if pageNumber =? 0 then 1 else ulNumDataPages in
        let sizeToAlloc := if pageNumber =? 0 then HeaderPageAllocation l else PAGE_SIZE * ulPagesToAlloc in
        let sizeToAlloc := if (pageNumber >? 0) && large then sizeToAlloc + ReserveForPacketTail l else sizeToAlloc in
        '(r, large, h) ← alloc_retry (S (Z.to_nat ulPagesToAlloc)) ulPagesToAlloc sizeToAlloc large h;
        match r with
        | None => Ok (false, large, p, h)
        | Some (b, n) =>
            pages ← push (IndirectEntries l) (PhysicalPages p) b;
            sg ← (if negb (pageNumber =? 0) || (HeaderPage p =? 0)
                  then push (IndirectEntries l) (BufferSGArray p) (mk_sg (Physical b) (blk_size b))
                  else Ok (BufferSGArray p));
            alloc_pages fuel l (ulNumDataPages - n) large
              (p <| PhysicalPages := pages |> <| BufferSGArray := sg |>) h
        end
      else Ok (true, large, p, h)
  end.

(** The header entry, the indirect area and the tail in the header block. *)
Definition place_tail (l : tRxLayout) (nVirtioHeaderSize : Z) (large : bool) (p : RxNetDescriptor) : res RxNetDescriptor :=
  p ← (if HeaderPage p =? 0
       then e ← zget (BufferSGArray p) 0; sg ← zset (BufferSGArray p) 0 (mk_sg (physAddr e) nVirtioHeaderSize);
            Ok (p <| BufferSGArray := sg |>)
       else Ok p);
  first ← zget (PhysicalPages p) 0;
  let offsetInTheHeader := ReserveForHeader l in
  let p := p <| IndirectArea := mk_block (Physical first + offsetInTheHeader) (ReserveForIndirectArea l) |> in
  if truth (ReserveForPacketTail l) && negb large then
    let offsetInTheHeader := offsetInTheHeader + ReserveForIndirectArea l in
    let b := mk_block (Physical first + offsetInTheHeader) (ReserveForPacketTail l) in
    pages ← push (IndirectEntries l) (PhysicalPages p) b;
    sg ← push (IndirectEntries l) (BufferSGArray p) (mk_sg (Physical b) (blk_size b));
    Ok (p <| PhysicalPages := pages |> <| BufferSGArray := sg |>)
  else Ok p.

(** The descriptor and its two arrays are granted; [None] is NULL. *)
Definition CreateRxDescriptorOnInit (l : tRxLayout) (bRxSeparateTail : bool) (nVirtioHeaderSize : Z) (h : host) :
    res (option RxNetDescriptor * host) :=
  let ulNumDataPages := TotalAllocationsPerBuffer l in
  let bLargeSingleAllocation := (ulNumDataPages >? 1) && negb bRxSeparateTail && truth (ReserveForPacketTail l) in
  let hp := if truth (ReserveForHeader l) then 0 else 1 in
  let p := mk_rxd hp (if hp =? 0 then 0 else u16 nVirtioHeaderSize) [] [] (mk_block 0 0) [] in
  let error_exit p h := h ← ParaNdis_FreeRxBufferDescriptor p h; Ok (None, h) in
  '(ok, large, p, h) ← alloc_pages (S (Z.to_nat ulNumDataPages)) l ulNumDataPages bLargeSingleAllocation p h;
  if negb (ok : bool) then error_exit p h
  else
    p ← place_tail l nVirtioHeaderSize large p;
    '(ok, p, h) ← ParaNdis_BindRxBufferToPacket p h;
    if negb (ok : bool) then error_exit p h else Ok (Some p, h).

End buffer.
