(* ===== verification/NetRxBufferSpec.v ===== *)
(** * Receive buffers: enough room, arrays large enough, and nothing leaked *)

From Stdlib Require Import ZArith Lia ZifyBool.
From stdpp Require Import base list numbers.
From S2P Require Import Prelude.
From S2P Require Import Virtio.
From S2P Require Import NetRxBuffer.

Ltac div_lia := Z.to_euclidean_division_equations; lia.

(** ** Powers of two *)

Definition pow2_upto (k : Z) (h : Z) : Prop := exists j, 0 <= j <= k /\ h = 2 ^ j.

Lemma to_power_of_two_ok fuel h :
  1 <= h <= 4096 -> (Z.to_nat (4097 - h) <= fuel)%nat ->
  exists h', to_power_of_two fuel h = Ok h' /\ h <= h' <= 4096 /\ IsPowerOfTwo h' = true.
Proof.
  revert h. induction fuel as [|fuel IH]; intros h Hh Hf; [lia|]. cbn [to_power_of_two].
  destruct (IsPowerOfTwo h) eqn:E; cbn [negb]; [exists h; split_and!; done || lia|].
  destruct (decide (h = 4096)) as [->|]; [done|]. rewrite u16_small by lia.
  destruct (IH (h + 1)) as (h' & -> & ? & ?); [lia|lia|]. exists h'. split_and!; done || lia.
Qed.

Lemma ALIGN_UP_32 x : 0 <= x -> ALIGN_UP_BY x 32 = (x + 31) / 32 * 32.
Proof.
  intros Hx. unfold ALIGN_UP_BY. replace (x + 32 - 1) with (x + 31) by lia. change (32 - 1) with (Z.ones 5).
  rewrite <- Z.ldiff_land, Z.ldiff_ones_r, Z.shiftl_mul_pow2, Z.shiftr_div_pow2 by lia. done.
Qed.

(** ** The layout *)

(** What a layout for [payload] bytes of data and a header of [hdr] bytes is. *)
Record layout_ok (l : tRxLayout) (combined : bool) (payload hdr : Z) : Prop := {
  lo_header : if combined then ReserveForHeader l = 0 else 0 < hdr <= ReserveForHeader l;
  lo_tail : 0 <= ReserveForPacketTail l < PAGE_SIZE;
  lo_total : 1 <= TotalAllocationsPerBuffer l;
  lo_room : payload <= PAGE_SIZE * (TotalAllocationsPerBuffer l - 1) + ReserveForPacketTail l;
  lo_entries : TotalAllocationsPerBuffer l + b2z (truth (ReserveForPacketTail l)) <= IndirectEntries l <= 65535;
  lo_indirect : IndirectEntries l * sizeof_VirtIOBufferDescriptor <= ReserveForIndirectArea l;
  lo_fits : ReserveForHeader l + ReserveForIndirectArea l + ReserveForPacketTail l <= HeaderPageAllocation l <= PAGE_SIZE;
  lo_pow2 : IsPowerOfTwo (HeaderPageAllocation l) = true }.

Lemma PrepareRXLayout_ok combined dataSize hdr :
  1 <= dataSize <= 900000 -> 1 <= hdr <= 32 ->
  exists l, PrepareRXLayout combined dataSize hdr zero_layout = Ok l /\
    layout_ok l combined (rxPayloadSize combined dataSize hdr) hdr.
Proof.
  intros Hd Hh. unfold PrepareRXLayout. cbv zeta.
  assert (HF : (4097 <= Z.to_nat 65538)%nat) by lia. revert HF. generalize (Z.to_nat 65538). intros F HF.
  set (payload := rxPayloadSize combined dataSize hdr).
  assert (Hp : 1 <= payload <= 900032) by (unfold payload, rxPayloadSize; destruct combined; rewrite ?u32_small; lia).
  set (rh := if combined then 0 else u16 (ALIGN_UP_BY hdr 32)).
  assert (Hrh : 0 <= rh <= 32 /\ if combined then rh = 0 else 0 < hdr <= rh).
  { unfold rh. destruct combined; [lia|]. rewrite ALIGN_UP_32, u16_small by (lia || div_lia). div_lia. }
  cbn.
  assert (Hq : 0 <= payload / PAGE_SIZE <= 219) by (unfold PAGE_SIZE; div_lia).
  assert (Ht : 0 <= payload mod PAGE_SIZE < 4096) by (unfold PAGE_SIZE; div_lia).
  assert (Hdm : payload = PAGE_SIZE * (payload / PAGE_SIZE) + payload mod PAGE_SIZE) by (unfold PAGE_SIZE; div_lia).
  set (q := payload / PAGE_SIZE) in *. set (r := payload mod PAGE_SIZE) in *.
  rewrite (u16_small q), (u16_small r), (u16_small (q + 1)) by lia.
  set (e := b2z (truth r)). assert (He : 0 <= e <= 1) by (unfold e; destruct (truth r); cbn; lia).
  rewrite (u16_small (q + 1 + e)) by lia. unfold sizeof_VirtIOBufferDescriptor.
  rewrite ALIGN_UP_32, (u16_small (_ * 32)) by (lia || div_lia). set (ia := (((q + 1 + e) * 16 + 31) / 32) * 32).
  assert (Hia : (q + 1 + e) * 16 <= ia <= (q + 1 + e) * 16 + 31) by (unfold ia; div_lia).
  rewrite (u16_small (rh + ia)) by lia.
  assert (Hr0 : truth r = negb (r =? 0)) by done.
  destruct (Z.gtb_spec (rh + ia + r) PAGE_SIZE) as [Hbig|Hsmall]; unfold PAGE_SIZE in Hbig || unfold PAGE_SIZE in Hsmall; cbn.
  - rewrite (u16_small (q + 1 + 1)) by lia.
    destruct (to_power_of_two_ok F (rh + ia)) as (h' & -> & Hh' & Hpow); [lia|lia|].
    eexists. split; [done|]. cbn. assert (e = 1) by (unfold e; rewrite Hr0; destruct (Z.eqb_spec r 0); cbn; lia).
    constructor; cbn; unfold PAGE_SIZE in *; unfold sizeof_VirtIOBufferDescriptor; try done; try lia; try apply Hrh.
  - rewrite (u16_small (rh + ia + r)) by lia.
    destruct (to_power_of_two_ok F (rh + ia + r)) as (h' & -> & Hh' & Hpow); [lia|lia|].
    eexists. split; [done|]. cbn. constructor; cbn; unfold PAGE_SIZE in *; fold e; unfold sizeof_VirtIOBufferDescriptor; try done; try lia; try apply Hrh.
Qed.

(** ** Allocation *)

Section alloc.
Context (A : rx_alloc).

(** Block [b] was the answer to request [i]. *)
Definition granted (i : nat) (b : rx_block) : Prop := NdisMAllocateSharedMemory A i (blk_size b) = Some (Physical b).

Definition total (bs : list rx_block) : Z := foldr Z.add 0 (blk_size <$> bs).
Definition sg_of (b : rx_block) : VirtIOBufferDescriptor := mk_sg (Physical b) (blk_size b).

Lemma total_app bs cs : total (bs ++ cs) = total bs + total cs.
Proof. unfold total. induction bs as [|b bs IH]; cbn; [done|]. cbn in IH. rewrite IH. lia. Qed.

Lemma alloc_retry_ok fuel n sz large h :
  1 <= n -> (Z.to_nat n < fuel)%nat ->
  exists r large' h', alloc_retry A fuel n sz large h = Ok (r, large', h') /\ h_mdls h' = h_mdls h /\
    (h_requests h <= h_requests h')%nat /\ (large = false -> large' = false) /\
    match r with
    | None => h_blocks h' = h_blocks h
    | Some (b, k) => 1 <= k <= n /\ h_blocks h' = b :: h_blocks h /\
        (exists i, (h_requests h <= i < h_requests h')%nat /\ granted i b) /\
        ((k = n /\ blk_size b = sz /\ large' = large) \/ (n > 1 /\ blk_size b = PAGE_SIZE * k /\ large' = false))
    end.
Proof.
  revert n sz large h. induction fuel as [|fuel IH]; intros n sz large h Hn Hf; [lia|]. cbn [alloc_retry].
  unfold ParaNdis_InitialAllocatePhysicalMemory. destruct (NdisMAllocateSharedMemory A (h_requests h) sz) as [pa|] eqn:E.
  { eexists _, _, _. split; [done|]. cbn. split; [done|]. split; [lia|]. split; [done|]. split; [lia|]. split; [done|].
    split; [|by left]. exists (h_requests h). split; [lia|done]. }
  destruct (Z.eqb_spec n 1) as [->|Hne].
  { eexists _, _, _. split; [done|]. cbn. split; [done|]. split; [lia|done]. }
  assert (Hn2 : 1 <= n / 2 < n) by div_lia.
  destruct (IH (n / 2) (PAGE_SIZE * (n / 2)) false (h <| h_requests := S (h_requests h) |>)) as (r & large' & h' & -> & Hm & Hr & Hlf & Hres);
    [lia|lia|]. exists r, large', h'. cbn in Hm, Hr, Hres. split; [done|]. split; [done|]. split; [lia|]. split; [auto|].
  destruct r as [[b k]|]; [|done]. destruct Hres as (Hk & Hb & (i & Hi & Hg) & Hc).
  split; [lia|]. split; [done|]. split; [exists i; split; [lia|done]|]. right. destruct Hc as [(-> & Hs & ->)|(_ & Hs & ->)]; split_and!; done || lia.
Qed.

Lemma push_ok {T} cap (l : list T) x : zlen l < cap -> push cap l x = Ok (l ++ [x]).
Proof. intros. unfold push. by replace (zlen l <? cap) with true by lia. Qed.

(** The blocks after the first one. *)
Lemma alloc_rest_ok fuel l num large p h :
  0 <= num -> (Z.to_nat num < fuel)%nat -> PhysicalPages p <> [] -> (large = true -> 1 <= num) ->
  zlen (PhysicalPages p) + num <= IndirectEntries l -> zlen (BufferSGArray p) + num <= IndirectEntries l ->
  exists ok large' ds h',
    alloc_pages A fuel l num large p h =
      Ok (ok, large', p <| PhysicalPages := PhysicalPages p ++ ds |>
                        <| BufferSGArray := BufferSGArray p ++ (sg_of <$> ds) |>, h') /\
    h_mdls h' = h_mdls h /\ h_blocks h' ≡ₚ ds ++ h_blocks h /\ (h_requests h <= h_requests h')%nat /\
    Forall (fun b => exists i, (h_requests h <= i)%nat /\ granted i b) ds /\ zlen ds <= num /\
    (large = false -> large' = false) /\
    (ok = true -> if large' : bool then exists b, ds = [b] /\ blk_size b = PAGE_SIZE * num + ReserveForPacketTail l
                  else total ds = PAGE_SIZE * num /\ Forall (fun b => (PAGE_SIZE | blk_size b)) ds).
Proof.
  revert num large p h. induction fuel as [|fuel IH]; intros num large p h H0 Hf Hne Hl Hc1 Hc2; [lia|]. cbn [alloc_pages].
  destruct (Z.gtb_spec num 0) as [Hpos|]; cycle 1.
  { exists true, large, [], h. rewrite !app_nil_r. replace num with 0 in * by lia.
    split; [by destruct p|]. split_and!; try done; try constructor. destruct large; [by specialize (Hl eq_refl)|done]. }
  pose proof (zlen_nonneg (PhysicalPages p)). assert (0 < zlen (PhysicalPages p)).
  { destruct (PhysicalPages p) as [|b0 l0]; [done|]. rewrite zlen_cons. pose proof (zlen_nonneg l0). lia. }
  replace (zlen (PhysicalPages p) =? 0) with false by lia. replace (zlen (PhysicalPages p) >? 0) with true by lia. cbn [andb negb orb].
  destruct (alloc_retry_ok (S (Z.to_nat num)) num (if large then PAGE_SIZE * num + ReserveForPacketTail l else PAGE_SIZE * num)
    large h ltac:(lia) ltac:(lia)) as (r & large1 & h1 & -> & Hm & Hr & Hlf1 & Hres). cbn [mbind res_bind].
  destruct r as [[b k]|]; cycle 1.
  { exists false, large1, [], h1. rewrite !app_nil_r, Hres. split; [by destruct p|]. split_and!; try done; constructor. }
  destruct Hres as (Hk & Hb & (i & Hi & Hg) & Hcase). rewrite !push_ok by lia. cbn [mbind res_bind].
  destruct (decide (k = num)) as [->|Hlt].
  { exists true, large1, [b], h1. split; [destruct fuel; [lia|]; cbn [alloc_pages]; by rewrite Z.sub_diag|].
    split_and!; try done.
    - by rewrite Hb.
    - apply Forall_cons_2; [|constructor]. exists i. split; [lia|done].
    - change (zlen [b]) with 1. lia.
    - intros _. destruct Hcase as [(_ & Hs & ->)|(_ & Hs & ->)]; [destruct large; [by exists b|]|]; cbn; unfold total; cbn.
      all: split; [lia|apply Forall_cons_2; [|constructor]; exists num; lia]. }
  destruct Hcase as [(? & _)|(_ & Hs & ->)]; [done|].
  destruct (IH (num - k) false (p <| PhysicalPages := PhysicalPages p ++ [b] |> <| BufferSGArray := BufferSGArray p ++ [sg_of b] |>) h1)
    as (ok & large' & ds & h' & E & Hm' & Hb' & Hr' & Hg' & Hlen & Hlf & Hok).
  { lia. } { lia. } { cbn. by destruct (PhysicalPages p). } { done. }
  { cbn. rewrite zlen_app. change (zlen [b]) with 1. lia. } { cbn. rewrite zlen_app. change (zlen [sg_of b]) with 1. lia. }
  rewrite (Hlf eq_refl) in *. exists ok, false, (b :: ds), h'. cbn in E. rewrite <- !app_assoc in E. split; [exact E|].
  split_and!; try done; try lia.
  - congruence.
  - rewrite Hb', Hb. cbn. by rewrite <- Permutation_middle.
  - apply Forall_cons_2; [exists i; split; [lia|done]|]. eapply Forall_impl; [|exact Hg']. intros c (j & ? & ?). exists j. split; [lia|done].
  - rewrite zlen_cons. lia.
  - intros Ht. destruct (Hok Ht) as [Ht1 Ht2]. split; [unfold total in *; cbn; lia|]. apply Forall_cons_2; [exists k; lia|done].
Qed.

(** ** Freeing *)

Lemma take_out_ok {T} `{EqDecision T} (x : T) l k : l ≡ₚ x :: k -> exists l', take_out x l = Some l' /\ l' ≡ₚ k.
Proof.
  intros Hp. assert (Hx : x ∈ l) by (rewrite Hp; constructor).
  assert (exists l', take_out x l = Some l' /\ l ≡ₚ x :: l') as (l' & E & Hl').
  { clear Hp. induction l as [|y l IH]; [by apply list.not_elem_of_nil in Hx|]. cbn. destruct (decide (x = y)) as [->|Hne]; [by exists l|].
    apply list.elem_of_cons in Hx as [?|Hx]; [done|]. destruct (IH Hx) as (l' & -> & Hl'). exists (y :: l'). split; [done|].
    rewrite Hl'. apply Permutation_swap. }
  exists l'. split; [done|]. rewrite Hl' in Hp. by apply Permutation_cons_inv in Hp.
Qed.

Lemma unbind_ok chain h ms :
  h_mdls h ≡ₚ chain ++ ms ->
  exists h', ParaNdis_UnbindRxBufferFromPacket chain h = Ok h' /\ h_mdls h' ≡ₚ ms /\ h_blocks h' = h_blocks h.
Proof.
  revert h. induction chain as [|m chain IH]; intros h Hp; [by exists h|]. cbn. unfold NdisFreeMdl.
  destruct (take_out_ok m (h_mdls h) _ Hp) as (l & -> & Hl). cbn [mbind res_bind].
  destruct (IH (h <| h_mdls := l |>)) as (h' & -> & ? & ?); [done|]. by exists h'.
Qed.

(** The blocks that the loop frees are those that do not look like parts of the
    first one. *)
Definition own (first : rx_block) (bs : list rx_block) : list rx_block :=
  filter (fun b => IsRegionInside b first = false) bs.

Lemma own_all first bs : Forall (fun b => IsRegionInside b first = false) bs -> own first bs = bs.
Proof. induction 1 as [|b bs Hb _ IH]; [done|]. unfold own in *. rewrite filter_cons, decide_True by done. by rewrite IH. Qed.

Lemma free_pages_ok first i bs h rest :
  (0 < i)%nat -> h_blocks h ≡ₚ own first bs ++ rest ->
  exists h', free_pages first i bs h = Ok h' /\ h_blocks h' ≡ₚ rest /\ h_mdls h' = h_mdls h.
Proof.
  revert i h. induction bs as [|b bs IH]; intros i h Hi Hp; [by exists h|]. cbn [free_pages].
  replace (Nat.eqb i 0) with false by (symmetry; apply Nat.eqb_neq; lia). cbn [negb andb].
  unfold own in Hp. rewrite filter_cons in Hp. destruct (IsRegionInside b first) eqn:E.
  - rewrite decide_False in Hp by done. apply IH; [lia|done].
  - rewrite decide_True in Hp by done. unfold ParaNdis_FreePhysicalMemory.
    destruct (take_out_ok b (h_blocks h) _ Hp) as (l & -> & Hl). cbn [mbind res_bind].
    destruct (IH (S i) (h <| h_blocks := l |>)) as (h' & -> & ? & ?); [lia|done|]. by exists h'.
Qed.

Lemma ParaNdis_FreeRxBufferDescriptor_ok p first ds h ms rest :
  PhysicalPages p = first :: ds -> h_mdls h ≡ₚ Holder p ++ ms -> h_blocks h ≡ₚ first :: own first ds ++ rest ->
  exists h', ParaNdis_FreeRxBufferDescriptor p h = Ok h' /\ h_blocks h' ≡ₚ rest /\ h_mdls h' ≡ₚ ms.
Proof.
  intros Ep Hm Hb. unfold ParaNdis_FreeRxBufferDescriptor.
  destruct (unbind_ok _ _ _ Hm) as (h1 & -> & Hm1 & Hb1). cbn [mbind res_bind]. rewrite Ep. cbn [free_pages Nat.eqb negb andb].
  unfold ParaNdis_FreePhysicalMemory. rewrite <- Hb1 in Hb.
  destruct (take_out_ok first (h_blocks h1) _ Hb) as (l & -> & Hl). cbn [mbind res_bind].
  destruct (free_pages_ok first 1 ds (h1 <| h_blocks := l |>) rest) as (h' & -> & ? & E); [lia|done|].
  exists h'. split_and!; [done|done|]. by rewrite E.
Qed.

(** ** MDLs *)

Lemma bind_pages_ok pages h :
  exists ok chain h', bind_pages A pages h = (ok, chain, h') /\ h_mdls h' ≡ₚ chain ++ h_mdls h /\ h_blocks h' = h_blocks h /\
    (ok = true -> length chain = length pages) /\
    ((forall n, NdisAllocateMdl A n = true) -> ok = true).
Proof.
  revert h. induction pages as [|b pages IH]; intros h; [by exists true, [], h|]. cbn [bind_pages].
  destruct (NdisAllocateMdl A (h_requests h)) eqn:E; cycle 1.
  { eexists _, _, _. split_and!; try done. intros H. by rewrite H in E. }
  set (h1 := h <| h_requests := S (h_requests h) |>).
  destruct (IH (h1 <| h_mdls := h_requests h :: h_mdls h1 |>)) as (ok & chain & h' & -> & Hm & Hb & Hl & Ho).
  cbn in Hm, Hb. eexists _, _, _. split; [done|]. split_and!; try done.
  - rewrite Hm. cbn. by rewrite <- Permutation_middle.
  - intros H. cbn. by rewrite Hl.
Qed.

(** ** Creating and destroying *)

(** No block starts within or right behind another. *)
Definition apart : Prop := forall i j b c, i <> j -> granted i b -> granted j c -> IsRegionInside b c = false.

(** A usable buffer: the list given to the device is the virtio header (when it
    has its own place) followed by the data blocks, the data blocks have room for
    the payload, and all but the last are whole pages. *)
Record buffer_ok (l : tRxLayout) (p : RxNetDescriptor) (combined : bool) (payload hdr : Z) (first : rx_block) (ds : list rx_block) : Prop := {
  bo_pages : PhysicalPages p = first :: ds;
  bo_sg : BufferSGArray p = (if combined then [] else [mk_sg (Physical first) hdr]) ++ (sg_of <$> ds);
  bo_entries : zlen (PhysicalPages p) <= IndirectEntries l /\ zlen (BufferSGArray p) <= IndirectEntries l;
  bo_room : payload <= total ds;
  bo_whole : forall ds' b, ds = ds' ++ [b] -> Forall (fun b => (PAGE_SIZE | blk_size b)) ds';
  bo_data : ds <> [];
  bo_start : DataStartOffset p = if combined then hdr else 0;
  bo_chain : length (Holder p) = length ds;
  bo_indirect : IndirectArea p = mk_block (Physical first + ReserveForHeader l) (ReserveForIndirectArea l) }.

(** The state after a successful allocation of the blocks, before the MDLs. *)
Lemma create_blocks l combined payload hdr sep h :
  layout_ok l combined payload hdr -> 0 < payload -> 0 < hdr < 65536 ->
  let hp := if truth (ReserveForHeader l) then 0 else 1 in
  let large0 := (TotalAllocationsPerBuffer l >? 1) && negb sep && truth (ReserveForPacketTail l) in
  let p0 := mk_rxd hp (if hp =? 0 then 0 else u16 hdr) [] [] (mk_block 0 0) [] in
  exists ok large ds h', 
    alloc_pages A (S (Z.to_nat (TotalAllocationsPerBuffer l))) l (TotalAllocationsPerBuffer l) large0 p0 h =
      Ok (ok, large, p0 <| PhysicalPages := ds |>
                        <| BufferSGArray := if combined then sg_of <$> tail ds else sg_of <$> ds |>, h') /\
    h_mdls h' = h_mdls h /\ h_blocks h' ≡ₚ ds ++ h_blocks h /\
    (apart -> match ds with [] => True | b :: ds => own b ds = ds end) /\
    (ok = true -> exists b ds', ds = b :: ds' /\ zlen ds <= TotalAllocationsPerBuffer l /\ blk_size b = HeaderPageAllocation l /\
       if large : bool then exists c, ds' = [c] /\ payload <= blk_size c
       else total ds' = PAGE_SIZE * (TotalAllocationsPerBuffer l - 1) /\ Forall (fun b => (PAGE_SIZE | blk_size b)) ds').
Proof.
  intros [Lh Lt Ltot Lroom Le _ _ _] Hpay Hhdr hp large0 p0.
  assert (Hhp : hp = if combined then 1 else 0).
  { unfold hp, truth. destruct combined; [by rewrite Lh|]. by replace (ReserveForHeader l =? 0) with false by lia. }
  assert (Hb2z : 0 <= b2z (truth (ReserveForPacketTail l)) <= 1) by (destruct (truth _); cbn; lia).
  cbn [alloc_pages]. replace (TotalAllocationsPerBuffer l >? 0) with true by lia.
  change (zlen (PhysicalPages p0)) with 0. cbn [Z.eqb Z.gtb Z.compare andb negb orb].
  destruct (alloc_retry_ok (S (Z.to_nat 1)) 1 (HeaderPageAllocation l) large0 h) as (r & large1 & h1 & -> & Hm1 & Hr1 & Hlf1 & Hres); [lia|lia|].
  cbn [mbind res_bind]. destruct r as [[b k]|]; cycle 1.
  { exists false, large1, [], h1. split; [by destruct combined|]. rewrite Hres. split_and!; done. }
  destruct Hres as (Hk & Hb & (i & Hi & Hg) & [(-> & Hs & ->)|(? & _)]); [|lia].
  rewrite (push_ok _ (PhysicalPages p0)) by (unfold zlen; cbn; lia). cbn [mbind res_bind].
  set (p1 := p0 <| PhysicalPages := [b] |> <| BufferSGArray := if combined then [] else [sg_of b] |>).
  assert (E1 : (if (HeaderPage p0 =? 0) then push (IndirectEntries l) (BufferSGArray p0) (sg_of b) else Ok (BufferSGArray p0))
             = Ok (BufferSGArray p1)).
  { unfold p1, p0. cbn. rewrite Hhp. destruct combined; [done|]. cbn. by rewrite push_ok by (unfold zlen; cbn; lia). }
  unfold sg_of in E1 at 1. rewrite E1. cbn [mbind res_bind].
  destruct (alloc_rest_ok (Z.to_nat (TotalAllocationsPerBuffer l)) l (TotalAllocationsPerBuffer l - 1) large0 p1 h1)
    as (ok & large' & ds & h' & E & Hm' & Hb' & Hr' & Hg' & Hlen & Hlf & Hok).
  { lia. } { lia. } { done. } { unfold large0. lia. }
  { change (zlen (PhysicalPages p1)) with 1. lia. }
  { unfold p1. cbn. destruct combined; [change (@zlen VirtIOBufferDescriptor []) with 0|change (zlen [sg_of b]) with 1]; lia. }
  exists ok, large', (b :: ds), h'. split; [etrans; [exact E|]; unfold p1; by destruct combined|].
  split_and!.
  - congruence.
  - rewrite Hb', Hb. cbn. by rewrite <- Permutation_middle.
  - intros Hap. apply own_all. rewrite list.Forall_forall. intros c Hc. rewrite list.Forall_forall in Hg'.
    destruct (Hg' c Hc) as (j & Hj & Hgj). apply (Hap j i); done || lia.
  - intros ->. exists b, ds. rewrite zlen_cons. split_and!; try done; try lia. specialize (Hok eq_refl). destruct large'; [|done].
    destruct Hok as (c & -> & Hc). exists c. split; [done|]. lia.
Qed.

(** The list of data blocks after the tail has been placed. *)
Definition with_tail (l : tRxLayout) (large : bool) (first : rx_block) (ds : list rx_block) : list rx_block :=
  if truth (ReserveForPacketTail l) && negb large
  then ds ++ [mk_block (Physical first + (ReserveForHeader l + ReserveForIndirectArea l)) (ReserveForPacketTail l)] else ds.

(** The rest of the creation. *)
Lemma create_finish l combined payload hdr first ds ds' large p :
  layout_ok l combined payload hdr -> 0 < payload -> 0 < hdr < 65536 ->
  ds' = with_tail l large first ds ->
  zlen ds < TotalAllocationsPerBuffer l -> blk_size first = HeaderPageAllocation l -> 
  (if large : bool then exists c, ds = [c] /\ payload <= blk_size c
   else total ds = PAGE_SIZE * (TotalAllocationsPerBuffer l - 1) /\ Forall (fun b => (PAGE_SIZE | blk_size b)) ds) ->
  own first ds = ds ->
  PhysicalPages p = first :: ds' ->
  BufferSGArray p = (if combined then [] else [mk_sg (Physical first) hdr]) ++ (sg_of <$> ds') ->
  DataStartOffset p = (if combined then hdr else 0) ->
  IndirectArea p = mk_block (Physical first + ReserveForHeader l) (ReserveForIndirectArea l) ->
  length (Holder p) = length ds' ->
  buffer_ok l p combined payload hdr first ds' /\ own first ds' = ds.
Proof.
  unfold with_tail. intros [Lh Lt Ltot Lroom Le Li Lf _] Hpay Hhdr Eds Hlen Hfirst Hcase Hown Ep Esg Es Ei Hch.
  assert (Htail : truth (ReserveForPacketTail l) = true -> b2z (truth (ReserveForPacketTail l)) = 1) by (by intros ->).
  assert (Hb2z : 0 <= b2z (truth (ReserveForPacketTail l)) <= 1) by (destruct (truth _); cbn; lia).
  assert (Hroom : payload <= total ds').
  { destruct large.
    - destruct Hcase as (c & -> & Hc). rewrite andb_false_r in Eds. subst ds'. unfold total. cbn. lia.
    - destruct Hcase as [Ht _]. rewrite andb_true_r in Eds. subst ds'. unfold truth in *.
      destruct (Z.eqb_spec (ReserveForPacketTail l) 0); cbn [negb]; rewrite ?total_app; unfold total in *; cbn; lia. }
  assert (Hlen' : zlen ds' + 1 <= IndirectEntries l).
  { rewrite Eds. destruct (truth _ && negb large) eqn:E; [|lia]. apply andb_prop in E as [E _]. rewrite zlen_app.
    specialize (Htail E). change (zlen [_]) with 1. lia. }
  split; [constructor; try done|].
  - rewrite Ep, Esg, zlen_cons, zlen_app. unfold zlen in *. rewrite length_fmap. destruct combined; cbn; lia.
  - intros pre b E. destruct (truth _ && negb large) eqn:Et.
    + rewrite E in Eds. apply app_inj_tail in Eds as [-> _]. apply andb_prop in Et as [_ Et]. destruct large; [done|]. apply Hcase.
    + rewrite E in Eds. subst ds. destruct large.
      * destruct Hcase as (c & Hc & _). destruct pre as [|? [|]]; [constructor|done|done].
      * destruct Hcase as [_ Hall]. by apply Forall_app in Hall as [? _].
  - intros ->. unfold total in Hroom. cbn in Hroom. lia.
  - rewrite Eds. destruct (truth _ && negb large); [|done]. unfold own. rewrite list.filter_app. fold (own first ds). rewrite Hown.
    rewrite filter_cons, decide_False, list.filter_nil, app_nil_r; [done|]. unfold IsRegionInside. cbn.
    assert (0 <= ReserveForHeader l) by (destruct combined; lia). unfold sizeof_VirtIOBufferDescriptor in Li. lia.
Qed.

Lemma place_tail_ok l combined payload hdr large first ds p :
  layout_ok l combined payload hdr -> HeaderPage p = (if combined then 1 else 0) ->
  PhysicalPages p = first :: ds -> BufferSGArray p = (if combined then sg_of <$> ds else sg_of <$> first :: ds) ->
  zlen ds < TotalAllocationsPerBuffer l ->
  place_tail l hdr large p =
    Ok (p <| BufferSGArray := (if combined then [] else [mk_sg (Physical first) hdr]) ++ (sg_of <$> with_tail l large first ds) |>
          <| IndirectArea := mk_block (Physical first + ReserveForHeader l) (ReserveForIndirectArea l) |>
          <| PhysicalPages := first :: with_tail l large first ds |>).
Proof.
  intros L Eh Ep Esg Hlen. pose proof (lo_entries _ _ _ _ L) as Le. unfold place_tail, with_tail.
  set (sg0 := (if combined then [] else [mk_sg (Physical first) hdr]) ++ (sg_of <$> ds)).
  assert (E : (if HeaderPage p =? 0 then e ← zget (BufferSGArray p) 0; sg ← zset (BufferSGArray p) 0 (mk_sg (physAddr e) hdr);
            Ok (p <| BufferSGArray := sg |>) else Ok p) = Ok (p <| BufferSGArray := sg0 |>)).
  { rewrite Eh. unfold sg0. destruct combined; cbn [Z.eqb app].
    - rewrite <- Esg. by destruct p.
    - rewrite Esg, (zget_ok _ 0 (sg_of first)) by done. cbn [mbind res_bind]. rewrite zset_ok by (cbn; rewrite zlen_cons; pose proof (zlen_nonneg (sg_of <$> ds)); lia). done. }
  rewrite E. cbn [mbind res_bind]. clear E. cbn [PhysicalPages set_field]. rewrite Ep, (zget_ok _ 0 first) by done. cbn [mbind res_bind].
  assert (Hsg0 : zlen sg0 <= zlen ds + 1).
  { unfold sg0, zlen. rewrite length_app, length_fmap. destruct combined; cbn; lia. }
  destruct (truth (ReserveForPacketTail l)) eqn:Et; [|by destruct p; cbn in *; rewrite Ep]. cbn [b2z] in Le.
  destruct large; [by destruct p; cbn in *; rewrite Ep|]. cbn [negb andb].
  rewrite (push_ok _ (first :: ds)) by (rewrite zlen_cons; lia). cbn [mbind res_bind].
  rewrite (push_ok _ (BufferSGArray _)) by (cbn; lia). cbn [mbind res_bind]. unfold sg0. rewrite fmap_app, app_assoc.
  done.
Qed.

Lemma create_ok l combined payload hdr sep h :
  layout_ok l combined payload hdr -> 0 < payload -> 0 < hdr < 65536 ->
  (forall n, NdisAllocateMdl A n = true) -> apart ->
  exists r h', CreateRxDescriptorOnInit A l sep hdr h = Ok (r, h') /\
    match r with
    | None => h_blocks h' ≡ₚ h_blocks h /\ h_mdls h' ≡ₚ h_mdls h
    | Some p => exists first ds, buffer_ok l p combined payload hdr first ds /\
        h_blocks h' ≡ₚ first :: own first ds ++ h_blocks h /\ h_mdls h' ≡ₚ Holder p ++ h_mdls h /\
        exists h'', ParaNdis_FreeRxBufferDescriptor p h' = Ok h'' /\ h_blocks h'' ≡ₚ h_blocks h /\ h_mdls h'' ≡ₚ h_mdls h
    end.
Proof.
  intros L Hpay Hhdr Hmdl Hap. unfold CreateRxDescriptorOnInit. cbv zeta.
  destruct (create_blocks l combined payload hdr sep h L Hpay Hhdr) as (ok & large & bs & h1 & -> & Hm1 & Hb1 & Hown & Hok).
  specialize (Hown Hap). cbn [mbind res_bind]. destruct ok; cbn [negb]; cycle 1.
  { destruct bs as [|b bs].
    - eexists None, h1. split; [done|]. cbn in Hb1. by rewrite Hm1, Hb1.
    - edestruct (ParaNdis_FreeRxBufferDescriptor_ok) as (h2 & -> & ? & ?); [done|cbn; rewrite Hm1; reflexivity|rewrite Hb1, Hown; cbn [app]; reflexivity|].
      eexists None, h2. done. }
  destruct (Hok eq_refl) as (first & ds & -> & Hlen & Hfirst & Hcase). clear Hok. rewrite zlen_cons in Hlen.
  assert (Hhp : (if truth (ReserveForHeader l) then 0 else 1) = if combined then 1 else 0).
  { pose proof (lo_header _ _ _ _ L). unfold truth. destruct combined; [by replace (ReserveForHeader l) with 0|].
    by replace (ReserveForHeader l =? 0) with false by lia. }
  rewrite (place_tail_ok l combined payload hdr large first ds); [|done|done|done|by destruct combined|lia]. cbn [mbind res_bind].
  unfold ParaNdis_BindRxBufferToPacket. set (ds' := with_tail l large first ds).
  destruct (bind_pages_ok ds' h1) as (ok & chain & h2 & E & Hm2 & Hb2 & Hch & Hall). rewrite (Hall Hmdl) in *.
  cbn [PhysicalPages set_field Z.to_nat drop]. change (drop (Z.to_nat PARANDIS_FIRST_RX_DATA_PAGE) (first :: ds')) with ds'.
  rewrite E. cbn [mbind res_bind negb]. eexists _, _. split; [done|]. cbv beta iota.
  exists first, ds'. edestruct (create_finish l combined payload hdr first ds ds' large) as [HB Hown'];
    [done|done|done|done|lia|done|done|done|..|split; [exact HB|]]; try done.
  { cbn. rewrite Hhp. destruct combined; [cbn; by rewrite u16_small by lia|done]. }
  { cbn. by apply Hch. }
  assert (Hb' : h_blocks h2 ≡ₚ first :: own first ds' ++ h_blocks h) by (by rewrite Hb2, Hb1, Hown').
  split; [done|]. split; [by rewrite <- Hm1|].
  destruct (ParaNdis_FreeRxBufferDescriptor_ok _ first ds' h2 (h_mdls h1) (h_blocks h) (bo_pages _ _ _ _ _ _ _ HB) Hm2 Hb') as (h3 & -> & Hb3 & Hm3).
  exists h3. rewrite Hm3, Hm1. done.
Qed.

End alloc.

(** ** Theorem *)

