(* ===== verification/NetRxPath.v ===== *)
(** * The receive path of NetKVM

    [CParaNdisRX] (Common/ParaNdis_RX.cpp, ParaNdis-RX.h): the buffers of one
    receive queue, the ring processing that analyses, filters and distributes
    packets, and the reuse of buffers; [ParaNdis_PrepareReceivedPacket]
    (wlh/ParaNdis6_Impl.cpp); the indication of queued packets and the teardown
    (Common/ParaNdis_Common.cpp).

    Buffers are handles (the descriptor's address) into a table of descriptors;
    their memory is that of [rx_host].  The virtqueue is reached through the
    interface [RxVirtQueue]. *)

From Stdlib Require Import ZArith Lia.
From stdpp Require Import base list numbers gmap.
From S2P Require Import Prelude.
From S2P Require Import Virtio.
From S2P Require Import NetChecksum.
From S2P Require Import NetOffload.
From S2P Require Import NetRx.
From S2P Require Import NetRss.
From S2P Require Import NetRxBuffer.

(** ** State *)

(** What [CVirtQueue] offers (Common/ParaNdis-VirtQueue.h): [AddBuf] with the scatter
    list, the numbers of readable and writable entries, the handle and the indirect
    area; [GetBuf] with the length. *)
Class RxVirtQueue (Q : Type) := {
  AddBuf : Q -> list VirtIOBufferDescriptor -> Z -> Z -> Z -> option rx_block -> res (Z * Q);
  GetBuf : Q -> res (option (Z * Z) * Q);
  Kick : Q -> res Q;
  Shutdown : Q -> res Q;
  IsValid : Q -> bool;
  CanTouchHardware : Q -> bool;
  GetRingSize : Q -> res Z }.

(** A receive buffer: the path it belongs to, its memory blocks, the data pages
    and the virtio header as the device last wrote them, and the analysis. *)
Record rx_desc := mk_rx_desc {
  d_Queue : Z; d_buf : RxNetDescriptor;
  d_pages : list tCompletePhysicalAddress; d_header : mem;
  PacketInfo : NET_PACKET_INFO }.
#[export] Instance eta_desc : Eta rx_desc :=
  fun d => mk_rx_desc (d_Queue d) (d_buf d) (d_pages d) (d_header d) (PacketInfo d).

Record CParaNdisRX {Q : Type} := mk_rx {
  m_VirtQueue : Q;
  m_NetReceiveBuffers : list Z;
  m_NetNofReceiveBuffers : Z;
  m_NetMaxReceiveBuffers : Z;
  m_MinRxBufferLimit : Z;
  m_nReusedRxBuffersCounter : Z;
  m_nReusedRxBuffersLimit : Z;
  m_Reinsert : bool;
  m_UnclassifiedPacketsQueue : list Z;
  m_messageIndex : Z }.
Arguments CParaNdisRX : clear implicits.
#[export] Instance eta_rx {Q} : Eta (CParaNdisRX Q) := fun r =>
  mk_rx _ (m_VirtQueue r) (m_NetReceiveBuffers r) (m_NetNofReceiveBuffers r) (m_NetMaxReceiveBuffers r)
    (m_MinRxBufferLimit r) (m_nReusedRxBuffersCounter r) (m_nReusedRxBuffersLimit r) (m_Reinsert r)
    (m_UnclassifiedPacketsQueue r) (m_messageIndex r).

(** Counters of [Statistics] (64 bits) and [extraStatistics] (32 bits). *)
Inductive counter :=
  | ifInErrors | ifInDiscards | ifHCInOctets
  | ifHCInUcastPkts | ifHCInUcastOctets | ifHCInBroadcastPkts | ifHCInBroadcastOctets
  | ifHCInMulticastPkts | ifHCInMulticastOctets
  | framesFilteredOut | framesRSSUnclassified | framesRSSMisses | framesRSSHits | framesRSSError
  | framesRxPriority | framesCoalescedHost | framesCoalescedWindows | minFreeRxBuffers
  | totalRxIndicates | rxIndicatesWithResourcesFlag | CoalescedOctets | CoalesceEvents | CoalescedPkts.
#[export] Instance counter_eq_dec : EqDecision counter.
Proof. solve_decision. Defined.

Definition wide (c : counter) : bool :=
  match c with
  | framesFilteredOut | framesRSSUnclassified | framesRSSMisses | framesRSSHits | framesRSSError
  | framesRxPriority | framesCoalescedHost | framesCoalescedWindows | minFreeRxBuffers => false
  | _ => true
  end.
Definition set_stat (c : counter) (v : Z) (st : counter -> Z) : counter -> Z :=
  fun c' => if decide (c = c') then (if wide c then u64 v else u32 v) else st c'.
Definition add_stat (c : counter) (n : Z) (st : counter -> Z) : counter -> Z := set_stat c (st c + n) st.

(** Requests to run the receive path elsewhere. *)
Inductive rx_event :=
  | PollNotify (queue : Z)
  | QueueRSSDpc (message : Z) (group mask : Z).

(** Settings the receive path reads. *)
Record rx_config := mk_cfg {
  nMaxFullSizeOsRx : Z; nMaxDataSize : Z; nVirtioHeaderSize : Z; ulPriorityVlanSetting : Z; cfg_VlanId : Z;
  PacketFilter : Z; CurrentMacAddress : list Z; MulticastList : list Z; nofMulticastEntries : Z;
  bPollModeEnabled : bool; bHashReportedByDevice : bool; MinRxBufferPercent : Z; maxRxBufferPerQueue : Z;
  bFastInit : bool; bUseIndirect : bool; rx_layout : tRxLayout; bRxSeparateTail : bool; RxTarget : target; RxOffload : tOffloadSettingsFlags; TxRxPossible : bool }.

Record PARANDIS_ADAPTER {Q : Type} := mk_adapter {
  pPathBundles : list (CParaNdisRX Q);
  ReceiveQueues : list (list Z);
  descriptors : gmap Z rx_desc;
  RSSParameters : PARANDIS_RSS_PARAMS;
  Statistics : counter -> Z;
  rx_host : host;
  rx_events : list rx_event }.
Arguments PARANDIS_ADAPTER : clear implicits.
#[export] Instance eta_adapter {Q} : Eta (PARANDIS_ADAPTER Q) := fun a =>
  mk_adapter _ (pPathBundles a) (ReceiveQueues a) (descriptors a) (RSSParameters a) (Statistics a) (rx_host a) (rx_events a).

Definition PARANDIS_RSS_MAX_RECEIVE_QUEUES : Z := 32.

Section path.
Context {Q : Type} `{RxVirtQueue Q} (cfg : rx_config) (N : ndis_macros).
Implicit Types (a : PARANDIS_ADAPTER Q) (r : CParaNdisRX Q).

Definition get_desc a (d : Z) : res rx_desc :=
  match descriptors a !! d with Some x => Ok x | None => Fault NullPointer end.
Definition put_desc (d : Z) (x : rx_desc) a : PARANDIS_ADAPTER Q :=
  a <| descriptors := <[d := x]> (descriptors a) |>.
Definition put_path (k : Z) r a : res (PARANDIS_ADAPTER Q) :=
  l ← zset (pPathBundles a) k r; Ok (a <| pPathBundles := l |>).
Definition count (c : counter) (n : Z) a : PARANDIS_ADAPTER Q := a <| Statistics := add_stat c n (Statistics a) |>.

(** Free the memory of a buffer and its descriptor. *)
Definition free_desc (d : Z) (x : rx_desc) a : res (PARANDIS_ADAPTER Q) :=
  h ← ParaNdis_FreeRxBufferDescriptor (d_buf x) (rx_host a);
  Ok (a <| descriptors := delete d (descriptors a) |> <| rx_host := h |>).

(** ** Buffers of a queue *)

Definition RecalculateLimits r : CParaNdisRX Q :=
  r <| m_nReusedRxBuffersLimit := u32 (m_NetMaxReceiveBuffers r / 4 + 1) |>
    <| m_nReusedRxBuffersCounter := 0 |>
    <| m_MinRxBufferLimit := u32 (m_NetMaxReceiveBuffers r * MinRxBufferPercent cfg) / 100 |>.

Definition AddRxBufferToQueue r (d : Z) (x : rx_desc) : res (bool * CParaNdisRX Q) :=
  '(rc, q) ← AddBuf (m_VirtQueue r) (BufferSGArray (d_buf x)) 0 (zlen (BufferSGArray (d_buf x))) d
               (if bUseIndirect cfg then Some (IndirectArea (d_buf x)) else None);
  Ok (0 <=? rc, r <| m_VirtQueue := q |>).

Definition KickRXRing r : res (CParaNdisRX Q) :=
  q ← Kick (m_VirtQueue r); Ok (r <| m_VirtQueue := q |>).

Definition IsRxBuffersShortage r : bool := m_NetNofReceiveBuffers r <? m_MinRxBufferLimit r.

Definition list_add r (d : Z) : CParaNdisRX Q :=
  r <| m_NetReceiveBuffers := m_NetReceiveBuffers r ++ [d] |>
    <| m_NetNofReceiveBuffers := u32 (m_NetNofReceiveBuffers r + 1) |>.

(** On the path that the descriptor belongs to. *)
Definition ReuseReceiveBufferNoLock a (d : Z) : res (PARANDIS_ADAPTER Q) :=
  x ← get_desc a d;
  r ← zget (pPathBundles a) (d_Queue x);
  if negb (m_Reinsert r) then put_path (d_Queue x) (list_add r d) a
  else
    '(ok, r) ← AddRxBufferToQueue r d x;
    if (ok : bool) then
      let r := list_add r d in
      let n := u32 (m_nReusedRxBuffersCounter r + 1) in
      r ← (if n >=? m_nReusedRxBuffersLimit r
           then KickRXRing (r <| m_nReusedRxBuffersCounter := 0 |>)
           else Ok (r <| m_nReusedRxBuffersCounter := n |>));
      put_path (d_Queue x) r a
    else
      a ← free_desc d x a;
      put_path (d_Queue x) (r <| m_NetMaxReceiveBuffers := u32 (m_NetMaxReceiveBuffers r - 1) |>) a.

(** ** The filter *)

Definition NDIS_PACKET_TYPE_DIRECTED : Z := 0x1.
Definition NDIS_PACKET_TYPE_MULTICAST : Z := 0x2.
Definition NDIS_PACKET_TYPE_ALL_MULTICAST : Z := 0x4.
Definition NDIS_PACKET_TYPE_BROADCAST : Z := 0x8.
Definition NDIS_PACKET_TYPE_PROMISCUOUS : Z := 0x20.

Definition IsVlanSupported : bool := truth (Z.land (ulPriorityVlanSetting cfg) 2).
Definition IsPrioritySupported : bool := truth (Z.land (ulPriorityVlanSetting cfg) 1).

(** Entry [i], [i + 1], ... of the multicast list. *)
Fixpoint in_multicast_list (n : nat) (i : Z) (addr : list Z) : res bool :=
  match n with
  | O => Ok false
  | S n =>
      e ← rd_range (MulticastList cfg) (i * ETH_ALEN) ETH_ALEN;
      if ETH_COMPARE_NETWORK_ADDRESSES_EQ_SAFE N addr e =? 0 then Ok true else in_multicast_list n (i + 1) addr
  end.

Definition ShallPassPacket (m : mem) (i : NET_PACKET_INFO) : res bool :=
  let on f := truth (Z.land (PacketFilter cfg) f) in
  if dataLength i >? u32 (nMaxFullSizeOsRx cfg + ETH_PRIORITY_HEADER_SIZE) then Ok false
  else if (dataLength i >? nMaxFullSizeOsRx cfg) && negb (hasVlanHeader i) then Ok false
  else if IsVlanSupported && hasVlanHeader i && truth (cfg_VlanId cfg) && negb (cfg_VlanId cfg =? VlanId i) then Ok false
  else if on NDIS_PACKET_TYPE_PROMISCUOUS then Ok true
  else if isUnicast i then
    if negb (on NDIS_PACKET_TYPE_DIRECTED) then Ok false
    else
      addr ← rd_range m (ethDestAddr i) ETH_ALEN;
      Ok (ETH_COMPARE_NETWORK_ADDRESSES_EQ_SAFE N addr (CurrentMacAddress cfg) =? 0)
  else if isBroadcast i then Ok (on NDIS_PACKET_TYPE_BROADCAST)
  else if on NDIS_PACKET_TYPE_ALL_MULTICAST then Ok true
  else if negb (on NDIS_PACKET_TYPE_MULTICAST) then Ok false
  else
    addr ← rd_range m (ethDestAddr i) ETH_ALEN;
    in_multicast_list (Z.to_nat (nofMulticastEntries cfg)) 0 addr.

(** ** The ring *)

(** The device: what it does to the queue before the [n]-th [GetBuf], and what the
    data pages and the virtio header of the [n]-th buffer hold then. *)
Record rx_device := mk_device {
  dev_run : nat -> Q -> Q;
  dev_pages : nat -> Z -> list tCompletePhysicalAddress;
  dev_header : nat -> Z -> mem }.

(** [RemoveEntryList(&pBufferDescriptor->listEntry)]: an entry that is in no list
    corrupts memory. *)
Definition list_remove r (d : Z) : res (CParaNdisRX Q) :=
  match take_out d (m_NetReceiveBuffers r) with
  | Some l => Ok (r <| m_NetReceiveBuffers := l |>
                    <| m_NetNofReceiveBuffers := u32 (m_NetNofReceiveBuffers r - 1) |>)
  | None => Fault BugCheck
  end.

(** [ParaNdis_ReceiveQueueAddBuffer] *)
Definition add_unclassified (k d : Z) a : res (PARANDIS_ADAPTER Q) :=
  r ← zget (pPathBundles a) k;
  put_path k (r <| m_UnclassifiedPacketsQueue := m_UnclassifiedPacketsQueue r ++ [d] |>) a.
Definition add_queue (q d : Z) a : res (PARANDIS_ADAPTER Q) :=
  l ← zget (ReceiveQueues a) q;
  l ← zset (ReceiveQueues a) q (l ++ [d]); Ok (a <| ReceiveQueues := l |>).

(** [ParaNdis_ProcessorNumberToGroupAffinity] *)
Definition ParaNdis_ProcessorNumberToGroupAffinity (p : PROCESSOR_NUMBER) : Z * Z :=
  (Group p, u64 (Z.shiftl 1 (Number p))).

(** The notification of the queue that a packet was redirected to; the processor
    is whatever the variable held when nothing was written to it. *)
Definition redirect (k q : Z) (proc : option PROCESSOR_NUMBER) a : res (PARANDIS_ADAPTER Q) :=
  if bPollModeEnabled cfg then Ok (a <| rx_events := rx_events a ++ [PollNotify q] |>)
  else
    r ← zget (pPathBundles a) k;
    let '(g, m) := ParaNdis_ProcessorNumberToGroupAffinity (default proc_zero proc) in
    Ok (a <| rx_events := rx_events a ++ [QueueRSSDpc (m_messageIndex r) g m] |>).

(** One packet of [ProcessRxRing] on path [k], after [GetBuf] returned it. *)
Definition process_packet (fuel : nat) (k nCurrCpuReceiveQueue d nFullLength : Z)
    (pages : list tCompletePhysicalAddress) (header : mem) a : res (PARANDIS_ADAPTER Q) :=
  x ← get_desc a d;
  let x := x <| d_pages := pages |> <| d_header := header |> in
  let data := DataStartOffset (d_buf x) in
  r ← zget (pPathBundles a) k;
  r ← list_remove r d;
  a ← put_path k r (put_desc d x a);
  m ← page0 pages;
  '(packetAnalysisRC, i) ← ParaNdis_AnalyzeReceivedPacket N fuel m data (u32 (nFullLength - nVirtioHeaderSize cfg));
  let a := put_desc d (x <| PacketInfo := i |>) a in
  if negb (packetAnalysisRC : bool) then
    a ← ReuseReceiveBufferNoLock a d; Ok (count ifInDiscards 1 (count ifInErrors 1 a))
  else
    pass ← ShallPassPacket m i;
    if negb (pass : bool) then
      a ← ReuseReceiveBufferNoLock a d; Ok (count framesFilteredOut 1 (count ifInDiscards 1 a))
    else
      i ← (if negb (bool_decide (RSSMode (RSSParameters a) = PARANDIS_RSS_DISABLED))
           then ParaNdis6_RSSAnalyzeReceivedPacket (RSSParameters a) m data i else Ok i);
      let a := put_desc d (x <| PacketInfo := i |>) a in
      '(nTargetReceiveQueueNum, proc) ← ParaNdis6_RSSGetScalingDataForPacket (RSSParameters a) i;
      if nTargetReceiveQueueNum =? PARANDIS_RECEIVE_UNCLASSIFIED_PACKET then
        a ← add_unclassified k d a; Ok (count framesRSSUnclassified 1 a)
      else
        a ← add_queue nTargetReceiveQueueNum d a;
        if negb (nTargetReceiveQueueNum =? nCurrCpuReceiveQueue) then
          a ← redirect k nTargetReceiveQueueNum proc a; Ok (count framesRSSMisses 1 a)
        else Ok (count framesRSSHits 1 a).

(** [while (NULL != (pBufferDescriptor = m_VirtQueue.GetBuf(&nFullLength)))]; the
    loop runs as long as the device returns buffers. *)
Fixpoint rx_loop (fuel n : nat) (D : rx_device) (k nCurrCpuReceiveQueue : Z) (pfuel : nat) a : res (PARANDIS_ADAPTER Q) :=
  match fuel with
  | O => Fault OutOfFuel
  | S fuel =>
      r ← zget (pPathBundles a) k;
      '(b, q) ← GetBuf (dev_run D n (m_VirtQueue r));
      a ← put_path k (r <| m_VirtQueue := q |>) a;
      match b with
      | None => Ok a
      | Some (d, nFullLength) =>
          a ← process_packet pfuel k nCurrCpuReceiveQueue d nFullLength (dev_pages D n d) (dev_header D n d) a;
          rx_loop fuel (S n) D k nCurrCpuReceiveQueue pfuel a
      end
  end.

Definition ProcessRxRing (fuel : nat) (D : rx_device) (k nCurrCpuReceiveQueue : Z) (pfuel : nat) a : res (PARANDIS_ADAPTER Q) :=
  r ← zget (pPathBundles a) k;
  let a := if Statistics a minFreeRxBuffers >? m_NetNofReceiveBuffers r
           then a <| Statistics := set_stat minFreeRxBuffers (m_NetNofReceiveBuffers r) (Statistics a) |> else a in
  rx_loop fuel 0 D k nCurrCpuReceiveQueue pfuel a.

(** [while (!IsListEmpty(&pCurrQueue->BuffersList))] *)
Fixpoint unclassify (l : list Z) a : res (PARANDIS_ADAPTER Q) :=
  match l with
  | [] => Ok a
  | d :: l => x ← get_desc a d; a ← add_unclassified (d_Queue x) d a; unclassify l a
  end.

Fixpoint reset_queues (n : nat) (i : Z) a : res (PARANDIS_ADAPTER Q) :=
  match n with
  | O => Ok a
  | S n =>
      l ← zget (ReceiveQueues a) i;
      qs ← zset (ReceiveQueues a) i [];
      a ← unclassify l (a <| ReceiveQueues := qs |>);
      reset_queues n (i + 1) a
  end.

Definition ParaNdis_ResetRxClassification a : res (PARANDIS_ADAPTER Q) :=
  reset_queues (Z.to_nat (PARANDIS_RSS_MAX_RECEIVE_QUEUES - PARANDIS_FIRST_RSS_RECEIVE_QUEUE)) PARANDIS_FIRST_RSS_RECEIVE_QUEUE a.

(** ** Indication *)

Definition VIRTIO_NET_HDR_F_RSC_INFO : Z := 4.
Definition VIRTIO_NET_HDR_GSO_NONE : Z := 0.
Definition VIRTIO_NET_HASH_REPORT_MAX : Z := 9.

(** A net buffer list: the descriptor, where the data starts and its length, the
    hash, the 802.1Q information, the checksum verdict, whether the checksum
    values are marked invalid, and the segments of a coalesced packet. *)
Record NET_BUFFER_LIST := mk_nbl {
  nbl_desc : Z; nbl_offset : Z; nbl_length : Z; nbl_hash : option rss_hash; nbl_8021q : Z * Z;
  nbl_csum : tChecksumCheckResult; nbl_invalid : bool; nbl_segments : option Z }.

Definition HashReportToHashType (report : Z) : Z :=
  if report >? VIRTIO_NET_HASH_REPORT_MAX then 0
  else default 0 ([0; NDIS_HASH_IPV4; NDIS_HASH_TCP_IPV4; NDIS_HASH_UDP_IPV4; NDIS_HASH_IPV6; NDIS_HASH_TCP_IPV6;
                   NDIS_HASH_UDP_IPV6; NDIS_HASH_IPV6_EX; NDIS_HASH_TCP_IPV6_EX; NDIS_HASH_UDP_IPV6_EX]⟦report⟧).

Definition NBLSetRSSInfo (i : NET_PACKET_INFO) (header : mem) a : res (option rss_hash * PARANDIS_ADAPTER Q) :=
  if bool_decide (RSSMode (RSSParameters a) = PARANDIS_RSS_DISABLED) then Ok (None, a)
  else if truth (Type_ (RSSHash i)) && bHashReportedByDevice cfg then
    value ← rd32 header 12;
    report ← rd16 header 16;
    Ok (Some (RSSHash i),
        if negb (HashReportToHashType report =? Type_ (RSSHash i)) || negb (value =? Value (RSSHash i))
        then count framesRSSError 1 a else a)
  else Ok (Some (RSSHash i), a).

Definition NBLSet8021QInfo (i : NET_PACKET_INFO) a : (Z * Z) * PARANDIS_ADAPTER Q :=
  let q := (if IsPrioritySupported then UserPriority i else 0, if IsVlanSupported then VlanId i else 0) in
  (q, if truth q.1 || truth q.2 then count framesRxPriority 1 a else a).

Definition PktGetTCPCoalescedSegmentsCount (m : mem) (i : NET_PACKET_INFO) (mss : Z) : res Z :=
  let TcpHeaderOffset := L2HdrLen i + L3HdrLen i in
  flags ← rd16 m (headersBuffer i + TcpHeaderOffset + tcp_flags);
  let IpAndTcpHeaderSize := L3HdrLen i + TCP_HEADER_LENGTH flags in
  let payloadLen := u32 (L2PayloadLen i - IpAndTcpHeaderSize) in
  let maxMss := u32 (nMaxDataSize cfg - IpAndTcpHeaderSize) in
  let mss := if (mss >? maxMss) || (mss =? 0) then maxMss else mss in
  n ← cdiv payloadLen mss;
  Ok (n + b2z (truth (payloadLen mod mss))).

(** The verdict of a coalesced packet, with the number of its segments. *)
Definition coalesced (m header : mem) (i : NET_PACKET_INFO) (flags : Z) a : res (Z * PARANDIS_ADAPTER Q) :=
  '(n, a) ←
    (if truth (Z.land flags VIRTIO_NET_HDR_F_RSC_INFO)
     then n ← rd16 header 6; _ ← rd16 header 8; Ok (n, count framesCoalescedWindows 1 a)
     else mss ← rd16 header 4; n ← PktGetTCPCoalescedSegmentsCount m i mss; Ok (n, count framesCoalescedHost 1 a));
  Ok (n, count CoalescedPkts n (count CoalesceEvents 1 (count CoalescedOctets (L2PayloadLen i) a))).

Definition upd_page0 (pages : list tCompletePhysicalAddress) (m : mem) : list tCompletePhysicalAddress :=
  match pages with p :: ps => p <| Virtual := m |> :: ps | [] => [] end.

(** The net buffer list ([None] for NULL) and the number of segments.  [granted]
    is the answer of [NdisAllocateNetBufferAndNetBufferList]. *)
Definition ParaNdis_PrepareReceivedPacket (fuel : nat) (granted : bool) (d : Z) a :
    res (option NET_BUFFER_LIST * Z * PARANDIS_ADAPTER Q) :=
  x ← get_desc a d;
  if bool_decide (Holder (d_buf x) = []) then Ok (None, 1, a)
  else
    m ← page0 (d_pages x);
    '(nBytesStripped, m, i) ←
      (if truth (ulPriorityVlanSetting cfg) && hasVlanHeader (PacketInfo x)
       then ParaNdis_StripVlanHeaderMoveHead m (PacketInfo x) else Ok (0, m, PacketInfo x));
    '(m, i) ← ParaNdis_PadPacketToMinimalLength m i;
    let pages := upd_page0 (d_pages x) m in
    let a := put_desc d (x <| d_pages := pages |> <| PacketInfo := i |>) a in
    if negb granted then Ok (None, 1, a)
    else
      let header := d_header x in
      flags ← rd8 header 0;
      gso_type ← rd8 header 1;
      '(hash, a) ← NBLSetRSSInfo i header a;
      let '(q, a) := NBLSet8021QInfo i a in
      if negb (gso_type =? VIRTIO_NET_HDR_GSO_NONE) then
        '(n, a) ← coalesced m header i flags a;
        Ok (Some (mk_nbl d nBytesStripped (dataLength i) hash q (cs_zero <| IpOK := true |> <| TcpOK := true |>) true (Some (u16 n))),
            n, a)
      else
        '(pages, cs) ← ParaNdis_CheckRxChecksum fuel (RxTarget cfg) (RxOffload cfg) flags pages (isIP4 i) (isIP6 i)
                         (dataLength i) (nBytesStripped + DataStartOffset (d_buf x)) true;
        let a := put_desc d (x <| d_pages := pages |> <| PacketInfo := i |>) a in
        Ok (Some (mk_nbl d nBytesStripped (dataLength i) hash q cs false None), 1, a).

Definition UpdateReceiveSuccessStatistics (i : NET_PACKET_INFO) (n : Z) a : res (PARANDIS_ADAPTER Q) :=
  let a := count ifHCInOctets (dataLength i) a in
  if isUnicast i then Ok (count ifHCInUcastOctets (dataLength i) (count ifHCInUcastPkts n a))
  else if isBroadcast i then Ok (count ifHCInBroadcastOctets (dataLength i) (count ifHCInBroadcastPkts n a))
  else if isMulticast i then Ok (count ifHCInMulticastOctets (dataLength i) (count ifHCInMulticastPkts n a))
  else Fault AssertFailed.

Definition UpdateReceiveFailStatistics (n : Z) a : PARANDIS_ADAPTER Q := count ifInDiscards n (count ifInErrors 1 a).

(** The queue that [ProcessReceiveQueue] drains: the unclassified packets of a path
    or a receive queue. *)
Inductive rx_queue := Unclassified (path : Z) | Classified (queue : Z).

(** [ReceiveQueueGetBuffer] *)
Definition ReceiveQueueGetBuffer (s : rx_queue) a : res (option Z * PARANDIS_ADAPTER Q) :=
  match s with
  | Unclassified k =>
      r ← zget (pPathBundles a) k;
      match m_UnclassifiedPacketsQueue r with
      | [] => Ok (None, a)
      | d :: l => a ← put_path k (r <| m_UnclassifiedPacketsQueue := l |>) a; Ok (Some d, a)
      end
  | Classified q =>
      l ← zget (ReceiveQueues a) q;
      match l with
      | [] => Ok (None, a)
      | d :: l => qs ← zset (ReceiveQueues a) q l; Ok (Some d, a <| ReceiveQueues := qs |>)
      end
  end.

Definition ReceiveQueueHasBuffers (s : rx_queue) a : res bool :=
  match s with
  | Unclassified k => r ← zget (pPathBundles a) k; Ok (negb (bool_decide (m_UnclassifiedPacketsQueue r = [])))
  | Classified q => l ← zget (ReceiveQueues a) q; Ok (negb (bool_decide (l = [])))
  end.

(** What [ProcessReceiveQueue] accumulates: the packets left to indicate, the
    chain, and whether buffers run short; [ir_n] counts the allocations. *)
Record indication := mk_ind { ir_left : Z; ir_chain : list NET_BUFFER_LIST; ir_short : bool; ir_n : nat }.

Fixpoint ProcessReceiveQueue (fuel pfuel : nat) (granted : nat -> bool) (s : rx_queue) (ir : indication) a :
    res (indication * PARANDIS_ADAPTER Q) :=
  match fuel with
  | O => Fault OutOfFuel
  | S fuel =>
      if negb (ir_left ir >? 0) then Ok (ir, a)
      else
        '(b, a) ← ReceiveQueueGetBuffer s a;
        match b with
        | None => Ok (ir, a)
        | Some d =>
            if TxRxPossible cfg then
              '(nbl, n, a) ← ParaNdis_PrepareReceivedPacket pfuel (granted (ir_n ir)) d a;
              match nbl with
              | Some nbl =>
                  x ← get_desc a d;
                  a ← UpdateReceiveSuccessStatistics (PacketInfo x) n a;
                  r ← zget (pPathBundles a) (d_Queue x);
                  ProcessReceiveQueue fuel pfuel granted s
                    (mk_ind (ir_left ir - 1) (ir_chain ir ++ [nbl]) (ir_short ir || IsRxBuffersShortage r) (S (ir_n ir))) a
              | None =>
                  a ← ReuseReceiveBufferNoLock (UpdateReceiveFailStatistics n a) d;
                  ProcessReceiveQueue fuel pfuel granted s (mk_ind (ir_left ir) (ir_chain ir) (ir_short ir) (S (ir_n ir))) a
              end
            else
              a ← ReuseReceiveBufferNoLock (count framesFilteredOut 1 a) d;
              ProcessReceiveQueue fuel pfuel granted s ir a
        end
  end.

(** [ParaNdis_ReuseRxNBLs] *)
Fixpoint ParaNdis_ReuseRxNBLs (chain : list NET_BUFFER_LIST) a : res (PARANDIS_ADAPTER Q) :=
  match chain with
  | [] => Ok a
  | nbl :: chain => a ← ReuseReceiveBufferNoLock a (nbl_desc nbl); ParaNdis_ReuseRxNBLs chain a
  end.

(** What the environment answers during a DPC: ownership of the path, the
    allocations, [RegisterOutstandingItems], [RestartQueue]. *)
Record dpc_env := mk_dpc {
  e_owner : bool; e_granted : nat -> bool; e_registered : bool; e_restart : bool; e_device : rx_device }.

(** The result: TRUE to run again, and the chain that NDIS keeps. *)
Definition RxDPCWorkBody (fuel pfuel : nat) (E : dpc_env) (pathBundle : option Z) (nPacketsToIndicate CurrProcIdx : Z) a :
    res (bool * list NET_BUFFER_LIST * PARANDIS_ADAPTER Q) :=
  CurrCpuReceiveQueue ← ParaNdis6_RSSGetCurrentCpuReceiveQueue (RSSParameters a) CurrProcIdx;
  let ir := mk_ind nPacketsToIndicate [] false 0 in
  '(ir, a) ←
    match pathBundle with
    | Some k =>
        a ← ProcessRxRing fuel (e_device E) k CurrCpuReceiveQueue pfuel a;
        if e_owner E then ProcessReceiveQueue fuel pfuel (e_granted E) (Unclassified k) ir a else Ok (ir, a)
    | None => Ok (ir, a)
    end;
  '(res, ir, a) ←
    (if negb (CurrCpuReceiveQueue =? PARANDIS_RECEIVE_NO_QUEUE) then
       '(ir, a) ← ProcessReceiveQueue fuel pfuel (e_granted E) (Classified CurrCpuReceiveQueue)
                    (mk_ind (ir_left ir) (ir_chain ir) false (ir_n ir)) a;
       b ← ReceiveQueueHasBuffers (Classified CurrCpuReceiveQueue) a; Ok (b, ir, a)
     else Ok (false, ir, a));
  let nIndicate := zlen (ir_chain ir) in
  '(kept, a) ←
    (if truth nIndicate then
       if e_registered E then
         if negb (ir_short ir) then Ok (ir_chain ir, count totalRxIndicates nIndicate a)
         else
           a ← ParaNdis_ReuseRxNBLs (ir_chain ir) (count rxIndicatesWithResourcesFlag nIndicate a);
           Ok ([], count totalRxIndicates nIndicate a)
       else a ← ParaNdis_ReuseRxNBLs (ir_chain ir) a; Ok ([], a)
     else Ok ([], a));
  match pathBundle with
  | Some k =>
      if negb res then b ← ReceiveQueueHasBuffers (Unclassified k) a; Ok (e_restart E || b, kept, a) else Ok (res, kept, a)
  | None => Ok (res, kept, a)
  end.

(** ** Set-up and teardown *)

(** The memory of the system, and where it places a new descriptor when those of
    the argument are in use. *)
Context (A : rx_alloc) (place : gset Z -> Z).

(** [CreateRxDescriptorOnInit] for path [k]. *)
Definition create_desc (k : Z) a : res (option (Z * rx_desc) * PARANDIS_ADAPTER Q) :=
  '(p, h) ← CreateRxDescriptorOnInit A (rx_layout cfg) (bRxSeparateTail cfg) (nVirtioHeaderSize cfg) (rx_host a);
  let a := a <| rx_host := h |> in
  match p with
  | None => Ok (None, a)
  | Some p =>
      let d := place (dom (descriptors a)) in
      let x := mk_rx_desc k p [] [] zero_info in
      Ok (Some (d, x), put_desc d x a)
  end.

(** [for (i = 0; i < m_NetMaxReceiveBuffers; ++i)], with the iterations left. *)
Fixpoint prepare_buffers (n : nat) (k : Z) a : res (PARANDIS_ADAPTER Q) :=
  match n with
  | O => Ok a
  | S n =>
      '(b, a) ← create_desc k a;
      match b with
      | None => Ok a
      | Some (d, x) =>
          r ← zget (pPathBundles a) k;
          '(ok, r) ← AddRxBufferToQueue r d x;
          if negb (ok : bool) then a ← put_path k r a; free_desc d x a
          else a ← put_path k (list_add r d) a; prepare_buffers n k a
      end
  end.

Definition PrepareReceiveBuffers (k : Z) a : res (PARANDIS_ADAPTER Q) :=
  r ← zget (pPathBundles a) k;
  a ← prepare_buffers (Z.to_nat (m_NetMaxReceiveBuffers r)) k a;
  r ← zget (pPathBundles a) k;
  let n := m_NetNofReceiveBuffers r in
  let r := RecalculateLimits (r <| m_NetMaxReceiveBuffers := n |>) in
  let a := if (Statistics a minFreeRxBuffers =? 0) || (Statistics a minFreeRxBuffers >? n)
           then a <| Statistics := set_stat minFreeRxBuffers n (Statistics a) |> else a in
  put_path k (r <| m_Reinsert := true |>) a.

Definition INITIAL_RX_BUFFERS : Z := 16.

(** The number of buffers that [Create] asks for. *)
Definition initial_buffers : Z :=
  let n := if bFastInit cfg then INITIAL_RX_BUFFERS else 0 in
  if (n =? 0) || (n >? maxRxBufferPerQueue cfg) then maxRxBufferPerQueue cfg else n.

(** [Create]: [q] is the virtqueue that was created, [None] when it was not. *)
Definition rx_Create (k : Z) (q : option Q) a : res (bool * PARANDIS_ADAPTER Q) :=
  r ← zget (pPathBundles a) k;
  let r := r <| m_NetMaxReceiveBuffers := initial_buffers |> in
  match q with
  | None => a ← put_path k r a; Ok (false, a)
  | Some q => a ← put_path k (r <| m_VirtQueue := q |>) a; a ← PrepareReceiveBuffers k a; Ok (true, a)
  end.

(** TRUE to call again. *)
Definition AllocateMore (k : Z) a : res (bool * PARANDIS_ADAPTER Q) :=
  r ← zget (pPathBundles a) k;
  if negb (IsValid (m_VirtQueue r)) || negb (m_Reinsert r) then Ok (true, a)
  else
    size ← GetRingSize (m_VirtQueue r);
    if (m_NetMaxReceiveBuffers r >=? maxRxBufferPerQueue cfg) || (m_NetMaxReceiveBuffers r >=? size) then Ok (false, a)
    else
      '(b, a) ← create_desc k a;
      match b with
      | None => Ok (false, a)
      | Some (d, x) =>
          '(ok, r) ← (if CanTouchHardware (m_VirtQueue r) then AddRxBufferToQueue r d x else Ok (false, r));
          if (ok : bool) then
            let r := list_add r d in
            let r := RecalculateLimits (r <| m_NetMaxReceiveBuffers := u32 (m_NetMaxReceiveBuffers r + 1) |>) in
            r ← KickRXRing r;
            a ← put_path k r a; Ok (true, a)
          else a ← put_path k r a; a ← free_desc d x a; Ok (false, a)
      end.

(** [PopulateQueue]: the loop over the buffers that were in the list. *)
Fixpoint populate (l : list Z) (k : Z) a : res (PARANDIS_ADAPTER Q) :=
  match l with
  | [] => Ok a
  | d :: l =>
      x ← get_desc a d;
      r ← zget (pPathBundles a) k;
      '(ok, r) ← AddRxBufferToQueue r d x;
      a ← (if (ok : bool) then put_path k (list_add r d) a
           else
             a ← free_desc d x a;
             put_path k (r <| m_NetMaxReceiveBuffers := u32 (m_NetMaxReceiveBuffers r - 1) |>) a);
      populate l k a
  end.

Definition PopulateQueue (k : Z) a : res (PARANDIS_ADAPTER Q) :=
  r ← zget (pPathBundles a) k;
  let l := m_NetReceiveBuffers r in
  a ← put_path k (r <| m_NetReceiveBuffers := [] |> <| m_NetNofReceiveBuffers := 0 |>) a;
  a ← populate l k a;
  r ← zget (pPathBundles a) k;
  put_path k (r <| m_Reinsert := true |>) a.

Definition rx_Shutdown (k : Z) a : res (PARANDIS_ADAPTER Q) :=
  r ← zget (pPathBundles a) k;
  q ← Shutdown (m_VirtQueue r);
  put_path k (r <| m_VirtQueue := q |> <| m_Reinsert := false |>) a.

(** [FreeRxDescriptorsFromList] *)
Fixpoint free_all (l : list Z) a : res (PARANDIS_ADAPTER Q) :=
  match l with
  | [] => Ok a
  | d :: l => x ← get_desc a d; a ← free_desc d x a; free_all l a
  end.
Definition FreeRxDescriptorsFromList (k : Z) a : res (PARANDIS_ADAPTER Q) :=
  r ← zget (pPathBundles a) k;
  a ← free_all (m_NetReceiveBuffers r) a;
  r ← zget (pPathBundles a) k;
  put_path k (r <| m_NetReceiveBuffers := [] |>) a.

(** [while (NULL != (pBufferDescriptor = ReceiveQueueGetBuffer(...)))] *)
Fixpoint drain (fuel : nat) (s : rx_queue) a : res (PARANDIS_ADAPTER Q) :=
  match fuel with
  | O => Fault OutOfFuel
  | S fuel =>
      '(b, a) ← ReceiveQueueGetBuffer s a;
      match b with
      | None => Ok a
      | Some d => a ← ReuseReceiveBufferNoLock a d; drain fuel s a
      end
  end.

Fixpoint foreach (n : nat) (i : Z) (f : Z -> PARANDIS_ADAPTER Q -> res (PARANDIS_ADAPTER Q)) a : res (PARANDIS_ADAPTER Q) :=
  match n with
  | O => Ok a
  | S n => a ← f i a; foreach n (i + 1) f a
  end.

(** The receive part of [VirtIONetRelease]. *)
Definition VirtIONetRelease (fuel : nat) a : res (PARANDIS_ADAPTER Q) :=
  a ← foreach (Z.to_nat PARANDIS_RSS_MAX_RECEIVE_QUEUES) 0 (fun i => drain fuel (Classified i)) a;
  a ← foreach (length (pPathBundles a)) 0 (fun i => drain fuel (Unclassified i)) a;
  foreach (length (pPathBundles a)) 0 (fun i a => a ← rx_Shutdown i a; FreeRxDescriptorsFromList i a) a.

End path.
