(* ===== verification/NetRxInv.v ===== *)
(** * The invariant of the receive path

    Every receive buffer is in exactly one place: on the list of a path (in its
    virtqueue while the path runs), in a receive queue, among the unclassified
    packets of a path, or in the hands of NDIS or of the running code; every block
    of memory and every MDL belongs to one buffer; and every packet that waits in a
    queue has been analysed. *)

From Stdlib Require Import ZArith Lia ZifyBool.
From stdpp Require Import base list numbers gmap sets fin_maps fin_map_dom.
From S2P Require Import Prelude.
From S2P Require Import Virtio.
From S2P Require Import NetChecksum.
From S2P Require Import NetChecksumSpec.
From S2P Require Import NetOffload.
From S2P Require Import NetRx.
From S2P Require Import NetRxSpec.
From S2P Require Import NetRss.
From S2P Require Import NetRxBuffer.
From S2P Require Import NetRxBufferSpec.
From S2P Require Import NetRxPath.

(** ** What the receive path needs of a virtqueue *)

(** [rxq_live P q l]: the buffers [l] are in the queue, in any order, and the length
    that the device reported for each completed one satisfies [P]; [rxq_done q]: how
    many the device has completed; [rxq_ok q]: the queue can be shut down;
    [rxq_buf]: scatter lists and indirect areas the queue takes. *)
Class RxVirtQueueLaws (Q : Type) `{RxVirtQueue Q} := {
  rxq_live : (Z -> Prop) -> Q -> list Z -> Prop;
  rxq_done : Q -> nat;
  rxq_ok : Q -> Prop;
  rxq_buf : list VirtIOBufferDescriptor -> option rx_block -> Prop;
  rxq_perm : forall P q l l', l ≡ₚ l' -> rxq_live P q l -> rxq_live P q l';
  rxq_live_ok : forall P q l, rxq_live P q l -> rxq_ok q;
  rxq_add : forall P q l d sg ia, rxq_live P q l -> d <> 0 -> rxq_buf sg ia ->
    exists rc q', AddBuf q sg 0 (zlen sg) d ia = Ok (rc, q') /\
      rxq_live P q' (if 0 <=? rc then d :: l else l) /\ rxq_done q' = rxq_done q;
  rxq_get : forall P q l, rxq_live P q l ->
    exists b q', GetBuf q = Ok (b, q') /\
      match b with
      | Some (d, len) => P len /\ rxq_done q = S (rxq_done q') /\ exists l', l ≡ₚ d :: l' /\ rxq_live P q' l'
      | None => rxq_live P q' l
      end;
  rxq_kick : forall P q l, rxq_live P q l -> exists q', Kick q = Ok q' /\ rxq_live P q' l /\ rxq_done q' = rxq_done q;
  rxq_size : forall q, rxq_ok q -> IsValid q = true -> exists n, GetRingSize q = Ok n;
  rxq_shutdown : forall q, rxq_ok q -> exists q', Shutdown q = Ok q' /\ rxq_ok q' }.

(** ** Lists of lists *)

Lemma concat_insert {A} (ls : list (list A)) i l :
  ls !! i = Some l -> exists rest, concat ls ≡ₚ l ++ rest /\ forall x, concat (<[i := x]> ls) ≡ₚ x ++ rest.
Proof.
  revert i. induction ls as [|y ls IH]; intros [|i] Hi; [done|done| |].
  - injection Hi as ->. exists (concat ls). by split.
  - destruct (IH i Hi) as (rest & H1 & H2). exists (y ++ rest). cbn. split; [|intros x]; rewrite ?H1, ?H2.
    all: rewrite !(assoc_L (++)); f_equiv; apply Permutation_app_comm.
Qed.

Lemma concat_zinsert {A} (ls : list (list A)) i l :
  ls⟦i⟧ = Some l -> exists rest, concat ls ≡ₚ l ++ rest /\ forall x, concat (zinsert i x ls) ≡ₚ x ++ rest.
Proof.
  unfold zlookup, zinsert. destruct (0 <=? i); [|done]. apply concat_insert.
Qed.

Lemma fmap_zinsert {A B} (f : A -> B) i x l : f <$> zinsert i x l = zinsert i (f x) (f <$> l).
Proof. unfold zinsert. destruct (0 <=? i); [|done]. apply list_fmap_insert. Qed.

Lemma zlookup_middle {A} (l1 l2 : list A) x : (l1 ++ x :: l2)⟦zlen l1⟧ = Some x.
Proof. unfold zlookup, zlen. replace (0 <=? _) with true by lia. rewrite Nat2Z.id. by apply list_lookup_middle. Qed.

Lemma zinsert_middle {A} (l1 l2 : list A) x y : zinsert (zlen l1) y (l1 ++ x :: l2) = l1 ++ y :: l2.
Proof. unfold zinsert, zlen. replace (0 <=? _) with true by lia. rewrite Nat2Z.id. by rewrite insert_app_r_alt, Nat.sub_diag. Qed.

(** ** The memory of the buffers *)

(** The blocks that freeing a buffer returns. *)
Definition blocks_of (p : RxNetDescriptor) : list rx_block :=
  match PhysicalPages p with [] => [] | first :: ds => first :: own first ds end.

(** All of [f] over a table of buffers. *)
Definition tally {T} (f : RxNetDescriptor -> list T) (ds : gmap Z rx_desc) : list T :=
  concat ((fun p : Z * rx_desc => f (d_buf p.2)) <$> map_to_list ds).
Arguments tally : simpl never.

Lemma tally_delete {T} (f : RxNetDescriptor -> list T) ds d x :
  ds !! d = Some x -> tally f ds ≡ₚ f (d_buf x) ++ tally f (delete d ds).
Proof. intros Hd. unfold tally. rewrite <- (map_to_list_delete ds d x Hd). done. Qed.

Lemma tally_insert {T} (f : RxNetDescriptor -> list T) ds d x : ds !! d = None -> tally f (<[d := x]> ds) ≡ₚ f (d_buf x) ++ tally f ds.
Proof. intros Hd. unfold tally. by rewrite (map_to_list_insert ds d x Hd). Qed.

Lemma tally_update {T} (f : RxNetDescriptor -> list T) ds d x x' :
  ds !! d = Some x -> d_buf x' = d_buf x -> tally f (<[d := x']> ds) ≡ₚ tally f ds.
Proof.
  intros Hd E. rewrite (tally_delete f (<[d := x']> ds) d x') by apply lookup_insert_eq. rewrite (tally_delete f ds d x Hd).
  by rewrite delete_insert_eq, E.
Qed.

Section inv.
Context {Q : Type} `{RxVirtQueueLaws Q}.
Implicit Types (a : PARANDIS_ADAPTER Q) (r : CParaNdisRX Q).

(** The settings, where the data begins in every buffer, the lengths the device may
    report, and the blocks and MDLs that do not belong to receive buffers. *)
Record rx_env := mk_env { v_cfg : rx_config; v_start : Z; v_len : Z -> Prop; v_blocks : list rx_block; v_mdls : list nat }.
Context (V : rx_env).
Abbreviation cfg := (v_cfg V).

(** ** The invariant *)

(** The path of every descriptor. *)
Definition queues (ds : gmap Z rx_desc) : gmap Z Z := d_Queue <$> ds.
Arguments queues : simpl never.
Definition owned (qm : gmap Z Z) (k : Z) : Z := Z.of_nat (base.size (filter (fun p : Z * Z => p.2 = k) qm)).

(** Where the buffers are; [held] are with NDIS or in a local variable. *)
Definition places a (held : list Z) : list Z :=
  held ++ concat (ReceiveQueues a) ++ concat (m_UnclassifiedPacketsQueue <$> pPathBundles a)
       ++ concat (m_NetReceiveBuffers <$> pPathBundles a).

(** A buffer with an analysed packet, alone in its first data block with the room
    that the analysis may read, and a virtio header. *)
Record ready (x : rx_desc) : Prop := {
  rd_page : exists m s, d_pages x = [mk_page m s] /\ Forall byte m /\ s <= zlen m /\ s < 4294967296 /\
    v_start V + dataLength (PacketInfo x) + rx_slack <= s;
  rd_info : analysed (v_start V) (dataLength (PacketInfo x)) (PacketInfo x);
  rd_len : 0 <= dataLength (PacketInfo x) < 63504;
  rd_header : 10 <= zlen (d_header x) /\ (bHashReportedByDevice cfg = true -> 18 <= zlen (d_header x)) }.

(** The packets that wait to be indicated. *)
Definition waiting a : list Z := concat (ReceiveQueues a) ++ concat (m_UnclassifiedPacketsQueue <$> pPathBundles a).

Definition indirect (p : RxNetDescriptor) : option rx_block := if bUseIndirect cfg then Some (IndirectArea p) else None.

Record path_ok (qm : gmap Z Z) (k : Z) r : Prop := {
  pk_count : m_NetNofReceiveBuffers r = zlen (m_NetReceiveBuffers r);
  pk_mine : Forall (fun d => qm !! d = Some k) (m_NetReceiveBuffers r);
  pk_ok : rxq_ok (m_VirtQueue r);
  pk_live : m_Reinsert r = true -> rxq_live (v_len V) (m_VirtQueue r) (m_NetReceiveBuffers r);
  pk_max : m_NetMaxReceiveBuffers r = owned qm k /\ owned qm k < 4294967296 }.

Record memory_ok (ds : gmap Z rx_desc) (h : host) : Prop := {
  mm_blocks : h_blocks h ≡ₚ tally blocks_of ds ++ v_blocks V;
  mm_mdls : h_mdls h ≡ₚ tally Holder ds ++ v_mdls V }.

Record rx_inv a (held : list Z) : Prop := {
  ri_places : places a held ≡ₚ elements (dom (descriptors a));
  ri_desc : forall d x, descriptors a !! d = Some x -> d <> 0 /\ 0 <= d_Queue x < zlen (pPathBundles a) /\
    rxq_buf (BufferSGArray (d_buf x)) (indirect (d_buf x)) /\ DataStartOffset (d_buf x) = v_start V;
  ri_path : forall k r, (pPathBundles a)⟦k⟧ = Some r -> path_ok (queues (descriptors a)) k r;
  ri_queues : zlen (ReceiveQueues a) = PARANDIS_RSS_MAX_RECEIVE_QUEUES;
  ri_memory : memory_ok (descriptors a) (rx_host a);
  ri_ready : forall d, d ∈ waiting a -> exists x, descriptors a !! d = Some x /\ ready x }.

(** ** Lemmas on the invariant *)

Lemma rx_inv_perm a l l' : l ≡ₚ l' -> rx_inv a l -> rx_inv a l'.
Proof. intros Hl [H1 H2 H3 H4 H5 H6]. constructor; try done. rewrite <- H1. unfold places. by rewrite Hl. Qed.

Lemma rx_inv_nodup a held : rx_inv a held -> NoDup (places a held).
Proof. intros [H1 _ _ _ _ _]. rewrite H1. apply NoDup_elements. Qed.

Lemma rx_inv_in a held d : rx_inv a held -> d ∈ places a held <-> exists x, descriptors a !! d = Some x.
Proof. intros [H1 _ _ _ _ _]. rewrite H1, elem_of_elements, elem_of_dom. done. Qed.

(** What is held does not wait. *)
Lemma rx_inv_held a held d : rx_inv a held -> d ∈ held -> d ∉ waiting a.
Proof.
  intros I Hd Hw. pose proof (rx_inv_nodup _ _ I) as Hn. unfold places in Hn. apply NoDup_app in Hn as (_ & Hdis & _).
  apply (Hdis d Hd). unfold waiting in Hw. rewrite !elem_of_app in *. tauto.
Qed.

(** Changing what the invariant does not mention. *)
Lemma rx_inv_frame a a' held :
  pPathBundles a' = pPathBundles a -> ReceiveQueues a' = ReceiveQueues a -> descriptors a' = descriptors a -> rx_host a' = rx_host a ->
  rx_inv a held -> rx_inv a' held.
Proof.
  intros E1 E2 E3 E4 [H1 H2 H3 H4 H5 H6]. constructor; unfold places, waiting in *; rewrite ?E1, ?E2, ?E3, ?E4; done.
Qed.

(** New contents or analysis of a buffer that is held. *)
Lemma rx_inv_put_desc a held d x x' :
  descriptors a !! d = Some x -> d_Queue x' = d_Queue x -> d_buf x' = d_buf x -> d ∈ held ->
  rx_inv a held -> rx_inv (put_desc d x' a) held.
Proof.
  intros Hd E1 E2 Hh I. pose proof (rx_inv_held _ _ _ I Hh) as Hw. destruct I as [H1 H2 H3 H4 [H5 H5'] H6].
  unfold put_desc. constructor; cbn; try done.
  - unfold places in *. cbn. rewrite H1. f_equiv. f_equal. symmetry. rewrite dom_insert_L.
    apply elem_of_dom_2 in Hd. set_solver.
  - intros d' y. destruct (decide (d = d')) as [<-|].
    + rewrite lookup_insert_eq. intros [= <-]. rewrite E1, E2. by apply H2.
    + rewrite lookup_insert_ne by done. apply H2.
  - intros k r Hk. unfold queues. rewrite fmap_insert, insert_id; [by apply H3|].
    rewrite lookup_fmap, Hd. cbn. by rewrite E1.
  - constructor; by rewrite (tally_update _ _ _ x).
  - intros d' Hd'. rewrite lookup_insert_ne by (intros <-; done). by apply H6.
Qed.

Lemma put_path_ok k r r' a : (pPathBundles a)⟦k⟧ = Some r -> put_path k r' a = Ok (a <| pPathBundles := zinsert k r' (pPathBundles a) |>).
Proof. intros Hk. unfold put_path. rewrite zset_ok by (by eapply zlookup_lt). done. Qed.

(** Replacing a path. *)
Lemma rx_inv_path a held held' k r r' :
  (pPathBundles a)⟦k⟧ = Some r ->
  held' ++ m_UnclassifiedPacketsQueue r' ++ m_NetReceiveBuffers r' ≡ₚ held ++ m_UnclassifiedPacketsQueue r ++ m_NetReceiveBuffers r ->
  path_ok (queues (descriptors a)) k r' ->
  (forall d, d ∈ m_UnclassifiedPacketsQueue r' -> d ∈ m_UnclassifiedPacketsQueue r \/ exists x, descriptors a !! d = Some x /\ ready x) ->
  rx_inv a held -> rx_inv (a <| pPathBundles := zinsert k r' (pPathBundles a) |>) held'.
Proof.
  intros Hk Hp Hok Hready [H1 H2 H3 H4 H5 H6].
  destruct (concat_zinsert (m_UnclassifiedPacketsQueue <$> pPathBundles a) k (m_UnclassifiedPacketsQueue r)) as (ru & U1 & U2);
    [by rewrite zlookup_fmap, Hk|]. constructor; cbn; try done.
  - rewrite <- H1. unfold places. cbn. rewrite !fmap_zinsert.
    destruct (concat_zinsert (m_NetReceiveBuffers <$> pPathBundles a) k (m_NetReceiveBuffers r)) as (rn & N1 & N2);
      [by rewrite zlookup_fmap, Hk|].
    rewrite U1, U2, N1, N2.
    transitivity ((held' ++ m_UnclassifiedPacketsQueue r' ++ m_NetReceiveBuffers r') ++ concat (ReceiveQueues a) ++ ru ++ rn); [solve_Permutation|].
    rewrite Hp. solve_Permutation.
  - rewrite zlen_zinsert. done.
  - intros k' r0. destruct (decide (k = k')) as [<-|].
    + rewrite zlookup_zinsert_eq by (by eapply zlookup_lt). by intros [= <-].
    + rewrite zlookup_zinsert_ne by done. apply H3.
  - intros d. specialize (H6 d). specialize (Hready d). unfold waiting in *. cbn. rewrite fmap_zinsert, U2.
    rewrite !elem_of_app, U1, elem_of_app in *. naive_solver.
Qed.

(** ** Counting *)

Lemma owned_delete qm d k : owned (delete d qm) k = if decide (qm !! d = Some k) then owned qm k - 1 else owned qm k.
Proof.
  unfold owned. rewrite map_filter_delete. case_decide as E.
  - assert (filter (fun p : Z * Z => p.2 = k) qm !! d = Some k) as Hd by (by apply map_lookup_filter_Some).
    pose proof (map_size_ne_0_lookup_2 (filter (fun p : Z * Z => p.2 = k) qm) d ltac:(by eexists)).
    rewrite map_size_delete_Some by (by eexists). lia.
  - rewrite delete_id; [done|]. apply map_lookup_filter_None. right. cbn. intros x Hx ->. done.
Qed.

(** Distinct buffers of a path are at most as many as the path owns. *)
Lemma owned_bound qm k l : NoDup l -> Forall (fun d => qm !! d = Some k) l -> zlen l <= owned qm k.
Proof.
  intros Hn Hl. unfold owned, zlen. rewrite <- (size_dom (D := gset Z)).
  assert (list_to_set l ⊆@{gset Z} dom (filter (fun p : Z * Z => p.2 = k) qm)) as Hs%subseteq_size.
  { intros d Hd. apply elem_of_list_to_set in Hd. rewrite list.Forall_forall in Hl. apply elem_of_dom. exists k.
    apply map_lookup_filter_Some. split; [by apply Hl|done]. }
  rewrite size_list_to_set in Hs by done. lia.
Qed.

(** A buffer in hand can be put on the list of its path without overflow. *)
Lemma room_for a held d x r :
  rx_inv a (d :: held) -> descriptors a !! d = Some x -> (pPathBundles a)⟦d_Queue x⟧ = Some r ->
  zlen (m_NetReceiveBuffers r) + 1 <= owned (queues (descriptors a)) (d_Queue x).
Proof.
  intros I Hd Hr. pose proof (ri_path _ _ I _ _ Hr) as P. pose proof (rx_inv_nodup _ _ I) as Hn. unfold places in Hn.
  destruct (concat_zinsert (m_NetReceiveBuffers <$> pPathBundles a) (d_Queue x) (m_NetReceiveBuffers r)) as (rn & N1 & _);
    [by rewrite zlookup_fmap, Hr|]. rewrite N1 in Hn.
  rewrite <- zlen_cons with (x := d). apply owned_bound.
  - assert ((d :: held) ++ concat (ReceiveQueues a) ++ concat (m_UnclassifiedPacketsQueue <$> pPathBundles a) ++ m_NetReceiveBuffers r ++ rn
      ≡ₚ (d :: m_NetReceiveBuffers r) ++ held ++ concat (ReceiveQueues a) ++ concat (m_UnclassifiedPacketsQueue <$> pPathBundles a) ++ rn)
      as E by (cbn; solve_Permutation).
    rewrite E in Hn. by apply NoDup_app in Hn as (? & _ & _).
  - apply Forall_cons_2; [|apply P]. unfold queues. by rewrite lookup_fmap, Hd.
Qed.

(** The settings, which paths run, and the number of completed buffers, stay, and
    there are no more buffers than before. *)
Definition shape r : bool * nat := (m_Reinsert r, rxq_done (m_VirtQueue r)).
Definition same_shape a a' : Prop :=
  RSSParameters a' = RSSParameters a /\ shape <$> pPathBundles a' = shape <$> pPathBundles a /\
  (base.size (descriptors a') <= base.size (descriptors a))%nat.

Lemma same_shape_refl a : same_shape a a.
Proof. done. Qed.

Lemma same_shape_trans a b c : same_shape a b -> same_shape b c -> same_shape a c.
Proof. intros (? & ? & ?) (? & ? & ?). split_and!; [congruence..|lia]. Qed.

Lemma same_shape_path a k r r' :
  (pPathBundles a)⟦k⟧ = Some r -> shape r' = shape r -> same_shape a (a <| pPathBundles := zinsert k r' (pPathBundles a) |>).
Proof. intros Hk E. split_and!; cbn; [done| |done]. rewrite fmap_zinsert, E. apply zinsert_id. by rewrite zlookup_fmap, Hk. Qed.

Lemma same_shape_lookup a a' k r :
  same_shape a a' -> (pPathBundles a)⟦k⟧ = Some r -> exists r', (pPathBundles a')⟦k⟧ = Some r' /\ shape r' = shape r.
Proof.
  intros (_ & E & _) Hk. assert ((shape <$> pPathBundles a')⟦k⟧ = Some (shape r)) as Hk' by (by rewrite E, zlookup_fmap, Hk).
  rewrite zlookup_fmap in Hk'. destruct ((pPathBundles a')⟦k⟧) as [r'|]; [|done]. exists r'. split; [done|]. cbn in Hk'. congruence.
Qed.

Lemma same_shape_put a d x x' : descriptors a !! d = Some x -> same_shape a (put_desc d x' a).
Proof. intros Hd. split_and!; cbn; [done|done|]. rewrite map_size_insert_Some by (by eexists). done. Qed.

Lemma same_shape_len a a' : same_shape a a' -> zlen (pPathBundles a') = zlen (pPathBundles a).
Proof. intros (_ & E & _). apply (f_equal zlen) in E. unfold zlen in *. by rewrite !length_fmap in E. Qed.

(** ** Freeing a buffer that is in hand *)

Lemma free_desc_ok a d x :
  descriptors a !! d = Some x -> memory_ok (descriptors a) (rx_host a) ->
  exists h, free_desc d x a = Ok (a <| descriptors := delete d (descriptors a) |> <| rx_host := h |>) /\
    memory_ok (delete d (descriptors a)) h.
Proof.
  intros Hd [Hb Hm]. rewrite (tally_delete _ _ _ _ Hd), <- app_assoc in Hb. rewrite (tally_delete _ _ _ _ Hd), <- app_assoc in Hm.
  unfold free_desc.
  assert (exists h, ParaNdis_FreeRxBufferDescriptor (d_buf x) (rx_host a) = Ok h /\
    h_blocks h ≡ₚ tally blocks_of (delete d (descriptors a)) ++ v_blocks V /\
    h_mdls h ≡ₚ tally Holder (delete d (descriptors a)) ++ v_mdls V) as (h & -> & Hb' & Hm').
  { unfold blocks_of in Hb at 1. destruct (PhysicalPages (d_buf x)) as [|first ds] eqn:Ep.
    - destruct (unbind_ok _ _ _ Hm) as (h & E1 & E2 & E3). exists h. unfold ParaNdis_FreeRxBufferDescriptor. rewrite E1. cbn [mbind res_bind].
      rewrite Ep. split_and!; try done. by rewrite E3.
    - by apply (ParaNdis_FreeRxBufferDescriptor_ok _ first ds). }
  exists h. cbn [mbind res_bind]. done.
Qed.

Lemma owned_deleted ds d x k :
  ds !! d = Some x -> owned (queues (delete d ds)) k = if decide (k = d_Queue x) then owned (queues ds) k - 1 else owned (queues ds) k.
Proof.
  intros Hd. unfold queues at 1. rewrite fmap_delete. fold (queues ds). rewrite owned_delete.
  assert (queues ds !! d = Some (d_Queue x)) as -> by (unfold queues; by rewrite lookup_fmap, Hd). repeat case_decide; congruence.
Qed.

(** The buffer leaves the table, and its path counts one less. *)
Lemma rx_inv_discard a held d x r r' h :
  descriptors a !! d = Some x -> (pPathBundles a)⟦d_Queue x⟧ = Some r -> memory_ok (delete d (descriptors a)) h ->
  m_NetReceiveBuffers r' = m_NetReceiveBuffers r -> m_NetNofReceiveBuffers r' = m_NetNofReceiveBuffers r ->
  m_UnclassifiedPacketsQueue r' = m_UnclassifiedPacketsQueue r -> m_NetMaxReceiveBuffers r' = u32 (m_NetMaxReceiveBuffers r - 1) ->
  rxq_ok (m_VirtQueue r') -> (m_Reinsert r' = true -> rxq_live (v_len V) (m_VirtQueue r') (m_NetReceiveBuffers r)) ->
  rx_inv a (d :: held) ->
  rx_inv (a <| descriptors := delete d (descriptors a) |> <| rx_host := h |> <| pPathBundles := zinsert (d_Queue x) r' (pPathBundles a) |>) held.
Proof.
  intros Hx Hr Hmem E1 E2 E3 E4 Hok Hlive I. pose proof (room_for _ _ _ _ _ I Hx Hr) as Hroom. pose proof (zlen_nonneg (m_NetReceiveBuffers r)) as Hnn.
  pose proof (zlookup_lt _ _ _ Hr) as Hkl. pose proof (rx_inv_nodup _ _ I) as Hnd. pose proof (rx_inv_held _ _ d I ltac:(by left)) as Hw.
  destruct I as [H1 H2 H3 H4 H5 H6]. pose proof (H3 _ _ Hr) as [P1 P2 _ _ [P4 P5]].
  assert (Hmine : forall k r0, (pPathBundles a)⟦k⟧ = Some r0 ->
    Forall (fun d' => queues (delete d (descriptors a)) !! d' = Some k) (m_NetReceiveBuffers r0)).
  { intros k r0 Hk. pose proof (pk_mine _ _ _ (H3 _ _ Hk)) as Hm. rewrite list.Forall_forall in Hm |- *. intros d' Hd'.
    unfold queues. rewrite fmap_delete. fold (queues (descriptors a)). rewrite lookup_delete_ne; [by apply Hm|]. intros <-.
    destruct (concat_zinsert (m_NetReceiveBuffers <$> pPathBundles a) k (m_NetReceiveBuffers r0)) as (rn & N1 & _);
      [by rewrite zlookup_fmap, Hk|]. unfold places in Hnd. rewrite N1 in Hnd. cbn in Hnd. apply NoDup_cons in Hnd as [Hnd _].
    apply Hnd. rewrite !elem_of_app. by do 3 right; left. }
  assert (Hu : (m_UnclassifiedPacketsQueue <$> zinsert (d_Queue x) r' (pPathBundles a)) = (m_UnclassifiedPacketsQueue <$> pPathBundles a))
    by (rewrite fmap_zinsert, E3; apply zinsert_id; by rewrite zlookup_fmap, Hr).
  assert (Hn : (m_NetReceiveBuffers <$> zinsert (d_Queue x) r' (pPathBundles a)) = (m_NetReceiveBuffers <$> pPathBundles a))
    by (rewrite fmap_zinsert, E1; apply zinsert_id; by rewrite zlookup_fmap, Hr).
  constructor; cbn; try done.
  - unfold places in *. cbn. rewrite Hu, Hn.
    apply (Permutation_cons_inv (a := d)). rewrite dom_delete_L, <- elements_union_singleton by set_solver.
    apply elem_of_dom_2 in Hx. rewrite <- union_difference_singleton_L by done. exact H1.
  - intros d' y [_ Hy]%lookup_delete_Some. rewrite zlen_zinsert. by apply (H2 d').
  - intros k r0. pose proof (owned_deleted _ _ _ k Hx) as Hown. destruct (decide (d_Queue x = k)) as [<-|Hne].
    + rewrite zlookup_zinsert_eq by done. intros [= <-]. rewrite decide_True in Hown by done.
      constructor; cbn -[queues]; rewrite ?E1, ?E2, ?E4; try done; [by apply (Hmine _ r)|]. rewrite Hown, P4, u32_small by lia. lia.
    + rewrite zlookup_zinsert_ne by done. intros Hk. pose proof (H3 _ _ Hk) as [? ? ? ? ?]. constructor; try done; [by apply Hmine|].
      rewrite decide_False in Hown by done. by rewrite Hown.
  - intros d'. unfold waiting in *. cbn. rewrite Hu. intros Hd'. rewrite lookup_delete_ne by (intros <-; done). by apply H6.
Qed.

(** The buffer goes to the list of its path. *)
Lemma rx_inv_listed a held d x r r' :
  descriptors a !! d = Some x -> (pPathBundles a)⟦d_Queue x⟧ = Some r ->
  m_NetReceiveBuffers r' = m_NetReceiveBuffers r ++ [d] -> m_UnclassifiedPacketsQueue r' = m_UnclassifiedPacketsQueue r ->
  m_NetNofReceiveBuffers r' = u32 (m_NetNofReceiveBuffers r + 1) -> m_NetMaxReceiveBuffers r' = m_NetMaxReceiveBuffers r ->
  rxq_ok (m_VirtQueue r') -> (m_Reinsert r' = true -> rxq_live (v_len V) (m_VirtQueue r') (d :: m_NetReceiveBuffers r)) ->
  rx_inv a (d :: held) ->
  rx_inv (a <| pPathBundles := zinsert (d_Queue x) r' (pPathBundles a) |>) held.
Proof.
  intros Hx Hr E1 E2 E3 E4 E5 E6 I. pose proof (ri_path _ _ I _ _ Hr) as [P1 P2 _ _ [P4 P5]].
  pose proof (room_for _ _ _ _ _ I Hx Hr) as Hroom. pose proof (zlen_nonneg (m_NetReceiveBuffers r)) as Hnn.
  eapply (rx_inv_path a (d :: held) held); [done| |constructor|rewrite E2; by left|done].
  - rewrite E1, E2. cbn. solve_Permutation.
  - rewrite E3, E1, P1, zlen_app. change (zlen [d]) with 1. rewrite u32_small by lia. done.
  - rewrite E1. apply Forall_app_2; [done|]. apply Forall_cons_2; [|done]. unfold queues. by rewrite lookup_fmap, Hx.
  - done.
  - intros Hre. rewrite E1. eapply rxq_perm; [|by apply E6]. solve_Permutation.
  - by rewrite E4.
Qed.

(** ** Reuse *)

Lemma reuse_ok a held d :
  rx_inv a (d :: held) -> exists a', ReuseReceiveBufferNoLock cfg a d = Ok a' /\ rx_inv a' held /\ same_shape a a'.
Proof.
  intros I. destruct (proj1 (rx_inv_in _ _ d I)) as [x Hx]; [by left|].
  destruct (ri_desc _ _ I _ _ Hx) as (Hnz & Hq & Hbuf & _).
  destruct (zlookup_in_range (pPathBundles a) (d_Queue x) Hq) as [r Hr]. pose proof (ri_path _ _ I _ _ Hr) as [P1 P2 P0 P3 P4].
  unfold ReuseReceiveBufferNoLock, get_desc. rewrite Hx. cbn [mbind res_bind]. rewrite (zget_ok _ _ _ Hr). cbn [mbind res_bind].
  assert (Hadd : forall r', m_NetReceiveBuffers r' = m_NetReceiveBuffers r ++ [d] -> m_UnclassifiedPacketsQueue r' = m_UnclassifiedPacketsQueue r ->
    m_NetNofReceiveBuffers r' = u32 (m_NetNofReceiveBuffers r + 1) -> m_NetMaxReceiveBuffers r' = m_NetMaxReceiveBuffers r ->
    rxq_ok (m_VirtQueue r') -> (m_Reinsert r' = true -> rxq_live (v_len V) (m_VirtQueue r') (d :: m_NetReceiveBuffers r)) -> shape r' = shape r ->
    exists a', put_path (d_Queue x) r' a = Ok a' /\ rx_inv a' held /\ same_shape a a').
  { intros. rewrite (put_path_ok _ r) by done. eexists. split; [done|]. split; [by apply (rx_inv_listed a held d x r)|by apply (same_shape_path _ _ r)]. }
  destruct (m_Reinsert r) eqn:Er; cbn [negb]; [|apply Hadd; try done; cbn; congruence].
  unfold AddRxBufferToQueue. destruct (rxq_add _ (m_VirtQueue r) _ d _ _ (P3 eq_refl) Hnz Hbuf) as (rc & q & Ha & Hlive & Hdone).
  unfold indirect in Ha. rewrite Ha. cbn [mbind res_bind]. destruct (0 <=? rc).
  - destruct (rxq_kick _ _ _ Hlive) as (q' & Hk & Hl' & Hd'). unfold KickRXRing. cbn. destruct (_ >=? _); cbn; rewrite ?Hk; cbn.
    all: apply Hadd; try done; try (by eapply rxq_live_ok); unfold shape; cbn; congruence.
  - destruct (free_desc_ok a d x Hx (ri_memory _ _ I)) as (h & -> & Hmem). cbn [mbind res_bind].
    rewrite (put_path_ok _ r) by done. eexists. split; [done|]. split.
    + apply (rx_inv_discard a held d x r); try done. by eapply rxq_live_ok.
    + split; [done|]. cbn. split; [|rewrite map_size_delete_Some by (by eexists); lia].
      rewrite fmap_zinsert. apply zinsert_id. rewrite zlookup_fmap, Hr. unfold shape. cbn. congruence.
Qed.

(** ** Moving a buffer that is in hand *)

Lemma desc_of a held d : rx_inv a held -> d ∈ places a held -> exists x, get_desc a d = Ok x /\ descriptors a !! d = Some x.
Proof. intros I Hd. apply (rx_inv_in _ _ _ I) in Hd as [x Hx]. exists x. unfold get_desc. by rewrite Hx. Qed.

Lemma add_unclassified_ok a held k d r x :
  (pPathBundles a)⟦k⟧ = Some r -> descriptors a !! d = Some x -> ready x -> rx_inv a (d :: held) ->
  exists a', add_unclassified k d a = Ok a' /\ rx_inv a' held /\ same_shape a a'.
Proof.
  intros Hk Hx Hready I. pose proof (ri_path _ _ I _ _ Hk) as [? ? ? ? ?]. unfold add_unclassified. rewrite (zget_ok _ _ _ Hk). cbn [mbind res_bind].
  rewrite (put_path_ok _ r) by done. eexists. split; [done|]. split; [|by apply (same_shape_path _ _ r)].
  eapply (rx_inv_path a (d :: held) held); [done| |by constructor| |done]; cbn; [solve_Permutation|].
  intros d' [Hd'|Hd']%elem_of_app; [by left|]. apply list_elem_of_singleton in Hd' as ->. eauto.
Qed.

(** Replacing a receive queue. *)
Lemma rx_inv_queue a held held' q l l' :
  (ReceiveQueues a)⟦q⟧ = Some l -> held' ++ l' ≡ₚ held ++ l ->
  (forall d, d ∈ l' -> d ∈ l \/ exists x, descriptors a !! d = Some x /\ ready x) -> rx_inv a held ->
  rx_inv (a <| ReceiveQueues := zinsert q l' (ReceiveQueues a) |>) held'.
Proof.
  intros Hq Hl Hready [H1 H2 H3 H4 H5 H6]. destruct (concat_zinsert _ _ _ Hq) as (rest & E1 & E2).
  constructor; cbn; try done; [|by rewrite zlen_zinsert|].
  - rewrite <- H1. unfold places. cbn. rewrite E1, E2. rewrite (app_assoc held'), (app_assoc held'), Hl. solve_Permutation.
  - intros d. specialize (H6 d). specialize (Hready d). unfold waiting in *. cbn. rewrite !elem_of_app, E2, E1, !elem_of_app in *. naive_solver.
Qed.

Lemma add_queue_ok a held q d x :
  0 <= q < PARANDIS_RSS_MAX_RECEIVE_QUEUES -> descriptors a !! d = Some x -> ready x -> rx_inv a (d :: held) ->
  exists a', add_queue q d a = Ok a' /\ rx_inv a' held /\ same_shape a a'.
Proof.
  intros Hq Hx Hready I. pose proof (ri_queues _ _ I) as Hl. destruct (zlookup_in_range (ReceiveQueues a) q ltac:(lia)) as [l Hq'].
  unfold add_queue. rewrite (zget_ok _ _ _ Hq'). cbn [mbind res_bind]. rewrite zset_ok by lia. cbn [mbind res_bind].
  eexists. split; [done|]. split; [|done]. apply (rx_inv_queue a (d :: held) held q l); [done|solve_Permutation| |done].
  intros d' [Hd'|Hd']%elem_of_app; [by left|]. apply list_elem_of_singleton in Hd' as ->. eauto.
Qed.

(** [GetBuf] followed by the removal from the list. *)
Lemma take_ok a held k r q b :
  (pPathBundles a)⟦k⟧ = Some r -> m_Reinsert r = true -> rx_inv a held ->
  (exists l, m_NetReceiveBuffers r ≡ₚ b :: l /\ rxq_live (v_len V) q l) ->
  exists r', list_remove (r <| m_VirtQueue := q |>) b = Ok r' /\
    rx_inv (a <| pPathBundles := zinsert k r' (pPathBundles a) |>) (b :: held) /\ shape r' = shape (r <| m_VirtQueue := q |>).
Proof.
  intros Hk Hr I (l & Hp & Hlive). pose proof (ri_path _ _ I _ _ Hk) as [P1 P2 P0 P3 [P4 P5]]. unfold list_remove. cbn.
  destruct (take_out_ok b (m_NetReceiveBuffers r) l Hp) as (l' & -> & Hl'). eexists. split; [done|]. split; [|done].
  assert (Hlen : zlen (m_NetReceiveBuffers r) = zlen l' + 1).
  { unfold zlen. rewrite Hp, Hl'. cbn. lia. }
  pose proof (zlen_nonneg l'). pose proof (rx_inv_nodup _ _ I) as Hn. unfold places in Hn.
  destruct (concat_zinsert (m_NetReceiveBuffers <$> pPathBundles a) k (m_NetReceiveBuffers r)) as (rn & N1 & _);
    [by rewrite zlookup_fmap, Hk|].
  assert (zlen (m_NetReceiveBuffers r) <= owned (queues (descriptors a)) k).
  { apply owned_bound; [|done]. rewrite N1 in Hn. apply NoDup_app in Hn as (_ & _ & Hn). apply NoDup_app in Hn as (_ & _ & Hn).
    apply NoDup_app in Hn as (_ & _ & Hn). by apply NoDup_app in Hn as (? & _ & _). }
  eapply (rx_inv_path a held (b :: held)); [done| |constructor|by left|done]; cbn.
  - rewrite Hp, Hl'. solve_Permutation.
  - rewrite P1, Hlen, u32_small by lia. lia.
  - rewrite Hp, list.Forall_cons in P2. destruct P2 as [_ P2]. by rewrite Hl'.
  - by eapply rxq_live_ok.
  - intros _. eapply rxq_perm; [|exact Hlive]. by rewrite Hl'.
  - done.
Qed.

End inv.

#[global] Arguments queues : simpl never.
#[global] Arguments waiting {Q} : simpl never.
