(* ===== verification/NetRxRingSpec.v ===== *)
(** * Processing the receive ring loses no buffer

    The ring loop analyses, filters and distributes whatever the device returned;
    new RSS parameters send waiting packets back to their paths. *)

From Stdlib Require Import ZArith Lia ZifyBool.
From stdpp Require Import base list numbers gmap sets fin_maps fin_map_dom.
From S2P Require Import Prelude.
From S2P Require Import NetChecksum.
From S2P Require Import NetChecksumSpec.
From S2P Require Import NetOffload.
From S2P Require Import NetOffloadSpec.
From S2P Require Import NetRx.
From S2P Require Import NetRxSpec.
From S2P Require Import NetRss.
From S2P Require Import NetRssSpec.
From S2P Require Import NetRxBuffer.
From S2P Require Import NetRxPath.
From S2P Require Import NetRxInv.

Lemma concat_nil {A} (ls : list (list A)) : (forall j, 0 <= j < zlen ls -> ls⟦j⟧ = Some []) -> concat ls = [].
Proof using.
  intros Hj. assert (Hall : Forall (fun l => l = []) ls).
  { rewrite list.Forall_forall. intros l [i Hi]%list_elem_of_lookup. pose proof (lookup_lt_Some _ _ _ Hi).
    specialize (Hj (Z.of_nat i)). unfold zlookup, zlen in Hj. replace (0 <=? Z.of_nat i) with true in Hj by lia. rewrite Nat2Z.id, Hi in Hj.
    assert (Some l = Some []) as [= ->]; [|done]. apply Hj. lia. }
  clear Hj. induction Hall as [|l ls -> _ IH]; [done|]. exact IH.
Qed.

Section spec.
Context {Q : Type} `{RxVirtQueueLaws Q} (V : rx_env) (N : ndis_macros).
Abbreviation cfg := (v_cfg V).
Abbreviation start := (v_start V).
Implicit Types (a : PARANDIS_ADAPTER Q) (r : CParaNdisRX Q).

(** ** One packet *)

(** Settings that the distribution of packets relies on: a full key, and tables
    that lead to existing queues. *)
Record rss_ok (rss : PARANDIS_RSS_PARAMS) : Prop := {
  ro_key : RSSMode rss <> PARANDIS_RSS_DISABLED ->
    Forall byte (HashSecretKey (ActiveHashingSettings rss)) /\ zlen (HashSecretKey (ActiveHashingSettings rss)) = 40;
  ro_tables : let s := ActiveRSSScalingSettings rss in
    RSSMode rss = PARANDIS_RSS_FULL -> FirstQueueIndirectionIndex s <> INVALID_INDIRECTION_INDEX ->
    (DefaultQueue s = PARANDIS_RECEIVE_UNCLASSIFIED_PACKET \/ 0 <= DefaultQueue s < PARANDIS_RSS_MAX_RECEIVE_QUEUES) /\
    forall v, 0 <= v -> exists q p, (QueueIndirectionTable s)⟦Z.land v (RSSHashMask s)⟧ = Some q /\
      (IndirectionTable s)⟦Z.land v (RSSHashMask s)⟧ = Some p /\ 0 <= q < PARANDIS_RSS_MAX_RECEIVE_QUEUES;
  ro_cpu : let s := ActiveRSSScalingSettings rss in
    RSSMode rss = PARANDIS_RSS_FULL -> exists map, CPUIndexMapping s = Some map /\ zlen map = CPUIndexMappingSize s /\
    forall c v, map⟦c⟧ = Some v -> v = PARANDIS_RECEIVE_NO_QUEUE \/ 0 <= v < PARANDIS_RSS_MAX_RECEIVE_QUEUES }.

(** What the device wrote: [nFullLength] bytes including the header, in one data
    block with the room that the analysis may read. *)
Record packet_ok (pfuel : nat) (nFullLength : Z) (pages : list tCompletePhysicalAddress) (header : mem) : Prop := {
  pp_len : nVirtioHeaderSize cfg <= nFullLength < nVirtioHeaderSize cfg + 63504;
  pp_page : exists m s, pages = [mk_page m s] /\ Forall byte m /\ s <= zlen m /\ s < 4294967296 /\
    start + (nFullLength - nVirtioHeaderSize cfg) + rx_slack <= s;
  pp_start : 0 <= start;
  pp_header : 10 <= zlen header /\ (bHashReportedByDevice cfg = true -> 18 <= zlen header);
  pp_fuel : (Z.to_nat (nFullLength - nVirtioHeaderSize cfg) < 8 * pfuel)%nat }.

Context (Hmc : nofMulticastEntries cfg * ETH_ALEN <= zlen (MulticastList cfg)).

Lemma in_multicast_list_ok n i addr :
  0 <= i -> i + Z.of_nat n <= nofMulticastEntries cfg -> exists b, in_multicast_list cfg N n i addr = Ok b.
Proof using Hmc.
  revert i. unfold ETH_ALEN in Hmc. induction n as [|n IH]; intros i Hi Hn; [by eexists|]. cbn [in_multicast_list]. unfold ETH_ALEN.
  rewrite rd_range_ok by lia. cbn [mbind res_bind]. destruct (_ =? 0); [by eexists|]. apply IH; lia.
Qed.

Lemma ShallPassPacket_ok m buf len i :
  0 <= buf -> buf + len <= zlen m -> analysed buf len i -> exists b, ShallPassPacket cfg N m i = Ok b.
Proof using Hmc.
  intros Hb Hz [(_ & _ & E) _ [EL HL] _ _ _ _ _ _ _]. assert (14 <= L2HdrLen i) by (rewrite EL; destruct (hasVlanHeader i); lia).
  unfold ShallPassPacket. rewrite E. assert (rd_range m buf ETH_ALEN = Ok (slice m buf 6)) as -> by (unfold ETH_ALEN; apply rd_range_ok; lia).
  repeat (match goal with |- exists b, (if ?c then _ else _) = Ok b => destruct c end; [by eexists|]).
  destruct (isUnicast i); [destruct (negb _); by eexists|]. destruct (isBroadcast i); [by eexists|].
  destruct (truth _); [by eexists|]. destruct (negb _); [by eexists|]. cbn [mbind res_bind].
  destruct (Z.le_gt_cases 0 (nofMulticastEntries cfg)).
  - apply in_multicast_list_ok; lia.
  - rewrite Z2Nat.nonpos by lia. by eexists.
Qed.

Lemma rss_analyze_ok rss m buf len i :
  rss_ok rss -> Forall byte m -> 0 <= buf -> buf + len + rx_slack <= zlen m -> analysed buf len i ->
  exists h, ParaNdis6_RSSAnalyzeReceivedPacket rss m buf i = Ok (i <| RSSHash := h |>) /\ (RSSMode rss <> PARANDIS_RSS_DISABLED -> 0 <= Value h).
Proof using Type.
  intros [Hk _ _] Hm Hb Hz Ha. unfold ParaNdis6_RSSAnalyzeReceivedPacket. case_bool_decide as Hd.
  { exists (RSSHash i). split; [by destruct i|done]. }
  destruct (Hk Hd) as [Hk1 Hk2]. pose proof (calc_hash_ok _ m buf i Hk1 Hk2) as Hc.
  destruct (hash_input _ _ _) as [[ty sg]|] eqn:E; [|eexists; split; [exact Hc|done]].
  eexists. split; [apply Hc; by eapply (hash_chunks m buf len i)|]. intros _. apply toeplitz_nonneg.
Qed.

Lemma scaling_ok rss i :
  rss_ok rss -> (RSSMode rss <> PARANDIS_RSS_DISABLED -> 0 <= Value (RSSHash i)) ->
  exists q p, ParaNdis6_RSSGetScalingDataForPacket rss i = Ok (q, p) /\
    (q = PARANDIS_RECEIVE_UNCLASSIFIED_PACKET \/ 0 <= q < PARANDIS_RSS_MAX_RECEIVE_QUEUES).
Proof using Type.
  intros [_ Ht _] Hv. unfold ParaNdis6_RSSGetScalingDataForPacket. case_bool_decide as Hm; cbn [negb orb]; [|eexists _, _; by auto].
  destruct (Z.eqb_spec (FirstQueueIndirectionIndex (ActiveRSSScalingSettings rss)) INVALID_INDIRECTION_INDEX) as [|Hf];
    [eexists _, _; by auto|]. destruct (Ht Hm Hf) as [Hd He]. destruct (_ =? 0); [eexists _, _; by auto|].
  destruct (He _ (Hv ltac:(congruence))) as (q & p & Hq & Hp & Hr). rewrite (zget_ok _ _ _ Hq). cbn [mbind res_bind].
  destruct (_ =? _); [eexists _, _; by auto|]. rewrite (zget_ok _ _ _ Hp). cbn [mbind res_bind]. eexists _, _. by auto.
Qed.

Lemma same_shape_count a a' c n : same_shape a a' -> same_shape a (count c n a').
Proof using Type. by intros (? & ? & ?). Qed.

Lemma rx_inv_count a held c n : rx_inv V a held -> rx_inv V (count c n a) held.
Proof using Type. by apply rx_inv_frame. Qed.

(** After the analysis: the buffer is reused or queued. *)
Lemma distribute_ok a held k r d x i m s data header len cur :
  (pPathBundles a)⟦k⟧ = Some r -> descriptors a !! d = Some x -> rx_inv V a (d :: held) -> rss_ok (RSSParameters a) ->
  d_pages x = [mk_page m s] -> d_header x = header -> Forall byte m -> s <= zlen m -> s < 4294967296 ->
  10 <= zlen header /\ (bHashReportedByDevice cfg = true -> 18 <= zlen header) ->
  data = start -> 0 <= data -> 0 <= len < 63504 -> data + len + rx_slack <= s -> analysed data len i ->
  exists a',
    (pass ← ShallPassPacket cfg N m i;
     if negb pass then a ← ReuseReceiveBufferNoLock cfg a d; Ok (count framesFilteredOut 1 (count ifInDiscards 1 a))
     else
       i ← (if negb (bool_decide (RSSMode (RSSParameters a) = PARANDIS_RSS_DISABLED))
            then ParaNdis6_RSSAnalyzeReceivedPacket (RSSParameters a) m data i else Ok i);
       let a := put_desc d (x <| PacketInfo := i |>) a in
       '(q, proc) ← ParaNdis6_RSSGetScalingDataForPacket (RSSParameters a) i;
       if q =? PARANDIS_RECEIVE_UNCLASSIFIED_PACKET then
         a ← add_unclassified k d a; Ok (count framesRSSUnclassified 1 a)
       else
         a ← add_queue q d a;
         if negb (q =? cur) then a ← redirect cfg k q proc a; Ok (count framesRSSMisses 1 a)
         else Ok (count framesRSSHits 1 a)) = Ok a' /\ rx_inv V a' held /\ same_shape a a'.
Proof using Hmc.
  intros Hk Hx I Hrss Hpg Hhd Hm Hs1 Hs2 Hhl Hst Hd Hlen Hz Ha. unfold rx_slack in Hz.
  destruct (ShallPassPacket_ok m data len i) as [pass ->]; [done|lia|done|]. cbn [mbind res_bind]. destruct pass; cbn [negb]; cycle 1.
  { destruct (reuse_ok _ _ _ _ I) as (a' & -> & I' & S'). eexists. split; [done|].
    split; [by repeat apply rx_inv_count|by repeat apply same_shape_count]. }
  destruct (rss_analyze_ok (RSSParameters a) m data len i Hrss Hm Hd) as (h & E & Hh); [unfold rx_slack; lia|done|].
  assert (exists h', (if negb (bool_decide (RSSMode (RSSParameters a) = PARANDIS_RSS_DISABLED))
      then ParaNdis6_RSSAnalyzeReceivedPacket (RSSParameters a) m data i else Ok i) = Ok (i <| RSSHash := h' |>) /\
      (RSSMode (RSSParameters a) <> PARANDIS_RSS_DISABLED -> 0 <= Value h')) as (h' & -> & Hh').
  { case_bool_decide as Hm'; cbn [negb]; [exists (RSSHash i); split; [by destruct i|done]|by exists h]. }
  cbn [mbind res_bind]. cbv zeta. set (x1 := x <| PacketInfo := _ |>). set (a1 := put_desc d x1 a).
  assert (I1 : rx_inv V a1 (d :: held)) by (apply (rx_inv_put_desc _ _ _ _ x); try done; by left).
  assert (Hx1 : descriptors a1 !! d = Some x1) by apply lookup_insert_eq.
  assert (S01 : same_shape a a1) by (by apply (same_shape_put _ _ x)).
  assert (Hlen' : dataLength (i <| RSSHash := h' |>) = len) by apply Ha.
  assert (Hready : ready V x1).
  { constructor; cbn; cbn in Hlen'; rewrite ?Hlen'; try done; [|subst data; by destruct Ha|by rewrite Hhd].
    exists m, s. unfold rx_slack. split_and!; try done. lia. }
  change (RSSParameters a1) with (RSSParameters a).
  destruct (scaling_ok (RSSParameters a) (i <| RSSHash := h' |>) Hrss ltac:(cbn; exact Hh')) as (q & proc & -> & Hq). cbn [mbind res_bind].
  destruct (Z.eqb_spec q PARANDIS_RECEIVE_UNCLASSIFIED_PACKET) as [|Hnq].
  { destruct (add_unclassified_ok V a1 held k d r x1 Hk Hx1 Hready I1) as (a' & -> & I' & S').
    apply (same_shape_trans _ _ _ S01) in S'. eexists. split; [done|].
    split; [by apply rx_inv_count|by apply same_shape_count]. }
  destruct Hq as [?|Hq]; [done|]. destruct (add_queue_ok V a1 held q d x1 Hq Hx1 Hready I1) as (a' & -> & I' & S').
  apply (same_shape_trans _ _ _ S01) in S'. cbn [mbind res_bind].
  destruct (negb (q =? cur)); [|eexists; split; [done|]; split; [by apply rx_inv_count|by apply same_shape_count]].
  unfold redirect. destruct (bPollModeEnabled cfg); cbn [mbind res_bind].
  { eexists. split; [done|]. split; [apply rx_inv_count; by apply (rx_inv_frame _ a')|apply same_shape_count; by destruct S' as (? & ? & ?)]. }
  destruct (same_shape_lookup _ _ k r S' Hk) as (r' & Hr' & _). rewrite (zget_ok _ _ _ Hr'). cbn [mbind res_bind].
  eexists. split; [done|]. split; [apply rx_inv_count; by apply (rx_inv_frame _ a')|apply same_shape_count; by destruct S' as (? & ? & ?)].
Qed.

Lemma process_packet_ok pfuel a held k r q d x cur nFull pages header :
  (pPathBundles a)⟦k⟧ = Some r -> m_Reinsert r = true -> rx_inv V a held -> rss_ok (RSSParameters a) ->
  (exists l, m_NetReceiveBuffers r ≡ₚ d :: l /\ rxq_live (v_len V) q l) ->
  descriptors a !! d = Some x -> packet_ok pfuel nFull pages header ->
  exists a', process_packet cfg N pfuel k cur d nFull pages header
               (a <| pPathBundles := zinsert k (r <| m_VirtQueue := q |>) (pPathBundles a) |>) = Ok a' /\
    rx_inv V a' held /\ same_shape (a <| pPathBundles := zinsert k (r <| m_VirtQueue := q |>) (pPathBundles a) |>) a'.
Proof using Hmc.
  intros Hk Hr I Hrss Hl Hx [[Hp1 Hp2] (m & s & -> & Hb & Hz1 & Hz2 & Hz) Hs Hh Hf]. pose proof (zlookup_lt _ _ _ Hk) as Hkl.
  destruct (take_ok V a held k r q d Hk Hr I Hl) as (r' & Er & I1 & Hr').
  unfold process_packet, get_desc. cbn [descriptors set_field]. rewrite Hx. cbn [mbind res_bind].
  cbn [pPathBundles set_field]. rewrite (zget_ok _ _ (r <| m_VirtQueue := q |>)) by (by apply zlookup_zinsert_eq). cbn [mbind res_bind].
  rewrite Er. cbn [mbind res_bind]. unfold put_path. cbn [pPathBundles set_field put_desc].
  rewrite zset_ok by (by rewrite zlen_zinsert). cbn [mbind res_bind]. rewrite zinsert_zinsert. cbn [page0 mbind res_bind].
  set (x1 := x <| d_pages := [mk_page m s] |> <| d_header := header |>).
  set (a1 := a <| pPathBundles := zinsert k r' (pPathBundles a) |>) in I1.
  set (a0 := a <| pPathBundles := zinsert k (r <| m_VirtQueue := q |>) (pPathBundles a) |>).
  assert (S1 : same_shape a0 a1) by (split_and!; [done|cbn; by rewrite !fmap_zinsert, Hr'|done]).
  change (DataStartOffset (d_buf x1)) with (DataStartOffset (d_buf x)). destruct (ri_desc _ _ _ I _ _ Hx) as (_ & _ & _ & ->).
  rewrite u32_small by lia. cbn [Virtual].
  destruct (analyze_ok N pfuel m start (nFull - nVirtioHeaderSize cfg)) as (ok & i & -> & Hok);
    [done|done|lia|lia|done|]. cbn [mbind res_bind].
  set (a3 := put_desc d (x1 <| PacketInfo := i |>) _).
  assert (I3 : rx_inv V a3 (d :: held)).
  { apply (rx_inv_frame V (put_desc d (x1 <| PacketInfo := i |>) (put_desc d x1 a1))); [done|done|done|done|].
    apply (rx_inv_put_desc _ _ _ _ x1); [apply lookup_insert_eq|done|done|by left|]. apply (rx_inv_put_desc _ _ _ _ x); try done. by left. }
  assert (S3 : same_shape a0 a3).
  { eapply same_shape_trans; [exact S1|]. eapply (same_shape_trans _ (put_desc d x1 a1)); [by apply (same_shape_put _ _ x)|].
    apply (same_shape_put (put_desc d x1 a1) _ x1). apply lookup_insert_eq. }
  destruct ok; cbn [negb]; cycle 1.
  { destruct (reuse_ok _ _ _ _ I3) as (a' & -> & I' & S'). eexists. split; [done|].
    split; [by repeat apply rx_inv_count|by repeat apply same_shape_count; eapply same_shape_trans]. }
  destruct (distribute_ok a3 held k r' d (x1 <| PacketInfo := i |>) i m s start header (nFull - nVirtioHeaderSize cfg) cur)
    as (a' & E & I' & S'); try done; try lia.
  { cbn. by apply zlookup_zinsert_eq. } { apply lookup_insert_eq. } { by apply Hok. }
  exists a'. split; [exact E|]. split; [done|by eapply same_shape_trans].
Qed.

(** ** The ring *)

(** What the device does to the queue between two operations of the driver keeps
    the buffers in it, and what it returns fits a buffer. *)
Record device_ok (pfuel : nat) (D : rx_device) (budget : nat -> nat) : Prop := {
  do_run : forall n q l, rxq_live (v_len V) q l -> rxq_live (v_len V) (dev_run D n q) l;
  do_packet : forall n d nFull, v_len V nFull -> packet_ok pfuel nFull (dev_pages D n d) (dev_header D n d);
  do_budget : forall n q l, rxq_live (v_len V) q l -> (rxq_done (dev_run D n q) + budget (S n) <= rxq_done q + budget n)%nat }.

Lemma rx_loop_ok fuel n D budget k cur pfuel a held r :
  (rxq_done (m_VirtQueue r) + budget n < fuel)%nat -> device_ok pfuel D budget ->
  (pPathBundles a)⟦k⟧ = Some r -> m_Reinsert r = true -> rx_inv V a held -> rss_ok (RSSParameters a) ->
  exists a', rx_loop cfg N fuel n D k cur pfuel a = Ok a' /\ rx_inv V a' held /\ RSSParameters a' = RSSParameters a /\
    m_Reinsert <$> pPathBundles a' = m_Reinsert <$> pPathBundles a /\
    (base.size (descriptors a') <= base.size (descriptors a))%nat.
Proof using Hmc.
  revert n a r. induction fuel as [|fuel IH]; intros n a r Hf HD Hk Hr I Hrss; [lia|]. cbn [rx_loop].
  rewrite (zget_ok _ _ _ Hk). cbn [mbind res_bind].
  pose proof (pk_live _ _ _ _ (ri_path _ _ _ I _ _ Hk) Hr) as Hlive. pose proof (do_run _ _ _ HD n _ _ Hlive) as Hlive'.
  pose proof (do_budget _ _ _ HD n _ _ Hlive) as Hbud.
  destruct (rxq_get _ _ _ Hlive') as (b & q & HG & Hb). rewrite HG. cbn [mbind res_bind]. rewrite (put_path_ok _ r) by done. cbn [mbind res_bind].
  destruct b as [[d nFull]|]; cycle 1.
  { eexists. split; [done|]. pose proof (ri_path _ _ _ I _ _ Hk) as [? ? ? ? ?].
    split; [eapply (rx_inv_path V a held held); [done|done|constructor; try done; by eapply rxq_live_ok|by left|done]|]. split; [done|]. cbn. split; [|done]. rewrite fmap_zinsert.
    apply zinsert_id. by rewrite zlookup_fmap, Hk. }
  destruct Hb as (HP & Hdone & Hl). destruct (rx_inv_in _ _ _ d I) as [Hin _].
  destruct Hin as [x Hx].
  { unfold places. destruct (concat_zinsert (m_NetReceiveBuffers <$> pPathBundles a) k (m_NetReceiveBuffers r)) as (rn & N1 & _);
      [by rewrite zlookup_fmap, Hk|]. destruct Hl as (l & Hl & _). rewrite N1, Hl, !elem_of_app. right. right. right. left. by left. }
  destruct (process_packet_ok pfuel a held k r q d x cur nFull (dev_pages D n d) (dev_header D n d) Hk Hr I Hrss Hl Hx)
    as (a' & -> & I' & S'); [exact (do_packet _ _ _ HD n d nFull HP)|]. cbn [mbind res_bind].
  destruct (same_shape_lookup _ _ k (r <| m_VirtQueue := q |>) S') as (r' & Hr' & Hs);
    [cbn; by apply zlookup_zinsert_eq, (zlookup_lt _ _ r)|].
  unfold shape in Hs. cbn in Hs. injection Hs as Hs1 Hs2.
  destruct (IH (S n) a' r') as (a'' & E & I'' & R'' & P'' & Z''); [lia|done|done|congruence|done|by rewrite (proj1 S')|].
  exists a''. split; [done|]. split; [done|]. destruct S' as (S1 & S2 & S3). split; [by rewrite R'', S1|].
  split; [|cbn in S3; lia]. rewrite P''.
  assert (m_Reinsert <$> pPathBundles a' = fst <$> (shape <$> pPathBundles a')) as -> by (rewrite <- list_fmap_compose; by apply list_fmap_ext).
  rewrite S2, <- list_fmap_compose. cbn. rewrite fmap_zinsert. cbn. apply zinsert_id. by rewrite zlookup_fmap, Hk.
Qed.

(** ** Resetting the classification *)

Lemma unclassify_ok l a held :
  (forall d, d ∈ l -> exists x, descriptors a !! d = Some x /\ ready V x) -> rx_inv V a (l ++ held) ->
  exists a', unclassify l a = Ok a' /\ rx_inv V a' held /\ same_shape a a' /\ ReceiveQueues a' = ReceiveQueues a.
Proof using Type.
  revert a. induction l as [|d l IH]; intros a Hl I; [by exists a|]. cbn [unclassify].
  destruct (Hl d ltac:(by left)) as (x & Hx & Hready). unfold get_desc. rewrite Hx. cbn [mbind res_bind].
  destruct (ri_desc _ _ _ I _ _ Hx) as (_ & Hq & _). destruct (zlookup_in_range _ _ Hq) as [r Hr].
  destruct (add_unclassified_ok V a (l ++ held) (d_Queue x) d r x Hr Hx Hready I) as (a1 & E & I1 & S1).
  assert (ReceiveQueues a1 = ReceiveQueues a /\ descriptors a1 = descriptors a) as [R1 D1].
  { unfold add_unclassified in E. rewrite (zget_ok _ _ _ Hr) in E. cbn [mbind res_bind] in E. rewrite (put_path_ok _ r) in E by done.
    by injection E as <-. }
  rewrite E. cbn [mbind res_bind]. destruct (IH a1) as (a' & -> & I' & S' & R'); [intros d' Hd'; rewrite D1; apply Hl; by right|done|].
  exists a'. split; [done|]. split; [done|]. split; [by eapply same_shape_trans|congruence].
Qed.

Lemma reset_queues_ok n i a held :
  0 <= i -> i + Z.of_nat n <= PARANDIS_RSS_MAX_RECEIVE_QUEUES -> rx_inv V a held ->
  exists a', reset_queues n i a = Ok a' /\ rx_inv V a' held /\ same_shape a a' /\
    forall j, (ReceiveQueues a')⟦j⟧ = if (i <=? j) && (j <? i + Z.of_nat n) then Some [] else (ReceiveQueues a)⟦j⟧.
Proof using Type.
  revert i a. induction n as [|n IH]; intros i a Hi Hn I.
  { exists a. split_and!; try done. intros j. by replace ((i <=? j) && (j <? i + Z.of_nat 0)) with false by lia. } cbn [reset_queues].
  pose proof (ri_queues _ _ _ I) as Hl. destruct (zlookup_in_range (ReceiveQueues a) i ltac:(lia)) as [l Hq].
  rewrite (zget_ok _ _ _ Hq). cbn [mbind res_bind]. rewrite zset_ok by lia. cbn [mbind res_bind].
  destruct (unclassify_ok l (a <| ReceiveQueues := zinsert i [] (ReceiveQueues a) |>) held) as (a1 & -> & I1 & S1 & R1).
  { intros d Hd. cbn. apply (ri_ready _ _ _ I). unfold waiting. destruct (concat_zinsert _ _ _ Hq) as (rest & E1 & _).
    rewrite E1, !elem_of_app. by left; left. }
  { apply (rx_inv_queue V a held (l ++ held) i l); [done|solve_Permutation|intros d Hd; by apply elem_of_nil in Hd|done]. }
  cbn [mbind res_bind].
  destruct (IH (i + 1) a1) as (a' & E & I' & S' & Hempty); [lia|lia|done|]. exists a'. split; [done|]. split; [done|].
  split; [by eapply same_shape_trans|]. intros j. rewrite Hempty, R1. cbn. destruct (decide (i = j)) as [<-|].
  - rewrite zlookup_zinsert_eq by lia. by destruct (_ && _), (_ && _) eqn:E'; try done; lia.
  - rewrite zlookup_zinsert_ne by done.
    by replace ((i <=? j) && (j <? i + Z.of_nat (S n))) with ((i + 1 <=? j) && (j <? i + 1 + Z.of_nat n)) by lia.
Qed.

(** What waits in a queue. *)
Definition content (s : rx_queue) a : list Z :=
  match s with
  | Unclassified k => default [] (m_UnclassifiedPacketsQueue <$> (pPathBundles a)⟦k⟧)
  | Classified q => default [] ((ReceiveQueues a)⟦q⟧)
  end.

(** The packets of [l] that belong to path [k]. *)
Definition of_path a (k : Z) (l : list Z) : list Z := filter (fun d => queues (descriptors a) !! d = Some k) l.

Lemma unclassify_exact l a a' :
  unclassify l a = Ok a' ->
  descriptors a' = descriptors a /\ ReceiveQueues a' = ReceiveQueues a /\
  forall k, content (Unclassified k) a' = content (Unclassified k) a ++ of_path a k l.
Proof using Type.
  revert a. induction l as [|d l IH]; intros a; cbn [unclassify].
  { intros [= <-]. split_and!; try done. intros k. by rewrite app_nil_r. }
  unfold get_desc. destruct (descriptors a !! d) as [x|] eqn:Hx; [|done]. cbn [mbind res_bind].
  unfold add_unclassified. destruct (zget _ _) as [r|] eqn:Hr; [|done]. apply zget_ok_inv in Hr. cbn [mbind res_bind].
  rewrite (put_path_ok _ r) by done. cbn [mbind res_bind]. intros (D1 & R1 & U1)%IH. split_and!; [done..|]. intros k.
  rewrite U1. cbn [content pPathBundles set_field]. unfold of_path. cbn [descriptors set_field].
  assert (Hq : queues (descriptors a) !! d = Some (d_Queue x)) by (unfold queues; by rewrite lookup_fmap, Hx).
  destruct (decide (d_Queue x = k)) as [<-|Hne].
  - rewrite (filter_cons_True _ d) by done. rewrite (zlookup_zinsert_eq _ _ _ (zlookup_lt _ _ _ Hr)), Hr. cbn. by rewrite <- app_assoc.
  - rewrite (filter_cons_False _ d) by congruence. by rewrite zlookup_zinsert_ne.
Qed.

Lemma reset_exact suf pre a a' :
  ReceiveQueues a = pre ++ suf -> reset_queues (length suf) (zlen pre) a = Ok a' ->
  forall k, content (Unclassified k) a' = content (Unclassified k) a ++ of_path a k (concat suf).
Proof using Type.
  revert pre a. induction suf as [|l suf IH]; intros pre a HR; cbn [length reset_queues].
  { intros [= <-] k. by rewrite app_nil_r. }
  rewrite HR. rewrite (zget_ok _ _ l) by apply zlookup_middle. cbn [mbind res_bind].
  rewrite zset_ok by (unfold zlen; rewrite length_app; cbn; lia). rewrite zinsert_middle. cbn [mbind res_bind].
  destruct (unclassify l _) as [a1|] eqn:E; [|done]. cbn [mbind res_bind]. apply unclassify_exact in E as (D1 & R1 & U1).
  cbn [ReceiveQueues descriptors set_field] in *. intros E k. rewrite (IH (pre ++ [[]]) a1).
  - rewrite U1. unfold of_path. rewrite D1. cbn [concat descriptors set_field]. by rewrite list.filter_app, <- app_assoc.
  - by rewrite R1, <- app_assoc.
  - rewrite <- E. f_equal. unfold zlen. rewrite length_app. cbn. lia.
Qed.

(** ** Theorems *)

Lemma process_ring_ok fuel D budget k cur pfuel a held r :
  device_ok pfuel D budget -> (pPathBundles a)⟦k⟧ = Some r -> m_Reinsert r = true ->
  (rxq_done (m_VirtQueue r) + budget 0 < fuel)%nat -> rx_inv V a held -> rss_ok (RSSParameters a) ->
  exists a', ProcessRxRing cfg N fuel D k cur pfuel a = Ok a' /\ rx_inv V a' held /\ RSSParameters a' = RSSParameters a /\
    m_Reinsert <$> pPathBundles a' = m_Reinsert <$> pPathBundles a /\
    (base.size (descriptors a') <= base.size (descriptors a))%nat.
Proof using Hmc.
  intros HD Hk Hr Hf I Hrss. unfold ProcessRxRing. rewrite (zget_ok _ _ _ Hk). cbn [mbind res_bind].
  set (a0 := if _ >? _ then _ else _).
  assert (E0 : pPathBundles a0 = pPathBundles a /\ ReceiveQueues a0 = ReceiveQueues a /\ descriptors a0 = descriptors a /\
    RSSParameters a0 = RSSParameters a /\ rx_host a0 = rx_host a) by (unfold a0; by destruct (_ >? _)).
  destruct E0 as (E1 & E2 & E3 & E4 & E5).
  destruct (rx_loop_ok fuel 0 D budget k cur pfuel a0 held r) as (a' & -> & I' & R' & P' & Z');
    [done|done|by rewrite E1|done|by apply (rx_inv_frame _ a)|by rewrite E4|].
  exists a'. split_and!; [done|done|congruence|by rewrite P', E1|by rewrite <- E3].
Qed.

(** Processing the receive ring loses no buffer and duplicates none: with
    a queue that keeps its promises, a device whose packets fit the buffers, and
    sane RSS settings, [ProcessRxRing] ends without a fault, whatever the packets
    contain, and afterwards every receive buffer is again in exactly one place
    (list and virtqueue of its path, a receive queue, the unclassified packets, or
    held outside), and each path counts its buffers right. *)
Theorem ProcessRxRing_conserves fuel D budget k cur pfuel a held r :
  device_ok pfuel D budget -> (pPathBundles a)⟦k⟧ = Some r -> m_Reinsert r = true ->
  (rxq_done (m_VirtQueue r) + budget 0 < fuel)%nat -> rx_inv V a held -> rss_ok (RSSParameters a) ->
  exists a', ProcessRxRing cfg N fuel D k cur pfuel a = Ok a' /\ rx_inv V a' held /\ RSSParameters a' = RSSParameters a.
Proof using Hmc.
  intros. destruct (process_ring_ok fuel D budget k cur pfuel a held r) as (a' & ? & ? & ? & _); eauto.
Qed.

(** After new RSS parameters [ParaNdis_ResetRxClassification] empties every
    receive queue: the unclassified packets of each path are then those it had,
    followed by its own packets of the receive queues in the order of the queues,
    and no buffer is lost. *)
Theorem ParaNdis_ResetRxClassification_correct a held :
  rx_inv V a held ->
  exists a', ParaNdis_ResetRxClassification a = Ok a' /\ rx_inv V a' held /\ concat (ReceiveQueues a') = [] /\
    forall k, content (Unclassified k) a' = content (Unclassified k) a ++ of_path a k (concat (ReceiveQueues a)).
Proof using Type.
  intros I. pose proof (ri_queues _ _ _ I) as Hq. unfold ParaNdis_ResetRxClassification.
  destruct (reset_queues_ok (Z.to_nat (PARANDIS_RSS_MAX_RECEIVE_QUEUES - PARANDIS_FIRST_RSS_RECEIVE_QUEUE)) PARANDIS_FIRST_RSS_RECEIVE_QUEUE a held)
    as (a' & E & I' & _ & Hj); [done|done|done|].
  exists a'. split; [done|]. split; [done|]. split.
  - apply concat_nil. rewrite (ri_queues _ _ _ I'). intros j Hj'. rewrite Hj.
    destruct (_ && _) eqn:Eb; [done|]. unfold PARANDIS_RSS_MAX_RECEIVE_QUEUES, PARANDIS_FIRST_RSS_RECEIVE_QUEUE in *. lia.
  - apply (reset_exact (ReceiveQueues a) []); [done|]. rewrite <- E. f_equal. unfold PARANDIS_RSS_MAX_RECEIVE_QUEUES, PARANDIS_FIRST_RSS_RECEIVE_QUEUE, zlen in *. lia.
Qed.

End spec.
