(* ===== verification/NetRxDpcSpec.v ===== *)
(** * The DPC, set-up and release of the receive path

    Indicating packets, returning them and releasing the adapter keep every buffer
    in exactly one place and every block of memory with its buffer. *)

From Stdlib Require Import ZArith Lia ZifyBool.
From stdpp Require Import base list numbers gmap sets fin_maps fin_map_dom.
From S2P Require Import Prelude.
From S2P Require Import NetChecksum.
From S2P Require Import NetChecksumSpec.
From S2P Require Import NetOffload.
From S2P Require Import NetOffloadSpec.
From S2P Require Import NetIpv6Spec.
From S2P Require Import NetRx.
From S2P Require Import NetRxSpec.
From S2P Require Import NetRss.
From S2P Require Import NetRssSpec.
From S2P Require Import NetRxBuffer.
From S2P Require Import NetRxBufferSpec.
From S2P Require Import NetRxPath.
From S2P Require Import NetRxInv.
From S2P Require Import NetRxRingSpec.

Section dpc.
Context {Q : Type} `{RxVirtQueueLaws Q} (V : rx_env) (N : ndis_macros).
Abbreviation cfg := (v_cfg V).
Abbreviation start := (v_start V).
Implicit Types (a : PARANDIS_ADAPTER Q) (r : CParaNdisRX Q).

(** ** Taking packets from the queues *)

Definition exists_queue (s : rx_queue) a : Prop :=
  match s with
  | Unclassified k => 0 <= k < zlen (pPathBundles a)
  | Classified q => 0 <= q < PARANDIS_RSS_MAX_RECEIVE_QUEUES
  end.

(** The receive queues and the unclassified packets of the paths. *)
Definition queued a : list (list Z) * list (list Z) := (ReceiveQueues a, m_UnclassifiedPacketsQueue <$> pPathBundles a).

Lemma pop_ok s a held :
  exists_queue s a -> rx_inv V a held ->
  match content s a with
  | [] => ReceiveQueueGetBuffer s a = Ok (None, a)
  | d :: l => exists a', ReceiveQueueGetBuffer s a = Ok (Some d, a') /\ rx_inv V a' (d :: held) /\ same_shape a a' /\
      descriptors a' = descriptors a /\ (exists x, descriptors a !! d = Some x /\ ready V x) /\
      queued a' = match s with
                   | Unclassified k => (ReceiveQueues a, zinsert k l (m_UnclassifiedPacketsQueue <$> pPathBundles a))
                   | Classified q => (zinsert q l (ReceiveQueues a), m_UnclassifiedPacketsQueue <$> pPathBundles a)
                   end
  end.
Proof using Type.
  intros He I. destruct s as [k|q]; cbn [content ReceiveQueueGetBuffer exists_queue] in *.
  - destruct (zlookup_in_range _ _ He) as [r Hr]. rewrite Hr, (zget_ok _ _ _ Hr). cbn.
    pose proof (ri_path _ _ _ I _ _ Hr) as [? ? ? ? ?].
    destruct (m_UnclassifiedPacketsQueue r) as [|d l] eqn:E; [done|]. rewrite (put_path_ok _ r) by done. cbn [mbind res_bind].
    eexists. split; [done|]. split; [|split; [by apply (same_shape_path _ _ r)|]].
    + eapply (rx_inv_path V a held (d :: held)); [done| |by constructor| |done]; cbn; rewrite E; [solve_Permutation|]. left. by right.
    + split; [done|]. split; [|unfold queued; cbn; by rewrite fmap_zinsert]. apply (ri_ready _ _ _ I). unfold waiting.
      destruct (concat_zinsert (m_UnclassifiedPacketsQueue <$> pPathBundles a) k (m_UnclassifiedPacketsQueue r)) as (rn & N1 & _);
        [by rewrite zlookup_fmap, Hr|]. rewrite N1, E, !elem_of_app. right. left. by left.
  - rewrite <- (ri_queues _ _ _ I) in He. destruct (zlookup_in_range _ _ He) as [l Hl]. rewrite Hl, (zget_ok _ _ _ Hl). cbn.
    destruct l as [|d l]; [done|]. rewrite zset_ok by done. cbn [mbind res_bind]. eexists. split; [done|].
    split; [|split; [done|split; [done|split; [|done]]]].
    + apply (rx_inv_queue V a held (d :: held) q (d :: l)); [done|solve_Permutation|by left; right|done].
    + apply (ri_ready _ _ _ I). unfold waiting. destruct (concat_zinsert _ _ _ Hl) as (rn & N1 & _). rewrite N1, !elem_of_app. left. left. by left.
Qed.

(** Reuse does not touch the queues. *)
Lemma reuse_queued a a' d : ReuseReceiveBufferNoLock cfg a d = Ok a' -> queued a' = queued a.
Proof using Type.
  unfold ReuseReceiveBufferNoLock, get_desc, put_path. destruct (descriptors a !! d) as [x|]; [|done]. cbn [mbind res_bind].
  destruct (zget (pPathBundles a) (d_Queue x)) as [r|] eqn:Hr; [|done]. apply zget_ok_inv in Hr. pose proof (zlookup_lt _ _ _ Hr). cbn [mbind res_bind].
  assert (Hgo : forall r' a1, m_UnclassifiedPacketsQueue r' = m_UnclassifiedPacketsQueue r -> pPathBundles a1 = pPathBundles a ->
    ReceiveQueues a1 = ReceiveQueues a ->
    (l ← zset (pPathBundles a1) (d_Queue x) r'; Ok (a1 <| pPathBundles := l |>)) = Ok a' -> queued a' = queued a).
  { intros r' a1 E1 E2 E3. rewrite zset_ok by (by rewrite E2). cbn [mbind res_bind]. intros [= <-]. unfold queued. cbn.
    rewrite E2, E3, fmap_zinsert, E1, zinsert_id; [done|]. by rewrite zlookup_fmap, Hr. }
  destruct (negb _); [by apply Hgo|]. unfold AddRxBufferToQueue. destruct (AddBuf _ _ _ _ _ _) as [[rc q]|]; [|done]. cbn [mbind res_bind].
  destruct (0 <=? rc); cbn [mbind res_bind].
  - destruct (_ >=? _); [unfold KickRXRing; destruct (Kick _); [|done]|]; cbn [mbind res_bind]; by apply Hgo.
  - unfold free_desc. destruct (ParaNdis_FreeRxBufferDescriptor _ _); [|done]. cbn [mbind res_bind]. by apply Hgo.
Qed.

Lemma drain_ok fuel s a held :
  (length (content s a) < fuel)%nat -> exists_queue s a -> rx_inv V a held ->
  exists a', drain cfg fuel s a = Ok a' /\ rx_inv V a' held /\ same_shape a a' /\
    queued a' = match s with
                 | Unclassified k => (ReceiveQueues a, zinsert k [] (m_UnclassifiedPacketsQueue <$> pPathBundles a))
                 | Classified q => (zinsert q [] (ReceiveQueues a), m_UnclassifiedPacketsQueue <$> pPathBundles a)
                 end.
Proof using Type.
  revert a. induction fuel as [|fuel IH]; intros a Hf He I; [lia|]. cbn [drain]. pose proof (pop_ok s a held He I) as Hp.
  destruct (content s a) as [|d l] eqn:Ec.
  - rewrite Hp. cbn [mbind res_bind]. exists a. split_and!; try done.
    destruct s as [k|q]; cbn [content exists_queue] in *; unfold queued; f_equal; symmetry; apply zinsert_id.
    + rewrite zlookup_fmap. destruct (zlookup_in_range _ _ He) as [r Hr]. rewrite Hr in *. cbn in *. by rewrite Ec.
    + rewrite <- (ri_queues _ _ _ I) in He. destruct (zlookup_in_range _ _ He) as [r Hr]. rewrite Hr in *. cbn in *. by rewrite Ec.
  - destruct Hp as (a1 & -> & I1 & S1 & _ & _ & W1). cbn [mbind res_bind]. destruct (reuse_ok _ _ _ _ I1) as (a2 & E2 & I2 & S2).
    pose proof (reuse_queued _ _ _ E2) as W2. rewrite E2. cbn [mbind res_bind].
    pose proof (same_shape_len _ _ S1) as L1. pose proof (same_shape_len _ _ S2) as L2.
    assert (Hc : content s a2 = l /\ exists_queue s a2).
    { rewrite W1 in W2. unfold queued in W2. destruct s as [k|q]; cbn [content exists_queue] in *; injection W2 as Wq Wu.
      - split; [|lia]. rewrite <- zlookup_fmap, Wu, zlookup_zinsert_eq; [done|]. unfold zlen in *. by rewrite length_fmap.
      - split; [|done]. rewrite Wq, zlookup_zinsert_eq; [done|]. by rewrite (ri_queues _ _ _ I). }
    destruct Hc as [Hc He2]. destruct (IH a2) as (a' & E & I' & S' & W'); [rewrite Hc; cbn in Hf; lia|done|done|].
    exists a'. split; [done|]. split; [done|]. split; [eapply same_shape_trans; [done|]; by eapply same_shape_trans|].
    rewrite W'. rewrite W1 in W2. unfold queued in W2. destruct s; injection W2 as Wq Wu; rewrite Wq, Wu; by rewrite zinsert_zinsert.
Qed.

(** Nothing waits for longer than there are buffers. *)
Lemma content_len s a held : rx_inv V a held -> (length (content s a) <= base.size (descriptors a))%nat.
Proof using Type.
  intros I. assert (Hp : length (places a held) = base.size (descriptors a)).
  { rewrite (ri_places _ _ _ I), <- size_dom. done. }
  rewrite <- Hp. unfold places. rewrite !length_app. destruct s as [k|q]; cbn [content].
  - destruct ((pPathBundles a)⟦k⟧) as [r|] eqn:Hr; [|cbn; lia]. cbn.
    destruct (concat_zinsert (m_UnclassifiedPacketsQueue <$> pPathBundles a) k (m_UnclassifiedPacketsQueue r)) as (rn & N1 & _);
      [by rewrite zlookup_fmap, Hr|]. rewrite N1, length_app. lia.
  - destruct ((ReceiveQueues a)⟦q⟧) as [l|] eqn:Hl; [|cbn; lia]. cbn.
    destruct (concat_zinsert _ _ _ Hl) as (rn & N1 & _). rewrite N1, length_app. lia.
Qed.

Lemma drain_queues_ok fuel n i a held :
  0 <= i -> i + Z.of_nat n <= PARANDIS_RSS_MAX_RECEIVE_QUEUES -> (forall j, length (content (Classified j) a) < fuel)%nat -> rx_inv V a held ->
  exists a', foreach n i (fun i => drain cfg fuel (Classified i)) a = Ok a' /\ rx_inv V a' held /\ same_shape a a' /\
    m_UnclassifiedPacketsQueue <$> pPathBundles a' = m_UnclassifiedPacketsQueue <$> pPathBundles a /\
    forall j, (ReceiveQueues a')⟦j⟧ = if (i <=? j) && (j <? i + Z.of_nat n) then Some [] else (ReceiveQueues a)⟦j⟧.
Proof using Type.
  revert i a. induction n as [|n IH]; intros i a Hi Hn Hf I.
  { exists a. split_and!; try done. intros j. by replace ((i <=? j) && (j <? i + Z.of_nat 0)) with false by lia. }
  cbn [foreach]. destruct (drain_ok fuel (Classified i) a held (Hf i)) as (a1 & -> & I1 & S1 & W1); [cbn; lia|done|].
  unfold queued in W1. injection W1 as Wq Wu. cbn [mbind res_bind]. pose proof (ri_queues _ _ _ I) as Hl.
  destruct (IH (i + 1) a1) as (a' & E & I' & S' & U' & Q'); [lia|lia| |done|].
  { intros j. specialize (Hf j). cbn [content] in *. rewrite Wq. destruct (decide (i = j)) as [<-|].
    - rewrite zlookup_zinsert_eq by lia. cbn. lia.
    - by rewrite zlookup_zinsert_ne. }
  exists a'. split; [done|]. split; [done|]. split; [by eapply same_shape_trans|]. split; [congruence|].
  intros j. rewrite Q', Wq. destruct (decide (i = j)) as [<-|].
  - rewrite zlookup_zinsert_eq by lia. by destruct (_ && _), (_ && _) eqn:E'; try done; lia.
  - rewrite zlookup_zinsert_ne by done.
    by replace ((i <=? j) && (j <? i + Z.of_nat (S n))) with ((i + 1 <=? j) && (j <? i + 1 + Z.of_nat n)) by lia.
Qed.

Lemma drain_paths_ok fuel n i a held :
  0 <= i -> i + Z.of_nat n <= zlen (pPathBundles a) -> (forall j, length (content (Unclassified j) a) < fuel)%nat -> rx_inv V a held ->
  exists a', foreach n i (fun i => drain cfg fuel (Unclassified i)) a = Ok a' /\ rx_inv V a' held /\ same_shape a a' /\
    ReceiveQueues a' = ReceiveQueues a /\
    forall j, (m_UnclassifiedPacketsQueue <$> pPathBundles a')⟦j⟧ =
      if (i <=? j) && (j <? i + Z.of_nat n) then Some [] else (m_UnclassifiedPacketsQueue <$> pPathBundles a)⟦j⟧.
Proof using Type.
  revert i a. induction n as [|n IH]; intros i a Hi Hn Hf I.
  { exists a. split_and!; try done. intros j. by replace ((i <=? j) && (j <? i + Z.of_nat 0)) with false by lia. }
  cbn [foreach]. destruct (drain_ok fuel (Unclassified i) a held (Hf i)) as (a1 & -> & I1 & S1 & W1); [cbn; lia|done|].
  unfold queued in W1. injection W1 as Wq Wu. cbn [mbind res_bind]. pose proof (same_shape_len _ _ S1) as Hl.
  assert (Hlu : zlen (m_UnclassifiedPacketsQueue <$> pPathBundles a) = zlen (pPathBundles a)) by (unfold zlen; by rewrite length_fmap).
  destruct (IH (i + 1) a1) as (a' & E & I' & S' & U' & Q'); [lia|lia| |done|].
  { intros j. specialize (Hf j). cbn [content] in *. rewrite <- zlookup_fmap in *. rewrite Wu. destruct (decide (i = j)) as [<-|].
    - rewrite zlookup_zinsert_eq by lia. cbn. lia.
    - by rewrite zlookup_zinsert_ne. }
  exists a'. split; [done|]. split; [done|]. split; [by eapply same_shape_trans|]. split; [congruence|].
  intros j. rewrite Q', Wu. destruct (decide (i = j)) as [<-|].
  - rewrite zlookup_zinsert_eq by lia. by destruct (_ && _), (_ && _) eqn:E'; try done; lia.
  - rewrite zlookup_zinsert_ne by done.
    by replace ((i <=? j) && (j <? i + Z.of_nat (S n))) with ((i + 1 <=? j) && (j <? i + 1 + Z.of_nat n)) by lia.
Qed.


(** ** Preparing a packet *)

Lemma CheckRxChecksum_safe fuel t f v m s is4 is6 dataLength off :
  Forall byte m -> s <= zlen m -> s < 4294967296 -> 0 <= off -> Z.Even off -> 14 <= dataLength < 63504 -> off + dataLength <= s ->
  8200 <= Z.of_nat fuel ->
  exists pages cs, ParaNdis_CheckRxChecksum fuel t f v [mk_page m s] is4 is6 dataLength off true = Ok (pages, cs).
Proof using Type.
  intros Hm Hs Hs' Ho He Hl Hin Hf. unfold ParaNdis_CheckRxChecksum, ETH_HEADER_SIZE. rewrite u32_small by lia.
  pose proof (CheckSumVerify_safe fuel t m s (off + 14) (dataLength - 14) (rx_flags f v) Hm Hs ltac:(lia)) as Hsafe.
  destruct (is4 || is6); [|cbn [mbind res_bind]; repeat case_match; by eexists _, _].
  destruct (ParaNdis_CheckSumVerify _ _ _ _ _ _ _) as [[pages ppr]|]; [|specialize (Hsafe ltac:(apply even_add; [done|by exists 7]) ltac:(lia) ltac:(lia) Hf); done].
  cbn [mbind res_bind]. repeat case_match; by eexists _, _.
Qed.

Lemma tcp_header_range f : 0 <= f < 65536 -> 0 <= TCP_HEADER_LENGTH f <= 60.
Proof using Type.
  intros Hf. unfold TCP_HEADER_LENGTH. rewrite Z.shiftr_div_pow2 by lia. pose proof (N.land_le_r (Z.to_N f) 0xF0) as Hle.
  apply N2Z.inj_le in Hle. rewrite N2Z.inj_land, Z2N.id in Hle by lia. change (Z.of_N 0xF0) with 0xF0 in Hle.
  assert (0 <= Z.land f 0xF0) by (apply Z.land_nonneg; lia).
  split; [apply Z.div_pos; lia|apply Z.div_le_upper_bound; lia].
Qed.

(** The frame as the indication sees it: [n] bytes were stripped, and it is padded. *)
Record frame_ok (n : Z) (m : mem) (s : Z) (i0 i : NET_PACKET_INFO) : Prop := {
  fo_n : n = 0 \/ n = 4;
  fo_mem : Forall byte m /\ s <= zlen m;
  fo_at : headersBuffer i = start + n;
  fo_len : 60 <= dataLength i < 63504 /\ start + n + dataLength i + 1024 <= s;
  fo_l2 : 14 <= L2HdrLen i <= 18;
  fo_l3 : 0 <= L3HdrLen i <= MAX_SUPPORTED_IPV6_HEADERS;
  fo_class : (isBroadcast i, isMulticast i, isUnicast i) = (isBroadcast i0, isMulticast i0, isUnicast i0) }.

Lemma frame_of m s i :
  0 <= start -> Forall byte m -> s <= zlen m -> start + dataLength i + rx_slack <= s ->
  analysed start (dataLength i) i -> 0 <= dataLength i < 63504 ->
  exists n m1 i1 m' i',
    (if truth (ulPriorityVlanSetting cfg) && hasVlanHeader i then ParaNdis_StripVlanHeaderMoveHead m i else Ok (0, m, i)) = Ok (n, m1, i1) /\
    ParaNdis_PadPacketToMinimalLength m1 i1 = Ok (m', i') /\ frame_ok n m' s i i'.
Proof using Type.
  intros Hst Hm Hs Hz [(W1 & W2 & W3) _ (L1 & L2) _ _ _ L3 _ _ _] Hl. unfold rx_slack in Hz. destruct (_ && _) eqn:Ev.
  - apply andb_true_iff in Ev as [_ Ev]. rewrite Ev in L1.
    destruct (strip_ok m i Ev L1) as (m1 & E1 & Z1 & B1 & _); [lia|lia|lia|done|].
    destruct (pad_ok m1 (stripped i)) as (m2 & E2 & Z2 & B2 & _); [cbn; lia|cbn; lia|cbn; lia|done|].
    eexists _, _, _, _, _. split; [exact E1|]. split; [exact E2|]. constructor; cbn; try done; try lia; try by right. split; [done|lia].
  - destruct (pad_ok m i) as (m2 & E2 & Z2 & B2 & _); [lia|lia|lia|done|].
    eexists _, _, _, _, _. split; [done|]. split; [exact E2|]. constructor; cbn; try done; try lia; try by left. split; [done|lia].
Qed.

Context (Hstart : 0 <= start /\ Z.Even start) (Hmss : 312 < nMaxDataSize cfg < 4294967296).

Lemma coalesced_ok m s header i0 i n flags a :
  frame_ok n m s i0 i -> 10 <= zlen header -> exists k a', coalesced cfg m header i flags a = Ok (k, a') /\
    pPathBundles a' = pPathBundles a /\ ReceiveQueues a' = ReceiveQueues a /\ descriptors a' = descriptors a /\
    rx_host a' = rx_host a /\ RSSParameters a' = RSSParameters a.
Proof using Hstart Hmss.
  intros [Hn [Hm Hs] Hat [Hl Hz] H2 H3 _] Hh. unfold coalesced. destruct (truth _).
  - rewrite !rd16_ok by lia. cbn [mbind res_bind]. by eexists _, _.
  - rewrite rd16_ok by lia. cbn [mbind res_bind]. unfold PktGetTCPCoalescedSegmentsCount, tcp_flags, MAX_SUPPORTED_IPV6_HEADERS in *.
    rewrite rd16_ok by lia. cbn [mbind res_bind]. set (f := word_at m _).
    assert (0 <= TCP_HEADER_LENGTH f <= 60).
    { apply tcp_header_range. by apply word_range. }
    rewrite (u32_small (nMaxDataSize cfg - _)) by lia. set (mss := if _ || _ then _ else _).
    assert (mss <> 0) by (unfold mss; destruct (_ || _) eqn:E; lia).
    unfold cdiv. replace (mss =? 0) with false by lia. cbn [mbind res_bind]. by eexists _, _.
Qed.

(** What [a'] may differ in from [a] during an indication. *)
Definition same_paths a a' : Prop :=
  pPathBundles a' = pPathBundles a /\ ReceiveQueues a' = ReceiveQueues a /\ rx_host a' = rx_host a /\ RSSParameters a' = RSSParameters a.

Lemma same_paths_shape a a' :
  same_paths a a' -> (base.size (descriptors a') <= base.size (descriptors a))%nat -> same_shape a a' /\ queued a' = queued a.
Proof using Type. intros (E1 & E2 & _ & E3). unfold same_shape, queued. by rewrite E1, E2, E3. Qed.

Lemma set_rss_info_ok i header a :
  10 <= zlen header /\ (bHashReportedByDevice cfg = true -> 18 <= zlen header) ->
  exists h a', NBLSetRSSInfo cfg i header a = Ok (h, a') /\ same_paths a a' /\ descriptors a' = descriptors a.
Proof using Type.
  intros [H10 H18]. unfold NBLSetRSSInfo. case_bool_decide; [by eexists _, _|]. destruct (_ && _) eqn:E; [|by eexists _, _].
  apply andb_true_iff in E as [_ E]. specialize (H18 E). unfold rd32. rewrite !rd16_ok by lia.
  cbn [mbind res_bind]. eexists _, _. split; [done|]. by destruct (_ || _).
Qed.

Lemma set_8021q_ok i a : same_paths a (NBLSet8021QInfo cfg i a).2 /\ descriptors (NBLSet8021QInfo cfg i a).2 = descriptors a.
Proof using Type. unfold NBLSet8021QInfo. cbn. by destruct (_ || _). Qed.

(** The packet that was prepared, and what changes. *)
Record prepared (d : Z) (x : rx_desc) a (nbl : option NET_BUFFER_LIST) a' : Prop := {
  pr_frame : same_paths a a';
  pr_desc : exists x', descriptors a' = <[d := x']> (descriptors a) /\ d_Queue x' = d_Queue x /\ d_buf x' = d_buf x /\
    (isBroadcast (PacketInfo x'), isMulticast (PacketInfo x'), isUnicast (PacketInfo x')) ∈
      [(true, false, false); (false, true, false); (false, false, true)];
  pr_nbl : forall b, nbl = Some b -> nbl_desc b = d }.

Lemma prepare_ok pfuel granted d x a :
  descriptors a !! d = Some x -> ready V x -> DataStartOffset (d_buf x) = start -> 8200 <= Z.of_nat pfuel ->
  exists nbl n a', ParaNdis_PrepareReceivedPacket cfg pfuel granted d a = Ok (nbl, n, a') /\ prepared d x a nbl a'.
Proof using Hstart Hmss.
  intros Hx [(m & s & Hpg & Hm & Hs & Hs' & Hz) Hinfo Hlen Hhd] Hdata Hf. pose proof (an_class _ _ _ Hinfo) as Hcl.
  unfold ParaNdis_PrepareReceivedPacket, get_desc. rewrite Hx. cbn [mbind res_bind]. case_bool_decide.
  { eexists _, _, _. split; [done|]. constructor; [done| |done]. exists x. by rewrite insert_id. }
  rewrite Hpg. cbn [page0 mbind res_bind Virtual].
  destruct (frame_of m s (PacketInfo x) ltac:(tauto) Hm Hs Hz Hinfo Hlen) as (n & m1 & i1 & m' & i & E1 & E2 & F).
  set (st := if truth _ && _ then _ else _). assert (st = Ok (n, m1, i1)) as -> by exact E1. cbn [mbind res_bind].
  rewrite E2. cbn [mbind res_bind].
  pose proof (fo_class _ _ _ _ _ F) as Hci. cbn [upd_page0]. rewrite <- Hci in Hcl.
  destruct granted; cbn [negb]; cycle 1.
  { eexists _, _, _. split; [done|]. constructor; [done| |done]. eexists. split; [done|]. done. }
  assert (Hrd : forall o, 0 <= o < 10 -> exists b, rd8 (d_header x) o = Ok b) by (intros o Ho; eexists; apply rd8_ok; lia).
  destruct (Hrd 0 ltac:(lia)) as [flags ->]. destruct (Hrd 1 ltac:(lia)) as [gso ->]. cbn [mbind res_bind].
  set (a0 := put_desc d _ a). destruct (set_rss_info_ok i (d_header x) a0 Hhd) as (h & a1 & -> & P1 & D1). cbn [mbind res_bind].
  pose proof (set_8021q_ok i a1) as [P2 D2]. destruct (NBLSet8021QInfo cfg i a1) as [q a2]. cbn [snd] in P2, D2. cbn [mbind res_bind].
  assert (P02 : same_paths a a2) by (unfold same_paths in *; cbn in *; intuition congruence).
  destruct (negb _).
  - destruct (coalesced_ok m' s (d_header x) _ i n flags a2 F ltac:(tauto)) as (k & a3 & -> & P3 & P4 & P5 & P6 & P7). cbn [mbind res_bind].
    eexists _, _, _. split; [done|]. constructor; [| |by intros b [= <-]].
    + unfold same_paths in *. intuition congruence.
    + eexists. split; [by rewrite P5, D2, D1|]. done.
  - destruct F as [Fn [Fm Fs] _ [Fl Fz] _ _ _].
    change ({| Virtual := m; size := s |} <| Virtual := m' |>) with (mk_page m' s).
    edestruct (CheckRxChecksum_safe pfuel (RxTarget cfg) (RxOffload cfg) flags m' s (isIP4 i) (isIP6 i) (dataLength i)
      (n + DataStartOffset (d_buf x))) as (pages & cs & ->); [done|done|done|lia| |lia|lia|done|].
    { rewrite Hdata. apply even_add; [|tauto]. destruct Fn as [-> | ->]; [by exists 0|by exists 2]. }
    cbn [mbind res_bind]. eexists _, _, _. split; [done|]. constructor; [done| |by intros b [= <-]].
    eexists. cbn. split; [rewrite D2, D1; apply insert_insert_eq|]. done.
Qed.

(** The invariant while the packet is in hand. *)
Lemma prepared_inv d x a held nbl a' :
  descriptors a !! d = Some x -> d ∈ held -> prepared d x a nbl a' -> rx_inv V a held -> rx_inv V a' held.
Proof using Type.
  intros Hx Hd [(E1 & E2 & E3 & E4) (x' & D & Q1 & Q2 & _) _] I.
  apply (rx_inv_frame V (put_desc d x' a)); [done|done|done|done|]. by apply (rx_inv_put_desc _ _ _ _ x).
Qed.

(** ** Indicating packets *)

Definition descs (chain : list NET_BUFFER_LIST) : list Z := nbl_desc <$> chain.

Lemma statistics_ok i n a :
  (isBroadcast i, isMulticast i, isUnicast i) ∈ [(true, false, false); (false, true, false); (false, false, true)] ->
  exists a', UpdateReceiveSuccessStatistics i n a = Ok a' /\ same_paths a a' /\ descriptors a' = descriptors a.
Proof using Type.
  intros Hc. unfold UpdateReceiveSuccessStatistics.
  destruct (isUnicast i), (isBroadcast i), (isMulticast i); try (by eexists); exfalso; clear -Hc; set_solver.
Qed.

Lemma same_paths_inv a a' held : same_paths a a' -> descriptors a' = descriptors a -> rx_inv V a held -> rx_inv V a' held.
Proof using Type. intros (E1 & E2 & E3 & E4) E5. by apply rx_inv_frame. Qed.

(** What remains of a queue. *)
Lemma content_popped s a a' held l d :
  rx_inv V a held -> exists_queue s a -> content s a = d :: l ->
  queued a' = match s with
              | Unclassified k => (ReceiveQueues a, zinsert k l (m_UnclassifiedPacketsQueue <$> pPathBundles a))
              | Classified q => (zinsert q l (ReceiveQueues a), m_UnclassifiedPacketsQueue <$> pPathBundles a)
              end ->
  zlen (pPathBundles a') = zlen (pPathBundles a) -> content s a' = l /\ exists_queue s a'.
Proof using Type.
  intros I He Hc W L. unfold queued in W. destruct s as [k|q]; cbn [content exists_queue] in *; injection W as Wq Wu.
  - split; [|lia]. rewrite <- zlookup_fmap, Wu, zlookup_zinsert_eq; [done|]. unfold zlen in *. by rewrite length_fmap.
  - split; [|done]. rewrite Wq, zlookup_zinsert_eq; [done|]. by rewrite (ri_queues _ _ _ I).
Qed.

Lemma receive_queue_ok fuel pfuel granted s ir a held :
  (length (content s a) < fuel)%nat -> 8200 <= Z.of_nat pfuel -> exists_queue s a -> rx_inv V a (descs (ir_chain ir) ++ held) ->
  exists ir' a', ProcessReceiveQueue cfg fuel pfuel granted s ir a = Ok (ir', a') /\
    rx_inv V a' (descs (ir_chain ir') ++ held) /\ same_shape a a'.
Proof using Hstart Hmss.
  revert ir a. induction fuel as [|fuel IH]; intros ir a Hf Hpf He I; [lia|]. cbn [ProcessReceiveQueue].
  destruct (negb _); [by exists ir, a|]. pose proof (pop_ok s a _ He I) as Hp.
  destruct (content s a) as [|d l] eqn:Ec; [rewrite Hp; by exists ir, a|].
  destruct Hp as (a1 & -> & I1 & S1 & D1 & (x & Hx & Hready) & W1). cbn [mbind res_bind].
  (* the loop goes on with a state whose queues are those of [a1] *)
  assert (Hgo : forall ir2 a2, rx_inv V a2 (descs (ir_chain ir2) ++ held) -> same_shape a1 a2 -> queued a2 = queued a1 ->
    exists ir' a', ProcessReceiveQueue cfg fuel pfuel granted s ir2 a2 = Ok (ir', a') /\
      rx_inv V a' (descs (ir_chain ir') ++ held) /\ same_shape a a').
  { intros ir2 a2 I2 S2 W2. rewrite W1 in W2. pose proof (same_shape_trans _ _ _ S1 S2) as S12.
    destruct (content_popped s a a2 _ l d I He Ec W2 (same_shape_len _ _ S12)) as [Hc2 He2].
    destruct (IH ir2 a2) as (ir' & a' & E & I' & S'); [rewrite Hc2; cbn in Hf; lia|done|done|done|].
    exists ir', a'. split; [done|]. split; [done|]. by eapply same_shape_trans. }
  assert (Hreuse : forall ir2 a2, ir_chain ir2 = ir_chain ir -> rx_inv V a2 (d :: descs (ir_chain ir) ++ held) -> same_shape a1 a2 -> queued a2 = queued a1 ->
    exists ir' a', (a ← ReuseReceiveBufferNoLock cfg a2 d; ProcessReceiveQueue cfg fuel pfuel granted s ir2 a) = Ok (ir', a') /\
      rx_inv V a' (descs (ir_chain ir') ++ held) /\ same_shape a a').
  { intros ir2 a2 Ech I2 S2 W2. destruct (reuse_ok _ _ _ _ I2) as (a3 & E3 & I3 & S3). pose proof (reuse_queued _ _ _ E3) as W3. rewrite E3.
    cbn [mbind res_bind]. apply Hgo; [by rewrite Ech|by eapply same_shape_trans|congruence]. }
  destruct (TxRxPossible cfg); [|apply Hreuse; [done|by apply rx_inv_count|by apply same_shape_count|done]].
  rewrite <- D1 in Hx. pose proof (ri_desc _ _ _ I1 _ _ Hx) as (_ & _ & _ & Hdata).
  destruct (prepare_ok pfuel (granted (ir_n ir)) d x a1 Hx Hready Hdata Hpf) as (nbl & n & a2 & -> & P).
  pose proof (prepared_inv d x a1 _ nbl a2 Hx ltac:(by left) P I1) as I2. destruct P as [P1 (x' & D2 & Q1 & Q2 & Hcl) Hn].
  destruct (same_paths_shape _ _ P1) as [S2 W2]; [rewrite D2, map_size_insert_Some by (by eexists); done|]. cbn [mbind res_bind].
  destruct nbl as [b|]; [|by apply Hreuse; [|repeat apply rx_inv_count|repeat apply same_shape_count|]].
  unfold get_desc. rewrite D2, lookup_insert_eq. cbn [mbind res_bind].
  destruct (statistics_ok (PacketInfo x') n a2 Hcl) as (a3 & -> & P3 & D3). cbn [mbind res_bind].
  pose proof (same_paths_inv _ _ _ P3 D3 I2) as I3. destruct (same_paths_shape _ _ P3) as [S3 W3]; [by rewrite D3|].
  assert (Hx3 : descriptors a3 !! d = Some x') by (rewrite D3, D2; apply lookup_insert_eq).
  destruct (ri_desc _ _ _ I3 _ _ Hx3) as (_ & Hq & _). destruct (zlookup_in_range _ _ Hq) as [r Hr].
  rewrite (zget_ok _ _ _ Hr). cbn [mbind res_bind]. apply Hgo; [|by eapply same_shape_trans|congruence].
  cbn. unfold descs. rewrite fmap_app. cbn. rewrite (Hn b eq_refl). eapply rx_inv_perm; [|exact I3]. unfold descs. solve_Permutation.
Qed.

Lemma reuse_nbls_ok chain a held :
  rx_inv V a (descs chain ++ held) -> exists a', ParaNdis_ReuseRxNBLs cfg chain a = Ok a' /\ rx_inv V a' held /\ same_shape a a'.
Proof using Type.
  revert a. induction chain as [|b chain IH]; intros a I; [by exists a|]. cbn [ParaNdis_ReuseRxNBLs].
  destruct (reuse_ok V a (descs chain ++ held) (nbl_desc b) I) as (a1 & -> & I1 & S1). cbn [mbind res_bind].
  destruct (IH a1 I1) as (a' & -> & I' & S'). exists a'. split; [done|]. split; [done|]. by eapply same_shape_trans.
Qed.

(** ** The DPC *)

Context (Hmc : nofMulticastEntries cfg * ETH_ALEN <= zlen (MulticastList cfg)).

Lemma current_queue_ok rss cpu :
  rss_ok rss -> 0 <= cpu -> exists q, ParaNdis6_RSSGetCurrentCpuReceiveQueue rss cpu = Ok q /\
    (q = PARANDIS_RECEIVE_NO_QUEUE \/ 0 <= q < PARANDIS_RSS_MAX_RECEIVE_QUEUES).
Proof using Type.
  intros [_ _ Hc] Hcpu. unfold ParaNdis6_RSSGetCurrentCpuReceiveQueue, FindReceiveQueueForCurrentCpu, mapping.
  case_bool_decide as Hm; cbn [negb]; [|eexists; by auto]. destruct (Hc Hm) as (map & -> & Hl & Hv).
  destruct (Z.geb_spec cpu (CPUIndexMappingSize (ActiveRSSScalingSettings rss))); [eexists; by auto|]. cbn [mbind res_bind].
  destruct (zlookup_in_range map cpu ltac:(lia)) as [q Hq]. rewrite (zget_ok _ _ _ Hq). exists q. eauto.
Qed.

Lemma has_buffers_ok s a held : rx_inv V a held -> exists_queue s a -> exists b, ReceiveQueueHasBuffers s a = Ok b.
Proof using Type.
  intros I He. destruct s as [k|q]; cbn [ReceiveQueueHasBuffers exists_queue] in *.
  - destruct (zlookup_in_range _ _ He) as [r Hr]. rewrite (zget_ok _ _ _ Hr). by eexists.
  - rewrite <- (ri_queues _ _ _ I) in He. destruct (zlookup_in_range _ _ He) as [l Hl]. rewrite (zget_ok _ _ _ Hl). by eexists.
Qed.

(** The chain goes to NDIS, or its buffers are reused. *)
Lemma indicate_ok (registered : bool) (ir : indication) a held :
  rx_inv V a (descs (ir_chain ir) ++ held) ->
  exists kept a',
    (let nIndicate := zlen (ir_chain ir) in
     if truth nIndicate then
       if registered then
         if negb (ir_short ir) then Ok (ir_chain ir, count totalRxIndicates nIndicate a)
         else
           a ← ParaNdis_ReuseRxNBLs cfg (ir_chain ir) (count rxIndicatesWithResourcesFlag nIndicate a);
           Ok ([], count totalRxIndicates nIndicate a)
       else a ← ParaNdis_ReuseRxNBLs cfg (ir_chain ir) a; Ok ([], a)
     else Ok ([], a)) = Ok (kept, a') /\ rx_inv V a' (descs kept ++ held) /\ same_shape a a'.
Proof using Type.
  intros I. cbv zeta. destruct (truth _) eqn:Ht; cycle 1.
  { exists [], a. assert (ir_chain ir = []) as E; [|by rewrite E in I].
    unfold truth, zlen in Ht. destruct (ir_chain ir); [done|]. cbn in Ht. done. }
  destruct registered; [destruct (ir_short ir); cbn [negb]|].
  - destruct (reuse_nbls_ok (ir_chain ir) (count rxIndicatesWithResourcesFlag (zlen (ir_chain ir)) a) held) as (a' & -> & I' & S');
      [by apply rx_inv_count|]. cbn [mbind res_bind]. eexists _, _. split; [done|]. split; [by apply rx_inv_count|by apply same_shape_count].
  - eexists _, _. split; [done|]. split; [by apply rx_inv_count|by apply same_shape_count].
  - destruct (reuse_nbls_ok _ _ _ I) as (a' & -> & I' & S'). cbn [mbind res_bind]. by eexists _, _.
Qed.

(** A path that the DPC serves. *)
Definition served_path (fuel : nat) (budget : nat -> nat) (pathBundle : option Z) a : Prop :=
  match pathBundle with
  | Some k => exists r, (pPathBundles a)⟦k⟧ = Some r /\ m_Reinsert r = true /\ (rxq_done (m_VirtQueue r) + budget 0 < fuel)%nat
  | None => True
  end.

Lemma dpc_ring_ok fuel pfuel E budget pathBundle n cur a held :
  device_ok V pfuel (e_device E) budget -> served_path fuel budget pathBundle a ->
  (base.size (descriptors a) < fuel)%nat -> 8200 <= Z.of_nat pfuel -> rx_inv V a held -> rss_ok (RSSParameters a) ->
  exists ir a1,
    match pathBundle with
    | Some k =>
        a ← ProcessRxRing cfg N fuel (e_device E) k cur pfuel a;
        if e_owner E then ProcessReceiveQueue cfg fuel pfuel (e_granted E) (Unclassified k) (mk_ind n [] false 0) a
        else Ok (mk_ind n [] false 0, a)
    | None => Ok (mk_ind n [] false 0, a)
    end = Ok (ir, a1) /\ rx_inv V a1 (descs (ir_chain ir) ++ held) /\ RSSParameters a1 = RSSParameters a /\
    (base.size (descriptors a1) <= base.size (descriptors a))%nat /\ zlen (pPathBundles a1) = zlen (pPathBundles a).
Proof using Hstart Hmss Hmc.
  intros HD Hs Hf Hpf I Hrss. destruct pathBundle as [k|]; [|by eexists _, _].
  destruct Hs as (r & Hk & Hr & Hfr).
  destruct (process_ring_ok V N Hmc fuel (e_device E) budget k cur pfuel a held r HD Hk Hr Hfr I Hrss) as (a1 & -> & I1 & R1 & P1 & Z1).
  cbn [mbind res_bind]. assert (L1 : zlen (pPathBundles a1) = zlen (pPathBundles a)).
  { apply (f_equal zlen) in P1. unfold zlen in *. by rewrite !length_fmap in P1. }
  destruct (e_owner E); [|by eexists _, _].
  destruct (receive_queue_ok fuel pfuel (e_granted E) (Unclassified k) (mk_ind n [] false 0) a1 held) as (ir & a2 & E2 & I2 & S2);
    [pose proof (content_len (Unclassified k) a1 held I1); lia|done|cbn; rewrite L1; by eapply zlookup_lt|done|].
  exists ir, a2. split; [done|]. split; [done|]. pose proof (same_shape_len _ _ S2). destruct S2 as (R2 & _ & Z2).
  split_and!; [congruence|lia|lia].
Qed.

Lemma dpc_queue_ok fuel pfuel granted cur ir a held :
  (base.size (descriptors a) < fuel)%nat -> 8200 <= Z.of_nat pfuel -> rx_inv V a (descs (ir_chain ir) ++ held) ->
  cur = PARANDIS_RECEIVE_NO_QUEUE \/ 0 <= cur < PARANDIS_RSS_MAX_RECEIVE_QUEUES ->
  exists b ir' a1,
    (if negb (cur =? PARANDIS_RECEIVE_NO_QUEUE) then
       '(ir, a) ← ProcessReceiveQueue cfg fuel pfuel granted (Classified cur) (mk_ind (ir_left ir) (ir_chain ir) false (ir_n ir)) a;
       b ← ReceiveQueueHasBuffers (Classified cur) a; Ok (b, ir, a)
     else Ok (false, ir, a)) = Ok (b, ir', a1) /\ rx_inv V a1 (descs (ir_chain ir') ++ held) /\ same_shape a a1.
Proof using Hstart Hmss.
  intros Hf Hpf I Hcur. destruct (Z.eqb_spec cur PARANDIS_RECEIVE_NO_QUEUE) as [|Hne]; cbn [negb]; [by eexists _, _, _|].
  destruct Hcur as [?|Hcur]; [done|].
  destruct (receive_queue_ok fuel pfuel granted (Classified cur) (mk_ind (ir_left ir) (ir_chain ir) false (ir_n ir)) a held)
    as (ir' & a1 & -> & I1 & S1); [pose proof (content_len (Classified cur) a _ I); lia|done|done|done|].
  cbn [mbind res_bind]. destruct (has_buffers_ok (Classified cur) a1 _ I1 Hcur) as [b ->]. cbn [mbind res_bind]. by eexists _, _, _.
Qed.

Lemma dpc_ok fuel pfuel E budget pathBundle n cpu a held :
  device_ok V pfuel (e_device E) budget -> served_path fuel budget pathBundle a ->
  (base.size (descriptors a) < fuel)%nat -> 8200 <= Z.of_nat pfuel -> 0 <= cpu ->
  rx_inv V a held -> rss_ok (RSSParameters a) ->
  exists again kept a', RxDPCWorkBody cfg N fuel pfuel E pathBundle n cpu a = Ok (again, kept, a') /\
    rx_inv V a' (descs kept ++ held) /\ RSSParameters a' = RSSParameters a /\ (base.size (descriptors a') <= base.size (descriptors a))%nat.
Proof using Hstart Hmss Hmc.
  intros HD Hserved Hf Hpf Hcpu I Hrss. unfold RxDPCWorkBody.
  destruct (current_queue_ok _ _ Hrss Hcpu) as (cur & -> & Hcur). cbn [mbind res_bind].
  destruct (dpc_ring_ok fuel pfuel E budget pathBundle n cur a held HD Hserved Hf Hpf I Hrss) as (ir & a1 & -> & I1 & R1 & Z1 & L1).
  cbn [mbind res_bind].
  destruct (dpc_queue_ok fuel pfuel (e_granted E) cur ir a1 held ltac:(lia) Hpf I1 Hcur) as (b & ir' & a2 & -> & I2 & S2).
  cbn [mbind res_bind]. destruct (indicate_ok (e_registered E) ir' a2 held I2) as (kept & a3 & E3 & I3 & S3). cbv zeta in E3 |- *. rewrite E3.
  cbn [mbind res_bind]. pose proof (same_shape_trans _ _ _ S2 S3) as S23. assert (R3 : RSSParameters a3 = RSSParameters a /\ (base.size (descriptors a3) <= base.size (descriptors a))%nat).
  { destruct S23 as (R & _ & Z). split; [congruence|lia]. }
  destruct pathBundle as [k|]; [|by eexists _, _, _]. destruct Hserved as (r & Hk & _).
  destruct b; cbn [negb]; [by eexists _, _, _|].
  destruct (has_buffers_ok (Unclassified k) a3 _ I3) as [b ->];
    [cbn; rewrite (same_shape_len _ _ S23), L1; by eapply zlookup_lt|]. by eexists _, _, _.
Qed.



End dpc.
