(* ===== verification/NetRxLifeSpec.v ===== *)
(** * Set-up and release of the receive path

    The invariant is established when the buffers are prepared and kept when more
    are allocated or the queue is populated again; the release returns all memory. *)

From Stdlib Require Import ZArith Lia ZifyBool.
From stdpp Require Import base list numbers gmap sets fin_maps fin_map_dom.
From S2P Require Import Prelude.
From S2P Require Import NetRss.
From S2P Require Import NetRxBuffer.
From S2P Require Import NetRxBufferSpec.
From S2P Require Import NetRxPath.
From S2P Require Import NetRxInv.
From S2P Require Import NetRxRingSpec.
From S2P Require Import NetRxDpcSpec.

Section life.
Context {Q : Type} `{RxVirtQueueLaws Q} (V : rx_env).
Abbreviation cfg := (v_cfg V).
Abbreviation start := (v_start V).
Implicit Types (a : PARANDIS_ADAPTER Q) (r : CParaNdisRX Q).

(** ** Release *)

(** During the release only the table, the lists and the memory count. *)
Record releasing a (held : list Z) : Prop := {
  rl_nodup : NoDup (held ++ concat (m_NetReceiveBuffers <$> pPathBundles a));
  rl_in : forall d, d ∈ held ++ concat (m_NetReceiveBuffers <$> pPathBundles a) <-> is_Some (descriptors a !! d);
  rl_ok : forall k r, (pPathBundles a)⟦k⟧ = Some r -> rxq_ok (m_VirtQueue r);
  rl_memory : memory_ok V (descriptors a) (rx_host a) }.

Lemma free_all_ok l a :
  NoDup l -> (forall d, d ∈ l -> is_Some (descriptors a !! d)) -> memory_ok V (descriptors a) (rx_host a) ->
  exists ds h, free_all l a = Ok (a <| descriptors := ds |> <| rx_host := h |>) /\ memory_ok V ds h /\
    forall d, is_Some (ds !! d) <-> is_Some (descriptors a !! d) /\ d ∉ l.
Proof using Type.
  revert a. induction l as [|d l IH]; intros a Hn Hin M.
  { exists (descriptors a), (rx_host a). split; [by destruct a|]. split; [done|]. intros d. rewrite list.elem_of_nil. tauto. }
  apply NoDup_cons in Hn as [Hd Hn]. cbn [free_all]. destruct (Hin d) as [x Hx]; [by left|]. unfold get_desc. rewrite Hx. cbn [mbind res_bind].
  destruct (free_desc_ok V a d x Hx M) as (h & -> & M1). cbn [mbind res_bind].
  edestruct (IH (a <| descriptors := delete d (descriptors a) |> <| rx_host := h |>)) as (ds & h' & -> & M' & Hds); [done| |done|].
  { intros d' Hd'. cbn. rewrite lookup_delete_ne by (intros <-; done). apply Hin. by right. }
  exists ds, h'. split; [done|]. split; [done|]. intros d'. rewrite Hds. cbn. rewrite lookup_delete_is_Some, list.elem_of_cons. naive_solver.
Qed.

Lemma release_path_ok i a held :
  0 <= i < zlen (pPathBundles a) -> releasing a held ->
  exists a', (a ← rx_Shutdown i a; FreeRxDescriptorsFromList i a) = Ok a' /\ releasing a' held /\
    m_NetReceiveBuffers <$> pPathBundles a' = zinsert i [] (m_NetReceiveBuffers <$> pPathBundles a).
Proof using Type.
  intros Hi [Hnd Hin Hok M]. destruct (zlookup_in_range (pPathBundles a) i Hi) as [r Hr].
  unfold rx_Shutdown. rewrite (zget_ok _ _ _ Hr). cbn [mbind res_bind].
  destruct (rxq_shutdown _ (Hok _ _ Hr)) as (q & -> & Hq). cbn [mbind res_bind]. rewrite (put_path_ok _ r) by done. cbn [mbind res_bind].
  set (r1 := r <| m_VirtQueue := _ |> <| m_Reinsert := false |>). set (a1 := a <| pPathBundles := _ |>).
  destruct (concat_zinsert (m_NetReceiveBuffers <$> pPathBundles a) i (m_NetReceiveBuffers r)) as (rest & C1 & C2);
    [by rewrite zlookup_fmap, Hr|].
  assert (Hr1 : (pPathBundles a1)⟦i⟧ = Some r1) by (by apply zlookup_zinsert_eq).
  unfold FreeRxDescriptorsFromList. rewrite (zget_ok _ _ _ Hr1). cbn [mbind res_bind].
  rewrite C1, Permutation_app_swap_app in Hnd. apply NoDup_app in Hnd as (Hnl & Hdisj & Hnr).
  destruct (free_all_ok (m_NetReceiveBuffers r1) a1) as (ds & h & -> & M' & Hds); [done| |done|].
  { intros d Hd. apply Hin. rewrite C1, !elem_of_app. right. by left. }
  cbn [mbind res_bind]. cbn [pPathBundles set_field]. rewrite (zget_ok _ _ _ Hr1). cbn [mbind res_bind].
  rewrite (put_path_ok _ r1) by done. eexists. split; [done|]. cbn. rewrite zinsert_zinsert, fmap_zinsert. split; [|done].
  constructor; cbn; rewrite ?zinsert_zinsert, ?fmap_zinsert.
  - by rewrite C2.
  - intros d. rewrite Hds. cbn. rewrite <- Hin, C1, C2. cbn [app]. rewrite !elem_of_app. specialize (Hdisj d). rewrite elem_of_app in Hdisj.
    change (m_NetReceiveBuffers r1) with (m_NetReceiveBuffers r). tauto.
  - intros k r0. destruct (decide (i = k)) as [<-|]; [|rewrite zlookup_zinsert_ne by done; apply Hok].
    rewrite zlookup_zinsert_eq by done. by intros [= <-].
  - done.
Qed.

Lemma release_paths_ok n i a held :
  0 <= i -> i + Z.of_nat n = zlen (pPathBundles a) -> releasing a held ->
  (forall j, 0 <= j < i -> (m_NetReceiveBuffers <$> pPathBundles a)⟦j⟧ = Some []) ->
  exists a', foreach n i (fun i a => a ← rx_Shutdown i a; FreeRxDescriptorsFromList i a) a = Ok a' /\
    NoDup held /\ (forall d, d ∈ held <-> is_Some (descriptors a' !! d)) /\ memory_ok V (descriptors a') (rx_host a').
Proof using Type.
  revert i a. induction n as [|n IH]; intros i a Hi Hn R Hprev.
  { exists a. split; [done|]. assert (concat (m_NetReceiveBuffers <$> pPathBundles a) = []) as E0.
    { apply concat_nil. intros j. unfold zlen. rewrite length_fmap. fold (zlen (pPathBundles a)). intros Hj. apply Hprev. lia. }
    destruct R as [Hnd Hin _ M]. rewrite E0, app_nil_r in Hnd. split; [done|]. split; [|done]. intros d. by rewrite <- Hin, E0, app_nil_r. }
  cbn [foreach]. destruct (release_path_ok i a held ltac:(lia) R) as (a1 & -> & R1 & E1). cbn [mbind res_bind].
  assert (Hl : zlen (pPathBundles a1) = zlen (pPathBundles a)).
  { apply (f_equal zlen) in E1. rewrite zlen_zinsert in E1. unfold zlen in *. by rewrite !length_fmap in E1. }
  apply (IH (i + 1) a1); [lia|lia|done|]. intros j Hj. rewrite E1. destruct (decide (i = j)) as [<-|].
  - apply zlookup_zinsert_eq. unfold zlen. rewrite length_fmap. fold (zlen (pPathBundles a)). lia.
  - rewrite zlookup_zinsert_ne by done. apply Hprev. lia.
Qed.

Lemma release_ok fuel a held :
  rx_inv V a held -> (base.size (descriptors a) < fuel)%nat ->
  exists a', VirtIONetRelease cfg fuel a = Ok a' /\ NoDup held /\ (forall d, d ∈ held <-> is_Some (descriptors a' !! d)) /\
    memory_ok V (descriptors a') (rx_host a').
Proof using Type.
  intros I Hf. unfold VirtIONetRelease.
  destruct (drain_queues_ok V fuel (Z.to_nat PARANDIS_RSS_MAX_RECEIVE_QUEUES) 0 a held) as (a1 & -> & I1 & S1 & U1 & Q1);
    [done|unfold PARANDIS_RSS_MAX_RECEIVE_QUEUES; lia|intros j; pose proof (content_len V (Classified j) _ _ I); lia|done|].
  cbn [mbind res_bind]. pose proof (same_shape_len _ _ S1) as L1.
  destruct (drain_paths_ok V fuel (length (pPathBundles a1)) 0 a1 held) as (a2 & -> & I2 & S2 & Q2 & U2); [done|unfold zlen; lia| |done|].
  { intros j. pose proof (content_len V (Unclassified j) _ _ I). cbn [content] in *. rewrite <- zlookup_fmap in *. rewrite U1. lia. }
  cbn [mbind res_bind]. pose proof (same_shape_len _ _ S2) as L2.
  apply (release_paths_ok (length (pPathBundles a2)) 0 a2 held); [done|unfold zlen; lia| |intros; lia].
  assert (concat (ReceiveQueues a2) = []) as Eq.
  { apply concat_nil. intros j Hj. rewrite (ri_queues _ _ _ I2) in Hj. rewrite Q2, Q1.
    destruct (_ && _) eqn:E; [done|]. unfold PARANDIS_RSS_MAX_RECEIVE_QUEUES in *. lia. }
  assert (concat (m_UnclassifiedPacketsQueue <$> pPathBundles a2) = []) as Eu.
  { apply concat_nil. intros j Hj. rewrite U2. unfold zlen in *. rewrite length_fmap in Hj. destruct (_ && _) eqn:E; [done|]. lia. }
  pose proof (rx_inv_nodup _ _ _ I2) as Hn. pose proof (ri_places _ _ _ I2) as Hp. unfold places in Hn, Hp. rewrite Eq, Eu in Hn, Hp.
  constructor; [exact Hn| | |apply I2].
  - intros d. change (held ++ concat (m_NetReceiveBuffers <$> pPathBundles a2)) with
      (held ++ [] ++ [] ++ concat (m_NetReceiveBuffers <$> pPathBundles a2)). by rewrite Hp, elem_of_elements, elem_of_dom.
  - intros k r Hk. apply (ri_path _ _ _ I2 _ _ Hk).
Qed.

(** The release of the adapter frees every receive buffer exactly once,
    wherever it waits, and gives back every block of shared memory and every MDL
    of the receive path, except those of the buffers that NDIS still holds. *)
Theorem VirtIONetRelease_frees_all fuel a held :
  rx_inv V a held -> (base.size (descriptors a) < fuel)%nat ->
  exists a', VirtIONetRelease cfg fuel a = Ok a' /\ NoDup held /\ (forall d, d ∈ held <-> is_Some (descriptors a' !! d)) /\
    memory_ok V (descriptors a') (rx_host a').
Proof using Type. apply release_ok. Qed.

(** ** A new buffer *)

Lemma owned_insert ds d x k :
  ds !! d = None -> owned (queues (<[d := x]> ds)) k = if decide (k = d_Queue x) then owned (queues ds) k + 1 else owned (queues ds) k.
Proof using Type.
  intros Hd. pose proof (owned_deleted (<[d := x]> ds) d x k ltac:(apply lookup_insert_eq)) as E.
  rewrite delete_insert_id in E by done. case_decide; lia.
Qed.

(** Buffer [d] is added to the table and to the list of path [k]. *)
Lemma rx_inv_new a held d x r r' h :
  (pPathBundles a)⟦d_Queue x⟧ = Some r -> descriptors a !! d = None -> d <> 0 ->
  rxq_buf (BufferSGArray (d_buf x)) (indirect V (d_buf x)) -> DataStartOffset (d_buf x) = start ->
  memory_ok V (<[d := x]> (descriptors a)) h ->
  m_NetReceiveBuffers r' = m_NetReceiveBuffers r ++ [d] -> m_UnclassifiedPacketsQueue r' = m_UnclassifiedPacketsQueue r ->
  m_NetNofReceiveBuffers r' = u32 (m_NetNofReceiveBuffers r + 1) ->
  m_NetMaxReceiveBuffers r' = owned (queues (descriptors a)) (d_Queue x) + 1 ->
  owned (queues (descriptors a)) (d_Queue x) + 1 < 4294967296 ->
  rxq_live (v_len V) (m_VirtQueue r') (d :: m_NetReceiveBuffers r) -> rx_inv V a held ->
  rx_inv V (a <| descriptors := <[d := x]> (descriptors a) |> <| rx_host := h |> <| pPathBundles := zinsert (d_Queue x) r' (pPathBundles a) |>) held.
Proof using Type.
  intros Hr Hd Hnz Hbuf Hst M E1 E2 E3 E4 E5 Hlive I. pose proof (zlookup_lt _ _ _ Hr) as Hk. pose proof (rx_inv_nodup _ _ _ I) as Hnd.
  destruct I as [H1 H2 H3 H4 H5 H6]. pose proof (H3 _ _ Hr) as [P1 P2 _ _ [P4 P5]].
  destruct (concat_zinsert (m_NetReceiveBuffers <$> pPathBundles a) (d_Queue x) (m_NetReceiveBuffers r)) as (rn & N1 & N2);
    [by rewrite zlookup_fmap, Hr|].
  assert (Hu : (m_UnclassifiedPacketsQueue <$> zinsert (d_Queue x) r' (pPathBundles a)) = (m_UnclassifiedPacketsQueue <$> pPathBundles a))
    by (rewrite fmap_zinsert, E2; apply zinsert_id; by rewrite zlookup_fmap, Hr).
  assert (Hle : zlen (m_NetReceiveBuffers r) <= owned (queues (descriptors a)) (d_Queue x)).
  { apply owned_bound; [|done]. unfold places in Hnd. rewrite N1 in Hnd. apply NoDup_app in Hnd as (_ & _ & Hnd). apply NoDup_app in Hnd as (_ & _ & Hnd).
    apply NoDup_app in Hnd as (_ & _ & Hnd). by apply NoDup_app in Hnd as (? & _ & _). }
  assert (Hmine : forall k r0, (pPathBundles a)⟦k⟧ = Some r0 ->
    Forall (fun d' => queues (<[d := x]> (descriptors a)) !! d' = Some k) (m_NetReceiveBuffers r0)).
  { intros k r0 Hk0. eapply Forall_impl; [exact (pk_mine _ _ _ _ (H3 _ _ Hk0))|]. intros d' Hd'. unfold queues in *. rewrite fmap_insert.
    rewrite lookup_insert_ne; [done|]. intros <-. by rewrite lookup_fmap, Hd in Hd'. }
  pose proof (zlen_nonneg (m_NetReceiveBuffers r)) as Hnn.
  constructor; cbn; try done.
  - unfold places in *. cbn. rewrite Hu, fmap_zinsert, E1, N2, dom_insert_L, elements_union_singleton by (by apply not_elem_of_dom).
    rewrite <- H1, N1. solve_Permutation.
  - intros d' y. rewrite zlen_zinsert. destruct (decide (d = d')) as [<-|].
    + rewrite lookup_insert_eq. intros [= <-]. done.
    + rewrite lookup_insert_ne by done. apply H2.
  - intros k r0. pose proof (owned_insert _ _ x k Hd) as Hown. destruct (decide (d_Queue x = k)) as [<-|Hne].
    + rewrite zlookup_zinsert_eq by done. intros [= <-]. rewrite decide_True in Hown by done.
      constructor; rewrite ?E1; cbn -[queues].
      * rewrite E3, P1, zlen_app. change (zlen [d]) with 1. rewrite u32_small by lia. done.
      * apply Forall_app_2; [by apply Hmine|]. apply Forall_cons_2; [|done]. unfold queues. by rewrite fmap_insert, lookup_insert_eq.
      * by eapply rxq_live_ok.
      * intros _. eapply rxq_perm; [|exact Hlive]. solve_Permutation.
      * rewrite Hown. lia.
    + rewrite zlookup_zinsert_ne by done. intros Hk0. pose proof (H3 _ _ Hk0) as [? ? ? ? ?]. constructor; try done; [by apply Hmine|].
      rewrite decide_False in Hown by done. by rewrite Hown.
  - intros d'. unfold waiting in *. cbn. rewrite Hu. intros Hd'. destruct (H6 d' Hd') as (y & Hy & Hry).
    exists y. split; [|done]. rewrite lookup_insert_ne; [done|]. intros <-. congruence.
Qed.

(** ** Allocating buffers *)

Context (A : rx_alloc) (place : gset Z -> Z) (combined : bool) (payload : Z).

(** What set-up relies on: an allocator that gives out unused addresses, grants
    MDLs and keeps blocks apart, a layout made for the packets, and a queue that
    takes the buffers made with it. *)
Record setup_ok : Prop := {
  st_place : forall X : gset Z, (place X ∉ X) /\ place X <> 0;
  st_mdl : forall n, NdisAllocateMdl A n = true;
  st_apart : apart A;
  st_layout : layout_ok (rx_layout cfg) combined payload (nVirtioHeaderSize cfg);
  st_payload : 0 < payload;
  st_header : 0 < nVirtioHeaderSize cfg < 65536;
  st_start : start = if combined then nVirtioHeaderSize cfg else 0;
  st_buf : forall p first ds, buffer_ok (rx_layout cfg) p combined payload (nVirtioHeaderSize cfg) first ds ->
    rxq_buf (BufferSGArray p) (indirect V p);
  st_limit : maxRxBufferPerQueue cfg < 4294967296 }.
Context (Hset : setup_ok).

(** Only the memory of the system changes, and it is the same. *)
Lemma rx_inv_host a h held : memory_ok V (descriptors a) h -> rx_inv V a held -> rx_inv V (a <| rx_host := h |>) held.
Proof using Type. intros M [H1 H2 H3 H4 H5 H6]. by constructor. Qed.

Lemma create_desc_ok k a :
  memory_ok V (descriptors a) (rx_host a) ->
  exists b a', create_desc cfg A place k a = Ok (b, a') /\
    match b with
    | None => exists h, a' = a <| rx_host := h |> /\ memory_ok V (descriptors a) h
    | Some (d, x) => exists h, a' = a <| descriptors := <[d := x]> (descriptors a) |> <| rx_host := h |> /\
        descriptors a !! d = None /\ d <> 0 /\ d_Queue x = k /\
        rxq_buf (BufferSGArray (d_buf x)) (indirect V (d_buf x)) /\ DataStartOffset (d_buf x) = start /\
        memory_ok V (<[d := x]> (descriptors a)) h
    end.
Proof using Hset.
  intros [Mb Mm]. destruct Hset as [Hp Hm Ha Hl Hpay Hh Hst Hb _]. unfold create_desc.
  destruct (create_ok A (rx_layout cfg) combined payload (nVirtioHeaderSize cfg) (bRxSeparateTail cfg) (rx_host a) Hl Hpay Hh Hm Ha)
    as (p & h & -> & Hr). cbn [mbind res_bind]. destruct p as [p|].
  - destruct Hr as (first & ds & HB & Hbl & Hmd & _). eexists _, _. split; [done|]. cbv beta iota. exists h.
    assert (Hd : descriptors a !! place (dom (descriptors a)) = None) by (apply not_elem_of_dom, Hp).
    split_and!; [done|done|apply Hp|done|by eapply Hb| |].
    + cbn. rewrite (bo_start _ _ _ _ _ _ _ HB). by rewrite Hst.
    + constructor; rewrite tally_insert by done; cbn [d_buf].
      * rewrite Hbl, Mb. unfold blocks_of at 2. rewrite (bo_pages _ _ _ _ _ _ _ HB). solve_Permutation.
      * rewrite Hmd, Mm. solve_Permutation.
  - destruct Hr as [Hbl Hmd]. eexists _, _. split; [done|]. cbv beta iota. exists h. split; [done|]. constructor; [by rewrite Hbl|by rewrite Hmd].
Qed.

(** The queue took the buffer or gave it back. *)
Lemma add_new_ok r d x :
  rxq_live (v_len V) (m_VirtQueue r) (m_NetReceiveBuffers r) -> d <> 0 -> rxq_buf (BufferSGArray (d_buf x)) (indirect V (d_buf x)) ->
  exists ok q, AddRxBufferToQueue cfg r d x = Ok (ok, r <| m_VirtQueue := q |>) /\
    rxq_live (v_len V) q (if ok : bool then d :: m_NetReceiveBuffers r else m_NetReceiveBuffers r).
Proof using Type.
  intros Hl Hd Hb. unfold AddRxBufferToQueue. destruct (rxq_add _ _ _ d _ _ Hl Hd Hb) as (rc & q & E & Hl' & _). unfold indirect in E.
  rewrite E. cbn [mbind res_bind]. exists (0 <=? rc), q. by split.
Qed.

(** A buffer that the queue did not take is freed again. *)
Lemma discard_new_ok a held d x r q h :
  (pPathBundles a)⟦d_Queue x⟧ = Some r -> descriptors a !! d = None -> memory_ok V (<[d := x]> (descriptors a)) h ->
  rxq_live (v_len V) q (m_NetReceiveBuffers r) -> rx_inv V a held ->
  exists a', (a ← put_path (d_Queue x) (r <| m_VirtQueue := q |>) (a <| descriptors := <[d := x]> (descriptors a) |> <| rx_host := h |>);
              free_desc d x a) = Ok a' /\ rx_inv V a' held /\ descriptors a' = descriptors a /\
    pPathBundles a' = zinsert (d_Queue x) (r <| m_VirtQueue := q |>) (pPathBundles a).
Proof using Type.
  intros Hr Hd M Hl I. rewrite (put_path_ok _ r) by done. cbn [mbind res_bind].
  set (a1 := _ <| pPathBundles := _ |>). destruct (free_desc_ok V a1 d x) as (h' & -> & M'); [apply lookup_insert_eq|done|].
  eexists. split; [done|]. cbn in M' |- *. rewrite delete_insert_id in M' |- * by done. split; [|done].
  pose proof (ri_path _ _ _ I _ _ Hr) as [? ? ? ? ?].
  set (a2 := a <| rx_host := h' |>).
  apply (rx_inv_frame V (a2 <| pPathBundles := zinsert (d_Queue x) (r <| m_VirtQueue := q |>) (pPathBundles a2) |>)); [done..|].
  apply (rx_inv_path V a2 held held (d_Queue x) r (r <| m_VirtQueue := q |>));
    [done|done|constructor; try done; by eapply rxq_live_ok|by left|by apply rx_inv_host].
Qed.

Lemma kick_ok r l : rxq_live (v_len V) (m_VirtQueue r) l -> exists q, KickRXRing r = Ok (r <| m_VirtQueue := q |>) /\ rxq_live (v_len V) q l.
Proof using Type. intros Hl. unfold KickRXRing. destruct (rxq_kick _ _ _ Hl) as (q & -> & Hq & _). cbn [mbind res_bind]. eauto. Qed.

Lemma AllocateMore_inv k a held r :
  (pPathBundles a)⟦k⟧ = Some r -> rx_inv V a held ->
  exists b a', AllocateMore cfg A place k a = Ok (b, a') /\ rx_inv V a' held.
Proof using Hset.
  intros Hk I. unfold AllocateMore. rewrite (zget_ok _ _ _ Hk). cbn [mbind res_bind]. pose proof (ri_path _ _ _ I _ _ Hk) as P.
  destruct (_ || _) eqn:E1; [by eexists _, _|]. apply orb_false_iff in E1 as [Ev%negb_false_iff Er%negb_false_iff].
  destruct (rxq_size _ (pk_ok _ _ _ _ P) Ev) as [n ->]. cbn [mbind res_bind]. destruct (_ || _) eqn:E2; [by eexists _, _|].
  destruct (create_desc_ok k a (ri_memory _ _ _ I)) as (b & a1 & -> & Hb). cbn [mbind res_bind].
  destruct b as [[d x]|]; [|destruct Hb as (h & -> & M); eexists _, _; split; [done|by apply rx_inv_host]].
  destruct Hb as (h & -> & Hd & Hnz & Hq & Hbuf & Hst & M). pose proof (pk_live _ _ _ _ P Er) as Hlive. destruct P as [P1 P2 P0 P3 [P4 P5]].
  destruct Hset as [_ _ _ _ _ _ _ _ Hlim].
  assert (exists ok q, (if CanTouchHardware (m_VirtQueue r) then AddRxBufferToQueue cfg r d x else Ok (false, r)) = Ok (ok, r <| m_VirtQueue := q |>) /\
    rxq_live (v_len V) q (if ok : bool then d :: m_NetReceiveBuffers r else m_NetReceiveBuffers r)) as (ok & q & -> & Hl).
  { destruct (CanTouchHardware _); [by apply add_new_ok|]. exists false, (m_VirtQueue r). split; [by destruct r|done]. }
  cbn [mbind res_bind]. destruct ok.
  - set (r2 := RecalculateLimits cfg _). destruct (kick_ok r2 (d :: m_NetReceiveBuffers r) Hl) as (q' & -> & Hl'). cbn [mbind res_bind].
    rewrite (put_path_ok _ r) by done. cbn [mbind res_bind]. eexists _, _. split; [done|]. rewrite <- Hq. rewrite <- Hq in Hk, P4, P5.
    assert (0 <= owned (queues (descriptors a)) (d_Queue x)) by (unfold owned; lia).
    apply (rx_inv_new a held d x r); try done; [cbn; rewrite u32_small by lia; lia|lia].
  - rewrite <- Hq in Hk |- *. destruct (discard_new_ok a held d x r q h Hk Hd M Hl I) as (a' & E & I' & _).
    destruct (put_path _ _ _) as [a2|]; [|done]. cbn [mbind res_bind] in E |- *. rewrite E. by eexists _, _.
Qed.

(** ** Populating a renewed queue *)

Lemma populate_ok l k a held r :
  rx_inv V a (l ++ held) -> (pPathBundles a)⟦k⟧ = Some r -> m_Reinsert r = false -> rxq_live (v_len V) (m_VirtQueue r) (m_NetReceiveBuffers r) ->
  Forall (fun d => queues (descriptors a) !! d = Some k) l ->
  exists a' r', populate cfg l k a = Ok a' /\ rx_inv V a' held /\ (pPathBundles a')⟦k⟧ = Some r' /\
    rxq_live (v_len V) (m_VirtQueue r') (m_NetReceiveBuffers r').
Proof using Type.
  revert a r. induction l as [|d l IH]; intros a r I Hk Hre Hl Hmine; [by exists a, r|]. cbn [populate].
  apply Forall_cons_1 in Hmine as [Hd Hmine]. unfold queues in Hd. rewrite lookup_fmap in Hd.
  destruct (descriptors a !! d) as [x|] eqn:Hx; [|done]. cbn in Hd. injection Hd as Hd. pose proof (zlookup_lt _ _ _ Hk) as Hkl.
  destruct (ri_desc _ _ _ I _ _ Hx) as (Hnz & _ & Hbuf & _). unfold get_desc. rewrite Hx. cbn [mbind res_bind].
  rewrite (zget_ok _ _ _ Hk). cbn [mbind res_bind]. destruct (add_new_ok r d x Hl Hnz Hbuf) as (ok & q & -> & Hq). cbn [mbind res_bind].
  destruct ok.
  - rewrite (put_path_ok _ r) by done. cbn [mbind res_bind].
    apply (IH _ (list_add (r <| m_VirtQueue := q |>) d)); [|by apply zlookup_zinsert_eq|done| |done].
    + rewrite <- Hd. rewrite <- Hd in Hk.
      apply (rx_inv_listed V a (l ++ held) d x r); try done; by eapply rxq_live_ok.
    + cbn. eapply rxq_perm; [|exact Hq]. solve_Permutation.
  - destruct (free_desc_ok V a d x Hx (ri_memory _ _ _ I)) as (h & -> & M). cbn [mbind res_bind]. rewrite (put_path_ok _ r) by done. cbn [mbind res_bind].
    set (r' := r <| m_VirtQueue := q |> <| m_NetMaxReceiveBuffers := _ |>).
    apply (IH _ r'); [|by apply zlookup_zinsert_eq|done|done|].
    + rewrite <- Hd. rewrite <- Hd in Hk. apply (rx_inv_discard V a (l ++ held) d x r); try done; by eapply rxq_live_ok.
    + cbn. rewrite list.Forall_forall in Hmine |- *. intros d' Hd'. unfold queues. rewrite fmap_delete, lookup_delete_ne; [by apply Hmine|].
      intros <-. pose proof (rx_inv_nodup _ _ _ I) as Hnd. unfold places in Hnd. cbn in Hnd. apply NoDup_cons in Hnd as [Hnd _].
      apply Hnd. rewrite !elem_of_app. by left; left.
Qed.

(** After a shutdown, populating the renewed virtqueue puts all buffers of
    the path back into it and loses none: those that the queue does not take are
    freed and no longer counted. *)
Theorem PopulateQueue_ok k a held r :
  rx_inv V a held -> (pPathBundles a)⟦k⟧ = Some r -> m_Reinsert r = false -> rxq_live (v_len V) (m_VirtQueue r) [] ->
  exists a' r', PopulateQueue cfg k a = Ok a' /\ rx_inv V a' held /\ (pPathBundles a')⟦k⟧ = Some r' /\ m_Reinsert r' = true /\
    rxq_live (v_len V) (m_VirtQueue r') (m_NetReceiveBuffers r').
Proof using Type.
  intros I Hk Hre Hl. unfold PopulateQueue. rewrite (zget_ok _ _ _ Hk). cbn [mbind res_bind]. pose proof (zlookup_lt _ _ _ Hk) as Hkl.
  rewrite (put_path_ok _ r) by done. cbn [mbind res_bind]. pose proof (ri_path _ _ _ I _ _ Hk) as [P1 P2 P3 P4 P5].
  set (r0 := r <| m_NetReceiveBuffers := [] |> <| m_NetNofReceiveBuffers := 0 |>). set (a0 := a <| pPathBundles := _ |>).
  assert (I0 : rx_inv V a0 (m_NetReceiveBuffers r ++ held)).
  { apply (rx_inv_path V a held (m_NetReceiveBuffers r ++ held) k r); [done|cbn; solve_Permutation| |by left|done].
    by constructor. }
  destruct (populate_ok (m_NetReceiveBuffers r) k a0 held r0 I0) as (a1 & r1 & -> & I1 & Hk1 & Hl1);
    [by apply zlookup_zinsert_eq|done|done|done|]. cbn [mbind res_bind].
  rewrite (zget_ok _ _ _ Hk1). cbn [mbind res_bind]. rewrite (put_path_ok _ r1) by done. cbn [mbind res_bind].
  pose proof (zlookup_lt _ _ _ Hk1) as Hk1l. pose proof (ri_path _ _ _ I1 _ _ Hk1) as [C1 C2 C3 C4 C5].
  eexists _, (r1 <| m_Reinsert := true |>). split; [done|]. split; [|split; [by apply zlookup_zinsert_eq|done]].
  apply (rx_inv_path V a1 held held k r1); [done|done|by constructor|by left|done].
Qed.

(** ** Preparing the buffers of a path *)

(** While a path is prepared its limit is the number asked for; [counted k r a] is
    [a] with the limit that counts the buffers it has. *)
Definition counted (k : Z) r a : PARANDIS_ADAPTER Q :=
  a <| pPathBundles := zinsert k (r <| m_NetMaxReceiveBuffers := owned (queues (descriptors a)) k |>) (pPathBundles a) |>.

Record preparing (k : Z) a (held : list Z) r : Prop := {
  pp_path : (pPathBundles a)⟦k⟧ = Some r;
  pp_live : rxq_live (v_len V) (m_VirtQueue r) (m_NetReceiveBuffers r);
  pp_all : owned (queues (descriptors a)) k = zlen (m_NetReceiveBuffers r);
  pp_inv : rx_inv V (counted k r a) held }.

Lemma preparing_more k a held r d x q h :
  preparing k a held r -> descriptors a !! d = None -> d <> 0 -> d_Queue x = k ->
  rxq_buf (BufferSGArray (d_buf x)) (indirect V (d_buf x)) -> DataStartOffset (d_buf x) = start ->
  memory_ok V (<[d := x]> (descriptors a)) h -> owned (queues (descriptors a)) k + 1 < 4294967296 -> rxq_live (v_len V) q (d :: m_NetReceiveBuffers r) ->
  let r' := list_add (r <| m_VirtQueue := q |>) d in
  preparing k (a <| descriptors := <[d := x]> (descriptors a) |> <| rx_host := h |> <| pPathBundles := zinsert k r' (pPathBundles a) |>) held r'.
Proof using Type.
  intros [Hk Hl Hall I] Hd Hnz <- Hbuf Hst M Hlim Hq r'. pose proof (zlookup_lt _ _ _ Hk) as Hkl. constructor; cbn.
  - by apply zlookup_zinsert_eq.
  - eapply rxq_perm; [|exact Hq]. solve_Permutation.
  - rewrite owned_insert, decide_True, Hall, zlen_app by done. done.
  - set (b := counted (d_Queue x) r a) in I. set (rb := r <| m_NetMaxReceiveBuffers := owned (queues (descriptors a)) (d_Queue x) |>).
    assert (Hb : (pPathBundles b)⟦d_Queue x⟧ = Some rb) by (by apply zlookup_zinsert_eq).
    pose proof (owned_insert (descriptors a) d x (d_Queue x) Hd) as Hown. rewrite decide_True in Hown by done.
    set (r2 := r' <| m_NetMaxReceiveBuffers := owned (queues (descriptors a)) (d_Queue x) + 1 |>).
    apply (rx_inv_frame V (b <| descriptors := <[d := x]> (descriptors b) |> <| rx_host := h |> <| pPathBundles := zinsert (d_Queue x) r2 (pPathBundles b) |>));
      [|done|done|done|by apply (rx_inv_new b held d x rb)].
    unfold counted, b, r2. cbn. by rewrite !zinsert_zinsert, Hown.
Qed.

Lemma prepare_buffers_ok n k a held r :
  preparing k a held r -> owned (queues (descriptors a)) k + Z.of_nat n < 4294967296 ->
  exists a' r', prepare_buffers cfg A place n k a = Ok a' /\ preparing k a' held r' /\ RSSParameters a' = RSSParameters a.
Proof using Hset.
  revert a r. induction n as [|n IH]; intros a r P Hn; [by exists a, r|]. cbn [prepare_buffers].
  destruct P as [Hk Hl Hall I]. pose proof (ri_memory _ _ _ I) as M0. cbn in M0.
  destruct (create_desc_ok k a M0) as (b & a1 & -> & Hb). cbn [mbind res_bind].
  destruct b as [[d x]|]; [|destruct Hb as (h & -> & M); exists (a <| rx_host := h |>), r; split; [done|]; split; [|done];
    constructor; [done|done|done|by apply (rx_inv_host (counted k r a))]].
  destruct Hb as (h & -> & Hd & Hnz & Hq & Hbuf & Hst & M). cbn [pPathBundles set_field].
  rewrite (zget_ok _ _ _ Hk). cbn [mbind res_bind]. destruct (add_new_ok r d x Hl Hnz Hbuf) as (ok & q & -> & Hq'). cbn [mbind res_bind].
  destruct ok; cbn [negb]; rewrite (put_path_ok _ r) by done; cbn [mbind res_bind].
  - match goal with |- context [prepare_buffers _ _ _ n k ?b] => destruct (IH b (list_add (r <| m_VirtQueue := q |>) d)) as (a' & r' & ? & ? & ?) end;
      [| |by exists a', r'].
    + apply (preparing_more k a held r d x q h); try done; lia.
    + cbn. rewrite owned_insert, decide_True by done. lia.
  - pose proof (zlookup_lt _ _ _ Hk) as Hkl. set (a1 := _ <| pPathBundles := _ |>).
    destruct (free_desc_ok V a1 d x) as (h' & -> & M'); [apply lookup_insert_eq|done|].
    cbn in M'. rewrite delete_insert_id in M' by done.
    eexists _, (r <| m_VirtQueue := q |>). split; [done|]. split; [|done]. constructor; cbn; [by apply zlookup_zinsert_eq|done|by rewrite delete_insert_id|].
    set (b := counted k r a <| rx_host := h' |>). set (rb := r <| m_NetMaxReceiveBuffers := owned (queues (descriptors a)) k |>).
    assert (Ib : rx_inv V b held) by (by apply (rx_inv_host (counted k r a))).
    assert (Hkb : (pPathBundles b)⟦k⟧ = Some rb) by (by apply zlookup_zinsert_eq).
    pose proof (ri_path _ _ _ Ib _ _ Hkb) as [? ? ? ? ?].
    apply (rx_inv_frame V (b <| pPathBundles := zinsert k (rb <| m_VirtQueue := q |>) (pPathBundles b) |>));
      [unfold counted, b, rb; cbn; by rewrite !zinsert_zinsert, delete_insert_id by done|done|cbn; by rewrite delete_insert_id|done|].
    apply (rx_inv_path V b held held k rb); [done|done|constructor; try done; by eapply rxq_live_ok|by left|done].
Qed.

Lemma initial_range : 0 <= maxRxBufferPerQueue cfg -> 0 <= initial_buffers cfg <= maxRxBufferPerQueue cfg.
Proof using Type. intros Hm. unfold initial_buffers, INITIAL_RX_BUFFERS. destruct (bFastInit cfg); cbn; [|lia]. destruct (Z.gtb_spec 16 (maxRxBufferPerQueue cfg)); lia. Qed.

(** Path [k], which is [r], with its virtqueue. *)
Definition with_queue (k : Z) (q : Q) r a : PARANDIS_ADAPTER Q :=
  a <| pPathBundles := zinsert k (r <| m_VirtQueue := q |>) (pPathBundles a) |>.

Lemma create_path_ok k q a held r :
  rx_inv V (with_queue k q r a) held -> (pPathBundles a)⟦k⟧ = Some r -> owned (queues (descriptors a)) k = 0 -> m_Reinsert r = true ->
  m_NetReceiveBuffers r = [] -> rxq_live (v_len V) q [] -> 0 <= maxRxBufferPerQueue cfg ->
  exists a' r', rx_Create cfg A place k (Some q) a = Ok (true, a') /\ rx_inv V a' held /\ (pPathBundles a')⟦k⟧ = Some r' /\
    m_Reinsert r' = true /\ RSSParameters a' = RSSParameters a.
Proof using Hset.
  intros I Hk H0' Hre Hnil Hlive Hmax. pose proof (zlookup_lt _ _ _ Hk) as Hkl. unfold rx_Create. rewrite (zget_ok _ _ _ Hk). cbn [mbind res_bind].
  rewrite (put_path_ok _ r) by done. cbn [mbind res_bind]. set (r0 := r <| m_NetMaxReceiveBuffers := _ |> <| m_VirtQueue := q |>).
  set (a0 := a <| pPathBundles := _ |>).
  pose proof (ri_path _ _ _ I k (r <| m_VirtQueue := q |>) ltac:(by apply zlookup_zinsert_eq)) as [P1 P2 P3 P4 P5].
  assert (P0 : preparing k a0 held r0).
  { constructor; cbn; [by apply zlookup_zinsert_eq|by rewrite Hnil|by rewrite H0', Hnil|].
    apply (rx_inv_frame V (with_queue k q r a)); [|done..|done].
    unfold counted, a0, r0, with_queue. cbn. rewrite zinsert_zinsert, H0'. destruct r. cbn in *. destruct P5 as [-> _]. by rewrite H0'. }
  unfold PrepareReceiveBuffers. rewrite (zget_ok (pPathBundles a0) k r0) by (by apply zlookup_zinsert_eq). cbn [mbind res_bind].
  pose proof (initial_range Hmax) as Hir. pose proof (st_limit Hset) as Hlim.
  destruct (prepare_buffers_ok (Z.to_nat (m_NetMaxReceiveBuffers r0)) k a0 held r0 P0) as (a1 & r1 & -> & [Hk1 Hl1 Hall1 I1] & R1);
    [cbn; rewrite H0'; lia|]. cbn [mbind res_bind]. rewrite (zget_ok _ _ _ Hk1). cbn [mbind res_bind]. cbv zeta.
  match goal with |- context [put_path k _ ?b] => set (a2 := b) end.
  assert (E2 : pPathBundles a2 = pPathBundles a1 /\ ReceiveQueues a2 = ReceiveQueues a1 /\ descriptors a2 = descriptors a1 /\ rx_host a2 = rx_host a1 /\
    RSSParameters a2 = RSSParameters a1)
    by (unfold a2; by destruct (_ || _)).
  destruct E2 as (E21 & E22 & E23 & E24 & E25). rewrite (put_path_ok _ r1) by (by rewrite E21). cbn [mbind res_bind].
  pose proof (zlookup_lt _ _ _ Hk1) as Hk1l. eexists _, _. split; [done|].
  split; [|split; [cbn; rewrite E21; by apply zlookup_zinsert_eq|split; [done|cbn; rewrite E25; exact R1]]].
  set (b := counted k r1 a1) in I1.
  assert (Hkb : (pPathBundles b)⟦k⟧ = Some (r1 <| m_NetMaxReceiveBuffers := owned (queues (descriptors a1)) k |>)) by (by apply zlookup_zinsert_eq).
  pose proof (ri_path _ _ _ I1 _ _ Hkb) as [C1 C2 C3 C4 C5]. cbn in C1, C2, C3, C4, C5.
  match goal with |- context [zinsert k ?r (pPathBundles a2)] => set (rn := r) end.
  apply (rx_inv_frame V (b <| pPathBundles := zinsert k rn (pPathBundles b) |>)).
  - cbn. rewrite E21. unfold b, counted. cbn. by rewrite zinsert_zinsert.
  - done.
  - done.
  - done.
  - apply (rx_inv_path V b held held k (r1 <| m_NetMaxReceiveBuffers := owned (queues (descriptors a1)) k |>)); [done|done| |by left|done].
    constructor; try done. cbn. rewrite Hall1, C1. rewrite Hall1 in C5. tauto.
Qed.

(** Creating a path whose virtqueue is new and empty leaves every path,
    its counters, the virtqueue and the memory consistent, whatever the allocator
    refuses and however many buffers the queue takes; allocating more keeps them
    so. *)
Theorem rx_Create_ok k q a held r :
  rx_inv V (with_queue k q r a) held -> (pPathBundles a)⟦k⟧ = Some r -> owned (queues (descriptors a)) k = 0 -> m_Reinsert r = true ->
  m_NetReceiveBuffers r = [] -> rxq_live (v_len V) q [] -> 0 <= maxRxBufferPerQueue cfg ->
  exists a', rx_Create cfg A place k (Some q) a = Ok (true, a') /\ rx_inv V a' held /\
    forall a1 k1 r1, rx_inv V a1 held -> (pPathBundles a1)⟦k1⟧ = Some r1 ->
    exists b a2, AllocateMore cfg A place k1 a1 = Ok (b, a2) /\ rx_inv V a2 held.
Proof using Hset.
  intros. destruct (create_path_ok k q a held r) as (a' & ? & ? & ? & _); try done. exists a'. split_and!; [done|done|].
  intros. by eapply AllocateMore_inv.
Qed.


End life.
