(* ===== verification/NetVirtQueue.v ===== *)
(** * The virtqueue wrapper of NetKVM over the split ring

    [CVirtQueue] (NetKVM/Common/ParaNdis-VirtQueue.h, ParaNdis_VirtQueue.cpp) with the
    split ring of SplitRing behind the pointer [m_VirtQueue], the device beside it
    (SplitSystem), and the proof that it keeps the promises of [RxVirtQueueLaws]
    whatever a conforming device does. *)

From Stdlib Require Import ZArith Lia ZifyBool.
From stdpp Require Import base list numbers option gmap.
From S2P Require Import Prelude.
From S2P Require Import Virtio.
From S2P Require Import SplitRing.
From S2P Require Import SplitRingSpec.
From S2P Require Import SplitSystem.
From S2P Require Import NetRxBuffer.
From S2P Require Import NetRxBufferSpec.
From S2P Require Import NetRxPath.
From S2P Require Import NetRxInv.

(** ** The wrapper *)

(** [cq_ring] is [m_VirtQueue] ([None] for NULL), with what the device holds and the
    histories of SplitSystem; [cq_tables] are the indirect tables last written for
    a handle, and [cq_notified] counts notifications. *)
Record CVirtQueue := mk_cvq {
  cq_ring : option sys; m_CanTouchHardware : bool; cq_tables : gmap Z (list vring_desc); cq_notified : Z }.
#[export] Instance eta_cvq : Eta CVirtQueue :=
  fun q => mk_cvq (cq_ring q) (m_CanTouchHardware q) (cq_tables q) (cq_notified q).

Definition ring (q : CVirtQueue) : res sys := match cq_ring q with Some s => Ok s | None => Fault NullPointer end.

(** The indirect area as descriptors; its old contents are overwritten as far as it
    is used. *)
Definition indirect_table (ia : option rx_block) : option (list vring_desc) :=
  (fun b => replicate (Z.to_nat (blk_size b / sizeof_vring_desc)) (mk_desc 0 0 0 0)) <$> ia.

Definition CVirtQueue_AddBuf (q : CVirtQueue) (sg : list VirtIOBufferDescriptor) (out_num in_num data : Z) (ia : option rx_block) :
    res (Z * CVirtQueue) :=
  s ← ring q;
  '(rc, va, vq) ← virtqueue_add_buf_split (s_vq s) sg out_num in_num data (indirect_table ia) (default 0 (Physical <$> ia));
  Ok (rc, q <| cq_ring := Some (s <| s_vq := vq |> <| s_given := if rc =? 0 then data :: s_given s else s_given s |>) |>
            <| cq_tables := match va with Some t => <[data := t]> (cq_tables q) | None => cq_tables q end |>).

Definition CVirtQueue_GetBuf (q : CVirtQueue) : res (option (Z * Z) * CVirtQueue) :=
  s ← ring q;
  '(b, vq) ← virtqueue_get_buf_split (s_vq s);
  Ok (b, q <| cq_ring := Some (s <| s_vq := vq |>
               <| s_taken := match b with Some (d, _) => d :: s_taken s | None => s_taken s end |>) |>).

(** [virtqueue_kick]: notify when the preparation says so. *)
Definition CVirtQueue_Kick (q : CVirtQueue) : res CVirtQueue :=
  s ← ring q;
  let '(b, vq) := virtqueue_kick_prepare_split (s_vq s) in
  Ok (q <| cq_ring := Some (s <| s_vq := vq |>) |> <| cq_notified := cq_notified q + b2z b |>).

(** [KickAlways]: [virtqueue_notify] *)
Definition CVirtQueue_KickAlways (q : CVirtQueue) : res CVirtQueue :=
  _ ← ring q; Ok (q <| cq_notified := cq_notified q + 1 |>).

Definition CVirtQueue_Restart (q : CVirtQueue) : res (bool * CVirtQueue) :=
  s ← ring q;
  '(b, vq) ← virtqueue_enable_cb_split (s_vq s);
  if negb (b : bool) then Ok (false, q <| cq_ring := Some (s <| s_vq := virtqueue_disable_cb_split vq |>) |>)
  else Ok (true, q <| cq_ring := Some (s <| s_vq := vq |>) |>).

Definition CVirtQueue_EnableInterruptsDelayed (q : CVirtQueue) : res CVirtQueue :=
  s ← ring q; '(_, vq) ← virtqueue_enable_cb_delayed_split (s_vq s); Ok (q <| cq_ring := Some (s <| s_vq := vq |>) |>).
Definition CVirtQueue_EnableInterrupts (q : CVirtQueue) : res CVirtQueue :=
  s ← ring q; '(_, vq) ← virtqueue_enable_cb_split (s_vq s); Ok (q <| cq_ring := Some (s <| s_vq := vq |>) |>).
Definition CVirtQueue_DisableInterrupts (q : CVirtQueue) : res CVirtQueue :=
  s ← ring q; Ok (q <| cq_ring := Some (s <| s_vq := virtqueue_disable_cb_split (s_vq s) |>) |>).

Definition CVirtQueue_IsValid (q : CVirtQueue) : bool := bool_decide (is_Some (cq_ring q)).
Definition CVirtQueue_GetRingSize (q : CVirtQueue) : res Z := s ← ring q; Ok (num (s_vq s)).

Definition CVirtQueue_Delete (q : CVirtQueue) : CVirtQueue := q <| cq_ring := None |>.

Definition CVirtQueue_Shutdown (q : CVirtQueue) : res CVirtQueue :=
  q ← match cq_ring q with
      | Some s => if m_CanTouchHardware q
                  then vq ← virtqueue_shutdown_split (s_vq s); Ok (q <| cq_ring := Some (s <| s_vq := vq |>) |>) else Ok q
      | None => Ok q
      end;
  Ok (CVirtQueue_Delete q).

#[export] Instance cvq_ops : RxVirtQueue CVirtQueue := {|
  AddBuf := CVirtQueue_AddBuf;
  GetBuf := CVirtQueue_GetBuf;
  Kick := CVirtQueue_Kick;
  Shutdown := CVirtQueue_Shutdown;
  IsValid := CVirtQueue_IsValid;
  CanTouchHardware := m_CanTouchHardware;
  GetRingSize := CVirtQueue_GetRingSize |}.

(** ** The promises *)

(** Used elements that the driver has not taken. *)
Definition used_pending (vq : virtqueue_split) : nat := Z.to_nat (u16 (us_idx (used vq) - last_used vq)).

(** The lengths in those elements satisfy [P]. *)
Definition used_ok (P : Z -> Prop) (vq : virtqueue_split) : Prop :=
  forall i e, 0 <= i < u16 (us_idx (used vq) - last_used vq) ->
    (us_ring (used vq))⟦(last_used vq + i) mod num vq⟧ = Some e -> P (ue_len e).

Definition cvq_live (P : Z -> Prop) (q : CVirtQueue) (l : list Z) : Prop :=
  exists s, cq_ring q = Some s /\ good s /\ used_ok P (s_vq s) /\ s_given s ≡ₚ s_taken s ++ l.
Definition cvq_done (q : CVirtQueue) : nat := match cq_ring q with Some s => used_pending (s_vq s) | None => 0 end.
Definition cvq_ok (q : CVirtQueue) : Prop := forall s, cq_ring q = Some s -> good s.
Definition cvq_buf (sg : list VirtIOBufferDescriptor) (ia : option rx_block) : Prop :=
  1 <= zlen sg <= 65535 /\ forall b, ia = Some b -> zlen sg * sizeof_vring_desc <= blk_size b.

Lemma indirect_area_ok sg ia tbl : cvq_buf sg ia -> indirect_table ia = Some tbl -> zlen sg <= zlen tbl.
Proof.
  intros [_ Hb] E. destruct ia as [b|]; [|done]. injection E as <-. specialize (Hb b eq_refl). unfold sizeof_vring_desc in *.
  rewrite zlen_replicate. assert (zlen sg <= blk_size b / 16) by (apply Z.div_le_lower_bound; lia). lia.
Qed.

Lemma used_ok_frame P vq vq' :
  used vq' = used vq -> last_used vq' = last_used vq -> num vq' = num vq -> used_ok P vq -> used_ok P vq'.
Proof. unfold used_ok. by intros -> -> ->. Qed.

Lemma used_ok_take P vq vq' free live e :
  split_wf vq free live -> 0 <= us_idx (used vq) < 65536 -> last_used vq <> us_idx (used vq) ->
  (us_ring (used vq))⟦DESC_INDEX (num vq) (last_used vq)⟧ = Some e ->
  used vq' = used vq -> last_used vq' = u16 (last_used vq + 1) -> num vq' = num vq ->
  used_ok P vq -> P (ue_len e) /\ used_ok P vq'.
Proof.
  intros W Hu Hne He U L N H. pose proof (wf_last _ _ _ W). split.
  - apply (H 0); [word_lia|]. by rewrite Z.add_0_r, <- (desc_index_mod _ _ _ _ W).
  - intros i x Hi Hx. rewrite U, L, N in *. apply (H (i + 1)); [word_lia|]. rewrite <- Hx. f_equal.
    rewrite <- (Z.add_mod_idemp_l (u16 _)), (u16_mod_num _ _ _ _ W), Z.add_mod_idemp_l by (pose proof (num_pos _ _ _ W); lia).
    f_equal. lia.
Qed.

Lemma used_ok_use P vq free live h len :
  split_wf vq free live -> 0 <= us_idx (used vq) < 65536 -> P len -> used_ok P vq -> used_ok P (dev_use vq h len).
Proof.
  intros W Hu Hlen H i e Hi. cbn in Hi |- *. pose proof (wf_last _ _ _ W). pose proof (num_pos _ _ _ W).
  rewrite (desc_index_mod _ _ _ _ W). intros He.
  destruct (decide ((last_used vq + i) mod num vq = us_idx (used vq) mod num vq)) as [E|E].
  - rewrite E, zlookup_zinsert_eq in He; [by injection He as <-|]. pose proof (wf_used _ _ _ W).
    pose proof (Z.mod_pos_bound (us_idx (used vq)) (num vq)). lia.
  - rewrite zlookup_zinsert_ne in He by done. refine (H i e _ He).
    assert (i <> u16 (us_idx (used vq) - last_used vq)); [|word_lia]. intros ->. apply E.
    rewrite <- Z.add_mod_idemp_r, (u16_mod_num _ _ _ _ W), Z.add_mod_idemp_r by lia. f_equal. lia.
Qed.

Lemma cvq_add P q l d sg ia :
  cvq_live P q l -> d <> 0 -> cvq_buf sg ia ->
  exists rc q', CVirtQueue_AddBuf q sg 0 (zlen sg) d ia = Ok (rc, q') /\ cvq_live P q' (if 0 <=? rc then d :: l else l) /\ cvq_done q' = cvq_done q.
Proof.
  intros (s & Hs & G & Hu & Hl) Hd Hb. unfold CVirtQueue_AddBuf, ring. rewrite Hs. cbn [mbind res_bind].
  assert (Ha : add_args_ok sg 0 (zlen sg) d (indirect_table ia)).
  { pose proof (proj1 Hb). unfold add_args_ok. split_and!; try done; try lia. intros tbl E. rewrite Z.add_0_l. by apply (indirect_area_ok sg ia). }
  pose proof G as (free & live & avq & usq & I). pose proof Ha as (Ho & H1 & H2 & H3 & H4 & H5).
  pose proof (add_buf_split_ok _ _ _ sg 0 (zlen sg) d (indirect_table ia) (default 0 (Physical <$> ia)) (si_wf _ _ _ _ _ I) Ho H1 H2 H3 H4 H5) as Hadd.
  cbv zeta in Hadd.
  assert (exists rc va vq, virtqueue_add_buf_split (s_vq s) sg 0 (zlen sg) d (indirect_table ia) (default 0 (Physical <$> ia)) = Ok (rc, va, vq) /\
    used vq = used (s_vq s) /\ last_used vq = last_used (s_vq s) /\ num vq = num (s_vq s) /\ (0 <=? rc) = (rc =? 0))
    as (rc & va & vq & E & E1 & E2 & E4 & E3).
  { destruct (_ && _); [|destruct (_ <=? _)].
    - destruct Hadd as (? & ? & -> & _ & Pb & _). unfold published in Pb. destruct_and! Pb. by eexists _, _, _.
    - destruct Hadd as (? & -> & Pb & _). unfold published in Pb. destruct_and! Pb. by eexists _, _, _.
    - rewrite Hadd. by eexists _, _, _. }
  rewrite E. cbn [mbind res_bind]. eexists _, _. split; [done|]. split.
  - eexists. split; [done|]. split; [by eapply inv_add|]. split; [by apply (used_ok_frame P (s_vq s))|]. cbn. rewrite E3. destruct (rc =? 0); [|done]. rewrite Hl. solve_Permutation.
  - unfold cvq_done. cbn. rewrite Hs. unfold used_pending. by rewrite E1, E2.
Qed.

Lemma cvq_get P q l :
  cvq_live P q l ->
  exists b q', CVirtQueue_GetBuf q = Ok (b, q') /\
    match b with
    | Some (d, len) => P len /\ cvq_done q = S (cvq_done q') /\ exists l', l ≡ₚ d :: l' /\ cvq_live P q' l'
    | None => cvq_live P q' l
    end.
Proof.
  intros (s & Hs & G & Hu & Hl). unfold CVirtQueue_GetBuf, ring. rewrite Hs. cbn [mbind res_bind].
  pose proof G as (free & live & avq & usq & I). pose proof (si_wf _ _ _ _ _ I) as W. destruct (get_buf_split_ok _ _ _ W) as [Hnone Hsome].
  destruct (decide (last_used (s_vq s) = us_idx (used (s_vq s)))) as [E|E].
  - pose proof (Hnone E) as EG. rewrite EG. cbn [mbind res_bind]. eexists _, _. split; [done|]. cbv beta iota. eexists. split; [done|].
    split_and!; [|done|done]. exact (inv_get s None (s_vq s) G EG).
  - destruct (used_head _ _ _ _ _ I E) as (e & usq' & c & Eu & Hc & Hid & Hslot).
    destruct (Hsome c e E Hc Hslot Hid) as (vq1 & live' & He1 & Hp & W' & L & _ & N & U & _).
    destruct (used_ok_take P _ _ _ _ _ W (si_usidx _ _ _ _ _ I) E Hslot U L N Hu) as [HP Hu'].
    rewrite He1. cbn [mbind res_bind]. eexists _, _. split; [done|]. cbv beta iota. split; [exact HP|]. split.
    + unfold cvq_done. cbn. rewrite Hs. unfold used_pending. rewrite U, L. pose proof (wf_last _ _ _ W). pose proof (si_usidx _ _ _ _ _ I).
      word_lia.
    + pose proof (inv_get _ _ _ G He1) as G'. cbn in G'. pose proof G' as (free2 & live2 & avq2 & usq2 & I2).
      pose proof (si_history _ _ _ _ _ I2) as Hh. cbn in Hh. exists (ch_opaque <$> live2). split.
      * rewrite Hl in Hh. apply (Permutation_app_inv_l (s_taken s)). rewrite Hh. solve_Permutation.
      * eexists. split; [done|]. split; [exact G'|]. split; [exact Hu'|]. cbn. exact Hh.
Qed.

Lemma cvq_kick P q l : cvq_live P q l -> exists q', CVirtQueue_Kick q = Ok q' /\ cvq_live P q' l /\ cvq_done q' = cvq_done q.
Proof.
  intros (s & Hs & G & Hu & Hl). unfold CVirtQueue_Kick, ring. rewrite Hs. cbn [mbind res_bind]. pose proof (inv_kicked s G) as G'.
  pose proof (step_good _ _ (step_kick s) G) as Gk. destruct (virtqueue_kick_prepare_split (s_vq s)) as [b vq] eqn:E. cbn [snd] in Gk.
  assert (vq = (s_vq s) <| num_added_since_kick := 0 |>) as Ek.
  { unfold virtqueue_kick_prepare_split in E. cbn in E. destruct (event_suppression_enabled _); by injection E as _ <-. }
  eexists. split; [done|]. split.
  - exists (s <| s_vq := vq |>). split_and!; try done. cbn. rewrite Ek. by apply (used_ok_frame P (s_vq s)).
  - unfold cvq_done. cbn. by rewrite Hs, Ek.
Qed.

Lemma cvq_shutdown q : cvq_ok q -> exists q', CVirtQueue_Shutdown q = Ok q' /\ cvq_ok q'.
Proof.
  intros Hok. unfold CVirtQueue_Shutdown. destruct (cq_ring q) as [s|] eqn:Hs; [|by eexists].
  destruct (m_CanTouchHardware q); [|by eexists]. destruct (Hok s Hs) as (free & live & avq & usq & I).
  destruct (wf_num _ _ _ (si_wf _ _ _ _ _ I)) as (k & Hk & En). unfold virtqueue_shutdown_split. rewrite En.
  destruct (new_split_ok (index (s_vq s)) (vdev (s_vq s)) (notification_cb (s_vq s)) k Hk) as (vq & -> & _). by eexists.
Qed.

#[export] Program Instance cvq_laws : RxVirtQueueLaws CVirtQueue := {|
  rxq_live := cvq_live; rxq_done := cvq_done; rxq_ok := cvq_ok; rxq_buf := cvq_buf |}.
Next Obligation. intros P q l l' E (s & Hs & G & Hu & Hl). exists s. split_and!; [done|done|done|by rewrite <- E]. Qed.
Next Obligation. intros P q l (s & Hs & G & _) s' Hs'. congruence. Qed.
Next Obligation. intros. by apply cvq_add. Qed.
Next Obligation. intros. by apply cvq_get. Qed.
Next Obligation. intros. by apply cvq_kick. Qed.
Next Obligation.
  intros q Hok Hv. cbn in *. unfold CVirtQueue_IsValid in Hv. apply bool_decide_eq_true in Hv as [s Hs]. unfold CVirtQueue_GetRingSize, ring.
  rewrite Hs. by eexists.
Qed.
Next Obligation. intros. by apply cvq_shutdown. Qed.
