(* ===== verification/NetRxSplit.v ===== *)
(** * The receive path of NetKVM over the split virtqueue

    The receive path, its virtqueue wrapper, the split ring and a device that may
    fetch buffers, return them and change its notification settings in any order
    while the driver works. *)

From Stdlib Require Import ZArith Lia ZifyBool.
From stdpp Require Import base list numbers option gmap.
From S2P Require Import Prelude.
From S2P Require Import Virtio.
From S2P Require Import SplitRing.
From S2P Require Import SplitRingSpec.
From S2P Require Import SplitSystem.
From S2P Require Import NetRx.
From S2P Require Import NetRss.
From S2P Require Import NetRxBuffer.
From S2P Require Import NetRxBufferSpec.
From S2P Require Import NetRxPath.
From S2P Require Import NetRxInv.
From S2P Require Import NetRxRingSpec.
From S2P Require Import NetRxDpcSpec.
From S2P Require Import NetRxLifeSpec.
From S2P Require Import NetVirtQueue.

(** ** The device *)

(** Steps of a conforming device, with the number of buffers it returns, each with a
    length in [P]. *)
Inductive device_steps (P : Z -> Prop) : nat -> sys -> sys -> Prop :=
  | ds_done s : device_steps P 0 s s
  | ds_fetch n s h s' :
      s_seen s <> av_idx (avail (s_vq s)) ->
      (av_ring (avail (s_vq s)))⟦DESC_INDEX (num (s_vq s)) (s_seen s)⟧ = Some h ->
      device_steps P n (s <| s_seen := u16 (s_seen s + 1) |> <| s_held := h :: s_held s |>) s' -> device_steps P n s s'
  | ds_use n s h len held s' :
      s_held s ≡ₚ h :: held -> P len ->
      device_steps P n (s <| s_vq := dev_use (s_vq s) h len |> <| s_held := held |>) s' -> device_steps P (S n) s s'
  | ds_event n s fl ev s' :
      device_steps P n (s <| s_vq := (s_vq s) <| used := (used (s_vq s)) <| us_flags := fl |> <| us_avail_event := u16 ev |> |> |>) s' ->
      device_steps P n s s'.

Lemma used_pending_use vq free live h len :
  split_wf vq free live -> 0 <= us_idx (used vq) < 65536 -> (used_pending (dev_use vq h len) <= S (used_pending vq))%nat.
Proof.
  intros W Hu. unfold used_pending. cbn. pose proof (wf_last _ _ _ W).
  enough (u16 (u16 (us_idx (used vq) + 1) - last_used vq) <= u16 (us_idx (used vq) - last_used vq) + 1) by lia. word_lia.
Qed.

Lemma device_steps_ok P n s s' :
  device_steps P n s s' -> good s -> used_ok P (s_vq s) ->
  good s' /\ used_ok P (s_vq s') /\ s_given s' = s_given s /\ s_taken s' = s_taken s /\ (used_pending (s_vq s') <= used_pending (s_vq s) + n)%nat.
Proof.
  induction 1 as [s|n s h s' H1 H2 _ IH|n s h len held s' Hp HP _ IH|n s fl ev s' _ IH]; intros G U.
  - split_and!; done || lia.
  - by destruct IH as (G' & U' & E1 & E2 & Hu); [apply inv_fetch|..].
  - pose proof G as (free & live & avq & usq & I).
    destruct IH as (G' & U' & E1 & E2 & Hu); [by apply inv_use|exact (used_ok_use P _ _ _ h len (si_wf _ _ _ _ _ I) (si_usidx _ _ _ _ _ I) HP U)|].
    split_and!; try done.
    pose proof (used_pending_use (s_vq s) free live h len (si_wf _ _ _ _ _ I) (si_usidx _ _ _ _ _ I)). cbn in Hu. lia.
  - by destruct IH as (G' & U' & E1 & E2 & Hu); [exact (step_good _ _ (step_event s fl ev) G)|..].
Qed.

(** A device that only takes such steps, returns at most [budget 0] buffers, and
    delivers packets that fit. *)
Record conforming (V : rx_env) (pfuel : nat) (D : @rx_device CVirtQueue) (budget : nat -> nat) : Prop := {
  cf_run : forall n q s, cq_ring q = Some s -> exists k s', dev_run D n q = q <| cq_ring := Some s' |> /\ device_steps (v_len V) k s s' /\
    (k + budget (S n) <= budget n)%nat;
  cf_packet : forall n d nFull, v_len V nFull -> packet_ok V pfuel nFull (dev_pages D n d) (dev_header D n d) }.

Lemma conforming_ok V pfuel D budget : conforming V pfuel D budget -> device_ok V pfuel D budget.
Proof.
  intros [Hrun Hpkt]. constructor.
  - intros n q l (s & Hs & G & U & Hl). destruct (Hrun n q s Hs) as (k & s' & -> & Hd & _).
    destruct (device_steps_ok _ _ _ _ Hd G U) as (G' & U' & E1 & E2 & _). exists s'. split_and!; [done|done|done|congruence].
  - exact Hpkt.
  - intros n q l (s & Hs & G & U & Hl). destruct (Hrun n q s Hs) as (k & s' & -> & Hd & Hb).
    destruct (device_steps_ok _ _ _ _ Hd G U) as (_ & _ & _ & _ & Hu). cbn. unfold cvq_done. cbn. rewrite Hs. lia.
Qed.

(** ** Buffers and queues that fit together *)

Lemma buffer_fits V l combined payload hdr p first ds :
  layout_ok l combined payload hdr -> buffer_ok l p combined payload hdr first ds -> cvq_buf (BufferSGArray p) (indirect V p).
Proof.
  intros L B. pose proof (bo_entries _ _ _ _ _ _ _ B) as [_ Hsg]. pose proof (lo_entries _ _ _ _ L). pose proof (lo_indirect _ _ _ _ L) as Hi.
  pose proof (bo_data _ _ _ _ _ _ _ B) as Hne.
  assert (1 <= zlen (BufferSGArray p)).
  { rewrite (bo_sg _ _ _ _ _ _ _ B), zlen_app. destruct ds as [|b ds]; [done|]. rewrite fmap_cons, zlen_cons.
    pose proof (zlen_nonneg (sg_of <$> ds)). destruct combined; rewrite ?zlen_cons, ?zlen_nil; lia. }
  split; [lia|]. intros b Hb. unfold indirect in Hb. destruct (bUseIndirect (v_cfg V)); [|done]. injection Hb as <-.
  rewrite (bo_indirect _ _ _ _ _ _ _ B). cbn. unfold sizeof_vring_desc, sizeof_VirtIOBufferDescriptor in *. nia.
Qed.

(** A new split queue is empty. *)
Lemma new_queue_live P s touch tables n : initial s -> cvq_live P (mk_cvq (Some s) touch tables n) [].
Proof.
  intros Hi. exists s. split; [done|]. split; [by apply initial_good|].
  destruct Hi as (k & index & vd & notify & Hk & He & _ & _ & -> & ->). split; [|done].
  destruct (new_split_ok index vd notify k Hk) as (vq & He' & _ & L & _ & _ & _ & _ & U). rewrite He in He'. injection He' as <-.
  intros i e. rewrite U, L. cbn. rewrite Z.sub_diag. unfold u16. rewrite Z.mod_0_l by lia. lia.
Qed.

