(* ===== verification/NetExamples.v ===== *)
(** * The NetKVM packet theorems on concrete packets

    A UDP datagram over IPv4, over IPv6 and over IPv4 with a VLAN tag, a hash key
    and a table of two processors; then an adapter with its receive path over a split ring.
    Each lemma applies a theorem to them. *)

From Stdlib Require Import ZArith Lia ZifyBool.
From stdpp Require Import base list numbers option gmap sets fin_maps.
From S2P Require Import Prelude.
From S2P Require Import Virtio.
From S2P Require Import SplitRing.
From S2P Require Import SplitRingSpec.
From S2P Require Import SplitSystem.
From S2P Require Import SplitExamples.
From S2P Require Import NetChecksum.
From S2P Require Import NetChecksumSpec.
From S2P Require Import NetOffload.
From S2P Require Import NetOffloadSpec.
From S2P Require Import NetIpv6Spec.
From S2P Require Import NetRx.
From S2P Require Import NetRxSpec.
From S2P Require Import NetRss.
From S2P Require Import NetRssSpec.
From S2P Require Import NetRxBuffer.
From S2P Require Import NetRxBufferSpec.
From S2P Require Import NetRxPath.
From S2P Require Import NetRxInv.
From S2P Require Import NetRxRingSpec.
From S2P Require Import NetRxDpcSpec.
From S2P Require Import NetRxLifeSpec.
From S2P Require Import NetVirtQueue.
From S2P Require Import NetRxSplit.

(** ** Packets *)

Definition eth : list Z := [2; 0; 0; 0; 0; 1; 2; 0; 0; 0; 0; 2].
Definition ip4 : list Z :=
  [69; 0; 0; 30; 0; 1; 0; 0; 64; 17; 102; 204; 10; 0; 0; 1; 10; 0; 0; 2; 18; 52; 0; 53; 0; 10; 45; 161; 171; 205].
Definition frame4 : list Z := eth ++ [8; 0] ++ ip4.
Definition frame4_tagged : list Z := eth ++ [129; 0; 32; 5; 8; 0] ++ ip4.
Definition frame6 : list Z :=
  eth ++ [134; 221; 96; 0; 0; 0; 0; 10; 17; 64] ++ [254; 128; 0; 0; 0; 0; 0; 0; 0; 0; 0; 0; 0; 0; 0; 1]
  ++ [254; 128; 0; 0; 0; 0; 0; 0; 0; 0; 0; 0; 0; 0; 0; 2] ++ [18; 52; 0; 53; 0; 10; 68; 159; 171; 205].

(** A page that holds a frame. *)
Definition page_of (frame : list Z) : mem := frame ++ replicate (4096 - length frame) 0.

Definition macros : ndis_macros :=
  mk_ndis (fun a => bool_decide (a = replicate 6 255)) (fun a => match a with b :: _ => Z.testbit b 0 | [] => false end)
    (fun a b => if bool_decide (a = b) then 0 else 1).

Definition all_bytes (l : list Z) : bool := forallb (fun b => (0 <=? b) && (b <? 256)) l.

Lemma all_bytes_ok l : all_bytes l = true -> Forall byte l.
Proof.
  intros H. apply list.Forall_forall. intros b Hb. unfold all_bytes in H. rewrite forallb_forall in H. specialize (H b).
  rewrite list_elem_of_In in Hb. specialize (H Hb). unfold byte. lia.
Qed.

Lemma page_pages_ok frame : all_bytes (page_of frame) = true -> (length frame <= 4096)%nat -> pages_ok [mk_page (page_of frame) 4096].
Proof.
  intros Hb Hl. constructor; [|done|constructor]. constructor; cbn; [lia| |by apply all_bytes_ok].
  unfold page_of, zlen. rewrite length_app, length_replicate. lia.
Qed.

(** ** Checksums *)


Definition all_offloads : tOffloadSettingsFlags := mk_offload true true true true true.


Lemma ParaNdis_CheckRxChecksum_v6_correct_witness :
  packet6 [mk_page (page_of frame6) 4096] 14 50 UDP /\
  exists pages', ParaNdis_CheckRxChecksum 2 WIN64 all_offloads 0 [mk_page (page_of frame6) 4096] false true 64 0 true =
    Ok (pages', cs_zero <| UdpOK := true |>).
Proof.
  assert (P : packet6 [mk_page (page_of frame6) 4096] (0 + 14) 50 UDP).
  { constructor; try done; [apply page_pages_ok; [done|by vm_compute; lia]|split; [lia|by exists 7]|by vm_compute..]. }
  split; [exact P|].
  destruct (ParaNdis_CheckRxChecksum_v6_correct 1 WIN64 all_offloads 0 [mk_page (page_of frame6) 4096] 0 50 UDP false 64 true P ltac:(lia))
    as (pages' & E & _).
  exists pages'. rewrite E. by vm_compute.
Defined.

Lemma QualifyIpPacket_termination_witness :
  is_ok (QualifyIpPacket (Z.to_nat 8200) (page_of frame6) 14 50 true) = true /\
  exists m, zlen m = 63504 /\ QualifyIpPacket (Z.to_nat 100000) m 0 63504 true = Fault OutOfFuel.
Proof.
  split.
  - apply QualifyIpPacket_termination; [by apply all_bytes_ok|lia|by vm_compute|lia|lia].
  - destruct (proj2 QualifyIpPacket_termination 63504) as (m & _ & Hl & E); [lia|]. exists m. split; [exact Hl|apply E].
Defined.

(** ** Analysis *)


Definition info_of (frame : list Z) : NET_PACKET_INFO :=
  match ParaNdis_AnalyzeReceivedPacket macros 100 (page_of frame) 0 (zlen frame) with Ok (_, i) => i | Fault _ => zero_info end.

Lemma VLAN_strip_and_pad_witness :
  exists m2 i2, dataLength i2 = 60 /\ slice m2 4 60 = frame4 ++ replicate 16 0.
Proof.
  destruct (VLAN_strip_and_pad macros 100 (page_of frame4_tagged) 0 48 (info_of frame4_tagged)) as (m1 & i1 & m2 & i2 & _ & _ & _ & _ & _ & E1 & E2);
    [by apply all_bytes_ok|lia|lia|by vm_compute|lia|by vm_compute|by vm_compute|].
  exists m2, i2. split; [exact E1|]. rewrite <- (eq_refl : 0 + 4 = 4). change 60 with (Z.max (48 - 4) 60). rewrite E2. by vm_compute.
Defined.

(** ** RSS *)

Definition key : list Z := (fun n => Z.of_nat n) <$> seq 1 40.
Definition hashing : PARANDIS_HASHING_SETTINGS := mk_hashing (Z.lor NDIS_HASH_IPV4 NdisHashFunctionToeplitz) key 40.


(** Two processors, 0 and 2, of four, and an entry that names none. *)
Definition machine : cpus :=
  mk_cpus (fun p => if (Number p <? 4) && (0 <=? Number p) then Number p else INVALID_PROCESSOR_INDEX)
    (fun i => Some (mk_proc 0 i 0)) 4 (fun _ => true).
Definition scaling : PARANDIS_SCALING_SETTINGS :=
  mk_scaling [mk_proc 0 0 0; mk_proc 0 2 0; mk_proc 0 9 0; mk_proc 0 2 0] 16 [0; 0; 0; 0] 3 None 0 0 proc_zero 0.

Lemma RSS_distribution_witness :
  exists s' map q, FillCPUMappingArray machine (AllocateCPUMappingArray machine scaling).2 2 = Ok s' /\ CPUIndexMapping s' = Some map /\
    map_ok machine 2 map q /\ QueueIndirectionTable s' = [0; 1; 0; 1].
Proof.
  destruct (RSS_distribution machine 2 scaling 2 1 (mk_proc 0 2 0)) as (s' & map & q & E & Em & Ho & _); try done; try lia.
  - intros p. cbn. destruct (_ && _) eqn:E; [right; lia|by left].
  - exists s', map, q. split; [exact E|]. split; [exact Em|]. split; [exact Ho|]. vm_compute in E. by injection E as <-.
Defined.

(** ** The receive path of NetKVM on a concrete adapter

    One receive path on a split queue of four entries, a system that grants blocks
    of up to 64 KB, and a device that delivers one datagram.  Each lemma applies a
    theorem about the receive path to them. *)

(** ** The system *)

Definition system : rx_alloc :=
  mk_rx_alloc (fun n size => if size <=? 65536 then Some (2 ^ 20 * (Z.of_nat n + 1)) else None) (fun _ => true).

Lemma system_apart : apart system.
Proof.
  intros i j b c Hij Hb Hc. unfold granted in *. cbn in *. unfold IsRegionInside.
  destruct (Z.leb_spec (blk_size b) 65536), (Z.leb_spec (blk_size c) 65536); try done. injection Hb as Hb. injection Hc as Hc. lia.
Qed.

(** A free address. *)
Definition fresh_address (X : gset Z) : Z := foldr Z.max 0 (elements X) + 1.

Lemma foldr_max_ge (l : list Z) x : x ∈ l -> x <= foldr Z.max 0 l.
Proof. induction 1; cbn; lia. Qed.

Lemma fresh_address_ok X : (fresh_address X ∉ X) /\ fresh_address X <> 0.
Proof.
  unfold fresh_address. split.
  - intros Hx%elem_of_elements. apply foldr_max_ge in Hx. lia.
  - enough (0 <= foldr Z.max 0 (elements X)) by lia. induction (elements X); cbn; lia.
Qed.

Definition layout : tRxLayout :=
  Eval vm_compute in match PrepareRXLayout true 1518 12 zero_layout with Ok l => l | Fault _ => zero_layout end.

Definition settings : rx_config :=
  mk_cfg 1518 1514 12 3 0 NDIS_PACKET_TYPE_PROMISCUOUS [2; 0; 0; 0; 0; 1] [] 0 false false 50 4
    true true layout false WIN64 all_offloads true.

Definition env : rx_env := mk_env settings 12 (fun n => n = 56) [] [].

Lemma layout_is_ok : layout_ok layout true 1530 12.
Proof.
  destruct (PrepareRXLayout_ok true 1518 12) as (l & E & L); [lia|lia|].
  assert (PrepareRXLayout true 1518 12 zero_layout = Ok layout) as E' by (by vm_compute). rewrite E in E'. injection E' as ->. exact L.
Qed.

Lemma system_ready : setup_ok env system fresh_address true 1530.
Proof.
  constructor; cbn [v_cfg v_start env settings nVirtioHeaderSize rx_layout maxRxBufferPerQueue]; try lia; try done.
  - apply fresh_address_ok.
  - apply system_apart.
  - intros p first ds. apply (buffer_fits env layout), layout_is_ok.
Qed.

(** ** The adapter *)

Definition no_rss : PARANDIS_RSS_PARAMS :=
  mk_rss 0 PARANDIS_RSS_DISABLED hashing hashing scaling hashing scaling.
Definition path0 : CParaNdisRX CVirtQueue := mk_rx _ (mk_cvq None false ∅ 0) [] 0 0 0 0 0 true [] 0.
Definition adapter0 : PARANDIS_ADAPTER CVirtQueue :=
  mk_adapter _ [path0] (replicate 32 []) ∅ no_rss (fun _ => 0) (mk_host 0 [] []) [].
Definition queue0 : CVirtQueue := mk_cvq (Some sys0) true ∅ 0.

Lemma sys0_initial : initial sys0.
Proof. exists 2, 0, dev0, 0. split; [lia|]. split; [exact q4_new|done]. Qed.

Lemma queue0_live : rxq_live (v_len env) queue0 [].
Proof. apply new_queue_live, sys0_initial. Qed.

Lemma adapter0_inv : rx_inv env (with_queue 0 queue0 path0 adapter0) [].
Proof.
  constructor; cbn; try done.
  - intros k r Hk. pose proof (zlookup_lt _ _ _ Hk) as Hr. change (0 <= k < 1) in Hr. assert (k = 0) as -> by lia. injection Hk as <-.
    constructor; cbn; try done.
    + intros s [= <-]. apply initial_good, sys0_initial.
    + intros _. exact queue0_live.
  - intros d Hd. change (d ∈ @nil Z) in Hd. by apply list.elem_of_nil in Hd.
Qed.

Lemma no_rss_ok : rss_ok no_rss.
Proof. by constructor. Qed.

(** ** The device *)

Definition deliver (q : CVirtQueue) : CVirtQueue :=
  match cq_ring q with
  | Some s =>
      if s_seen s =? av_idx (avail (s_vq s)) then q
      else match (av_ring (avail (s_vq s)))⟦DESC_INDEX (num (s_vq s)) (s_seen s)⟧ with
           | Some h => q <| cq_ring := Some (s <| s_vq := dev_use (s_vq s) h 56 |> <| s_seen := u16 (s_seen s + 1) |>) |>
           | None => q
           end
  | None => q
  end.
Definition device : @rx_device CVirtQueue :=
  mk_device (fun n q => if Nat.eqb n 0 then deliver q else q)
    (fun _ _ => [mk_page (page_of (replicate 12 0 ++ frame4)) 4096]) (fun _ _ => replicate 12 0).
Definition budget (n : nat) : nat := if Nat.eqb n 0 then 1 else 0.

Lemma device_idle q s : cq_ring q = Some s -> q = q <| cq_ring := Some s |>.
Proof. destruct q. cbn. by intros ->. Qed.

Lemma device_conforms : conforming env (Z.to_nat 8200) device budget.
Proof.
  constructor.
  - intros [|n] q s Hs; cbn [dev_run device Nat.eqb]; cycle 1.
    { exists 0%nat, s. split; [by apply device_idle|]. split; [constructor|cbn; lia]. }
    unfold deliver. rewrite Hs. destruct (Z.eqb_spec (s_seen s) (av_idx (avail (s_vq s)))) as [|Hne];
      [exists 0%nat, s; split; [by apply device_idle|]; split; [constructor|cbn; lia]|].
    destruct (_⟦_⟧) as [h|] eqn:Eh; [|exists 0%nat, s; split; [by apply device_idle|]; split; [constructor|cbn; lia]].
    eexists 1%nat, _. split; [done|]. split; [|cbn; lia].
    eapply ds_fetch; [done|exact Eh|]. eapply (ds_use _ _ _ h 56 (s_held s)); [done|done|]. by destruct s; apply ds_done.
  - intros n d nFull ->. cbn [dev_pages dev_header device]. constructor; cbn [v_cfg v_start env settings nVirtioHeaderSize bHashReportedByDevice]; try lia.
    + exists (page_of (replicate 12 0 ++ frame4)), 4096. split_and!; [done|by apply all_bytes_ok|by vm_compute|lia|by vm_compute].
    + by split.
Qed.

Definition serve : @dpc_env CVirtQueue := mk_dpc true (fun _ => true) true false device.

(** ** The theorems *)


Lemma rx_Create_ok_witness :
  exists a1, rx_Create settings system fresh_address 0 (Some queue0) adapter0 = Ok (true, a1) /\ rx_inv env a1 [].
Proof.
  destruct (rx_Create_ok env system fresh_address true 1530 system_ready 0 queue0 adapter0 [] path0) as (a1 & E & I & _);
    [apply adapter0_inv|done|done|done|done|apply queue0_live|done|].
  exists a1. split; [exact E|exact I].
Defined.

(** The adapter after the path was created, and after one packet. *)
Lemma created : exists a r, rx_Create settings system fresh_address 0 (Some queue0) adapter0 = Ok (true, a) /\ rx_inv env a [] /\
  (pPathBundles a)⟦0⟧ = Some r /\ m_Reinsert r = true /\ RSSParameters a = no_rss.
Proof.
  destruct (create_path_ok env system fresh_address true 1530 system_ready 0 queue0 adapter0 [] path0) as (a1 & r & E & I & Hr & Hre & R);
    [apply adapter0_inv|done|done|done|done|apply queue0_live|done|].
  exact (ex_intro _ a1 (ex_intro _ r (conj E (conj I (conj Hr (conj Hre R)))))).
Qed.

Lemma settings_start : 0 <= v_start env /\ Z.Even (v_start env).
Proof. split; [done|by exists 6]. Qed.


Lemma VirtIONetRelease_frees_all_witness :
  exists fuel a a', rx_Create settings system fresh_address 0 (Some queue0) adapter0 = Ok (true, a) /\
    VirtIONetRelease settings fuel a = Ok a' /\ memory_ok env (descriptors a') (rx_host a').
Proof.
  destruct created as (a & r & E & I & _). exists (S (base.size (descriptors a))), a.
  destruct (VirtIONetRelease_frees_all env (S (base.size (descriptors a))) a [] I ltac:(lia)) as (a' & E' & _ & _ & M).
  exists a'. split_and!; [exact E|exact E'|exact M].
Defined.

Lemma ParaNdis_ResetRxClassification_correct_witness :
  exists a a', rx_inv env a [] /\ ParaNdis_ResetRxClassification a = Ok a' /\ rx_inv env a' [] /\ concat (ReceiveQueues a') = [].
Proof.
  destruct created as (a & r & _ & I & _). destruct (ParaNdis_ResetRxClassification_correct env a [] I) as (a' & E & I' & Hc & _).
  exists a, a'. split_and!; [exact I|exact E|exact I'|exact Hc].
Defined.

(** A path that is stopped, and its new queue. *)
Definition stopped0 : CParaNdisRX CVirtQueue := path0 <| m_Reinsert := false |> <| m_VirtQueue := queue0 |>.

Lemma PopulateQueue_ok_witness :
  exists a' r', PopulateQueue settings 0 (adapter0 <| pPathBundles := [stopped0] |>) = Ok a' /\ rx_inv env a' [] /\
    (pPathBundles a')⟦0⟧ = Some r' /\ m_Reinsert r' = true.
Proof.
  destruct (PopulateQueue_ok env 0 (adapter0 <| pPathBundles := [stopped0] |>) [] stopped0) as (a' & r' & E & I & Hr & Hre & _);
    [|done|done|apply queue0_live|exists a', r'; split_and!; [exact E|exact I|exact Hr|exact Hre]].
  apply (rx_inv_path env (with_queue 0 queue0 path0 adapter0) [] [] 0 (path0 <| m_VirtQueue := queue0 |>) stopped0 eq_refl); [done| |by left|apply adapter0_inv].
  constructor; try done. intros s [= <-]. apply initial_good, sys0_initial.
Defined.

