(* ===== verification/VioSock.v ===== *)
(** * viosock: data and the operations on one socket

    The types of viosock/sys/viosock.h, Rx.c and Tx.c as records, and the
    operations that touch no virtqueue: credit accounting, timers, events, the bound
    and connected collections, socket states, pended requests.  The locks of the
    driver serialise these operations; each is one function here.

    What WDF and the Windows kernel answer is a parameter, [WdfEnv]: every answer is a
    function of the device state, nothing is assumed about it unless a theorem says
    so.  A file object, a request and a packet are their (non-zero) addresses. *)

From Stdlib Require Import ZArith Lia.
From stdpp Require Import base list numbers option gmap.
From S2P Require Import Prelude.
From S2P Require Import Virtio.

(** ** Constants *)

Definition VIRTIO_VSOCK_OP_INVALID : Z := 0.
Definition VIRTIO_VSOCK_OP_REQUEST : Z := 1.
Definition VIRTIO_VSOCK_OP_RESPONSE : Z := 2.
Definition VIRTIO_VSOCK_OP_RST : Z := 3.
Definition VIRTIO_VSOCK_OP_SHUTDOWN : Z := 4.
Definition VIRTIO_VSOCK_OP_RW : Z := 5.
Definition VIRTIO_VSOCK_OP_CREDIT_UPDATE : Z := 6.
Definition VIRTIO_VSOCK_OP_CREDIT_REQUEST : Z := 7.

Definition VIRTIO_VSOCK_SHUTDOWN_RCV : Z := 1.
Definition VIRTIO_VSOCK_SHUTDOWN_SEND : Z := 2.
Definition VIRTIO_VSOCK_SHUTDOWN_MASK : Z := 3.

Definition VIRTIO_VSOCK_DEFAULT_RX_BUF_SIZE : Z := 4096.
Definition VIRTIO_VSOCK_MAX_PKT_BUF_SIZE : Z := 65536.
Definition VSOCK_DEFAULT_BUFFER_SIZE : Z := 262144.
Definition VSOCK_DEFAULT_BUFFER_MAX_SIZE : Z := 262144.
Definition VSOCK_DEFAULT_BUFFER_MIN_SIZE : Z := 128.
Definition LAST_RESERVED_PORT : Z := 1023.
Definition MAX_PORT_RETRIES : nat := 24.
Definition INVALID_THREAD_ID : Z := -1.
Definition VIOSOCK_BYTES_TO_MERGE : Z := 128.
Definition VMADDR_CID_ANY : Z := 0xFFFFFFFF.
Definition VMADDR_PORT_ANY : Z := 0xFFFFFFFF.
Definition VMADDR_CID_HYPERVISOR : Z := 0.
Definition VMADDR_CID_RESERVED : Z := 1.
Definition VMADDR_CID_HOST : Z := 2.
Definition LONG_MAX : Z := 0x7FFFFFFF.
Definition LONGLONG_MAX : Z := 0x7FFFFFFFFFFFFFFF.

(** Times count units of 100 ns. *)
Definition USEC_TO_NANO (us : Z) : Z := us * 10.
Definition MSEC_TO_NANO (ms : Z) : Z := USEC_TO_NANO ms * 1000.
Definition SEC_TO_NANO (s : Z) : Z := MSEC_TO_NANO s * 1000.
Definition NANO_TO_USEC (ns : Z) : Z := Z.quot ns 10.
Definition NANO_TO_SEC (ns : Z) : Z := Z.quot (Z.quot (NANO_TO_USEC ns) 1000) 1000.
Definition VIOSOCK_TIMER_TOLERANCE : Z := MSEC_TO_NANO 50.
Definition VSOCK_DEFAULT_CONNECT_TIMEOUT : Z := SEC_TO_NANO 2.

Definition SOCK_CONTROL : Z := 0x01.
Definition SOCK_BOUND : Z := 0x02.
Definition SOCK_LINGER : Z := 0x04.
Definition SOCK_NON_BLOCK : Z := 0x08.
Definition SOCK_LOOPBACK : Z := 0x10.

Definition MSG_PEEK : Z := 0x2.
Definition MSG_WAITALL : Z := 0x8.

Definition FD_READ_BIT : Z := 0.
Definition FD_WRITE_BIT : Z := 1.
Definition FD_ACCEPT_BIT : Z := 3.
Definition FD_CONNECT_BIT : Z := 4.
Definition FD_CLOSE_BIT : Z := 5.

Definition STATUS_PENDING : Z := 0x103.
Definition STATUS_IO_TIMEOUT : Z := 0xC00000B5.
Definition STATUS_DEVICE_BUSY : Z := 0x80000011.
Definition STATUS_CANT_WAIT : Z := 0xC00000D8.
Definition STATUS_INVALID_DEVICE_STATE : Z := 0xC0000184.
Definition STATUS_CONNECTION_RESET : Z := 0xC000020D.
Definition STATUS_CONNECTION_REFUSED : Z := 0xC0000236.
Definition STATUS_CONNECTION_INVALID : Z := 0xC000023A.
Definition STATUS_CONNECTION_ACTIVE : Z := 0xC000023B.
Definition STATUS_CONNECTION_DISCONNECTED : Z := 0xC000020C.
Definition STATUS_LOCAL_DISCONNECT : Z := 0xC000013B.
Definition STATUS_REMOTE_DISCONNECT : Z := 0xC000013C.
Definition STATUS_ADDRESS_ALREADY_ASSOCIATED : Z := 0xC0000238.
Definition STATUS_INVALID_ADDRESS_COMPONENT : Z := 0xC0000207.
Definition STATUS_NOT_SOCKET : Z := 0xE0040001.
Definition STATUS_CONNECTION_ESTABLISHING : Z := 0xE0040002.

(** ** Types *)

Record VIRTIO_VSOCK_HDR := mk_hdr {
  src_cid : Z; dst_cid : Z; h_src_port : Z; h_dst_port : Z; h_len : Z; h_type : Z; h_op : Z; h_flags : Z;
  h_buf_alloc : Z; h_fwd_cnt : Z }.
#[export] Instance eta_hdr : Eta VIRTIO_VSOCK_HDR := fun h =>
  mk_hdr (src_cid h) (dst_cid h) (h_src_port h) (h_dst_port h) (h_len h) (h_type h) (h_op h) (h_flags h)
    (h_buf_alloc h) (h_fwd_cnt h).
Definition sizeof_hdr : Z := 44.

Inductive VIOSOCK_STATE :=
  | VIOSOCK_STATE_CLOSE | VIOSOCK_STATE_CONNECTING | VIOSOCK_STATE_CONNECTED | VIOSOCK_STATE_CLOSING
  | VIOSOCK_STATE_LISTEN.
#[export] Instance VIOSOCK_STATE_eq_dec : EqDecision VIOSOCK_STATE.
Proof. solve_decision. Defined.

(** [t_armed] is the due time given to [WdfTimerStart], until the timer is stopped. *)
Record VIOSOCK_TIMER := mk_timer { StartTime : Z; t_Timeout : Z; StartRefs : Z; t_armed : option Z }.
#[export] Instance eta_timer : Eta VIOSOCK_TIMER := fun t => mk_timer (StartTime t) (t_Timeout t) (StartRefs t) (t_armed t).

Record VIOSOCK_ACCEPT_ENTRY := mk_accept {
  ConnectSocket : option Z; a_dst_cid : Z; a_dst_port : Z; a_peer_buf_alloc : Z; a_peer_fwd_cnt : Z }.

(** A chained buffer is one of the pool, or lives in the context of a loopback write
    request. *)
Inductive cbref := CbPool (va : Z) | CbRequest (request : Z).
#[export] Instance cbref_eq_dec : EqDecision cbref.
Proof. solve_decision. Defined.
#[export] Instance cbref_countable : Countable cbref.
Proof.
  refine (inj_countable' (fun c => match c with CbPool v => inl v | CbRequest r => inr r end)
            (fun s => match s with inl v => CbPool v | inr r => CbRequest r end) _).
  by intros [].
Defined.

(** [cb_data]: the bytes at [BufferVA]; [ReadPtr] is an offset in them. *)
Record VIOSOCK_RX_CB := mk_cb {
  cb_data : list Z; BufferPA : Z; ReadPtr : Z; BytesToRead : Z; DataLen : Z; cb_Request : option Z }.
#[export] Instance eta_cb : Eta VIOSOCK_RX_CB := fun c =>
  mk_cb (cb_data c) (BufferPA c) (ReadPtr c) (BytesToRead c) (DataLen c) (cb_Request c).

Record VIOSOCK_RX_PKT := mk_rx_pkt { Header : VIRTIO_VSOCK_HDR; Buffer : option cbref }.
#[export] Instance eta_rx_pkt : Eta VIOSOCK_RX_PKT := fun p => mk_rx_pkt (Header p) (Buffer p).

(** The context of a read request: [rq_data] is the caller's buffer and [FreePtr] an
    offset in it. *)
Record VIOSOCK_RX_CONTEXT := mk_rq {
  BufferLen : Z; FreeBytes : Z; rq_Timeout : Z; Counter : Z; rq_Flags : Z; FreePtr : Z; rq_data : list Z }.
#[export] Instance eta_rq : Eta VIOSOCK_RX_CONTEXT := fun r =>
  mk_rq (BufferLen r) (FreeBytes r) (rq_Timeout r) (Counter r) (rq_Flags r) (FreePtr r) (rq_data r).

Record VIOSOCK_TX_ENTRY := mk_tx {
  tx_Request : option Z; tx_Socket : option Z; tx_dst_cid : Z; tx_src_port : Z; tx_dst_port : Z;
  tx_len : Z; tx_op : Z; tx_reply : bool; tx_flags : Z; tx_type : Z; tx_Timeout : Z }.
#[export] Instance eta_tx : Eta VIOSOCK_TX_ENTRY := fun e =>
  mk_tx (tx_Request e) (tx_Socket e) (tx_dst_cid e) (tx_src_port e) (tx_dst_port e)
    (tx_len e) (tx_op e) (tx_reply e) (tx_flags e) (tx_type e) (tx_Timeout e).

(** [Transaction]: the request of the DMA transaction. *)
Record VIOSOCK_TX_PKT := mk_tx_pkt { tp_Header : VIRTIO_VSOCK_HDR; Transaction : option Z }.
#[export] Instance eta_tx_pkt : Eta VIOSOCK_TX_PKT := fun p => mk_tx_pkt (tp_Header p) (Transaction p).

(** [ReadQueue] holds the requests forwarded to the manual queue of the socket and not
    retrieved; [EventSignaled] is the state of [EventObject]. *)
Record SOCKET_CONTEXT := mk_sock {
  Flags : Z; type : Z; s_dst_cid : Z; src_port : Z; dst_port : Z;
  State : VIOSOCK_STATE; ConnectTimeout : Z; SendTimeout : Z; RecvTimeout : Z; BufferMinSize : Z; BufferMaxSize : Z;
  PeerShutdown : Z; Shutdown : Z; CloseEvent : bool;
  EventObject : option Z; EventSignaled : bool; EventsMask : Z; Events : Z; EventsStatus : gmap Z Z;
  RxProcessingThreadId : Z; RxCbList : list cbref; RxBytes : Z; RxBuffers : Z;
  ReadQueue : list Z; ReadTimer : VIOSOCK_TIMER; PendedRequest : option Z; PendedTimer : VIOSOCK_TIMER;
  AcceptList : list VIOSOCK_ACCEPT_ENTRY; Backlog : Z; AcceptPended : Z;
  buf_alloc : Z; fwd_cnt : Z; last_fwd_cnt : Z; peer_buf_alloc : Z; peer_fwd_cnt : Z; tx_cnt : Z;
  LingerTime : Z; LoopbackSocket : option Z }.
#[export] Instance eta_sock : Eta SOCKET_CONTEXT := fun s =>
  mk_sock (Flags s) (type s) (s_dst_cid s) (src_port s) (dst_port s)
    (State s) (ConnectTimeout s) (SendTimeout s) (RecvTimeout s) (BufferMinSize s) (BufferMaxSize s)
    (PeerShutdown s) (Shutdown s) (CloseEvent s)
    (EventObject s) (EventSignaled s) (EventsMask s) (Events s) (EventsStatus s)
    (RxProcessingThreadId s) (RxCbList s) (RxBytes s) (RxBuffers s)
    (ReadQueue s) (ReadTimer s) (PendedRequest s) (PendedTimer s)
    (AcceptList s) (Backlog s) (AcceptPended s)
    (buf_alloc s) (fwd_cnt s) (last_fwd_cnt s) (peer_buf_alloc s) (peer_fwd_cnt s) (tx_cnt s)
    (LingerTime s) (LoopbackSocket s).

(** The device context.  [RxPkts], [Cbs], [TxPkts] and [Evts] are the memory behind the
    packet array, the chained buffers, the transmit slices and the event array;
    [ReadRequests] are the contexts of the read requests; [TxBitmap] is the bitmap of the
    sliced block; [completed] lists the completed requests, last first, with status and
    information; [uSvmPort], [lInProgress] and [lCounter] are the static variables of
    VIOSockBoundAdd, VIOSockTxDequeue and VIOSockReadTimerFunc. *)
Record DEVICE_CONTEXT {Q : Type} := mk_dev {
  RxVq : Q; RxPktVA : Z; RxPktPA : Z; RxPkts : gmap Z VIOSOCK_RX_PKT; RxPktList : list Z; RxPktNum : Z;
  RxCbBuffersNum : Z; RxCbBuffers : list cbref; Cbs : gmap cbref VIOSOCK_RX_CB; ReadRequests : gmap Z VIOSOCK_RX_CONTEXT;
  TxVq : Q; TxPktVA : Z; TxPktPA : Z; TxBitmap : list bool; TxPkts : gmap Z VIOSOCK_TX_PKT; TxPktNum : Z;
  TxQueuedReply : Z; TxList : list VIOSOCK_TX_ENTRY; TxTimer : VIOSOCK_TIMER; TxEnqueued : Z; TxPktAllocated : Z;
  lInProgress : bool;
  EvtVq : Q; EvtVA : Z; EvtPA : Z; Evts : gmap Z Z; EvtRstOccured : Z;
  BoundList : list Z; uSvmPort : Z; ConnectedList : list Z; sockets : gmap Z SOCKET_CONTEXT; guest_cid : Z;
  lCounter : Z; completed : list (Z * Z * Z) }.
Arguments DEVICE_CONTEXT : clear implicits.
#[export] Instance eta_dev {Q} : Eta (DEVICE_CONTEXT Q) := fun d =>
  mk_dev _ (RxVq d) (RxPktVA d) (RxPktPA d) (RxPkts d) (RxPktList d) (RxPktNum d)
    (RxCbBuffersNum d) (RxCbBuffers d) (Cbs d) (ReadRequests d)
    (TxVq d) (TxPktVA d) (TxPktPA d) (TxBitmap d) (TxPkts d) (TxPktNum d)
    (TxQueuedReply d) (TxList d) (TxTimer d) (TxEnqueued d) (TxPktAllocated d)
    (lInProgress d)
    (EvtVq d) (EvtVA d) (EvtPA d) (Evts d) (EvtRstOccured d)
    (BoundList d) (uSvmPort d) (ConnectedList d) (sockets d) (guest_cid d)
    (lCounter d) (completed d).

(** Contexts start zeroed, so an address never written reads as the zeroed context. *)
Definition timer_zero : VIOSOCK_TIMER := mk_timer 0 0 0 None.
Definition hdr_zero : VIRTIO_VSOCK_HDR := mk_hdr 0 0 0 0 0 0 0 0 0 0.
Definition sock_zero : SOCKET_CONTEXT :=
  mk_sock 0 0 0 0 0 VIOSOCK_STATE_CLOSE 0 0 0 0 0 0 0 false None false 0 0 ∅ 0 [] 0 0 [] timer_zero None timer_zero
    [] 0 0 0 0 0 0 0 0 0 None.
Definition cb_zero : VIOSOCK_RX_CB := mk_cb [] 0 0 0 0 None.
Definition rx_pkt_zero : VIOSOCK_RX_PKT := mk_rx_pkt hdr_zero None.
Definition rq_zero : VIOSOCK_RX_CONTEXT := mk_rq 0 0 0 0 0 0 [].
Definition tx_pkt_zero : VIOSOCK_TX_PKT := mk_tx_pkt hdr_zero None.

(** ** What the framework and the kernel answer *)

Class WdfEnv (D : Type) := {
  KeQueryTickCount : D -> Z;
  KeQueryTimeIncrement : Z;
  PsGetCurrentThreadId : D -> Z;
  RtlRandomEx : D -> Z -> Z;
  WdfRequestGetFileObject : Z -> Z;
  WdfRequestMarkCancelableEx : D -> Z -> Z;
  WdfRequestUnmarkCancelable : D -> Z -> Z;
  WdfMemoryCreateFromLookaside : D -> Z;
  WdfObjectAllocateContext : D -> Z -> Z;
  WdfRequestRetrieveInputBuffer : D -> Z -> Z * list Z;
  WdfRequestRetrieveOutputBuffer : D -> Z -> Z * list Z;
  WdfIoQueueRetrieveNextRequest : D -> Z -> option Z;
  WdfRequestForwardToIoQueue : D -> Z -> Z;
  WdfRequestRequeue : D -> Z -> Z;
  WdfCollectionAdd : D -> Z -> Z;
  WdfDmaTransactionExecute : D -> Z -> Z * list VirtIOBufferDescriptor;
  VirtIOWdfDeviceAllocDmaMemory : D -> Z -> Z;
  VirtIOWdfDeviceGetPhysicalAddress : D -> Z -> Z }.

Section device.
Context {Q : Type}.
Abbreviation dev := (DEVICE_CONTEXT Q).
Context `{W : WdfEnv dev}.
Implicit Types (d : dev) (s r : Z).

Definition sock d s : SOCKET_CONTEXT := default sock_zero (sockets d !! s).
Definition upd_sock d s (f : SOCKET_CONTEXT -> SOCKET_CONTEXT) : dev := d <| sockets := <[s := f (sock d s)]> (sockets d) |>.
Definition cb d c : VIOSOCK_RX_CB := default cb_zero (Cbs d !! c).
Definition upd_cb d c (f : VIOSOCK_RX_CB -> VIOSOCK_RX_CB) : dev := d <| Cbs := <[c := f (cb d c)]> (Cbs d) |>.
Definition rx_pkt d p : VIOSOCK_RX_PKT := default rx_pkt_zero (RxPkts d !! p).
Definition upd_pkt d p (f : VIOSOCK_RX_PKT -> VIOSOCK_RX_PKT) : dev := d <| RxPkts := <[p := f (rx_pkt d p)]> (RxPkts d) |>.
Definition rq d r : VIOSOCK_RX_CONTEXT := default rq_zero (ReadRequests d !! r).
Definition upd_rq d r (f : VIOSOCK_RX_CONTEXT -> VIOSOCK_RX_CONTEXT) : dev :=
  d <| ReadRequests := <[r := f (rq d r)]> (ReadRequests d) |>.
Definition tx_pkt d p : VIOSOCK_TX_PKT := default tx_pkt_zero (TxPkts d !! p).
Definition upd_tx_pkt d p (f : VIOSOCK_TX_PKT -> VIOSOCK_TX_PKT) : dev :=
  d <| TxPkts := <[p := f (tx_pkt d p)]> (TxPkts d) |>.

(** [WdfRequestCompleteWithInformation] and [WdfRequestComplete]. *)
Definition WdfRequestCompleteWithInformation d r (status info : Z) : dev := d <| completed := (r, status, info) :: completed d |>.
Definition WdfRequestComplete d r (status : Z) : dev := WdfRequestCompleteWithInformation d r status 0.

(** ** Flags *)

Definition VIOSockIsFlag (k : SOCKET_CONTEXT) (f : Z) : bool := truth (Z.land (Flags k) f).
Definition VIOSockSetFlag (k : SOCKET_CONTEXT) (f : Z) : SOCKET_CONTEXT := k <| Flags := Z.lor (Flags k) f |>.
Definition VIOSockResetFlag (k : SOCKET_CONTEXT) (f : Z) : SOCKET_CONTEXT := k <| Flags := Z.ldiff (Flags k) f |>.
Definition VIOSockIsNonBlocking (k : SOCKET_CONTEXT) : bool := VIOSockIsFlag k SOCK_NON_BLOCK.
Definition IsLoopbackSocket (k : SOCKET_CONTEXT) : bool := VIOSockIsFlag k SOCK_LOOPBACK.

(** ** Credit *)

(** The bytes the peer can still take, as the unsigned difference computes them. *)
Definition VIOSockTxGetCredit d s (uCredit : Z) : Z * dev :=
  let k := sock d s in
  let uRet := u32 (peer_buf_alloc k - u32 (tx_cnt k - peer_fwd_cnt k)) in
  let uRet := if uCredit <? uRet then uCredit else uRet in
  (uRet, upd_sock d s (fun k => k <| tx_cnt := u32 (tx_cnt k + uRet) |>)).

Definition VIOSockTxPutCredit d s (uCredit : Z) : dev := upd_sock d s (fun k => k <| tx_cnt := u32 (tx_cnt k - uCredit) |>).

(** [(LONG)peer_buf_alloc - (tx_cnt - peer_fwd_cnt)] is computed in 32 bits unsigned and
    read as signed. *)
Definition VIOSockTxHasSpace (k : SOCKET_CONTEXT) : Z :=
  let lBytes := s32 (peer_buf_alloc k - u32 (tx_cnt k - peer_fwd_cnt k)) in
  if lBytes <? 0 then 0 else lBytes.

Definition VIOSockTxSpaceUpdate d s (h : VIRTIO_VSOCK_HDR) : Z * dev :=
  let d := upd_sock d s (fun k => k <| peer_buf_alloc := h_buf_alloc h |> <| peer_fwd_cnt := h_fwd_cnt h |>) in
  (VIOSockTxHasSpace (sock d s), d).

Definition VIOSockTxMoreReplies d : bool := TxQueuedReply d <? s32 (RxPktNum d).

(** The header of an outgoing packet reports what this socket has consumed. *)
Definition VIOSockRxIncTxPkt d s (h : VIRTIO_VSOCK_HDR) : VIRTIO_VSOCK_HDR * dev :=
  let k := sock d s in
  (h <| h_fwd_cnt := fwd_cnt k |> <| h_buf_alloc := buf_alloc k |>, upd_sock d s (fun k => k <| last_fwd_cnt := fwd_cnt k |>)).

Definition VIOSockRxHasData (k : SOCKET_CONTEXT) : bool := truth (RxBytes k).

Definition VIOSockRxPktInc (k : SOCKET_CONTEXT) (uPktLen : Z) : bool * SOCKET_CONTEXT :=
  if buf_alloc k <? u32 (RxBytes k + uPktLen) then (false, k)
  else (true, k <| RxBytes := u32 (RxBytes k + uPktLen) |>).

Definition VIOSockRxPktDec (k : SOCKET_CONTEXT) (uPktLen : Z) : SOCKET_CONTEXT :=
  k <| RxBytes := u32 (RxBytes k - uPktLen) |> <| fwd_cnt := u32 (fwd_cnt k + uPktLen) |>.

(** ** Timers *)

Definition VIOSockTimerPassed d (t : VIOSOCK_TIMER) : Z := s64 ((KeQueryTickCount d - StartTime t) * KeQueryTimeIncrement).

Definition VIOSockTimerSet d (t : VIOSOCK_TIMER) (Timeout : Z) : VIOSOCK_TIMER :=
  if (Timeout =? 0) || (Timeout =? LONGLONG_MAX) then t <| StartTime := 0 |> <| t_Timeout := 0 |>
  else
    let Timeout := if Timeout <=? VIOSOCK_TIMER_TOLERANCE then VIOSOCK_TIMER_TOLERANCE + 1 else Timeout in
    t <| StartTime := KeQueryTickCount d |> <| t_Timeout := Timeout |> <| t_armed := Some (- Timeout) |>.

Definition VIOSockTimerStart d (t : VIOSOCK_TIMER) (Timeout : Z) : VIOSOCK_TIMER :=
  if (Timeout =? 0) || (Timeout =? LONGLONG_MAX) then t
  else
    let Timeout := if Timeout <=? VIOSOCK_TIMER_TOLERANCE then VIOSOCK_TIMER_TOLERANCE + 1 else Timeout in
    let t := t <| StartRefs := u32 (StartRefs t + 1) |> in
    let bSetTimer :=
      if truth (StartTime t) then
        let Remaining := s64 (t_Timeout t - s64 ((KeQueryTickCount d - StartTime t) * KeQueryTimeIncrement)) in
        Timeout + VIOSOCK_TIMER_TOLERANCE <? Remaining
      else true in
    if bSetTimer then t <| StartTime := KeQueryTickCount d |> <| t_Timeout := Timeout |> <| t_armed := Some (- Timeout) |> else t.

Definition VIOSockTimerCancel (t : VIOSOCK_TIMER) : VIOSOCK_TIMER :=
  t <| t_armed := None |> <| t_Timeout := 0 |> <| StartTime := 0 |>.

Definition VIOSockTimerDeref (t : VIOSOCK_TIMER) (bStop : bool) : VIOSOCK_TIMER :=
  let t := t <| StartRefs := u32 (StartRefs t - 1) |> in
  if (StartRefs t =? 0) && bStop then VIOSockTimerCancel t else t.

(** The result is used by no caller; what remains is that the timer is stopped. *)
Definition VIOSockTimerSuspend (t : VIOSOCK_TIMER) : VIOSOCK_TIMER := t <| t_armed := None |>.

Definition VIOSockTimerResume d (t : VIOSOCK_TIMER) : bool * VIOSOCK_TIMER :=
  let llTimeout := VIOSockTimerPassed d t in
  if llTimeout + VIOSOCK_TIMER_TOLERANCE <? t_Timeout t then (true, VIOSockTimerSet d t (t_Timeout t - llTimeout)) else (false, t).

(** ** Events *)

(** The event object is set when a masked event becomes pending.  The select work item
    that the call also schedules is not part of the model. *)
Definition VIOSockEventSetBit d s (uSetBit Status : Z) : dev :=
  upd_sock d s (fun k =>
    let uEvent := BIT uSetBit in
    let bSetEvent := truth (Z.land (Z.ldiff uEvent (Events k)) (EventsMask k)) in
    let k := k <| Events := Z.lor (Events k) uEvent |> <| EventsStatus := <[uSetBit := Status]> (EventsStatus k) |> in
    if bSetEvent && bool_decide (is_Some (EventObject k)) then k <| EventSignaled := true |> else k).

Definition VIOSockEventClearBit d s (uClearBit : Z) : dev :=
  upd_sock d s (fun k => k <| Events := Z.ldiff (Events k) (BIT uClearBit) |>).

(** What [VIOSockEnumNetEvents] reports. *)
Definition VIOSockEventsReport d s (pEvent : bool) : (Z * gmap Z Z) * dev :=
  let k := sock d s in
  ((Z.land (Events k) (EventsMask k), EventsStatus k),
   upd_sock d s (fun k => let k := k <| Events := 0 |> in if pEvent then k <| EventSignaled := false |> else k)).

Definition VIOSockEventRegister d s (lNetworkEvents : Z) (pEvent : option Z) : dev :=
  upd_sock d s (fun k =>
    let k := k <| EventsMask := lNetworkEvents |> <| EventObject := pEvent |> in
    if bool_decide (is_Some pEvent) && truth (Z.land (Events k) (EventsMask k)) then k <| EventSignaled := true |> else k).

(** ** Bound and connected sockets *)

Definition VIOSockBoundEnumUnlocked d (pEnumCallback : SOCKET_CONTEXT -> bool) : option Z :=
  head (filter (fun s => pEnumCallback (sock d s) = true) (BoundList d)).
Definition VIOSockBoundFindByPort d (ulSrcPort : Z) : option Z := VIOSockBoundEnumUnlocked d (fun k => src_port k =? ulSrcPort).
Definition VIOSockConnectedEnum d (pEnumCallback : SOCKET_CONTEXT -> bool) : option Z :=
  head (filter (fun s => pEnumCallback (sock d s) = true) (ConnectedList d)).
Definition VIOSockConnectedFindByRxPkt d (h : VIRTIO_VSOCK_HDR) : option Z :=
  VIOSockConnectedEnum d (fun k => (src_cid h =? s_dst_cid k) && (h_src_port h =? dst_port k) && (h_dst_port h =? src_port k)).

(** The first occurrence is removed. *)
Fixpoint WdfCollectionRemove (l : list Z) (s : Z) : list Z :=
  match l with [] => [] | x :: l => if x =? s then l else x :: WdfCollectionRemove l s end.

(** One try of the search for a free port: the status once a port is found. *)
Definition VIOSockBoundTryPort d s : option Z * dev :=
  let d := if uSvmPort d =? 0 then d <| uSvmPort := u32 (RtlRandomEx d s) |> else d in
  if uSvmPort d =? VMADDR_PORT_ANY then (None, d <| uSvmPort := 0 |>)
  else
    let d := if uSvmPort d <=? LAST_RESERVED_PORT then d <| uSvmPort := uSvmPort d + (LAST_RESERVED_PORT + 1) |> else d in
    let svm_port := uSvmPort d in
    let d := d <| uSvmPort := u32 (uSvmPort d + 1) |> in
    match VIOSockBoundFindByPort d svm_port with
    | Some _ => (None, d)
    | None =>
        let d := upd_sock d s (fun k => k <| src_port := svm_port |>) in
        let status := WdfCollectionAdd d s in
        (Some status, if NT_SUCCESS status then d <| BoundList := BoundList d ++ [s] |> else d)
    end.

Fixpoint VIOSockBoundSearch (i : nat) d s : Z * dev :=
  match i with
  | O => (STATUS_INSUFFICIENT_RESOURCES, d)
  | S i => let '(st, d) := VIOSockBoundTryPort d s in
           match st with Some status => (status, d) | None => VIOSockBoundSearch i d s end
  end.

Definition VIOSockBoundAdd d s (svm_port : Z) : Z * dev :=
  let '(status, d) :=
    if svm_port =? VMADDR_PORT_ANY then VIOSockBoundSearch MAX_PORT_RETRIES d s
    else match VIOSockBoundFindByPort d svm_port with
         | Some _ => (STATUS_ADDRESS_ALREADY_ASSOCIATED, d)
         | None =>
             let d := upd_sock d s (fun k => k <| src_port := svm_port |>) in
             let status := WdfCollectionAdd d s in
             (status, if NT_SUCCESS status then d <| BoundList := BoundList d ++ [s] |> else d)
         end in
  (status, if NT_SUCCESS status then upd_sock d s (fun k => VIOSockSetFlag k SOCK_BOUND) else d).

Definition VIOSockBoundRemove d s : dev :=
  if VIOSockIsFlag (sock d s) SOCK_BOUND
  then (upd_sock d s (fun k => VIOSockResetFlag k SOCK_BOUND)) <| BoundList := WdfCollectionRemove (BoundList d) s |> else d.

Definition VIOSockConnectedAdd d s : Z * dev :=
  let status := WdfCollectionAdd d s in
  (status, if NT_SUCCESS status then d <| ConnectedList := ConnectedList d ++ [s] |> else d).
Definition VIOSockConnectedRemove d s : dev := d <| ConnectedList := WdfCollectionRemove (ConnectedList d) s |>.

(** ** Socket states *)

(** A socket enters the connected collection with [CONNECTED] and leaves it for
    [CLOSE]; loopback sockets are never there. *)
Definition VIOSockStateSet d s (NewState : VIOSOCK_STATE) : VIOSOCK_STATE * dev :=
  let PrevState := State (sock d s) in
  let d := upd_sock d s (fun k => k <| State := NewState |>) in
  (PrevState,
   if bool_decide (PrevState <> NewState) && negb (IsLoopbackSocket (sock d s)) then
     if bool_decide (NewState = VIOSOCK_STATE_CLOSE) &&
        (bool_decide (PrevState = VIOSOCK_STATE_CONNECTED) || bool_decide (PrevState = VIOSOCK_STATE_CLOSING))
     then VIOSockConnectedRemove d s
     else if bool_decide (NewState = VIOSOCK_STATE_CONNECTED) then (VIOSockConnectedAdd d s).2 else d
   else d).

Definition VIOSockIsBound (k : SOCKET_CONTEXT) : bool := negb (src_port k =? VMADDR_PORT_ANY).

Definition VIOSockStateValidate (k : SOCKET_CONTEXT) (bTx : bool) : Z :=
  let bIsShutdown := truth (Z.land (Shutdown k) (if bTx then VIRTIO_VSOCK_SHUTDOWN_SEND else VIRTIO_VSOCK_SHUTDOWN_RCV)) in
  let bIsPeerShutdown := truth (Z.land (PeerShutdown k) (if bTx then VIRTIO_VSOCK_SHUTDOWN_RCV else VIRTIO_VSOCK_SHUTDOWN_SEND)) in
  if bIsShutdown then STATUS_LOCAL_DISCONNECT
  else if bIsPeerShutdown then STATUS_REMOTE_DISCONNECT
  else match State k with
       | VIOSOCK_STATE_CLOSING => STATUS_CONNECTION_RESET
       | VIOSOCK_STATE_CONNECTED => STATUS_SUCCESS
       | _ => STATUS_CONNECTION_INVALID
       end.

Definition VIOSockStateValidateShutdown (k : SOCKET_CONTEXT) (uHow : Z) : Z :=
  if Z.land (Shutdown k) uHow =? uHow then STATUS_LOCAL_DISCONNECT
  else if truth (Z.land (PeerShutdown k) VIRTIO_VSOCK_SHUTDOWN_MASK) then STATUS_SUCCESS
  else match State k with
       | VIOSOCK_STATE_CLOSING => STATUS_CONNECTION_RESET
       | VIOSOCK_STATE_CONNECTED => STATUS_SUCCESS
       | _ => STATUS_CONNECTION_INVALID
       end.

Definition VIOSockDoClose d s : dev :=
  let d := upd_sock d s (fun k => k <| PeerShutdown := VIRTIO_VSOCK_SHUTDOWN_MASK |>) in
  let d := if negb (VIOSockRxHasData (sock d s)) then (VIOSockStateSet d s VIOSOCK_STATE_CLOSING).2 else d in
  upd_sock d s (fun k => k <| CloseEvent := true |>).

Definition VIOSockIsDone (k : SOCKET_CONTEXT) : bool := CloseEvent k.

(** ** Pended requests *)

Definition VIOSockPendedRequestSetEx d s (Request Timeout : Z) (Resume : bool) : Z * dev :=
  let status := if WdfRequestGetFileObject Request =? s then STATUS_SUCCESS else WdfObjectAllocateContext d Request in
  if negb (NT_SUCCESS status) then (status, d)
  else
    let d := upd_sock d s (fun k => k <| PendedRequest := Some Request |>) in
    let status := WdfRequestMarkCancelableEx d Request in
    if negb (NT_SUCCESS status) then (status, upd_sock d s (fun k => k <| PendedRequest := None |>))
    else if Resume then
      let '(b, t) := VIOSockTimerResume d (PendedTimer (sock d s)) in
      let d := upd_sock d s (fun k => k <| PendedTimer := t |>) in
      if b then (status, d)
      else
        let status := if NT_SUCCESS (WdfRequestUnmarkCancelable d Request) then STATUS_IO_TIMEOUT else STATUS_CANCELLED in
        (status, upd_sock d s (fun k => k <| PendedRequest := None |>))
    else if truth Timeout then (status, upd_sock d s (fun k => k <| PendedTimer := VIOSockTimerSet d (PendedTimer k) Timeout |>))
    else (status, d).
Definition VIOSockPendedRequestSetLocked d s (Request Timeout : Z) : Z * dev := VIOSockPendedRequestSetEx d s Request Timeout false.
Definition VIOSockPendedRequestSetResumeLocked d s (Request : Z) : Z * dev := VIOSockPendedRequestSetEx d s Request 0 true.

(** The request, if there is one and it is not being cancelled. *)
Definition VIOSockPendedRequestGetLocked d s : Z * option Z * dev :=
  let d := upd_sock d s (fun k => k <| PendedTimer := VIOSockTimerSuspend (PendedTimer k) |>) in
  match PendedRequest (sock d s) with
  | None => (STATUS_SUCCESS, None, d)
  | Some Request =>
      let status := WdfRequestUnmarkCancelable d Request in
      if negb (NT_SUCCESS status) then (STATUS_CANCELLED, None, d)
      else (status, Some Request, upd_sock d s (fun k => k <| PendedRequest := None |>))
  end.

(** [ParentSocket] of the request's context, when it was pended on another socket. *)
Definition VIOSockPendedRequestCancel d (Request : Z) (ParentSocket : option Z) : dev :=
  let s := default (WdfRequestGetFileObject Request) ParentSocket in
  let d := upd_sock d s (fun k => k <| PendedTimer := VIOSockTimerCancel (PendedTimer k) |> <| PendedRequest := None |>) in
  WdfRequestComplete d Request STATUS_CANCELLED.

Definition VIOSockPendedTimerFunc d s : dev :=
  match VIOSockPendedRequestGetLocked d s with
  | (status, Some r, d) => if NT_SUCCESS status then WdfRequestComplete d r STATUS_IO_TIMEOUT else d
  | (_, None, d) => d
  end.

End device.
