(* ===== verification/VioSockRx.v ===== *)
(** * viosock: the receive path

    Rx.c and the accept list of Socket.c: the pool of chained buffers, the receive
    packets and their ring, the handlers of received packets, and the reads.

    A received packet can make the driver send one, which can make it process the
    receive ring again.  The sending functions are therefore parameters of this file
    ([TxEnqueue], [SendResetNoSock]); VioSockSystem ties the knot. *)

From Stdlib Require Import ZArith Lia.
From stdpp Require Import base list numbers option gmap.
From S2P Require Import Prelude.
From S2P Require Import Virtio.
From S2P Require Import VirtQueue.
From S2P Require Import VioSock.

(** [memcpy(dst + doff, src + soff, n)] within both blocks. *)
Definition memcpy (dst : list Z) (doff : Z) (src : list Z) (soff n : Z) : res (list Z) :=
  if bool_decide (0 <= n /\ 0 <= soff /\ soff + n <= zlen src /\ 0 <= doff /\ doff + n <= zlen dst)
  then Ok (take (Z.to_nat doff) dst ++ take (Z.to_nat n) (drop (Z.to_nat soff) src) ++ drop (Z.to_nat (doff + n)) dst)
  else Fault OutOfBounds.

Definition RemoveEntryList (c : cbref) (l : list cbref) : list cbref := filter (fun x => x <> c) l.

(** [sizeof(VIOSOCK_RX_PKT)], the offset and size of [IndirectDescs]. *)
Definition sizeof_rx_pkt : Z := 88.
Definition rx_indirect_offset : Z := 56.
Definition rx_indirect_size : Z := 32.

Definition WDF_ABS_TIMEOUT_IN_MS (t : Z) : Z := t * 10000.

Section rx.
Context {Q : Type} `{AsyncQueue Q}.
Abbreviation dev := (DEVICE_CONTEXT Q).
Context `{W : WdfEnv dev}.
Implicit Types (d : dev) (s p r : Z) (c : cbref).

(** ** Chained buffers *)

Definition VIOSockRxCbPush d c : dev := d <| RxCbBuffers := c :: RxCbBuffers d |>.

Definition VIOSockRxCbPop d : option cbref * dev :=
  match RxCbBuffers d with
  | [] => (None, d)
  | c :: l => (Some c, d <| RxCbBuffers := l |>)
  end.

(** The context and the common buffer are gone. *)
Definition VIOSockRxCbFree d c : dev := d <| Cbs := delete c (Cbs d) |>.

Definition VIOSockRxCbAdd d : bool * dev :=
  if NT_SUCCESS (WdfMemoryCreateFromLookaside d) then
    let va := VirtIOWdfDeviceAllocDmaMemory d VIRTIO_VSOCK_DEFAULT_RX_BUF_SIZE in
    if va =? 0 then (false, d)
    else
      let pa := VirtIOWdfDeviceGetPhysicalAddress d va in
      let c := CbPool va in
      let d := d <| Cbs := <[c := mk_cb (replicate (Z.to_nat VIRTIO_VSOCK_DEFAULT_RX_BUF_SIZE) 0) pa 0 0 0 None]> (Cbs d) |> in
      if pa =? 0 then (false, VIOSockRxCbFree d c) else (true, VIOSockRxCbPush d c)
  else (false, d).

(** The free list is emptied from its head. *)
Fixpoint VIOSockRxCbFreeAll (l : list cbref) d : dev :=
  match l with
  | [] => d
  | c :: l => VIOSockRxCbFreeAll l (VIOSockRxCbFree (d <| RxCbBuffers := l |>) c)
  end.
Definition VIOSockRxCbCleanup d : dev := VIOSockRxCbFreeAll (RxCbBuffers d) d.

Fixpoint VIOSockRxCbAddAll (i : nat) d : bool * dev :=
  match i with
  | O => (true, d)
  | S i => let '(b, d) := VIOSockRxCbAdd d in if b then VIOSockRxCbAddAll i d else (false, d)
  end.

Definition VIOSOCK_CB_ENTRIES (n : Z) : Z := u32 (n + Z.shiftr n 1).

Definition VIOSockRxCbInit d : bool * dev :=
  let d := d <| RxCbBuffersNum := VIOSOCK_CB_ENTRIES (RxPktNum d) |> in
  let d := if RxCbBuffersNum d <? RxPktNum d then d <| RxCbBuffersNum := RxPktNum d |> else d in
  let d := d <| RxCbBuffers := [] |> in
  let '(b, d) := VIOSockRxCbAddAll (Z.to_nat (RxCbBuffersNum d)) d in
  (b, if b then d else VIOSockRxCbCleanup d).

(** A chained buffer in the context of a loopback write request, over the request's
    input buffer. *)
Definition VIOSockRxCbEntryForRequest d (Request Length : Z) : option cbref * dev :=
  if negb (NT_SUCCESS (WdfObjectAllocateContext d Request)) then (None, d)
  else
    let '(status, buf) := WdfRequestRetrieveInputBuffer d Request in
    if NT_SUCCESS status
    then (Some (CbRequest Request), d <| Cbs := <[CbRequest Request := mk_cb buf 0 0 (u32 Length) (u32 Length) (Some Request)]> (Cbs d) |>)
    else (None, d).

(** ** Receive packets *)

Definition VIOSockRxPktCleanup d p : dev :=
  match Buffer (rx_pkt d p) with
  | Some c => upd_pkt (VIOSockRxCbPush d c) p (fun x => x <| Buffer := None |>)
  | None => d
  end.

Definition VIOSOCK_PKT_PA_FROM_VA d p : Z := RxPktPA d + u64 (p - RxPktVA d).

(** Gives the packet to the device, with a buffer of the pool when it has none. *)
Definition VIOSockRxPktInsert d p : res (bool * dev) :=
  let '(buf, d) :=
    match Buffer (rx_pkt d p) with
    | Some c => (Some c, d)
    | None => let '(c, d) := VIOSockRxCbPop d in (c, upd_pkt d p (fun x => x <| Buffer := c |>))
    end in
  match buf with
  | None => Ok (false, d)
  | Some c =>
      let pa := VIOSOCK_PKT_PA_FROM_VA d p in
      let sg := [mk_sg pa sizeof_hdr; mk_sg (BufferPA (cb d c)) VIRTIO_VSOCK_DEFAULT_RX_BUF_SIZE] in
      '(ret, vq) ← vsq_add_buf (RxVq d) sg 0 2 p (Some (rx_indirect_size, pa + rx_indirect_offset));
      let d := d <| RxVq := vq |> in
      if ret <? 0 then Ok (false, VIOSockRxPktCleanup d p) else Ok (true, d)
  end.

(** The postponed packets, until one cannot be inserted. *)
Fixpoint VIOSockRxPktListLoop (l : list Z) d : res dev :=
  match l with
  | [] => Ok d
  | p :: l =>
      '(b, d) ← VIOSockRxPktInsert (d <| RxPktList := l |>) p;
      if b : bool then VIOSockRxPktListLoop l d else Ok (d <| RxPktList := p :: RxPktList d |>)
  end.
Definition VIOSockRxPktListProcess d : res dev := VIOSockRxPktListLoop (RxPktList d) d.

Definition kick_RxVq d : dev :=
  let '(bNotify, vq) := vsq_kick_prepare (RxVq d) in d <| RxVq := if bNotify then vsq_notify vq else vq |>.

Definition VIOSockRxPktListProcessLocked d : res dev :=
  d ← VIOSockRxPktListProcess d; Ok (kick_RxVq d).

Definition VIOSockRxPktInsertOrPostpone d p : res dev :=
  '(b, d) ← VIOSockRxPktInsert d p;
  if negb b then Ok (d <| RxPktList := p :: RxPktList d |>)
  else d ← VIOSockRxPktListProcess d; Ok (kick_RxVq d).

(** ** Setting up and tearing down the ring *)

Fixpoint VIOSockRxDrain (fuel : nat) d : res dev :=
  '(b, vq) ← vsq_detach_unused_buf (RxVq d);
  let d := d <| RxVq := vq |> in
  match b, fuel with
  | None, _ => Ok d
  | Some p, S fuel => VIOSockRxDrain fuel (VIOSockRxPktCleanup d p)
  | Some _, O => Fault OutOfFuel
  end.

Definition VIOSockRxVqCleanup (fuel : nat) d : res dev :=
  d ← VIOSockRxDrain fuel d;
  let d := foldl (fun d p => VIOSockRxPktCleanup d p) (d <| RxPktList := [] |>) (RxPktList d) in
  let d := VIOSockRxCbCleanup d in
  Ok (if RxPktVA d =? 0 then d else d <| RxPkts := ∅ |> <| RxPktVA := 0 |>).

Fixpoint VIOSockRxFill (pkts : list Z) d : res (Z * dev) :=
  match pkts with
  | [] => Ok (STATUS_SUCCESS, d)
  | p :: pkts => '(b, d) ← VIOSockRxPktInsert d p;
                 if b : bool then VIOSockRxFill pkts d else Ok (STATUS_UNSUCCESSFUL, d)
  end.

Definition rx_pkt_array (va n : Z) : list Z := (fun i => va + sizeof_rx_pkt * Z.of_nat i) <$> seq 0 (Z.to_nat n).

(** [(st, uNumEntries)]: what [virtio_query_queue_allocation] returns. *)
Definition VIOSockRxVqInit (fuel : nat) (st uNumEntries : Z) d : res (Z * dev) :=
  let d := d <| RxPktList := [] |> in
  if negb (NT_SUCCESS st) then Ok (st, d)
  else
    let d := d <| RxPktNum := uNumEntries |> in
    let va := VirtIOWdfDeviceAllocDmaMemory d (u32 (sizeof_rx_pkt * uNumEntries)) in
    let d := d <| RxPktVA := va |> <| RxPkts := if va =? 0 then ∅ else gset_to_gmap rx_pkt_zero (list_to_set (rx_pkt_array va uNumEntries)) |> in
    '(status, d) ←
      (if va =? 0 then Ok (STATUS_INSUFFICIENT_RESOURCES, d)
       else let '(b, d) := VIOSockRxCbInit d in
            if b then
              let d := d <| RxPktPA := VirtIOWdfDeviceGetPhysicalAddress d va |> in
              VIOSockRxFill (rx_pkt_array va uNumEntries) d
            else Ok (STATUS_UNSUCCESSFUL, d));
    if NT_SUCCESS status then Ok (status, d) else d ← VIOSockRxVqCleanup fuel d; Ok (status, d).

(** ** Data of a connected socket *)

(** The payload of a packet joins the last buffer of the socket when it is small and
    fits, or the packet's buffer joins the list; it is dropped when the socket's
    receive buffer would overflow.  The result says whether to serve the readers. *)
Definition VIOSockRxPktEnqueueCb d s p : res (bool * dev) :=
  match Buffer (rx_pkt d p) with
  | None => Fault NullPointer
  | Some b =>
      let PktLen := h_len (Header (rx_pkt d p)) in
      let enqueue (bRes : bool) :=
        let '(ok, k) := VIOSockRxPktInc (sock d s) PktLen in
        if ok then
          let d := upd_cb d b (fun x => x <| DataLen := PktLen |> <| BytesToRead := PktLen |> <| ReadPtr := 0 |>) in
          let d := upd_sock d s (fun _ => k <| RxCbList := RxCbList k ++ [b] |> <| RxBuffers := u32 (RxBuffers k + 1) |>) in
          Ok (bRes, upd_pkt d p (fun x => x <| Buffer := None |>))
        else Ok (false, d) in
      match last (RxCbList (sock d s)) with
      | Some cur =>
          if PktLen <=? VIOSOCK_BYTES_TO_MERGE then
            let BufferFree := u32 (VIRTIO_VSOCK_DEFAULT_RX_BUF_SIZE - DataLen (cb d cur)) in
            if PktLen <=? BufferFree then
              let '(ok, k) := VIOSockRxPktInc (sock d s) PktLen in
              if ok then
                buf ← memcpy (cb_data (cb d cur)) (DataLen (cb d cur)) (cb_data (cb d b)) 0 PktLen;
                let d := upd_cb d cur (fun x => x <| cb_data := buf |> <| DataLen := u32 (DataLen x + PktLen) |>
                                                  <| BytesToRead := u32 (BytesToRead x + PktLen) |>) in
                Ok (false, upd_sock d s (fun _ => k))
              else Ok (false, d)
            else enqueue false
          else enqueue true
      | None => enqueue true
      end
  end.

(** A loopback write waits in the list of the destination socket [s]. *)
Definition VIOSockRxRequestEnqueueCb d s (Request Length : Z) : Z * dev :=
  match VIOSockRxCbEntryForRequest d Request Length with
  | (None, d) => (STATUS_INSUFFICIENT_RESOURCES, d)
  | (Some c, d) =>
      let '(ok, k) := VIOSockRxPktInc (sock d s) (DataLen (cb d c)) in
      if ok then
        let d := upd_sock d s (fun _ => k) in
        let status := WdfRequestMarkCancelableEx d Request in
        if NT_SUCCESS status then
          (STATUS_SUCCESS, upd_sock d s (fun k => k <| RxCbList := RxCbList k ++ [c] |> <| RxBuffers := u32 (RxBuffers k + 1) |>))
        else (status, d)
      else (STATUS_BUFFER_TOO_SMALL, d)
  end.

(** The cancel routine of a waiting loopback write.  The socket it accounts to is the
    one the request was sent on; the buffer is unlinked wherever it is listed. *)
Definition VIOSockRxRequestCancelCb d (Request : Z) : dev :=
  let s := WdfRequestGetFileObject Request in
  let c := CbRequest Request in
  let k := cb d c in
  let d := upd_sock d s (fun x => VIOSockRxPktDec x (BytesToRead k)) in
  let d := d <| sockets := (fun x => x <| RxCbList := RemoveEntryList c (RxCbList x) |>) <$> sockets d |> in
  let status := if BytesToRead k =? DataLen k then STATUS_CANCELLED else STATUS_SUCCESS in
  WdfRequestCompleteWithInformation d Request status (u32 (DataLen k - BytesToRead k)).

(** ** Reads *)

(** Copies from the buffers of the socket to the request until the request is full or
    the list is exhausted, consuming the bytes unless [MSG_PEEK] is given.  Returns the
    loopback buffers to complete and whether pool buffers became free. *)
Fixpoint VIOSockReadCopy (l : list cbref) d s r (Loopback : list cbref) (bProcess : bool) : res (list cbref * bool * dev) :=
  match l with
  | [] => Ok (Loopback, bProcess, d)
  | c :: l =>
      let k := cb d c in let q := rq d r in
      let peek := truth (Z.land (rq_Flags q) MSG_PEEK) in
      if BytesToRead k <=? FreeBytes q then
        buf ← memcpy (rq_data q) (FreePtr q) (cb_data k) (ReadPtr k) (BytesToRead k);
        let d := upd_rq d r (fun q => q <| rq_data := buf |> <| FreePtr := FreePtr q + BytesToRead k |>
                                        <| FreeBytes := u32 (FreeBytes q - BytesToRead k) |>) in
        if peek then VIOSockReadCopy l d s r Loopback bProcess
        else
          let uBytesToRead := BytesToRead k in
          let d := upd_cb d c (fun k => k <| BytesToRead := 0 |>) in
          let d := upd_sock d s (fun k => k <| RxCbList := RemoveEntryList c (RxCbList k) |>) in
          match cb_Request k with
          | Some w =>
              if NT_SUCCESS (WdfRequestUnmarkCancelable d w)
              then VIOSockReadCopy l (upd_sock d s (fun k => VIOSockRxPktDec k uBytesToRead)) s r (Loopback ++ [c]) bProcess
              else VIOSockReadCopy l d s r Loopback bProcess
          | None =>
              let d := VIOSockRxCbPush d c in
              VIOSockReadCopy l (upd_sock d s (fun k => VIOSockRxPktDec k uBytesToRead)) s r Loopback true
          end
      else
        buf ← memcpy (rq_data q) (FreePtr q) (cb_data k) (ReadPtr k) (FreeBytes q);
        let d := if peek then d
                 else upd_sock (upd_cb d c (fun k => k <| ReadPtr := ReadPtr k + FreeBytes q |>
                                                       <| BytesToRead := u32 (BytesToRead k - FreeBytes q) |>))
                        s (fun k => VIOSockRxPktDec k (FreeBytes q)) in
        Ok (Loopback, bProcess, upd_rq d r (fun q => q <| rq_data := buf |> <| FreeBytes := 0 |>))
  end.

(** The completion of the loopback writes whose data was read. *)
Definition VIOSockCompleteLoopback d (l : list cbref) : dev :=
  foldl (fun d c => let k := cb d c in
                    WdfRequestCompleteWithInformation d (default 0 (cb_Request k))
                      (if truth (DataLen k) then STATUS_SUCCESS else STATUS_CANCELLED) (DataLen k)) d l.

(** Puts the request back at the head of its queue; ready notifications of that queue
    are ignored meanwhile by this thread. *)
Definition VIOSockRequeue d s r (llTimeout : Z) : Z * dev :=
  let d := upd_sock d s (fun k => k <| RxProcessingThreadId := PsGetCurrentThreadId d |>) in
  let status := WdfRequestRequeue d r in
  let d := if NT_SUCCESS status then upd_sock d s (fun k => k <| ReadQueue := r :: ReadQueue k |>) else d in
  let d := upd_sock d s (fun k => k <| RxProcessingThreadId := INVALID_THREAD_ID |>) in
  if NT_SUCCESS status
  then (status, if truth llTimeout then upd_sock d s (fun k => k <| ReadTimer := VIOSockTimerStart d (ReadTimer k) llTimeout |>) else d)
  else (status, d).

(** What remains of the request's timeout, 0 when it has none. *)
Definition VIOSockReadRemaining d s r : Z * dev :=
  if truth (rq_Timeout (rq d r)) then
    let llTimeout := VIOSockTimerPassed d (ReadTimer (sock d s)) in
    let d := upd_sock d s (fun k => k <| ReadTimer := VIOSockTimerDeref (ReadTimer k) true |>) in
    (if llTimeout <? rq_Timeout (rq d r) then s64 (rq_Timeout (rq d r) - llTimeout) else VIOSOCK_TIMER_TOLERANCE, d)
  else (0, d).

(** A read that finds no data: the status to complete it with, or [None] to requeue
    it. *)
Definition VIOSockReadNoData d s : option Z :=
  let k := sock d s in
  let status := VIOSockStateValidate k false in
  if VIOSockIsNonBlocking k || bool_decide (State k <> VIOSOCK_STATE_CONNECTED) then
    if NT_SUCCESS status then (if VIOSockIsNonBlocking k then Some STATUS_CANT_WAIT else None)
    else Some (if status =? STATUS_REMOTE_DISCONNECT then STATUS_SUCCESS else status)
  else
    if NT_SUCCESS status then None
    else Some (if (status =? STATUS_LOCAL_DISCONNECT) || (status =? STATUS_REMOTE_DISCONNECT) then STATUS_SUCCESS else status).

(** Requeue unless the request's time is over; the request is still held when a status
    is returned. *)
Definition VIOSockRequeueOrExpire d s r (llTimeout : Z) : option Z * dev :=
  if truth llTimeout && (llTimeout <=? VIOSOCK_TIMER_TOLERANCE) then (Some STATUS_IO_TIMEOUT, d)
  else let '(status, d) := VIOSockRequeue d s r llTimeout in (if NT_SUCCESS status then None else Some status, d).

Section handlers.
Context (TxEnqueue : dev -> Z -> Z -> Z -> bool -> option (Z * Z) -> res (Z * dev)).
Context (SendResetNoSock : dev -> VIRTIO_VSOCK_HDR -> res (Z * dev)).

Definition VIOSockSendCreditUpdate d s : res (Z * dev) := TxEnqueue d s VIRTIO_VSOCK_OP_CREDIT_UPDATE 0 false None.
Definition VIOSockSendReset d s (reply : bool) : res (Z * dev) := TxEnqueue d s VIRTIO_VSOCK_OP_RST 0 reply None.
Definition VIOSockSendResponse d s : res (Z * dev) := TxEnqueue d s VIRTIO_VSOCK_OP_RESPONSE 0 true None.

(** Serves the next read request; whether to go on with another. *)
Definition VIOSockReadDequeueCb d s : res (bool * dev) :=
  if RxProcessingThreadId (sock d s) =? PsGetCurrentThreadId d then Ok (false, d)
  else match WdfIoQueueRetrieveNextRequest d s with
  | None => Ok (false, d)
  | Some r =>
      let d := upd_sock d s (fun k => k <| ReadQueue := filter (fun x => x <> r) (ReadQueue k) |>) in
      let '(llTimeout, d) := VIOSockReadRemaining d s r in
      let complete d status := WdfRequestCompleteWithInformation d r status (u32 (BufferLen (rq d r) - FreeBytes (rq d r))) in
      if negb (VIOSockRxHasData (sock d s)) then
        match VIOSockReadNoData d s with
        | Some status => Ok (false, complete d status)
        | None =>
            let '(st, d) := VIOSockRequeueOrExpire d s r llTimeout in
            Ok (false, match st with Some status => complete d status | None => d end)
        end
      else
        '(Loopback, bProcess, d) ← VIOSockReadCopy (RxCbList (sock d s)) d s r [] false;
        d ← (if bProcess : bool then VIOSockRxPktListProcessLocked d else Ok d);
        let q := rq d r in
        let '(st, d) :=
          if (FreeBytes q =? 0) || truth (Z.land (rq_Flags q) MSG_PEEK) then (Some STATUS_SUCCESS, d)
          else if (BufferLen q =? FreeBytes q) || truth (Z.land (rq_Flags q) MSG_WAITALL)
          then VIOSockRequeueOrExpire d s r llTimeout else (Some STATUS_SUCCESS, d) in
        let k := sock d s in
        let bSetBit := bool_decide (is_Some st) && VIOSockRxHasData k in
        let FreeSpace := u32 (buf_alloc k - u32 (fwd_cnt k - last_fwd_cnt k)) in
        let d := if bSetBit then VIOSockEventSetBit d s FD_READ_BIT STATUS_SUCCESS else VIOSockEventClearBit d s FD_READ_BIT in
        d ← (if FreeSpace <? VIRTIO_VSOCK_MAX_PKT_BUF_SIZE then '(_, d) ← VIOSockSendCreditUpdate d s; Ok d else Ok d);
        let d := match st with Some status => complete d status | None => d end in
        Ok (bool_decide (is_Some st), VIOSockCompleteLoopback d Loopback)
  end.

Fixpoint VIOSockReadProcessDequeueCb (fuel : nat) d s : res dev :=
  '(b, d) ← VIOSockReadDequeueCb d s;
  match (b : bool), fuel with
  | false, _ => Ok d
  | true, S fuel => VIOSockReadProcessDequeueCb fuel d s
  | true, O => Fault OutOfFuel
  end.

(** ** Accepting connections *)

Definition VIOSockAcceptInitSocket d (pAcceptSocket pListenSocket : Z) : res (Z * dev) :=
  let l := sock d pListenSocket in
  let d := upd_sock d pAcceptSocket (fun k =>
    k <| type := type l |> <| src_port := src_port l |> <| ConnectTimeout := ConnectTimeout l |>
      <| BufferMinSize := BufferMinSize l |> <| BufferMaxSize := BufferMaxSize l |> <| buf_alloc := buf_alloc l |>) in
  let d := (VIOSockStateSet d pAcceptSocket VIOSOCK_STATE_CONNECTED).2 in
  '(status, d) ← VIOSockSendResponse d pAcceptSocket;
  Ok (status, VIOSockEventSetBit d pListenSocket FD_ACCEPT_BIT status).

(** The peer of the accepted connection. *)
Definition set_peer (cid port balloc fwd : Z) (k : SOCKET_CONTEXT) : SOCKET_CONTEXT :=
  k <| s_dst_cid := cid |> <| dst_port := port |> <| peer_buf_alloc := balloc |> <| peer_fwd_cnt := fwd |>.

Definition AcceptPendedAdd d s (n : Z) : dev := upd_sock d s (fun k => k <| AcceptPended := s32 (AcceptPended k + n) |>).

(** A connection request completes the pended accept, or waits in the accept list while
    the backlog has room. *)
Definition VIOSockAcceptEnqueuePkt d s (h : VIRTIO_VSOCK_HDR) : res (Z * dev) :=
  let d := AcceptPendedAdd d s 1 in
  let lAcceptPended := AcceptPended (sock d s) in
  if Backlog (sock d s) <? lAcceptPended then Ok (STATUS_CONNECTION_RESET, AcceptPendedAdd d s (-1))
  else
    let '(pended, d) :=
      if lAcceptPended =? 1 then let '(_, r, d) := VIOSockPendedRequestGetLocked d s in (r, d) else (None, d) in
    match pended with
    | Some r =>
        let a := WdfRequestGetFileObject r in
        let d := AcceptPendedAdd d s (-1) in
        let d := upd_sock d a (set_peer (u32 (src_cid h)) (h_src_port h) (h_buf_alloc h) (h_fwd_cnt h)) in
        '(_, d) ← VIOSockAcceptInitSocket d a s;
        Ok (STATUS_SUCCESS, WdfRequestComplete d r STATUS_SUCCESS)
    | None =>
        let status := WdfMemoryCreateFromLookaside d in
        if NT_SUCCESS status then
          let e := mk_accept None (u32 (src_cid h)) (h_src_port h) (h_buf_alloc h) (h_fwd_cnt h) in
          let d := upd_sock d s (fun k => k <| AcceptList := AcceptList k ++ [e] |>) in
          Ok (STATUS_PENDING, VIOSockEventSetBit d s FD_ACCEPT_BIT STATUS_SUCCESS)
        else Ok (status, AcceptPendedAdd d s (-1))
    end.

(** The first entry of that peer leaves the list. *)
Fixpoint remove_accept (cid port : Z) (l : list VIOSOCK_ACCEPT_ENTRY) : option (list VIOSOCK_ACCEPT_ENTRY) :=
  match l with
  | [] => None
  | e :: l => if (a_dst_cid e =? cid) && (a_dst_port e =? port) then Some l else cons e <$> remove_accept cid port l
  end.
Definition VIOSockAcceptRemovePkt d s (h : VIRTIO_VSOCK_HDR) : dev :=
  match remove_accept (src_cid h) (h_src_port h) (AcceptList (sock d s)) with
  | Some l => AcceptPendedAdd (upd_sock d s (fun k => k <| AcceptList := l |>)) s (-1)
  | None => d
  end.

(** A loopback entry is taken when its socket is still connecting. *)
Definition VIOSockLoopbackAcceptDequeue d (pAcceptSocket ConnectSocket : Z) : bool * dev :=
  if bool_decide (State (sock d ConnectSocket) = VIOSOCK_STATE_CONNECTING)
  then (true, upd_sock d pAcceptSocket (fun k => VIOSockSetFlag (k <| LoopbackSocket := Some ConnectSocket |>) SOCK_LOOPBACK))
  else (false, d).

(** [l] is the accept list of the listening socket. *)
Fixpoint VIOSockAcceptDequeue_loop (l : list VIOSOCK_ACCEPT_ENTRY) d (pListenSocket pAcceptSocket : Z) : res (bool * dev) :=
  match l with
  | [] => Ok (false, d)
  | e :: l =>
      let d := upd_sock d pListenSocket (fun k => k <| AcceptList := l |>) in
      let d := AcceptPendedAdd d pListenSocket (-1) in
      let '(ok, d) := match ConnectSocket e with
                      | Some c => VIOSockLoopbackAcceptDequeue d pAcceptSocket c
                      | None => (true, d)
                      end in
      if ok then
        let d := upd_sock d pAcceptSocket (set_peer (a_dst_cid e) (a_dst_port e) (a_peer_buf_alloc e) (a_peer_fwd_cnt e)) in
        '(_, d) ← VIOSockAcceptInitSocket d pAcceptSocket pListenSocket; Ok (true, d)
      else VIOSockAcceptDequeue_loop l d pListenSocket pAcceptSocket
  end.
Definition VIOSockAcceptDequeue d (pListenSocket pAcceptSocket : Z) : res (bool * dev) :=
  VIOSockAcceptDequeue_loop (AcceptList (sock d pListenSocket)) d pListenSocket pAcceptSocket.

Definition VIOSockAcceptCleanup d s : dev := upd_sock d s (fun k => k <| AcceptList := [] |> <| AcceptPended := 0 |>).

(** [pListenSocket]: the bound socket of the handle, if the handle is one. *)
Definition VIOSockAccept d (pListenSocket : option Z) (Request : Z) : res (Z * dev) :=
  match pListenSocket with
  | None => Ok (STATUS_NOT_SOCKET, d)
  | Some l =>
      if bool_decide (State (sock d l) <> VIOSOCK_STATE_LISTEN) then Ok (STATUS_INVALID_PARAMETER, d)
      else
        let a := WdfRequestGetFileObject Request in
        let d := if VIOSockIsNonBlocking (sock d l) then upd_sock d a (fun k => VIOSockSetFlag k SOCK_NON_BLOCK) else d in
        let d := VIOSockEventClearBit d l FD_ACCEPT_BIT in
        '(b, d) ← VIOSockAcceptDequeue d l a;
        if b : bool then Ok (STATUS_SUCCESS, d)
        else if VIOSockIsNonBlocking (sock d l) then Ok (STATUS_CANT_WAIT, d)
        else match PendedRequest (sock d l) with
             | Some _ => Ok (STATUS_DEVICE_BUSY, d)
             | None => let '(status, d) := VIOSockPendedRequestSetLocked d l Request 0 in
                       Ok (if NT_SUCCESS status then STATUS_PENDING else status, d)
             end
  end.

(** ** Received packets *)

Section fuel.
Context (fuel : nat).

(** Reads with no data left end when the peer stops sending. *)
Fixpoint VIOSockDrainReads (n : nat) d s : res dev :=
  match ReadQueue (sock d s), n with
  | [], _ => Ok d
  | _, S n => d ← VIOSockReadProcessDequeueCb fuel d s; VIOSockDrainReads n d s
  | _, O => Fault OutOfFuel
  end.

Definition VIOSockShutdownFromPeer d s (uFlags : Z) : res (bool * dev) :=
  let k := sock d s in
  let uDrain := Z.ldiff uFlags (PeerShutdown k) in
  let d := upd_sock d s (fun k => k <| PeerShutdown := Z.lor (PeerShutdown k) uFlags |>) in
  let bRes := Z.land (PeerShutdown (sock d s)) VIRTIO_VSOCK_SHUTDOWN_MASK =? VIRTIO_VSOCK_SHUTDOWN_MASK in
  d ← (if truth (Z.land uDrain VIRTIO_VSOCK_SHUTDOWN_SEND) then VIOSockDrainReads fuel d s else Ok d);
  Ok (bRes, d).

Definition VIOSockRxPktHandleConnecting d s (h : VIRTIO_VSOCK_HDR) (bTxHasSpace : bool) : res dev :=
  let '(status, PendedRequest, d) := VIOSockPendedRequestGetLocked d s in
  let '(status, PendedRequest, d) :=
    if NT_SUCCESS status then
      if bool_decide (PendedRequest = None) && negb (VIOSockIsNonBlocking (sock d s)) then (STATUS_CANCELLED, PendedRequest, d)
      else if h_op h =? VIRTIO_VSOCK_OP_RESPONSE then
        let d := (VIOSockStateSet d s VIOSOCK_STATE_CONNECTED).2 in
        let d := VIOSockEventSetBit d s FD_CONNECT_BIT STATUS_SUCCESS in
        (STATUS_SUCCESS, PendedRequest, if bTxHasSpace then VIOSockEventSetBit d s FD_WRITE_BIT STATUS_SUCCESS else d)
      else if h_op h =? VIRTIO_VSOCK_OP_INVALID then
        match PendedRequest with
        | Some r => let '(status, d) := VIOSockPendedRequestSetResumeLocked d s r in
                    (status, if NT_SUCCESS status then None else Some r, d)
        | None => (status, None, d)
        end
      else if h_op h =? VIRTIO_VSOCK_OP_RST then (STATUS_CONNECTION_REFUSED, PendedRequest, d)
      else (STATUS_CONNECTION_INVALID, PendedRequest, d)
    else (status, PendedRequest, d) in
  d ← (if negb (NT_SUCCESS status) then
         let d := VIOSockEventSetBit d s FD_CONNECT_BIT status in
         let d := (VIOSockStateSet d s VIOSOCK_STATE_CLOSE).2 in
         if h_op h =? VIRTIO_VSOCK_OP_RST then Ok d else '(_, d) ← VIOSockSendReset d s true; Ok d
       else Ok d);
  Ok (match PendedRequest with Some r => WdfRequestComplete d r status | None => d end).

Definition VIOSockRxPktHandleConnected d s p (bTxHasSpace : bool) : res dev :=
  let h := Header (rx_pkt d p) in
  if h_op h =? VIRTIO_VSOCK_OP_RW then
    '(b, d) ← VIOSockRxPktEnqueueCb d s p;
    if b : bool then VIOSockReadProcessDequeueCb fuel (VIOSockEventSetBit d s FD_READ_BIT STATUS_SUCCESS) s else Ok d
  else if h_op h =? VIRTIO_VSOCK_OP_CREDIT_UPDATE then
    Ok (if bTxHasSpace then VIOSockEventSetBit d s FD_WRITE_BIT STATUS_SUCCESS else d)
  else if h_op h =? VIRTIO_VSOCK_OP_SHUTDOWN then
    '(b, d) ← VIOSockShutdownFromPeer d s (Z.land (h_flags h) VIRTIO_VSOCK_SHUTDOWN_MASK);
    if b && negb (VIOSockRxHasData (sock d s)) && negb (VIOSockIsDone (sock d s))
    then '(_, d) ← VIOSockSendReset d s false; Ok (VIOSockDoClose d s) else Ok d
  else if h_op h =? VIRTIO_VSOCK_OP_RST then
    Ok (VIOSockEventSetBit (VIOSockDoClose d s) s FD_CLOSE_BIT STATUS_CONNECTION_RESET)
  else Ok d.

Definition VIOSockRxPktHandleDisconnecting d s (h : VIRTIO_VSOCK_HDR) : dev :=
  if h_op h =? VIRTIO_VSOCK_OP_RST then VIOSockDoClose d s else d.

Definition VIOSockRxPktHandleListen d s (h : VIRTIO_VSOCK_HDR) : res dev :=
  if h_op h =? VIRTIO_VSOCK_OP_RST then Ok (VIOSockAcceptRemovePkt d s h)
  else if negb (h_op h =? VIRTIO_VSOCK_OP_REQUEST) then '(_, d) ← SendResetNoSock d h; Ok d
  else '(status, d) ← VIOSockAcceptEnqueuePkt d s h;
       if NT_SUCCESS status then Ok d else '(_, d) ← SendResetNoSock d h; Ok d.

(** The socket a packet is for: the connection, or else the bound port. *)
Definition VIOSockRxFindSocket d (h : VIRTIO_VSOCK_HDR) : option Z :=
  let s := match VIOSockConnectedFindByRxPkt d h with Some s => Some s | None => VIOSockBoundFindByPort d (h_dst_port h) end in
  match s with Some s => if type (sock d s) =? h_type h then Some s else None | None => None end.

Definition VIOSockRxHandlePkt d p : res dev :=
  let h := Header (rx_pkt d p) in
  match VIOSockRxFindSocket d h with
  | None => '(_, d) ← SendResetNoSock d h; VIOSockRxPktInsertOrPostpone d p
  | Some s =>
      let '(space, d) := VIOSockTxSpaceUpdate d s h in
      let bTxHasSpace := truth space in
      d ← match State (sock d s) with
          | VIOSOCK_STATE_CONNECTING => VIOSockRxPktHandleConnecting d s h bTxHasSpace
          | VIOSOCK_STATE_CONNECTED => VIOSockRxPktHandleConnected d s p bTxHasSpace
          | VIOSOCK_STATE_CLOSING => Ok (VIOSockRxPktHandleDisconnecting d s h)
          | VIOSOCK_STATE_LISTEN => VIOSockRxPktHandleListen d s h
          | VIOSOCK_STATE_CLOSE => Ok d
          end;
      VIOSockRxPktInsertOrPostpone d p
  end.

(** Takes the used packets off the ring, dropping short and long ones; stops when too
    many replies are queued.  Returns the packets in order and whether it stopped. *)
Fixpoint VIOSockRxTake (n : nat) d (acc : list Z) : res (list Z * bool * dev) :=
  match n with
  | O => Fault OutOfFuel
  | S n =>
      if negb (VIOSockTxMoreReplies d) then Ok (acc, true, d)
      else
        '(b, vq) ← vsq_get_buf (RxVq d);
        let d := d <| RxVq := vq |> in
        match b with
        | None => Ok (acc, false, d)
        | Some (p, len) =>
            if (len <? sizeof_hdr) || (sizeof_hdr + h_len (Header (rx_pkt d p)) <? len)
            then '(_, d) ← VIOSockRxPktInsert d p; VIOSockRxTake n d acc
            else VIOSockRxTake n d (acc ++ [p])
        end
  end.

Fixpoint VIOSockRxTakeAll (n : nat) d (acc : list Z) : res (list Z * dev) :=
  let d := d <| RxVq := vsq_disable_cb (RxVq d) |> in
  '(acc, bStop, d) ← VIOSockRxTake fuel d acc;
  '(b, vq) ← vsq_enable_cb (RxVq d);
  let d := d <| RxVq := vq |> in
  if negb b && negb bStop then match n with S n => VIOSockRxTakeAll n d acc | O => Fault OutOfFuel end else Ok (acc, d).

Fixpoint VIOSockRxHandleAll (l : list Z) d : res dev :=
  match l with
  | [] => Ok d
  | p :: l => d ← VIOSockRxHandlePkt d p; VIOSockRxHandleAll l d
  end.

Definition VIOSockRxVqProcess d : res dev :=
  '(l, d) ← VIOSockRxTakeAll fuel d []; VIOSockRxHandleAll l d.

End fuel.
End handlers.

(** ** The entry points of reads *)

Definition VIOSockReadForward d s r (rFlags : Z) : Z * dev :=
  let status := WdfObjectAllocateContext d r in
  if negb (NT_SUCCESS status) then (status, d)
  else
    let '(status, buf) := WdfRequestRetrieveOutputBuffer d r in
    if negb (NT_SUCCESS status) then (status, d)
    else
      let k := sock d s in
      let bTimer := negb (VIOSockIsNonBlocking k) && negb (RecvTimeout k =? LONG_MAX) in
      let Timeout := if bTimer then WDF_ABS_TIMEOUT_IN_MS (RecvTimeout k) else 0 in
      let d := upd_rq d r (fun _ => mk_rq (u32 (zlen buf)) (u32 (zlen buf)) Timeout 0 rFlags 0 buf) in
      let d := if bTimer then upd_sock d s (fun k => k <| ReadTimer := VIOSockTimerStart d (ReadTimer k) Timeout |>) else d in
      let d := VIOSockEventClearBit d s FD_READ_BIT in
      let status := WdfRequestForwardToIoQueue d r in
      if NT_SUCCESS status then (status, upd_sock d s (fun k => k <| ReadQueue := ReadQueue k ++ [r] |>))
      else (status, if bTimer then upd_sock d s (fun k => k <| ReadTimer := VIOSockTimerDeref (ReadTimer k) true |>) else d).

Definition VIOSockRead d r : dev :=
  let s := WdfRequestGetFileObject r in
  if VIOSockIsFlag (sock d s) SOCK_CONTROL then WdfRequestComplete d r STATUS_NOT_SOCKET
  else let '(status, d) := VIOSockReadForward d s r 0 in
       if NT_SUCCESS status then d else WdfRequestComplete d r status.

(** [(st, rFlags)]: what [WdfRequestRetrieveInputBuffer] gives. *)
Definition VIOSockReadWithFlags d r (st rFlags : Z) : Z * dev :=
  let both := Z.lor MSG_PEEK MSG_WAITALL in
  let status :=
    if negb (NT_SUCCESS st) then st
    else if truth (Z.ldiff rFlags both) then STATUS_NOT_SUPPORTED
    else if Z.land rFlags both =? both then STATUS_NOT_SUPPORTED else st in
  if NT_SUCCESS status then
    let '(st', d) := VIOSockReadForward d (WdfRequestGetFileObject r) r rFlags in
    (if NT_SUCCESS st' then STATUS_PENDING else status, d)
  else (status, d).

Definition VIOSockReadIoCanceledOnQueue d s r : dev :=
  let d := upd_sock d s (fun k => k <| ReadQueue := filter (fun x => x <> r) (ReadQueue k) |>) in
  let q := rq d r in
  if negb (BufferLen q =? FreeBytes q)
  then WdfRequestCompleteWithInformation d r STATUS_SUCCESS (u32 (BufferLen q - FreeBytes q))
  else WdfRequestComplete d r STATUS_CANCELLED.

(** Drops the data of a socket that is being closed.  [l] is its list of buffers. *)
Fixpoint VIOSockReadCleanup_loop (l : list cbref) d s (Loopback : list cbref) : list cbref * dev :=
  match l with
  | [] => (Loopback, d)
  | c :: l =>
      let d := upd_sock d s (fun k => k <| RxCbList := l |>) in
      match cb_Request (cb d c) with
      | Some w => VIOSockReadCleanup_loop l d s (if NT_SUCCESS (WdfRequestUnmarkCancelable d w) then Loopback ++ [c] else Loopback)
      | None => VIOSockReadCleanup_loop l (VIOSockRxCbPush d c) s Loopback
      end
  end.

Definition VIOSockReadCleanupCb d s : res dev :=
  let '(Loopback, d) := VIOSockReadCleanup_loop (RxCbList (sock d s)) d s [] in
  d ← VIOSockRxPktListProcessLocked d;
  Ok (foldl (fun d c => WdfRequestComplete d (default 0 (cb_Request (cb d c))) STATUS_CANCELLED) d Loopback).

End rx.
