(* ===== verification/VioSockTx.v ===== *)
(** * viosock: the transmit path and loopback connections

    Tx.c, the slices of VirtIO/WDF/Dma.c that hold its packets, and Loopback.c.
    Processing the receive ring ([RxVqProcess]) and sending from within a handler
    ([TxEnqueue]) are parameters here; VioSockSystem ties the knot. *)

From Stdlib Require Import ZArith Lia.
From stdpp Require Import base list numbers option gmap.
From S2P Require Import Prelude.
From S2P Require Import Virtio.
From S2P Require Import VirtQueue.
From S2P Require Import VioSock.
From S2P Require Import VioSockRx.

(** [VIOSOCK_DMA_TX_PAGES], [sizeof(VIOSOCK_TX_PKT)], the offset and size of its
    [IndirectDescs]. *)
Definition VIOSOCK_DMA_TX_PAGES : Z := 16.
Definition sizeof_tx_pkt : Z := 352.
Definition tx_indirect_offset : Z := 64.
Definition tx_indirect_size : Z := 288.

(** The fragments of a packet of [len] bytes: as many elements of the list as are
    needed, the last one cut; [None] when they are too many.  [i] elements with [uPktLen]
    bytes precede. *)
Fixpoint tx_fragments (els : list VirtIOBufferDescriptor) (i uPktLen len : Z) : option (list VirtIOBufferDescriptor) :=
  match els with
  | [] => Some []
  | e :: els =>
      if VIOSOCK_DMA_TX_PAGES + 2 <=? i + 1 then None
      else
        let uPktLen := u32 (uPktLen + sg_length e) in
        if len <=? uPktLen then Some [mk_sg (physAddr e) (u32 (sg_length e - u32 (uPktLen - len)))]
        else cons e <$> tx_fragments els (i + 1) uPktLen len
  end.

(** The index of the first clear bit. *)
Fixpoint first_clear (l : list bool) : option nat :=
  match l with [] => None | false :: _ => Some O | true :: l => S <$> first_clear l end.

Section tx.
Context {Q : Type} `{AsyncQueue Q}.
Abbreviation dev := (DEVICE_CONTEXT Q).
Context `{W : WdfEnv dev}.
Implicit Types (d : dev) (s p r : Z) (e : VIOSOCK_TX_ENTRY).

(** ** Packets *)

(** [get_slice] of the sliced block: [AllocateSlice] of VirtIO/WDF/Dma.c. *)
Definition AllocateSlice d : option Z * dev :=
  match first_clear (TxBitmap d) with
  | Some i => (Some (TxPktVA d + sizeof_tx_pkt * Z.of_nat i), d <| TxBitmap := <[i := true]> (TxBitmap d) |>)
  | None => (None, d)
  end.

(** [return_slice]: [FreeSlice]. *)
Definition FreeSlice d p : dev :=
  let offset := p - TxPktVA d in
  if bool_decide (0 <= offset < sizeof_tx_pkt * zlen (TxBitmap d)) && (offset mod sizeof_tx_pkt =? 0) then
    let i := Z.to_nat (offset / sizeof_tx_pkt) in
    if default false (TxBitmap d !! i) then d <| TxBitmap := <[i := false]> (TxBitmap d) |> else d
  else d.

Definition VIOSockTxPktAlloc d e : option Z * dev :=
  match AllocateSlice d with
  | (None, d) => (None, d)
  | (Some p, d) =>
      let h := tp_Header (tx_pkt d p) in
      let '(h, d) := match tx_Socket e with Some s => VIOSockRxIncTxPkt d s h | None => (h, d) end in
      let h := h <| src_cid := guest_cid d |> <| dst_cid := tx_dst_cid e |> <| h_src_port := tx_src_port e |>
                 <| h_dst_port := tx_dst_port e |> <| h_len := tx_len e |> <| h_type := tx_type e |>
                 <| h_op := tx_op e |> <| h_flags := tx_flags e |> in
      let d := upd_tx_pkt d p (fun _ => mk_tx_pkt h None) in
      (Some p, d <| TxPktAllocated := s32 (TxPktAllocated d + 1) |>)
  end.

Definition VIOSockTxPktFree d p : dev := (FreeSlice d p) <| TxPktAllocated := s32 (TxPktAllocated d - 1) |>.

(** [pParams]: the request and the scatter list of the DMA transaction. *)
Definition VIOSockTxPktInsert d p (pParams : option (Z * list VirtIOBufferDescriptor)) : res (bool * dev) :=
  let d := match pParams with Some (r, _) => upd_tx_pkt d p (fun x => x <| Transaction := Some r |>) | None => d end in
  let pa := TxPktPA d + (p - TxPktVA d) in
  match (match pParams with Some (_, els) => tx_fragments els 0 0 (h_len (tp_Header (tx_pkt d p))) | None => Some [] end) with
  | None => Ok (false, d)
  | Some sg =>
      let sg := mk_sg pa sizeof_hdr :: sg in
      '(ret, vq) ← vsq_add_buf (TxVq d) sg (zlen sg) 0 p (if 1 <? zlen sg then Some (tx_indirect_size, pa + tx_indirect_offset) else None);
      let d := d <| TxVq := vq |> in
      Ok (0 <=? ret, d)
  end.

Definition kick_TxVq d : dev :=
  let '(bNotify, vq) := vsq_kick_prepare (TxVq d) in d <| TxVq := if bNotify then vsq_notify vq else vq |>.

(** The packets the device has sent: control packets are freed, the others are collected
    in order. *)
Fixpoint VIOSockTxTake (n : nat) d (acc : list Z) : res (list Z * dev) :=
  match n with
  | O => Fault OutOfFuel
  | S n =>
      '(b, vq) ← vsq_get_buf (TxVq d);
      let d := d <| TxVq := vq |> in
      match b with
      | None => Ok (acc, d)
      | Some (p, _) => match Transaction (tx_pkt d p) with
                       | Some _ => VIOSockTxTake n d (acc ++ [p])
                       | None => VIOSockTxTake n (VIOSockTxPktFree d p) acc
                       end
      end
  end.

Fixpoint VIOSockTxTakeAll (fuel n : nat) d (acc : list Z) : res (list Z * dev) :=
  let d := d <| TxVq := vsq_disable_cb (TxVq d) |> in
  '(acc, d) ← VIOSockTxTake fuel d acc;
  '(b, vq) ← vsq_enable_cb (TxVq d);
  let d := d <| TxVq := vq |> in
  if negb b then match n with S n => VIOSockTxTakeAll fuel n d acc | O => Fault OutOfFuel end else Ok (acc, d).

Definition VIOSockTxComplete (status : Z) d (l : list Z) : dev :=
  foldl (fun d p => match Transaction (tx_pkt d p) with
                    | Some r => WdfRequestCompleteWithInformation d r status (h_len (tp_Header (tx_pkt d p)))
                    | None => d
                    end) d l.

(** ** Sending the queued entries *)

(** Runs when the fragments [els] of the write are known: the packet goes to the device, or it
    is freed and the request fails. *)
Definition VIOSockTxDequeueCallback d p r (els : list VirtIOBufferDescriptor) : res dev :=
  '(b, d) ← VIOSockTxPktInsert d p (Some (r, els));
  Ok (if b : bool then kick_TxVq d else WdfRequestComplete (VIOSockTxPktFree d p) r STATUS_INSUFFICIENT_RESOURCES).

(** The DMA transaction of a write.  The result of the callback does not matter: once the
    transaction is executed the answer is TRUE. *)
Definition VirtIOWdfDeviceDmaTxAsync d p r : res (bool * dev) :=
  let '(status, els) := WdfDmaTransactionExecute d r in
  if negb (NT_SUCCESS status) then Ok (false, d)
  else d ← VIOSockTxDequeueCallback d p r els; Ok (true, d).

(** An entry with a request: the packet goes out, or the request fails. *)
Definition VIOSockTxDequeueRequest d e p r : res dev :=
  if NT_SUCCESS (WdfRequestUnmarkCancelable d r) then
    let d := if truth (tx_Timeout e) then d <| TxTimer := VIOSockTimerDeref (TxTimer d) true |> else d in
    let status := VIOSockStateValidate (sock d (default 0 (tx_Socket e))) true in
    let status := if status =? STATUS_REMOTE_DISCONNECT then STATUS_LOCAL_DISCONNECT else status in
    '(status, d) ← (if NT_SUCCESS status
                    then '(b, d) ← VirtIOWdfDeviceDmaTxAsync d p r; Ok (if b : bool then status else STATUS_INSUFFICIENT_RESOURCES, d)
                    else Ok (status, d));
    Ok (if NT_SUCCESS status then d else VIOSockTxPktFree (WdfRequestComplete d r status) p)
  else Ok d.

(** [l] is the list of queued entries.  Returns [bKick] and [bRestartRx]. *)
Fixpoint VIOSockTxDequeue_loop (l : list VIOSOCK_TX_ENTRY) d (bKick bRestartRx : bool) : res (bool * bool * dev) :=
  match l with
  | [] => Ok (bKick, bRestartRx, d)
  | e :: l =>
      match VIOSockTxPktAlloc d e with
      | (None, d) => Ok (bKick, bRestartRx, d)
      | (Some p, d) =>
          let d := d <| TxList := l |> <| TxEnqueued := s32 (TxEnqueued d - 1) |> in
          match tx_Request e with
          | Some r => d ← VIOSockTxDequeueRequest d e p r; VIOSockTxDequeue_loop l d bKick bRestartRx
          | None =>
              '(b, d) ← VIOSockTxPktInsert d p None;
              if b : bool then
                if tx_reply e then
                  let d := d <| TxQueuedReply := s32 (TxQueuedReply d - 1) |> in
                  VIOSockTxDequeue_loop l d true (u32 (TxQueuedReply d + 1) =? RxPktNum d)
                else VIOSockTxDequeue_loop l d true bRestartRx
              else Ok (bKick, bRestartRx, VIOSockTxPktFree (d <| TxList := e :: l |> <| TxEnqueued := s32 (TxEnqueued d + 1) |>) p)
          end
      end
  end.

Section calls.
Context (fuel : nat).
Context (RxVqProcess : dev -> res dev).
Context (TxEnqueue : dev -> Z -> Z -> Z -> bool -> option (Z * Z) -> res (Z * dev)).

Definition VIOSockTxDequeue d : res dev :=
  if lInProgress d then Ok d
  else
    let d := d <| lInProgress := true |> in
    '(bKick, bRestartRx, d) ← VIOSockTxDequeue_loop (TxList d) d false false;
    let d := d <| lInProgress := false |> in
    let d := if bKick : bool then kick_TxVq d else d in
    if bRestartRx : bool then RxVqProcess d else Ok d.

Definition VIOSockTxVqProcess d : res dev :=
  '(l, d) ← VIOSockTxTakeAll fuel fuel d [];
  let d := VIOSockTxComplete STATUS_SUCCESS d l in
  let d := foldl (fun d p => VIOSockTxPktFree d p) d l in
  VIOSockTxDequeue d.

Definition VIOSockSendResetNoSock d (h : VIRTIO_VSOCK_HDR) : res (Z * dev) :=
  if h_op h =? VIRTIO_VSOCK_OP_RST then Ok (STATUS_SUCCESS, d)
  else
    let status := WdfMemoryCreateFromLookaside d in
    if negb (NT_SUCCESS status) then Ok (status, d)
    else
      let e := mk_tx None None (src_cid h) (h_dst_port h) (h_src_port h) 0 VIRTIO_VSOCK_OP_RST false 0 (h_type h) 0 in
      d ← VIOSockTxVqProcess (d <| TxList := TxList d ++ [e] |>);
      Ok (status, d).

(** ** Loopback connections *)

Definition VIOSockLoopbackAcceptEnqueue d (pListenSocket pConnectSocket : Z) : res (Z * dev) :=
  let d := AcceptPendedAdd d pListenSocket 1 in
  let lAcceptPended := AcceptPended (sock d pListenSocket) in
  if Backlog (sock d pListenSocket) <? lAcceptPended then Ok (STATUS_CONNECTION_RESET, AcceptPendedAdd d pListenSocket (-1))
  else
    let '(pended, d) :=
      if lAcceptPended =? 1 then let '(_, r, d) := VIOSockPendedRequestGetLocked d pListenSocket in (r, d) else (None, d) in
    let k := sock d pConnectSocket in
    match pended with
    | Some r =>
        let a := WdfRequestGetFileObject r in
        let d := AcceptPendedAdd d pListenSocket (-1) in
        let d := upd_sock d a (set_peer (u32 (guest_cid d)) (src_port k) (buf_alloc k) (fwd_cnt k)) in
        let d := upd_sock d a (fun x => VIOSockSetFlag (x <| LoopbackSocket := Some pConnectSocket |>) SOCK_LOOPBACK) in
        '(_, d) ← VIOSockAcceptInitSocket TxEnqueue d a pListenSocket;
        Ok (STATUS_SUCCESS, WdfRequestComplete d r STATUS_SUCCESS)
    | None =>
        let status := WdfMemoryCreateFromLookaside d in
        if NT_SUCCESS status then
          let e := mk_accept (Some pConnectSocket) (u32 (guest_cid d)) (src_port k) (buf_alloc k) (fwd_cnt k) in
          let d := upd_sock d pListenSocket (fun x => x <| AcceptList := AcceptList x ++ [e] |>) in
          Ok (STATUS_PENDING, VIOSockEventSetBit d pListenSocket FD_ACCEPT_BIT STATUS_SUCCESS)
        else Ok (status, AcceptPendedAdd d pListenSocket (-1))
    end.

Definition VIOSockLoopbackTxSpaceUpdate d (pDstSocket pSrcSocket : Z) : Z * dev :=
  let d := upd_sock d pSrcSocket (fun k => k <| last_fwd_cnt := fwd_cnt k |>) in
  let src := sock d pSrcSocket in
  let d := upd_sock d pDstSocket (fun k => k <| peer_buf_alloc := buf_alloc src |> <| peer_fwd_cnt := fwd_cnt src |>) in
  (VIOSockTxHasSpace (sock d pDstSocket), d).

Definition VIOSockLoopbackConnect d s : res (Z * dev) :=
  match VIOSockBoundFindByPort d (dst_port (sock d s)) with
  | Some l => if bool_decide (State (sock d l) = VIOSOCK_STATE_LISTEN)
              then VIOSockLoopbackAcceptEnqueue d l s else Ok (STATUS_CONNECTION_RESET, d)
  | None => Ok (STATUS_CONNECTION_RESET, d)
  end.

Definition VIOSockLoopbackHandleConnecting d (pDestSocket pSrcSocket Op : Z) (bTxHasSpace : bool) : res (Z * dev) :=
  let '(status, PendedRequest, d) := VIOSockPendedRequestGetLocked d pDestSocket in
  let '(status, PendedRequest, d) :=
    if NT_SUCCESS status then
      if bool_decide (PendedRequest = None) && negb (VIOSockIsNonBlocking (sock d pDestSocket)) then (STATUS_CANCELLED, PendedRequest, d)
      else if Op =? VIRTIO_VSOCK_OP_RESPONSE then
        let d := upd_sock d pDestSocket (fun k => k <| LoopbackSocket := Some pSrcSocket |>) in
        let d := (VIOSockStateSet d pDestSocket VIOSOCK_STATE_CONNECTED).2 in
        let d := VIOSockEventSetBit d pDestSocket FD_CONNECT_BIT STATUS_SUCCESS in
        (STATUS_SUCCESS, PendedRequest, if bTxHasSpace then VIOSockEventSetBit d pDestSocket FD_WRITE_BIT STATUS_SUCCESS else d)
      else if Op =? VIRTIO_VSOCK_OP_INVALID then
        match PendedRequest with
        | Some r => let '(status, d) := VIOSockPendedRequestSetResumeLocked d pDestSocket r in
                    (status, if NT_SUCCESS status then None else Some r, d)
        | None => (status, None, d)
        end
      else if Op =? VIRTIO_VSOCK_OP_RST then (STATUS_CONNECTION_RESET, PendedRequest, d)
      else (STATUS_CONNECTION_INVALID, PendedRequest, d)
    else (status, PendedRequest, d) in
  d ← (if negb (NT_SUCCESS status) then
         let d := VIOSockEventSetBit d pDestSocket FD_CONNECT_BIT status in
         let d := (VIOSockStateSet d pDestSocket VIOSOCK_STATE_CLOSE).2 in
         if Op =? VIRTIO_VSOCK_OP_RST then Ok d else '(_, d) ← VIOSockSendReset TxEnqueue d pDestSocket false; Ok d
       else Ok d);
  Ok (status, match PendedRequest with Some r => WdfRequestComplete d r status | None => d end).

Definition VIOSockLoopbackHandleConnected d (pDestSocket Op lFlags : Z) (Request : option Z) (Length : Z) (bTxHasSpace : bool) : res (Z * dev) :=
  if Op =? VIRTIO_VSOCK_OP_RW then
    let '(status, d) := VIOSockRxRequestEnqueueCb d pDestSocket (default 0 Request) Length in
    if NT_SUCCESS status then
      d ← VIOSockReadProcessDequeueCb TxEnqueue fuel (VIOSockEventSetBit d pDestSocket FD_READ_BIT STATUS_SUCCESS) pDestSocket;
      Ok (status, d)
    else Ok (status, d)
  else if Op =? VIRTIO_VSOCK_OP_CREDIT_UPDATE then
    Ok (STATUS_SUCCESS, if bTxHasSpace then VIOSockEventSetBit d pDestSocket FD_WRITE_BIT STATUS_SUCCESS else d)
  else if Op =? VIRTIO_VSOCK_OP_SHUTDOWN then
    '(b, d) ← VIOSockShutdownFromPeer TxEnqueue fuel d pDestSocket (Z.land lFlags VIRTIO_VSOCK_SHUTDOWN_MASK);
    if b && negb (VIOSockRxHasData (sock d pDestSocket)) && negb (VIOSockIsDone (sock d pDestSocket))
    then '(_, d) ← VIOSockSendReset TxEnqueue d pDestSocket false; Ok (STATUS_SUCCESS, VIOSockDoClose d pDestSocket)
    else Ok (STATUS_SUCCESS, d)
  else if Op =? VIRTIO_VSOCK_OP_RST then
    Ok (STATUS_SUCCESS, VIOSockEventSetBit (VIOSockDoClose d pDestSocket) pDestSocket FD_CLOSE_BIT STATUS_CONNECTION_RESET)
  else Ok (STATUS_SUCCESS, d).

Definition VIOSockLoopbackHandleDisconnecting d (pDestSocket Op : Z) : dev :=
  if Op =? VIRTIO_VSOCK_OP_RST then VIOSockDoClose d pDestSocket else d.

(** The status of a write on this socket. *)
Definition VIOSockTxValidate d s : Z :=
  let status := VIOSockStateValidate (sock d s) true in
  if status =? STATUS_REMOTE_DISCONNECT then STATUS_LOCAL_DISCONNECT else status.

Definition VIOSockLoopbackTxEnqueue d s (Op lFlags : Z) (Request : option Z) (Length : Z) : res (Z * dev) :=
  let status := match Request with Some _ => VIOSockTxValidate d s | None => STATUS_SUCCESS end in
  if negb (NT_SUCCESS status) then Ok (status, d)
  else
    let '(uCredit, d) := VIOSockTxGetCredit d s Length in
    if truth Length && (uCredit =? 0) then Ok (STATUS_BUFFER_TOO_SMALL, d)
    else match LoopbackSocket (sock d s) with
    | None => if Op =? VIRTIO_VSOCK_OP_REQUEST then VIOSockLoopbackConnect d s else Ok (STATUS_UNSUCCESSFUL, d)
    | Some l =>
        let '(space, d) := VIOSockLoopbackTxSpaceUpdate d l s in
        '(status, d) ←
          match State (sock d l) with
          | VIOSOCK_STATE_CONNECTING => VIOSockLoopbackHandleConnecting d l s Op (truth space)
          | VIOSOCK_STATE_CONNECTED => VIOSockLoopbackHandleConnected d l Op lFlags Request uCredit (truth space)
          | VIOSOCK_STATE_CLOSING => Ok (STATUS_SUCCESS, VIOSockLoopbackHandleDisconnecting d l Op)
          | _ => Ok (STATUS_CONNECTION_INVALID, d)
          end;
        Ok (status, if NT_SUCCESS status then d else VIOSockTxPutCredit d s uCredit)
    end.

(** ** Queueing an entry *)

(** The list gets the entry, the counters and the timer are updated. *)
Definition VIOSockTxInsertTail d e : dev :=
  let d := if tx_reply e then d <| TxQueuedReply := s32 (TxQueuedReply d + 1) |> else d in
  d <| TxEnqueued := s32 (TxEnqueued d + 1) |> <| TxList := TxList d ++ [e] |>.

(** [Request]: the write request and the length in its context. *)
Definition VIOSockTxEnqueue d s (Op txFlags : Z) (Reply : bool) (Request : option (Z * Z)) : res (Z * dev) :=
  if IsLoopbackSocket (sock d s) then VIOSockLoopbackTxEnqueue d s Op txFlags (fst <$> Request) (default 0 (snd <$> Request))
  else
    let status := match Request with
                  | None => WdfMemoryCreateFromLookaside d
                  | Some _ => VIOSockTxValidate d s
                  end in
    if negb (NT_SUCCESS status) then Ok (status, d)
    else
      let k := sock d s in
      let e := mk_tx (fst <$> Request) (Some s) (s_dst_cid k) (src_port k) (dst_port k) (default 0 (snd <$> Request))
                 Op Reply txFlags (u16 (type k)) 0 in
      let '(uLen, d) := VIOSockTxGetCredit d s (tx_len e) in
      if truth (tx_len e) && (uLen =? 0) then Ok (STATUS_BUFFER_TOO_SMALL, d)
      else match Request with
      | Some (r, _) =>
          let e := e <| tx_len := uLen |> in
          let status := WdfRequestMarkCancelableEx d r in
          if negb (NT_SUCCESS status) then Ok (status, VIOSockTxPutCredit d s (tx_len e))
          else
            let '(e, d) :=
              if SendTimeout k =? LONG_MAX then (e, d)
              else let e := e <| tx_Timeout := WDF_ABS_TIMEOUT_IN_MS (SendTimeout k) |> in
                   (e, d <| TxTimer := VIOSockTimerStart d (TxTimer d) (tx_Timeout e) |>) in
            d ← VIOSockTxVqProcess (VIOSockTxInsertTail d e); Ok (status, d)
      | None => d ← VIOSockTxVqProcess (VIOSockTxInsertTail d e); Ok (status, d)
      end.

(** ** Leaving the queue *)

(** The cancel routine of a queued write. *)
Definition VIOSockTxEnqueueCancel d r e : dev :=
  let s := WdfRequestGetFileObject r in
  let d := d <| TxList := filter (fun x => tx_Request x <> Some r) (TxList d) |> in
  let d := VIOSockTxPutCredit d s (tx_len e) in
  let d := if truth (tx_Timeout e) then d <| TxTimer := VIOSockTimerDeref (TxTimer d) true |> else d in
  WdfRequestComplete d r STATUS_CANCELLED.

(** Splits the queue into the entries to complete and those that stay. *)
Definition VIOSockTxCleanupTakes d (Socket : option Z) e : bool :=
  (bool_decide (Socket = None) || bool_decide (tx_Socket e = Socket)) &&
  match tx_Request e with Some r => NT_SUCCESS (WdfRequestUnmarkCancelable d r) | None => true end.

Definition VIOSockTxCleanup d (Socket : option Z) (Status : Z) : res dev :=
  let out := filter (fun e => VIOSockTxCleanupTakes d Socket e = true) (TxList d) in
  let stay := filter (fun e => VIOSockTxCleanupTakes d Socket e = false) (TxList d) in
  let timer := foldl (fun t e => if truth (tx_Timeout e) then VIOSockTimerDeref t true else t) (TxTimer d) out in
  let lCnt := zlen (filter (fun e => tx_reply e = true) out) in
  let d := d <| TxList := stay |> <| TxTimer := timer |> in
  let '(bProcessVq, d) :=
    if truth lCnt && bool_decide (is_Some Socket) then
      let d := d <| TxQueuedReply := s32 (TxQueuedReply d - lCnt) |> in
      ((s32 (RxPktNum d) <=? s32 (TxQueuedReply d + lCnt)) && (TxQueuedReply d <? s32 (RxPktNum d)), d)
    else (false, d) in
  let d := foldl (fun d e => match tx_Request e with Some r => WdfRequestComplete d r Status | None => d end) d out in
  if bProcessVq : bool then RxVqProcess d else Ok d.

(** ** The entry point of writes *)

Definition VIOSockWriteIsAvailable d s : bool :=
  if VIOSockIsNonBlocking (sock d s) then negb (TxPktNum d <=? s32 (TxEnqueued d + TxPktAllocated d)) else true.

Definition VIOSockWrite d r (Length : Z) : res dev :=
  let s := WdfRequestGetFileObject r in
  if VIOSockIsFlag (sock d s) SOCK_CONTROL then Ok (WdfRequestComplete d r STATUS_NOT_SOCKET)
  else
    let Length := if VIRTIO_VSOCK_MAX_PKT_BUF_SIZE <? Length then VIRTIO_VSOCK_MAX_PKT_BUF_SIZE else Length in
    let status := WdfObjectAllocateContext d r in
    if negb (NT_SUCCESS status) then Ok (WdfRequestComplete d r status)
    else
      '(status, d) ← (if IsLoopbackSocket (sock d s) || VIOSockWriteIsAvailable d s
                      then VIOSockTxEnqueue d s VIRTIO_VSOCK_OP_RW 0 false (Some (r, u32 Length)) else Ok (STATUS_CANT_WAIT, d));
      Ok (if NT_SUCCESS status then d else WdfRequestComplete d r status).

End calls.

(** ** Timeouts and teardown *)

(** The state of the pass: entries kept, requests to complete, the timer, [TxEnqueued] and
    the shortest remaining timeout. *)
Definition VIOSockTxTimerStep d (x : list VIOSOCK_TX_ENTRY * list Z * VIOSOCK_TIMER * Z * option Z) e :=
  let '(kept, done, t, n, Timeout) := x in
  if truth (tx_Timeout e) then
    if tx_Timeout e <=? t_Timeout (TxTimer d) + VIOSOCK_TIMER_TOLERANCE then
      let n := s32 (n - 1) in
      match tx_Request e with
      | Some r => if NT_SUCCESS (WdfRequestUnmarkCancelable d r)
                  then (kept, done ++ [r], VIOSockTimerDeref t false, n, Timeout) else (kept, done, t, n, Timeout)
      | None => (kept, done, VIOSockTimerDeref t false, n, Timeout)
      end
    else
      let e := e <| tx_Timeout := tx_Timeout e - t_Timeout (TxTimer d) |> in
      (kept ++ [e], done, t, n, Some (match Timeout with Some m => Z.min m (tx_Timeout e) | None => tx_Timeout e end))
  else (kept ++ [e], done, t, n, Timeout).

Definition VIOSockTxTimerFunc d : dev :=
  let '(kept, done, t, n, Timeout) := foldl (VIOSockTxTimerStep d) ([], [], TxTimer d, TxEnqueued d, None) (TxList d) in
  let d := d <| TxList := kept |> <| TxTimer := t |> <| TxEnqueued := n |> in
  let d := match Timeout with Some m => d <| TxTimer := VIOSockTimerSet d (TxTimer d) m |> | None => d end in
  foldl (fun d r => WdfRequestComplete d r STATUS_IO_TIMEOUT) d done.

Fixpoint VIOSockTxDrain (fuel : nat) d (acc : list Z) : res (list Z * dev) :=
  '(b, vq) ← vsq_detach_unused_buf (TxVq d);
  let d := d <| TxVq := vq |> in
  match b, fuel with
  | None, _ => Ok (acc, d)
  | Some p, S fuel => match Transaction (tx_pkt d p) with
                      | Some _ => VIOSockTxDrain fuel d (acc ++ [p])
                      | None => VIOSockTxDrain fuel (VIOSockTxPktFree d p) acc
                      end
  | Some _, O => Fault OutOfFuel
  end.

(** [TxPktVA] is 0 when there is no sliced block ([TxPktSliced] is NULL).  The queue pointer that
    both clean-ups set to NULL is not used afterwards. *)
Definition VIOSockTxVqCleanup (fuel : nat) d : res dev :=
  '(l, d) ← VIOSockTxDrain fuel d [];
  let d := VIOSockTxComplete STATUS_INVALID_DEVICE_STATE d l in
  Ok (if TxPktVA d =? 0 then d else d <| TxBitmap := [] |> <| TxPkts := ∅ |> <| TxPktVA := 0 |> <| TxPktNum := 0 |>).

(** [(st, uNumEntries)]: what [virtio_query_queue_allocation] returns. *)
Definition VIOSockTxVqInit (st uNumEntries : Z) d : Z * dev :=
  if negb (NT_SUCCESS st) then (st, d)
  else
    let va := VirtIOWdfDeviceAllocDmaMemory d (u32 (sizeof_tx_pkt * uNumEntries)) in
    let pa := VirtIOWdfDeviceGetPhysicalAddress d va in
    let ok := negb (va =? 0) && negb (pa =? 0) in
    (if ok then STATUS_SUCCESS else STATUS_INSUFFICIENT_RESOURCES,
     (if ok then d <| TxPktVA := va |> <| TxPktPA := pa |> <| TxBitmap := replicate (Z.to_nat uNumEntries) false |> <| TxPkts := ∅ |> else d <| TxPktVA := 0 |>)
       <| TxPktNum := uNumEntries |>).

End tx.
