(* ===== verification/VioSockSystem.v ===== *)
(** * viosock: the driver as a whole

    Ties the receive path and the transmit path together, and models what enters the
    driver from outside: the socket requests of Socket.c (create, bind, connect,
    listen, shutdown, options, close), the event queue of Evt.c and the interrupt DPC.

    The C functions of the two paths call each other: sending runs the transmit ring,
    which may resume the receive ring, whose handlers send.  [calls fuel n] is the pair
    of entry points with at most [n] nested rounds; [fuel] bounds the loops inside
    one. *)

From Stdlib Require Import ZArith Lia.
From stdpp Require Import base list numbers option gmap.
From S2P Require Import Prelude.
From S2P Require Import Virtio.
From S2P Require Import VirtQueue.
From S2P Require Import VioSock.
From S2P Require Import VioSockRx.
From S2P Require Import VioSockTx.

Definition AF_VSOCK : Z := 40.
Definition VIRTIO_VSOCK_TYPE_STREAM : Z := 1.
Definition SOCK_STREAM : Z := 1.
Definition SO_ACCEPTCONN : Z := 0x0002.
Definition SO_LINGER : Z := 0x0080.
Definition SO_SNDTIMEO : Z := 0x1005.
Definition SO_RCVTIMEO : Z := 0x1006.
Definition SO_TYPE : Z := 0x1008.
Definition SO_VM_SOCKETS_BUFFER_SIZE : Z := 0x6000.
Definition SO_VM_SOCKETS_BUFFER_MIN_SIZE : Z := 0x6001.
Definition SO_VM_SOCKETS_BUFFER_MAX_SIZE : Z := 0x6002.
Definition SO_VM_SOCKETS_CONNECT_TIMEOUT : Z := 0x6006.
Definition USEC_PER_SEC : Z := 1000000.
Definition VIRTIO_VSOCK_EVENT_TRANSPORT_RESET : Z := 0.
Definition sizeof_event : Z := 4.

Record SOCKADDR_VM := mk_addr { svm_family : Z; svm_port : Z; svm_cid : Z }.

(** Little-endian integers of an option buffer. *)
Fixpoint le_encode (n : nat) (v : Z) : list Z := match n with O => [] | S n => u8 v :: le_encode n (Z.shiftr v 8) end.
Fixpoint le_decode (l : list Z) : Z := match l with [] => 0 | b :: l => b + 256 * le_decode l end.
Definition opt_field (l : list Z) (off n : nat) : Z := le_decode (take n (drop off l)).

Record calls {Q : Type} := mk_calls {
  c_RxVqProcess : DEVICE_CONTEXT Q -> res (DEVICE_CONTEXT Q);
  c_TxEnqueue : DEVICE_CONTEXT Q -> Z -> Z -> Z -> bool -> option (Z * Z) -> res (Z * DEVICE_CONTEXT Q) }.
Arguments calls : clear implicits.

Section system.
Context {Q : Type} `{AsyncQueue Q}.
Abbreviation dev := (DEVICE_CONTEXT Q).
Context `{W : WdfEnv dev}.
Context (fuel : nat).
Implicit Types (d : dev) (s p r : Z).

(** One more round over the functions of [c]. *)
Definition next_calls (c : calls Q) : calls Q := {|
  c_RxVqProcess := VIOSockRxVqProcess (c_TxEnqueue c) (VIOSockSendResetNoSock fuel (c_RxVqProcess c)) fuel;
  c_TxEnqueue := VIOSockTxEnqueue fuel (c_RxVqProcess c) (c_TxEnqueue c) |}.

Fixpoint nested_calls (n : nat) : calls Q :=
  match n with
  | O => {| c_RxVqProcess := fun _ => Fault OutOfFuel; c_TxEnqueue := fun _ _ _ _ _ _ => Fault OutOfFuel |}
  | S n => next_calls (nested_calls n)
  end.

Section entry.
Context (n : nat).
Let RxVqProcess : dev -> res dev := c_RxVqProcess (nested_calls n).
Let TxEnqueue : dev -> Z -> Z -> Z -> bool -> option (Z * Z) -> res (Z * dev) := c_TxEnqueue (nested_calls n).

Definition VIOSockSendConnect d s : res (Z * dev) := TxEnqueue d s VIRTIO_VSOCK_OP_REQUEST 0 false None.
Definition VIOSockSendShutdown d s (f : Z) : res (Z * dev) := TxEnqueue d s VIRTIO_VSOCK_OP_SHUTDOWN f false None.

(** ** Creating a socket *)

(** What the create request carries: nothing (a control socket), too short extended
    attributes, or the socket type and, for an accept, the bound socket of the handle
    ([Some None] when it is none).  [initStatus] is the status of the locks, the queue and
    the timers. *)
Inductive create_params := NoEa | ShortEa | Ea (initStatus sockType : Z) (hListenSocket : option (option Z)).

Definition VIOSockCreate d s (Request : Z) (params : create_params) : res (Z * dev) :=
  let d := upd_sock d s (fun k => k <| RxProcessingThreadId := INVALID_THREAD_ID |>) in
  match params with
  | NoEa => Ok (STATUS_SUCCESS, upd_sock d s (fun k => VIOSockSetFlag k SOCK_CONTROL))
  | ShortEa => Ok (STATUS_INVALID_PARAMETER, d)
  | Ea initStatus sockType hListenSocket =>
  if negb (NT_SUCCESS initStatus) then Ok (initStatus, d)
  else
    let d := upd_sock d s (fun k =>
      k <| CloseEvent := false |> <| src_port := VMADDR_PORT_ANY |> <| dst_port := VMADDR_PORT_ANY |> <| s_dst_cid := VMADDR_CID_ANY |>
        <| State := VIOSOCK_STATE_CLOSE |> <| LoopbackSocket := None |> <| RxCbList := [] |> <| RxBytes := 0 |>
        <| ReadTimer := timer_zero |> <| PendedTimer := timer_zero |> <| PendedRequest := None |>) in
    match hListenSocket with
    | Some l => VIOSockAccept TxEnqueue d l Request
    | None =>
        if negb (sockType =? VIRTIO_VSOCK_TYPE_STREAM) then Ok (STATUS_NOT_SUPPORTED, d)
        else Ok (STATUS_SUCCESS, upd_sock d s (fun k =>
               k <| type := sockType |> <| ConnectTimeout := VSOCK_DEFAULT_CONNECT_TIMEOUT |>
                 <| BufferMinSize := VSOCK_DEFAULT_BUFFER_MIN_SIZE |> <| BufferMaxSize := VSOCK_DEFAULT_BUFFER_MAX_SIZE |>
                 <| SendTimeout := LONG_MAX |> <| RecvTimeout := LONG_MAX |> <| buf_alloc := VSOCK_DEFAULT_BUFFER_SIZE |>))
    end
  end.

(** ** Requests on a socket *)

Definition VIOSockIsGuestAddrValid (a : SOCKADDR_VM) : bool :=
  (svm_family a =? AF_VSOCK) && negb (svm_cid a =? VMADDR_CID_HYPERVISOR) && negb (svm_cid a =? VMADDR_CID_RESERVED) &&
  negb (svm_cid a =? VMADDR_CID_HOST).
Definition VIOSockIsHostAddrValid (a : SOCKADDR_VM) (ulSrcCid : Z) : bool :=
  (svm_family a =? AF_VSOCK) &&
  ((svm_cid a =? VMADDR_CID_HYPERVISOR) || (svm_cid a =? VMADDR_CID_HOST) || (svm_cid a =? ulSrcCid)).

(** The requests take the status and the contents of their input buffer. *)
Definition VIOSockBind d s (st : Z) (a : SOCKADDR_VM) : Z * dev :=
  if negb (NT_SUCCESS st) then (st, d)
  else if negb (VIOSockIsGuestAddrValid a) then (STATUS_INVALID_ADDRESS_COMPONENT, d)
  else if negb (svm_cid a =? u32 (guest_cid d)) && negb (svm_cid a =? VMADDR_CID_ANY) then (STATUS_INVALID_ADDRESS_COMPONENT, d)
  else if VIOSockIsBound (sock d s) then (STATUS_INVALID_PARAMETER, d)
  else if bool_decide (State (sock d s) <> VIOSOCK_STATE_CLOSE) then (STATUS_UNSUCCESSFUL, d)
  else VIOSockBoundAdd d s (svm_port a).

(** What a connect from this state answers at once. *)
Definition VIOSockConnectStatus (st : VIOSOCK_STATE) : Z :=
  match st with
  | VIOSOCK_STATE_CONNECTING => STATUS_CONNECTION_ESTABLISHING
  | VIOSOCK_STATE_CONNECTED | VIOSOCK_STATE_CLOSING => STATUS_CONNECTION_ACTIVE
  | VIOSOCK_STATE_LISTEN => STATUS_INVALID_PARAMETER
  | VIOSOCK_STATE_CLOSE => STATUS_SUCCESS
  end.

Definition VIOSockConnect d s (Request st : Z) (a : SOCKADDR_VM) : res (Z * dev) :=
  if negb (NT_SUCCESS st) then Ok (st, d)
  else if negb (VIOSockIsHostAddrValid a (u32 (guest_cid d))) then Ok (STATUS_INVALID_ADDRESS_COMPONENT, d)
  else
    let status := VIOSockConnectStatus (State (sock d s)) in
    if negb (NT_SUCCESS status) then Ok (status, d)
    else
      let '(status, d) := if VIOSockIsBound (sock d s) then (status, d) else VIOSockBoundAdd d s VMADDR_PORT_ANY in
      if negb (NT_SUCCESS status) then Ok (status, d)
      else
        let d := VIOSockEventClearBit d s FD_CONNECT_BIT in
        let d := upd_sock d s (fun k => k <| s_dst_cid := svm_cid a |> <| dst_port := svm_port a |>) in
        let d := (VIOSockStateSet d s VIOSOCK_STATE_CONNECTING).2 in
        let '(status, d) :=
          if VIOSockIsNonBlocking (sock d s) then (status, d) else VIOSockPendedRequestSetLocked d s Request (ConnectTimeout (sock d s)) in
        if negb (VIOSockIsNonBlocking (sock d s)) && negb (NT_SUCCESS status)
        then Ok (status, (VIOSockStateSet d s VIOSOCK_STATE_CLOSE).2)
        else
          let d := upd_sock d s (fun k => if s_dst_cid k =? u32 (guest_cid d) then VIOSockSetFlag k SOCK_LOOPBACK
                                          else VIOSockResetFlag k SOCK_LOOPBACK) in
          '(status, d) ← VIOSockSendConnect d s;
          if negb (NT_SUCCESS status) then
            let d := (VIOSockStateSet d s VIOSOCK_STATE_CLOSE).2 in
            if VIOSockIsNonBlocking (sock d s) then Ok (status, d)
            else let '(st, _, d) := VIOSockPendedRequestGetLocked d s in
                 Ok (if NT_SUCCESS st then status else STATUS_PENDING, d)
          else Ok (if VIOSockIsNonBlocking (sock d s) then STATUS_CANT_WAIT else STATUS_PENDING, d).

(** [pHow]: a C int. *)
Definition VIOSockShutdown d s (st pHow : Z) : res (Z * dev) :=
  if negb (NT_SUCCESS st) then Ok (st, d)
  else
    let how := s32 (pHow + 1) in
    if truth (Z.ldiff how VIRTIO_VSOCK_SHUTDOWN_MASK) || (how =? 0) then Ok (STATUS_INVALID_PARAMETER, d)
    else
      let status := VIOSockStateValidateShutdown (sock d s) how in
      if NT_SUCCESS status then
        VIOSockSendShutdown (upd_sock d s (fun k => k <| VioSock.Shutdown := Z.lor (VioSock.Shutdown k) how |>)) s how
      else Ok (if status =? STATUS_LOCAL_DISCONNECT then STATUS_SUCCESS else status, d).

Definition VIOSockListen d s (st pBacklog : Z) : Z * dev :=
  if negb (NT_SUCCESS st) then (st, d)
  else if bool_decide (State (sock d s) = VIOSOCK_STATE_CLOSE) then
    if VIOSockIsBound (sock d s)
    then (st, (VIOSockStateSet (upd_sock d s (fun k => k <| Backlog := pBacklog |> <| AcceptList := [] |>)) s VIOSOCK_STATE_LISTEN).2)
    else (STATUS_INVALID_PARAMETER, d)
  else (STATUS_CONNECTION_ACTIVE, d).

(** Sockets never return to blocking mode. *)
Definition VIOSockSetNonBlocking d s (bNonBlocking : bool) : res (Z * dev) :=
  let was := VIOSockIsFlag (sock d s) SOCK_NON_BLOCK in
  let d := upd_sock d s (fun k => VIOSockSetFlag k SOCK_NON_BLOCK) in
  d ← (if was then Ok d
       else d ← VIOSockTxCleanup RxVqProcess d (Some s) STATUS_CANT_WAIT; VIOSockReadProcessDequeueCb TxEnqueue fuel d s);
  Ok (STATUS_SUCCESS, d).

(** The bytes returned, [None] when the buffer is left alone. *)
Definition VIOSockGetPeerName d s (st : Z) : Z * option SOCKADDR_VM :=
  if negb (NT_SUCCESS st) then (st, None)
  else (STATUS_SUCCESS, if bool_decide (State (sock d s) = VIOSOCK_STATE_CONNECTED)
                        then Some (mk_addr AF_VSOCK (dst_port (sock d s)) (s_dst_cid (sock d s))) else None).
Definition VIOSockGetSockName d s (st : Z) : Z * option SOCKADDR_VM :=
  if negb (NT_SUCCESS st) then (st, None)
  else (STATUS_SUCCESS, if VIOSockIsBound (sock d s) then Some (mk_addr AF_VSOCK (src_port (sock d s)) (u32 (guest_cid d))) else None).

(** ** Options *)

(** The bytes of the option, when the buffer of [optlen] bytes is large enough. *)
Definition VIOSockGetSockOpt d s (optname optlen : Z) : Z * option (list Z) :=
  let k := sock d s in
  let put (n : Z) (l : list Z) := if optlen <? n then (STATUS_INVALID_PARAMETER, None) else (STATUS_SUCCESS, Some l) in
  let ulong (v : Z) := put 4 (le_encode 4 v) in
  if optlen =? 0 then (STATUS_INVALID_PARAMETER, None)
  else if optname =? SO_ACCEPTCONN then ulong (b2z (bool_decide (State k = VIOSOCK_STATE_LISTEN)))
  else if optname =? SO_TYPE then ulong SOCK_STREAM
  else if optname =? SO_LINGER then put 4 (le_encode 2 (Z.land (Flags k) SOCK_LINGER) ++ le_encode 2 (LingerTime k))
  else if optname =? SO_SNDTIMEO then ulong (SendTimeout k)
  else if optname =? SO_RCVTIMEO then ulong (RecvTimeout k)
  else if optname =? SO_VM_SOCKETS_BUFFER_SIZE then ulong (buf_alloc k)
  else if optname =? SO_VM_SOCKETS_BUFFER_MAX_SIZE then ulong (BufferMaxSize k)
  else if optname =? SO_VM_SOCKETS_BUFFER_MIN_SIZE then ulong (BufferMinSize k)
  else if optname =? SO_VM_SOCKETS_CONNECT_TIMEOUT then
    let tv_sec := s32 (NANO_TO_SEC (ConnectTimeout k)) in
    let tv_usec := s32 (NANO_TO_USEC (ConnectTimeout k - SEC_TO_NANO tv_sec)) in
    put 8 (le_encode 4 tv_sec ++ le_encode 4 tv_usec)
  else (STATUS_NOT_SUPPORTED, None).

Definition VIOSockSetLinger (k : SOCKET_CONTEXT) (l_onoff l_linger : Z) : SOCKET_CONTEXT :=
  if truth l_onoff then VIOSockSetFlag (k <| LingerTime := l_linger |>) SOCK_LINGER else VIOSockResetFlag k SOCK_LINGER.

Definition VIOSockClampBuffer (k : SOCKET_CONTEXT) (uBufferSize : Z) : Z :=
  let v := if BufferMaxSize k <? uBufferSize then BufferMaxSize k else uBufferSize in
  if v <? BufferMinSize k then BufferMinSize k else v.

Definition VIOSockRxUpdateBufferSize d s (uBufferSize : Z) : res dev :=
  let v := VIOSockClampBuffer (sock d s) uBufferSize in
  if v =? buf_alloc (sock d s) then Ok d
  else '(_, d) ← VIOSockSendCreditUpdate TxEnqueue (upd_sock d s (fun k => k <| buf_alloc := v |>)) s; Ok d.

(** The connect timeout of a [struct timeval]. *)
Definition VIOSockConnectTimeout (tv_sec tv_usec : Z) : Z :=
  let llTimeout := if (0 <=? tv_sec) && (tv_usec <? USEC_PER_SEC) && (tv_sec <? LONG_MAX / 1000 - 1)
                   then SEC_TO_NANO tv_sec + USEC_TO_NANO tv_usec else 0 in
  if llTimeout =? 0 then VSOCK_DEFAULT_CONNECT_TIMEOUT else llTimeout.

(** [optval]: the [optlen] bytes of the option. *)
Definition VIOSockSetSockOpt d s (optname : Z) (optval : list Z) : res (Z * dev) :=
  let optlen := zlen optval in
  let need (n : Z) (m : res dev) : res (Z * dev) :=
    if optlen <? n then Ok (STATUS_INVALID_PARAMETER, d) else d ← m; Ok (STATUS_SUCCESS, d) in
  let ulong := opt_field optval 0 4 in
  if optlen =? 0 then Ok (STATUS_INVALID_PARAMETER, d)
  else if optname =? SO_LINGER then need 4 (Ok (upd_sock d s (fun k => VIOSockSetLinger k (opt_field optval 0 2) (opt_field optval 2 2))))
  else if optname =? SO_SNDTIMEO then need 4 (Ok (upd_sock d s (fun k => k <| SendTimeout := ulong |>)))
  else if optname =? SO_RCVTIMEO then need 4 (Ok (upd_sock d s (fun k => k <| RecvTimeout := ulong |>)))
  else if optname =? SO_VM_SOCKETS_BUFFER_SIZE then need 4 (VIOSockRxUpdateBufferSize d s ulong)
  else if optname =? SO_VM_SOCKETS_BUFFER_MAX_SIZE then
    need 4 (VIOSockRxUpdateBufferSize (upd_sock d s (fun k => k <| BufferMaxSize := ulong |>)) s (buf_alloc (sock d s)))
  else if optname =? SO_VM_SOCKETS_BUFFER_MIN_SIZE then
    need 4 (VIOSockRxUpdateBufferSize (upd_sock d s (fun k => k <| BufferMinSize := ulong |>)) s (buf_alloc (sock d s)))
  else if optname =? SO_VM_SOCKETS_CONNECT_TIMEOUT then
    need 8 (Ok (upd_sock d s (fun k => k <| ConnectTimeout := VIOSockConnectTimeout (s32 (opt_field optval 0 4)) (s32 (opt_field optval 4 4)) |>)))
  else Ok (STATUS_SUCCESS, d).

(** ** Closing *)

(** [world] is what the rest of the driver does while the close waits for the peer; the
    wait times out when the close event is not set then. *)
Definition VIOSockCleanup (world : dev -> dev) d s : res dev :=
  if VIOSockIsFlag (sock d s) SOCK_CONTROL then Ok d
  else
    let d := VIOSockBoundRemove d s in
    d ← (if bool_decide (State (sock d s) = VIOSOCK_STATE_CONNECTED) || bool_decide (State (sock d s) = VIOSOCK_STATE_CLOSING) then
           if Z.land (PeerShutdown (sock d s)) VIRTIO_VSOCK_SHUTDOWN_MASK =? VIRTIO_VSOCK_SHUTDOWN_MASK then
             if bool_decide (State (sock d s) <> VIOSOCK_STATE_CLOSING)
             then '(_, d) ← VIOSockSendReset TxEnqueue d s false; Ok d else Ok d
           else
             d ← (if Z.land (VioSock.Shutdown (sock d s)) VIRTIO_VSOCK_SHUTDOWN_MASK =? VIRTIO_VSOCK_SHUTDOWN_MASK then Ok d
                  else '(_, d) ← VIOSockSendShutdown d s VIRTIO_VSOCK_SHUTDOWN_MASK; Ok d);
             let d := world d in
             if CloseEvent (sock d s) then Ok d
             else '(_, d) ← VIOSockSendReset TxEnqueue d s false; Ok (VIOSockDoClose d s)
         else Ok d);
    let '(PrevState, d) := VIOSockStateSet d s VIOSOCK_STATE_CLOSE in
    let '(_, Request, d) := VIOSockPendedRequestGetLocked d s in
    let d := match Request with Some r => WdfRequestComplete d r STATUS_CANCELLED | None => d end in
    let d := upd_sock d s (fun k => k <| EventObject := None |>) in
    if bool_decide (PrevState = VIOSOCK_STATE_LISTEN) then Ok (VIOSockAcceptCleanup d s)
    else d ← VIOSockTxCleanup RxVqProcess d (Some s) STATUS_CONNECTION_DISCONNECTED; VIOSockReadCleanupCb d s.

(** ** The event queue and the interrupt *)

Definition VIOSockEvtPktInsert d p : res (bool * dev) :=
  '(ret, vq) ← vsq_add_buf (EvtVq d) [mk_sg (EvtPA d + u64 (p - EvtVA d)) sizeof_event] 0 1 p None;
  Ok (0 <=? ret, d <| EvtVq := vq |>).

(** [sizeof_ptr] is [sizeof(pEvt)]: the size of a pointer. *)
Fixpoint VIOSockEvtTake (sizeof_ptr : Z) (m : nat) d (bNotify : bool) : res (bool * dev) :=
  match m with
  | O => Fault OutOfFuel
  | S m =>
      '(b, vq) ← vsq_get_buf (EvtVq d);
      let d := d <| EvtVq := vq |> in
      match b with
      | None => Ok (bNotify, d)
      | Some (p, len) =>
          let hit := (len =? sizeof_ptr) && (default 0 (Evts d !! p) =? VIRTIO_VSOCK_EVENT_TRANSPORT_RESET) in
          let d := if hit then d <| EvtRstOccured := u32 (EvtRstOccured d + 1) |> else d in
          '(_, d) ← VIOSockEvtPktInsert d p;
          VIOSockEvtTake sizeof_ptr m d (bNotify || hit)
      end
  end.

Fixpoint VIOSockEvtTakeAll (sizeof_ptr : Z) (m : nat) d (bNotify : bool) : res (bool * dev) :=
  let d := d <| EvtVq := vsq_disable_cb (EvtVq d) |> in
  '(bNotify, d) ← VIOSockEvtTake sizeof_ptr fuel d bNotify;
  '(b, vq) ← vsq_enable_cb (EvtVq d);
  let d := d <| EvtVq := vq |> in
  if negb b then match m with S m => VIOSockEvtTakeAll sizeof_ptr m d bNotify | O => Fault OutOfFuel end else Ok (bNotify, d).

(** Every connection ends; the first socket of the collection each time. *)
Fixpoint VIOSockHandleTransportReset (m : nat) d : res dev :=
  match ConnectedList d, m with
  | [], _ => Ok d
  | s :: _, S m =>
      let d := (VIOSockStateSet d s VIOSOCK_STATE_CLOSE).2 in
      VIOSockHandleTransportReset m (VIOSockEventSetBit d s FD_CLOSE_BIT STATUS_CONNECTION_RESET)
  | _, O => Fault OutOfFuel
  end.

(** [config]: the context id the device reports after the reset. *)
Definition VIOSockEvtVqProcess (sizeof_ptr config : Z) d : res dev :=
  '(bNotify, d) ← VIOSockEvtTakeAll sizeof_ptr fuel d false;
  if bNotify : bool then VIOSockHandleTransportReset fuel (d <| guest_cid := config |>) else Ok d.

Definition VIOSockInterruptDpc (sizeof_ptr config : Z) d : res dev :=
  d ← VIOSockEvtVqProcess sizeof_ptr config d;
  d ← RxVqProcess d;
  VIOSockTxVqProcess fuel RxVqProcess d.

End entry.
End system.
