(* ===== verification/VioSockSpec.v ===== *)
(** * viosock: the byte stream of a socket

    A connected socket is a byte queue: a received payload is appended whole or dropped
    whole, reads take bytes from the front.  The chained buffers, their merging and
    partial reads implement it. *)

From Stdlib Require Import ZArith Lia.
From stdpp Require Import base list numbers option gmap.
From S2P Require Import Prelude.
From S2P Require Import Virtio.
From S2P Require Import VirtQueue.
From S2P Require Import VioSock.
From S2P Require Import VioSockRx.

Create Rewrite HintDb vsock.

(** ** Reading back what was written *)

Section lookups.
Context {Q : Type}.
Abbreviation dev := (DEVICE_CONTEXT Q).
Implicit Types (d : dev).

Lemma sock_upd d s f : sock (upd_sock d s f) s = f (sock d s).
Proof. unfold sock at 1, upd_sock. cbn. by rewrite lookup_insert_eq. Qed.
Lemma sock_upd_ne d s s' f : s <> s' -> sock (upd_sock d s f) s' = sock d s'.
Proof. intros. unfold sock at 1, upd_sock. cbn. by rewrite lookup_insert_ne. Qed.
Lemma cb_upd d c f : cb (upd_cb d c f) c = f (cb d c).
Proof. unfold cb at 1, upd_cb. cbn. by rewrite lookup_insert_eq. Qed.
Lemma cb_upd_ne d c c' f : c <> c' -> cb (upd_cb d c f) c' = cb d c'.
Proof. intros. unfold cb at 1, upd_cb. cbn. by rewrite lookup_insert_ne. Qed.
Lemma rq_upd d r f : rq (upd_rq d r f) r = f (rq d r).
Proof. unfold rq at 1, upd_rq. cbn. by rewrite lookup_insert_eq. Qed.
Lemma rx_pkt_upd d p f : rx_pkt (upd_pkt d p f) p = f (rx_pkt d p).
Proof. unfold rx_pkt at 1, upd_pkt. cbn. by rewrite lookup_insert_eq. Qed.
Lemma rx_pkt_upd_ne d p p' f : p <> p' -> rx_pkt (upd_pkt d p f) p' = rx_pkt d p'.
Proof. intros. unfold rx_pkt at 1, upd_pkt. cbn. by rewrite lookup_insert_ne. Qed.

(** The stores are independent. *)
Lemma sock_upd_cb d c f s : sock (upd_cb d c f) s = sock d s. Proof. done. Qed.
Lemma sock_upd_rq d r f s : sock (upd_rq d r f) s = sock d s. Proof. done. Qed.
Lemma sock_upd_pkt d p f s : sock (upd_pkt d p f) s = sock d s. Proof. done. Qed.
Lemma sock_push d c s : sock (VIOSockRxCbPush d c) s = sock d s. Proof. done. Qed.
Lemma cb_upd_sock d s f c : cb (upd_sock d s f) c = cb d c. Proof. done. Qed.
Lemma cb_upd_rq d r f c : cb (upd_rq d r f) c = cb d c. Proof. done. Qed.
Lemma cb_upd_pkt d p f c : cb (upd_pkt d p f) c = cb d c. Proof. done. Qed.
Lemma cb_push d c c' : cb (VIOSockRxCbPush d c) c' = cb d c'. Proof. done. Qed.
Lemma rq_upd_sock d s f r : rq (upd_sock d s f) r = rq d r. Proof. done. Qed.
Lemma rq_upd_cb d c f r : rq (upd_cb d c f) r = rq d r. Proof. done. Qed.
Lemma rq_push d c r : rq (VIOSockRxCbPush d c) r = rq d r. Proof. done. Qed.
Lemma rx_pkt_upd_sock d s f p : rx_pkt (upd_sock d s f) p = rx_pkt d p. Proof. done. Qed.
Lemma rx_pkt_upd_cb d c f p : rx_pkt (upd_cb d c f) p = rx_pkt d p. Proof. done. Qed.
End lookups.

#[export] Hint Rewrite @sock_upd @cb_upd @rq_upd @rx_pkt_upd @sock_upd_cb @sock_upd_rq @sock_upd_pkt @sock_push
  @cb_upd_sock @cb_upd_rq @cb_upd_pkt @cb_push @rq_upd_sock @rq_upd_cb @rq_push @rx_pkt_upd_sock @rx_pkt_upd_cb : vsock.
#[export] Hint Rewrite @cb_upd_ne @sock_upd_ne @rx_pkt_upd_ne using done : vsock.
Ltac vs := autorewrite with vsock; cbn.

(** ** [memcpy] *)

Lemma memcpy_ok dst doff src soff n :
  0 <= n -> 0 <= soff -> soff + n <= zlen src -> 0 <= doff -> doff + n <= zlen dst ->
  memcpy dst doff src soff n =
    Ok (take (Z.to_nat doff) dst ++ take (Z.to_nat n) (drop (Z.to_nat soff) src) ++ drop (Z.to_nat (doff + n)) dst).
Proof. intros. unfold memcpy. by rewrite bool_decide_true. Qed.

Lemma zlen_copy (dst : list Z) doff (src : list Z) soff n :
  0 <= n -> 0 <= soff -> soff + n <= zlen src -> 0 <= doff -> doff + n <= zlen dst ->
  zlen (take (Z.to_nat doff) dst ++ take (Z.to_nat n) (drop (Z.to_nat soff) src) ++ drop (Z.to_nat (doff + n)) dst) = zlen dst.
Proof. intros. unfold zlen in *. rewrite !length_app, !length_take, !length_drop. lia. Qed.

(** ** The stream of a socket *)

(** The unread bytes of a buffer. *)
Definition unread (k : VIOSOCK_RX_CB) : list Z := take (Z.to_nat (BytesToRead k)) (drop (Z.to_nat (ReadPtr k)) (cb_data k)).

Record cb_ok (k : VIOSOCK_RX_CB) : Prop := {
  cbk_ptr : 0 <= ReadPtr k;
  cbk_bytes : 0 <= BytesToRead k;
  cbk_len : ReadPtr k + BytesToRead k = DataLen k;
  cbk_data : DataLen k <= zlen (cb_data k);
  cbk_size : zlen (cb_data k) = VIRTIO_VSOCK_DEFAULT_RX_BUF_SIZE;
  cbk_request : cb_Request k = None }.

Section stream.
Context {Q : Type}.
Abbreviation dev := (DEVICE_CONTEXT Q).
Implicit Types (d : dev).

Definition list_stream d (l : list cbref) : list Z := concat ((fun c => unread (cb d c)) <$> l).
#[local] Arguments list_stream : simpl never.
Definition stream d s : list Z := list_stream d (RxCbList (sock d s)).

(** The socket [s] holds pool buffers, each in its list once, and counts their bytes. *)
Record sock_ok d s : Prop := {
  sk_nodup : NoDup (RxCbList (sock d s));
  sk_cbs : forall c, c ∈ RxCbList (sock d s) -> cb_ok (cb d c);
  sk_bytes : RxBytes (sock d s) = zlen (stream d s);
  sk_range : 0 <= RxBytes (sock d s) < 4294967296 }.

Lemma zlen_unread k : cb_ok k -> zlen (unread k) = BytesToRead k.
Proof. intros []. unfold unread, zlen in *. rewrite length_take, length_drop. lia. Qed.

Lemma list_stream_app d l l' : list_stream d (l ++ l') = list_stream d l ++ list_stream d l'.
Proof. unfold list_stream. by rewrite fmap_app, concat_app. Qed.

Lemma list_stream_frame d d' l : (forall c, c ∈ l -> cb d' c = cb d c) -> list_stream d' l = list_stream d l.
Proof.
  intros E. unfold list_stream. f_equal. apply list_fmap_ext. intros i c Hc. f_equal. apply E. by eapply list_elem_of_lookup_2.
Qed.
End stream.

(** ** Receiving *)

#[global] Arguments list_stream {Q} d l : simpl never.
#[global] Arguments unread k : simpl never.
#[global] Arguments sock {Q} d s : simpl never.
#[global] Arguments cb {Q} d c : simpl never.
#[global] Arguments rq {Q} d r : simpl never.
#[global] Arguments rx_pkt {Q} d p : simpl never.
#[global] Arguments u32 : simpl never.

Section enqueue.
Context {Q : Type} `{W : WdfEnv (DEVICE_CONTEXT Q)}.
Abbreviation dev := (DEVICE_CONTEXT Q).
Implicit Types (d : dev).

(** [VIOSockRxPktInc] accepts what fits in the receive buffer. *)
Lemma RxPktInc_spec (k : SOCKET_CONTEXT) n :
  0 <= RxBytes k -> 0 <= n -> RxBytes k + n < 4294967296 ->
  VIOSockRxPktInc k n = if RxBytes k + n <=? buf_alloc k then (true, k <| RxBytes := RxBytes k + n |>) else (false, k).
Proof. intros. unfold VIOSockRxPktInc. rewrite u32_small by lia. destruct (Z.ltb_spec (buf_alloc k) (RxBytes k + n)), (Z.leb_spec (RxBytes k + n) (buf_alloc k)); done || lia. Qed.

(** The payload the device wrote for packet [p]: its buffer is a whole pool buffer that no
    list holds and the length in the header fits in it. *)
Definition payload d p : list Z :=
  match Buffer (rx_pkt d p) with Some b => take (Z.to_nat (h_len (Header (rx_pkt d p)))) (cb_data (cb d b)) | None => [] end.
Record pkt_ok d s p b : Prop := {
  pk_buffer : Buffer (rx_pkt d p) = Some b;
  pk_fresh : b ∉ RxCbList (sock d s);
  pk_size : zlen (cb_data (cb d b)) = VIRTIO_VSOCK_DEFAULT_RX_BUF_SIZE;
  pk_request : cb_Request (cb d b) = None;
  pk_len : 0 <= h_len (Header (rx_pkt d p)) <= VIRTIO_VSOCK_DEFAULT_RX_BUF_SIZE }.

Lemma zlen_payload d s p b : pkt_ok d s p b -> zlen (payload d p) = h_len (Header (rx_pkt d p)).
Proof. intros []. unfold payload. rewrite pk_buffer0. unfold zlen in *. rewrite length_take. lia. Qed.

(** Appending the packet's own buffer. *)
Lemma enqueue_buffer d s p b (PktLen := h_len (Header (rx_pkt d p))) (k := (sock d s) <| RxBytes := RxBytes (sock d s) + PktLen |>)
    (d' := upd_pkt (upd_sock (upd_cb d b (fun x => x <| DataLen := PktLen |> <| BytesToRead := PktLen |> <| ReadPtr := 0 |>))
             s (fun _ => k <| RxCbList := RxCbList k ++ [b] |> <| RxBuffers := u32 (RxBuffers k + 1) |>)) p (fun x => x <| Buffer := None |>)) :
  sock_ok d s -> pkt_ok d s p b -> RxBytes (sock d s) + PktLen < 4294967296 ->
  sock_ok d' s /\ stream d' s = stream d s ++ payload d p /\ RxCbList (sock d' s) = RxCbList (sock d s) ++ [b] /\
  Buffer (rx_pkt d' p) = None.
Proof.
  intros K P Hlt. pose proof (zlen_payload _ _ _ _ P) as Hp. destruct P as [Eb Hf Hs Hr Hl]. fold PktLen in Hl, Hp.
  assert (Ec : forall c, c ∈ RxCbList (sock d s) -> cb d' c = cb d c).
  { intros c Hc. unfold d'. vs. rewrite cb_upd_ne; [done|congruence]. }
  assert (Eu : cb d' b = (cb d b) <| DataLen := PktLen |> <| BytesToRead := PktLen |> <| ReadPtr := 0 |>) by (unfold d'; by vs).
  assert (Es : sock d' s = k <| RxCbList := RxCbList k ++ [b] |> <| RxBuffers := u32 (RxBuffers k + 1) |>) by (unfold d'; by vs).
  assert (St : stream d' s = stream d s ++ payload d p).
  { unfold stream. rewrite Es. cbn. rewrite list_stream_app, (list_stream_frame d d') by done. f_equal.
    unfold list_stream, payload. cbn. by rewrite Eu, Eb, app_nil_r. }
  split_and!; [|done|by rewrite Es|unfold d'; by vs].
  split.
  - rewrite Es. cbn. apply NoDup_app. split_and!; [apply K|set_solver|apply NoDup_singleton].
  - rewrite Es. cbn. intros c [Hc| ->%list_elem_of_singleton]%elem_of_app; [rewrite Ec by done; by apply K|].
    rewrite Eu. split; cbn; try done; lia.
  - rewrite Es, St. cbn. rewrite zlen_app, Hp, (sk_bytes _ _ K). done.
  - rewrite Es. cbn. pose proof (sk_range _ _ K). lia.
Qed.

(** Copying the payload behind the data of the last buffer. *)
Lemma merge_buffer d s p b cur l (PktLen := h_len (Header (rx_pkt d p))) (x := cb d cur)
    (buf := take (Z.to_nat (DataLen x)) (cb_data x) ++ take (Z.to_nat PktLen) (drop (Z.to_nat 0) (cb_data (cb d b))) ++
            drop (Z.to_nat (DataLen x + PktLen)) (cb_data x))
    (d' := upd_sock (upd_cb d cur (fun x => x <| cb_data := buf |> <| DataLen := u32 (DataLen x + PktLen) |>
                                              <| BytesToRead := u32 (BytesToRead x + PktLen) |>))
             s (fun _ => (sock d s) <| RxBytes := RxBytes (sock d s) + PktLen |>)) :
  sock_ok d s -> pkt_ok d s p b -> RxCbList (sock d s) = l ++ [cur] ->
  DataLen x + PktLen <= VIRTIO_VSOCK_DEFAULT_RX_BUF_SIZE -> RxBytes (sock d s) + PktLen < 4294967296 ->
  sock_ok d' s /\ stream d' s = stream d s ++ payload d p /\ RxCbList (sock d' s) = RxCbList (sock d s).
Proof.
  intros K P El Hfit Hlt. pose proof (zlen_payload _ _ _ _ P) as Hp. destruct P as [Eb Hf Hs Hr Hl]. fold PktLen in Hl, Hp.
  assert (C : cb_ok x) by (apply K; rewrite El; set_solver). pose proof (sk_nodup _ _ K) as ND. rewrite El in ND.
  apply NoDup_app in ND as (_ & ND & _).
  assert (Ec : forall c, c ∈ l -> cb d' c = cb d c).
  { intros c Hc. unfold d'. vs. rewrite cb_upd_ne; [done|]. intros ->. apply (ND c Hc). set_solver. }
  unfold VIRTIO_VSOCK_DEFAULT_RX_BUF_SIZE in *. destruct C as [C1 C2 C3 C4 C5 C6].
  assert (Eu : cb d' cur = x <| cb_data := buf |> <| DataLen := DataLen x + PktLen |> <| BytesToRead := BytesToRead x + PktLen |>).
  { unfold d'. vs. fold x. rewrite !u32_small; [done|unfold VIRTIO_VSOCK_DEFAULT_RX_BUF_SIZE in *; lia..]. }
  assert (Es : sock d' s = (sock d s) <| RxBytes := RxBytes (sock d s) + PktLen |>) by (unfold d'; by vs).
  assert (Hb : zlen buf = zlen (cb_data x)) by (unfold buf; apply zlen_copy; unfold VIRTIO_VSOCK_DEFAULT_RX_BUF_SIZE in *; lia).
  assert (Hun : unread (cb d' cur) = unread x ++ payload d p).
  { rewrite Eu. unfold unread, payload. rewrite Eb. cbn. unfold buf. change (Z.to_nat 0) with 0%nat. rewrite drop_0.
    unfold zlen, VIRTIO_VSOCK_DEFAULT_RX_BUF_SIZE in *. fold PktLen.
    rewrite drop_app_le by (rewrite length_take; lia). rewrite skipn_firstn_comm.
    replace (Z.to_nat (BytesToRead x + PktLen)) with (Z.to_nat (BytesToRead x) + Z.to_nat PktLen)%nat by lia.
    replace (Z.to_nat (DataLen x) - Z.to_nat (ReadPtr x))%nat with (Z.to_nat (BytesToRead x)) by lia.
    rewrite take_app_add' by (rewrite length_take, length_drop; lia). f_equal.
    rewrite take_app_le by (rewrite length_take; lia). by rewrite take_take, Nat.min_id. }
  assert (St : stream d' s = stream d s ++ payload d p).
  { unfold stream. rewrite Es. cbn. rewrite El, !list_stream_app, (list_stream_frame d d') by done. rewrite <- app_assoc. f_equal.
    unfold list_stream. cbn. by rewrite !app_nil_r. }
  split_and!; [|done|by rewrite Es].
  split.
  - rewrite Es. apply K.
  - rewrite Es. cbn. rewrite El. intros c [Hc| ->%list_elem_of_singleton]%elem_of_app; [rewrite Ec by done; apply K; rewrite El; set_solver|].
    rewrite Eu. split; cbn; unfold VIRTIO_VSOCK_DEFAULT_RX_BUF_SIZE in *; try done; lia.
  - rewrite Es, St. cbn. rewrite zlen_app, Hp, (sk_bytes _ _ K). done.
  - rewrite Es. cbn. pose proof (sk_range _ _ K). lia.
Qed.

(** The buffers of the socket and of the packet are the same before and after. *)
Definition held d s p : list cbref := RxCbList (sock d s) ++ option_list (Buffer (rx_pkt d p)).

(** What a received data packet does: append its payload or, when the receive buffer is
    full, nothing. *)
Lemma enqueue_refines d s p b :
  sock_ok d s -> pkt_ok d s p b -> RxBytes (sock d s) + h_len (Header (rx_pkt d p)) < 4294967296 ->
  exists bRes d', VIOSockRxPktEnqueueCb d s p = Ok (bRes, d') /\ sock_ok d' s /\ held d' s p ≡ₚ held d s p /\
    if RxBytes (sock d s) + h_len (Header (rx_pkt d p)) <=? buf_alloc (sock d s)
    then stream d' s = stream d s ++ payload d p else d' = d.
Proof.
  intros K P Hlt. pose proof P as [Eb Hf Hs Hr Hl]. unfold VIOSockRxPktEnqueueCb. rewrite Eb.
  set (PktLen := h_len (Header (rx_pkt d p))) in *. pose proof (sk_range _ _ K).
  pose proof (RxPktInc_spec (sock d s) PktLen ltac:(lia) ltac:(lia) ltac:(lia)) as Hi.
  assert (Henq : forall bRes, exists bRes' d',
    (let '(ok, k) := VIOSockRxPktInc (sock d s) PktLen in
        if ok then
          Ok (bRes, upd_pkt (upd_sock (upd_cb d b (fun x => x <| DataLen := PktLen |> <| BytesToRead := PktLen |> <| ReadPtr := 0 |>)) s
            (fun _ => k <| RxCbList := RxCbList k ++ [b] |> <| RxBuffers := u32 (RxBuffers k + 1) |>)) p (fun x => x <| Buffer := None |>))
        else Ok (false, d)) = Ok (bRes', d') /\ sock_ok d' s /\ held d' s p ≡ₚ held d s p /\
      if RxBytes (sock d s) + PktLen <=? buf_alloc (sock d s) then stream d' s = stream d s ++ payload d p else d' = d).
  { intros bRes. rewrite Hi. destruct (_ <=? _); [|by eexists _, d].
    destruct (enqueue_buffer d s p b K P Hlt) as (H1 & H2 & H3 & H4). eexists _, _. split; [done|].
    fold PktLen in H1, H2, H3, H4. split_and!; [exact H1| |exact H2]. unfold held. rewrite H3, H4, Eb. by rewrite app_nil_r. }
  cbv zeta. destruct (last (RxCbList (sock d s))) as [cur|] eqn:El; [|apply Henq].
  destruct (Z.leb_spec PktLen VIOSOCK_BYTES_TO_MERGE); [|apply Henq].
  apply last_Some in El as [l El]. assert (C : cb_ok (cb d cur)) by (apply K; rewrite El; set_solver).
  pose proof C as [C1 C2 C3 C4 C5 _]. unfold VIRTIO_VSOCK_DEFAULT_RX_BUF_SIZE in *. rewrite (u32_small (4096 - _)) by lia.
  destruct (Z.leb_spec PktLen (4096 - DataLen (cb d cur))); [|apply Henq].
  rewrite Hi. destruct (_ <=? _); [|by eexists _, d].
  rewrite memcpy_ok by lia. cbn [mbind res_bind].
  destruct (merge_buffer d s p b cur l K P El) as (M1 & M2 & M3); [unfold VIRTIO_VSOCK_DEFAULT_RX_BUF_SIZE; lia|done|].
  fold PktLen in M1, M2, M3. eexists _, _. split; [done|]. split_and!; [exact M1| |exact M2]. unfold held. by rewrite M3.
Qed.
End enqueue.

(** ** Reading *)

(** [l] with the bytes at [o] replaced by [x]. *)
Definition splice (l : list Z) (o : Z) (x : list Z) : list Z := take (Z.to_nat o) l ++ x ++ drop (Z.to_nat (o + zlen x)) l.

Lemma splice_nil l o : splice l o [] = l.
Proof. unfold splice. rewrite zlen_nil, Z.add_0_r. apply take_drop. Qed.

Lemma zlen_splice l o x : 0 <= o -> o + zlen x <= zlen l -> zlen (splice l o x) = zlen l.
Proof. intros. unfold splice, zlen in *. rewrite !length_app, length_take, length_drop. lia. Qed.

Lemma splice_splice l o x y : 0 <= o -> o + zlen x + zlen y <= zlen l -> splice (splice l o x) (o + zlen x) y = splice l o (x ++ y).
Proof.
  intros. unfold splice. rewrite zlen_app. unfold zlen in *.
  set (A := take (Z.to_nat o) l). assert (length A = Z.to_nat o) by (unfold A; rewrite length_take; lia).
  rewrite (assoc_L (++) A x), take_app_length' by (rewrite length_app; lia).
  rewrite drop_app_ge by (rewrite length_app; lia). rewrite drop_drop, <- !(assoc_L (++)). do 4 f_equal. rewrite length_app. lia.
Qed.

Lemma memcpy_splice dst doff src soff n :
  0 <= n -> 0 <= soff -> soff + n <= zlen src -> 0 <= doff -> doff + n <= zlen dst ->
  memcpy dst doff src soff n = Ok (splice dst doff (take (Z.to_nat n) (drop (Z.to_nat soff) src))).
Proof.
  intros. rewrite memcpy_ok by done. unfold splice. do 3 f_equal. f_equal. unfold zlen in *. rewrite length_take, length_drop. lia.
Qed.

Record rq_ok (q : VIOSOCK_RX_CONTEXT) : Prop := {
  rqk_ptr : 0 <= FreePtr q;
  rqk_free : 0 <= FreeBytes q < 4294967296;
  rqk_room : FreePtr q + FreeBytes q <= zlen (rq_data q) }.

(** [q'] is the request [q] with [x] copied to it. *)
Definition received (q q' : VIOSOCK_RX_CONTEXT) (x : list Z) : Prop :=
  rq_data q' = splice (rq_data q) (FreePtr q) x /\ FreeBytes q' = FreeBytes q - zlen x /\
  BufferLen q' = BufferLen q /\ rq_Flags q' = rq_Flags q /\ rq_Timeout q' = rq_Timeout q.

Lemma RemoveEntryList_fresh c l : c ∉ l -> RemoveEntryList c l = l.
Proof.
  unfold RemoveEntryList. induction l as [|x l IH]; [done|]. intros [Hx Hc]%not_elem_of_cons. rewrite filter_cons_True by done. f_equal. by apply IH.
Qed.
Lemma RemoveEntryList_head c l : c ∉ l -> RemoveEntryList c (c :: l) = l.
Proof. intros Hc. unfold RemoveEntryList. rewrite filter_cons_False by naive_solver. by apply RemoveEntryList_fresh. Qed.

Section read.
Context {Q : Type} `{AsyncQueue Q} `{W : WdfEnv (DEVICE_CONTEXT Q)}.
Abbreviation dev := (DEVICE_CONTEXT Q).
Implicit Types (d : dev).

(** What reading [n] bytes does to the socket. *)
Definition consumed (k k' : SOCKET_CONTEXT) (n : Z) : Prop :=
  RxBytes k' = RxBytes k - n /\ fwd_cnt k' = u32 (fwd_cnt k + n) /\
  k' = k <| RxCbList := RxCbList k' |> <| RxBytes := RxBytes k' |> <| fwd_cnt := fwd_cnt k' |>.

(** A buffer read as a whole goes to the pool. *)
Lemma take_buffer d s c l (k := cb d c)
    (d' := upd_sock (VIOSockRxCbPush (upd_sock (upd_cb d c (fun k => k <| BytesToRead := 0 |>)) s
             (fun k => k <| RxCbList := RemoveEntryList c (RxCbList k) |>)) c) s (fun x => VIOSockRxPktDec x (BytesToRead k))) :
  sock_ok d s -> RxCbList (sock d s) = c :: l ->
  sock_ok d' s /\ RxCbList (sock d' s) = l /\ stream d s = unread k ++ stream d' s /\
  consumed (sock d s) (sock d' s) (BytesToRead k) /\ RxCbBuffers d' = c :: RxCbBuffers d /\
  (forall s', s' <> s -> sock d' s' = sock d s') /\ (forall r, rq d' r = rq d r).
Proof.
  intros K El. pose proof (sk_nodup _ _ K) as ND. rewrite El in ND. apply NoDup_cons in ND as [Hc ND].
  assert (C : cb_ok k) by (apply K; rewrite El; set_solver). pose proof (zlen_unread _ C) as Zu.
  assert (Sf : stream d s = unread k ++ list_stream d l) by (unfold stream; by rewrite El).
  pose proof (sk_bytes _ _ K) as Hb. rewrite Sf, zlen_app, Zu in Hb. pose proof (sk_range _ _ K). pose proof (zlen_nonneg (list_stream d l)).
  assert (Es : sock d' s = VIOSockRxPktDec ((sock d s) <| RxCbList := l |>) (BytesToRead k)).
  { unfold d'. vs. by rewrite El, RemoveEntryList_head. }
  assert (Ec : forall c', c' ∈ l -> cb d' c' = cb d c').
  { intros c' Hc'. unfold d'. vs. rewrite cb_upd_ne; [done|]. by intros ->. }
  assert (Sd : stream d' s = list_stream d l).
  { unfold stream. rewrite Es. cbn. by apply list_stream_frame. }
  pose proof (cbk_bytes _ C). split_and!.
  - split.
    + by rewrite Es.
    + rewrite Es. cbn. intros c' Hc'. rewrite Ec by done. apply K. rewrite El. set_solver.
    + rewrite Sd, Es. cbn. rewrite u32_small; lia.
    + rewrite Es. cbn. apply u32_range.
  - by rewrite Es.
  - by rewrite Sd.
  - unfold consumed. rewrite Es. cbn. split_and!; [rewrite u32_small; lia|done|done].
  - done.
  - intros s' Hs. unfold d'. vs. by rewrite ?sock_upd_ne by done.
  - done.
Qed.

(** A buffer read in part keeps its place. *)
Lemma take_part d s c l n (k := cb d c)
    (d' := upd_sock (upd_cb d c (fun k => k <| ReadPtr := ReadPtr k + n |> <| BytesToRead := u32 (BytesToRead k - n) |>))
             s (fun x => VIOSockRxPktDec x n)) :
  sock_ok d s -> RxCbList (sock d s) = c :: l -> 0 <= n < BytesToRead k ->
  sock_ok d' s /\ RxCbList (sock d' s) = c :: l /\ stream d s = take (Z.to_nat n) (unread k) ++ stream d' s /\
  consumed (sock d s) (sock d' s) n /\ (forall s', s' <> s -> sock d' s' = sock d s').
Proof.
  intros K El Hn. pose proof (sk_nodup _ _ K) as ND. rewrite El in ND. apply NoDup_cons in ND as [Hc ND].
  assert (C : cb_ok k) by (apply K; rewrite El; set_solver). pose proof (zlen_unread _ C) as Zu. pose proof C as [C1 C2 C3 C4 C5 C6].
  pose proof (sk_bytes _ _ K) as Hb. unfold stream in Hb. rewrite El in Hb. change (list_stream d (c :: l)) with (unread k ++ list_stream d l) in Hb.
  rewrite zlen_app, Zu in Hb. pose proof (zlen_nonneg (list_stream d l)). pose proof (sk_range _ _ K).
  unfold VIRTIO_VSOCK_DEFAULT_RX_BUF_SIZE in C5.
  assert (Es : sock d' s = VIOSockRxPktDec (sock d s) n) by (unfold d'; by vs).
  assert (Eu : cb d' c = k <| ReadPtr := ReadPtr k + n |> <| BytesToRead := BytesToRead k - n |>).
  { unfold d'. vs. fold k. rewrite u32_small by lia. done. }
  assert (Hun : unread k = take (Z.to_nat n) (unread k) ++ unread (cb d' c)).
  { rewrite Eu. unfold unread. cbn. rewrite Z2Nat.inj_add, <- drop_drop by lia.
    rewrite take_take, Nat.min_l by lia.
    rewrite <- (take_drop (Z.to_nat n) (take (Z.to_nat (BytesToRead k)) _)) at 1. rewrite take_take, Nat.min_l by lia. f_equal.
    rewrite skipn_firstn_comm. f_equal. lia. }
  assert (Ec : forall c', c' ∈ l -> cb d' c' = cb d c') by (intros c' Hc'; unfold d'; vs; rewrite cb_upd_ne; [done|]; by intros ->).
  assert (Sd : stream d s = take (Z.to_nat n) (unread k) ++ stream d' s).
  { unfold stream. rewrite Es. cbn. rewrite El. unfold list_stream. cbn. fold k. rewrite Hun at 1. rewrite <- app_assoc. do 2 f_equal.
    symmetry. by apply (list_stream_frame d d'). }
  split_and!.
  - split.
    + rewrite Es. cbn. rewrite El. by apply NoDup_cons.
    + rewrite Es. cbn. rewrite El. intros c' [->|Hc']%elem_of_cons; [|rewrite Ec by done; apply K; rewrite El; set_solver].
      rewrite Eu. split; cbn; try done; lia.
    + pose proof (sk_bytes _ _ K) as Hb'. rewrite Sd, zlen_app in Hb'. rewrite Es. cbn.
      replace (zlen (take (Z.to_nat n) (unread k))) with n in Hb' by (unfold zlen in *; rewrite length_take; lia).
      rewrite u32_small; lia.
    + rewrite Es. cbn. apply u32_range.
  - rewrite Es. cbn. done.
  - done.
  - unfold consumed. rewrite Es. cbn. split_and!; [rewrite u32_small; lia|done|]. by destruct (sock d s).
  - intros s' Hs. unfold d'. vs. by rewrite ?sock_upd_ne by done.
Qed.

Lemma consumed_trans k1 k2 k3 m n : consumed k1 k2 m -> consumed k2 k3 n -> consumed k1 k3 (m + n).
Proof.
  intros (A1 & A2 & A3) (B1 & B2 & B3). split_and!; [lia| |].
  - rewrite B2, A2. unfold u32. rewrite Zplus_mod_idemp_l. f_equal. lia.
  - rewrite B3, A3. by destruct k1, k3.
Qed.

Lemma consumed_refl k : 0 <= fwd_cnt k < 4294967296 -> consumed k k 0.
Proof. intros. split_and!; [lia|rewrite Z.add_0_r; by rewrite u32_small|by destruct k]. Qed.

Lemma received_trans q q1 q' x y :
  rq_ok q -> zlen x + zlen y <= FreeBytes q -> received q q1 x -> FreePtr q1 = FreePtr q + zlen x -> received q1 q' y -> received q q' (x ++ y).
Proof.
  intros [R1 R2 R3] Hl (A1 & A2 & A3 & A4 & A5) Hp (B1 & B2 & B3 & B4 & B5). unfold received. rewrite zlen_app.
  split_and!; [|lia|congruence..]. rewrite B1, A1, Hp. apply splice_splice; lia.
Qed.

(** The bytes that fit, and what the request is afterwards. *)
Definition read_len d s r : Z := Z.min (FreeBytes (rq d r)) (zlen (stream d s)).

(** A read without [MSG_PEEK] moves the first bytes of the stream to the request; the
    buffers it empties go to the pool. *)
Lemma copy_consumes l d s r lb pr :
  sock_ok d s -> rq_ok (rq d r) -> RxCbList (sock d s) = l -> Z.land (rq_Flags (rq d r)) MSG_PEEK = 0 ->
  0 <= fwd_cnt (sock d s) < 4294967296 ->
  let n := read_len d s r in
  exists pr' d', VIOSockReadCopy l d s r lb pr = Ok (lb, pr', d') /\ sock_ok d' s /\
    received (rq d r) (rq d' r) (take (Z.to_nat n) (stream d s)) /\
    stream d s = take (Z.to_nat n) (stream d s) ++ stream d' s /\
    consumed (sock d s) (sock d' s) n /\
    RxCbBuffers d' ++ RxCbList (sock d' s) ≡ₚ RxCbBuffers d ++ RxCbList (sock d s) /\
    (forall s', s' <> s -> sock d' s' = sock d s').
Proof.
  revert d pr. induction l as [|c l IH]; intros d pr K R El Hpk Hf n.
  - assert (stream d s = []) as Se by (unfold stream; by rewrite El).
    assert (n = 0) as -> by (unfold n, read_len; rewrite Se, zlen_nil; pose proof (rqk_free _ R); lia).
    exists pr, d. rewrite Se. split_and!; try done; [|by apply consumed_refl].
    change (take (Z.to_nat 0) (@nil Z)) with (@nil Z). unfold received. by rewrite splice_nil, (zlen_nil (A:=Z)), Z.sub_0_r.
  - cbn [VIOSockReadCopy]. set (k := cb d c). rewrite Hpk. cbn [truth Z.eqb negb].
    assert (C : cb_ok k) by (apply K; rewrite El; set_solver). pose proof (zlen_unread _ C) as Zu. pose proof C as [C1 C2 C3 C4 C5 C6].
    pose proof R as [R1 R2 R3].
    assert (Hn : 0 <= n) by (unfold n, read_len; pose proof (zlen_nonneg (stream d s)); lia).
    assert (Sf : stream d s = unread k ++ list_stream d l) by (unfold stream; by rewrite El).
    pose proof (zlen_nonneg (list_stream d l)) as Hz.
    destruct (Z.leb_spec (BytesToRead k) (FreeBytes (rq d r))) as [Hle|Hlt].
    + rewrite memcpy_splice by lia. cbn [mbind res_bind]. fold (unread k). rewrite C6.
      set (q1 := fun q : VIOSOCK_RX_CONTEXT => q <| rq_data := splice (rq_data (rq d r)) (FreePtr (rq d r)) (unread k) |>
             <| FreePtr := FreePtr q + BytesToRead k |> <| FreeBytes := u32 (FreeBytes q - BytesToRead k) |>).
      destruct (take_buffer (upd_rq d r q1) s c l) as (K' & El' & St & Co & Po & Hs & Hr); [by destruct K|done|].
      set (d1 := upd_sock _ s _) in K', El', St, Co, Po, Hs, Hr.
      change (upd_sock (VIOSockRxCbPush (upd_sock (upd_cb (upd_rq d r _) c _) s _) c) s _) with d1.
      assert (Eq : rq d1 r = q1 (rq d r)) by (rewrite Hr; by vs).
      assert (Rc : received (rq d r) (rq d1 r) (unread k)) by (rewrite Eq; unfold received, q1; cbn; rewrite Zu, u32_small; [done|lia]).
      change (cb (upd_rq d r q1) c) with k in *. change (sock (upd_rq d r q1) s) with (sock d s) in *.
      change (stream (upd_rq d r q1) s) with (stream d s) in *.
      destruct (IH d1 true) as (pr' & d2 & E2 & K2 & R2' & S2 & Co2 & Po2 & Hs2); [done| |done| | |].
      { rewrite Eq. unfold q1. split; cbn; rewrite ?zlen_splice, ?u32_small by lia; lia. }
      { rewrite Eq. done. }
      { destruct Co as (_ & -> & _). apply u32_range. }
      exists pr', d2. rewrite St.
      assert (En : n = BytesToRead k + read_len d1 s r).
      { unfold n, read_len. rewrite St, Eq. unfold q1. cbn. rewrite zlen_app, Zu, u32_small by lia. lia. }
      assert (0 <= read_len d1 s r) by (unfold read_len; rewrite Eq; unfold q1; cbn; pose proof (zlen_nonneg (stream d1 s)); rewrite u32_small; lia).
      assert (Et : take (Z.to_nat n) (unread k ++ stream d1 s) = unread k ++ take (Z.to_nat (read_len d1 s r)) (stream d1 s)).
      { rewrite En, Z2Nat.inj_add by lia. rewrite take_app_add' by (unfold zlen in Zu; lia). done. }
      rewrite Et. split_and!; [done|done| | | | |].
      * apply (received_trans _ (rq d1 r)); [done| |done|rewrite Eq; unfold q1; cbn; by rewrite Zu|done].
        rewrite Zu. unfold zlen. rewrite length_take. unfold read_len in *. rewrite Eq in *. unfold q1 in *. cbn in *.
        rewrite u32_small in * by lia. lia.
      * rewrite <- app_assoc. by rewrite <- S2.
      * rewrite En. by eapply consumed_trans.
      * rewrite Po2, Po, El', El. solve_Permutation.
      * intros s' Hne. rewrite Hs2, Hs by done. done.
    + rewrite memcpy_splice by lia. cbn [mbind res_bind].
      assert (En : n = FreeBytes (rq d r)) by (unfold n, read_len; rewrite Sf, zlen_app, Zu; lia).
      destruct (take_part d s c l n K El ltac:(fold k; lia)) as (K' & El' & St & Co & Hs). fold k in K', El', St, Co, Hs.
      rewrite <- En in *. set (d1 := upd_sock _ s _) in K', El', St, Co, Hs |- *.
      assert (Et : take (Z.to_nat n) (stream d s) = take (Z.to_nat n) (unread k)).
      { rewrite Sf, take_app_le; [done|]. unfold zlen in Zu. lia. }
      eexists pr, _. split; [done|]. rewrite Et. split_and!; [by destruct K'| |done|done|by rewrite El, <- El'|done].
      vs. assert (Ht : take (Z.to_nat n) (drop (Z.to_nat (ReadPtr k)) (cb_data k)) = take (Z.to_nat n) (unread k)).
      { unfold unread. rewrite take_take, Nat.min_l; [done|lia]. }
      rewrite Ht. unfold received. cbn. split_and!; try done. unfold zlen. rewrite length_take. unfold zlen in Zu. lia.
Qed.

(** With [MSG_PEEK] the same bytes are copied and nothing else changes. *)
Lemma copy_peeks l d s r lb pr :
  (forall c, c ∈ l -> cb_ok (cb d c)) -> rq_ok (rq d r) -> truth (Z.land (rq_Flags (rq d r)) MSG_PEEK) = true ->
  let n := Z.min (FreeBytes (rq d r)) (zlen (list_stream d l)) in
  exists d', VIOSockReadCopy l d s r lb pr = Ok (lb, pr, d') /\
    received (rq d r) (rq d' r) (take (Z.to_nat n) (list_stream d l)) /\ d' = d <| ReadRequests := ReadRequests d' |>.
Proof.
  revert d. induction l as [|c l IH]; intros d K R Hpk n.
  - exists d. assert (n = 0) as -> by (unfold n; change (list_stream d []) with (@nil Z); rewrite zlen_nil; pose proof (rqk_free _ R); lia).
    split_and!; [done| |by destruct d].
    change (take _ (list_stream d [])) with (@nil Z). unfold received. by rewrite splice_nil, (zlen_nil (A:=Z)), Z.sub_0_r.
  - cbn [VIOSockReadCopy]. set (k := cb d c). rewrite Hpk.
    assert (C : cb_ok k) by (apply K; set_solver). pose proof (zlen_unread _ C) as Zu. pose proof C as [C1 C2 C3 C4 C5 C6].
    pose proof R as [R1 R2 R3]. pose proof (zlen_nonneg (list_stream d l)) as Hz.
    assert (Sf : list_stream d (c :: l) = unread k ++ list_stream d l) by done.
    destruct (Z.leb_spec (BytesToRead k) (FreeBytes (rq d r))) as [Hle|Hlt].
    + rewrite memcpy_splice by lia. cbn [mbind res_bind]. fold (unread k).
      set (q1 := fun q : VIOSOCK_RX_CONTEXT => q <| rq_data := splice (rq_data (rq d r)) (FreePtr (rq d r)) (unread k) |>
             <| FreePtr := FreePtr q + BytesToRead k |> <| FreeBytes := u32 (FreeBytes q - BytesToRead k) |>).
      assert (Eq : rq (upd_rq d r q1) r = q1 (rq d r)) by (by vs).
      destruct (IH (upd_rq d r q1)) as (d2 & E2 & R2' & F2); [| |by rewrite Eq|].
      { intros c' Hc'. vs. apply K. set_solver. }
      { rewrite Eq. unfold q1. split; cbn; rewrite ?zlen_splice, ?u32_small by lia; lia. }
      exists d2. split_and!; [done| |rewrite F2; by destruct d2].
      change (list_stream (upd_rq d r q1) l) with (list_stream d l) in *.
      assert (Ef : FreeBytes (rq (upd_rq d r q1) r) = FreeBytes (rq d r) - BytesToRead k) by (rewrite Eq; unfold q1; cbn; rewrite u32_small; lia).
      rewrite Ef in R2'. set (m := Z.min _ _) in R2'. assert (En : n = BytesToRead k + m) by (unfold n, m; rewrite Sf, zlen_app, Zu; lia).
      assert (0 <= m) by (unfold m; lia). rewrite Sf, En, Z2Nat.inj_add, take_app_add' by (unfold zlen in Zu; lia).
      apply (received_trans _ (rq (upd_rq d r q1) r)); [done| | |rewrite Eq; unfold q1; cbn; by rewrite Zu|done].
      * rewrite Zu. unfold zlen. rewrite length_take. unfold m. lia.
      * rewrite Eq. unfold received, q1. cbn. rewrite Zu, u32_small; [done|lia].
    + rewrite memcpy_splice by lia. cbn [mbind res_bind].
      assert (En : n = FreeBytes (rq d r)) by (unfold n; rewrite Sf, zlen_app, Zu; lia). rewrite <- En in *.
      eexists. split; [done|]. split; [|by destruct d]. vs.
      assert (Et : take (Z.to_nat n) (list_stream d (c :: l)) = take (Z.to_nat n) (unread k)).
      { rewrite Sf, take_app_le; [done|]. unfold zlen in Zu. lia. }
      assert (Ht : take (Z.to_nat n) (drop (Z.to_nat (ReadPtr k)) (cb_data k)) = take (Z.to_nat n) (unread k)).
      { unfold unread. rewrite take_take, Nat.min_l; [done|lia]. }
      rewrite Et, Ht. unfold received. cbn. split_and!; try done. unfold zlen. rewrite length_take. unfold zlen in Zu. lia.
Qed.
End read.

(** ** The life of a stream *)

Section life.
Context {Q : Type} `{AsyncQueue Q} `{W : WdfEnv (DEVICE_CONTEXT Q)}.
Abbreviation dev := (DEVICE_CONTEXT Q).
Implicit Types (d : dev).

(** What one step of the driver on socket [s] appended to the stream and delivered to a
    read. *)
Inductive stream_step (s : Z) : dev -> list Z -> list Z -> dev -> Prop :=
  | step_receive d p b bRes d' :
      pkt_ok d s p b -> RxBytes (sock d s) + h_len (Header (rx_pkt d p)) < 4294967296 ->
      VIOSockRxPktEnqueueCb d s p = Ok (bRes, d') ->
      stream_step s d (if RxBytes (sock d s) + h_len (Header (rx_pkt d p)) <=? buf_alloc (sock d s) then payload d p else []) [] d'
  | step_read d r pr x d' :
      rq_ok (rq d r) -> Z.land (rq_Flags (rq d r)) MSG_PEEK = 0 ->
      VIOSockReadCopy (RxCbList (sock d s)) d s r [] false = Ok ([], pr, d') ->
      received (rq d r) (rq d' r) x ->
      stream_step s d [] x d'
  | step_peek d r d' :
      rq_ok (rq d r) -> truth (Z.land (rq_Flags (rq d r)) MSG_PEEK) = true ->
      VIOSockReadCopy (RxCbList (sock d s)) d s r [] false = Ok ([], false, d') ->
      stream_step s d [] [] d'
  | step_other d d' :
      RxCbList (sock d' s) = RxCbList (sock d s) -> RxBytes (sock d' s) = RxBytes (sock d s) ->
      fwd_cnt (sock d' s) = fwd_cnt (sock d s) ->
      (forall c, c ∈ RxCbList (sock d s) -> cb d' c = cb d c) ->
      stream_step s d [] [] d'.

Inductive stream_trace (s : Z) : dev -> list Z -> list Z -> dev -> Prop :=
  | trace_nil d : stream_trace s d [] [] d
  | trace_step d i o d1 i2 o2 d2 : stream_step s d i o d1 -> stream_trace s d1 i2 o2 d2 -> stream_trace s d (i ++ i2) (o ++ o2) d2.

Definition stream_inv s d : Prop := sock_ok d s /\ 0 <= fwd_cnt (sock d s) < 4294967296.

Lemma received_unique q q' x y : rq_ok q -> zlen x <= FreeBytes q -> zlen y <= FreeBytes q -> received q q' x -> received q q' y -> x = y.
Proof.
  intros [R1 R2 R3] Hx Hy (A1 & A2 & _) (B1 & B2 & _). rewrite A1 in B1. assert (El : zlen x = zlen y) by lia.
  unfold splice in B1. apply app_inv_head in B1. by apply app_inj_1 in B1 as [-> _]; [|unfold zlen in El; lia].
Qed.

Lemma stream_step_ok s d i o d' :
  stream_inv s d -> stream_step s d i o d' ->
  stream_inv s d' /\ stream d s ++ i = o ++ stream d' s /\ fwd_cnt (sock d' s) = u32 (fwd_cnt (sock d s) + zlen o).
Proof.
  intros [K Hf] St. destruct St as [d p b bRes d' P Hlt E|d r pr x d' R Hp E Rc|d r d' R Hp E|d d' E1 E2 E4 E3].
  - destruct (enqueue_refines d s p b K P Hlt) as (? & ? & E' & K' & _ & HS). rewrite E in E'. injection E' as <- <-.
    assert (fwd_cnt (sock d' s) = fwd_cnt (sock d s)) as Ef.
    { clear HS. unfold VIOSockRxPktEnqueueCb, VIOSockRxPktInc in E. rewrite (pk_buffer _ _ _ _ P) in E.
      repeat case_match; simplify_eq; try done; vs; try done.
      all: apply bind_ok in E as (? & _ & E); injection E as <- <-; by vs. }
    rewrite zlen_nil, Z.add_0_r, Ef, u32_small by done. split_and!; [split; [done|by rewrite Ef]| |done].
    destruct (_ <=? _); [done|]. subst d'. by rewrite app_nil_r.
  - destruct (copy_consumes (RxCbList (sock d s)) d s r [] false K R eq_refl Hp Hf) as (? & ? & E' & K' & Rc' & Hs & Co & _).
    rewrite E in E'. injection E' as <- <-.
    assert (x = take (Z.to_nat (read_len d s r)) (stream d s)) as ->.
    { apply (received_unique (rq d r) (rq d' r)); try done.
      - destruct Rc as (_ & Hx & _), Rc' as (_ & Hy & _). pose proof (zlen_nonneg (stream d s)). pose proof (rqk_free _ R).
        assert (zlen (take (Z.to_nat (read_len d s r)) (stream d s)) <= FreeBytes (rq d r)); [|lia].
        unfold zlen. rewrite length_take. unfold read_len, zlen in *. lia.
      - unfold zlen. rewrite length_take. unfold read_len, zlen. pose proof (rqk_free _ R). lia. }
    destruct Co as (C1 & C2 & C3). rewrite app_nil_r. split_and!; [split; [done|rewrite C2; apply u32_range]|done|].
    rewrite C2. do 2 f_equal. unfold zlen. rewrite length_take. unfold read_len, zlen. pose proof (rqk_free _ R). lia.
  - destruct (copy_peeks (RxCbList (sock d s)) d s r [] false) as (d1 & E' & _ & F); [apply K|done|done|].
    rewrite E in E'. injection E' as <-. rewrite F. cbn. rewrite app_nil_r.
    rewrite Z.add_0_r, u32_small by done. by destruct K.
  - rewrite zlen_nil, Z.add_0_r, E4, u32_small by done.
    assert (Es : stream d' s = stream d s) by (unfold stream; rewrite E1; by apply list_stream_frame).
    split_and!; [|by rewrite app_nil_r, Es|done].
    split; [|by rewrite E4]. split; rewrite ?E1, ?E2, ?Es; try apply K. intros c Hc. rewrite E3 by done. by apply K.
Qed.

Lemma stream_trace_ok s d i o d' :
  stream_inv s d -> stream_trace s d i o d' ->
  stream_inv s d' /\ stream d s ++ i = o ++ stream d' s /\ fwd_cnt (sock d' s) = u32 (fwd_cnt (sock d s) + zlen o).
Proof.
  intros I T. induction T as [d|d i o d1 i2 o2 d2 St T IH].
  - split_and!; [done|by rewrite app_nil_r|]. rewrite zlen_nil, Z.add_0_r, u32_small; [done|apply I].
  - destruct (stream_step_ok _ _ _ _ _ I St) as (I1 & S1 & F1). destruct (IH I1) as (I2 & S2 & F2).
    split_and!; [done| |].
    + rewrite (assoc_L (++)), S1, <- !(assoc_L (++)), S2. done.
    + rewrite F2, F1, zlen_app. unfold u32. rewrite Zplus_mod_idemp_l. f_equal. lia.
Qed.

(** Claim C3.  A connected socket never loses, repeats, reorders or invents a byte: over any
    sequence of received packets, reads and peeks, from a socket with an empty buffer, the
    bytes delivered to the reads followed by the bytes still buffered are the payloads
    that were accepted, in order; and the counter reported to the peer has advanced by
    the bytes delivered. *)
Theorem stream_integrity s d received_bytes read_bytes d' :
  stream_inv s d -> RxCbList (sock d s) = [] -> stream_trace s d received_bytes read_bytes d' ->
  received_bytes = read_bytes ++ stream d' s /\ RxBytes (sock d' s) = zlen received_bytes - zlen read_bytes /\
  fwd_cnt (sock d' s) = u32 (fwd_cnt (sock d s) + zlen read_bytes).
Proof.
  intros I E T. destruct (stream_trace_ok _ _ _ _ _ I T) as (I' & S' & F'). unfold stream at 1 in S'. rewrite E in S'.
  change (list_stream d []) with (@nil Z) in S'. cbn in S'. split_and!; [done| |done].
  rewrite (sk_bytes _ _ (proj1 I')), S', zlen_app. lia.
Qed.
End life.
