(* ===== verification/VioSockCreditSpec.v ===== *)
(** * viosock: credit-based flow control

    Two sockets of this driver, one sending and one receiving, with the data and the
    credit reports that are on their way.  The sender's counters [tx_cnt],
    [peer_fwd_cnt], [peer_buf_alloc] and the receiver's [RxBytes], [fwd_cnt], [buf_alloc] are 32-bit
    and wrap; the invariant relates them to unbounded totals. *)

From Stdlib Require Import ZArith Lia.
From stdpp Require Import base list numbers option gmap relations.
From S2P Require Import Prelude.
From S2P Require Import Virtio.
From S2P Require Import VioSock.
From S2P Require Import VioSockRx.
From S2P Require Import VioSockSpec.

Definition sumZ (l : list Z) : Z := foldr Z.add 0 l.

Lemma sumZ_app l l' : sumZ (l ++ l') = sumZ l + sumZ l'.
Proof. induction l as [|x l IH]; cbn; [done|]. unfold sumZ in *. lia. Qed.

Lemma sumZ_cons x l : sumZ (x :: l) = x + sumZ l.
Proof. done. Qed.
#[local] Arguments sumZ : simpl never.

Lemma sumZ_nonneg l : Forall (fun n => 0 <= n) l -> 0 <= sumZ l.
Proof. induction 1; unfold sumZ in *; cbn; lia. Qed.

Section credit.
Context {Q : Type} (a b : Z).
Abbreviation dev := (DEVICE_CONTEXT Q).

(** [lk_data]: the payload lengths on their way to the receiver, queued in the driver or
    on the ring; [lk_reports]: the headers on their way back. *)
Record link := mk_link { lk_tx : dev; lk_rx : dev; lk_data : list Z; lk_reports : list VIRTIO_VSOCK_HDR }.
Implicit Types (l : link).

Inductive link_step : link -> link -> Prop :=
  | link_send tx rx data reports n u tx' :
      0 <= n < 4294967296 -> VIOSockTxGetCredit tx a n = (u, tx') ->
      link_step (mk_link tx rx data reports) (mk_link tx' rx (data ++ [u]) reports)
  | link_cancel tx rx d1 u d2 reports :
      link_step (mk_link tx rx (d1 ++ u :: d2) reports) (mk_link (VIOSockTxPutCredit tx a u) rx (d1 ++ d2) reports)
  | link_deliver tx rx u data reports ok k :
      VIOSockRxPktInc (sock rx b) u = (ok, k) ->
      link_step (mk_link tx rx (u :: data) reports) (mk_link tx (upd_sock rx b (fun _ => k)) data reports)
  | link_read tx rx data reports n :
      0 <= n <= RxBytes (sock rx b) ->
      link_step (mk_link tx rx data reports) (mk_link tx (upd_sock rx b (fun k => VIOSockRxPktDec k n)) data reports)
  | link_report tx rx data reports h h' rx' :
      VIOSockRxIncTxPkt rx b h = (h', rx') ->
      link_step (mk_link tx rx data reports) (mk_link tx rx' data (reports ++ [h']))
  | link_update tx rx data h reports space tx' :
      VIOSockTxSpaceUpdate tx a h = (space, tx') ->
      link_step (mk_link tx rx data (h :: reports)) (mk_link tx' rx data reports)
  | link_grow tx rx data reports v :
      buf_alloc (sock rx b) <= v < 4294967296 ->
      link_step (mk_link tx rx data reports) (mk_link tx (upd_sock rx b (fun k => k <| buf_alloc := v |>)) data reports).

(** A new connection: no data yet, the sender knows at most the receiver's buffer. *)
Definition link_start l : Prop :=
  tx_cnt (sock (lk_tx l) a) = 0 /\ peer_fwd_cnt (sock (lk_tx l) a) = 0 /\
  0 <= peer_buf_alloc (sock (lk_tx l) a) <= buf_alloc (sock (lk_rx l) b) /\ buf_alloc (sock (lk_rx l) b) < 4294967296 /\
  RxBytes (sock (lk_rx l) b) = 0 /\ fwd_cnt (sock (lk_rx l) b) = 0 /\ lk_data l = [] /\ lk_reports l = [].

Definition link_reachable l : Prop := exists l0, link_start l0 /\ rtc link_step l0 l.

(** The reports on their way: totals and buffer sizes that only grow, from what the sender
    knows to what the receiver has. *)
Fixpoint reports_ok (f balloc : Z) (hs : list VIRTIO_VSOCK_HDR) (F B : Z) : Prop :=
  match hs with
  | [] => f <= F /\ balloc <= B
  | h :: hs => exists f', h_fwd_cnt h = u32 f' /\ f <= f' /\ balloc <= h_buf_alloc h /\ reports_ok f' (h_buf_alloc h) hs F B
  end.

Lemma reports_mono f balloc hs F B F' B' : F <= F' -> B <= B' -> reports_ok f balloc hs F B -> reports_ok f balloc hs F' B'.
Proof.
  intros HF HB. revert f balloc. induction hs as [|h hs IH]; intros f balloc; cbn; [lia|]. intros (f' & ? & ? & ? & ?). exists f'. eauto.
Qed.

Lemma reports_le f balloc hs F B : reports_ok f balloc hs F B -> f <= F /\ balloc <= B.
Proof. revert f balloc. induction hs as [|h hs IH]; intros f balloc; cbn; [done|]. intros (f' & ? & ? & ? & [? ?]%IH). lia. Qed.

Lemma reports_snoc f balloc hs F B h :
  reports_ok f balloc hs F B -> h_fwd_cnt h = u32 F -> h_buf_alloc h = B -> reports_ok f balloc (hs ++ [h]) F B.
Proof.
  intros R Hf Hb. revert f balloc R. induction hs as [|h0 hs IH]; intros f balloc; cbn.
  - intros [? ?]. exists F. rewrite Hb. split_and!; try done; lia.
  - intros (f' & ? & ? & ? & ?). exists f'. eauto.
Qed.

(** [T] bytes were sent, [F] of them read, and the sender knows of [Fp]. *)
Record link_inv l (T F Fp : Z) : Prop := {
  li_tx : tx_cnt (sock (lk_tx l) a) = u32 T;
  li_fwd : fwd_cnt (sock (lk_rx l) b) = u32 F;
  li_peer : peer_fwd_cnt (sock (lk_tx l) a) = u32 Fp;
  li_total : T - F = RxBytes (sock (lk_rx l) b) + sumZ (lk_data l);
  li_bytes : 0 <= RxBytes (sock (lk_rx l) b);
  li_data : Forall (fun n => 0 <= n) (lk_data l);
  li_credit : T - Fp <= peer_buf_alloc (sock (lk_tx l) a);
  li_reports : reports_ok Fp (peer_buf_alloc (sock (lk_tx l) a)) (lk_reports l) F (buf_alloc (sock (lk_rx l) b));
  li_alloc : buf_alloc (sock (lk_rx l) b) < 4294967296 }.

Lemma link_room l T F Fp : link_inv l T F Fp -> RxBytes (sock (lk_rx l) b) + sumZ (lk_data l) <= buf_alloc (sock (lk_rx l) b) /\
  0 <= T - F <= T - Fp.
Proof.
  intros [? ? ? Ht Hb Hd Hc [? ?]%reports_le ?]. pose proof (sumZ_nonneg _ Hd). lia.
Qed.

Lemma link_start_inv l : link_start l -> link_inv l 0 0 0.
Proof. intros (? & ? & ? & ? & ? & ? & Hd & Hr). split; rewrite ?Hd, ?Hr; unfold sumZ; cbn; try done; lia. Qed.

(** The sender's free space is the difference of the totals. *)
Lemma credit_space l T F Fp :
  link_inv l T F Fp ->
  let k := sock (lk_tx l) a in
  u32 (peer_buf_alloc k - u32 (tx_cnt k - peer_fwd_cnt k)) = peer_buf_alloc k - (T - Fp).
Proof.
  intros I k. subst k. pose proof (link_room _ _ _ _ I) as [? ?]. destruct I as [Ht ? Hp ? ? ? ? [? ?]%reports_le ?].
  rewrite Ht, Hp. assert (u32 (u32 T - u32 Fp) = T - Fp) as -> by (unfold u32; rewrite <- Zminus_mod; apply Z.mod_small; lia).
  apply u32_small. lia.
Qed.

Lemma u32_add x n : u32 (u32 x + n) = u32 (x + n).
Proof. unfold u32. apply Zplus_mod_idemp_l. Qed.
Lemma u32_sub x n : u32 (u32 x - n) = u32 (x - n).
Proof. unfold u32. apply Zminus_mod_idemp_l. Qed.

Lemma link_step_inv l l' T F Fp : link_step l l' -> link_inv l T F Fp -> exists T' F' Fp', link_inv l' T' F' Fp'.
Proof.
  intros St I. pose proof (credit_space _ _ _ _ I) as Hcs. pose proof (link_room _ _ _ _ I) as [Hroom HT].
  destruct I as [I1 I2 I3 I4 I5 I6 I7 I8 I9]. pose proof (reports_le _ _ _ _ _ I8) as [? ?].
  destruct St as [tx rx data reports n u tx' Hn E|tx rx d1 u d2 reports|tx rx u data reports ok k E|tx rx data reports n Hn
    |tx rx data reports h h' rx' E|tx rx data h reports space tx' E|tx rx data reports v Hv]; cbn in *.
  - unfold VIOSockTxGetCredit in E. rewrite Hcs in E. injection E as <- <-. set (u := if _ <? _ then _ else _).
    assert (0 <= u <= peer_buf_alloc (sock tx a) - (T - Fp)) by (unfold u; destruct (Z.ltb_spec n (peer_buf_alloc (sock tx a) - (T - Fp))); lia).
    exists (T + u), F, Fp. split; cbn; vs; try done.
    + rewrite I1. apply u32_add.
    + rewrite sumZ_app, sumZ_cons. change (sumZ []) with 0. lia.
    + apply Forall_app. split; [done|]. constructor; [lia|done].
    + lia.
  - apply Forall_app in I6 as [Hd1 [Hu Hd2]%Forall_cons]. pose proof (sumZ_nonneg _ Hd1). pose proof (sumZ_nonneg _ Hd2).
    rewrite sumZ_app, sumZ_cons in *. exists (T - u), F, Fp. unfold VIOSockTxPutCredit. split; cbn; vs; try done.
    + rewrite I1. apply u32_sub.
    + rewrite sumZ_app. lia.
    + by apply Forall_app.
    + lia.
  - apply Forall_cons in I6 as [Hu Hd]. pose proof (sumZ_nonneg _ Hd). rewrite sumZ_cons in *.
    rewrite RxPktInc_spec in E by lia. replace (_ <=? _) with true in E by lia. injection E as <- <-.
    exists T, F, Fp. split; cbn; vs; try done; lia.
  - exists T, (F + n), Fp. unfold VIOSockRxPktDec. pose proof (sumZ_nonneg _ I6). split; cbn; vs; try done.
    + rewrite I2. apply u32_add.
    + rewrite u32_small by lia. lia.
    + apply u32_range.
    + eapply reports_mono; [| |exact I8]; lia.
  - unfold VIOSockRxIncTxPkt in E. injection E as <- <-. exists T, F, Fp. split; cbn; vs; try done. apply reports_snoc; [done|by cbn..].
  - unfold VIOSockTxSpaceUpdate in E. injection E as <- <-. destruct I8 as (f' & Hf & ? & ? & R). pose proof (reports_le _ _ _ _ _ R).
    exists T, F, f'. split; cbn; vs; try done. lia.
  - exists T, F, Fp. split; cbn; vs; try done; [eapply reports_mono; [| |exact I8]; lia|lia].
Qed.

Lemma link_reachable_inv l : link_reachable l -> exists T F Fp, link_inv l T F Fp.
Proof.
  intros (l0 & H0 & R). apply link_start_inv in H0.
  assert (exists T F Fp, link_inv l0 T F Fp) as HI by eauto. clear H0.
  induction R as [|l0 l1 l2 St R IH]; [done|]. apply IH. destruct HI as (T & F & Fp & I). by eapply link_step_inv.
Qed.

(** Claim C4.  Credit-based flow control loses nothing: whatever two sockets send, cancel, read and
    report, in any order and with any delay, the receiver accepts every packet that arrives
    and the data on its way always fits into its buffer, for as many bytes as the connection
    carries (the 32-bit counters wrap). *)
Theorem credit_no_drop l u data :
  link_reachable l -> lk_data l = u :: data ->
  exists k, VIOSockRxPktInc (sock (lk_rx l) b) u = (true, k) /\ RxBytes k = RxBytes (sock (lk_rx l) b) + u /\
    RxBytes k + sumZ data <= buf_alloc (sock (lk_rx l) b).
Proof.
  intros (T & F & Fp & I)%link_reachable_inv Ed. pose proof (link_room _ _ _ _ I) as [Hr _]. destruct I as [_ _ _ _ Hb Hd _ _ Ha].
  rewrite Ed in *. rewrite sumZ_cons in Hr. apply Forall_cons in Hd as [Hu Hd]. pose proof (sumZ_nonneg _ Hd).
  rewrite RxPktInc_spec by lia. replace (_ <=? _) with true by lia. eexists. split; [done|]. cbn. lia.
Qed.

(**  The credit taken for a write is what was asked for or all the room the peer has left, and
    never more than fits in the peer's buffer behind the data already on its way. *)
Theorem credit_bound l n u tx' :
  link_reachable l -> 0 <= n < 4294967296 -> VIOSockTxGetCredit (lk_tx l) a n = (u, tx') ->
  0 <= u <= n /\ RxBytes (sock (lk_rx l) b) + sumZ (lk_data l) + u <= buf_alloc (sock (lk_rx l) b).
Proof.
  intros R Hn E. destruct (link_reachable_inv _ R) as (T & F & Fp & I). pose proof (credit_space _ _ _ _ I) as Hc.
  pose proof (link_room _ _ _ _ I) as [_ ?]. destruct I as [_ _ _ Ht Hb Hd Hk [? ?]%reports_le Ha].
  unfold VIOSockTxGetCredit in E. rewrite Hc in E. injection E as <- _.
  destruct (Z.ltb_spec n (peer_buf_alloc (sock (lk_tx l) a) - (T - Fp))); lia.
Qed.

(**  The peer may shrink its buffer below the bytes on their way (the socket option
    for the buffer size allows it).  The sender's free space is then negative and wraps: the
    write gets its whole length as credit although the peer has no room. *)
Theorem credit_underflow (tx : dev) n :
  let k := sock tx a in
  let out := u32 (tx_cnt k - peer_fwd_cnt k) in
  0 <= peer_buf_alloc k < out -> out - peer_buf_alloc k <= 2147483648 -> 0 <= n <= VIRTIO_VSOCK_MAX_PKT_BUF_SIZE ->
  (VIOSockTxGetCredit tx a n).1 = n /\ VIOSockTxHasSpace k = 0.
Proof.
  intros k out Hk Hd Hn. unfold VIRTIO_VSOCK_MAX_PKT_BUF_SIZE in *.
  unfold VIOSockTxGetCredit, VIOSockTxHasSpace. fold k. fold out. cbn [fst]. split.
  - replace (u32 (peer_buf_alloc k - out)) with (peer_buf_alloc k - out + 4294967296).
    + destruct (Z.ltb_spec n (peer_buf_alloc k - out + 4294967296)); lia.
    + unfold u32. apply (Z.mod_unique _ _ (-1)); lia.
  - replace (s32 (peer_buf_alloc k - out)) with (peer_buf_alloc k - out); [|unfold s32; rewrite Z.mod_small; lia].
    destruct (Z.ltb_spec (peer_buf_alloc k - out) 0); lia.
Qed.
End credit.
