(* ===== verification/VioSockInv.v ===== *)
(** * viosock: what the driver owns

    The invariant of the device context and the promises of the queues it is proved
    against.

    Receive side: every receive packet is on the ring, postponed or held by a handler, and
    every pool buffer is free, attached to a packet or in the list of one socket.
    Transmit side: the packets on the ring are distinct allocated slices, and
    [TxQueuedReply] counts the queued replies.

    [post m Φ]: every result of [m] satisfies [Φ].  A result exists only when the C code
    does not go wrong; the theorems on single operations say when that is. *)

From Stdlib Require Import ZArith Lia.
From stdpp Require Import base list numbers option gmap.
From S2P Require Import Prelude.
From S2P Require Import Virtio.
From S2P Require Import VirtQueue.
From S2P Require Import VioSock.
From S2P Require Import VioSockRx.
From S2P Require Import VioSockTx.
From S2P Require Import VioSockSpec.

(** ** Results *)

Definition post {A} (m : res A) (Φ : A -> Prop) : Prop := forall x, m = Ok x -> Φ x.

Lemma post_ok {A} (x : A) (Φ : A -> Prop) : Φ x -> post (Ok x) Φ.
Proof. intros H y [= <-]. done. Qed.
Lemma post_fault {A} f (Φ : A -> Prop) : post (Fault f) Φ.
Proof. by intros y. Qed.
Lemma post_bind {A B} (m : res A) (k : A -> res B) Φ Ψ : post m Φ -> (forall x, Φ x -> post (k x) Ψ) -> post (m ≫= k) Ψ.
Proof. intros Hm Hk y (x & Ex & Ey)%bind_ok. by apply (Hk x); [apply Hm|]. Qed.
Lemma post_mono {A} (m : res A) (Φ Ψ : A -> Prop) : post m Φ -> (forall x, Φ x -> Ψ x) -> post m Ψ.
Proof. intros H HI x E. by apply HI, H. Qed.

Create HintDb vpost.
#[export] Hint Resolve post_ok post_fault : vpost.

(** ** Buffers and their owners *)

Definition is_pool (c : cbref) : bool := match c with CbPool _ => true | CbRequest _ => false end.
Definition pool_part (l : list cbref) : list cbref := filter (fun c => is_pool c = true) l.

#[global] Arguments pool_part : simpl never.
#[global] Arguments RemoveEntryList : simpl never.

Lemma pool_part_app l l' : pool_part (l ++ l') = pool_part l ++ pool_part l'.
Proof. apply filter_app. Qed.
Lemma pool_part_cons c l : pool_part (c :: l) = (if is_pool c then [c] else []) ++ pool_part l.
Proof. unfold pool_part. destruct (is_pool c) eqn:E; [by rewrite filter_cons_True|by rewrite filter_cons_False by congruence]. Qed.
Lemma elem_of_pool_part c l : c ∈ pool_part l <-> is_pool c = true /\ c ∈ l.
Proof. unfold pool_part. by rewrite list_elem_of_filter. Qed.

Lemma RemoveEntryList_cons c x l : RemoveEntryList c (x :: l) = (if decide (x = c) then [] else [x]) ++ RemoveEntryList c l.
Proof.
  unfold RemoveEntryList. case_decide as Hx; [by rewrite filter_cons_False by naive_solver|by rewrite filter_cons_True].
Qed.

Lemma elem_of_RemoveEntryList c x l : x ∈ RemoveEntryList c l -> x ∈ l.
Proof. unfold RemoveEntryList. rewrite list_elem_of_filter. by intros [_ ?]. Qed.

(** Removing a pool buffer that occurs once. *)
Lemma pool_part_remove c l : is_pool c = true -> c ∈ l -> NoDup (pool_part l) -> pool_part l ≡ₚ c :: pool_part (RemoveEntryList c l).
Proof.
  intros Hp Hc ND. induction l as [|x l IH]; [by apply not_elem_of_nil in Hc|]. rewrite RemoveEntryList_cons, pool_part_cons in *.
  destruct (decide (x = c)) as [->|Hne].
  - rewrite Hp in *. cbn in *. apply NoDup_cons in ND as [Hn _]. rewrite RemoveEntryList_fresh; [done|]. intros Hy. by apply Hn, elem_of_pool_part.
  - cbn. rewrite pool_part_cons. apply NoDup_app in ND as (_ & _ & ND). rewrite IH by (done || set_solver).
    destruct (is_pool x); cbn; [by rewrite (Permutation_swap x c)|done].
Qed.
Lemma pool_part_remove_request r l : pool_part (RemoveEntryList (CbRequest r) l) = pool_part l.
Proof.
  induction l as [|x l IH]; [done|]. rewrite RemoveEntryList_cons, pool_part_app, IH, (pool_part_cons x).
  case_decide as Hx; [by rewrite Hx|]. by destruct x.
Qed.

Section owners.
Context {Q : Type}.
Abbreviation dev := (DEVICE_CONTEXT Q).
Implicit Types (d : dev).

Definition sock_bufs d : list cbref := concat ((fun x => pool_part (RxCbList x.2)) <$> map_to_list (sockets d)).
Definition pkt_bufs (P : list Z) d : list cbref := concat ((fun p => option_list (Buffer (rx_pkt d p))) <$> P).

(** One socket apart from the others. *)
Lemma sock_bufs_split d s :
  exists rest, sock_bufs d ≡ₚ pool_part (RxCbList (sock d s)) ++ rest /\
    forall f, sock_bufs (upd_sock d s f) ≡ₚ pool_part (RxCbList (f (sock d s))) ++ rest.
Proof.
  exists (concat ((fun x => pool_part (RxCbList x.2)) <$> map_to_list (delete s (sockets d)))). split.
  - unfold sock_bufs, sock. destruct (sockets d !! s) as [k|] eqn:E; cbn [default].
    + by rewrite <- (map_to_list_delete (sockets d) s k E).
    + by rewrite delete_id.
  - intros f. unfold sock_bufs, upd_sock. cbn. rewrite <- insert_delete_eq, map_to_list_insert by (by rewrite lookup_delete_eq). done.
Qed.

(** One packet apart from the others. *)
Lemma pkt_bufs_split P d p : NoDup P -> p ∈ P ->
  exists rest, pkt_bufs P d ≡ₚ option_list (Buffer (rx_pkt d p)) ++ rest /\
    forall f, pkt_bufs P (upd_pkt d p f) ≡ₚ option_list (Buffer (f (rx_pkt d p))) ++ rest.
Proof.
  intros ND (P' & HP)%elem_of_Permutation. rewrite HP in ND. apply NoDup_cons in ND as [Hp _].
  exists (pkt_bufs P' d). unfold pkt_bufs. split; [by rewrite HP|]. intros f. rewrite HP. cbn. rewrite rx_pkt_upd. f_equiv.
  apply reflexive_eq. f_equal. apply list_fmap_ext. intros i x Hx. rewrite rx_pkt_upd_ne; [done|]. intros ->.
  apply Hp. by eapply list_elem_of_lookup_2.
Qed.
End owners.

Section inv.
Context {Q : Type} `{AsyncQueueLaws Q} `{W : WdfEnv (DEVICE_CONTEXT Q)}.
Abbreviation dev := (DEVICE_CONTEXT Q).
Context (P : list Z) (B : list cbref).
Implicit Types (d : dev) (F : list Z).

(** What the transmit invariant is about. *)
Definition tx_part d : Q * list bool * Z * list VIOSOCK_TX_ENTRY * Z := (TxVq d, TxBitmap d, TxPktVA d, TxList d, TxQueuedReply d).
Context (T : Q * list bool * Z * list VIOSOCK_TX_ENTRY * Z -> Prop).

(** [P]: all receive packets; [B]: all pool buffers; [F]: the packets that handlers hold;
    [T]: what holds of the transmit side. *)
Record rx_inv F d : Prop := {
  ri_pkts : NoDup P /\ 0 ∉ P;
  ri_ring : exists L, vsq_live (RxVq d) L /\ RxPktList d ++ L ++ F ≡ₚ P /\ forall p, p ∈ L -> is_Some (Buffer (rx_pkt d p));
  ri_bufs : RxCbBuffers d ++ pkt_bufs P d ++ sock_bufs d ≡ₚ B;
  ri_pool : NoDup B /\ Forall (fun c => is_pool c = true) B;
  ri_cbs : forall c k, Cbs d !! c = Some k -> cb_Request k = match c with CbPool _ => None | CbRequest r => Some r end;
  ri_requests : forall s r, CbRequest r ∈ RxCbList (sock d s) -> is_Some (Cbs d !! CbRequest r);
  ri_tx : T (tx_part d) }.

(** ** What does not touch the receive side *)

Lemma rx_inv_sock F d s f : RxCbList (f (sock d s)) = RxCbList (sock d s) -> rx_inv F d -> rx_inv F (upd_sock d s f).
Proof.
  intros Hf [I1 I2 I3 I4 I5 I6 I7]. split; try done.
  - destruct (sock_bufs_split d s) as (rest & E1 & E2). rewrite E2, Hf, <- E1. done.
  - intros s' r Hr. apply (I6 s'). destruct (decide (s = s')) as [<-|Hne]; [by rewrite sock_upd, Hf in Hr|by rewrite sock_upd_ne in Hr].
Qed.

(** The fields the invariant reads. *)
Definition same_rx d d' : Prop :=
  RxVq d' = RxVq d /\ RxPktList d' = RxPktList d /\ RxPkts d' = RxPkts d /\ RxCbBuffers d' = RxCbBuffers d /\
  Cbs d' = Cbs d /\ sockets d' = sockets d.

Lemma rx_inv_same F d d' : same_rx d d' -> T (tx_part d') -> rx_inv F d -> rx_inv F d'.
Proof.
  intros (E1 & E2 & E3 & E4 & E5 & E6) HT [I1 I2 I3 I4 I5 I6 I7]. destruct d, d'. cbn in *. subst. by split.
Qed.

Lemma sock_rx_inv_perm F F' d : F ≡ₚ F' -> rx_inv F d -> rx_inv F' d.
Proof. intros E [? (L & ? & HL & ?) ? ? ? ? ?]. split; try done. exists L. by rewrite <- E. Qed.

Lemma sock_rx_inv_queue F d q : (forall L, vsq_live (RxVq d) L -> vsq_live q L) -> rx_inv F d -> rx_inv F (d <| RxVq := q |>).
Proof. intros Hq [? (L & ? & ? & ?) ? ? ? ? ?]. split; try done. exists L. split_and!; [by apply Hq|done|done]. Qed.

(** New contents of a buffer that keeps its kind. *)
Lemma rx_inv_cb F d c f : (forall k, cb_Request (f k) = cb_Request k) -> is_pool c = true \/ is_Some (Cbs d !! c) -> rx_inv F d -> rx_inv F (upd_cb d c f).
Proof.
  intros Hf Hc [I1 I2 I3 I4 I5 I6 I7]. split; try done; cbn.
  - intros c' k' [[<- <-]|[Hne Hk']]%lookup_insert_Some; [|by apply I5]. rewrite Hf. unfold cb.
    destruct (Cbs d !! c) as [k|] eqn:Hk; [by apply I5|]. destruct Hc as [Hc|[? Hc]]; [by destruct c|done].
  - intros s r Hr. destruct (decide (c = CbRequest r)) as [->|Hne]; [by rewrite lookup_insert_eq|rewrite lookup_insert_ne by done]. by eapply I6.
Qed.

(** ** Where buffers are *)

Lemma rx_inv_bufs_nodup F d : rx_inv F d -> NoDup (RxCbBuffers d ++ pkt_bufs P d ++ sock_bufs d).
Proof. intros I. rewrite (ri_bufs _ _ I). apply I. Qed.

Lemma rx_inv_sock_nodup F d s : rx_inv F d -> NoDup (pool_part (RxCbList (sock d s))).
Proof.
  intros I. pose proof (rx_inv_bufs_nodup _ _ I) as (_ & _ & (_ & _ & ND)%NoDup_app)%NoDup_app.
  destruct (sock_bufs_split d s) as (rest & E & _). rewrite E in ND. by apply NoDup_app in ND as (? & _).
Qed.

Lemma rx_inv_frame_in F d p : rx_inv F d -> p ∈ F -> p ∈ P.
Proof. intros [_ (L & _ & E & _) _ _ _ _ _] Hp. rewrite <- E. set_solver. Qed.

Lemma rx_inv_pkt_pool F d p c : rx_inv F d -> p ∈ P -> Buffer (rx_pkt d p) = Some c -> is_pool c = true.
Proof.
  intros I Hp Hc. destruct (ri_pool _ _ I) as [_ Hpool]. apply Forall_forall with (x := c) in Hpool; [done|].
  rewrite <- (ri_bufs _ _ I). destruct (pkt_bufs_split P d p (proj1 (ri_pkts _ _ I)) Hp) as (rest & E & _). rewrite E, Hc. set_solver.
Qed.

(** The three ways a buffer changes hands. *)
Lemma rx_inv_pop F d p c l : rx_inv (p :: F) d -> RxCbBuffers d = c :: l -> Buffer (rx_pkt d p) = None ->
  rx_inv (p :: F) (upd_pkt (d <| RxCbBuffers := l |>) p (fun x => x <| Buffer := Some c |>)).
Proof.
  intros I El Eb. pose proof (rx_inv_frame_in _ _ p I ltac:(set_solver)) as Hp. destruct I as [I1 (L & IL & IP & IB) I3 I4 I5 I6 I7].
  assert (Hr : forall x, rx_pkt (d <| RxCbBuffers := l |>) x = rx_pkt d x) by done.
  split; try done.
  - exists L. split_and!; try done. intros x Hx. destruct (decide (p = x)) as [<-|Hne]; [by rewrite rx_pkt_upd|rewrite rx_pkt_upd_ne by done; by apply IB].
  - destruct (pkt_bufs_split P d p (proj1 I1) Hp) as (rest & E1 & _).
    destruct (pkt_bufs_split P (d <| RxCbBuffers := l |>) p (proj1 I1) Hp) as (rest' & E1' & E2').
    rewrite E2'. cbn. rewrite <- I3, El. change (pkt_bufs P (d <| RxCbBuffers := l |>)) with (pkt_bufs P d) in E1'.
    rewrite Hr, Eb in E1'. cbn in E1'. rewrite E1'. unfold sock_bufs. cbn. solve_Permutation.
Qed.

Lemma rx_inv_push_pkt F d p c : rx_inv F d -> p ∈ F -> Buffer (rx_pkt d p) = Some c ->
  rx_inv F (upd_pkt (VIOSockRxCbPush d c) p (fun x => x <| Buffer := None |>)).
Proof.
  intros I HpF Eb. pose proof (rx_inv_frame_in _ _ p I HpF) as Hp. destruct I as [I1 (L & IL & IP & IB) I3 I4 I5 I6 I7].
  split; try done.
  - exists L. split_and!; try done. intros x Hx. rewrite rx_pkt_upd_ne; [by apply IB|]. intros <-.
    pose proof (proj1 I1) as ND. rewrite <- IP in ND. apply NoDup_app in ND as (_ & _ & (_ & ND & _)%NoDup_app). by apply (ND p).
  - destruct (pkt_bufs_split P (VIOSockRxCbPush d c) p (proj1 I1) Hp) as (rest' & E1' & E2'). rewrite E2'. cbn.
    change (pkt_bufs P (VIOSockRxCbPush d c)) with (pkt_bufs P d) in E1'. change (rx_pkt (VIOSockRxCbPush d c) p) with (rx_pkt d p) in E1'.
    rewrite Eb in E1'. cbn in E1'. rewrite <- I3, E1'. unfold sock_bufs. cbn. solve_Permutation.
Qed.

Lemma rx_inv_give F d s p c f : rx_inv F d -> p ∈ F -> Buffer (rx_pkt d p) = Some c ->
  RxCbList (f (sock d s)) = RxCbList (sock d s) ++ [c] ->
  rx_inv F (upd_pkt (upd_sock d s f) p (fun x => x <| Buffer := None |>)).
Proof.
  intros I HpF Eb Hf. pose proof (rx_inv_frame_in _ _ p I HpF) as Hp. pose proof (rx_inv_pkt_pool _ _ _ _ I Hp Eb) as Hc.
  destruct I as [I1 (L & IL & IP & IB) I3 I4 I5 I6 I7]. split; try done.
  - exists L. split_and!; try done. intros x Hx. rewrite rx_pkt_upd_ne; [by apply IB|]. intros <-.
    pose proof (proj1 I1) as ND. rewrite <- IP in ND. apply NoDup_app in ND as (_ & _ & (_ & ND & _)%NoDup_app). by apply (ND p).
  - destruct (pkt_bufs_split P (upd_sock d s f) p (proj1 I1) Hp) as (rest' & E1' & E2'). rewrite E2'. cbn.
    change (pkt_bufs P (upd_sock d s f)) with (pkt_bufs P d) in E1'. change (rx_pkt (upd_sock d s f) p) with (rx_pkt d p) in E1'.
    rewrite Eb in E1'. cbn in E1'. destruct (sock_bufs_split d s) as (rest & S1 & S2).
    change (sock_bufs (upd_pkt (upd_sock d s f) p _)) with (sock_bufs (upd_sock d s f)).
    rewrite S2, Hf, pool_part_app, (pool_part_cons c []), Hc. rewrite <- I3, E1', S1. change (pool_part []) with (@nil cbref). cbn. solve_Permutation.
  - intros s' r Hr. cbn in Hr. apply (I6 s'). change (sock (upd_pkt ?x _ _)) with (sock x) in Hr.
    destruct (decide (s = s')) as [<-|Hne]; [|by rewrite sock_upd_ne in Hr]. rewrite sock_upd, Hf in Hr.
    apply elem_of_app in Hr as [Hr|Hr%list_elem_of_singleton]; [done|]. by subst c.
Qed.

Lemma rx_inv_release F d s c f : rx_inv F d -> is_pool c = true -> c ∈ RxCbList (sock d s) ->
  RxCbList (f (sock d s)) = RemoveEntryList c (RxCbList (sock d s)) ->
  rx_inv F (VIOSockRxCbPush (upd_sock d s f) c).
Proof.
  intros I Hc Hin Hf. pose proof (rx_inv_sock_nodup _ _ s I) as ND. destruct I as [I1 IL I3 I4 I5 I6 I7]. split; try done.
  - destruct (sock_bufs_split d s) as (rest & S1 & S2). change (sock_bufs (VIOSockRxCbPush ?x _)) with (sock_bufs x).
    rewrite S2, Hf. rewrite <- I3, S1, (pool_part_remove c (RxCbList (sock d s))) by done. cbn.
    change (pkt_bufs P (VIOSockRxCbPush ?x _)) with (pkt_bufs P d). solve_Permutation.
  - intros s' r Hr. apply (I6 s'). change (sock (VIOSockRxCbPush ?x _)) with (sock x) in Hr.
    destruct (decide (s = s')) as [<-|Hne]; [|by rewrite sock_upd_ne in Hr]. rewrite sock_upd, Hf in Hr. by apply elem_of_RemoveEntryList in Hr.
Qed.

Lemma rx_inv_drop_request F d s r f : rx_inv F d -> RxCbList (f (sock d s)) = RemoveEntryList (CbRequest r) (RxCbList (sock d s)) ->
  rx_inv F (upd_sock d s f).
Proof.
  intros [I1 IL I3 I4 I5 I6 I7] Hf. split; try done.
  - destruct (sock_bufs_split d s) as (rest & S1 & S2). by rewrite S2, Hf, pool_part_remove_request, <- S1.
  - intros s' r' Hr. apply (I6 s'). destruct (decide (s = s')) as [<-|Hne]; [|by rewrite sock_upd_ne in Hr].
    rewrite sock_upd, Hf in Hr. by apply elem_of_RemoveEntryList in Hr.
Qed.

Lemma rx_inv_add_request F d s r f : rx_inv F d -> is_Some (Cbs d !! CbRequest r) -> RxCbList (f (sock d s)) = RxCbList (sock d s) ++ [CbRequest r] ->
  rx_inv F (upd_sock d s f).
Proof.
  intros [I1 IL I3 I4 I5 I6 I7] Hr Hf. split; try done.
  - destruct (sock_bufs_split d s) as (rest & S1 & S2). rewrite S2, Hf, pool_part_app. change (pool_part [CbRequest r]) with (@nil cbref).
    by rewrite app_nil_r, <- S1.
  - intros s' r' Hr'. destruct (decide (s = s')) as [<-|Hne]; [|rewrite sock_upd_ne in Hr' by done; by eapply I6].
    rewrite sock_upd, Hf in Hr'. apply elem_of_app in Hr' as [Hr'|Hr'%list_elem_of_singleton]; [by eapply I6|by injection Hr' as ->].
Qed.
End inv.

(** The transmit side may change on its own. *)
Lemma rx_inv_tx `{AsyncQueueLaws Q} P B T T' F (d d' : DEVICE_CONTEXT Q) :
  same_rx d d' -> T' (tx_part d') -> rx_inv P B T F d -> rx_inv P B T' F d'.
Proof.
  intros (E1 & E2 & E3 & E4 & E5 & E6) HT [I1 I2 I3 I4 I5 I6 I7]. destruct d, d'. cbn in *. subst. by split.
Qed.
