(* ===== verification/VioSockRxSpec.v ===== *)
(** * viosock: the receive path keeps its packets and buffers

    Every operation of the receive path preserves the invariant of VioSockInv, with the
    packets in the hands of handlers as a frame. *)

From Stdlib Require Import ZArith Lia.
From stdpp Require Import base list numbers option gmap.
From S2P Require Import Prelude.
From S2P Require Import Virtio.
From S2P Require Import VirtQueue.
From S2P Require Import VioSock.
From S2P Require Import VioSockRx.
From S2P Require Import VioSockTx.
From S2P Require Import VioSockSpec.
From S2P Require Import VioSockInv.

Section packets.
Context {Q : Type} `{AsyncQueueLaws Q} `{W : WdfEnv (DEVICE_CONTEXT Q)}.
Abbreviation dev := (DEVICE_CONTEXT Q).
Context (P : list Z) (B : list cbref) (T : Q * list bool * Z * list VIOSOCK_TX_ENTRY * Z -> Prop).
Abbreviation RI := (rx_inv P B T).
Implicit Types (d : dev) (F : list Z).

(** ** Packets and the ring *)

(** The ring may be replaced by one that holds other packets of the frame. *)
Lemma rx_inv_ring F d : RI F d ->
  exists L, vsq_live (RxVq d) L /\ (forall p, p ∈ L -> is_Some (Buffer (rx_pkt d p))) /\
    forall q L' F', vsq_live q L' -> L' ++ F' ≡ₚ L ++ F -> (forall p, p ∈ L' -> is_Some (Buffer (rx_pkt d p))) -> RI F' (d <| RxVq := q |>).
Proof.
  intros [I1 (L & IL & IP & IB) I3 I4 I5 I6 I7]. exists L. split_and!; [done|done|]. intros q L' F' Hq E HB. split; try done.
  exists L'. split_and!; [done| |done]. cbn. by rewrite E.
Qed.

Lemma PktCleanup_inv F d p : RI F d -> p ∈ F -> RI F (VIOSockRxPktCleanup d p).
Proof. intros I Hp. unfold VIOSockRxPktCleanup. destruct (Buffer (rx_pkt d p)) eqn:E; [by apply rx_inv_push_pkt|done]. Qed.

Lemma rx_pkt_nonzero F d p : RI F d -> p ∈ F -> p <> 0.
Proof. intros I Hp ->. apply (ri_pkts _ _ _ _ _ I). by eapply rx_inv_frame_in. Qed.

Lemma rx_inv_pkt F d p f : RI F d -> p ∈ P -> Buffer (f (rx_pkt d p)) = Buffer (rx_pkt d p) -> RI F (upd_pkt d p f).
Proof.
  intros [I1 (L & IL & IP & IB) I3 I4 I5 I6 I7] Hp Hf. split; try done.
  - exists L. split_and!; try done. intros x Hx. destruct (decide (p = x)) as [<-|Hne]; [rewrite rx_pkt_upd, Hf|rewrite rx_pkt_upd_ne by done]; by apply IB.
  - destruct (pkt_bufs_split P d p (proj1 I1) Hp) as (rest & E1 & E2). rewrite E2, Hf, <- E1. done.
Qed.

(** Inserting a packet that has its buffer. *)
Lemma PktAdd_ok F d p c sg pa : RI (p :: F) d -> Buffer (rx_pkt d p) = Some c -> zlen sg = 2 ->
  exists (b : bool) (d' : dev), ('(ret, vq) ← vsq_add_buf (RxVq d) sg 0 2 p (Some (rx_indirect_size, pa));
      let d := d <| RxVq := vq |> in
      if ret <? 0 then Ok (false, VIOSockRxPktCleanup d p) else Ok (true, d)) = Ok (b, d') /\
    RI (if b then F else p :: F) d' /\ (vsq_room (RxVq d) -> b = true).
Proof.
  intros I Ec Hsg. destruct (rx_inv_ring _ _ I) as (L & IL & IB & HI).
  destruct (vsq_add (RxVq d) L sg 0 2 p (Some (rx_indirect_size, pa)) IL) as (rc & q & -> & Hq & Hr); try lia.
  { eapply rx_pkt_nonzero; [done|set_solver]. }
  { intros n ? [= <- _]. unfold rx_indirect_size. lia. }
  cbn [mbind res_bind]. destruct (Z.ltb_spec rc 0).
  - replace (0 <=? rc) with false in Hq by lia. eexists _, _. split; [done|]. split.
    + apply PktCleanup_inv; [|set_solver]. by eapply HI.
    + intros Hroom. specialize (Hr Hroom ltac:(right; done)). lia.
  - replace (0 <=? rc) with true in Hq by lia. eexists _, _. split; [done|]. split; [|done].
    eapply HI; [exact Hq|cbn; solve_Permutation|]. intros x [->|Hx]%elem_of_cons; [by rewrite Ec|by apply IB].
Qed.

(** Inserting a packet gives it to the device or, when there is no buffer or no
    descriptor for it, leaves it in the hands of the caller.  It cannot fail for a packet
    that just came back. *)
Lemma PktInsert_ok F d p :
  RI (p :: F) d ->
  exists b d', VIOSockRxPktInsert d p = Ok (b, d') /\ RI (if b then F else p :: F) d' /\
    (is_Some (Buffer (rx_pkt d p)) -> vsq_room (RxVq d) -> b = true).
Proof.
  intros I. unfold VIOSockRxPktInsert. destruct (Buffer (rx_pkt d p)) as [c|] eqn:Eb.
  - edestruct (PktAdd_ok F d p c) as (b & d' & E & HI & Hr); [done|done| |]; cycle 1.
    { rewrite E. eauto. } done.
  - unfold VIOSockRxCbPop. destruct (RxCbBuffers d) as [|c l] eqn:El.
    + eexists false, _. split; [done|]. split; [|by intros []].
      apply rx_inv_pkt; [done|eapply rx_inv_frame_in; [done|set_solver]|by rewrite Eb].
    + pose proof (rx_inv_pop _ _ _ _ _ _ _ _ I El Eb) as I'.
      set (d1 := upd_pkt _ _ _) in I'. assert (Buffer (rx_pkt d1 p) = Some c) as Eb' by (unfold d1; by rewrite rx_pkt_upd).
      edestruct (PktAdd_ok F d1 p c) as (b & d' & E & HI & Hr); [exact I'|exact Eb'| |]; cycle 1.
      { rewrite E. eexists _, _. split; [done|]. split; [done|by intros []]. } done.
Qed.

Lemma kick_inv F d : RI F d -> RI F (kick_RxVq d).
Proof.
  intros I. destruct (rx_inv_ring _ _ I) as (L & IL & IB & HI). unfold kick_RxVq. pose proof (vsq_kick _ _ IL) as Hk.
  destruct (vsq_kick_prepare (RxVq d)) as [b q]. cbn in Hk. apply (HI _ L); [|done|done]. destruct b; [by apply vsq_notified|done].
Qed.

Lemma rx_inv_postpone F d p : RI (p :: F) d -> RI F (d <| RxPktList := p :: RxPktList d |>).
Proof.
  intros [I1 (L & IL & IP & IB) I3 I4 I5 I6 I7]. split; try done. exists L. split_and!; [done| |done]. cbn. rewrite <- IP. solve_Permutation.
Qed.

Lemma rx_inv_unpostpone F d p l : RI F d -> RxPktList d = p :: l -> RI (p :: F) (d <| RxPktList := l |>).
Proof.
  intros [I1 (L & IL & IP & IB) I3 I4 I5 I6 I7] E. split; try done. exists L. split_and!; [done| |done]. cbn. rewrite <- IP, E. solve_Permutation.
Qed.

(** [VIOSockRxPktInsert] leaves the postponed packets alone. *)
Lemma PktInsert_list d p b d' : VIOSockRxPktInsert d p = Ok (b, d') -> RxPktList d' = RxPktList d.
Proof.
  unfold VIOSockRxPktInsert, VIOSockRxCbPop, VIOSockRxPktCleanup. intros E.
  repeat case_match; simplify_eq; try done.
  all: apply bind_ok in E as ([ret q] & _ & E); repeat case_match; by simplify_eq.
Qed.

Lemma PktList_ok F d l : RI F d -> RxPktList d = l -> exists d', VIOSockRxPktListLoop l d = Ok d' /\ RI F d'.
Proof.
  revert d. induction l as [|p l IH]; intros d I E; [by exists d|]. cbn [VIOSockRxPktListLoop].
  destruct (PktInsert_ok F (d <| RxPktList := l |>) p) as (b & d1 & E1 & I1 & _); [by eapply rx_inv_unpostpone|].
  rewrite E1. cbn [mbind res_bind]. destruct b.
  - apply IH; [done|]. by rewrite (PktInsert_list _ _ _ _ E1).
  - eexists. split; [done|]. by apply rx_inv_postpone.
Qed.

Lemma PktListLocked_ok F d : RI F d -> exists d', VIOSockRxPktListProcessLocked d = Ok d' /\ RI F d'.
Proof.
  intros I. unfold VIOSockRxPktListProcessLocked, VIOSockRxPktListProcess. destruct (PktList_ok F d _ I eq_refl) as (d' & -> & I').
  cbn [mbind res_bind]. eexists. split; [done|]. by apply kick_inv.
Qed.

(** A packet that was handled goes back to the device or to the postponed ones. *)
Lemma InsertOrPostpone_ok F d p : RI (p :: F) d -> exists d', VIOSockRxPktInsertOrPostpone d p = Ok d' /\ RI F d'.
Proof.
  intros I. unfold VIOSockRxPktInsertOrPostpone. destruct (PktInsert_ok F d p I) as (b & d1 & -> & I1 & _). cbn [mbind res_bind]. destruct b; cbn [negb].
  - unfold VIOSockRxPktListProcess. destruct (PktList_ok F d1 _ I1 eq_refl) as (d' & -> & I'). cbn [mbind res_bind]. eexists. split; [done|]. by apply kick_inv.
  - eexists. split; [done|]. by apply rx_inv_postpone.
Qed.

(** Taking the used packets off the ring: they are in the caller's hands, the malformed
    ones are back on the ring. *)
Lemma RxTake_inv n F d acc :
  RI (acc ++ F) d -> post (VIOSockRxTake n d acc) (fun '(acc', _, d') => RI (acc' ++ F) d').
Proof.
  revert d acc. induction n as [|n IH]; intros d acc I; [apply post_fault|]. cbn [VIOSockRxTake].
  destruct (VIOSockTxMoreReplies d); cbn [negb]; [|by apply post_ok].
  destruct (rx_inv_ring _ _ I) as (L & IL & IB & HI). destruct (vsq_get _ _ IL) as (b & q & -> & Hb). cbn [mbind res_bind].
  destruct b as [[p len]|]; [|apply post_ok; by eapply HI].
  destruct Hb as (Hroom & L' & EL & HL').
  assert (I1 : RI (p :: acc ++ F) (d <| RxVq := q |>)).
  { eapply HI; [exact HL'|rewrite EL; cbn; solve_Permutation|]. intros x Hx. apply IB. rewrite EL. set_solver. }
  destruct (_ || _).
  - destruct (PktInsert_ok _ _ _ I1) as (b & d1 & -> & I2 & Hb). cbn [mbind res_bind]. rewrite Hb in I2; [by apply IH| |done].
    apply (IB p). rewrite EL. set_solver.
  - apply IH. eapply sock_rx_inv_perm; [|exact I1]. solve_Permutation.
Qed.

Lemma RxTakeAll_inv fuel n F d acc :
  RI (acc ++ F) d -> post (VIOSockRxTakeAll fuel n d acc) (fun '(acc', d') => RI (acc' ++ F) d').
Proof.
  revert d acc. induction n as [|n IH]; intros d acc I; cbn [VIOSockRxTakeAll].
  all: destruct (rx_inv_ring _ _ I) as (L & IL & IB & HI); pose proof (HI _ L _ (vsq_disable _ _ IL) (reflexivity _) IB) as I0.
  all: apply (post_bind _ _ _ _ (RxTake_inv fuel F _ acc I0)); intros [[acc1 bStop] d1] I1.
  all: destruct (rx_inv_ring _ _ I1) as (L1 & IL1 & IB1 & HI1); destruct (vsq_enable _ _ IL1) as (b & q & -> & Hq); cbn [mbind res_bind].
  all: pose proof (HI1 _ L1 _ Hq (reflexivity _) IB1) as I2.
  all: destruct (_ && _); [|by apply post_ok].
  - apply post_fault.
  - by apply IH.
Qed.
End packets.

(** ** Sockets *)

Section sockets.
Context {Q : Type} `{AsyncQueueLaws Q} `{W : WdfEnv (DEVICE_CONTEXT Q)}.
Abbreviation dev := (DEVICE_CONTEXT Q).
Context (P : list Z) (B : list cbref) (T : Q * list bool * Z * list VIOSOCK_TX_ENTRY * Z -> Prop).
Abbreviation RI := (rx_inv P B T).
Implicit Types (d : dev) (F : list Z).

(** Fields outside the invariant. *)
Lemma rx_inv_other F d d' : same_rx d d' -> tx_part d' = tx_part d -> RI F d -> RI F d'.
Proof. intros Hs Ht I. apply (rx_inv_tx P B T T F d); [done|rewrite Ht; apply I|done]. Qed.

Ltac other := eapply rx_inv_other; [| |eassumption]; [by repeat split|done].

Lemma complete_inv F d r st i : RI F d -> RI F (WdfRequestCompleteWithInformation d r st i).
Proof. intros. other. Qed.
Lemma upd_rq_inv F d r f : RI F d -> RI F (upd_rq d r f).
Proof. intros. other. Qed.
Lemma completeRequest_inv F d r st : RI F d -> RI F (WdfRequestComplete d r st).
Proof. intros. other. Qed.
Hint Resolve complete_inv completeRequest_inv upd_rq_inv : vpost.

Lemma EventSetBit_inv F d s bit st : RI F d -> RI F (VIOSockEventSetBit d s bit st).
Proof. apply rx_inv_sock. cbv beta zeta. by destruct (_ && _). Qed.
Lemma EventClearBit_inv F d s bit : RI F d -> RI F (VIOSockEventClearBit d s bit).
Proof. by apply rx_inv_sock. Qed.
Lemma AcceptPendedAdd_inv F d s n : RI F d -> RI F (AcceptPendedAdd d s n).
Proof. by apply rx_inv_sock. Qed.
Lemma PutCredit_inv F d s n : RI F d -> RI F (VIOSockTxPutCredit d s n).
Proof. by apply rx_inv_sock. Qed.
Lemma GetCredit_inv F d s n : RI F d -> RI F (VIOSockTxGetCredit d s n).2.
Proof. by apply rx_inv_sock. Qed.
Lemma SpaceUpdate_inv F d s h : RI F d -> RI F (VIOSockTxSpaceUpdate d s h).2.
Proof. by apply rx_inv_sock. Qed.
Lemma RxPktInc_list k n : RxCbList (VIOSockRxPktInc k n).2 = RxCbList k.
Proof. unfold VIOSockRxPktInc. by destruct (_ <? _). Qed.

Lemma StateSet_inv F d s st : RI F d -> RI F (VIOSockStateSet d s st).2.
Proof.
  intros I. unfold VIOSockStateSet. cbn [snd].
  assert (RI F (upd_sock d s (fun k => k <| State := st |>))) as I1 by (by apply rx_inv_sock).
  destruct (_ && _); [|done]. destruct (_ && _); [other|]. destruct (bool_decide _); [|done].
  unfold VIOSockConnectedAdd. cbn [snd]. destruct (NT_SUCCESS _); [other|done].
Qed.

Lemma DoClose_inv F d s : RI F d -> RI F (VIOSockDoClose d s).
Proof.
  intros I. unfold VIOSockDoClose. apply rx_inv_sock; [done|].
  assert (RI F (upd_sock d s (fun k => k <| PeerShutdown := VIRTIO_VSOCK_SHUTDOWN_MASK |>))) as I1 by (by apply rx_inv_sock).
  destruct (negb _); [by apply StateSet_inv|done].
Qed.

Lemma PendedGet_inv F d s : RI F d -> RI F (VIOSockPendedRequestGetLocked d s).2.
Proof.
  intros I. unfold VIOSockPendedRequestGetLocked.
  assert (RI F (upd_sock d s (fun k => k <| PendedTimer := VIOSockTimerSuspend (PendedTimer k) |>))) as I1 by (by apply rx_inv_sock).
  destruct (PendedRequest _); [|done]. destruct (negb _); [done|]. by apply rx_inv_sock.
Qed.

Lemma PendedSet_inv F d s r t b : RI F d -> RI F (VIOSockPendedRequestSetEx d s r t b).2.
Proof.
  intros I. unfold VIOSockPendedRequestSetEx, VIOSockTimerResume. repeat case_match; simplify_eq; cbn [snd]; try done.
  all: repeat (apply rx_inv_sock; [done|]); done.
Qed.

Lemma BoundRemove_inv F d s : RI F d -> RI F (VIOSockBoundRemove d s).
Proof.
  intros I. unfold VIOSockBoundRemove. destruct (VIOSockIsFlag _ _); [|done].
  assert (RI F (upd_sock d s (fun k => VIOSockResetFlag k SOCK_BOUND))) as I1 by (by apply rx_inv_sock). other.
Qed.

Lemma TryPort_inv F d s : RI F d -> RI F (VIOSockBoundTryPort d s).2.
Proof.
  intros I. unfold VIOSockBoundTryPort.
  set (d1 := if uSvmPort d =? 0 then _ else d). assert (RI F d1) as I1 by (unfold d1; case_match; [other|done]). clearbody d1.
  case_match; [cbn [snd]; other|]. set (d2 := if uSvmPort d1 <=? _ then _ else d1).
  assert (RI F d2) as I2 by (unfold d2; case_match; [other|done]). clearbody d2.
  set (d3 := d2 <| uSvmPort := _ |>). assert (RI F d3) as I3 by other. clearbody d3. destruct (VIOSockBoundFindByPort d3 _); [done|]. cbn [snd].
  set (d4 := upd_sock d3 s _). assert (RI F d4) as I4 by (by apply rx_inv_sock). clearbody d4. case_match; [other|done].
Qed.

Lemma BoundSearch_inv F i d s : RI F d -> RI F (VIOSockBoundSearch i d s).2.
Proof.
  revert d. induction i as [|i IH]; intros d I; [done|]. cbn [VIOSockBoundSearch]. pose proof (TryPort_inv F d s I) as I1.
  destruct (VIOSockBoundTryPort d s) as [[st|] d1]; [done|by apply IH].
Qed.

Lemma BoundAdd_inv F d s port : RI F d -> RI F (VIOSockBoundAdd d s port).2.
Proof.
  intros I. unfold VIOSockBoundAdd.
  set (x := if port =? VMADDR_PORT_ANY then _ else _). assert (RI F x.2) as I1.
  { unfold x. case_match; [by apply BoundSearch_inv|]. case_match; [done|]. cbn [snd].
    set (d4 := upd_sock d s _). assert (RI F d4) as I4 by (by apply rx_inv_sock). clearbody d4. case_match; [other|done]. }
  clearbody x. destruct x as [st d1]. cbn [snd] in *. case_match; [by apply rx_inv_sock|done].
Qed.

(** ** Data *)

Lemma EnqueueCb_inv F d s p : RI F d -> p ∈ F -> post (VIOSockRxPktEnqueueCb d s p) (fun '(_, d') => RI F d').
Proof.
  intros I Hp. unfold VIOSockRxPktEnqueueCb. destruct (Buffer (rx_pkt d p)) as [b|] eqn:Eb; [|apply post_fault].
  pose proof (rx_inv_pkt_pool _ _ _ _ _ _ _ I (rx_inv_frame_in _ _ _ _ _ _ I Hp) Eb) as Hpool. cbv zeta.
  set (n := h_len (Header (rx_pkt d p))).
  assert (Henq : forall bRes, post (let '(ok, k) := VIOSockRxPktInc (sock d s) n in
     if ok then
          Ok (bRes, upd_pkt (upd_sock (upd_cb d b (fun x => x <| DataLen := n |> <| BytesToRead := n |> <| ReadPtr := 0 |>)) s
            (fun _ => k <| RxCbList := RxCbList k ++ [b] |> <| RxBuffers := u32 (RxBuffers k + 1) |>)) p (fun x => x <| Buffer := None |>))
     else Ok (false, d)) (fun '(_, d') => RI F d')).
  { intros bRes. pose proof (RxPktInc_list (sock d s) n) as El. destruct (VIOSockRxPktInc (sock d s) n) as [[] k]; cbn [snd] in El; apply post_ok; [|done].
    set (d1 := upd_cb d b _). assert (RI F d1) as I1 by (apply rx_inv_cb; [done|by left|done]).
    apply rx_inv_give with (c := b); try done. cbn. by rewrite El. }
  assert (Hmerge : forall cur, last (RxCbList (sock d s)) = Some cur -> forall buf k, RxCbList k = RxCbList (sock d s) ->
    RI F (upd_sock (upd_cb d cur (fun x => x <| cb_data := buf |> <| DataLen := u32 (DataLen x + n) |> <| BytesToRead := u32 (BytesToRead x + n) |>)) s (fun _ => k))).
  { intros cur Hcur buf k Hk. set (d1 := upd_cb d cur _). assert (RI F d1) as I1.
    { apply rx_inv_cb; [done| |done]. destruct cur as [v|r]; [by left|right]. apply (ri_requests _ _ _ _ _ I s).
      apply last_Some in Hcur as [l ->]. set_solver. }
    by apply rx_inv_sock. }
  destruct (last (RxCbList (sock d s))) as [cur|] eqn:El; [|apply Henq]. destruct (_ <=? _); [|apply Henq]. destruct (_ <=? _); [|apply Henq].
  pose proof (RxPktInc_list (sock d s) n) as Ek. destruct (VIOSockRxPktInc (sock d s) n) as [[] k]; cbn [snd] in Ek; [|by apply post_ok].
  apply (post_bind _ _ (fun _ => True)); [done|]. intros buf _. apply post_ok. by apply Hmerge.
Qed.

(** ** Requests in the list of a socket *)

Lemma rx_inv_new_request F d r k : cb_Request k = Some r -> RI F d -> RI F (d <| Cbs := <[CbRequest r := k]> (Cbs d) |>).
Proof.
  intros Hk [I1 I2 I3 I4 I5 I6 I7]. split; try done; cbn.
  - intros c k' [[<- <-]|[Hne Hk']]%lookup_insert_Some; [done|by apply I5].
  - intros s r' Hr'. destruct (decide (r = r')) as [->|Hne]; [by rewrite lookup_insert_eq|rewrite lookup_insert_ne by congruence]. by eapply I6.
Qed.

Lemma cb_request F d c : RI F d -> is_pool c = true \/ is_Some (Cbs d !! c) ->
  cb_Request (cb d c) = match c with CbPool _ => None | CbRequest r => Some r end.
Proof.
  intros I Hc. unfold cb. destruct (Cbs d !! c) as [k|] eqn:E; [by apply (ri_cbs _ _ _ _ _ I)|].
  destruct Hc as [Hc|[? Hc]]; [by destruct c|done].
Qed.

Lemma RequestEnqueueCb_inv F d s r n : RI F d -> RI F (VIOSockRxRequestEnqueueCb d s r n).2.
Proof.
  intros I. unfold VIOSockRxRequestEnqueueCb, VIOSockRxCbEntryForRequest. destruct (negb _); [done|].
  destruct (WdfRequestRetrieveInputBuffer d r) as [st buf]. destruct (NT_SUCCESS st); [|done].
  set (d1 := d <| Cbs := _ |>). assert (RI F d1) as I1 by (by apply rx_inv_new_request).
  assert (is_Some (Cbs d1 !! CbRequest r)) as Hr by (cbn; by rewrite lookup_insert_eq). clearbody d1.
  pose proof (RxPktInc_list (sock d1 s) (DataLen (cb d1 (CbRequest r)))) as El. destruct (VIOSockRxPktInc _ _) as [[] k]; [|done]. cbn [snd] in El.
  set (d2 := upd_sock d1 s _). assert (RI F d2) as I2 by (by apply rx_inv_sock).
  destruct (NT_SUCCESS _); [|done]. by apply rx_inv_add_request with (r := r).
Qed.

(** Dropping a request from every list. *)
Lemma sock_fmap d (f : SOCKET_CONTEXT -> SOCKET_CONTEXT) s : f sock_zero = sock_zero -> sock (d <| sockets := f <$> sockets d |>) s = f (sock d s).
Proof. intros Hf. unfold sock. cbn. rewrite lookup_fmap. by destruct (sockets d !! s). Qed.

Lemma sock_bufs_fmap d (f : SOCKET_CONTEXT -> SOCKET_CONTEXT) :
  (forall k, pool_part (RxCbList (f k)) = pool_part (RxCbList k)) -> sock_bufs (d <| sockets := f <$> sockets d |>) = sock_bufs d.
Proof.
  intros Hf. unfold sock_bufs. cbn. rewrite map_to_list_fmap, <- list_fmap_compose. f_equal. apply list_fmap_ext. intros i [s k] _. cbn. apply Hf.
Qed.

Lemma RequestCancelCb_inv F d r : RI F d -> RI F (VIOSockRxRequestCancelCb d r).
Proof.
  intros I. unfold VIOSockRxRequestCancelCb. apply complete_inv.
  set (d1 := upd_sock d _ _). assert (RI F d1) as I1 by (by apply rx_inv_sock). clearbody d1. clear I. destruct I1 as [I1 IL I3 I4 I5 I6 I7].
  split; try done.
  - rewrite (sock_bufs_fmap d1); [done|]. intros k. apply pool_part_remove_request.
  - intros s' r' Hr. apply (I6 s'). rewrite sock_fmap in Hr by done. cbn in Hr. by apply elem_of_RemoveEntryList in Hr.
Qed.

(** ** Reads *)

Lemma ReadCopy_inv l F d s r lb b : RI F d -> NoDup (pool_part l) ->
  (forall c, c ∈ l -> if is_pool c then c ∈ RxCbList (sock d s) else is_Some (Cbs d !! c)) ->
  post (VIOSockReadCopy l d s r lb b) (fun '(_, _, d') => RI F d').
Proof.
  revert d lb b. induction l as [|c l IH]; intros d lb b I ND Hl; [by apply post_ok|]. cbn [VIOSockReadCopy].
  assert (Hc : is_pool c = true \/ is_Some (Cbs d !! c)) by (specialize (Hl c); destruct (is_pool c); [by left|right; apply Hl; set_solver]).
  assert (HND : NoDup (pool_part l)) by (rewrite pool_part_cons in ND; by apply NoDup_app in ND as (_ & _ & ?)).
  assert (Hl' : forall c', c' ∈ l -> if is_pool c' then c' ∈ RxCbList (sock d s) else is_Some (Cbs d !! c')) by (intros; apply Hl; set_solver).
  destruct (BytesToRead (cb d c) <=? FreeBytes (rq d r)); (apply (post_bind _ _ (fun _ => True)); [done|]); intros buf _.
  - destruct (truth _); [by apply IH; [apply upd_rq_inv| |]|].
    pose proof (cb_request F d c I Hc) as Er. cbn in Er. rewrite Er.
    set (d1 := upd_cb (upd_rq d r _) c _).
    assert (RI F d1) as I1 by (apply rx_inv_cb; [done|done|by apply upd_rq_inv]).
    assert (Hs : forall c', c' ∈ l -> is_pool c' = true -> c' ∈ RxCbList (sock d s)) by (intros c' Hin E; specialize (Hl' c' Hin); by rewrite E in Hl').
    assert (Hreq : forall c', c' ∈ l -> is_pool c' = false -> is_Some (Cbs d1 !! c')).
    { intros c' Hin E. specialize (Hl' c' Hin). rewrite E in Hl'. cbn. destruct (decide (c = c')) as [->|]; [by rewrite lookup_insert_eq|by rewrite lookup_insert_ne]. }
    destruct c as [v|w].
    + apply IH; [|done|].
      * apply rx_inv_sock; [done|]. apply rx_inv_release; [done|done| |done]. apply (Hl (CbPool v)). set_solver.
      * intros c' Hc'. destruct (is_pool c') eqn:Ep; [|by apply Hreq]. rewrite sock_upd. cbn. rewrite sock_push, sock_upd. cbn.
        unfold RemoveEntryList. apply list_elem_of_filter. split; [|by apply Hs]. intros ->.
        rewrite pool_part_cons in ND. cbn in ND. apply NoDup_cons in ND as [ND _]. by apply ND, elem_of_pool_part.
    + assert (Hin : forall f, (forall k, RxCbList (f k) = RemoveEntryList (CbRequest w) (RxCbList k)) -> forall c', c' ∈ l ->
                 if is_pool c' then c' ∈ RxCbList (f (sock d s)) else is_Some (Cbs d1 !! c')).
      { intros f Hf c' Hc'. destruct (is_pool c') eqn:Ep; [|by apply Hreq]. rewrite Hf. unfold RemoveEntryList. apply list_elem_of_filter.
        split; [by intros ->|by apply Hs]. }
      set (d2 := upd_sock d1 s _). assert (RI F d2) as I2 by (by apply rx_inv_drop_request with (r := w)).
      assert (forall c', c' ∈ l -> if is_pool c' then c' ∈ RxCbList (sock d2 s) else is_Some (Cbs d2 !! c')) as Hin2.
      { intros c' Hc'. unfold d2. rewrite sock_upd. apply (Hin (fun k => k <| RxCbList := RemoveEntryList (CbRequest w) (RxCbList k) |>)); done. }
      destruct (NT_SUCCESS _); (apply IH; [|done|]); [by apply rx_inv_sock| |done|done].
      intros c' Hc'. rewrite sock_upd. by apply Hin2.
  - apply post_ok. apply upd_rq_inv. destruct (truth _); [done|]. apply rx_inv_sock; [done|]. by apply rx_inv_cb.
Qed.

Lemma CompleteLoopback_inv F d l : RI F d -> RI F (VIOSockCompleteLoopback d l).
Proof. unfold VIOSockCompleteLoopback. revert d. induction l as [|c l IH]; intros d I; [done|]. cbn. apply IH. by apply complete_inv. Qed.

Lemma Requeue_inv F d s r t : RI F d -> RI F (VIOSockRequeue d s r t).2.
Proof.
  intros I. unfold VIOSockRequeue. repeat case_match; cbn [snd]; repeat (apply rx_inv_sock; [done|]); done.
Qed.
Lemma RequeueOrExpire_inv F d s r t : RI F d -> RI F (VIOSockRequeueOrExpire d s r t).2.
Proof.
  intros I. unfold VIOSockRequeueOrExpire. destruct (_ && _); [done|]. pose proof (Requeue_inv F d s r t I) as I1.
  by destruct (VIOSockRequeue d s r t).
Qed.
Lemma ReadRemaining_inv F d s r : RI F d -> RI F (VIOSockReadRemaining d s r).2.
Proof. intros I. unfold VIOSockReadRemaining. destruct (truth _); [by apply rx_inv_sock|done]. Qed.

Lemma AcceptRemovePkt_inv F d s h : RI F d -> RI F (VIOSockAcceptRemovePkt d s h).
Proof. intros I. unfold VIOSockAcceptRemovePkt. destruct (remove_accept _ _ _); [|done]. apply AcceptPendedAdd_inv. by apply rx_inv_sock. Qed.
Lemma LoopbackAcceptDequeue_inv F d a s : RI F d -> RI F (VIOSockLoopbackAcceptDequeue d a s).2.
Proof. intros I. unfold VIOSockLoopbackAcceptDequeue. destruct (bool_decide _); [by apply rx_inv_sock|done]. Qed.
Lemma AcceptCleanup_inv F d s : RI F d -> RI F (VIOSockAcceptCleanup d s).
Proof. intros. by apply rx_inv_sock. Qed.

Lemma ReadCleanup_loop_inv l F d s lb : RI F d -> RxCbList (sock d s) = l -> RI F (VIOSockReadCleanup_loop l d s lb).2.
Proof.
  revert d lb. induction l as [|c l IH]; intros d lb I El; [done|]. cbn [VIOSockReadCleanup_loop].
  assert (Hc : is_pool c = true \/ is_Some (Cbs d !! c)).
  { destruct c as [v|r]; [by left|right]. apply (ri_requests _ _ _ _ _ I s). rewrite El. set_solver. }
  pose proof (cb_request F d c I Hc) as Er. rewrite cb_upd_sock, Er. pose proof (rx_inv_sock_nodup _ _ _ _ _ s I) as ND. rewrite El in ND.
  destruct c as [v|w].
  - apply IH; [|by rewrite sock_push, sock_upd]. apply rx_inv_release; [done|done|rewrite El; set_solver|]. rewrite El. cbn.
    rewrite RemoveEntryList_cons, decide_True by done. rewrite RemoveEntryList_fresh; [done|]. rewrite pool_part_cons in ND. cbn in ND.
    apply NoDup_cons in ND as [ND _]. intros Hv. by apply ND, elem_of_pool_part.
  - apply IH; [|by rewrite sock_upd]. destruct I as [I1 IL I3 I4 I5 I6 I7]. split; try done.
    + destruct (sock_bufs_split d s) as (rest & S1 & S2). rewrite S2. cbn. by rewrite <- I3, S1, El, (pool_part_cons (CbRequest w)).
    + intros s' r' Hr'. apply (I6 s'). destruct (decide (s = s')) as [<-|Hne]; [|by rewrite sock_upd_ne in Hr']. rewrite sock_upd in Hr'. rewrite El. set_solver.
Qed.

Lemma ReadCleanupCb_inv F d s : RI F d -> exists d', VIOSockReadCleanupCb d s = Ok d' /\ RI F d'.
Proof.
  intros I. unfold VIOSockReadCleanupCb. pose proof (ReadCleanup_loop_inv _ F d s [] I eq_refl) as I1.
  destruct (VIOSockReadCleanup_loop _ _ _ _) as [lb d1]. cbn [snd] in I1. destruct (PktListLocked_ok P B T F d1 I1) as (d2 & -> & I2).
  cbn [mbind res_bind]. eexists. split; [done|]. clear I I1 d1. revert d2 I2. induction lb as [|c lb IH]; intros d2 I2; [done|].
  cbn. apply IH. by apply completeRequest_inv.
Qed.

Lemma ReadForward_inv F d s r fl : RI F d -> RI F (VIOSockReadForward d s r fl).2.
Proof.
  intros I. unfold VIOSockReadForward. destruct (negb _); [done|]. destruct (WdfRequestRetrieveOutputBuffer d r) as [st buf].
  destruct (negb _); [done|]. set (d1 := upd_rq d r _). assert (RI F d1) as I1 by (by apply upd_rq_inv). clearbody d1. clear I.
  set (b := negb _ && _). clearbody b.
  destruct b, (NT_SUCCESS _); cbn [snd]; unfold VIOSockEventClearBit; repeat (apply rx_inv_sock; [done|]); done.
Qed.
End sockets.

#[export] Hint Resolve complete_inv completeRequest_inv upd_rq_inv EventSetBit_inv EventClearBit_inv AcceptPendedAdd_inv
  PutCredit_inv StateSet_inv DoClose_inv BoundRemove_inv CompleteLoopback_inv AcceptRemovePkt_inv AcceptCleanup_inv : vpost.
#[export] Hint Extern 2 (rx_inv _ _ _ _ (upd_sock _ _ _)) => apply rx_inv_sock; [reflexivity|] : vpost.

(** A call whose pair result keeps the invariant: its state replaces the old one. *)
Ltac call H := let I := fresh "I" in pose proof H as I;
  match type of I with rx_inv _ _ _ _ (snd ?e) => destruct e as [? ?]; cbn [snd] in I end.

(** ** The handlers *)

Section handlers.
Context {Q : Type} `{AsyncQueueLaws Q} `{W : WdfEnv (DEVICE_CONTEXT Q)}.
Abbreviation dev := (DEVICE_CONTEXT Q).
Context (P : list Z) (B : list cbref) (T : Q * list bool * Z * list VIOSOCK_TX_ENTRY * Z -> Prop).
Abbreviation RI := (rx_inv P B T).
Implicit Types (d : dev) (F : list Z).

Context (TxEnqueue : dev -> Z -> Z -> Z -> bool -> option (Z * Z) -> res (Z * dev)).
Context (SendResetNoSock : dev -> VIRTIO_VSOCK_HDR -> res (Z * dev)).
Context (HTx : forall F d s op fl reply, RI F d -> post (TxEnqueue d s op fl reply None) (fun '(_, d') => RI F d')).
Context (HSend : forall F d h, RI F d -> post (SendResetNoSock d h) (fun '(_, d') => RI F d')).

(** What is sent on the way. *)
Ltac sent H := eapply post_bind; [eapply H; eauto 10 with vpost|]; intros [? ?] ?.

Lemma ReadDequeueCb_inv F d s : RI F d -> post (VIOSockReadDequeueCb TxEnqueue d s) (fun '(_, d') => RI F d').
Proof.
  intros I. unfold VIOSockReadDequeueCb. destruct (_ =? _); [by apply post_ok|].
  destruct (WdfIoQueueRetrieveNextRequest d s) as [r|]; [|by apply post_ok].
  set (d1 := upd_sock d s _). assert (RI F d1) as I1 by (by apply rx_inv_sock). clearbody d1. clear I.
  call (ReadRemaining_inv P B T F d1 s r I1). rename z into t, d0 into d2.
  destruct (negb _).
  - destruct (VIOSockReadNoData d2 s); [apply post_ok; auto with vpost|]. call (RequeueOrExpire_inv P B T F d2 s r t I).
    apply post_ok. destruct o; auto with vpost.
  - eapply post_bind; [apply (ReadCopy_inv P B T _ F d2); [done|by eapply rx_inv_sock_nodup|]|].
    { intros c Hc. destruct (is_pool c) eqn:E; [done|]. destruct c as [|w]; [done|]. by eapply ri_requests. }
    intros [[lb b] d3] I3. eapply post_bind with (Φ := RI F).
    { destruct b; [|by apply post_ok]. destruct (PktListLocked_ok P B T F d3 I3) as (d4 & -> & I4). by apply post_ok. }
    intros d4 I4. set (x := if (_ || _) then _ else _). assert (RI F x.2) as I5.
    { unfold x. repeat case_match; try done. by apply RequeueOrExpire_inv. }
    clearbody x. destruct x as [st d5]. cbn [snd] in I5.
    set (d6 := if _ && _ then _ else _). assert (RI F d6) as I6 by (unfold d6; destruct (_ && _); auto with vpost). clearbody d6.
    eapply post_bind with (Φ := RI F).
    { destruct (_ <? _); [|by apply post_ok]. sent HTx. by apply post_ok. }
    intros d7 I7. apply post_ok. apply CompleteLoopback_inv. destruct st; auto with vpost.
Qed.

Lemma ReadProcessDequeueCb_inv F n d s : RI F d -> post (VIOSockReadProcessDequeueCb TxEnqueue n d s) (RI F).
Proof.
  revert d. induction n as [|n IH]; intros d I; cbn [VIOSockReadProcessDequeueCb].
  all: eapply post_bind; [by apply ReadDequeueCb_inv|]; intros [[] d1] I1; auto with vpost.
Qed.

Lemma AcceptInitSocket_inv F d a l : RI F d -> post (VIOSockAcceptInitSocket TxEnqueue d a l) (fun '(_, d') => RI F d').
Proof. intros I. unfold VIOSockAcceptInitSocket, VIOSockSendResponse. sent HTx. apply post_ok. auto with vpost. Qed.

Lemma AcceptEnqueuePkt_inv F d s h : RI F d -> post (VIOSockAcceptEnqueuePkt TxEnqueue d s h) (fun '(_, d') => RI F d').
Proof.
  intros I. unfold VIOSockAcceptEnqueuePkt. set (d1 := AcceptPendedAdd d s 1). assert (RI F d1) as I1 by (unfold d1; auto with vpost). clearbody d1.
  destruct (_ <? _); [apply post_ok; auto with vpost|].
  set (x := if _ =? 1 then _ else _). assert (RI F x.2) as I2.
  { unfold x. destruct (_ =? 1); [|done]. pose proof (PendedGet_inv P B T F d1 s I1). by destruct (VIOSockPendedRequestGetLocked d1 s) as [[]]. }
  clearbody x. destruct x as [[r|] d2]; cbn [snd] in I2.
  - eapply post_bind; [eapply AcceptInitSocket_inv; eauto 10 with vpost|]. intros [st d3] I3. apply post_ok. auto with vpost.
  - destruct (NT_SUCCESS _); apply post_ok; auto with vpost.
Qed.

Lemma AcceptDequeue_inv F l d ls a : RI F d -> post (VIOSockAcceptDequeue_loop TxEnqueue l d ls a) (fun '(_, d') => RI F d').
Proof.
  revert d. induction l as [|e l IH]; intros d I; [by apply post_ok|]. cbn [VIOSockAcceptDequeue_loop].
  set (d1 := AcceptPendedAdd _ _ _). assert (RI F d1) as I1 by (unfold d1; auto with vpost). clearbody d1.
  set (x := match ConnectSocket e with Some _ => _ | None => _ end). assert (RI F x.2) as I2.
  { unfold x. destruct (ConnectSocket e); [by apply LoopbackAcceptDequeue_inv|done]. }
  clearbody x. destruct x as [[] d2]; cbn [snd] in I2; [|by apply IH].
  eapply post_bind; [eapply AcceptInitSocket_inv; eauto 10 with vpost|]. intros [st d3] I3. by apply post_ok.
Qed.

Lemma Accept_inv F d l r : RI F d -> post (VIOSockAccept TxEnqueue d l r) (fun '(_, d') => RI F d').
Proof.
  intros I. unfold VIOSockAccept, VIOSockAcceptDequeue. destruct l as [l|]; [|by apply post_ok]. destruct (bool_decide _); [by apply post_ok|].
  eapply post_bind; [eapply AcceptDequeue_inv, EventClearBit_inv; destruct (VIOSockIsNonBlocking _); eauto with vpost|].
  intros [[] d1] I1; [by apply post_ok|]. destruct (VIOSockIsNonBlocking _); [by apply post_ok|]. destruct (PendedRequest _); [by apply post_ok|].
  unfold VIOSockPendedRequestSetLocked. call (PendedSet_inv P B T F d1 l r 0 false I1). by apply post_ok.
Qed.

Section fuel.
Context (fuel : nat).

Lemma DrainReads_inv F n d s : RI F d -> post (VIOSockDrainReads TxEnqueue fuel n d s) (RI F).
Proof.
  revert d. induction n as [|n IH]; intros d I; cbn [VIOSockDrainReads]; destruct (ReadQueue (sock d s)); auto with vpost.
  eapply post_bind; [by apply ReadProcessDequeueCb_inv|]. intros d1 I1. by apply IH.
Qed.

Lemma ShutdownFromPeer_inv F d s fl : RI F d -> post (VIOSockShutdownFromPeer TxEnqueue fuel d s fl) (fun '(_, d') => RI F d').
Proof.
  intros I. unfold VIOSockShutdownFromPeer. eapply post_bind with (Φ := RI F).
  - destruct (truth _); [apply DrainReads_inv|apply post_ok]; auto with vpost.
  - intros d1 I1. by apply post_ok.
Qed.

Lemma HandleConnecting_inv F d s h b : RI F d -> post (VIOSockRxPktHandleConnecting TxEnqueue d s h b) (RI F).
Proof.
  intros I. unfold VIOSockRxPktHandleConnecting. pose proof (PendedGet_inv P B T F d s I) as I1.
  destruct (VIOSockPendedRequestGetLocked d s) as [[st0 pr0] d1]. cbn [snd] in I1.
  set (x := if NT_SUCCESS st0 then _ else _). assert (RI F x.2) as I2.
  { unfold x. destruct (NT_SUCCESS st0); [|done]. destruct (_ && _); [done|]. destruct (_ =? _); [destruct b; cbn [snd]; auto 10 with vpost|].
    destruct (_ =? _); [|by destruct (_ =? _)]. destruct pr0 as [r|]; [|done]. unfold VIOSockPendedRequestSetResumeLocked.
    call (PendedSet_inv P B T F d1 s r 0 true I1). done. }
  clearbody x. destruct x as [[st pr] d2]. cbn [snd] in I2. eapply post_bind with (Φ := RI F).
  - destruct (negb _); [|by apply post_ok]. destruct (_ =? _); [apply post_ok; auto with vpost|]. unfold VIOSockSendReset. sent HTx. by apply post_ok.
  - intros d3 I3. apply post_ok. destruct pr; auto with vpost.
Qed.

Lemma HandleConnected_inv F d s p b : RI F d -> p ∈ F -> post (VIOSockRxPktHandleConnected TxEnqueue fuel d s p b) (RI F).
Proof.
  intros I Hp. unfold VIOSockRxPktHandleConnected. destruct (_ =? _).
  { eapply post_bind; [by apply EnqueueCb_inv|]. intros [[] d1] I1; [|by apply post_ok]. apply ReadProcessDequeueCb_inv. auto with vpost. }
  destruct (_ =? _); [apply post_ok; destruct b; auto with vpost|]. destruct (_ =? _).
  { eapply post_bind; [by apply ShutdownFromPeer_inv|]. intros [b1 d1] I1. destruct (_ && _); [|by apply post_ok]. unfold VIOSockSendReset.
    sent HTx. apply post_ok. auto with vpost. }
  destruct (_ =? _); apply post_ok; auto with vpost.
Qed.

Lemma HandleListen_inv F d s h : RI F d -> post (VIOSockRxPktHandleListen TxEnqueue SendResetNoSock d s h) (RI F).
Proof.
  intros I. unfold VIOSockRxPktHandleListen. destruct (_ =? _); [apply post_ok; auto with vpost|]. destruct (negb _).
  { sent HSend. by apply post_ok. }
  eapply post_bind; [by apply AcceptEnqueuePkt_inv|]. intros [st d1] I1. destruct (NT_SUCCESS _); [by apply post_ok|]. sent HSend. by apply post_ok.
Qed.

(** A packet in the caller's hands is handled and is back on the ring or postponed. *)
Lemma RxHandlePkt_inv F d p : RI (p :: F) d -> post (VIOSockRxHandlePkt TxEnqueue SendResetNoSock fuel d p) (RI F).
Proof.
  intros I. assert (Hback : forall d1, RI (p :: F) d1 -> post (VIOSockRxPktInsertOrPostpone d1 p) (RI F)).
  { intros d1 I1. destruct (InsertOrPostpone_ok P B T F d1 p I1) as (d2 & -> & I2). by apply post_ok. }
  unfold VIOSockRxHandlePkt. destruct (VIOSockRxFindSocket _ _) as [s|].
  - pose proof (SpaceUpdate_inv P B T _ d s (Header (rx_pkt d p)) I) as I1. destruct (VIOSockTxSpaceUpdate _ _ _) as [sp d1]. cbn [snd] in I1.
    eapply post_bind with (Φ := RI (p :: F)); [|done]. destruct (State _); [by apply post_ok|by apply HandleConnecting_inv|apply HandleConnected_inv; [done|set_solver]| |by apply HandleListen_inv].
    apply post_ok. unfold VIOSockRxPktHandleDisconnecting. destruct (_ =? _); auto with vpost.
  - eapply post_bind; [by apply HSend|]. intros [st d1] I1. by apply Hback.
Qed.

Lemma RxHandleAll_inv F l d : RI (l ++ F) d -> post (VIOSockRxHandleAll TxEnqueue SendResetNoSock fuel l d) (RI F).
Proof.
  revert d. induction l as [|p l IH]; intros d I; [by apply post_ok|]. cbn [VIOSockRxHandleAll].
  eapply post_bind; [by apply RxHandlePkt_inv|]. intros d1 I1. by apply IH.
Qed.

Lemma RxVqProcess_inv F d : RI F d -> post (VIOSockRxVqProcess TxEnqueue SendResetNoSock fuel d) (RI F).
Proof.
  intros I. unfold VIOSockRxVqProcess. eapply post_bind; [by apply (RxTakeAll_inv P B T fuel fuel F d [])|]. intros [l d1] I1. by apply RxHandleAll_inv.
Qed.
End fuel.
End handlers.
