(* ===== verification/VioSockTxSpec.v ===== *)
(** * viosock: the transmit path keeps its packets and its count of replies

    The packets on the transmit ring and in the hands of the driver are distinct allocated
    slices, no operation hands out a slice twice, and [TxQueuedReply] is the number of
    replies in the queue.  Nothing of the transmit path loses a receive packet or a
    buffer. *)

From Stdlib Require Import ZArith Lia.
From stdpp Require Import base list numbers option gmap.
From S2P Require Import Prelude.
From S2P Require Import Virtio.
From S2P Require Import VirtQueue.
From S2P Require Import VioSock.
From S2P Require Import VioSockRx.
From S2P Require Import VioSockTx.
From S2P Require Import VioSockSpec.
From S2P Require Import VioSockInv.
From S2P Require Import VioSockRxSpec.

(** ** Slices *)

(** [p] is the slice of a bit that is set. *)
Definition slice (va : Z) (bm : list bool) (p : Z) : Prop := exists i, bm !! i = Some true /\ p = va + sizeof_tx_pkt * Z.of_nat i.

Lemma first_clear_lookup bm i : first_clear bm = Some i -> bm !! i = Some false.
Proof.
  revert i. induction bm as [|[] bm IH]; intros i E; cbn in *; [done| |by injection E as <-].
  destruct (first_clear bm) as [j|]; cbn in E; [|done]. injection E as <-. by apply IH.
Qed.

(** A slice is handed out when there is a free one. *)
Lemma first_clear_none bm : first_clear bm = None -> Forall (fun b => b = true) bm.
Proof. induction bm as [|[] bm IH]; intros E; cbn in *; [done| |done]. destruct (first_clear bm); [done|]. constructor; auto. Qed.

Lemma slice_set va bm i p : slice va bm p -> slice va (<[i := true]> bm) p.
Proof.
  intros (j & Ej & ->). exists j. split; [|done]. destruct (decide (i = j)) as [->|Hne]; [|by rewrite list_lookup_insert_ne].
  apply list_lookup_insert_eq. by eapply lookup_lt_Some.
Qed.

Lemma slice_clear va bm i p : slice va bm p -> p <> va + sizeof_tx_pkt * Z.of_nat i -> slice va (<[i := false]> bm) p.
Proof.
  intros (j & Ej & ->) Hne. exists j. split; [|done]. rewrite list_lookup_insert_ne; [done|]. intros ->. done.
Qed.

Lemma slice_fresh va bm i : bm !! i = Some false -> ~ slice va bm (va + sizeof_tx_pkt * Z.of_nat i).
Proof. intros E (j & Ej & Eq). unfold sizeof_tx_pkt in Eq. assert (i = j) as -> by lia. congruence. Qed.

(** The fragments of a packet are at most 17 and fit in its indirect area with the header. *)
Lemma tx_fragments_len els i n len sg : 0 <= i -> tx_fragments els i n len = Some sg -> zlen sg + i <= 17 \/ sg = [].
Proof.
  revert i n sg. induction els as [|e els IH]; intros i n sg Hi E; cbn [tx_fragments] in E; [injection E as <-; by right|].
  unfold VIOSOCK_DMA_TX_PAGES in *. destruct (Z.leb_spec (16 + 2) (i + 1)); [done|]. left. destruct (len <=? _).
  - injection E as <-. unfold zlen. cbn. lia.
  - destruct (tx_fragments els _ _ _) as [sg'|] eqn:E'; cbn in E; [|done]. injection E as <-.
    destruct (IH (i + 1) _ _ ltac:(lia) E') as [Hlen| ->]; unfold zlen in *; cbn; lia.
Qed.

Definition replies (l : list VIOSOCK_TX_ENTRY) : Z := zlen (filter (fun e => tx_reply e = true) l).

Lemma replies_app l l' : replies (l ++ l') = replies l + replies l'.
Proof. unfold replies, zlen. rewrite filter_app, length_app. lia. Qed.
Lemma replies_cons e l : replies (e :: l) = (if tx_reply e then 1 else 0) + replies l.
Proof.
  unfold replies, zlen. destruct (tx_reply e) eqn:E; [rewrite filter_cons_True by done|rewrite filter_cons_False by congruence]; cbn; lia.
Qed.

Lemma s32_add x y : s32 (s32 x + y) = s32 (x + y).
Proof.
  unfold s32. f_equal. replace (_ - _ + y + _) with ((x + 2147483648) mod 4294967296 + y) by lia.
  rewrite Zplus_mod_idemp_l. f_equal. lia.
Qed.

Section tx.
Context {Q : Type} `{AsyncQueueLaws Q} `{W : WdfEnv (DEVICE_CONTEXT Q)}.
Abbreviation dev := (DEVICE_CONTEXT Q).
Context (P : list Z) (B : list cbref).
Implicit Types (d : dev) (F FT : list Z) (n : Z) (l : list VIOSOCK_TX_ENTRY).

(** A reply has no request and no timeout. *)
Definition entry_ok (e : VIOSOCK_TX_ENTRY) : Prop := tx_reply e = true -> tx_Request e = None /\ tx_Timeout e = 0.

(** [FT]: the packets the driver holds; [l]: the queue; [n]: the replies that have left the
    queue and are still counted. *)
Definition tx_ok FT n l (t : Q * list bool * Z * list VIOSOCK_TX_ENTRY * Z) : Prop :=
  let '(vq, bm, va, tl, qr) := t in
  (tl = l /\ qr = s32 (replies l + n) /\ Forall entry_ok l) /\
  0 < va /\ exists L, vsq_live vq L /\ NoDup (L ++ FT) /\ Forall (slice va bm) (L ++ FT).

Abbreviation RT FT n l := (rx_inv P B (tx_ok FT n l)).

Lemma rt_tx FT n l FT' n' l' F d d' : same_rx d d' ->
  (tx_ok FT n l (tx_part d) -> tx_ok FT' n' l' (tx_part d')) -> RT FT n l F d -> RT FT' n' l' F d'.
Proof. intros Hs Ht I. apply (rx_inv_tx P B (tx_ok FT n l) _ F d); [done|apply Ht, I|done]. Qed.

Lemma rt_list FT n l F d : RT FT n l F d -> TxList d = l.
Proof. intros I. pose proof (ri_tx _ _ _ _ _ I) as T. unfold tx_part in T. cbn in T. by destruct T as ((? & _) & _). Qed.

Ltac txonly := eapply rt_tx; [| |eassumption]; [by repeat split|].

(** The queue and the count may change. *)
Lemma rt_queue FT n l n' l' F d qr : RT FT n l F d -> qr = s32 (replies l' + n') -> Forall entry_ok l' ->
  RT FT n' l' F (d <| TxList := l' |> <| TxQueuedReply := qr |>).
Proof.
  intros I E HF. txonly. unfold tx_part. cbn. intros ((E1 & E2 & E3) & Hva & L & HL). split_and!; try done. by exists L.
Qed.

(** Forgetting a packet: its slice stays allocated. *)
Lemma rt_forget p FT n l F d : RT (p :: FT) n l F d -> RT FT n l F d.
Proof.
  apply rt_tx; [done|]. unfold tx_part. cbn. intros ((E1 & E2 & E3) & Hva & L & HL & ND & HS). split_and!; try done. exists L. split_and!; [done| |].
  - rewrite <- Permutation_middle in ND. by apply NoDup_cons in ND as [_ ?].
  - rewrite <- Permutation_middle in HS. by apply Forall_cons in HS as [_ ?].
Qed.

Lemma rt_perm FT FT' n l F d : FT ≡ₚ FT' -> RT FT n l F d -> RT FT' n l F d.
Proof.
  intros E. apply rt_tx; [done|]. unfold tx_part. cbn. intros ((E1 & E2 & E3) & Hva & L & HL & ND & HS). split_and!; try done. exists L. by rewrite <- E.
Qed.

(** ** Packets *)

Lemma TxPktFree_inv p FT n l F d : RT (p :: FT) n l F d -> RT FT n l F (VIOSockTxPktFree d p).
Proof.
  intros I. pose proof (ri_tx _ _ _ _ _ I) as T. unfold tx_part in T. cbn in T. destruct T as ((E1 & E2 & E3) & Hva & L & HL & ND & HS).
  rewrite <- Permutation_middle in ND, HS. apply NoDup_cons in ND as [Hp ND]. apply Forall_cons in HS as [(i & Ei & Ep) HS].
  pose proof (lookup_lt_Some _ _ _ Ei) as Hlt.
  assert (FreeSlice d p = d <| TxBitmap := <[i := false]> (TxBitmap d) |>) as Ef.
  { unfold FreeSlice. replace (p - TxPktVA d) with (Z.of_nat i * sizeof_tx_pkt) by lia. unfold sizeof_tx_pkt in *.
    rewrite bool_decide_true by (unfold zlen; lia). rewrite Z.mod_mul, Z.div_mul by lia. cbn [andb Z.eqb]. by rewrite Nat2Z.id, Ei. }
  unfold VIOSockTxPktFree. rewrite Ef. txonly. intros _. unfold tx_part. cbn. split_and!; try done. exists L. split_and!; [done|done|].
  apply Forall_forall. intros x Hx. rewrite Forall_forall in HS. apply slice_clear; [by apply HS|]. rewrite <- Ep. by intros ->.
Qed.

Lemma TxPktAlloc_inv e FT n l F d : RT FT n l F d ->
  match VIOSockTxPktAlloc d e with (Some p, d') => RT (p :: FT) n l F d' | (None, d') => RT FT n l F d' end.
Proof.
  intros I. unfold VIOSockTxPktAlloc, AllocateSlice. destruct (first_clear (TxBitmap d)) as [i|] eqn:Ei; [|done].
  apply first_clear_lookup in Ei. set (p := TxPktVA d + _). set (d1 := d <| TxBitmap := _ |>).
  assert (RT (p :: FT) n l F d1) as I1.
  { txonly. unfold tx_part. cbn. intros ((E1 & E2 & E3) & Hva & L & HL & ND & HS). split_and!; try done. exists L.
    rewrite <- Permutation_middle. split_and!; [done| |].
    - apply NoDup_cons. split; [|done]. intros Hp. rewrite Forall_forall in HS. by eapply slice_fresh, HS.
    - apply Forall_cons. split; [|eapply Forall_impl; [done|]; intros; by apply slice_set].
      exists i. split; [|done]. apply list_lookup_insert_eq. by eapply lookup_lt_Some. }
  clearbody d1 p. set (x := match tx_Socket e with Some _ => _ | None => _ end). assert (RT (p :: FT) n l F x.2) as I2.
  { unfold x. destruct (tx_Socket e); [|done]. unfold VIOSockRxIncTxPkt. cbn [snd]. by apply rx_inv_sock. }
  clearbody x. destruct x as [h d2]. cbn [snd] in I2. txonly; done.
Qed.

(** The transmit ring may be replaced. *)
Lemma rt_ring FT n l F d : RT FT n l F d ->
  exists L, vsq_live (TxVq d) L /\ forall q L' FT', vsq_live q L' -> L' ++ FT' ≡ₚ L ++ FT -> RT FT' n l F (d <| TxVq := q |>).
Proof.
  intros I. pose proof (ri_tx _ _ _ _ _ I) as T. unfold tx_part in T. cbn in T. destruct T as ((E1 & E2 & E3) & Hva & L & HL & ND & HS).
  exists L. split; [done|]. intros q L' FT' HL' E. txonly. intros _. unfold tx_part. cbn. split_and!; try done.
  exists L'. rewrite E. done.
Qed.

Lemma rt_nonzero p FT n l F d : RT FT n l F d -> p ∈ FT -> p <> 0.
Proof.
  intros I Hp. pose proof (ri_tx _ _ _ _ _ I) as T. unfold tx_part in T. cbn in T. destruct T as ((E1 & E2 & E3) & Hva & L & HL & ND & HS).
  rewrite Forall_forall in HS. destruct (HS p) as (i & _ & ->); [set_solver|]. unfold sizeof_tx_pkt. lia.
Qed.

(** Inserting gives the packet to the device or leaves it with the caller; it never faults. *)
Lemma TxPktInsert_ok p pr FT n l F d : RT (p :: FT) n l F d ->
  exists b d', VIOSockTxPktInsert d p pr = Ok (b, d') /\ RT (if b then FT else p :: FT) n l F d'.
Proof.
  intros I. unfold VIOSockTxPktInsert. set (d1 := match pr with Some _ => _ | None => d end).
  assert (RT (p :: FT) n l F d1) as I1 by (unfold d1; destruct pr as [[]|]; [txonly; done|done]).
  clearbody d1. clear I d. set (o := match pr with Some _ => _ | None => _ end).
  assert (forall sg, o = Some sg -> zlen sg <= 17) as Ho.
  { intros sg. unfold o. destruct pr as [[r els]|]; [|by intros [= <-]]. intros [E| ->]%tx_fragments_len; unfold zlen in *; cbn; lia. }
  clearbody o. destruct o as [sg|]; [|eauto]. specialize (Ho sg eq_refl).
  destruct (rt_ring _ _ _ _ _ I1) as (L & HL & HI). set (sg1 := mk_sg _ _ :: sg).
  assert (1 <= zlen sg1 <= 18) as Hsg by (unfold sg1, zlen in *; cbn; lia).
  edestruct (vsq_add (TxVq d1) L sg1 (zlen sg1) 0 p (if 1 <? zlen sg1 then Some (tx_indirect_size, TxPktPA d1 + (p - TxPktVA d1) + tx_indirect_offset) else None) HL)
    as (rc & q & -> & Hq & _); try lia.
  { eapply rt_nonzero; [exact I1|set_solver]. }
  { intros m pa. destruct (_ <? _); [|done]. intros [= <- _]. unfold tx_indirect_size. lia. }
  cbn [mbind res_bind]. eexists _, _. split; [done|]. destruct (0 <=? rc); (eapply HI; [exact Hq|cbn; solve_Permutation]).
Qed.

Lemma kick_TxVq_inv FT n l F d : RT FT n l F d -> RT FT n l F (kick_TxVq d).
Proof.
  intros I. destruct (rt_ring _ _ _ _ _ I) as (L & IL & HI). unfold kick_TxVq. pose proof (vsq_kick _ _ IL) as Hk.
  destruct (vsq_kick_prepare (TxVq d)) as [b q]. cbn in Hk. apply (HI _ L); [|done]. destruct b; [by apply vsq_notified|done].
Qed.

(** ** Completing what was sent *)

Lemma TxTake_inv m FT n l F d acc : RT (acc ++ FT) n l F d -> post (VIOSockTxTake m d acc) (fun '(acc', d') => RT (acc' ++ FT) n l F d').
Proof.
  revert d acc. induction m as [|m IH]; intros d acc I; [apply post_fault|]. cbn [VIOSockTxTake].
  destruct (rt_ring _ _ _ _ _ I) as (L & HL & HI). destruct (vsq_get _ _ HL) as (b & q & -> & Hb). cbn [mbind res_bind].
  destruct b as [[p len]|]; [|apply post_ok; by eapply HI]. destruct Hb as (_ & L' & EL & HL').
  destruct (Transaction _); apply IH.
  - apply (HI _ L'); [done|]. rewrite EL. solve_Permutation.
  - apply TxPktFree_inv. apply (HI _ L'); [done|]. rewrite EL. solve_Permutation.
Qed.

Lemma TxTakeAll_inv fuel m FT n l F d acc : RT (acc ++ FT) n l F d -> post (VIOSockTxTakeAll fuel m d acc) (fun '(acc', d') => RT (acc' ++ FT) n l F d').
Proof.
  revert d acc. induction m as [|m IH]; intros d acc I; cbn [VIOSockTxTakeAll].
  all: destruct (rt_ring _ _ _ _ _ I) as (L & HL & HI); pose proof (HI _ L _ (vsq_disable _ _ HL) (reflexivity _)) as I0.
  all: apply (post_bind _ _ _ _ (TxTake_inv fuel FT n l F _ acc I0)); intros [acc1 d1] I1.
  all: destruct (rt_ring _ _ _ _ _ I1) as (L1 & HL1 & HI1); destruct (vsq_enable _ _ HL1) as (b & q & -> & Hq); cbn [mbind res_bind].
  all: pose proof (HI1 _ L1 _ Hq (reflexivity _)) as I2; destruct b; cbn [negb]; [by apply post_ok|].
  - apply post_fault.
  - by apply IH.
Qed.

Lemma TxComplete_inv st FT n l F d ps : RT FT n l F d -> RT FT n l F (VIOSockTxComplete st d ps).
Proof.
  unfold VIOSockTxComplete. revert d. induction ps as [|p ps IH]; intros d I; [done|]. cbn. apply IH. destruct (Transaction _); auto with vpost.
Qed.

Lemma TxFree_inv FT n l F d ps : RT (ps ++ FT) n l F d -> RT FT n l F (foldl (fun d p => VIOSockTxPktFree d p) d ps).
Proof. revert d. induction ps as [|p ps IH]; intros d I; [done|]. cbn. apply IH. by apply TxPktFree_inv. Qed.

(** ** Sending what is queued *)

Lemma DmaTxAsync_inv p r FT n l F d : RT (p :: FT) n l F d ->
  post (VirtIOWdfDeviceDmaTxAsync d p r) (fun '(b, d') => RT (if b then FT else p :: FT) n l F d').
Proof.
  intros I. unfold VirtIOWdfDeviceDmaTxAsync, VIOSockTxDequeueCallback. destruct (WdfDmaTransactionExecute d r) as [st els]. destruct (negb _); [by apply post_ok|].
  destruct (TxPktInsert_ok p (Some (r, els)) FT n l F d I) as (b & d1 & -> & I1). cbn [mbind res_bind]. apply post_ok.
  destruct b; [by apply kick_TxVq_inv|]. apply completeRequest_inv. by apply TxPktFree_inv.
Qed.

(** The packet of a write is on the ring or free again, or lost when the write was being
    cancelled. *)
Lemma TxDequeueRequest_inv e p r FT n l F d : RT (p :: FT) n l F d -> post (VIOSockTxDequeueRequest d e p r) (RT FT n l F).
Proof.
  intros I. unfold VIOSockTxDequeueRequest. destruct (NT_SUCCESS _); [|apply post_ok; by eapply rt_forget].
  set (d1 := if truth _ then _ else d). assert (RT (p :: FT) n l F d1) as I1 by (unfold d1; destruct (truth _); [txonly; done|done]). clearbody d1.
  set (st := if _ =? STATUS_REMOTE_DISCONNECT then _ else _). clearbody st.
  eapply (post_bind _ _ (fun '(st, d') => RT (if NT_SUCCESS st then FT else p :: FT) n l F d')).
  - destruct (NT_SUCCESS st) eqn:Est; [|apply post_ok; by rewrite Est]. eapply post_bind; [by apply DmaTxAsync_inv|]. intros [[] d2] I2; apply post_ok; [by rewrite Est|done].
  - intros [st' d2] I2. apply post_ok. destruct (NT_SUCCESS st'); [done|]. apply TxPktFree_inv. auto with vpost.
Qed.

Lemma TxDequeue_loop_inv l FT F d bk br : RT FT 0 l F d -> post (VIOSockTxDequeue_loop l d bk br) (fun '(_, _, d') => exists l', RT FT 0 l' F d').
Proof.
  revert d bk br. induction l as [|e l IH]; intros d bk br I; cbn [VIOSockTxDequeue_loop]; [apply post_ok; by exists []|].
  pose proof (TxPktAlloc_inv e _ _ _ _ _ I) as I1. destruct (VIOSockTxPktAlloc d e) as [[p|] d1]; [|apply post_ok; by exists (e :: l)].
  pose proof (ri_tx _ _ _ _ _ I1) as T. unfold tx_part in T. cbn in T. destruct T as ((E1 & E2 & E3) & _).
  rewrite replies_cons in E2. apply Forall_cons in E3 as [He Hl].
  set (d2 := d1 <| TxList := l |> <| TxEnqueued := _ |>).
  assert (RT (p :: FT) (if tx_reply e then 1 else 0) l F d2) as I2.
  { txonly. unfold tx_part. cbn. intros (_ & Hva & L & HL). split_and!; try done; [rewrite E2; f_equal; lia|by exists L]. }
  assert (TxQueuedReply d2 = TxQueuedReply d1) as Eq by done. clearbody d2.
  destruct (tx_Request e) as [r|] eqn:Er.
  - destruct (tx_reply e) eqn:Ey; [by destruct (He Ey); congruence|]. eapply post_bind; [by apply TxDequeueRequest_inv|]. intros d3 I3. by apply IH.
  - destruct (TxPktInsert_ok p None _ _ _ _ _ I2) as (b & d3 & -> & I3). cbn [mbind res_bind]. destruct b.
    + destruct (tx_reply e); apply IH; [|done]. txonly. unfold tx_part. cbn. intros ((E3 & E4 & E5) & Hva & L & HL). split_and!; try done; [|by exists L].
      rewrite E4. replace (s32 (replies l + 1) - 1) with (s32 (replies l + 1) + - (1)) by lia. rewrite s32_add. f_equal. lia.
    + apply post_ok. exists (e :: l). apply TxPktFree_inv. txonly. unfold tx_part. cbn. intros ((E3 & E4 & E5) & Hva & L & HL). split_and!; try done.
      * rewrite E4, replies_cons. f_equal. lia.
      * by constructor.
      * by exists L.
Qed.

(** The transmit side at rest. *)
Definition tx_rest : Q * list bool * Z * list VIOSOCK_TX_ENTRY * Z -> Prop := fun t => exists l, tx_ok [] 0 l t.
Abbreviation R0 := (rx_inv P B tx_rest).

Lemma rest_intro l F d : RT [] 0 l F d -> R0 F d.
Proof. intros I. apply (rx_inv_tx P B (tx_ok [] 0 l) _ F d); [done|exists l; apply I|done]. Qed.
Lemma rest_elim F d : R0 F d -> RT [] 0 (TxList d) F d.
Proof.
  intros I. destruct (ri_tx _ _ _ _ _ I) as [l T]. assert (TxList d = l) as -> by (unfold tx_part in T; cbn in T; by destruct T as ((? & _) & _)).
  by apply (rx_inv_tx P B tx_rest _ F d).
Qed.

Section calls.
Context (fuel : nat) (RxVqProcess : dev -> res dev).
Context (HRx : forall F d, R0 F d -> post (RxVqProcess d) (R0 F)).

Lemma TxDequeue_inv F d : R0 F d -> post (VIOSockTxDequeue RxVqProcess d) (R0 F).
Proof.
  intros I. unfold VIOSockTxDequeue. destruct (lInProgress d); [by apply post_ok|].
  apply rest_elim in I. assert (RT [] 0 (TxList d) F (d <| lInProgress := true |>)) as I1 by (txonly; done).
  eapply post_bind; [eapply TxDequeue_loop_inv; exact I1|]. intros [[bk br] d1] [l I2].
  assert (RT [] 0 l F (d1 <| lInProgress := false |>)) as I3 by (txonly; done).
  set (d2 := if bk then _ else _). assert (RT [] 0 l F d2) as I4 by (unfold d2; destruct bk; [by apply kick_TxVq_inv|done]). clearbody d2.
  apply rest_intro in I4. destruct br; [by apply HRx|by apply post_ok].
Qed.

Lemma TxVqProcess_inv F d : R0 F d -> post (VIOSockTxVqProcess fuel RxVqProcess d) (R0 F).
Proof.
  intros I%rest_elim. unfold VIOSockTxVqProcess. eapply post_bind; [eapply (TxTakeAll_inv _ _ []); exact I|].
  intros [ps d1] I1. apply TxDequeue_inv. eapply rest_intro. apply TxFree_inv. apply TxComplete_inv. exact I1.
Qed.

(** Queueing an entry. *)
Lemma rest_queue F d e d' : R0 F d -> entry_ok e -> same_rx d d' ->
  tx_part d' = (TxVq d, TxBitmap d, TxPktVA d, TxList d ++ [e], if tx_reply e then s32 (TxQueuedReply d + 1) else TxQueuedReply d) -> R0 F d'.
Proof.
  intros I%rest_elim He Hs Ht. apply (rest_intro (TxList d ++ [e])). eapply rt_tx; [exact Hs| |exact I]. rewrite Ht. unfold tx_part. cbn.
  intros ((E1 & E2 & E3) & Hva & L & HL). split_and!; try done; [| |by exists L].
  - rewrite replies_app, replies_cons. destruct (tx_reply e); [rewrite E2, s32_add|rewrite E2]; f_equal; change (replies []) with 0; lia.
  - apply Forall_app. split; [done|]. by constructor.
Qed.

Lemma SendResetNoSock_inv F d h : R0 F d -> post (VIOSockSendResetNoSock fuel RxVqProcess d h) (fun '(_, d') => R0 F d').
Proof.
  intros I. unfold VIOSockSendResetNoSock. destruct (_ =? _); [by apply post_ok|]. destruct (negb _); [by apply post_ok|].
  eapply post_bind; [apply TxVqProcess_inv|intros d1 I1; by apply post_ok]. set (e := mk_tx _ _ _ _ _ _ _ _ _ _ _). by apply (rest_queue F d e); [| |repeat split|].
Qed.

Lemma TxInsertTail_inv F d e : R0 F d -> entry_ok e -> R0 F (VIOSockTxInsertTail d e).
Proof.
  intros I He. unfold VIOSockTxInsertTail. destruct (tx_reply e) eqn:E; (eapply rest_queue; [exact I|exact He|by repeat split|unfold tx_part; cbn; by rewrite E]).
Qed.
End calls.
End tx.

(** ** Loopback connections *)

Section loopback.
Context {Q : Type} `{AsyncQueueLaws Q} `{W : WdfEnv (DEVICE_CONTEXT Q)}.
Abbreviation dev := (DEVICE_CONTEXT Q).
Context (P : list Z) (B : list cbref) (T : Q * list bool * Z * list VIOSOCK_TX_ENTRY * Z -> Prop).
Abbreviation RI := (rx_inv P B T).
Implicit Types (d : dev) (F : list Z).
Context (fuel : nat) (TxEnqueue : dev -> Z -> Z -> Z -> bool -> option (Z * Z) -> res (Z * dev)).
Context (HTx : forall F d s op fl reply, RI F d -> post (TxEnqueue d s op fl reply None) (fun '(_, d') => RI F d')).

Ltac sent H := eapply post_bind; [eapply H; eauto 10 with vpost|]; intros [? ?] ?.

Lemma LoopbackAcceptEnqueue_inv F d l c : RI F d -> post (VIOSockLoopbackAcceptEnqueue TxEnqueue d l c) (fun '(_, d') => RI F d').
Proof.
  intros I. unfold VIOSockLoopbackAcceptEnqueue. set (d1 := AcceptPendedAdd d l 1). assert (RI F d1) as I1 by (unfold d1; auto with vpost). clearbody d1.
  destruct (_ <? _); [apply post_ok; auto with vpost|].
  set (x := if _ =? 1 then _ else _). assert (RI F x.2) as I2.
  { unfold x. destruct (_ =? 1); [|done]. pose proof (PendedGet_inv P B T F d1 l I1). by destruct (VIOSockPendedRequestGetLocked d1 l) as [[]]. }
  clearbody x. destruct x as [[r|] d2]; cbn [snd] in I2.
  - eapply post_bind; [eapply AcceptInitSocket_inv; eauto 10 with vpost|]. intros [st d3] I3. apply post_ok. auto with vpost.
  - destruct (NT_SUCCESS _); apply post_ok; auto with vpost.
Qed.

Lemma LoopbackConnect_inv F d s : RI F d -> post (VIOSockLoopbackConnect TxEnqueue d s) (fun '(_, d') => RI F d').
Proof.
  intros I. unfold VIOSockLoopbackConnect. destruct (VIOSockBoundFindByPort _ _); [|by apply post_ok].
  destruct (bool_decide _); [by apply LoopbackAcceptEnqueue_inv|by apply post_ok].
Qed.

Lemma LoopbackHandleConnecting_inv F d l s op b : RI F d -> post (VIOSockLoopbackHandleConnecting TxEnqueue d l s op b) (fun '(_, d') => RI F d').
Proof.
  intros I. unfold VIOSockLoopbackHandleConnecting. pose proof (PendedGet_inv P B T F d l I) as I1.
  destruct (VIOSockPendedRequestGetLocked d l) as [[st0 pr0] d1]. cbn [snd] in I1.
  set (x := if NT_SUCCESS st0 then _ else _). assert (RI F x.2) as I2.
  { unfold x. destruct (NT_SUCCESS st0); [|done]. destruct (_ && _); [done|]. destruct (_ =? _); [destruct b; cbn [snd]; auto 10 with vpost|].
    destruct (_ =? _); [|by destruct (_ =? _)]. destruct pr0 as [r|]; [|done]. unfold VIOSockPendedRequestSetResumeLocked.
    call (PendedSet_inv P B T F d1 l r 0 true I1). done. }
  clearbody x. destruct x as [[st pr] d2]. cbn [snd] in I2. eapply post_bind with (Φ := RI F).
  - destruct (negb _); [|by apply post_ok]. destruct (_ =? _); [apply post_ok; auto with vpost|]. unfold VIOSockSendReset. sent HTx. by apply post_ok.
  - intros d3 I3. apply post_ok. destruct pr; auto with vpost.
Qed.

Lemma LoopbackHandleConnected_inv F d l op fl r n b : RI F d -> post (VIOSockLoopbackHandleConnected fuel TxEnqueue d l op fl r n b) (fun '(_, d') => RI F d').
Proof.
  intros I. unfold VIOSockLoopbackHandleConnected. destruct (_ =? _).
  { call (RequestEnqueueCb_inv P B T F d l (default 0 r) n I). destruct (NT_SUCCESS _); [|by apply post_ok].
    eapply post_bind; [eapply ReadProcessDequeueCb_inv; eauto with vpost|]. intros d2 I2. by apply post_ok. }
  destruct (_ =? _); [apply post_ok; destruct b; auto with vpost|]. destruct (_ =? _).
  { eapply post_bind; [eapply ShutdownFromPeer_inv; eauto|]. intros [b1 d1] I1. destruct (_ && _); [|by apply post_ok]. unfold VIOSockSendReset.
    sent HTx. apply post_ok. auto with vpost. }
  destruct (_ =? _); apply post_ok; auto with vpost.
Qed.

Lemma LoopbackTxEnqueue_inv F d s op fl r n : RI F d -> post (VIOSockLoopbackTxEnqueue fuel TxEnqueue d s op fl r n) (fun '(_, d') => RI F d').
Proof.
  intros I. unfold VIOSockLoopbackTxEnqueue. destruct (negb _); [by apply post_ok|]. call (GetCredit_inv P B T F d s n I).
  destruct (_ && _); [by apply post_ok|]. destruct (LoopbackSocket _) as [l|]; [|destruct (_ =? _); [by apply LoopbackConnect_inv|by apply post_ok]].
  unfold VIOSockLoopbackTxSpaceUpdate. set (d2 := upd_sock (upd_sock _ _ _) _ _). assert (RI F d2) as I2 by (unfold d2; auto with vpost). clearbody d2.
  eapply (post_bind _ _ (fun '(_, d') => RI F d')).
  - destruct (State _); [by apply post_ok|by apply LoopbackHandleConnecting_inv|by apply LoopbackHandleConnected_inv| |by apply post_ok].
    apply post_ok. unfold VIOSockLoopbackHandleDisconnecting. destruct (_ =? _); auto with vpost.
  - intros [st d3] I3. apply post_ok. destruct (NT_SUCCESS st); auto with vpost.
Qed.
End loopback.

(** ** The queue *)

Section enqueue.
Context {Q : Type} `{AsyncQueueLaws Q} `{W : WdfEnv (DEVICE_CONTEXT Q)}.
Abbreviation dev := (DEVICE_CONTEXT Q).
Context (P : list Z) (B : list cbref).
Abbreviation R0 := (rx_inv P B tx_rest).
Implicit Types (d : dev) (F : list Z).
Context (fuel : nat) (RxVqProcess : dev -> res dev) (TxEnqueue : dev -> Z -> Z -> Z -> bool -> option (Z * Z) -> res (Z * dev)).
Context (HRx : forall F d, R0 F d -> post (RxVqProcess d) (R0 F)).
Context (HTx : forall F d s op fl reply, R0 F d -> post (TxEnqueue d s op fl reply None) (fun '(_, d') => R0 F d')).

Lemma rest_timer F d t : R0 F d -> R0 F (d <| TxTimer := t |>).
Proof. intros I. eapply rx_inv_other; [| |exact I]; [by repeat split|done]. Qed.

Lemma TxEnqueue_inv F d s op fl reply r : R0 F d -> (reply = true -> r = None) ->
  post (VIOSockTxEnqueue fuel RxVqProcess TxEnqueue d s op fl reply r) (fun '(_, d') => R0 F d').
Proof.
  intros I Hr. unfold VIOSockTxEnqueue. destruct (IsLoopbackSocket _); [by apply LoopbackTxEnqueue_inv|]. destruct (negb _); [by apply post_ok|].
  cbn [tx_len]. call (GetCredit_inv P B tx_rest F d s (default 0 (snd <$> r)) I). destruct (_ && _); [by apply post_ok|].
  assert (Hgo : forall d e (st : Z), R0 F d -> entry_ok e -> post (d' ← VIOSockTxVqProcess fuel RxVqProcess (VIOSockTxInsertTail d e); Ok (st, d')) (fun '(_, d') => R0 F d')).
  { intros d1 e st I1 He. eapply post_bind; [eapply TxVqProcess_inv; [exact HRx|by apply TxInsertTail_inv]|]. intros d2 I2. by apply post_ok. }
  destruct r as [[r n]|]; [|by apply Hgo]. destruct reply; [by specialize (Hr eq_refl)|]. destruct (negb _); [apply post_ok; auto with vpost|].
  destruct (_ =? _); cbn; apply Hgo; try done. by apply rest_timer.
Qed.

Lemma entries_filter (f : VIOSOCK_TX_ENTRY -> Prop) `{forall e, Decision (f e)} l : Forall entry_ok l -> Forall entry_ok (filter f l).
Proof. rewrite !Forall_forall. intros Hl e [_ He]%list_elem_of_filter. by apply Hl. Qed.

(** A write is not counted as a reply. *)
Lemma replies_drop_request r l : Forall entry_ok l -> replies (filter (fun x => tx_Request x <> Some r) l) = replies l.
Proof.
  induction 1 as [|e l He Hl IH]; [done|]. rewrite replies_cons. destruct (decide (tx_Request e = Some r)) as [E|E].
  - rewrite filter_cons_False by naive_solver. rewrite IH. destruct (tx_reply e) eqn:Ey; [by destruct (He Ey); congruence|lia].
  - rewrite filter_cons_True by done. by rewrite replies_cons, IH.
Qed.

Lemma rest_list F d l qr : R0 F d -> Forall entry_ok l -> qr = s32 (replies l) -> R0 F (d <| TxList := l |> <| TxQueuedReply := qr |>).
Proof.
  intros I%rest_elim Hl E. apply (rest_intro P B l). apply (rt_queue P B [] 0 (TxList d)); [exact I| |done]. by rewrite Z.add_0_r.
Qed.

Lemma rest_facts F d : R0 F d -> Forall entry_ok (TxList d) /\ TxQueuedReply d = s32 (replies (TxList d)).
Proof.
  intros I%rest_elim. pose proof (ri_tx _ _ _ _ _ I) as T. unfold tx_part in T. cbn in T. destruct T as ((E1 & E2 & E3) & _). split; [done|]. by rewrite E2, Z.add_0_r.
Qed.

Lemma TxEnqueueCancel_inv F d r e : R0 F d -> R0 F (VIOSockTxEnqueueCancel d r e).
Proof.
  intros I. destruct (rest_facts F d I) as [HE HQ]. unfold VIOSockTxEnqueueCancel. apply completeRequest_inv.
  set (l := filter _ _). assert (R0 F (d <| TxList := l |>)) as I1.
  { eapply (rx_inv_other P B _ F (d <| TxList := l |> <| TxQueuedReply := TxQueuedReply d |>)); [by repeat split|done|]. apply rest_list; [done| |].
    - unfold l. by apply entries_filter.
    - unfold l. by rewrite replies_drop_request, HQ. }
  assert (R0 F (VIOSockTxPutCredit (d <| TxList := l |>) (WdfRequestGetFileObject r) (tx_len e))) as I2 by auto with vpost.
  destruct (truth _); [by apply rest_timer|done].
Qed.

Lemma replies_split (f : VIOSOCK_TX_ENTRY -> bool) l : replies (filter (fun e => f e = true) l) + replies (filter (fun e => f e = false) l) = replies l.
Proof.
  induction l as [|e l IH]; [done|]. rewrite replies_cons. destruct (f e) eqn:E.
  - rewrite filter_cons_True, replies_cons by done. rewrite filter_cons_False by congruence. lia.
  - rewrite filter_cons_False by congruence. rewrite filter_cons_True, replies_cons by done. lia.
Qed.

(** Closing a socket takes its entries out of the queue and its replies out of the count. *)
Lemma TxCleanup_inv F d s st : R0 F d -> post (VIOSockTxCleanup RxVqProcess d (Some s) st) (R0 F).
Proof.
  intros I. destruct (rest_facts F d I) as [HE HQ]. unfold VIOSockTxCleanup. rewrite (bool_decide_true (is_Some (Some s))), andb_true_r by done.
  set (out := filter (fun e => VIOSockTxCleanupTakes d (Some s) e = true) _). set (stay := filter (fun e => VIOSockTxCleanupTakes d (Some s) e = false) _). set (t := foldl _ (TxTimer d) out). clearbody t.
  assert (replies out + replies stay = replies (TxList d)) as Hs by apply replies_split.
  assert (Forall entry_ok stay) as Hstay by (by apply entries_filter). fold (replies out). clearbody out stay.
  set (x := if truth _ then _ else _). assert (R0 F x.2) as I1.
  { unfold x. destruct (truth (replies out)) eqn:Et; cbn [snd].
    - apply (rx_inv_other P B _ F (d <| TxList := stay |> <| TxQueuedReply := s32 (TxQueuedReply d - replies out) |> <| TxTimer := t |>)); [by repeat split|done|].
      apply rest_timer, rest_list; [done|done|]. rewrite HQ, <- Z.add_opp_r, s32_add. f_equal. lia.
    - apply (rx_inv_other P B _ F (d <| TxList := stay |> <| TxQueuedReply := TxQueuedReply d |> <| TxTimer := t |>)); [by repeat split|done|].
      apply rest_timer, rest_list; [done|done|]. rewrite HQ. f_equal. unfold truth in Et. lia. }
  clearbody x. destruct x as [b d1]. cbn [snd] in I1. set (d2 := foldl _ d1 out). assert (R0 F d2) as I2.
  { unfold d2. clear -I1. revert d1 I1. induction out as [|e out IH]; intros d1 I1; [done|]. cbn. apply IH. destruct (tx_Request e); auto with vpost. }
  destruct b; [by apply HRx|by apply post_ok].
Qed.

Lemma Write_inv F d r n : R0 F d -> post (VIOSockWrite fuel RxVqProcess TxEnqueue d r n) (R0 F).
Proof.
  intros I. unfold VIOSockWrite. destruct (VIOSockIsFlag _ _); [apply post_ok; auto with vpost|]. destruct (negb _); [apply post_ok; auto with vpost|].
  eapply (post_bind _ _ (fun '(_, d') => R0 F d')).
  - destruct (_ || _); [by apply TxEnqueue_inv|by apply post_ok].
  - intros [st d1] I1. apply post_ok. destruct (NT_SUCCESS st); auto with vpost.
Qed.
End enqueue.
