(* ===== verification/VioSockSystemSpec.v ===== *)
(** * viosock: the invariant of the driver

    The entry points of the driver as the steps of a transition system, interleaved with
    the device, and the invariant they all preserve: no receive packet and no pool buffer is
    lost, duplicated or owned twice, whatever the peer sends, the application asks and the
    framework answers.  The last part proves the laws of the queues for the split ring and
    runs the driver over it with conforming devices. *)

From Stdlib Require Import ZArith Lia.
From stdpp Require Import base list numbers option gmap relations.
From S2P Require Import Prelude.
From S2P Require Import Virtio.
From S2P Require Import SplitRing.
From S2P Require Import SplitRingSpec.
From S2P Require Import SplitSystem.
From S2P Require Import VirtQueue.
From S2P Require Import SplitQueue.
From S2P Require Import VioSock.
From S2P Require Import VioSockRx.
From S2P Require Import VioSockTx.
From S2P Require Import VioSockSystem.
From S2P Require Import VioSockSpec.
From S2P Require Import VioSockInv.
From S2P Require Import VioSockRxSpec.
From S2P Require Import VioSockTxSpec.

Section system.
Context {Q : Type} `{AsyncQueueLaws Q} `{W : WdfEnv (DEVICE_CONTEXT Q)}.
Abbreviation dev := (DEVICE_CONTEXT Q).
Context (P : list Z) (B : list cbref).
Abbreviation R0 := (rx_inv P B tx_rest).
Implicit Types (d : dev) (F : list Z).
Context (fuel : nat).

(** ** The two paths together *)

Lemma nested_inv n :
  (forall F d, R0 F d -> post (c_RxVqProcess (nested_calls fuel n) d) (R0 F)) /\
  (forall F d s op fl reply r, R0 F d -> (reply = true -> r = None) ->
     post (c_TxEnqueue (nested_calls fuel n) d s op fl reply r) (fun '(_, d') => R0 F d')).
Proof.
  induction n as [|n [IR IT]]; [split; intros; apply post_fault|]. cbn [nested_calls next_calls c_RxVqProcess c_TxEnqueue]. split.
  - intros F d I. eapply RxVqProcess_inv; [|intros; by apply SendResetNoSock_inv|done]. intros. by apply IT.
  - intros F d s op fl reply r I Hr. apply TxEnqueue_inv; [done| |done|done]. intros. by apply IT.
Qed.

Context (n : nat).
Let RxVqProcess : dev -> res dev := c_RxVqProcess (nested_calls fuel n).
Let TxEnqueue : dev -> Z -> Z -> Z -> bool -> option (Z * Z) -> res (Z * dev) := c_TxEnqueue (nested_calls fuel n).

Lemma HRx F d : R0 F d -> post (RxVqProcess d) (R0 F).
Proof. apply nested_inv. Qed.
Lemma HTx F d s op fl reply : R0 F d -> post (TxEnqueue d s op fl reply None) (fun '(_, d') => R0 F d').
Proof. intros. by apply nested_inv. Qed.

Ltac sent H := eapply post_bind; [eapply H; eauto 10 with vpost|]; intros [? ?] ?.

(** ** Requests *)

Lemma Bind_inv F d s st a : R0 F d -> R0 F (VIOSockBind d s st a).2.
Proof. intros I. unfold VIOSockBind. repeat (case_match; [done|]). by apply BoundAdd_inv. Qed.

Lemma Listen_inv F d s st b : R0 F d -> R0 F (VIOSockListen d s st b).2.
Proof. intros I. unfold VIOSockListen. repeat case_match; cbn [snd]; auto with vpost. Qed.

Lemma Connect_inv F d s r st a : R0 F d -> post (VIOSockConnect fuel n d s r st a) (fun '(_, d') => R0 F d').
Proof.
  intros I. unfold VIOSockConnect. do 3 (destruct (negb _); [by apply post_ok|]).
  set (x := if VIOSockIsBound _ then _ else _). assert (R0 F x.2) as I1 by (unfold x; case_match; [done|by apply BoundAdd_inv]).
  clearbody x. destruct x as [st1 d1]. cbn [snd] in I1. destruct (negb _); [by apply post_ok|].
  set (d2 := (VIOSockStateSet _ _ _).2). assert (R0 F d2) as I2 by (unfold d2; auto 10 with vpost). clearbody d2. clear dependent d1.
  set (x := if VIOSockIsNonBlocking _ then _ else _). assert (R0 F x.2) as I3 by (unfold x; case_match; [done|by apply PendedSet_inv]).
  clearbody x. destruct x as [st2 d3]. cbn [snd] in I3. destruct (_ && _); [apply post_ok; auto with vpost|].
  set (d4 := upd_sock d3 s _). assert (R0 F d4) as I4 by (apply rx_inv_sock; [by case_match|done]). clearbody d4.
  unfold VIOSockSendConnect. sent HTx. destruct (negb _); [|by apply post_ok].
  set (d5 := (VIOSockStateSet _ _ _).2). assert (R0 F d5) as I5 by (unfold d5; auto with vpost). clearbody d5.
  destruct (VIOSockIsNonBlocking _); [by apply post_ok|]. pose proof (PendedGet_inv P B tx_rest F d5 s I5).
  destruct (VIOSockPendedRequestGetLocked d5 s) as [[]]. by apply post_ok.
Qed.

Lemma Shutdown_inv F d s st how : R0 F d -> post (VIOSockShutdown fuel n d s st how) (fun '(_, d') => R0 F d').
Proof.
  intros I. unfold VIOSockShutdown. destruct (negb _); [by apply post_ok|]. destruct (_ || _); [by apply post_ok|].
  destruct (NT_SUCCESS _); [|by apply post_ok]. unfold VIOSockSendShutdown. apply HTx. auto with vpost.
Qed.

Lemma SetNonBlocking_inv F d s b : R0 F d -> post (VIOSockSetNonBlocking fuel n d s b) (fun '(_, d') => R0 F d').
Proof.
  intros I. unfold VIOSockSetNonBlocking. eapply post_bind with (Φ := R0 F); [|intros d1 I1; by apply post_ok].
  destruct (VIOSockIsFlag _ _); [apply post_ok; auto with vpost|]. eapply post_bind; [eapply TxCleanup_inv; [exact HRx|eauto with vpost]|].
  intros d1 I1. eapply ReadProcessDequeueCb_inv; [apply HTx|done].
Qed.

Lemma UpdateBufferSize_inv F d s v : R0 F d -> post (VIOSockRxUpdateBufferSize fuel n d s v) (R0 F).
Proof.
  intros I. unfold VIOSockRxUpdateBufferSize. destruct (_ =? _); [by apply post_ok|]. unfold VIOSockSendCreditUpdate. sent HTx. by apply post_ok.
Qed.

Lemma SetSockOpt_inv F d s o v : R0 F d -> post (VIOSockSetSockOpt fuel n d s o v) (fun '(_, d') => R0 F d').
Proof.
  intros I. unfold VIOSockSetSockOpt. assert (Hneed : forall m x, post m (R0 F) ->
    post (if zlen v <? x then Ok (STATUS_INVALID_PARAMETER, d) else d' ← m; Ok (STATUS_SUCCESS, d')) (fun '(_, d') => R0 F d')).
  { intros m x Hm. destruct (_ <? _); [by apply post_ok|]. eapply post_bind; [done|]. intros d1 I1. by apply post_ok. }
  repeat (case_match; [try (by apply post_ok); apply Hneed|]); try (by apply post_ok).
  all: try (apply UpdateBufferSize_inv); try (apply post_ok); auto with vpost.
  apply rx_inv_sock; [|done]. unfold VIOSockSetLinger. by case_match.
Qed.

(** The close keeps the invariant if what happens while it waits does. *)
Lemma Cleanup_inv F d s world : R0 F d -> (forall d, R0 F d -> R0 F (world d)) -> post (VIOSockCleanup fuel n world d s) (R0 F).
Proof.
  intros I HW. unfold VIOSockCleanup. destruct (VIOSockIsFlag _ _); [by apply post_ok|].
  eapply post_bind with (Φ := R0 F).
  - assert (R0 F (VIOSockBoundRemove d s)) as I1 by auto with vpost. set (d1 := VIOSockBoundRemove d s) in *. clearbody d1.
    unfold VIOSockSendReset, VIOSockSendShutdown. destruct (_ || _); [|by apply post_ok]. destruct (_ =? _).
    + destruct (bool_decide _); [|by apply post_ok]. sent HTx. by apply post_ok.
    + eapply post_bind with (Φ := R0 F).
      * destruct (_ =? _); [by apply post_ok|]. sent HTx. by apply post_ok.
      * intros d2 I2. destruct (CloseEvent _); [apply post_ok; auto|]. sent HTx. apply post_ok. auto with vpost.
  - clear d I. intros d I. call (StateSet_inv P B tx_rest F d s VIOSOCK_STATE_CLOSE I). rename v into pst, d0 into d1.
    pose proof (PendedGet_inv P B tx_rest F d1 s I0) as I1. destruct (VIOSockPendedRequestGetLocked d1 s) as [[st r] d2]. cbn [snd] in I1.
    set (d3 := upd_sock _ _ _). assert (R0 F d3) as I3 by (unfold d3; destruct r; auto with vpost). clearbody d3.
    destruct (bool_decide _); [apply post_ok; auto with vpost|]. eapply post_bind; [eapply TxCleanup_inv; [exact HRx|exact I3]|].
    intros d4 I4. destruct (ReadCleanupCb_inv P B tx_rest F d4 s I4) as (d5 & -> & I5). by apply post_ok.
Qed.

(** A socket is created on a handle that is not in use. *)
Lemma Create_inv F d s r pr : R0 F d -> RxCbList (sock d s) = [] -> post (VIOSockCreate fuel n d s r pr) (fun '(_, d') => R0 F d').
Proof.
  intros I El. unfold VIOSockCreate. set (d1 := upd_sock d s _). assert (R0 F d1) as I1 by (unfold d1; auto with vpost).
  assert (RxCbList (sock d1 s) = []) as El1 by (unfold d1; by rewrite sock_upd). clearbody d1. clear dependent d.
  destruct pr as [| |st ty l]; [apply post_ok; auto with vpost|by apply post_ok|]. destruct (negb _); [by apply post_ok|].
  set (d2 := upd_sock d1 s _). assert (R0 F d2) as I2 by (by apply rx_inv_sock). clearbody d2.
  destruct l as [l|]; [apply Accept_inv; [apply HTx|done]|]. destruct (negb _); apply post_ok; auto with vpost.
Qed.

(** ** The event queue and the interrupt *)

Ltac other := eapply rx_inv_other; [| |eassumption]; [by repeat split|done].

Lemma EvtPktInsert_inv F d p : R0 F d -> post (VIOSockEvtPktInsert d p) (fun '(_, d') => R0 F d').
Proof. intros I. unfold VIOSockEvtPktInsert. apply (post_bind _ _ (fun _ => True)); [done|]. intros [ret q] _. apply post_ok. other. Qed.

Lemma EvtTake_inv F z m d b : R0 F d -> post (VIOSockEvtTake z m d b) (fun '(_, d') => R0 F d').
Proof.
  revert d b. induction m as [|m IH]; intros d b I; [apply post_fault|]. cbn [VIOSockEvtTake]. apply (post_bind _ _ (fun _ => True)); [done|].
  intros [o q] _. assert (R0 F (d <| EvtVq := q |>)) as I1 by other. destruct o as [[p len]|]; [|by apply post_ok].
  set (hit := _ && _). set (d2 := if hit then _ else _). assert (R0 F d2) as I2 by (unfold d2; destruct hit; [other|done]). clearbody d2 hit.
  eapply post_bind; [by apply EvtPktInsert_inv|]. intros [b' d3] I3. by apply IH.
Qed.

Lemma EvtTakeAll_inv F z m d b : R0 F d -> post (VIOSockEvtTakeAll fuel z m d b) (fun '(_, d') => R0 F d').
Proof.
  revert d b. induction m as [|m IH]; intros d b I; cbn [VIOSockEvtTakeAll].
  all: assert (R0 F (d <| EvtVq := vsq_disable_cb (EvtVq d) |>)) as I0 by other; eapply post_bind; [by apply EvtTake_inv|]; intros [b1 d1] I1.
  all: apply (post_bind _ _ (fun _ => True)); [done|]; intros [b2 q] _; assert (R0 F (d1 <| EvtVq := q |>)) as I2 by other.
  all: destruct b2; cbn [negb]; [by apply post_ok|].
  - apply post_fault.
  - by apply IH.
Qed.

Lemma TransportReset_inv F m d : R0 F d -> post (VIOSockHandleTransportReset m d) (R0 F).
Proof.
  revert d. induction m as [|m IH]; intros d I; cbn [VIOSockHandleTransportReset]; destruct (ConnectedList d); auto with vpost.
Qed.

Lemma InterruptDpc_inv F z c d : R0 F d -> post (VIOSockInterruptDpc fuel n z c d) (R0 F).
Proof.
  intros I. unfold VIOSockInterruptDpc, VIOSockEvtVqProcess. eapply post_bind with (Φ := R0 F).
  - eapply post_bind; [by apply EvtTakeAll_inv|]. intros [[] d1] I1; [|by apply post_ok]. apply TransportReset_inv. other.
  - intros d1 I1. eapply post_bind; [by apply HRx|]. intros d2 I2. apply TxVqProcess_inv; [apply HRx|done].
Qed.

(** ** Timers and cancellations *)

Lemma PendedTimerFunc_inv F d s : R0 F d -> R0 F (VIOSockPendedTimerFunc d s).
Proof.
  intros I. unfold VIOSockPendedTimerFunc. pose proof (PendedGet_inv P B tx_rest F d s I) as I1.
  destruct (VIOSockPendedRequestGetLocked d s) as [[st [r|]] d1]; cbn [snd] in I1; [|done]. destruct (NT_SUCCESS st); auto with vpost.
Qed.

Lemma ReadIoCanceled_inv F d s r : R0 F d -> R0 F (VIOSockReadIoCanceledOnQueue d s r).
Proof. intros I. unfold VIOSockReadIoCanceledOnQueue. destruct (negb _); auto with vpost. Qed.

Lemma Read_inv F d r : R0 F d -> R0 F (VIOSockRead d r).
Proof.
  intros I. unfold VIOSockRead. destruct (VIOSockIsFlag _ _); [auto with vpost|]. call (ReadForward_inv P B tx_rest F d (WdfRequestGetFileObject r) r 0 I).
  destruct (NT_SUCCESS _); auto with vpost.
Qed.

Lemma ReadWithFlags_inv F d r st fl : R0 F d -> R0 F (VIOSockReadWithFlags d r st fl).2.
Proof.
  intros I. unfold VIOSockReadWithFlags. destruct (NT_SUCCESS _); [|done]. by call (ReadForward_inv P B tx_rest F d (WdfRequestGetFileObject r) r fl I).
Qed.

(** One entry in the pass of the transmit timer: replies stay. *)
Lemma TxTimerStep_ok d x e : entry_ok e ->
  let '(kept, _, _, _, _) := x in let '(kept', _, _, _, _) := VIOSockTxTimerStep d x e in
  (Forall entry_ok kept -> Forall entry_ok kept') /\ replies kept' = replies kept + (if tx_reply e then 1 else 0).
Proof.
  intros He. destruct x as [[[[kept dn] t] m] o]. unfold VIOSockTxTimerStep.
  assert (Hdrop : truth (tx_Timeout e) = true -> tx_reply e = false).
  { intros Ht. destruct (tx_reply e) eqn:Ey; [|done]. destruct (He Ey) as [_ E]. by rewrite E in Ht. }
  assert (Hkeep : forall e', entry_ok e' -> tx_reply e' = tx_reply e -> (Forall entry_ok kept -> Forall entry_ok (kept ++ [e'])) /\
    replies (kept ++ [e']) = replies kept + (if tx_reply e then 1 else 0)).
  { intros e' He' Ey. split; [intros; apply Forall_app; auto|]. rewrite replies_app, replies_cons, Ey. change (replies []) with 0. lia. }
  destruct (truth (tx_Timeout e)) eqn:Et; [|by apply Hkeep]. rewrite (Hdrop eq_refl), Z.add_0_r in *.
  destruct (_ <=? _); [by destruct (tx_Request e); [destruct (NT_SUCCESS _)|]|]. apply Hkeep.
  - unfold entry_ok. cbn. by rewrite (Hdrop eq_refl).
  - by cbn; apply Hdrop.
Qed.

Lemma TxTimerFold_ok d l x : Forall entry_ok l ->
  let '(kept, _, _, _, _) := x in let '(kept', _, _, _, _) := foldl (VIOSockTxTimerStep d) x l in
  (Forall entry_ok kept -> Forall entry_ok kept') /\ replies kept' = replies kept + replies l.
Proof.
  intros Hl. revert x. induction Hl as [|e l He Hl IH]; intros x; cbn [foldl].
  - destruct x as [[[[kept dn] t] m] o]. change (replies []) with 0. split; [done|lia].
  - pose proof (TxTimerStep_ok d x e He) as H1. specialize (IH (VIOSockTxTimerStep d x e)). rewrite replies_cons.
    destruct x as [[[[kept dn] t] m] o], (VIOSockTxTimerStep d _ e) as [[[[kept1 dn1] t1] m1] o1], (foldl _ _ _) as [[[[kept2 dn2] t2] m2] o2].
    destruct H1 as [H1 E1], IH as [H2 E2]. split; [auto|lia].
Qed.

Lemma TxTimerFunc_inv F d : R0 F d -> R0 F (VIOSockTxTimerFunc d).
Proof.
  intros I. destruct (rest_facts P B F d I) as [HE HQ]. unfold VIOSockTxTimerFunc.
  pose proof (TxTimerFold_ok d (TxList d) ([], [], TxTimer d, TxEnqueued d, None) HE) as Hk.
  destruct (foldl _ _ _) as [[[[kept dn] t] m] o]. destruct Hk as [Hk Er]. specialize (Hk (Forall_nil_2 _)). change (replies []) with 0 in Er.
  set (d1 := d <| TxList := kept |> <| TxTimer := t |> <| TxEnqueued := m |>). assert (R0 F d1) as I1.
  { apply (rx_inv_other P B _ F (d <| TxList := kept |> <| TxQueuedReply := TxQueuedReply d |>)); [by repeat split|done|]. apply rest_list; [done|done|].
    rewrite HQ, Er. done. }
  set (d2 := match o with Some _ => _ | None => d1 end). assert (R0 F d2) as I2 by (unfold d2; destruct o; [by apply rest_timer|done]). clearbody d2.
  clear -I2. revert d2 I2. induction dn as [|r dn IH]; intros d2 I2; [done|]. cbn. apply IH. auto with vpost.
Qed.

(** ** The device *)

Lemma device_fill_inv F d p c h data : R0 F d -> p ∈ P -> is_pool c = true ->
  R0 F (upd_cb (upd_pkt d p (fun x => x <| Header := h |>)) c (fun x => x <| cb_data := data |>)).
Proof. intros I Hp Hc. apply rx_inv_cb; [done|by left|]. by apply rx_inv_pkt. Qed.

Lemma device_tx_inv F d q : R0 F d -> (forall L, vsq_live (TxVq d) L -> vsq_live q L) -> R0 F (d <| TxVq := q |>).
Proof.
  intros I%rest_elim Hq. destruct (rt_ring P B _ _ _ _ _ I) as (L & HL & HI). eapply rest_intro, HI; [by apply Hq|done].
Qed.
End system.

(** ** The driver and the device as a transition system *)

Section steps.
Context {Q : Type} `{AsyncQueueLaws Q} `{W : WdfEnv (DEVICE_CONTEXT Q)}.
Abbreviation dev := (DEVICE_CONTEXT Q).
Implicit Types (d : dev).

(** [P], [B]: the receive packets and the pool buffers; [ring_step]: what the device does to a
    ring.  The device may fill packets and buffers at any time. *)
Context (P : list Z) (B : list cbref) (ring_step : Q -> Q -> Prop) (fuel n : nat).
Context (ring_step_live : forall q q' L, ring_step q q' -> vsq_live q L -> vsq_live q' L).
Let RxVqProcess : dev -> res dev := c_RxVqProcess (nested_calls fuel n).
Let TxEnqueue : dev -> Z -> Z -> Z -> bool -> option (Z * Z) -> res (Z * dev) := c_TxEnqueue (nested_calls fuel n).

(** Every entry point but the close of a handle. *)
Inductive vsock_step : dev -> dev -> Prop :=
  | st_interrupt z c d d' : VIOSockInterruptDpc fuel n z c d = Ok d' -> vsock_step d d'
  | st_write r len d d' : VIOSockWrite fuel RxVqProcess TxEnqueue d r len = Ok d' -> vsock_step d d'
  | st_read r d : vsock_step d (VIOSockRead d r)
  | st_read_flags r st fl d : vsock_step d (VIOSockReadWithFlags d r st fl).2
  | st_read_ready s d d' : VIOSockReadProcessDequeueCb TxEnqueue fuel d s = Ok d' -> vsock_step d d'
  | st_read_canceled s r d : vsock_step d (VIOSockReadIoCanceledOnQueue d s r)
  | st_write_canceled r e d : vsock_step d (VIOSockTxEnqueueCancel d r e)
  | st_loopback_canceled r d : vsock_step d (VIOSockRxRequestCancelCb d r)
  | st_tx_timer d : vsock_step d (VIOSockTxTimerFunc d)
  | st_pended_timer s d : vsock_step d (VIOSockPendedTimerFunc d s)
  | st_create s r pr x d d' : RxCbList (sock d s) = [] -> VIOSockCreate fuel n d s r pr = Ok (x, d') -> vsock_step d d'
  | st_bind s st a d : vsock_step d (VIOSockBind d s st a).2
  | st_listen s st b d : vsock_step d (VIOSockListen d s st b).2
  | st_connect s r st a x d d' : VIOSockConnect fuel n d s r st a = Ok (x, d') -> vsock_step d d'
  | st_shutdown s st how x d d' : VIOSockShutdown fuel n d s st how = Ok (x, d') -> vsock_step d d'
  | st_non_blocking s b x d d' : VIOSockSetNonBlocking fuel n d s b = Ok (x, d') -> vsock_step d d'
  | st_set_option s o v x d d' : VIOSockSetSockOpt fuel n d s o v = Ok (x, d') -> vsock_step d d'
  | st_device_rx q d : ring_step (RxVq d) q -> vsock_step d (d <| RxVq := q |>)
  | st_device_tx q d : ring_step (TxVq d) q -> vsock_step d (d <| TxVq := q |>)
  | st_device_fill p c h data d : p ∈ P -> is_pool c = true ->
      vsock_step d (upd_cb (upd_pkt d p (fun x => x <| Header := h |>)) c (fun x => x <| cb_data := data |>)).

(** The close of a handle waits while the others go on. *)
Inductive driver_step : dev -> dev -> Prop :=
  | st_step d d' : vsock_step d d' -> driver_step d d'
  | st_close s world d d' : (forall d, rtc vsock_step d (world d)) -> VIOSockCleanup fuel n world d s = Ok d' -> driver_step d d'.

Abbreviation inv := (rx_inv P B tx_rest []).

Lemma vsock_step_inv d d' : vsock_step d d' -> inv d -> inv d'.
Proof.
  destruct 1 as [z c d d' E|r len d d' E|r d|r st fl d|s d d' E|s r d|r e d|r d|d|s d|s r pr x d d' Hl E|s st a d|s st b d
                |s r st a x d d' E|s st how x d d' E|s b x d d' E|s o v x d d' E|q d Hq|q d Hq|p c h data d Hp Hc]; intros I.
  - exact (InterruptDpc_inv P B fuel n [] z c d I d' E).
  - exact (Write_inv P B fuel _ _ (HRx P B fuel n) (HTx P B fuel n) [] d r len I d' E).
  - by apply Read_inv.
  - by apply ReadWithFlags_inv.
  - exact (ReadProcessDequeueCb_inv P B tx_rest _ (HTx P B fuel n) [] fuel d s I d' E).
  - by apply ReadIoCanceled_inv.
  - by apply TxEnqueueCancel_inv.
  - by apply RequestCancelCb_inv.
  - by apply TxTimerFunc_inv.
  - by apply PendedTimerFunc_inv.
  - exact (Create_inv P B fuel n [] d s r pr I Hl (x, d') E).
  - by apply Bind_inv.
  - by apply Listen_inv.
  - exact (Connect_inv P B fuel n [] d s r st a I (x, d') E).
  - exact (Shutdown_inv P B fuel n [] d s st how I (x, d') E).
  - exact (SetNonBlocking_inv P B fuel n [] d s b I (x, d') E).
  - exact (SetSockOpt_inv P B fuel n [] d s o v I (x, d') E).
  - apply sock_rx_inv_queue; [|done]. intros L. by apply ring_step_live.
  - apply device_tx_inv; [done|]. intros L. by apply ring_step_live.
  - by apply device_fill_inv.
Qed.

Lemma driver_steps_inv d d' : rtc driver_step d d' -> inv d -> inv d'.
Proof.
  induction 1 as [|d d1 d' Hs _ IH]; intros I; [done|]. apply IH. destruct Hs as [d d2 Hs|s world d d2 HW E]; [by eapply vsock_step_inv|].
  refine (Cleanup_inv P B fuel n [] d s world I _ d2 E). intros d1 I1. specialize (HW d1). revert I1. induction HW; [done|]. intros I1.
  eauto using vsock_step_inv.
Qed.
End steps.

(** ** Setting up the queues *)

Section init.
Context {Q : Type} `{AsyncQueueLaws Q} `{W : WdfEnv (DEVICE_CONTEXT Q)}.
Abbreviation dev := (DEVICE_CONTEXT Q).
Implicit Types (d : dev).

(** The allocator of DMA memory returns NULL or a new block. *)
Definition alloc_fresh : Prop := forall d m, VirtIOWdfDeviceAllocDmaMemory d m <> 0 ->
  0 < VirtIOWdfDeviceAllocDmaMemory d m /\ Cbs d !! CbPool (VirtIOWdfDeviceAllocDmaMemory d m) = None.
Context (Halloc : alloc_fresh).

(** The pool while it is filled: contexts and free list. *)
Record pool_ok (cbs : gmap cbref VIOSOCK_RX_CB) (l : list cbref) : Prop := {
  po_nodup : NoDup l;
  po_pool : Forall (fun c => is_pool c = true) l;
  po_alive : forall c, c ∈ l -> is_Some (cbs !! c);
  po_cbs : forall c k, cbs !! c = Some k -> cb_Request k = match c with CbPool _ => None | CbRequest r => Some r end }.

Lemma CbAdd_ok d d' : pool_ok (Cbs d) (RxCbBuffers d) -> VIOSockRxCbAdd d = (true, d') ->
  exists cbs l, d' = d <| Cbs := cbs |> <| RxCbBuffers := l |> /\ pool_ok cbs l.
Proof.
  intros [P1 P2 P3 P4]. unfold VIOSockRxCbAdd. destruct (NT_SUCCESS _); [|done]. set (va := VirtIOWdfDeviceAllocDmaMemory _ _).
  destruct (Z.eqb_spec va 0) as [|Hva]; [done|]. destruct (_ =? 0); [done|]. destruct (Halloc d _ Hva) as [_ Hf]. fold va in Hf. clearbody va.
  intros [= <-]. eexists _, _. split; [reflexivity|]. cbn. split.
  - apply NoDup_cons. split; [|done]. intros Hin. by destruct (P3 _ Hin) as [k Hk]; congruence.
  - by constructor.
  - intros c [->|Hc]%elem_of_cons; [by rewrite lookup_insert_eq|]. destruct (decide (c = CbPool va)) as [->|]; [by rewrite lookup_insert_eq|rewrite lookup_insert_ne by done; auto].
  - intros c k [[<- <-]|[_ Hk]]%lookup_insert_Some; [done|by apply P4].
Qed.

Lemma CbAddAll_ok i d d' : pool_ok (Cbs d) (RxCbBuffers d) -> VIOSockRxCbAddAll i d = (true, d') ->
  exists cbs l, d' = d <| Cbs := cbs |> <| RxCbBuffers := l |> /\ pool_ok cbs l.
Proof.
  revert d. induction i as [|i IH]; intros d Hp; cbn [VIOSockRxCbAddAll].
  - intros [= <-]. exists (Cbs d), (RxCbBuffers d). by destruct d.
  - destruct (VIOSockRxCbAdd d) as [[] d1] eqn:E; [|done]. destruct (CbAdd_ok d d1 Hp E) as (cbs & l & -> & Hp1). intros E2.
    apply IH in E2 as (cbs2 & l2 & -> & Hp2); [|by cbn]. by exists cbs2, l2.
Qed.

Context (T : Q * list bool * Z * list VIOSOCK_TX_ENTRY * Z -> Prop).

Lemma RxFill_ok P B l d st d' : rx_inv P B T l d -> VIOSockRxFill l d = Ok (st, d') -> NT_SUCCESS st = true -> rx_inv P B T [] d'.
Proof.
  revert d. induction l as [|p l IH]; intros d I; cbn [VIOSockRxFill]; [by intros [= _ <-]|].
  destruct (PktInsert_ok P B T l d p I) as ([] & d1 & -> & I1 & _); cbn [mbind res_bind]; [by apply IH|]. by intros [= <- _].
Qed.

Lemma rx_pkt_array_ok va m : 0 < va -> NoDup (rx_pkt_array va m) /\ 0 ∉ rx_pkt_array va m.
Proof.
  intros Hva. unfold rx_pkt_array, sizeof_rx_pkt. split.
  - apply NoDup_fmap; [|apply NoDup_seq]. intros i j. lia.
  - intros (i & E & _)%list_elem_of_fmap. lia.
Qed.

(** A successful initialisation puts every packet on the ring. *)
Lemma RxVqInit_ok fuel st m d d' : vsq_live (RxVq d) [] -> sockets d = ∅ -> Cbs d = ∅ -> T (tx_part d) ->
  VIOSockRxVqInit fuel STATUS_SUCCESS m d = Ok (st, d') -> NT_SUCCESS st = true ->
  exists B, rx_inv (rx_pkt_array (RxPktVA d') m) B T [] d'.
Proof.
  intros HL Hs Hc HT. unfold VIOSockRxVqInit. cbn [negb]. change (NT_SUCCESS STATUS_SUCCESS) with true. cbn [negb].
  set (va := VirtIOWdfDeviceAllocDmaMemory _ _). destruct (Z.eqb_spec va 0) as [|Hva].
  { cbn. intros E Hst. apply bind_ok in E as (? & _ & [= <- _]). done. }
  destruct (Halloc _ _ Hva) as [Hpos _]. fold va in Hpos. clearbody va.
  set (d1 := (d <| RxPktList := [] |> <| RxPktNum := m |> <| RxPktVA := va |> <| RxPkts := _ |>)).
  destruct (VIOSockRxCbInit d1) as [[] d2] eqn:E2; cbn [mbind res_bind]; cycle 1.
  { cbn. intros E Hst. apply bind_ok in E as (? & _ & [= <- _]). done. }
  unfold VIOSockRxCbInit in E2. set (d1a := if _ <? _ then _ else _) in E2.
  destruct (VIOSockRxCbAddAll _ _) as [[] d1c] eqn:E3 in E2; [|done]. injection E2 as <-.
  apply CbAddAll_ok in E3 as (cbs & l & -> & Hp); cycle 1.
  { replace (Cbs (d1a <| RxCbBuffers := [] |>)) with (∅ : gmap cbref VIOSOCK_RX_CB) by (unfold d1a; destruct (_ <? _); by rewrite <- Hc).
    split; [constructor|constructor|by intros c Hcc%not_elem_of_nil|by intros c k Hk]. }
  set (d3 := _ <| RxPktPA := _ |>). intros E Hst. apply bind_ok in E as ([st' d4] & E4 & E). exists l.
  assert (rx_inv (rx_pkt_array va m) l T (rx_pkt_array va m) d3) as I3.
  { assert (Hd3 : RxVq d3 = RxVq d /\ RxPktList d3 = [] /\ RxPkts d3 = RxPkts d1 /\ RxCbBuffers d3 = l /\ Cbs d3 = cbs /\ sockets d3 = ∅ /\ tx_part d3 = tx_part d).
    { unfold d3, d1a. rewrite <- Hs. destruct (_ <? _); by split_and!. }
    destruct Hd3 as (D1 & D2 & D3 & D4 & D5 & D6 & D7). clearbody d3. pose proof (rx_pkt_array_ok va m Hpos) as HP.
    assert (Hb : forall p, Buffer (rx_pkt d3 p) = None).
    { intros p. unfold rx_pkt. rewrite D3. unfold d1. cbn. rewrite lookup_gset_to_gmap. by destruct (guard _). }
    split; try done.
    - exists []. rewrite D1, D2. split_and!; [done|done|]. by intros p Hpp%not_elem_of_nil.
    - rewrite D4. unfold sock_bufs, pkt_bufs. rewrite D6, map_to_list_empty. cbn. rewrite app_nil_r.
      replace ((fun p => option_list (Buffer (rx_pkt d3 p))) <$> rx_pkt_array va m) with ((fun _ : Z => @nil cbref) <$> rx_pkt_array va m).
      + clear -l. induction (rx_pkt_array va m) as [|p ps IH]; [by rewrite app_nil_r|done].
      + apply list_fmap_ext. intros i p _. by rewrite Hb.
    - by destruct Hp.
    - rewrite D5. apply Hp.
    - intros s r. unfold sock. rewrite D6, lookup_empty. by intros Hr%not_elem_of_nil.
    - by rewrite D7. }
  destruct (NT_SUCCESS st') eqn:Est'; [|apply bind_ok in E as (? & _ & [= <- _]); congruence]. injection E as <- <-.
  pose proof (RxFill_ok _ _ _ _ _ _ I3 E4 Hst) as I4. enough (RxPktVA d4 = va) as -> by done.
  assert (RxPktVA d3 = va) as Ev by (unfold d3, d1a; by destruct (_ <? _)). clearbody d3. clear -E4 Ev. revert d3 E4 Ev.
  induction (rx_pkt_array va m) as [|p ps IH]; intros d3 E4 Ev; cbn [VIOSockRxFill] in E4; [by injection E4 as _ <-|].
  apply bind_ok in E4 as ([b d5] & E5 & E4). assert (RxPktVA d5 = va) as Ev5; [|destruct b; [by eapply IH|by injection E4 as _ <-]].
  unfold VIOSockRxPktInsert, VIOSockRxCbPop, VIOSockRxPktCleanup in E5. repeat case_match; simplify_eq; try done.
  all: apply bind_ok in E5 as ([ret q] & _ & E5); repeat case_match; by simplify_eq.
Qed.

Lemma TxVqInit_ok P B st m d d' : rx_inv P B T [] d -> vsq_live (TxVq d) [] -> TxList d = [] -> TxQueuedReply d = 0 ->
  VIOSockTxVqInit STATUS_SUCCESS m d = (st, d') -> NT_SUCCESS st = true -> rx_inv P B tx_rest [] d'.
Proof.
  intros I HL El Eq. unfold VIOSockTxVqInit. change (NT_SUCCESS STATUS_SUCCESS) with true. cbn [negb].
  set (va := VirtIOWdfDeviceAllocDmaMemory _ _). destruct (Z.eqb_spec va 0) as [|Hva]; cbn [negb andb]; [by intros [= <- _]|].
  destruct (Halloc _ _ Hva) as [Hpos _]. fold va in Hpos. clearbody va. destruct (negb _); [|by intros [= <- _]].
  intros [= <- <-] _. apply (rx_inv_tx P B T _ [] d); [by repeat split| |done]. exists []. unfold tx_part. cbn. split_and!; try done.
  exists []. split_and!; [done|constructor|constructor].
Qed.
End init.

(** ** viosock over the split virtqueue

    The queues of the driver are split rings (SplitRing), each with the device beside it
    (SplitSystem).  They keep the promises of [AsyncQueueLaws], so the invariant of the
    driver holds in every state it can reach with a conforming device. *)

(** ** Every reachable state *)

Section reachable.
Context `{W : WdfEnv (DEVICE_CONTEXT sys)}.
Implicit Types (d : DEVICE_CONTEXT sys).

(** All pool buffers, by owner: the free list, the packets, the sockets. *)
Definition owned_bufs (P : list Z) d : list cbref := RxCbBuffers d ++ pkt_bufs P d ++ sock_bufs d.

(** A device context whose queues are new and that has no sockets yet. *)
Record fresh_device d : Prop := {
  fd_rx : initial (RxVq d);
  fd_tx : initial (TxVq d);
  fd_sockets : sockets d = ∅;
  fd_cbs : Cbs d = ∅;
  fd_list : TxList d = [];
  fd_replies : TxQueuedReply d = 0 }.

(** The receive and the transmit ring are set up, in this order. *)
Definition started (fuel : nat) (m1 m2 : Z) d0 d : Prop :=
  exists st1 d1 st2, VIOSockRxVqInit fuel STATUS_SUCCESS m1 d0 = Ok (st1, d1) /\ NT_SUCCESS st1 = true /\
    VIOSockTxVqInit STATUS_SUCCESS m2 d1 = (st2, d) /\ NT_SUCCESS st2 = true.

Lemma started_inv fuel m1 m2 d0 d : alloc_fresh -> fresh_device d0 -> started fuel m1 m2 d0 d ->
  exists B, rx_inv (rx_pkt_array (RxPktVA d) m1) B tx_rest [] d.
Proof.
  intros HA [F1 F2 F3 F4 F5 F6] (st1 & d1 & st2 & E1 & S1 & E2 & S2).
  destruct (RxVqInit_ok HA (fun t => t = tx_part d0) fuel st1 m1 d0 d1) as [B I]; try done; [by apply new_ring_live|].
  pose proof (ri_tx _ _ _ _ _ I) as Ht. unfold tx_part in Ht. injection Ht as H1 _ _ H4 H5. exists B.
  assert (RxPktVA d = RxPktVA d1) as ->.
  { unfold VIOSockTxVqInit in E2. cbn in E2. destruct (_ && _); by injection E2 as _ <-. }
  refine (TxVqInit_ok HA _ _ B st2 m2 d1 d I _ _ _ E2 S2); [|congruence..]. rewrite H1. by apply new_ring_live.
Qed.

End reachable.
