(* ===== verification/VioSockSockSpec.v ===== *)
(** * viosock: ports, connections and options

    The collections of bound and connected sockets: a port has one owner, the sockets of the
    connected collection are connected, and a transport reset closes each of them and
    ends. *)

From Stdlib Require Import ZArith Lia.
From stdpp Require Import base list numbers option gmap.
From S2P Require Import Prelude.
From S2P Require Import Virtio.
From S2P Require Import VirtQueue.
From S2P Require Import VioSock.
From S2P Require Import VioSockRx.
From S2P Require Import VioSockTx.
From S2P Require Import VioSockSystem.
From S2P Require Import VioSockSpec.

#[local] Arguments Z.testbit : simpl never.
#[local] Arguments Z.lor : simpl never.
#[local] Arguments BIT : simpl never.

Section sockets.
Context {Q : Type} `{AsyncQueue Q} `{W : WdfEnv (DEVICE_CONTEXT Q)}.
Abbreviation dev := (DEVICE_CONTEXT Q).
Implicit Types (d : dev).

(** ** Ports *)

(** The bound sockets have different ports. *)
Definition ports d : list Z := (fun s => src_port (sock d s)) <$> BoundList d.
Definition ports_ok d : Prop := NoDup (ports d).

Lemma FindByPort_none d port : VIOSockBoundFindByPort d port = None <-> port ∉ ports d.
Proof.
  unfold VIOSockBoundFindByPort, VIOSockBoundEnumUnlocked, ports. split.
  - intros E (s & -> & Hs)%list_elem_of_fmap.
    assert (Hin : s ∈ filter (fun s' => (src_port (sock d s') =? src_port (sock d s)) = true) (BoundList d)) by (apply list_elem_of_filter; split; [lia|done]).
    destruct (filter _ _); [by apply not_elem_of_nil in Hin|done].
  - intros Hp. destruct (filter _ _) as [|s l] eqn:E; [done|]. exfalso. apply Hp. apply list_elem_of_fmap. exists s.
    assert (Hin : s ∈ filter (fun s => (src_port (sock d s) =? port) = true) (BoundList d)) by (rewrite E; set_solver).
    apply list_elem_of_filter in Hin as [Hpt Hin]. split; [lia|done].
Qed.

(** Giving an unbound socket a port that nobody has. *)
Lemma ports_add d s port : s ∉ BoundList d -> port ∉ ports d ->
  ports ((upd_sock d s (fun k => k <| src_port := port |>)) <| BoundList := BoundList d ++ [s] |>) = ports d ++ [port].
Proof.
  intros Hs Hp. unfold ports. cbn. rewrite fmap_app. cbn. f_equal.
  - apply list_fmap_ext. intros i x Hx. change (sock ((?y) <| BoundList := _ |>)) with (sock y). rewrite sock_upd_ne; [done|]. intros ->. apply Hs. by eapply list_elem_of_lookup_2.
  - change (sock ((?y) <| BoundList := _ |>)) with (sock y). by rewrite sock_upd.
Qed.

(** What a bind did: [d'] has the port, and it was free. *)
Definition bound_to d d' s port : Prop :=
  port ∉ ports d /\ ports d' = ports d ++ [port] /\ BoundList d' = BoundList d ++ [s] /\ src_port (sock d' s) = port /\ port <> VMADDR_PORT_ANY.

Lemma ports_uSvmPort d v : ports (d <| uSvmPort := v |>) = ports d. Proof. done. Qed.

Lemma TryPort_ok d s st d' : s ∉ BoundList d -> 0 <= uSvmPort d <= VMADDR_PORT_ANY -> VIOSockBoundTryPort d s = (st, d') ->
  match st with
  | Some st => NT_SUCCESS st = true -> exists port, bound_to d d' s port /\ LAST_RESERVED_PORT < port
  | None => ports d' = ports d /\ BoundList d' = BoundList d /\ 0 <= uSvmPort d' <= VMADDR_PORT_ANY
  end.
Proof.
  intros Hs Hu. unfold VIOSockBoundTryPort. set (d1 := if uSvmPort d =? 0 then _ else d).
  assert (Hd1 : ports d1 = ports d /\ BoundList d1 = BoundList d /\ 0 <= uSvmPort d1 <= VMADDR_PORT_ANY).
  { unfold d1. destruct (_ =? _); [|done]. split_and!; try done; cbn; unfold u32, VMADDR_PORT_ANY; pose proof (Z.mod_pos_bound (RtlRandomEx d s) 4294967296); lia. }
  clearbody d1. destruct Hd1 as (P1 & B1 & U1). destruct (Z.eqb_spec (uSvmPort d1) VMADDR_PORT_ANY) as [|Hany].
  { intros [= <- <-]. rewrite <- P1, <- B1. by split_and!. }
  set (d2 := if uSvmPort d1 <=? _ then _ else d1).
  assert (Hd2 : ports d2 = ports d /\ BoundList d2 = BoundList d /\ LAST_RESERVED_PORT < uSvmPort d2 < VMADDR_PORT_ANY).
  { unfold d2, LAST_RESERVED_PORT, VMADDR_PORT_ANY in *. destruct (Z.leb_spec (uSvmPort d1) 1023); cbn; split_and!; done || lia. }
  clearbody d2. destruct Hd2 as (P2 & B2 & U2). set (port := uSvmPort d2) in *. set (d3 := d2 <| uSvmPort := _ |>).
  assert (Hd3 : ports d3 = ports d /\ BoundList d3 = BoundList d /\ 0 <= uSvmPort d3 <= VMADDR_PORT_ANY).
  { split_and!; try done; cbn; unfold u32, VMADDR_PORT_ANY; pose proof (Z.mod_pos_bound (port + 1) 4294967296); lia. }
  clearbody d3. destruct Hd3 as (P3 & B3 & U3). destruct (VIOSockBoundFindByPort d3 port) eqn:Ef; [by intros [= <- <-]|].
  apply FindByPort_none in Ef. intros [= <- <-] Hst. rewrite Hst. exists port. split; [|lia]. unfold bound_to. rewrite <- P3, <- B3.
  split_and!; [done|apply ports_add; [by rewrite B3|done]|done| |lia]. change (sock ((?y) <| BoundList := _ |>)) with (sock y). by rewrite sock_upd.
Qed.

Lemma BoundSearch_ok i d s st d' : s ∉ BoundList d -> 0 <= uSvmPort d <= VMADDR_PORT_ANY -> VIOSockBoundSearch i d s = (st, d') -> NT_SUCCESS st = true ->
  exists port, bound_to d d' s port /\ LAST_RESERVED_PORT < port.
Proof.
  revert d. induction i as [|i IH]; intros d Hs Hu E Hst; cbn [VIOSockBoundSearch] in E; [by injection E as <- _|].
  destruct (VIOSockBoundTryPort d s) as [o d1] eqn:E1. pose proof (TryPort_ok _ _ _ _ Hs Hu E1) as H1. destruct o as [st1|].
  - injection E as -> ->. auto.
  - destruct H1 as (P1 & B1 & U1). destruct (IH d1) as (port & HB & Hp); try done; [by rewrite B1|]. exists port. split; [|done].
    unfold bound_to in *. by rewrite <- P1, <- B1.
Qed.

(**  [VIOSockBoundAdd] keeps ports unique: when it succeeds the socket has a port
    that no bound socket had (the requested one, or one above the reserved range for
    [VMADDR_PORT_ANY]) and the other sockets keep theirs; a port in use is refused with
    [STATUS_ADDRESS_ALREADY_ASSOCIATED] and nothing changes; afterwards a lookup of the port
    finds exactly this socket. *)
Theorem BoundAdd_unique d s port :
  ports_ok d -> s ∉ BoundList d -> 0 <= uSvmPort d <= VMADDR_PORT_ANY ->
  let '(st, d') := VIOSockBoundAdd d s port in
  (NT_SUCCESS st = true ->
     ports_ok d' /\ exists p, bound_to d d' s p /\ (if port =? VMADDR_PORT_ANY then LAST_RESERVED_PORT < p else p = port) /\
       VIOSockBoundFindByPort d' p = Some s /\ VIOSockIsFlag (sock d' s) SOCK_BOUND = true) /\
  (port <> VMADDR_PORT_ANY -> port ∈ ports d -> (st, d') = (STATUS_ADDRESS_ALREADY_ASSOCIATED, d)).
Proof.
  intros HP Hs Hu. unfold VIOSockBoundAdd. set (x := if port =? VMADDR_PORT_ANY then _ else _).
  assert (Hx : NT_SUCCESS x.1 = true -> exists p, bound_to d x.2 s p /\ (if port =? VMADDR_PORT_ANY then LAST_RESERVED_PORT < p else p = port)).
  { unfold x. destruct (Z.eqb_spec port VMADDR_PORT_ANY) as [|Hany].
    - intros Hst. destruct (VIOSockBoundSearch _ d s) as [st d1] eqn:E. by eapply BoundSearch_ok.
    - destruct (VIOSockBoundFindByPort d port) eqn:Ef; [done|]. apply FindByPort_none in Ef. cbn. intros Hst. rewrite Hst. exists port. split; [|done].
      unfold bound_to. split_and!; [done|by apply ports_add|done| |done]. change (sock ((?y) <| BoundList := _ |>)) with (sock y). by rewrite sock_upd. }
  assert (Hy : port <> VMADDR_PORT_ANY -> port ∈ ports d -> x = (STATUS_ADDRESS_ALREADY_ASSOCIATED, d)).
  { intros Hany Hin. unfold x. destruct (Z.eqb_spec port VMADDR_PORT_ANY); [done|]. destruct (VIOSockBoundFindByPort d port) eqn:Ef; [done|].
    by apply FindByPort_none in Ef. }
  clearbody x. destruct x as [st d1]. cbn [fst snd] in Hx. split.
  - intros Hst. rewrite Hst. destruct (Hx Hst) as (p & (B1 & B2 & B3 & B4 & B5) & Hp).
    set (d2 := upd_sock d1 s _). assert (Hsp : forall s', src_port (sock d2 s') = src_port (sock d1 s')).
    { intros s'. unfold d2. destruct (decide (s = s')) as [<-|Hne]; [by rewrite sock_upd|by rewrite sock_upd_ne]. }
    assert (Hpt : ports d2 = ports d1) by (unfold ports; apply list_fmap_ext; intros; apply Hsp).
    assert (Hok : ports_ok d2).
    { unfold ports_ok. rewrite Hpt, B2. apply NoDup_app. split_and!; [done| |apply NoDup_singleton]. intros y Hy1 ->%list_elem_of_singleton. done. }
    split; [done|]. exists p. split_and!; [|done| |].
    + unfold bound_to. rewrite Hpt, B2, Hsp. by split_and!.
    + unfold VIOSockBoundFindByPort, VIOSockBoundEnumUnlocked. change (BoundList d2) with (BoundList d1). rewrite B3, filter_app.
      rewrite (filter_cons_True _ s) by (rewrite Hsp; lia). rewrite filter_nil.
      destruct (filter _ (BoundList d)) as [|y l] eqn:Ey; [done|]. exfalso.
      assert (Hin : y ∈ filter (fun s0 => (src_port (sock d2 s0) =? p) = true) (BoundList d)) by (rewrite Ey; set_solver).
      apply list_elem_of_filter in Hin as [Hyp Hin]. unfold ports_ok, ports in Hok. change (BoundList d2) with (BoundList d1) in Hok.
      rewrite B3, fmap_app in Hok. apply NoDup_app in Hok as (_ & Hd & _). apply (Hd p); [|cbn; rewrite Hsp, B4; set_solver].
      apply list_elem_of_fmap. exists y. split; [lia|done].
    + unfold d2. rewrite sock_upd. unfold VIOSockIsFlag, VIOSockSetFlag, truth. cbn. replace (Z.land (Z.lor (Flags (sock d1 s)) SOCK_BOUND) SOCK_BOUND) with SOCK_BOUND; [done|].
      rewrite Z.land_lor_distr_l, Z.land_diag, Z.lor_comm. symmetry. apply Z.bits_inj'. intros i Hi. rewrite Z.lor_spec, Z.land_spec. by destruct (Z.testbit SOCK_BOUND i), (Z.testbit _ i).
  - intros Hany Hin. specialize (Hy Hany Hin). injection Hy as -> ->. done.
Qed.

(** ** Connections *)

Lemma CollectionRemove_spec l s : NoDup l -> forall x, x ∈ WdfCollectionRemove l s <-> x ∈ l /\ x <> s.
Proof.
  induction l as [|y l IH]; intros ND x; cbn [WdfCollectionRemove]; [split; [by intros ?%not_elem_of_nil|by intros [?%not_elem_of_nil _]]|].
  apply NoDup_cons in ND as [Hy ND]. destruct (Z.eqb_spec y s) as [->|Hne].
  - rewrite elem_of_cons. split; [intros Hx; split; [by right|by intros ->]|intros [[->|Hx] Hn]; done].
  - rewrite !elem_of_cons, IH by done. split; [intros [->|[? ?]]; auto|intros [[->|?] ?]; auto].
Qed.

Lemma CollectionRemove_nodup l s : NoDup l -> NoDup (WdfCollectionRemove l s).
Proof.
  induction l as [|y l IH]; intros ND; cbn [WdfCollectionRemove]; [done|]. pose proof ND as [Hy ND']%NoDup_cons.
  destruct (y =? s); [done|]. apply NoDup_cons. split; [|auto]. by intros [? _]%(CollectionRemove_spec l s).
Qed.

(** A socket is in the collection only while it is connected or closing, once, and only if its
    traffic is with the device. *)
Record connected_ok d : Prop := {
  co_nodup : NoDup (ConnectedList d);
  co_state : forall s, s ∈ ConnectedList d -> State (sock d s) = VIOSOCK_STATE_CONNECTED \/ State (sock d s) = VIOSOCK_STATE_CLOSING;
  co_remote : forall s, s ∈ ConnectedList d -> IsLoopbackSocket (sock d s) = false }.

(** The transitions of the sources: a connected socket only closes. *)
Definition state_moves (st st' : VIOSOCK_STATE) : Prop :=
  match st' with
  | VIOSOCK_STATE_CLOSE => True
  | VIOSOCK_STATE_CLOSING => st = VIOSOCK_STATE_CONNECTED \/ st = VIOSOCK_STATE_CLOSING
  | _ => st <> VIOSOCK_STATE_CONNECTED /\ st <> VIOSOCK_STATE_CLOSING
  end.

Lemma StateSet_connected d s st : connected_ok d -> state_moves (State (sock d s)) st -> connected_ok (VIOSockStateSet d s st).2.
Proof.
  intros [C1 C2 C3] Hm. unfold VIOSockStateSet. cbn [snd].
  set (d1 := upd_sock d s _). assert (Hl : IsLoopbackSocket (sock d1 s) = IsLoopbackSocket (sock d s)) by (unfold d1; by rewrite sock_upd).
  assert (Hne : forall s', s' <> s -> sock d1 s' = sock d s') by (intros; unfold d1; by rewrite sock_upd_ne).
  assert (Hst : State (sock d1 s) = st) by (unfold d1; by rewrite sock_upd). change (ConnectedList d) with (ConnectedList d1) in *. clearbody d1. rewrite Hl.
  assert (Hother : forall l, NoDup l -> (forall s', s' ∈ l -> s' ∈ ConnectedList d1 /\ s' <> s) -> connected_ok (d1 <| ConnectedList := l |>)).
  { intros l NDl Hin. split; [done| |]; cbn; intros s' [Hs' Hs'n]%Hin; change (sock (d1 <| ConnectedList := l |>)) with (sock d1); rewrite Hne by done; auto. }
  destruct (decide (s ∈ ConnectedList d1)) as [Hin|Hout].
  - destruct (C2 s Hin) as [E|E]; rewrite E, (C3 s Hin) in *; destruct st; cbn in Hm; cbn; try (by destruct Hm); try (by destruct Hm as [[]|[]]).
    all: unfold VIOSockConnectedRemove; try (apply Hother; [by apply CollectionRemove_nodup|]; intros s' Hs'; by apply CollectionRemove_spec).
    all: split; [done| |]; intros s' Hs'; destruct (decide (s' = s)) as [->|Hn]; rewrite ?Hst, ?Hl, ?(C3 s), ?Hne by done; auto.
  - assert (Hsame : connected_ok d1).
    { split; [done| |]; intros s' Hs'; rewrite Hne by (by intros ->); auto. }
    destruct (bool_decide (State (sock d s) <> st) && negb _) eqn:Eg; [|done]. destruct (bool_decide (st = VIOSOCK_STATE_CLOSE) && _).
    + unfold VIOSockConnectedRemove. apply Hother; [by apply CollectionRemove_nodup|]. intros s' Hs'. by apply CollectionRemove_spec.
    + destruct (bool_decide_reflect (st = VIOSOCK_STATE_CONNECTED)) as [->|]; [|done]. unfold VIOSockConnectedAdd. cbn [snd]. destruct (NT_SUCCESS _); [|done].
      apply andb_prop in Eg as [_ Eg%negb_true_iff]. split; cbn.
      * apply NoDup_app. split_and!; [done| |apply NoDup_singleton]. by intros x Hx ->%list_elem_of_singleton.
      * intros s' Hs'. change (sock (d1 <| ConnectedList := _ |>)) with (sock d1). apply elem_of_app in Hs' as [Hs'| ->%list_elem_of_singleton]; [|by left].
        rewrite Hne by (by intros ->). auto.
      * intros s' Hs'. change (sock (d1 <| ConnectedList := _ |>)) with (sock d1). apply elem_of_app in Hs' as [Hs'| ->%list_elem_of_singleton]; [|congruence].
        rewrite Hne by (by intros ->). auto.
Qed.

(**  A transport reset ends after one round per connected socket, whatever their
    number: each of them is then [CLOSE] and has a close event with
    [STATUS_CONNECTION_RESET] to report, the collection is empty, and no other socket is
    touched. *)
Theorem HandleTransportReset_total m d :
  connected_ok d -> (length (ConnectedList d) <= m)%nat ->
  exists d', VIOSockHandleTransportReset m d = Ok d' /\ ConnectedList d' = [] /\
    forall s, if decide (s ∈ ConnectedList d)
              then State (sock d' s) = VIOSOCK_STATE_CLOSE /\ Z.testbit (Events (sock d' s)) FD_CLOSE_BIT = true /\
                   EventsStatus (sock d' s) !! FD_CLOSE_BIT = Some STATUS_CONNECTION_RESET
              else sock d' s = sock d s.
Proof.
  revert d. induction m as [|m IH]; intros d HC Hm; cbn [VIOSockHandleTransportReset].
  { destruct (ConnectedList d) as [|s l] eqn:El; [|cbn in Hm; lia]. exists d. split_and!; [done|done|]. intros s. by rewrite decide_False by apply not_elem_of_nil. }
  destruct (ConnectedList d) as [|s l] eqn:El.
  { exists d. split_and!; [done|done|]. intros s. by rewrite decide_False by apply not_elem_of_nil. }
  assert (Hin : s ∈ ConnectedList d) by (rewrite El; set_solver).
  pose proof (StateSet_connected d s VIOSOCK_STATE_CLOSE HC ltac:(done)) as HC1.
  assert (E1 : (VIOSockStateSet d s VIOSOCK_STATE_CLOSE).2 = VIOSockConnectedRemove (upd_sock d s (fun k => k <| State := VIOSOCK_STATE_CLOSE |>)) s).
  { unfold VIOSockStateSet. cbn [snd]. rewrite sock_upd. unfold IsLoopbackSocket, VIOSockIsFlag. cbn.
    pose proof (co_remote d HC s Hin) as Hr. unfold IsLoopbackSocket, VIOSockIsFlag in Hr. rewrite Hr. by destruct (co_state d HC s Hin) as [-> | ->]. }
  rewrite E1 in *. set (d1 := VIOSockConnectedRemove _ s) in *. set (d2 := VIOSockEventSetBit d1 s _ _).
  assert (Ed1 : forall s', sock d1 s' = sock (upd_sock d s (fun k => k <| State := VIOSOCK_STATE_CLOSE |>)) s') by done.
  assert (Hl1 : ConnectedList d1 = l) by (unfold d1, VIOSockConnectedRemove; cbn; by rewrite El; cbn; rewrite Z.eqb_refl).
  assert (HsL : s ∉ l) by (pose proof (co_nodup d HC) as ND; rewrite El in ND; by apply NoDup_cons in ND as [? _]).
  assert (Hev : forall s', s' <> s -> sock d2 s' = sock d s').
  { intros s' Hne. unfold d2, VIOSockEventSetBit. rewrite sock_upd_ne by done. rewrite Ed1. by rewrite sock_upd_ne. }
  assert (HC2 : connected_ok d2).
  { split; [exact (co_nodup _ HC1)| |]; change (ConnectedList d2) with (ConnectedList d1); intros s' Hs'; rewrite Hev by (intros ->; by rewrite Hl1 in Hs').
    - apply (co_state d HC). rewrite El. rewrite Hl1 in Hs'. set_solver.
    - apply (co_remote d HC). rewrite El. rewrite Hl1 in Hs'. set_solver. }
  destruct (IH d2 HC2) as (d' & -> & HN & Hall).
  { change (ConnectedList d2) with (ConnectedList d1). rewrite Hl1. cbn in Hm. lia. }
  exists d'. split_and!; [done|done|]. intros x. specialize (Hall x). change (ConnectedList d2) with (ConnectedList d1) in Hall. rewrite Hl1 in Hall.
  destruct (decide (x = s)) as [->|Hne].
  - rewrite decide_False in Hall by done. rewrite decide_True by set_solver. rewrite Hall. unfold d2, VIOSockEventSetBit. rewrite sock_upd. cbv zeta.
    set (k := sock d1 s). assert (State k = VIOSOCK_STATE_CLOSE) as Ek by (unfold k; by rewrite Ed1, sock_upd).
    destruct (_ && _); cbn; split_and!; try done; try (by rewrite lookup_insert_eq); rewrite Z.lor_spec; apply orb_true_intro; by right.
  - destruct (decide (x ∈ l)) as [Hx|Hx]; [rewrite decide_True by set_solver; done|]. rewrite decide_False by set_solver. by rewrite Hall, Hev.
Qed.

(** ** Options *)

Lemma le_decode_encode n v : le_decode (le_encode n v) = v mod 2 ^ (8 * Z.of_nat n).
Proof.
  revert v. induction n as [|n IH]; intros v; cbn [le_encode le_decode]; [by rewrite Z.mod_1_r|].
  rewrite IH. replace (8 * Z.of_nat (S n)) with (8 + 8 * Z.of_nat n) by lia. rewrite Z.pow_add_r by lia. unfold u8. change (2 ^ 8) with 256.
  rewrite Z.shiftr_div_pow2 by lia. change (2 ^ 8) with 256. rewrite Z.rem_mul_r by lia. lia.
Qed.

Lemma length_le_encode n v : length (le_encode n v) = n.
Proof. revert v. induction n as [|n IH]; intros v; [done|]. cbn. by rewrite IH. Qed.

Lemma le_encode_mod n v : le_encode n (v mod 2 ^ (8 * Z.of_nat n)) = le_encode n v.
Proof.
  revert v. induction n as [|n IH]; intros v; [done|]. cbn [le_encode]. replace (8 * Z.of_nat (S n)) with (8 + 8 * Z.of_nat n) by lia.
  rewrite Z.pow_add_r by lia. change (2 ^ 8) with 256. f_equal.
  - unfold u8. change (2 ^ 8) with 256. rewrite Z.rem_mul_r, Z.mul_comm, Z.mod_add by lia. apply Z.mod_mod. lia.
  - rewrite !Z.shiftr_div_pow2 by lia. change (2 ^ 8) with 256. rewrite <- (IH (v / 256)). f_equal. rewrite Z.rem_mul_r by lia.
    rewrite Z.mul_comm, Z.div_add by lia. rewrite (Z.div_small (v mod 256)) by (apply Z.mod_pos_bound; lia). done.
Qed.

Lemma opt_field_le n v l : opt_field (le_encode n v ++ l) 0 n = v mod 2 ^ (8 * Z.of_nat n).
Proof. unfold opt_field. rewrite drop_0, take_app_length'; [apply le_decode_encode|]. by rewrite length_le_encode. Qed.

Lemma opt_field_skip n v m w : opt_field (le_encode n v ++ le_encode m w) n m = w mod 2 ^ (8 * Z.of_nat m).
Proof. unfold opt_field. rewrite drop_app_length', firstn_all2, le_decode_encode; [done| |]; by rewrite length_le_encode. Qed.

Lemma connect_timeout_split sec usec : 0 <= sec < LONG_MAX / 1000 - 1 -> 0 <= usec < USEC_PER_SEC -> 0 < sec + usec ->
  VIOSockConnectTimeout sec usec = SEC_TO_NANO sec + USEC_TO_NANO usec /\
  s32 (NANO_TO_SEC (SEC_TO_NANO sec + USEC_TO_NANO usec)) = sec /\
  s32 (NANO_TO_USEC (SEC_TO_NANO sec + USEC_TO_NANO usec - SEC_TO_NANO sec)) = usec.
Proof.
  unfold VIOSockConnectTimeout, LONG_MAX, USEC_PER_SEC, SEC_TO_NANO, MSEC_TO_NANO, USEC_TO_NANO, NANO_TO_SEC, NANO_TO_USEC, s32.
  change (2147483647 / 1000 - 1) with 2147482. intros H1 H2 H3. replace (0 <=? sec) with true by lia. replace (usec <? 1000000) with true by lia.
  replace (sec <? 2147482) with true by lia. cbn [andb]. destruct (Z.eqb_spec (sec * 10 * 1000 * 1000 + usec * 10) 0); [lia|].
  split_and!; [done| |].
  - rewrite Z.quot_quot, Z.quot_quot by lia. rewrite Z.quot_div_nonneg by lia.
    replace (sec * 10 * 1000 * 1000 + usec * 10) with (usec * 10 + sec * (10 * 1000 * 1000)) by lia. rewrite Z.div_add, Z.div_small, Z.mod_small by lia. lia.
  - replace (sec * 10 * 1000 * 1000 + usec * 10 - sec * 10 * 1000 * 1000) with (usec * 10) by lia. rewrite Z.quot_mul, Z.mod_small by lia. lia.
Qed.

#[local] Arguments le_encode : simpl never.
#[local] Arguments opt_field : simpl never.
#[local] Arguments s32 : simpl never.
#[local] Arguments VIOSockConnectTimeout : simpl never.
#[local] Arguments NANO_TO_SEC : simpl never.
#[local] Arguments NANO_TO_USEC : simpl never.
#[local] Arguments SEC_TO_NANO : simpl never.

(** Claim C40.  What [setsockopt] stores [getsockopt] returns: any send or receive timeout of 32
    bits, and any connect timeout of [struct timeval] form that is positive and below the
    limit the driver puts on the seconds, down to the microsecond. *)
Theorem option_roundtrip fuel n d s v sec usec :
  0 <= sec < LONG_MAX / 1000 - 1 -> 0 <= usec < USEC_PER_SEC -> 0 < sec + usec ->
  let bytes := le_encode 4 v in let tv := le_encode 4 sec ++ le_encode 4 usec in
  (exists d', VIOSockSetSockOpt fuel n d s SO_SNDTIMEO bytes = Ok (STATUS_SUCCESS, d') /\
     VIOSockGetSockOpt d' s SO_SNDTIMEO 4 = (STATUS_SUCCESS, Some bytes)) /\
  (exists d', VIOSockSetSockOpt fuel n d s SO_RCVTIMEO bytes = Ok (STATUS_SUCCESS, d') /\
     VIOSockGetSockOpt d' s SO_RCVTIMEO 4 = (STATUS_SUCCESS, Some bytes)) /\
  (exists d', VIOSockSetSockOpt fuel n d s SO_VM_SOCKETS_CONNECT_TIMEOUT tv = Ok (STATUS_SUCCESS, d') /\
     VIOSockGetSockOpt d' s SO_VM_SOCKETS_CONNECT_TIMEOUT 8 = (STATUS_SUCCESS, Some tv)).
Proof.
  intros H1 H2 H3 bytes tv. assert (Hz : zlen bytes = 4) by done. assert (Htv : zlen tv = 8) by done.
  assert (Hb : le_encode 4 (opt_field bytes 0 4) = bytes).
  { unfold bytes. rewrite <- (app_nil_r (le_encode 4 v)), opt_field_le, app_nil_r. apply le_encode_mod. }
  unfold VIOSockSetSockOpt. rewrite Hz, Htv. split_and!; eexists; (split; [reflexivity|]); unfold VIOSockGetSockOpt; rewrite sock_upd; cbn.
  - by rewrite Hb.
  - by rewrite Hb.
  - unfold tv. rewrite opt_field_le, (opt_field_skip 4 sec 4 usec). unfold LONG_MAX, USEC_PER_SEC in *. change (2147483647 / 1000 - 1) with 2147482 in *.
    change (2 ^ (8 * Z.of_nat 4)) with 4294967296. rewrite !Z.mod_small by lia.
    replace (s32 sec) with sec by (unfold s32; rewrite Z.mod_small by lia; lia). replace (s32 usec) with usec by (unfold s32; rewrite Z.mod_small by lia; lia).
    destruct (connect_timeout_split sec usec) as (-> & E1 & E2); [done|done|done|]. by rewrite E1, E2.
Qed.
End sockets.
