(* ===== verification/VioSockExamples.v ===== *)
(** * viosock: the theorems at concrete inputs

    A driver with two receive packets and two transmit slices on split rings of four
    descriptors.  An application listens on a port, the host connects to it, the socket is
    closed; a packet is received and read in part; an option is set and read back. *)

From Stdlib Require Import ZArith Lia.
From stdpp Require Import base list numbers option gmap relations.
From S2P Require Import Prelude.
From S2P Require Import Virtio.
From S2P Require Import SplitRing.
From S2P Require Import SplitRingSpec.
From S2P Require Import SplitSystem.
From S2P Require Import SplitExamples.
From S2P Require Import VirtQueue.
From S2P Require Import SplitQueue.
From S2P Require Import VioSock.
From S2P Require Import VioSockRx.
From S2P Require Import VioSockTx.
From S2P Require Import VioSockSystem.
From S2P Require Import VioSockSpec.
From S2P Require Import VioSockCreditSpec.
From S2P Require Import VioSockInv.
From S2P Require Import VioSockRxSpec.
From S2P Require Import VioSockTxSpec.
From S2P Require Import VioSockSystemSpec.
From S2P Require Import VioSockSockSpec.

(** ** The system around the driver *)

(** Blocks lie above all pool buffers. *)
Definition pool_addrs (d : DEVICE_CONTEXT sys) : list Z :=
  (fun x => match x.1 with CbPool v => v | CbRequest _ => 0 end) <$> map_to_list (Cbs d).
Definition alloc_above (d : DEVICE_CONTEXT sys) (n : Z) : Z := 65536 * (1 + foldr Z.max 0 (pool_addrs d)).

#[local] Instance sample_env : WdfEnv (DEVICE_CONTEXT sys) := {|
  KeQueryTickCount := fun _ => 0;
  KeQueryTimeIncrement := 1;
  PsGetCurrentThreadId := fun _ => 7;
  RtlRandomEx := fun _ _ => 5000;
  WdfRequestGetFileObject := fun r => r;
  WdfRequestMarkCancelableEx := fun _ _ => STATUS_SUCCESS;
  WdfRequestUnmarkCancelable := fun _ _ => STATUS_SUCCESS;
  WdfMemoryCreateFromLookaside := fun _ => STATUS_SUCCESS;
  WdfObjectAllocateContext := fun _ _ => STATUS_SUCCESS;
  WdfRequestRetrieveInputBuffer := fun _ _ => (STATUS_SUCCESS, []);
  WdfRequestRetrieveOutputBuffer := fun _ _ => (STATUS_SUCCESS, [0; 0]);
  WdfIoQueueRetrieveNextRequest := fun d s => head (ReadQueue (sock d s));
  WdfRequestForwardToIoQueue := fun _ _ => STATUS_SUCCESS;
  WdfRequestRequeue := fun _ _ => STATUS_SUCCESS;
  WdfCollectionAdd := fun _ _ => STATUS_SUCCESS;
  WdfDmaTransactionExecute := fun _ _ => (STATUS_SUCCESS, [mk_sg 8192 16]);
  VirtIOWdfDeviceAllocDmaMemory := alloc_above;
  VirtIOWdfDeviceGetPhysicalAddress := fun _ va => va |}.

Lemma max_above l v : v ∈ l -> v <= foldr Z.max 0 l.
Proof. induction l as [|x l IH]; [by intros ?%not_elem_of_nil|]. intros [->|Hv]%elem_of_cons; cbn; [lia|]. specialize (IH Hv). lia. Qed.
Lemma max_nonneg l : 0 <= foldr Z.max 0 l.
Proof. induction l as [|x l IH]; cbn; lia. Qed.

Lemma sample_alloc_fresh : alloc_fresh.
Proof.
  intros d m _. cbn. unfold alloc_above. pose proof (max_nonneg (pool_addrs d)) as H0. split; [lia|].
  set (va := 65536 * _). destruct (Cbs d !! CbPool va) as [k|] eqn:E; [|done]. exfalso.
  assert (va <= foldr Z.max 0 (pool_addrs d)); [|lia]. apply max_above. unfold pool_addrs. apply list_elem_of_fmap. exists (CbPool va, k).
  split; [done|]. by apply elem_of_map_to_list.
Qed.

(** ** A run *)

Definition start0 : DEVICE_CONTEXT sys :=
  mk_dev _ sys0 0 0 ∅ [] 0 0 [] ∅ ∅ sys0 0 0 [] ∅ 0 0 [] timer_zero 0 0 false sys0 0 0 ∅ 0 [] 5000 [] ∅ 3 0 [].

(** The state of a result, and that there is one. *)
Definition state_of {A} (a : A) (m : res A) : A := match m with Ok x => x | Fault _ => a end.
Lemma state_of_ok {A} (a : A) m : is_ok m = true -> m = Ok (state_of a m).
Proof. by destruct m. Qed.

Definition rx_started : DEVICE_CONTEXT sys := (state_of (0, start0) (VIOSockRxVqInit 10 STATUS_SUCCESS 2 start0)).2.
Definition run0 : DEVICE_CONTEXT sys := (VIOSockTxVqInit STATUS_SUCCESS 2 rx_started).2.
Definition run0_pkts : list Z := rx_pkt_array (RxPktVA run0) 2.

Lemma sys0_new : initial sys0.
Proof. exists 2, 0, SplitExamples.dev0, 0. split; [lia|]. split; [exact q4_new|done]. Qed.

Lemma start0_fresh : fresh_device start0.
Proof. split; done || exact sys0_new. Qed.

Lemma run0_started : started 10 2 2 start0 run0.
Proof.
  exists (state_of (0, start0) (VIOSockRxVqInit 10 STATUS_SUCCESS 2 start0)).1, rx_started, (VIOSockTxVqInit STATUS_SUCCESS 2 rx_started).1.
  split_and!.
  - rewrite (state_of_ok (0, start0) (VIOSockRxVqInit 10 STATUS_SUCCESS 2 start0)) at 1 by (vm_compute; reflexivity). unfold rx_started.
    apply f_equal. apply surjective_pairing.
  - vm_compute. reflexivity.
  - unfold run0. apply surjective_pairing.
  - vm_compute. reflexivity.
Qed.

(** The application listens on port 1234 with socket 1. *)
Definition run1 : DEVICE_CONTEXT sys := (state_of (0, run0) (VIOSockCreate 10 5 run0 1 9 (Ea STATUS_SUCCESS VIRTIO_VSOCK_TYPE_STREAM None))).2.
Definition run2 : DEVICE_CONTEXT sys := (VIOSockBind run1 1 STATUS_SUCCESS (mk_addr AF_VSOCK 1234 VMADDR_CID_ANY)).2.
Definition run3 : DEVICE_CONTEXT sys := (VIOSockListen run2 1 STATUS_SUCCESS 2).2.

(** The host writes a connection request to the first packet and returns it. *)
Definition request_hdr : VIRTIO_VSOCK_HDR := mk_hdr 2 3 7777 1234 0 VIRTIO_VSOCK_TYPE_STREAM VIRTIO_VSOCK_OP_REQUEST 0 65536 0.
Definition run0_pkt : Z := RxPktVA run0.
Definition run4 : DEVICE_CONTEXT sys :=
  upd_cb (upd_pkt run3 run0_pkt (fun x => x <| Header := request_hdr |>)) (CbPool 65536) (fun x => x <| cb_data := cb_data (cb run3 (CbPool 65536)) |>).
Definition fetched : sys := (RxVq run4) <| s_seen := u16 (s_seen (RxVq run4) + 1) |> <| s_held := 0 :: s_held (RxVq run4) |>.
Definition run5 : DEVICE_CONTEXT sys := run4 <| RxVq := fetched |>.
Definition returned : sys := fetched <| s_vq := dev_use (s_vq fetched) 0 44 |> <| s_held := [] |>.
Definition run6 : DEVICE_CONTEXT sys := run5 <| RxVq := returned |>.
Definition run7 : DEVICE_CONTEXT sys := state_of run6 (VIOSockInterruptDpc 10 5 8 3 run6).

(** The connection waits to be accepted; the socket is closed. *)
Example run7_pending : AcceptPended (sock run7 1) = 1 /\ a_dst_port <$> AcceptList (sock run7 1) = [7777] /\ RxPktList run7 = [].
Proof. vm_compute. repeat split. Qed.
Definition run8 : DEVICE_CONTEXT sys := state_of run7 (VIOSockCleanup 10 5 id run7 1).

Abbreviation sample_step := (driver_step run0_pkts device_ring_step 10 5).

Lemma run_fetch : device_ring_step (RxVq run4) fetched.
Proof. apply device_fetch; [vm_compute; discriminate|vm_compute; reflexivity]. Qed.
Lemma run_use : device_ring_step fetched returned.
Proof. apply device_use. replace (s_held fetched) with [0] by (vm_compute; reflexivity). reflexivity. Qed.

Lemma sample_run : rtc sample_step run0 run8.
Proof.
  apply (rtc_l _ _ run1); [apply st_step, (st_create _ _ _ _ 1 9 (Ea STATUS_SUCCESS VIRTIO_VSOCK_TYPE_STREAM None) (state_of (0, run0) (VIOSockCreate 10 5 run0 1 9 (Ea STATUS_SUCCESS VIRTIO_VSOCK_TYPE_STREAM None))).1)|].
  { vm_compute. reflexivity. }
  { rewrite (state_of_ok (0, run0) (VIOSockCreate 10 5 run0 1 9 (Ea STATUS_SUCCESS VIRTIO_VSOCK_TYPE_STREAM None))) at 1 by (vm_compute; reflexivity). unfold run1.
    apply f_equal. apply surjective_pairing. }
  apply (rtc_l _ _ run2); [apply st_step, st_bind|]. apply (rtc_l _ _ run3); [apply st_step, st_listen|].
  apply (rtc_l _ _ run4); [apply st_step, st_device_fill; [|reflexivity]|].
  { unfold run0_pkts, rx_pkt_array. apply list_elem_of_fmap. exists 0%nat. split; [|set_solver]. unfold run0_pkt. rewrite Z.add_0_r. reflexivity. }
  apply (rtc_l _ _ run5); [apply st_step, (st_device_rx _ _ _ _ fetched run4), run_fetch|]. apply (rtc_l _ _ run6); [apply st_step, (st_device_rx _ _ _ _ returned run5), run_use|].
  apply (rtc_l _ _ run7); [apply st_step, (st_interrupt _ _ _ _ 8 3); apply state_of_ok; vm_compute; reflexivity|].
  apply rtc_once. apply (st_close _ _ _ _ 1 id); [intros; apply rtc_refl|]. apply state_of_ok. vm_compute. reflexivity.
Qed.


(** ** A stream *)

(** Socket 1 has room for 100 bytes; packet 88 carries three bytes; request 5 reads two. *)
Definition three_bytes : list Z := [10; 20; 30] ++ replicate 4093 0.
Definition stream0 : DEVICE_CONTEXT sys :=
  start0 <| sockets := {[1 := sock_zero <| buf_alloc := 100 |>]} |>
         <| RxPkts := {[88 := mk_rx_pkt (hdr_zero <| h_len := 3 |>) (Some (CbPool 4096))]} |>
         <| Cbs := {[CbPool 4096 := mk_cb three_bytes 4096 0 0 0 None]} |>
         <| ReadRequests := {[5 := mk_rq 2 2 0 0 0 0 [0; 0]]} |>.
Definition stream1 : DEVICE_CONTEXT sys := (state_of (false, stream0) (VIOSockRxPktEnqueueCb stream0 1 88)).2.
Definition stream2 : DEVICE_CONTEXT sys := (state_of ([], false, stream1) (VIOSockReadCopy (RxCbList (sock stream1 1)) stream1 1 5 [] false)).2.

Lemma stream0_inv : stream_inv 1 stream0.
Proof.
  split; [|vm_compute; split; [discriminate|reflexivity]]. split.
  - apply NoDup_nil_2.
  - intros c Hc. by apply not_elem_of_nil in Hc.
  - vm_compute. reflexivity.
  - vm_compute. split; [discriminate|reflexivity].
Qed.

Lemma sample_trace : stream_trace 1 stream0 [10; 20; 30] [10; 20] stream2.
Proof.
  apply (trace_step 1 stream0 [10; 20; 30] [] stream1 [] [10; 20] stream2); [|apply (trace_step 1 stream1 [] [10; 20] stream2 [] [] stream2); [|apply trace_nil]].
  - assert (payload stream0 88 = [10; 20; 30]) as E by (vm_compute; reflexivity).
    rewrite <- E. replace (payload stream0 88) with (if RxBytes (sock stream0 1) + h_len (Header (rx_pkt stream0 88)) <=? buf_alloc (sock stream0 1) then payload stream0 88 else []) by (vm_compute; reflexivity).
    apply (step_receive 1 stream0 88 (CbPool 4096) (state_of (false, stream0) (VIOSockRxPktEnqueueCb stream0 1 88)).1).
    + split; [vm_compute; reflexivity| |vm_compute; reflexivity|vm_compute; reflexivity|vm_compute; split; discriminate].
      intros Hc. by apply not_elem_of_nil in Hc.
    + vm_compute. reflexivity.
    + rewrite (state_of_ok (false, stream0) (VIOSockRxPktEnqueueCb stream0 1 88)) at 1 by (vm_compute; reflexivity). apply f_equal, surjective_pairing.
  - apply (step_read 1 stream1 5 false).
    + split; vm_compute; try split; discriminate || reflexivity.
    + vm_compute. reflexivity.
    + rewrite (state_of_ok ([], false, stream1) (VIOSockReadCopy _ _ _ _ _ _)) at 1 by (vm_compute; reflexivity). unfold stream2. vm_compute. reflexivity.
    + vm_compute. repeat split.
Qed.

Lemma stream_integrity_witness : [10; 20; 30] = [10; 20] ++ stream stream2 1 /\ RxBytes (sock stream2 1) = 1 /\ fwd_cnt (sock stream2 1) = 2.
Proof. exact (stream_integrity 1 stream0 [10; 20; 30] [10; 20] stream2 stream0_inv eq_refl sample_trace). Defined.

(** ** Credit *)

(** Socket 1 has sent 40 bytes to socket 2, which has room for 100. *)
Definition sender0 : DEVICE_CONTEXT sys := start0 <| sockets := {[1 := sock_zero <| peer_buf_alloc := 100 |>]} |>.
Definition receiver0 : DEVICE_CONTEXT sys := start0 <| sockets := {[2 := sock_zero <| buf_alloc := 100 |>]} |>.
Definition link1 : link := mk_link (VIOSockTxGetCredit sender0 1 40).2 receiver0 [40] [].

Lemma link1_reachable : link_reachable 1 2 link1.
Proof.
  exists (mk_link sender0 receiver0 [] []). split; [by vm_compute|]. apply rtc_once. apply (link_send 1 2 sender0 receiver0 [] [] 40 40); [lia|]. vm_compute. reflexivity.
Qed.

Lemma credit_no_drop_witness : exists k, VIOSockRxPktInc (sock (lk_rx link1) 2) 40 = (true, k) /\ RxBytes k + sumZ [] <= buf_alloc (sock (lk_rx link1) 2).
Proof. destruct (credit_no_drop 1 2 link1 40 [] link1_reachable eq_refl) as (k & E & _ & Hk). exists k. split; [exact E|exact Hk]. Defined.

Lemma credit_bound_witness : (VIOSockTxGetCredit (lk_tx link1) 1 70).1 = 60 /\ RxBytes (sock (lk_rx link1) 2) + sumZ (lk_data link1) + 60 <= buf_alloc (sock (lk_rx link1) 2).
Proof.
  split; [vm_compute; reflexivity|].
  apply (credit_bound 1 2 link1 70 60 (VIOSockTxGetCredit (lk_tx link1) 1 70).2 link1_reachable ltac:(lia)). vm_compute. reflexivity.
Defined.

(** 40 bytes are on their way when the peer shrinks its buffer to 10. *)
Definition shrunk : DEVICE_CONTEXT sys := start0 <| sockets := {[1 := sock_zero <| peer_buf_alloc := 10 |> <| tx_cnt := 40 |>]} |>.
Lemma credit_underflow_witness : (VIOSockTxGetCredit shrunk 1 1000).1 = 1000 /\ VIOSockTxHasSpace (sock shrunk 1) = 0.
Proof. apply (credit_underflow 1 shrunk 1000); vm_compute; first [split; first [discriminate|reflexivity]|discriminate]. Defined.

(** ** Ports, connections, options *)

Lemma BoundAdd_unique_witness : NT_SUCCESS (VIOSockBoundAdd run1 1 1234).1 = true /\ VIOSockBoundFindByPort (VIOSockBoundAdd run1 1 1234).2 1234 = Some 1.
Proof.
  assert (Hs : NT_SUCCESS (VIOSockBoundAdd run1 1 1234).1 = true) by (vm_compute; reflexivity). split; [exact Hs|].
  assert (Hl : BoundList run1 = []) by (vm_compute; reflexivity).
  pose proof (BoundAdd_unique run1 1 1234) as HB. destruct (VIOSockBoundAdd run1 1 1234) as [st d'].
  destruct HB as [HB _]; [unfold ports_ok, ports; rewrite Hl; constructor|rewrite Hl; apply not_elem_of_nil|vm_compute; split; discriminate|].
  destruct (HB Hs) as (_ & p & _ & Hp & Hf & _). change (p = 1234) in Hp. rewrite Hp in Hf. exact Hf.
Defined.

(** Sockets 1 and 2 are connected to the host. *)
Definition connected0 : DEVICE_CONTEXT sys :=
  start0 <| sockets := {[1 := sock_zero <| State := VIOSOCK_STATE_CONNECTED |>; 2 := sock_zero <| State := VIOSOCK_STATE_CLOSING |>]} |> <| ConnectedList := [1; 2] |>.

Lemma HandleTransportReset_total_witness :
  exists d', VIOSockHandleTransportReset 2 connected0 = Ok d' /\ ConnectedList d' = [] /\ State (sock d' 1) = VIOSOCK_STATE_CLOSE /\ sock d' 3 = sock connected0 3.
Proof.
  destruct (HandleTransportReset_total 2 connected0) as (d' & E & Hl & Hs).
  - split.
    + apply NoDup_cons. split; [set_solver|apply NoDup_singleton].
    + intros s [->|[->|Hs%not_elem_of_nil]%elem_of_cons]%elem_of_cons; [by left|by right|done].
    + intros s [->|[->|Hs%not_elem_of_nil]%elem_of_cons]%elem_of_cons; done.
  - cbn. lia.
  - exists d'. split; [exact E|]. split; [exact Hl|]. split.
    + specialize (Hs 1). destruct (decide _) as [_|Hn]; [exact (proj1 Hs)|]. destruct Hn. apply elem_of_cons. left. reflexivity.
    + specialize (Hs 3). destruct (decide _) as [Hn|_]; [|exact Hs]. change (3 ∈ [1; 2]) in Hn. exfalso. clear -Hn. set_solver.
Defined.

Lemma option_roundtrip_witness :
  exists d', VIOSockSetSockOpt 1 1 run3 1 SO_VM_SOCKETS_CONNECT_TIMEOUT (le_encode 4 3 ++ le_encode 4 500000) = Ok (STATUS_SUCCESS, d') /\
    VIOSockGetSockOpt d' 1 SO_VM_SOCKETS_CONNECT_TIMEOUT 8 = (STATUS_SUCCESS, Some [3; 0; 0; 0; 32; 161; 7; 0]).
Proof.
  destruct (option_roundtrip 1 1 run3 1 0 3 500000) as (_ & _ & d' & E & G); [unfold LONG_MAX; change (2147483647 / 1000 - 1) with 2147482; lia|unfold USEC_PER_SEC; lia|lia|].
  exists d'. split; [exact E|exact G].
Defined.
