(* ===== verification/Effects.v ===== *)
(** * Stateful code

    A C function that changes the state [S] and may go wrong is an [M S A].  [wp m Φ s]
    is total correctness: from [s] the function ends without a fault, and its result
    and final state satisfy [Φ]. *)

From Stdlib Require Import ZArith Lia.
From stdpp Require Import base list numbers option.
From S2P Require Import Prelude.

Definition M (S A : Type) : Type := S -> res (A * S).

#[export] Instance M_ret S : MRet (M S) := fun A a s => Ok (a, s).
#[export] Instance M_bind S : MBind (M S) :=
  fun A B k m s => match m s with Ok (a, s') => k a s' | Fault f => Fault f end.

Definition throw {S A} (f : fault) : M S A := fun _ => Fault f.
Definition gets {S A} (f : S -> A) : M S A := fun s => Ok (f s, s).
Definition modify {S} (f : S -> S) : M S unit := fun s => Ok (tt, f s).
Definition pure {S A} (m : res A) : M S A :=
  fun s => match m with Ok a => Ok (a, s) | Fault f => Fault f end.
Definition assert {S} (b : bool) : M S unit := pure (ASSERT b).

Definition wp {S A} (m : M S A) (Φ : A -> S -> Prop) (s : S) : Prop :=
  match m s with Ok (a, s') => Φ a s' | Fault _ => False end.

Section wp.
Context {S : Type}.

Lemma wp_bind {A B} (m : M S A) (k : A -> M S B) Φ s :
  wp m (fun a s => wp (k a) Φ s) s -> wp (m ≫= k) Φ s.
Proof. unfold wp, mbind, M_bind. by destruct (m s) as [[a s']|]. Qed.

Lemma wp_ret {A} (a : A) (Φ : A -> S -> Prop) s : Φ a s -> wp (mret a) Φ s.
Proof. done. Qed.

Lemma wp_gets {A} (f : S -> A) (Φ : A -> S -> Prop) s : Φ (f s) s -> wp (gets f) Φ s.
Proof. done. Qed.

Lemma wp_modify (f : S -> S) (Φ : unit -> S -> Prop) s : Φ tt (f s) -> wp (modify f) Φ s.
Proof. done. Qed.

Lemma wp_pure {A} (m : res A) a (Φ : A -> S -> Prop) s : m = Ok a -> Φ a s -> wp (pure m) Φ s.
Proof. by intros ->. Qed.

Lemma wp_assert b (Φ : unit -> S -> Prop) s : b = true -> Φ tt s -> wp (assert b) Φ s.
Proof. by intros ->. Qed.

Lemma wp_mono {A} (m : M S A) (Φ Ψ : A -> S -> Prop) s :
  wp m Φ s -> (forall a s', Φ a s' -> Ψ a s') -> wp m Ψ s.
Proof. unfold wp. destruct (m s) as [[a s']|]; eauto. Qed.

(** Two facts about the same run. *)
Lemma wp_and {A} (m : M S A) (Φ Ψ : A -> S -> Prop) s :
  wp m Φ s -> wp m Ψ s -> wp m (fun a s => Φ a s /\ Ψ a s) s.
Proof. unfold wp. destruct (m s) as [[a s']|]; eauto. Qed.

(** A fact about the run that holds under a condition. *)
Lemma wp_when {A} (P : Prop) (m : M S A) (Φ Ψ : A -> S -> Prop) s :
  wp m Φ s -> (P -> wp m Ψ s) -> wp m (fun a s => Φ a s /\ (P -> Ψ a s)) s.
Proof. unfold wp. destruct (m s) as [[a s']|]; naive_solver. Qed.

Lemma wp_ok {A} (m : M S A) Φ s : wp m Φ s <-> exists a s', m s = Ok (a, s') /\ Φ a s'.
Proof.
  unfold wp. destruct (m s) as [[a s']|].
  - split; [eauto|]. by intros (? & ? & [= <- <-] & ?).
  - split; [done|]. by intros (? & ? & ? & ?).
Qed.
End wp.

(** [wp_step]: one step of a function body. *)
Ltac wp_step :=
  match goal with
  | |- wp (_ ≫= _) _ _ => apply wp_bind
  | |- wp (mret _) _ _ => apply wp_ret
  | |- wp (gets _) _ _ => apply wp_gets
  | |- wp (modify _) _ _ => apply wp_modify
  end; cbv beta.
Ltac wp_steps := repeat wp_step.
