(* ===== verification/Pci.v ===== *)
(** * The virtio PCI transport

    VirtIO/VirtIOPCICommon.c, VirtIOPCIModern.c and VirtIOPCILegacy.c: finding the
    capabilities of the device, mapping its registers, the status and feature
    handshake, the device configuration space, and setting up and deleting queues.

    The functions of [virtio_system_ops], which each driver supplies, are the class
    [VirtIOSystemOps] over the state [E] of the platform and of the device behind its
    registers.  They give zeroed memory, as the ones of VirtIO/WDF/Callbacks.c do.
    Sizes of structures are those of the 64-bit build. *)

From Stdlib Require Import ZArith Lia.
From stdpp Require Import base list numbers option.
From S2P Require Import Prelude.
From S2P Require Import Effects.
From S2P Require Import Virtio.
From S2P Require Import SplitRing.
From S2P Require Import PackedRing.

Definition STATUS_DEVICE_BUSY : Z := 0x80000011.
Definition STATUS_DEVICE_NOT_CONNECTED : Z := 0xC000009D.
Definition STATUS_NOT_FOUND : Z := 0xC0000225.

Definition VIRTIO_CONFIG_S_ACKNOWLEDGE : Z := 1.
Definition VIRTIO_CONFIG_S_DRIVER : Z := 2.
Definition VIRTIO_CONFIG_S_DRIVER_OK : Z := 4.
Definition VIRTIO_CONFIG_S_FEATURES_OK : Z := 8.
Definition VIRTIO_CONFIG_S_FAILED : Z := 0x80.
Definition VIRTIO_F_ANY_LAYOUT : Z := 27.
Definition VIRTIO_F_ACCESS_PLATFORM : Z := 33.
Definition VIRTIO_F_RING_PACKED : Z := 34.

(** The registers of a legacy device, by their offsets in BAR 0. *)
Definition VIRTIO_PCI_HOST_FEATURES : Z := 0.
Definition VIRTIO_PCI_GUEST_FEATURES : Z := 4.
Definition VIRTIO_PCI_QUEUE_PFN : Z := 8.
Definition VIRTIO_PCI_QUEUE_NUM : Z := 12.
Definition VIRTIO_PCI_QUEUE_SEL : Z := 14.
Definition VIRTIO_PCI_QUEUE_NOTIFY : Z := 16.
Definition VIRTIO_PCI_STATUS : Z := 18.
Definition VIRTIO_PCI_ISR : Z := 19.
Definition VIRTIO_MSI_CONFIG_VECTOR : Z := 20.
Definition VIRTIO_MSI_QUEUE_VECTOR : Z := 22.
Definition VIRTIO_PCI_CONFIG (msix_enabled : bool) : Z := if msix_enabled then 24 else 20.
Definition VIRTIO_PCI_QUEUE_ADDR_SHIFT : Z := 12.
Definition VIRTIO_PCI_VRING_ALIGN : Z := 4096.
Definition VIRTIO_MSI_NO_VECTOR : Z := 0xffff.

(** The vendor capabilities of a modern device. *)
Definition VIRTIO_PCI_CAP_COMMON_CFG : Z := 1.
Definition VIRTIO_PCI_CAP_NOTIFY_CFG : Z := 2.
Definition VIRTIO_PCI_CAP_ISR_CFG : Z := 3.
Definition VIRTIO_PCI_CAP_DEVICE_CFG : Z := 4.
Definition VIRTIO_PCI_CAP_SHARED_MEMORY_CFG : Z := 8.
Definition VIRTIO_PCI_CAP_MAX : Z := VIRTIO_PCI_CAP_SHARED_MEMORY_CFG + 1.

(** Offsets in [struct virtio_pci_cap], [virtio_pci_notify_cap] and
    [virtio_pci_cap64]. *)
Definition cap_cfg_type : Z := 3.
Definition cap_bar : Z := 4.
Definition cap_id : Z := 5.
Definition cap_offset_lo : Z := 8.
Definition cap_length_lo : Z := 12.
Definition notify_off_multiplier : Z := 16.
Definition cap_offset_hi : Z := 16.
Definition cap_length_hi : Z := 20.

(** The fields of [struct virtio_pci_common_cfg] and their offsets. *)
Inductive common_reg :=
  | device_feature_select | device_feature | guest_feature_select | guest_feature
  | msix_config | num_queues | device_status | config_generation
  | queue_select | queue_size | queue_msix_vector | queue_enable | queue_notify_off
  | queue_desc_lo | queue_desc_hi | queue_avail_lo | queue_avail_hi | queue_used_lo | queue_used_hi.
Definition reg_offset (r : common_reg) : Z :=
  match r with
  | device_feature_select => 0 | device_feature => 4 | guest_feature_select => 8 | guest_feature => 12
  | msix_config => 16 | num_queues => 18 | device_status => 20 | config_generation => 21
  | queue_select => 22 | queue_size => 24 | queue_msix_vector => 26 | queue_enable => 28
  | queue_notify_off => 30 | queue_desc_lo => 32 | queue_desc_hi => 36 | queue_avail_lo => 40
  | queue_avail_hi => 44 | queue_used_lo => 48 | queue_used_hi => 52
  end.
Definition sizeof_virtio_pci_common_cfg : Z := 56.
Definition MAX_QUEUES_PER_DEVICE_DEFAULT : Z := 8.

(** The PCI configuration header. *)
Definition PCI_HeaderType : Z := 14.
Definition PCI_Status : Z := 6.
Definition PCI_STATUS_CAPABILITIES_LIST : Z := 0x10.
Definition PCI_MULTIFUNCTION : Z := 0x80.
Definition PCI_DEVICE_TYPE : Z := 0.
Definition PCI_BRIDGE_TYPE : Z := 1.
Definition PCI_CARDBUS_BRIDGE_TYPE : Z := 2.
Definition PCI_CAPABILITY_ID_VENDOR_SPECIFIC : Z := 9.
Definition PCI_TYPE0_ADDRESSES : Z := 6.
Definition PCI_ADDRESS_IO_SPACE : Z := 1.
Definition PCI_ADDRESS_IO_ADDRESS_MASK : Z := 0xfffffffc.
Definition PCI_ADDRESS_MEMORY_TYPE_MASK : Z := 6.
Definition PCI_TYPE_64BIT : Z := 4.
Definition PCI_ADDRESS_MEMORY_ADDRESS_MASK : Z := 0xfffffff0.

(** ** Data *)

(** A virtqueue: one of the two ring formats with the fields of [struct virtqueue]
    that the transport sets.  [vq_va] is the address of the control block. *)
Inductive ring :=
  | SplitQ (q : virtqueue_split)
  | PackedQ (q : virtqueue_packed).
Record virtqueue := mk_vq {
  vq_va : Z; vq_index : Z; vq_ring : ring; avail_va : Z; used_va : Z; notification_addr : Z }.
#[export] Instance eta_virtqueue : Eta virtqueue := fun q =>
  mk_vq (vq_va q) (vq_index q) (vq_ring q) (avail_va q) (used_va q) (notification_addr q).

Record VirtIOQueueInfo := mk_info { info_vq : option virtqueue; info_num : Z; info_queue : Z }.
#[export] Instance eta_info : Eta VirtIOQueueInfo := fun i =>
  mk_info (info_vq i) (info_num i) (info_queue i).
Definition zero_info : VirtIOQueueInfo := mk_info None 0 0.

(** What [vdev->info] points to: nothing, the array inside the structure, or a block
    at an address. *)
Inductive info_ptr := InfoNull | InfoInline | InfoBlock (va : Z) (infos : list VirtIOQueueInfo).

Inductive transport := Legacy | Modern.

(** [struct virtio_device]. *)
Record virtio_device := mk_device {
  io_addr : Z;
  msix_used : bool;
  event_suppression : bool;
  packed_ring : bool;
  device : option transport;
  isr : Z;
  common : Z;
  config : Z;
  notify_base : Z;
  notify_map_cap : Z;
  notify_offset_multiplier : Z;
  config_len : Z;
  notify_len : Z;
  shmem_base : Z;
  shmem_len : Z;
  shmem_offset : Z;
  shmem_bar : Z;
  shmem_id : Z;
  maxQueues : Z;
  info : info_ptr;
  inline_info : list VirtIOQueueInfo }.
#[export] Instance eta_device : Eta virtio_device := fun v =>
  mk_device (io_addr v) (msix_used v) (event_suppression v) (packed_ring v) (device v) (isr v)
    (common v) (config v) (notify_base v) (notify_map_cap v) (notify_offset_multiplier v)
    (config_len v) (notify_len v) (shmem_base v) (shmem_len v) (shmem_offset v) (shmem_bar v)
    (shmem_id v) (maxQueues v) (info v) (inline_info v).

Definition zero_device : virtio_device :=
  mk_device 0 false false false None 0 0 0 0 0 0 0 0 0 0 0 0 0 0 InfoNull
    (replicate (Z.to_nat MAX_QUEUES_PER_DEVICE_DEFAULT) zero_info).

(** [struct virtio_system_ops].  A read of the PCI configuration space gives [None]
    when it fails, and leaves the caller's variable as it was. *)
Class VirtIOSystemOps (E : Type) := {
  vdev_read_byte : Z -> M E Z;
  vdev_read_word : Z -> M E Z;
  vdev_read_dword : Z -> M E Z;
  vdev_write_byte : Z -> Z -> M E unit;
  vdev_write_word : Z -> Z -> M E unit;
  vdev_write_dword : Z -> Z -> M E unit;
  mem_alloc_contiguous_pages : Z -> M E Z;
  mem_free_contiguous_pages : Z -> M E unit;
  mem_get_physical_address : Z -> M E Z;
  mem_alloc_nonpaged_block : Z -> M E Z;
  mem_free_nonpaged_block : Z -> M E unit;
  pci_read_config_byte : Z -> M E (option Z);
  pci_read_config_word : Z -> M E (option Z);
  pci_read_config_dword : Z -> M E (option Z);
  pci_get_resource_len : Z -> M E Z;
  pci_map_address_range : Z -> Z -> Z -> M E Z;
  vdev_get_msix_vector : Z -> M E Z;
  vdev_sleep : Z -> M E unit }.

(** The virtio device of a driver and what lies behind its callbacks. *)
Record vst (E : Type) := mk_st { vdev : virtio_device; env : E }.
Arguments mk_st {E} _ _.
Arguments vdev {E} _.
Arguments env {E} _.
#[export] Instance eta_vst E : Eta (vst E) := fun s => mk_st (vdev s) (env s).

(** ** Sizes *)

Definition ROUND_TO_PAGES (x : Z) : Z := Z.land (u64 (x + PAGE_SIZE - 1)) (u64 (Z.lnot (PAGE_SIZE - 1))).

Definition vring_size (num align : Z) (packed : bool) : Z :=
  if packed then vring_size_packed num align else vring_size_split num align.

Definition sizeof_virtqueue_split : Z := 184.
Definition sizeof_virtqueue_packed : Z := 200.
Definition sizeof_vring_desc_state_packed : Z := 16.
Definition vring_control_block_size_packed (qsize : Z) : Z :=
  u32 (sizeof_virtqueue_packed + sizeof_vring_desc_state_packed * qsize).
Definition vring_control_block_size (qsize : Z) (packed : bool) : Z :=
  if packed then vring_control_block_size_packed qsize else u32 (sizeof_virtqueue_split + 8 * qsize).
Definition virtio_get_queue_descriptor_size : Z := 24.

(** [vring_pci_size] of VirtIOPCIModern.c. *)
Definition vring_pci_size (num : Z) (packed : bool) : Z :=
  ROUND_TO_PAGES (vring_size num SMP_CACHE_BYTES packed).

Fixpoint le_join (bytes : list Z) : Z :=
  match bytes with [] => 0 | b :: bytes => b + 256 * le_join bytes end.
Fixpoint le_split (n : nat) (v : Z) : list Z :=
  match n with O => [] | S n => v mod 256 :: le_split n (v / 256) end.

Section transport.
Context {E : Type} `{VirtIOSystemOps E}.
#[local] Abbreviation IO := (M (vst E)).

Definition sys {A} (m : M E A) : IO A :=
  fun s => match m (env s) with Ok (a, e) => Ok (a, s <| env := e |>) | Fault f => Fault f end.
Definition dev {A} (f : virtio_device -> A) : IO A := gets (fun s => f (vdev s)).
Definition set_dev (f : virtio_device -> virtio_device) : IO unit :=
  modify (fun s => s <| vdev := f (vdev s) |>).

(** The access macros of virtio_pci_common.h; the types of the callbacks truncate. *)
Definition ioread8 (a : Z) : IO Z := v ← sys (vdev_read_byte a); mret (u8 v).
Definition ioread16 (a : Z) : IO Z := v ← sys (vdev_read_word a); mret (u16 v).
Definition ioread32 (a : Z) : IO Z := v ← sys (vdev_read_dword a); mret (u32 v).
Definition iowrite8 (v a : Z) : IO unit := sys (vdev_write_byte a (u8 v)).
Definition iowrite16 (v a : Z) : IO unit := sys (vdev_write_word a (u16 v)).
Definition iowrite32 (v a : Z) : IO unit := sys (vdev_write_dword a (u32 v)).
Definition iowrite64_twopart (v lo hi : Z) : IO unit := iowrite32 v lo;; iowrite32 (Z.shiftr v 32) hi.

(** [&vdev->common->r] *)
Definition reg (r : common_reg) : IO Z := c ← dev common; mret (u64 (c + reg_offset r)).

Definition config_byte (where_ : Z) : IO (option Z) :=
  v ← sys (pci_read_config_byte where_); mret (option_map u8 v).
Definition config_word (where_ : Z) : IO (option Z) :=
  v ← sys (pci_read_config_word where_); mret (option_map u16 v).
Definition config_dword (where_ : Z) : IO (option Z) :=
  v ← sys (pci_read_config_dword where_); mret (option_map u32 v).
(** A read of the configuration space into a variable without an initial value. *)
Definition uninit (m : IO (option Z)) : IO Z :=
  v ← m; match v with Some x => mret x | None => throw Uninitialized end.
(** ... into a variable that holds 0. *)
Definition zeroed (m : IO (option Z)) : IO Z := v ← m; mret (default 0 v).

(** ** Queue information *)

Definition infos (v : virtio_device) : list VirtIOQueueInfo :=
  match info v with InfoNull => [] | InfoInline => inline_info v | InfoBlock _ l => l end.
Definition get_info (index : Z) : IO VirtIOQueueInfo := l ← dev infos; pure (zget l index).
Definition put_infos (l : list VirtIOQueueInfo) (v : virtio_device) : virtio_device :=
  match info v with
  | InfoNull => v
  | InfoInline => v <| inline_info := l |>
  | InfoBlock va _ => v <| info := InfoBlock va l |>
  end.
Definition set_info (index : Z) (f : VirtIOQueueInfo -> VirtIOQueueInfo) : IO unit :=
  i ← get_info index;
  set_dev (fun v => put_infos (zinsert index (f i) (infos v)) v).

(** ** The modern device *)

(** The result is the address, 0 for NULL, and what was stored to [len]. *)
Definition vio_modern_map_capability (cap_offset minlen alignment start size : Z) : IO (Z * option Z) :=
  bar ← uninit (config_byte (cap_offset + cap_bar));
  bar_offset ← uninit (config_dword (cap_offset + cap_offset_lo));
  bar_length ← uninit (config_dword (cap_offset + cap_length_lo));
  if u64 (start + minlen) >? bar_length then mret (0, None)
  else
    let bar_length := u32 (bar_length - start) in
    let bar_offset := u32 (bar_offset + start) in
    if truth (Z.land bar_offset (alignment - 1)) then mret (0, None)
    else
      let bar_length := if bar_length >? size then size else bar_length in
      n ← sys (pci_get_resource_len bar);
      if u64 (bar_offset + minlen) >? n then mret (0, Some bar_length)
      else addr ← sys (pci_map_address_range bar bar_offset bar_length); mret (addr, Some bar_length).

Definition vio_modern_map_simple_capability (cap_offset length alignment : Z) : IO Z :=
  r ← vio_modern_map_capability cap_offset length alignment 0 (u32 length); mret r.1.

Definition SIZE_MAX : Z := 18446744073709551615.

Definition vio_modern_map_shared_memory_capability (cap_offset : Z) : IO unit :=
  bar ← zeroed (config_byte (cap_offset + cap_bar));
  shm_id ← zeroed (config_byte (cap_offset + cap_id));
  off_lo ← zeroed (config_dword (cap_offset + cap_offset_lo));
  len_lo ← zeroed (config_dword (cap_offset + cap_length_lo));
  off_hi ← zeroed (config_dword (cap_offset + cap_offset_hi));
  len_hi ← zeroed (config_dword (cap_offset + cap_length_hi));
  let offset := Z.lor (Z.shiftl off_hi 32) off_lo in
  let length := Z.lor (Z.shiftl len_hi 32) len_lo in
  if length =? 0 then mret tt
  else if (offset >? SIZE_MAX) || (length >? SIZE_MAX) || (u64 (offset + length) >? SIZE_MAX) then mret tt
  else if bar >=? PCI_TYPE0_ADDRESSES then mret tt
  else
    n ← sys (pci_get_resource_len bar);
    if u64 (offset + length) >? n then mret tt
    else set_dev (fun v => v <| shmem_base := 0 |> <| shmem_len := length |> <| shmem_offset := offset |>
                             <| shmem_bar := bar |> <| shmem_id := shm_id |>).

(** The configuration is read and written as bytes in memory order. *)
Definition vio_modern_get_config (offset len : Z) : IO (list Z) :=
  c ← dev config;
  n ← dev config_len;
  assert (negb (c =? 0));;
  assert (negb (u32 (offset + len) >? n));;
  if len =? 1 then v ← ioread8 (u64 (c + offset)); mret (le_split 1 v)
  else if len =? 2 then v ← ioread16 (u64 (c + offset)); mret (le_split 2 v)
  else if len =? 4 then v ← ioread32 (u64 (c + offset)); mret (le_split 4 v)
  else throw AssertFailed.

Definition vio_modern_set_config (offset : Z) (buf : list Z) (len : Z) : IO unit :=
  c ← dev config;
  n ← dev config_len;
  assert (negb (c =? 0));;
  assert (negb (u32 (offset + len) >? n));;
  if len =? 1 then iowrite8 (le_join buf) (u64 (c + offset))
  else if len =? 2 then iowrite16 (le_join buf) (u64 (c + offset))
  else if len =? 4 then iowrite32 (le_join buf) (u64 (c + offset))
  else throw AssertFailed.

Definition vio_modern_get_generation : IO Z := a ← reg config_generation; ioread8 a.
Definition vio_modern_get_status : IO Z := a ← reg device_status; ioread8 a.
Definition vio_modern_set_status (status : Z) : IO unit :=
  assert (negb (status =? 0));; a ← reg device_status; iowrite8 status a.

(** The wait for the reset to take effect. *)
Fixpoint reset_wait (fuel : nat) : IO unit :=
  a ← reg device_status;
  st ← ioread8 a;
  if truth st then
    val ← config_word 0;
    match val with
    | None => mret tt
    | Some x =>
        if x =? 0xffff then mret tt
        else
          sys (vdev_sleep 1);;
          match fuel with O => throw OutOfFuel | S fuel => reset_wait fuel end
    end
  else mret tt.
Definition vio_modern_reset (fuel : nat) : IO unit :=
  a ← reg device_status; iowrite8 0 a;; reset_wait fuel.

Definition vio_modern_get_features : IO Z :=
  sel ← reg device_feature_select;
  df ← reg device_feature;
  iowrite32 0 sel;;
  lo ← ioread32 df;
  iowrite32 1 sel;;
  hi ← ioread32 df;
  mret (Z.lor lo (Z.shiftl hi 32)).

Definition vio_modern_set_features (features : Z) : IO Z :=
  let features := vring_transport_features features in
  if negb (virtio_is_feature_enabled features VIRTIO_F_VERSION_1) then mret STATUS_INVALID_PARAMETER
  else
    sel ← reg guest_feature_select;
    gf ← reg guest_feature;
    iowrite32 0 sel;;
    iowrite32 features gf;;
    iowrite32 1 sel;;
    iowrite32 (Z.shiftr features 32) gf;;
    mret STATUS_SUCCESS.

Definition vio_modern_set_config_vector (vector : Z) : IO Z :=
  a ← reg msix_config; iowrite16 vector a;; ioread16 a.

Definition vio_modern_set_queue_vector (vq : virtqueue) (vector : Z) : IO Z :=
  sel ← reg queue_select;
  a ← reg queue_msix_vector;
  iowrite16 (vq_index vq) sel;;
  iowrite16 vector a;;
  ioread16 a.

(** The status and, on success, the number of entries, the size of the ring and the
    size of the control block. *)
Definition vio_modern_query_vq_alloc (index : Z) : IO (Z * option (Z * Z * Z)) :=
  nq ← reg num_queues;
  n ← ioread16 nq;
  if index >=? n then mret (STATUS_NOT_FOUND, None)
  else
    sel ← reg queue_select;
    iowrite16 index sel;;
    qs ← reg queue_size;
    num ← ioread16 qs;
    if num =? 0 then mret (STATUS_NOT_FOUND, None)
    else if truth (Z.land num (num - 1)) then mret (STATUS_INVALID_PARAMETER, None)
    else
      packed ← dev packed_ring;
      mret (STATUS_SUCCESS, Some (num, u32 (vring_pci_size num packed), vring_control_block_size num packed)).

(** The loop that allocates the ring and halves its size on failure; [false] when it
    gives up. *)
Fixpoint alloc_ring (fuel : nat) (index : Z) : IO bool :=
  i ← get_info index;
  packed ← dev packed_ring;
  q ← sys (mem_alloc_contiguous_pages (vring_pci_size (info_num i) packed));
  set_info index (fun i => i <| info_queue := q |>);;
  if negb (q =? 0) then mret true
  else if info_num i >? 0 then
    set_info index (fun i => i <| info_num := info_num i / 2 |>);;
    match fuel with O => throw OutOfFuel | S fuel => alloc_ring fuel index end
  else mret false.

(** [vring_new_virtqueue_split] and [vring_new_virtqueue_packed] over zeroed pages at
    [pages], with the control block at [control]. *)
Definition vp_notify_cb : Z := 1.
Definition ring_device (v : virtio_device) : VirtIODevice := mk_vdev (event_suppression v) (io_addr v).
Definition new_virtqueue (v : virtio_device) (packed : bool) (index num align pages control : Z) : res (option virtqueue) :=
  if packed then
    q ← vring_new_virtqueue_packed index num (ring_device v) (zero_packed_ring num) (mk_event 0 0) (mk_event 0 0) vp_notify_cb;
    let avail := u64 (pages + num * sizeof_vring_packed_desc) in
    Ok (Some (mk_vq control index (PackedQ q) avail (u64 (avail + sizeof_vring_packed_desc_event)) 0))
  else
    o ← vring_new_virtqueue_split index num (ring_device v) (zero_mem num) vp_notify_cb;
    let '(_, avail, used) := vring_init num pages align in
    Ok (option_map (fun q => mk_vq control index (SplitQ q) avail used 0) o).

(** [virtqueue_shutdown] *)
Definition virtqueue_shutdown (vq : virtqueue) : res virtqueue :=
  match vq_ring vq with
  | SplitQ q => q ← virtqueue_shutdown_split q; Ok (vq <| vq_ring := SplitQ q |>)
  | PackedQ q => q ← virtqueue_shutdown_packed q; Ok (vq <| vq_ring := PackedQ q |>)
  end.

(** Writing the addresses of the three parts of the ring to the selected queue. *)
Definition activate_queue (num queue avail used : Z) : IO unit :=
  a ← reg queue_size; iowrite16 num a;;
  d_lo ← reg queue_desc_lo; d_hi ← reg queue_desc_hi;
  pa ← sys (mem_get_physical_address queue); iowrite64_twopart pa d_lo d_hi;;
  a_lo ← reg queue_avail_lo; a_hi ← reg queue_avail_hi;
  pa ← sys (mem_get_physical_address avail); iowrite64_twopart pa a_lo a_hi;;
  u_lo ← reg queue_used_lo; u_hi ← reg queue_used_hi;
  pa ← sys (mem_get_physical_address used); iowrite64_twopart pa u_lo u_hi.

(** The notification address of a queue with [queue_notify_off] [off], or the status
    of the failure. *)
Definition map_notify (off : Z) : IO (Z + Z) :=
  base ← dev notify_base;
  mult ← dev notify_offset_multiplier;
  nlen ← dev notify_len;
  cap ← dev notify_map_cap;
  if negb (base =? 0) then
    if off * mult + 2 >? nlen then mret (inr STATUS_INVALID_PARAMETER)
    else mret (inl (u64 (base + u32 (off * mult))))
  else
    r ← vio_modern_map_capability cap 2 2 (u32 (off * mult)) 2; mret (inl r.1).

(** The error exits of [vio_modern_setup_vq]. *)
Definition setup_undo (vq : option virtqueue) (vq_addr queue : Z) : IO unit :=
  (match vq with Some vq => _ ← pure (virtqueue_shutdown vq); mret tt | None => mret tt end);;
  sys (mem_free_nonpaged_block vq_addr);;
  sys (mem_free_contiguous_pages queue).

(** From the created virtqueue to the enabled queue. *)
Definition setup_activate (vq : virtqueue) (vq_addr index off msix_vec : Z) : IO (Z * option virtqueue) :=
  i ← get_info index;
  activate_queue (info_num i) (info_queue i) (avail_va vq) (used_va vq);;
  n ← map_notify off;
  match n with
  | inr status => setup_undo (Some vq) vq_addr (info_queue i);; mret (status, None)
  | inl addr =>
      let vq := vq <| notification_addr := addr |> in
      if addr =? 0 then setup_undo (Some vq) vq_addr (info_queue i);; mret (STATUS_INSUFFICIENT_RESOURCES, None)
      else
        vec ← (if negb (msix_vec =? VIRTIO_MSI_NO_VECTOR) then
                 v ← vio_modern_set_queue_vector vq msix_vec; mret (Some v)
               else mret None);
        if decide (vec = Some VIRTIO_MSI_NO_VECTOR) then
          setup_undo (Some vq) vq_addr (info_queue i);; mret (STATUS_DEVICE_BUSY, None)
        else
          en ← reg queue_enable; iowrite16 1 en;; mret (STATUS_SUCCESS, Some vq)
  end.

Definition vio_modern_setup_vq (index msix_vec : Z) : IO (Z * option virtqueue) :=
  '(status, alloc) ← vio_modern_query_vq_alloc index;
  match alloc with
  | None => mret (status, None)
  | Some (num, ring_size, heap_size) =>
      set_info index (fun i => i <| info_num := num |>);;
      a ← reg queue_notify_off; off ← ioread16 a;
      ok ← alloc_ring 16 index;
      if negb ok then mret (STATUS_INSUFFICIENT_RESOURCES, None)
      else
        vq_addr ← sys (mem_alloc_nonpaged_block heap_size);
        if vq_addr =? 0 then mret (STATUS_INSUFFICIENT_RESOURCES, None)
        else
          i ← get_info index;
          v ← dev id;
          vq ← pure (new_virtqueue v (packed_ring v) index (info_num i) SMP_CACHE_BYTES (info_queue i) vq_addr);
          match vq with
          | None => setup_undo None vq_addr (info_queue i);; mret (STATUS_INSUFFICIENT_RESOURCES, None)
          | Some vq => setup_activate vq vq_addr index off msix_vec
          end
  end.

Definition vio_modern_del_vq (index : Z) : IO unit :=
  i ← get_info index;
  match info_vq i with
  | None => throw NullPointer
  | Some vq =>
      sel ← reg queue_select; iowrite16 (vq_index vq) sel;;
      msix ← dev msix_used;
      (if (msix : bool) then
         a ← reg queue_msix_vector; iowrite16 VIRTIO_MSI_NO_VECTOR a;; _ ← ioread16 a; mret tt
       else mret tt);;
      _ ← pure (virtqueue_shutdown vq);
      sys (mem_free_nonpaged_block (vq_va vq));;
      sys (mem_free_contiguous_pages (info_queue i))
  end.

(** The search of [find_next_pci_vendor_capability]; [n] iterations are left. *)
Fixpoint next_vendor_capability (n : nat) (offset : Z) : IO Z :=
  match n with
  | O => mret 0
  | S n =>
      if offset >=? 0x40 then
        let offset := Z.land offset 0xfc in
        id ← config_byte offset;
        match id with
        | None => mret 0
        | Some id =>
            if id =? 0xFF then mret 0
            else if id =? PCI_CAPABILITY_ID_VENDOR_SPECIFIC then mret offset
            else
              o ← config_byte (offset + 1);
              match o with None => mret 0 | Some offset => next_vendor_capability n offset end
        end
      else mret 0
  end.
Definition find_next_pci_vendor_capability (offset : Z) : IO Z :=
  o ← config_byte offset;
  match o with None => mret 0 | Some offset => next_vendor_capability 48 offset end.

Definition find_first_pci_vendor_capability : IO Z :=
  hdr_type ← config_byte PCI_HeaderType;
  match hdr_type with
  | None => mret 0
  | Some hdr_type =>
      status ← config_word PCI_Status;
      match status with
      | None => mret 0
      | Some status =>
          if Z.land status PCI_STATUS_CAPABILITIES_LIST =? 0 then mret 0
          else
            let t := Z.land hdr_type (Z.lnot PCI_MULTIFUNCTION) in
            let offset := if t =? PCI_BRIDGE_TYPE then 0x34
                          else if t =? PCI_CARDBUS_BRIDGE_TYPE then 0x14 else 0x34 in
            find_next_pci_vendor_capability offset
      end
  end.

Fixpoint vendor_capabilities (fuel : nat) (offset : Z) (Offsets : list Z) : IO (list Z) :=
  if offset >? 0 then
    cfg_type ← uninit (config_byte (offset + cap_cfg_type));
    bar ← uninit (config_byte (offset + cap_bar));
    Offsets ← (if (bar <? PCI_TYPE0_ADDRESSES) && (cfg_type <? zlen Offsets) then
                 n ← sys (pci_get_resource_len bar);
                 mret (if n >? 0 then zinsert cfg_type offset Offsets else Offsets)
               else mret Offsets);
    offset ← find_next_pci_vendor_capability (u8 (offset + 1));
    match fuel with O => throw OutOfFuel | S fuel => vendor_capabilities fuel offset Offsets end
  else mret Offsets.
Definition find_pci_vendor_capabilities (fuel : nat) (Offsets : list Z) : IO (list Z) :=
  offset ← find_first_pci_vendor_capability; vendor_capabilities fuel offset Offsets.

(** Mapping the notification area, whole if it fits a page. *)
Definition init_notify (cap : Z) : IO Z :=
  mult ← config_dword (cap + notify_off_multiplier);
  set_dev (fun v => v <| notify_offset_multiplier := default (notify_offset_multiplier v) mult |>);;
  notify_length ← uninit (config_dword (cap + cap_length_lo));
  notify_offset ← uninit (config_dword (cap + cap_offset_lo));
  if u32 (notify_length + notify_offset mod PAGE_SIZE) <=? PAGE_SIZE then
    r ← vio_modern_map_capability cap 2 2 0 notify_length;
    set_dev (fun v => v <| notify_base := r.1 |> <| notify_len := default (notify_len v) r.2 |>);;
    mret (if r.1 =? 0 then STATUS_INVALID_PARAMETER else STATUS_SUCCESS)
  else
    set_dev (fun v => v <| notify_map_cap := cap |>);; mret STATUS_SUCCESS.

Definition init_config (cap : Z) : IO Z :=
  if cap =? 0 then mret STATUS_SUCCESS
  else
    r ← vio_modern_map_capability cap 0 4 0 PAGE_SIZE;
    set_dev (fun v => v <| config := r.1 |> <| config_len := default (config_len v) r.2 |>);;
    mret (if r.1 =? 0 then STATUS_INVALID_PARAMETER else STATUS_SUCCESS).

Definition vio_modern_initialize (fuel : nat) : IO Z :=
  set_dev (fun v => v <| shmem_base := 0 |> <| shmem_len := 0 |> <| shmem_offset := 0 |>
                      <| shmem_bar := 0 |> <| shmem_id := 0 |>);;
  capabilities ← find_pci_vendor_capabilities fuel (replicate (Z.to_nat VIRTIO_PCI_CAP_MAX) 0);
  common_cap ← pure (zget capabilities VIRTIO_PCI_CAP_COMMON_CFG);
  isr_cap ← pure (zget capabilities VIRTIO_PCI_CAP_ISR_CFG);
  notify_cap ← pure (zget capabilities VIRTIO_PCI_CAP_NOTIFY_CFG);
  config_cap ← pure (zget capabilities VIRTIO_PCI_CAP_DEVICE_CFG);
  shm_cap ← pure (zget capabilities VIRTIO_PCI_CAP_SHARED_MEMORY_CFG);
  if common_cap =? 0 then mret STATUS_DEVICE_NOT_CONNECTED
  else if (isr_cap =? 0) || (notify_cap =? 0) then mret STATUS_INVALID_PARAMETER
  else
    c ← vio_modern_map_simple_capability common_cap sizeof_virtio_pci_common_cfg 4;
    set_dev (fun v => v <| common := c |>);;
    if c =? 0 then mret STATUS_INVALID_PARAMETER
    else
      a ← vio_modern_map_simple_capability isr_cap 1 1;
      set_dev (fun v => v <| isr := a |>);;
      if a =? 0 then mret STATUS_INVALID_PARAMETER
      else
        status ← init_notify notify_cap;
        if negb (NT_SUCCESS status) then mret status
        else
          status ← init_config config_cap;
          if negb (NT_SUCCESS status) then mret status
          else
            (if shm_cap =? 0 then mret tt else vio_modern_map_shared_memory_capability shm_cap);;
            set_dev (fun v => v <| device := Some Modern |>);;
            mret STATUS_SUCCESS.

(** ** The legacy device *)

Definition lreg (r : Z) : IO Z := a ← dev io_addr; mret (u64 (a + r)).

Fixpoint read_bytes (n : nat) (a : Z) : IO (list Z) :=
  match n with
  | O => mret []
  | S n => b ← ioread8 a; bs ← read_bytes n (u64 (a + 1)); mret (b :: bs)
  end.
Definition vio_legacy_get_config (offset len : Z) : IO (list Z) :=
  msix ← dev msix_used;
  a ← lreg (VIRTIO_PCI_CONFIG msix + offset);
  read_bytes (Z.to_nat len) a.

Fixpoint write_bytes (bs : list Z) (a : Z) : IO unit :=
  match bs with
  | [] => mret tt
  | b :: bs => iowrite8 b a;; write_bytes bs (u64 (a + 1))
  end.
Definition vio_legacy_set_config (offset : Z) (buf : list Z) (len : Z) : IO unit :=
  msix ← dev msix_used;
  a ← lreg (VIRTIO_PCI_CONFIG msix + offset);
  write_bytes (take (Z.to_nat len) buf) a.

Definition vio_legacy_get_status : IO Z := a ← lreg VIRTIO_PCI_STATUS; ioread8 a.
Definition vio_legacy_set_status (status : Z) : IO unit := a ← lreg VIRTIO_PCI_STATUS; iowrite8 status a.
Definition vio_legacy_reset : IO unit := a ← lreg VIRTIO_PCI_STATUS; iowrite8 0 a.
Definition vio_legacy_get_features : IO Z := a ← lreg VIRTIO_PCI_HOST_FEATURES; ioread32 a.
Definition vio_legacy_set_features (features : Z) : IO Z :=
  let features := vring_transport_features features in
  assert (u32 features =? features);;
  a ← lreg VIRTIO_PCI_GUEST_FEATURES;
  iowrite32 features a;;
  mret STATUS_SUCCESS.
Definition vio_legacy_set_config_vector (vector : Z) : IO Z :=
  a ← lreg VIRTIO_MSI_CONFIG_VECTOR; iowrite16 vector a;; ioread16 a.
Definition vio_legacy_set_queue_vector (vq : virtqueue) (vector : Z) : IO Z :=
  sel ← lreg VIRTIO_PCI_QUEUE_SEL;
  a ← lreg VIRTIO_MSI_QUEUE_VECTOR;
  iowrite16 (vq_index vq) sel;;
  iowrite16 vector a;;
  ioread16 a.

Definition vio_legacy_query_vq_alloc (index : Z) : IO (Z * option (Z * Z * Z)) :=
  sel ← lreg VIRTIO_PCI_QUEUE_SEL;
  iowrite16 index sel;;
  a ← lreg VIRTIO_PCI_QUEUE_NUM;
  num ← ioread16 a;
  if num =? 0 then mret (STATUS_NOT_FOUND, None)
  else
    a ← lreg VIRTIO_PCI_QUEUE_PFN;
    pfn ← ioread32 a;
    if negb (pfn =? 0) then mret (STATUS_NOT_FOUND, None)
    else
      let ring_size := u32 (ROUND_TO_PAGES (vring_size num VIRTIO_PCI_VRING_ALIGN false)) in
      let data_size := u32 (ROUND_TO_PAGES (vring_control_block_size num false)) in
      mret (STATUS_SUCCESS, Some (num, u32 (ring_size + data_size), 0)).

Definition legacy_undo (queue : Z) : IO unit :=
  a ← lreg VIRTIO_PCI_QUEUE_PFN; iowrite32 0 a;; sys (mem_free_contiguous_pages queue).

Definition vio_legacy_setup_vq (index msix_vec : Z) : IO (Z * option virtqueue) :=
  '(status, alloc) ← vio_legacy_query_vq_alloc index;
  match alloc with
  | None => mret (status, None)
  | Some (num, ring_size, heap_size) =>
      set_info index (fun i => i <| info_num := num |>);;
      q ← sys (mem_alloc_contiguous_pages ring_size);
      set_info index (fun i => i <| info_queue := q |>);;
      if q =? 0 then mret (STATUS_INSUFFICIENT_RESOURCES, None)
      else
        pa ← sys (mem_get_physical_address q);
        a ← lreg VIRTIO_PCI_QUEUE_PFN;
        iowrite32 (Z.shiftr pa VIRTIO_PCI_QUEUE_ADDR_SHIFT) a;;
        v ← dev id;
        let control := u64 (q + ROUND_TO_PAGES (vring_size num VIRTIO_PCI_VRING_ALIGN false)) in
        vq ← pure (new_virtqueue v false index num VIRTIO_PCI_VRING_ALIGN q control);
        match vq with
        | None => legacy_undo q;; mret (STATUS_INSUFFICIENT_RESOURCES, None)
        | Some vq =>
            a ← lreg VIRTIO_PCI_QUEUE_NOTIFY;
            let vq := vq <| notification_addr := a |> in
            vec ← (if negb (msix_vec =? VIRTIO_MSI_NO_VECTOR) then
                     v ← vio_legacy_set_queue_vector vq msix_vec; mret (Some v)
                   else mret None);
            if decide (vec = Some VIRTIO_MSI_NO_VECTOR) then
              legacy_undo q;; mret (STATUS_DEVICE_BUSY, None)
            else mret (STATUS_SUCCESS, Some vq)
        end
  end.

Definition vio_legacy_del_vq (index : Z) : IO unit :=
  i ← get_info index;
  match info_vq i with
  | None => throw NullPointer
  | Some vq =>
      sel ← lreg VIRTIO_PCI_QUEUE_SEL; iowrite16 (vq_index vq) sel;;
      msix ← dev msix_used;
      (if (msix : bool) then
         a ← lreg VIRTIO_MSI_QUEUE_VECTOR; iowrite16 VIRTIO_MSI_NO_VECTOR a;;
         a ← lreg VIRTIO_PCI_ISR; _ ← ioread8 a; mret tt
       else mret tt);;
      a ← lreg VIRTIO_PCI_QUEUE_PFN; iowrite32 0 a;;
      sys (mem_free_contiguous_pages (info_queue i))
  end.

Definition vio_legacy_initialize : IO Z :=
  length ← sys (pci_get_resource_len 0);
  a ← sys (pci_map_address_range 0 0 length);
  set_dev (fun v => v <| io_addr := a |>);;
  if a =? 0 then mret STATUS_INSUFFICIENT_RESOURCES
  else
    set_dev (fun v => v <| isr := u64 (a + VIRTIO_PCI_ISR) |> <| device := Some Legacy |>);;
    mret STATUS_SUCCESS.

(** ** The common part

    [vdev->device] selects one of the two tables of operations. *)

Definition ops {A} (legacy modern : IO A) : IO A :=
  t ← dev device;
  match t with None => throw NullPointer | Some Legacy => legacy | Some Modern => modern end.

Definition virtio_get_status : IO Z := ops vio_legacy_get_status vio_modern_get_status.
Definition virtio_set_status (status : Z) : IO unit :=
  ops (vio_legacy_set_status status) (vio_modern_set_status status).
Definition virtio_add_status (status : Z) : IO unit :=
  st ← virtio_get_status; virtio_set_status (u8 (Z.lor st status)).
Definition virtio_device_reset (fuel : nat) : IO unit := ops vio_legacy_reset (vio_modern_reset fuel).
Definition virtio_device_ready : IO unit :=
  st ← virtio_get_status;
  assert (negb (truth (Z.land st VIRTIO_CONFIG_S_DRIVER_OK)));;
  virtio_set_status (u8 (Z.lor st VIRTIO_CONFIG_S_DRIVER_OK)).
Definition virtio_get_features : IO Z := ops vio_legacy_get_features vio_modern_get_features.

Definition virtio_device_initialize (fuel : nat) (msix : bool) : IO Z :=
  set_dev (fun _ => zero_device <| msix_used := msix |> <| info := InfoInline |>
                                <| maxQueues := MAX_QUEUES_PER_DEVICE_DEFAULT |>);;
  status ← vio_modern_initialize fuel;
  status ← (if status =? STATUS_DEVICE_NOT_CONNECTED then vio_legacy_initialize else mret status);
  if NT_SUCCESS status then
    virtio_device_reset fuel;;
    virtio_add_status VIRTIO_CONFIG_S_ACKNOWLEDGE;;
    virtio_add_status VIRTIO_CONFIG_S_DRIVER;;
    mret status
  else mret status.

Definition virtio_device_shutdown : IO unit :=
  p ← dev info;
  match p with
  | InfoBlock va _ => sys (mem_free_nonpaged_block va);; set_dev (fun v => v <| info := InfoNull |>)
  | _ => mret tt
  end.

Definition virtio_set_features (features : Z) : IO Z :=
  set_dev (fun v => v <| event_suppression := virtio_is_feature_enabled features VIRTIO_RING_F_EVENT_IDX |>
                      <| packed_ring := virtio_is_feature_enabled features VIRTIO_F_RING_PACKED |>);;
  status ← ops (vio_legacy_set_features features) (vio_modern_set_features features);
  if negb (NT_SUCCESS status) then mret status
  else if negb (virtio_is_feature_enabled features VIRTIO_F_VERSION_1) then mret status
  else
    virtio_add_status VIRTIO_CONFIG_S_FEATURES_OK;;
    dev_status ← virtio_get_status;
    mret (if truth (Z.land dev_status VIRTIO_CONFIG_S_FEATURES_OK) then status else STATUS_INVALID_PARAMETER).

Definition get_config_op (offset len : Z) : IO (list Z) :=
  ops (vio_legacy_get_config offset len) (vio_modern_get_config offset len).
Definition set_config_op (offset : Z) (buf : list Z) (len : Z) : IO unit :=
  ops (vio_legacy_set_config offset buf len) (vio_modern_set_config offset buf len).
Definition config_generation_op : IO Z := ops (mret 0) vio_modern_get_generation.

(** The [for] loop of [virtio_cread_many] from field [i]. *)
Fixpoint cread_fields (n : nat) (i offset bytes : Z) : IO (list Z) :=
  match n with
  | O => mret []
  | S n =>
      b ← get_config_op (u32 (offset + bytes * i)) bytes;
      bs ← cread_fields n (i + 1) offset bytes;
      mret (b ++ bs)
  end.
Fixpoint cread_loop (fuel : nat) (old : Z) (count : nat) (offset bytes : Z) : IO (list Z) :=
  buf ← cread_fields count 0 offset bytes;
  gen ← config_generation_op;
  if gen =? old then mret buf
  else match fuel with O => throw OutOfFuel | S fuel => cread_loop fuel gen count offset bytes end.
Definition virtio_cread_many (fuel : nat) (offset count bytes : Z) : IO (list Z) :=
  gen ← config_generation_op; cread_loop fuel gen (Z.to_nat count) offset bytes.

Definition virtio_get_config (fuel : nat) (offset len : Z) : IO (list Z) :=
  if (len =? 1) || (len =? 2) || (len =? 4) then get_config_op offset len
  else if len =? 8 then virtio_cread_many fuel offset 2 4
  else virtio_cread_many fuel offset len 1.

Fixpoint virtio_cwrite_many (n : nat) (i offset : Z) (buf : list Z) (bytes : Z) : IO unit :=
  match n with
  | O => mret tt
  | S n =>
      set_config_op (u32 (offset + bytes * i)) (take (Z.to_nat bytes) buf) bytes;;
      virtio_cwrite_many n (i + 1) offset (drop (Z.to_nat bytes) buf) bytes
  end.
Definition virtio_set_config (offset : Z) (buf : list Z) (len : Z) : IO unit :=
  if (len =? 1) || (len =? 2) || (len =? 4) then set_config_op offset buf len
  else if len =? 8 then virtio_cwrite_many 2 0 offset buf 4
  else virtio_cwrite_many (Z.to_nat len) 0 offset buf 1.

Definition virtio_query_queue_allocation (index : Z) : IO (Z * option (Z * Z * Z)) :=
  ops (vio_legacy_query_vq_alloc index) (vio_modern_query_vq_alloc index).

Definition virtio_reserve_queue_memory (nvqs : Z) : IO Z :=
  v ← dev id;
  if nvqs >? maxQueues v then
    new_info ← sys (mem_alloc_nonpaged_block (u32 (nvqs * virtio_get_queue_descriptor_size)));
    if new_info =? 0 then mret STATUS_INSUFFICIENT_RESOURCES
    else
      (match info v with InfoBlock va _ => sys (mem_free_nonpaged_block va) | _ => mret tt end);;
      set_dev (fun v => v <| info := InfoBlock new_info (replicate (Z.to_nat nvqs) zero_info) |>
                          <| maxQueues := nvqs |>);;
      mret STATUS_SUCCESS
  else mret STATUS_SUCCESS.

Definition vp_setup_vq (index msix_vec : Z) : IO (Z * option virtqueue) :=
  '(status, vq) ← ops (vio_legacy_setup_vq index msix_vec) (vio_modern_setup_vq index msix_vec);
  (if NT_SUCCESS status then set_info index (fun i => i <| info_vq := vq |>) else mret tt);;
  mret (status, vq).

Definition get_msix_vector (queue : Z) : IO Z := v ← sys (vdev_get_msix_vector queue); mret (u16 v).

Definition virtio_find_queue (index : Z) : IO (Z * option virtqueue) :=
  msix_vec ← get_msix_vector index; vp_setup_vq index msix_vec.

Definition delete_queue_op (index : Z) : IO unit :=
  ops (vio_legacy_del_vq index) (vio_modern_del_vq index);;
  set_info index (fun i => i <| info_vq := None |>).

(** The loop of [virtio_delete_queues], [n] entries from [i]. *)
Fixpoint delete_queues_from (n : nat) (i : Z) : IO unit :=
  match n with
  | O => mret tt
  | S n =>
      x ← get_info i;
      (match info_vq x with None => mret tt | Some _ => delete_queue_op i end);;
      delete_queues_from n (i + 1)
  end.
Definition virtio_delete_queues : IO unit :=
  v ← dev id;
  match info v with InfoNull => mret tt | _ => delete_queues_from (Z.to_nat (maxQueues v)) 0 end.

(** [virtio_delete_queue]; the virtqueue names its index. *)
Definition virtio_delete_queue (vq : virtqueue) : IO unit := delete_queue_op (vq_index vq).

Definition set_config_vector_op (vector : Z) : IO Z :=
  ops (vio_legacy_set_config_vector vector) (vio_modern_set_config_vector vector).
Definition virtio_set_config_vector (vector : Z) : IO Z := set_config_vector_op vector.
Definition virtio_set_queue_vector (vq : virtqueue) (vector : Z) : IO Z :=
  ops (vio_legacy_set_queue_vector vq vector) (vio_modern_set_queue_vector vq vector).

(** The loop over the queues; the virtqueues found so far come out in order. *)
Fixpoint setup_queues (n : nat) (i : Z) : IO (Z * list virtqueue) :=
  match n with
  | O => mret (STATUS_SUCCESS, [])
  | S n =>
      msix_vec ← get_msix_vector i;
      '(status, vq) ← vp_setup_vq i msix_vec;
      if negb (NT_SUCCESS status) then mret (status, [])
      else
        '(status, vqs) ← setup_queues n (i + 1);
        mret (status, option_list vq ++ vqs)
  end.

Definition virtio_find_queues (nvqs : Z) : IO (Z * list virtqueue) :=
  status ← virtio_reserve_queue_memory nvqs;
  if negb (NT_SUCCESS status) then mret (status, [])
  else
    msix_vec ← get_msix_vector (-1);
    ok ← (if negb (msix_vec =? VIRTIO_MSI_NO_VECTOR) then
            v ← set_config_vector_op msix_vec; mret (negb (v =? VIRTIO_MSI_NO_VECTOR))
          else mret true);
    if negb ok then virtio_delete_queues;; mret (STATUS_DEVICE_BUSY, [])
    else
      '(status, vqs) ← setup_queues (Z.to_nat nvqs) 0;
      (if NT_SUCCESS status then mret tt else virtio_delete_queues);;
      mret (status, vqs).

Definition virtio_get_queue_size (vq : virtqueue) : IO Z := i ← get_info (vq_index vq); mret (info_num i).
Definition virtio_read_isr_status : IO Z := a ← dev isr; ioread8 a.

(** [vp_notify]: the index of the queue goes to its notification address. *)
Definition vp_notify (vq : virtqueue) : IO bool :=
  iowrite16 (vq_index vq) (notification_addr vq);; mret true.
Definition virtqueue_notify (vq : virtqueue) : IO unit := _ ← vp_notify vq; mret tt.
Definition ring_kick_prepare (r : ring) : bool * ring :=
  match r with
  | SplitQ q => let '(b, q) := virtqueue_kick_prepare_split q in (b, SplitQ q)
  | PackedQ q => let '(b, q) := virtqueue_kick_prepare_packed q in (b, PackedQ q)
  end.
Definition virtqueue_kick (vq : virtqueue) : IO virtqueue :=
  let '(b, r) := ring_kick_prepare (vq_ring vq) in
  let vq := vq <| vq_ring := r |> in
  (if (b : bool) then virtqueue_notify vq else mret tt);; mret vq.

End transport.

(** ** Base address registers

    [virtio_get_bar_index] on the six base addresses of a type 0 header. *)
Fixpoint bar_search (n : nat) (bars : list Z) (i BasePA : Z) : res Z :=
  match n with
  | O => Ok (-1)
  | S n =>
      if i <? PCI_TYPE0_ADDRESSES then
        lo ← zget bars i;
        if truth (Z.land lo PCI_ADDRESS_IO_SPACE) then
          if Z.land lo PCI_ADDRESS_IO_ADDRESS_MASK =? BasePA then Ok i else bar_search n bars (i + 1) BasePA
        else if Z.land lo PCI_ADDRESS_MEMORY_TYPE_MASK =? PCI_TYPE_64BIT then
          hi ← zget bars (i + 1);
          if Z.land lo PCI_ADDRESS_MEMORY_ADDRESS_MASK + Z.shiftl hi 32 =? BasePA then Ok i
          else bar_search n bars (i + 2) BasePA
        else if Z.land lo PCI_ADDRESS_MEMORY_ADDRESS_MASK =? BasePA then Ok i
        else bar_search n bars (i + 1) BasePA
      else Ok (-1)
  end.
Definition virtio_get_bar_index (HeaderType : Z) (bars : list Z) (BasePA : Z) : res Z :=
  _ ← ASSERT (Z.land HeaderType (Z.lnot PCI_MULTIFUNCTION) =? PCI_DEVICE_TYPE);
  bar_search (Z.to_nat PCI_TYPE0_ADDRESSES) bars 0 BasePA.
