(* ===== verification/PciSpec.v ===== *)
(** * The PCI transport owns the memory of its queues

    What the transport expects of the callbacks of a driver, [SystemLaws], and who owns
    the memory they hand out: every ring and every control block belongs to one queue,
    deleting the queues gives all of it back, and setting up a queue that fails keeps
    nothing but the ring pages it forgets when the control block cannot be allocated. *)

From Stdlib Require Import ZArith Lia.
From stdpp Require Import base list numbers option.
From S2P Require Import Prelude.
From S2P Require Import Effects.
From S2P Require Import Virtio.
From S2P Require Import SplitRing.
From S2P Require Import SplitRingSpec.
From S2P Require Import PackedRing.
From S2P Require Import PackedRingSpec.
From S2P Require Import Pci.

(** ** Rings *)

Definition ring_num (r : ring) : Z :=
  match r with SplitQ q => SplitRing.num q | PackedQ q => PackedRing.num q end.

(** A ring without buffers, all of whose descriptors are free. *)
Definition ring_fresh (r : ring) : Prop :=
  match r with
  | SplitQ q => split_wf q (seqZ 0 (SplitRing.num q)) []
  | PackedQ q => packed_wf q (seqZ 0 (PackedRing.num q)) []
  end.

(** The sizes a queue can have. *)
Definition queue_num (n : Z) : Prop := exists k, 0 <= k <= 15 /\ n = 2 ^ k.

Lemma queue_num_range n : queue_num n -> 1 <= n <= 32768.
Proof.
  intros (k & Hk & ->). pose proof (Z.pow_pos_nonneg 2 k).
  pose proof (Z.pow_le_mono_r 2 k 15). change (2 ^ 15) with 32768 in *. lia.
Qed.

Lemma queue_num_half n : queue_num n -> n <> 1 -> queue_num (n / 2).
Proof.
  intros (k & Hk & ->) Hn. destruct (decide (k = 0)) as [->|]; [done|].
  exists (k - 1). split; [lia|].
  replace k with (1 + (k - 1)) at 1 by lia. rewrite Z.pow_add_r by lia.
  change (2 ^ 1) with 2. by rewrite Z.mul_comm, Z.div_mul by lia.
Qed.

(** Powers of two are what the test [num & (num - 1)] lets through. *)
Lemma queue_num_test n : 0 < n < 65536 -> Z.land n (n - 1) = 0 -> queue_num n.
Proof.
  intros Hn Hl. exists (Z.log2 n).
  pose proof (Z.log2_spec n ltac:(lia)) as [Hlo Hhi]. rewrite <- Z.add_1_r in Hhi.
  assert (Z.log2 n <= 15) by (change 15 with (Z.log2 65535); apply Z.log2_le_mono; lia).
  split; [split; [apply Z.log2_nonneg|lia]|].
  destruct (decide (n = 2 ^ Z.log2 n)) as [|Hne]; [done|].
  exfalso. apply (not_pow2_land n (Z.log2 n)); [apply Z.log2_nonneg|lia|done].
Qed.

Lemma new_virtqueue_ok v packed index n align pages control :
  queue_num n -> exists r avail used,
  new_virtqueue v packed index n align pages control = Ok (Some (mk_vq control index r avail used 0)) /\
  ring_num r = n /\ ring_fresh r.
Proof.
  intros Hq. pose proof (queue_num_range n Hq). destruct Hq as (k & Hk & ->).
  unfold new_virtqueue. destruct packed.
  - destruct (new_packed_ok index (2 ^ k) (ring_device v) (zero_packed_ring (2 ^ k)) (mk_event 0 0)
      (mk_event 0 0) vp_notify_cb) as (q & -> & W & N & _); [done|unfold zero_packed_ring; rewrite zlen_replicate; lia|].
    cbn [mbind res_bind]. eexists _, _, _. split; [done|]. cbn. by rewrite N.
  - destruct (new_split_ok index (ring_device v) vp_notify_cb k Hk) as (q & E & W & _).
    assert (SplitRing.num q = 2 ^ k) as N.
    { clear W. revert E. unfold vring_new_virtqueue_split. case_match; [done|].
      intros (? & ? & [= <-])%bind_ok. done. }
    rewrite E. cbn [mbind res_bind]. destruct (vring_init _ _ _) as [[? avail] used].
    eexists _, _, _. split; [done|]. cbn. by rewrite N.
Qed.

Lemma virtqueue_shutdown_ok vq : queue_num (ring_num (vq_ring vq)) -> exists vq', virtqueue_shutdown vq = Ok vq'.
Proof.
  intros Hq. pose proof (queue_num_range _ Hq) as R. destruct Hq as (k & Hk & E).
  unfold virtqueue_shutdown. destruct (vq_ring vq) as [q|q]; cbn in E, R.
  - unfold virtqueue_shutdown_split. rewrite E.
    destruct (new_split_ok (SplitRing.index q) (SplitRing.vdev q) (SplitRing.notification_cb q) k Hk) as (? & -> & _).
    cbn. eauto.
  - unfold virtqueue_shutdown_packed.
    destruct (new_packed_ok (PackedRing.index q) (PackedRing.num q) (PackedRing.vdev q) (zero_packed_ring (PackedRing.num q)) (mk_event 0 0)
      (mk_event 0 0) (PackedRing.notification_cb q)) as (? & -> & _); [done|unfold zero_packed_ring; rewrite zlen_replicate; lia|].
    cbn. eauto.
Qed.

(** ** The callbacks

    [pages e] and [blocks e] are the addresses the callbacks have handed out and not
    taken back; [sane e] is what the callbacks themselves keep true; the driver knows interrupt
    vectors for [vectors] queues.  The device is there: the configuration space can be read. *)

Class Ledger (E : Type) := { pages : E -> list Z; blocks : E -> list Z; sane : E -> Prop; vectors : Z }.

Definition keeps {E A} `{Ledger E} (R : A -> Prop) (m : M E A) : Prop :=
  forall e, sane e -> wp m (fun a e' => R a /\ sane e' /\ pages e' ≡ₚ pages e /\ blocks e' ≡ₚ blocks e) e.

Class SystemLaws (E : Type) `{VirtIOSystemOps E, Ledger E} : Prop := {
  keeps_read_byte a : keeps (fun _ => True) (vdev_read_byte a);
  keeps_read_word a : keeps (fun _ => True) (vdev_read_word a);
  keeps_read_dword a : keeps (fun _ => True) (vdev_read_dword a);
  keeps_write_byte a v : keeps (fun _ => True) (vdev_write_byte a v);
  keeps_write_word a v : keeps (fun _ => True) (vdev_write_word a v);
  keeps_write_dword a v : keeps (fun _ => True) (vdev_write_dword a v);
  keeps_physical a : keeps (fun _ => True) (mem_get_physical_address a);
  keeps_config_byte a : keeps is_Some (pci_read_config_byte a);
  keeps_config_word a : keeps is_Some (pci_read_config_word a);
  keeps_config_dword a : keeps is_Some (pci_read_config_dword a);
  keeps_resource_len b : keeps (fun _ => True) (pci_get_resource_len b);
  keeps_map b o n : keeps (fun _ => True) (pci_map_address_range b o n);
  keeps_msix_vector q : q < vectors (E := E) -> keeps (fun _ => True) (vdev_get_msix_vector q);
  keeps_sleep n : keeps (fun _ => True) (vdev_sleep n);
  law_alloc_pages n e : sane e -> wp (mem_alloc_contiguous_pages n) (fun q e' => sane e' /\ blocks e' ≡ₚ blocks e /\
    (q = 0 /\ pages e' ≡ₚ pages e \/ q <> 0 /\ pages e' ≡ₚ q :: pages e)) e;
  law_free_pages q l e : sane e -> pages e ≡ₚ q :: l ->
    wp (mem_free_contiguous_pages q) (fun _ e' => sane e' /\ blocks e' ≡ₚ blocks e /\ pages e' ≡ₚ l) e;
  law_alloc_block n e : sane e -> wp (mem_alloc_nonpaged_block n) (fun q e' => sane e' /\ pages e' ≡ₚ pages e /\
    (q = 0 /\ blocks e' ≡ₚ blocks e \/ q <> 0 /\ blocks e' ≡ₚ q :: blocks e)) e;
  law_free_block q l e : sane e -> blocks e ≡ₚ q :: l ->
    wp (mem_free_nonpaged_block q) (fun _ e' => sane e' /\ pages e' ≡ₚ pages e /\ blocks e' ≡ₚ l) e;
  (** An allocation that fails fails again when it is repeated at once. *)
  law_alloc_again n e : sane e -> wp (mem_alloc_contiguous_pages n) (fun q e' => q = 0 ->
    wp (mem_alloc_contiguous_pages n) (fun q' _ => q' = 0) e') e }.

Section accesses.
Context {E : Type} `{SystemLaws E}.
Implicit Types (s : vst E) (P B : list Z).

Lemma wp_sys {A} (m : M E A) (Φ : A -> vst E -> Prop) s :
  wp m (fun a e => Φ a (s <| env := e |>)) (env s) -> wp (sys m) Φ s.
Proof. unfold wp, sys. by destruct (m (env s)) as [[a e]|]. Qed.

(** ** Accesses to the device do not change who owns what *)

Definition Sane s : Prop := sane (env s).

Definition same s s' : Prop :=
  vdev s' = vdev s /\ pages (env s') ≡ₚ pages (env s) /\ blocks (env s') ≡ₚ blocks (env s) /\ (Sane s -> Sane s').

#[global] Instance same_preorder : PreOrder same.
Proof.
  split.
  - intros s. by split_and!.
  - intros s1 s2 s3 (V1 & P1 & B1 & N1) (V2 & P2 & B2 & N2). split_and!; [by etrans..|auto].
Qed.

Lemma same_sane s s' : same s s' -> Sane s -> Sane s'.
Proof. intros (_ & _ & _ & N). exact N. Qed.

Definition quiet {A} (R : A -> Prop) (m : M (vst E) A) : Prop :=
  forall s, Sane s -> wp m (fun a s' => R a /\ same s s') s.
#[local] Abbreviation quiet_ := (quiet (fun _ => True)).

Lemma quiet_sys {A} R (m : M E A) : keeps R m -> quiet R (sys m).
Proof. intros K s N. apply wp_sys. eapply wp_mono; [apply K, N|]. intros a e (? & ? & ? & ?). by split_and!. Qed.

Lemma quiet_bind {A C} Q R (m : M (vst E) A) (k : A -> M (vst E) C) :
  quiet Q m -> (forall a, Q a -> quiet R (k a)) -> quiet R (m ≫= k).
Proof.
  intros Hm Hk s N. apply wp_bind. eapply wp_mono; [by apply Hm|]. intros a s1 (HQ & S1).
  eapply wp_mono; [apply (Hk a HQ s1), (same_sane s s1 S1 N)|]. intros b s2 (HR & S2). split; [done|]. by etrans.
Qed.

Lemma quiet_ret {A} (R : A -> Prop) a : R a -> quiet R (mret a).
Proof. intros Ha s N. apply wp_ret. by split. Qed.

Lemma quiet_gets {A} (f : vst E -> A) : quiet_ (gets f).
Proof. intros s N. apply wp_gets. by split. Qed.

Lemma quiet_mono {A} (Q R : A -> Prop) (m : M (vst E) A) : quiet Q m -> (forall a, Q a -> R a) -> quiet R m.
Proof. intros Hm HQ s N. eapply wp_mono; [by apply Hm|]. intros a s1 [? ?]. eauto. Qed.

(** Using a quiet computation inside a proof about a larger one. *)
Lemma wp_quiet {A C} R (m : M (vst E) A) (k : A -> M (vst E) C) Φ s : Sane s ->
  quiet R m -> (forall a s', R a -> same s s' -> wp (k a) Φ s') -> wp (m ≫= k) Φ s.
Proof. intros N Hm Hk. apply wp_bind. eapply wp_mono; [by apply Hm|]. intros a s' [? ?]. by apply Hk. Qed.

Lemma sane_env s s' : env s' = env s -> Sane s -> Sane s'.
Proof. unfold Sane. by intros ->. Qed.


Lemma quiet_read8 a : quiet (fun v => 0 <= v < 256) (ioread8 a).
Proof. eapply quiet_bind; [apply quiet_sys, keeps_read_byte|]. intros v _. apply quiet_ret, u8_range. Qed.
Lemma quiet_read16 a : quiet (fun v => 0 <= v < 65536) (ioread16 a).
Proof. eapply quiet_bind; [apply quiet_sys, keeps_read_word|]. intros v _. apply quiet_ret, u16_range. Qed.
Lemma quiet_read32 a : quiet (fun v => 0 <= v < 4294967296) (ioread32 a).
Proof. eapply quiet_bind; [apply quiet_sys, keeps_read_dword|]. intros v _. apply quiet_ret, u32_range. Qed.
Lemma quiet_write8 v a : quiet_ (iowrite8 v a).
Proof. apply quiet_sys, keeps_write_byte. Qed.
Lemma quiet_write16 v a : quiet_ (iowrite16 v a).
Proof. apply quiet_sys, keeps_write_word. Qed.
Lemma quiet_write32 v a : quiet_ (iowrite32 v a).
Proof. apply quiet_sys, keeps_write_dword. Qed.
Lemma quiet_uninit (m : M (vst E) (option Z)) : quiet is_Some m -> quiet_ (uninit m).
Proof. intros Hm. eapply quiet_bind; [apply Hm|]. intros ? [x ->]. by apply quiet_ret. Qed.
Lemma quiet_config_byte a : quiet is_Some (config_byte a).
Proof. eapply quiet_bind; [apply quiet_sys, keeps_config_byte|]. intros ? [x ->]. apply quiet_ret. eauto. Qed.
Lemma quiet_config_word a : quiet is_Some (config_word a).
Proof. eapply quiet_bind; [apply quiet_sys, keeps_config_word|]. intros ? [x ->]. apply quiet_ret. eauto. Qed.
Lemma quiet_config_dword a : quiet is_Some (config_dword a).
Proof. eapply quiet_bind; [apply quiet_sys, keeps_config_dword|]. intros ? [x ->]. apply quiet_ret. eauto. Qed.

Lemma quiet_reg r : quiet_ (reg r).
Proof. eapply quiet_bind; [apply quiet_gets|]. intros c _. by apply quiet_ret. Qed.
Lemma quiet_lreg r : quiet_ (lreg r).
Proof. eapply quiet_bind; [apply quiet_gets|]. intros c _. by apply quiet_ret. Qed.

End accesses.

#[local] Abbreviation quiet_ := (quiet (fun _ => True)).

(** One step towards [quiet R m]; the result is only bounded where a read says so. *)
Ltac quiet_step :=
  match goal with
  | |- quiet _ (if ?b then _ else _) => destruct b
  | |- quiet _ (match ?x with _ => _ end) => destruct x
  | |- quiet _ (_ ≫= _) => eapply quiet_bind; [|intros ? ?]
  | |- quiet _ (mret _) => apply quiet_ret
  | |- quiet _ (gets _) => apply quiet_gets
  | |- quiet _ (dev _) => apply quiet_gets
  | |- quiet _ (reg _) => apply quiet_reg
  | |- quiet _ (lreg _) => apply quiet_lreg
  | |- quiet _ (ioread8 _) => apply quiet_read8
  | |- quiet _ (ioread16 _) => apply quiet_read16
  | |- quiet _ (ioread32 _) => apply quiet_read32
  | |- quiet _ (iowrite8 _ _) => apply quiet_write8
  | |- quiet _ (iowrite16 _ _) => apply quiet_write16
  | |- quiet _ (iowrite32 _ _) => apply quiet_write32
  | |- quiet _ (uninit _) => apply quiet_uninit
  | |- quiet _ (config_byte _) => apply quiet_config_byte
  | |- quiet _ (config_word _) => apply quiet_config_word
  | |- quiet _ (config_dword _) => apply quiet_config_dword
  | |- quiet _ (sys (mem_get_physical_address _)) => apply quiet_sys, keeps_physical
  | |- quiet _ (sys (pci_get_resource_len _)) => apply quiet_sys, keeps_resource_len
  | |- quiet _ (sys (pci_map_address_range _ _ _)) => apply quiet_sys, keeps_map
  | |- quiet _ (sys (vdev_get_msix_vector _)) => (apply quiet_sys, keeps_msix_vector; assumption)
  end; try done.
Ltac solve_quiet := repeat quiet_step.

Section entries.
Context {E : Type} `{SystemLaws E}.
Implicit Types (s : vst E) (P B : list Z).

Lemma quiet_map_capability c m a st sz : quiet_ (vio_modern_map_capability c m a st sz).
Proof. unfold vio_modern_map_capability. solve_quiet. Qed.

Lemma quiet_activate n q a u : quiet_ (activate_queue n q a u).
Proof. unfold activate_queue, iowrite64_twopart. solve_quiet. Qed.

Lemma quiet_map_notify off : quiet (fun r => forall st, r = inr st -> NT_SUCCESS st = false) (map_notify off).
Proof.
  unfold map_notify. do 4 (eapply quiet_bind; [apply quiet_gets|intros ? _]).
  case_match; [case_match; apply quiet_ret; by intros ? [= <-]|]. eapply quiet_bind; [apply quiet_map_capability|]. intros r _. by apply quiet_ret.
Qed.

Lemma quiet_queue_vector vq v : quiet_ (vio_modern_set_queue_vector vq v).
Proof. unfold vio_modern_set_queue_vector. solve_quiet. eapply quiet_mono; [apply quiet_read16|done]. Qed.

Lemma quiet_legacy_queue_vector vq v : quiet_ (vio_legacy_set_queue_vector vq v).
Proof. unfold vio_legacy_set_queue_vector. solve_quiet. eapply quiet_mono; [apply quiet_read16|done]. Qed.

Lemma quiet_msix_vector q : q < vectors (E := E) -> quiet_ (get_msix_vector q).
Proof. intros Hq. unfold get_msix_vector. solve_quiet. Qed.

(** What a query of the queue answers: a size that is a power of two. *)
Definition query_ok (r : Z * option (Z * Z * Z)) : Prop :=
  match r.2 with
  | None => NT_SUCCESS r.1 = false
  | Some (num, _, _) => r.1 = STATUS_SUCCESS /\ queue_num num
  end.

Lemma quiet_query index : quiet query_ok (vio_modern_query_vq_alloc index).
Proof.
  unfold vio_modern_query_vq_alloc. eapply quiet_bind; [solve_quiet|]. intros ? _.
  eapply quiet_bind; [apply quiet_read16|]. intros n Hn. case_match; [by apply quiet_ret|].
  eapply quiet_bind; [solve_quiet|]. intros ? _. eapply quiet_bind; [apply quiet_write16|]. intros ? _.
  eapply quiet_bind; [solve_quiet|]. intros ? _. eapply quiet_bind; [apply quiet_read16|]. intros num Hnum.
  destruct (Z.eqb_spec num 0); [by apply quiet_ret|].
  destruct (truth _) eqn:T; [by apply quiet_ret|]. eapply quiet_bind; [apply quiet_gets|]. intros ? _.
  apply quiet_ret. split; [done|]. cbn in Hnum. apply queue_num_test; [lia|].
  unfold truth in T. by apply negb_false_iff, Z.eqb_eq in T.
Qed.

(** ** The queue information *)

Definition live (v : virtio_device) : Prop := info v <> InfoNull.

Lemma infos_put l v : live v -> infos (put_infos l v) = l.
Proof. unfold live, infos, put_infos. destruct (info v) eqn:Ei; cbn; rewrite ?Ei; done. Qed.

Lemma infos_put_put l l' v : put_infos l (put_infos l' v) = put_infos l v.
Proof. unfold put_infos. destruct (info v) eqn:Ei; cbn; rewrite ?Ei; reflexivity. Qed.

Lemma infos_put_same v : put_infos (infos v) v = v.
Proof. unfold put_infos, infos. destruct v as [? ? ? ? ? ? ? ? ? ? ? ? ? ? ? ? ? ? ? i ?], i; reflexivity. Qed.

Lemma live_lookup v i x : (infos v)⟦i⟧ = Some x -> live v.
Proof. unfold live, infos. intros Hx E0. by rewrite E0 in Hx; unfold zlookup in Hx; destruct (0 <=? i). Qed.

(** What a change of the array leaves alone. *)
Lemma put_fields l v :
  device (put_infos l v) = device v /\ packed_ring (put_infos l v) = packed_ring v /\
  maxQueues (put_infos l v) = maxQueues v /\ (live v -> live (put_infos l v)).
Proof. unfold put_infos, live. destruct (info v) eqn:Ei; cbn; rewrite ?Ei; done. Qed.

Lemma wp_get_info i x (Φ : VirtIOQueueInfo -> vst E -> Prop) s :
  (infos (vdev s))⟦i⟧ = Some x -> Φ x s -> wp (get_info i) Φ s.
Proof. intros Hx HΦ. unfold get_info, dev. wp_steps. eapply wp_pure; [|done]. unfold zget. by rewrite Hx. Qed.

Lemma wp_set_info i f x (Φ : unit -> vst E -> Prop) s :
  (infos (vdev s))⟦i⟧ = Some x ->
  Φ tt (s <| vdev := put_infos (zinsert i (f x) (infos (vdev s))) (vdev s) |>) -> wp (set_info i f) Φ s.
Proof.
  intros Hx HΦ. unfold set_info, set_dev. wp_steps. eapply wp_get_info; [done|]. cbv beta. by wp_steps.
Qed.

(** [at_info i x s s']: entry [i] is now [x], the rest of the structure is as it was. *)
Definition at_info (i : Z) (x : VirtIOQueueInfo) s s' : Prop :=
  vdev s' = put_infos (zinsert i x (infos (vdev s))) (vdev s).

Lemma at_info_refl i x s : (infos (vdev s))⟦i⟧ = Some x -> at_info i x s s.
Proof. intros Hx. unfold at_info. by rewrite zinsert_id, infos_put_same. Qed.

Lemma at_info_lookup i x y s s' : (infos (vdev s))⟦i⟧ = Some y -> at_info i x s s' -> (infos (vdev s'))⟦i⟧ = Some x.
Proof.
  intros Hy ->. pose proof (live_lookup _ _ _ Hy). rewrite infos_put by done.
  apply zlookup_zinsert_eq. by eapply zlookup_lt.
Qed.

Lemma at_info_same i x s s1 s2 : at_info i x s s1 -> same s1 s2 -> at_info i x s s2.
Proof. intros A1 (V & _). unfold at_info. by rewrite V. Qed.

Lemma at_info_trans i x y z s s1 s2 : (infos (vdev s))⟦i⟧ = Some z ->
  at_info i x s s1 -> at_info i y s1 s2 -> at_info i y s s2.
Proof.
  intros Hz A1 A2. pose proof (live_lookup _ _ _ Hz). unfold at_info in *.
  rewrite A2, A1, infos_put, infos_put_put by done. by rewrite zinsert_zinsert.
Qed.

(** A change of one entry, as a step that owns the same memory. *)
Lemma wp_set_at i f x (Φ : unit -> vst E -> Prop) s : (infos (vdev s))⟦i⟧ = Some x ->
  (forall s', at_info i (f x) s s' -> env s' = env s -> Φ tt s') -> wp (set_info i f) Φ s.
Proof. intros Hx HΦ. eapply wp_set_info; [done|]. by apply HΦ. Qed.

(** ** Setting up a queue

    [gained i x p b s s']: entry [i] is [x], and the caller has the pages [p] and the
    blocks [b] more than in [s]. *)
Definition gained (i : Z) (x : VirtIOQueueInfo) (p b : list Z) s s' : Prop :=
  at_info i x s s' /\ pages (env s') ≡ₚ p ++ pages (env s) /\ blocks (env s') ≡ₚ b ++ blocks (env s) /\ Sane s'.

Lemma gained_refl i x s : Sane s -> (infos (vdev s))⟦i⟧ = Some x -> gained i x [] [] s s.
Proof. intros N Hx. split_and!; [by apply at_info_refl|done|done|done]. Qed.

Lemma gained_sane i x p b s s' : gained i x p b s s' -> Sane s'.
Proof. by intros (_ & _ & _ & N). Qed.

Lemma gained_same i x p b s s1 s2 : gained i x p b s s1 -> same s1 s2 -> gained i x p b s s2.
Proof.
  intros (A1 & P1 & B1 & N1) S2. pose proof S2 as (_ & P2 & B2 & N2).
  split_and!; [by eapply at_info_same|by rewrite P2|by rewrite B2|auto].
Qed.

Lemma gained_set i x y z p b s s1 s2 : (infos (vdev s))⟦i⟧ = Some z ->
  gained i x p b s s1 -> at_info i y s1 s2 -> env s2 = env s1 -> gained i y p b s s2.
Proof.
  intros Hz (A1 & P1 & B1 & N1) A2 E2. split_and!; [by eapply at_info_trans|by rewrite E2|by rewrite E2|by eapply sane_env].
Qed.

Lemma gained_trans i x y z p b p' b' s s1 s2 : (infos (vdev s))⟦i⟧ = Some z ->
  gained i x p b s s1 -> gained i y p' b' s1 s2 -> gained i y (p' ++ p) (b' ++ b) s s2.
Proof.
  intros Hz (A1 & P1 & B1 & N1) (A2 & P2 & B2 & N2). split_and!; [by eapply at_info_trans|..|done].
  - by rewrite P2, P1, (assoc_L (++)).
  - by rewrite B2, B1, (assoc_L (++)).
Qed.

End entries.

(** [sane_tac] follows the states back to one that is known to be sane. *)
Ltac sane_tac :=
  match goal with
  | N : Sane ?s |- Sane ?s => exact N
  | N : same ?s0 ?s |- Sane ?s => apply (same_sane s0 s N); sane_tac
  | N : gained _ _ _ _ _ ?s |- Sane ?s => exact (gained_sane _ _ _ _ _ _ N)
  | N : env ?s = env ?s0 |- Sane ?s => apply (sane_env s0 s N); sane_tac
  | N : sane ?e |- Sane (?s <| env := ?e |>) => exact N
  | |- Sane (?s <| vdev := _ |>) => apply (sane_env s); [reflexivity|sane_tac]
  end.

Section setup.
Context {E : Type} `{SystemLaws E}.
Implicit Types (s : vst E) (P B : list Z).

Lemma pci_size_small packed : vring_pci_size 1 packed = vring_pci_size 0 packed.
Proof. by destruct packed. Qed.

(** A failed allocation is repeated with half the size; the size 0 that comes after 1
    asks for the same page and fails too. *)
Definition alloc_post i vq s (ok : bool) s' : Prop := exists n q,
  if ok then q <> 0 /\ queue_num n /\ gained i (mk_info vq n q) [q] [] s s'
  else gained i (mk_info vq n q) [] [] s s'.

Lemma alloc_step n e : sane e -> wp (mem_alloc_contiguous_pages n) (fun q e' => sane e' /\ blocks e' ≡ₚ blocks e /\
    (q = 0 /\ pages e' ≡ₚ pages e /\
       wp (mem_alloc_contiguous_pages n) (fun q' e'' => q' = 0 /\ sane e'' /\ pages e'' ≡ₚ pages e' /\ blocks e'' ≡ₚ blocks e') e'
     \/ q <> 0 /\ pages e' ≡ₚ q :: pages e)) e.
Proof.
  intros N. eapply wp_mono; [apply (wp_and _ _ _ _ (law_alloc_pages n e N) (law_alloc_again n e N))|].
  intros q e' ((N' & Hb & [(Hq & Hp)|Hp]) & Again); (split; [done|]); (split; [done|]); [left|by right].
  split_and!; [done|done|]. eapply wp_mono; [apply (wp_and _ _ _ _ (Again Hq) (law_alloc_pages n e' N'))|].
  intros q' e'' (-> & N'' & Hb' & [(_ & ?)|[? _]]); [by split_and!|done].
Qed.

Lemma alloc_ring_eq fuel i : alloc_ring fuel i =
  (x ← get_info i;
   packed ← dev packed_ring;
   q ← sys (mem_alloc_contiguous_pages (vring_pci_size (info_num x) packed));
   set_info i (fun x => x <| info_queue := q |>);;
   if negb (q =? 0) then mret true
   else if info_num x >? 0 then
     set_info i (fun x => x <| info_num := info_num x / 2 |>);;
     match fuel with O => throw OutOfFuel | S fuel => alloc_ring fuel i end
   else mret false).
Proof. by destruct fuel. Qed.

Lemma alloc_ring_ok k : forall fuel i x s, Sane s -> (Z.to_nat k < fuel)%nat -> 0 <= k <= 15 ->
  (infos (vdev s))⟦i⟧ = Some x -> info_num x = 2 ^ k ->
  wp (alloc_ring fuel i) (alloc_post i (info_vq x) s) s.
Proof.
  intros fuel. revert k. induction fuel as [|fuel IH]; intros k i x s Hs Hf Hk Hx Hn; [lia|].
  pose proof (Z.pow_pos_nonneg 2 k).
  cbn [alloc_ring]. wp_step. eapply wp_get_info; [done|]. unfold dev. wp_steps. rewrite Hn.
  apply wp_sys. eapply wp_mono; [apply alloc_step, Hs|]. intros q e (Ns & Hb & Ha). cbv beta. wp_step.
  set (s1 := s <| env := e |>). eapply (wp_set_at i _ x); [done|]. intros s2 A2 E2. cbv beta.
  assert ((infos (vdev s2))⟦i⟧ = Some (x <| info_queue := q |>)) as Hx2
    by (eapply (at_info_lookup i _ x s1 s2); [exact Hx|exact A2]).
  destruct Ha as [(-> & Hp & Again)|[Hq Hp]].
  - change (negb (0 =? 0)) with false. rewrite (proj2 (Z.gtb_lt _ _)) by lia. cbv iota.
    wp_step. eapply wp_set_at; [done|]. intros s3 A3 E3. cbv beta.
    assert (at_info i (x <| info_queue := 0 |> <| info_num := 2 ^ k / 2 |>) s s3) as A.
    { rewrite <- Hn. eapply (at_info_trans i _ _ x); [done|exact A2|exact A3]. }
    assert (gained i (x <| info_queue := 0 |> <| info_num := 2 ^ k / 2 |>) [] [] s s3) as G
      by (split_and!; [done|by rewrite E3, E2|by rewrite E3, E2|unfold Sane; by rewrite E3, E2]).
    pose proof (at_info_lookup _ _ _ _ _ Hx A) as Hx3.
    destruct (decide (k = 0)) as [->|Hk0].
    + (* size 1 failed: the next round asks for the same page *)
      rewrite alloc_ring_eq. wp_step. eapply wp_get_info; [done|]. unfold dev. wp_steps.
      apply wp_sys. change (info_num (_ <| info_num := ?a |>)) with a. change (2 ^ 0 / 2) with 0 in *.
      assert (packed_ring (vdev s3) = packed_ring (vdev s)) as -> by (rewrite A; apply put_fields).
      rewrite <- pci_size_small, E3, E2. eapply wp_mono; [exact Again|]. intros q' e' (-> & Ns' & Hp' & Hb'). cbv beta.
      wp_step. eapply (wp_set_at i _ _ _ (s3 <| env := e' |>)); [exact Hx3|]. intros s4 A4 E4. cbv beta.
      change (negb (0 =? 0)) with false. change (0 >? 0) with false. cbv iota. wp_step.
      exists 0, 0. split_and!.
      * eapply (at_info_trans i _ _ x s (s3 <| env := e' |>)); [done|exact A|exact A4].
      * by rewrite E4; cbn; rewrite Hp'.
      * by rewrite E4; cbn; rewrite Hb'.
      * unfold Sane. by rewrite E4.
    + eapply wp_mono; [apply (IH (k - 1)); [exact (gained_sane _ _ _ _ _ _ G)|lia|lia|exact Hx3|]|].
      { cbn. replace k with (1 + (k - 1)) at 1 by lia. rewrite Z.pow_add_r by lia. change (2 ^ 1) with 2.
        by rewrite Z.mul_comm, Z.div_mul by lia. }
      intros ok s4 (n & q & Hok). exists n, q. destruct ok.
      * destruct Hok as (? & ? & G4). split_and!; [done|done|]. exact (gained_trans _ _ _ _ _ _ _ _ _ _ _ Hx G G4).
      * exact (gained_trans _ _ _ _ _ _ _ _ _ _ _ Hx G Hok).
  - rewrite (proj2 (Z.eqb_neq q 0)) by done. cbn [negb]. wp_step. exists (2 ^ k), q.
    split_and!; [done|by exists k|]. split_and!.
    + unfold at_info in A2 |- *. rewrite A2, <- Hn. done.
    + by rewrite E2.
    + by rewrite E2.
    + unfold Sane. by rewrite E2.
Qed.

Definition blocks_available : Prop := forall n e, wp (mem_alloc_nonpaged_block n) (fun q (_ : E) => q <> 0) e.

Lemma alloc_block_ok n e : sane e -> wp (mem_alloc_nonpaged_block n) (fun q e' => sane e' /\ pages e' ≡ₚ pages e /\
    (q = 0 /\ blocks e' ≡ₚ blocks e /\ ~ blocks_available \/ q <> 0 /\ blocks e' ≡ₚ q :: blocks e)) e.
Proof.
  intros N. pose proof (law_alloc_block n e N) as L. apply wp_ok in L as (q & e' & Eq & N' & Hp & [[Hq Hb]|Hq]);
    apply wp_ok; exists q, e'; (split; [done|]); (split; [done|]); (split; [done|]); [left|by right].
  split_and!; [done|done|]. intros A. pose proof (A n e) as Hn. unfold wp in Hn. by rewrite Eq in Hn.
Qed.

(** The control block of a queue, which a legacy device keeps in the ring pages. *)
Definition ctl (t : transport) (vq : virtqueue) : list Z := match t with Modern => [vq_va vq] | Legacy => [] end.

(** Success leaves the ring pages and the control block with the entry; failure leaves
    nothing, but for the pages that are not freed when the control block is refused. *)
Definition setup_post (t : transport) i s (r : Z * option virtqueue) s' : Prop :=
  match r.2 with
  | Some vq => r.1 = STATUS_SUCCESS /\ vq_index vq = i /\ ring_fresh (vq_ring vq) /\ queue_num (ring_num (vq_ring vq)) /\
      exists q, q <> 0 /\ gained i (mk_info None (ring_num (vq_ring vq)) q) [q] (ctl t vq) s s'
  | None => NT_SUCCESS r.1 = false /\ exists x leak, info_vq x = None /\ gained i x leak [] s s' /\
      (leak = [] \/ t = Modern /\ leak = [info_queue x] /\ r.1 = STATUS_INSUFFICIENT_RESOURCES /\ ~ blocks_available)
  end.

Lemma setup_fails t i s s' status x :
  NT_SUCCESS status = false -> info_vq x = None -> gained i x [] [] s s' -> setup_post t i s (status, None) s'.
Proof. intros. split; [done|]. exists x, []. split_and!; [done|done|by left]. Qed.

Lemma setup_undo_ok i x vq b q s s1 :
  (forall v, vq = Some v -> queue_num (ring_num (vq_ring v))) -> gained i x [q] [b] s s1 ->
  wp (setup_undo vq b q) (fun _ s' => gained i x [] [] s s') s1.
Proof.
  intros Hv (A1 & P1 & B1 & N1). unfold setup_undo. wp_step.
  assert (forall Φ : unit -> vst E -> Prop, Φ tt s1 -> wp (match vq with Some vq => _ ← pure (virtqueue_shutdown vq); mret tt | None => mret tt end) Φ s1) as W.
  { intros Φ HΦ. destruct vq as [v|]; [|by wp_step].
    destruct (virtqueue_shutdown_ok v) as (v' & Ev); [by apply Hv|]. wp_step. by eapply wp_pure. }
  apply W. wp_step. apply wp_sys. eapply wp_mono; [apply law_free_block, B1; exact N1|]. intros [] e1 (Ne & Hp & Hb). cbv beta.
  apply wp_sys. eapply wp_mono; [apply law_free_pages; [exact Ne|by cbn; rewrite Hp]|]. intros [] e2 (Ne2 & Hb2 & Hp2).
  split_and!; [exact A1|done|cbn; by rewrite Hb2|exact Ne2].
Qed.

Lemma setup_activate_ok i vq b n q off vec s s1 :
  gained i (mk_info None n q) [q] [b] s s1 -> (is_Some ((infos (vdev s))⟦i⟧)) -> q <> 0 ->
  vq_va vq = b -> vq_index vq = i -> ring_fresh (vq_ring vq) -> ring_num (vq_ring vq) = n -> queue_num n ->
  wp (setup_activate vq b i off vec) (setup_post Modern i s) s1.
Proof.
  intros G [x0 Hx0] Hq Hva Hi Hf Hn Hqn.
  assert (forall v s2 status, queue_num (ring_num (vq_ring v)) -> NT_SUCCESS status = false -> same s1 s2 ->
    wp (setup_undo (Some v) b q;; mret (status, None)) (setup_post Modern i s) s2) as Undo.
  { intros v s2 status Hv Hst S2. wp_step. eapply wp_mono; [eapply setup_undo_ok; [by intros ? [= <-]|by eapply gained_same]|].
    intros [] s3 G3. cbv beta. wp_step. eapply setup_fails; [done| |exact G3]; done. }
  unfold setup_activate. wp_step. eapply wp_get_info; [eapply at_info_lookup, G; done|]. cbn [info_num info_queue].
  eapply wp_quiet; [sane_tac|apply quiet_activate|]. intros [] s2 _ S2. eapply wp_quiet; [sane_tac|apply quiet_map_notify|]. intros r s3 Hr S3.
  assert (same s1 s3) as S13 by (by etrans). rewrite <- Hn in Hqn. destruct r as [addr|status]; [|apply Undo; auto].
  destruct (addr =? 0); [by apply Undo|].
  assert (quiet_ (if negb (vec =? VIRTIO_MSI_NO_VECTOR)
    then v ← vio_modern_set_queue_vector (vq <| notification_addr := addr |>) vec; mret (Some v) else mret None)) as Qv.
  { case_match; [|by apply quiet_ret]. eapply quiet_bind; [apply quiet_queue_vector|]. intros. by apply quiet_ret. }
  eapply wp_quiet; [sane_tac|exact Qv|]. intros v s4 _ S4. assert (same s1 s4) as S14 by (by etrans).
  destruct (decide _); [by apply Undo|]. eapply wp_quiet; [sane_tac|apply quiet_reg|]. intros en s5 _ S5.
  eapply wp_quiet; [sane_tac|apply quiet_write16|]. intros [] s6 _ S6. wp_step.
  split_and!; [done|done|done|done|]. exists q. split; [done|]. cbn. rewrite Hva, Hn.
  eapply gained_same; [exact G|]. etrans; [exact S14|]. by etrans.
Qed.

Lemma modern_setup_ok i x vec s : Sane s -> (infos (vdev s))⟦i⟧ = Some x -> info_vq x = None ->
  wp (vio_modern_setup_vq i vec) (setup_post Modern i s) s.
Proof.
  intros N Hx Hv. unfold vio_modern_setup_vq. eapply wp_quiet; [sane_tac|apply quiet_query|]. intros [status o] s1 Hq S1.
  pose proof S1 as (V1 & _). assert ((infos (vdev s1))⟦i⟧ = Some x) as Hx1 by (by rewrite V1).
  destruct o as [[[num rs] hs]|]; cbn in Hq.
  2: { wp_step. eapply setup_fails; [done|exact Hv|]. eapply gained_same; [by apply gained_refl|done]. }
  destruct Hq as [-> (k & Hk & Hnum)].
  wp_step. eapply wp_set_at; [exact Hx1|]. intros s2 A2 E2. cbv beta.
  eapply wp_quiet; [sane_tac|apply quiet_reg|]. intros a s3 _ S3. eapply wp_quiet; [sane_tac|apply quiet_read16|]. intros off s4 _ S4.
  assert (gained i (x <| info_num := num |>) [] [] s s4) as G4.
  { eapply gained_same, S4. eapply gained_same, S3. eapply (gained_set _ x); [exact Hx| |exact A2|exact E2].
    eapply gained_same, S1. by apply gained_refl. }
  pose proof (at_info_lookup _ _ _ _ _ Hx (proj1 G4)) as Hx4.
  wp_step. eapply wp_mono; [eapply (alloc_ring_ok k); [apply G4|lia|done|exact Hx4|done]|]. intros ok s5 (n & q & Hok). cbv beta. cbn [info_vq] in Hok.
  change (info_vq (_ <| info_num := _ |>)) with (info_vq x) in Hok. rewrite Hv in Hok. destruct ok; cbn [negb].
  2: { wp_step. eapply setup_fails; [done|..|exact (gained_trans _ _ _ _ _ _ _ _ _ _ _ Hx G4 Hok)]; done. }
  destruct Hok as (Hq & Hn & G5). pose proof (gained_trans _ _ _ _ _ _ _ _ _ _ _ Hx G4 G5) as G.
  wp_step. apply wp_sys. eapply wp_mono; [apply alloc_block_ok, G5|]. intros b e (Ne & Hp & Hb). cbv beta.
  destruct Hb as [(-> & Hb & Hna)|[Hb0 Hb]].
  { change (0 =? 0) with true. cbv iota. wp_step. split; [done|]. exists (mk_info None n q), [q]. split_and!; [done| |by right].
    destruct G as (GA & GP & GB & _). split_and!; [exact GA|by cbn; rewrite Hp|by cbn; rewrite Hb|exact Ne]. }
  rewrite (proj2 (Z.eqb_neq b 0)) by done.
  assert (gained i (mk_info None n q) [q] [b] s (s5 <| env := e |>)) as G6.
  { destruct G as (GA & GP & GB & _). split_and!; [exact GA|by cbn; rewrite Hp|cbn; by rewrite Hb, GB|exact Ne]. }
  pose proof (at_info_lookup _ _ _ _ _ Hx (proj1 G6)) as Hx6.
  wp_step. eapply wp_get_info; [exact Hx6|]. cbn [info_num info_queue]. unfold dev. wp_steps.
  destruct (new_virtqueue_ok (vdev (s5 <| env := e |>)) (packed_ring (vdev (s5 <| env := e |>))) i n SMP_CACHE_BYTES q b Hn)
    as (r & av & us & Er & Hrn & Hrf).
  eapply wp_pure; [exact Er|]. cbv beta iota. eapply setup_activate_ok; [exact G6|by eexists|done..].
Qed.

(** A legacy device may have any size; the ring code refuses what is not a power of two. *)
Lemma quiet_legacy_query index : quiet (fun r => match r.2 with
    | None => NT_SUCCESS r.1 = false | Some (num, _, _) => r.1 = STATUS_SUCCESS /\ 0 < num < 65536 end)
  (vio_legacy_query_vq_alloc index).
Proof.
  unfold vio_legacy_query_vq_alloc. eapply quiet_bind; [solve_quiet|]. intros ? _.
  eapply quiet_bind; [apply quiet_write16|]. intros ? _. eapply quiet_bind; [solve_quiet|]. intros ? _.
  eapply quiet_bind; [apply quiet_read16|]. intros num Hnum. cbn in Hnum.
  destruct (Z.eqb_spec num 0); [by apply quiet_ret|]. eapply quiet_bind; [solve_quiet|]. intros ? _.
  eapply quiet_bind; [apply quiet_read32|]. intros pfn _. case_match; apply quiet_ret; [done|]. split; [done|lia].
Qed.

Lemma legacy_undo_ok i x q s s1 : gained i x [q] [] s s1 -> wp (legacy_undo q) (fun _ s' => gained i x [] [] s s') s1.
Proof.
  intros (A1 & P1 & B1 & N1). unfold legacy_undo. eapply wp_quiet; [sane_tac|apply quiet_lreg|]. intros a s2 _ S2.
  eapply wp_quiet; [sane_tac|apply quiet_write32|]. intros [] s3 _ S3. assert (same s1 s3) as S13 by (by etrans).
  pose proof S13 as (_ & P3 & B3 & N3). apply wp_sys. eapply wp_mono; [apply law_free_pages; [exact (N3 N1)|by rewrite P3]|].
  intros [] e (Ne & Hb & Hp). split_and!; [exact (at_info_same _ _ _ _ _ A1 S13)|done|cbn; by rewrite Hb, B3|exact Ne].
Qed.

Lemma legacy_ring_ok v i n align q c : 0 < n < 65536 ->
  new_virtqueue v false i n align q c = Ok None \/ queue_num n.
Proof.
  intros Hn. destruct (decide (Z.land n (n - 1) = 0)) as [Hl|Hl]; [right; by apply queue_num_test|left].
  unfold new_virtqueue, vring_new_virtqueue_split, DESC_INDEX. rewrite (proj2 (Z.eqb_neq _ _) Hl). cbn [negb mbind res_bind].
  by destruct (vring_init n q align) as [[? ?] ?].
Qed.

Lemma legacy_setup_ok i x vec s : Sane s -> (infos (vdev s))⟦i⟧ = Some x -> info_vq x = None ->
  wp (vio_legacy_setup_vq i vec) (setup_post Legacy i s) s.
Proof.
  intros N Hx Hv. unfold vio_legacy_setup_vq. eapply wp_quiet; [sane_tac|apply quiet_legacy_query|]. intros [status o] s1 Hq S1.
  pose proof S1 as (V1 & _). assert ((infos (vdev s1))⟦i⟧ = Some x) as Hx1 by (by rewrite V1).
  destruct o as [[[num rs] hs]|]; cbn in Hq.
  2: { wp_step. eapply setup_fails; [done|exact Hv|]. eapply gained_same; [by apply gained_refl|done]. }
  destruct Hq as [-> Hnum]. wp_step. eapply wp_set_at; [exact Hx1|]. intros s2 A2 E2. cbv beta.
  assert (gained i (x <| info_num := num |>) [] [] s s2) as G2.
  { eapply (gained_set _ x); [exact Hx| |exact A2|exact E2]. eapply gained_same, S1. by apply gained_refl. }
  pose proof (at_info_lookup _ _ _ _ _ Hx (proj1 G2)) as Hx2.
  wp_step. apply wp_sys. eapply wp_mono; [apply law_alloc_pages, G2|]. intros q e (Ne & Hb & Hp). cbv beta.
  wp_step. eapply (wp_set_at i _ _ _ (s2 <| env := e |>)); [exact Hx2|]. intros s3 A3 E3. cbv beta.
  assert (at_info i (mk_info None num q) s s3) as A.
  { rewrite <- Hv. eapply (at_info_trans i _ _ x s (s2 <| env := e |>) s3); [exact Hx|exact (proj1 G2)|exact A3]. }
  destruct G2 as (_ & P2 & B2 & N2). cbn in P2, B2. destruct Hp as [[-> Hp]|[Hq Hp]].
  { change (0 =? 0) with true. cbv iota. wp_step. eapply setup_fails; [done|..]; [|split_and!; [exact A|..]]; [done|..];
      unfold Sane; rewrite E3; cbn; [by rewrite Hp|by rewrite Hb|done]. }
  rewrite (proj2 (Z.eqb_neq q 0)) by done.
  assert (gained i (mk_info None num q) [q] [] s s3) as G3.
  { split_and!; [exact A|..]; unfold Sane; rewrite E3; cbn; [by rewrite Hp, P2|by rewrite Hb|done]. }
  eapply wp_quiet; [sane_tac|apply quiet_sys, keeps_physical|]. intros pa s4 _ S4.
  eapply wp_quiet; [sane_tac|apply quiet_lreg|]. intros a s5 _ S5. eapply wp_quiet; [sane_tac|apply quiet_write32|]. intros [] s6 _ S6.
  eapply wp_quiet; [sane_tac|apply quiet_gets|]. intros v s7 _ S7. cbv zeta.
  assert (gained i (mk_info None num q) [q] [] s s7) as G7.
  { eapply gained_same, S7. eapply gained_same, S6. eapply gained_same, S5. eapply gained_same, S4. done. }
  clear dependent s4 s5 s6. clear Hb Hp.
  assert (forall status s', NT_SUCCESS status = false -> gained i (mk_info None num q) [q] [] s s' ->
    wp (legacy_undo q;; mret (status, None)) (setup_post Legacy i s) s') as Undo.
  { intros status s' Hst G'. wp_step. eapply wp_mono; [by apply legacy_undo_ok|]. intros [] s'' G''. cbv beta. wp_step.
    eapply setup_fails; [done| |exact G'']; done. }
  wp_step. set (c := u64 _).
  destruct (legacy_ring_ok v i num VIRTIO_PCI_VRING_ALIGN q c Hnum) as [En|Hqn].
  { eapply wp_pure; [exact En|]. by apply Undo. }
  destruct (new_virtqueue_ok v false i num VIRTIO_PCI_VRING_ALIGN q c Hqn) as (r & av & us & Er & Hrn & Hrf).
  eapply wp_pure; [exact Er|]. cbv beta iota.
  eapply wp_quiet; [sane_tac|apply quiet_lreg|]. intros na s8 _ S8. set (vq := _ <| notification_addr := na |>).
  assert (quiet_ (if negb (vec =? VIRTIO_MSI_NO_VECTOR) then v ← vio_legacy_set_queue_vector vq vec; mret (Some v) else mret None)) as Qv.
  { case_match; [|by apply quiet_ret]. eapply quiet_bind; [apply quiet_legacy_queue_vector|]. intros. by apply quiet_ret. }
  eapply wp_quiet; [sane_tac|exact Qv|]. intros v' s9 _ S9.
  assert (gained i (mk_info None num q) [q] [] s s9) as G9 by (eapply gained_same, S9; by eapply gained_same, S8).
  destruct (decide _); [by apply Undo|]. wp_step. split_and!; [done|done|done|by cbn; rewrite Hrn|]. exists q. split; [done|]. cbn. by rewrite Hrn.
Qed.
End setup.
