(* ===== verification/PciQueueSpec.v ===== *)
(** * The PCI transport: finding and deleting queues

    The invariant [vinv] of the queue information, and the life of the queues of a
    device from [virtio_find_queues] to [virtio_device_shutdown]. *)

From Stdlib Require Import ZArith Lia.
From stdpp Require Import base list numbers option.
From S2P Require Import Prelude.
From S2P Require Import Effects.
From S2P Require Import Virtio.
From S2P Require Import Pci.
From S2P Require Import PciSpec.

Definition owned {A} (f : A -> list Z) (l : list A) : list Z := concat (map f l).

#[global] Arguments owned : simpl never.

Lemma owned_zinsert {A} (f : A -> list Z) l i x y : l⟦i⟧ = Some x -> exists rest,
  owned f l ≡ₚ f x ++ rest /\ owned f (zinsert i y l) ≡ₚ f y ++ rest.
Proof.
  unfold zlookup, zinsert. destruct (0 <=? i); [|done]. set (n := Z.to_nat i). intros Hx.
  assert (n < length l)%nat as Hn by (by eapply lookup_lt_Some).
  exists (owned f (take n l) ++ owned f (drop (S n) l)). unfold owned. split.
  - rewrite <- (take_drop_middle l n x Hx) at 1. rewrite map_app, concat_app. cbn.
    by rewrite !(assoc_L (++)), (Permutation_app_comm (concat _) (f x)).
  - rewrite (insert_take_drop l n y Hn), map_app, concat_app. cbn.
    by rewrite !(assoc_L (++)), (Permutation_app_comm (concat _) (f y)).
Qed.

Lemma owned_empty {A} (f : A -> list Z) l : (forall j x, l⟦j⟧ = Some x -> f x = []) -> owned f l = [].
Proof.
  intros Hf. unfold owned. induction l as [|x l IH]; [done|]. cbn. rewrite (Hf 0 x) by done. apply IH.
  intros j y Hj. apply (Hf (1 + j) y). pose proof (zlookup_lt _ _ _ Hj). unfold zlookup in *.
  rewrite (proj2 (Z.leb_le 0 j)) in Hj by lia. rewrite (proj2 (Z.leb_le 0 (1 + j))) by lia.
  by replace (Z.to_nat (1 + j)) with (S (Z.to_nat j)) by lia.
Qed.

Definition own_page (x : VirtIOQueueInfo) : list Z := match info_vq x with Some _ => [info_queue x] | None => [] end.
Definition own_ctl (t : transport) (x : VirtIOQueueInfo) : list Z :=
  match info_vq x with Some vq => ctl t vq | None => [] end.
Definition info_block (v : virtio_device) : list Z := match info v with InfoBlock va _ => [va] | _ => [] end.

(** No queue is set up. *)
Definition no_queues (v : virtio_device) : Prop := forall j x, (infos v)⟦j⟧ = Some x -> info_vq x = None.

(** A virtqueue at its entry. *)
Definition entry_ok (i : Z) (x : VirtIOQueueInfo) : Prop :=
  forall vq, info_vq x = Some vq -> vq_index vq = i /\ queue_num (ring_num (vq_ring vq)).

Section transport.
Context {E : Type} `{SystemLaws E}.
Implicit Types (s : vst E) (P B : list Z) (t : transport).

(** [P] and [B] are the pages and blocks that belong to others. *)
Record vinv t P B s : Prop := {
  inv_sane : Sane s;
  inv_device : device (vdev s) = Some t;
  inv_max : live (vdev s) -> maxQueues (vdev s) = zlen (infos (vdev s));
  inv_entry i x : (infos (vdev s))⟦i⟧ = Some x -> entry_ok i x;
  inv_pages : pages (env s) ≡ₚ owned own_page (infos (vdev s)) ++ P;
  inv_blocks : blocks (env s) ≡ₚ owned (own_ctl t) (infos (vdev s)) ++ info_block (vdev s) ++ B }.

Lemma info_block_put l v : info_block (put_infos l v) = info_block v.
Proof. unfold info_block, put_infos. destruct (info v) eqn:Ei; cbn; by rewrite ?Ei. Qed.

Lemma vinv_same t P B s s' : vinv t P B s -> same s s' -> vinv t P B s'.
Proof.
  intros I (V & Hp & Hb & N). destruct I. split; rewrite ?V; try done; [by apply N|by rewrite Hp|by rewrite Hb].
Qed.

(** One entry changes from [x] to [y]; [leak] goes to others. *)
Lemma vinv_at t P B i x y leak s s' :
  vinv t P B s -> (infos (vdev s))⟦i⟧ = Some x -> at_info i y s s' -> entry_ok i y -> Sane s' ->
  own_page x ++ pages (env s') ≡ₚ own_page y ++ leak ++ pages (env s) ->
  own_ctl t x ++ blocks (env s') ≡ₚ own_ctl t y ++ blocks (env s) ->
  vinv t (leak ++ P) B s'.
Proof.
  intros I Hx A He Ns Hp Hb. pose proof (live_lookup _ _ _ Hx) as Hl. pose proof (put_fields (zinsert i y (infos (vdev s))) (vdev s)) as (Fd & _ & Fm & _).
  destruct (owned_zinsert own_page _ i x y Hx) as (rp & Rp & Rp'). destruct (owned_zinsert (own_ctl t) _ i x y Hx) as (rb & Rb & Rb').
  destruct I as [_ Id Im Ie Ip Ib]. unfold at_info in A. split; [exact Ns|..].
  - by rewrite A, Fd.
  - intros _. rewrite A, Fm, infos_put, zlen_zinsert by done. by apply Im.
  - rewrite A, infos_put by done. intros j z Hz. destruct (decide (j = i)) as [->|Hne].
    + rewrite zlookup_zinsert_eq in Hz by (by eapply zlookup_lt). by injection Hz as <-.
    + rewrite zlookup_zinsert_ne in Hz by done. by apply Ie.
  - rewrite A, infos_put by done. rewrite Rp'. rewrite Ip, Rp in Hp.
    apply (Permutation_app_inv_l (own_page x)). rewrite Hp. solve_Permutation.
  - rewrite A, infos_put, info_block_put by done. rewrite Rb'. rewrite Ib, Rb in Hb.
    apply (Permutation_app_inv_l (own_ctl t x)). rewrite Hb. solve_Permutation.
Qed.

(** ** Setting up *)

(** What a failure keeps: nothing, or the ring pages of a queue whose control block was
    refused. *)
Definition leaked t (status : Z) (leak : list Z) : Prop :=
  leak = [] \/ t = Modern /\ length leak = 1%nat /\ status = STATUS_INSUFFICIENT_RESOURCES /\ ~ blocks_available (E := E).

Lemma wp_ops {A} t (l m : M (vst E) A) Φ s :
  device (vdev s) = Some t -> wp (match t with Legacy => l | Modern => m end) Φ s -> wp (ops l m) Φ s.
Proof. intros Ht Hw. unfold ops, dev. wp_steps. rewrite Ht. by destruct t. Qed.

(** What handling queues leaves alone. *)
Definition frame s s' : Prop := (live (vdev s) -> live (vdev s')) /\ common (vdev s') = common (vdev s).

#[export] Instance frame_preorder : PreOrder frame.
Proof. split; [by intros s|]. intros s1 s2 s3 [L1 C1] [L2 C2]. split; [auto|by etrans]. Qed.
Lemma frame_same s s' : same s s' -> frame s s'.
Proof. intros (V & _). unfold frame. by rewrite V. Qed.

(** [only i s s']: of the array, at most entry [i] has changed. *)
Definition only (i : Z) s s' : Prop :=
  (forall j, j <> i -> (infos (vdev s'))⟦j⟧ = (infos (vdev s))⟦j⟧) /\
  zlen (infos (vdev s')) = zlen (infos (vdev s)) /\ info_block (vdev s') = info_block (vdev s) /\ frame s s'.

Lemma frame_put l v : (live v -> live (put_infos l v)) /\ common (put_infos l v) = common v.
Proof. unfold live, put_infos. by destruct (info v) eqn:Ei; cbn; rewrite ?Ei. Qed.

Lemma only_at i x y s s' : (infos (vdev s))⟦i⟧ = Some y -> at_info i x s s' -> only i s s'.
Proof.
  intros Hy A. pose proof (live_lookup _ _ _ Hy). unfold only, frame. rewrite A, infos_put, info_block_put by done.
  split_and!; [|by rewrite zlen_zinsert|done|apply frame_put..]. intros j Hj. by apply zlookup_zinsert_ne.
Qed.

Lemma vp_setup_ok t P B i x vec s : vinv t P B s -> (infos (vdev s))⟦i⟧ = Some x -> info_vq x = None ->
  wp (vp_setup_vq i vec) (fun r s' => only i s s' /\ match r.2 with
    | Some vq => r.1 = STATUS_SUCCESS /\ vinv t P B s' /\ ring_fresh (vq_ring vq) /\
        exists q, (infos (vdev s'))⟦i⟧ = Some (mk_info (Some vq) (ring_num (vq_ring vq)) q)
    | None => NT_SUCCESS r.1 = false /\ exists y leak, (infos (vdev s'))⟦i⟧ = Some y /\ info_vq y = None /\
        vinv t (leak ++ P) B s' /\ leaked t r.1 leak
    end) s.
Proof.
  intros I Hx Hv. unfold vp_setup_vq. wp_step. eapply wp_ops; [apply I|].
  eapply (wp_mono _ (setup_post t i s)); [destruct t; [eapply legacy_setup_ok; eauto using inv_sane|eapply modern_setup_ok; eauto using inv_sane]|].
  intros [status [vq|]] s1 Hs; cbn in Hs |- *.
  - destruct Hs as (-> & Hi & Hf & Hn & q & Hq & G). change (NT_SUCCESS STATUS_SUCCESS) with true. cbv iota.
    pose proof (at_info_lookup _ _ _ _ _ Hx (proj1 G)) as Hx1.
    wp_step. eapply wp_set_at; [exact Hx1|]. intros s2 A2 E2. cbv beta. wp_step. cbn in A2.
    pose proof (gained_set _ _ _ _ _ _ _ _ _ Hx G A2 E2) as (A & Gp & Gb & Gs).
    pose proof (at_info_lookup _ _ _ _ _ Hx A) as Hx2.
    split; [by eapply only_at|]. split_and!; [done| |done|by exists q].
    eapply (vinv_at t P B i x _ [] s); [done|done|exact A|by intros ? [= <-]|exact Gs|..]; unfold own_page, own_ctl; rewrite Hv; done.
  - destruct Hs as (Hst & y & leak & Hy & G & Hl). rewrite Hst. wp_steps.
    split; [eapply only_at, G; done|]. split; [done|]. exists y, leak. split_and!; [eapply at_info_lookup, G; done|done|..].
    + destruct G as (A & Gp & Gb & Gs). eapply (vinv_at t P B i x y leak s); [done|done|done|by unfold entry_ok; rewrite Hy|exact Gs|..];
        unfold own_page, own_ctl; by rewrite Hv, Hy.
    + destruct Hl as [->|(-> & -> & ? & ?)]; [by left|by right].
Qed.

(** ** Deleting *)

Lemma legacy_del_ok i x vq lp s : Sane s -> (infos (vdev s))⟦i⟧ = Some x -> info_vq x = Some vq -> pages (env s) ≡ₚ info_queue x :: lp ->
  wp (vio_legacy_del_vq i) (fun _ s' => Sane s' /\ vdev s' = vdev s /\ pages (env s') ≡ₚ lp /\ blocks (env s') ≡ₚ blocks (env s)) s.
Proof.
  intros N Hx Hv Hp. unfold vio_legacy_del_vq. wp_step. eapply wp_get_info; [done|]. rewrite Hv.
  eapply wp_quiet; [sane_tac|apply quiet_lreg|]. intros a s1 _ S1. eapply wp_quiet; [sane_tac|apply quiet_write16|]. intros [] s2 _ S2.
  eapply wp_quiet; [sane_tac|apply quiet_gets|]. intros m s3 _ S3.
  eapply (wp_quiet (fun _ => True)); [sane_tac|..].
  { destruct m; [|by apply quiet_ret]. eapply quiet_bind; [apply quiet_lreg|]. intros ? _. eapply quiet_bind; [apply quiet_write16|].
    intros ? _. eapply quiet_bind; [apply quiet_lreg|]. intros ? _. eapply quiet_bind; [apply quiet_read8|]. intros ? _. by apply quiet_ret. }
  intros [] s4 _ S4. eapply wp_quiet; [sane_tac|apply quiet_lreg|]. intros ? s5 _ S5. eapply wp_quiet; [sane_tac|apply quiet_write32|]. intros [] s6 _ S6.
  assert (same s s6) as (V & P6 & B6 & N6) by (do 5 (etrans; [eassumption|]); done).
  apply wp_sys. eapply wp_mono; [apply law_free_pages; [by apply N6|by rewrite P6]|]. intros [] e (Ne & Hb & Hq). cbn.
  split_and!; [done|done|done|by rewrite Hb].
Qed.

Lemma modern_del_ok i x vq lp lb s : Sane s -> (infos (vdev s))⟦i⟧ = Some x -> info_vq x = Some vq ->
  queue_num (ring_num (vq_ring vq)) -> pages (env s) ≡ₚ info_queue x :: lp -> blocks (env s) ≡ₚ vq_va vq :: lb ->
  wp (vio_modern_del_vq i) (fun _ s' => Sane s' /\ vdev s' = vdev s /\ pages (env s') ≡ₚ lp /\ blocks (env s') ≡ₚ lb) s.
Proof.
  intros N Hx Hv Hn Hp Hb. unfold vio_modern_del_vq. wp_step. eapply wp_get_info; [done|]. rewrite Hv.
  eapply wp_quiet; [sane_tac|apply quiet_reg|]. intros a s1 _ S1. eapply wp_quiet; [sane_tac|apply quiet_write16|]. intros [] s2 _ S2.
  eapply wp_quiet; [sane_tac|apply quiet_gets|]. intros m s3 _ S3.
  eapply (wp_quiet (fun _ => True)); [sane_tac|..].
  { destruct m; [|by apply quiet_ret]. eapply quiet_bind; [apply quiet_reg|]. intros ? _. eapply quiet_bind; [apply quiet_write16|].
    intros ? _. eapply quiet_bind; [apply quiet_read16|]. intros ? _. by apply quiet_ret. }
  intros [] s4 _ S4. assert (same s s4) as (V & P4 & B4 & N4) by (do 3 (etrans; [eassumption|]); done).
  destruct (virtqueue_shutdown_ok vq Hn) as (vq' & Eq). wp_step. eapply wp_pure; [exact Eq|]. cbv beta.
  wp_step. apply wp_sys. eapply wp_mono; [apply law_free_block; [by apply N4|by rewrite B4]|]. intros [] e (Ne & Hp5 & Hb5). cbv beta.
  apply wp_sys. eapply wp_mono; [apply law_free_pages; [done|by cbn; rewrite Hp5, P4]|]. intros [] e' (Ne' & Hb6 & Hp6).
  cbn. split_and!; [done|done|done|by rewrite Hb6].
Qed.

Lemma delete_op_ok t P B i x s : vinv t P B s -> (infos (vdev s))⟦i⟧ = Some x -> is_Some (info_vq x) ->
  wp (delete_queue_op i) (fun _ s' => vinv t P B s' /\ only i s s' /\
    exists y, (infos (vdev s'))⟦i⟧ = Some y /\ info_vq y = None) s.
Proof.
  intros I Hx [vq Hv]. unfold delete_queue_op. pose proof (inv_sane _ _ _ _ I) as N.
  destruct (owned_zinsert own_page _ i x x Hx) as (rp & Rp & _). destruct (owned_zinsert (own_ctl t) _ i x x Hx) as (rb & Rb & _).
  pose proof (inv_pages _ _ _ _ I) as Hp. pose proof (inv_blocks _ _ _ _ I) as Hb. rewrite Rp in Hp. rewrite Rb in Hb.
  unfold own_page in Hp. unfold own_ctl in Hb. rewrite Hv in Hp, Hb. cbn in Hp.
  pose proof (inv_entry _ _ _ _ I i x Hx vq Hv) as [_ Hn].
  wp_step. eapply wp_ops; [apply I|].
  eapply (wp_mono _ (fun _ s' => Sane s' /\ vdev s' = vdev s /\ info_queue x :: pages (env s') ≡ₚ pages (env s) /\ ctl t vq ++ blocks (env s') ≡ₚ blocks (env s))).
  { destruct t; cbn in Hb.
    - eapply wp_mono; [by eapply legacy_del_ok|]. intros [] s' (N' & V & Hp' & Hb'). split_and!; [done|done|by rewrite Hp', Hp|done].
    - eapply wp_mono; [by eapply modern_del_ok|]. intros [] s' (N' & V & Hp' & Hb'). split_and!; [done|done|by rewrite Hp', Hp|cbn; by rewrite Hb', Hb]. }
  intros [] s1 (N1 & V & Hp1 & Hb1). cbv beta. eapply (wp_set_at i _ x); [by rewrite V|]. intros s2 A2 E2.
  assert (at_info i (x <| info_vq := None |>) s s2) as A by (unfold at_info in *; by rewrite A2, V).
  split_and!.
  - eapply (vinv_at t P B i x _ [] s); [done|done|exact A|done|by eapply sane_env|..]; rewrite E2; unfold own_page, own_ctl; rewrite Hv; done.
  - by eapply only_at.
  - eexists. split; [by eapply at_info_lookup|done].
Qed.

Lemma delete_from_ok t P B n : forall i s, vinv t P B s -> 0 <= i -> i + Z.of_nat n <= zlen (infos (vdev s)) ->
  wp (delete_queues_from n i) (fun _ s' => vinv t P B s' /\ info_block (vdev s') = info_block (vdev s) /\
    zlen (infos (vdev s')) = zlen (infos (vdev s)) /\ frame s s' /\
    forall j y, (infos (vdev s'))⟦j⟧ = Some y -> (i <= j < i + Z.of_nat n -> info_vq y = None) /\
      (j < i -> (infos (vdev s))⟦j⟧ = Some y)) s.
Proof.
  induction n as [|n IH]; intros i s I Hi Hn.
  { cbn [delete_queues_from]. wp_step. split_and!; [done|done|done|done|]. intros. split; [lia|done]. }
  cbn [delete_queues_from]. destruct (zlookup_in_range (infos (vdev s)) i) as [x Hx]; [lia|].
  wp_step. eapply wp_get_info; [done|]. wp_step.
  eapply (wp_mono _ (fun _ s' => vinv t P B s' /\ only i s s' /\ exists y, (infos (vdev s'))⟦i⟧ = Some y /\ info_vq y = None)).
  { destruct (info_vq x) as [vq|] eqn:Hv; [by eapply delete_op_ok|]. wp_step. split_and!; [done|by split_and!|by exists x]. }
  intros [] s1 (I1 & (O1 & L1 & B1 & V1) & y1 & Hy1 & Hyv). cbv beta. eapply wp_mono; [apply (IH (i + 1) s1); [done|lia|lia]|].
  intros [] s2 (I2 & B2 & L2 & V2 & Hj). split_and!; [done|by rewrite B2|lia|by etrans|]. intros j y Hy. destruct (Hj j y Hy) as [Ha Hb]. split.
  - intros Hr. destruct (decide (j = i)) as [->|]; [|apply Ha; lia]. rewrite Hb in Hy1 by lia. by injection Hy1 as <-.
  - intros Hlt. rewrite <- (O1 j) by lia. apply Hb. lia.
Qed.

Lemma delete_queues_ok t P B s : vinv t P B s ->
  wp virtio_delete_queues (fun _ s' => vinv t P B s' /\ no_queues (vdev s') /\ info_block (vdev s') = info_block (vdev s) /\ frame s s') s.
Proof.
  intros I. unfold virtio_delete_queues, dev. wp_steps. cbn [id].
  assert (info (vdev s) = InfoNull \/ live (vdev s)) as [E0|Hl] by (unfold live; destruct (info (vdev s)); auto).
  - change (id (vdev s)) with (vdev s). rewrite E0. wp_step. split_and!; [done| |done|done]. intros j x. unfold infos. rewrite E0.
    unfold zlookup. by destruct (0 <=? j).
  - assert (wp (delete_queues_from (Z.to_nat (maxQueues (vdev s))) 0)
      (fun _ s' => vinv t P B s' /\ no_queues (vdev s') /\ info_block (vdev s') = info_block (vdev s) /\ frame s s') s) as W.
    { pose proof (inv_max _ _ _ _ I Hl) as M. pose proof (zlen_nonneg (infos (vdev s))).
      eapply wp_mono; [eapply (delete_from_ok t P B _ 0 s I); lia|]. intros [] s' (I' & B' & L' & V' & Hj).
      split_and!; [done| |done|done]. intros j y Hy. pose proof (zlookup_lt _ _ _ Hy). apply (Hj j y Hy). lia. }
    change (id (vdev s)) with (vdev s). unfold live in Hl. by destruct (info (vdev s)).
Qed.

(** ** Finding *)

Lemma setup_queues_ok t P B n : forall i s, vinv t P B s -> 0 <= i -> i + Z.of_nat n <= zlen (infos (vdev s)) -> i + Z.of_nat n <= vectors (E := E) ->
  (forall j x, i <= j -> (infos (vdev s))⟦j⟧ = Some x -> info_vq x = None) ->
  wp (setup_queues n i) (fun r s' => info_block (vdev s') = info_block (vdev s) /\ frame s s' /\
    if NT_SUCCESS r.1 then vinv t P B s' /\ length r.2 = n /\
      (forall j, j < i -> (infos (vdev s'))⟦j⟧ = (infos (vdev s))⟦j⟧) /\
      (forall k vq, r.2 !! k = Some vq -> ring_fresh (vq_ring vq) /\ exists q,
        (infos (vdev s'))⟦i + Z.of_nat k⟧ = Some (mk_info (Some vq) (ring_num (vq_ring vq)) q))
    else exists leak, vinv t (leak ++ P) B s' /\ leaked t r.1 leak) s.
Proof.
  induction n as [|n IH]; intros i s I Hi Hn Hm He.
  { cbn [setup_queues]. wp_step. by split_and!. }
  cbn [setup_queues]. destruct (zlookup_in_range (infos (vdev s)) i) as [x Hx]; [lia|].
  eapply wp_quiet; [apply I|apply quiet_msix_vector; lia|]. intros vec s0 _ S0. pose proof S0 as (V0 & _).
  wp_step. eapply wp_mono; [eapply (vp_setup_ok t P B i x vec s0); [by eapply vinv_same|by rewrite V0|by eapply He, Hx]|].
  intros [status [vq|]] s1 ((O1 & L1 & B1 & V1) & Hs); cbn in Hs |- *; rewrite V0 in L1, B1, O1; unfold frame in V1; rewrite V0 in V1; fold (frame s s1) in V1.
  - destruct Hs as (-> & I1 & Hf & q & Hq). change (negb (NT_SUCCESS STATUS_SUCCESS)) with false. cbv iota.
    wp_step. eapply wp_mono; [apply (IH (i + 1) s1); [done|lia|lia|lia|]|].
    { intros j y Hj Hy. rewrite O1 in Hy by lia. eapply He, Hy. lia. }
    intros [st vqs] s2 (B2 & V2 & Hr). cbn in Hr |- *. split; [by rewrite B2, B1|]. split; [by etrans|].
    destruct (NT_SUCCESS st); [|done]. destruct Hr as (I2 & Hl & Hlo & Hk). split_and!; [done|by rewrite Hl|..].
    + intros j Hj. rewrite Hlo, O1 by lia. done.
    + intros [|k] vq' Hvq; cbn in Hvq.
      * injection Hvq as <-. split; [done|]. exists q. rewrite Z.add_0_r, Hlo by lia. done.
      * destruct (Hk k vq' Hvq) as (? & q' & Hq'). split; [done|]. exists q'.
        by replace (i + Z.of_nat (S k)) with (i + 1 + Z.of_nat k) by lia.
  - destruct Hs as (Hst & y & leak & Hy & Hyv & I1 & Hl). rewrite Hst. cbn [negb]. wp_step. cbn. split; [done|]. split; [done|].
    rewrite Hst. by exists leak.
Qed.

Lemma reserve_queues_ok t P B nvqs s : vinv t P B s -> live (vdev s) -> no_queues (vdev s) -> 0 <= nvqs ->
  wp (virtio_reserve_queue_memory nvqs) (fun st s' => vinv t P B s' /\ live (vdev s') /\ common (vdev s') = common (vdev s) /\ no_queues (vdev s') /\
    if NT_SUCCESS st then nvqs <= maxQueues (vdev s') else st = STATUS_INSUFFICIENT_RESOURCES /\ ~ blocks_available (E := E)) s.
Proof.
  intros I Hl He Hn. unfold virtio_reserve_queue_memory, dev. wp_steps. change (id (vdev s)) with (vdev s).
  destruct (Z.gtb_spec nvqs (maxQueues (vdev s))) as [Hgt|Hle].
  2: { wp_step. by split_and!. }
  wp_step. apply wp_sys. eapply wp_mono; [apply alloc_block_ok, I|]. intros b e (Ne & Hp & Hb). cbv beta.
  destruct Hb as [(-> & Hb & Hna)|[Hb0 Hb]].
  { change (0 =? 0) with true. cbv iota. wp_step. split_and!; [|done|done|done|by split].
    eapply vinv_same; [done|]. split_and!; [done|done|done|by intros _]. }
  rewrite (proj2 (Z.eqb_neq b 0)) by done.
  assert (owned (own_ctl t) (infos (vdev s)) = []) as Oc
    by (apply owned_empty; intros j x Hx; unfold own_ctl; by rewrite (He j x Hx)).
  assert (owned own_page (infos (vdev s)) = []) as Op
    by (apply owned_empty; intros j x Hx; unfold own_page; by rewrite (He j x Hx)).
  pose proof (inv_blocks _ _ _ _ I) as Ib. pose proof (inv_pages _ _ _ _ I) as Ip. rewrite Oc in Ib. rewrite Op in Ip. cbn in Ib, Ip.
  wp_step. eapply (wp_mono _ (fun _ s1 => Sane s1 /\ vdev s1 = vdev s /\ pages (env s1) ≡ₚ P /\ blocks (env s1) ≡ₚ b :: B)).
  { unfold info_block in Ib. destruct (info (vdev s)) as [| |va l] eqn:Ei.
    - by unfold live in Hl.
    - wp_step. cbn. split_and!; [exact Ne|done|by rewrite Hp|by rewrite Hb, Ib].
    - apply wp_sys. eapply wp_mono; [apply (law_free_block va (b :: B)); [exact Ne|cbn; rewrite Hb, Ib; solve_Permutation]|].
      intros [] e1 (Ne1 & Hp1 & Hb1). cbn. split_and!; [done|done|by rewrite Hp1, Hp|done]. }
  intros [] s1 (N1 & V1 & P1 & B1). cbv beta. unfold set_dev. wp_steps.
  assert (forall j x, (replicate (Z.to_nat nvqs) zero_info)⟦j⟧ = Some x -> x = zero_info) as Hz.
  { intros j x Hx. unfold zlookup in Hx. destruct (0 <=? j); [|done]. by apply lookup_replicate in Hx as [-> _]. }
  change (NT_SUCCESS STATUS_SUCCESS) with true. split_and!; [|done|cbn; by rewrite V1| |done].
  - split; cbn; rewrite ?V1.
    + exact N1.
    + apply I.
    + intros _. rewrite zlen_replicate. lia.
    + intros j x Hx vq Hvq. apply Hz in Hx as ->. done.
    + rewrite P1, owned_empty; [done|]. intros j x Hx. by apply Hz in Hx as ->.
    + rewrite B1, owned_empty; [done|]. intros j x Hx. by apply Hz in Hx as ->.
  - intros j x Hx. by apply Hz in Hx as ->.
Qed.

Lemma quiet_config_vector v : quiet (fun _ => True) (vio_modern_set_config_vector (E := E) v) /\
  quiet (fun _ => True) (vio_legacy_set_config_vector (E := E) v).
Proof.
  split; (eapply quiet_bind; [apply quiet_reg || apply quiet_lreg|]); intros ? _;
    (eapply quiet_bind; [apply quiet_write16|]); intros ? _; (eapply quiet_mono; [apply quiet_read16|done]).
Qed.

Lemma find_queues_ok t P B nvqs s : vinv t P B s -> live (vdev s) -> no_queues (vdev s) -> 0 <= nvqs <= vectors (E := E) ->
  wp (virtio_find_queues nvqs) (fun r s' => live (vdev s') /\ common (vdev s') = common (vdev s) /\
    if NT_SUCCESS r.1 then vinv t P B s' /\ length r.2 = Z.to_nat nvqs /\
      forall k vq, r.2 !! k = Some vq -> vq_index vq = Z.of_nat k /\ ring_fresh (vq_ring vq) /\ exists q,
        (infos (vdev s'))⟦Z.of_nat k⟧ = Some (mk_info (Some vq) (ring_num (vq_ring vq)) q)
    else exists leak, vinv t (leak ++ P) B s' /\ no_queues (vdev s') /\ leaked t r.1 leak) s.
Proof.
  intros I Hl He Hn. unfold virtio_find_queues. wp_step. eapply wp_mono; [apply (reserve_queues_ok t P B); [done|done|done|lia]|].
  intros st s1 (I1 & L1 & C1 & E1 & Hst). cbv beta. destruct (NT_SUCCESS st) eqn:Es; cbn [negb].
  2: { wp_step. cbn. rewrite Es. split; [done|]. split; [done|]. exists []. split_and!; [done|done|by left]. }
  eapply wp_quiet; [apply I1|apply quiet_msix_vector; lia|]. intros vec s2 _ S2.
  assert (vinv t P B s2) as I2 by (by eapply vinv_same). pose proof S2 as (V2 & _).
  wp_step. eapply (wp_mono _ (fun _ s3 => same s2 s3)).
  { destruct (negb (vec =? _)); [|by wp_step]. wp_step. unfold set_config_vector_op. eapply wp_ops; [apply I2|].
    eapply (wp_mono _ (fun _ s3 => True /\ same s2 s3)); [destruct t; apply quiet_config_vector, I2|]. intros v s3 [_ S3]. by wp_step. }
  intros ok s3 S3. cbv beta. assert (vinv t P B s3) as I3 by (by eapply vinv_same). pose proof S3 as (V3 & _).
  destruct ok; cbn [negb].
  2: { wp_step. eapply wp_mono; [by apply (delete_queues_ok t P B)|]. intros [] s4 (I4 & E4 & _ & V4 & C4). cbv beta. wp_step. cbn.
       split; [apply V4; by rewrite V3, V2|]. split; [by rewrite C4, V3, V2|]. exists []. split_and!; [done|done|by left]. }
  assert (vdev s3 = vdev s1) as V by (by rewrite V3).
  wp_step. eapply wp_mono.
  { apply (setup_queues_ok t P B (Z.to_nat nvqs) 0 s3 I3); [lia|..].
    - rewrite <- (inv_max _ _ _ _ I3) by (by rewrite V). rewrite V. lia.
    - lia.
    - rewrite V. intros j x _. apply E1. }
  intros [st' vqs] s4 (_ & [V4 C4] & Hr). rewrite V in V4, C4. cbn [fst snd] in Hr |- *. destruct (NT_SUCCESS st') eqn:Es'.
  - wp_steps. cbn. rewrite Es'. split; [auto|]. split; [by etrans|]. destruct Hr as (I4 & Hlen & _ & Hk). split_and!; [done|done|].
    intros k vq Hvq. destruct (Hk k vq Hvq) as (Hf & q & Hq). rewrite Z.add_0_l in Hq.
    split_and!; [|done|by exists q]. by destruct (inv_entry _ _ _ _ I4 _ _ Hq vq eq_refl).
  - destruct Hr as (leak & I4 & Hlk). wp_step. eapply wp_mono; [apply (delete_queues_ok t (leak ++ P) B); done|].
    intros [] s5 (I5 & E5 & _ & V5 & C5). cbv beta. wp_step. cbn. rewrite Es'. split; [auto|]. split; [by rewrite C5, C4|]. by exists leak.
Qed.

(** ** The life of the queues *)

(** What a driver does with its virtqueues: it changes the rings, not their sizes. *)
Definition ring_use s s' : Prop :=
  env s' = env s /\ device (vdev s') = device (vdev s) /\ common (vdev s') = common (vdev s) /\ maxQueues (vdev s') = maxQueues (vdev s) /\
  info_block (vdev s') = info_block (vdev s) /\ zlen (infos (vdev s')) = zlen (infos (vdev s)) /\ (live (vdev s') <-> live (vdev s)) /\
  forall j y, (infos (vdev s'))⟦j⟧ = Some y -> exists x, (infos (vdev s))⟦j⟧ = Some x /\ info_queue y = info_queue x /\
    match info_vq x, info_vq y with
    | Some v, Some w => vq_va w = vq_va v /\ vq_index w = vq_index v /\ ring_num (vq_ring w) = ring_num (vq_ring v)
    | None, None => True
    | _, _ => False
    end.

Lemma owned_ext {A} (f : A -> list Z) : forall l l', zlen l' = zlen l ->
  (forall j y, l'⟦j⟧ = Some y -> exists x, l⟦j⟧ = Some x /\ f y = f x) -> owned f l' = owned f l.
Proof.
  intros l l' Hl Hj. unfold owned. f_equal. apply list_eq. intros n. rewrite !list_lookup_fmap.
  destruct (l' !! n) as [y|] eqn:Hy; cbn.
  - destruct (Hj (Z.of_nat n) y) as (x & Hx & Ef); [unfold zlookup; rewrite (proj2 (Z.leb_le _ _)), Nat2Z.id by lia; done|].
    unfold zlookup in Hx. rewrite (proj2 (Z.leb_le _ _)), Nat2Z.id in Hx by lia. rewrite Hx. cbn. by f_equal.
  - apply lookup_ge_None in Hy. unfold zlen in Hl. rewrite lookup_ge_None_2; [done|lia].
Qed.

Lemma vinv_use t P B s s' : vinv t P B s -> ring_use s s' -> vinv t P B s'.
Proof.
  intros [Is Id Im Ie Ip Ib] (Ee & Ed & _ & Emx & Eb & El & Hlv & Hj). split; [by eapply sane_env|..].
  - by rewrite Ed.
  - intros Hl. rewrite Emx, El. by apply Im, Hlv.
  - intros i y Hy w Hw. destruct (Hj i y Hy) as (x & Hx & _ & Hm). rewrite Hw in Hm.
    destruct (info_vq x) as [v|] eqn:Hv; [|done]. destruct Hm as (_ & -> & ->). by apply (Ie i x Hx).
  - rewrite Ee, Ip. apply Permutation_app; [|done]. rewrite (owned_ext own_page (infos (vdev s)) (infos (vdev s'))); [done|done|].
    intros j y Hy. destruct (Hj j y Hy) as (x & Hx & Eq & Hm). exists x. split; [done|]. unfold own_page. rewrite Eq.
    by destruct (info_vq x), (info_vq y).
  - rewrite Ee, Ib, Eb. apply Permutation_app; [|done]. rewrite (owned_ext (own_ctl t) (infos (vdev s)) (infos (vdev s'))); [done|done|].
    intros j y Hy. destruct (Hj j y Hy) as (x & Hx & Eq & Hm). exists x. split; [done|]. unfold own_ctl.
    destruct (info_vq x), (info_vq y); try done. destruct t; [done|]. cbn. by destruct Hm as (-> & _).
Qed.

Lemma shutdown_ok t P B s : vinv t P B s -> no_queues (vdev s) ->
  wp virtio_device_shutdown (fun _ s' => Sane s' /\ pages (env s') ≡ₚ P /\ blocks (env s') ≡ₚ B) s.
Proof.
  intros I He. pose proof (inv_blocks _ _ _ _ I) as Ib. pose proof (inv_pages _ _ _ _ I) as Ip.
  rewrite owned_empty in Ib by (intros j x Hx; unfold own_ctl; by rewrite (He j x Hx)).
  rewrite owned_empty in Ip by (intros j x Hx; unfold own_page; by rewrite (He j x Hx)). cbn in Ib, Ip.
  unfold virtio_device_shutdown, dev. wp_steps. unfold info_block in Ib. destruct (info (vdev s)) as [| |va l].
  1, 2: wp_step; split_and!; [apply I|done|done].
  wp_step. apply wp_sys. eapply wp_mono; [apply law_free_block, Ib; apply I|]. intros [] e (Ne & Hp & Hb). cbv beta. unfold set_dev. wp_step. cbn.
  split_and!; [exact Ne|by rewrite Hp|done].
Qed.

Lemma destroy_ok t P B s : vinv t P B s ->
  wp (virtio_delete_queues;; virtio_device_shutdown) (fun _ s' => Sane s' /\ pages (env s') ≡ₚ P /\ blocks (env s') ≡ₚ B) s.
Proof.
  intros I. wp_step. eapply wp_mono; [by apply (delete_queues_ok t P B)|]. intros [] s1 (I1 & E1 & _). by apply (shutdown_ok t).
Qed.

End transport.
