(* ===== verification/PciCapSpec.v ===== *)
(** * The PCI transport: capabilities and base addresses

    The walk over the PCI capability list finds, for each kind of virtio structure, the
    last capability of that kind; it ends on every list that ends, and does not end on a
    list that loops through a virtio capability.  A capability is mapped only inside
    its BAR.  The search for a base address finds the register that holds it.  The last part
    is about reading the device configuration, again when it changes meanwhile. *)

From Stdlib Require Import ZArith Lia.
From stdpp Require Import base list numbers option.
From S2P Require Import Prelude.
From S2P Require Import Virtio.
From S2P Require Import Effects.
From S2P Require Import Pci.
From S2P Require Import PciSpec.

Section config_space.
Context {E : Type} `{VirtIOSystemOps E}.

(** The 256 bytes of the configuration space and the lengths of the BARs in the states
    [ok], which reading does not change. *)
Context (ok : E -> Prop) (space : Z -> Z) (bar_len : Z -> Z).
Definition dword (a : Z) : Z := le_join (space <$> [a; a + 1; a + 2; a + 3]).
Context (space_byte : forall a, 0 <= space a < 256).
Context (read_byte : forall a (e : E), ok e -> pci_read_config_byte a e = Ok (Some (space a), e)).
Context (read_word : forall a (e : E), ok e -> pci_read_config_word a e = Ok (Some (le_join (space <$> [a; a + 1])), e)).
Context (read_dword : forall a (e : E), ok e -> pci_read_config_dword a e = Ok (Some (dword a), e)).
Context (read_len : forall b (e : E), ok e -> pci_get_resource_len b e = Ok (bar_len b, e)).

(** ** The capability list *)

(** The capabilities on the list that starts at pointer [p], by their offsets. *)
Inductive cap_list : Z -> list Z -> Prop :=
  | cap_end p : p < 0x40 -> cap_list p []
  | cap_next p o l : 0x40 <= p -> o = Z.land p 0xfc -> space o <> 0xff -> cap_list (space (o + 1)) l -> cap_list p (o :: l).

Definition vendor (o : Z) : bool := space o =? PCI_CAPABILITY_ID_VENDOR_SPECIFIC.

(** What the driver records of the capability at [o]. *)
Definition record_cap (Offsets : list Z) (o : Z) : list Z :=
  if (space (o + cap_bar) <? PCI_TYPE0_ADDRESSES) && (space (o + cap_cfg_type) <? zlen Offsets) && (bar_len (space (o + cap_bar)) >? 0)
  then zinsert (space (o + cap_cfg_type)) o Offsets else Offsets.

(** The vendor capabilities of a list, in order. *)
Definition vendors (l : list Z) : list Z := filter (fun o => vendor o = true) l.

Lemma config_byte_ok a (s : vst E) : ok (env s) -> config_byte a s = Ok (Some (space a), s).
Proof.
  intros Hs. unfold config_byte, sys, mbind, M_bind, mret, M_ret. rewrite read_byte by done. cbn. rewrite u8_small by apply space_byte. by destruct s.
Qed.

Lemma cap_offset p : 0x40 <= p < 256 -> 0x40 <= Z.land p 0xfc <= p /\ Z.land p 0xfc < 255 /\ Z.land (Z.land p 0xfc) 0xfc = Z.land p 0xfc.
Proof.
  intros Hp. assert (Z.land p 0xfc = p / 4 * 4) as E4.
  { change 0xfc with (Z.shiftl (Z.ones 6) 2). apply Z.bits_inj'. intros n Hn.
    rewrite Z.land_spec, Z.shiftl_spec by done. change 4 with (2 ^ 2). rewrite <- Z.shiftl_mul_pow2, <- Z.shiftr_div_pow2 by lia.
    rewrite Z.shiftl_spec by done. destruct (decide (n < 2)).
    - rewrite !(Z.testbit_neg_r _ (n - 2)) by lia. by rewrite andb_false_r.
    - rewrite Z.shiftr_spec by lia. replace (n - 2 + 2) with n by lia. destruct (decide (n < 8)).
      + rewrite Z.ones_spec_low by lia. by rewrite andb_true_r.
      + replace p with (p mod 2 ^ 8) by (apply Z.mod_small; lia). rewrite Z.mod_pow2_bits_high by lia. done. }
  rewrite <- Z.land_assoc. change (Z.land 252 252) with 252. rewrite E4. Z.to_euclidean_division_equations; lia.
Qed.

(** The search from pointer [p] skips to the first vendor capability. *)
Lemma next_vendor_ok p l : cap_list p l -> forall n (s : vst E), ok (env s) -> (length l <= n)%nat -> p < 256 ->
  next_vendor_capability n p s = Ok (default 0 (head (vendors l)), s) /\
  match vendors l with
  | [] => True
  | o :: v => exists l', cap_list (space (o + 1)) l' /\ vendors l' = v /\ (length l' < length l)%nat /\ 0x40 <= o < 255
  end.
Proof.
  induction 1 as [p Hp|p o l Hp Ho Hff Hl IH]; intros n s Hs Hn Hp2.
  - split; [|done]. destruct n; [done|]. cbn. rewrite (Z.geb_leb p), (proj2 (Z.leb_gt _ _)) by lia. done.
  - destruct n as [|n]; cbn in Hn; [lia|]. pose proof (cap_offset p ltac:(lia)) as Hco. rewrite <- Ho in Hco.
    cbn [next_vendor_capability]. rewrite Z.geb_leb, (proj2 (Z.leb_le _ _)) by lia. rewrite <- Ho.
    unfold mbind, M_bind. rewrite config_byte_ok by done. rewrite (proj2 (Z.eqb_neq _ _) Hff).
    unfold vendors. rewrite filter_cons. fold (vendor o). destruct (vendor o) eqn:V; cbn.
    + split; [done|]. exists l. split_and!; [done|done|lia..].
    + rewrite config_byte_ok by done. destruct (IH n s) as [-> Hm]; [done|lia|apply space_byte|]. split; [done|]. fold (vendors l).
      destruct (vendors l); [done|]. destruct Hm as (l' & ? & ? & ? & ?). exists l'. split_and!; try done; lia.
Qed.

Lemma find_next_ok a l (s : vst E) : ok (env s) -> cap_list (space a) l -> (length l <= 48)%nat ->
  find_next_pci_vendor_capability a s = Ok (default 0 (head (vendors l)), s).
Proof.
  intros Hs Hl Hn. unfold find_next_pci_vendor_capability, mbind, M_bind. rewrite config_byte_ok by done.
  apply next_vendor_ok; [done|done|done|apply space_byte].
Qed.

(** One round of the driver's loop. *)
Lemma vendor_round fuel o Offsets (s : vst E) : ok (env s) -> 0 < o < 255 ->
  vendor_capabilities fuel o Offsets s =
  match find_next_pci_vendor_capability (o + 1) s with
  | Ok (o', s') => match fuel with O => Fault OutOfFuel | S fuel => vendor_capabilities fuel o' (record_cap Offsets o) s' end
  | Fault f => Fault f
  end.
Proof.
  intros Hs Ho. assert (u8 (o + 1) = o + 1) as E1 by (apply u8_small; lia).
  destruct fuel; cbn [vendor_capabilities]; rewrite (proj2 (Z.gtb_lt o 0)) by lia;
    unfold uninit, mbind, M_bind, mret, M_ret; rewrite E1; do 2 (rewrite config_byte_ok by done; cbv beta iota); unfold record_cap;
    (destruct ((space (o + cap_bar) <? PCI_TYPE0_ADDRESSES) && (space (o + cap_cfg_type) <? zlen Offsets)); cbn [andb]; [|done]);
    unfold sys; rewrite read_len by done; cbn; by destruct s.
Qed.

Lemma vendor_capabilities_ok : forall n l, length (vendors l) = n -> forall p, cap_list p l -> p < 256 -> (length l <= 48)%nat ->
  forall fuel Offsets (s : vst E), ok (env s) -> (n <= fuel)%nat ->
  vendor_capabilities fuel (default 0 (head (vendors l))) Offsets s = Ok (foldl record_cap Offsets (vendors l), s).
Proof.
  induction n as [|n IH]; intros l Hn p Hl Hp H48 fuel Offsets s Hs Hf.
  - apply nil_length_inv in Hn. rewrite Hn. by destruct fuel.
  - destruct (next_vendor_ok p l Hl (length l) s) as [_ Hm]; [done|done|done|].
    destruct (vendors l) as [|o v] eqn:Ev; [done|]. destruct Hm as (l' & Hl' & Hv & Hlt & Ho). cbn in Hn.
    cbn [head foldl]. change (default 0 (Some o)) with o. rewrite vendor_round by (done || lia). rewrite (find_next_ok _ l') by (done || lia).
    destruct fuel as [|fuel]; [lia|]. rewrite (IH l' ltac:(rewrite Hv; lia) _ Hl'); [by rewrite Hv|apply space_byte|lia|done|lia].
Qed.

(** The start of the list in the header of a device with a capability list. *)
Definition first_pointer : Z :=
  if Z.land (space PCI_HeaderType) (Z.lnot PCI_MULTIFUNCTION) =? PCI_CARDBUS_BRIDGE_TYPE then 0x14 else 0x34.
Definition has_list : bool := negb (Z.land (le_join (space <$> [PCI_Status; PCI_Status + 1])) PCI_STATUS_CAPABILITIES_LIST =? 0).

Lemma find_first_ok (s : vst E) : ok (env s) -> has_list = true ->
  find_first_pci_vendor_capability s = find_next_pci_vendor_capability first_pointer s.
Proof.
  intros Hs Hh. unfold find_first_pci_vendor_capability, mbind, M_bind. rewrite config_byte_ok by done.
  unfold config_word, sys, mbind, M_bind, mret, M_ret. rewrite read_word by done. cbn -[Z.land le_join].
  assert (u16 (le_join [space PCI_Status; space (PCI_Status + 1)]) = le_join [space PCI_Status; space (PCI_Status + 1)]) as ->.
  { apply u16_small. cbn. pose proof (space_byte PCI_Status). pose proof (space_byte (PCI_Status + 1)). lia. }
  unfold has_list in Hh. cbn -[Z.land le_join] in Hh. apply negb_true_iff in Hh. rewrite Hh.
  replace (s <| env := env s |>) with s by (by destruct s). unfold first_pointer.
  destruct (Z.eqb_spec (Z.land (space PCI_HeaderType) (Z.lnot PCI_MULTIFUNCTION)) PCI_BRIDGE_TYPE) as [->|]; done.
Qed.

(** The search at a pointer to a vendor capability finds that capability. *)
Lemma find_self a o (s : vst E) : ok (env s) -> space a = o -> 0x40 <= o -> Z.land o 0xfc = o -> vendor o = true ->
  find_next_pci_vendor_capability a s = Ok (o, s).
Proof.
  intros Hs Ha Ho Hal Hv. unfold find_next_pci_vendor_capability, mbind, M_bind. rewrite config_byte_ok by done. rewrite Ha. cbn [next_vendor_capability].
  rewrite Z.geb_leb, (proj2 (Z.leb_le _ _)), Hal by lia. unfold mbind, M_bind. rewrite config_byte_ok by done.
  unfold vendor in Hv. apply Z.eqb_eq in Hv. by rewrite Hv.
Qed.

(** A vendor capability whose list leads back to itself. *)
Lemma vendor_loop o : 0x40 <= o < 255 -> Z.land o 0xfc = o -> vendor o = true -> space (o + 1) = o ->
  forall fuel Offsets (s : vst E), ok (env s) -> vendor_capabilities fuel o Offsets s = Fault OutOfFuel.
Proof.
  intros Ho Hal Hv Hnext. induction fuel as [|fuel IH]; intros Offsets s Hs; rewrite vendor_round by (done || lia);
    rewrite (find_self (o + 1) o) by (done || lia); [done|by apply IH].
Qed.

(** Claim C39.  The search for the virtio capabilities of a modern device ends on every
    capability list of at most 48 entries that ends, and then holds for each kind of
    structure the last capability of that kind that lies in an existing BAR.  On a list that
    starts with a virtio capability pointing to itself it never ends, however long it runs. *)
Theorem find_pci_vendor_capabilities_correct : has_list = true ->
  (forall l fuel Offsets (s : vst E), ok (env s) -> cap_list (space first_pointer) l -> (length l <= 48)%nat -> (length l <= fuel)%nat ->
    find_pci_vendor_capabilities fuel Offsets s = Ok (foldl record_cap Offsets (vendors l), s)) /\
  (forall o fuel Offsets (s : vst E), ok (env s) -> space first_pointer = o -> 0x40 <= o -> Z.land o 0xfc = o -> vendor o = true -> space (o + 1) = o ->
    find_pci_vendor_capabilities fuel Offsets s = Fault OutOfFuel).
Proof.
  intros Hh. split.
  - intros l fuel Offsets s Hs Hl Hn Hf. unfold find_pci_vendor_capabilities, mbind, M_bind.
    rewrite (find_first_ok s Hs Hh), (find_next_ok _ l) by done.
    apply (vendor_capabilities_ok _ _ eq_refl _ Hl); [apply space_byte|done|done|]. etrans; [|exact Hf]. apply length_filter.
  - intros o fuel Offsets s Hs Hp Ho Hal Hv Hn. pose proof (space_byte first_pointer) as Hb.
    pose proof (cap_offset o ltac:(lia)) as Hco. rewrite Hal in Hco.
    unfold find_pci_vendor_capabilities, mbind, M_bind. rewrite (find_first_ok s Hs Hh).
    rewrite (find_self first_pointer o) by (done || lia). apply vendor_loop; (done || lia).
Qed.

(** ** Mapping a capability *)

Lemma config_dword_ok a (s : vst E) : ok (env s) -> config_dword a s = Ok (Some (dword a), s).
Proof.
  intros Hs. unfold config_dword, sys, mbind, M_bind, mret, M_ret. rewrite read_dword by done. cbn. rewrite u32_small; [by destruct s|].
  unfold dword. cbn. pose proof (space_byte a). pose proof (space_byte (a + 1)). pose proof (space_byte (a + 2)).
  pose proof (space_byte (a + 3)). lia.
Qed.

Lemma resource_len_ok b (s : vst E) : ok (env s) -> sys (pci_get_resource_len b) s = Ok (bar_len b, s).
Proof. intros Hs. unfold sys. rewrite read_len by done. by destruct s. Qed.

Lemma dword_range a : 0 <= dword a < 4294967296.
Proof.
  unfold dword. cbn. pose proof (space_byte a). pose proof (space_byte (a + 1)). pose proof (space_byte (a + 2)).
  pose proof (space_byte (a + 3)). lia.
Qed.

(** What the driver checks before it maps [minlen] bytes at [start] of the capability at
    [cap]: they lie in the capability, are aligned, and lie in the BAR. *)
Definition mappable (cap minlen alignment start : Z) : bool :=
  (start + minlen <=? dword (cap + cap_length_lo)) && ((dword (cap + cap_offset_lo) + start) mod alignment =? 0) &&
  (dword (cap + cap_offset_lo) + start + minlen <=? bar_len (space (cap + cap_bar))).
Definition mapped_len (cap start size : Z) : Z := Z.min (dword (cap + cap_length_lo) - start) size.

Lemma map_capability_ok cap minlen k start size (s : vst E) :
  ok (env s) -> 0 <= k -> 0 <= minlen < 4294967296 -> 0 <= start < 4294967296 -> 0 <= size < 4294967296 ->
  dword (cap + cap_offset_lo) + dword (cap + cap_length_lo) < 4294967296 ->
  if mappable cap minlen (2 ^ k) start then
    vio_modern_map_capability cap minlen (2 ^ k) start size s =
    match pci_map_address_range (space (cap + cap_bar)) (dword (cap + cap_offset_lo) + start) (mapped_len cap start size) (env s) with
    | Ok (a, e) => Ok ((a, Some (mapped_len cap start size)), s <| env := e |>)
    | Fault f => Fault f
    end
  else exists r, vio_modern_map_capability cap minlen (2 ^ k) start size s = Ok ((0, r), s).
Proof.
  intros Hs Hk Hm Hst Hsz Hcap. pose proof (dword_range (cap + cap_offset_lo)) as Ho. pose proof (dword_range (cap + cap_length_lo)) as Hl.
  unfold mappable, vio_modern_map_capability, uninit, mbind, M_bind, mret, M_ret.
  rewrite config_byte_ok by done. cbv beta iota. do 2 (rewrite config_dword_ok by done; cbv beta iota).
  rewrite u64_small by lia. destruct (Z.leb_spec (start + minlen) (dword (cap + cap_length_lo))) as [Hin|Hout]; cbn [andb].
  2: { rewrite (proj2 (Z.gtb_lt _ _)) by lia. by exists None. }
  rewrite Z.gtb_ltb, (proj2 (Z.ltb_ge _ _)) by lia.
  rewrite (u32_small (dword (cap + cap_offset_lo) + start)), (u32_small (dword (cap + cap_length_lo) - start)) by lia.
  rewrite land_pow2_mod by done. unfold truth. destruct (_ =? 0); cbn [negb andb]; [|by exists None].
  rewrite resource_len_ok by done. cbv beta iota. rewrite u64_small by lia.
  replace (if dword (cap + cap_length_lo) - start >? size then size else dword (cap + cap_length_lo) - start) with (mapped_len cap start size)
    by (unfold mapped_len; rewrite Z.gtb_ltb; destruct (Z.ltb_spec size (dword (cap + cap_length_lo) - start)); lia).
  destruct (Z.leb_spec (dword (cap + cap_offset_lo) + start + minlen) (bar_len (space (cap + cap_bar)))).
  - rewrite Z.gtb_ltb, (proj2 (Z.ltb_ge _ _)) by lia. unfold sys. cbv beta.
    by destruct (pci_map_address_range _ _ _ (env s)) as [[a e']|].
  - rewrite (proj2 (Z.gtb_lt _ _)) by lia. by eexists.
Qed.

(**  A structure of [len] bytes is mapped exactly when it fits the capability,
    is aligned and fits its BAR, at its place in that BAR and with exactly [len] bytes;
    otherwise nothing is mapped and NULL is returned. *)
Theorem map_simple_capability_bounds cap len k (s : vst E) :
  ok (env s) -> 0 <= k -> 0 < len < 4294967296 ->
  dword (cap + cap_offset_lo) + dword (cap + cap_length_lo) < 4294967296 ->
  if mappable cap len (2 ^ k) 0 then
    vio_modern_map_simple_capability cap len (2 ^ k) s =
      sys (pci_map_address_range (space (cap + cap_bar)) (dword (cap + cap_offset_lo)) len) s /\
    dword (cap + cap_offset_lo) mod 2 ^ k = 0 /\ len <= dword (cap + cap_length_lo) /\
    dword (cap + cap_offset_lo) + len <= bar_len (space (cap + cap_bar))
  else vio_modern_map_simple_capability cap len (2 ^ k) s = Ok (0, s).
Proof.
  intros Hs Hk Hl Hc. pose proof (map_capability_ok cap len k 0 (u32 len) s Hs Hk ltac:(lia) ltac:(lia) (u32_range len) Hc) as Hm.
  rewrite (u32_small len) in Hm by lia. unfold vio_modern_map_simple_capability, mbind, M_bind. rewrite (u32_small len) by lia.
  destruct (mappable cap len (2 ^ k) 0) eqn:Em.
  - unfold mappable in Em. apply andb_true_iff in Em as [Em Hb]. apply andb_true_iff in Em as [Hi Ha].
    rewrite Z.add_0_l in Hi. rewrite Z.add_0_r in Ha, Hb. apply Z.leb_le in Hi, Hb. apply Z.eqb_eq in Ha.
    split_and!; [|done|done|done]. rewrite Hm. unfold mapped_len. rewrite Z.add_0_r, Z.sub_0_r, Z.min_r by done. unfold sys.
    clear Hm. destruct (pci_map_address_range _ _ _ (env s)) as [[a e]|]; reflexivity.
  - destruct Hm as [r ->]. done.
Qed.
End config_space.

(** ** Base addresses *)

(** The base address registers of a header: the index of each register that starts one,
    and its address.  A 64-bit register takes two. *)
Fixpoint decode_bars (i : Z) (bars : list Z) : list (Z * Z) :=
  match bars with
  | [] => []
  | lo :: rest =>
      if truth (Z.land lo PCI_ADDRESS_IO_SPACE) then (i, Z.land lo PCI_ADDRESS_IO_ADDRESS_MASK) :: decode_bars (i + 1) rest
      else if Z.land lo PCI_ADDRESS_MEMORY_TYPE_MASK =? PCI_TYPE_64BIT then
        match rest with
        | [] => []
        | hi :: rest => (i, Z.land lo PCI_ADDRESS_MEMORY_ADDRESS_MASK + Z.shiftl hi 32) :: decode_bars (i + 2) rest
        end
      else (i, Z.land lo PCI_ADDRESS_MEMORY_ADDRESS_MASK) :: decode_bars (i + 1) rest
  end.

(** No 64-bit register starts in the last place. *)
Fixpoint bars_complete (bars : list Z) : bool :=
  match bars with
  | [] => true
  | lo :: rest =>
      if truth (Z.land lo PCI_ADDRESS_IO_SPACE) then bars_complete rest
      else if Z.land lo PCI_ADDRESS_MEMORY_TYPE_MASK =? PCI_TYPE_64BIT then
        match rest with [] => false | _ :: rest => bars_complete rest end
      else bars_complete rest
  end.

Definition bar_with (BasePA : Z) (l : list (Z * Z)) : Z :=
  match list_find (fun p => p.2 = BasePA) l with Some (_, (i, _)) => i | None => -1 end.

Lemma bar_with_cons pa i a l : bar_with pa ((i, a) :: l) = if a =? pa then i else bar_with pa l.
Proof.
  unfold bar_with. cbn. destruct (Z.eqb_spec a pa) as [->|Hne].
  - by rewrite decide_True.
  - rewrite decide_False by done. by destruct (list_find _ l) as [[? [? ?]]|].
Qed.

Lemma bar_search_ok bars pa : forall n rest i, 0 <= i -> drop (Z.to_nat i) bars = rest -> zlen bars = 6 -> (length rest <= n)%nat ->
  bars_complete rest = true -> bar_search n bars i pa = Ok (bar_with pa (decode_bars i rest)).
Proof.
  induction n as [|n IH]; intros rest i Hi Hd Hb Hn Hc.
  { destruct rest; [done|cbn in Hn; lia]. }
  cbn [bar_search]. unfold PCI_TYPE0_ADDRESSES. assert (length rest = 6 - Z.to_nat i)%nat as Hlr.
  { rewrite <- Hd, length_drop. unfold zlen in Hb. lia. }
  destruct rest as [|lo rest].
  { rewrite (proj2 (Z.ltb_ge _ _)); [done|]. cbn in Hlr. lia. }
  rewrite (proj2 (Z.ltb_lt _ _)) by (cbn in Hlr; lia).
  assert (forall k x r, drop (Z.to_nat i) bars = r -> r !! k = Some x -> zget bars (i + Z.of_nat k) = Ok x) as Hget.
  { intros k x r <- Hx. rewrite lookup_drop in Hx. unfold zget, zlookup. rewrite (proj2 (Z.leb_le _ _)) by lia.
    by replace (Z.to_nat (i + Z.of_nat k)) with (Z.to_nat i + k)%nat by lia; rewrite Hx. }
  pose proof (Hget 0%nat lo _ Hd eq_refl) as G0. rewrite Z.add_0_r in G0. rewrite G0. cbn [mbind res_bind].
  assert (drop (Z.to_nat (i + 1)) bars = rest) as Hd1.
  { replace (Z.to_nat (i + 1)) with (Z.to_nat i + 1)%nat by lia. rewrite <- drop_drop, Hd. done. }
  cbn [decode_bars]. cbn [bars_complete] in Hc. destruct (truth _).
  - rewrite bar_with_cons. destruct (_ =? pa); [done|]. apply IH; [lia|done|done|cbn in Hn; lia|done].
  - destruct (_ =? PCI_TYPE_64BIT).
    + destruct rest as [|hi rest]; [done|]. pose proof (Hget 1%nat hi _ Hd eq_refl) as G1. change (Z.of_nat 1) with 1 in G1. rewrite G1.
      cbn [mbind res_bind]. rewrite bar_with_cons. destruct (_ =? pa); [done|]. apply IH; [lia| |done|cbn in Hn; lia|done].
      replace (Z.to_nat (i + 2)) with (Z.to_nat (i + 1) + 1)%nat by lia. by rewrite <- drop_drop, Hd1.
    + rewrite bar_with_cons. destruct (_ =? pa); [done|]. apply IH; [lia|done|done|cbn in Hn; lia|done].
Qed.

(**  [virtio_get_bar_index] returns the first base address register that holds
    the address, counting a 64-bit register once, or -1; a 64-bit register in the last
    place makes it read behind the six registers of the header. *)
Theorem virtio_get_bar_index_correct HeaderType bars BasePA :
  zlen bars = 6 -> Z.land HeaderType (Z.lnot PCI_MULTIFUNCTION) = PCI_DEVICE_TYPE ->
  (bars_complete bars = true -> virtio_get_bar_index HeaderType bars BasePA = Ok (bar_with BasePA (decode_bars 0 bars))) /\
  (forall lo, bars = [0; 0; 0; 0; 0; lo] -> BasePA <> 0 -> truth (Z.land lo PCI_ADDRESS_IO_SPACE) = false ->
    Z.land lo PCI_ADDRESS_MEMORY_TYPE_MASK = PCI_TYPE_64BIT -> virtio_get_bar_index HeaderType bars BasePA = Fault OutOfBounds).
Proof.
  intros Hb Hh. unfold virtio_get_bar_index. rewrite Hh. cbn [ASSERT Z.eqb mbind res_bind PCI_DEVICE_TYPE]. split.
  - intros Hc. change (Z.eqb PCI_DEVICE_TYPE PCI_DEVICE_TYPE) with true. cbn [ASSERT mbind res_bind]. apply bar_search_ok; [lia|done|done| |done].
    unfold zlen in Hb. change (Z.to_nat PCI_TYPE0_ADDRESSES) with 6%nat. lia.
  - intros lo -> Hne Hio H64. change (ASSERT (PCI_DEVICE_TYPE =? PCI_DEVICE_TYPE)) with (Ok tt). cbn [mbind res_bind].
    assert (forall n i l, zget l i = Ok 0 -> i < 6 -> bar_search (S n) l i BasePA = bar_search n l (i + 1) BasePA) as Step.
    { intros n i l Hz Hi. cbn [bar_search]. unfold PCI_TYPE0_ADDRESSES. rewrite (proj2 (Z.ltb_lt _ _)) by lia. rewrite Hz. cbn [mbind res_bind].
      change (truth (Z.land 0 PCI_ADDRESS_IO_SPACE)) with false. cbv iota. change (Z.land 0 PCI_ADDRESS_MEMORY_TYPE_MASK =? PCI_TYPE_64BIT) with false.
      cbv iota. change (Z.land 0 PCI_ADDRESS_MEMORY_ADDRESS_MASK) with 0. by rewrite (proj2 (Z.eqb_neq 0 BasePA)) by done. }
    change (Z.to_nat PCI_TYPE0_ADDRESSES) with 6%nat. do 5 (rewrite Step by (done || lia)). cbn [bar_search].
    change (0 + 1 + 1 + 1 + 1 + 1 <? PCI_TYPE0_ADDRESSES) with true. change (zget [0; 0; 0; 0; 0; lo] (0 + 1 + 1 + 1 + 1 + 1)) with (Ok lo).
    cbn [mbind res_bind]. by rewrite Hio, H64.
Qed.

(** ** The PCI transport: reading the device configuration

    The device may change its configuration while the driver reads it in pieces.  The
    generation counter makes the driver start over, so that what it returns was the
    configuration at one moment. *)

Lemma le_join_range bs : Forall (fun b => 0 <= b < 256) bs -> 0 <= le_join bs < 2 ^ (8 * Z.of_nat (length bs)).
Proof.
  induction 1 as [|b bs Hb _ IH]; [done|]. cbn [le_join length]. rewrite Nat2Z.inj_succ.
  replace (8 * Z.succ (Z.of_nat (length bs))) with (8 + 8 * Z.of_nat (length bs)) by lia.
  rewrite Z.pow_add_r by lia. change (2 ^ 8) with 256. lia.
Qed.

Lemma le_split_join bs : Forall (fun b => 0 <= b < 256) bs -> le_split (length bs) (le_join bs) = bs.
Proof.
  induction 1 as [|b bs Hb _ IH]; [done|]. cbn [le_join length le_split].
  rewrite (Z.mul_comm 256), Z.mod_add, Z.mod_small by lia. rewrite Z.div_add, Z.div_small by lia. by rewrite Z.add_0_l, IH.
Qed.

Section config.
Context {E : Type} `{VirtIOSystemOps E}.

(** The states the device passes through, with the [n] bytes of its configuration and
    the generation counter. *)
Context (later : E -> E -> Prop) {later_preorder : PreOrder later}.
Context (cfg : E -> list Z) (gen : E -> Z) (n : Z).
Context (cfg_len : forall e, zlen (cfg e) = n) (cfg_byte : forall e, Forall (fun b => 0 <= b < 256) (cfg e)).
Context (gen_byte : forall e, 0 <= gen e < 256).

(** A configuration that is left and changed has another generation. *)
Context (gen_stable : forall e1 e2 e3, later e1 e2 -> later e2 e3 -> gen e1 = gen e3 -> cfg e2 = cfg e1).
(** The device changes its configuration finitely often. *)
Context (budget : E -> nat).
Context (budget_later : forall e e', later e e' -> (budget e' <= budget e)%nat /\ (gen e <> gen e' -> (budget e' < budget e)%nat)).

(** A read takes effect at one moment. *)
Definition at_moment {A} (m : M E A) (Q : A -> E -> Prop) : Prop :=
  forall e, wp m (fun v e' => exists e1, later e e1 /\ later e1 e' /\ Q v e1) e.

Definition slice (e : E) (off len : Z) : list Z := take (Z.to_nat len) (drop (Z.to_nat off) (cfg e)).

Context (v : virtio_device) (v_modern : device v = Some Modern) (v_config : config v <> 0).
Context (v_len : config_len v = n) (v_range : 0 <= n < 4294967296).
Context (read8 : forall off, 0 <= off -> off + 1 <= n -> at_moment (vdev_read_byte (u64 (config v + off))) (fun x e => x = le_join (slice e off 1))).
Context (read16 : forall off, 0 <= off -> off + 2 <= n -> at_moment (vdev_read_word (u64 (config v + off))) (fun x e => x = le_join (slice e off 2))).
Context (read32 : forall off, 0 <= off -> off + 4 <= n -> at_moment (vdev_read_dword (u64 (config v + off))) (fun x e => x = le_join (slice e off 4))).
Context (read_gen : at_moment (vdev_read_byte (u64 (common v + reg_offset config_generation))) (fun x e => x = gen e)).

Lemma slice_length e off len : 0 <= off -> 0 <= len -> off + len <= n -> length (slice e off len) = Z.to_nat len.
Proof. intros. unfold slice. rewrite length_take, length_drop. pose proof (cfg_len e). unfold zlen in *. lia. Qed.

Lemma slice_byte_range e off len : Forall (fun b => 0 <= b < 256) (slice e off len).
Proof. apply Forall_take, Forall_drop, cfg_byte. Qed.

Lemma slice_app e off l1 l2 : 0 <= off -> 0 <= l1 -> 0 <= l2 -> slice e off l1 ++ slice e (off + l1) l2 = slice e off (l1 + l2).
Proof.
  intros. unfold slice. rewrite !Z2Nat.inj_add by lia. replace (drop (Z.to_nat off + Z.to_nat l1) (cfg e)) with (drop (Z.to_nat l1) (drop (Z.to_nat off) (cfg e)))
    by (rewrite drop_drop; f_equal; lia).
  set (l := drop (Z.to_nat off) (cfg e)). rewrite <- (take_drop (Z.to_nat l1) (take (Z.to_nat l1 + Z.to_nat l2) l)).
  rewrite take_take, Nat.min_l by lia. by rewrite <- take_drop_commute.
Qed.

(** One access of 1, 2 or 4 bytes reads the configuration of one moment. *)
Lemma get_config_moment off len e : len = 1 \/ len = 2 \/ len = 4 -> 0 <= off -> off + len <= n ->
  wp (get_config_op off len) (fun bs s' => vdev s' = v /\ exists e1, later e e1 /\ later e1 (env s') /\ bs = slice e1 off len) (mk_st v e).
Proof.
  intros Hlen Ho Hn. unfold get_config_op, ops, dev. wp_steps. cbn [vdev]. rewrite v_modern.
  unfold vio_modern_get_config, dev. wp_steps. cbn [vdev]. eapply wp_assert; [by rewrite (proj2 (Z.eqb_neq _ _))|].
  wp_step. eapply wp_assert; [rewrite v_len, u32_small by lia; rewrite Z.gtb_ltb, (proj2 (Z.ltb_ge _ _)); [done|lia]|].
  assert (forall (k : nat) m (rd : M E Z), Z.of_nat k = len -> (2 ^ (8 * len) = m) -> at_moment rd (fun x e => x = le_join (slice e off len)) ->
    wp (x ← (x ← sys rd; mret (x mod m)); mret (le_split k x)) (fun bs s' => vdev s' = v /\ exists e1, later e e1 /\ later e1 (env s') /\ bs = slice e1 off len) (mk_st v e)) as R.
  { intros k m rd Hk Hm Hrd. do 2 wp_step. apply wp_sys. eapply wp_mono; [apply Hrd|]. intros x e' (e1 & L1 & L2 & ->). cbv beta. wp_steps.
    split; [done|]. exists e1. split_and!; [done|done|].
    assert (length (slice e1 off len) = k) as L by (rewrite slice_length; lia).
    rewrite Z.mod_small; [rewrite <- L; apply le_split_join, slice_byte_range|].
    pose proof (le_join_range _ (slice_byte_range e1 off len)) as Hr. rewrite L, Hk, Hm in Hr. done. }
  destruct Hlen as [-> | [-> | ->]]; cbn -[le_split].
  - by apply (R 1%nat 256), read8.
  - by apply (R 2%nat 65536), read16.
  - by apply (R 4%nat 4294967296), read32.
Qed.

(** The pieces of a configuration that did not change meanwhile fit together. *)
Definition pieces (e e' : E) (off len : Z) (bs : list Z) : Prop :=
  forall e0, (forall e1, later e e1 -> later e1 e' -> cfg e1 = cfg e0) -> bs = slice e0 off len.

Lemma slice_ext e e' off len : cfg e = cfg e' -> slice e off len = slice e' off len.
Proof. unfold slice. by intros ->. Qed.

Lemma cread_fields_ok off bytes k : bytes = 1 \/ bytes = 4 -> 0 <= off -> forall i e, 0 <= i -> off + bytes * (i + Z.of_nat k) <= n ->
  wp (cread_fields k i off bytes) (fun bs s' => vdev s' = v /\ later e (env s') /\
    pieces e (env s') (off + bytes * i) (bytes * Z.of_nat k) bs) (mk_st v e).
Proof.
  intros Hb Ho. induction k as [|k IH]; intros i e Hi Hn.
  { cbn [cread_fields]. wp_step. split_and!; [done|done|]. intros e0 _. unfold slice. by rewrite Z.mul_0_r. }
  cbn [cread_fields]. rewrite u32_small by lia. wp_step. eapply wp_mono; [apply (get_config_moment (off + bytes * i) bytes e); lia|].
  intros b s1 (V1 & e1 & L1 & L2 & ->). cbv beta. wp_step. destruct s1 as [v1 e2]. cbn in V1, L2. subst v1.
  eapply wp_mono; [apply (IH (i + 1) e2); lia|]. intros bs s2 (V2 & L3 & Hp). cbv beta. wp_step.
  split_and!; [done|by do 2 (etrans; [eassumption|])|]. intros e0 He.
  rewrite (slice_ext e1 e0) by (apply He; [done|by etrans]).
  rewrite (Hp e0) by (intros e3 L4 L5; apply He; [by do 2 (etrans; [eassumption|])|done]).
  replace (off + bytes * (i + 1)) with (off + bytes * i + bytes) by lia. rewrite slice_app by lia. f_equal. lia.
Qed.

Lemma generation_moment e : wp config_generation_op (fun g s' => vdev s' = v /\ exists e1, later e e1 /\ later e1 (env s') /\ g = gen e1) (mk_st v e).
Proof.
  unfold config_generation_op, ops, dev. wp_steps. cbn [vdev]. rewrite v_modern. unfold vio_modern_get_generation, reg, dev, ioread8.
  wp_steps. cbn [vdev]. apply wp_sys. eapply wp_mono; [apply read_gen|]. intros g e' (e1 & L1 & L2 & ->). cbv beta. wp_step.
  split; [done|]. exists e1. split_and!; [done|done|]. apply u8_small, gen_byte.
Qed.

Definition snapshot (e : E) (off len : Z) (bs : list Z) (s' : vst E) : Prop :=
  vdev s' = v /\ exists e1, later e e1 /\ later e1 (env s') /\ bs = slice e1 off len.

Lemma cread_loop_ok off bytes k : bytes = 1 \/ bytes = 4 -> 0 <= off -> off + bytes * Z.of_nat k <= n ->
  forall fuel e0 e, later e0 e -> (budget e0 <= fuel)%nat ->
  wp (cread_loop fuel (gen e0) k off bytes) (snapshot e0 off (bytes * Z.of_nat k)) (mk_st v e).
Proof.
  intros Hb Ho Hn. induction fuel as [|fuel IH]; intros e0 e L0 Hf; cbn [cread_loop]; wp_step;
    (eapply wp_mono; [apply (cread_fields_ok off bytes k Hb Ho 0 e); lia|]);
    intros bs [v1 e1] (V1 & L1 & Hp); cbn in V1, L1, Hp; subst v1; cbv beta; wp_step;
    (eapply wp_mono; [apply generation_moment|]); intros g [v2 e3] (V2 & e2 & L2 & L3 & ->); cbn in V2, L3; subst v2; cbv beta;
    rewrite Z.mul_0_r, Z.add_0_r in Hp.
  all: destruct (Z.eqb_spec (gen e2) (gen e0)) as [Eg|Eg].
  1, 3: wp_step; split; [done|]; exists e0; split_and!;
    [done|cbn; by do 3 (etrans; [eassumption|])|apply Hp; intros e4 L4 L5; apply (gen_stable e0 e4 e2); [by etrans|by etrans|done]].
  - destruct (budget_later e0 e2) as [_ Hlt]; [by do 2 (etrans; [eassumption|])|]. specialize (Hlt ltac:(congruence)). lia.
  - destruct (budget_later e0 e2) as [_ Hlt]; [by do 2 (etrans; [eassumption|])|]. specialize (Hlt ltac:(congruence)).
    eapply wp_mono; [apply (IH e2 e3); [done|lia]|]. intros bs' s' (V' & e4 & L4 & L5 & ->). split; [done|]. exists e4.
    split_and!; [by do 3 (etrans; [eassumption|])|done|done].
Qed.

(** Claim C35.  On a modern device [virtio_get_config] returns within as many rounds as
    the device has changes left, and what it returns is the configuration the device had
    at one moment during the call, for every length, also when the configuration changes
    meanwhile. *)
Theorem virtio_get_config_snapshot fuel off len e :
  0 <= off -> 0 <= len -> off + len <= n -> (budget e <= fuel)%nat ->
  wp (virtio_get_config fuel off len) (snapshot e off len) (mk_st v e).
Proof.
  intros Ho Hl Hn Hf. unfold virtio_get_config.
  assert (forall bytes k, bytes = 1 \/ bytes = 4 -> bytes * k = len -> 0 <= k -> wp (virtio_cread_many fuel off k bytes) (snapshot e off len) (mk_st v e)) as Many.
  { intros bytes k Hb <- Hk. unfold virtio_cread_many. wp_step. eapply wp_mono; [apply generation_moment|].
    intros g [v1 e1] (V1 & e0 & L0 & L1 & ->). cbn in V1, L1. subst v1. cbv beta.
    destruct (budget_later e e0 L0) as [Hle _].
    eapply wp_mono; [apply (cread_loop_ok off bytes (Z.to_nat k) Hb Ho); [lia|exact L1|lia]|].
    rewrite Z2Nat.id by done. intros bs s' (V & e2 & L2 & L3 & ->). split; [done|]. exists e2. split_and!; [by etrans|done|done]. }
  destruct ((len =? 1) || (len =? 2) || (len =? 4)) eqn:Hs.
  - apply orb_true_iff in Hs as [[E1%Z.eqb_eq|E1%Z.eqb_eq]%orb_true_iff|E1%Z.eqb_eq]; subst len;
      (eapply wp_mono; [apply (get_config_moment off _ e); [auto|done|done]|]); intros bs s' (V & e1 & ?); (split; [done|by exists e1]).
  - destruct (Z.eqb_spec len 8) as [->|]; [by apply (Many 4 2); auto|]. apply (Many 1 len); [by left|lia|done].
Qed.
End config.
