(* ===== verification/PciDeviceSpec.v ===== *)
(** * The PCI transport against a modern device

    The common configuration structure of a virtio 1.0 PCI device as a state machine, and
    the initialisation of a driver against it: reset, status bits, feature negotiation,
    queues and DRIVER_OK happen in the order the virtio standard asks for, and the device ends up
    with the addresses of the rings the driver uses. *)

From Stdlib Require Import ZArith Lia.
From stdpp Require Import base list numbers option.
From S2P Require Import Prelude.
From S2P Require Import Effects.
From S2P Require Import Virtio.
From S2P Require Import Pci.
From S2P Require Import PciSpec.
From S2P Require Import PciQueueSpec.

(** ** The device *)

(** The registers of one queue. *)
Record dev_queue := mk_dq {
  dq_max : Z; dq_size : Z; dq_vector : Z; dq_enable : Z; dq_notify_off : Z;
  dq_desc_lo : Z; dq_desc_hi : Z; dq_avail_lo : Z; dq_avail_hi : Z; dq_used_lo : Z; dq_used_hi : Z }.
#[export] Instance eta_dev_queue : Eta dev_queue := fun q =>
  mk_dq (dq_max q) (dq_size q) (dq_vector q) (dq_enable q) (dq_notify_off q)
    (dq_desc_lo q) (dq_desc_hi q) (dq_avail_lo q) (dq_avail_hi q) (dq_used_lo q) (dq_used_hi q).
Definition dq_reset (q : dev_queue) : dev_queue := mk_dq (dq_max q) (dq_max q) 0xffff 0 (dq_notify_off q) 0 0 0 0 0 0.
Definition addr64 (lo hi : Z) : Z := lo + 4294967296 * hi.

(** What the driver did, in order. *)
Inductive dev_event := EvReset | EvStatus (status : Z) | EvFeatures (sel value : Z) | EvEnable (queue : Z).

Record pci_device := mk_pd {
  pd_offered : Z; pd_accepted_lo : Z; pd_accepted_hi : Z; pd_device_sel : Z; pd_guest_sel : Z;
  pd_status : Z; pd_busy : nat; pd_reset_time : nat; pd_msix : Z; pd_sel : Z; pd_queues : list dev_queue; pd_trace : list dev_event }.
#[export] Instance eta_pci_device : Eta pci_device := fun d =>
  mk_pd (pd_offered d) (pd_accepted_lo d) (pd_accepted_hi d) (pd_device_sel d) (pd_guest_sel d)
    (pd_status d) (pd_busy d) (pd_reset_time d) (pd_msix d) (pd_sel d) (pd_queues d) (pd_trace d).
Definition pd_accepted (d : pci_device) : Z := addr64 (pd_accepted_lo d) (pd_accepted_hi d).

Definition selected (d : pci_device) : dev_queue := default (mk_dq 0 0 0 0 0 0 0 0 0 0 0) ((pd_queues d)⟦pd_sel d⟧).
Definition on_selected (f : dev_queue -> dev_queue) (d : pci_device) : pci_device :=
  d <| pd_queues := zinsert (pd_sel d) (f (selected d)) (pd_queues d) |>.

Definition reg_read (d : pci_device) (r : common_reg) : Z :=
  match r with
  | device_feature_select => pd_device_sel d
  | device_feature => if pd_device_sel d =? 0 then u32 (pd_offered d) else if pd_device_sel d =? 1 then Z.shiftr (pd_offered d) 32 else 0
  | guest_feature_select => pd_guest_sel d
  | guest_feature => if pd_guest_sel d =? 0 then pd_accepted_lo d else if pd_guest_sel d =? 1 then pd_accepted_hi d else 0
  | msix_config => pd_msix d
  | num_queues => zlen (pd_queues d)
  | device_status => pd_status d
  | config_generation => 0
  | queue_select => pd_sel d
  | queue_size => dq_size (selected d)
  | queue_msix_vector => dq_vector (selected d)
  | queue_enable => dq_enable (selected d)
  | queue_notify_off => dq_notify_off (selected d)
  | queue_desc_lo => dq_desc_lo (selected d) | queue_desc_hi => dq_desc_hi (selected d)
  | queue_avail_lo => dq_avail_lo (selected d) | queue_avail_hi => dq_avail_hi (selected d)
  | queue_used_lo => dq_used_lo (selected d) | queue_used_hi => dq_used_hi (selected d)
  end.

(** The features the driver accepted are offered, and version 1 is among them. *)
Definition features_ok (d : pci_device) : bool :=
  (Z.land (pd_accepted d) (Z.lnot (pd_offered d)) =? 0) && Z.testbit (pd_accepted d) VIRTIO_F_VERSION_1.

Definition log_event (ev : dev_event) (d : pci_device) : pci_device := d <| pd_trace := pd_trace d ++ [ev] |>.

(** A reset takes [pd_reset_time] milliseconds, during which the status keeps its
    value; FEATURES_OK does not stick when the features are refused. *)
Definition write_status (d : pci_device) (v : Z) : pci_device :=
  if v =? 0 then
    mk_pd (pd_offered d) 0 0 0 0 (if Nat.eqb (pd_reset_time d) 0 then 0 else pd_status d)
      (if pd_status d =? 0 then O else pd_reset_time d) (pd_reset_time d) 0xffff 0 (dq_reset <$> pd_queues d) (pd_trace d ++ [EvReset])
  else if negb (features_ok d) && truth (Z.land v VIRTIO_CONFIG_S_FEATURES_OK) then
    log_event (EvStatus v) (d <| pd_status := Z.land v (Z.lnot VIRTIO_CONFIG_S_FEATURES_OK) |>)
  else log_event (EvStatus v) (d <| pd_status := v |>).

(** A write to a register of the selected queue. *)
Definition queue_write (r : common_reg) (v : Z) (q : dev_queue) : dev_queue :=
  match r with
  | queue_size => q <| dq_size := v |>
  | queue_msix_vector => q <| dq_vector := v |>
  | queue_enable => q <| dq_enable := v |>
  | queue_desc_lo => q <| dq_desc_lo := v |> | queue_desc_hi => q <| dq_desc_hi := v |>
  | queue_avail_lo => q <| dq_avail_lo := v |> | queue_avail_hi => q <| dq_avail_hi := v |>
  | queue_used_lo => q <| dq_used_lo := v |> | queue_used_hi => q <| dq_used_hi := v |>
  | _ => q
  end.

Definition reg_write (d : pci_device) (r : common_reg) (v : Z) : pci_device :=
  match r with
  | device_feature_select => d <| pd_device_sel := v |>
  | guest_feature_select => d <| pd_guest_sel := v |>
  | guest_feature =>
      log_event (EvFeatures (pd_guest_sel d) v)
        (if pd_guest_sel d =? 0 then d <| pd_accepted_lo := v |> else if pd_guest_sel d =? 1 then d <| pd_accepted_hi := v |> else d)
  | msix_config => d <| pd_msix := v |>
  | device_status => write_status d v
  | queue_select => d <| pd_sel := v |>
  | queue_enable => log_event (EvEnable (pd_sel d)) (on_selected (queue_write r v) d)
  | queue_size | queue_msix_vector | queue_desc_lo | queue_desc_hi | queue_avail_lo | queue_avail_hi | queue_used_lo | queue_used_hi =>
      on_selected (queue_write r v) d
  | device_feature | num_queues | config_generation | queue_notify_off => d
  end.

(** One millisecond passes. *)
Definition tick (d : pci_device) : pci_device :=
  match pd_busy d with
  | O => d
  | S O => d <| pd_busy := O |> <| pd_status := 0 |>
  | S b => d <| pd_busy := b |>
  end.

(** ** A platform with such a device *)

Definition width (r : common_reg) : Z :=
  match r with
  | device_status | config_generation => 1
  | msix_config | num_queues | queue_select | queue_size | queue_msix_vector | queue_enable | queue_notify_off => 2
  | _ => 4
  end.

(** The device [device_of e] is behind the common structure at [base]; memory can be had,
    and its physical addresses and the interrupt vectors do not change. *)
Class ModernPlatform (E : Type) `{VirtIOSystemOps E} := {
  device_of : E -> pci_device;
  base : Z;
  phys : Z -> Z;
  vector : Z -> Z }.

Definition aside {E A} `{ModernPlatform E} (R : A -> Prop) (m : M E A) : Prop :=
  forall e, wp m (fun a e' => R a /\ device_of e' = device_of e) e.

Class ModernPlatformLaws (E : Type) `{ModernPlatform E} : Prop := {
  base_range : 0 < base /\ base + 56 <= 18446744073709551616;
  law_reg_read8 r e : width r = 1 -> vdev_read_byte (base + reg_offset r) e = Ok (reg_read (device_of e) r, e);
  law_reg_read16 r e : width r = 2 -> vdev_read_word (base + reg_offset r) e = Ok (reg_read (device_of e) r, e);
  law_reg_read32 r e : width r = 4 -> vdev_read_dword (base + reg_offset r) e = Ok (reg_read (device_of e) r, e);
  law_reg_write8 r v e : width r = 1 -> wp (vdev_write_byte (base + reg_offset r) v) (fun _ e' => device_of e' = reg_write (device_of e) r v) e;
  law_reg_write16 r v e : width r = 2 -> wp (vdev_write_word (base + reg_offset r) v) (fun _ e' => device_of e' = reg_write (device_of e) r v) e;
  law_reg_write32 r v e : width r = 4 -> wp (vdev_write_dword (base + reg_offset r) v) (fun _ e' => device_of e' = reg_write (device_of e) r v) e;
  law_aside_pages n : aside (fun q => q <> 0) (mem_alloc_contiguous_pages n);
  law_aside_block n : aside (fun q => q <> 0) (mem_alloc_nonpaged_block n);
  law_aside_free q : aside (fun _ => True) (mem_free_nonpaged_block q);
  law_phys a e : mem_get_physical_address a e = Ok (phys a, e);
  law_vector q e : vdev_get_msix_vector q e = Ok (vector q, e);
  law_present e : exists x, pci_read_config_word 0 e = Ok (Some x, e) /\ 0 <= x < 0xffff;
  law_sleep n e : wp (vdev_sleep n) (fun _ e' => device_of e' = tick (device_of e)) e }.

(** Computing the effect of a register access on a device given by its fields. *)
Ltac dev_simp E := cbn in E; unfold log_event, on_selected, set_field in E; cbn in E.

Section bring_up.
Context {E : Type} `{ModernPlatformLaws E}.
Implicit Types (s : vst E) (d : pci_device) (q : dev_queue).

Definition D s : pci_device := device_of (env s).

(** The parts of the structure that setting up queues does not touch. *)
Record modern_dev (v : virtio_device) : Prop := {
  md_device : device v = Some Modern;
  md_common : common v = base;
  md_notify : notify_base v <> 0;
  md_live : live v;
  md_max : maxQueues v = zlen (infos v) }.

Lemma wp_reg r (Φ : Z -> vst E -> Prop) s : common (vdev s) = base -> Φ (base + reg_offset r) s -> wp (reg r) Φ s.
Proof.
  intros Hc HΦ. unfold reg, dev. wp_steps. rewrite Hc, u64_small; [done|]. pose proof base_range.
  assert (0 <= reg_offset r <= 52) by (by destruct r). lia.
Qed.

Lemma wp_read8 r (Φ : Z -> vst E -> Prop) s : width r = 1 -> Φ (u8 (reg_read (D s) r)) s -> wp (ioread8 (base + reg_offset r)) Φ s.
Proof. intros Hw HΦ. unfold ioread8. wp_step. apply wp_sys. unfold wp. rewrite law_reg_read8 by done. by destruct s. Qed.
Lemma wp_read16 r (Φ : Z -> vst E -> Prop) s : width r = 2 -> Φ (u16 (reg_read (D s) r)) s -> wp (ioread16 (base + reg_offset r)) Φ s.
Proof. intros Hw HΦ. unfold ioread16. wp_step. apply wp_sys. unfold wp. rewrite law_reg_read16 by done. by destruct s. Qed.
Lemma wp_read32 r (Φ : Z -> vst E -> Prop) s : width r = 4 -> Φ (u32 (reg_read (D s) r)) s -> wp (ioread32 (base + reg_offset r)) Φ s.
Proof. intros Hw HΦ. unfold ioread32. wp_step. apply wp_sys. unfold wp. rewrite law_reg_read32 by done. by destruct s. Qed.

Lemma wp_write8 r x (Φ : unit -> vst E -> Prop) s : width r = 1 ->
  (forall s', vdev s' = vdev s -> D s' = reg_write (D s) r (u8 x) -> Φ tt s') -> wp (iowrite8 x (base + reg_offset r)) Φ s.
Proof. intros Hw HΦ. apply wp_sys. eapply wp_mono; [by apply law_reg_write8|]. intros [] e' He. by apply HΦ. Qed.
Lemma wp_write16 r x (Φ : unit -> vst E -> Prop) s : width r = 2 ->
  (forall s', vdev s' = vdev s -> D s' = reg_write (D s) r (u16 x) -> Φ tt s') -> wp (iowrite16 x (base + reg_offset r)) Φ s.
Proof. intros Hw HΦ. apply wp_sys. eapply wp_mono; [by apply law_reg_write16|]. intros [] e' He. by apply HΦ. Qed.
Lemma wp_write32 r x (Φ : unit -> vst E -> Prop) s : width r = 4 ->
  (forall s', vdev s' = vdev s -> D s' = reg_write (D s) r (u32 x) -> Φ tt s') -> wp (iowrite32 x (base + reg_offset r)) Φ s.
Proof. intros Hw HΦ. apply wp_sys. eapply wp_mono; [by apply law_reg_write32|]. intros [] e' He. by apply HΦ. Qed.

Lemma wp_aside {A} (m : M E A) R (Φ : A -> vst E -> Prop) s : aside R m ->
  (forall a s', R a -> vdev s' = vdev s -> D s' = D s -> Φ a s') -> wp (sys m) Φ s.
Proof. intros Hm HΦ. apply wp_sys. eapply wp_mono; [apply Hm|]. intros a e' [Ha He]. by apply HΦ. Qed.

Lemma wp_phys a (Φ : Z -> vst E -> Prop) s : Φ (phys a) s -> wp (sys (mem_get_physical_address a)) Φ s.
Proof. intros HΦ. apply wp_sys. unfold wp. rewrite law_phys. by destruct s. Qed.

Lemma wp_modern {A} (l m : M (vst E) A) Φ s : device (vdev s) = Some Modern -> wp m Φ s -> wp (ops l m) Φ s.
Proof. intros Hd Hm. unfold ops, dev. wp_steps. by rewrite Hd. Qed.

(** ** Reset and status *)

Definition reset_device (d : pci_device) : pci_device :=
  mk_pd (pd_offered d) 0 0 0 0 0 O (pd_reset_time d) 0xffff 0 (dq_reset <$> pd_queues d) (pd_trace d ++ [EvReset]).

(** The wait ends when the device has finished its reset. *)
Lemma reset_wait_ok fuel : forall s, common (vdev s) = base -> (pd_busy (D s) <= fuel)%nat -> 0 <= pd_status (D s) < 256 ->
  (pd_busy (D s) = O -> pd_status (D s) = 0) ->
  wp (reset_wait fuel) (fun _ s' => vdev s' = vdev s /\
    (D s' = D s /\ pd_status (D s) = 0 \/ pd_status (D s) <> 0 /\ D s' = (D s) <| pd_busy := O |> <| pd_status := 0 |>)) s.
Proof.
  induction fuel as [|fuel IH]; intros s Hc Hb Hs Hz; cbn [reset_wait]; wp_step; apply wp_reg; try done; wp_step; apply (wp_read8 device_status); try done;
    rewrite u8_small by (cbn; lia); cbn [reg_read]; unfold truth; (destruct (Z.eqb_spec (pd_status (D s)) 0) as [Ez|Hne]; cbn [negb];
      [wp_step; split; [done|by left]|]).
  - exfalso. apply Hne, Hz. lia.
  - wp_step. unfold config_word. wp_step. apply wp_sys. destruct (law_present (env s)) as (x & Ex & Hx). unfold wp at 1. rewrite Ex. cbv beta iota.
    wp_steps. cbn [option_map]. rewrite u16_small, (proj2 (Z.eqb_neq x 0xffff)) by lia. wp_step. apply wp_sys.
    eapply wp_mono; [apply law_sleep|]. intros [] e He. cbv beta. change (env (s <| env := env s |>)) with (env s) in He. fold (D s) in He.
    change (s <| env := env s |> <| env := e |>) with (s <| env := e |>). set (s1 := s <| env := e |>).
    assert (D s1 = tick (D s)) as E1 by done. destruct (pd_busy (D s)) as [|[|b]] eqn:Eb; [by specialize (Hz eq_refl)| |].
    + assert (D s1 = (D s) <| pd_busy := O |> <| pd_status := 0 |>) as E2 by (rewrite E1; unfold tick; by rewrite Eb).
      eapply wp_mono; [apply (IH s1); [done|rewrite E2; cbn; lia|rewrite E2; cbn; lia|rewrite E2; done]|].
      intros [] s' (V & [[-> _]|[Hx2 _]]); [|by rewrite E2 in Hx2]. split; [done|]. right. by rewrite E2.
    + assert (D s1 = (D s) <| pd_busy := S b |>) as E2 by (rewrite E1; unfold tick; by rewrite Eb).
      eapply wp_mono; [apply (IH s1); [done|rewrite E2; cbn; lia|rewrite E2; cbn; lia|rewrite E2; done]|].
      intros [] s' (V & [[_ Hx2]|[_ ->]]); rewrite E2 in *; [by cbn in Hx2|]. split; [done|]. right. by split.
Qed.

Lemma reset_ok fuel s : modern_dev (vdev s) -> (pd_reset_time (D s) <= fuel)%nat -> 0 <= pd_status (D s) < 256 ->
  wp (virtio_device_reset fuel) (fun _ s' => vdev s' = vdev s /\ D s' = reset_device (D s)) s.
Proof.
  intros M Hf Hs. eapply wp_modern; [apply M|]. unfold vio_modern_reset. wp_step. apply wp_reg; [apply M|]. wp_step.
  apply (wp_write8 device_status); [done|]. intros s1 V1 E1. cbn in E1. unfold write_status in E1. change (u8 0 =? 0) with true in E1. cbv iota in E1.
  destruct (Z.eqb_spec (pd_status (D s)) 0) as [Ez|Hne].
  - eapply wp_mono; [apply (reset_wait_ok fuel s1); [rewrite V1; apply M|rewrite E1; cbn; lia|rewrite E1; cbn; case_match; lia|rewrite E1; cbn; by case_match]|].
    intros [] s' (V & [[-> _]|[Hx _]]); [|rewrite E1 in Hx; cbn in Hx; by case_match]. split; [by rewrite V|]. rewrite E1. unfold reset_device. rewrite Ez. by destruct (Nat.eqb _ _).
  - eapply wp_mono; [apply (reset_wait_ok fuel s1); [rewrite V1; apply M|rewrite E1; cbn; lia|rewrite E1; cbn; case_match; lia|rewrite E1; cbn]|].
    { intros ->. done. }
    intros [] s' (V & [[-> Hx]|[_ ->]]); (split; [by rewrite V|]); rewrite E1 in *; unfold reset_device; cbn in *; [|done].
    destruct (Nat.eqb_spec (pd_reset_time (D s)) 0) as [->|]; done.
Qed.

Lemma get_status_ok (Φ : Z -> vst E -> Prop) s : modern_dev (vdev s) -> 0 <= pd_status (D s) < 256 ->
  Φ (pd_status (D s)) s -> wp virtio_get_status Φ s.
Proof.
  intros M Hs HΦ. eapply wp_modern; [apply M|]. unfold vio_modern_get_status. wp_step. apply wp_reg; [apply M|].
  apply (wp_read8 device_status); [done|]. cbn. by rewrite u8_small.
Qed.

Lemma set_status_ok x s : modern_dev (vdev s) -> 0 < x < 256 ->
  wp (virtio_set_status x) (fun _ s' => vdev s' = vdev s /\ D s' = write_status (D s) x) s.
Proof.
  intros M Hx. eapply wp_modern; [apply M|]. unfold vio_modern_set_status. wp_step.
  apply wp_assert; [by rewrite (proj2 (Z.eqb_neq x 0)) by lia|]. wp_step. apply wp_reg; [apply M|].
  apply (wp_write8 device_status); [done|]. intros s' V' E'. rewrite u8_small in E' by lia. done.
Qed.

Lemma add_status_ok b s : modern_dev (vdev s) -> 0 <= pd_status (D s) < 256 -> 0 < Z.lor (pd_status (D s)) b < 256 ->
  wp (virtio_add_status b) (fun _ s' => vdev s' = vdev s /\ D s' = write_status (D s) (Z.lor (pd_status (D s)) b)) s.
Proof.
  intros M Hs Hb. unfold virtio_add_status. wp_step. apply get_status_ok; [done|done|]. rewrite u8_small by lia. by apply set_status_ok.
Qed.

(** ** Features *)

(** The device after the driver wrote the features [f]. *)
Definition with_features (f : Z) (d : pci_device) : pci_device :=
  mk_pd (pd_offered d) (u32 f) (u32 (Z.shiftr f 32)) (pd_device_sel d) 1 (pd_status d) (pd_busy d) (pd_reset_time d) (pd_msix d)
    (pd_sel d) (pd_queues d) (pd_trace d ++ [EvFeatures 0 (u32 f); EvFeatures 1 (u32 (Z.shiftr f 32))]).

Lemma modern_set_features_ok f s : common (vdev s) = base -> Z.testbit f VIRTIO_F_VERSION_1 = true ->
  wp (vio_modern_set_features f) (fun st s' => st = STATUS_SUCCESS /\ vdev s' = vdev s /\ D s' = with_features (vring_transport_features f) (D s)) s.
Proof.
  intros Hc Hf. unfold vio_modern_set_features.
  assert (virtio_is_feature_enabled (vring_transport_features f) VIRTIO_F_VERSION_1 = true) as ->.
  { unfold virtio_is_feature_enabled. change (Z.shiftl 1 VIRTIO_F_VERSION_1) with (BIT 32). rewrite truth_land_bit by lia.
    rewrite vring_transport_features_bits by lia. change 32 with VIRTIO_F_VERSION_1. by rewrite Hf. }
  cbn [negb]. set (f' := vring_transport_features f). wp_step. apply wp_reg; [done|]. wp_step. apply wp_reg; [done|]. wp_step.
  apply (wp_write32 guest_feature_select); [done|]. intros s1 V1 E1. wp_step.
  apply (wp_write32 guest_feature); [done|]. intros s2 V2 E2. wp_step.
  apply (wp_write32 guest_feature_select); [done|]. intros s3 V3 E3. wp_step.
  apply (wp_write32 guest_feature); [done|]. intros s4 V4 E4. wp_step. split_and!; [done|congruence|].
  change (u32 0) with 0 in E1. change (u32 1) with 1 in E3.
  destruct (D s) as [? ? ? ? ? ? ? ? ? ? ? tr]. dev_simp E1. rewrite E1 in E2. dev_simp E2. rewrite E2 in E3. dev_simp E3. rewrite E3 in E4. dev_simp E4.
  rewrite E4. unfold with_features. cbn. by rewrite <- (assoc_L (++)).
Qed.

Lemma addr64_split x : 0 <= x < 18446744073709551616 -> addr64 (u32 x) (u32 (Z.shiftr x 32)) = x.
Proof.
  intros Hx. unfold addr64. rewrite Z.shiftr_div_pow2 by lia. change (2 ^ 32) with 4294967296.
  rewrite (u32_small (x / 4294967296)) by (Z.to_euclidean_division_equations; lia). unfold u32. Z.to_euclidean_division_equations; lia.
Qed.

Lemma transport_features_range f : 0 <= f < 18446744073709551616 -> 0 <= vring_transport_features f < 18446744073709551616.
Proof.
  intros Hf. change (vring_transport_features f) with (virtio_feature_disable (virtio_feature_disable f 30) 31).
  assert (forall x i, 0 <= x < 2 ^ 64 -> 0 <= virtio_feature_disable x i < 2 ^ 64) as R; [|by apply R, R].
  intros x i Hx. unfold virtio_feature_disable. set (y := u64 _).
  assert (Z.land x y = Z.land x y mod 2 ^ 64) as ->; [|by apply Z.mod_pos_bound].
  rewrite <- Z.land_ones, <- Z.land_assoc, (Z.land_comm y), Z.land_assoc, Z.land_ones by done. by rewrite (Z.mod_small x).
Qed.

Lemma features_subset f d : 0 <= f < 18446744073709551616 -> Z.land f (Z.lnot (pd_offered d)) = 0 -> Z.testbit f VIRTIO_F_VERSION_1 = true ->
  features_ok (with_features (vring_transport_features f) d) = true.
Proof.
  intros Hf Ho Hv. unfold features_ok, pd_accepted. cbn [with_features pd_accepted_lo pd_accepted_hi pd_offered].
  pose proof (transport_features_range f Hf) as Hr. rewrite addr64_split by done. apply andb_true_iff. split.
  - apply Z.eqb_eq. apply Z.bits_inj'. intros n Hn. rewrite Z.land_spec, Z.bits_0. destruct (decide (n < 64)).
    + rewrite vring_transport_features_bits by lia. apply (f_equal (fun z => Z.testbit z n)) in Ho. rewrite Z.land_spec, Z.bits_0 in Ho.
      destruct (Z.testbit f n), (Z.testbit (Z.lnot (pd_offered d)) n); try done. by rewrite andb_false_r.
    + rewrite <- (Z.mod_small (vring_transport_features f) (2 ^ 64)) by done. by rewrite Z.mod_pow2_bits_high by lia.
  - rewrite vring_transport_features_bits by done. by rewrite Hv.
Qed.

Definition set_features_dev (f : Z) (v : virtio_device) : virtio_device :=
  v <| event_suppression := virtio_is_feature_enabled f VIRTIO_RING_F_EVENT_IDX |> <| packed_ring := virtio_is_feature_enabled f VIRTIO_F_RING_PACKED |>.

Lemma set_features_ok f s : modern_dev (vdev s) -> 0 <= f < 18446744073709551616 -> Z.land f (Z.lnot (pd_offered (D s))) = 0 ->
  Z.testbit f VIRTIO_F_VERSION_1 = true -> 0 <= pd_status (D s) < 256 ->
  wp (virtio_set_features f) (fun st s' => st = STATUS_SUCCESS /\ vdev s' = set_features_dev f (vdev s) /\
    D s' = log_event (EvStatus (Z.lor (pd_status (D s)) 8)) ((with_features (vring_transport_features f) (D s)) <| pd_status := Z.lor (pd_status (D s)) 8 |>)) s.
Proof.
  intros M Hf Ho Hv Hs. assert (modern_dev (set_features_dev f (vdev s))) as M1 by (by destruct M).
  unfold virtio_set_features, set_dev. wp_steps. fold (set_features_dev f (vdev s)). set (s0 := s <| vdev := set_features_dev f (vdev s) |>).
  eapply wp_modern; [apply M1|]. eapply wp_mono; [apply (modern_set_features_ok f s0); [apply M1|done]|].
  intros st s1 (-> & V1 & E1). cbv beta. change (NT_SUCCESS STATUS_SUCCESS) with true. cbn [negb].
  assert (virtio_is_feature_enabled f VIRTIO_F_VERSION_1 = true) as ->.
  { unfold virtio_is_feature_enabled. change (Z.shiftl 1 VIRTIO_F_VERSION_1) with (BIT VIRTIO_F_VERSION_1). by rewrite truth_land_bit by done. }
  cbn [negb]. change (D s0) with (D s) in E1. assert (modern_dev (vdev s1)) as Ms1 by (by rewrite V1).
  assert (pd_status (D s1) = pd_status (D s)) as St by (by rewrite E1).
  assert (0 < Z.lor (pd_status (D s)) 8 < 256) as Hlor.
  { pose proof (lor_range 8 (pd_status (D s)) 8 ltac:(lia) Hs ltac:(lia)). assert (Z.lor (pd_status (D s)) 8 <> 0); [|lia].
    rewrite Z.lor_eq_0_iff. lia. }
  wp_step. eapply wp_mono; [apply add_status_ok; rewrite ?St; done|]. intros [] s2 (V2 & E2). cbv beta. rewrite St in E2. change VIRTIO_CONFIG_S_FEATURES_OK with 8 in E2.
  assert (D s2 = log_event (EvStatus (Z.lor (pd_status (D s)) 8)) ((D s1) <| pd_status := Z.lor (pd_status (D s)) 8 |>)) as E3.
  { rewrite E2. unfold write_status. rewrite (proj2 (Z.eqb_neq _ 0)) by lia. by rewrite E1, features_subset. }
  assert (pd_status (D s2) = Z.lor (pd_status (D s)) 8) as St2 by (by rewrite E3).
  wp_step. apply get_status_ok; [by rewrite V2|rewrite St2; lia|]. wp_step.
  assert (truth (Z.land (pd_status (D s2)) VIRTIO_CONFIG_S_FEATURES_OK) = true) as ->.
  { rewrite St2. change VIRTIO_CONFIG_S_FEATURES_OK with (BIT 3).
    rewrite truth_land_bit by lia. rewrite Z.lor_spec. change (Z.testbit 8 3) with true. apply orb_true_r. }
  split_and!; [done|by rewrite V2, V1|by rewrite E3, E1].
Qed.

(** ** Queues *)

(** Queue [i] is selected and its registers are [q]. *)
Definition at_q (d : pci_device) (i : Z) (q : dev_queue) : pci_device :=
  mk_pd (pd_offered d) (pd_accepted_lo d) (pd_accepted_hi d) (pd_device_sel d) (pd_guest_sel d) (pd_status d) (pd_busy d) (pd_reset_time d)
    (pd_msix d) i (zinsert i q (pd_queues d)) (pd_trace d).

Lemma on_selected_at f d i q : 0 <= i < zlen (pd_queues d) -> on_selected f (at_q d i q) = at_q d i (f q).
Proof.
  intros Hi. unfold on_selected, selected. cbn [at_q pd_sel pd_queues]. rewrite zlookup_zinsert_eq by done. cbn.
  unfold at_q, set_field. cbn. by rewrite zinsert_zinsert.
Qed.

Lemma selected_at d i q : 0 <= i < zlen (pd_queues d) -> selected (at_q d i q) = q.
Proof. intros Hi. unfold selected. cbn [at_q pd_sel pd_queues]. by rewrite zlookup_zinsert_eq. Qed.

Lemma select_at d i q : (pd_queues d)⟦i⟧ = Some q -> d <| pd_sel := i |> = at_q d i q.
Proof. intros Hq. unfold at_q, set_field. cbn. by rewrite zinsert_id. Qed.

(** The registers of a queue after the driver has set it up. *)
Definition programmed (q : dev_queue) (num desc avail used vec : Z) : dev_queue :=
  mk_dq (dq_max q) num (if vec =? VIRTIO_MSI_NO_VECTOR then dq_vector q else vec) 1 (dq_notify_off q)
    (u32 desc) (u32 (Z.shiftr desc 32)) (u32 avail) (u32 (Z.shiftr avail 32)) (u32 used) (u32 (Z.shiftr used 32)).

(** A write to a register of the selected queue. *)
Lemma wp_queue16 r x d i q (Φ : unit -> vst E -> Prop) s : width r = 2 -> r <> queue_enable -> r <> queue_select -> r <> msix_config -> r <> num_queues -> r <> queue_notify_off ->
  D s = at_q d i q -> 0 <= i < zlen (pd_queues d) ->
  (forall s', vdev s' = vdev s -> D s' = at_q d i (queue_write r (u16 x) q) -> Φ tt s') -> wp (iowrite16 x (base + reg_offset r)) Φ s.
Proof.
  intros Hw He Hs Hm Hn Ho Hd Hi HΦ. apply wp_write16; [done|]. intros s' V' E'. apply HΦ; [done|].
  rewrite E', Hd. rewrite <- on_selected_at by done. by destruct r.
Qed.

Lemma wp_queue64 lo hi x d i q (Φ : unit -> vst E -> Prop) s :
  (lo, hi) ∈ [(queue_desc_lo, queue_desc_hi); (queue_avail_lo, queue_avail_hi); (queue_used_lo, queue_used_hi)] ->
  D s = at_q d i q -> 0 <= i < zlen (pd_queues d) ->
  (forall s', vdev s' = vdev s -> D s' = at_q d i (queue_write hi (u32 (Z.shiftr x 32)) (queue_write lo (u32 x) q)) -> Φ tt s') ->
  wp (iowrite64_twopart x (base + reg_offset lo) (base + reg_offset hi)) Φ s.
Proof.
  intros Hr Hd Hi HΦ. unfold iowrite64_twopart. wp_step.
  assert (width lo = 4 /\ width hi = 4 /\ (forall d x, reg_write d lo x = on_selected (queue_write lo x) d) /\
    (forall d x, reg_write d hi x = on_selected (queue_write hi x) d)) as (Wl & Wh & Rl & Rh)
    by (rewrite !elem_of_cons in Hr; destruct Hr as [[= -> ->]|[[= -> ->]|[[= -> ->]|[]%elem_of_nil]]]; done).
  apply wp_write32; [done|]. intros s1 V1 E1. apply wp_write32; [done|]. intros s2 V2 E2. apply HΦ; [by rewrite V2|].
  by rewrite E2, E1, Hd, Rl, Rh, !on_selected_at.
Qed.

Lemma activate_ok num queue avail used d i q (Φ : unit -> vst E -> Prop) s : common (vdev s) = base ->
  D s = at_q d i q -> 0 <= i < zlen (pd_queues d) -> 0 <= num < 65536 ->
  (forall s', vdev s' = vdev s -> D s' = at_q d i ((programmed q num (phys queue) (phys avail) (phys used) VIRTIO_MSI_NO_VECTOR) <| dq_enable := dq_enable q |>) -> Φ tt s') ->
  wp (activate_queue num queue avail used) Φ s.
Proof.
  intros Hc Hd Hi Hn HΦ. unfold activate_queue. wp_step. apply wp_reg; [done|]. wp_step.
  eapply (wp_queue16 queue_size); [done..|exact Hd|done|]. intros s1 V1 E1.
  do 2 (wp_step; apply wp_reg; [by rewrite V1|]). wp_step. apply wp_phys. wp_step.
  eapply (wp_queue64 queue_desc_lo queue_desc_hi); [by rewrite !elem_of_cons; left|exact E1|done|]. intros s2 V2 E2.
  do 2 (wp_step; apply wp_reg; [by rewrite V2, V1|]). wp_step. apply wp_phys. wp_step.
  eapply (wp_queue64 queue_avail_lo queue_avail_hi); [by rewrite !elem_of_cons; right; left|exact E2|done|]. intros s3 V3 E3.
  do 2 (wp_step; apply wp_reg; [by rewrite V3, V2, V1|]). wp_step. apply wp_phys.
  eapply (wp_queue64 queue_used_lo queue_used_hi); [by rewrite !elem_of_cons; right; right; left|exact E3|done|]. intros s4 V4 E4.
  apply HΦ; [congruence|]. rewrite E4. f_equal. destruct q. by rewrite (u16_small num) by done.
Qed.

(** The part of the structure [v] that concerns the notification of queue [q]. *)
Definition notify_fits (v : virtio_device) (q : dev_queue) : Prop :=
  0 <= dq_notify_off q < 65536 /\ 0 <= notify_offset_multiplier v < 4294967296 /\ 0 <= notify_len v < 4294967296 /\
  dq_notify_off q * notify_offset_multiplier v + 2 <= notify_len v /\ 0 < notify_base v /\ notify_base v + notify_len v <= 18446744073709551616.

Definition notify_addr (v : virtio_device) (q : dev_queue) : Z := notify_base v + dq_notify_off q * notify_offset_multiplier v.

Lemma modern_put l v : modern_dev v -> zlen l = zlen (infos v) -> modern_dev (put_infos l v).
Proof.
  intros [Hd Hc Hn Hl Hm] Hz. split; [..|rewrite infos_put, Hz, <- Hm by done; apply put_fields]; unfold put_infos, live in *; destruct (info v) eqn:Ei; cbn; rewrite ?Ei; done.
Qed.

Lemma notify_put l v q : (notify_fits (put_infos l v) q <-> notify_fits v q) /\ notify_addr (put_infos l v) q = notify_addr v q.
Proof. unfold notify_fits, notify_addr, put_infos. by destruct (info v). Qed.

Lemma map_notify_ok q (Φ : Z + Z -> vst E -> Prop) s : notify_fits (vdev s) q ->
  Φ (inl (notify_addr (vdev s) q)) s -> wp (map_notify (dq_notify_off q)) Φ s.
Proof.
  intros (Ho & Hm & Hl & Hf & Hb & Hr) HΦ. unfold map_notify, dev. wp_steps. rewrite (proj2 (Z.eqb_neq _ _)) by lia. cbn [negb].
  rewrite Z.gtb_ltb, (proj2 (Z.ltb_ge _ _)) by lia. wp_step. rewrite (u32_small (_ * _)), u64_small by nia. done.
Qed.

Lemma notify_addr_nonzero v q : notify_fits v q -> notify_addr v q <> 0.
Proof. unfold notify_fits, notify_addr. nia. Qed.

(** The registers of the queue that [setup_activate] leaves behind. *)
Lemma setup_activate_device i q vq b qa vec d s : modern_dev (vdev s) -> notify_fits (vdev s) q ->
  (infos (vdev s))⟦i⟧ = Some (mk_info None (ring_num (vq_ring vq)) qa) -> queue_num (ring_num (vq_ring vq)) ->
  D s = at_q d i q -> (pd_queues d)⟦i⟧ = Some q -> zlen (pd_queues d) < 65536 -> vq_index vq = i -> 0 <= vec < 65536 ->
  wp (setup_activate vq b i (dq_notify_off q) vec) (fun r s' => vdev s' = vdev s /\
    r = (STATUS_SUCCESS, Some (vq <| notification_addr := notify_addr (vdev s) q |>)) /\
    D s' = log_event (EvEnable i) (at_q d i (programmed q (ring_num (vq_ring vq)) (phys qa) (phys (avail_va vq)) (phys (used_va vq)) vec))) s.
Proof.
  intros M Hn Hx Hq Hd Hqi Hz Hi Hv. pose proof (queue_num_range _ Hq) as Hr. pose proof (zlookup_lt _ _ _ Hqi) as Hlt.
  unfold setup_activate. wp_step. eapply wp_get_info; [exact Hx|]. cbn [info_num info_queue]. wp_step.
  eapply activate_ok; [apply M|exact Hd|done|lia|]. intros s1 V1 E1. wp_step.
  apply (map_notify_ok q); [by rewrite V1|]. rewrite V1. cbv beta iota.
  rewrite (proj2 (Z.eqb_neq _ _) (notify_addr_nonzero _ _ Hn)). set (vq' := vq <| notification_addr := _ |>).
  set (q1 := programmed q _ _ _ _ VIRTIO_MSI_NO_VECTOR) in E1. wp_step.
  eapply (wp_mono _ (fun o s2 => o <> Some VIRTIO_MSI_NO_VECTOR /\ vdev s2 = vdev s /\
    D s2 = at_q d i ((programmed q (ring_num (vq_ring vq)) (phys qa) (phys (avail_va vq)) (phys (used_va vq)) vec) <| dq_enable := dq_enable q |>))).
  { destruct (Z.eqb_spec vec VIRTIO_MSI_NO_VECTOR) as [->|Hne]; cbn [negb]; [by wp_step|].
    wp_step. unfold vio_modern_set_queue_vector. wp_step. apply wp_reg; [by rewrite V1; apply M|]. wp_step. apply wp_reg; [by rewrite V1; apply M|]. wp_step.
    apply (wp_write16 queue_select); [done|]. intros s2 V2 E2.
    assert (D s2 = at_q d i (q1 <| dq_enable := dq_enable q |>)) as E2'.
    { rewrite E2, E1. cbn. change (vq_index vq') with (vq_index vq). rewrite Hi, u16_small by lia. done. }
    wp_step. eapply (wp_queue16 queue_msix_vector); [done..|exact E2'|done|]. intros s3 V3 E3.
    apply (wp_read16 queue_msix_vector); [done|]. wp_step. rewrite E3. cbn [reg_read]. rewrite selected_at by done.
    rewrite (u16_small vec) by done. split_and!; [|congruence|].
    - change (dq_vector (queue_write queue_msix_vector vec (q1 <| dq_enable := dq_enable q |>))) with vec. rewrite u16_small by done. congruence.
    - f_equal. unfold programmed. rewrite (proj2 (Z.eqb_neq _ _) Hne). unfold q1, programmed. reflexivity. }
  intros o s2 (Ho & V2 & E2). cbv beta. rewrite decide_False by done. wp_step. apply wp_reg; [rewrite V2; apply M|]. wp_step.
  apply (wp_write16 queue_enable); [done|]. intros s3 V3 E3. wp_step. split_and!; [congruence|done|]. rewrite E3, E2.
  cbn [reg_write]. change (u16 1) with 1. rewrite on_selected_at by done. reflexivity.
Qed.

(** What the device and the driver agree on for queue [i]: [vq] is an empty ring over the
    pages [qa], its size and its addresses are in the registers of the queue, the queue is
    enabled, and it is notified at its own address. *)
Definition agrees (v : virtio_device) (i : Z) (q : dev_queue) (vq : virtqueue) (qa : Z) : Prop :=
  vq_index vq = i /\ ring_fresh (vq_ring vq) /\ notification_addr vq = notify_addr v q /\
  dq_size q = ring_num (vq_ring vq) /\ dq_enable q = 1 /\
  addr64 (dq_desc_lo q) (dq_desc_hi q) = phys qa /\ addr64 (dq_avail_lo q) (dq_avail_hi q) = phys (avail_va vq) /\
  addr64 (dq_used_lo q) (dq_used_hi q) = phys (used_va vq).

Context (phys_range : forall a, 0 <= phys a < 18446744073709551616).
Context (vector_range : forall j, 0 <= vector j < 65536).

Lemma alloc_first i x s : (infos (vdev s))⟦i⟧ = Some x ->
  wp (alloc_ring 16 i) (fun ok s' => ok = true /\ D s' = D s /\ exists qa, at_info i (mk_info (info_vq x) (info_num x) qa) s s') s.
Proof.
  intros Hx. rewrite alloc_ring_eq. wp_step. eapply wp_get_info; [done|]. unfold dev. wp_steps.
  eapply wp_aside; [apply law_aside_pages|]. intros qa s1 Hqa V1 E1. wp_step. eapply wp_set_at; [by rewrite V1|]. intros s2 A2 E2.
  cbv beta in Hqa |- *. rewrite (proj2 (Z.eqb_neq qa 0)) by done. cbn [negb]. wp_step. split_and!; [done|unfold D in *; by rewrite E2|].
  exists qa. unfold at_info in *. by rewrite A2, V1.
Qed.

Lemma setup_device i q x vec s : modern_dev (vdev s) -> notify_fits (vdev s) q -> (infos (vdev s))⟦i⟧ = Some x -> info_vq x = None ->
  (pd_queues (D s))⟦i⟧ = Some q -> queue_num (dq_size q) -> zlen (pd_queues (D s)) < 65536 -> 0 <= vec < 65536 ->
  wp (vp_setup_vq i vec) (fun r s' => exists vq qa q', r = (STATUS_SUCCESS, Some vq) /\
    at_info i (mk_info (Some vq) (ring_num (vq_ring vq)) qa) s s' /\ agrees (vdev s) i q' vq qa /\ dq_notify_off q' = dq_notify_off q /\
    D s' = log_event (EvEnable i) (at_q (D s) i q')) s.
Proof.
  intros M Hn Hx Hxv Hq Hnum Hz Hv. pose proof (queue_num_range _ Hnum) as Hr. pose proof (zlookup_lt _ _ _ Hq) as Hlt.
  assert (modern_dev (vdev s)) as [_ Hc _ _ _] by done.
  unfold vp_setup_vq. wp_step. eapply wp_modern; [apply M|]. unfold vio_modern_setup_vq. wp_step.
  (* the query *)
  unfold vio_modern_query_vq_alloc. wp_step. apply wp_reg; [done|]. wp_step. apply (wp_read16 num_queues); [done|]. cbn [reg_read].
  rewrite u16_small by lia. rewrite Z.geb_leb, (proj2 (Z.leb_gt _ _)) by lia. wp_step. apply wp_reg; [done|]. wp_step.
  apply (wp_write16 queue_select); [done|]. intros s1 V1 E1. cbn [reg_write] in E1. rewrite u16_small, (select_at _ _ q Hq) in E1 by lia.
  wp_step. apply wp_reg; [by rewrite V1|]. wp_step. apply (wp_read16 queue_size); [done|]. cbn [reg_read]. rewrite E1, selected_at by done.
  rewrite u16_small by lia. rewrite (proj2 (Z.eqb_neq _ 0)) by lia.
  assert (Z.land (dq_size q) (dq_size q - 1) = 0) as Hp2.
  { destruct Hnum as (k & Hk & ->). rewrite land_pow2_mod by lia. apply Z.mod_same. lia. }
  rewrite Hp2. change (truth 0) with false. cbv iota. unfold dev. wp_steps.
  (* the entry and the ring *)
  eapply wp_set_at; [by rewrite V1|]. intros s2 A2 E2. cbv beta. assert (at_info i (x <| info_num := dq_size q |>) s s2) as A by (unfold at_info in *; by rewrite A2, V1).
  assert (D s2 = at_q (D s) i q) as D2 by (unfold D; by rewrite E2).
  assert (modern_dev (vdev s2)) as M2 by (rewrite A; apply modern_put; [done|by rewrite zlen_zinsert]).
  wp_step. apply wp_reg; [apply M2|]. wp_step. apply (wp_read16 queue_notify_off); [done|]. cbn [reg_read]. rewrite D2, selected_at by done.
  rewrite u16_small by apply Hn. wp_step. eapply wp_mono; [eapply alloc_first, at_info_lookup; [exact Hx|exact A]|].
  intros ok s3 (-> & D3 & qa & A3). cbn [negb]. cbn in A3. rewrite Hxv in A3.
  pose proof (at_info_trans _ _ _ _ _ _ _ Hx A A3) as A'. rewrite D2 in D3.
  wp_step. eapply wp_aside; [apply law_aside_block|]. intros b s4 Hb V4 D4. cbv beta in Hb |- *. rewrite (proj2 (Z.eqb_neq b 0)) by done.
  assert (at_info i (mk_info None (dq_size q) qa) s s4) as A4 by (unfold at_info in *; by rewrite V4). rewrite D3 in D4.
  pose proof (at_info_lookup _ _ _ _ _ Hx A4) as Hx4.
  wp_step. eapply wp_get_info; [exact Hx4|]. cbn [info_num info_queue]. unfold dev. wp_steps.
  destruct (new_virtqueue_ok (id (vdev s4)) (packed_ring (id (vdev s4))) i (dq_size q) SMP_CACHE_BYTES qa b Hnum) as (r & av & us & Er & Hrn & Hrf).
  eapply wp_pure; [exact Er|]. cbv beta iota. set (vq := mk_vq b i r av us 0).
  assert (modern_dev (vdev s4)) as M4 by (rewrite A4; apply modern_put; [done|by rewrite zlen_zinsert]).
  assert (notify_fits (vdev s4) q) as N4 by (rewrite A4; by apply notify_put).
  eapply wp_mono; [apply (setup_activate_device i q vq b qa vec (D s) s4); try done; cbn; by rewrite Hrn|].
  intros res s5 (V5 & -> & D5). cbv beta iota. change (NT_SUCCESS STATUS_SUCCESS) with true. cbv iota.
  assert (at_info i (mk_info None (dq_size q) qa) s s5) as A5 by (unfold at_info in *; by rewrite V5). cbn [vq_ring vq] in D5. rewrite Hrn in D5.
  wp_step. eapply wp_set_at; [eapply at_info_lookup, A5; done|]. intros s6 A6 E6. cbv beta. wp_step.
  pose proof (at_info_trans _ _ _ _ _ _ _ Hx A5 A6) as A7. cbn in A7.
  eexists _, qa, _. split_and!; [done|..| |unfold D in *; rewrite E6; exact D5].
  - cbn. rewrite Hrn. exact A7.
  - assert (notify_addr (vdev s4) q = notify_addr (vdev s) q) as Na by (rewrite A4; apply notify_put).
    split_and!; cbn; try done; try (by rewrite addr64_split); by rewrite ?Na.
  - done.
Qed.

(** What setting up queues leaves alone in the device. *)
Definition kept (d d' : pci_device) : Prop :=
  pd_status d' = pd_status d /\ pd_offered d' = pd_offered d /\ pd_accepted d' = pd_accepted d /\ zlen (pd_queues d') = zlen (pd_queues d).

Lemma agrees_put l v i q vq qa : agrees (put_infos l v) i q vq qa <-> agrees v i q vq qa.
Proof. unfold agrees. by rewrite (proj2 (notify_put l v q)). Qed.

(** The entries from [i] on are unused and the device has queues for them. *)
Record usable (i : Z) (n : nat) s : Prop := {
  us_dev : modern_dev (vdev s);
  us_infos : i + Z.of_nat n <= zlen (infos (vdev s));
  us_queues : i + Z.of_nat n <= zlen (pd_queues (D s)) < 65536;
  us_fit j q : i <= j -> (pd_queues (D s))⟦j⟧ = Some q -> queue_num (dq_size q) /\ notify_fits (vdev s) q;
  us_free j x : i <= j -> (infos (vdev s))⟦j⟧ = Some x -> info_vq x = None }.

Lemma usable_next i n x y q s s' : 0 <= i -> usable i (S n) s -> (infos (vdev s))⟦i⟧ = Some x -> at_info i y s s' ->
  D s' = log_event (EvEnable i) (at_q (D s) i q) -> usable (i + 1) n s'.
Proof.
  intros Hi [M Li [Lq Lm] Hf He] Hx A Dq. pose proof (md_live _ M) as Hl. unfold at_info in A. split.
  - rewrite A. apply modern_put; [done|by rewrite zlen_zinsert].
  - rewrite A, infos_put, zlen_zinsert by done. lia.
  - rewrite Dq. cbn. rewrite zlen_zinsert. lia.
  - intros j q' Hj. rewrite Dq. cbn. rewrite zlookup_zinsert_ne by lia. intros Hq'. rewrite A.
    destruct (Hf j q' ltac:(lia) Hq') as [? ?]. split; [done|]. by apply notify_put.
  - intros j x' Hj. rewrite A, infos_put, zlookup_zinsert_ne by (done || lia). apply He. lia.
Qed.

Definition queues_done (i : Z) (n : nat) s (vqs : list virtqueue) s' : Prop :=
  length vqs = n /\ (exists l, vdev s' = put_infos l (vdev s) /\ zlen l = zlen (infos (vdev s))) /\ kept (D s) (D s') /\
  pd_trace (D s') = pd_trace (D s) ++ (EvEnable <$> seqZ i (Z.of_nat n)) /\
  (forall j, j < i -> (pd_queues (D s'))⟦j⟧ = (pd_queues (D s))⟦j⟧ /\ (infos (vdev s'))⟦j⟧ = (infos (vdev s))⟦j⟧) /\
  forall k vq, vqs !! k = Some vq -> exists qa q, (pd_queues (D s'))⟦i + Z.of_nat k⟧ = Some q /\ agrees (vdev s) (i + Z.of_nat k) q vq qa /\
    (infos (vdev s'))⟦i + Z.of_nat k⟧ = Some (mk_info (Some vq) (ring_num (vq_ring vq)) qa).

Lemma setup_queues_device n : forall i s, 0 <= i -> usable i n s ->
  wp (setup_queues n i) (fun r s' => r.1 = STATUS_SUCCESS /\ queues_done i n s r.2 s') s.
Proof.
  induction n as [|n IH]; intros i s Hi U.
  { cbn [setup_queues]. wp_step. split; [done|]. split_and!; [done| |done| |done|done].
    - exists (infos (vdev s)). by rewrite infos_put_same.
    - change (Z.of_nat 0) with 0. rewrite seqZ_nil by lia. cbn. by rewrite app_nil_r. }
  pose proof U as [M Li Lq Hf He]. pose proof (md_live _ M) as Hlv.
  destruct (zlookup_in_range (infos (vdev s)) i) as [x Hx]; [lia|]. destruct (zlookup_in_range (pd_queues (D s)) i) as [q Hq]; [lia|].
  destruct (Hf i q ltac:(lia) Hq) as [Hnum Hfit].
  cbn [setup_queues]. wp_step. unfold get_msix_vector. wp_step. apply wp_sys. unfold wp at 1. rewrite law_vector. wp_step.
  replace (s <| env := env s |>) with s by (by destruct s). rewrite u16_small by done. wp_step.
  eapply wp_mono; [eapply (setup_device i q x); try done; [by apply (He i)|lia]|].
  intros r s1 (vq & qa & q' & -> & A1 & Ag & No & D1). cbv beta iota. change (negb (NT_SUCCESS STATUS_SUCCESS)) with false. cbv iota.
  wp_step. eapply wp_mono; [apply (IH (i + 1) s1); [lia|by eapply usable_next]|].
  intros [st vqs] s2 (Est & Hlen & (l & V2 & Zl) & (K1 & K0 & K2 & K3) & Tr & Lo & Hk). cbn in Est, Hlen, Hk. subst st. cbv beta iota. wp_step. split; [done|]. cbn [fst snd option_list app].
  unfold at_info in A1. rewrite D1 in K1, K0, K2, K3, Tr. cbn in K1, K0, K3, Tr. rewrite zlen_zinsert in K3.
  split_and!.
  - cbn. by rewrite Hlen.
  - exists l. rewrite V2, A1, infos_put_put. rewrite A1, infos_put, zlen_zinsert in Zl by done. done.
  - by split_and!.
  - rewrite Tr, <- (assoc_L (++)). f_equal. rewrite Nat2Z.inj_succ, (seqZ_cons i) by lia. cbn. by rewrite Z.pred_succ, Z.add_1_r.
  - intros j Hj. destruct (Lo j ltac:(lia)) as [-> ->]. split; [rewrite D1; cbn; by rewrite zlookup_zinsert_ne by lia|]. rewrite A1, infos_put by done. by rewrite zlookup_zinsert_ne by lia.
  - intros [|k] vq' Hvq; cbn in Hvq.
    + injection Hvq as <-. exists qa, q'. rewrite Z.add_0_r. destruct (Lo i ltac:(lia)) as [-> ->]. rewrite D1. cbn.
      rewrite zlookup_zinsert_eq by lia. split_and!; [done|done|]. rewrite A1, infos_put, zlookup_zinsert_eq by (done || lia). done.
    + destruct (Hk k vq' Hvq) as (qa' & q2 & Q2 & Ag2 & I2). exists qa', q2.
      replace (i + Z.of_nat (S k)) with (i + 1 + Z.of_nat k) by lia. split_and!; [done| |done]. rewrite A1 in Ag2. exact (proj1 (agrees_put _ _ _ _ _ _) Ag2).
Qed.

(** The notification area is the same. *)
Definition same_notify (v v' : virtio_device) : Prop :=
  forall q, (notify_fits v' q <-> notify_fits v q) /\ notify_addr v' q = notify_addr v q.

Lemma reserve_device nvqs s : modern_dev (vdev s) -> (forall j x, (infos (vdev s))⟦j⟧ = Some x -> info_vq x = None) -> 0 <= nvqs ->
  wp (virtio_reserve_queue_memory nvqs) (fun st s' => st = STATUS_SUCCESS /\ D s' = D s /\ modern_dev (vdev s') /\ same_notify (vdev s) (vdev s') /\
    nvqs <= zlen (infos (vdev s')) /\ forall j x, (infos (vdev s'))⟦j⟧ = Some x -> info_vq x = None) s.
Proof.
  intros M He Hn. unfold virtio_reserve_queue_memory, dev. wp_steps. change (id (vdev s)) with (vdev s).
  destruct (Z.gtb_spec nvqs (maxQueues (vdev s))) as [Hgt|Hle].
  2: { wp_step. split_and!; try done. rewrite <- (md_max _ M). lia. }
  wp_step. eapply wp_aside; [apply law_aside_block|]. intros b s1 Hb V1 D1. cbv beta in Hb |- *. rewrite (proj2 (Z.eqb_neq b 0)) by done.
  wp_step. eapply (wp_mono _ (fun _ s2 => vdev s2 = vdev s /\ D s2 = D s)).
  { destruct (info (vdev s)); [by wp_step..|]. eapply wp_aside; [apply law_aside_free|]. intros _ s2 _ V2 D2. split; congruence. }
  intros [] s2 (V2 & D2). cbv beta. unfold set_dev. wp_steps. change (D (s2 <| vdev := ?v |>)) with (D s2).
  assert (forall j x, (replicate (Z.to_nat nvqs) zero_info)⟦j⟧ = Some x -> info_vq x = None) as Hz.
  { intros j x Hx. unfold zlookup in Hx. destruct (0 <=? j); [|done]. by apply lookup_replicate in Hx as [-> _]. }
  split_and!; [done|done|..]; cbn; rewrite ?V2.
  - destruct M. split; try done. cbn. rewrite zlen_replicate. lia.
  - done.
  - rewrite zlen_replicate. lia.
  - done.
Qed.

Lemma find_queues_device nvqs s : modern_dev (vdev s) -> no_queues (vdev s) -> 0 <= nvqs <= zlen (pd_queues (D s)) ->
  zlen (pd_queues (D s)) < 65536 -> (forall j q, (pd_queues (D s))⟦j⟧ = Some q -> queue_num (dq_size q) /\ notify_fits (vdev s) q) ->
  wp (virtio_find_queues nvqs) (fun r s' => r.1 = STATUS_SUCCESS /\ length r.2 = Z.to_nat nvqs /\ modern_dev (vdev s') /\ kept (D s) (D s') /\
    pd_trace (D s') = pd_trace (D s) ++ (EvEnable <$> seqZ 0 nvqs) /\
    forall k vq, r.2 !! k = Some vq -> exists qa q, (pd_queues (D s'))⟦Z.of_nat k⟧ = Some q /\ agrees (vdev s) (Z.of_nat k) q vq qa) s.
Proof.
  intros M He Hn Hz Hf. unfold virtio_find_queues. wp_step. eapply wp_mono; [apply reserve_device; [done|done|lia]|].
  intros st s1 (-> & D1 & M1 & N1 & L1 & F1). cbv beta. change (negb (NT_SUCCESS STATUS_SUCCESS)) with false. cbv iota.
  unfold get_msix_vector. wp_step. wp_step. apply wp_sys. unfold wp at 1. rewrite law_vector. wp_step.
  replace (s1 <| env := env s1 |>) with s1 by (by destruct s1). rewrite u16_small by done. wp_step.
  eapply (wp_mono _ (fun ok s2 => ok = true /\ vdev s2 = vdev s1 /\ exists x, D s2 = (D s1) <| pd_msix := x |>)).
  { destruct (Z.eqb_spec (vector (-1)) VIRTIO_MSI_NO_VECTOR) as [E1|Hne]; cbn [negb].
    - wp_step. split_and!; [done|done|]. exists (pd_msix (D s1)). by destruct (D s1).
    - wp_step. unfold set_config_vector_op. eapply wp_modern; [apply M1|]. unfold vio_modern_set_config_vector. wp_step. apply wp_reg; [apply M1|].
      wp_step. apply (wp_write16 msix_config); [done|]. intros s2 V2 E2. apply (wp_read16 msix_config); [done|]. wp_step. rewrite E2.
      cbn [reg_write]. change (reg_read (_ <| pd_msix := ?x |>) msix_config) with x. rewrite !u16_small by (rewrite ?u16_small; done).
      split_and!; [by rewrite (proj2 (Z.eqb_neq _ _) Hne)|done|by eexists]. }
  intros ok s2 (-> & V2 & x & D2). cbn [negb]. rewrite D1 in D2.
  wp_step. eapply wp_mono; [apply (setup_queues_device (Z.to_nat nvqs) 0 s2); [done|split]|].
  - by rewrite V2.
  - rewrite V2. lia.
  - rewrite D2. cbn. lia.
  - intros j q _. rewrite D2, V2. intros Hq. destruct (Hf j q Hq). split; [done|]. by apply N1.
  - intros j y _. rewrite V2. apply F1.
  - intros [st vqs] s3 (Est & Hlen & (l & V3 & Zl) & (K1 & K0 & K2 & K3) & Tr & _ & Hk). cbn in Est, Hlen, Hk. subst st. cbv beta iota.
    change (NT_SUCCESS STATUS_SUCCESS) with true. cbv iota. wp_steps. rewrite D2 in K1, K0, K2, K3, Tr. rewrite V2 in V3, Zl, Hk.
    rewrite Z2Nat.id in Tr by lia. split_and!; try done.
    + rewrite V3. by apply modern_put.
    + intros k vq Hvq. destruct (Hk k vq Hvq) as (qa & q & Hq & Ag & _). exists qa, q. split; [done|]. unfold agrees in *. by rewrite (proj2 (N1 q)) in Ag.
Qed.

(** What a driver does to start its device: [virtio_device_initialize] from the reset on,
    then the features, the queues, and DRIVER_OK. *)
Definition start_device (fuel : nat) (features nvqs : Z) : M (vst E) (Z * (Z * list virtqueue)) :=
  virtio_device_reset fuel;;
  virtio_add_status VIRTIO_CONFIG_S_ACKNOWLEDGE;;
  virtio_add_status VIRTIO_CONFIG_S_DRIVER;;
  st ← virtio_set_features features;
  r ← virtio_find_queues nvqs;
  virtio_device_ready;;
  mret (st, r).

Lemma write_status_ok d x : x <> 0 -> truth (Z.land x VIRTIO_CONFIG_S_FEATURES_OK) = false \/ features_ok d = true ->
  write_status d x = log_event (EvStatus x) (d <| pd_status := x |>).
Proof.
  intros Hx Hf. unfold write_status. rewrite (proj2 (Z.eqb_neq x 0)) by done. destruct Hf as [-> | ->]; [by rewrite andb_false_r|done].
Qed.

End bring_up.
