(* ===== verification/PciInitSpec.v ===== *)
(** * The PCI transport: initialisation

    [virtio_device_initialize] on any platform that satisfies [SystemLaws]: it ends, it
    takes no memory, and on success one of the two transports is selected and the array of
    queues is empty. *)

From Stdlib Require Import ZArith Lia.
From stdpp Require Import base list numbers option.
From S2P Require Import Prelude.
From S2P Require Import Effects.
From S2P Require Import Virtio.
From S2P Require Import Pci.
From S2P Require Import PciSpec.
From S2P Require Import PciQueueSpec.
From S2P Require Import PciCapSpec.

(** A byte register answers 0 after at most [n] rounds of waiting. *)
Fixpoint answers {E} `{VirtIOSystemOps E} (n : nat) (a : Z) (e : E) : Prop :=
  wp (vdev_read_byte a) (fun v e1 => u8 v = 0 \/
    match n with
    | O => False
    | S n => wp (pci_read_config_word 0) (fun _ e2 => wp (vdev_sleep 1) (fun _ e3 => answers n a e3) e2) e1
    end) e.

Section init.
Context {E : Type} `{SystemLaws E}.
Implicit Types (s : vst E).

(** *** Functions that change the structure but neither memory nor queues *)

Definition hush s s' : Prop :=
  common (vdev s') = common (vdev s) /\ info (vdev s') = info (vdev s) /\ inline_info (vdev s') = inline_info (vdev s) /\ maxQueues (vdev s') = maxQueues (vdev s) /\
  pages (env s') ≡ₚ pages (env s) /\ blocks (env s') ≡ₚ blocks (env s) /\ (Sane s -> Sane s').

#[export] Instance hush_preorder : PreOrder hush.
Proof.
  split.
  - intros s. by split_and!.
  - intros s1 s2 s3 (C1 & I1 & L1 & Q1 & P1 & B1 & N1) (C2 & I2 & L2 & Q2 & P2 & B2 & N2). split_and!; [by etrans..|auto].
Qed.

Lemma hush_same s s' : same s s' -> hush s s'.
Proof. intros (V & P & B & N). by split_and!; rewrite ?V. Qed.

Definition calm {A} (Q : A -> vst E -> Prop) (m : M (vst E) A) : Prop :=
  forall s, Sane s -> wp m (fun a s' => Q a s' /\ hush s s') s.

Lemma calm_quiet {A} (R : A -> Prop) m : quiet R m -> calm (fun a _ => R a) m.
Proof. intros Hm s N. eapply wp_mono; [by apply Hm|]. intros a s' [? ?]. split; [done|]. by apply hush_same. Qed.

Lemma calm_bind {A C} (R : A -> Prop) (Q : C -> vst E -> Prop) (m : M (vst E) A) (k : A -> M (vst E) C) :
  calm (fun a _ => R a) m -> (forall a, R a -> calm Q (k a)) -> calm Q (m ≫= k).
Proof.
  intros Hm Hk s N. apply wp_bind. eapply wp_mono; [by apply Hm|]. intros a s1 (Ha & Hu1).
  eapply wp_mono; [apply (Hk a Ha s1), Hu1, N|]. intros c s2 (Hc & Hu2). split; [done|]. by etrans.
Qed.

Lemma calm_ret {A} (Q : A -> vst E -> Prop) (a : A) : (forall s, Q a s) -> calm Q (mret a).
Proof. intros HQ s N. apply wp_ret. split; [apply HQ|done]. Qed.

Lemma calm_pure {A} (R : A -> Prop) (m : res A) a : m = Ok a -> R a -> calm (fun a _ => R a) (pure m : M (vst E) A).
Proof. intros -> Ha s N. by apply wp_ret. Qed.

Lemma calm_set (Q : unit -> vst E -> Prop) f : (forall v, common (f v) = common v /\ info (f v) = info v /\ inline_info (f v) = inline_info v /\ maxQueues (f v) = maxQueues v) ->
  (forall s, Q tt (s <| vdev := f (vdev s) |>)) -> calm Q (set_dev f : M (vst E) unit).
Proof. intros Hf HQ s N. apply wp_modify. split; [apply HQ|]. destruct (Hf (vdev s)) as (? & ? & ? & ?). by split_and!. Qed.

#[local] Abbreviation any := (fun _ => True).
#[local] Abbreviation any2 := (fun _ _ => True).

Lemma calm_init_notify cap : calm any2 (init_notify cap : M (vst E) Z).
Proof.
  unfold init_notify. eapply (calm_bind any); [eapply calm_quiet, quiet_mono; [apply quiet_config_dword|done]|]. intros mult _.
  eapply (calm_bind any); [by apply calm_set|]. intros _ _.
  eapply (calm_bind any); [apply calm_quiet, quiet_uninit, quiet_config_dword|]. intros len _.
  eapply (calm_bind any); [apply calm_quiet, quiet_uninit, quiet_config_dword|]. intros off _.
  case_match.
  - eapply (calm_bind any); [apply calm_quiet, quiet_map_capability|]. intros r _.
    eapply (calm_bind any); [by apply calm_set|]. intros _ _. by apply calm_ret.
  - eapply (calm_bind any); [by apply calm_set|]. intros _ _. by apply calm_ret.
Qed.

Lemma calm_init_config cap : calm any2 (init_config cap : M (vst E) Z).
Proof.
  unfold init_config. case_match; [by apply calm_ret|].
  eapply (calm_bind any); [apply calm_quiet, quiet_map_capability|]. intros r _.
  eapply (calm_bind any); [by apply calm_set|]. intros _ _. by apply calm_ret.
Qed.

Lemma quiet_zeroed (m : M (vst E) (option Z)) : quiet is_Some m -> quiet any (zeroed m).
Proof. intros Hm. eapply quiet_bind; [apply Hm|]. intros. by apply quiet_ret. Qed.

Lemma calm_shared cap : calm any2 (vio_modern_map_shared_memory_capability cap : M (vst E) unit).
Proof.
  unfold vio_modern_map_shared_memory_capability.
  do 2 (eapply (calm_bind any); [apply calm_quiet, quiet_zeroed, quiet_config_byte|intros ? _]).
  do 4 (eapply (calm_bind any); [apply calm_quiet, quiet_zeroed, quiet_config_dword|intros ? _]). cbv zeta.
  do 3 (case_match; [by apply calm_ret|]).
  eapply (calm_bind any); [apply calm_quiet, quiet_sys, keeps_resource_len|]. intros n _.
  case_match; [by apply calm_ret|]. by apply calm_set.
Qed.

(** *** A platform whose device can be started *)

(** The configuration space does not change, the list of capabilities ends, the common
    structure is mapped at an address in [com], and there its status register, set to 0,
    answers within [R] rounds. *)
Context (space : Z -> Z) (caps : list Z) (com : Z -> Prop) (R : nat).
Definition common_cap (c : Z) : Prop := c ∈ caps /\ space (c + cap_cfg_type) = VIRTIO_PCI_CAP_COMMON_CFG.
Definition status_at (a : Z) : Z := u64 (a + reg_offset device_status).
Record startable : Prop := {
  st_byte a : 0 <= space a < 256;
  st_read_byte a e : sane e -> pci_read_config_byte a e = Ok (Some (space a), e);
  st_read_word a e : sane e -> pci_read_config_word a e = Ok (Some (le_join (space <$> [a; a + 1])), e);
  st_read_dword a e : sane e -> pci_read_config_dword a e = Ok (Some (dword space a), e);
  st_len e : sane e -> exists len, forall b, pci_get_resource_len b e = Ok (len b, e);
  st_caps : cap_list space (space (first_pointer space)) caps;
  st_caps_len : (length caps <= 48)%nat;
  st_common c len e : common_cap c -> sane e ->
    wp (pci_map_address_range (space (c + cap_bar)) (dword space (c + cap_offset_lo)) len) (fun a _ => a <> 0 -> com a) e;
  st_resets a e : com a -> sane e -> wp (vdev_write_byte (status_at a) 0) (fun _ e' => answers R (status_at a) e') e }.
Context (St : startable).

Lemma record_cap_len len Offsets l : zlen (foldl (record_cap space len) Offsets l) = zlen Offsets.
Proof.
  revert Offsets. induction l as [|o l IH]; intros Offsets; [done|]. cbn. rewrite IH. unfold record_cap. case_match; [apply zlen_zinsert|done].
Qed.

(** The driver records only what is on the list, under its own type. *)
Lemma record_cap_at len l : forall Offsets i c, (foldl (record_cap space len) Offsets l)⟦i⟧ = Some c ->
  Offsets⟦i⟧ = Some c \/ c ∈ l /\ space (c + cap_cfg_type) = i.
Proof.
  induction l as [|o l IH]; intros Offsets i c Hc; [by left|]. cbn in Hc. apply IH in Hc as [Hc|[Hc Ht]]; [|right; split; [by right|done]].
  unfold record_cap in Hc. case_match; [|by left]. destruct (decide (i = space (o + cap_cfg_type))) as [->|Hne].
  - pose proof (zlookup_lt _ _ _ Hc) as Hr. rewrite zlen_zinsert in Hr. rewrite zlookup_zinsert_eq in Hc by done. injection Hc as <-. right. split; [left|done].
  - rewrite zlookup_zinsert_ne in Hc by done. by left.
Qed.

Lemma quiet_capabilities fuel Offsets : (length caps <= fuel)%nat ->
  quiet (fun l => zlen l = zlen Offsets /\ forall i c, l⟦i⟧ = Some c -> Offsets⟦i⟧ = Some c \/ c ∈ caps /\ space (c + cap_cfg_type) = i) (find_pci_vendor_capabilities fuel Offsets : M (vst E) (list Z)).
Proof.
  intros Hf s N. destruct (st_len St (env s) N) as [len Hlen].
  assert (forall a e, e = env s -> pci_read_config_byte a e = Ok (Some (space a), e)) as Rb by (intros a e ->; by apply (st_read_byte St)).
  assert (forall a e, e = env s -> pci_read_config_word a e = Ok (Some (le_join (space <$> [a; a + 1])), e)) as Rw
    by (intros a e ->; by apply (st_read_word St)).
  assert (forall b e, e = env s -> pci_get_resource_len b e = Ok (len b, e)) as Rl by (by intros b e ->).
  unfold find_pci_vendor_capabilities. wp_step. destruct (has_list space) eqn:Hh.
  - unfold wp at 1. rewrite (find_first_ok (fun e => e = env s) space (st_byte St) Rb Rw s eq_refl Hh).
    rewrite (find_next_ok (fun e => e = env s) space (st_byte St) Rb _ caps s eq_refl (st_caps St) (st_caps_len St)).
    unfold wp. rewrite (vendor_capabilities_ok (fun e => e = env s) space len (st_byte St) Rb Rl _ caps eq_refl _ (st_caps St)
      (proj2 (st_byte St _)) (st_caps_len St) fuel Offsets s eq_refl).
    + split; [|done]. split; [apply record_cap_len|]. intros i c [?|[Hc ?]]%record_cap_at; [by left|right]. split; [|done]. by apply list_elem_of_filter in Hc as [_ ?].
    + etrans; [apply length_filter|done].
  - assert (find_first_pci_vendor_capability s = Ok (0, s)) as E0.
    { unfold find_first_pci_vendor_capability, mbind, M_bind. rewrite (config_byte_ok (fun e => e = env s) space (st_byte St) Rb) by done.
      unfold config_word, sys, mbind, M_bind, mret, M_ret. rewrite (st_read_word St) by done. cbn -[Z.land le_join].
      rewrite u16_small by (cbn; pose proof (st_byte St PCI_Status); pose proof (st_byte St (PCI_Status + 1)); lia).
      unfold has_list in Hh. cbn -[Z.land le_join] in Hh. apply negb_false_iff in Hh. rewrite Hh. by destruct s. }
    unfold wp at 1. rewrite E0. destruct fuel; (split; [split; [done|by left]|done]).
Qed.

(** The common structure is where the list says. *)
Lemma quiet_map_common c n al : common_cap c -> quiet (fun a => a <> 0 -> com a) (vio_modern_map_simple_capability c n al : M (vst E) Z).
Proof.
  intros Hc. unfold vio_modern_map_simple_capability. eapply (quiet_bind (fun r : Z * option Z => r.1 <> 0 -> com r.1)); [|intros r Hr; by apply quiet_ret].
  unfold vio_modern_map_capability. eapply (quiet_bind (fun b => b = space (c + cap_bar))).
  { intros s N. unfold wp, uninit, config_byte, sys, mbind, M_bind. rewrite (st_read_byte St) by done. cbn. rewrite u8_small by apply St. split; [done|]. by split_and!. }
  intros ? ->. eapply (quiet_bind (fun b => b = dword space (c + cap_offset_lo))).
  { intros s N. unfold wp, uninit, config_dword, sys, mbind, M_bind. rewrite (st_read_dword St) by done. cbn -[dword].
    rewrite u32_small by (apply dword_range, St). split; [done|]. by split_and!. }
  intros ? ->. eapply (quiet_bind any); [apply quiet_uninit, quiet_config_dword|]. intros len _. cbv zeta.
  rewrite Z.add_0_r, u32_small by (apply dword_range, St). case_match; [by apply quiet_ret|]. case_match; [by apply quiet_ret|].
  eapply (quiet_bind any); [apply quiet_sys, keeps_resource_len|]. intros m _. case_match; [by apply quiet_ret|].
  eapply (quiet_bind (fun a => a <> 0 -> com a)); [|intros a Ha; by apply quiet_ret].
  intros s N. apply wp_sys. eapply wp_mono; [exact (wp_and _ _ _ _ (keeps_map _ _ _ _ N) (st_common St c _ _ Hc N))|].
  intros a e ((_ & ? & ? & ?) & Ha). split; [exact Ha|]. by split_and!.
Qed.

(** Everything but the address of the common structure stays. *)
Definition hush0 s s' : Prop :=
  info (vdev s') = info (vdev s) /\ inline_info (vdev s') = inline_info (vdev s) /\ maxQueues (vdev s') = maxQueues (vdev s) /\
  pages (env s') ≡ₚ pages (env s) /\ blocks (env s') ≡ₚ blocks (env s) /\ (Sane s -> Sane s').
Lemma hush0_hush s s' : hush s s' -> hush0 s s'.
Proof. by intros (_ & ?). Qed.
Lemma hush0_trans s1 s2 s3 : hush0 s1 s2 -> hush0 s2 s3 -> hush0 s1 s3.
Proof. intros (I1 & L1 & Q1 & P1 & B1 & N1) (I2 & L2 & Q2 & P2 & B2 & N2). split_and!; [by etrans..|auto]. Qed.

Lemma calm_mapped c isr_cap notify_cap config_cap shm_cap :
  calm (fun st s' => NT_SUCCESS st = true -> device (vdev s') = Some Modern)
   (if c =? 0 then mret STATUS_INVALID_PARAMETER
    else
      a ← vio_modern_map_simple_capability isr_cap 1 1;
      set_dev (fun v => v <| isr := a |>);;
      if a =? 0 then mret STATUS_INVALID_PARAMETER
      else
        status ← init_notify notify_cap;
        if negb (NT_SUCCESS status) then mret status
        else
          status ← init_config config_cap;
          if negb (NT_SUCCESS status) then mret status
          else
            (if shm_cap =? 0 then mret tt else vio_modern_map_shared_memory_capability shm_cap);;
            set_dev (fun v => v <| device := Some Modern |>);;
            mret STATUS_SUCCESS : M (vst E) Z).
Proof.
  case_match; [by apply calm_ret|].
  eapply (calm_bind any); [eapply calm_quiet; unfold vio_modern_map_simple_capability; eapply quiet_bind; [apply quiet_map_capability|]; intros; by apply quiet_ret|]. intros isra _.
  eapply (calm_bind any); [by apply calm_set|]. intros _ _. case_match; [by apply calm_ret|].
  eapply (calm_bind any); [apply calm_init_notify|]. intros st _. destruct (NT_SUCCESS st) eqn:Es; cbn [negb]; [|apply calm_ret; congruence].
  eapply (calm_bind any); [apply calm_init_config|]. intros st2 _. destruct (NT_SUCCESS st2) eqn:Es2; cbn [negb]; [|apply calm_ret; congruence].
  eapply (calm_bind any); [case_match; [by apply calm_ret|apply calm_shared]|]. intros _ _.
  intros s N. unfold set_dev. wp_step. apply wp_modify. wp_step. split; [done|]. by split_and!.
Qed.

Lemma modern_initialize_ok fuel s : (length caps <= fuel)%nat -> Sane s ->
  wp (vio_modern_initialize fuel) (fun st s' => hush0 s s' /\
    (NT_SUCCESS st = true -> device (vdev s') = Some Modern /\ com (common (vdev s')))) s.
Proof.
  intros Hf N. unfold vio_modern_initialize, set_dev at 1. wp_step. apply wp_modify. set (s0 := s <| vdev := _ |>).
  assert (hush0 s s0) as H0s by (by split_and!). assert (Sane s0) as N0 by exact N.
  eapply wp_quiet; [exact N0|apply (quiet_capabilities fuel), Hf|]. intros l s1 [Hl Hat] S1. cbv beta in Hl.
  assert (hush0 s s1) as H1s by (eapply hush0_trans; [exact H0s|by apply hush0_hush, hush_same]). assert (Sane s1) as N1 by (by apply H1s).
  assert (forall i, 0 <= i < 9 -> exists x, zget l i = Ok x) as Hz.
  { intros i Hi. destruct (zlookup_in_range l i) as [x Hx]; [rewrite Hl; exact Hi|]. exists x. by apply zget_ok. }
  destruct (Hz VIRTIO_PCI_CAP_COMMON_CFG) as [ccap Hcc]; [done|]. wp_step. eapply wp_pure; [exact Hcc|].
  destruct (Hz VIRTIO_PCI_CAP_ISR_CFG) as [icap Hic]; [done|]. wp_step. eapply wp_pure; [exact Hic|].
  destruct (Hz VIRTIO_PCI_CAP_NOTIFY_CFG) as [ncap Hnc]; [done|]. wp_step. eapply wp_pure; [exact Hnc|].
  destruct (Hz VIRTIO_PCI_CAP_DEVICE_CFG) as [dcap Hdc]; [done|]. wp_step. eapply wp_pure; [exact Hdc|].
  destruct (Hz VIRTIO_PCI_CAP_SHARED_MEMORY_CFG) as [scap Hsc]; [done|]. wp_step. eapply wp_pure; [exact Hsc|].
  destruct (Z.eqb_spec ccap 0) as [|Hnz]; [by wp_step|]. case_match; [by wp_step|].
  assert (common_cap ccap) as Hcap.
  { apply zget_ok_inv in Hcc. destruct (Hat _ _ Hcc) as [Hr|]; [|done]. by injection Hr as <-. }
  eapply wp_quiet; [exact N1|by apply quiet_map_common|]. intros c s2 Hc S2. unfold set_dev at 1. wp_step. apply wp_modify. set (s3 := s2 <| vdev := _ |>).
  assert (hush0 s s3) as H3s.
  { eapply hush0_trans; [exact H1s|]. eapply hush0_trans; [by apply hush0_hush, hush_same|]. by split_and!. }
  destruct (Z.eqb_spec c 0) as [->|Hc0]; [by wp_step|].
  pose proof (calm_mapped c icap ncap dcap scap) as Hrest. rewrite (proj2 (Z.eqb_neq c 0) Hc0) in Hrest.
  eapply wp_mono; [apply Hrest, H3s, N|]. intros st s4 (Hd & Hu4). split; [eapply hush0_trans; [exact H3s|by apply hush0_hush]|].
  intros Es. split; [by apply Hd|]. rewrite (proj1 Hu4). by apply Hc.
Qed.

Lemma calm_legacy_initialize :
  calm (fun st s' => NT_SUCCESS st = true -> device (vdev s') = Some Legacy) (vio_legacy_initialize : M (vst E) Z).
Proof.
  unfold vio_legacy_initialize. eapply (calm_bind any); [apply calm_quiet, quiet_sys, keeps_resource_len|]. intros n _.
  eapply (calm_bind any); [apply calm_quiet, quiet_sys, keeps_map|]. intros a _.
  eapply (calm_bind any); [by apply calm_set|]. intros _ _. case_match; [by apply calm_ret|].
  intros s N. unfold set_dev. wp_step. apply wp_modify. wp_step. split; [done|]. by split_and!.
Qed.

(** *** Reset and status *)

Lemma reset_wait_same n : forall fuel s, (n <= fuel)%nat -> Sane s -> answers n (status_at (common (vdev s))) (env s) ->
  wp (reset_wait fuel) (fun _ s' => same s s') s.
Proof.
  induction n as [|n IH]; intros fuel s Hf N Ha; destruct fuel as [|fuel]; try lia; cbn [reset_wait]; unfold reg, dev; wp_steps;
    cbn [answers] in Ha; unfold ioread8; wp_step; apply wp_sys;
    (eapply wp_mono; [exact (wp_and _ _ _ _ (keeps_read_byte _ _ N) Ha)|]); intros v e ((_ & Ne & Pe & Be) & Hv); cbv beta; wp_step;
    assert (same s (s <| env := e |>)) as S1 by (by split_and!); unfold truth.
  1, 2: destruct Hv as [Hv|[]]; rewrite Hv; cbn [Z.eqb negb]; by wp_step.
  destruct (Z.eqb_spec (u8 v) 0) as [_|Hnz]; cbn [negb]; [by wp_step|]. destruct Hv as [?|Hv]; [done|].
  wp_step. unfold config_word. wp_step. apply wp_sys. eapply wp_mono; [exact (wp_and _ _ _ _ (keeps_config_word _ _ Ne) Hv)|].
  intros o e2 ((_ & N2 & P2 & B2) & Hs). cbv beta. wp_step. cbn in P2, B2.
  assert (same s (s <| env := e2 |>)) as S2 by (split_and!; [done|by cbn; rewrite P2|by cbn; rewrite B2|done]).
  change (s <| env := e |> <| env := e2 |>) with (s <| env := e2 |>).
  destruct o as [x|]; cbn [option_map]; [|by wp_step]. case_match; [by wp_step|].
  wp_step. apply wp_sys. eapply wp_mono; [exact (wp_and _ _ _ _ (keeps_sleep 1 e2 N2) Hs)|]. intros [] e3 ((_ & N3 & P3 & B3) & H3). cbv beta.
  change (s <| env := e2 |> <| env := e3 |>) with (s <| env := e3 |>).
  eapply wp_mono; [apply (IH fuel (s <| env := e3 |>)); [lia|done|done]|]. intros [] s' S'. etrans; [|exact S'].
  split_and!; [done|by cbn; rewrite P3, P2|by cbn; rewrite B3, B2|done].
Qed.

Lemma reset_same t fuel s : Sane s -> device (vdev s) = Some t -> (t = Modern -> com (common (vdev s))) -> (R <= fuel)%nat -> wp (virtio_device_reset fuel) (fun _ s' => same s s') s.
Proof.
  intros N Ht Hcom Hf. eapply wp_ops; [exact Ht|]. destruct t.
  - unfold vio_legacy_reset. eapply wp_quiet; [done|apply quiet_lreg|]. intros a s1 _ S1.
    eapply wp_mono; [apply quiet_write8, (same_sane s s1 S1 N)|]. intros [] s2 [_ S2]. by etrans.
  - unfold vio_modern_reset, reg, dev. wp_steps. unfold iowrite8. apply wp_sys. change (u8 0) with 0.
    eapply wp_mono; [exact (wp_and _ _ _ _ (keeps_write_byte _ _ _ N) (st_resets St _ _ (Hcom eq_refl) N))|]. intros [] e ((_ & Ne & Pe & Be) & Ha). cbv beta.
    eapply wp_mono; [apply (reset_wait_same R); [done|done|exact Ha]|]. intros [] s' S'. etrans; [|exact S']. by split_and!.
Qed.

Lemma get_status_same t s : Sane s -> device (vdev s) = Some t -> wp virtio_get_status (fun v s' => 0 <= v < 256 /\ same s s') s.
Proof.
  intros N Ht. eapply wp_ops; [exact Ht|]. destruct t; [unfold vio_legacy_get_status; eapply wp_quiet; [done|apply quiet_lreg|]|
    unfold vio_modern_get_status; eapply wp_quiet; [done|apply quiet_reg|]]; intros a s1 _ S1;
    (eapply wp_mono; [apply quiet_read8, (same_sane s s1 S1 N)|]); intros v s2 (Hv & S2); (split; [done|by etrans]).
Qed.

Lemma set_status_same t x s : Sane s -> device (vdev s) = Some t -> x <> 0 -> wp (virtio_set_status x) (fun _ s' => same s s') s.
Proof.
  intros N Ht Hx. eapply wp_ops; [exact Ht|]. destruct t.
  - unfold vio_legacy_set_status. eapply wp_quiet; [done|apply quiet_lreg|]. intros a s1 _ S1.
    eapply wp_mono; [apply quiet_write8, (same_sane s s1 S1 N)|]. intros v s2 (_ & S2). by etrans.
  - unfold vio_modern_set_status. wp_step. apply wp_assert; [by rewrite (proj2 (Z.eqb_neq x 0))|].
    eapply wp_quiet; [done|apply quiet_reg|]. intros a s1 _ S1.
    eapply wp_mono; [apply quiet_write8, (same_sane s s1 S1 N)|]. intros v s2 (_ & S2). by etrans.
Qed.

Lemma lor_status st x : 0 <= st < 256 -> 0 < x < 256 -> u8 (Z.lor st x) <> 0.
Proof.
  intros Hst Hx. rewrite u8_small by (apply (lor_range 8); lia). intros E0. apply Z.lor_eq_0_iff in E0. lia.
Qed.

Lemma add_status_same t x s : Sane s -> device (vdev s) = Some t -> 0 < x < 256 -> wp (virtio_add_status x) (fun _ s' => same s s') s.
Proof.
  intros N Ht Hx. unfold virtio_add_status. wp_step. eapply wp_mono; [by apply (get_status_same t)|]. intros v s1 (Hv & S1). cbv beta.
  pose proof S1 as (V1 & _). eapply wp_mono; [apply (set_status_same t); [exact (same_sane s s1 S1 N)|by rewrite V1|by apply lor_status]|].
  intros [] s2 S2. by etrans.
Qed.

(** Initialisation takes no memory, and afterwards the array of queues is empty. *)
Lemma device_initialize_ok fuel msix s : Sane s -> (length caps <= fuel)%nat -> (R <= fuel)%nat ->
  wp (virtio_device_initialize fuel msix) (fun st s' =>
    info (vdev s') = InfoInline /\ inline_info (vdev s') = replicate 8 zero_info /\ maxQueues (vdev s') = 8 /\
    pages (env s') ≡ₚ pages (env s) /\ blocks (env s') ≡ₚ blocks (env s) /\ Sane s' /\
    (NT_SUCCESS st = true -> exists t, device (vdev s') = Some t /\ (t = Modern -> com (common (vdev s'))))) s.
Proof.
  intros N Hc HR. unfold virtio_device_initialize, set_dev. wp_step. apply wp_modify. set (s0 := s <| vdev := _ |>).
  assert (Sane s0) as N0 by exact N. wp_step. eapply wp_mono; [by apply modern_initialize_ok|]. intros st s1 (Hu1 & D1). cbv beta.
  wp_step. eapply (wp_mono _ (fun st' s2 => hush0 s0 s2 /\ (NT_SUCCESS st' = true -> exists t, device (vdev s2) = Some t /\ (t = Modern -> com (common (vdev s2)))))).
  { case_match.
    - eapply wp_mono; [apply calm_legacy_initialize, Hu1, N0|]. intros st' s2 (D2 & Hu2). split; [eapply hush0_trans; [done|by apply hush0_hush]|].
      intros Es. exists Legacy. split; [by apply D2|done].
    - wp_step. split; [done|]. intros Es. exists Modern. by destruct (D1 Es). }
  intros st' s2 (Hu2 & D2). cbv beta.
  assert (forall s', hush0 s2 s' -> (NT_SUCCESS st' = true -> exists t, device (vdev s') = Some t /\ (t = Modern -> com (common (vdev s')))) ->
    info (vdev s') = InfoInline /\ inline_info (vdev s') = replicate 8 zero_info /\ maxQueues (vdev s') = 8 /\
    pages (env s') ≡ₚ pages (env s) /\ blocks (env s') ≡ₚ blocks (env s) /\ Sane s' /\
    (NT_SUCCESS st' = true -> exists t, device (vdev s') = Some t /\ (t = Modern -> com (common (vdev s'))))) as Done.
  { intros s' Hu' Hd. destruct (hush0_trans s0 s2 s' Hu2 Hu') as (I & L & Q & P & B & Ns). split_and!; [done|done|done|done|done|by apply Ns|done]. }
  destruct (NT_SUCCESS st') eqn:Es; [|wp_step; rewrite Es; apply Done; [by split_and!|done]]. destruct (D2 eq_refl) as (t & Ht & Hcom).
  assert (Sane s2) as N2 by (by apply Hu2). wp_step. eapply wp_mono; [by apply (reset_same t)|]. intros [] s3 S3. cbv beta.
  pose proof S3 as (V3 & _). wp_step. eapply wp_mono; [apply (add_status_same t); [by eapply same_sane|by rewrite V3|done]|]. intros [] s4 S4. cbv beta.
  pose proof S4 as (V4 & _). assert (Sane s4) as N4 by (eapply same_sane; [done|]; by eapply same_sane).
  wp_step. eapply wp_mono; [apply (add_status_same t); [done|by rewrite V4, V3|done]|]. intros [] s5 S5. cbv beta. wp_step.
  rewrite Es. apply Done; [apply hush0_hush, hush_same; by do 2 (etrans; [eassumption|])|]. intros _. exists t. pose proof S5 as (V5 & _). by rewrite V5, V4, V3.
Qed.
End init.
