(* ===== verification/PciExamples.v ===== *)
(** * The PCI transport on a small platform

    A platform that allocates memory and has one modern device, and a device whose
    configuration changes while it is read; the theorems on them, and what the driver does
    when the control block of a queue cannot be had. *)

From Stdlib Require Import ZArith Lia.
From stdpp Require Import base list numbers option.
From S2P Require Import Prelude.
From S2P Require Import Effects.
From S2P Require Import Virtio.
From S2P Require Import SplitRing.
From S2P Require Import Pci.
From S2P Require Import PciSpec.
From S2P Require Import PciQueueSpec.
From S2P Require Import PciCapSpec.
From S2P Require Import PciDeviceSpec.

(** ** A platform *)

Record machine := mk_machine { m_device : pci_device; m_pages : list Z; m_blocks : list Z; m_next : nat }.

(** A machine that refuses, or does not refuse, small allocations. *)
Definition board (refuse : bool) : Type := machine.

(** The common structure is at 0x1000. *)
Definition all_regs : list common_reg :=
  [device_feature_select; device_feature; guest_feature_select; guest_feature; msix_config; num_queues; device_status; config_generation;
   queue_select; queue_size; queue_msix_vector; queue_enable; queue_notify_off; queue_desc_lo; queue_desc_hi; queue_avail_lo; queue_avail_hi;
   queue_used_lo; queue_used_hi].
Definition reg_at (w a : Z) : option common_reg := find (fun r => (width r =? w) && (0x1000 + reg_offset r =? a)) all_regs.

Lemma reg_at_offset r : reg_at (width r) (0x1000 + reg_offset r) = Some r.
Proof. by destruct r. Qed.

Definition board_read (w a : Z) : M machine Z := fun m => Ok (match reg_at w a with Some r => reg_read (m_device m) r | None => 0 end, m).
Definition board_write (w a v : Z) : M machine unit := fun m =>
  Ok (tt, match reg_at w a with
          | Some r => mk_machine (reg_write (m_device m) r v) (m_pages m) (m_blocks m) (m_next m)
          | None => m
          end).

Lemma board_read_reg w r m : width r = w -> board_read w (0x1000 + reg_offset r) m = Ok (reg_read (m_device m) r, m).
Proof. intros <-. unfold board_read. by rewrite reg_at_offset. Qed.
Lemma board_write_reg w r v m : width r = w ->
  board_write w (0x1000 + reg_offset r) v m = Ok (tt, mk_machine (reg_write (m_device m) r v) (m_pages m) (m_blocks m) (m_next m)).
Proof. intros <-. unfold board_write. by rewrite reg_at_offset. Qed.

Definition fresh (m : machine) : Z := 4096 * (16 + Z.of_nat (m_next m)).
Fixpoint remove_one (q : Z) (l : list Z) : list Z :=
  match l with [] => [] | x :: l => if x =? q then l else x :: remove_one q l end.

Lemma remove_one_perm q l l' : l ≡ₚ q :: l' -> remove_one q l ≡ₚ l'.
Proof.
  revert l'. induction l as [|x l IH]; intros l' Hp; cbn.
  - by apply Permutation_nil_cons in Hp.
  - destruct (Z.eqb_spec x q) as [->|Hne]; [by apply Permutation_cons_inv in Hp|].
    assert (x ∈ l') as Hx by (assert (x ∈ q :: l') as [->|?]%elem_of_cons by (rewrite <- Hp; left); done).
    apply elem_of_Permutation in Hx as [l2 Hl2]. rewrite Hl2 in Hp |- *. f_equiv. apply IH.
    apply (Permutation_cons_inv (a := x)). rewrite Hp. apply perm_swap.
Qed.

(** The configuration space: the capabilities of a virtio device in BAR 4, with a
    capability of another kind between them. *)
Definition cap_bytes (id next cfg_type offset length : Z) : list Z :=
  [id; next; 16; cfg_type; 4; 0; 0; 0] ++ le_split 4 offset ++ le_split 4 length ++ le_split 4 4.
Definition space_bytes : list Z :=
  [0xf4; 0x1a; 0x41; 0x10; 0; 0; 0x10; 0] ++ replicate 44 0 ++ [0x40] ++ replicate 11 0 ++
  cap_bytes 9 0x54 1 0 0x38 ++ cap_bytes 0x11 0x68 0 0 0 ++ cap_bytes 9 0x7c 2 0x100 0x100 ++ cap_bytes 9 0x90 3 0x200 1 ++
  cap_bytes 9 0 4 0x300 0x40.
Definition board_space (a : Z) : Z := u8 (default 0 (space_bytes⟦a⟧)).
Definition board_bar_len (b : Z) : Z := if b =? 4 then 0x4000 else 0.

#[export] Instance board_ops refuse : VirtIOSystemOps (board refuse) := {
  vdev_read_byte := board_read 1; vdev_read_word := board_read 2; vdev_read_dword := board_read 4;
  vdev_write_byte := board_write 1; vdev_write_word := board_write 2; vdev_write_dword := board_write 4;
  mem_alloc_contiguous_pages _ m := Ok (fresh m, mk_machine (m_device m) (fresh m :: m_pages m) (m_blocks m) (S (m_next m)));
  mem_free_contiguous_pages q m := Ok (tt, mk_machine (m_device m) (remove_one q (m_pages m)) (m_blocks m) (m_next m));
  mem_get_physical_address a m := Ok (u64 a, m);
  mem_alloc_nonpaged_block _ m :=
    if refuse then Ok (0, m) else Ok (fresh m, mk_machine (m_device m) (m_pages m) (fresh m :: m_blocks m) (S (m_next m)));
  mem_free_nonpaged_block q m := Ok (tt, mk_machine (m_device m) (m_pages m) (remove_one q (m_blocks m)) (m_next m));
  pci_read_config_byte a m := Ok (Some (board_space a), m);
  pci_read_config_word a m := Ok (Some (le_join (board_space <$> [a; a + 1])), m);
  pci_read_config_dword a m := Ok (Some (dword board_space a), m);
  pci_get_resource_len b m := Ok (board_bar_len b, m);
  pci_map_address_range b off len m := Ok (if b =? 4 then 0x1000 + off else 0, m);
  vdev_get_msix_vector q m := Ok (u16 q, m);
  vdev_sleep _ m := Ok (tt, mk_machine (tick (m_device m)) (m_pages m) (m_blocks m) (m_next m)) }.

#[export] Instance board_ledger refuse : Ledger (board refuse) := {| pages := m_pages; blocks := m_blocks; sane _ := True; vectors := 65536 |}.

Lemma fresh_pos m : fresh m <> 0.
Proof. unfold fresh. lia. Qed.

#[export] Instance board_laws refuse : SystemLaws (board refuse).
Proof.
  split; intros; try (intros m _; unfold wp; cbn; unfold board_read, board_write; repeat case_match; simplify_eq; split_and!; (done || by eexists)).
  - unfold wp. cbn. split_and!; [done|done|]. right. split; [apply fresh_pos|done].
  - unfold wp. cbn. split_and!; [done|done|]. by apply remove_one_perm.
  - unfold wp. cbn. destruct refuse; cbn; (split_and!; [done|done|]); [by left|]. right. split; [apply fresh_pos|done].
  - unfold wp. cbn. split_and!; [done|done|]. by apply remove_one_perm.
  - unfold wp at 1. cbn. intros F%fresh_pos. done.
Qed.

#[export] Instance board_platform refuse : ModernPlatform (board refuse) :=
  {| device_of := m_device; base := 0x1000; phys := u64; vector := u16 |}.

#[export] Instance board_platform_laws : ModernPlatformLaws (board false).
Proof.
  split; intros; unfold aside; intros; unfold wp.
  - by split.
  - by apply board_read_reg.
  - by apply board_read_reg.
  - by apply board_read_reg.
  - cbn [vdev_write_byte board_ops base board_platform]. by rewrite (board_write_reg _ r).
  - cbn [vdev_write_word board_ops base board_platform]. by rewrite (board_write_reg _ r).
  - cbn [vdev_write_dword board_ops base board_platform]. by rewrite (board_write_reg _ r).
  - split; [apply fresh_pos|done].
  - split; [apply fresh_pos|done].
  - done.
  - done.
  - done.
  - eexists. split; [done|]. vm_compute. done.
  - done.
Qed.

(** A device with two queues of 8 and 4 entries; it offers version 1 and indirect
    descriptors, needs two milliseconds for a reset, and is running. *)
Definition queue_of (n off : Z) : dev_queue := mk_dq n n 0 0 off 0 0 0 0 0 0.
Definition demo_device : pci_device :=
  mk_pd (2 ^ VIRTIO_F_VERSION_1 + 2 ^ VIRTIO_RING_F_INDIRECT_DESC) 0 0 0 0 15 O 2 0xffff 0 [queue_of 8 0; queue_of 4 1] [].
Definition demo_machine : machine := mk_machine demo_device [] [] O.

(** The virtio device after its capabilities have been mapped. *)
Definition demo_vdev : virtio_device :=
  zero_device <| device := Some Modern |> <| common := 0x1000 |> <| notify_base := 0x1100 |> <| notify_len := 0x100 |>
    <| notify_offset_multiplier := 4 |> <| config := 0x1300 |> <| config_len := 0x40 |> <| info := InfoInline |>
    <| maxQueues := MAX_QUEUES_PER_DEVICE_DEFAULT |>.
Definition demo refuse : vst (board refuse) := mk_st demo_vdev demo_machine.

Lemma demo_no_queues : no_queues demo_vdev.
Proof.
  intros j x Hj. unfold zlookup in Hj. destruct (0 <=? j); [|done]. cbn [infos demo_vdev] in Hj.
  change (infos demo_vdev) with (replicate 8 zero_info) in Hj. by apply lookup_replicate in Hj as [-> _].
Qed.

Lemma demo_vinv refuse : vinv Modern [] [] (demo refuse).
Proof.
  split; [done|done|done| |done|done]. intros i x Hx vq Hv. by rewrite (demo_no_queues i x Hx) in Hv.
Qed.

(** The virtio structures the driver finds on this platform: [vio_modern_initialize] maps
    what [demo_vdev] says. *)
Example demo_initialize :
  (fun r => match r with Ok (st, s) => (st, vdev s) | Fault _ => (0, zero_device) end)
    (vio_modern_initialize 10 (mk_st (zero_device <| info := InfoInline |> <| maxQueues := MAX_QUEUES_PER_DEVICE_DEFAULT |>) demo_machine : vst (board false)))
  = (STATUS_SUCCESS, demo_vdev <| isr := 0x1200 |>).
Proof. vm_compute. reflexivity. Qed.


(** When the control block of the first queue is refused, its ring pages stay
    allocated. *)
Example control_block_leak :
  (fun r => match r with Ok ((st, vqs), s) => (st, length vqs, m_pages (env s)) | Fault _ => (0, O, []) end)
    ((r ← virtio_find_queues 2; virtio_device_shutdown;; mret r) (demo true))
  = (STATUS_INSUFFICIENT_RESOURCES, O, [65536]).
Proof. vm_compute. reflexivity. Qed.

(** Both queues set up and deleted again. *)
Example queues_given_back :
  (fun r => match r with Ok ((st, vqs), s) => (st, length vqs, m_pages (env s), m_blocks (env s)) | Fault _ => (0, O, [1], [1]) end)
    ((r ← virtio_find_queues 2; virtio_delete_queues;; virtio_device_shutdown;; mret r) (demo false))
  = (STATUS_SUCCESS, 2%nat, [], []).
Proof. vm_compute. reflexivity. Qed.

Lemma demo_modern : modern_dev (demo_vdev) (E := board false).
Proof. split; done. Qed.

Lemma demo_queues j q : (pd_queues demo_device)⟦j⟧ = Some q -> queue_num (dq_max q) /\ notify_fits demo_vdev q.
Proof.
  intros Hq. assert (j = 0 \/ j = 1) as [-> | ->] by (apply zlookup_lt in Hq; cbn in Hq; unfold zlen in Hq; cbn in Hq; lia); injection Hq as <-.
  - split; [by exists 3|]. unfold notify_fits. cbn. lia.
  - split; [by exists 2|]. unfold notify_fits. cbn. lia.
Qed.

Definition demo_features : Z := 2 ^ VIRTIO_F_VERSION_1 + 2 ^ VIRTIO_RING_F_INDIRECT_DESC.


(** ** Capabilities *)

Lemma board_space_range a : 0 <= board_space a < 256.
Proof. apply u8_range. Qed.

Lemma find_pci_vendor_capabilities_correct_witness :
  find_pci_vendor_capabilities 5 (replicate 9 0) (demo false) = Ok ([0; 0x40; 0x68; 0x7c; 0x90; 0; 0; 0; 0], demo false).
Proof.
  etrans.
  - apply (find_pci_vendor_capabilities_correct (E := board false) (fun _ => True) board_space board_bar_len board_space_range); try done.
    + instantiate (1 := [0x40; 0x54; 0x68; 0x7c; 0x90]). repeat (eapply cap_next; [vm_compute; done..|]). apply cap_end. vm_compute. done.
    + cbn. lia.
    + cbn. lia.
  - vm_compute. reflexivity.
Defined.

Lemma map_simple_capability_bounds_witness :
  vio_modern_map_simple_capability 0x40 sizeof_virtio_pci_common_cfg 4 (demo false) = Ok (0x1000, demo false).
Proof.
  etrans.
  - refine (proj1 (map_simple_capability_bounds (E := board false) (fun _ => True) board_space board_bar_len board_space_range _ _ _ 0x40 sizeof_virtio_pci_common_cfg 2 (demo false) _ _ _ _));
      (done || vm_compute; done).
  - vm_compute. reflexivity.
Defined.

(** A 32-bit I/O BAR at 0, a 64-bit memory BAR at 2 and a 32-bit one at 4. *)
Lemma virtio_get_bar_index_correct_witness :
  virtio_get_bar_index 0x80 [0xc001; 0; 0xfe00000c; 2; 0xfd000000; 0] 0x2fe000000 = Ok 2.
Proof.
  refine (proj1 (virtio_get_bar_index_correct 0x80 [0xc001; 0; 0xfe00000c; 2; 0xfd000000; 0] 0x2fe000000 _ _) _); vm_compute; done.
Defined.

(** ** A configuration that changes

    The state counts the accesses; the third access finds the configuration changed. *)
Definition clock : Type := nat.
Definition clock_cfg (e : clock) : list Z := if (e <? 3)%nat then [1; 0; 0; 0; 2; 0; 0; 0] else [3; 0; 0; 0; 4; 0; 0; 0].
Definition clock_gen (e : clock) : Z := if (e <? 3)%nat then 7 else 8.
Definition clock_read (w a : Z) : M clock Z := fun e =>
  Ok (if a =? 0x1000 + reg_offset config_generation then clock_gen e
      else le_join (take (Z.to_nat w) (drop (Z.to_nat (a - 0x1300)) (clock_cfg e))), S e).

#[export] Instance clock_ops : VirtIOSystemOps clock := {
  vdev_read_byte := clock_read 1; vdev_read_word := clock_read 2; vdev_read_dword := clock_read 4;
  vdev_write_byte _ _ e := Ok (tt, e); vdev_write_word _ _ e := Ok (tt, e); vdev_write_dword _ _ e := Ok (tt, e);
  mem_alloc_contiguous_pages _ e := Ok (0, e); mem_free_contiguous_pages _ e := Ok (tt, e); mem_get_physical_address a e := Ok (a, e);
  mem_alloc_nonpaged_block _ e := Ok (0, e); mem_free_nonpaged_block _ e := Ok (tt, e);
  pci_read_config_byte _ e := Ok (None, e); pci_read_config_word _ e := Ok (None, e); pci_read_config_dword _ e := Ok (None, e);
  pci_get_resource_len _ e := Ok (0, e); pci_map_address_range _ _ _ e := Ok (0, e); vdev_get_msix_vector _ e := Ok (0, e);
  vdev_sleep _ e := Ok (tt, e) }.

Definition clock_vdev : virtio_device := demo_vdev <| config_len := 8 |>.

Lemma clock_moment w off : 0 < w -> 0 <= off -> off + w <= 8 ->
  at_moment (E := clock) le (clock_read w (u64 (config clock_vdev + off))) (fun x e => x = le_join (slice clock_cfg e off w)).
Proof.
  intros Hw0 Ho Hw e. unfold wp, clock_read. exists e. split_and!; [lia|lia|]. change (config clock_vdev) with 0x1300.
  rewrite u64_small, (proj2 (Z.eqb_neq _ _)) by (unfold reg_offset; lia). unfold slice. by replace (0x1300 + off - 0x1300) with off by lia.
Qed.

Definition clock_budget (e : clock) : nat := if (e <? 3)%nat then 1%nat else 0%nat.
Lemma clock_step e e' : (e <= e')%nat -> (clock_budget e' <= clock_budget e)%nat /\ (clock_gen e <> clock_gen e' -> (clock_budget e' < clock_budget e)%nat).
Proof. unfold clock_gen, clock_budget. intros. destruct (Nat.ltb_spec e 3), (Nat.ltb_spec e' 3); lia. Qed.

(** Eight bytes read as two words while the configuration changes: the driver reads
    again and returns the new configuration. *)
Lemma virtio_get_config_snapshot_witness :
  wp (virtio_get_config 1 0 8) (fun bs _ => bs = [1; 0; 0; 0; 2; 0; 0; 0] \/ bs = [3; 0; 0; 0; 4; 0; 0; 0]) (mk_st clock_vdev (1%nat : clock)).
Proof.
  eapply wp_mono.
  - apply (virtio_get_config_snapshot (E := clock) le clock_cfg clock_gen 8) with (budget := clock_budget);
      try (done || lia); try (intros; apply clock_moment; lia).
    + intros e. unfold clock_cfg. by case_match.
    + intros e. unfold clock_cfg. case_match; repeat constructor; done.
    + intros e. unfold clock_gen. by case_match.
    + intros e1 e2 e3 H1 H2. unfold clock_gen, clock_cfg. destruct (Nat.ltb_spec e1 3), (Nat.ltb_spec e2 3), (Nat.ltb_spec e3 3); done || lia.
    + exact clock_step.
    + intros e. unfold wp. cbn. exists e. split_and!; [lia|lia|done].
  - intros bs s' (_ & e & _ & _ & ->). unfold slice, clock_cfg. destruct (e <? 3)%nat; [by left|by right].
Defined.

Example config_read_again :
  (fun r => match r with Ok (bs, s) => (bs, env s) | Fault _ => ([], O) end) (virtio_get_config 1 0 8 (mk_st clock_vdev (1%nat : clock)))
  = ([3; 0; 0; 0; 4; 0; 0; 0], 8%nat).
Proof. vm_compute. reflexivity. Qed.
