(* ===== verification/Wdf.v ===== *)
(** * The WDF helper library

    VirtIO/WDF: the resources, interrupts and DMA memory of a WDF driver (PCI.c, Dma.c,
    MemPortIO.c), the callbacks it gives to the PCI transport (Callbacks.c), and the
    functions the drivers call (VirtIOWdf.c).

    The kernel and the framework are the class [WdfKernel] over a state [K], which holds
    the device too.  A collection is the list of its items; the spin lock around it is the
    sequence of the steps.  Handles and addresses are numbers, 0 is NULL.  The contents
    of memory are those of the ring models. *)

From Stdlib Require Import ZArith Lia.
From stdpp Require Import base list numbers option gmap.
From S2P Require Import Prelude.
From S2P Require Import Effects.
From S2P Require Import Virtio.
From S2P Require Import SplitRing.
From S2P Require Import Pci.

Definition STATUS_OBJECT_NAME_EXISTS : Z := 0x40000000.
Definition STATUS_DEVICE_CONFIGURATION_ERROR : Z := 0xC0000182.
Definition PASSIVE_LEVEL : Z := 0.
Definition APC_LEVEL : Z := 1.
Definition MAXUSHORT : Z := 0xffff.
Definition CM_RESOURCE_PORT_IO : Z := 1.
Definition CM_RESOURCE_INTERRUPT_LATCHED : Z := 1.
Definition CM_RESOURCE_INTERRUPT_MESSAGE : Z := 2.
Definition sizeof_PCI_COMMON_HEADER : Z := 64.
Definition PCI_BaseAddresses : Z := 16.
Definition sizeof_VIRTIO_WDF_BAR : Z := 48.

(** ** The kernel and the framework

    Accesses take the width in bytes.  Functions with a status and a result give both;
    [WdfCollectionAdd] is the status of adding an item to the one collection there is. *)
Class WdfKernel (K : Type) := {
  READ_REGISTER : Z -> Z -> M K Z;
  READ_PORT : Z -> Z -> M K Z;
  WRITE_REGISTER : Z -> Z -> Z -> M K unit;
  WRITE_PORT : Z -> Z -> Z -> M K unit;
  KeGetCurrentIrql : M K Z;
  KeDelayExecutionThread : Z -> M K Z;
  KeStallExecutionProcessor : Z -> M K unit;
  ExAllocatePoolUninitialized : Z -> M K Z;
  ExFreePoolWithTag : Z -> M K unit;
  MmMapIoSpaceEx : Z -> Z -> M K Z;
  MmUnmapIoSpace : Z -> Z -> M K unit;
  MmGetPhysicalAddress : Z -> M K Z;
  GetBusData : Z -> Z -> M K (list Z);
  WdfCommonBufferCreate : Z -> M K (Z * Z);
  WdfCommonBufferGetAlignedVirtualAddress : Z -> M K Z;
  WdfCommonBufferGetAlignedLogicalAddress : Z -> M K Z;
  WdfObjectDelete : Z -> M K unit;
  WdfCollectionAdd : M K Z;
  WdfObjectAllocateContext : Z -> M K Z;
  WdfInterruptGetInfo : Z -> M K (bool * Z);
  WdfFdoQueryForInterface : M K Z;
  WdfDmaEnablerCreate : M K Z;
  WdfCollectionCreate : M K Z;
  WdfSpinLockCreate : M K Z;
  WdfDeviceQueryPropertyEx : M K (Z * Z) }.

(** ** Data *)

Inductive resource_type := CmResourceTypePort | CmResourceTypeMemory | CmResourceTypeInterrupt | CmResourceTypeOther.
Record CM_PARTIAL_RESOURCE_DESCRIPTOR := mk_res { Type_ : resource_type; Flags : Z; Start : Z; Length : Z }.

(** A BAR on the list of the driver, with the address of its own memory. *)
Record VIRTIO_WDF_BAR := mk_bar { pBar : Z; iBar : Z; BasePA : Z; uLength : Z; pBase : Z; bPortSpace : bool }.
#[export] Instance eta_bar : Eta VIRTIO_WDF_BAR := fun b => mk_bar (pBar b) (iBar b) (BasePA b) (uLength b) (pBase b) (bPortSpace b).

Record VIRTIO_WDF_INTERRUPT_CONTEXT := mk_intr { uMessageNumber : Z; bMessageNumberSet : bool }.

Record VIRTIO_WDF_MEMORY_BLOCK_CONTEXT := mk_block {
  pVirtualAddress : Z; PhysicalAddress : Z; WdfBuffer : Z; block_Length : Z; groupTag : Z; bToBeDeleted : bool }.
#[export] Instance eta_block : Eta VIRTIO_WDF_MEMORY_BLOCK_CONTEXT := fun b =>
  mk_block (pVirtualAddress b) (PhysicalAddress b) (WdfBuffer b) (block_Length b) (groupTag b) (bToBeDeleted b).

(** [struct virtio_wdf_driver] without [VIODevice], which is the transport's. *)
Record VIRTIO_WDF_DRIVER := mk_driver {
  MemoryTag : Z; uFeatures : Z; PCIBars : list VIRTIO_WDF_BAR; nInterrupts : Z; nMSIInterrupts : Z;
  ConfigInterrupt : Z; pQueueParams : option (list Z); MemoryBlockCollection : list VIRTIO_WDF_MEMORY_BLOCK_CONTEXT }.
#[export] Instance eta_driver : Eta VIRTIO_WDF_DRIVER := fun d =>
  mk_driver (MemoryTag d) (uFeatures d) (PCIBars d) (nInterrupts d) (nMSIInterrupts d) (ConfigInterrupt d)
    (pQueueParams d) (MemoryBlockCollection d).

(** The driver, the contexts of its interrupt objects, and the rest. *)
Record wdf (K : Type) := mk_wdf { drv : VIRTIO_WDF_DRIVER; intr : gmap Z VIRTIO_WDF_INTERRUPT_CONTEXT; kern : K }.
Arguments mk_wdf {K} _ _ _.
Arguments drv {K} _.
Arguments intr {K} _.
Arguments kern {K} _.
#[export] Instance eta_wdf K : Eta (wdf K) := fun w => mk_wdf (drv w) (intr w) (kern w).

Section helpers.
Context {K : Type} `{WdfKernel K}.
#[local] Abbreviation W := (M (wdf K)).

Definition krn {A} (m : M K A) : W A :=
  fun w => match m (kern w) with Ok (a, k) => Ok (a, w <| kern := k |>) | Fault f => Fault f end.
Definition drvg {A} (f : VIRTIO_WDF_DRIVER -> A) : W A := gets (fun w => f (drv w)).
Definition set_drv (f : VIRTIO_WDF_DRIVER -> VIRTIO_WDF_DRIVER) : W unit := modify (fun w => w <| drv := f (drv w) |>).

(** ** MemPortIO.c

    The lower 64k are ports. *)
Definition PORT_MASK : Z := 0xFFFF.
Definition READ_PORT_OR_REGISTER (address width : Z) : M K Z :=
  if truth (Z.land address (Z.lnot PORT_MASK)) then READ_REGISTER width address else READ_PORT width address.
Definition WRITE_PORT_OR_REGISTER (address width value : Z) : M K unit :=
  if truth (Z.land address (Z.lnot PORT_MASK)) then WRITE_REGISTER width address value else WRITE_PORT width address value.

Definition ReadVirtIODeviceByte (a : Z) : W Z := krn (READ_PORT_OR_REGISTER a 1).
Definition ReadVirtIODeviceWord (a : Z) : W Z := krn (READ_PORT_OR_REGISTER a 2).
Definition ReadVirtIODeviceRegister (a : Z) : W Z := krn (READ_PORT_OR_REGISTER a 4).
Definition WriteVirtIODeviceByte (a v : Z) : W unit := krn (WRITE_PORT_OR_REGISTER a 1 v).
Definition WriteVirtIODeviceWord (a v : Z) : W unit := krn (WRITE_PORT_OR_REGISTER a 2 v).
Definition WriteVirtIODeviceRegister (a v : Z) : W unit := krn (WRITE_PORT_OR_REGISTER a 4 v).

(** ** Dma.c: common buffers *)

Definition AllocateCommonBuffer (size tag : Z) : W Z :=
  irql ← krn KeGetCurrentIrql;
  if irql >? PASSIVE_LEVEL then mret 0
  else
    '(status, commonBuffer) ← krn (WdfCommonBufferCreate size);
    if negb (NT_SUCCESS status) then mret 0
    else
      status ← krn WdfCollectionAdd;
      if negb (NT_SUCCESS status) then krn (WdfObjectDelete commonBuffer);; mret 0
      else
        pa ← krn (WdfCommonBufferGetAlignedLogicalAddress commonBuffer);
        va ← krn (WdfCommonBufferGetAlignedVirtualAddress commonBuffer);
        set_drv (fun d => d <| MemoryBlockCollection :=
          MemoryBlockCollection d ++ [mk_block va pa commonBuffer size tag false] |>);;
        mret va.
Definition VirtIOWdfDeviceAllocDmaMemory (size tag : Z) : W Z := AllocateCommonBuffer size tag.

(** The loop of [FindCommonBuffer]: the first block that holds the address. *)
Definition block_hit (va : Z) (bRemoval : bool) (b : VIRTIO_WDF_MEMORY_BLOCK_CONTEXT) : bool :=
  negb (bToBeDeleted b && negb bRemoval) &&
  (pVirtualAddress b <=? va) && (va <? u64 (pVirtualAddress b + block_Length b)).
Fixpoint find_block (va : Z) (bRemoval : bool) (l : list VIRTIO_WDF_MEMORY_BLOCK_CONTEXT) : option (nat * VIRTIO_WDF_MEMORY_BLOCK_CONTEXT) :=
  match l with
  | [] => None
  | b :: l => if block_hit va bRemoval b then Some (O, b) else option_map (fun r => (S r.1, r.2)) (find_block va bRemoval l)
  end.

(** [WdfCollectionRemove] *)
Fixpoint remove_item (obj : Z) (l : list VIRTIO_WDF_MEMORY_BLOCK_CONTEXT) : list VIRTIO_WDF_MEMORY_BLOCK_CONTEXT :=
  match l with [] => [] | b :: l => if WdfBuffer b =? obj then l else b :: remove_item obj l end.
Definition WdfCollectionRemove (obj : Z) : W unit :=
  set_drv (fun d => d <| MemoryBlockCollection := remove_item obj (MemoryBlockCollection d) |>).

(** The result is the physical address of the block and the offset in it. *)
Definition FindCommonBuffer (va : Z) (bRemoval : bool) : W (option (Z * Z)) :=
  l ← drvg MemoryBlockCollection;
  match find_block va bRemoval l with
  | None => mret None
  | Some (i, b) =>
      let offset := va - pVirtualAddress b in
      if bRemoval then
        if offset =? 0 then
          set_drv (fun d => d <| MemoryBlockCollection := <[i := b <| bToBeDeleted := true |>]> (MemoryBlockCollection d) |>);;
          irql ← krn KeGetCurrentIrql;
          (if irql =? PASSIVE_LEVEL then WdfCollectionRemove (WdfBuffer b);; krn (WdfObjectDelete (WdfBuffer b)) else mret tt);;
          mret (Some (PhysicalAddress b, offset))
        else mret None
      else mret (Some (PhysicalAddress b, offset))
  end.

Definition GetPhysicalAddress (va : Z) : W Z :=
  r ← FindCommonBuffer va false;
  mret (match r with Some (pa, offset) => pa + offset | None => 0 end).
Definition VirtIOWdfDeviceGetPhysicalAddress (va : Z) : W Z := GetPhysicalAddress va.
Definition VirtIOWdfDeviceFreeDmaMemory (va : Z) : W unit := _ ← FindCommonBuffer va true; mret tt.

Definition FindCommonBufferByTag (tag : Z) : W bool :=
  l ← drvg MemoryBlockCollection;
  match List.find (fun b => groupTag b =? tag) l with
  | None => mret false
  | Some b => WdfCollectionRemove (WdfBuffer b);; krn (WdfObjectDelete (WdfBuffer b));; mret true
  end.
Fixpoint free_by_tag (fuel : nat) (tag : Z) : W unit :=
  b ← FindCommonBufferByTag tag;
  if (b : bool) then match fuel with O => throw OutOfFuel | S fuel => free_by_tag fuel tag end else mret tt.
(** [DeviceContext] tells whether the virtio device has been initialised. *)
Definition VirtIOWdfDeviceFreeDmaMemoryByTag (fuel : nat) (DeviceContext : bool) (tag : Z) : W unit :=
  irql ← krn KeGetCurrentIrql;
  if irql >? PASSIVE_LEVEL then mret tt
  else if tag =? 0 then mret tt
  else if negb DeviceContext then mret tt
  else free_by_tag fuel tag.

(** ** PCI.c *)

Fixpoint free_bars (l : list VIRTIO_WDF_BAR) : W unit :=
  match l with
  | [] => mret tt
  | b :: l =>
      set_drv (fun d => d <| PCIBars := l |>);;
      (if negb (pBase b =? 0) && negb (bPortSpace b) then krn (MmUnmapIoSpace (pBase b) (uLength b)) else mret tt);;
      krn (ExFreePoolWithTag (pBar b));;
      free_bars l
  end.
Definition PCIFreeBars : W unit := l ← drvg PCIBars; free_bars l.

(** The loop of [PCIAllocBars] over the resources; the header gives its type and its base
    address registers. *)
Fixpoint alloc_bars (HeaderType : Z) (bars : list Z) (l : list (option CM_PARTIAL_RESOURCE_DESCRIPTOR)) (nI nM : Z) : W Z :=
  match l with
  | [] => set_drv (fun d => d <| nInterrupts := nI |> <| nMSIInterrupts := nM |>);; mret STATUS_SUCCESS
  | None :: l => alloc_bars HeaderType bars l nI nM
  | Some r :: l =>
      match Type_ r with
      | CmResourceTypePort | CmResourceTypeMemory =>
          p ← krn (ExAllocatePoolUninitialized sizeof_VIRTIO_WDF_BAR);
          if p =? 0 then PCIFreeBars;; mret STATUS_INSUFFICIENT_RESOURCES
          else
            i ← pure (virtio_get_bar_index HeaderType bars (Start r));
            if i <? 0 then PCIFreeBars;; mret STATUS_NOT_FOUND
            else
              let port := truth (Z.land (Flags r) CM_RESOURCE_PORT_IO) in
              set_drv (fun d => d <| PCIBars := mk_bar p i (Start r) (Length r) (if port then Start r else 0) port :: PCIBars d |>);;
              alloc_bars HeaderType bars l nI nM
      | CmResourceTypeInterrupt =>
          let msi := truth (Z.land (Flags r) (Z.lor CM_RESOURCE_INTERRUPT_LATCHED CM_RESOURCE_INTERRUPT_MESSAGE)) in
          alloc_bars HeaderType bars l (u32 (nI + 1)) (if msi then u32 (nM + 1) else nM)
      | CmResourceTypeOther => alloc_bars HeaderType bars l nI nM
      end
  end.
Definition header_bars (header : list Z) : list Z :=
  (fun i => le_join (take 4 (drop (Z.to_nat (PCI_BaseAddresses + 4 * i)) header))) <$> seqZ 0 PCI_TYPE0_ADDRESSES.
Definition PCIAllocBars (resources : list (option CM_PARTIAL_RESOURCE_DESCRIPTOR)) : W Z :=
  header ← krn (GetBusData 0 sizeof_PCI_COMMON_HEADER);
  if negb (zlen header =? sizeof_PCI_COMMON_HEADER) then mret STATUS_DEVICE_CONFIGURATION_ERROR
  else
    t ← pure (zget header PCI_HeaderType);
    alloc_bars t (header_bars header) resources 0 0.

Definition PCIReadConfig (where_ length : Z) : W (option (list Z)) :=
  bs ← krn (GetBusData where_ length);
  mret (if zlen bs =? length then Some bs else None).

Definition PCIRegisterInterrupt (Interrupt : Z) : W Z :=
  if Interrupt =? 0 then mret STATUS_SUCCESS
  else
    m ← gets intr;
    status ← (match m !! Interrupt with
              | Some _ => mret STATUS_OBJECT_NAME_EXISTS
              | None =>
                  st ← krn (WdfObjectAllocateContext Interrupt);
                  (if NT_SUCCESS st then modify (fun w => w <| intr := <[Interrupt := mk_intr 0 false]> (intr w) |>) else mret tt);;
                  mret st
              end);
    mret (if status =? STATUS_OBJECT_NAME_EXISTS then STATUS_SUCCESS else status).

Definition PCIGetMSIInterruptVector (Interrupt : Z) : W Z :=
  if Interrupt =? 0 then mret VIRTIO_MSI_NO_VECTOR
  else
    m ← gets intr;
    match m !! Interrupt with
    | Some (mk_intr n true) => mret n
    | c =>
        '(MessageSignaled, MessageNumber) ← krn (WdfInterruptGetInfo Interrupt);
        n ← (if (MessageSignaled : bool) then assert (MessageNumber <? MAXUSHORT);; mret (u16 MessageNumber) else mret VIRTIO_MSI_NO_VECTOR);
        (match c with Some _ => modify (fun w => w <| intr := <[Interrupt := mk_intr n true]> (intr w) |>) | None => mret tt end);;
        mret n
    end.
End helpers.

(** ** Callbacks.c *)

(** The place of a BAR on the list. *)
Definition find_bar (bar : Z) (l : list VIRTIO_WDF_BAR) : option (nat * VIRTIO_WDF_BAR) := list_find (fun b => iBar b = bar) l.

Section callbacks.
Context {K : Type} `{WdfKernel K}.
#[local] Abbreviation W := (M (wdf K)).

Definition wdf_read_config (where_ length : Z) : W (option Z) :=
  bs ← PCIReadConfig where_ length; mret (option_map le_join bs).

Definition wdf_get_resource_len (bar : Z) : W Z :=
  l ← drvg PCIBars; mret (match find_bar bar l with Some (_, b) => uLength b | None => 0 end).

(** Memory is mapped when it is first asked for. *)
Definition map_bar (i : nat) (b : VIRTIO_WDF_BAR) : W Z :=
  if pBase b =? 0 then
    assert (negb (bPortSpace b));;
    a ← krn (MmMapIoSpaceEx (BasePA b) (uLength b));
    set_drv (fun d => d <| PCIBars := <[i := b <| pBase := a |>]> (PCIBars d) |>);;
    mret a
  else mret (pBase b).
Definition wdf_map_address_range (bar offset maxlen : Z) : W Z :=
  l ← drvg PCIBars;
  match find_bar bar l with
  | None => mret 0
  | Some (i, b) =>
      base ← map_bar i b;
      mret (if negb (base =? 0) && (offset <? uLength b) then u64 (base + offset) else 0)
  end.

Definition wdf_get_msix_vector (queue : Z) : W Z :=
  if queue >=? 0 then
    params ← drvg pQueueParams;
    match params with
    | None => mret VIRTIO_MSI_NO_VECTOR
    | Some l => i ← pure (zget l queue); PCIGetMSIInterruptVector i
    end
  else
    i ← drvg ConfigInterrupt; PCIGetMSIInterruptVector i.

Definition wdf_sleep (msecs : Z) : W unit :=
  irql ← krn KeGetCurrentIrql;
  ok ← (if irql <=? APC_LEVEL then st ← krn (KeDelayExecutionThread msecs); mret (NT_SUCCESS st) else mret false);
  if (ok : bool) then mret tt else krn (KeStallExecutionProcessor (u32 (1000 * msecs))).

Definition wdf_alloc_block (size : Z) : W Z := krn (ExAllocatePoolUninitialized size).
Definition wdf_free_block (addr : Z) : W unit := krn (ExFreePoolWithTag addr).

#[export] Instance VirtIOWdfSystemOps : VirtIOSystemOps (wdf K) := {
  vdev_read_byte := ReadVirtIODeviceByte;
  vdev_read_word := ReadVirtIODeviceWord;
  vdev_read_dword := ReadVirtIODeviceRegister;
  vdev_write_byte := WriteVirtIODeviceByte;
  vdev_write_word := WriteVirtIODeviceWord;
  vdev_write_dword := WriteVirtIODeviceRegister;
  mem_alloc_contiguous_pages size := VirtIOWdfDeviceAllocDmaMemory size 0;
  mem_free_contiguous_pages := VirtIOWdfDeviceFreeDmaMemory;
  mem_get_physical_address := VirtIOWdfDeviceGetPhysicalAddress;
  mem_alloc_nonpaged_block := wdf_alloc_block;
  mem_free_nonpaged_block := wdf_free_block;
  pci_read_config_byte where_ := wdf_read_config where_ 1;
  pci_read_config_word where_ := wdf_read_config where_ 2;
  pci_read_config_dword where_ := wdf_read_config where_ 4;
  pci_get_resource_len := wdf_get_resource_len;
  pci_map_address_range := wdf_map_address_range;
  vdev_get_msix_vector := wdf_get_msix_vector;
  vdev_sleep := wdf_sleep }.

(** ** VirtIOWdf.c

    The virtio device of the driver is [vdev] of the transport's state. *)
#[local] Abbreviation IO := (M (vst (wdf K))).

Definition VirtIOWdfGetDeviceFeatures : IO Z := virtio_get_features.

(** ACKNOWLEDGE and DRIVER, if the device does not have them. *)
Definition follow_status (status : Z) : IO unit :=
  (if truth (Z.land status VIRTIO_CONFIG_S_ACKNOWLEDGE) then mret tt else virtio_add_status VIRTIO_CONFIG_S_ACKNOWLEDGE);;
  (if truth (Z.land status VIRTIO_CONFIG_S_DRIVER) then mret tt else virtio_add_status VIRTIO_CONFIG_S_DRIVER).

(** The features every driver takes when the device has them. *)
Definition take_feature (uDeviceFeatures bit uFeatures : Z) : Z :=
  if virtio_is_feature_enabled uDeviceFeatures bit then virtio_feature_enable uFeatures bit else uFeatures.
Definition common_features (uDeviceFeatures : Z) : Z :=
  take_feature uDeviceFeatures VIRTIO_F_ACCESS_PLATFORM
    (take_feature uDeviceFeatures VIRTIO_F_ANY_LAYOUT (take_feature uDeviceFeatures VIRTIO_F_VERSION_1 0)).

Definition VirtIOWdfSetDriverFeatures (uPrivateFeaturesOn uFeaturesOff : Z) : IO Z :=
  uDeviceFeatures ← VirtIOWdfGetDeviceFeatures;
  if negb (Z.land uDeviceFeatures uPrivateFeaturesOn =? uPrivateFeaturesOn) then mret STATUS_INVALID_PARAMETER
  else
    let f := Z.land (Z.lor (common_features uDeviceFeatures) uPrivateFeaturesOn) (Z.lnot uFeaturesOff) in
    status ← virtio_get_status;
    follow_status status;;
    sys (set_drv (fun d => d <| uFeatures := f |>));;
    virtio_set_features f.

Definition VirtIOWdfFinalizeFeatures : IO Z :=
  f ← sys (drvg uFeatures);
  status ← (if f =? 0 then VirtIOWdfSetDriverFeatures 0 0 else mret STATUS_SUCCESS);
  if negb (NT_SUCCESS status) then mret status
  else
    dev_status ← virtio_get_status;
    follow_status dev_status;;
    if truth (Z.land dev_status VIRTIO_CONFIG_S_FEATURES_OK) then mret status
    else f ← sys (drvg uFeatures); virtio_set_features f.

Fixpoint register_interrupts (l : list Z) : IO Z :=
  match l with
  | [] => mret STATUS_SUCCESS
  | i :: l =>
      status ← sys (PCIRegisterInterrupt i);
      if negb (NT_SUCCESS status) then mret status else register_interrupts l
  end.
(** [QueueParams] are the interrupts of the [nQueues] queues. *)
Definition VirtIOWdfInitQueues (nQueues : Z) (QueueParams : list Z) : IO (Z * list virtqueue) :=
  status ← VirtIOWdfFinalizeFeatures;
  if negb (NT_SUCCESS status) then mret (status, [])
  else
    status ← register_interrupts (take (Z.to_nat nQueues) QueueParams);
    if negb (NT_SUCCESS status) then mret (status, [])
    else
      sys (set_drv (fun d => d <| pQueueParams := Some QueueParams |>));;
      r ← virtio_find_queues nQueues;
      sys (set_drv (fun d => d <| pQueueParams := None |>));;
      mret r.

(** The loop of [VirtIOWdfInitQueuesCB]; [QueueParam] is the caller's function, and the
    virtqueues passed to the caller come out in order. *)
Fixpoint init_queues_cb (n : nat) (i : Z) (QueueParam : Z -> Z) : IO (Z * list virtqueue) :=
  match n with
  | O => mret (STATUS_SUCCESS, [])
  | S n =>
      '(status, vq) ← virtio_find_queue i;
      match vq with
      | None => mret (status, [])
      | Some vq =>
          if negb (NT_SUCCESS status) then mret (status, [])
          else
            status ← sys (PCIRegisterInterrupt (QueueParam i));
            if negb (NT_SUCCESS status) then mret (status, [])
            else
              msix_vec ← sys (PCIGetMSIInterruptVector (QueueParam i));
              ok ← (if negb (msix_vec =? VIRTIO_MSI_NO_VECTOR) then v ← virtio_set_queue_vector vq msix_vec; mret (v =? msix_vec) else mret true);
              if negb ok then mret (STATUS_DEVICE_BUSY, [])
              else
                '(status, vqs) ← init_queues_cb n (i + 1) QueueParam;
                mret (status, vq :: vqs)
      end
  end.
Definition VirtIOWdfInitQueuesCB (nQueues : Z) (QueueParam : Z -> Z) : IO (Z * list virtqueue) :=
  status ← VirtIOWdfFinalizeFeatures;
  if negb (NT_SUCCESS status) then mret (status, [])
  else
    status ← virtio_reserve_queue_memory nQueues;
    if negb (NT_SUCCESS status) then mret (status, [])
    else
      ci ← sys (drvg ConfigInterrupt);
      msix_vec ← sys (PCIGetMSIInterruptVector ci);
      ok ← (if negb (msix_vec =? VIRTIO_MSI_NO_VECTOR) then v ← virtio_set_config_vector msix_vec; mret (v =? msix_vec) else mret true);
      if negb ok then mret (STATUS_DEVICE_BUSY, [])
      else
        '(status, vqs) ← init_queues_cb (Z.to_nat nQueues) 0 QueueParam;
        (if NT_SUCCESS status then mret tt else virtio_delete_queues);;
        mret (status, vqs).

Definition VirtIOWdfSetDriverOK : IO unit := virtio_device_ready.
Definition VirtIOWdfSetDriverFailed : IO unit := virtio_add_status VIRTIO_CONFIG_S_FAILED.
Definition VirtIOWdfShutdown : IO Z := virtio_device_shutdown;; sys PCIFreeBars;; mret STATUS_SUCCESS.
Definition VirtIOWdfDestroyQueues (fuel : nat) : IO Z := virtio_device_reset fuel;; virtio_delete_queues;; mret STATUS_SUCCESS.
Definition VirtIOWdfDeviceGet (fuel : nat) (offset len : Z) : IO (list Z) := virtio_get_config fuel offset len.
Definition VirtIOWdfDeviceSet (offset : Z) (buf : list Z) (len : Z) : IO unit := virtio_set_config offset buf len.
Definition VirtIOWdfGetISRStatus : IO Z := virtio_read_isr_status.

(** With DMA remapping and a device that does not translate addresses, the logical address
    of a buffer has to be its physical address. *)
Definition VirtIOWdfDeviceCheckIOMMUActive : IO Z :=
  deviceFeatures ← VirtIOWdfGetDeviceFeatures;
  let bHasFeature := virtio_is_feature_enabled deviceFeatures VIRTIO_F_ACCESS_PLATFORM in
  '(status, value) ← sys (krn WdfDeviceQueryPropertyEx);
  if negb (NT_SUCCESS status) || negb (value =? 2) || bHasFeature then mret STATUS_SUCCESS
  else
    '(status, commonBuffer) ← sys (krn (WdfCommonBufferCreate PAGE_SIZE));
    if negb (NT_SUCCESS status) then mret status
    else
      pa ← sys (krn (WdfCommonBufferGetAlignedLogicalAddress commonBuffer));
      va ← sys (krn (WdfCommonBufferGetAlignedVirtualAddress commonBuffer));
      plain ← sys (krn (MmGetPhysicalAddress va));
      sys (krn (WdfObjectDelete commonBuffer));;
      mret (if plain =? pa then STATUS_SUCCESS else STATUS_DEVICE_CONFIGURATION_ERROR).

Definition zero_driver (MemoryTag : Z) : VIRTIO_WDF_DRIVER := mk_driver MemoryTag 0 [] 0 0 0 None [].

(** The DMA enabler, the collection of memory blocks and its lock. *)
Definition create_dma : W Z :=
  status ← krn WdfDmaEnablerCreate;
  status ← (if NT_SUCCESS status then krn WdfCollectionCreate else mret status);
  (if NT_SUCCESS status then krn WdfSpinLockCreate else mret status).

Definition VirtIOWdfInitialize (fuel : nat) (ResourcesTranslated : list (option CM_PARTIAL_RESOURCE_DESCRIPTOR))
    (ConfigInterrupt_ MemoryTag : Z) : IO Z :=
  set_dev (fun _ => zero_device);;
  sys (set_drv (fun _ => zero_driver MemoryTag));;
  status ← sys (krn WdfFdoQueryForInterface);
  if negb (NT_SUCCESS status) then mret status
  else
    status ← sys (PCIRegisterInterrupt ConfigInterrupt_);
    if negb (NT_SUCCESS status) then mret status
    else
      status ← sys (PCIAllocBars ResourcesTranslated);
      if negb (NT_SUCCESS status) then mret status
      else
        status ← sys create_dma;
        if negb (NT_SUCCESS status) then mret status
        else
          nMSI ← sys (drvg nMSIInterrupts);
          status ← virtio_device_initialize fuel (nMSI >? 0);
          status ← (if NT_SUCCESS status then VirtIOWdfDeviceCheckIOMMUActive else mret status);
          (if NT_SUCCESS status then mret tt else sys PCIFreeBars);;
          sys (set_drv (fun d => d <| ConfigInterrupt := ConfigInterrupt_ |>));;
          mret status.
End callbacks.
