(* ===== verification/WdfSpec.v ===== *)
(** * The WDF helper library keeps what the transport expects

    What the library expects of the kernel and the framework, [KernelLaws], and the proof
    that its callbacks satisfy [SystemLaws]: the DMA memory of a driver is exactly its
    collection of common buffers, and each is found and freed by its address.  The last part
    has the queries and the freeing by tag on these buffers. *)

From Stdlib Require Import ZArith Lia.
From stdpp Require Import base list numbers option gmap.
From S2P Require Import Prelude.
From S2P Require Import Virtio.
From S2P Require Import SplitRing.
From S2P Require Import Effects.
From S2P Require Import Pci.
From S2P Require Import PciSpec.
From S2P Require Import Wdf.

(** ** The kernel

    What the kernel has given out: pool memory, common buffers with their addresses and
    lengths, and mapped I/O space.  [running] says that the driver runs at PASSIVE_LEVEL,
    and [starved] that no item can be added to a collection.  [bar_pa i pa] is the physical
    address of memory BAR [i] of the device, and at the virtual address [q] with [window i q]
    BAR [i] is accessed. *)
Class KernelLedger (K : Type) := {
  kpool : K -> list Z;
  kbufs : K -> gmap Z (Z * Z);
  kmaps : K -> list Z;
  running : K -> Prop;
  starved : K -> Prop;
  bar_pa : Z -> Z -> Prop;
  window : Z -> Z -> Prop }.

Definition unchanged {K} `{KernelLedger K} (k k' : K) : Prop :=
  running k' /\ kpool k' ≡ₚ kpool k /\ kbufs k' = kbufs k /\ kmaps k' ≡ₚ kmaps k.
Definition kkeeps {K A} `{KernelLedger K} (R : A -> Prop) (m : M K A) : Prop :=
  forall k, running k -> wp m (fun a k' => R a /\ unchanged k k') k.
#[local] Abbreviation any := (fun _ => True).

Definition disjoint_buf (b c : Z * Z) : Prop := b.1 + b.2 <= c.1 \/ c.1 + c.2 <= b.1.
(** A common buffer of [n] bytes at [va] beside those in [bufs]. *)
Definition fresh_buf (bufs : gmap Z (Z * Z)) (h va n : Z) : Prop :=
  bufs !! h = None /\ 0 < n /\ 0 < va /\ va + n < 18446744073709551616 /\
  forall h' b, bufs !! h' = Some b -> disjoint_buf (va, n) b.

Class KernelLaws (K : Type) `{WdfKernel K, KernelLedger K} : Prop := {
  k_read_register w a : kkeeps any (READ_REGISTER w a);
  k_read_port w a : kkeeps any (READ_PORT w a);
  k_write_register w a v : kkeeps any (WRITE_REGISTER w a v);
  k_write_port w a v : kkeeps any (WRITE_PORT w a v);
  k_irql k : running k -> KeGetCurrentIrql k = Ok (PASSIVE_LEVEL, k);
  k_delay n : kkeeps any (KeDelayExecutionThread n);
  k_stall n : kkeeps any (KeStallExecutionProcessor n);
  k_pool_alloc n k : running k -> wp (ExAllocatePoolUninitialized n) (fun q k' =>
    running k' /\ kbufs k' = kbufs k /\ kmaps k' ≡ₚ kmaps k /\
    (q = 0 /\ kpool k' ≡ₚ kpool k \/ q <> 0 /\ kpool k' ≡ₚ q :: kpool k)) k;
  k_pool_free q l k : running k -> kpool k ≡ₚ q :: l -> wp (ExFreePoolWithTag q) (fun _ k' =>
    running k' /\ kbufs k' = kbufs k /\ kmaps k' ≡ₚ kmaps k /\ kpool k' ≡ₚ l) k;
  k_map pa n k : running k -> wp (MmMapIoSpaceEx pa n) (fun q k' =>
    running k' /\ kbufs k' = kbufs k /\ kpool k' ≡ₚ kpool k /\
    (q = 0 /\ kmaps k' ≡ₚ kmaps k \/ q <> 0 /\ kmaps k' ≡ₚ q :: kmaps k /\ forall i, bar_pa (K := K) i pa -> window (K := K) i q)) k;
  k_unmap q n l k : running k -> kmaps k ≡ₚ q :: l -> wp (MmUnmapIoSpace q n) (fun _ k' =>
    running k' /\ kbufs k' = kbufs k /\ kpool k' ≡ₚ kpool k /\ kmaps k' ≡ₚ l) k;
  k_physical a : kkeeps any (MmGetPhysicalAddress a);
  (** The configuration space of the device can be read. *)
  k_bus_data a n : 0 <= n -> kkeeps (fun bs => zlen bs = n) (GetBusData a n);
  k_create n k : running k -> wp (WdfCommonBufferCreate n) (fun r k' =>
    running k' /\ kpool k' ≡ₚ kpool k /\ kmaps k' ≡ₚ kmaps k /\ (starved k -> starved k') /\
    if NT_SUCCESS r.1 then exists va, fresh_buf (kbufs k) r.2 va n /\ kbufs k' = <[r.2 := (va, n)]> (kbufs k)
    else kbufs k' = kbufs k) k;
  k_create_again n k : running k -> wp (WdfCommonBufferCreate n) (fun r k' => NT_SUCCESS r.1 = false ->
    wp (WdfCommonBufferCreate n) (fun r' _ => NT_SUCCESS r'.1 = false) k') k;
  k_va h va n k : running k -> kbufs k !! h = Some (va, n) ->
    wp (WdfCommonBufferGetAlignedVirtualAddress h) (fun a k' => a = va /\ unchanged k k') k;
  k_pa h va n k : running k -> kbufs k !! h = Some (va, n) ->
    wp (WdfCommonBufferGetAlignedLogicalAddress h) (fun _ k' => unchanged k k') k;
  k_delete h k : running k -> is_Some (kbufs k !! h) -> wp (WdfObjectDelete h) (fun _ k' =>
    running k' /\ kpool k' ≡ₚ kpool k /\ kmaps k' ≡ₚ kmaps k /\ (starved k -> starved k') /\ kbufs k' = delete h (kbufs k)) k;
  k_add k : running k -> wp WdfCollectionAdd (fun st k' => unchanged k k' /\ (NT_SUCCESS st = false -> starved k')) k;
  k_starved k : running k -> starved k -> wp WdfCollectionAdd (fun st k' => unchanged k k' /\ NT_SUCCESS st = false) k;
  k_context i : kkeeps any (WdfObjectAllocateContext i);
  k_interrupt i : kkeeps (fun r => 0 <= r.2 < MAXUSHORT) (WdfInterruptGetInfo i);
  k_interface : kkeeps any WdfFdoQueryForInterface;
  k_enabler : kkeeps any WdfDmaEnablerCreate;
  k_collection : kkeeps any WdfCollectionCreate;
  k_spinlock : kkeeps any WdfSpinLockCreate;
  k_property : kkeeps any WdfDeviceQueryPropertyEx }.

(** ** Blocks *)

Section blocks.
Implicit Types (l : list VIRTIO_WDF_MEMORY_BLOCK_CONTEXT) (b : VIRTIO_WDF_MEMORY_BLOCK_CONTEXT).

(** The collection: its handles are distinct, every block is live, lies in the address
    space and is disjoint from the others. *)
Record blocks_ok l : Prop := {
  bo_handles : NoDup (WdfBuffer <$> l);
  bo_live b : b ∈ l -> bToBeDeleted b = false /\ 0 < pVirtualAddress b /\ 0 < block_Length b /\
    pVirtualAddress b + block_Length b < 18446744073709551616;
  bo_disjoint b c : b ∈ l -> c ∈ l -> WdfBuffer b <> WdfBuffer c ->
    disjoint_buf (pVirtualAddress b, block_Length b) (pVirtualAddress c, block_Length c) }.

Lemma handles_inj l b c : NoDup (WdfBuffer <$> l) -> b ∈ l -> c ∈ l -> WdfBuffer b = WdfBuffer c -> b = c.
Proof.
  induction l as [|x l IH]; intros Hn Hb Hc E; [by apply elem_of_nil in Hb|]. cbn in Hn. apply NoDup_cons in Hn as [Hx Hn].
  apply elem_of_cons in Hb as [->|Hb], Hc as [->|Hc]; [done|..|by apply IH].
  - destruct Hx. rewrite E. by apply list_elem_of_fmap_2.
  - destruct Hx. rewrite <- E. by apply list_elem_of_fmap_2.
Qed.

(** An address in a block hits this block and no other. *)
Lemma block_hit_ok l b va r : blocks_ok l -> b ∈ l -> block_hit va r b = true <-> pVirtualAddress b <= va < pVirtualAddress b + block_Length b.
Proof.
  intros Hl Hb. destruct (bo_live l Hl b Hb) as (D & P & L & M). unfold block_hit. rewrite D, u64_small by lia. cbn.
  rewrite andb_true_iff, Z.leb_le, Z.ltb_lt. done.
Qed.

Lemma find_block_ok l b va r : blocks_ok l -> b ∈ l -> pVirtualAddress b <= va < pVirtualAddress b + block_Length b ->
  exists i, find_block va r l = Some (i, b) /\ l !! i = Some b.
Proof.
  intros Hl Hb Hva.
  assert (forall c, c ∈ l -> block_hit va r c = true -> c = b) as U.
  { intros c Hc Hit. apply (block_hit_ok l) in Hit; [|done|done]. destruct (decide (WdfBuffer c = WdfBuffer b)) as [E|Hne].
    - by eapply handles_inj; [apply Hl|..].
    - destruct (bo_disjoint l Hl c b Hc Hb Hne) as [?|?]; cbn in *; lia. }
  assert (block_hit va r b = true) as Hit by (by apply (block_hit_ok l)).
  clear Hl Hva. induction l as [|x l IH]; [by apply elem_of_nil in Hb|]. cbn [find_block].
  destruct (block_hit va r x) eqn:Hx.
  - exists O. assert (x = b) as -> by (apply U; [left|done]). done.
  - apply elem_of_cons in Hb as [->|Hb]; [congruence|]. destruct IH as (i & -> & Hi); [done|intros c ?; apply U; by right|].
    by exists (S i).
Qed.

Lemma find_block_none l va r : blocks_ok l ->
  (forall b, b ∈ l -> ~ pVirtualAddress b <= va < pVirtualAddress b + block_Length b) -> find_block va r l = None.
Proof.
  intros Hl Hno. assert (forall b, b ∈ l -> block_hit va r b = false) as Hf.
  { intros b Hb. apply not_true_is_false. intros Hit%(block_hit_ok l); [by apply (Hno b)|done|done]. }
  clear Hl Hno. induction l as [|x l IH]; [done|]. cbn. rewrite Hf by left. rewrite IH; [done|]. intros b Hb. apply Hf. by right.
Qed.

Lemma blocks_ok_app l b : blocks_ok l -> WdfBuffer b ∉ WdfBuffer <$> l -> bToBeDeleted b = false ->
  0 < pVirtualAddress b -> 0 < block_Length b -> pVirtualAddress b + block_Length b < 18446744073709551616 ->
  (forall c, c ∈ l -> disjoint_buf (pVirtualAddress b, block_Length b) (pVirtualAddress c, block_Length c)) -> blocks_ok (l ++ [b]).
Proof.
  intros [Hn Hl Hd] Hh D P L Mx Hdis. split.
  - rewrite fmap_app. apply NoDup_app. split_and!; [done| |apply NoDup_singleton]. intros h Hin. cbn. by intros ->%list_elem_of_singleton.
  - intros c [Hc| ->%list_elem_of_singleton]%elem_of_app; [by apply Hl|done].
  - intros c c' [Hc| ->%list_elem_of_singleton]%elem_of_app [Hc'| ->%list_elem_of_singleton]%elem_of_app Hne; [by apply Hd| | |done].
    + destruct (Hdis c Hc) as [?|?]; [by right|by left].
    + by apply Hdis.
Qed.

(** Marking a block and taking it out of the collection. *)
Lemma remove_item_ok l i b : NoDup (WdfBuffer <$> l) -> l !! i = Some b ->
  exists l', remove_item (WdfBuffer b) (<[i := b <| bToBeDeleted := true |>]> l) = l' /\ l ≡ₚ b :: l'.
Proof.
  revert i. induction l as [|x l IH]; intros i Hn Hi; [done|]. cbn in Hn. apply NoDup_cons in Hn as [Hx Hn].
  destruct i as [|i]; cbn in Hi.
  - injection Hi as ->. cbn. change (WdfBuffer (b <| bToBeDeleted := true |>)) with (WdfBuffer b). rewrite Z.eqb_refl. by exists l.
  - change (<[S i := ?y]> (x :: l)) with (x :: <[i := y]> l). cbn [remove_item].
    destruct (Z.eqb_spec (WdfBuffer x) (WdfBuffer b)) as [E|Hne].
    + destruct Hx. rewrite E. apply list_elem_of_fmap_2. by eapply list_elem_of_lookup_2.
    + destruct (IH i Hn Hi) as (l' & -> & Hp). exists (x :: l'). split; [done|]. rewrite Hp. apply perm_swap.
Qed.

Lemma blocks_ok_perm l l' b : blocks_ok l -> l ≡ₚ b :: l' -> blocks_ok l'.
Proof.
  intros [Hn Hl Hd] Hp. assert (forall c, c ∈ l' -> c ∈ l) as Sub by (intros c Hc; rewrite Hp; by right). split.
  - rewrite Hp in Hn. cbn in Hn. by apply NoDup_cons in Hn as [_ ?].
  - auto.
  - auto.
Qed.
End blocks.

(** ** The callbacks of the library *)

Lemma wp_krn {K A} (m : M K A) (Φ : A -> wdf K -> Prop) w :
  wp m (fun a k => Φ a (w <| kern := k |>)) (kern w) -> wp (krn m) Φ w.
Proof. unfold wp, krn. by destruct (m (kern w)) as [[a k]|]. Qed.

(** The mapped memory of a list of BARs. *)
Definition mapped (l : list VIRTIO_WDF_BAR) : list Z :=
  pBase <$> filter (fun b => negb (pBase b =? 0) && negb (bPortSpace b) = true) l.

Section callbacks.
Context {K : Type} `{KernelLaws K}.
(** The common buffers and the mappings of others, the memory of the BARs, the number of
    queues whose interrupts are known, and a bound of the features. *)
Context (F : gmap Z (Z * Z)) (M0 : list Z) (bars0 : list Z) (nvec fmax : Z).
Implicit Types (w : wdf K) (k : K).

Record drv_ok w : Prop := {
  do_running : running (kern w);
  do_blocks : blocks_ok (MemoryBlockCollection (drv w));
  do_live b : b ∈ MemoryBlockCollection (drv w) ->
    kbufs (kern w) !! WdfBuffer b = Some (pVirtualAddress b, block_Length b) /\ F !! WdfBuffer b = None;
  do_other h c : kbufs (kern w) !! h = Some c -> h ∈ WdfBuffer <$> MemoryBlockCollection (drv w) \/ F !! h = Some c;
  do_foreign h c : F !! h = Some c -> kbufs (kern w) !! h = Some c;
  do_bars : pBar <$> PCIBars (drv w) = bars0;
  do_port b : b ∈ PCIBars (drv w) -> bPortSpace b = true -> pBase b <> 0;
  do_pa b : b ∈ PCIBars (drv w) -> bPortSpace b = false -> bar_pa (K := K) (iBar b) (BasePA b);
  do_window b : b ∈ PCIBars (drv w) -> pBase b <> 0 -> window (K := K) (iBar b) (pBase b);
  do_maps : kmaps (kern w) ≡ₚ mapped (PCIBars (drv w)) ++ M0;
  do_params l : pQueueParams (drv w) = Some l -> nvec <= zlen l;
  do_features : 0 <= uFeatures (drv w) < fmax }.

Definition wdf_ledger : Ledger (wdf K) := {|
  pages w := pVirtualAddress <$> MemoryBlockCollection (drv w);
  blocks w := kpool (kern w);
  sane := drv_ok;
  vectors := nvec |}.
#[local] Existing Instance wdf_ledger.

Lemma drv_ok_kern w k : drv_ok w -> unchanged (kern w) k -> drv_ok (w <| kern := k |>).
Proof. intros [] (R & _ & B & Mp). split; cbn; rewrite ?B; try done. by rewrite Mp. Qed.

Lemma keeps_krn {A} (R : A -> Prop) m : kkeeps R m -> keeps R (krn m).
Proof.
  intros Hk w Hw. apply wp_krn. eapply wp_mono; [apply Hk, Hw|]. intros a k' (Ha & U). pose proof U as (_ & P & _).
  split_and!; [done|by apply drv_ok_kern|done|done].
Qed.

Lemma keeps_bind {A C} (Q : A -> Prop) (R : C -> Prop) (m : M (wdf K) A) (f : A -> M (wdf K) C) :
  keeps Q m -> (forall a, Q a -> keeps R (f a)) -> keeps R (m ≫= f).
Proof.
  intros Hm Hf w Hw. apply wp_bind. eapply wp_mono; [by apply Hm|]. intros a w1 (Ha & S1 & P1 & B1).
  eapply wp_mono; [by apply (Hf a Ha)|]. intros c w2 (Hc & S2 & P2 & B2). split_and!; [done|done|by rewrite P2|by rewrite B2].
Qed.

Lemma keeps_ret {A} (R : A -> Prop) (a : A) : R a -> keeps R (mret a : M (wdf K) A).
Proof. intros Ha w Hw. apply wp_ret. by split_and!. Qed.

Lemma keeps_gets {A} (R : A -> Prop) (f : wdf K -> A) : (forall w, drv_ok w -> R (f w)) -> keeps R (gets f : M (wdf K) A).
Proof. intros Hf w Hw. apply wp_gets. split_and!; [by apply Hf|done|done|done]. Qed.

Lemma keeps_modify_intr (f : wdf K -> gmap Z VIRTIO_WDF_INTERRUPT_CONTEXT) : keeps (fun _ => True) (modify (fun w => w <| intr := f w |>)).
Proof. intros w []. apply wp_modify. by split_and!. Qed.

Lemma keeps_assert b : b = true -> keeps (fun _ => True) (assert b : M (wdf K) unit).
Proof. intros -> w Hw. by apply wp_assert. Qed.

Lemma keeps_mono {A} (Q R : A -> Prop) (m : M (wdf K) A) : keeps Q m -> (forall a, Q a -> R a) -> keeps R m.
Proof. intros Hm HQ w Hw. eapply wp_mono; [by apply Hm|]. intros a w' (? & ? & ? & ?). split_and!; auto. Qed.

Lemma keeps_irql : keeps (fun q => q = PASSIVE_LEVEL) (krn KeGetCurrentIrql : M (wdf K) Z).
Proof. intros w Hw. apply wp_krn. unfold wp. rewrite k_irql by apply Hw. cbn. by destruct w. Qed.

(** *** Registers and interrupts *)

Lemma keeps_read a n : keeps (fun _ => True) (krn (READ_PORT_OR_REGISTER a n) : M (wdf K) Z).
Proof. apply keeps_krn. unfold READ_PORT_OR_REGISTER. case_match; [apply k_read_register|apply k_read_port]. Qed.
Lemma keeps_write a n v : keeps (fun _ => True) (krn (WRITE_PORT_OR_REGISTER a n v) : M (wdf K) unit).
Proof. apply keeps_krn. unfold WRITE_PORT_OR_REGISTER. case_match; [apply k_write_register|apply k_write_port]. Qed.

Lemma keeps_read_config a n : 0 <= n -> keeps is_Some (wdf_read_config a n : M (wdf K) (option Z)).
Proof.
  intros Hn. eapply (keeps_bind is_Some).
  - eapply keeps_bind; [by apply keeps_krn, k_bus_data|]. intros bs <-. apply keeps_ret. by rewrite Z.eqb_refl.
  - intros ? [bs ->]. by apply keeps_ret.
Qed.

Lemma keeps_vector i : keeps (fun _ => True) (PCIGetMSIInterruptVector i : M (wdf K) Z).
Proof.
  unfold PCIGetMSIInterruptVector. destruct (i =? 0); [by apply keeps_ret|].
  eapply (keeps_bind (fun _ => True)); [by apply keeps_gets|]. intros m _.
  assert (forall c : option VIRTIO_WDF_INTERRUPT_CONTEXT, keeps (fun _ => True) ('(MessageSignaled, MessageNumber) ← krn (WdfInterruptGetInfo i);
     n ← (if (MessageSignaled : bool) then assert (MessageNumber <? MAXUSHORT);; mret (u16 MessageNumber) else mret VIRTIO_MSI_NO_VECTOR);
     (match c with Some _ => modify (fun w => w <| intr := <[i := mk_intr n true]> (intr w) |>) | None => mret tt end);; mret n : M (wdf K) Z)) as Ask.
  { intros c. eapply keeps_bind; [apply keeps_krn, k_interrupt|]. intros [sig num] Hnum. cbn in Hnum.
    eapply (keeps_bind (fun _ => True)).
    - destruct sig; [|by apply keeps_ret]. eapply keeps_bind; [apply keeps_assert, Z.ltb_lt, Hnum|]. intros. by apply keeps_ret.
    - intros n _. eapply (keeps_bind (fun _ => True)); [|by intros; apply keeps_ret]. destruct c as [c|]; [|by apply keeps_ret].
      apply (keeps_modify_intr (fun w => <[i := mk_intr n true]> (intr w))). }
  destruct (m !! i) as [[n []]|]; [by apply keeps_ret|exact (Ask (Some (mk_intr n false)))|exact (Ask None)].
Qed.

Lemma keeps_msix q : q < nvec -> keeps (fun _ => True) (wdf_get_msix_vector q : M (wdf K) Z).
Proof.
  intros Hq. unfold wdf_get_msix_vector. destruct (Z.geb_spec q 0).
  - eapply (keeps_bind (fun p => forall l, p = Some l -> nvec <= zlen l)).
    + apply keeps_gets. intros w Hw. apply Hw.
    + intros [l|] Hl; [|by apply keeps_ret]. specialize (Hl l eq_refl). destruct (zlookup_in_range l q) as [i Hi]; [lia|].
      eapply (keeps_bind (fun _ => True)); [|intros; apply keeps_vector]. intros w Hw. eapply wp_pure; [by apply zget_ok|]. by split_and!.
  - eapply (keeps_bind (fun _ => True)); [by apply keeps_gets|]. intros. apply keeps_vector.
Qed.

Lemma keeps_sleep_wdf n : keeps (fun _ => True) (wdf_sleep n : M (wdf K) unit).
Proof.
  eapply keeps_bind; [apply keeps_irql|]. intros ? ->. cbn [Z.leb]. eapply (keeps_bind (fun _ => True)).
  - eapply keeps_bind; [apply keeps_krn, k_delay|]. intros. by apply keeps_ret.
  - intros [] _; [by apply keeps_ret|]. apply keeps_krn, k_stall.
Qed.

(** *** BARs *)

Lemma find_bar_lookup bar l i b : find_bar bar l = Some (i, b) -> l !! i = Some b.
Proof. unfold find_bar. by intros (? & _)%list_find_Some. Qed.

(** The effect of mapping one BAR of the list. *)
Lemma mapped_insert l i b a : l !! i = Some b -> pBase b = 0 -> bPortSpace b = false ->
  mapped (<[i := b <| pBase := a |>]> l) ≡ₚ (if a =? 0 then [] else [a]) ++ mapped l.
Proof.
  intros Hi Hb Hp. rewrite insert_take_drop by (by eapply lookup_lt_Some). rewrite <- (take_drop_middle l i b Hi) at 3.
  unfold mapped. rewrite !filter_app, !fmap_app, !filter_cons. change (pBase (b <| pBase := a |>)) with a.
  change (bPortSpace (b <| pBase := a |>)) with (bPortSpace b). rewrite Hb, Hp. cbn -[filter]. rewrite andb_true_r.
  destruct (a =? 0); cbn -[filter]; [done|]. change (pBase (b <| pBase := a |>)) with a. by rewrite Permutation_middle.
Qed.

Lemma fmap_pBar_insert (l : list VIRTIO_WDF_BAR) i b a : l !! i = Some b -> pBar <$> <[i := b <| pBase := a |>]> l = pBar <$> l.
Proof.
  intros Hi. rewrite list_fmap_insert. change (pBar (b <| pBase := a |>)) with (pBar b). apply list_insert_id. by rewrite list_lookup_fmap, Hi.
Qed.

Lemma keeps_map_bar w i b : drv_ok w -> PCIBars (drv w) !! i = Some b ->
  wp (map_bar i b) (fun a w' => (a <> 0 -> window (K := K) (iBar b) a) /\ drv_ok w' /\ pages w' ≡ₚ pages w /\ blocks w' ≡ₚ blocks w) w.
Proof.
  intros Hw Hi. unfold map_bar. destruct (Z.eqb_spec (pBase b) 0) as [Eb|Hne].
  2: { wp_step. split_and!; [|done..]. intros _. apply (do_window w Hw b); [by eapply list_elem_of_lookup_2|done]. }
  assert (bPortSpace b = false) as Hp.
  { apply not_true_is_false. intros Hp. by apply (do_port w Hw b); [eapply list_elem_of_lookup_2|..]. }
  wp_step. eapply wp_assert; [by rewrite Hp|]. wp_step. apply wp_krn. eapply wp_mono; [apply k_map, Hw|].
  intros a k' (R & B & P & Hm). cbv beta. unfold set_drv. wp_steps. destruct Hw.
  assert (kmaps k' ≡ₚ (if a =? 0 then [] else [a]) ++ kmaps (kern w) /\ (a <> 0 -> forall i, bar_pa (K := K) i (BasePA b) -> window (K := K) i a)) as [Hm' Hwin].
  { destruct Hm as [(-> & ->)|(Ha & -> & Hwin)]; [done|]. by rewrite (proj2 (Z.eqb_neq a 0)). }
  assert (forall (Q : VIRTIO_WDF_BAR -> Prop), (forall c, c ∈ PCIBars (drv w) -> Q c) -> Q (b <| pBase := a |>) -> forall c, c ∈ <[i := b <| pBase := a |>]> (PCIBars (drv w)) -> Q c) as Upd.
  { intros Q HQ Hb c Hc. apply list_elem_of_lookup in Hc as [j Hj]. destruct (decide (i = j)) as [<-|Hne].
    - rewrite list_lookup_insert_eq in Hj by (by eapply lookup_lt_Some). by injection Hj as <-.
    - rewrite list_lookup_insert_ne in Hj by done. apply HQ. by eapply list_elem_of_lookup_2. }
  assert (bar_pa (K := K) (iBar b) (BasePA b)) as Hpa by (apply do_pa0; [by eapply list_elem_of_lookup_2|done]). split_and!; [by intros Ha; apply Hwin| |done|done].
  split; cbn; rewrite ?B; try done.
  - by rewrite fmap_pBar_insert.
  - apply (Upd (fun c => bPortSpace c = true -> pBase c <> 0)); [done|]. cbn. congruence.
  - by apply (Upd (fun c => bPortSpace c = false -> bar_pa (K := K) (iBar c) (BasePA c))).
  - apply (Upd (fun c => pBase c <> 0 -> window (K := K) (iBar c) (pBase c))); [done|]. cbn. intros Ha. by apply Hwin.
  - fold (mapped (<[i := b <| pBase := a |>]> (PCIBars (drv w)))). rewrite Hm', (mapped_insert _ i b a), do_maps0 by done. by rewrite (assoc_L (++)).
Qed.

(** The address of a range lies in a window of the BAR. *)
Lemma keeps_map_wdf bar off n :
  keeps (fun a => a <> 0 -> exists q, window (K := K) bar q /\ a = u64 (q + off)) (wdf_map_address_range bar off n : M (wdf K) Z).
Proof.
  intros w Hw. unfold wdf_map_address_range, drvg. wp_steps. destruct (find_bar bar (PCIBars (drv w))) as [[i b]|] eqn:Eb.
  - assert (iBar b = bar) as <- by (unfold find_bar in Eb; by apply list_find_Some in Eb as (_ & ? & _)).
    wp_step. eapply wp_mono; [apply keeps_map_bar; [done|by eapply find_bar_lookup]|]. intros a w' (Ha & ? & ? & ?). cbv beta. wp_step. split_and!; [|done..].
    destruct (Z.eqb_spec a 0); cbn [negb andb]; [done|]. case_match; [|done]. intros _. exists a. auto.
  - wp_step. by split_and!.
Qed.

(** *** Common buffers *)

Lemma alloc_buffer_ok n tag w : drv_ok w -> wp (AllocateCommonBuffer n tag) (fun q w' => drv_ok w' /\ blocks w' ≡ₚ blocks w /\
  PCIBars (drv w') = PCIBars (drv w) /\
  (q = 0 /\ MemoryBlockCollection (drv w') = MemoryBlockCollection (drv w) \/
   q <> 0 /\ exists pa h, MemoryBlockCollection (drv w') = MemoryBlockCollection (drv w) ++ [mk_block q pa h n tag false])) w.
Proof.
  intros Hw. unfold AllocateCommonBuffer. wp_step. apply wp_krn. unfold wp at 1. rewrite k_irql by apply Hw.
  replace (w <| kern := kern w |>) with w by (by destruct w). change (PASSIVE_LEVEL >? PASSIVE_LEVEL) with false. cbv iota.
  wp_step. apply wp_krn. eapply wp_mono; [apply k_create, Hw|]. intros [st h] k1 (R1 & P1 & M1 & _ & Hc). cbn in Hc |- *.
  destruct (NT_SUCCESS st); cbn [negb].
  2: { wp_step. split_and!; [|done|done|by left]. apply drv_ok_kern; [done|by split_and!]. }
  destruct Hc as (va & (Hh & Hn & Hva & Hmax & Hdis) & B1). wp_step. apply wp_krn. eapply wp_mono; [by apply k_add|].
  intros st2 k2 ((R2 & P2 & B2 & M2) & _). cbn. cbn in R2, P2, B2, M2. rewrite B1 in B2. destruct (NT_SUCCESS st2); cbn [negb].
  2: { wp_step. apply wp_krn. eapply wp_mono; [apply k_delete; [done|]|]. { cbn. rewrite B2. by rewrite lookup_insert_eq. }
       intros [] k3 (R3 & P3 & M3 & _ & B3). cbn in R3, P3, M3, B3. cbv beta. wp_step. split_and!; [|by rewrite P3, P2, P1|done|by left].
       change (drv_ok (w <| kern := k3 |>)). apply drv_ok_kern; [done|]. split_and!; [done|by rewrite P3, P2, P1| |by rewrite M3, M2, M1].
       by rewrite B3, B2, delete_insert_id. }
  wp_step. apply wp_krn. eapply wp_mono; [eapply (k_pa h va n); [done|]|]. { cbn. by rewrite B2, lookup_insert_eq. }
  intros pa k3 (R3 & P3 & B3 & M3). cbn in R3, P3, M3, B3. cbv beta. wp_step. apply wp_krn. eapply wp_mono; [eapply (k_va h va n); [done|]|].
  { cbn. by rewrite B3, B2, lookup_insert_eq. }
  intros ? k4 (-> & R4 & P4 & B4 & M4). cbn in R4, P4, M4, B4. cbv beta. unfold set_drv. wp_steps.
  assert (kbufs k4 = <[h := (va, n)]> (kbufs (kern w))) as B by (by rewrite B4, B3, B2).
  split_and!; [|cbn; by rewrite P4, P3, P2, P1|done|right; split; [lia|by exists pa, h]].
  assert (F !! h = None) as HF.
  { destruct (F !! h) as [c|] eqn:EF; [|done]. apply (do_foreign w Hw) in EF. by rewrite Hh in EF. }
  assert (h ∉ WdfBuffer <$> MemoryBlockCollection (drv w)) as Hnew.
  { intros (b & -> & Hb)%list_elem_of_fmap. destruct (do_live w Hw b Hb) as [E _]. by rewrite Hh in E. }
  destruct Hw. split; cbn; rewrite ?B; try done.
  - apply blocks_ok_app; try done. intros c Hc. apply (Hdis (WdfBuffer c)). by apply do_live0.
  - intros b [Hb| ->%list_elem_of_singleton]%elem_of_app; [|by rewrite lookup_insert_eq].
    rewrite lookup_insert_ne; [by apply do_live0|]. intros ->. apply Hnew. by apply list_elem_of_fmap_2.
  - intros h' c. rewrite fmap_app, elem_of_app. destruct (decide (h = h')) as [<-|Hne].
    + intros _. left. right. by left.
    + rewrite lookup_insert_ne by done. intros Hc. destruct (do_other0 h' c Hc); auto.
  - intros h' c Hc. rewrite lookup_insert_ne; [by apply do_foreign0|]. intros <-. by rewrite HF in Hc.
  - by rewrite M4, M3, M2, M1.
Qed.

(** A block leaves the collection and its buffer is deleted. *)
Lemma drv_ok_delete b l w w' : drv_ok w -> MemoryBlockCollection (drv w) ≡ₚ b :: l -> drv w' = (drv w) <| MemoryBlockCollection := l |> ->
  running (kern w') -> kmaps (kern w') ≡ₚ kmaps (kern w) -> kbufs (kern w') = delete (WdfBuffer b) (kbufs (kern w)) -> drv_ok w'.
Proof.
  intros Hw Hp Ed R Mp B. assert (b ∈ MemoryBlockCollection (drv w)) as Hb by (rewrite Hp; left). destruct (do_live w Hw b Hb) as [Hk HF].
  assert (forall c, c ∈ l -> c ∈ MemoryBlockCollection (drv w)) as Sub by (intros c Hc; rewrite Hp; by right).
  assert (forall c, c ∈ l -> WdfBuffer c <> WdfBuffer b) as Ne.
  { intros c Hc E. pose proof (bo_handles _ (do_blocks w Hw)) as Hn. rewrite Hp in Hn. cbn in Hn. apply NoDup_cons in Hn as [Hn _].
    apply Hn. rewrite <- E. by apply list_elem_of_fmap_2. }
  destruct Hw. split; rewrite ?Ed, ?B; cbn; try done.
  - by eapply blocks_ok_perm.
  - intros c Hc. rewrite lookup_delete_ne by (symmetry; by apply Ne). by apply do_live0, Sub.
  - intros h c. destruct (decide (WdfBuffer b = h)) as [<-|Hne]; [by rewrite lookup_delete_eq|]. rewrite lookup_delete_ne by done.
    intros Hc. destruct (do_other0 h c Hc) as [Hin|?]; [|by right]. left. rewrite Hp in Hin. cbn in Hin. by apply elem_of_cons in Hin as [->|?].
  - intros h c Hc. rewrite lookup_delete_ne; [by apply do_foreign0|]. intros <-. by rewrite HF in Hc.
  - by rewrite Mp.
Qed.

Lemma free_buffer_ok b l w : drv_ok w -> MemoryBlockCollection (drv w) ≡ₚ b :: l ->
  wp (FindCommonBuffer (pVirtualAddress b) true) (fun r w' => r = Some (PhysicalAddress b, 0) /\ drv_ok w' /\ blocks w' ≡ₚ blocks w /\
    PCIBars (drv w') = PCIBars (drv w) /\ MemoryBlockCollection (drv w') ≡ₚ l) w.
Proof.
  intros Hw Hp. assert (b ∈ MemoryBlockCollection (drv w)) as Hb by (rewrite Hp; left).
  pose proof (bo_live _ (do_blocks w Hw) b Hb) as (_ & _ & Hl & _). destruct (do_live w Hw b Hb) as [Hk _].
  destruct (find_block_ok _ b (pVirtualAddress b) true (do_blocks w Hw) Hb) as (i & Ef & Hi); [lia|].
  unfold FindCommonBuffer, drvg. wp_steps. rewrite Ef, Z.sub_diag. change (0 =? 0) with true. cbv iota.
  unfold WdfCollectionRemove, set_drv. wp_step. apply wp_modify. wp_step. apply wp_krn. cbn [kern]. unfold wp at 1.
  change (kern (w <| drv := ?d |>)) with (kern w). rewrite k_irql by apply Hw. change (PASSIVE_LEVEL =? PASSIVE_LEVEL) with true. cbv iota.
  destruct (remove_item_ok _ i b (bo_handles _ (do_blocks w Hw)) Hi) as (l' & El & Hp').
  do 2 wp_step. apply wp_modify. apply wp_krn. eapply wp_mono; [apply k_delete; [apply Hw|cbn; by rewrite Hk]|].
  intros [] k' (R & P & Mp & _ & B). cbn in R, P, Mp, B. wp_step.
  assert (l' ≡ₚ l) as Hll by (apply (Permutation_cons_inv (a := b)); by rewrite <- Hp').
  split_and!; [done| |done|done|cbn; by rewrite El]. eapply (drv_ok_delete b l'); [exact Hw|done|cbn; by rewrite El|done|done|done].
Qed.

(** An address inside a block is translated to the same place of its physical block, every
    other address to 0. *)
Lemma physical_ok va w : drv_ok w -> exists r, FindCommonBuffer va false w = Ok (r, w) /\
  (forall b, b ∈ MemoryBlockCollection (drv w) -> pVirtualAddress b <= va < pVirtualAddress b + block_Length b ->
    r = Some (PhysicalAddress b, va - pVirtualAddress b)) /\
  ((forall b, b ∈ MemoryBlockCollection (drv w) -> ~ pVirtualAddress b <= va < pVirtualAddress b + block_Length b) -> r = None).
Proof.
  intros Hw. unfold FindCommonBuffer, drvg, gets, mbind, M_bind. pose proof (do_blocks w Hw) as Hb.
  destruct (find_block va false (MemoryBlockCollection (drv w))) as [[i b]|] eqn:Ef.
  - exists (Some (PhysicalAddress b, va - pVirtualAddress b)). split_and!; [done|..].
    + intros c Hc Hva. destruct (find_block_ok _ c va false Hb Hc Hva) as (j & Ec & _). rewrite Ef in Ec. by injection Ec as -> ->.
    + intros Hno. by rewrite find_block_none in Ef.
  - exists None. split_and!; [done| |done]. intros c Hc Hva. destruct (find_block_ok _ c va false Hb Hc Hva) as (j & Ec & _). by rewrite Ef in Ec.
Qed.

Lemma keeps_physical_wdf a : keeps (fun _ => True) (VirtIOWdfDeviceGetPhysicalAddress a : M (wdf K) Z).
Proof.
  intros w Hw. destruct (physical_ok a w Hw) as (r & E & _). unfold VirtIOWdfDeviceGetPhysicalAddress, GetPhysicalAddress. wp_step.
  unfold wp at 1. rewrite E. wp_step. by split_and!.
Qed.

(** A buffer that was refused is refused again. *)
Lemma alloc_buffer_again n tag w : drv_ok w -> wp (AllocateCommonBuffer n tag) (fun q w' => q = 0 ->
  wp (AllocateCommonBuffer n tag) (fun q' _ => q' = 0) w') w.
Proof.
  intros Hw.
  assert (forall k, running k -> (wp (WdfCommonBufferCreate n) (fun r _ => NT_SUCCESS r.1 = false) k \/ starved k) ->
    wp (AllocateCommonBuffer n tag) (fun q' _ => q' = 0) (w <| kern := k |>)) as Again.
  { intros k R Hk. unfold AllocateCommonBuffer. wp_step. apply wp_krn. change (kern (w <| kern := k |>)) with k. unfold wp at 1.
    rewrite k_irql by done. change (PASSIVE_LEVEL >? PASSIVE_LEVEL) with false. cbv iota. wp_step. apply wp_krn.
    change (kern (w <| kern := k |> <| kern := k |>)) with k. destruct Hk as [Hk|Hs].
    - eapply wp_mono; [exact Hk|]. intros [st h] k' E. cbn in E |- *. rewrite E. cbn [negb]. by wp_step.
    - eapply wp_mono; [by apply k_create|]. intros [st h] k1 (R1 & _ & _ & S1 & Hc). cbn [fst snd] in Hc |- *. cbv beta iota.
      destruct (NT_SUCCESS st); cbn [negb]; [|by wp_step]. destruct Hc as (va & _ & B1).
      wp_step. apply wp_krn. eapply wp_mono; [apply k_starved; [done|by apply S1]|]. intros st2 k2 ((R2 & _ & B2 & _) & E2). cbv beta. rewrite E2.
      cbn [negb]. wp_step. apply wp_krn. eapply wp_mono; [apply k_delete; [done|]|].
      { cbn. cbn in B2. by rewrite B2, B1, lookup_insert_eq. }
      intros [] k3 _. by wp_step. }
  unfold AllocateCommonBuffer at 1. wp_step. apply wp_krn. unfold wp at 1. rewrite k_irql by apply Hw.
  replace (w <| kern := kern w |>) with w by (by destruct w). change (PASSIVE_LEVEL >? PASSIVE_LEVEL) with false. cbv iota.
  wp_step. apply wp_krn. eapply wp_mono; [exact (wp_and _ _ _ _ (k_create n _ (do_running w Hw)) (k_create_again n _ (do_running w Hw)))|].
  intros [st h] k1 ((R1 & _ & _ & _ & Hc) & Ha). cbn [fst snd] in Hc, Ha |- *. cbv beta iota. destruct (NT_SUCCESS st); cbn [negb].
  2: { wp_step. intros _. apply Again; [done|]. left. by apply Ha. }
  destruct Hc as (va & (_ & _ & Hva & _) & B1). wp_step. apply wp_krn. eapply wp_mono; [by apply k_add|].
  intros st2 k2 ((R2 & _ & B2 & _) & Hs). cbn in B2. cbv beta. destruct (NT_SUCCESS st2); cbn [negb].
  - wp_step. apply wp_krn. eapply wp_mono; [eapply (k_pa h va n); [done|]|]. { cbn. by rewrite B2, B1, lookup_insert_eq. }
    intros pa k3 (R3 & _ & B3 & _). cbn in B3. cbv beta. wp_step. apply wp_krn. eapply wp_mono; [eapply (k_va h va n); [done|]|].
    { cbn. by rewrite B3, B2, B1, lookup_insert_eq. }
    intros ? k4 (-> & _). cbv beta. unfold set_drv. wp_steps. lia.
  - wp_step. apply wp_krn. eapply wp_mono; [apply k_delete; [done|]|]. { cbn. by rewrite B2, B1, lookup_insert_eq. }
    intros [] k3 (R3 & _ & _ & S3 & _). cbv beta. wp_step. intros _.
    change (w <| kern := k1 |> <| kern := k2 |> <| kern := k3 |>) with (w <| kern := k3 |>). apply Again; [done|]. right. apply S3, Hs. done.
Qed.

Lemma pages_perm w q l : pages w ≡ₚ q :: l -> exists b lb, MemoryBlockCollection (drv w) ≡ₚ b :: lb /\ pVirtualAddress b = q /\ pVirtualAddress <$> lb ≡ₚ l.
Proof.
  cbn. intros Hp. assert (q ∈ pVirtualAddress <$> MemoryBlockCollection (drv w)) as (b & -> & Hb)%list_elem_of_fmap by (rewrite Hp; left).
  apply elem_of_Permutation in Hb as [lb Hlb]. exists b, lb. split_and!; [done|done|]. rewrite Hlb in Hp. cbn in Hp. by apply Permutation_cons_inv in Hp.
Qed.

(** The callbacks of the library are what the transport expects. *)
#[export] Instance wdf_system_laws : SystemLaws (wdf K).
Proof.
  split; intros; try apply keeps_read; try apply keeps_write; try (by apply keeps_read_config).
  - apply keeps_physical_wdf.
  - eapply keeps_bind; [by apply (keeps_gets (fun _ => True))|]. intros. by apply keeps_ret.
  - eapply keeps_mono; [apply keeps_map_wdf|done].
  - by apply keeps_msix.
  - apply keeps_sleep_wdf.
  - eapply wp_mono; [by apply (alloc_buffer_ok n 0)|]. intros q w' (S & B & _ & Hq). split_and!; [done|done|]. cbn.
    destruct Hq as [(-> & ->)|(Hq & pa & h & ->)]; [by left|]. right. split; [done|]. rewrite fmap_app. cbn. by rewrite Permutation_app_comm.
  - destruct (pages_perm e q l) as (b & lb & Hb & <- & Hl); [done|]. cbn. unfold VirtIOWdfDeviceFreeDmaMemory. wp_step.
    eapply wp_mono; [by apply (free_buffer_ok b lb)|]. intros r w' (_ & S & B & _ & C). cbv beta. wp_step. split_and!; [done|done|]. cbn. by rewrite C.
  - cbn. apply wp_krn. eapply wp_mono; [by apply k_pool_alloc, do_running|]. intros q k (R & B & Mp & Hq).
    split_and!; [|done|done]. destruct H2. split; cbn; rewrite ?B; try done. by rewrite Mp.
  - cbn. apply wp_krn. eapply wp_mono; [apply k_pool_free; [by apply do_running|done]|]. intros [] k (R & B & Mp & Hq).
    split_and!; [|done|done]. destruct H2. split; cbn; rewrite ?B; try done. by rewrite Mp.
  - cbn [mem_alloc_contiguous_pages VirtIOWdfSystemOps]. exact (alloc_buffer_again n 0 e ltac:(assumption)).
Qed.
End callbacks.

(** ** The WDF helper library: DMA memory

    What a driver gets from the memory functions of Dma.c: addresses are translated inside
    their block, and freeing by tag ends and frees exactly the blocks with that tag. *)

Section dma.
Context {K : Type} `{KernelLaws K}.
Context (F : gmap Z (Z * Z)) (M0 bars : list Z) (nvec fmax : Z).
Implicit Types (w : wdf K) (l : list VIRTIO_WDF_MEMORY_BLOCK_CONTEXT) (b : VIRTIO_WDF_MEMORY_BLOCK_CONTEXT).
#[local] Abbreviation Drv := (drv_ok F M0 bars nvec fmax).

(** [WdfCollectionRemove] takes out one item. *)
Lemma remove_item_perm b l : NoDup (WdfBuffer <$> l) -> b ∈ l -> l ≡ₚ b :: remove_item (WdfBuffer b) l.
Proof.
  induction l as [|x l IH]; intros Hn Hb; [by apply elem_of_nil in Hb|]. cbn in Hn. apply NoDup_cons in Hn as [Hx Hn]. cbn [remove_item].
  destruct (Z.eqb_spec (WdfBuffer x) (WdfBuffer b)) as [E|Hne].
  - apply elem_of_cons in Hb as [->|Hb]; [done|]. destruct Hx. rewrite E. by apply list_elem_of_fmap_2.
  - apply elem_of_cons in Hb as [->|Hb]; [done|]. rewrite (IH Hn Hb) at 1. apply perm_swap.
Qed.

Definition untagged (tag : Z) l : list VIRTIO_WDF_MEMORY_BLOCK_CONTEXT := filter (fun b => groupTag b <> tag) l.

Lemma filter_keeps tag l : (forall b, b ∈ l -> groupTag b <> tag) -> untagged tag l = l.
Proof.
  induction l as [|b l IH]; intros Hl; [done|]. unfold untagged. rewrite filter_cons_True by (apply Hl; left).
  f_equal. apply IH. intros c Hc. apply Hl. by right.
Qed.

Lemma find_by_tag_ok tag w : Drv w -> wp (FindCommonBufferByTag tag) (fun r w' => Drv w' /\ kpool (kern w') ≡ₚ kpool (kern w) /\
  if r : bool then exists b, groupTag b = tag /\ MemoryBlockCollection (drv w) ≡ₚ b :: MemoryBlockCollection (drv w')
  else w' = w /\ untagged tag (MemoryBlockCollection (drv w)) = MemoryBlockCollection (drv w)) w.
Proof.
  intros Hw. unfold FindCommonBufferByTag, drvg. wp_steps. destruct (List.find _ _) as [b|] eqn:Ef.
  - apply List.find_some in Ef as [Hb%list_elem_of_In Ht%Z.eqb_eq]. destruct (do_live _ _ _ _ _ w Hw b Hb) as [Hk _].
    pose proof (remove_item_perm b _ (bo_handles _ (do_blocks _ _ _ _ _ w Hw)) Hb) as Hp.
    unfold WdfCollectionRemove, set_drv. wp_step. apply wp_modify. wp_step. apply wp_krn.
    eapply wp_mono; [apply k_delete; [apply Hw|cbn; by rewrite Hk]|]. intros [] k' (R & P & Mp & _ & B). cbn in R, P, Mp, B. wp_step.
    split_and!; [|done|by exists b]. by eapply (drv_ok_delete F M0 bars nvec fmax b).
  - wp_step. split_and!; [done|done|done|]. apply filter_keeps. intros b Hb Ht.
    pose proof (List.find_none _ _ Ef b (proj1 (list_elem_of_In _ _) Hb)) as Hn. by apply Z.eqb_neq in Hn.
Qed.

Lemma free_by_tag_ok tag : forall fuel w, (length (MemoryBlockCollection (drv w)) <= fuel)%nat -> Drv w ->
  wp (free_by_tag fuel tag) (fun _ w' => Drv w' /\ kpool (kern w') ≡ₚ kpool (kern w) /\
    MemoryBlockCollection (drv w') ≡ₚ untagged tag (MemoryBlockCollection (drv w))) w.
Proof.
  induction fuel as [|fuel IH]; intros w Hf Hw; cbn [free_by_tag]; wp_step; (eapply wp_mono; [by apply find_by_tag_ok|]); intros [] w1 (W1 & P1 & Hr); cbv beta.
  - destruct Hr as (b & _ & Hp). apply Permutation_length in Hp. cbn in Hp. lia.
  - destruct Hr as [-> ->]. by wp_step.
  - destruct Hr as (b & Ht & Hp). eapply wp_mono; [apply IH; [apply Permutation_length in Hp; cbn in Hp; lia|done]|].
    intros [] w2 (W2 & P2 & Hu). split_and!; [done|by rewrite P2|]. rewrite Hu. unfold untagged. rewrite Hp, filter_cons_False; [done|]. by intros ?.
  - destruct Hr as [-> ->]. by wp_step.
Qed.

End dma.
