(* ===== verification/WdfLifeSpec.v ===== *)
(** * The WDF helper library: the life of a device

    What the library takes from the kernel when a device is prepared and started, and
    that stopping and releasing the device gives it back, over any number of power
    cycles: BARs and their mappings, the queue array, rings and control blocks. *)

From Stdlib Require Import ZArith Lia.
From stdpp Require Import base list numbers option gmap relations.
From S2P Require Import Prelude.
From S2P Require Import Effects.
From S2P Require Import Virtio.
From S2P Require Import SplitRing.
From S2P Require Import Pci.
From S2P Require Import PciSpec.
From S2P Require Import PciQueueSpec.
From S2P Require Import PciCapSpec.
From S2P Require Import PciInitSpec.
From S2P Require Import Wdf.
From S2P Require Import WdfSpec.

(** ** The list of BARs *)

(** Ports are accessed at their own address, memory through a window. *)
Definition bar_ok {K} `{KernelLedger K} (b : VIRTIO_WDF_BAR) : Prop :=
  (bPortSpace b = true -> pBase b <> 0) /\ (bPortSpace b = false -> bar_pa (K := K) (iBar b) (BasePA b)) /\
  (pBase b <> 0 -> window (K := K) (iBar b) (pBase b)).

Section bars.
Context {K : Type} `{KernelLaws K}.
Context (F : gmap Z (Z * Z)) (M0 : list Z) (nvec fmax : Z).
Implicit Types (w : wdf K) (k : K).
#[local] Abbreviation Drv bars := (drv_ok F M0 bars nvec fmax).

(** The list changes with the pool and the mappings of the kernel; the rest stays. *)
Lemma drv_ok_set_bars bars l w w' : Drv bars w -> drv w' = (drv w) <| PCIBars := l |> ->
  running (kern w') -> kbufs (kern w') = kbufs (kern w) ->
  (forall b, b ∈ l -> bar_ok (K := K) b) -> kmaps (kern w') ≡ₚ mapped l ++ M0 -> Drv (pBar <$> l) w'.
Proof. intros [] E R B Hp Hm. split; rewrite ?E, ?B; try done; intros b Hb; apply (Hp b Hb). Qed.

Lemma drv_ok_bars bars w b : Drv bars w -> b ∈ PCIBars (drv w) -> bar_ok (K := K) b.
Proof. intros Hw Hb. split_and!; by apply Hw. Qed.

Lemma mapped_cons b l : mapped (b :: l) = (if negb (pBase b =? 0) && negb (bPortSpace b) then [pBase b] else []) ++ mapped l.
Proof. unfold mapped. rewrite filter_cons. destruct (negb (pBase b =? 0) && negb (bPortSpace b)) eqn:E; by cbn -[filter]. Qed.

Lemma free_bars_ok : forall l B w, PCIBars (drv w) = l -> Drv (pBar <$> l) w -> kpool (kern w) ≡ₚ (pBar <$> l) ++ B ->
  wp (free_bars l) (fun _ w' => Drv [] w' /\ kpool (kern w') ≡ₚ B /\ drv w' = (drv w) <| PCIBars := [] |>) w.
Proof.
  induction l as [|b l IH]; intros B w El Hw Hp; cbn [free_bars].
  { wp_step. split_and!; [done|done|]. destruct w as [[] ? ?]; cbn in *. by subst. }
  unfold set_drv. wp_step. apply wp_modify. cbn [fmap list_fmap app] in Hp. pose proof (do_maps _ _ _ _ _ w Hw) as Mp. rewrite El, mapped_cons in Mp.
  wp_step. eapply (wp_mono _ (fun _ w1 => drv w1 = (drv w) <| PCIBars := l |> /\ running (kern w1) /\ kbufs (kern w1) = kbufs (kern w) /\
    kpool (kern w1) ≡ₚ kpool (kern w) /\ kmaps (kern w1) ≡ₚ mapped l ++ M0)).
  { destruct (negb (pBase b =? 0) && negb (bPortSpace b)); [|wp_step; split_and!; try done; apply Hw].
    apply wp_krn. eapply wp_mono; [eapply k_unmap; [apply Hw|exact Mp]|]. intros [] k' (R & Bu & P & Mk). by split_and!. }
  intros [] w1 (D1 & R1 & B1 & P1 & M1). cbv beta. wp_step. apply wp_krn.
  eapply wp_mono; [apply (k_pool_free (pBar b) ((pBar <$> l) ++ B)); [done|by rewrite P1]|].
  intros [] k' (R2 & B2 & M2 & P2). cbv beta. eapply wp_mono; [apply (IH B)|].
  - cbn. by rewrite D1.
  - eapply drv_ok_set_bars; [exact Hw|done|exact R2|cbn; by rewrite B2, B1| |cbn; by rewrite M2].
    intros c Hc. apply (drv_ok_bars _ w c Hw). rewrite El. by right.
  - done.
  - intros [] w' (Hw' & P' & E'). split_and!; [done|done|]. rewrite E'. cbn. by rewrite D1.
Qed.

Lemma PCIFreeBars_ok bars B w : Drv bars w -> kpool (kern w) ≡ₚ bars ++ B ->
  wp PCIFreeBars (fun _ w' => Drv [] w' /\ kpool (kern w') ≡ₚ B /\ drv w' = (drv w) <| PCIBars := [] |>) w.
Proof.
  intros Hw Hp. unfold PCIFreeBars, drvg. wp_steps. pose proof (do_bars _ _ _ _ _ w Hw) as <-. by apply free_bars_ok.
Qed.

(** What a device driver is given: memory BARs are at the address of the resource, and
    ports do not start at 0. *)
Definition resource_ok ht hb (r : CM_PARTIAL_RESOURCE_DESCRIPTOR) : Prop :=
  Type_ r = CmResourceTypePort \/ Type_ r = CmResourceTypeMemory -> forall i, virtio_get_bar_index ht hb (Start r) = Ok i -> 0 <= i ->
  if truth (Z.land (Flags r) CM_RESOURCE_PORT_IO) then Start r <> 0 /\ window (K := K) i (Start r) else bar_pa (K := K) i (Start r).

(** A failure frees the list; a BAR whose address the header does not have is forgotten. *)
Lemma alloc_bars_ok ht hb B : (forall a, exists i, virtio_get_bar_index ht hb a = Ok i) ->
  forall l nI nM w, (forall r, Some r ∈ l -> resource_ok ht hb r) -> forall bars, Drv bars w -> kpool (kern w) ≡ₚ bars ++ B ->
  wp (alloc_bars ht hb l nI nM) (fun st w' => exists leak bars', Drv bars' w' /\ kpool (kern w') ≡ₚ bars' ++ leak ++ B /\
    MemoryBlockCollection (drv w') = MemoryBlockCollection (drv w) /\ pQueueParams (drv w') = pQueueParams (drv w) /\
    (NT_SUCCESS st = false -> bars' = []) /\ (leak = [] \/ st = STATUS_NOT_FOUND /\ length leak = 1%nat)) w.
Proof.
  intros Hidx l. induction l as [|r l IH]; intros nI nM w Hr bars Hw Hp; cbn [alloc_bars].
  { unfold set_drv. wp_step. apply wp_modify. wp_step. exists [], bars. split_and!; [|done|done|done|done|by left]. destruct Hw. by split. }
  assert (forall r, Some r ∈ l -> resource_ok ht hb r) as Hr' by (intros x Hx; apply Hr; by right).
  destruct r as [r|]; [|by eapply IH]. specialize (Hr r ltac:(left)).
  assert (Type_ r = CmResourceTypePort \/ Type_ r = CmResourceTypeMemory -> wp (p ← krn (ExAllocatePoolUninitialized sizeof_VIRTIO_WDF_BAR);
    if p =? 0 then PCIFreeBars;; mret STATUS_INSUFFICIENT_RESOURCES
    else i ← pure (virtio_get_bar_index ht hb (Start r));
      if i <? 0 then PCIFreeBars;; mret STATUS_NOT_FOUND
      else let port := truth (Z.land (Flags r) CM_RESOURCE_PORT_IO) in
        set_drv (fun d => d <| PCIBars := mk_bar p i (Start r) (Length r) (if port then Start r else 0) port :: PCIBars d |>);;
        alloc_bars ht hb l nI nM) (fun st w' => exists leak bars', Drv bars' w' /\ kpool (kern w') ≡ₚ bars' ++ leak ++ B /\
    MemoryBlockCollection (drv w') = MemoryBlockCollection (drv w) /\ pQueueParams (drv w') = pQueueParams (drv w) /\
    (NT_SUCCESS st = false -> bars' = []) /\ (leak = [] \/ st = STATUS_NOT_FOUND /\ length leak = 1%nat)) w) as Hbar.
  2: destruct (Type_ r); [by apply Hbar; left|by apply Hbar; right|by eapply IH|by eapply IH].
  intros Hty. specialize (Hr Hty).
  wp_step. apply wp_krn. eapply wp_mono; [apply k_pool_alloc, Hw|]. intros p k1 (R1 & B1 & M1 & Hq). cbv beta.
  assert (Drv bars (w <| kern := k1 |>)) as Hw1.
  { destruct Hw. split; cbn; rewrite ?B1; try done. by rewrite M1. }
  destruct Hq as [(-> & P1)|(Hq & P1)].
  { change (0 =? 0) with true. cbv iota. wp_step. eapply wp_mono; [apply (PCIFreeBars_ok bars B); [done|by cbn; rewrite P1]|].
    intros [] w' (Hw' & P' & E'). cbv beta. wp_step. exists [], []. split_and!; try done; [by rewrite E'..|by left]. }
  rewrite (proj2 (Z.eqb_neq p 0)) by done. destruct (Hidx (Start r)) as [i Hi]. wp_step. eapply wp_pure; [exact Hi|]. destruct (Z.ltb_spec i 0) as [_|Hi0].
  { wp_step. eapply wp_mono; [apply (PCIFreeBars_ok bars (p :: B)); [done|cbn; rewrite P1, Hp; solve_Permutation]|].
    intros [] w' (Hw' & P' & E'). cbv beta. wp_step. exists [p], []. split_and!; try done; [by rewrite E'..|by right]. }
  cbv zeta. unfold set_drv. wp_step. apply wp_modify.
  eapply wp_mono; [apply (IH nI nM _ Hr' (p :: bars))|].
  - pose proof (do_bars _ _ _ _ _ w Hw) as Eb. rewrite <- Eb.
    eapply (drv_ok_set_bars _ (mk_bar p i (Start r) (Length r) (if truth (Z.land (Flags r) CM_RESOURCE_PORT_IO) then Start r else 0)
      (truth (Z.land (Flags r) CM_RESOURCE_PORT_IO)) :: PCIBars (drv w))); [exact Hw1|done|exact R1|done| |].
    + intros b [-> |Hb]%elem_of_cons; [|by apply (drv_ok_bars _ w b Hw)]. unfold bar_ok. cbn [bPortSpace pBase iBar BasePA].
      specialize (Hr i Hi Hi0). destruct (truth _); [destruct Hr|]; by split_and!.
    + rewrite mapped_cons. cbn [bPortSpace pBase]. destruct (truth _); cbn [negb]; rewrite ?andb_false_r; apply Hw1.
  - cbn. by rewrite P1, Hp.
  - done.
Qed.
End bars.

(** ** A device that is there

    Its configuration space does not change and is that of an ordinary device, its list of
    capabilities ends, and its status register, in the common structure of a modern device,
    answers 0 within [R] rounds after a reset. *)

(** A byte register answers 0 after at most [n] rounds of waiting. *)
Fixpoint kanswers {K} `{WdfKernel K} (n : nat) (a : Z) (k : K) : Prop :=
  wp (READ_PORT_OR_REGISTER a 1) (fun v k1 => u8 v = 0 \/
    match n with
    | O => False
    | S n => wp (KeDelayExecutionThread 1) (fun st k2 =>
        if NT_SUCCESS st then kanswers n a k2 else wp (KeStallExecutionProcessor 1000) (fun _ k3 => kanswers n a k3) k2) k1
    end) k.

(** The addresses of the common structure: BAR and offset are in its capability. *)
Definition common_at {K} `{KernelLedger K} (space : Z -> Z) (caps : list Z) (a : Z) : Prop :=
  exists c q, common_cap space caps c /\ window (K := K) (space (c + cap_bar)) q /\ a = u64 (q + dword space (c + cap_offset_lo)).

(** The base address registers in the header. *)
Definition space_bars (space : Z -> Z) : list Z := header_bars (space <$> seqZ 0 sizeof_PCI_COMMON_HEADER).

Record device_there {K} `{WdfKernel K, KernelLedger K} (space : Z -> Z) (caps : list Z) (R : nat) : Prop := {
  dt_byte a : 0 <= space a < 256;
  dt_bus a n k : running k -> GetBusData a n k = Ok (space <$> seqZ a n, k);
  dt_caps : cap_list space (space (first_pointer space)) caps;
  dt_caps_len : (length caps <= 48)%nat;
  dt_type : Z.land (space PCI_HeaderType) (Z.lnot PCI_MULTIFUNCTION) = PCI_DEVICE_TYPE;
  dt_bars : bars_complete (space_bars space) = true;
  dt_resets a k : common_at (K := K) space caps a -> running k ->
    wp (WRITE_PORT_OR_REGISTER (status_at a) 1 0) (fun _ k' => kanswers R (status_at a) k') k }.

(** The features of the device fit the registers of its transport. *)
Definition fbound (t : transport) : Z := match t with Legacy => 2 ^ 32 | Modern => 2 ^ 64 end.

Section device.
Context {K : Type} `{KernelLaws K}.
Context (space : Z -> Z) (caps : list Z) (R : nat) (Dev : device_there (K := K) space caps R).
Context (F : gmap Z (Z * Z)) (M0 bars : list Z) (nvec fmax : Z).
Implicit Types (w : wdf K) (k : K) (s : vst (wdf K)).
#[local] Instance ledger_here : Ledger (wdf K) := wdf_ledger F M0 bars nvec fmax.
#[local] Instance laws_here : SystemLaws (wdf K) := wdf_system_laws F M0 bars nvec fmax.
#[local] Abbreviation any := (fun _ => True).

Lemma seqZ_two a : seqZ a 1 = [a] /\ seqZ a 2 = [a; a + 1].
Proof. split; repeat (rewrite seqZ_cons by lia); rewrite seqZ_nil by lia; rewrite <- ?Z.add_1_r; done. Qed.
Lemma seqZ_four a : seqZ a 4 = [a; a + 1; a + 2; a + 3].
Proof. repeat (rewrite seqZ_cons by lia). rewrite seqZ_nil by lia. repeat f_equal; lia. Qed.

Lemma PCIReadConfig_ok a n w : 0 <= n -> running (kern w) -> PCIReadConfig a n w = Ok (Some (space <$> seqZ a n), w).
Proof.
  intros Hn Hw. unfold PCIReadConfig, krn, mbind, M_bind. rewrite (dt_bus _ _ _ Dev) by done. cbn -[seqZ].
  unfold zlen. rewrite length_fmap, length_seqZ, Z2Nat.id, Z.eqb_refl by lia. by destruct w.
Qed.

Lemma running_read a n k : running k -> wp (READ_PORT_OR_REGISTER a n) (fun _ k' => running k') k.
Proof.
  intros Hk. unfold READ_PORT_OR_REGISTER. case_match; (eapply wp_mono; [first [by apply k_read_register|by apply k_read_port]|]); by intros ? ? (_ & ? & _).
Qed.

Lemma answers_wdf a : forall n w, running (kern w) -> kanswers n a (kern w) -> answers n a w.
Proof.
  induction n as [|n IH]; intros w Hw Ha; cbn [answers kanswers] in Ha |- *; cbn [vdev_read_byte VirtIOWdfSystemOps];
    apply wp_krn; (eapply wp_mono; [exact (wp_and _ _ _ _ Ha (running_read a 1 _ Hw))|]); intros v k1 ([Hv|Hv] & R1); try (by left). right.
  cbn [pci_read_config_word VirtIOWdfSystemOps vdev_sleep]. unfold wdf_read_config. wp_step. unfold wp at 1. rewrite PCIReadConfig_ok by done.
  wp_step. unfold wdf_sleep. wp_step. apply wp_krn. unfold wp at 1. rewrite k_irql by done. change (PASSIVE_LEVEL <=? APC_LEVEL) with true. cbv iota.
  do 2 wp_step. apply wp_krn. eapply wp_mono; [exact (wp_and _ _ _ _ Hv (k_delay 1 k1 R1))|]. intros st k2 (H2 & _ & R2 & _). cbv beta. wp_step.
  destruct (NT_SUCCESS st).
  - wp_step. by apply IH.
  - apply wp_krn. change (u32 (1000 * 1)) with 1000. eapply wp_mono; [exact (wp_and _ _ _ _ H2 (k_stall 1000 k2 R2))|].
    intros [] k3 (H3 & _ & R3 & _). by apply IH.
Qed.

Lemma wdf_startable : startable (E := wdf K) space caps (common_at (K := K) space caps) R.
Proof.
  split.
  - apply Dev.
  - intros a w Hw. cbn. unfold wdf_read_config, mbind, M_bind. rewrite PCIReadConfig_ok by (done || apply Hw). rewrite (proj1 (seqZ_two a)). cbn. by rewrite Z.add_0_r.
  - intros a w Hw. cbn [pci_read_config_word VirtIOWdfSystemOps]. unfold wdf_read_config, mbind, M_bind.
    rewrite PCIReadConfig_ok by (done || apply Hw). by rewrite (proj2 (seqZ_two a)).
  - intros a w Hw. cbn [pci_read_config_dword VirtIOWdfSystemOps]. unfold wdf_read_config, mbind, M_bind.
    rewrite PCIReadConfig_ok by (done || apply Hw). by rewrite seqZ_four.
  - intros w Hw. eexists. intros b. cbn. done.
  - apply Dev.
  - apply Dev.
  - intros c len w Hc Hw. cbn [pci_map_address_range VirtIOWdfSystemOps].
    eapply wp_mono; [exact (keeps_map_wdf F M0 bars nvec fmax (space (c + cap_bar)) (dword space (c + cap_offset_lo)) len w Hw)|].
    intros a w' (Ha & _) Ha0. destruct (Ha Ha0) as (q & Hq & ->). by exists c, q.
  - intros a w Ha Hw. cbn [vdev_write_byte VirtIOWdfSystemOps]. apply wp_krn.
    assert (wp (WRITE_PORT_OR_REGISTER (status_at a) 1 0) (fun _ k' => running k') (kern w)) as Rn.
    { unfold WRITE_PORT_OR_REGISTER. case_match; (eapply wp_mono; [first [apply k_write_register, Hw|apply k_write_port, Hw]|]); by intros ? ? (_ & ? & _). }
    eapply wp_mono; [exact (wp_and _ _ _ _ Rn (dt_resets _ _ _ Dev a _ Ha (do_running _ _ _ _ _ w Hw)))|]. intros [] k' (Rk & Hk). by apply answers_wdf.
Qed.

(** *** Features

    Bits that are all among those of another number. *)
Lemma subset_range a b : 0 <= b -> Z.land b a = a -> 0 <= a <= b.
Proof.
  intros Hb E. assert (0 <= Z.ldiff b a) by (apply Z.ldiff_nonneg; by left). rewrite <- (Z.sub_nocarry_ldiff b a) in *.
  - split; [rewrite <- E; apply Z.land_nonneg; by left|lia].
  - apply Z.bits_inj'. intros n Hn. rewrite Z.ldiff_spec, Z.bits_0, <- E, Z.land_spec. by destruct (Z.testbit b n), (Z.testbit a n).
Qed.

Lemma transport_features_small f : 0 <= f < fbound Legacy -> (u32 (vring_transport_features f) =? vring_transport_features f) = true.
Proof.
  intros Hf. apply Z.eqb_eq, u32_small. change (vring_transport_features f) with (virtio_feature_disable (virtio_feature_disable f 30) 31).
  unfold virtio_feature_disable. rewrite <- Z.land_assoc. generalize (Z.land (u64 (Z.lnot (Z.shiftl 1 30))) (u64 (Z.lnot (Z.shiftl 1 31)))). intros m. pose proof (subset_range (Z.land f m) f ltac:(lia)) as Hs.
  rewrite Z.land_assoc, Z.land_diag in Hs. cbn in Hf. specialize (Hs eq_refl). lia.
Qed.

(** The features a driver asks for are the device's. *)
Lemma common_features_subset d : Z.land d (common_features d) = common_features d.
Proof.
  assert (forall bit u, 0 <= bit -> Z.land d u = u -> Z.land d (take_feature d bit u) = take_feature d bit u) as Take.
  { intros bit u Hb Hu. unfold take_feature, virtio_is_feature_enabled, virtio_feature_enable. fold (BIT bit). rewrite (truth_land_bit d bit) by done. unfold BIT.
    destruct (Z.testbit d bit) eqn:Ed; [|done]. rewrite Z.land_lor_distr_r, Hu. f_equal. apply Z.bits_inj'. intros i Hi.
    rewrite Z.land_spec, Z.shiftl_spec by done. destruct (decide (i = bit)) as [->|Hne]; [by rewrite Ed|].
    destruct (Z.testbit 1 (i - bit)) eqn:E1; [|by rewrite andb_false_r].
    exfalso. destruct (decide (i < bit)); [by rewrite Z.testbit_neg_r in E1 by lia|]. by rewrite (Z.bits_above_log2 1) in E1 by (cbn; lia). }
  unfold common_features. repeat (apply Take; [done|]). by rewrite Z.land_0_r.
Qed.

Lemma driver_features_range d on off m : 0 <= d < m -> Z.land d on = on -> 0 <= Z.land (Z.lor (common_features d) on) (Z.lnot off) < m.
Proof.
  intros Hd Hon. enough (0 <= Z.land (Z.lor (common_features d) on) (Z.lnot off) <= d) by lia. apply subset_range; [lia|].
  by rewrite Z.land_assoc, Z.land_lor_distr_r, common_features_subset, Hon.
Qed.

(** Negotiating features changes neither memory nor queues. *)
Definition tuned s s' : Prop := hush s s' /\ device (vdev s') = device (vdev s).
#[local] Instance tuned_preorder : PreOrder tuned.
Proof. split; [by intros s|]. intros s1 s2 s3 [] []. split; by etrans. Qed.

Lemma tuned_same s s' : same s s' -> tuned s s'.
Proof. intros S. split; [by apply hush_same|]. by destruct S as (-> & _). Qed.
Lemma tuned_sane s s' : tuned s s' -> Sane s -> Sane s'.
Proof. intros [(_ & _ & _ & _ & _ & _ & N) _]. exact N. Qed.

(** [steady t m]: on a device of transport [t]. *)
Definition steady {A} t (m : M (vst (wdf K)) A) : Prop :=
  forall s, Sane s -> device (vdev s) = Some t -> wp m (fun _ s' => tuned s s') s.

Lemma steady_bind {A C} t (m : M (vst (wdf K)) A) (f : A -> M (vst (wdf K)) C) : steady t m -> (forall a, steady t (f a)) -> steady t (m ≫= f).
Proof.
  intros Hm Hf s N Ht. apply wp_bind. eapply wp_mono; [by apply Hm|]. intros a s1 T1. cbv beta in T1.
  eapply wp_mono; [apply Hf; [exact (tuned_sane _ _ T1 N)|by rewrite (proj2 T1)]|]. intros c s2 T2. cbv beta in T2. by etrans.
Qed.
Lemma steady_ret {A} t (a : A) : steady t (mret a).
Proof. intros s N Ht. by apply wp_ret. Qed.
Lemma steady_quiet {A} t (Q : A -> Prop) m : quiet Q m -> steady t m.
Proof. intros Hm s N Ht. eapply wp_mono; [by apply Hm|]. intros a s' [_ S]. by apply tuned_same. Qed.
Lemma steady_same {A} t (Q : A -> Prop) m : (forall s, Sane s -> device (vdev s) = Some t -> wp m (fun a s' => Q a /\ same s s') s) -> steady t m.
Proof. intros Hm s N Ht. eapply wp_mono; [by apply Hm|]. intros a s' [_ S]. by apply tuned_same. Qed.
Lemma steady_ops {A} t (l m : M (vst (wdf K)) A) : steady t l -> steady t m -> steady t (ops l m).
Proof. intros Hl Hm s N Ht. eapply wp_ops; [exact Ht|]. destruct t; auto. Qed.
Lemma steady_set t f : (forall v, common (f v) = common v /\ info (f v) = info v /\ inline_info (f v) = inline_info v /\ maxQueues (f v) = maxQueues v /\ device (f v) = device v) ->
  steady t (set_dev f : M (vst (wdf K)) unit).
Proof. intros Hf s N Ht. apply wp_modify. destruct (Hf (vdev s)) as (? & ? & ? & ? & ?). by split_and!. Qed.

Lemma steady_add_status t x : 0 < x < 256 -> steady t (virtio_add_status x : M (vst (wdf K)) unit).
Proof. intros Hx s N Ht. eapply wp_mono; [by apply (add_status_same t)|]. intros [] s' S. by apply tuned_same. Qed.
Lemma steady_get_status t : steady t (virtio_get_status : M (vst (wdf K)) Z).
Proof. eapply (steady_same t). intros. by apply (get_status_same t). Qed.

Lemma get_features_ok t s : Sane s -> device (vdev s) = Some t ->
  wp (virtio_get_features : M (vst (wdf K)) Z) (fun v s' => 0 <= v < fbound t /\ same s s') s.
Proof.
  intros N Ht. eapply wp_ops; [exact Ht|]. destruct t; revert s N Ht;
    cut (quiet (fun v => 0 <= v < fbound Legacy) (vio_legacy_get_features : M (vst (wdf K)) Z) /\ quiet (fun v => 0 <= v < fbound Modern) (vio_modern_get_features : M (vst (wdf K)) Z));
    try (intros [Q1 Q2] s N _; by (apply Q1 || apply Q2)).
  all: unfold vio_legacy_get_features, vio_modern_get_features; split;
    repeat (eapply quiet_bind; [first [apply quiet_lreg|apply quiet_reg|apply quiet_write32|apply quiet_read32]|intros]).
  1, 3: eapply quiet_mono; [apply quiet_read32|done].
  all: cbv beta in *; apply quiet_ret; apply (lor_range 64); [lia|lia|]; rewrite Z.shiftl_mul_pow2 by lia; lia.
Qed.
Lemma steady_get_features t : steady t (virtio_get_features : M (vst (wdf K)) Z).
Proof. eapply (steady_same t). intros. by apply (get_features_ok t). Qed.

Lemma quiet_assert b : b = true -> quiet any (assert b : M (vst (wdf K)) unit).
Proof. intros -> s N. by apply wp_assert. Qed.

Lemma steady_set_features t f : 0 <= f < fbound t -> steady t (virtio_set_features f : M (vst (wdf K)) Z).
Proof.
  intros Hf. unfold virtio_set_features. eapply steady_bind; [by apply steady_set|]. intros [].
  eapply steady_bind.
  - intros s N Ht. eapply wp_ops; [exact Ht|]. unfold vio_legacy_set_features, vio_modern_set_features. cbv zeta.
    destruct t; (eapply (steady_quiet _ any); [|exact N|exact Ht]).
    + eapply quiet_bind; [by apply quiet_assert, transport_features_small|]. intros.
      repeat (eapply quiet_bind; [first [apply quiet_lreg|apply quiet_write32]|intros]). by apply quiet_ret.
    + case_match; [by apply quiet_ret|]. repeat (eapply quiet_bind; [first [apply quiet_reg|apply quiet_write32]|intros]). by apply quiet_ret.
  - intros st. case_match; [apply steady_ret|]. case_match; [apply steady_ret|].
    eapply steady_bind; [by apply steady_add_status|]. intros _. eapply steady_bind; [apply steady_get_status|]. intros. apply steady_ret.
Qed.

Lemma keeps_set_drv f : (forall d, MemoryBlockCollection (f d) = MemoryBlockCollection d /\ PCIBars (f d) = PCIBars d /\
  (pQueueParams (f d) = pQueueParams d \/ forall l, pQueueParams (f d) = Some l -> nvec <= zlen l) /\
  (uFeatures (f d) = uFeatures d \/ 0 <= uFeatures (f d) < fmax)) -> keeps any (set_drv f : M (wdf K) unit).
Proof.
  intros Hf w Hw. apply wp_modify. destruct (Hf (drv w)) as (E1 & E2 & E3 & E4). destruct Hw. split_and!; [done| |cbn; by rewrite E1|done].
  split; cbn; rewrite ?E1, ?E2; try done.
  - intros l Hl. destruct E3 as [E3|E3]; [|by apply E3]. rewrite E3 in Hl. by apply do_params.
  - destruct E4 as [->|E4]; [done|exact E4].
Qed.

Lemma steady_follow_status t st : steady t (follow_status st : M (vst (wdf K)) unit).
Proof. unfold follow_status. apply steady_bind; [|intros _]; (case_match; [apply steady_ret|by apply steady_add_status]). Qed.

Lemma steady_driver_features t on off : fmax = fbound t -> steady t (VirtIOWdfSetDriverFeatures on off : M (vst (wdf K)) Z).
Proof.
  intros Ef s N Ht. unfold VirtIOWdfSetDriverFeatures, VirtIOWdfGetDeviceFeatures. wp_step. eapply wp_mono; [by apply (get_features_ok t)|].
  intros d s1 (Hd & S1). cbv beta. destruct (Z.eqb_spec (Z.land d on) on) as [Eon|]; cbn [negb]; [|wp_step; by apply tuned_same].
  cbv zeta. pose proof (driver_features_range d on off _ Hd Eon) as Hf. pose proof S1 as (V1 & _).
  eapply wp_mono; [|intros a s' T; etrans; [by apply tuned_same|exact T]]. revert s1 S1 V1.
  cut (steady t (status ← virtio_get_status; follow_status status;;
    sys (set_drv (fun d0 => d0 <| uFeatures := Z.land (Z.lor (common_features d) on) (Z.lnot off) |>));;
    virtio_set_features (Z.land (Z.lor (common_features d) on) (Z.lnot off)) : M (vst (wdf K)) Z)).
  { intros St s1 S1 V1. apply St; [exact (same_sane _ _ S1 N)|by rewrite V1]. }
  eapply steady_bind; [apply steady_get_status|]. intros st. eapply steady_bind; [apply steady_follow_status|]. intros _.
  eapply steady_bind; [eapply steady_quiet, quiet_sys, keeps_set_drv|].
  { intros d0. split_and!; [done|done|by left|]. right. cbn. by rewrite Ef. }
  intros _. by apply steady_set_features.
Qed.

Lemma quiet_drvg {A} (f : VIRTIO_WDF_DRIVER -> A) : quiet any (sys (drvg f) : M (vst (wdf K)) A).
Proof. apply quiet_sys. by apply (keeps_gets F M0 bars nvec fmax). Qed.

Lemma quiet_features : quiet (fun f => 0 <= f < fmax) (sys (drvg uFeatures) : M (vst (wdf K)) Z).
Proof. apply quiet_sys. apply (keeps_gets F M0 bars nvec fmax (fun f => 0 <= f < fmax)). intros w Hw. apply Hw. Qed.

Lemma steady_finalize t : fmax = fbound t -> steady t (VirtIOWdfFinalizeFeatures : M (vst (wdf K)) Z).
Proof.
  intros Ef. unfold VirtIOWdfFinalizeFeatures. eapply steady_bind; [eapply steady_quiet, quiet_drvg|]. intros f.
  eapply steady_bind; [case_match; [by apply steady_driver_features|apply steady_ret]|]. intros st. case_match; [apply steady_ret|].
  eapply steady_bind; [apply steady_get_status|]. intros dst. eapply steady_bind; [apply steady_follow_status|]. intros _.
  case_match; [apply steady_ret|]. intros s N Ht. eapply wp_quiet; [done|apply quiet_features|]. intros f' s1 Hf S1.
  pose proof S1 as (V1 & _). eapply wp_mono; [apply (steady_set_features t); [by rewrite <- Ef|exact (same_sane _ _ S1 N)|by rewrite V1]|].
  intros a s' T. etrans; [by apply tuned_same|exact T].
Qed.

(** *** Queues *)

Lemma tuned_infos s s' : tuned s s' -> info (vdev s') = info (vdev s) /\ infos (vdev s') = infos (vdev s) /\ maxQueues (vdev s') = maxQueues (vdev s) /\
  common (vdev s') = common (vdev s).
Proof. intros [(C & I & L & Q & _) _]. unfold infos. by rewrite I, L. Qed.

Lemma vinv_tuned t P B s s' : vinv t P B s -> tuned s s' -> vinv t P B s'.
Proof.
  intros I T. destruct (tuned_infos s s' T) as (Ei & El & Em & _). destruct T as [(_ & _ & _ & _ & Hp & Hb & N) Hd].
  destruct I. split; unfold live, info_block; rewrite ?Ei, ?El, ?Em, ?Hd; try done; [by apply N|by rewrite Hp|by rewrite Hb].
Qed.

Lemma keeps_modify_context i : keeps any (modify (fun w => w <| intr := <[i := mk_intr 0 false]> (intr w) |>) : M (wdf K) unit).
Proof. apply (keeps_modify_intr F M0 bars nvec fmax (fun w => <[i := mk_intr 0 false]> (intr w))). Qed.

Lemma keeps_register i : keeps any (PCIRegisterInterrupt i : M (wdf K) Z).
Proof.
  unfold PCIRegisterInterrupt. case_match; [by apply (keeps_ret F M0 bars nvec fmax)|].
  eapply (keeps_bind F M0 bars nvec fmax any); [by apply (keeps_gets F M0 bars nvec fmax)|]. intros m _.
  eapply (keeps_bind F M0 bars nvec fmax any); [|intros; by apply (keeps_ret F M0 bars nvec fmax)].
  case_match; [by apply (keeps_ret F M0 bars nvec fmax)|].
  eapply (keeps_bind F M0 bars nvec fmax any); [apply (keeps_krn F M0 bars nvec fmax), k_context|]. intros st _.
  eapply (keeps_bind F M0 bars nvec fmax any); [|intros; by apply (keeps_ret F M0 bars nvec fmax)].
  case_match; [apply keeps_modify_context|by apply (keeps_ret F M0 bars nvec fmax)].
Qed.

Lemma quiet_registers : forall l, quiet any (register_interrupts l : M (vst (wdf K)) Z).
Proof.
  induction l as [|i l IH]; cbn [register_interrupts]; [by apply quiet_ret|].
  eapply quiet_bind; [apply quiet_sys, keeps_register|]. intros st _. case_match; [by apply quiet_ret|done].
Qed.

(** What is left when the queues cannot be started. *)
Definition forgotten (st : Z) (leak : list Z) : Prop := leak = [] \/ st = STATUS_INSUFFICIENT_RESOURCES /\ length leak = 1%nat.

Lemma InitQueues_ok t P B n params s : fmax = fbound t -> 0 <= n <= nvec -> nvec <= zlen params ->
  vinv t P B s -> live (vdev s) -> no_queues (vdev s) ->
  wp (VirtIOWdfInitQueues n params) (fun r s' => live (vdev s') /\ common (vdev s') = common (vdev s) /\
    if NT_SUCCESS r.1 then vinv t P B s' /\ length r.2 = Z.to_nat n /\ (forall j vq, r.2 !! j = Some vq -> vq_index vq = Z.of_nat j /\ ring_fresh (vq_ring vq))
    else exists leak, vinv t (leak ++ P) B s' /\ no_queues (vdev s') /\ forgotten r.1 leak) s.
Proof.
  intros Ef Hn Hp I Hl He. unfold VirtIOWdfInitQueues. wp_step.
  eapply wp_mono; [by apply (steady_finalize t Ef); apply I|]. intros st s1 T1. cbv beta.
  assert (vinv t P B s1) as I1 by (by eapply vinv_tuned). destruct (tuned_infos s s1 T1) as (Ei & El & _ & Ec).
  assert (live (vdev s1)) as L1 by (unfold live; by rewrite Ei). assert (no_queues (vdev s1)) as E1 by (unfold no_queues; by rewrite El).
  assert (forall st s', same s1 s' -> NT_SUCCESS st = false -> live (vdev s') /\ common (vdev s') = common (vdev s) /\ if NT_SUCCESS st then vinv t P B s' /\ 0%nat = Z.to_nat n /\
      (forall j vq, ([] : list virtqueue) !! j = Some vq -> vq_index vq = Z.of_nat j /\ ring_fresh (vq_ring vq))
    else exists leak, vinv t (leak ++ P) B s' /\ no_queues (vdev s') /\ forgotten st leak) as Stop.
  { intros st' s' S' ->. pose proof S' as (V & _). rewrite V. split; [done|]. split; [done|]. exists []. split_and!; [by eapply vinv_same|done|by left]. }
  destruct (NT_SUCCESS st) eqn:Es; cbn [negb]; [|wp_step; by apply Stop].
  eapply wp_quiet; [apply I1|apply quiet_registers|]. intros st2 s2 _ S2. destruct (NT_SUCCESS st2) eqn:Es2; cbn [negb]; [|wp_step; by apply Stop].
  eapply wp_quiet; [exact (same_sane _ _ S2 (inv_sane _ _ _ _ I1))|apply quiet_sys, keeps_set_drv|].
  { intros d. split_and!; [done|done| |by left]. right. cbn. by intros l [= <-]. }
  intros [] s3 _ S3. assert (same s1 s3) as S13 by (by etrans). pose proof S13 as (V3 & _).
  wp_step. eapply wp_mono; [apply (find_queues_ok t P B); [by eapply vinv_same|by rewrite V3|by rewrite V3|done]|].
  intros r s4 (L4 & C4 & Hr). cbv beta.
  assert (Sane s4) as N4 by (destruct (NT_SUCCESS r.1); [|destruct Hr as (? & Hr & _)]; apply Hr).
  eapply wp_quiet; [exact N4|apply quiet_sys, keeps_set_drv|].
  { intros d. split_and!; [done|done| |by left]. by right. }
  intros [] s5 _ S5. wp_step. pose proof S5 as (V5 & _). rewrite V5. split; [done|]. split; [by rewrite C4, V3|]. destruct (NT_SUCCESS r.1).
  - destruct Hr as (I4 & Hlen & Hk). split_and!; [by eapply vinv_same|done|]. intros k vq Hvq. by destruct (Hk k vq Hvq) as (? & ? & _).
  - destruct Hr as (leak & I4 & E4 & Hlk). exists leak. split_and!; [by eapply vinv_same|done|].
    destruct Hlk as [->|(_ & ? & ? & _)]; [by left|by right].
Qed.

Lemma DestroyQueues_ok t P B fuel s : (R <= fuel)%nat -> vinv t P B s -> (t = Modern -> common_at (K := K) space caps (common (vdev s))) ->
  wp (VirtIOWdfDestroyQueues fuel) (fun _ s' => vinv t P B s' /\ no_queues (vdev s') /\ frame s s') s.
Proof.
  intros Hf I Hcom. unfold VirtIOWdfDestroyQueues. wp_step.
  eapply wp_mono; [apply (reset_same space caps (common_at (K := K) space caps) R wdf_startable t fuel s); [apply I|apply I|done|done]|]. intros [] s1 S1. cbv beta.
  pose proof S1 as (V1 & _). wp_step. eapply wp_mono; [apply (delete_queues_ok t P B); by eapply vinv_same|].
  intros [] s2 (I2 & E2 & _ & L2). cbv beta. wp_step. split_and!; [done|done|]. etrans; [by apply frame_same|done].
Qed.

(** *** Initialisation *)

Lemma check_iommu_ok t s : Sane s -> device (vdev s) = Some t -> wp VirtIOWdfDeviceCheckIOMMUActive (fun _ s' => same s s') s.
Proof.
  intros N Ht. unfold VirtIOWdfDeviceCheckIOMMUActive, VirtIOWdfGetDeviceFeatures. wp_step. eapply wp_mono; [by apply (get_features_ok t)|].
  intros d s1 (_ & S1). cbv beta zeta. assert (Sane s1) as N1 by exact (same_sane _ _ S1 N).
  eapply wp_quiet; [exact N1|apply quiet_sys, (keeps_krn F M0 bars nvec fmax), k_property|]. intros [st v] s2 _ S2.
  assert (same s s2) as S12 by (by etrans). assert (Sane s2) as N2 by exact (same_sane _ _ S12 N). case_match; [by wp_step|].
  wp_step. apply wp_sys, wp_krn. eapply wp_mono; [apply k_create, N2|]. intros [st2 h] k1 (R1 & P1 & M1 & _ & Hc). cbn [fst snd] in Hc |- *.
  assert (forall s', (exists k', s' = s2 <| env := (env s2) <| kern := k' |> |> /\ running k' /\ kpool k' ≡ₚ kpool (kern (env s2)) /\
    kmaps k' ≡ₚ kmaps (kern (env s2)) /\ kbufs k' = kbufs (kern (env s2))) -> same s s') as Back.
  { intros s' (k' & -> & Rk & Pk & Mk & Bk). etrans; [exact S12|]. split_and!; [done|done|done|]. intros _. apply drv_ok_kern; [exact N2|by split_and!]. }
  destruct (NT_SUCCESS st2); cbn [negb]; [|wp_step; apply Back; by exists k1]. destruct Hc as (va & (Hh & _) & B1).
  wp_step. apply wp_sys, wp_krn. eapply wp_mono; [eapply (k_pa h va PAGE_SIZE); [exact R1|cbn; by rewrite B1, lookup_insert_eq]|].
  intros pa k2 (R2 & P2 & B2 & M2). cbn in P2, B2, M2. cbv beta.
  wp_step. apply wp_sys, wp_krn. eapply wp_mono; [eapply (k_va h va PAGE_SIZE); [exact R2|cbn; by rewrite B2, B1, lookup_insert_eq]|].
  intros ? k3 (_ & R3 & P3 & B3 & M3). cbn in P3, B3, M3. cbv beta.
  wp_step. apply wp_sys, wp_krn. eapply wp_mono; [apply k_physical, R3|]. intros plain k4 (_ & R4 & P4 & B4 & M4). cbn in P4, B4, M4. cbv beta.
  wp_step. apply wp_sys, wp_krn. eapply wp_mono; [apply (k_delete h); [exact R4|cbn; by rewrite B4, B3, B2, B1, lookup_insert_eq]|].
  intros [] k5 (R5 & P5 & M5 & _ & B5). cbn in P5, B5, M5. cbv beta. wp_step. apply Back. exists k5.
  split_and!; [done|done|by rewrite P5, P4, P3, P2, P1|by rewrite M5, M4, M3, M2, M1|by rewrite B5, B4, B3, B2, B1, delete_insert_id].
Qed.

Lemma keeps_create_dma : keeps any (create_dma : M (wdf K) Z).
Proof.
  unfold create_dma. eapply (keeps_bind F M0 bars nvec fmax any); [apply (keeps_krn F M0 bars nvec fmax), k_enabler|]. intros st _.
  eapply (keeps_bind F M0 bars nvec fmax any); [|intros st2 _]; (case_match; [apply (keeps_krn F M0 bars nvec fmax)|by apply (keeps_ret F M0 bars nvec fmax)]).
  - apply k_collection.
  - apply k_spinlock.
Qed.

(** A device without queues, whose array is inside the structure. *)
Definition fresh_device (v : virtio_device) : Prop := info v = InfoInline /\ inline_info v = replicate 8 zero_info /\ maxQueues v = 8.

Lemma fresh_vinv t B s : Sane s -> device (vdev s) = Some t -> fresh_device (vdev s) -> pages (env s) ≡ₚ [] -> blocks (env s) ≡ₚ B ->
  vinv t [] B s /\ live (vdev s) /\ no_queues (vdev s).
Proof.
  intros N Ht (Ei & El & Em) Hp Hb.
  assert (infos (vdev s) = replicate 8 zero_info) as Einf by (unfold infos; by rewrite Ei).
  assert (forall j x, (infos (vdev s))⟦j⟧ = Some x -> x = zero_info) as Hz.
  { rewrite Einf. intros j x Hx. unfold zlookup in Hx. destruct (0 <=? j); [|done]. by apply lookup_replicate in Hx as [-> _]. }
  split_and!; [|unfold live; by rewrite Ei|intros j x Hx; by apply Hz in Hx as ->]. split; try done.
  - intros _. by rewrite Einf, Em.
  - intros j x Hx vq Hvq. apply Hz in Hx as ->. done.
  - rewrite Hp, owned_empty; [done|]. intros j x Hx. by apply Hz in Hx as ->.
  - rewrite Hb, owned_empty; [|intros j x Hx; by apply Hz in Hx as ->]. unfold info_block. by rewrite Ei.
Qed.

(** The last part of [VirtIOWdfInitialize]: the transport and the check of its addresses. *)
Lemma open_device_ok fuel msix s : (length caps <= fuel)%nat -> (R <= fuel)%nat -> Sane s ->
  wp (status ← virtio_device_initialize fuel msix;
      if NT_SUCCESS status then VirtIOWdfDeviceCheckIOMMUActive else mret status) (fun st s' =>
    fresh_device (vdev s') /\ Sane s' /\ pages (env s') ≡ₚ pages (env s) /\ blocks (env s') ≡ₚ blocks (env s) /\
    (NT_SUCCESS st = true -> exists t, device (vdev s') = Some t /\ (t = Modern -> common_at (K := K) space caps (common (vdev s'))))) s.
Proof.
  intros Hc HR N. wp_step. eapply wp_mono; [by apply (device_initialize_ok space caps (common_at (K := K) space caps) R wdf_startable)|].
  intros st s1 (I1 & L1 & Q1 & P1 & B1 & N1 & D1). cbv beta. destruct (NT_SUCCESS st) eqn:Es.
  - destruct (D1 eq_refl) as (t & Ht & Hcom). eapply wp_mono; [by apply (check_iommu_ok t)|]. intros st2 s2 (V2 & P2 & B2 & N2).
    rewrite V2. split_and!; [done|by apply N2|by rewrite P2|by rewrite B2|by exists t].
  - wp_step. split_and!; try done. congruence.
Qed.

(** Functions of the library that leave the transport and the memory alone. *)
Lemma sys_ok {A} (m : M (wdf K) A) Φ s : keeps any m -> drv_ok F M0 bars nvec fmax (env s) ->
  (forall a w', drv_ok F M0 bars nvec fmax w' -> pVirtualAddress <$> MemoryBlockCollection (drv w') ≡ₚ pVirtualAddress <$> MemoryBlockCollection (drv (env s)) ->
    kpool (kern w') ≡ₚ kpool (kern (env s)) -> Φ a (s <| env := w' |>)) -> wp (sys m) Φ s.
Proof. intros Hm Hw HΦ. apply wp_sys. eapply wp_mono; [by apply Hm|]. intros a w' (_ & ? & ? & ?). by apply HΦ. Qed.
End device.

(** ** Preparing and releasing *)

Section phases.
Context {K : Type} `{KernelLaws K}.
Context (space : Z -> Z) (caps : list Z) (R : nat) (Dev : device_there (K := K) space caps R).
Context (fuel : nat) (Hcaps : (length caps <= fuel)%nat) (HR : (R <= fuel)%nat) (nvec : Z).
Implicit Types (F : gmap Z (Z * Z)) (B : list Z) (w : wdf K) (s : vst (wdf K)).

Definition resources_ok (res : list (option CM_PARTIAL_RESOURCE_DESCRIPTOR)) : Prop :=
  forall r, Some r ∈ res -> resource_ok (K := K) (space PCI_HeaderType) (space_bars space) r.
#[local] Abbreviation located t s := (t = Modern -> common_at (K := K) space caps (common (vdev s))).

Lemma PCIAllocBars_ok F M0 B res w : resources_ok res ->
  drv_ok F M0 [] nvec 1 w -> kpool (kern w) ≡ₚ B ->
  wp (PCIAllocBars res) (fun st w' => exists leak bars, drv_ok F M0 bars nvec 1 w' /\ kpool (kern w') ≡ₚ bars ++ leak ++ B /\
    MemoryBlockCollection (drv w') = MemoryBlockCollection (drv w) /\ pQueueParams (drv w') = pQueueParams (drv w) /\
    (NT_SUCCESS st = false -> bars = []) /\ (leak = [] \/ st = STATUS_NOT_FOUND /\ length leak = 1%nat)) w.
Proof.
  intros Hr Hw Hp. unfold PCIAllocBars. wp_step. apply wp_krn. unfold wp at 1. rewrite (dt_bus _ _ _ Dev) by apply Hw.
  replace (w <| kern := kern w |>) with w by (by destruct w). unfold zlen at 1. rewrite length_fmap, length_seqZ, Z2Nat.id, Z.eqb_refl by done. cbn [negb].
  wp_step. eapply (wp_pure _ (space PCI_HeaderType)).
  { apply zget_ok. unfold zlookup. change (0 <=? PCI_HeaderType) with true. cbv iota. rewrite list_lookup_fmap, lookup_seqZ_lt by done. done. }
  eapply (alloc_bars_ok F M0 nvec 1); [|done|exact Hw|done]. intros a. eexists. unfold virtio_get_bar_index. rewrite (dt_type _ _ _ Dev), Z.eqb_refl. cbn [ASSERT mbind res_bind].
  eapply (bar_search_ok _ _ _ (header_bars _)); [done|done|done|done|]. apply Dev.
Qed.

Lemma drv_ok_zero w tag : running (kern w) -> drv_ok (kbufs (kern w)) (kmaps (kern w)) [] nvec 1 (w <| drv := zero_driver tag |>).
Proof.
  intros Hw. split; cbn; try done; try (intros b Hb; by apply elem_of_nil in Hb); [|by right].
  split; [apply NoDup_nil_2|intros b Hb; by apply elem_of_nil in Hb|intros b c Hb; by apply elem_of_nil in Hb].
Qed.

(** What [VirtIOWdfInitialize] leaves behind. *)
Definition opened F M0 B (st : Z) s : Prop := exists leak bars,
  drv_ok F M0 bars nvec 1 (env s) /\ MemoryBlockCollection (drv (env s)) = [] /\ kpool (kern (env s)) ≡ₚ bars ++ leak ++ B /\
  info_block (vdev s) = [] /\ (leak = [] \/ st = STATUS_NOT_FOUND /\ length leak = 1%nat) /\
  (NT_SUCCESS st = true -> fresh_device (vdev s) /\ exists t, device (vdev s) = Some t /\ located t s).

Lemma fmap_perm_nil {A C} (f : A -> C) l : f <$> l ≡ₚ [] -> l = [].
Proof. intros E%Permutation_nil_r. by destruct l. Qed.

Lemma Initialize_ok res ci tag s : resources_ok res -> running (kern (env s)) ->
  wp (VirtIOWdfInitialize fuel res ci tag) (opened (kbufs (kern (env s))) (kmaps (kern (env s))) (kpool (kern (env s)))) s.
Proof.
  intros Hr Hs. set (F := kbufs _). set (M0 := kmaps _). set (B := kpool _).
  unfold VirtIOWdfInitialize, set_dev, set_drv. wp_step. apply wp_modify. wp_step. apply wp_sys, wp_modify.
  change (env (s <| vdev := zero_device |>)) with (env s). pose proof (drv_ok_zero (env s) tag Hs) as W0. fold F M0 in W0.
  set (s0 := _ <| env := _ |>). assert (drv_ok F M0 [] nvec 1 (env s0)) as Ws0 by exact W0.
  assert (forall st s', info_block (vdev s') = [] -> drv_ok F M0 [] nvec 1 (env s') -> pVirtualAddress <$> MemoryBlockCollection (drv (env s')) ≡ₚ [] ->
    kpool (kern (env s')) ≡ₚ B -> NT_SUCCESS st = false -> opened F M0 B st s') as Stop.
  { intros st s' Hi Hw Hm Hp Es. exists [], []. split_and!; [done|by eapply fmap_perm_nil|done|done|by left|congruence]. }
  wp_step. eapply (sys_ok F M0 [] nvec 1); [apply keeps_krn, k_interface|done|]. intros st1 w1 W1 C1 P1.
  destruct (NT_SUCCESS st1) eqn:E1; cbn [negb]; [|wp_step; by apply Stop].
  wp_step. eapply (sys_ok F M0 [] nvec 1); [apply keeps_register|done|]. intros st2 w2 W2 C2 P2. change (env _) with w1 in C2, P2.
  assert (pVirtualAddress <$> MemoryBlockCollection (drv w2) ≡ₚ []) as C2' by (by rewrite C2, C1). assert (kpool (kern w2) ≡ₚ B) as P2' by (by rewrite P2, P1).
  destruct (NT_SUCCESS st2) eqn:E2; cbn [negb]; [|wp_step; by apply Stop].
  wp_step. apply wp_sys. eapply wp_mono; [by apply (PCIAllocBars_ok F M0 B)|].
  intros st3 w3 (leak & bars & W3 & P3 & C3 & _ & Hb & Hleak). cbv beta. cbn [env] in C3. assert (MemoryBlockCollection (drv w3) = []) as C3' by (rewrite C3; by eapply fmap_perm_nil).
  destruct (NT_SUCCESS st3) eqn:E3; cbn [negb]; [|wp_step; exists leak, bars; split_and!; [done|done|done|done|done|congruence]].
  assert (leak = []) as -> by (destruct Hleak as [|[-> _]]; done). cbn [app] in P3.
  wp_step. eapply (sys_ok F M0 bars nvec 1); [apply keeps_create_dma|done|]. intros st4 w4 W4 C4 P4. change (env _) with w3 in C4, P4. rewrite C3' in C4. apply fmap_perm_nil in C4.
  destruct (NT_SUCCESS st4) eqn:E4; cbn [negb].
  2: { wp_step. exists [], bars. split_and!; [done|done|cbn; by rewrite P4|done|by left|congruence]. }
  wp_step. eapply (sys_ok F M0 bars nvec 1); [by apply keeps_gets|done|]. intros nMSI w5 W5 C5 P5. change (env _) with w4 in C5, P5. rewrite C4 in C5. apply fmap_perm_nil in C5.
  match goal with |- wp (?a ≫= fun x => @?b x ≫= ?c) ?Φ ?st =>
    cut (wp ((a ≫= b) ≫= c) Φ st); [clear; unfold wp, mbind, M_bind; by destruct (a st) as [[? ?]|]|] end.
  wp_step. eapply wp_mono; [by apply (open_device_ok space caps R Dev F M0 bars nvec 1)|]. intros st6 s6 (Fd & N6 & P6 & B6 & D6). cbv beta. cbn in P6, B6.
  rewrite C5 in P6. apply fmap_perm_nil in P6. assert (info_block (vdev s6) = []) as I6 by (unfold info_block; by rewrite (proj1 Fd)).
  assert (kpool (kern (env s6)) ≡ₚ bars ++ B) as B6' by (by rewrite B6, P5, P4).
  wp_step. eapply (wp_mono _ (fun _ s7 => exists bars', vdev s7 = vdev s6 /\ drv_ok F M0 bars' nvec 1 (env s7) /\
    MemoryBlockCollection (drv (env s7)) = [] /\ kpool (kern (env s7)) ≡ₚ bars' ++ B)).
  { destruct (NT_SUCCESS st6); [wp_step; by exists bars|]. apply wp_sys. eapply wp_mono; [by apply (PCIFreeBars_ok F M0 nvec 1 bars B)|].
    intros [] w7 (W7 & P7 & D7). exists []. split_and!; [done|done|cbn; by rewrite D7|done]. }
  intros [] s7 (bars' & V7 & W7 & C7 & P7). cbv beta. wp_step.
  eapply (sys_ok F M0 bars' nvec 1); [apply keeps_set_drv; intros d; split_and!; [done|done|by left|by left]|done|].
  intros [] w8 W8 C8 P8. rewrite C7 in C8. apply fmap_perm_nil in C8. wp_step. exists [], bars'. cbn [env vdev]. change (vdev (s7 <| env := w8 |>)) with (vdev s7). rewrite V7.
  split_and!; [done|done|cbn; by rewrite P8|done|by left|auto].
Qed.

Lemma Shutdown_ok F M0 B bars fmax s : drv_ok F M0 bars nvec fmax (env s) -> kpool (kern (env s)) ≡ₚ info_block (vdev s) ++ bars ++ B ->
  wp VirtIOWdfShutdown (fun _ s' => drv_ok F M0 [] nvec fmax (env s') /\ kpool (kern (env s')) ≡ₚ B /\
    MemoryBlockCollection (drv (env s')) = MemoryBlockCollection (drv (env s))) s.
Proof.
  intros Hw Hp. unfold VirtIOWdfShutdown. wp_step.
  eapply (wp_mono _ (fun _ s1 => drv_ok F M0 bars nvec fmax (env s1) /\ kpool (kern (env s1)) ≡ₚ bars ++ B /\ drv (env s1) = drv (env s))).
  { unfold virtio_device_shutdown, dev. wp_step. wp_step. unfold info_block in Hp. destruct (info (vdev s)) as [| |va l]; [by wp_step|by wp_step|].
    wp_step. apply wp_sys. cbn [mem_free_nonpaged_block VirtIOWdfSystemOps]. apply wp_krn. eapply wp_mono; [apply (k_pool_free va (bars ++ B)); [apply Hw|exact Hp]|].
    intros [] k' (Rk & Bk & Mk & Pk). unfold set_dev. wp_step. split_and!; [|done|done].
    destruct Hw. split; cbn; rewrite ?Bk; try done. by rewrite Mk. }
  intros [] s1 (W1 & P1 & D1). cbv beta. wp_step. apply wp_sys. eapply wp_mono; [by apply (PCIFreeBars_ok F M0 nvec fmax bars B)|].
  intros [] w2 (W2 & P2 & D2). cbv beta. wp_step. split_and!; [done|done|]. cbn. by rewrite D2, D1.
Qed.

(** The buffers of a driver beside those of others. *)
Lemma bufs_size F M0 bars fmax w : drv_ok F M0 bars nvec fmax w ->
  F ⊆ kbufs (kern w) /\ size (kbufs (kern w)) = (size F + length (MemoryBlockCollection (drv w)))%nat.
Proof.
  intros Hw. split; [apply map_subseteq_spec, Hw|]. set (l := MemoryBlockCollection (drv w)).
  assert (dom (kbufs (kern w)) = list_to_set (WdfBuffer <$> l) ∪ dom F) as Ed.
  { apply set_eq. intros h. rewrite elem_of_union, elem_of_list_to_set, !elem_of_dom. split.
    - intros [c Hc]. destruct (do_other _ _ _ _ _ w Hw h c Hc); eauto.
    - intros [(b & -> & Hb)%list_elem_of_fmap|[c Hc]].
      + destruct (do_live _ _ _ _ _ w Hw b Hb). eauto.
      + apply (do_foreign _ _ _ _ _ w Hw) in Hc. eauto. }
  rewrite <- !size_dom, Ed, size_union, size_list_to_set, length_fmap; [unfold l; lia|apply (do_blocks _ _ _ _ _ w Hw)|].
  intros h (b & -> & Hb)%elem_of_list_to_set%list_elem_of_fmap [c Hc]%elem_of_dom. destruct (do_live _ _ _ _ _ w Hw b Hb). congruence.
Qed.

(** ** Power cycles

    A device is stopped, prepared (or its preparation has failed) or started. [lost]
    counts the failures in which the library forgets memory: a BAR whose address is not in
    the header, and a queue whose control block cannot be allocated. *)
Inductive phase := Stopped | Failed | Prepared | Started.
Definition lost_bar (st : Z) : nat := if st =? STATUS_NOT_FOUND then 1 else 0.
Definition lost_ring (st : Z) : nat := if st =? STATUS_INSUFFICIENT_RESOURCES then 1 else 0.
Abbreviation config := (phase * nat * vst (wdf K))%type.

Inductive wdf_step : config -> config -> Prop :=
| step_prepare c s res ci tag st s' : resources_ok res ->
    VirtIOWdfInitialize fuel res ci tag s = Ok (st, s') ->
    wdf_step (Stopped, c, s) (if NT_SUCCESS st then Prepared else Failed, (c + lost_bar st)%nat, s')
| step_features c s on off st s' : VirtIOWdfSetDriverFeatures on off s = Ok (st, s') -> wdf_step (Prepared, c, s) (Prepared, c, s')
| step_start c s n params st vqs s' : 0 <= n <= nvec -> nvec <= zlen params -> VirtIOWdfInitQueues n params s = Ok (st, vqs, s') ->
    wdf_step (Prepared, c, s) (if NT_SUCCESS st then Started else Prepared, (c + lost_ring st)%nat, s')
| step_use c s s' : ring_use s s' -> wdf_step (Started, c, s) (Started, c, s')
| step_stop c s st s' : VirtIOWdfDestroyQueues fuel s = Ok (st, s') -> wdf_step (Started, c, s) (Prepared, c, s')
| step_release c ph s st s' : ph = Prepared \/ ph = Failed -> VirtIOWdfShutdown s = Ok (st, s') -> wdf_step (ph, c, s) (Stopped, c, s').

Definition is_ok {A} (r : res A) : Prop := exists a, r = Ok a.

(** Every function the phase permits returns. *)
Definition proceeds (ph : phase) s : Prop :=
  match ph with
  | Stopped => forall res ci tag, resources_ok res -> is_ok (VirtIOWdfInitialize fuel res ci tag s)
  | Failed => is_ok (VirtIOWdfShutdown s)
  | Prepared => is_ok (VirtIOWdfShutdown s) /\ (forall on off, is_ok (VirtIOWdfSetDriverFeatures on off s)) /\
      forall n params, 0 <= n <= nvec -> nvec <= zlen params -> is_ok (VirtIOWdfInitQueues n params s)
  | Started => is_ok (VirtIOWdfDestroyQueues fuel s)
  end.

Lemma wp_is_ok {T A} (m : M T A) Φ (x : T) : wp m Φ x -> is_ok (m x).
Proof. unfold wp, is_ok. destruct (m x); [eauto|done]. Qed.
Lemma wp_run {T A} (m : M T A) (Φ : A -> T -> Prop) (x : T) a x' : wp m Φ x -> m x = Ok (a, x') -> Φ a x'.
Proof. unfold wp. intros Hw E. by rewrite E in Hw. Qed.

(** What a driver may still hold: [lb] and the buffers in [F] beside [F0], and the ring
    pages [P], no more than was lost. *)
Definition owes F0 (B0 : list Z) (c : nat) F B (P : list Z) : Prop :=
  F0 ⊆ F /\ exists lb, B ≡ₚ lb ++ B0 /\ (length lb + size F + length P <= c + size F0)%nat.

#[local] Abbreviation Inv F M0 bars t P B s := (vinv (H0 := wdf_ledger F M0 bars nvec (fbound t)) t P (bars ++ B) s).

Definition life_ok F0 (M0 B0 : list Z) (x : config) : Prop :=
  let '(ph, c, s) := x in
  match ph with
  | Stopped => running (kern (env s)) /\ kmaps (kern (env s)) ≡ₚ M0 /\ owes F0 B0 c (kbufs (kern (env s))) (kpool (kern (env s))) []
  | Failed => exists F B bars, owes F0 B0 c F B [] /\ drv_ok F M0 bars nvec 1 (env s) /\ MemoryBlockCollection (drv (env s)) = [] /\
      kpool (kern (env s)) ≡ₚ bars ++ B /\ info_block (vdev s) = []
  | Prepared => exists F B bars t P, owes F0 B0 c F B P /\ Inv F M0 bars t P B s /\ live (vdev s) /\ located t s /\ no_queues (vdev s)
  | Started => exists F B bars t P, owes F0 B0 c F B P /\ Inv F M0 bars t P B s /\ live (vdev s) /\ located t s
  end.

Lemma drv_ok_weaken F M0 M1 bars fmax w : drv_ok F M0 bars nvec 1 w -> M0 ≡ₚ M1 -> 1 <= fmax -> drv_ok F M1 bars nvec fmax w.
Proof. intros [] Hm Hf. split; try done; [by rewrite <- Hm|lia]. Qed.

Lemma fbound_pos t : 1 <= fbound t.
Proof. by destruct t. Qed.

(** Without queues the memory of the transport is its array. *)
Lemma release_device_ok F M0 B bars t P s : Inv F M0 bars t P B s -> no_queues (vdev s) ->
  wp VirtIOWdfShutdown (fun _ s' => drv_ok F M0 [] nvec (fbound t) (env s') /\ kpool (kern (env s')) ≡ₚ B /\
    length (MemoryBlockCollection (drv (env s'))) = length P) s.
Proof.
  intros I He. pose proof (inv_blocks _ _ _ _ I) as Ib. pose proof (inv_pages _ _ _ _ I) as Ip.
  rewrite owned_empty in Ib by (intros j x Hx; unfold own_ctl; by rewrite (He j x Hx)).
  rewrite owned_empty in Ip by (intros j x Hx; unfold own_page; by rewrite (He j x Hx)). cbn in Ib, Ip.
  eapply wp_mono; [apply (Shutdown_ok F M0 B bars (fbound t)); [apply I|exact Ib]|]. intros st s' (W & Pk & C). split_and!; [done|done|].
  rewrite C. apply Permutation_length in Ip. by rewrite length_fmap in Ip.
Qed.

Lemma shut_failed_ok F M0 B bars s : drv_ok F M0 bars nvec 1 (env s) -> MemoryBlockCollection (drv (env s)) = [] ->
  kpool (kern (env s)) ≡ₚ bars ++ B -> info_block (vdev s) = [] ->
  wp VirtIOWdfShutdown (fun _ s' => drv_ok F M0 [] nvec 1 (env s') /\ kpool (kern (env s')) ≡ₚ B /\
    MemoryBlockCollection (drv (env s')) = []) s.
Proof.
  intros W C Pk Ei. eapply wp_mono; [apply (Shutdown_ok F M0 B bars 1); [done|by rewrite Ei]|]. intros st s' (? & ? & E). by rewrite E.
Qed.

Lemma life_proceeds F0 M0 B0 ph c s : life_ok F0 M0 B0 (ph, c, s) -> proceeds ph s.
Proof.
  destruct ph; cbn [life_ok proceeds].
  - intros (Rk & _) res ci tag Hr. by eapply wp_is_ok, Initialize_ok.
  - intros (F & B & bars & _ & W & C & Pk & Ei). by eapply wp_is_ok, (shut_failed_ok F M0 B bars).
  - intros (F & B & bars & t & P & _ & I & L & Cm & E). split_and!.
    + by eapply wp_is_ok, (release_device_ok F M0 B bars t P).
    + intros on off. eapply wp_is_ok, (steady_driver_features F M0 bars nvec (fbound t) t); [done|apply I..].
    + intros n params Hn Hp. by eapply wp_is_ok, (InitQueues_ok F M0 bars nvec (fbound t) t P).
  - intros (F & B & bars & t & P & _ & I & L & Cm). by eapply wp_is_ok, (DestroyQueues_ok space caps R Dev F M0 bars nvec (fbound t) t P).
Qed.

(** *** Every step keeps the account *)

Lemma owes_more F0 B0 c d F B P leak leakp : owes F0 B0 c F B P -> (length leak + length leakp <= d)%nat ->
  owes F0 B0 (c + d) F (leak ++ B) (leakp ++ P).
Proof.
  intros (Hs & lb & Hb & Hc) Hl. split; [done|]. exists (leak ++ lb). rewrite Hb, !length_app, (assoc_L (++)). split; [done|lia].
Qed.

Lemma owes_stopped F0 B0 c F B P M0 fmax s : owes F0 B0 c F B P -> drv_ok F M0 [] nvec fmax (env s) -> kpool (kern (env s)) ≡ₚ B ->
  length (MemoryBlockCollection (drv (env s))) = length P -> life_ok F0 M0 B0 (Stopped, c, s).
Proof.
  intros (Hs & lb & Hb & Hc) W Pk Lp. destruct (bufs_size _ _ _ _ _ W) as [Sub Sz]. cbn [life_ok]. split_and!; [apply W| |].
  - rewrite (do_maps _ _ _ _ _ _ W). pose proof (do_bars _ _ _ _ _ _ W) as Eb. by destruct (PCIBars (drv (env s))).
  - split; [by etrans|]. exists lb. rewrite Pk, Sz. cbn [length]. split; [done|lia].
Qed.

Lemma life_prepare F0 M0 B0 c s res ci tag st s' : resources_ok res ->
  life_ok F0 M0 B0 (Stopped, c, s) -> VirtIOWdfInitialize fuel res ci tag s = Ok (st, s') ->
  life_ok F0 M0 B0 (if NT_SUCCESS st then Prepared else Failed, (c + lost_bar st)%nat, s').
Proof.
  intros Hr (Rk & Mk & O) E. destruct (wp_run _ _ _ _ _ (Initialize_ok res ci tag s Hr Rk) E) as (leak & bars & W & C & Pk & Ei & Hl & Hd).
  assert (owes F0 B0 (c + lost_bar st) (kbufs (kern (env s))) (leak ++ kpool (kern (env s))) []) as O'.
  { apply (owes_more F0 B0 c _ _ _ [] leak []); [done|]. unfold lost_bar. destruct Hl as [->|(-> & ->)]; cbn; [lia|done]. }
  destruct (NT_SUCCESS st); cbn [life_ok].
  - destruct (Hd eq_refl) as (Fd & t & Ht & Cm). pose proof (fbound_pos t) as Hf.
    exists (kbufs (kern (env s))), (leak ++ kpool (kern (env s))), bars, t, []. split; [done|].
    destruct (fresh_vinv (kbufs (kern (env s))) M0 bars nvec (fbound t) t (bars ++ leak ++ kpool (kern (env s))) s') as (? & ? & ?);
      [by eapply drv_ok_weaken|done|done|cbn; by rewrite C|done|by split_and!].
  - exists (kbufs (kern (env s))), (leak ++ kpool (kern (env s))), bars. split_and!; [done|by eapply drv_ok_weaken|done|done|done].
Qed.

Lemma life_start F0 M0 B0 c s n params st vqs s' : 0 <= n <= nvec -> nvec <= zlen params ->
  life_ok F0 M0 B0 (Prepared, c, s) -> VirtIOWdfInitQueues n params s = Ok (st, vqs, s') ->
  life_ok F0 M0 B0 (if NT_SUCCESS st then Started else Prepared, (c + lost_ring st)%nat, s').
Proof.
  intros Hn Hp (F & B & bars & t & P & O & I & L & Cm & Hq) E.
  destruct (wp_run _ _ _ _ _ (InitQueues_ok F M0 bars nvec (fbound t) t P _ n params s eq_refl Hn Hp I L Hq) E) as (L' & C' & Hr). cbn [fst snd] in Hr.
  destruct (NT_SUCCESS st); cbn [life_ok].
  - destruct Hr as (I' & _). exists F, B, bars, t, P. rewrite C'. split_and!; [|done|done|done]. apply (owes_more F0 B0 c _ F B P [] []); [done|cbn; lia].
  - destruct Hr as (leak & I' & Hq' & Hl). exists F, B, bars, t, (leak ++ P). rewrite C'. split_and!; [|done|done|done|done].
    apply (owes_more F0 B0 c _ F B P [] leak); [done|]. unfold lost_ring. destruct Hl as [->|(-> & ->)]; cbn; [lia|done].
Qed.

Lemma life_step F0 M0 B0 x y : wdf_step x y -> life_ok F0 M0 B0 x -> life_ok F0 M0 B0 y.
Proof.
  intros [c s res ci tag st s' Hr E|c s on off st s' E|c s n params st vqs s' Hn Hp E|c s s' U|c s st s' E|c ph s st s' Hph E] Hx.
  - by eapply life_prepare.
  - destruct Hx as (F & B & bars & t & P & O & I & L & Cm & Hq). exists F, B, bars, t, P.
    assert (tuned F M0 bars nvec (fbound t) s s') as T.
    { refine (wp_run _ _ _ _ _ (steady_driver_features F M0 bars nvec (fbound t) t on off eq_refl s _ _) E); apply I. }
    destruct (tuned_infos _ _ _ _ _ _ _ T) as (Ei & El & _ & Ec). unfold live, no_queues. rewrite Ei, El, Ec. split_and!; [done| |done|done|done].
    by eapply (vinv_tuned F M0 bars nvec (fbound t)).
  - by eapply life_start.
  - destruct Hx as (F & B & bars & t & P & O & I & L & Cm). exists F, B, bars, t, P. split_and!; [done|by eapply vinv_use|by apply U|].
    by destruct U as (_ & _ & -> & _).
  - destruct Hx as (F & B & bars & t & P & O & I & L & Cm). exists F, B, bars, t, P.
    destruct (wp_run _ _ _ _ _ (DestroyQueues_ok space caps R Dev F M0 bars nvec (fbound t) t P _ fuel s HR I Cm) E) as (I' & Hq & L' & C'). rewrite C'. split_and!; auto.
  - destruct Hph as [->| ->].
    + destruct Hx as (F & B & bars & t & P & O & I & L & Cm & Hq).
      destruct (wp_run _ _ _ _ _ (release_device_ok F M0 B bars t P s I Hq) E) as (W & Pk & Lp). by eapply owes_stopped.
    + destruct Hx as (F & B & bars & O & W & C & Pk & Ei).
      destruct (wp_run _ _ _ _ _ (shut_failed_ok F M0 B bars s W C Pk Ei) E) as (W' & Pk' & C'). eapply owes_stopped; [done|done|done|by rewrite C'].
Qed.

Lemma life_reach F0 M0 B0 x y : rtc wdf_step x y -> life_ok F0 M0 B0 x -> life_ok F0 M0 B0 y.
Proof. induction 1 as [|x y z Hstep _ IH]; [done|]. intros Hx. by apply IH, (life_step F0 M0 B0 x). Qed.

End phases.
