(* ===== verification/WdfDma.v ===== *)
(** * DMA transactions of the WDF helper library

    The transactions of Dma.c: [VirtIOWdfDeviceDmaAsync] creates a transaction object, the
    framework calls [OnDmaTransactionProgramDma] when the scatter-gather list is ready, and
    the driver completes the transaction when the device is done.  A reference count
    decides who deletes the object, and [OnDmaTransactionDestroy] frees what it holds.

    The state has the live objects with their contexts, the pool buffers with their contents,
    the MDLs, and the memory of the callers.  Using an object, a buffer or an MDL that
    does not exist is a fault.  What the framework and the allocator answer to one call is an
    argument, [answers]. *)

From Stdlib Require Import ZArith Lia.
From stdpp Require Import base list numbers option gmap.
From S2P Require Import Prelude.
From S2P Require Import Effects.
From S2P Require Import Virtio.

Inductive WDF_DMA_DIRECTION := WdfDmaDirectionReadFromDevice | WdfDmaDirectionWriteToDevice.

Record VIRTIO_DMA_TRANSACTION_PARAMS := mk_params {
  param1 : Z; param2 : Z; req : Z; buffer : Z; size_ : Z; allocationTag : Z; transaction : Z; sgList : Z }.
#[export] Instance eta_params : Eta VIRTIO_DMA_TRANSACTION_PARAMS := fun p =>
  mk_params (param1 p) (param2 p) (req p) (buffer p) (size_ p) (allocationTag p) (transaction p) (sgList p).

(** [ctx_callback] is the number of the caller's function. *)
Record VIRTIO_WDF_DMA_TRANSACTION_CONTEXT := mk_ctx {
  parameters : VIRTIO_DMA_TRANSACTION_PARAMS; ctx_callback : Z; mdl : Z; ctx_buffer : Z; refCount : Z; direction : WDF_DMA_DIRECTION }.
#[export] Instance eta_ctx : Eta VIRTIO_WDF_DMA_TRANSACTION_CONTEXT := fun c =>
  mk_ctx (parameters c) (ctx_callback c) (mdl c) (ctx_buffer c) (refCount c) (direction c).

Record dma := mk_dma { objects : gmap Z VIRTIO_WDF_DMA_TRANSACTION_CONTEXT; pool : gmap Z (list Z); mdls : gset Z; callers : gmap Z (list Z) }.
#[export] Instance eta_dma : Eta dma := fun s => mk_dma (objects s) (pool s) (mdls s) (callers s).

(** The status and the handle of the new object, a pool buffer with what is in it and an MDL
    or 0, and the statuses of the initialisation and the execution. *)
Record answers := mk_answers {
  an_create : Z; an_tr : Z; an_buffer : Z; an_junk : list Z; an_mdl : Z; an_init : Z; an_execute : Z }.

#[local] Abbreviation D := (M dma).

(** [GetDmaTransactionContext] *)
Definition get_ctx (tr : Z) : D VIRTIO_WDF_DMA_TRANSACTION_CONTEXT :=
  m ← gets objects; match m !! tr with Some c => mret c | None => throw NullPointer end.
Definition set_ctx (tr : Z) (f : VIRTIO_WDF_DMA_TRANSACTION_CONTEXT -> VIRTIO_WDF_DMA_TRANSACTION_CONTEXT) : D unit :=
  c ← get_ctx tr; modify (fun s => s <| objects := <[tr := f c]> (objects s) |>).

Definition IoFreeMdl (p : Z) : D unit :=
  m ← gets mdls; if decide (p ∈ m) then modify (fun s => s <| mdls := mdls s ∖ {[p]} |>) else throw NullPointer.
Definition free_pool (p : Z) : D unit :=
  m ← gets pool; match m !! p with Some _ => modify (fun s => s <| pool := delete p (pool s) |>) | None => throw NullPointer end.

Definition OnDmaTransactionDestroy (tr : Z) : D unit :=
  ctx ← get_ctx tr;
  (if negb (mdl ctx =? 0) then IoFreeMdl (mdl ctx) else mret tt);;
  (if negb (ctx_buffer ctx =? 0) then free_pool (ctx_buffer ctx) else mret tt).

(** Deleting an object runs its destroy callback. *)
Definition delete_object (tr : Z) : D unit :=
  OnDmaTransactionDestroy tr;; modify (fun s => s <| objects := delete tr (objects s) |>).

Definition RefTransaction (tr : Z) : D unit := set_ctx tr (fun c => c <| refCount := refCount c + 1 |>).
Definition DerefTransaction (tr : Z) : D unit :=
  set_ctx tr (fun c => c <| refCount := refCount c - 1 |>);;
  c ← get_ctx tr;
  if refCount c =? 0 then delete_object (transaction (parameters c)) else mret tt.

(** [OnDmaTransactionProgramDma] up to the callback, and what follows it. *)
Definition program_enter (Transaction SgList : Z) : D VIRTIO_DMA_TRANSACTION_PARAMS :=
  RefTransaction Transaction;;
  set_ctx Transaction (fun c => c <| parameters := (parameters c) <| transaction := Transaction |> <| sgList := SgList |> |>);;
  c ← get_ctx Transaction; mret (parameters c).
Definition program_leave (Transaction : Z) : D bool := DerefTransaction Transaction;; mret true.
Definition OnDmaTransactionProgramDma (callback : VIRTIO_DMA_TRANSACTION_PARAMS -> D bool) (Transaction SgList : Z) : D bool :=
  p ← program_enter Transaction SgList;
  _ ← callback p;
  program_leave Transaction.

(** [RtlCopyMemory] of [n] bytes. *)
Definition copy_from (src : option (list Z)) (n : Z) : D (list Z) :=
  match src with
  | Some d => if n <=? zlen d then mret (take (Z.to_nat n) d) else throw OutOfBounds
  | None => throw NullPointer
  end.

(** The buffer, its contents and its MDL, when there is no request. *)
Definition bounce (a : answers) (params : VIRTIO_DMA_TRANSACTION_PARAMS) (Direction : WDF_DMA_DIRECTION) (tr : Z) : D Z :=
  set_ctx tr (fun c => c <| ctx_buffer := an_buffer a |>);;
  if an_buffer a =? 0 then mret STATUS_INSUFFICIENT_RESOURCES
  else
    modify (fun s => s <| pool := <[an_buffer a := an_junk a]> (pool s) |>);;
    (match Direction with
     | WdfDmaDirectionWriteToDevice =>
         m ← gets callers; d ← copy_from (m !! buffer params) (size_ params);
         modify (fun s => s <| pool := <[an_buffer a := d]> (pool s) |>)
     | WdfDmaDirectionReadFromDevice => mret tt
     end);;
    set_ctx tr (fun c => c <| mdl := an_mdl a |>);;
    if an_mdl a =? 0 then mret STATUS_INSUFFICIENT_RESOURCES
    else modify (fun s => s <| mdls := {[an_mdl a]} ∪ mdls s |>);; mret (an_init a).

Definition VirtIOWdfDeviceDmaAsync (a : answers) (params : VIRTIO_DMA_TRANSACTION_PARAMS) (callback : Z) (Direction : WDF_DMA_DIRECTION) : D bool :=
  if negb (NT_SUCCESS (an_create a)) then mret false
  else
    let tr := an_tr a in
    modify (fun s => s <| objects := <[tr := mk_ctx params callback 0 0 1 Direction]> (objects s) |>);;
    status ← (if negb (req params =? 0) then mret (an_init a) else bounce a params Direction tr);
    if negb (NT_SUCCESS status) then delete_object tr;; mret false
    else if negb (NT_SUCCESS (an_execute a)) then delete_object tr;; mret false
    else mret true.
Definition VirtIOWdfDeviceDmaTxAsync (a : answers) (params : VIRTIO_DMA_TRANSACTION_PARAMS) (callback : Z) : D bool :=
  VirtIOWdfDeviceDmaAsync a params callback WdfDmaDirectionWriteToDevice.
Definition VirtIOWdfDeviceDmaRxAsync (a : answers) (params : VIRTIO_DMA_TRANSACTION_PARAMS) (callback : Z) : D bool :=
  VirtIOWdfDeviceDmaAsync a params callback WdfDmaDirectionReadFromDevice.

Definition VirtIOWdfDeviceDmaTxComplete (transaction : Z) : D unit := _ ← get_ctx transaction; DerefTransaction transaction.

Definition VirtIOWdfDeviceDmaRxComplete (transaction length : Z) : D unit :=
  ctx ← get_ctx transaction;
  (if negb (length =? 0) && negb (ctx_buffer ctx =? 0) && negb (buffer (parameters ctx) =? 0) then
     p ← gets pool; src ← copy_from (p !! ctx_buffer ctx) length;
     m ← gets callers;
     match m !! buffer (parameters ctx) with
     | Some d => if length <=? zlen d then modify (fun s => s <| callers := <[buffer (parameters ctx) := src ++ drop (Z.to_nat length) d]> (callers s) |>)
                 else throw OutOfBounds
     | None => throw NullPointer
     end
   else mret tt);;
  DerefTransaction transaction.
