(* ===== verification/WdfTransSpec.v ===== *)
(** * DMA transactions: every object is deleted once

    The life of the transactions under every interleaving of the program callback of the
    framework and the completion of the driver: no object, buffer or MDL is used after it
    has been freed or freed twice, and nothing is left when the transactions are over. *)

From Stdlib Require Import ZArith Lia.
From stdpp Require Import base list numbers option gmap relations.
From S2P Require Import Prelude.
From S2P Require Import Effects.
From S2P Require Import Virtio.
From S2P Require Import WdfDma.

(** ** Stages

    A transaction waits for its scatter-gather list; while the callback runs, the driver
    may already have completed it; it has left the callback and is not completed. *)
Inductive stage := Waiting | Running (completed : bool) | Left_.
Definition refs (g : stage) : Z := match g with Waiting => 1 | Running false => 2 | Running true => 1 | Left_ => 1 end.
Definition started (g : stage) : bool := match g with Waiting => false | _ => true end.
(** The driver may complete it. *)
Definition open (g : stage) : bool := match g with Running false | Left_ => true | _ => false end.

(** The answers of the framework and the allocator are about new objects. *)
Record fresh_answers (s : dma) (a : answers) (p : VIRTIO_DMA_TRANSACTION_PARAMS) : Prop := {
  fa_tr : objects s !! an_tr a = None;
  fa_buffer : an_buffer a <> 0 -> pool s !! an_buffer a = None /\ zlen (an_junk a) = size_ p;
  fa_mdl : an_mdl a <> 0 -> an_mdl a ∉ mdls s }.
(** A caller without a request has a buffer of the size it says, or none when it reads. *)
Definition params_ok (s : dma) (p : VIRTIO_DMA_TRANSACTION_PARAMS) (dir : WDF_DMA_DIRECTION) : Prop :=
  req p = 0 -> 0 <= size_ p /\ (buffer p = 0 -> dir = WdfDmaDirectionReadFromDevice) /\
  (buffer p <> 0 -> exists d, callers s !! buffer p = Some d /\ size_ p <= zlen d).

Section invariant.
Implicit Types (s : dma) (g : gmap Z stage) (c : VIRTIO_WDF_DMA_TRANSACTION_CONTEXT).

Record ctx_ok s (tr : Z) c (st : stage) : Prop := {
  co_refs : refCount c = refs st;
  co_self : started st = true -> transaction (parameters c) = tr;
  co_buffer : ctx_buffer c <> 0 -> 0 <= size_ (parameters c) /\ (exists d, pool s !! ctx_buffer c = Some d /\ zlen d = size_ (parameters c)) /\
    (buffer (parameters c) <> 0 -> exists d, callers s !! buffer (parameters c) = Some d /\ size_ (parameters c) <= zlen d);
  co_mdl : mdl c <> 0 -> mdl c ∈ mdls s }.

Record dma_inv (x : dma * gmap Z stage) : Prop := {
  di_dom tr : is_Some (objects x.1 !! tr) <-> is_Some (x.2 !! tr);
  di_ctx tr c st : objects x.1 !! tr = Some c -> x.2 !! tr = Some st -> ctx_ok x.1 tr c st;
  di_pool b d : pool x.1 !! b = Some d -> exists tr c, objects x.1 !! tr = Some c /\ ctx_buffer c = b /\ b <> 0;
  di_mdls m : m ∈ mdls x.1 -> exists tr c, objects x.1 !! tr = Some c /\ mdl c = m /\ m <> 0;
  di_buffers t1 t2 c1 c2 : objects x.1 !! t1 = Some c1 -> objects x.1 !! t2 = Some c2 -> ctx_buffer c1 = ctx_buffer c2 -> ctx_buffer c1 <> 0 -> t1 = t2;
  di_mdl t1 t2 c1 c2 : objects x.1 !! t1 = Some c1 -> objects x.1 !! t2 = Some c2 -> mdl c1 = mdl c2 -> mdl c1 <> 0 -> t1 = t2 }.

(** *** Objects *)

Lemma wp_get_ctx tr c (Φ : VIRTIO_WDF_DMA_TRANSACTION_CONTEXT -> dma -> Prop) s :
  objects s !! tr = Some c -> Φ c s -> wp (get_ctx tr) Φ s.
Proof. intros Hc HΦ. unfold get_ctx. wp_steps. by rewrite Hc. Qed.
Lemma wp_set_ctx tr f c (Φ : unit -> dma -> Prop) s :
  objects s !! tr = Some c -> Φ tt (s <| objects := <[tr := f c]> (objects s) |>) -> wp (set_ctx tr f) Φ s.
Proof. intros Hc HΦ. unfold set_ctx. wp_step. eapply wp_get_ctx; [done|]. by apply wp_modify. Qed.

(** What is left after an object is deleted. *)
Definition without (tr : Z) c s : dma :=
  mk_dma (delete tr (objects s)) (if ctx_buffer c =? 0 then pool s else delete (ctx_buffer c) (pool s))
    (if mdl c =? 0 then mdls s else mdls s ∖ {[mdl c]}) (callers s).

Lemma delete_object_ok tr c s : objects s !! tr = Some c -> (ctx_buffer c <> 0 -> is_Some (pool s !! ctx_buffer c)) -> (mdl c <> 0 -> mdl c ∈ mdls s) ->
  wp (delete_object tr) (fun _ s' => s' = without tr c s) s.
Proof.
  intros Hc Hb Hm. unfold delete_object, OnDmaTransactionDestroy. do 2 wp_step. eapply wp_get_ctx; [done|]. wp_step. unfold without.
  eapply (wp_mono _ (fun _ s1 => s1 = s <| mdls := if mdl c =? 0 then mdls s else mdls s ∖ {[mdl c]} |>)).
  { destruct (Z.eqb_spec (mdl c) 0) as [_|Hne]; cbn [negb]; [wp_step; by destruct s|]. unfold IoFreeMdl. wp_steps.
    rewrite decide_True by auto. by apply wp_modify. }
  intros [] ? ->. cbv beta.
  eapply (wp_mono _ (fun _ s2 => s2 = mk_dma (objects s) (if ctx_buffer c =? 0 then pool s else delete (ctx_buffer c) (pool s))
    (if mdl c =? 0 then mdls s else mdls s ∖ {[mdl c]}) (callers s))).
  { destruct (Z.eqb_spec (ctx_buffer c) 0) as [_|Hne]; cbn [negb]; [by wp_step|]. unfold free_pool. wp_steps.
    destruct (Hb Hne) as [d Hd]. cbn. rewrite Hd. by apply wp_modify. }
  intros [] ? ->. cbv beta. by apply wp_modify.
Qed.

(** Deleting an object keeps the others. *)
Lemma inv_without s g tr c : dma_inv (s, g) -> objects s !! tr = Some c -> dma_inv (without tr c s, delete tr g).
Proof.
  intros [Id Ic Ip Im Ib Imd] Hc. cbn in *.
  assert (forall t2 c2, objects s !! t2 = Some c2 -> t2 <> tr -> ctx_buffer c2 <> 0 -> ctx_buffer c2 <> ctx_buffer c) as Nb.
  { intros t2 c2 H2 Hne H0 E. by apply Hne, (Ib t2 tr c2 c). }
  assert (forall t2 c2, objects s !! t2 = Some c2 -> t2 <> tr -> mdl c2 <> 0 -> mdl c2 <> mdl c) as Nm.
  { intros t2 c2 H2 Hne H0 E. by apply Hne, (Imd t2 tr c2 c). }
  split; cbn.
  - intros t. destruct (decide (tr = t)) as [<-|Hne]; [by rewrite !lookup_delete_eq|]. by rewrite !lookup_delete_ne.
  - intros t c2 st. destruct (decide (tr = t)) as [<-|Hne]; [by rewrite lookup_delete_eq|]. rewrite !lookup_delete_ne by done.
    intros H2 Hg. destruct (Ic t c2 st H2 Hg) as [R Sf Bf Ml]. split; [done|done| |].
    + intros H0. destruct (Bf H0) as (Hs & (d & Hd & Hl) & Hcl). split_and!; [done| |done]. exists d. split; [|done]. cbn.
      case_match; [done|]. rewrite lookup_delete_ne; [done|]. symmetry. by eapply Nb.
    + intros H0. cbn. case_match; [by apply Ml|]. apply elem_of_difference. split; [by apply Ml|]. rewrite elem_of_singleton. by eapply Nm.
  - intros b d Hb. assert (pool s !! b = Some d /\ (ctx_buffer c <> 0 -> b <> ctx_buffer c)) as [Hb' Hbc].
    { destruct (Z.eqb_spec (ctx_buffer c) 0); [by split|]. apply lookup_delete_Some in Hb as [? ?]. by split; [|intros _]. }
    destruct (Ip b d Hb') as (t & c2 & H2 & Eb & H0). exists t, c2. split_and!; [|done|done].
    rewrite lookup_delete_ne; [done|]. intros <-. rewrite Hc in H2. injection H2 as <-. rewrite Eb in Hbc. by apply Hbc.
  - intros m Hm. assert (m ∈ mdls s /\ (mdl c <> 0 -> m <> mdl c)) as [Hm' Hmc].
    { destruct (Z.eqb_spec (mdl c) 0); [by split|]. apply elem_of_difference in Hm as [? Hn]. rewrite elem_of_singleton in Hn. by split. }
    destruct (Im m Hm') as (t & c2 & H2 & Em & H0). exists t, c2. split_and!; [|done|done].
    rewrite lookup_delete_ne; [done|]. intros <-. rewrite Hc in H2. injection H2 as <-. rewrite Em in Hmc. by apply Hmc.
  - intros t1 t2 c1 c2 [_ H1]%lookup_delete_Some [_ H2]%lookup_delete_Some. by apply Ib.
  - intros t1 t2 c1 c2 [_ H1]%lookup_delete_Some [_ H2]%lookup_delete_Some. by apply Imd.
Qed.

Lemma ctx_ok_objects s tr c st m : ctx_ok s tr c st -> ctx_ok (s <| objects := m |>) tr c st.
Proof. intros []. by split. Qed.

(** A context changes, but not what it holds. *)
Lemma inv_update s g tr c c' st' : dma_inv (s, g) -> objects s !! tr = Some c -> ctx_buffer c' = ctx_buffer c -> mdl c' = mdl c ->
  ctx_ok s tr c' st' -> dma_inv (s <| objects := <[tr := c']> (objects s) |>, <[tr := st']> g).
Proof.
  intros [Id Ic Ip Im Ib Imd] Hc Eb Em Hok. cbn in *.
  assert (forall t c2, <[tr := c']> (objects s) !! t = Some c2 -> exists c3, objects s !! t = Some c3 /\ ctx_buffer c2 = ctx_buffer c3 /\ mdl c2 = mdl c3) as Back.
  { intros t c2. destruct (decide (tr = t)) as [<-|Hne]; [rewrite lookup_insert_eq; intros [= <-]; eauto|]. rewrite lookup_insert_ne by done. eauto. }
  assert (forall t c2, objects s !! t = Some c2 -> exists c3, <[tr := c']> (objects s) !! t = Some c3 /\ ctx_buffer c3 = ctx_buffer c2 /\ mdl c3 = mdl c2) as Forth.
  { intros t c2 H2. destruct (decide (tr = t)) as [<-|Hne]; [rewrite lookup_insert_eq|rewrite lookup_insert_ne by done; eauto].
    rewrite Hc in H2. injection H2 as <-. eauto. }
  split; cbn.
  - intros t. destruct (decide (tr = t)) as [<-|Hne]; [by rewrite !lookup_insert_eq|]. by rewrite !lookup_insert_ne.
  - intros t c2 st. destruct (decide (tr = t)) as [<-|Hne].
    + rewrite !lookup_insert_eq. intros [= <-] [= <-]. by apply ctx_ok_objects.
    + rewrite !lookup_insert_ne by done. intros H2 Hg. by apply ctx_ok_objects, Ic.
  - intros b d Hb. destruct (Ip b d Hb) as (t & c2 & H2 & <- & H0). destruct (Forth t c2 H2) as (c3 & H3 & E3 & _). by exists t, c3.
  - intros m Hm. destruct (Im m Hm) as (t & c2 & H2 & <- & H0). destruct (Forth t c2 H2) as (c3 & H3 & _ & E3). by exists t, c3.
  - intros t1 t2 c1 c2 (a & Ha & Ea & _)%Back (b & Hb & Ebb & _)%Back E H0. rewrite Ea, Ebb in *. by eapply Ib.
  - intros t1 t2 c1 c2 (a & Ha & _ & Ea)%Back (b & Hb & _ & Ebb)%Back E H0. rewrite Ea, Ebb in *. by eapply Imd.
Qed.

(** *** References *)

(** The stage after a reference is given up. *)
Definition dropped (tr : Z) (st : option stage) g : gmap Z stage := match st with Some st => <[tr := st]> g | None => delete tr g end.

Lemma deref_ok s g tr c st st' : dma_inv (s, g) -> objects s !! tr = Some c -> g !! tr = Some st -> started st = true ->
  refs st = 1 + (match st' with Some st' => refs st' | None => 0 end) -> (forall x, st' = Some x -> started x = true) ->
  wp (DerefTransaction tr) (fun _ s' => dma_inv (s', dropped tr st' g) /\ callers s' = callers s) s.
Proof.
  intros I Hc Hg Hs Hr Hst. destruct (di_ctx _ I tr c st Hc Hg) as [R Sf Bf Ml]. specialize (Sf Hs). cbn in Bf, Ml.
  unfold DerefTransaction. wp_step. eapply wp_set_ctx; [done|]. set (c' := c <| refCount := refCount c - 1 |>). set (s1 := s <| objects := _ |>).
  wp_step. assert (objects s1 !! tr = Some c') as Hc1 by (by apply lookup_insert_eq). eapply wp_get_ctx; [done|].
  assert (refCount c' = refs st - 1) as R' by (unfold c'; cbn; lia). destruct st' as [st'|]; cbn [dropped].
  - rewrite (proj2 (Z.eqb_neq _ _)) by (rewrite R'; destruct st' as [|[]|]; cbn in Hr; lia). wp_step. split; [|done].
    apply (inv_update s g tr c); [done|done|done|done|]. split; [lia|by intros _|done|done].
  - rewrite (proj2 (Z.eqb_eq _ _)) by lia. change (transaction (parameters c')) with (transaction (parameters c)). rewrite Sf.
    eapply wp_mono; [apply (delete_object_ok tr c'); [done|..]|].
    + intros H0. destruct (Bf H0) as (_ & (d & Hd & _) & _). by exists d.
    + exact Ml.
    + intros [] ? ->. split; [|done]. replace (without tr c' s1) with (without tr c s); [by apply inv_without|].
      unfold without, s1. cbn. by rewrite delete_insert_eq.
Qed.

Lemma program_enter_ok s g tr sg c : dma_inv (s, g) -> objects s !! tr = Some c -> g !! tr = Some Waiting ->
  wp (program_enter tr sg) (fun p s' => dma_inv (s', <[tr := Running false]> g) /\ callers s' = callers s /\
    transaction p = tr /\ sgList p = sg /\ buffer p = buffer (parameters c)) s.
Proof.
  intros I Hc Hg. destruct (di_ctx _ I tr c _ Hc Hg) as [R Sf Bf Ml]. unfold program_enter, RefTransaction.
  wp_step. eapply wp_set_ctx; [done|]. wp_step. eapply wp_set_ctx; [by apply lookup_insert_eq|]. wp_step. eapply wp_get_ctx; [by apply lookup_insert_eq|].
  wp_step. split_and!; [|done|done|done|done].
  match goal with |- dma_inv (?x, _) => assert (x = s <| objects := <[tr := (c <| refCount := refCount c + 1 |>)
    <| parameters := (parameters c) <| transaction := tr |> <| sgList := sg |> |>]> (objects s) |>) as ->
    by exact (f_equal (fun o => mk_dma o (pool s) (mdls s) (callers s)) (insert_insert_eq (objects s) tr _ _)) end.
  apply (inv_update s g tr c); [done|done|done|done|]. split; [cbn; cbn in R; lia|done|exact Bf|exact Ml].
Qed.

(** *** A new transaction *)

Definition grown s (tr : Z) c (d : list Z) : dma :=
  mk_dma (<[tr := c]> (objects s)) (if ctx_buffer c =? 0 then pool s else <[ctx_buffer c := d]> (pool s))
    (if mdl c =? 0 then mdls s else {[mdl c]} ∪ mdls s) (callers s).

Record new_ctx s (a : answers) (p : VIRTIO_DMA_TRANSACTION_PARAMS) dir c (d : list Z) : Prop := {
  nc_params : parameters c = p;
  nc_refs : refCount c = 1;
  nc_buffer : ctx_buffer c = 0 \/ req p = 0 /\ ctx_buffer c = an_buffer a /\ zlen d = size_ p /\
    (dir = WdfDmaDirectionWriteToDevice -> exists u, callers s !! buffer p = Some u /\ d = take (Z.to_nat (size_ p)) u);
  nc_mdl : mdl c = 0 \/ mdl c = an_mdl a }.

Lemma delete_grown s a p dir tr c d : tr = an_tr a -> fresh_answers s a p -> new_ctx s a p dir c d ->
  wp (delete_object tr) (fun _ s' => s' = s) (grown s tr c d).
Proof.
  intros -> [Ft Fb Fm] [_ _ Nb Nm]. eapply wp_mono; [apply (delete_object_ok _ c)|].
  - apply lookup_insert_eq.
  - intros H0. cbn. rewrite (proj2 (Z.eqb_neq _ _)) by done. rewrite lookup_insert_eq. by eexists.
  - intros H0. cbn. rewrite (proj2 (Z.eqb_neq _ _)) by done. set_solver.
  - intros [] ? ->. destruct s as [o pl m cl]. cbn in Ft, Fb, Fm. unfold without, grown. cbn [objects pool mdls callers]. f_equal.
    + by apply delete_insert_id.
    + destruct (Z.eqb_spec (ctx_buffer c) 0) as [|H0]; [done|]. apply delete_insert_id. destruct Nb as [|(_ & E & _)]; [done|]. rewrite E in *. by apply Fb.
    + destruct (Z.eqb_spec (mdl c) 0) as [|H0]; [done|]. destruct Nm as [|E]; [done|]. rewrite E in *. specialize (Fm H0). apply set_eq. intros x. set_solver.
Qed.

Lemma bounce_ok s a p cb dir : fresh_answers s a p -> params_ok s p dir -> req p = 0 ->
  wp (bounce a p dir (an_tr a)) (fun st s' => exists c d, s' = grown s (an_tr a) c d /\ new_ctx s a p dir c d /\
    (NT_SUCCESS st = true -> ctx_buffer c <> 0)) (grown s (an_tr a) (mk_ctx p cb 0 0 1 dir) []).
Proof.
  intros [Ft Fb Fm] Hp Hr. destruct (Hp Hr) as (Hsz & Hnull & Hbuf). unfold bounce. wp_step. eapply wp_set_ctx; [by apply lookup_insert_eq|].
  destruct (Z.eqb_spec (an_buffer a) 0) as [E0|Hb0].
  { wp_step. exists (mk_ctx p cb 0 0 1 dir), []. split_and!; [|split; cbn; auto|done]. rewrite E0.
    exact (f_equal (fun o => mk_dma o (pool s) (mdls s) (callers s)) (insert_insert_eq (objects s) _ _ _)). }
  destruct (Fb Hb0) as [Fb1 Fb2]. wp_step. apply wp_modify. wp_step.
  set (s1 := _ <| pool := _ |>). eapply (wp_mono _ (fun _ s2 => exists d, s2 = mk_dma (objects s1) (<[an_buffer a := d]> (pool s)) (mdls s) (callers s) /\ zlen d = size_ p /\
    (dir = WdfDmaDirectionWriteToDevice -> exists u, callers s !! buffer p = Some u /\ d = take (Z.to_nat (size_ p)) u))).
  { destruct dir; [wp_step; by exists (an_junk a)|]. wp_step. apply wp_gets. destruct (Hbuf) as (u & Hu & Hl).
    { intros E0. by specialize (Hnull E0). }
    wp_step. unfold copy_from. cbn. rewrite Hu. rewrite (proj2 (Z.leb_le _ _)) by done. wp_steps.
    exists (take (Z.to_nat (size_ p)) u). split_and!; [|unfold zlen in *; rewrite length_take; lia|by exists u].
    exact (f_equal (fun q => mk_dma (objects s1) q (mdls s) (callers s)) (insert_insert_eq (pool s) _ _ _)). }
  intros [] ? (d & -> & Hd & Hw). cbv beta. wp_step. eapply wp_set_ctx; [by apply lookup_insert_eq|].
  assert (forall m, new_ctx s a p dir (mk_ctx p cb m (an_buffer a) 1 dir) d \/ m <> 0 /\ m <> an_mdl a) as New.
  { intros m. destruct (decide (m = 0 \/ m = an_mdl a)); [left|right; tauto]. split; cbn; [done|done| |tauto]. right. by split_and!. }
  destruct (Z.eqb_spec (an_mdl a) 0) as [Em|Hm0].
  - wp_step. exists (mk_ctx p cb 0 (an_buffer a) 1 dir), d. destruct (New 0) as [?|[? _]]; [|done]. split_and!; [|done|done]. unfold grown. cbn [ctx_buffer mdl].
    rewrite (proj2 (Z.eqb_neq _ _) Hb0). rewrite Em.
    refine (f_equal (fun o => mk_dma o _ _ _) _). etrans; [apply insert_insert_eq|]. etrans; [apply insert_insert_eq|done].
  - wp_step. apply wp_modify. wp_step. exists (mk_ctx p cb (an_mdl a) (an_buffer a) 1 dir), d. destruct (New (an_mdl a)) as [?|[_ ?]]; [|done].
    split_and!; [|done|done]. unfold grown. cbn [ctx_buffer mdl]. rewrite (proj2 (Z.eqb_neq _ _) Hb0), (proj2 (Z.eqb_neq _ _) Hm0).
    refine (f_equal (fun o => mk_dma o _ _ _) _). etrans; [apply insert_insert_eq|]. etrans; [apply insert_insert_eq|done].
Qed.

Lemma inv_grown s g a p dir c d : dma_inv (s, g) -> fresh_answers s a p -> params_ok s p dir -> new_ctx s a p dir c d ->
  dma_inv (grown s (an_tr a) c d, <[an_tr a := Waiting]> g).
Proof.
  intros [Id Ic Ip Im Ib Imd] [Ft Fb Fm] Hp [Np Nr Nb Nm]. cbn in *.
  assert (ctx_buffer c <> 0 -> req p = 0 /\ pool s !! ctx_buffer c = None /\ zlen d = size_ p) as Fb'.
  { intros H0. destruct Nb as [|(Hr & E & Hd & _)]; [done|]. rewrite E in *. by destruct (Fb H0). }
  assert (mdl c <> 0 -> mdl c ∉ mdls s) as Fm' by (intros H0; destruct Nm as [|E]; [done|]; rewrite E in *; by apply Fm).
  assert (forall t c2, objects s !! t = Some c2 -> exists st, ctx_ok s t c2 st /\ t <> an_tr a) as Old.
  { intros t c2 H2. destruct (proj1 (Id t)) as [st Hst]; [by eexists|]. exists st. split; [by apply Ic|]. intros ->. congruence. }
  assert (forall t c2, <[an_tr a := c]> (objects s) !! t = Some c2 -> t = an_tr a /\ c2 = c \/ t <> an_tr a /\ objects s !! t = Some c2) as Cases.
  { intros t c2. destruct (decide (an_tr a = t)) as [<-|Hne]; [rewrite lookup_insert_eq; intros [= <-]; by left|]. rewrite lookup_insert_ne by done. by right. }
  split; cbn.
  - intros t. destruct (decide (an_tr a = t)) as [<-|Hne]; [by rewrite !lookup_insert_eq|]. by rewrite !lookup_insert_ne.
  - intros t c2 st [[-> ->]|[Hne H2]]%Cases; [rewrite lookup_insert_eq|rewrite lookup_insert_ne by done].
    + intros [= <-]. split; [by rewrite Nr|done| |].
      * intros H0. destruct (Fb' H0) as (Hr & _ & Hd). destruct (Hp Hr) as (Hsz & _ & Hbuf). rewrite Np. cbn. rewrite (proj2 (Z.eqb_neq _ _) H0).
        split_and!; [done| |exact Hbuf]. exists d. by rewrite lookup_insert_eq.
      * intros H0. cbn. rewrite (proj2 (Z.eqb_neq _ _) H0). set_solver.
    + intros Hg. destruct (Ic t c2 st H2 Hg) as [R Sf Bf Ml]. split; [done|done| |].
      * intros H0. destruct (Bf H0) as (Hs & (x & Hx & Hl) & Hcl). split_and!; [done| |done]. exists x. split; [|done]. cbn. case_match; [done|].
        rewrite lookup_insert_ne; [done|]. intros E. rewrite <- E in Hx. destruct Fb' as (_ & F0 & _); [by rewrite E|]. congruence.
      * intros H0. cbn. case_match; [by apply Ml|]. apply elem_of_union_r. by apply Ml.
  - intros b x Hb. destruct (decide (b = ctx_buffer c /\ b <> 0)) as [[-> H0]|Hne].
    + exists (an_tr a), c. by rewrite lookup_insert_eq.
    + assert (pool s !! b = Some x) as Hb'.
      { destruct (Z.eqb_spec (ctx_buffer c) 0) as [|H0]; [done|]. rewrite lookup_insert_ne in Hb; [done|]. intros <-. by apply Hne. }
      destruct (Ip b x Hb') as (t & c2 & H2 & Eb & H0). exists t, c2. split_and!; [|done|done]. destruct (Old t c2 H2) as (_ & _ & Hnt). by rewrite lookup_insert_ne.
  - intros m Hm. destruct (decide (m = mdl c /\ m <> 0)) as [[-> H0]|Hne].
    + exists (an_tr a), c. by rewrite lookup_insert_eq.
    + assert (m ∈ mdls s) as Hm'.
      { destruct (Z.eqb_spec (mdl c) 0) as [|H0]; [done|]. apply elem_of_union in Hm as [->%elem_of_singleton|]; [|done]. destruct Hne. done. }
      destruct (Im m Hm') as (t & c2 & H2 & Eb & H0). exists t, c2. split_and!; [|done|done]. destruct (Old t c2 H2) as (_ & _ & Hnt). by rewrite lookup_insert_ne.
  - assert (forall t c2, objects s !! t = Some c2 -> ctx_buffer c2 = ctx_buffer c -> ctx_buffer c <> 0 -> False) as New.
    { intros t c2 H2 E H0. destruct (Old t c2 H2) as (st & [_ _ Bf _] & _). rewrite E in Bf. destruct (Bf H0) as (_ & (x & Hx & _) & _).
      destruct (Fb' H0) as (_ & F0 & _). congruence. }
    intros t1 t2 c1 c2 [[-> ->]|[_ H1]]%Cases [[-> ->]|[_ H2]]%Cases E H0; [done|by edestruct (New t2)|edestruct (New t1); [done|done|by rewrite <- E]|by eapply Ib].
  - assert (forall t c2, objects s !! t = Some c2 -> mdl c2 = mdl c -> mdl c <> 0 -> False) as New.
    { intros t c2 H2 E H0. destruct (Old t c2 H2) as (st & [_ _ _ Ml] & _). rewrite E in Ml. by apply (Fm' H0), Ml. }
    intros t1 t2 c1 c2 [[-> ->]|[_ H1]]%Cases [[-> ->]|[_ H2]]%Cases E H0; [done|by edestruct (New t2)|edestruct (New t1); [done|done|by rewrite <- E]|by eapply Imd].
Qed.

(** A call that fails leaves nothing behind. *)
Lemma dma_async_ok s g a p cb dir : dma_inv (s, g) -> fresh_answers s a p -> params_ok s p dir ->
  wp (VirtIOWdfDeviceDmaAsync a p cb dir) (fun b s' =>
    if b : bool then dma_inv (s', <[an_tr a := Waiting]> g) /\ callers s' = callers s /\
      (req p = 0 -> dir = WdfDmaDirectionWriteToDevice -> exists c u, objects s' !! an_tr a = Some c /\ callers s !! buffer p = Some u /\
        pool s' !! ctx_buffer c = Some (take (Z.to_nat (size_ p)) u))
    else s' = s) s.
Proof.
  intros I Fa Hp. unfold VirtIOWdfDeviceDmaAsync. destruct (NT_SUCCESS (an_create a)); cbn [negb]; [|by wp_step]. cbv zeta. wp_step. apply wp_modify.
  set (c0 := mk_ctx p cb 0 0 1 dir). change (s <| objects := <[an_tr a := c0]> (objects s) |>) with (grown s (an_tr a) c0 []).
  wp_step. eapply (wp_mono _ (fun st s' => exists c d, s' = grown s (an_tr a) c d /\ new_ctx s a p dir c d /\ (NT_SUCCESS st = true -> req p = 0 -> ctx_buffer c <> 0))).
  { destruct (Z.eqb_spec (req p) 0) as [Hr|Hr]; cbn [negb].
    - eapply wp_mono; [by apply bounce_ok|]. intros st s' (c & d & -> & N & Hb). exists c, d. split_and!; auto.
    - wp_step. exists c0, []. split_and!; [done|split; cbn; auto|done]. }
  intros st ? (c & d & -> & N & Hb). cbv beta. destruct (NT_SUCCESS st); cbn [negb].
  2: { wp_step. eapply wp_mono; [by eapply delete_grown|]. intros [] ? ->. by wp_step. }
  destruct (NT_SUCCESS (an_execute a)); cbn [negb].
  2: { wp_step. eapply wp_mono; [by eapply delete_grown|]. intros [] ? ->. by wp_step. }
  wp_step. split_and!; [by eapply inv_grown|done|]. intros Hr Hdir. specialize (Hb eq_refl Hr). destruct (nc_buffer _ _ _ _ _ _ N) as [|(_ & _ & _ & Hw)]; [done|].
  destruct (Hw Hdir) as (u & Hu & ->). exists c, u. cbn. rewrite lookup_insert_eq, (proj2 (Z.eqb_neq _ _) Hb), lookup_insert_eq. by split_and!.
Qed.

(** *** Completion *)

(** The memory of callers and what the device writes may change, but not the size of what a
    transaction uses. *)
Definition in_use s (b : Z) : Prop := b <> 0 /\ exists tr c, objects s !! tr = Some c /\ buffer (parameters c) = b.
Definition callers_kept s (m : gmap Z (list Z)) : Prop :=
  forall b u, in_use s b -> callers s !! b = Some u -> exists u', m !! b = Some u' /\ zlen u' = zlen u.

Lemma inv_callers s g m : dma_inv (s, g) -> callers_kept s m -> dma_inv (s <| callers := m |>, g).
Proof.
  intros [Id Ic Ip Im Ib Imd] Hm. split; try done. cbn. intros tr c st Hc Hg. destruct (Ic tr c st Hc Hg) as [R Sf Bf Ml]. split; [done|done| |done].
  intros H0. destruct (Bf H0) as (Hs & Hd & Hcl). split_and!; [done|done|]. intros Hb0. destruct (Hcl Hb0) as (u & Hu & Hl).
  destruct (Hm (buffer (parameters c)) u) as (u' & Hu' & Hl'); [split; [done|by exists tr, c]|done|]. exists u'. split; [done|lia].
Qed.

Lemma inv_device s g b d d' : dma_inv (s, g) -> pool s !! b = Some d -> zlen d' = zlen d -> dma_inv (s <| pool := <[b := d']> (pool s) |>, g).
Proof.
  intros [Id Ic Ip Im Ib Imd] Hb Hl. cbn in *. split; try done; cbn.
  - intros tr c st Hc Hg. destruct (Ic tr c st Hc Hg) as [R Sf Bf Ml]. split; [done|done| |done].
    intros H0. destruct (Bf H0) as (Hs & (x & Hx & Hlx) & Hcl). split_and!; [done| |done]. cbn. destruct (decide (b = ctx_buffer c)) as [->|Hne].
    + exists d'. rewrite lookup_insert_eq. split; [done|]. rewrite Hb in Hx. injection Hx as <-. lia.
    + exists x. by rewrite lookup_insert_ne.
  - intros b2 x. destruct (decide (b = b2)) as [<-|Hne]; [intros _; by apply (Ip b d)|]. rewrite lookup_insert_ne by done. by apply Ip.
Qed.

Definition after_complete (st : stage) : option stage := match st with Running _ => Some (Running true) | _ => None end.
Definition after_leave (st : stage) : option stage := match st with Running false => Some Left_ | _ => None end.

Lemma tx_complete_ok s g tr c st : dma_inv (s, g) -> objects s !! tr = Some c -> g !! tr = Some st -> open st = true ->
  wp (VirtIOWdfDeviceDmaTxComplete tr) (fun _ s' => dma_inv (s', dropped tr (after_complete st) g) /\ callers s' = callers s) s.
Proof.
  intros I Hc Hg Ho. unfold VirtIOWdfDeviceDmaTxComplete. wp_step. eapply wp_get_ctx; [done|].
  eapply (deref_ok s g tr c st); [done|done|done| | |]; destruct st as [|[]|]; try done; by intros ? [= <-].
Qed.

Lemma leave_ok s g tr c st : dma_inv (s, g) -> objects s !! tr = Some c -> g !! tr = Some (Running st) ->
  wp (program_leave tr) (fun _ s' => dma_inv (s', dropped tr (after_leave (Running st)) g) /\ callers s' = callers s) s.
Proof.
  intros I Hc Hg. unfold program_leave. wp_step. eapply wp_mono; [eapply (deref_ok s g tr c (Running st) (after_leave (Running st))); [done|done|done|done| |]|].
  - by destruct st.
  - destruct st; [done|]. by intros ? [= <-].
  - intros [] s' Hs. by wp_step.
Qed.

Definition rx_copies c (length : Z) : bool := negb (length =? 0) && negb (ctx_buffer c =? 0) && negb (buffer (parameters c) =? 0).

Lemma rx_complete_ok s g tr c st length : dma_inv (s, g) -> objects s !! tr = Some c -> g !! tr = Some st -> open st = true ->
  0 <= length <= size_ (parameters c) ->
  wp (VirtIOWdfDeviceDmaRxComplete tr length) (fun _ s' => dma_inv (s', dropped tr (after_complete st) g) /\
    if rx_copies c length then exists d u, pool s !! ctx_buffer c = Some d /\ callers s !! buffer (parameters c) = Some u /\
      callers s' = <[buffer (parameters c) := take (Z.to_nat length) d ++ drop (Z.to_nat length) u]> (callers s)
    else callers s' = callers s) s.
Proof.
  intros I Hc Hg Ho Hlen. unfold VirtIOWdfDeviceDmaRxComplete. wp_step. eapply wp_get_ctx; [done|]. fold (rx_copies c length). wp_step.
  assert (forall s1, dma_inv (s1, g) -> objects s1 = objects s -> wp (DerefTransaction tr) (fun _ s' => dma_inv (s', dropped tr (after_complete st) g) /\ callers s' = callers s1) s1) as Drop.
  { intros s1 I1 E1. eapply (deref_ok s1 g tr c st); [done|by rewrite E1|done| | |]; destruct st as [|[]|]; try done; by intros ? [= <-]. }
  destruct (rx_copies c length) eqn:Er; [|wp_step; by apply Drop].
  unfold rx_copies in Er. apply andb_true_iff in Er as [[H0 Hcb%negb_true_iff%Z.eqb_neq]%andb_true_iff Hpb%negb_true_iff%Z.eqb_neq].
  destruct (di_ctx _ I tr c st Hc Hg) as [_ _ Bf _]. destruct (Bf Hcb) as (_ & (d & Hd & Hl) & Hcl). destruct (Hcl Hpb) as (u & Hu & Hul). cbn in Hd, Hu.
  wp_step. apply wp_gets. wp_step. rewrite Hd. unfold copy_from. rewrite (proj2 (Z.leb_le _ _)) by lia. wp_step. wp_step. apply wp_gets. rewrite Hu.
  rewrite (proj2 (Z.leb_le _ _)) by lia. apply wp_modify. eapply wp_mono; [apply Drop; [|done]|].
  - apply inv_callers; [done|]. intros b x _ Hx. destruct (decide (buffer (parameters c) = b)) as [<-|Hne].
    + eexists. rewrite lookup_insert_eq. split; [done|]. rewrite Hu in Hx. injection Hx as <-.
      unfold zlen in *. rewrite length_app, length_take, length_drop. lia.
    + exists x. by rewrite lookup_insert_ne.
  - intros [] s' (I' & E'). split; [done|]. exists d, u. by split_and!.
Qed.
End invariant.

(** ** Every interleaving *)

Inductive dma_step : dma * gmap Z stage -> dma * gmap Z stage -> Prop :=
| step_async s g a p cb dir (b : bool) s' : fresh_answers s a p -> params_ok s p dir ->
    VirtIOWdfDeviceDmaAsync a p cb dir s = Ok (b, s') -> dma_step (s, g) (s', if b then <[an_tr a := Waiting]> g else g)
| step_enter s g tr sg p s' : g !! tr = Some Waiting -> program_enter tr sg s = Ok (p, s') -> dma_step (s, g) (s', <[tr := Running false]> g)
| step_leave s g tr b r s' : g !! tr = Some (Running b) -> program_leave tr s = Ok (r, s') ->
    dma_step (s, g) (s', dropped tr (after_leave (Running b)) g)
| step_tx s g tr st s' : g !! tr = Some st -> open st = true -> VirtIOWdfDeviceDmaTxComplete tr s = Ok (tt, s') ->
    dma_step (s, g) (s', dropped tr (after_complete st) g)
| step_rx s g tr st c length s' : g !! tr = Some st -> open st = true -> objects s !! tr = Some c -> 0 <= length <= size_ (parameters c) ->
    VirtIOWdfDeviceDmaRxComplete tr length s = Ok (tt, s') -> dma_step (s, g) (s', dropped tr (after_complete st) g)
| step_device s g b d d' : pool s !! b = Some d -> zlen d' = zlen d -> dma_step (s, g) (s <| pool := <[b := d']> (pool s) |>, g)
| step_callers s g m : callers_kept s m -> dma_step (s, g) (s <| callers := m |>, g).

Section theorem.
Implicit Types (s : dma) (g : gmap Z stage).

Lemma inv_live s g tr st : dma_inv (s, g) -> g !! tr = Some st -> exists c, objects s !! tr = Some c.
Proof. intros I Hg. destruct (proj2 (di_dom _ I tr)) as [c Hc]; [by exists st|]. by exists c. Qed.

Lemma run_wp {T A} (m : M T A) (Φ : A -> T -> Prop) (x : T) a x' : wp m Φ x -> m x = Ok (a, x') -> Φ a x'.
Proof. unfold wp. intros Hw E. by rewrite E in Hw. Qed.

Lemma dma_step_inv x y : dma_step x y -> dma_inv x -> dma_inv y.
Proof.
  intros [s g a p cb dir b s' Fa Hp E|s g tr sg p s' Hg E|s g tr b r s' Hg E|s g tr st s' Hg Ho E|s g tr st c length s' Hg Ho Hc Hl E|s g b d d' Hb Hl|s g m Hm] I.
  - pose proof (run_wp _ _ _ _ _ (dma_async_ok s g a p cb dir I Fa Hp) E) as Hr. destruct b; [by destruct Hr|]. by subst.
  - destruct (inv_live s g tr _ I Hg) as [c Hc]. by destruct (run_wp _ _ _ _ _ (program_enter_ok s g tr sg c I Hc Hg) E).
  - destruct (inv_live s g tr _ I Hg) as [c Hc]. by destruct (run_wp _ _ _ _ _ (leave_ok s g tr c b I Hc Hg) E).
  - destruct (inv_live s g tr _ I Hg) as [c Hc]. by destruct (run_wp _ _ _ _ _ (tx_complete_ok s g tr c st I Hc Hg Ho) E).
  - by destruct (run_wp _ _ _ _ _ (rx_complete_ok s g tr c st length I Hc Hg Ho Hl) E).
  - by eapply inv_device.
  - by apply inv_callers.
Qed.

Lemma dma_reach_inv x y : rtc dma_step x y -> dma_inv x -> dma_inv y.
Proof. induction 1 as [|x y z Hs _ IH]; [done|]. intros Hx. by eapply IH, dma_step_inv. Qed.

Lemma dma_inv_start m : dma_inv (mk_dma ∅ ∅ ∅ m, ∅).
Proof. split; cbn; intros; try set_solver; by rewrite ?lookup_empty in *. Qed.

(** Claim C36.  DMA transactions under every interleaving of the callback of the framework, the
    completion by the driver, the device and the callers: a call that fails leaves the
    state as it was; the callback, its end and the completion never use or free an object, a
    buffer or an MDL that is gone; a write hands the device a copy of the data of the
    caller, and a completed read copies exactly the bytes received to the caller; and when no
    transaction is under way, every object, buffer and MDL has been freed. *)
Theorem dma_transactions_correct m s g : rtc dma_step (mk_dma ∅ ∅ ∅ m, ∅) (s, g) ->
  (forall a p cb dir, fresh_answers s a p -> params_ok s p dir -> wp (VirtIOWdfDeviceDmaAsync a p cb dir) (fun b s' =>
    if b : bool then req p = 0 -> dir = WdfDmaDirectionWriteToDevice -> exists c u, objects s' !! an_tr a = Some c /\ callers s !! buffer p = Some u /\
        pool s' !! ctx_buffer c = Some (take (Z.to_nat (size_ p)) u)
    else s' = s) s) /\
  (forall tr sg, g !! tr = Some Waiting -> wp (program_enter tr sg) (fun p _ => transaction p = tr /\ sgList p = sg) s) /\
  (forall tr b, g !! tr = Some (Running b) -> wp (program_leave tr) (fun _ _ => True) s) /\
  (forall tr st, g !! tr = Some st -> open st = true -> wp (VirtIOWdfDeviceDmaTxComplete tr) (fun _ _ => True) s) /\
  (forall tr st c length, g !! tr = Some st -> open st = true -> objects s !! tr = Some c -> 0 <= length <= size_ (parameters c) ->
    wp (VirtIOWdfDeviceDmaRxComplete tr length) (fun _ s' =>
      if rx_copies c length then exists d u, pool s !! ctx_buffer c = Some d /\ callers s !! buffer (parameters c) = Some u /\
        callers s' = <[buffer (parameters c) := take (Z.to_nat length) d ++ drop (Z.to_nat length) u]> (callers s)
      else callers s' = callers s) s) /\
  (g = ∅ -> objects s = ∅ /\ pool s = ∅ /\ mdls s = ∅).
Proof.
  intros Hr. pose proof (dma_reach_inv _ _ Hr (dma_inv_start m)) as I. split_and!.
  - intros a p cb dir Fa Hp. eapply wp_mono; [by apply (dma_async_ok s g)|]. intros [] s'; [|done]. by intros (_ & _ & ?).
  - intros tr sg Hg. destruct (inv_live s g tr _ I Hg) as [c Hc]. eapply wp_mono; [by apply (program_enter_ok s g tr sg c)|]. by intros p s' (_ & _ & ? & ? & _).
  - intros tr b Hg. destruct (inv_live s g tr _ I Hg) as [c Hc]. eapply wp_mono; [by apply (leave_ok s g tr c b)|]. done.
  - intros tr st Hg Ho. destruct (inv_live s g tr _ I Hg) as [c Hc]. eapply wp_mono; [by apply (tx_complete_ok s g tr c st)|]. done.
  - intros tr st c length Hg Ho Hc Hl. eapply wp_mono; [by apply (rx_complete_ok s g tr c st length)|]. by intros [] s' (_ & ?).
  - intros ->. assert (objects s = ∅) as E0.
    { apply map_empty. intros tr. apply eq_None_not_Some. intros Ho. apply (di_dom _ I tr) in Ho. cbn in Ho. by rewrite lookup_empty in Ho; destruct Ho. }
    split_and!; [done| |].
    + apply map_empty. intros b. destruct (pool s !! b) as [d|] eqn:Eb; [|done]. destruct (di_pool _ I b d Eb) as (tr & c & Hc & _). cbn in Hc. by rewrite E0 in Hc.
    + apply set_eq. intros x. split; [|set_solver]. intros Hx. destruct (di_mdls _ I x Hx) as (tr & c & Hc & _). cbn in Hc. by rewrite E0 in Hc.
Qed.
End theorem.
