(* ===== verification/WdfExamples.v ===== *)
(** * The WDF helper library on a small kernel

    A kernel with a memory allocator and one modern virtio device behind memory BAR 4; the
    life of a driver on it, and the BAR that is forgotten when the header does not have
    its address. *)

From Stdlib Require Import ZArith Lia.
From stdpp Require Import base list numbers option gmap relations.
From S2P Require Import Prelude.
From S2P Require Import Effects.
From S2P Require Import Virtio.
From S2P Require Import SplitRing.
From S2P Require Import Pci.
From S2P Require Import PciSpec.
From S2P Require Import PciQueueSpec.
From S2P Require Import PciCapSpec.
From S2P Require Import PciDeviceSpec.
From S2P Require Import PciInitSpec.
From S2P Require Import PciExamples.
From S2P Require Import Wdf.
From S2P Require Import WdfSpec.
From S2P Require Import WdfLifeSpec.
From S2P Require Import WdfDma.
From S2P Require Import WdfTransSpec.

(** ** A kernel *)

Record toy := mk_toy { t_dev : pci_device; t_pool : list Z; t_bufs : gmap Z (Z * Z); t_maps : list Z; t_next : Z }.
#[export] Instance eta_toy : Eta toy := fun k => mk_toy (t_dev k) (t_pool k) (t_bufs k) (t_maps k) (t_next k).

(** The header has BAR 4 at 0xfe000000. *)
Definition toy_pa : Z := 0xfe000000.
Definition toy_bytes : list Z := take 32 space_bytes ++ le_split 4 toy_pa ++ drop 36 space_bytes.
Definition toy_space (a : Z) : Z := u8 (default 0 (toy_bytes⟦a⟧)).
Definition toy_caps : list Z := [0x40; 0x54; 0x68; 0x7c; 0x90].

Definition toy_reg (w a : Z) : option common_reg := reg_at w (a - toy_pa + 0x1000).
Definition toy_read (w a : Z) : M toy Z := fun k => Ok (match toy_reg w a with Some r => reg_read (t_dev k) r | None => 0 end, k).
Definition toy_write (w a v : Z) : M toy unit := fun k =>
  Ok (tt, match toy_reg w a with Some r => k <| t_dev := reg_write (t_dev k) r v |> | None => k end).
Definition toy_fine (n : Z) (k : toy) : bool := (0 <? n) && (t_next k + n <? 18446744073709551616).

#[export] Instance toy_kernel : WdfKernel toy := {
  READ_REGISTER := toy_read; READ_PORT := toy_read; WRITE_REGISTER := toy_write; WRITE_PORT := toy_write;
  KeGetCurrentIrql k := Ok (PASSIVE_LEVEL, k);
  KeDelayExecutionThread _ k := Ok (STATUS_SUCCESS, k <| t_dev := tick (t_dev k) |>);
  KeStallExecutionProcessor _ k := Ok (tt, k);
  ExAllocatePoolUninitialized n k := Ok (t_next k, k <| t_pool := t_next k :: t_pool k |> <| t_next := t_next k + 64 |>);
  ExFreePoolWithTag q k := Ok (tt, k <| t_pool := remove_one q (t_pool k) |>);
  MmMapIoSpaceEx pa n k := Ok (pa, if pa =? 0 then k else k <| t_maps := pa :: t_maps k |>);
  MmUnmapIoSpace q n k := Ok (tt, k <| t_maps := remove_one q (t_maps k) |>);
  MmGetPhysicalAddress a k := Ok (a, k);
  GetBusData a n k := Ok (toy_space <$> seqZ a n, k);
  WdfCommonBufferCreate n k := if toy_fine n k
    then Ok ((STATUS_SUCCESS, t_next k), k <| t_bufs := <[t_next k := (t_next k, n)]> (t_bufs k) |> <| t_next := t_next k + n |>)
    else Ok ((STATUS_INSUFFICIENT_RESOURCES, 0), k);
  WdfCommonBufferGetAlignedVirtualAddress h k := Ok (default 0 (fst <$> t_bufs k !! h), k);
  WdfCommonBufferGetAlignedLogicalAddress h k := Ok (default 0 (fst <$> t_bufs k !! h), k);
  WdfObjectDelete h k := Ok (tt, k <| t_bufs := delete h (t_bufs k) |>);
  WdfCollectionAdd k := Ok (STATUS_SUCCESS, k);
  WdfObjectAllocateContext _ k := Ok (STATUS_SUCCESS, k);
  WdfInterruptGetInfo i k := Ok ((true, u16 i mod 16), k);
  WdfFdoQueryForInterface k := Ok (STATUS_SUCCESS, k);
  WdfDmaEnablerCreate k := Ok (STATUS_SUCCESS, k);
  WdfCollectionCreate k := Ok (STATUS_SUCCESS, k);
  WdfSpinLockCreate k := Ok (STATUS_SUCCESS, k);
  WdfDeviceQueryPropertyEx k := Ok ((STATUS_SUCCESS, 2), k) }.

(** Addresses grow; a reset takes two milliseconds. *)
Definition toy_ok (k : toy) : Prop :=
  0x10000 <= t_next k /\ pd_reset_time (t_dev k) = 2%nat /\
  forall h b, t_bufs k !! h = Some b -> h < t_next k /\ b.1 + b.2 <= t_next k.

#[export] Instance toy_ledger : KernelLedger toy := {|
  kpool := t_pool; kbufs := t_bufs; kmaps := t_maps; running := toy_ok; starved _ := False;
  bar_pa i pa := i = 4 /\ pa = toy_pa; window i q := i = 4 /\ q = toy_pa |}.

Lemma reset_time_write d r v : pd_reset_time (reg_write d r v) = pd_reset_time d.
Proof. destruct r; cbn; unfold write_status, log_event; repeat case_match; done. Qed.
Lemma reset_time_tick d : pd_reset_time (tick d) = pd_reset_time d.
Proof. unfold tick. repeat case_match; done. Qed.

Lemma toy_reads w a : kkeeps (fun _ => True) (toy_read w a).
Proof. intros k Hk. by split_and!. Qed.
Lemma toy_device k d : toy_ok k -> pd_reset_time d = 2%nat -> unchanged k (k <| t_dev := d |>).
Proof. intros (N & T & B) Hd. unfold unchanged. split_and!; [by split_and!|done|done|done]. Qed.
Lemma toy_writes w a v : kkeeps (fun _ => True) (toy_write w a v).
Proof.
  intros k Hk. pose proof Hk as (N & T & B). unfold wp, toy_write. case_match; [|by split_and!]. split; [done|]. apply toy_device; [done|]. rewrite <- T. apply reset_time_write.
Qed.

Lemma toy_ok_mono k k' : toy_ok k -> t_next k <= t_next k' -> pd_reset_time (t_dev k') = pd_reset_time (t_dev k) ->
  (forall h b, t_bufs k' !! h = Some b -> t_bufs k !! h = Some b \/ h < t_next k' /\ b.1 + b.2 <= t_next k') -> toy_ok k'.
Proof.
  intros (N & T & B) Hn Ht Hb. split_and!; [lia|by rewrite Ht|]. intros h b Hh. destruct (Hb h b Hh) as [Ho|]; [|done]. destruct (B h b Ho). lia.
Qed.

#[export] Instance toy_laws : KernelLaws toy.
Proof.
  split; intros; try simple apply toy_reads; try simple apply toy_writes; try (intros k Hk; unfold wp; cbn; by split_and!); try (unfold wp; cbn; by split_and!).
  - done.
  - intros k Hk. pose proof Hk as (N & T & B). unfold wp. cbn. split; [done|]. apply toy_device; [done|]. rewrite <- T. apply reset_time_tick.
  - unfold wp. cbn. pose proof H as (N & T & B). split_and!; [eapply toy_ok_mono; [done|cbn; lia|done|by left]|done|done|].
    right. split; [lia|done].
  - unfold wp. cbn. split_and!; [eapply toy_ok_mono; [done|cbn; lia|done|by left]|done|done|]. by apply remove_one_perm.
  - unfold wp. cbn. destruct (Z.eqb_spec pa 0) as [->|Hne]; [split_and!; try done; by left|].
    split_and!; [eapply toy_ok_mono; [done|cbn; lia|done|by left]|done|done|right]. split_and!; [done|done|]. by intros i [-> ->].
  - unfold wp. cbn. split_and!; [eapply toy_ok_mono; [done|cbn; lia|done|by left]|done|done|]. by apply remove_one_perm.
  - intros k Hk. unfold wp. cbn. split; [|by split_and!]. unfold zlen. rewrite length_fmap, length_seqZ. lia.
  - unfold wp. cbn. pose proof H as (N & T & B). destruct (toy_fine n k) eqn:Ef; cbn; [|by split_and!].
    unfold toy_fine in Ef. apply andb_true_iff in Ef as [Hn%Z.ltb_lt Hm%Z.ltb_lt].
    assert (t_bufs k !! t_next k = None) as Hfree by (destruct (t_bufs k !! t_next k) as [b|] eqn:Eb; [destruct (B _ _ Eb); lia|done]).
    split_and!; [|done|done|done|].
    + eapply toy_ok_mono; [done|cbn; lia|done|]. intros h b. cbn. destruct (decide (t_next k = h)) as [<-|Hne].
      * rewrite lookup_insert_eq. intros [= <-]. right. cbn. lia.
      * rewrite lookup_insert_ne by done. by left.
    + exists (t_next k). split; [|done]. split_and!; [done|lia|lia|lia|]. intros h b Hb. destruct (B h b Hb). right. cbn. lia.
  - unfold wp. cbn. destruct (toy_fine n k) eqn:Ef; cbn; [done|]. intros _. by rewrite Ef.
  - unfold wp. cbn in H0 |- *. rewrite H0. by split_and!.
  - unfold wp. cbn. split_and!; [|done|done|done|done]. eapply toy_ok_mono; [done|cbn; lia|done|]. cbn. intros h' b Hb.
    apply lookup_delete_Some in Hb as [_ Hb]. by left.
  - intros k Hk. unfold wp. cbn. split; [|by split_and!]. pose proof (Z.mod_pos_bound (u16 i) 16 ltac:(lia)). unfold MAXUSHORT. cbn. lia.
Qed.

(** ** The device is there *)

Lemma toy_space_range a : 0 <= toy_space a < 256.
Proof. apply u8_range. Qed.

Lemma toy_common c : common_cap toy_space toy_caps c -> c = 0x40.
Proof.
  intros [Hc Ht]. unfold toy_caps in Hc. rewrite !elem_of_cons in Hc.
  destruct Hc as [->|[->|[->|[->|[->|Hc]]]]]; [done|discriminate Ht..|by apply elem_of_nil in Hc].
Qed.

Lemma toy_common_at a : common_at (K := toy) toy_space toy_caps a -> a = toy_pa.
Proof. intros (c & q & Hc%toy_common & [_ ->] & ->). subst c. by vm_compute. Qed.

(** The status register after a write of 0. *)
Lemma toy_status k : READ_PORT_OR_REGISTER (status_at toy_pa) 1 k = Ok (pd_status (t_dev k), k).
Proof. done. Qed.
Lemma toy_wait n k : u8 (pd_status (t_dev k)) = 0 \/ kanswers n (status_at toy_pa) (k <| t_dev := tick (t_dev k) |>) ->
  kanswers (S n) (status_at toy_pa) k.
Proof. intros Hk. cbn [kanswers]. unfold wp at 1. rewrite toy_status. destruct Hk; [by left|by right]. Qed.
Lemma toy_answers k : toy_ok k -> kanswers 2 (status_at toy_pa) (k <| t_dev := reg_write (t_dev k) device_status 0 |>).
Proof.
  intros (_ & T & _). set (d := reg_write (t_dev k) device_status 0).
  assert (pd_status d = pd_status (t_dev k) /\ pd_busy d = if pd_status (t_dev k) =? 0 then O else 2%nat) as [Es Eb].
  { unfold d. cbn. unfold write_status. cbn. by rewrite T. }
  destruct (Z.eqb_spec (pd_status (t_dev k)) 0) as [E0|_]; [apply toy_wait; left; change (u8 (pd_status d) = 0); by rewrite Es, E0|].
  apply toy_wait. right. apply toy_wait. right. cbn [kanswers]. unfold wp. rewrite toy_status. left.
  change (u8 (pd_status (tick (tick d))) = 0). unfold tick at 2. rewrite Eb. done.
Qed.

Lemma toy_there : device_there (K := toy) toy_space toy_caps 2.
Proof.
  split.
  - apply toy_space_range.
  - done.
  - repeat (eapply cap_next; [by vm_compute|by vm_compute|by vm_compute|]). by apply cap_end.
  - cbn. lia.
  - done.
  - by vm_compute.
  - intros a k ->%toy_common_at Hk. unfold wp, WRITE_PORT_OR_REGISTER. change (truth _) with true. cbv iota. cbn [WRITE_REGISTER toy_kernel].
    unfold toy_write. change (toy_reg 1 (status_at toy_pa)) with (Some device_status). by apply toy_answers.
Qed.

(** ** The life of a driver *)

Definition toy_resources : list (option CM_PARTIAL_RESOURCE_DESCRIPTOR) :=
  [Some (mk_res CmResourceTypeMemory 0 toy_pa 0x4000); Some (mk_res CmResourceTypeInterrupt CM_RESOURCE_INTERRUPT_MESSAGE 0 0); None].
Definition toy_start : vst (wdf toy) := mk_st zero_device (mk_wdf (zero_driver 0) ∅ (mk_toy demo_device [] ∅ [] 0x10000)).
Definition after {A S} (m : M S A) (s : S) : S := match m s with Ok (_, s') => s' | Fault _ => s end.

Definition toy_prepared := after (VirtIOWdfInitialize 10 toy_resources 7 0) toy_start.
Definition toy_negotiated := after (VirtIOWdfSetDriverFeatures (2 ^ VIRTIO_F_VERSION_1) 0) toy_prepared.
Definition toy_started := after (VirtIOWdfInitQueues 2 [8; 9]) toy_negotiated.
Definition toy_stopped := after (VirtIOWdfDestroyQueues 10) toy_started.
Definition toy_released := after VirtIOWdfShutdown toy_stopped.

(** While the queues run, the driver holds a BAR with its mapping, and a ring and a control
    block for each of two queues. *)
Example toy_holdings :
  (fun s => (t_pool (kern (env s)), map_to_list (t_bufs (kern (env s))), t_maps (kern (env s)))) <$> [toy_prepared; toy_started; toy_stopped; toy_released]
  = [([65536], [], [toy_pa]);
     ([77952; 73792; 65536], [(69696, (69696, 4096)); (73856, (73856, 4096))], [toy_pa]);
     ([65536], [], [toy_pa]); ([], [], [])].
Proof. vm_compute. reflexivity. Qed.

Lemma toy_resources_ok : resources_ok (K := toy) toy_space toy_resources.
Proof.
  intros r Hr. unfold toy_resources in Hr. rewrite !elem_of_cons in Hr. destruct Hr as [[= ->]|[[= ->]|[Hr|Hr]]]; [| |done|by apply elem_of_nil in Hr].
  - intros _ i Hi Hi0. vm_compute in Hi. injection Hi as <-. by split.
  - intros [?|?]; done.
Qed.

Lemma toy_start_ok : running (kern (env toy_start)).
Proof. by split_and!. Qed.

(** Each function of the run succeeds. *)
Definition ran {A S} (m : M S A) (s s' : S) (a : A) : Prop := m s = Ok (a, s').
Lemma toy_run : ran (VirtIOWdfInitialize 10 toy_resources 7 0) toy_start toy_prepared STATUS_SUCCESS /\
  ran (VirtIOWdfSetDriverFeatures (2 ^ VIRTIO_F_VERSION_1) 0) toy_prepared toy_negotiated STATUS_SUCCESS /\
  (exists vqs, ran (VirtIOWdfInitQueues 2 [8; 9]) toy_negotiated toy_started (STATUS_SUCCESS, vqs) /\ length vqs = 2%nat) /\
  ran (VirtIOWdfDestroyQueues 10) toy_started toy_stopped STATUS_SUCCESS /\ ran VirtIOWdfShutdown toy_stopped toy_released STATUS_SUCCESS.
Proof.
  split_and!; [by vm_compute|by vm_compute| |by vm_compute|by vm_compute].
  eexists. split; [vm_compute; reflexivity|done].
Qed.

Lemma run_cycle res s0 s1 s2 s3 s4 s5 vqs : resources_ok (K := toy) toy_space res ->
  ran (VirtIOWdfInitialize 10 res 7 0) s0 s1 STATUS_SUCCESS -> ran (VirtIOWdfSetDriverFeatures (2 ^ VIRTIO_F_VERSION_1) 0) s1 s2 STATUS_SUCCESS ->
  ran (VirtIOWdfInitQueues 2 [8; 9]) s2 s3 (STATUS_SUCCESS, vqs) -> ran (VirtIOWdfDestroyQueues 10) s3 s4 STATUS_SUCCESS ->
  ran VirtIOWdfShutdown s4 s5 STATUS_SUCCESS -> rtc (wdf_step toy_space 10 2) (Stopped, 0%nat, s0) (Stopped, 0%nat, s5).
Proof.
  intros Hr E1 E2 E3 E4 E5.
  eapply rtc_l; [exact (step_prepare toy_space 10 2 0 _ _ 7 0 _ _ Hr E1)|].
  eapply rtc_l; [exact (step_features toy_space 10 2 0 _ _ _ _ _ E2)|].
  eapply rtc_l; [refine (step_start toy_space 10 2 0 _ 2 _ _ _ _ _ _ E3); done|].
  eapply rtc_l; [exact (step_stop toy_space 10 2 0 _ _ _ E4)|].
  eapply rtc_l; [exact (step_release toy_space 10 2 0 Prepared _ _ _ (or_introl eq_refl) E5)|]. apply rtc_refl.
Qed.

Lemma toy_cycle : rtc (wdf_step toy_space 10 2) (Stopped, 0%nat, toy_start) (Stopped, 0%nat, toy_released).
Proof. destruct toy_run as (E1 & E2 & (vqs & E3 & _) & E4 & E5). exact (run_cycle _ _ _ _ _ _ _ _ toy_resources_ok E1 E2 E3 E4 E5). Qed.


(** A resource that is not in the header: its BAR, at 65600, is forgotten, and releasing the device
    does not give it back. *)
Example bar_leak :
  (fun r => match r with Ok (st, s) => (st, t_pool (kern (env s))) | Fault _ => (0, []) end)
    ((st ← VirtIOWdfInitialize 10 (toy_resources ++ [Some (mk_res CmResourceTypeMemory 0 0xfd000000 0x1000)]) 7 0; VirtIOWdfShutdown;; mret st) toy_start)
  = (STATUS_NOT_FOUND, [65600]).
Proof. vm_compute. reflexivity. Qed.

(** ** Two blocks with different tags *)

Definition toy_blocks1 := after (VirtIOWdfDeviceAllocDmaMemory 100 5) (env toy_start).
Definition toy_blocks2 := after (VirtIOWdfDeviceAllocDmaMemory 200 6) toy_blocks1.

Lemma toy_alloc n tag w w' q : drv_ok ∅ [] [] 0 1 w -> ran (VirtIOWdfDeviceAllocDmaMemory n tag) w w' q -> drv_ok ∅ [] [] 0 1 w'.
Proof. intros Hw E. by destruct (wp_run _ _ _ _ _ (alloc_buffer_ok ∅ [] [] 0 1 n tag w Hw) E) as (? & _). Qed.

Lemma toy_blocks_ok : drv_ok (∅ : gmap Z (Z * Z)) [] [] 0 1 toy_blocks2.
Proof.
  eapply (toy_alloc 200 6 toy_blocks1); [eapply (toy_alloc 100 5 (env toy_start))|]; [|vm_compute; reflexivity|vm_compute; reflexivity].
  exact (drv_ok_zero 0 (env toy_start) 0 toy_start_ok).
Qed.


(** ** A transaction that is completed while its callback still runs *)

Definition tx_params : VIRTIO_DMA_TRANSACTION_PARAMS := mk_params 0 0 0 100 3 0 0 0.
Definition tx_answers : answers := mk_answers STATUS_SUCCESS 1 200 [0; 0; 0] 300 STATUS_SUCCESS STATUS_SUCCESS.
Definition tx_start : dma := mk_dma ∅ ∅ ∅ {[100 := [7; 8; 9; 10]]}.
Definition tx_waiting := after (VirtIOWdfDeviceDmaTxAsync tx_answers tx_params 5) tx_start.
Definition tx_running := after (program_enter 1 77) tx_waiting.
Definition tx_completed := after (VirtIOWdfDeviceDmaTxComplete 1) tx_running.
Definition tx_over := after (program_leave 1) tx_completed.

(** The copy of the data, and what is left at each point. *)
Example tx_holdings : ((fun s => (map_to_list (pool s), size (objects s), size (mdls s))) <$> [tx_waiting; tx_running; tx_completed; tx_over])
  = [([(200, [7; 8; 9])], 1%nat, 1%nat); ([(200, [7; 8; 9])], 1%nat, 1%nat); ([(200, [7; 8; 9])], 1%nat, 1%nat); ([], 0%nat, 0%nat)].
Proof. vm_compute. reflexivity. Qed.

Lemma run_tx s0 s1 s2 s3 s4 p r : fresh_answers s0 tx_answers tx_params -> params_ok s0 tx_params WdfDmaDirectionWriteToDevice ->
  VirtIOWdfDeviceDmaAsync tx_answers tx_params 5 WdfDmaDirectionWriteToDevice s0 = Ok (true, s1) -> program_enter 1 77 s1 = Ok (p, s2) ->
  VirtIOWdfDeviceDmaTxComplete 1 s2 = Ok (tt, s3) -> program_leave 1 s3 = Ok (r, s4) -> rtc dma_step (s0, ∅) (s4, ∅).
Proof.
  intros Hf Hp E1 E2 E3 E4. eapply rtc_l; [exact (step_async s0 ∅ _ _ _ _ _ _ Hf Hp E1)|].
  eapply rtc_l; [eapply (step_enter s1); [|exact E2]; reflexivity|].
  eapply rtc_l; [eapply (step_tx s2 _ 1 (Running false)); [| |exact E3]; reflexivity|].
  eapply rtc_l; [eapply (step_leave s3 _ 1 true); [|exact E4]; reflexivity|].
  match goal with |- rtc _ (_, ?g) _ => assert (g = ∅) as -> by (vm_compute; reflexivity) end. apply rtc_refl.
Qed.

Lemma tx_reach : rtc dma_step (tx_start, ∅) (tx_over, ∅).
Proof.
  eapply (run_tx tx_start tx_waiting tx_running tx_completed tx_over); [| |vm_compute; reflexivity..].
  - split; [done|done|]. intros _. set_solver.
  - intros _. split_and!; [done|done|]. intros _. by exists [7; 8; 9; 10].
Qed.

Lemma dma_transactions_correct_witness : rtc dma_step (tx_start, ∅) (tx_over, ∅) /\ objects tx_over = ∅ /\ pool tx_over = ∅ /\ mdls tx_over = ∅.
Proof.
  split; [exact tx_reach|]. destruct (dma_transactions_correct {[100 := [7; 8; 9; 10]]} tx_over ∅ tx_reach) as (_ & _ & _ & _ & _ & Hend).
  exact (Hend eq_refl).
Defined.
