(* ===== verification/Balloon.v ===== *)
(** * The balloon driver

    Balloon/sys: inflating and deflating the balloon and telling the host (balloon.c), the
    worker thread, interrupts and power transitions (Device.c), and the memory statistics
    (memstat.c), in the 64-bit build without the balloon service.

    The kernel, the framework, the WDF helper library and the device are the class
    [BalloonKernel] over a state [K].  A thread that waits lets others run: [meanwhile] says
    what happens during a wait, in which order.  Between two waits the operations of one
    thread touch nothing that the interrupt handler touches, apart from the queues and the
    events, whose operations are atomic; so what happens elsewhere in the code can be moved to
    the next wait. *)

From Stdlib Require Import ZArith Lia.
From stdpp Require Import base list numbers option gmap.
From S2P Require Import Prelude.
From S2P Require Import Effects.
From S2P Require Import Virtio.
From S2P Require Import VirtQueue.

Definition STATUS_TIMEOUT : Z := 0x102.
Definition STATUS_WAIT_0 : Z := 0.
Definition STATUS_NOT_FOUND : Z := 0xC0000225.
Definition STATUS_NO_SUCH_DEVICE : Z := 0xC000000E.
Definition STATUS_NO_MORE_ENTRIES : Z := 0x8000001A.

Definition VIRTIO_BALLOON_F_STATS_VQ : Z := 1.
Definition VIRTIO_BALLOON_S_NR : Z := 10.
Definition sizeof_BALLOON_STAT : Z := 10.
Definition sizeof_PFN_NUMBER : Z := 8.
Definition PAGE_SHIFT : Z := 12.
Definition config_num_pages : Z := 0.
Definition config_actual : Z := 4.

(** ** Data *)

Record BALLOON_STAT := mk_stat { tag : Z; val : Z }.
#[export] Instance BALLOON_STAT_eq_dec : EqDecision BALLOON_STAT.
Proof. solve_decision. Defined.

(** An entry with its address. *)
Record PAGE_LIST_ENTRY := mk_entry { SingleListEntry : Z; PageMdl : Z }.

(** The parts of the query results that are used. *)
Record SYSTEM_PERFORMANCE_INFORMATION := mk_perf {
  PageReadCount : Z; DirtyPagesWriteCount : Z; MappedPagesWriteCount : Z; CopyOnWriteCount : Z; TransitionCount : Z;
  CacheTransitionCount : Z; DemandZeroCount : Z; AvailablePages : Z }.
Record SYSTEM_FILECACHE_INFORMATION := mk_cache { CurrentSize : Z; MinimumWorkingSet : Z; CacheFlags : Z }.

Inductive queue := Inflate | Deflate | Stats.

(** [DEVICE_CONTEXT].  A queue that does not exist is [None]; pointers are numbers, 0 is NULL;
    [pfns] and [mem_stats] are the contents of the blocks [pfns_table] and [MemStats] point
    to; [StatWorkItem] tells whether the work item is queued.  [self] is the address of the
    context. *)
Record DEVICE_CONTEXT {Q : Type} := mk_ctx {
  self : Z; SurpriseRemoval : bool; evLowMem : Z;
  InfVirtQueue : option Q; DefVirtQueue : option Q; StatVirtQueue : option Q;
  HostAckEvent : bool; num_pages : Z; num_pfns : Z; pfns_table : Z; bListInitialized : bool;
  PageListHead : list PAGE_LIST_ENTRY; MemStats : Z; WakeUpThread : bool; Thread : bool; bShutDown : bool;
  StatWorkItem : bool; WorkCount : Z; pfns : list Z; mem_stats : list BALLOON_STAT }.
Arguments DEVICE_CONTEXT : clear implicits.
#[export] Instance eta_context {Q} : Eta (DEVICE_CONTEXT Q) := fun c =>
  mk_ctx _ (self c) (SurpriseRemoval c) (evLowMem c) (InfVirtQueue c) (DefVirtQueue c) (StatVirtQueue c)
    (HostAckEvent c) (num_pages c) (num_pfns c) (pfns_table c) (bListInitialized c) (PageListHead c) (MemStats c)
    (WakeUpThread c) (Thread c) (bShutDown c) (StatWorkItem c) (WorkCount c) (pfns c) (mem_stats c).

(** What happens while a thread waits: the device works on the queues, the DPC runs, the work
    item runs, the device is removed, or another thread asks the worker to end. *)
Inductive activity := DeviceRuns | DpcRuns | WorkItemRuns | RemovalComes | ShutDownComes.

(** ** The kernel, the framework and the device

    Functions with a status and a result give both.  [wait_low_memory] is the wait for
    [evLowMem] without a timeout.  [device_runs] sees a queue and the memory that its buffers
    lie in. *)
Class BalloonKernel (Q K : Type) := {
  MmAllocatePagesForMdlEx : Z -> M K Z;
  MmGetMdlByteCount : Z -> M K Z;
  MmGetMdlPfnArray : Z -> M K (list Z);
  MmFreePagesFromMdl : Z -> M K unit;
  ExFreePool : Z -> M K unit;
  ExAllocateFromNPagedLookasideList : M K Z;
  ExFreeToNPagedLookasideList : Z -> M K unit;
  ExDeleteNPagedLookasideList : M K unit;
  wait_low_memory : M K Z;
  IoCreateNotificationEvent : M K Z;
  ZwClose : M K unit;
  PsCreateSystemThread : M K Z;
  ZwQueryBasic : M K (Z * Z);
  ZwQueryPerformance : M K (Z * SYSTEM_PERFORMANCE_INFORMATION);
  ZwQueryFileCache : M K (Z * SYSTEM_FILECACHE_INFORMATION);
  framework_create : M K Z;
  VirtIOWdfInitialize : M K Z;
  VirtIOWdfShutdown : M K unit;
  VirtIOWdfDeviceAllocDmaMemory : Z -> M K Z;
  VirtIOWdfDeviceFreeDmaMemoryByTag : M K unit;
  VirtIOWdfDeviceGetPhysicalAddress : Z -> M K Z;
  VirtIOWdfGetDeviceFeatures : M K Z;
  VirtIOWdfSetDriverFeatures : Z -> M K Z;
  VirtIOWdfInitQueues : Z -> M K (Z * list Q);
  VirtIOWdfDestroyQueues : M K unit;
  VirtIOWdfSetDriverOK : M K unit;
  VirtIOWdfSetDriverFailed : M K unit;
  VirtIOWdfGetISRStatus : M K Z;
  VirtIOWdfDeviceGet_u32 : Z -> M K Z;
  VirtIOWdfDeviceSet_u32 : Z -> Z -> M K unit;
  meanwhile : M K (list activity);
  device_runs : queue -> Q -> list Z -> M K Q }.

(** [Counters]: the low and the high half of each. *)
Record balloon (Q K : Type) := mk_balloon { dctx : DEVICE_CONTEXT Q; Counters : list (Z * Z); kern : K }.
Arguments mk_balloon {Q K} _ _ _.
Arguments dctx {Q K} _.
Arguments Counters {Q K} _.
Arguments kern {Q K} _.
#[export] Instance eta_balloon Q K : Eta (balloon Q K) := fun s => mk_balloon (dctx s) (Counters s) (kern s).

Section driver.
Context {Q K : Type} `{AsyncQueue Q} `{BalloonKernel Q K}.
#[local] Abbreviation B := (M (balloon Q K)).

Definition krn {A} (m : M K A) : B A :=
  fun s => match m (kern s) with Ok (a, k) => Ok (a, s <| kern := k |>) | Fault f => Fault f end.
Definition ctxg {A} (f : DEVICE_CONTEXT Q -> A) : B A := gets (fun s => f (dctx s)).
Definition set_ctx (f : DEVICE_CONTEXT Q -> DEVICE_CONTEXT Q) : B unit := modify (fun s => s <| dctx := f (dctx s) |>).

(** ** Queues *)

Definition get_queue (w : queue) (c : DEVICE_CONTEXT Q) : option Q :=
  match w with Inflate => InfVirtQueue c | Deflate => DefVirtQueue c | Stats => StatVirtQueue c end.
Definition put_queue (w : queue) (q : Q) (c : DEVICE_CONTEXT Q) : DEVICE_CONTEXT Q :=
  match w with
  | Inflate => c <| InfVirtQueue := Some q |>
  | Deflate => c <| DefVirtQueue := Some q |>
  | Stats => c <| StatVirtQueue := Some q |>
  end.

(** A call on a queue. *)
Definition on_queue {A} (w : queue) (f : Q -> res (A * Q)) : B A :=
  c ← gets dctx;
  match get_queue w c with
  | None => throw NullPointer
  | Some q => '(a, q) ← pure (f q); set_ctx (put_queue w q);; mret a
  end.
Definition virtqueue_add_buf (w : queue) (sg : list VirtIOBufferDescriptor) : B Z :=
  devCtx ← ctxg self; on_queue w (fun q => vsq_add_buf q sg 1 0 devCtx None).
Definition virtqueue_get_buf (w : queue) : B (option (Z * Z)) := on_queue w vsq_get_buf.
Definition virtqueue_kick_prepare (w : queue) : B bool := on_queue w (fun q => Ok (vsq_kick_prepare q)).
Definition virtqueue_notify (w : queue) : B unit := on_queue w (fun q => Ok (tt, vsq_notify q)).
Definition virtqueue_enable_cb (w : queue) : B bool := on_queue w vsq_enable_cb.
Definition virtqueue_disable_cb (w : queue) : B unit := on_queue w (fun q => Ok (tt, vsq_disable_cb q)).
Definition notify_if (do_notify : bool) (w : queue) : B unit := if do_notify then virtqueue_notify w else mret tt.
Definition virtqueue_kick (w : queue) : B unit := b ← virtqueue_kick_prepare w; notify_if b w.

(** ** memstat.c *)

Definition UpdateOverflowFreeCounter (ofc : Z * Z) (value : Z) : Z * Z :=
  (value, if value <? ofc.1 then u32 (ofc.2 + 1) else ofc.2).
Definition QuadPart (c : Z * Z) : Z := c.1 + Z.shiftl c.2 32.

(** [UpdateNoOverflow]: counter [i] gets the value, the result is all of it. *)
Definition UpdateNoOverflow (i value : Z) : B Z :=
  l ← gets Counters; c ← pure (zget l i);
  let c := UpdateOverflowFreeCounter c value in
  modify (fun s => s <| Counters := zinsert i c (Counters s) |>);; mret (QuadPart c).

(** [UpdateStat(&stats[idx], ...)] *)
Definition UpdateStat (idx tag val : Z) : B unit :=
  l ← ctxg mem_stats; l ← pure (zset l idx (mk_stat tag val)); set_ctx (fun c => c <| mem_stats := l |>).

Definition QUOTA_LIMITS_HARDWS_MIN_ENABLE : Z := 1.
Definition cache_size (c : SYSTEM_FILECACHE_INFORMATION) : Z :=
  let min := u64 (Z.shiftl (MinimumWorkingSet c) PAGE_SHIFT) in
  if truth (Z.land (CacheFlags c) QUOTA_LIMITS_HARDWS_MIN_ENABLE) && (CurrentSize c >? min)
  then u64 (CurrentSize c - min) else CurrentSize c.

Definition GatherKernelStats : B Z :=
  '(ntStatus, NumberOfPhysicalPages) ← krn ZwQueryBasic;
  if negb (NT_SUCCESS ntStatus) then mret ntStatus
  else
    '(ntStatus, perfInfo) ← krn ZwQueryPerformance;
    if negb (NT_SUCCESS ntStatus) then mret ntStatus
    else
      '(ntStatus, cacheInfo) ← krn ZwQueryFileCache;
      if negb (NT_SUCCESS ntStatus) then mret ntStatus
      else
        reads ← UpdateNoOverflow 0 (PageReadCount perfInfo);
        UpdateStat 0 0 (u64 (Z.shiftl reads PAGE_SHIFT));;
        dirty ← UpdateNoOverflow 1 (DirtyPagesWriteCount perfInfo);
        mapped ← UpdateNoOverflow 2 (MappedPagesWriteCount perfInfo);
        UpdateStat 1 1 (u64 (Z.shiftl (u64 (dirty + mapped)) PAGE_SHIFT));;
        copies ← UpdateNoOverflow 3 (CopyOnWriteCount perfInfo);
        transitions ← UpdateNoOverflow 4 (TransitionCount perfInfo);
        caches ← UpdateNoOverflow 5 (CacheTransitionCount perfInfo);
        zeros ← UpdateNoOverflow 6 (DemandZeroCount perfInfo);
        let SoftFaults := u64 (copies + transitions + caches + zeros) in
        reads ← UpdateNoOverflow 0 (PageReadCount perfInfo);
        UpdateStat 2 2 reads;;
        UpdateStat 3 3 SoftFaults;;
        let AvailBytes := u64 (Z.shiftl (AvailablePages perfInfo) PAGE_SHIFT) in
        UpdateStat 4 4 AvailBytes;;
        UpdateStat 5 5 (u64 (Z.shiftl NumberOfPhysicalPages PAGE_SHIFT));;
        UpdateStat 6 6 (u64 (AvailBytes + cache_size cacheInfo / 2));;
        UpdateStat 7 7 (cache_size cacheInfo);;
        UpdateStat 8 8 0;;
        UpdateStat 9 9 0;;
        mret ntStatus.

(** [RtlFillMemory(MemStats, ..., -1)] *)
Definition blank_stats : list BALLOON_STAT := replicate (Z.to_nat VIRTIO_BALLOON_S_NR) (mk_stat 0xFFFF 0xFFFFFFFFFFFFFFFF).
Definition fill_stats : B unit := set_ctx (fun c => c <| mem_stats := blank_stats |>).

Definition stats_sg : B (list VirtIOBufferDescriptor) :=
  p ← ctxg MemStats; pa ← krn (VirtIOWdfDeviceGetPhysicalAddress p);
  mret [mk_sg pa (sizeof_BALLOON_STAT * VIRTIO_BALLOON_S_NR)].

Definition BalloonMemStats : B unit :=
  sg ← stats_sg;
  _ ← virtqueue_add_buf Stats sg;
  do_notify ← virtqueue_kick_prepare Stats;
  notify_if do_notify Stats.

(** The loop of [StatWorkItemWorker]; [InterlockedDecrement] is of a LONG. *)
Fixpoint stat_loop (fuel : nat) : B unit :=
  status ← GatherKernelStats;
  (if NT_SUCCESS status then mret tt else fill_stats);;
  BalloonMemStats;;
  set_ctx (fun c => c <| WorkCount := s32 (WorkCount c - 1) |>);;
  n ← ctxg WorkCount;
  if truth n then match fuel with O => throw OutOfFuel | S fuel => stat_loop fuel end else mret tt.
(** The framework takes the work item off its list and calls the function. *)
Definition StatWorkItemWorker (fuel : nat) : B unit :=
  set_ctx (fun c => c <| StatWorkItem := false |>);; stat_loop fuel.
Definition WdfWorkItemFlush (fuel : nat) : B unit :=
  queued ← ctxg StatWorkItem; if (queued : bool) then StatWorkItemWorker fuel else mret tt.

Definition StatInitializeWorkItem : B Z :=
  modify (fun s => s <| Counters := replicate 7 (0, 0) |>);; krn framework_create.

(** ** Interrupts *)

Definition BalloonInterruptDpc : B unit :=
  b1 ← virtqueue_get_buf Inflate;
  b2 ← virtqueue_get_buf Deflate;
  (if bool_decide (is_Some b1) || bool_decide (is_Some b2) then set_ctx (fun c => c <| HostAckEvent := true |>) else mret tt);;
  stat ← ctxg StatVirtQueue;
  (match stat with
   | None => mret tt
   | Some _ =>
       buffer ← virtqueue_get_buf Stats;
       match buffer with
       | None => mret tt
       | Some _ =>
           set_ctx (fun c => c <| WorkCount := s32 (WorkCount c + 1) |>);;
           n ← ctxg WorkCount;
           if n =? 1 then set_ctx (fun c => c <| StatWorkItem := true |>) else mret tt
       end
   end);;
  t ← ctxg Thread;
  if (t : bool) then set_ctx (fun c => c <| WakeUpThread := true |>) else mret tt.

(** True when the DPC is queued. *)
Definition BalloonInterruptIsr : B bool := isr ← krn VirtIOWdfGetISRStatus; mret (isr >? 0).

Definition EnableInterrupt : B unit :=
  _ ← virtqueue_enable_cb Inflate; virtqueue_kick Inflate;;
  _ ← virtqueue_enable_cb Deflate; virtqueue_kick Deflate;;
  stat ← ctxg StatVirtQueue;
  match stat with None => mret tt | Some _ => _ ← virtqueue_enable_cb Stats; virtqueue_kick Stats end.
Definition DisableInterrupt : B unit :=
  virtqueue_disable_cb Inflate;; virtqueue_disable_cb Deflate;;
  stat ← ctxg StatVirtQueue;
  match stat with None => mret tt | Some _ => virtqueue_disable_cb Stats end.
Definition BalloonInterruptEnable : B bool := EnableInterrupt;; BalloonInterruptIsr.
Definition BalloonInterruptDisable : B Z := DisableInterrupt;; mret STATUS_SUCCESS.

(** ** Waiting *)

Definition BalloonEvtDeviceSurpriseRemoval : B unit :=
  set_ctx (fun c => c <| SurpriseRemoval := true |> <| HostAckEvent := true |>).

(** What [BalloonCloseWorkerThread] does before it waits. *)
Definition close_begin : B unit := set_ctx (fun c => c <| bShutDown := true |> <| WakeUpThread := true |>).

(** The device on one of the queues. *)
Definition device_on (w : queue) : B unit :=
  c ← gets dctx;
  match get_queue w c with
  | None => mret tt
  | Some q => q ← krn (device_runs w q (pfns c)); set_ctx (put_queue w q)
  end.

Definition run_activity (fuel : nat) (a : activity) : B unit :=
  match a with
  | DeviceRuns => device_on Inflate;; device_on Deflate;; device_on Stats
  | DpcRuns => BalloonInterruptDpc
  | WorkItemRuns => WdfWorkItemFlush fuel
  | RemovalComes => BalloonEvtDeviceSurpriseRemoval
  | ShutDownComes => close_begin
  end.
Fixpoint run_activities (fuel : nat) (l : list activity) : B unit :=
  match l with [] => mret tt | a :: l => run_activity fuel a;; run_activities fuel l end.

(** [KeWaitForSingleObject(&HostAckEvent, ...)] for a second; the event resets itself. *)
Definition wait_host_ack (fuel : nat) : B Z :=
  l ← krn meanwhile;
  run_activities fuel l;;
  ack ← ctxg HostAckEvent;
  if (ack : bool) then set_ctx (fun c => c <| HostAckEvent := false |>);; mret STATUS_WAIT_0 else mret STATUS_TIMEOUT.

(** ** balloon.c *)

Definition BalloonTellHost (fuel : nat) (vq : queue) : B Z :=
  gone ← ctxg SurpriseRemoval;
  if (gone : bool) then mret STATUS_NO_SUCH_DEVICE
  else
    p ← ctxg pfns_table; pa ← krn (VirtIOWdfDeviceGetPhysicalAddress p);
    n ← ctxg num_pfns;
    r ← virtqueue_add_buf vq [mk_sg pa (u32 (sizeof_PFN_NUMBER * n))];
    if r <? 0 then mret STATUS_NO_MORE_ENTRIES
    else
      do_notify ← virtqueue_kick_prepare vq;
      notify_if do_notify vq;;
      status ← wait_host_ack fuel;
      assert (NT_SUCCESS status);;
      mret status.

(** [RtlCopyMemory(pfns_table, MmGetMdlPfnArray(mdl), num_pfns * sizeof(PFN_NUMBER))] *)
Definition copy_pfns (mdl : Z) : B unit :=
  src ← krn (MmGetMdlPfnArray mdl);
  c ← gets dctx;
  if pfns_table c =? 0 then throw NullPointer
  else if (num_pfns c <=? zlen src) && (num_pfns c <=? zlen (pfns c)) then
    set_ctx (fun c => c <| pfns := take (Z.to_nat (num_pfns c)) src ++ drop (Z.to_nat (num_pfns c)) (pfns c) |>)
  else throw OutOfBounds.

Definition free_mdl (mdl : Z) : B unit := krn (MmFreePagesFromMdl mdl);; krn (ExFreePool mdl).

Definition IsLowMemory : B bool :=
  e ← ctxg evLowMem;
  if negb (e =? 0) then st ← krn wait_low_memory; mret (st =? STATUS_WAIT_0) else mret false.

Definition BalloonFill (fuel : nat) (num : Z) : B Z :=
  set_ctx (fun c => c <| num_pfns := 0 |>);;
  low ← IsLowMemory;
  if (low : bool) then mret STATUS_INSUFFICIENT_RESOURCES
  else
    let num := Z.min num (PAGE_SIZE / sizeof_PFN_NUMBER) in
    pPageMdl ← krn (MmAllocatePagesForMdlEx (u64 (num * PAGE_SIZE)));
    if pPageMdl =? 0 then mret STATUS_INSUFFICIENT_RESOURCES
    else
      count ← krn (MmGetMdlByteCount pPageMdl);
      if negb (count =? u64 (num * PAGE_SIZE)) then free_mdl pPageMdl;; mret STATUS_INSUFFICIENT_RESOURCES
      else
        pNewPageListEntry ← krn ExAllocateFromNPagedLookasideList;
        if pNewPageListEntry =? 0 then free_mdl pPageMdl;; mret STATUS_INSUFFICIENT_RESOURCES
        else
          set_ctx (fun c => c <| PageListHead := mk_entry pNewPageListEntry pPageMdl :: PageListHead c |>);;
          set_ctx (fun c => c <| num_pfns := u32 num |>);;
          set_ctx (fun c => c <| num_pages := u32 (num_pages c + num_pfns c) |>);;
          copy_pfns pPageMdl;;
          BalloonTellHost fuel Inflate.

(** The number of pages asked for is overwritten. *)
Definition BalloonLeak (fuel : nat) (num : Z) : B Z :=
  l ← ctxg PageListHead;
  match l with
  | [] => mret STATUS_NOT_FOUND
  | e :: l =>
      set_ctx (fun c => c <| PageListHead := l |>);;
      count ← krn (MmGetMdlByteCount (PageMdl e));
      let num := count / PAGE_SIZE in
      set_ctx (fun c => c <| num_pfns := u32 num |>);;
      set_ctx (fun c => c <| num_pages := u32 (num_pages c - num_pfns c) |>);;
      copy_pfns (PageMdl e);;
      free_mdl (PageMdl e);;
      krn (ExFreeToNPagedLookasideList (SingleListEntry e));;
      BalloonTellHost fuel Deflate
  end.

(** The status and the queues, and what follows their creation. *)
Definition start_queues (nvqs : Z) (vqs : list Q) : B bool :=
  vq0 ← pure (zget vqs 0); vq1 ← pure (zget vqs 1);
  set_ctx (fun c => c <| InfVirtQueue := Some vq0 |> <| DefVirtQueue := Some vq1 |>);;
  notify_stat_queue ← (if nvqs =? 3 then
      vq2 ← pure (zget vqs 2);
      set_ctx (fun c => c <| StatVirtQueue := Some vq2 |>);;
      sg ← stats_sg; r ← virtqueue_add_buf Stats sg; mret (0 <=? r)
    else mret false);
  krn VirtIOWdfSetDriverOK;; mret notify_stat_queue.
Definition BalloonInit : B Z :=
  u64HostFeatures ← krn VirtIOWdfGetDeviceFeatures;
  let stats := virtio_is_feature_enabled u64HostFeatures VIRTIO_BALLOON_F_STATS_VQ in
  let u64GuestFeatures := if stats then virtio_feature_enable 0 VIRTIO_BALLOON_F_STATS_VQ else 0 in
  let nvqs := if stats then 3 else 2 in
  status ← krn (VirtIOWdfSetDriverFeatures u64GuestFeatures);
  if negb (NT_SUCCESS status) then krn VirtIOWdfSetDriverFailed;; mret status
  else
    '(status, vqs) ← krn (VirtIOWdfInitQueues nvqs);
    if negb (NT_SUCCESS status) then krn VirtIOWdfSetDriverFailed;; mret status
    else
      notify_stat_queue ← start_queues nvqs vqs;
      (if (notify_stat_queue : bool) then virtqueue_kick Stats else mret tt);;
      mret status.

(** The queues are gone, though only one pointer is set to NULL. *)
Definition BalloonTerm : B unit :=
  krn VirtIOWdfDestroyQueues;;
  set_ctx (fun c => c <| InfVirtQueue := None |> <| DefVirtQueue := None |> <| StatVirtQueue := None |>).

(** ** Device.c: the worker thread *)

Definition BalloonSetSize (num : Z) : B unit := krn (VirtIOWdfDeviceSet_u32 config_actual (u32 num)).
Definition BalloonGetSize : B Z :=
  v ← krn (VirtIOWdfDeviceGet_u32 config_num_pages); n ← ctxg num_pages; mret (v - n).

(** The thread after its wait for [WakeUpThread] ended, which reset the event; the result tells
    whether it leaves the loop of [BalloonRoutine]. *)
Definition BalloonRoutine_pass (fuel : nat) : B bool :=
  set_ctx (fun c => c <| WakeUpThread := false |>);;
  down ← ctxg bShutDown;
  if (down : bool) then mret true
  else
    diff ← BalloonGetSize;
    status ← (if diff >? 0 then BalloonFill fuel (u64 diff)
              else if diff <? 0 then BalloonLeak fuel (u64 (- diff)) else mret STATUS_WAIT_0);
    (if ((status =? STATUS_TIMEOUT) || (status =? STATUS_NO_MORE_ENTRIES)) && negb (diff =? 0)
     then set_ctx (fun c => c <| WakeUpThread := true |>) else mret tt);;
    n ← ctxg num_pages; BalloonSetSize n;;
    mret false.

Definition BalloonCreateWorkerThread : B Z :=
  set_ctx (fun c => c <| bShutDown := false |>);;
  t ← ctxg Thread;
  status ← (if (t : bool) then mret STATUS_SUCCESS
            else st ← krn PsCreateSystemThread;
                 (if NT_SUCCESS st then set_ctx (fun c => c <| Thread := true |>) else mret tt);; mret st);
  (if NT_SUCCESS status then set_ctx (fun c => c <| WakeUpThread := true |>) else mret tt);;
  mret status.

(** The wait for the thread: it is at its own wait, which now ends. *)
Definition BalloonCloseWorkerThread (fuel : nat) : B Z :=
  t ← ctxg Thread;
  if (t : bool) then
    close_begin;;
    ended ← BalloonRoutine_pass fuel;
    if (ended : bool) then set_ctx (fun c => c <| Thread := false |>);; mret STATUS_SUCCESS else throw OutOfFuel
  else mret STATUS_SUCCESS.

(** ** Device.c: the device *)

(** Framework objects created one after the other. *)
Fixpoint create_all (n : nat) : B Z :=
  match n with
  | O => mret STATUS_SUCCESS
  | S n => st ← krn framework_create; if negb (NT_SUCCESS st) then mret st else create_all n
  end.
Definition BalloonDeviceAdd : B Z :=
  status ← create_all 3;
  if negb (NT_SUCCESS status) then mret status
  else
    set_ctx (fun c => c <| SurpriseRemoval := false |> <| bShutDown := false |> <| num_pages := 0 |> <| PageListHead := [] |>
      <| bListInitialized := true |> <| pfns_table := 0 |> <| MemStats := 0 |> <| HostAckEvent := false |>);;
    status ← create_all 2;
    if negb (NT_SUCCESS status) then mret status
    else
      status ← StatInitializeWorkItem;
      if negb (NT_SUCCESS status) then mret status
      else set_ctx (fun c => c <| WakeUpThread := false |>);; mret status.

Definition BalloonEvtDeviceContextCleanup : B unit :=
  b ← ctxg bListInitialized;
  if (b : bool) then krn ExDeleteNPagedLookasideList;; set_ctx (fun c => c <| bListInitialized := false |>) else mret tt.

Definition BalloonEvtDevicePrepareHardware : B Z :=
  status ← krn VirtIOWdfInitialize;
  if negb (NT_SUCCESS status) then mret status
  else
    p ← krn (VirtIOWdfDeviceAllocDmaMemory PAGE_SIZE);
    set_ctx (fun c => c <| MemStats := p |>);;
    status ← (if negb (p =? 0) then fill_stats;; mret status else mret STATUS_INSUFFICIENT_RESOURCES);
    (if NT_SUCCESS status then
       t ← krn (VirtIOWdfDeviceAllocDmaMemory PAGE_SIZE);
       set_ctx (fun c => c <| pfns_table := t |> <| pfns := if t =? 0 then [] else replicate (Z.to_nat (PAGE_SIZE / sizeof_PFN_NUMBER)) 0 |>)
     else mret tt);;
    t ← ctxg pfns_table;
    mret (if t =? 0 then STATUS_INSUFFICIENT_RESOURCES else status).

Definition BalloonEvtDeviceReleaseHardware : B Z :=
  krn VirtIOWdfDeviceFreeDmaMemoryByTag;;
  set_ctx (fun c => c <| MemStats := 0 |> <| mem_stats := [] |> <| pfns_table := 0 |> <| pfns := [] |>);;
  krn VirtIOWdfShutdown;;
  mret STATUS_SUCCESS.

Definition BalloonEvtDeviceD0Entry : B Z :=
  status ← BalloonInit;
  if negb (NT_SUCCESS status) then BalloonTerm;; mret status
  else
    status ← BalloonCreateWorkerThread;
    e ← krn IoCreateNotificationEvent;
    set_ctx (fun c => c <| evLowMem := e |>);;
    mret status.

Definition BalloonEvtDeviceD0Exit (fuel : nat) : B Z :=
  e ← ctxg evLowMem;
  (if negb (e =? 0) then krn ZwClose;; set_ctx (fun c => c <| evLowMem := 0 |>) else mret tt);;
  WdfWorkItemFlush fuel;;
  BalloonTerm;;
  mret STATUS_SUCCESS.

(** [while (devCtx->num_pages) BalloonLeak(...)] *)
Fixpoint leak_all (fuel rounds : nat) : B unit :=
  n ← ctxg num_pages;
  if truth n then
    match rounds with O => throw OutOfFuel | S rounds => _ ← BalloonLeak fuel n; leak_all fuel rounds end
  else mret tt.
Definition BalloonEvtDeviceD0ExitPreInterruptsDisabled (fuel rounds : nat) (D3Final : bool) : B Z :=
  _ ← BalloonCloseWorkerThread fuel;
  (if D3Final then leak_all fuel rounds;; n ← ctxg num_pages; BalloonSetSize n else mret tt);;
  mret STATUS_SUCCESS.
End driver.
