(* ===== verification/BalloonSpec.v ===== *)
(** * The balloon driver: its invariant

    What the kernel promises ([BalloonLaws]), with a ledger of the page lists and list entries
    it gave to the driver; the invariant of the driver, in two parts: [pages], that the list of
    the balloon is exactly the ledger and is counted, and [side], the queues, buffers and the
    statistics; and that every operation keeps it, whatever happens while it waits.  The last part is about
    the memory statistics that the driver reports. *)

From Stdlib Require Import ZArith Lia.
From stdpp Require Import base list numbers option gmap.
From S2P Require Import Prelude.
From S2P Require Import Virtio.
From S2P Require Import VirtQueue.
From S2P Require Import Effects.
From S2P Require Import Balloon.

(** ** What the kernel promises *)

(** [mdls]: the MDLs given out and their pages; [entries]: the list entries given out; [host]: the
    pages that the host has taken. *)
Class BalloonLedger (K : Type) := { kok : K -> Prop; mdls : K -> gmap Z (list Z); entries : K -> list Z; host : K -> gset Z }.

Definition harmless {K A} `{BalloonLedger K} (R : A -> Prop) (m : M K A) : Prop :=
  forall k, kok k -> wp m (fun a k' => R a /\ kok k' /\ mdls k' = mdls k /\ entries k' = entries k /\ host k' = host k) k.

(** A queue that [VirtIOWdfInitQueues] creates. *)
Definition fresh_queue {Q} `{AsyncQueueLaws Q} (q : Q) : Prop := vsq_live q [].

#[local] Abbreviation any := (fun _ => True).
Class BalloonLaws (Q K : Type) `{AsyncQueueLaws Q} `{BalloonKernel Q K} `{BalloonLedger K} := {
  (** [MmAllocatePagesForMdlEx] gives pages that nobody has, at most what was asked for. *)
  bl_alloc : forall n k, 0 <= n -> kok k -> wp (MmAllocatePagesForMdlEx (Q := Q) n) (fun p k' => kok k' /\ entries k' = entries k /\ host k' = host k /\
    (p = 0 /\ mdls k' = mdls k \/ p <> 0 /\ mdls k !! p = None /\ exists l, mdls k' = <[p := l]> (mdls k) /\ NoDup l /\
      zlen l * PAGE_SIZE <= n /\ (forall q l' x, mdls k !! q = Some l' -> x ∈ l' -> x ∉ l))) k;
  bl_count : forall p l k, kok k -> mdls k !! p = Some l -> zlen l * PAGE_SIZE < 2 ^ 32 ->
    MmGetMdlByteCount (Q := Q) p k = Ok (zlen l * PAGE_SIZE, k);
  bl_pfns : forall p l k, kok k -> mdls k !! p = Some l -> MmGetMdlPfnArray (Q := Q) p k = Ok (l, k);
  (** The pages go back first, then the MDL. *)
  bl_free_pages : forall p l k, kok k -> mdls k !! p = Some l ->
    wp (MmFreePagesFromMdl (Q := Q) p) (fun _ k' => kok k' /\ entries k' = entries k /\ host k' = host k /\ mdls k' = <[p := []]> (mdls k)) k;
  bl_free_mdl : forall p k, kok k -> mdls k !! p = Some [] ->
    wp (ExFreePool (Q := Q) p) (fun _ k' => kok k' /\ entries k' = entries k /\ host k' = host k /\ mdls k' = delete p (mdls k)) k;
  bl_entry_alloc : forall k, kok k -> wp (ExAllocateFromNPagedLookasideList (Q := Q)) (fun p k' => kok k' /\ mdls k' = mdls k /\ host k' = host k /\
    (p = 0 /\ entries k' = entries k \/ p <> 0 /\ (p ∉ entries k) /\ entries k' ≡ₚ p :: entries k)) k;
  bl_entry_free : forall p l k, kok k -> entries k ≡ₚ p :: l ->
    wp (ExFreeToNPagedLookasideList (Q := Q) p) (fun _ k' => kok k' /\ mdls k' = mdls k /\ host k' = host k /\ entries k' ≡ₚ l) k;
  bl_delete_list : harmless any (ExDeleteNPagedLookasideList (Q := Q) (K := K));
  bl_low : harmless any (wait_low_memory (Q := Q) (K := K));
  bl_event : harmless any (IoCreateNotificationEvent (Q := Q) (K := K));
  bl_close : harmless any (ZwClose (Q := Q) (K := K));
  bl_thread : harmless any (PsCreateSystemThread (Q := Q) (K := K));
  bl_basic : harmless any (ZwQueryBasic (Q := Q) (K := K));
  bl_performance : harmless any (ZwQueryPerformance (Q := Q) (K := K));
  bl_cache : harmless any (ZwQueryFileCache (Q := Q) (K := K));
  bl_framework : harmless any (framework_create (Q := Q) (K := K));
  bl_initialize : harmless any (VirtIOWdfInitialize (Q := Q) (K := K));
  bl_shutdown : harmless any (VirtIOWdfShutdown (Q := Q) (K := K));
  bl_dma : forall n, harmless any (VirtIOWdfDeviceAllocDmaMemory (Q := Q) (K := K) n);
  bl_dma_free : harmless any (VirtIOWdfDeviceFreeDmaMemoryByTag (Q := Q) (K := K));
  bl_physical : forall p, harmless any (VirtIOWdfDeviceGetPhysicalAddress (Q := Q) (K := K) p);
  bl_features : harmless any (VirtIOWdfGetDeviceFeatures (Q := Q) (K := K));
  bl_set_features : forall f, harmless any (VirtIOWdfSetDriverFeatures (Q := Q) (K := K) f);
  bl_queues : forall n, harmless (fun r => NT_SUCCESS r.1 = true -> zlen r.2 = n /\ Forall fresh_queue r.2) (VirtIOWdfInitQueues (Q := Q) (K := K) n);
  bl_destroy : harmless any (VirtIOWdfDestroyQueues (Q := Q) (K := K));
  bl_ok : harmless any (VirtIOWdfSetDriverOK (Q := Q) (K := K));
  bl_failed : harmless any (VirtIOWdfSetDriverFailed (Q := Q) (K := K));
  bl_isr : harmless any (VirtIOWdfGetISRStatus (Q := Q) (K := K));
  bl_get : forall o, harmless (fun v => 0 <= v < 2 ^ 32) (VirtIOWdfDeviceGet_u32 (Q := Q) (K := K) o);
  bl_set : forall o v, harmless any (VirtIOWdfDeviceSet_u32 (Q := Q) (K := K) o v);
  bl_meanwhile : harmless any (meanwhile (Q := Q) (K := K));
  (** The device takes no buffer and adds none. *)
  bl_device : forall w (q : Q) t k, kok k -> wp (device_runs (K := K) w q t)
    (fun q' k' => (forall l, vsq_live q l -> vsq_live q' l) /\ kok k' /\ mdls k' = mdls k /\ entries k' = entries k) k }.

(** ** The invariant *)

#[export] Instance queue_eq_dec : EqDecision queue.
Proof. solve_decision. Defined.

Definition TABLE_SIZE : Z := PAGE_SIZE / sizeof_PFN_NUMBER.

Section spec.
Context {Q K : Type} `{BalloonLaws Q K}.
Implicit Types (c : DEVICE_CONTEXT Q) (s : balloon Q K) (k : K) (w : queue) (L : list (PAGE_LIST_ENTRY * list Z)).

Definition total L : Z := foldr (fun x n => zlen x.2 + n) 0 L.
Definition all_pages L : list Z := mjoin (snd <$> L).

(** The list of the balloon has the pages [L]. *)
Record pages L c k : Prop := {
  pg_list : PageListHead c = fst <$> L;
  pg_mdls : mdls k = list_to_map ((fun x => (PageMdl x.1, x.2)) <$> L);
  pg_nodup : NoDup ((fun x => PageMdl x.1) <$> L);
  pg_entries : entries k ≡ₚ (fun x => SingleListEntry x.1) <$> L;
  pg_entries_nodup : NoDup (entries k);
  pg_bounds : Forall (fun x => 1 <= zlen x.2 <= TABLE_SIZE) L;
  pg_pages : NoDup (all_pages L);
  pg_total : num_pages c = total L;
  pg_small : num_pages c < 2 ^ 32 }.

(** The statistics buffer is with the device, or the work item is about to send it. *)
Record side s : Prop := {
  sd_kok : kok (kern s);
  sd_self : self (dctx s) <> 0;
  sd_queue w q : get_queue w (dctx s) = Some q ->
    exists n, vsq_live q (replicate n (self (dctx s))) /\ (w = Stats -> Z.of_nat n + WorkCount (dctx s) = 1);
  sd_no_stats : StatVirtQueue (dctx s) = None -> WorkCount (dctx s) = 0;
  sd_count : 0 <= WorkCount (dctx s);
  sd_item : StatWorkItem (dctx s) = true -> WorkCount (dctx s) = 1;
  sd_stats : MemStats (dctx s) <> 0 -> zlen (mem_stats (dctx s)) = VIRTIO_BALLOON_S_NR;
  sd_table : pfns_table (dctx s) <> 0 -> zlen (pfns (dctx s)) = TABLE_SIZE;
  sd_counters : zlen (Counters s) = 7 }.

(** The queues and the two blocks are there. *)
Definition working c : Prop :=
  is_Some (InfVirtQueue c) /\ is_Some (DefVirtQueue c) /\ pfns_table c <> 0 /\ MemStats c <> 0.

(** What the activities leave alone. *)
Definition present (o : option Q) : bool := match o with Some _ => true | None => false end.
Lemma present_same (o o' : option Q) : present o' = present o -> is_Some o -> is_Some o'.
Proof. intros E [q ->]. destruct o'; [eauto|done]. Qed.
Definition frozen c :=
  (self c, num_pages c, num_pfns c, pfns_table c, pfns c, PageListHead c, MemStats c, Thread c, evLowMem c,
   present (InfVirtQueue c), present (DefVirtQueue c), present (StatVirtQueue c)).
Definition moved s s' : Prop :=
  frozen (dctx s') = frozen (dctx s) /\ mdls (kern s') = mdls (kern s) /\ entries (kern s') = entries (kern s).
(** The work item and the host too. *)
Definition still s s' : Prop :=
  moved s s' /\ StatWorkItem (dctx s') = StatWorkItem (dctx s) /\ WorkCount (dctx s') = WorkCount (dctx s) /\ host (kern s') = host (kern s).

#[global] Instance moved_preorder : PreOrder moved.
Proof. split; [done|]. intros s1 s2 s3 (A1 & B1 & C1) (A2 & B2 & C2). unfold moved. by rewrite A2, B2, C2. Qed.
#[global] Instance still_preorder : PreOrder still.
Proof. split; [done|]. intros s1 s2 s3 (A1 & B1 & C1 & D1) (A2 & B2 & C2 & D2). split; [by etrans|]. split_and!; congruence. Qed.
Lemma still_moved s s' : still s s' -> moved s s'.
Proof. by intros []. Qed.

Lemma moved_pages L s s' : moved s s' -> pages L (dctx s) (kern s) -> pages L (dctx s') (kern s').
Proof. intros (E & Em & Ee) []. injection E as ????????????. split; rewrite ?Em, ?Ee; congruence. Qed.

Lemma moved_fields s s' : moved s s' -> num_pages (dctx s') = num_pages (dctx s) /\ PageListHead (dctx s') = PageListHead (dctx s) /\
  Thread (dctx s') = Thread (dctx s) /\ self (dctx s') = self (dctx s).
Proof. intros (E & _). by injection E as ? ? ? ? ? ? ? ? ? ? ? ?. Qed.

Lemma moved_working s s' : moved s s' -> working (dctx s) -> working (dctx s').
Proof.
  intros (E & _ & _) (Hi & Hd & Ht & Hm). injection E as ??? E4 ?? E7 ?? Ei Ed ?. unfold working. rewrite E4, E7.
  split_and!; eauto using present_same.
Qed.

Lemma moved_stat s s' : moved s s' -> is_Some (StatVirtQueue (dctx s)) -> is_Some (StatVirtQueue (dctx s')).
Proof. intros (E & _ & _). injection E as ???????????Es. by apply present_same. Qed.

(** ** Steps that leave the balloon alone *)

Definition calm {A} (m : M (balloon Q K) A) s : Prop := wp m (fun _ s' => side s' /\ still s s') s.

Lemma hush_ret {A} (a : A) s : side s -> calm (mret a) s.
Proof. intros. by split. Qed.
Lemma hush_bind {A C} (m : M (balloon Q K) A) (f : A -> M (balloon Q K) C) s :
  calm m s -> (forall a s', side s' -> still s s' -> calm (f a) s') -> calm (m ≫= f) s.
Proof.
  intros Hm Hf. unfold calm. wp_step. eapply wp_mono; [exact Hm|]. intros a s1 (S1 & T1). cbv beta.
  eapply wp_mono; [by apply Hf|]. intros b s2 (S2 & T2). split; [done|by etrans].
Qed.

(** A harmless call. *)
Lemma wp_balloon_krn {A} (R : A -> Prop) (m : M K A) Φ s : side s -> harmless R m ->
  (forall a s', R a -> side s' -> still s s' -> dctx s' = dctx s -> Counters s' = Counters s -> Φ a s') -> wp (krn m) Φ s.
Proof.
  intros S Hm HΦ. pose proof (Hm _ (sd_kok _ S)) as Hw. unfold wp, krn in *. destruct (m (kern s)) as [[a k']|]; [|done].
  destruct Hw as (Ra & Hk & Em & Ee & Eh). apply HΦ; [done| | |done|done].
  - destruct S. by split.
  - by split; [split_and!|].
Qed.
Lemma calm_krn {A} (R : A -> Prop) (m : M K A) s : side s -> harmless R m -> calm (krn m) s.
Proof. intros S Hm. eapply wp_balloon_krn; [done|exact Hm|]. by split. Qed.

(** A change of the context that keeps the invariant. *)
Lemma hush_set f s : side s -> (side s -> side (s <| dctx := f (dctx s) |>)) -> frozen (f (dctx s)) = frozen (dctx s) ->
  StatWorkItem (f (dctx s)) = StatWorkItem (dctx s) -> WorkCount (f (dctx s)) = WorkCount (dctx s) -> calm (set_ctx f) s.
Proof. intros S Hf E. split; [by apply Hf|by split; [split_and!|]]. Qed.

(** A call on a queue. *)
Lemma wp_queue {A} w (f : Q -> res (A * Q)) q a q' Φ s : get_queue w (dctx s) = Some q -> f q = Ok (a, q') ->
  Φ a (s <| dctx := put_queue w q' (dctx s) |>) -> wp (on_queue w f) Φ s.
Proof. intros E Ef HΦ. unfold on_queue. wp_steps. rewrite E. wp_step. eapply wp_pure; [exact Ef|]. by unfold set_ctx; wp_steps. Qed.

Lemma frozen_put w q q' c : get_queue w c = Some q -> frozen (put_queue w q' c) = frozen c.
Proof. destruct w; cbn; intros E; unfold frozen; cbn; by rewrite E. Qed.
Lemma put_still w q q' s : get_queue w (dctx s) = Some q -> still s (s <| dctx := put_queue w q' (dctx s) |>).
Proof. intros E. split; [split_and!; [by eapply frozen_put|done..]|]. by destruct w. Qed.

Lemma get_put w w' q c : get_queue w' (put_queue w q c) = if decide (w' = w) then Some q else get_queue w' c.
Proof. by destruct w, w'. Qed.

Lemma side_put w q q' n s : side s -> get_queue w (dctx s) = Some q -> vsq_live q' (replicate n (self (dctx s))) ->
  (w = Stats -> Z.of_nat n + WorkCount (dctx s) = 1) -> side (s <| dctx := put_queue w q' (dctx s) |>).
Proof.
  intros [] E Hq Hn. assert (forall w c, self (put_queue w q' c) = self c /\ WorkCount (put_queue w q' c) = WorkCount c /\
    StatWorkItem (put_queue w q' c) = StatWorkItem c /\ MemStats (put_queue w q' c) = MemStats c /\ mem_stats (put_queue w q' c) = mem_stats c /\
    pfns_table (put_queue w q' c) = pfns_table c /\ pfns (put_queue w q' c) = pfns c) as F by (by intros []).
  destruct (F w (dctx s)) as (F1 & F2 & F3 & F4 & F5 & F6 & F7). split; cbn [kern dctx Counters set_field]; cbn; rewrite ?F1, ?F2, ?F3, ?F4, ?F5, ?F6, ?F7; try done.
  - intros w' q''. rewrite get_put. case_decide as Ew; [intros [= <-]; subst w'; eauto|eauto].
  - intros Es. apply sd_no_stats0. pose proof (get_put w Stats q' (dctx s)) as G. cbn in G. rewrite Es in G.
    by case_decide.
Qed.

(** A call that changes none of the buffers that are with the device. *)
Lemma calm_queue {A} w (f : Q -> res (A * Q)) s : side s -> is_Some (get_queue w (dctx s)) ->
  (forall q l, vsq_live q l -> exists a q', f q = Ok (a, q') /\ vsq_live q' l) -> calm (on_queue w f) s.
Proof.
  intros S [q E] Hf. destruct (sd_queue _ S w q E) as (n & Hq & Hn). destruct (Hf _ _ Hq) as (a & q' & Ef & Hq').
  eapply wp_queue; [done|exact Ef|]. split; [by eapply side_put|by eapply put_still].
Qed.
Lemma calm_kick_prepare w s : side s -> is_Some (get_queue w (dctx s)) -> calm (virtqueue_kick_prepare w) s.
Proof. intros. apply calm_queue; [done..|]. intros q l Hq. destruct (vsq_kick_prepare q) as [b q'] eqn:E. eexists _, _. split; [done|]. pose proof (vsq_kick q l Hq) as Hk. by rewrite E in Hk. Qed.
Lemma calm_notify w s : side s -> is_Some (get_queue w (dctx s)) -> calm (virtqueue_notify w) s.
Proof. intros. apply calm_queue; [done..|]. intros q l Hq. eexists _, _. split; [done|by apply vsq_notified]. Qed.
Lemma calm_notify_if b w s : side s -> is_Some (get_queue w (dctx s)) -> calm (notify_if b w) s.
Proof. intros. destruct b; [by apply calm_notify|by apply hush_ret]. Qed.
Lemma calm_enable w s : side s -> is_Some (get_queue w (dctx s)) -> calm (virtqueue_enable_cb w) s.
Proof. intros. apply calm_queue; [done..|]. apply vsq_enable. Qed.
Lemma calm_disable w s : side s -> is_Some (get_queue w (dctx s)) -> calm (virtqueue_disable_cb w) s.
Proof. intros. apply calm_queue; [done..|]. intros q l Hq. eexists _, _. split; [done|by apply vsq_disable]. Qed.

Lemma moved_queue w s s' : moved s s' -> is_Some (get_queue w (dctx s)) -> is_Some (get_queue w (dctx s')).
Proof. intros (E & _ & _). injection E as ?????????Ei Ed Es. destruct w; by apply present_same. Qed.

Lemma calm_kick w s : side s -> is_Some (get_queue w (dctx s)) -> calm (virtqueue_kick w) s.
Proof. intros. apply hush_bind; [by apply calm_kick_prepare|]. intros b s' ??. apply calm_notify_if; [done|eapply moved_queue; [by apply still_moved|done]]. Qed.

(** ** Adding and taking buffers *)

Lemma zlen_one {A} (x : A) : zlen [x] = 1. Proof. done. Qed.

(** On an inflate or deflate queue. *)
Lemma calm_add w sg s : side s -> is_Some (get_queue w (dctx s)) -> w <> Stats -> calm (virtqueue_add_buf w [sg]) s.
Proof.
  intros S [q E] Hw. unfold virtqueue_add_buf, calm, ctxg. wp_steps. destruct (sd_queue _ S w q E) as (n & Hq & _).
  destruct (vsq_add q _ [sg] 1 0 (self (dctx s)) None Hq) as (rc & q' & Ea & Hq' & _); try (by apply S); try done.
  eapply wp_queue; [done|exact Ea|]. split; [|by eapply put_still].
  destruct (0 <=? rc); [eapply (side_put w q q' (Datatypes.S n))|eapply (side_put w q q' n)]; done.
Qed.

(** Taking one back from such a queue. *)
Lemma replicate_cons_perm {A} n (x : A) l p : replicate n x ≡ₚ p :: l -> exists m, n = Datatypes.S m /\ l = replicate m x /\ p = x.
Proof.
  intros E. assert (Forall (eq x) (p :: l)) as HF by (rewrite <- E; by apply Forall_replicate). apply Forall_cons in HF as [-> HF].
  apply Permutation_length in E as El. rewrite length_replicate in El. cbn in El. exists (length l). split_and!; [done| |done].
  symmetry. by apply replicate_as_Forall.
Qed.
Lemma calm_get w s : side s -> is_Some (get_queue w (dctx s)) -> w <> Stats -> calm (virtqueue_get_buf w) s.
Proof.
  intros S [q E] Hw. unfold virtqueue_get_buf, calm. destruct (sd_queue _ S w q E) as (n & Hq & _).
  destruct (vsq_get q _ Hq) as (b & q' & Eg & Hb). eapply wp_queue; [done|exact Eg|]. split; [|by eapply put_still].
  destruct b as [[p len]|]; [|by eapply side_put]. destruct Hb as (_ & l' & El & Hl). destruct (replicate_cons_perm _ _ _ _ El) as (m & _ & -> & _). by eapply side_put.
Qed.

(** ** Statistics *)

Lemma calm_counter i v s : side s -> 0 <= i < 7 -> calm (UpdateNoOverflow i v) s.
Proof.
  intros S Hi. unfold UpdateNoOverflow, calm. wp_steps. destruct (proj2 (zlookup_is_Some (Counters s) i)) as [c Ec]; [by rewrite (sd_counters _ S)|].
  eapply wp_pure; [by apply zget_ok|]. wp_steps. split; [|done]. destruct S. split; try done. cbn. by rewrite zlen_zinsert.
Qed.

Lemma calm_stat i t v s : side s -> MemStats (dctx s) <> 0 -> 0 <= i < VIRTIO_BALLOON_S_NR -> calm (UpdateStat i t v) s.
Proof.
  intros S Hm Hi. unfold UpdateStat, calm, ctxg. wp_steps. pose proof (sd_stats _ S Hm) as El. eapply wp_pure; [apply zset_ok; by rewrite El|].
  unfold set_ctx. wp_steps. split; [|done]. destruct S. split; try done. intros _. cbn. by rewrite zlen_zinsert.
Qed.

Lemma moved_memstats s s' : moved s s' -> MemStats (dctx s) <> 0 -> MemStats (dctx s') <> 0.
Proof. intros (E & _ & _). injection E as ? ? ? ? ? ? Em ? ? ? ? ?. by rewrite Em. Qed.

Lemma GatherKernelStats_ok s : side s -> MemStats (dctx s) <> 0 -> calm GatherKernelStats s.
Proof.
  intros S Hm. unfold GatherKernelStats.
  apply hush_bind; [eapply calm_krn; [done|apply bl_basic]|]. intros [st np] s1 S1 T1. assert (MemStats (dctx s1) <> 0) as M1 by (eapply moved_memstats; [by apply still_moved|done]). clear T1 Hm S s.
  destruct (negb (NT_SUCCESS st)); [by apply hush_ret|].
  apply hush_bind; [eapply calm_krn; [done|apply bl_performance]|]. intros [st' pf] s2 S2 T2. assert (MemStats (dctx s2) <> 0) as M2 by (eapply moved_memstats; [by apply still_moved|done]). clear T2 M1 S1 s1.
  destruct (negb (NT_SUCCESS st')); [by apply hush_ret|].
  apply hush_bind; [eapply calm_krn; [done|apply bl_cache]|]. intros [st'' ca] s3 S3 T3. assert (MemStats (dctx s3) <> 0) as M3 by (eapply moved_memstats; [by apply still_moved|done]). clear T3 M2 S2 s2.
  destruct (negb (NT_SUCCESS st'')); [by apply hush_ret|].
  repeat (apply hush_bind; [first [apply calm_counter; [done|lia]|apply calm_stat; [done|done|by split]]|];
    let v := fresh "v" in let s := fresh "s" in let S := fresh "S" in let T := fresh "T" in intros v s S T;
    apply still_moved, moved_memstats in T; [|done]; cbv zeta).
  by apply hush_ret.
Qed.

Lemma calm_fill s : side s -> calm fill_stats s.
Proof. intros S. apply hush_set; [done| |done..]. intros []. split; done. Qed.

(** The one buffer of the statistics, back from the device, is sent again. *)
Lemma stats_add_ok s sg : side s -> is_Some (StatVirtQueue (dctx s)) -> WorkCount (dctx s) = 1 ->
  wp (virtqueue_add_buf Stats [sg]) (fun rc s' => 0 <= rc /\ exists q, vsq_live q [self (dctx s)] /\
    s' = s <| dctx := (dctx s) <| StatVirtQueue := Some q |> |>) s.
Proof.
  intros S [q E] W1. unfold virtqueue_add_buf, ctxg. wp_steps. destruct (sd_queue _ S Stats q E) as (n & Hq & Hn). specialize (Hn eq_refl).
  assert (n = O) as -> by lia. cbn in Hq.
  destruct (vsq_add q [] [sg] 1 0 (self (dctx s)) None Hq) as (rc & q' & Ea & Hq' & Hr); try (by apply S); try done.
  specialize (Hr (vsq_empty q Hq) ltac:(by left)). eapply wp_queue; [exact E|exact Ea|]. split; [done|]. exists q'.
  replace (0 <=? rc) with true in Hq' by lia. done.
Qed.

Lemma BalloonMemStats_ok s : side s -> is_Some (StatVirtQueue (dctx s)) -> WorkCount (dctx s) = 1 ->
  wp BalloonMemStats (fun _ s' => exists s0 q, side s0 /\ still s s0 /\ vsq_live q [self (dctx s0)] /\
    s' = s0 <| dctx := (dctx s0) <| StatVirtQueue := Some q |> |>) s.
Proof.
  intros Sd Hp W1. unfold BalloonMemStats, stats_sg, ctxg. wp_steps. eapply wp_balloon_krn; [done|apply bl_physical|]. intros pa s0 _ S0 T0 D0 _. wp_steps.
  eapply wp_mono; [apply (stats_add_ok s0); [done|by rewrite D0..]|]. intros rc s1 (_ & q & Hq & ->). cbv beta. wp_step.
  unfold virtqueue_kick_prepare. eapply (wp_queue Stats _ q (vsq_kick_prepare q).1 (vsq_kick_prepare q).2); [done|cbn; by destruct (vsq_kick_prepare q)|].
  assert (vsq_live (vsq_kick_prepare q).2 [self (dctx s0)]) as Hk by (by apply vsq_kick).
  destruct (vsq_kick_prepare q).1; cbn [notify_if].
  - unfold virtqueue_notify. eapply (wp_queue Stats); [done|done|]. exists s0. eexists. split_and!; [done|done| |done]. by apply vsq_notified.
  - wp_step. exists s0. eexists. by split_and!.
Qed.

(** The queue of the statistics with the counter of the work item. *)
Definition with_stats q wc item s : balloon Q K :=
  s <| dctx := (dctx s) <| StatVirtQueue := Some q |> <| WorkCount := wc |> <| StatWorkItem := item |> |>.
Lemma side_stats n q wc item s : side s -> vsq_live q (replicate n (self (dctx s))) -> Z.of_nat n + wc = 1 -> 0 <= wc ->
  (item = true -> wc = 1) -> side (with_stats q wc item s).
Proof.
  intros [A1 A2 A3 A4 A5 A6 A7 A8 A9] Hq Hn Hw Hi. split; try done. intros w q' E. destruct w; cbn in *.
  - destruct (A3 Inflate q' E) as (m & ? & _). by exists m.
  - destruct (A3 Deflate q' E) as (m & ? & _). by exists m.
  - injection E as <-. by exists n.
Qed.
Lemma moved_stats q wc item s : is_Some (StatVirtQueue (dctx s)) -> moved s (with_stats q wc item s).
Proof. intros [q0 E]. split_and!; [|done|done]. unfold frozen. cbn. by rewrite E. Qed.

(** One round of the loop is the last. *)
Lemma stat_round_ok (again : M (balloon Q K) unit) s : side s -> is_Some (StatVirtQueue (dctx s)) -> MemStats (dctx s) <> 0 -> WorkCount (dctx s) = 1 ->
  StatWorkItem (dctx s) = false ->
  wp (status ← GatherKernelStats;
      (if NT_SUCCESS status then mret tt else fill_stats);;
      BalloonMemStats;;
      set_ctx (fun c => c <| WorkCount := s32 (WorkCount c - 1) |>);;
      n ← ctxg WorkCount;
      if truth n then again else mret tt)
    (fun _ s' => side s' /\ moved s s' /\ StatWorkItem (dctx s') = false /\ WorkCount (dctx s') = 0) s.
Proof.
  intros Sd P M1 W1 I1. wp_step. eapply wp_mono; [by apply GatherKernelStats_ok|]. intros st s2 (S2 & T2). cbv beta. wp_step.
  eapply (wp_mono _ (fun _ s3 => side s3 /\ still s2 s3)); [destruct (NT_SUCCESS st); [by apply hush_ret|by apply calm_fill]|].
  intros [] s3 (S3 & T3). cbv beta. assert (still s s3) as (T13 & I3 & W3 & _) by (by etrans). wp_step.
  eapply wp_mono; [apply BalloonMemStats_ok; [done|by eapply moved_stat|by rewrite W3]|].
  intros [] s4 (s0 & q & S0 & (T0 & I0 & W0 & _) & Hq & ->). cbv beta. unfold set_ctx, ctxg. wp_steps.
  match goal with |- wp _ _ ?x => assert (x = with_stats q 0 false s0) as -> end.
  { unfold with_stats. replace (false) with (StatWorkItem (dctx s0)) by congruence. cbn. by rewrite W0, W3, W1. }
  assert (moved s s0) as T by (by etrans). split_and!; [by apply (side_stats 1)| |done|done]. etrans; [exact T|]. apply moved_stats. by eapply moved_stat.
Qed.

Lemma StatWorkItemWorker_ok fuel s : side s -> MemStats (dctx s) <> 0 -> StatWorkItem (dctx s) = true ->
  wp (StatWorkItemWorker fuel) (fun _ s' => side s' /\ moved s s' /\ StatWorkItem (dctx s') = false /\ WorkCount (dctx s') = 0) s.
Proof.
  intros Sd Hm Hi. pose proof (sd_item _ Sd Hi) as W1. assert (is_Some (StatVirtQueue (dctx s))) as Hp.
  { destruct (StatVirtQueue (dctx s)) eqn:E; [eauto|]. by rewrite (sd_no_stats _ Sd E) in W1. }
  unfold StatWorkItemWorker. wp_step. unfold set_ctx at 1. apply wp_modify.
  eapply wp_mono; [destruct fuel; apply stat_round_ok; try done; destruct Sd; by split|]. intros [] s' (S' & T' & ?). split_and!; [done| |naive_solver..]. exact T'.
Qed.

(** ** Interrupts and activities *)

Definition item_ok s : Prop := StatWorkItem (dctx s) = (WorkCount (dctx s) =? 1).
(** All that holds between two steps of the threads. *)
Definition ready s : Prop := side s /\ item_ok s /\ working (dctx s).
Definition brisk {A} (m : M (balloon Q K) A) s : Prop := wp m (fun _ s' => ready s' /\ moved s s') s.

Lemma ready_still s s' : ready s -> side s' -> still s s' -> ready s'.
Proof. intros (Sd & I & W) S' (T & Ei & Ew & _). split_and!; [done| |by eapply moved_working]. unfold item_ok. congruence. Qed.
Lemma brisk_calm {A} (m : M (balloon Q K) A) s : ready s -> calm m s -> brisk m s.
Proof. intros R Hm. eapply wp_mono; [exact Hm|]. intros a s' (S' & T'). split; [by eapply ready_still|by apply still_moved]. Qed.
Lemma brisk_ret {A} (a : A) s : ready s -> brisk (mret a) s.
Proof. by split. Qed.
Lemma brisk_bind {A C} (m : M (balloon Q K) A) (f : A -> M (balloon Q K) C) s :
  brisk m s -> (forall a s', ready s' -> moved s s' -> brisk (f a) s') -> brisk (m ≫= f) s.
Proof.
  intros Hm Hf. unfold brisk. wp_step. eapply wp_mono; [exact Hm|]. intros a s1 (S1 & T1). cbv beta.
  eapply wp_mono; [by apply Hf|]. intros b s2 (S2 & T2). split; [done|by etrans].
Qed.
Lemma brisk_gets {A C} (g : balloon Q K -> A) (f : A -> M (balloon Q K) C) s : brisk (f (g s)) s -> brisk (gets g ≫= f) s.
Proof. done. Qed.
Lemma brisk_set f s : ready s -> (side s -> side (s <| dctx := f (dctx s) |>)) -> frozen (f (dctx s)) = frozen (dctx s) ->
  StatWorkItem (f (dctx s)) = StatWorkItem (dctx s) -> WorkCount (f (dctx s)) = WorkCount (dctx s) -> brisk (set_ctx f) s.
Proof. intros R ????. apply brisk_calm; [done|]. apply hush_set; try done. apply R. Qed.

Lemma working_queue w c : working c -> w <> Stats -> is_Some (get_queue w c).
Proof. intros (? & ? & _). by destruct w. Qed.

(** The part of the DPC for the statistics. *)
Lemma dpc_stats_ok s : ready s -> is_Some (StatVirtQueue (dctx s)) ->
  brisk (buffer ← virtqueue_get_buf Stats;
       match buffer with
       | None => mret tt
       | Some _ =>
           set_ctx (fun c => c <| WorkCount := s32 (WorkCount c + 1) |>);;
           n ← ctxg WorkCount;
           if n =? 1 then set_ctx (fun c => c <| StatWorkItem := true |>) else mret tt
       end) s.
Proof.
  intros (Sd & I & W) P. pose proof P as [q E]. destruct (sd_queue _ Sd Stats q E) as (n & Hq & Hn). specialize (Hn eq_refl). pose proof (sd_count _ Sd).
  destruct (vsq_get q _ Hq) as (b & q' & Eg & Hb). unfold brisk. wp_step. unfold virtqueue_get_buf. eapply wp_queue; [exact E|exact Eg|]. destruct b as [[p len]|].
  - destruct Hb as (_ & l' & El & Hl). destruct (replicate_cons_perm _ _ _ _ El) as (m & -> & -> & _). assert (m = O) as -> by lia. assert (WorkCount (dctx s) = 0) as W0 by lia.
    unfold set_ctx, ctxg. wp_steps. cbn [dctx WorkCount set_field]; cbn. rewrite W0. cbn. change (ready (with_stats q' 1 true s) /\ moved s (with_stats q' 1 true s)).
    pose proof (moved_stats q' 1 true s P) as T. split; [|done]. split_and!; [by apply (side_stats 0)|done|by eapply moved_working].
  - wp_step. assert (still s (s <| dctx := put_queue Stats q' (dctx s) |>)) as T by (by eapply put_still). split; [|by apply still_moved].
    eapply ready_still; [by split_and!| |exact T]. by eapply side_put.
Qed.

(** The DPC after it has looked at the two queues. *)
Definition dpc_tail : M (balloon Q K) unit :=
  stat ← ctxg StatVirtQueue;
  (match stat with
   | None => mret tt
   | Some _ =>
       buffer ← virtqueue_get_buf Stats;
       match buffer with
       | None => mret tt
       | Some _ =>
           set_ctx (fun c => c <| WorkCount := s32 (WorkCount c + 1) |>);;
           n ← ctxg WorkCount;
           if n =? 1 then set_ctx (fun c => c <| StatWorkItem := true |>) else mret tt
       end
   end);;
  t ← ctxg Thread;
  if (t : bool) then set_ctx (fun c => c <| WakeUpThread := true |>) else mret tt.
Lemma dpc_tail_ok s : ready s -> brisk dpc_tail s.
Proof.
  intros R. apply brisk_gets. apply brisk_bind.
  { destruct (StatVirtQueue (dctx s)) as [q|] eqn:E; [|by apply brisk_ret]. apply dpc_stats_ok; [done|eauto]. }
  intros [] s4 R4 _. apply brisk_gets. case_match; [|by apply brisk_ret]. apply brisk_set; try done. intros []. by split.
Qed.

Lemma BalloonInterruptDpc_ok s : ready s -> brisk BalloonInterruptDpc s.
Proof.
  intros R. unfold BalloonInterruptDpc.
  apply brisk_bind; [apply brisk_calm, calm_get; [done|apply R|apply working_queue; [apply R|done]|done]|]. intros b1 s1 R1 _.
  apply brisk_bind; [apply brisk_calm, calm_get; [done|apply R1|apply working_queue; [apply R1|done]|done]|]. intros b2 s2 R2 _.
  apply brisk_bind.
  { case_match; [|by apply brisk_ret]. apply brisk_set; try done. intros []. by split. }
  intros [] s3 R3 _. by apply dpc_tail_ok.
Qed.

(** The device on the queues that there are. *)
Lemma device_on_ok w s : ready s -> brisk (device_on w) s.
Proof.
  intros (S & I & W). unfold device_on, brisk. wp_steps. destruct (get_queue w (dctx s)) as [q|] eqn:E; [|by apply brisk_ret].
  destruct (sd_queue _ S w q E) as (n & Hq & Hn). wp_step. unfold wp, krn. pose proof (bl_device w q (pfns (dctx s)) (kern s) (sd_kok _ S)) as Hd. unfold wp in Hd.
  destruct (device_runs w q _ (kern s)) as [[q' k']|]; [|done]. destruct Hd as (Hq' & Hk & Em & Ee). cbn.
  pose proof (put_still w q q' s E) as ((Ef & _) & _). assert (moved s (mk_balloon (put_queue w q' (dctx s)) (Counters s) k')) as T by (by split_and!).
  assert (side (s <| kern := k' |>)) as S' by (destruct S; by split). split; [|done]. split; [by apply (side_put w q q' n _ S'); [|apply Hq'|]|]. split; [|by eapply moved_working].
  unfold item_ok. by destruct w.
Qed.

Lemma run_activity_ok fuel a s : ready s -> brisk (run_activity fuel a) s.
Proof.
  intros R. destruct a; cbn [run_activity].
  - apply brisk_bind; [by apply device_on_ok|]. intros [] s1 R1 _. apply brisk_bind; [by apply device_on_ok|]. intros [] s2 R2 _. by apply device_on_ok.
  - by apply BalloonInterruptDpc_ok.
  - unfold WdfWorkItemFlush. apply brisk_gets. destruct (StatWorkItem (dctx s)) eqn:E; [|by apply brisk_ret].
    eapply wp_mono; [apply StatWorkItemWorker_ok; [apply R|apply R|done]|]. intros [] s' (S' & T' & I' & W'). split; [|done].
    split_and!; [done| |eapply moved_working; [exact T'|apply R]]. unfold item_ok. by rewrite I', W'.
  - apply brisk_set; try done. intros []. by split.
  - apply brisk_set; try done. intros []. by split.
Qed.

Lemma run_activities_ok fuel l : forall s, ready s -> brisk (run_activities fuel l) s.
Proof.
  induction l as [|a l IH]; intros s R; cbn [run_activities]; [by apply brisk_ret|]. apply brisk_bind; [by apply run_activity_ok|]. intros [] s' R' _. by apply IH.
Qed.

(** ** Telling the host *)

Definition tell_status (st : Z) : Prop :=
  st = STATUS_NO_SUCH_DEVICE \/ st = STATUS_NO_MORE_ENTRIES \/ st = STATUS_WAIT_0 \/ st = STATUS_TIMEOUT.

Lemma brisk_post {A} (m : M (balloon Q K) A) Φ s : brisk m s -> (forall a s', ready s' -> moved s s' -> Φ a s') -> wp m Φ s.
Proof. intros Hm HΦ. eapply wp_mono; [exact Hm|]. intros a s' []. by apply HΦ. Qed.

Lemma wait_host_ack_ok fuel s : ready s ->
  wp (wait_host_ack fuel) (fun st s' => ready s' /\ moved s s' /\ (st = STATUS_WAIT_0 \/ st = STATUS_TIMEOUT)) s.
Proof.
  intros R. unfold wait_host_ack. wp_step. eapply brisk_post; [by apply brisk_calm; [|eapply calm_krn; [apply R|apply bl_meanwhile]]|]. intros l s1 R1 T1.
  wp_step. eapply brisk_post; [by apply run_activities_ok|]. intros [] s2 R2 T2. unfold ctxg. wp_steps. assert (moved s s2) as T by (by etrans).
  destruct (HostAckEvent (dctx s2)).
  - wp_step. eapply brisk_post; [apply brisk_set; try done; intros []; by split|]. intros [] s3 R3 T3. wp_step. split_and!; [done|by etrans|by left].
  - wp_step. split_and!; [done|done|by right].
Qed.

Lemma BalloonTellHost_ok fuel vq s : ready s -> vq <> Stats ->
  wp (BalloonTellHost fuel vq) (fun st s' => ready s' /\ moved s s' /\ tell_status st) s.
Proof.
  intros R Hw. unfold BalloonTellHost, ctxg. wp_steps. destruct (SurpriseRemoval (dctx s)); [wp_step; split_and!; [done..|by left]|]. wp_steps.
  eapply brisk_post; [by apply brisk_calm; [|eapply calm_krn; [apply R|apply bl_physical]]|]. intros pa s1 R1 T1. wp_steps.
  eapply brisk_post; [apply brisk_calm, calm_add; [done|apply R1|apply working_queue; [apply R1|done]|done]|]. intros r s2 R2 T2. assert (moved s s2) as T02 by (by etrans).
  destruct (r <? 0); [wp_step; split_and!; [done..|by right; left]|]. wp_step.
  eapply brisk_post; [apply brisk_calm, calm_kick_prepare; [done|apply R2|apply working_queue; [apply R2|done]]|]. intros b s3 R3 T3. wp_step.
  eapply brisk_post; [apply brisk_calm, calm_notify_if; [done|apply R3|apply working_queue; [apply R3|done]]|]. intros [] s4 R4 T4. wp_step.
  eapply wp_mono; [by apply wait_host_ack_ok|]. intros st s5 (R5 & T5 & Hst). cbv beta. wp_step. apply wp_assert; [by destruct Hst as [-> | ->]|]. wp_step.
  split_and!; [done| |by right; right]. by rewrite T02, T3, T4.
Qed.

(** ** The page list *)

Lemma wp_kern {A} (m : M K A) Φ s : wp m (fun a k => Φ a (s <| kern := k |>)) (kern s) -> wp (krn m) Φ s.
Proof. unfold wp, krn. by destruct (m (kern s)) as [[a k]|]. Qed.
Lemma wp_kern_read {A} (m : M K A) a Φ s : m (kern s) = Ok (a, kern s) -> Φ a s -> wp (krn m) Φ s.
Proof. intros E. unfold wp, krn. rewrite E. by destruct s. Qed.
Lemma ready_kern k s : ready s -> kok k -> ready (s <| kern := k |>).
Proof. intros ([] & I & W) Hk. split_and!; [by split|done|done]. Qed.
Lemma ready_ctx f s : ready s -> (side s -> side (s <| dctx := f (dctx s) |>)) -> StatWorkItem (f (dctx s)) = StatWorkItem (dctx s) ->
  WorkCount (f (dctx s)) = WorkCount (dctx s) -> working (f (dctx s)) -> ready (s <| dctx := f (dctx s) |>).
Proof. intros (Sd & I & W) Hs E1 E2 Hw. split_and!; [by apply Hs| |done]. unfold item_ok. cbn. by rewrite E1, E2. Qed.

Lemma pages_lookup L c k x : pages L c k -> x ∈ L -> mdls k !! PageMdl x.1 = Some x.2.
Proof.
  intros P Hx. rewrite (pg_mdls _ _ _ P). apply elem_of_list_to_map_1.
  - rewrite <- list_fmap_compose. apply P.
  - apply (list_elem_of_fmap_2 (fun x => (PageMdl x.1, x.2))). done.
Qed.
Lemma elem_all_pages L x : x ∈ all_pages L <-> exists y, y ∈ L /\ x ∈ y.2.
Proof. unfold all_pages. rewrite list_elem_of_join. setoid_rewrite list_elem_of_fmap. naive_solver. Qed.

Lemma copy_pfns_ok mdl l s : ready s -> mdls (kern s) !! mdl = Some l -> 0 <= num_pfns (dctx s) <= zlen l -> zlen l <= TABLE_SIZE ->
  wp (copy_pfns mdl) (fun _ s' => s' = s <| dctx := (dctx s) <| pfns := take (Z.to_nat (num_pfns (dctx s))) l ++ drop (Z.to_nat (num_pfns (dctx s))) (pfns (dctx s)) |> |> /\ ready s') s.
Proof.
  intros R Hm Hn Hl. unfold copy_pfns. wp_step. eapply wp_kern_read; [apply bl_pfns; [apply R|exact Hm]|]. wp_steps.
  assert (pfns_table (dctx s) <> 0) as Ht by apply R. assert (zlen (pfns (dctx s)) = TABLE_SIZE) as El by (by apply R).
  rewrite (proj2 (Z.eqb_neq _ 0) Ht). replace (_ && _) with true by (symmetry; apply andb_true_intro; lia). unfold set_ctx. wp_steps.
  split; [done|]. apply (ready_ctx (fun c => c <| pfns := take (Z.to_nat (num_pfns c)) l ++ drop (Z.to_nat (num_pfns c)) (pfns c) |>) s); try done; [|apply R].
  intros []. split; try done. intros _. cbn in *. unfold zlen in *. rewrite length_app, length_take, length_drop. lia.
Qed.

Lemma free_mdl_ok p l m s : ready s -> mdls (kern s) = <[p := l]> m -> m !! p = None ->
  wp (free_mdl p) (fun _ s' => ready s' /\ dctx s' = dctx s /\ mdls (kern s') = m /\ entries (kern s') = entries (kern s) /\ host (kern s') = host (kern s)) s.
Proof.
  intros R E Hp. unfold free_mdl. wp_step. apply wp_kern. eapply wp_mono; [eapply bl_free_pages; [apply R|rewrite E; apply lookup_insert_eq]|].
  intros [] k1 (K1 & E1 & H1' & M1). cbv beta. apply wp_kern. eapply wp_mono; [apply bl_free_mdl; [done|cbn; rewrite M1; apply lookup_insert_eq]|].
  intros [] k2 (K2 & E2 & H2' & M2). cbn in M2, E2, H2'. split; [by repeat apply ready_kern|]. split; [done|]. split; [|cbn; split; congruence].
  cbn. rewrite M2, M1, E, insert_insert_eq. by apply delete_insert_id.
Qed.

(** *** Inflating *)

Lemma total_cons x L : total (x :: L) = zlen x.2 + total L.
Proof. done. Qed.
Lemma total_nonneg L : 0 <= total L.
Proof. induction L as [|x L IH]; [done|]. rewrite total_cons. pose proof (zlen_nonneg x.2). lia. Qed.

Lemma pages_ctx L c c' k : PageListHead c' = PageListHead c -> num_pages c' = num_pages c -> pages L c k -> pages L c' k.
Proof. intros E1 E2 []. split; congruence. Qed.
Lemma pages_kern L c k k' : mdls k' = mdls k -> entries k' ≡ₚ entries k -> pages L c k -> pages L c k'.
Proof. intros E1 E2 []. split; rewrite ?E1, ?E2; done. Qed.

(** A new MDL on the list. *)
Lemma pages_push L c c' k k' p e l : pages L c k -> mdls k !! p = None -> mdls k' = <[p := l]> (mdls k) -> NoDup l ->
  (forall q l' x, mdls k !! q = Some l' -> x ∈ l' -> x ∉ l) -> e ∉ entries k -> entries k' ≡ₚ e :: entries k -> 1 <= zlen l <= TABLE_SIZE ->
  PageListHead c' = mk_entry e p :: PageListHead c -> num_pages c' = num_pages c + zlen l -> num_pages c' < 2 ^ 32 ->
  pages ((mk_entry e p, l) :: L) c' k'.
Proof.
  intros P Hp Em Nl Hf He Ee Hl El En Hs. split.
  - by rewrite El, (pg_list _ _ _ P).
  - by rewrite Em, (pg_mdls _ _ _ P).
  - apply NoDup_cons. split; [|apply P]. rewrite (pg_mdls _ _ _ P) in Hp. apply not_elem_of_list_to_map in Hp. by rewrite <- list_fmap_compose in Hp.
  - rewrite Ee. cbn. by rewrite (pg_entries _ _ _ P).
  - rewrite Ee. apply NoDup_cons. split; [done|apply P].
  - constructor; [done|apply P].
  - cbn. apply NoDup_app. split_and!; [done| |apply P]. intros x Hx (y & Hy & Hxy)%elem_all_pages. eapply Hf; [by eapply pages_lookup|done..].
  - rewrite En, (pg_total _ _ _ P), total_cons. cbn [snd]. lia.
  - done.
Qed.

(** There is memory: allocations succeed in full. *)
Definition plenty : Prop :=
  (forall n k, 0 <= n -> kok k -> wp (MmAllocatePagesForMdlEx (Q := Q) (n * PAGE_SIZE)) (fun p k' => p <> 0 /\ forall l, mdls k' !! p = Some l -> zlen l = n) k) /\
  (forall k, kok k -> wp (ExAllocateFromNPagedLookasideList (Q := Q)) (fun p k' => p <> 0) k) /\
  (forall k, kok k -> wp (wait_low_memory (Q := Q)) (fun st k' => st <> STATUS_WAIT_0) k).

(** What [BalloonFill] does to the list: nothing, when memory is short, or one more MDL of the
    size it should have. *)
Definition filled L num st L' : Prop :=
  L' = L /\ st = STATUS_INSUFFICIENT_RESOURCES /\ ~ plenty \/
  exists x, L' = x :: L /\ zlen x.2 = Z.min num TABLE_SIZE /\ tell_status st.

(** What inflating and deflating leave alone before they tell the host. *)
Definition outside c :=
  (self c, InfVirtQueue c, DefVirtQueue c, StatVirtQueue c, HostAckEvent c, SurpriseRemoval c, pfns_table c, MemStats c, Thread c, bShutDown c).
Definition apart s s' : Prop := outside (dctx s') = outside (dctx s) /\ host (kern s') = host (kern s).
#[global] Instance apart_preorder : PreOrder apart.
Proof. split; [done|]. intros s1 s2 s3 (A1 & B1) (A2 & B2). split; congruence. Qed.
Lemma apart_thread s s' : apart s s' -> Thread (dctx s') = Thread (dctx s).
Proof. intros (E & _). by injection E. Qed.

Lemma IsLowMemory_ok s : ready s -> wp IsLowMemory (fun low s' => exists k, s' = s <| kern := k |> /\ kok k /\
  mdls k = mdls (kern s) /\ entries k = entries (kern s) /\ host k = host (kern s) /\ (plenty -> low = false)) s.
Proof.
  intros R. unfold IsLowMemory, ctxg. wp_steps. case_match; [|wp_step; exists (kern s); split_and!; try done; [by destruct s|apply R]]. wp_step. apply wp_kern.
  eapply wp_mono; [apply (wp_when plenty); [apply (bl_low (kern s)); apply R|intros (_ & _ & Hl); apply Hl, R]|].
  intros st k ((_ & Hk & Em & Ee & Eh) & Hp). cbv beta. wp_step. exists k. split_and!; try done. intros Pl. apply Z.eqb_neq. by apply Hp.
Qed.

(** The table starts with the pages. *)
Definition table_has (l : list Z) c : Prop := num_pfns c = zlen l /\ take (length l) (pfns c) = l.
Lemma table_copied l c : num_pfns c = zlen l ->
  table_has l (c <| pfns := take (Z.to_nat (num_pfns c)) l ++ drop (Z.to_nat (num_pfns c)) (pfns c) |>).
Proof.
  intros E. split; [done|]. cbn. rewrite E. unfold zlen. rewrite Nat2Z.id, firstn_all, take_app_le by done. apply firstn_all.
Qed.

(** The new MDL is on the list, counted and in the table. *)
Lemma fill_commit fuel p e l L Φ s1 s2 : ready s2 -> dctx s2 = dctx s1 -> pages L (dctx s1) (kern s1) -> host (kern s2) = host (kern s1) ->
  mdls (kern s1) !! p = None -> mdls (kern s2) = <[p := l]> (mdls (kern s1)) -> NoDup l ->
  (forall q l' x, mdls (kern s1) !! q = Some l' -> x ∈ l' -> x ∉ l) -> e ∉ entries (kern s1) -> entries (kern s2) ≡ₚ e :: entries (kern s1) ->
  1 <= zlen l <= TABLE_SIZE -> num_pages (dctx s1) + zlen l < 2 ^ 32 ->
  (forall s', ready s' -> apart s1 s' -> pages ((mk_entry e p, l) :: L) (dctx s') (kern s') -> table_has l (dctx s') -> wp (BalloonTellHost fuel Inflate) Φ s') ->
  wp (set_ctx (fun c => c <| PageListHead := mk_entry e p :: PageListHead c |>);;
      set_ctx (fun c => c <| num_pfns := u32 (zlen l) |>);;
      set_ctx (fun c => c <| num_pages := u32 (num_pages c + num_pfns c) |>);;
      copy_pfns p;;
      BalloonTellHost fuel Inflate) Φ s2.
Proof.
  intros R2 D2 P1 Eh Hfree M2 Nl Fl Hfe E2 Hl Hs HΦ. change TABLE_SIZE with 512 in Hl. unfold set_ctx. wp_step. apply wp_modify. wp_step. apply wp_modify. wp_step. apply wp_modify.
  set (s3 := _ <| dctx := _ |>). assert (num_pages (dctx s3) = num_pages (dctx s1) + zlen l) as N3.
  { unfold s3. cbn. rewrite D2. pose proof (pg_total _ _ _ P1). pose proof (total_nonneg L). rewrite (u32_small (zlen l)) by lia. apply u32_small. lia. }
  assert (ready s3) as R3 by (split_and!; [destruct (proj1 R2); by split|exact (proj1 (proj2 R2))|exact (proj2 (proj2 R2))]).
  assert (pages ((mk_entry e p, l) :: L) (dctx s3) (kern s3)) as P3.
  { eapply (pages_push L (dctx s1) _ (kern s1)); try done; [unfold s3; cbn; by rewrite D2|rewrite N3; lia]. }
  assert (num_pfns (dctx s3) = zlen l) as Np by (apply u32_small; lia). assert (mdls (kern s3) !! p = Some l) as Hm3 by (cbn; by rewrite M2, lookup_insert_eq).
  assert (apart s1 s3) as A3 by (split; [unfold s3, outside; cbn; by rewrite D2|exact Eh]). clearbody s3.
  wp_step. eapply wp_mono; [apply (copy_pfns_ok p l); [done|done|lia|change TABLE_SIZE with 512; lia]|]. intros [] s4 (-> & R4). cbv beta.
  apply HΦ; [done| |by eapply pages_ctx; [| |exact P3]|by apply table_copied]. etrans; [exact A3|done].
Qed.

(** Inflating up to the call to the host. *)
Lemma BalloonFill_split fuel num L Φ s : ready s -> pages L (dctx s) (kern s) -> 0 < num -> num_pages (dctx s) + num < 2 ^ 32 ->
  (forall s', ready s' -> apart s s' -> pages L (dctx s') (kern s') -> ~ plenty -> Φ STATUS_INSUFFICIENT_RESOURCES s') ->
  (forall x s', ready s' -> apart s s' -> pages (x :: L) (dctx s') (kern s') -> zlen x.2 = Z.min num TABLE_SIZE -> table_has x.2 (dctx s') ->
    wp (BalloonTellHost fuel Inflate) Φ s') -> wp (BalloonFill fuel num) Φ s.
Proof.
  intros R P Hn Hs HF HT. unfold BalloonFill. wp_step. unfold set_ctx at 1. apply wp_modify. set (s0 := s <| dctx := _ |>).
  assert (ready s0) as R0 by (apply (ready_ctx (fun c => c <| num_pfns := 0 |>)); try done; [intros []; by split|apply R]).
  assert (pages L (dctx s0) (kern s0)) as P0 by (by eapply pages_ctx; [| |exact P]). assert (num_pages (dctx s0) = num_pages (dctx s)) as N0 by done.
  assert (apart s s0) as A0 by done. clearbody s0. clear R P. wp_step. eapply wp_mono; [by apply IsLowMemory_ok|].
  intros low s1 (k1 & -> & K1 & M1 & E1 & H1' & Hlow). cbv beta. set (s1 := s0 <| kern := k1 |>). assert (ready s1) as R1 by (by apply ready_kern).
  assert (pages L (dctx s1) (kern s1)) as P1 by (eapply pages_kern; [done|by cbn; rewrite E1|exact P0]). assert (apart s s1) as A1 by (etrans; [exact A0|done]).
  assert (num_pages (dctx s1) = num_pages (dctx s)) as N1 by done. clearbody s1. clear dependent k1. clear R0 P0 N0 A0 s0.
  destruct low; [wp_step; apply HF; try done; by intros ?%Hlow|]. cbv zeta. change (PAGE_SIZE / sizeof_PFN_NUMBER) with TABLE_SIZE. set (n := Z.min num TABLE_SIZE).
  assert (1 <= n <= 512) as Hn' by (unfold n; change TABLE_SIZE with 512; lia). rewrite (u64_small (n * PAGE_SIZE)) by (change PAGE_SIZE with 4096; lia). change PAGE_SIZE with 4096.
  wp_step. apply wp_kern. eapply wp_mono; [apply (wp_when plenty); [apply bl_alloc; [lia|apply R1]|intros (Ha & _); apply (Ha n); [lia|apply R1]]|]. intros p k2 ((K2 & E2 & H2' & Hp) & Hfull). cbv beta.
  assert (forall s' k, ready s' -> dctx s' = dctx s1 -> kern s' = k -> mdls k = mdls (kern s1) -> entries k = entries (kern s1) -> host k = host (kern s1) -> ~ plenty ->
    Φ STATUS_INSUFFICIENT_RESOURCES s') as Stop.
  { intros s' k R' D' <- M' E' H' Short. apply HF; [done| | |done]; [etrans; [exact A1|split; [by rewrite D'|done]]|]. rewrite D'. eapply pages_kern; [exact M'|by rewrite E'|exact P1]. }
  destruct Hp as [(-> & M2)|(Hp & Hfree & l & M2 & Nl & Bl & Fl)].
  { change (0 =? 0) with true. cbv iota. wp_step. eapply Stop; [by apply ready_kern|done..|by intros [? _]%Hfull]. }
  rewrite (proj2 (Z.eqb_neq _ 0) Hp). set (s2 := s1 <| kern := k2 |>). assert (ready s2) as R2 by (by apply ready_kern).
  assert (mdls (kern s2) !! p = Some l) as Hm by (cbn; by rewrite M2, lookup_insert_eq). change PAGE_SIZE with 4096 in Bl.
  wp_step. eapply wp_kern_read; [apply bl_count; [done|exact Hm|change PAGE_SIZE with 4096; lia]|]. change PAGE_SIZE with 4096.
  destruct (Z.eqb_spec (zlen l * 4096) (n * 4096)) as [El|Hne]; cbn [negb].
  2:{ wp_step. eapply wp_mono; [by eapply (free_mdl_ok p l)|]. intros [] s' (R' & D' & M' & E' & H'). cbv beta. wp_step. eapply (Stop s' (kern s')); try done; [by rewrite E'|by rewrite H'|].
      intros [_ Hl]%Hfull. apply Hne. by rewrite (Hl l Hm). }
  assert (zlen l = n) as El' by lia. wp_step. apply wp_kern.
  eapply wp_mono; [apply (wp_when plenty); [apply bl_entry_alloc, R2|intros (_ & Ha & _); apply Ha, R2]|]. intros e k3 ((K3 & M3 & H3' & He) & Hent). cbv beta. cbn in M3, H3', He.
  destruct He as [(-> & E3)|(He & Hfe & E3)].
  { change (0 =? 0) with true. cbv iota. wp_step. eapply wp_mono; [eapply (free_mdl_ok p l (mdls (kern s1))); [by apply ready_kern|by cbn; rewrite M3|done]|].
    intros [] s' (R' & D' & M' & E' & H'). cbv beta. wp_step. cbn in E', H'. eapply (Stop s' (kern s')); try done; [congruence..|by intros ?%Hent]. }
  rewrite (proj2 (Z.eqb_neq _ 0) He), <- El'. eapply (fill_commit fuel p e l L Φ s1); try done; cbn; rewrite ?M3, ?H3', ?E2 in *; try done; [by apply ready_kern|change TABLE_SIZE with 512; lia|lia|].
  intros s' R' A' P' T'. apply (HT (mk_entry e p, l)); try done. by etrans.
Qed.

Lemma BalloonFill_ok fuel num L s : ready s -> pages L (dctx s) (kern s) -> 0 < num -> num_pages (dctx s) + num < 2 ^ 32 ->
  wp (BalloonFill fuel num) (fun st s' => (ready s' /\ Thread (dctx s') = Thread (dctx s)) /\ exists L', pages L' (dctx s') (kern s') /\ filled L num st L') s.
Proof.
  intros R P Hn Hs. apply (BalloonFill_split fuel num L); try done.
  - intros s' R' A' P' Short. split; [split; [done|by apply apart_thread]|]. exists L. split; [done|by left].
  - intros x s' R' A' P' Hx _. eapply wp_mono; [by apply BalloonTellHost_ok|]. intros st s5 (R5 & T5 & Hst). destruct (moved_fields _ _ T5) as (_ & _ & H5 & _).
    split; [split; [done|rewrite H5; by apply apart_thread]|]. exists (x :: L). split; [by eapply moved_pages|]. right. by exists x.
Qed.

(** *** Deflating *)

Lemma pages_pop L c c' k k' x : pages (x :: L) c k -> mdls k' = delete (PageMdl x.1) (mdls k) -> entries k ≡ₚ SingleListEntry x.1 :: entries k' ->
  PageListHead c' = fst <$> L -> num_pages c' = num_pages c - zlen x.2 -> pages L c' k'.
Proof.
  intros P Em Ee El En. pose proof (pg_nodup _ _ _ P) as ND. apply NoDup_cons in ND as [Hx ND]. pose proof (pg_bounds _ _ _ P) as Hb. apply Forall_cons in Hb as [Hb1 Hb].
  pose proof (pg_pages _ _ _ P) as Hp. apply NoDup_app in Hp as (_ & _ & Hp). split; try done.
  - rewrite Em, (pg_mdls _ _ _ P). cbn. apply delete_insert_id, not_elem_of_list_to_map. by rewrite <- list_fmap_compose.
  - pose proof (pg_entries _ _ _ P) as He. rewrite Ee in He. by apply Permutation_cons_inv in He.
  - pose proof (pg_entries_nodup _ _ _ P) as He. rewrite Ee in He. by apply NoDup_cons in He as [_ He].
  - rewrite En, (pg_total _ _ _ P), total_cons. lia.
  - pose proof (pg_small _ _ _ P). pose proof (zlen_nonneg x.2). lia.
Qed.

Lemma BalloonLeak_empty fuel num s : pages [] (dctx s) (kern s) -> BalloonLeak fuel num s = Ok (STATUS_NOT_FOUND, s).
Proof. intros P. unfold BalloonLeak, ctxg, gets, mbind, M_bind. by rewrite (pg_list _ _ _ P). Qed.

(** The first MDL goes, whatever number of pages was asked for. *)
Lemma BalloonLeak_split fuel num x L Φ s : ready s -> pages (x :: L) (dctx s) (kern s) ->
  (forall s', ready s' -> apart s s' -> pages L (dctx s') (kern s') -> table_has x.2 (dctx s') -> wp (BalloonTellHost fuel Deflate) Φ s') -> wp (BalloonLeak fuel num) Φ s.
Proof.
  intros R P HΦ. unfold BalloonLeak, ctxg. wp_steps. rewrite (pg_list _ _ _ P). cbn [fmap list_fmap]. destruct x as [e l]. cbn [fst].
  pose proof (pages_lookup _ _ _ (e, l) P ltac:(left)) as Hm. cbn [fst snd] in Hm. pose proof (pg_bounds _ _ _ P) as Hb. apply Forall_cons in Hb as [Hb _]. cbn [snd] in Hb.
  change TABLE_SIZE with 512 in Hb. wp_step. unfold set_ctx at 1. apply wp_modify. wp_step.
  eapply wp_kern_read; [apply bl_count; [apply R|exact Hm|change PAGE_SIZE with 4096; lia]|]. cbv zeta. rewrite Z.div_mul by done.
  unfold set_ctx. wp_step. apply wp_modify. wp_step. apply wp_modify. set (s1 := _ <| dctx := _ |>).
  assert (num_pages (dctx s1) = num_pages (dctx s) - zlen l) as N1.
  { unfold s1. cbn. rewrite (u32_small (zlen l)) by lia. pose proof (pg_total _ _ _ P) as E. pose proof (pg_small _ _ _ P). pose proof (total_nonneg L). rewrite total_cons in E. cbn [snd] in E. apply u32_small. lia. }
  assert (ready s1) as R1 by (split_and!; [destruct (proj1 R); by split|exact (proj1 (proj2 R))|exact (proj2 (proj2 R))]).
  assert (num_pfns (dctx s1) = zlen l) as Np by (apply u32_small; lia). assert (kern s1 = kern s) as Ek by done. assert (PageListHead (dctx s1) = fst <$> L) as Hl by done.
  assert (apart s s1) as A1 by done. clearbody s1.
  wp_step. eapply wp_mono; [apply (copy_pfns_ok _ l); [done|by rewrite Ek|lia|change TABLE_SIZE with 512; lia]|]. intros [] s2 (-> & R2). cbv beta. wp_step.
  eapply wp_mono; [apply (free_mdl_ok _ l (delete (PageMdl e) (mdls (kern s)))); [exact R2| |apply lookup_delete_eq]|].
  { cbn. rewrite Ek. rewrite insert_delete_eq. symmetry. by apply insert_id. }
  intros [] s3 (R3 & D3 & M3 & E3 & H3'). cbv beta. wp_step. apply wp_kern. cbn in E3, H3'. rewrite Ek in E3, H3'.
  eapply wp_mono; [apply (bl_entry_free _ ((fun x => SingleListEntry x.1) <$> L)); [apply R3|rewrite E3; exact (pg_entries _ _ _ P)]|].
  intros [] k4 (K4 & M4 & H4' & E4). cbv beta. apply HΦ.
  - by apply ready_kern.
  - split; [cbn; rewrite D3; exact (proj1 A1)|cbn; congruence].
  - eapply (pages_pop L (dctx s) _ (kern s)); [exact P|cbn; by rewrite M4, M3| | |]; cbn; rewrite ?D3; cbn; [|done..]. rewrite E4. exact (pg_entries _ _ _ P).
  - cbn. rewrite D3. by apply table_copied.
Qed.

Lemma BalloonLeak_ok fuel num x L s : ready s -> pages (x :: L) (dctx s) (kern s) ->
  wp (BalloonLeak fuel num) (fun st s' => (ready s' /\ Thread (dctx s') = Thread (dctx s)) /\ pages L (dctx s') (kern s') /\ tell_status st) s.
Proof.
  intros R P. apply (BalloonLeak_split fuel num x L); try done. intros s' R' A' P' _. eapply wp_mono; [by apply BalloonTellHost_ok|]. intros st s5 (R5 & T5 & Hst).
  destruct (moved_fields _ _ T5) as (_ & _ & H5 & _). split; [split; [done|rewrite H5; by apply apart_thread]|]. split; [by eapply moved_pages|done].
Qed.

(** The loop at the end: one round for each MDL, and nothing is left. *)
Lemma leak_all_ok fuel : forall rounds L s, (length L <= rounds)%nat -> ready s -> pages L (dctx s) (kern s) ->
  wp (leak_all fuel rounds) (fun _ s' => (ready s' /\ Thread (dctx s') = Thread (dctx s)) /\ pages [] (dctx s') (kern s')) s.
Proof.
  induction rounds as [|rounds IH]; intros L s Hl R P; unfold ctxg; cbn [leak_all]; unfold ctxg; wp_steps.
  - destruct L; [|cbn in Hl; lia]. rewrite (pg_total _ _ _ P). by wp_steps.
  - destruct L as [|x L]; [rewrite (pg_total _ _ _ P); by wp_steps|]. pose proof (pg_bounds _ _ _ P) as Hb. apply Forall_cons in Hb as [Hb _].
    replace (truth (num_pages (dctx s))) with true.
    2:{ unfold truth. rewrite (pg_total _ _ _ P), total_cons. pose proof (total_nonneg L). symmetry. apply negb_true_iff, Z.eqb_neq. lia. }
    wp_step. eapply wp_mono; [by eapply BalloonLeak_ok|]. intros st s1 ((R1 & E1) & P1 & _). rewrite <- E1. apply (IH L); [cbn in Hl; lia|done|done].
Qed.
End spec.

(** ** The balloon driver: memory statistics

    The kernel counts faults in 32 bits; the driver extends the counters to 64 bits as long as it
    looks often enough, and hands ten tagged values to the host. *)

(** The two halves of a 64-bit count. *)
Definition halves (v : Z) : Z * Z := (v mod 2 ^ 32, v / 2 ^ 32).
(** A count that grew by less than 2^32 since it was last read. *)
Definition grown (v v' : Z) : Prop := 0 <= v <= v' /\ v' < v + 2 ^ 32 /\ v' < 2 ^ 64.

Lemma counter_tracks v v' : grown v v' ->
  UpdateOverflowFreeCounter (halves v) (u32 v') = halves v' /\ QuadPart (halves v') = v'.
Proof.
  intros (Hv & Hg & Hs). unfold UpdateOverflowFreeCounter, QuadPart, halves, u32. cbn [fst snd]. change (2 ^ 32) with 4294967296 in *. change (2 ^ 64) with 18446744073709551616 in *. split.
  - f_equal. destruct (Z.ltb_spec (v' mod 4294967296) (v mod 4294967296)); Z.to_euclidean_division_equations; lia.
  - rewrite Z.shiftl_mul_pow2 by done. change (2 ^ 32) with 4294967296. Z.to_euclidean_division_equations. lia.
Qed.

(** The seven counters, in the order of [ULONG_COUNTER]. *)
Record counts := mk_counts { n_read : Z; n_dirty : Z; n_mapped : Z; n_copy : Z; n_transition : Z; n_cache : Z; n_zero : Z }.
Definition counts_list (c : counts) : list Z := [n_read c; n_dirty c; n_mapped c; n_copy c; n_transition c; n_cache c; n_zero c].
(** What the kernel reports of them. *)
Definition perf_of (c : counts) (avail : Z) : SYSTEM_PERFORMANCE_INFORMATION :=
  mk_perf (u32 (n_read c)) (u32 (n_dirty c)) (u32 (n_mapped c)) (u32 (n_copy c)) (u32 (n_transition c)) (u32 (n_cache c)) (u32 (n_zero c)) avail.

(** What the host is to see. *)
Definition statistics (c : counts) (avail physical : Z) (cache : SYSTEM_FILECACHE_INFORMATION) : list BALLOON_STAT :=
  [mk_stat 0 (u64 (n_read c * 4096)); mk_stat 1 (u64 ((n_dirty c + n_mapped c) * 4096)); mk_stat 2 (n_read c);
   mk_stat 3 (u64 (n_copy c + n_transition c + n_cache c + n_zero c)); mk_stat 4 (avail * 4096); mk_stat 5 (physical * 4096);
   mk_stat 6 (u64 (avail * 4096 + cache_size cache / 2)); mk_stat 7 (cache_size cache); mk_stat 8 0; mk_stat 9 0].

Section gather.
Context {Q K : Type} `{AsyncQueue Q} `{BalloonKernel Q K}.
Implicit Types (s : balloon Q K) (k : K).

Lemma shift_pages v : Z.shiftl v PAGE_SHIFT = v * 4096.
Proof. rewrite Z.shiftl_mul_pow2 by done. done. Qed.

(** The state with the given counters and statistics. *)
Definition gathered (c : DEVICE_CONTEXT Q) (cs : list (Z * Z)) (ms : list BALLOON_STAT) k : balloon Q K := mk_balloon (c <| mem_stats := ms |>) cs k.

(** One counter: its halves and its value; one statistic; one query. *)
Lemma wp_counter i v v' Φ c cs cs' ms k : cs⟦i⟧ = Some (halves v) -> grown v v' -> zinsert i (halves v') cs = cs' ->
  Φ v' (gathered c cs' ms k) -> wp (UpdateNoOverflow i (u32 v')) Φ (gathered c cs ms k).
Proof.
  intros E G <- HΦ. destruct (counter_tracks v v' G) as [E1 E2]. unfold UpdateNoOverflow. wp_steps. eapply wp_pure; [by apply zget_ok|]. cbv zeta. rewrite E1, E2. by wp_steps.
Qed.
Lemma wp_stat i t v Φ c cs ms ms' k : 0 <= i < zlen ms -> zinsert i (mk_stat t v) ms = ms' ->
  Φ tt (gathered c cs ms' k) -> wp (UpdateStat i t v) Φ (gathered c cs ms k).
Proof. intros Hi <- HΦ. unfold UpdateStat, ctxg. wp_steps. eapply wp_pure; [by apply zset_ok|]. by unfold set_ctx; wp_steps. Qed.
Lemma wp_query {A} (m : M K A) a k Φ s : m (kern s) = Ok (a, k) -> Φ a (s <| kern := k |>) -> wp (krn m) Φ s.
Proof. intros E HΦ. unfold wp, krn. by rewrite E. Qed.
Lemma grown_same v v' : grown v v' -> grown v' v'.
Proof. unfold grown. lia. Qed.

(** [gather_step]: the next statement of [GatherKernelStats]. *)
Ltac gather_step :=
  wp_step; cbv zeta;
  match goal with
  | |- wp (UpdateNoOverflow _ _) _ _ => eapply wp_counter; [reflexivity|first [eassumption|eapply grown_same; eassumption]|cbv [zinsert Z.leb Z.compare insert list_insert Z.to_nat Pos.to_nat Pos.iter_op Nat.add]; reflexivity|]
  | |- wp (UpdateStat _ _ _) _ _ => eapply wp_stat; [done|cbv [zinsert Z.leb Z.compare insert list_insert Z.to_nat Pos.to_nat Pos.iter_op Nat.add]; reflexivity|]
  end.

(** Claim C38.  When the kernel answers and each of its 32-bit counters moved by less than 2^32
    since the driver last looked, [GatherKernelStats] fills the buffer with the ten statistics
    of the virtio balloon under the tags 0 to 9, from the true 64-bit counts, in bytes where the
    host wants bytes, and remembers the counts; the old contents of the buffer do not matter. *)
Theorem statistics_correct s k1 k2 k3 st1 st2 st3 physical avail cache old new :
  Counters s = halves <$> counts_list old -> Forall2 grown (counts_list old) (counts_list new) ->
  zlen (mem_stats (dctx s)) = VIRTIO_BALLOON_S_NR -> 0 <= avail < 2 ^ 32 -> 0 <= physical < 2 ^ 32 ->
  ZwQueryBasic (kern s) = Ok ((st1, physical), k1) -> NT_SUCCESS st1 = true ->
  ZwQueryPerformance k1 = Ok ((st2, perf_of new avail), k2) -> NT_SUCCESS st2 = true ->
  ZwQueryFileCache k2 = Ok ((st3, cache), k3) -> NT_SUCCESS st3 = true ->
  exists s', GatherKernelStats s = Ok (st3, s') /\ mem_stats (dctx s') = statistics new avail physical cache /\
    Counters s' = halves <$> counts_list new /\ kern s' = k3.
Proof.
  intros Ec HF Hl Ha Hp E1 S1 E2 S2 E3 S3. destruct s as [c cs k]. cbn [Counters dctx kern] in *. subst cs. destruct old as [o0 o1 o2 o3 o4 o5 o6], new as [m0 m1 m2 m3 m4 m5 m6].
  apply Forall2_cons in HF as [G0 HF]. apply Forall2_cons in HF as [G1 HF]. apply Forall2_cons in HF as [G2 HF]. apply Forall2_cons in HF as [G3 HF].
  apply Forall2_cons in HF as [G4 HF]. apply Forall2_cons in HF as [G5 HF]. apply Forall2_cons in HF as [G6 _].
  cbn [n_read n_dirty n_mapped n_copy n_transition n_cache n_zero] in *.
  enough (wp GatherKernelStats (fun st s' => st = st3 /\ mem_stats (dctx s') = statistics (mk_counts m0 m1 m2 m3 m4 m5 m6) avail physical cache /\
    Counters s' = halves <$> counts_list (mk_counts m0 m1 m2 m3 m4 m5 m6) /\ kern s' = k3) (mk_balloon c (halves <$> counts_list (mk_counts o0 o1 o2 o3 o4 o5 o6)) k)) as Hw.
  { apply wp_ok in Hw as (st & s' & E & -> & Hs). by exists s'. }
  assert (exists x0 x1 x2 x3 x4 x5 x6 x7 x8 x9, mem_stats c = [x0; x1; x2; x3; x4; x5; x6; x7; x8; x9]) as (x0 & x1 & x2 & x3 & x4 & x5 & x6 & x7 & x8 & x9 & Em).
  { change VIRTIO_BALLOON_S_NR with 10 in Hl. unfold zlen in Hl. destruct (mem_stats c) as [|? [|? [|? [|? [|? [|? [|? [|? [|? [|? [|]]]]]]]]]]]; try (cbn in Hl; lia). by repeat eexists. }
  unfold GatherKernelStats. wp_step. eapply wp_query; [exact E1|]. cbn beta iota. rewrite S1. cbn [negb]. wp_step. eapply wp_query; [exact E2|]. cbn beta iota. rewrite S2. cbn [negb].
  wp_step. eapply wp_query; [exact E3|]. cbn beta iota. rewrite S3. cbn [negb]. cbn [perf_of PageReadCount DirtyPagesWriteCount MappedPagesWriteCount CopyOnWriteCount TransitionCount
    CacheTransitionCount DemandZeroCount AvailablePages n_read n_dirty n_mapped n_copy n_transition n_cache n_zero].
  match goal with |- wp _ _ ?s => replace s with (gathered c (halves <$> [o0; o1; o2; o3; o4; o5; o6]) (mem_stats c) k3) by (by destruct c) end. rewrite Em. cbn [fmap list_fmap].
  do 18 gather_step. wp_step. split; [done|]. split; [|done]. cbn [gathered dctx mem_stats set_field]. unfold statistics. cbn [n_read n_dirty n_mapped n_copy n_transition n_cache n_zero].
  rewrite !shift_pages. rewrite (u64_small (avail * 4096)), (u64_small (physical * 4096)) by lia.
  do 3 f_equal. unfold u64. by rewrite Z.mul_mod_idemp_l.
Qed.
End gather.
