(* ===== verification/BalloonLifeSpec.v ===== *)
(** * The balloon driver: worker thread and power transitions

    A pass of the worker thread, start and stop of the device, and the driver as a transition
    system whose steps are the callbacks of the framework, the worker thread, the interrupts and
    the device. *)

From Stdlib Require Import ZArith Lia.
From stdpp Require Import base list numbers option gmap relations.
From S2P Require Import Prelude.
From S2P Require Import Effects.
From S2P Require Import Virtio.
From S2P Require Import VirtQueue.
From S2P Require Import Balloon.
From S2P Require Import BalloonSpec.

Section life.
Context {Q K : Type} `{BalloonLaws Q K}.
Implicit Types (c : DEVICE_CONTEXT Q) (s : balloon Q K) (k : K) (w : queue) (L : list (PAGE_LIST_ENTRY * list Z)).

(** ** The worker thread *)

(** [ready] after a change of the context that concerns none of its parts. *)
Ltac ready_set R := apply (ready_ctx (fun c => _) _ R); [intros []; by split|done|done|apply R].

(** A pass keeps the list: the driver inflates, deflates or does nothing. *)
Definition passed L target st L' : Prop :=
  if target - total L >? 0 then filled L (target - total L) st L'
  else if target - total L <? 0 then exists x, L = x :: L' /\ tell_status st
  else L' = L.

Lemma pass_work_ok fuel diff L s : ready s -> pages L (dctx s) (kern s) -> 0 <= diff + num_pages (dctx s) < 2 ^ 32 ->
  wp (if diff >? 0 then BalloonFill fuel (u64 diff) else if diff <? 0 then BalloonLeak fuel (u64 (- diff)) else mret STATUS_WAIT_0)
    (fun st s' => (ready s' /\ Thread (dctx s') = Thread (dctx s)) /\ exists L', pages L' (dctx s') (kern s') /\ passed L (diff + total L) st L') s.
Proof.
  intros R P Hd. pose proof (pg_total _ _ _ P) as Et. pose proof (total_nonneg L). pose proof (pg_small _ _ _ P). unfold passed. replace (diff + total L - total L) with diff by lia.
  destruct (diff >? 0) eqn:E1.
  - rewrite u64_small by lia. eapply wp_mono; [apply (BalloonFill_ok fuel diff L); [done|done|lia|lia]|]. intros st s' (R' & L' & P' & F'). split; [done|by exists L'].
  - destruct (diff <? 0) eqn:E2.
    + destruct L as [|x L]; [cbn in Et; lia|]. eapply wp_mono; [by eapply BalloonLeak_ok|]. intros st s' (R' & P' & Hst). split; [done|]. exists L. split; [done|by exists x].
    + wp_step. split; [by split|]. by exists L.
Qed.

(** The number of pages that the device asks for. *)
Definition asks (T : Z -> Prop) : Prop := forall k, kok k -> wp (VirtIOWdfDeviceGet_u32 (Q := Q) config_num_pages) (fun v _ => T v) k.
Lemma asks_harmless T : asks T -> harmless (fun v => 0 <= v < 2 ^ 32 /\ T v) (VirtIOWdfDeviceGet_u32 (Q := Q) (K := K) config_num_pages).
Proof. intros HT k Hk. eapply wp_mono; [apply wp_and; [by apply bl_get|by apply HT]|]. naive_solver. Qed.

Lemma BalloonRoutine_pass_ok T fuel L s : asks T -> ready s -> pages L (dctx s) (kern s) ->
  wp (BalloonRoutine_pass fuel) (fun ended s' => (ready s' /\ Thread (dctx s') = Thread (dctx s)) /\ ended = bShutDown (dctx s) /\
    exists L', pages L' (dctx s') (kern s') /\ if ended then L' = L else exists target st, T target /\ passed L target st L') s.
Proof.
  intros HT R P. unfold BalloonRoutine_pass. wp_step. unfold set_ctx at 1. apply wp_modify. set (s0 := s <| dctx := _ |>).
  assert (ready s0) as R0 by (ready_set R).
  assert (pages L (dctx s0) (kern s0)) as P0 by (by eapply pages_ctx; [| |exact P]). assert (bShutDown (dctx s0) = bShutDown (dctx s)) as B0 by done.
  assert (Thread (dctx s0) = Thread (dctx s)) as H0' by done. clearbody s0.
  unfold ctxg. wp_steps. rewrite B0. destruct (bShutDown (dctx s)); [wp_step; split; [done|]; split; [done|]; by exists L|].
  wp_step. unfold BalloonGetSize, ctxg. wp_step. eapply wp_balloon_krn; [apply R0|by apply (asks_harmless T)|]. intros v s1 [Hv Tv] S1 T1 D1 _. wp_steps.
  assert (ready s1) as R1 by (by eapply ready_still). assert (pages L (dctx s1) (kern s1)) as P1 by (eapply moved_pages; [by apply still_moved|done]).
  eapply wp_mono; [apply (pass_work_ok fuel (v - num_pages (dctx s1)) L); [done|done|lia]|]. intros st s2 ((R2 & H2') & L' & P2 & Hp). cbv beta. rewrite D1, H0' in H2'.
  replace (v - num_pages (dctx s1) + total L) with v in Hp by (rewrite (pg_total _ _ _ P1); lia).
  wp_step. eapply (wp_mono _ (fun _ s3 => (ready s3 /\ Thread (dctx s3) = Thread (dctx s)) /\ pages L' (dctx s3) (kern s3))).
  { case_match; [|by wp_step]. unfold set_ctx. wp_step. split; [split; [ready_set R2|exact H2']|by eapply pages_ctx; [| |exact P2]]. }
  intros [] s3 ((R3 & H3') & P3). cbv beta. wp_steps. eapply wp_balloon_krn; [apply R3|apply bl_set|]. intros [] s4 _ S4 T4 D4 _. wp_step.
  split; [split; [by eapply ready_still|by rewrite D4]|]. split; [done|]. exists L'. split; [eapply moved_pages; [by apply still_moved|done]|]. by exists v, st.
Qed.

Lemma asks_any : asks (fun _ => True).
Proof. intros k Hk. eapply wp_mono; [by apply bl_get|done]. Qed.

(** The thread ends, whatever it was about to do. *)
Lemma BalloonCloseWorkerThread_ok fuel L s : ready s -> pages L (dctx s) (kern s) ->
  wp (BalloonCloseWorkerThread fuel) (fun _ s' => ready s' /\ pages L (dctx s') (kern s') /\ Thread (dctx s') = false) s.
Proof.
  intros R P. unfold BalloonCloseWorkerThread, ctxg. wp_steps. destruct (Thread (dctx s)) eqn:E; [|by wp_step].
  wp_step. unfold close_begin, set_ctx at 1. apply wp_modify. wp_step.
  eapply wp_mono; [apply (BalloonRoutine_pass_ok (fun _ => True) fuel L); [apply asks_any|ready_set R|by eapply pages_ctx; [| |exact P]]|]. intros ended s1 ((R1 & _) & -> & L' & P1 & Hl). cbv beta. cbn in Hl |- *. subst L'.
  unfold set_ctx. wp_step. apply wp_modify. wp_step. split_and!; [ready_set R1|by eapply pages_ctx; [| |exact P1]|done].
Qed.

(** ** Start and stop *)

Definition no_queues c : Prop := InfVirtQueue c = None /\ DefVirtQueue c = None /\ StatVirtQueue c = None.
Definition prepared c : Prop := pfns_table c <> 0 /\ MemStats c <> 0.

(** Without queues the invariant is about little. *)
Lemma side_queues s : kok (kern s) -> self (dctx s) <> 0 -> no_queues (dctx s) -> WorkCount (dctx s) = 0 -> item_ok s ->
  (MemStats (dctx s) <> 0 -> zlen (mem_stats (dctx s)) = VIRTIO_BALLOON_S_NR) -> (pfns_table (dctx s) <> 0 -> zlen (pfns (dctx s)) = TABLE_SIZE) ->
  zlen (Counters s) = 7 -> side s.
Proof.
  intros Hk Hs (Q1 & Q2 & Q3) W I ???. split; try done.
  - intros w q E. destruct w; cbn in E; congruence.
  - lia.
  - intros Hi. unfold item_ok in I. rewrite Hi, W in I. done.
Qed.

(** The statistics buffer is on its queue before the driver is ready. *)
Lemma start_queues_ok nvqs vqs s : side s -> item_ok s -> no_queues (dctx s) -> prepared (dctx s) -> nvqs = 2 \/ nvqs = 3 -> zlen vqs = nvqs -> Forall fresh_queue vqs ->
  wp (start_queues nvqs vqs) (fun b s' => ready s' /\ (b = true -> is_Some (StatVirtQueue (dctx s'))) /\
    PageListHead (dctx s') = PageListHead (dctx s) /\ num_pages (dctx s') = num_pages (dctx s) /\ Thread (dctx s') = Thread (dctx s) /\
    mdls (kern s') = mdls (kern s) /\ entries (kern s') = entries (kern s)) s.
Proof.
  intros Sd I (Q1 & Q2 & Q3) [Pt Pm] Hn Hl HF. pose proof (sd_no_stats _ Sd Q3) as W0. unfold start_queues.
  assert (forall i, 0 <= i < nvqs -> exists q, zget vqs i = Ok q /\ vsq_live q []) as Hq.
  { intros i Hi. destruct (proj2 (zlookup_is_Some vqs i)) as [q Eq]; [lia|]. exists q. split; [by apply zget_ok|]. exact (zlookup_Forall _ _ _ _ HF Eq). }
  destruct (Hq 0 ltac:(lia)) as (q0 & E0 & L0). destruct (Hq 1 ltac:(lia)) as (q1 & E1 & L1). wp_step. eapply wp_pure; [exact E0|]. wp_step. eapply wp_pure; [exact E1|].
  wp_step. unfold set_ctx at 1. apply wp_modify. set (s1 := s <| dctx := _ |>).
  assert (side s1) as S1.
  { destruct Sd. split; try done. intros w q Eq. destruct w; cbn in Eq; [injection Eq as <-; by exists 0%nat..|congruence]. }
  destruct Hn as [-> | ->]; cbn [Z.eqb Pos.eqb].
  - wp_steps. eapply wp_balloon_krn; [exact S1|apply bl_ok|]. intros [] s2 _ S2 T2 D2 _. wp_step.
    assert (ready s2) as R2 by (split; [done|split; [unfold item_ok; by rewrite D2|rewrite D2; by split_and!; try eexists]]).
    rewrite D2. split_and!; try done; by apply T2.
  - destruct (Hq 2 ltac:(lia)) as (q2 & E2 & L2). wp_step. wp_step. eapply wp_pure; [exact E2|]. wp_step. unfold set_ctx at 1. apply wp_modify. set (s2 := s1 <| dctx := _ |>).
    unfold stats_sg, ctxg. wp_steps. apply wp_kern. eapply wp_mono; [apply bl_physical, Sd|]. intros pa k3 (_ & K3 & M3 & E3 & _). cbv beta. wp_steps.
    unfold virtqueue_add_buf, ctxg. wp_steps.
    destruct (vsq_add q2 [] [mk_sg pa (sizeof_BALLOON_STAT * VIRTIO_BALLOON_S_NR)] 1 0 (self (dctx s)) None L2) as (rc & q' & Ea & Hq' & Hr); try (by apply Sd); try done.
    specialize (Hr (vsq_empty q2 L2) ltac:(by left)). replace (0 <=? rc) with true in Hq' by lia. eapply (wp_queue Stats _ q2); [done|exact Ea|]. wp_steps.
    set (s4 := _ <| dctx := _ |>). assert (side s4) as S4.
    { destruct S1. split; try done.
      - intros w q Eq. destruct w; cbn in Eq; injection Eq as <-; [by exists 0%nat..|]. exists 1%nat. split; [done|]. intros _. cbn. lia. }
    eapply wp_balloon_krn; [exact S4|apply bl_ok|]. intros [] s5 _ S5 T5 D5 _. wp_step.
    assert (ready s5) as R5 by (split; [done|split; [unfold item_ok; by rewrite D5|rewrite D5; by split_and!; try eexists]]).
    rewrite D5. destruct T5 as ((_ & M5 & E5) & _). split_and!; try done.
    + rewrite M5. exact M3.
    + rewrite E5. exact E3.
Qed.

(** The device without queues. *)
Definition resting s : Prop := side s /\ item_ok s /\ no_queues (dctx s).

(** A harmless call, and a change of the context, between the callbacks. *)
Lemma wp_krn_rest {A} (R : A -> Prop) (m : M K A) Φ s : resting s -> harmless R m ->
  (forall a s', R a -> resting s' -> still s s' -> dctx s' = dctx s -> Φ a s') -> wp (krn m) Φ s.
Proof.
  intros (Sd & I & N) Hm HΦ. eapply wp_balloon_krn; [done|exact Hm|]. intros a s' Ra S' T' D' _. apply HΦ; try done. split_and!; [done|unfold item_ok|unfold no_queues..]; rewrite ?D'; try done; apply N.
Qed.

Lemma pages_still L s s' : still s s' -> pages L (dctx s) (kern s) -> pages L (dctx s') (kern s').
Proof. intros T. apply moved_pages. by apply still_moved. Qed.

Lemma BalloonInit_ok L s : resting s -> prepared (dctx s) -> pages L (dctx s) (kern s) ->
  wp BalloonInit (fun st s' => pages L (dctx s') (kern s') /\ Thread (dctx s') = Thread (dctx s) /\ if NT_SUCCESS st then ready s' else resting s') s.
Proof.
  intros R Hp P. unfold BalloonInit. wp_step. eapply wp_krn_rest; [done|apply bl_features|]. intros f s1 _ R1 T1 D1. cbv zeta.
  apply (pages_still _ _ _ T1) in P. rewrite <- D1 in Hp |- *. clear T1 D1 R s. set (n := if virtio_is_feature_enabled f _ then 3 else 2). assert (n = 2 \/ n = 3) as Hn by (unfold n; case_match; auto).
  wp_step. eapply wp_krn_rest; [done|apply bl_set_features|]. intros st s2 _ R2 T2 D2. apply (pages_still _ _ _ T2) in P. rewrite <- D2 in Hp |- *. clear T2 D2 R1 s1.
  destruct (NT_SUCCESS st) eqn:E; cbn [negb].
  2:{ wp_step. eapply wp_krn_rest; [done|apply bl_failed|]. intros [] s3 _ R3 T3 D3. wp_step. rewrite E, D3. split_and!; [rewrite <- D3; by eapply pages_still|done|done]. }
  wp_step. eapply wp_krn_rest; [done|apply bl_queues|]. intros [st' vqs] s3 Hq R3 T3 D3. cbn [fst snd] in Hq. apply (pages_still _ _ _ T3) in P. rewrite <- D3 in Hp |- *. clear T3 D3 R2 s2.
  destruct (NT_SUCCESS st') eqn:E'; cbn [negb].
  2:{ wp_step. eapply wp_krn_rest; [done|apply bl_failed|]. intros [] s4 _ R4 T4 D4. wp_step. rewrite E', D4. split_and!; [rewrite <- D4; by eapply pages_still|done|done]. }
  destruct (Hq eq_refl) as [Hl HF]. wp_step. eapply wp_mono; [apply start_queues_ok; try done; apply R3|]. intros b s4 (R4 & Hb & E1 & E2 & E3 & E4 & E5). cbv beta.
  assert (pages L (dctx s4) (kern s4)) as P4 by (eapply pages_kern; [done|by rewrite E5|by eapply pages_ctx; [| |exact P]]).
  wp_step. eapply (wp_mono _ (fun _ s5 => ready s5 /\ moved s4 s5)).
  { destruct b; [|by apply brisk_ret]. apply brisk_calm; [done|]. apply calm_kick; [apply R4|by apply Hb]. }
  intros [] s5 (R5 & T5). cbv beta. wp_step. rewrite E'. destruct (moved_fields _ _ T5) as (_ & _ & Et & _). split_and!; [by eapply moved_pages|congruence|done].
Qed.

Lemma BalloonTerm_ok L s : side s -> item_ok s -> WorkCount (dctx s) = 0 -> pages L (dctx s) (kern s) ->
  wp BalloonTerm (fun _ s' => resting s' /\ pages L (dctx s') (kern s') /\ Thread (dctx s') = Thread (dctx s) /\
    MemStats (dctx s') = MemStats (dctx s) /\ pfns_table (dctx s') = pfns_table (dctx s)) s.
Proof.
  intros Sd I W P. unfold BalloonTerm. wp_step. eapply wp_balloon_krn; [done|apply bl_destroy|]. intros [] s1 _ S1 T1 D1 _. unfold set_ctx. wp_step.
  assert (pages L (dctx s1) (kern s1)) as P1 by (by eapply pages_still).
  assert (item_ok s1) as I1 by (unfold item_ok; by rewrite D1). split; [|split_and!; [by eapply pages_ctx; [| |exact P1]|cbn; by rewrite D1..]].
  split; [|by split_and!]. destruct S1. apply side_queues; try done. cbn. by rewrite D1.
Qed.

Lemma BalloonCreateWorkerThread_ok L s : ready s -> pages L (dctx s) (kern s) ->
  wp BalloonCreateWorkerThread (fun st s' => ready s' /\ pages L (dctx s') (kern s') /\ (NT_SUCCESS st = true -> Thread (dctx s') = true)) s.
Proof.
  intros R P. unfold BalloonCreateWorkerThread. wp_step. unfold set_ctx at 1. apply wp_modify. set (s0 := s <| dctx := _ |>).
  assert (ready s0) as R0 by (ready_set R). assert (pages L (dctx s0) (kern s0)) as P0 by (by eapply pages_ctx; [| |exact P]). clearbody s0. unfold ctxg. wp_steps.
  eapply (wp_mono _ (fun st s' => ready s' /\ pages L (dctx s') (kern s') /\ (NT_SUCCESS st = true -> Thread (dctx s') = true))).
  { destruct (Thread (dctx s0)) eqn:E; [by wp_step|]. wp_step. eapply wp_balloon_krn; [apply R0|apply bl_thread|]. intros st s1 _ S1 T1 D1 _. wp_step.
    assert (ready s1) as R1 by (by eapply ready_still). assert (pages L (dctx s1) (kern s1)) as P1 by (by eapply pages_still).
    destruct (NT_SUCCESS st) eqn:Est; unfold set_ctx; wp_steps; rewrite ?Est; split_and!; try done; [ready_set R1|by eapply pages_ctx; [| |exact P1]]. }
  intros st s1 (R1 & P1 & Ht). cbv beta. wp_step. destruct (NT_SUCCESS st) eqn:Est; unfold set_ctx; wp_steps; rewrite ?Est.
  - split; [ready_set R1|]. split; [by eapply pages_ctx; [| |exact P1]|done].
  - by split.
Qed.

Lemma BalloonEvtDeviceD0Entry_ok L s : resting s -> prepared (dctx s) -> pages L (dctx s) (kern s) ->
  wp BalloonEvtDeviceD0Entry (fun st s' => pages L (dctx s') (kern s') /\ kok (kern s') /\ (NT_SUCCESS st = true -> ready s' /\ Thread (dctx s') = true)) s.
Proof.
  intros R Hp P. unfold BalloonEvtDeviceD0Entry. wp_step. eapply wp_mono; [by apply BalloonInit_ok|]. intros st s1 (P1 & _ & R1). cbv beta.
  destruct (NT_SUCCESS st) eqn:E; cbn [negb].
  - wp_step. eapply wp_mono; [by apply BalloonCreateWorkerThread_ok|]. intros st' s2 (R2 & P2 & Ht). cbv beta. wp_step. eapply wp_balloon_krn; [apply R2|apply bl_event|].
    intros e s3 _ S3 T3 D3 _. unfold set_ctx. wp_steps. assert (ready s3) as R3 by (by eapply ready_still).
    assert (pages L (dctx s3) (kern s3)) as P3 by (by eapply pages_still). split; [by eapply pages_ctx; [| |exact P3]|]. split; [apply S3|]. intros Es. split; [ready_set R3|]. cbn. rewrite D3. by apply Ht.
  - destruct R1 as (S1 & I1 & N1). wp_step. eapply wp_mono; [apply BalloonTerm_ok; try done; apply S1, N1|]. intros [] s2 (R2 & P2 & _). cbv beta. wp_step. rewrite E.
    split_and!; [done|apply R2|done].
Qed.

Lemma BalloonEvtDeviceD0Exit_ok fuel L s : ready s -> pages L (dctx s) (kern s) ->
  wp (BalloonEvtDeviceD0Exit fuel) (fun _ s' => resting s' /\ prepared (dctx s') /\ pages L (dctx s') (kern s') /\ Thread (dctx s') = Thread (dctx s)) s.
Proof.
  intros R P. unfold BalloonEvtDeviceD0Exit, ctxg. wp_steps. eapply (wp_mono _ (fun _ s1 => ready s1 /\ pages L (dctx s1) (kern s1) /\ Thread (dctx s1) = Thread (dctx s))).
  { destruct (negb _); [|by wp_step]. wp_step. eapply wp_balloon_krn; [apply R|apply bl_close|]. intros [] s1 _ S1 T1 D1 _. unfold set_ctx. wp_step.
    assert (ready s1) as R1 by (by eapply ready_still). 
    assert (pages L (dctx s1) (kern s1)) as P1 by (by eapply pages_still). split; [ready_set R1|]. split; [by eapply pages_ctx; [| |exact P1]|cbn; by rewrite D1]. }
  intros [] s1 (R1 & P1 & E1). cbv beta. wp_step.
  eapply (wp_mono _ (fun _ s2 => ready s2 /\ moved s1 s2 /\ WorkCount (dctx s2) = 0)).
  { unfold WdfWorkItemFlush, ctxg. wp_steps. destruct (StatWorkItem (dctx s1)) eqn:Ei.
    - eapply wp_mono; [apply StatWorkItemWorker_ok; [apply R1|apply R1|done]|]. intros [] s2 (S2 & T2 & I2 & W2). split; [|done].
      split; [done|]. split; [unfold item_ok; by rewrite I2, W2|]. eapply moved_working; [exact T2|apply R1].
    - wp_step. split; [done|]. split; [done|]. destruct R1 as (S1 & I1 & W1). unfold item_ok in I1. rewrite Ei in I1. pose proof (sd_count _ S1). symmetry in I1. apply Z.eqb_neq in I1.
      destruct (StatVirtQueue (dctx s1)) as [q|] eqn:Eq; [|by apply S1]. destruct (sd_queue _ S1 Stats q Eq) as (n & _ & Hn). specialize (Hn eq_refl). lia. }
  intros [] s2 (R2 & T2 & W2). cbv beta. destruct (moved_fields _ _ T2) as (_ & _ & Et & _). wp_step.
  eapply wp_mono; [apply (BalloonTerm_ok L); [apply R2|apply R2|done|by eapply moved_pages]|]. intros [] s3 (R3 & P3 & T3 & M3 & F3). cbv beta. wp_step.
  split; [done|]. split; [|by rewrite T3, Et, E1]. unfold prepared. rewrite M3, F3. split; apply R2.
Qed.

Lemma BalloonEvtDeviceD0ExitPreInterruptsDisabled_ok fuel (D3Final : bool) L s : ready s -> pages L (dctx s) (kern s) ->
  wp (BalloonEvtDeviceD0ExitPreInterruptsDisabled fuel (length (PageListHead (dctx s))) D3Final)
    (fun _ s' => ready s' /\ Thread (dctx s') = false /\ pages (if D3Final then [] else L) (dctx s') (kern s')) s.
Proof.
  intros R P. unfold BalloonEvtDeviceD0ExitPreInterruptsDisabled. wp_step. eapply wp_mono; [by apply BalloonCloseWorkerThread_ok|]. intros st s1 (R1 & P1 & T1). cbv beta. wp_step.
  destruct D3Final; [|do 2 wp_step; by split_and!]. wp_step. eapply (wp_mono _ (fun _ s2 => (ready s2 /\ Thread (dctx s2) = Thread (dctx s1)) /\ pages [] (dctx s2) (kern s2))).
  { apply (leak_all_ok fuel _ L); [by rewrite (pg_list _ _ _ P), length_fmap|done|done]. }
  intros [] s2 ((R2 & T2) & P2). rewrite T1 in T2. cbv beta. unfold ctxg. wp_steps. eapply wp_balloon_krn; [apply R2|apply bl_set|]. intros [] s3 _ S3 T3 D3 _. wp_step.
  split; [by eapply ready_still|]. split; [by rewrite D3|by eapply pages_still].
Qed.

(** A harmless call when only the ledger matters. *)
Lemma wp_kern_keeps {A} (R : A -> Prop) (m : M K A) Φ s : kok (kern s) -> harmless R m ->
  (forall a k, R a -> kok k -> mdls k = mdls (kern s) -> entries k = entries (kern s) -> Φ a (s <| kern := k |>)) -> wp (krn m) Φ s.
Proof. intros Hk Hm HΦ. apply wp_kern. eapply wp_mono; [by apply Hm|]. intros a k (Ra & Kk & Em & Ee & _). by apply HΦ. Qed.

Lemma BalloonEvtDevicePrepareHardware_ok L s : resting s -> pages L (dctx s) (kern s) ->
  wp BalloonEvtDevicePrepareHardware (fun st s' => resting s' /\ pages L (dctx s') (kern s') /\ Thread (dctx s') = Thread (dctx s) /\
    (NT_SUCCESS st = true -> MemStats (dctx s') <> 0 /\ pfns_table (dctx s') <> 0)) s.
Proof.
  intros R P. unfold BalloonEvtDevicePrepareHardware. wp_step. eapply wp_krn_rest; [done|apply bl_initialize|]. intros st s1 _ R1 T1 D1.
  apply (pages_still _ _ _ T1) in P. rewrite <- D1. clear T1 D1 R s. destruct (NT_SUCCESS st) eqn:E; cbn [negb]; [|wp_step; rewrite E; by split_and!].
  wp_step. eapply wp_krn_rest; [done|apply bl_dma|]. intros p s2 _ R2 T2 D2. apply (pages_still _ _ _ T2) in P. rewrite <- D2. clear T2 D2 R1 s1. wp_step. unfold set_ctx at 1. apply wp_modify.
  wp_step. eapply (wp_mono _ (fun st' s3 => resting s3 /\ pages L (dctx s3) (kern s3) /\ Thread (dctx s3) = Thread (dctx s2) /\ (NT_SUCCESS st' = true -> MemStats (dctx s3) <> 0))).
  { destruct R2 as ([] & I2 & N2). pose proof P as P'. eapply (pages_ctx _ _ ((dctx s2) <| MemStats := p |>)) in P'; [|done..].
    destruct (Z.eqb_spec p 0) as [->|Hp0]; cbn [negb]; unfold fill_stats, set_ctx; wp_steps; (split; [split; [by split|by split]|]); (split; [by eapply pages_ctx; [| |exact P']|done]). }
  intros st' s3 (R3 & P3 & T3 & M3). cbv beta. rewrite <- T3. clear P T3 R2 s2. destruct (NT_SUCCESS st') eqn:E'; wp_step.
  - wp_step. eapply wp_krn_rest; [done|apply bl_dma|]. intros t s4 _ R4 T4 D4. apply (pages_still _ _ _ T4) in P3. rewrite <- D4 in M3 |- *. unfold set_ctx. wp_step. unfold ctxg. wp_steps.
    destruct R4 as ([] & I4 & N4). split; [split; [|by split]|].
    + split; try done. intros Ht. cbn in *. by rewrite (proj2 (Z.eqb_neq _ 0) Ht).
    + split; [by eapply pages_ctx; [| |exact P3]|]. split; [done|]. cbn. destruct (Z.eqb_spec t 0); [done|]. intros _. split; [by apply M3|done].
  - wp_step. unfold ctxg. wp_steps. split; [done|]. split; [done|]. split; [done|]. destruct (Z.eqb_spec (pfns_table (dctx s3)) 0); [done|]. by rewrite E'.
Qed.

Lemma BalloonEvtDeviceReleaseHardware_ok L s : kok (kern s) -> pages L (dctx s) (kern s) ->
  wp BalloonEvtDeviceReleaseHardware (fun _ s' => kok (kern s') /\ pages L (dctx s') (kern s') /\ Thread (dctx s') = Thread (dctx s) /\ (resting s -> resting s')) s.
Proof.
  intros Hk P. unfold BalloonEvtDeviceReleaseHardware. wp_step. eapply wp_kern_keeps; [done|apply bl_dma_free|]. intros [] k1 _ K1 M1 E1. wp_step. unfold set_ctx at 1. apply wp_modify.
  wp_step. eapply wp_kern_keeps; [exact K1|apply bl_shutdown|]. intros [] k2 _ K2 M2 E2. wp_step. cbn in M2, E2. split; [done|]. split.
  - eapply pages_kern; [cbn; by rewrite M2|cbn; by rewrite E2, E1|]. by eapply pages_ctx; [| |exact P].
  - split; [done|]. intros ([] & I & N). by split; [split|split].
Qed.

(** ** The driver as a transition system *)

Inductive phase := Unprepared | Prepared | Powered | Stopping | Failed | Removed.
Inductive event :=
  | PrepareHardware | ReleaseHardware | D0Entry | InterruptEnable | InterruptDisable | InterruptIsr
  | WorkerWakes | Happens (a : activity) | D0ExitPreInterruptsDisabled (D3Final : bool) | D0Exit.

(** When the framework calls what: the worker runs when its event is set and it has not been
    asked to end; what it does then is waited for by [BalloonCloseWorkerThread]. *)
Definition enabled (p : phase) c (e : event) : Prop :=
  match p, e with
  | Unprepared, PrepareHardware | Prepared, D0Entry | Prepared, ReleaseHardware | Failed, ReleaseHardware => True
  | Powered, (InterruptEnable | InterruptIsr | Happens _ | D0ExitPreInterruptsDisabled _) => True
  | Powered, WorkerWakes => WakeUpThread c = true /\ bShutDown c = false
  | Stopping, (InterruptDisable | InterruptIsr | Happens _ | D0Exit) => True
  | _, _ => False
  end.

Definition next (p : phase) (e : event) (st : Z) : phase :=
  match p, e with
  | Unprepared, PrepareHardware => if NT_SUCCESS st then Prepared else Failed
  | Prepared, D0Entry => if NT_SUCCESS st then Powered else Failed
  | Prepared, ReleaseHardware => Unprepared
  | Failed, ReleaseHardware => Removed
  | Powered, D0ExitPreInterruptsDisabled _ => Stopping
  | Stopping, D0Exit => Prepared
  | p, _ => p
  end.

Definition run_event (fuel : nat) (e : event) : M (balloon Q K) Z :=
  match e with
  | PrepareHardware => BalloonEvtDevicePrepareHardware
  | ReleaseHardware => BalloonEvtDeviceReleaseHardware
  | D0Entry => BalloonEvtDeviceD0Entry
  | InterruptEnable => _ ← BalloonInterruptEnable; mret STATUS_SUCCESS
  | InterruptDisable => BalloonInterruptDisable
  | InterruptIsr => _ ← BalloonInterruptIsr; mret STATUS_SUCCESS
  | WorkerWakes => ended ← BalloonRoutine_pass fuel; mret (b2z ended)
  | Happens a => run_activity fuel a;; mret STATUS_SUCCESS
  | D0ExitPreInterruptsDisabled b => n ← gets (fun s => length (PageListHead (dctx s))); BalloonEvtDeviceD0ExitPreInterruptsDisabled fuel n b
  | D0Exit => BalloonEvtDeviceD0Exit fuel
  end.

Inductive balloon_step (fuel : nat) : phase * balloon Q K -> phase * balloon Q K -> Prop :=
  | balloon_step_event p s e st s' : enabled p (dctx s) e -> run_event fuel e s = Ok (st, s') -> balloon_step fuel (p, s) (next p e st, s').

Definition phase_ok (p : phase) L s : Prop :=
  pages L (dctx s) (kern s) /\
  match p with
  | Unprepared => resting s /\ Thread (dctx s) = false
  | Prepared => (resting s /\ prepared (dctx s)) /\ Thread (dctx s) = false
  | Powered => ready s /\ Thread (dctx s) = true
  | Stopping => ready s /\ Thread (dctx s) = false
  | Failed | Removed => kok (kern s)
  end.

(** [queue_call l]: a call on a queue that is there, by the lemma [l]. *)
Ltac queue_call l R := apply brisk_calm; [exact R|apply l; [apply R|solve [apply working_queue; [apply R|done]|cbn; eauto]]].

Lemma EnableInterrupt_ok s : ready s -> brisk EnableInterrupt s.
Proof.
  intros R. unfold EnableInterrupt. apply brisk_bind; [queue_call calm_enable R|]. intros _ s1 R1 _. apply brisk_bind; [queue_call calm_kick R1|]. intros [] s2 R2 _.
  apply brisk_bind; [queue_call calm_enable R2|]. intros _ s3 R3 _. apply brisk_bind; [queue_call calm_kick R3|]. intros [] s4 R4 _. apply brisk_gets.
  destruct (StatVirtQueue (dctx s4)) eqn:E; [|by apply brisk_ret]. apply brisk_bind; [queue_call calm_enable R4|]. intros _ s5 R5 T5.
  apply brisk_calm; [done|]. apply calm_kick; [apply R5|]. eapply (moved_stat s4); [done|eauto].
Qed.
Lemma DisableInterrupt_ok s : ready s -> brisk DisableInterrupt s.
Proof.
  intros R. unfold DisableInterrupt. apply brisk_bind; [queue_call calm_disable R|]. intros _ s1 R1 _. apply brisk_bind; [queue_call calm_disable R1|]. intros [] s2 R2 _. apply brisk_gets.
  destruct (StatVirtQueue (dctx s2)) eqn:E; [|by apply brisk_ret]. queue_call calm_disable R2.
Qed.
Lemma BalloonInterruptIsr_ok s : ready s -> brisk BalloonInterruptIsr s.
Proof. intros R. unfold BalloonInterruptIsr. apply brisk_bind; [apply brisk_calm; [done|eapply calm_krn; [apply R|apply bl_isr]]|]. intros. by apply brisk_ret. Qed.

(** A step that keeps the phase. *)
Lemma brisk_phase {A} p (m : M (balloon Q K) A) L s : p = Powered \/ p = Stopping -> phase_ok p L s -> brisk m s ->
  wp (_ ← m; mret STATUS_SUCCESS) (fun st s' => exists L', phase_ok p L' s') s.
Proof.
  intros Hp (P & Hs) Hm. wp_step. eapply brisk_post; [exact Hm|]. intros a s' R' T'. wp_step. exists L. split; [by eapply moved_pages|].
  destruct (moved_fields _ _ T') as (_ & _ & -> & _). by destruct Hp as [-> | ->]; destruct Hs.
Qed.

(** What an event leaves: after the last one before removal, nothing. *)
Lemma balloon_event_ok fuel p e L s : phase_ok p L s -> enabled p (dctx s) e ->
  wp (run_event fuel e) (fun st s' => exists L', phase_ok (next p e st) L' s' /\ (e = D0ExitPreInterruptsDisabled true -> L' = [])) s.
Proof.
  intros I. destruct p, e; cbn [enabled]; try done; intros En; cbn [run_event next];
    try (eapply wp_mono; [eapply (brisk_phase _ _ L s); [|exact I|]; [by auto|]|intros ? ? [L' ?]; by exists L']); destruct I as (P & Hs).
  - destruct Hs as (R & Ht). eapply wp_mono; [by apply BalloonEvtDevicePrepareHardware_ok|]. intros st s' (R' & P' & T' & Hp). exists L. split; [|done]. split; [done|].
    destruct (NT_SUCCESS st); [|apply R']. split; [split; [done|]|congruence]. destruct (Hp eq_refl). by split.
  - destruct Hs as ((R & Hp) & Ht). eapply wp_mono; [apply BalloonEvtDeviceReleaseHardware_ok; [apply R|done]|]. intros st s' (_ & P' & T' & Hr). exists L. split; [|done].
    split; [done|]. split; [by apply Hr|congruence].
  - destruct Hs as ((R & Hp) & Ht). eapply wp_mono; [by apply BalloonEvtDeviceD0Entry_ok|]. intros st s' (P' & K' & Hr). exists L. split; [|done]. split; [done|].
    destruct (NT_SUCCESS st); [by apply Hr|done].
  - unfold BalloonInterruptEnable. apply brisk_bind; [apply EnableInterrupt_ok, Hs|]. intros [] s1 R1 _. by apply BalloonInterruptIsr_ok.
  - apply BalloonInterruptIsr_ok, Hs.
  - destruct Hs as (R & Ht). wp_step. eapply wp_mono; [apply (BalloonRoutine_pass_ok (fun _ => True) fuel L); [apply asks_any|done|done]|]. intros ended s' ((R' & T') & _ & L' & P' & _). cbv beta. wp_step.
    exists L'. split; [|done]. split; [done|]. split; [done|congruence].
  - apply run_activity_ok, Hs.
  - destruct Hs as (R & Ht). wp_steps. eapply wp_mono; [by apply (BalloonEvtDeviceD0ExitPreInterruptsDisabled_ok fuel D3Final L)|]. intros st s' (R' & T' & P').
    eexists. split; [by split|]. by intros [= ->].
  - apply DisableInterrupt_ok, Hs.
  - apply BalloonInterruptIsr_ok, Hs.
  - apply run_activity_ok, Hs.
  - destruct Hs as (R & Ht). eapply wp_mono; [by apply BalloonEvtDeviceD0Exit_ok|]. intros st s' (R' & Hp & P' & T'). exists L. split; [|done]. split; [done|]. split; [done|congruence].
  - eapply wp_mono; [by apply BalloonEvtDeviceReleaseHardware_ok|]. intros st s' (K' & P' & _). exists L. split; [|done]. by split.
Qed.

(** ** From the addition of the device *)

(** The context of a new device object, with nothing from the kernel yet. *)
Definition zero_context (a : Z) : DEVICE_CONTEXT Q :=
  mk_ctx _ a false 0 None None None false 0 0 0 false [] 0 false false false false 0 [] [].
Definition added (k : K) : Prop := kok k /\ mdls k = ∅ /\ entries k = [].

Lemma BalloonDeviceAdd_ok a k cs : a <> 0 -> added k ->
  wp BalloonDeviceAdd (fun st s => NT_SUCCESS st = true -> phase_ok Unprepared [] s) (mk_balloon (zero_context a) cs k).
Proof.
  intros Ha (Hk & Hm & He).
  assert (forall n s, kok (kern s) -> wp (create_all n) (fun _ s' => dctx s' = dctx s /\ kok (kern s') /\ mdls (kern s') = mdls (kern s) /\ entries (kern s') = entries (kern s)) s) as Hc.
  { induction n as [|n IH]; intros s Hs; cbn [create_all]; [by wp_step|]. wp_step. eapply wp_kern_keeps; [done|apply bl_framework|]. intros st k1 _ K1 M1 E1. case_match; [by wp_step|].
    eapply wp_mono; [by apply IH|]. cbn. intros st' s' (-> & K' & M' & E'). by rewrite M', E', M1, E1. }
  unfold BalloonDeviceAdd. wp_step. eapply wp_mono; [by apply Hc|]. intros st s1 (D1 & K1 & M1 & E1). cbv beta. cbn in D1, M1, E1. destruct (NT_SUCCESS st) eqn:Est; cbn [negb]; [|wp_step; by rewrite Est].
  wp_step. unfold set_ctx at 1. apply wp_modify. wp_step. eapply wp_mono; [by apply Hc|]. intros st2 s2 (D2 & K2 & M2 & E2). cbv beta. cbn in D2, M2, E2. rewrite D1 in D2.
  destruct (NT_SUCCESS st2) eqn:Est2; cbn [negb]; [|wp_step; by rewrite Est2]. wp_step. unfold StatInitializeWorkItem. wp_steps.
  eapply wp_kern_keeps; [exact K2|apply bl_framework|]. intros st3 k3 _ K3 M3 E3. cbn in M3, E3. destruct (NT_SUCCESS st3) eqn:Est3; cbn [negb]; [|wp_step; by rewrite Est3].
  unfold set_ctx. wp_steps. intros _. split.
  - split; cbn; rewrite ?D2, ?M3, ?M2, ?M1, ?Hm, ?E3, ?E2, ?E1, ?He; try done; constructor.
  - split; [|cbn; by rewrite D2]. split; [|split; [unfold item_ok; cbn; by rewrite D2|unfold no_queues; cbn; by rewrite D2]].
    apply side_queues; cbn; rewrite ?D2; done.
Qed.

(** The pages of an MDL list, as the ledger has them. *)
Definition balloon_pages k (l : list PAGE_LIST_ENTRY) : list Z := l ≫= fun e => default [] (mdls k !! PageMdl e).

Lemma pages_of_ledger L c k : pages L c k -> balloon_pages k (PageListHead c) = all_pages L.
Proof.
  intros P. rewrite (pg_list _ _ _ P). unfold balloon_pages, all_pages. assert (forall x, x ∈ L -> mdls k !! PageMdl x.1 = Some x.2) as Hx by (intros; by eapply pages_lookup).
  clear P. induction L as [|x L IH]; [done|]. cbn. rewrite Hx by left. cbn. f_equal. apply IH. intros y Hy. apply Hx. by right.
Qed.
Lemma total_all_pages L : total L = zlen (all_pages L).
Proof. induction L as [|x L IH]; [done|]. rewrite total_cons, IH. cbn. by rewrite zlen_app. Qed.

Lemma reachable_ok fuel a k cs st s0 p s : a <> 0 -> added k ->
  BalloonDeviceAdd (mk_balloon (zero_context a) cs k) = Ok (st, s0) -> NT_SUCCESS st = true -> rtc (balloon_step fuel) (Unprepared, s0) (p, s) ->
  exists L, phase_ok p L s.
Proof.
  intros Ha Hk E0 Est Hr. assert (exists L, phase_ok (Unprepared, s0).1 L (Unprepared, s0).2) as Hx.
  { pose proof (BalloonDeviceAdd_ok a k cs Ha Hk) as Hw. unfold wp in Hw. rewrite E0 in Hw. exists []. by apply Hw. }
  change (exists L, phase_ok (p, s).1 L (p, s).2). revert Hr Hx. generalize (p, s). intros y Hr. induction Hr as [|x y z Hxy _ IH]; [done|]. intros (L & I). apply IH.
  destruct Hxy as [p1 s1 e st1 s1' En Er]. pose proof (balloon_event_ok fuel p1 e L s1 I En) as Hw. unfold wp in Hw. rewrite Er in Hw. destruct Hw as (L' & I' & _). by exists L'.
Qed.

(** Claim C6.  The balloon driver from its addition through any sequence of callbacks, passes of
    the worker thread, interrupts, work items, device activity and removal, with anything
    happening while a thread waits for the host, and with any failure of the kernel: the MDLs
    and list entries that the kernel gave to the driver are exactly those on the list of the
    balloon; no page is in the balloon twice; [num_pages] counts the pages and has not
    wrapped; and every callback that the framework may call in this state ends without a fault,
    the one before a removal (D3Final) with an empty balloon. *)
Theorem balloon_lifecycle fuel a k cs st s0 p s : a <> 0 -> added k ->
  BalloonDeviceAdd (mk_balloon (zero_context a) cs k) = Ok (st, s0) -> NT_SUCCESS st = true -> rtc (balloon_step fuel) (Unprepared, s0) (p, s) ->
  let l := PageListHead (dctx s) in
  (dom (mdls (kern s)) = list_to_set (PageMdl <$> l) /\ NoDup (PageMdl <$> l) /\ entries (kern s) ≡ₚ SingleListEntry <$> l) /\
  (NoDup (balloon_pages (kern s) l) /\ num_pages (dctx s) = zlen (balloon_pages (kern s) l) /\ num_pages (dctx s) < 2 ^ 32) /\
  forall e, enabled p (dctx s) e -> exists st s', run_event fuel e s = Ok (st, s') /\
    (e = D0ExitPreInterruptsDisabled true -> num_pages (dctx s') = 0 /\ PageListHead (dctx s') = [] /\ mdls (kern s') = ∅ /\ entries (kern s') = []).
Proof.
  intros Ha Hk E0 Est Hr. destruct (reachable_ok fuel a k cs st s0 p s Ha Hk E0 Est Hr) as (L & I).
  pose proof I as (P & _). intros l. split_and!.
  - rewrite (pg_mdls _ _ _ P), dom_list_to_map_L. unfold l. rewrite (pg_list _ _ _ P), <- !list_fmap_compose. done.
  - unfold l. rewrite (pg_list _ _ _ P), <- list_fmap_compose. apply P.
  - unfold l. rewrite (pg_list _ _ _ P), <- list_fmap_compose. apply P.
  - unfold l. rewrite (pages_of_ledger _ _ _ P). apply P.
  - unfold l. rewrite (pages_of_ledger _ _ _ P), <- total_all_pages. apply P.
  - apply P.
  - intros e En. pose proof (balloon_event_ok fuel p e L s I En) as Hw. apply wp_ok in Hw as (st' & s' & Er & L' & (P' & _) & Hf). eexists _, _. split; [exact Er|]. intros He. rewrite (Hf He) in P'.
    split_and!; try apply P'. apply Permutation_nil_r, (pg_entries _ _ _ P').
Qed.

(** ** Reaching the size that the device asks for *)

(** The thread, woken [n] times. *)
Fixpoint passes (fuel n : nat) : M (balloon Q K) bool :=
  match n with
  | O => mret false
  | S n => ended ← BalloonRoutine_pass fuel; if (ended : bool) then mret true else passes fuel n
  end.

(** Rounds that are still needed: one for each MDL above the size, one for each [TABLE_SIZE] pages
    below it. *)
Definition rounds_up (t : Z) : Z := (t + (TABLE_SIZE - 1)) / TABLE_SIZE.
Definition distance N L : Z := if N <? total L then zlen L + rounds_up N else rounds_up (N - total L).

Lemma rounds_up_step t : 0 < t -> rounds_up t = 1 + rounds_up (t - Z.min t TABLE_SIZE) /\ 0 <= rounds_up (t - Z.min t TABLE_SIZE).
Proof. intros. unfold rounds_up. change TABLE_SIZE with 512. Z.to_euclidean_division_equations. lia. Qed.
Lemma rounds_up_mono a b : 0 <= a <= b -> 0 <= rounds_up a <= rounds_up b.
Proof. intros. unfold rounds_up. change TABLE_SIZE with 512. Z.to_euclidean_division_equations. lia. Qed.
Lemma rounds_up_pos t : 0 < t -> 0 < rounds_up t.
Proof. intros. unfold rounds_up. change TABLE_SIZE with 512. Z.to_euclidean_division_equations. lia. Qed.

(** A pass gets nearer or is there. *)
Lemma distance_pass N st L L' : 0 <= N -> plenty -> passed L N st L' -> total L = N /\ L' = L \/ 0 <= distance N L' < distance N L.
Proof.
  intros HN Pl Hp. unfold passed in Hp. pose proof (total_nonneg L). destruct (N - total L >? 0) eqn:E1; [|destruct (N - total L <? 0) eqn:E2].
  - destruct Hp as [(_ & _ & []%(fun f => f Pl))|(x & -> & Hx & _)]. right. unfold distance. rewrite total_cons, Hx.
    replace (N <? total L) with false by lia. replace (N <? _) with false by lia. destruct (rounds_up_step (N - total L)) as [-> ?]; [lia|].
    replace (N - (Z.min (N - total L) TABLE_SIZE + total L)) with (N - total L - Z.min (N - total L) TABLE_SIZE) by lia. lia.
  - destruct Hp as (x & -> & _). right. unfold distance. replace (N <? total (x :: L')) with true by lia. rewrite zlen_cons. pose proof (zlen_nonneg L').
    pose proof (total_nonneg L'). pose proof (rounds_up_mono 0 N). destruct (N <? total L') eqn:E3; [|pose proof (rounds_up_mono (N - total L') N)]; lia.
  - subst L'. left. split; [lia|done].
Qed.
Lemma distance_zero N L : 0 <= N -> distance N L <= 0 -> total L = N.
Proof.
  intros HN. unfold distance. pose proof (total_nonneg L). pose proof (rounds_up_mono 0 N). destruct (N <? total L) eqn:E.
  - pose proof (zlen_nonneg L). destruct L; [cbn in *; lia|]. rewrite zlen_cons. pose proof (zlen_nonneg L). lia.
  - destruct (decide (total L = N)); [done|]. pose proof (rounds_up_pos (N - total L)). lia.
Qed.

Lemma passes_ok fuel N : 0 <= N -> plenty -> asks (fun v => v = N) -> forall n L s, distance N L <= Z.of_nat n -> ready s -> pages L (dctx s) (kern s) ->
  wp (passes fuel n) (fun ended s' => ended = false -> num_pages (dctx s') = N) s.
Proof.
  intros HN Pl HT. induction n as [|n IH]; intros L s Hd R P; cbn [passes].
  { wp_step. intros _. rewrite (pg_total _ _ _ P). apply distance_zero; lia. }
  wp_step. eapply wp_mono; [by apply (BalloonRoutine_pass_ok (fun v => v = N) fuel L)|]. intros ended s1 ((R1 & _) & _ & L1 & P1 & Hp). cbv beta. destruct ended; [by wp_step|].
  destruct Hp as (v & st & -> & Hp). apply (IH L1); [|done|done]. destruct (distance_pass N st L L1 HN Pl Hp) as [[Et ->]|?]; [|lia].
  unfold distance. rewrite Et, Z.ltb_irrefl, Z.sub_diag. change (rounds_up 0) with 0. lia.
Qed.

End life.
