(* ===== verification/BalloonHost.v ===== *)
(** * The balloon and the host

    The queues are split rings, and the host reads from them what the driver offers: it follows
    the ring to the descriptor, reads the table of page numbers where the descriptor points, and
    takes the pages or gives them back.  With a host that answers in time, the pages that the
    host has are exactly those on the list of the driver whenever the worker thread sleeps. *)

From Stdlib Require Import ZArith Lia.
From stdpp Require Import base list numbers option gmap relations.
From S2P Require Import Prelude.
From S2P Require Import Effects.
From S2P Require Import Virtio.
From S2P Require Import SplitRing.
From S2P Require Import SplitRingSpec.
From S2P Require Import SplitSystem.
From S2P Require Import VirtQueue.
From S2P Require Import SplitQueue.
From S2P Require Import Balloon.
From S2P Require Import BalloonSpec.
From S2P Require Import BalloonLifeSpec.

(** ** One buffer on a ring *)

(** The device fetches the next buffer, a single element, and returns it when it has read it. *)
Definition host_take (s : sys) : option (Z * Z * sys) :=
  if s_seen s =? av_idx (avail (s_vq s)) then None
  else
    match (av_ring (avail (s_vq s)))⟦DESC_INDEX (num (s_vq s)) (s_seen s)⟧ with
    | None => None
    | Some h =>
        match (desc (s_vq s))⟦h⟧ with
        | None => None
        | Some d => Some (addr d, len d, s <| s_seen := u16 (s_seen s + 1) |> <| s_vq := dev_use (s_vq s) h 0 |>)
        end
    end.

Definition idle (s : sys) : Prop := ring_live s [].
Definition offered (p pa n : Z) (s : sys) : Prop :=
  ring_live s [p] /\ s_seen s <> av_idx (avail (s_vq s)) /\ last_used (s_vq s) = us_idx (used (s_vq s)) /\
  exists h d, (av_ring (avail (s_vq s)))⟦DESC_INDEX (num (s_vq s)) (s_seen s)⟧ = Some h /\ (desc (s_vq s))⟦h⟧ = Some d /\ addr d = pa /\ len d = n.
Definition answered (p : Z) (s : sys) : Prop :=
  ring_live s [p] /\ s_seen s = av_idx (avail (s_vq s)) /\ last_used (s_vq s) <> us_idx (used (s_vq s)).

Section ring.
Implicit Types (s : sys) (p pa n : Z).

(** Of [l] buffers with the device, each is to be fetched, held, or answered. *)
Lemma live_parts s l : ring_live s l -> exists free live avq usq, sys_inv s free live avq usq /\ (length avq + length (s_held s) + length usq)%nat = length l.
Proof.
  intros [(free & live & avq & usq & I) Hl]. exists free, live, avq, usq. split; [done|]. pose proof (Permutation_length (si_heads _ _ _ _ _ I)) as E1.
  pose proof (si_history _ _ _ _ _ I) as Hh. rewrite Hl in Hh. apply Permutation_app_inv_l, Permutation_length in Hh. rewrite !length_app, !length_fmap in E1. rewrite length_fmap in Hh. lia.
Qed.
Lemma seen_indices s free live avq usq : sys_inv s free live avq usq ->
  av_idx (avail (s_vq s)) = u16 (s_seen s + zlen avq) /\ us_idx (used (s_vq s)) = u16 (last_used (s_vq s) + zlen usq) /\
  0 <= s_seen s < 65536 /\ 0 <= last_used (s_vq s) < 65536.
Proof. intros I. pose proof (si_wf _ _ _ _ _ I) as W. rewrite (wf_idx _ _ _ W). split; [apply I|]. split; [apply I|]. split; [apply I|apply W]. Qed.

Lemma idle_quiet s : idle s -> s_seen s = av_idx (avail (s_vq s)) /\ last_used (s_vq s) = us_idx (used (s_vq s)).
Proof.
  intros (free & live & avq & usq & I & El)%live_parts. destruct (seen_indices _ _ _ _ _ I) as (-> & -> & ? & ?). cbn in El.
  destruct avq, usq; cbn in El; try lia. rewrite zlen_nil, !Z.add_0_r, !u16_small by lia. done.
Qed.

(** The driver offers a buffer on an idle ring. *)
Lemma idle_add p pa n s : idle s -> p <> 0 -> exists s', async_add_buf s [mk_sg pa n] 1 0 p None = Ok (0, s') /\ offered p pa n s'.
Proof.
  intros Hi Hp. pose proof (idle_quiet s Hi) as [Es El]. destruct (ring_add s [] [mk_sg pa n] 1 0 p None Hi Hp) as (rc & s' & Ea & Hl & Hr); try done.
  specialize (Hr (ring_empty s Hi) ltac:(by left)). replace (0 <=? rc) with true in Hl by lia. pose proof Ea as Ea'. unfold async_add_buf in Ea. cbn [async_table fmap option_fmap option_map default] in Ea.
  destruct Hi as [(free & live & avq & usq & I) Hh]. pose proof (si_wf _ _ _ _ _ I) as WF.
  pose proof (add_buf_split_ok _ _ _ [mk_sg pa n] 1 0 p None 0 WF Hp ltac:(lia) ltac:(lia) ltac:(lia) ltac:(done) ltac:(done)) as Hadd. cbv zeta in Hadd. cbn [bool_decide] in Hadd.
  rewrite bool_decide_false in Hadd by (by intros []). cbn [andb] in Hadd. change (Z.to_nat (1 + 0)) with 1%nat in Hadd. destruct (1 + 0 <=? zlen free).
  - destruct Hadd as (vq & E & Pb & W'). rewrite E in Ea. cbn [mbind res_bind] in Ea. injection Ea as <- <-. eexists. split; [exact Ea'|].
    destruct free as [|h free]; [by apply wf_live, Forall_inv in W' as (? & _)|]. unfold published in Pb. destruct_and! Pb. split; [done|]. cbn.
    replace (num vq) with (num (s_vq s)). replace (used vq) with (used (s_vq s)). replace (last_used vq) with (last_used (s_vq s)). split; [|split; [done|]].
    + replace (av_idx (avail vq)) with (u16 (master_idx (s_vq s) + 1)). rewrite Es, (wf_idx _ _ _ WF). pose proof (wf_master _ _ _ WF). word_lia.
    + pose proof (wf_live _ _ _ W') as Hf. apply Forall_inv in Hf as (Hc & _). cbn in Hc. destruct Hc as (nx & Hd). exists h. eexists. split; [|by rewrite Hd].
      replace (av_ring (avail vq)) with (zinsert (DESC_INDEX (num (s_vq s)) (master_idx (s_vq s))) h (av_ring (avail (s_vq s)))).
      rewrite Es, (wf_idx _ _ _ WF). apply zlookup_zinsert_eq. rewrite (desc_index_mod _ _ _ _ WF), (wf_avail _ _ _ WF). pose proof (num_pos _ _ _ WF).
      pose proof (Z.mod_pos_bound (master_idx (s_vq s)) (num (s_vq s))). lia.
  - rewrite Hadd in Ea. cbn [mbind res_bind] in Ea. injection Ea as <- _. unfold ENOSPC in Hr. lia.
Qed.

Lemma offered_kick p pa n s : offered p pa n s -> offered p pa n (async_kick_prepare s).2.
Proof.
  intros (Hl & Hr). split; [exact (vsq_kick s [p] Hl)|]. unfold async_kick_prepare, virtqueue_kick_prepare_split. cbv zeta. destruct (event_suppression_enabled _); exact Hr.
Qed.

(** The host takes it. *)
Lemma offered_take p pa n s : offered p pa n s -> exists s', host_take s = Some (pa, n, s') /\ answered p s'.
Proof.
  intros (Hl & Hs & Hu & h & d & Hh & Hd & <- & <-). unfold host_take. rewrite (proj2 (Z.eqb_neq _ _) Hs), Hh, Hd. eexists. split; [done|].
  destruct (live_parts _ _ Hl) as (free & live & avq & usq & I & El). destruct (seen_indices _ _ _ _ _ I) as (E1 & E2 & R1 & R2).
  assert (s_held s = [] /\ zlen avq = 1) as [Eh Ea].
  { destruct avq as [|h' avq]; [rewrite zlen_nil, Z.add_0_r, u16_small in E1 by lia; congruence|]. cbn in El. destruct (s_held s); [|cbn in El; lia]. split; [done|]. rewrite zlen_cons. unfold zlen. lia. }
  destruct Hl as [G Hg]. pose proof (inv_fetch s h G Hs Hh) as G1. pose proof (inv_use _ h 0 (s_held s) G1 ltac:(done)) as G2. cbn in G2.
  split; [split; [|done]|]; [exact G2|]. cbn. rewrite E1, Ea. split; [done|]. rewrite Hu. pose proof R2. rewrite Hu in R2. word_lia.
Qed.

Lemma no_take s : s_seen s = av_idx (avail (s_vq s)) -> host_take s = None.
Proof. intros E. unfold host_take. by rewrite (proj2 (Z.eqb_eq _ _) E). Qed.

(** The driver takes it back, and the ring is idle again; before, there is nothing to take. *)
Lemma answered_get p s : answered p s -> exists n s', async_get_buf s = Ok (Some (p, n), s') /\ idle s'.
Proof.
  intros (Hl & _ & Hu). destruct (ring_get s [p] Hl) as (b & s' & Eg & Hb). assert (is_Some b) as [[q n] ->].
  { unfold async_get_buf in Eg. destruct Hl as [(free & live & avq & usq & I) _]. destruct (get_buf_split_ok _ _ _ (si_wf _ _ _ _ _ I)) as [_ Hsome].
    destruct (used_head _ _ _ _ _ I Hu) as (e & usq' & c & _ & Hc & Hid & Hslot). destruct (Hsome c e Hu Hc Hslot Hid) as (vq1 & live' & He1 & _).
    rewrite He1 in Eg. cbn [mbind res_bind] in Eg. injection Eg as <- _. eauto. }
  destruct Hb as (_ & l & El & Hl'). apply Permutation_singleton_l in El. injection El; intros; subst. by exists n, s'.
Qed.
Lemma nothing_to_get l s : ring_live s l -> last_used (s_vq s) = us_idx (used (s_vq s)) -> async_get_buf s = Ok (None, s).
Proof.
  intros [(free & live & avq & usq & I) _] E. destruct (get_buf_split_ok _ _ _ (si_wf _ _ _ _ _ I)) as [Hnone _]. unfold async_get_buf. rewrite (Hnone E). cbn. by destruct s.
Qed.
End ring.

(** ** What the host does *)

(** A buffer is offered, read and returned by the device, taken by the DPC, and acknowledged to
    the waiting thread. *)
Inductive stage := Waiting | Read | Taken | Acked.
Definition advance (st : stage) (a : activity) : stage :=
  match st, a with Waiting, DeviceRuns => Read | Read, DpcRuns => Acked | st, _ => st end.
(** The device answers and the DPC runs afterwards, before the second is over. *)
Definition timely (l : list activity) : Prop := foldl advance Waiting l = Acked /\ RemovalComes ∉ l.

Section host.
Context {K : Type} {BK : BalloonKernel sys K} {BG : BalloonLedger K} {BL : BalloonLaws sys K} (tbl : Z) (phys : Z -> Z).
Implicit Types (c : DEVICE_CONTEXT sys) (s : balloon sys K) (k : K) (w : queue) (L : list (PAGE_LIST_ENTRY * list Z)) (X : gset Z).

(** The host read [n] bytes of page numbers at [pa]; [t] is the table of the driver. *)
Definition told w (pa n : Z) (t : list Z) X : gset Z :=
  if pa =? phys tbl then
    let l := list_to_set (take (Z.to_nat (n / sizeof_PFN_NUMBER)) t) in
    match w with Inflate => l ∪ X | Deflate => X ∖ l | Stats => X end
  else X.

Record attentive_host : Prop := {
  ah_phys p : harmless (fun pa => pa = phys p) (VirtIOWdfDeviceGetPhysicalAddress (Q := sys) (K := K) p);
  ah_device w q t k : kok k -> wp (device_runs w q t) (fun q' k' =>
    match host_take q with Some (pa, n, q1) => q' = q1 /\ host k' = told w pa n t (host k) | None => q' = q /\ host k' = host k end) k;
  ah_timely : harmless timely (meanwhile (Q := sys) (K := K)) }.

(** *** What the statistics leave alone *)

Definition rings s := (InfVirtQueue (dctx s), DefVirtQueue (dctx s), HostAckEvent (dctx s), SurpriseRemoval (dctx s), bShutDown (dctx s), host (kern s)).
(** If [m] ends, the rings are as before. *)
Definition frames {A} (m : M (balloon sys K) A) : Prop :=
  forall s, kok (kern s) -> match m s with Ok (_, s') => rings s' = rings s /\ kok (kern s') | Fault _ => True end.

Lemma frames_ret {A} (a : A) : frames (mret a).
Proof. done. Qed.
Lemma frames_throw {A} f : frames (throw f : M (balloon sys K) A).
Proof. done. Qed.
Lemma frames_pure {A} (m : res A) : frames (pure m).
Proof. intros s Hk. unfold pure. by destruct m. Qed.
Lemma frames_gets {A} (f : balloon sys K -> A) : frames (gets f).
Proof. done. Qed.
Lemma frames_bind {A C} (m : M (balloon sys K) A) (f : A -> M (balloon sys K) C) : frames m -> (forall a, frames (f a)) -> frames (m ≫= f).
Proof.
  intros Hm Hf s Hk. unfold mbind, M_bind. specialize (Hm s Hk). destruct (m s) as [[a s1]|]; [|done]. destruct Hm as [E1 K1]. specialize (Hf a s1 K1).
  destruct (f a s1) as [[b s2]|]; [|done]. destruct Hf as [E2 K2]. split; [congruence|done].
Qed.
Lemma frames_krn {A} (R : A -> Prop) (m : M K A) : harmless R m -> frames (krn m).
Proof.
  intros Hm s Hk. specialize (Hm _ Hk). unfold wp in Hm. unfold krn. destruct (m (kern s)) as [[a k]|]; [|done]. destruct Hm as (_ & Hk' & _ & _ & Eh). split; [|done]. unfold rings. cbn. by rewrite Eh.
Qed.
Lemma frames_set f : (forall c, (InfVirtQueue (f c), DefVirtQueue (f c), HostAckEvent (f c), SurpriseRemoval (f c), bShutDown (f c)) =
    (InfVirtQueue c, DefVirtQueue c, HostAckEvent c, SurpriseRemoval c, bShutDown c)) -> frames (set_ctx f).
Proof. intros Hf s Hk. split; [|done]. unfold rings. cbn. specialize (Hf (dctx s)). injection Hf as -> -> -> -> ->. done. Qed.
Lemma frames_modify f : (forall s, dctx (f s) = dctx s /\ kern (f s) = kern s) -> frames (modify f).
Proof. intros Hf s Hk. destruct (Hf s) as [E1 E2]. split; unfold rings; by rewrite ?E1, E2. Qed.
Lemma frames_stats {A} (f : sys -> res (A * sys)) : frames (on_queue Stats f).
Proof.
  unfold on_queue. apply frames_bind; [apply frames_gets|]. intros c. destruct (get_queue Stats c) as [q|]; [|apply frames_throw].
  apply frames_bind; [apply frames_pure|]. intros [a q']. apply frames_bind; [by apply frames_set|]. intros _. apply frames_ret.
Qed.

(** [frame]: through the statements of a function. *)
Ltac frame := repeat first
  [ apply frames_ret | apply frames_throw | apply frames_gets | apply frames_stats | by apply frames_set | by apply frames_modify | apply frames_pure
  | apply frames_bind; [|intros] | eapply frames_krn; first [apply bl_basic|apply bl_performance|apply bl_cache|apply bl_physical]
  | match goal with |- frames (let '(_, _) := ?x in _) => destruct x | |- frames (if ?b then _ else _) => destruct b end
  | progress unfold UpdateNoOverflow, UpdateStat, virtqueue_add_buf, virtqueue_kick_prepare, virtqueue_notify, notify_if, stats_sg, ctxg, fill_stats ].

Lemma frames_gather : frames GatherKernelStats.
Proof. unfold GatherKernelStats. cbv zeta. frame. Qed.
Lemma frames_work fuel : frames (StatWorkItemWorker fuel).
Proof.
  unfold StatWorkItemWorker. apply frames_bind; [by apply frames_set|]. intros _. unfold BalloonMemStats.
  induction fuel as [|fuel IH]; cbn [stat_loop]; (apply frames_bind; [apply frames_gather|]; intros st); unfold BalloonMemStats; frame; done.
Qed.

(** *** One exchange *)

Definition other w : queue := match w with Inflate => Deflate | _ => Inflate end.

(** The exchange on queue [w] has come to stage [st]; [X] are the pages of the host at its
    beginning, [l] those in the table. *)
Record exchange w (l : list Z) X (st : stage) s : Prop := {
  ex_queue : exists q, get_queue w (dctx s) = Some q /\
    match st with Waiting => offered (self (dctx s)) (phys tbl) (sizeof_PFN_NUMBER * zlen l) q | Read => answered (self (dctx s)) q | _ => idle q end;
  ex_other : exists q, get_queue (other w) (dctx s) = Some q /\ idle q;
  ex_table : table_has l (dctx s);
  ex_ack : HostAckEvent (dctx s) = match st with Acked => true | _ => false end;
  ex_removal : SurpriseRemoval (dctx s) = false;
  ex_host : host (kern s) = match st with Waiting => X | _ => match w with Inflate => list_to_set l ∪ X | _ => X ∖ list_to_set l end end }.

Lemma exchange_frame w l X st s s' : w <> Stats -> exchange w l X st s -> rings s' = rings s -> moved s s' -> exchange w l X st s'.
Proof.
  intros Hw [] E T. injection E as E1 E2 E3 E4 E5 E6. destruct T as (F & _). injection F as F1 ? F3 ? F5 ? ? ? ? ? ? ?.
  assert (forall w', w' <> Stats -> get_queue w' (dctx s') = get_queue w' (dctx s)) as Eq by (by intros []). assert (other w <> Stats) by (by destruct w).
  split; rewrite ?Eq, ?F1, ?E3, ?E4, ?E6 by done; try done. unfold table_has. by rewrite F3, F5.
Qed.

Lemma told_table w l s : w <> Stats -> table_has l (dctx s) -> forall X,
  told w (phys tbl) (sizeof_PFN_NUMBER * zlen l) (pfns (dctx s)) X = match w with Inflate => list_to_set l ∪ X | _ => X ∖ list_to_set l end.
Proof.
  intros Hw [_ Ht] X. unfold told. rewrite Z.eqb_refl. cbv zeta. replace (sizeof_PFN_NUMBER * zlen l / sizeof_PFN_NUMBER) with (zlen l) by (rewrite Z.mul_comm, Z.div_mul; done).
  unfold zlen. rewrite Nat2Z.id, Ht. by destruct w.
Qed.

(** The device on a queue, as the host of [attentive_host] runs it. *)
Lemma device_on_host w s q : attentive_host -> kok (kern s) -> get_queue w (dctx s) = Some q ->
  wp (device_on w) (fun _ s' => dctx s' = put_queue w (match host_take q with Some (_, q1) => q1 | None => q end) (dctx s) /\ kok (kern s') /\
    host (kern s') = match host_take q with Some (pa, n, _) => told w pa n (pfns (dctx s)) (host (kern s)) | None => host (kern s) end) s.
Proof.
  intros AH Hk E. unfold device_on. wp_steps. rewrite E. wp_step. apply wp_kern.
  eapply wp_mono; [apply wp_and; [by apply (ah_device AH)|by apply bl_device]|]. intros q' k' (Hd & _ & Hk' & _). cbv beta. unfold set_ctx. wp_step. cbn.
  destruct (host_take q) as [[[pa n] q1]|]; by destruct Hd as [-> ->].
Qed.

Lemma put_same_table w q c : get_queue w c = Some q -> put_queue w q c = c.
Proof. destruct c, w; cbn; by intros ->. Qed.

(** The device on a ring without work. *)
Lemma device_on_idle w s q : attentive_host -> kok (kern s) -> get_queue w (dctx s) = Some q -> host_take q = None \/ w = Stats ->
  wp (device_on w) (fun _ s' => (w <> Stats -> dctx s' = dctx s) /\ rings s' = rings s) s.
Proof.
  intros AH Hk E Hq. eapply wp_mono; [by eapply device_on_host|]. intros [] s' (D & _ & Hh). destruct Hq as [Hn| ->].
  - rewrite Hn in D, Hh. rewrite (put_same_table w q) in D by done. split; [done|]. unfold rings. by rewrite D, Hh.
  - split; [done|]. unfold rings. rewrite D, Hh. cbn. do 2 f_equal. destruct (host_take q) as [[[pa n] q1]|]; [|done]. unfold told. by case_match.
Qed.

Lemma exchange_idle w l X st s q : exchange w l X st s -> st <> Waiting -> get_queue w (dctx s) = Some q -> host_take q = None.
Proof.
  intros [(q' & Eq & Hq) _ _ _ _ _] Hst E. rewrite E in Eq. injection Eq as <-. apply no_take.
  destruct st; [done|apply Hq|by apply idle_quiet|by apply idle_quiet].
Qed.

(** The device on the queue of the exchange and on the others. *)
Lemma device_exchange w w' l X st s : attentive_host -> w <> Stats -> ready s -> exchange w l X st s ->
  wp (device_on w') (fun _ s' => ready s' /\ moved s s' /\ exchange w l X (if decide (w' = w) then advance st DeviceRuns else st) s') s.
Proof.
  intros AH Hw R E. pose proof (sd_kok _ (proj1 R)) as Hk.
  assert (forall q, get_queue w' (dctx s) = Some q -> host_take q = None \/ w' = Stats -> wp (device_on w') (fun _ s' => ready s' /\ moved s s' /\ exchange w l X st s') s) as Quiet.
  { intros q Eq Hq. eapply wp_mono; [apply wp_and; [by apply (device_on_idle w' s q)|by apply device_on_ok]|]. intros [] s' ((_ & Er) & R' & T'). split; [done|]. split; [done|]. by eapply exchange_frame. }
  pose proof (ex_queue _ _ _ _ _ E) as (q & Eq & Hq). case_decide as Ew.
  - subst w'. destruct st; cbn [advance]; try (apply (Quiet q Eq); left; by eapply exchange_idle).
    destruct (offered_take _ _ _ _ Hq) as (q' & Et & Ha). eapply wp_mono; [apply wp_and; [by apply (device_on_host w s q)|by apply device_on_ok]|].
    intros [] s' ((D & _ & Hh) & R' & T'). split; [done|]. split; [done|]. rewrite Et in D, Hh. destruct E as [_ E2 E3 E4 E5 E6]. rewrite E6, told_table in Hh by done.
    split; rewrite ?D; try (by destruct w); try done.
    exists q'. rewrite get_put, decide_True by done. split; [done|]. by destruct w.
  - destruct (get_queue w' (dctx s)) as [q1|] eqn:E1; [apply (Quiet q1 eq_refl)|unfold device_on; wp_steps; rewrite E1; by wp_step].
    destruct (decide (w' = Stats)) as [|Hs]; [by right|]. left. pose proof (ex_other _ _ _ _ _ E) as (q2 & E2 & H2'). assert (w' = other w) as -> by (by destruct w, w').
    rewrite E1 in E2. injection E2 as <-. apply no_take. by apply idle_quiet.
Qed.

(** The DPC looks at a queue: it finds the buffer that the device returned. *)
Definition taken w w' (st : stage) : stage := match st with Read => if decide (w' = w) then Taken else Read | st => st end.
Lemma get_exchange w w' l X st s : w <> Stats -> w' <> Stats -> ready s -> exchange w l X st s ->
  wp (virtqueue_get_buf w') (fun b s' => ready s' /\ moved s s' /\ exchange w l X (taken w w' st) s' /\ bool_decide (is_Some b) = match st with Read => bool_decide (w' = w) | _ => false end) s.
Proof.
  intros Hw Hw' R E. assert (is_Some (get_queue w' (dctx s))) as Hsome by (apply working_queue; [apply R|done]).
  assert (forall q, get_queue w' (dctx s) = Some q -> (exists l, ring_live q l) -> last_used (s_vq q) = us_idx (used (s_vq q)) ->
    wp (virtqueue_get_buf w') (fun b s' => ready s' /\ moved s s' /\ exchange w l X st s' /\ b = None) s) as Nothing.
  { intros q Eq [lv Hl] Hu. unfold virtqueue_get_buf. eapply wp_queue; [exact Eq|by eapply nothing_to_get|]. rewrite put_same_table by done.
    replace (s <| dctx := dctx s |>) with s by (by destruct s). by split_and!. }
  pose proof (ex_queue _ _ _ _ _ E) as (q & Eq & Hq). destruct (decide (w' = w)) as [-> |Ew].
  - destruct st; cbn [taken].
    + eapply wp_mono; [apply (Nothing q Eq); [eexists; apply Hq|apply Hq]|]. intros b s' (? & ? & ? & ->). by split_and!.
    + rewrite decide_True by done. destruct (answered_get _ _ Hq) as (n & q' & Eg & Hi). eapply wp_mono; [apply wp_and; [|apply brisk_calm, calm_get; [exact R|apply R|done|done]]|].
      { unfold virtqueue_get_buf. eapply (wp_queue w _ q _ q' (fun b s' => b = Some (self (dctx s), n) /\ s' = s <| dctx := put_queue w q' (dctx s) |>)); [done|exact Eg|done]. }
      intros b s' ((-> & ->) & R' & T'). split; [done|]. split; [done|]. split; [|by rewrite !bool_decide_true by eauto]. destruct E as [_ E2 E3 E4 E5 E6]. split; cbn; try (by destruct w); try done.
      exists q'. rewrite get_put, decide_True by done. done.
    + destruct (idle_quiet q Hq) as [_ Hu]. eapply wp_mono; [apply (Nothing q Eq); [by eexists|done]|]. intros b s' (? & ? & ? & ->). by split_and!.
    + destruct (idle_quiet q Hq) as [_ Hu]. eapply wp_mono; [apply (Nothing q Eq); [by eexists|done]|]. intros b s' (? & ? & ? & ->). by split_and!.
  - pose proof (ex_other _ _ _ _ _ E) as (q2 & E2 & H2'). assert (w' = other w) as -> by (by destruct w, w'). destruct (idle_quiet q2 H2') as [_ Hu].
    eapply wp_mono; [apply (Nothing q2 E2); [by eexists|done]|]. intros b s' (? & ? & ? & ->). split; [done|]. split; [done|].
    unfold taken. rewrite decide_False by done. rewrite (bool_decide_false (other w = w)) by done. by destruct st.
Qed.

Lemma frames_dpc_tail : frames (dpc_tail (Q := sys) (K := K)).
Proof. unfold dpc_tail, virtqueue_get_buf. frame. Qed.

(** A step that keeps the rings. *)
Lemma framed {A} (m : M (balloon sys K) A) w l X st s : w <> Stats -> ready s -> exchange w l X st s -> frames m -> brisk m s ->
  wp m (fun _ s' => ready s' /\ moved s s' /\ exchange w l X st s') s.
Proof.
  intros Hw R E Hf Hm. specialize (Hf s (sd_kok _ (proj1 R))). unfold wp, brisk, wp in *. destruct (m s) as [[a s']|]; [|done]. destruct Hf as [Er _], Hm as [R' T'].
  split; [done|]. split; [done|]. by eapply exchange_frame.
Qed.

Lemma ack_exchange w l X st s : w <> Stats -> ready s -> exchange w l X st s -> st = Taken \/ st = Acked -> exchange w l X Acked (s <| dctx := (dctx s) <| HostAckEvent := true |> |>).
Proof. intros Hw R E Hst. destruct E as [E1 E2 E3 E4 E5 E6]. destruct w, Hst as [-> | ->]; by split. Qed.

Lemma dpc_exchange w l X st s : w <> Stats -> ready s -> exchange w l X st s -> st <> Taken ->
  wp BalloonInterruptDpc (fun _ s' => ready s' /\ moved s s' /\ exchange w l X (advance st DpcRuns) s') s.
Proof.
  intros Hw R E Hst. unfold BalloonInterruptDpc. wp_step. eapply wp_mono; [by apply (get_exchange w Inflate l X st)|]. intros b1 s1 (R1 & T1 & E1 & B1). cbv beta. wp_step.
  eapply wp_mono; [by apply (get_exchange w Deflate l X (taken w Inflate st))|]. intros b2 s2 (R2 & T2 & E2 & B2). cbv beta. rewrite B1, B2. wp_step.
  eapply (wp_mono _ (fun _ s3 => ready s3 /\ moved s2 s3 /\ exchange w l X (advance st DpcRuns) s3)).
  { assert (st = Read \/ st <> Read) as [-> |Hr] by (by destruct st; auto).
    - replace (_ || _) with true by (by destruct w). unfold set_ctx. wp_step. split; [apply (ready_ctx (fun c => c <| HostAckEvent := true |>) s2 R2); [intros []; by split|done|done|apply R2]|].
      split; [done|]. eapply ack_exchange; [done|exact R2|exact E2|]. left. by destruct w.
    - replace (_ || _) with false by (by destruct w, st). wp_step. split; [done|]. split; [done|]. by destruct w, st. }
  intros [] s3 (R3 & T3 & E3). change (wp dpc_tail (fun _ s' => ready s' /\ moved s s' /\ exchange w l X (advance st DpcRuns) s') s3).
  eapply wp_mono; [apply (framed _ w l X (advance st DpcRuns)); try done; [apply frames_dpc_tail|by apply dpc_tail_ok]|].
  intros [] s4 (R4 & T4 & E4). split; [done|]. split; [|done]. by rewrite T1, T2, T3.
Qed.

Lemma activity_exchange fuel a w l X st s : attentive_host -> w <> Stats -> a <> RemovalComes -> ready s -> exchange w l X st s -> st <> Taken ->
  wp (run_activity fuel a) (fun _ s' => ready s' /\ moved s s' /\ exchange w l X (advance st a) s') s.
Proof.
  intros AH Hw Ha R E Hst. destruct a; cbn [run_activity]; try done.
  - wp_step. eapply wp_mono; [by apply (device_exchange w Inflate l X st)|]. intros [] s1 (R1 & T1 & E1). cbv beta. wp_step.
    eapply wp_mono; [by apply (device_exchange w Deflate l X _ s1 AH Hw R1 E1)|]. intros [] s2 (R2 & T2 & E2). cbv beta.
    eapply wp_mono; [by apply (device_exchange w Stats l X _ s2 AH Hw R2 E2)|]. intros [] s3 (R3 & T3 & E3). split; [done|]. split; [by rewrite T1, T2|]. by destruct w, st.
  - by apply dpc_exchange.
  - replace (advance st WorkItemRuns) with st by (by destruct st). apply framed; try done; [|exact (run_activity_ok fuel WorkItemRuns s R)].
    unfold WdfWorkItemFlush, ctxg. apply frames_bind; [apply frames_gets|]. intros []; [apply frames_work|apply frames_ret].
  - replace (advance st ShutDownComes) with st by (by destruct st). eapply (wp_mono _ (fun _ s' => (ready s' /\ moved s s') /\ exchange w l X st s')); [apply wp_and; [exact (run_activity_ok fuel ShutDownComes s R)|]|].
    + apply wp_modify. destruct E. by destruct w; split.
    + intros [] s' ((R' & T') & E'). by split.
Qed.

Lemma advance_taken st a : st <> Taken -> advance st a <> Taken.
Proof. by destruct st, a. Qed.

Lemma activities_exchange fuel w l X : attentive_host -> w <> Stats -> forall acts st s, RemovalComes ∉ acts -> ready s -> exchange w l X st s -> st <> Taken ->
  wp (run_activities fuel acts) (fun _ s' => ready s' /\ moved s s' /\ exchange w l X (foldl advance st acts) s') s.
Proof.
  intros AH Hw. induction acts as [|a acts IH]; intros st s Ha R E Hst; cbn [run_activities]; [by wp_step|]. apply not_elem_of_cons in Ha as [Ha Has]. wp_step.
  eapply wp_mono; [by apply (activity_exchange fuel a w l X st)|]. intros [] s1 (R1 & T1 & E1). cbv beta.
  eapply wp_mono; [apply (IH (advance st a)); try done; by apply advance_taken|]. intros [] s2 (R2 & T2 & E2). split; [done|]. split; [by rewrite T1|done].
Qed.

(** ** Telling the host *)

(** Both rings are idle and no acknowledgement is left over. *)
Record settled c : Prop := {
  se_rings w : w <> Stats -> exists q, get_queue w c = Some q /\ idle q;
  se_ack : HostAckEvent c = false;
  se_removal : SurpriseRemoval c = false;
  se_table : pfns_table c = tbl }.

Lemma settled_exchange w l X s : w <> Stats -> exchange w l X Acked s -> pfns_table (dctx s) = tbl -> settled ((dctx s) <| HostAckEvent := false |>).
Proof.
  intros Hw [(q1 & E1 & I1) (q2 & E2 & I2) _ _ Er _] Ht. split; try done. intros w' Hw'. destruct (decide (w' = w)) as [-> |Hn].
  - exists q1. split; [|done]. by destruct w.
  - exists q2. split; [|done]. assert (w' = other w) as -> by (by destruct w, w'). by destruct w.
Qed.

(** The buffer is offered and the queue kicked. *)
Lemma offer_exchange w l (full rest : M (balloon sys K) Z) Φ s : w <> Stats -> ready s -> settled (dctx s) -> table_has l (dctx s) -> zlen l <= TABLE_SIZE ->
  (forall s', ready s' -> moved s s' -> exchange w l (host (kern s)) Waiting s' -> wp rest Φ s') ->
  wp (r ← virtqueue_add_buf w [mk_sg (phys tbl) (u32 (sizeof_PFN_NUMBER * num_pfns (dctx s)))];
      if r <? 0 then full else b ← virtqueue_kick_prepare w; notify_if b w;; rest) Φ s.
Proof.
  intros Hw R Se Ht Hl HΦ. pose proof (zlen_nonneg l). change TABLE_SIZE with 512 in Hl. pose proof Ht as [-> _]. rewrite u32_small by (change sizeof_PFN_NUMBER with 8; lia).
  destruct (se_rings _ Se w Hw) as (q & Eq & Hq). destruct (idle_add (self (dctx s)) (phys tbl) (sizeof_PFN_NUMBER * zlen l) q Hq) as (q1 & Ea & Ho); [apply R|].
  assert (forall q', offered (self (dctx s)) (phys tbl) (sizeof_PFN_NUMBER * zlen l) q' ->
    let s' := s <| dctx := put_queue w q' (dctx s) |> in ready s' /\ moved s s' /\ exchange w l (host (kern s)) Waiting s') as Put.
  { intros q' Ho' s'. pose proof (put_still w q q' s Eq) as T. split; [eapply ready_still; [exact R| |exact T]; eapply (side_put w q q' 1); [apply R|done|apply Ho'|done]|].
    split; [by apply still_moved|]. split; [exists q'; unfold s'; cbn; rewrite get_put, decide_True by done; by destruct w| | | | |done]; unfold s'; cbn; destruct w; try done; try apply Se.
    - by apply (se_rings _ Se Deflate).
    - by apply (se_rings _ Se Inflate). }
  wp_step. unfold virtqueue_add_buf, ctxg. wp_steps. eapply wp_queue; [exact Eq|exact Ea|]. change (0 <? 0) with false. cbv iota.
  wp_step. unfold virtqueue_kick_prepare. eapply (wp_queue w _ q1 (async_kick_prepare q1).1 (async_kick_prepare q1).2); [cbn; rewrite get_put, decide_True; done|cbn; by destruct (async_kick_prepare q1)|].
  apply offered_kick in Ho as Hk. assert (forall q q' c, put_queue w q (put_queue w q' c) = put_queue w q c) as PP by (intros; by destruct w).
  wp_step. destruct (async_kick_prepare q1).1; cbn [notify_if].
  - unfold virtqueue_notify. eapply (wp_queue w); [cbn; rewrite get_put, decide_True; done|done|]. cbn. rewrite !PP. apply HΦ; by apply Put.
  - wp_step. cbn. rewrite !PP. apply HΦ; by apply Put.
Qed.

Lemma tell_exchange fuel w l s : attentive_host -> w <> Stats -> ready s -> settled (dctx s) -> table_has l (dctx s) -> zlen l <= TABLE_SIZE ->
  wp (BalloonTellHost fuel w) (fun st s' => ready s' /\ moved s s' /\ st = STATUS_WAIT_0 /\ settled (dctx s') /\
    host (kern s') = match w with Inflate => list_to_set l ∪ host (kern s) | _ => host (kern s) ∖ list_to_set l end) s.
Proof.
  intros AH Hw R Se Ht Hl. unfold BalloonTellHost, ctxg. wp_steps. rewrite (se_removal _ Se). wp_steps. rewrite (se_table _ Se). eapply wp_balloon_krn; [apply R|apply (ah_phys AH)|].
  intros pa s1 -> S1 T1 D1 _. assert (ready s1) as R1 by (by eapply ready_still). assert (host (kern s1) = host (kern s)) as <- by apply T1. apply still_moved in T1. rewrite <- D1 in Se, Ht.
  do 2 wp_step. apply (offer_exchange w l); try done. intros s2 R2 T2 E2. wp_step. unfold wait_host_ack, ctxg. wp_step. eapply wp_balloon_krn; [apply R2|apply (ah_timely AH)|].
  intros acts s3 [Hs Hn] S3 T3 D3 _. assert (ready s3) as R3 by (by eapply ready_still). assert (rings s3 = rings s2) as Er by (unfold rings; rewrite D3; destruct T3 as (_ & _ & _ & ->); done).
  apply still_moved in T3. apply (exchange_frame _ _ _ _ _ s3) in E2; [|done..].
  wp_step. eapply wp_mono; [by apply (activities_exchange fuel w l (host (kern s1)) AH Hw acts Waiting)|]. intros [] s4 (R4 & T4 & E4). rewrite Hs in E4. cbv beta. wp_steps. rewrite (ex_ack _ _ _ _ _ E4).
  unfold set_ctx. wp_steps. apply wp_assert; [done|]. wp_step. assert (moved s s4) as T by (by rewrite T1, T2, T3).
  split; [apply (ready_ctx (fun c => c <| HostAckEvent := false |>) s4 R4); [intros []; by split|done|done|apply R4]|]. split; [exact T|]. split; [done|]. split.
  - apply (settled_exchange w l _ s4 Hw E4). destruct T as (F & _). injection F as ? ? ? Ft ? ? ? ? ? ? ? ?. rewrite Ft, <- D1. apply Se.
  - exact (ex_host _ _ _ _ _ E4).
Qed.

(** ** The host is in step *)

Record in_step L s : Prop := {
  is_ready : ready s;
  is_pages : pages L (dctx s) (kern s);
  is_settled : settled (dctx s);
  is_host : host (kern s) = list_to_set (all_pages L) }.

Lemma apart_settled s s' : apart s s' -> settled (dctx s) -> settled (dctx s').
Proof.
  intros (E & _) []. injection E as ? E1 E2 ? E3 E4 E5 ? ? ?. split; try congruence. intros w Hw. destruct (se_rings0 w Hw) as (q & Eq & Hq). exists q. split; [|done]. destruct w; cbn in *; congruence.
Qed.

Lemma in_step_work fuel diff L s : attentive_host -> in_step L s -> 0 <= diff + num_pages (dctx s) < 2 ^ 32 ->
  wp (if diff >? 0 then BalloonFill fuel (u64 diff) else if diff <? 0 then BalloonLeak fuel (u64 (- diff)) else mret STATUS_WAIT_0) (fun _ s' => exists L', in_step L' s') s.
Proof.
  intros AH [R P Se Hh] Hd. pose proof (pg_total _ _ _ P) as Et. pose proof (total_nonneg L). pose proof (pg_small _ _ _ P). destruct (diff >? 0) eqn:E1; [|destruct (diff <? 0) eqn:E2].
  - rewrite u64_small by lia. apply (BalloonFill_split fuel diff L); try done; try lia.
    + intros s' R' A' P' _. exists L. split; [done|done|by eapply apart_settled|]. by destruct A' as [_ ->].
    + intros x s' R' A' P' Hx Ht. pose proof (apart_settled _ _ A' Se) as Se'. eapply wp_mono; [apply (tell_exchange fuel Inflate x.2); try done; lia|]. intros st s2 (R2 & T2 & _ & Se2 & H2). exists (x :: L).
      split; [done|by eapply moved_pages|done|]. rewrite H2. destruct A' as [_ ->]. rewrite Hh. unfold all_pages. cbn. by rewrite list_to_set_app_L.
  - destruct L as [|x L]; [cbn in Et; lia|]. apply (BalloonLeak_split fuel _ x L); try done. intros s' R' A' P' Ht. pose proof (apart_settled _ _ A' Se) as Se'.
    pose proof (pg_bounds _ _ _ P) as Hb. apply Forall_cons in Hb as [Hb _]. pose proof (pg_pages _ _ _ P) as Hp. apply NoDup_app in Hp as (_ & Hdis & _).
    eapply wp_mono; [apply (tell_exchange fuel Deflate x.2); try done; lia|]. intros st s2 (R2 & T2 & _ & Se2 & H2). exists L. split; [done|by eapply moved_pages|done|].
    rewrite H2. destruct A' as [_ ->]. rewrite Hh. unfold all_pages. cbn. rewrite list_to_set_app_L. fold (all_pages L). change (mjoin (snd <$> L)) with (all_pages L) in *. set_solver.
  - wp_step. by exists L.
Qed.

Lemma in_step_pass fuel L s : attentive_host -> in_step L s -> wp (BalloonRoutine_pass fuel) (fun _ s' => exists L', in_step L' s') s.
Proof.
  intros AH I. unfold BalloonRoutine_pass. wp_step. unfold set_ctx at 1. apply wp_modify. set (s0 := s <| dctx := _ |>).
  assert (forall (b : bool) s, in_step L s -> in_step L (s <| dctx := (dctx s) <| WakeUpThread := b |> |>)) as Wake.
  { intros b s' [R P Se Hh]. split; [apply (ready_ctx (fun c => c <| WakeUpThread := b |>) s' R); [intros []; by split|done|done|apply R]|by eapply pages_ctx; [| |exact P]| |done]. destruct Se. by split. }
  apply (Wake false) in I. change (in_step L s0) in I. clearbody s0. clear Wake. unfold ctxg. wp_steps. destruct (bShutDown (dctx s0)); [wp_step; by exists L|].
  wp_step. unfold BalloonGetSize, ctxg. wp_step. eapply wp_balloon_krn; [apply I|apply bl_get|]. intros v s1 Hv S1 T1 D1 _. cbv beta in Hv. wp_steps.
  assert (forall L s s', in_step L s -> side s' -> still s s' -> dctx s' = dctx s -> in_step L s') as Krn.
  { intros L0 t t' [R P Se Hh] S' T' D'. split; [by eapply ready_still|eapply moved_pages; [by apply still_moved|done]|by rewrite D'|]. destruct T' as (_ & _ & _ & ->). done. }
  apply (Krn L s0 s1) in I; try done. eapply wp_mono; [by apply (in_step_work fuel (v - num_pages (dctx s1)) L); [| |lia]|]. intros st s2 (L' & I2). cbv beta. wp_step.
  eapply (wp_mono _ (fun _ s3 => in_step L' s3)).
  { case_match; [|by wp_step]. unfold set_ctx. wp_step. destruct I2 as [R P Se Hh].
    split; [apply (ready_ctx (fun c => c <| WakeUpThread := true |>) s2 R); [intros []; by split|done|done|apply R]|by eapply pages_ctx; [| |exact P]| |done]. destruct Se. by split. }
  intros [] s3 I3. cbv beta. wp_steps. eapply wp_balloon_krn; [apply I3|apply bl_set|]. intros [] s4 _ S4 T4 D4 _. wp_step. exists L'. by apply (Krn L' s3).
Qed.

End host.
