(* ===== verification/BalloonExamples.v ===== *)
(** * The balloon: the theorems at concrete inputs

    A kernel that counts addresses and pages upwards, with a host that reads the rings.  The
    device asks for 700 pages.  Besides the runs on which the theorems apply, a host that is
    late: the driver overwrites the table while the first buffer is still on the ring. *)

From Stdlib Require Import ZArith Lia.
From stdpp Require Import base list numbers option gmap relations.
From S2P Require Import Prelude.
From S2P Require Import Effects.
From S2P Require Import Virtio.
From S2P Require Import SplitRing.
From S2P Require Import SplitSystem.
From S2P Require Import SplitExamples.
From S2P Require Import VirtQueue.
From S2P Require Import SplitQueue.
From S2P Require Import Balloon.
From S2P Require Import BalloonSpec.
From S2P Require Import BalloonLifeSpec.
From S2P Require Import BalloonHost.

(** ** The kernel and the host *)

(** [late] is the number of waits in which the host does not answer. *)
Record toy := mk_toy { t_addr : Z; t_page : Z; t_mdls : gmap Z (list Z); t_entries : list Z; t_host : gset Z; t_actual : Z; t_late : nat }.
#[local] Instance eta_toy : Eta toy := fun k => mk_toy (t_addr k) (t_page k) (t_mdls k) (t_entries k) (t_host k) (t_actual k) (t_late k).

Definition toy_target : Z := 700.
Definition toy_table : Z := 0x5000.

Fixpoint remove_one (p : Z) (l : list Z) : list Z := match l with [] => [] | x :: l => if x =? p then l else x :: remove_one p l end.
Lemma toy_remove_perm p l : p ∈ l -> l ≡ₚ p :: remove_one p l.
Proof.
  induction l as [|x l IH]; [by intros ?%not_elem_of_nil|]. cbn. destruct (Z.eqb_spec x p) as [->|Hne]; [done|]. intros [->|Hp]%elem_of_cons; [done|]. rewrite (IH Hp) at 1. apply Permutation_swap.
Qed.

(** The host reads the pages at the table. *)
Definition toy_told (w : queue) (pa n : Z) (t : list Z) (X : gset Z) : gset Z := told toy_table id w pa n t X.

#[local] Instance toy_kernel : BalloonKernel sys toy := {|
  MmAllocatePagesForMdlEx := fun n k =>
    Ok (t_addr k, k <| t_addr := t_addr k + 1 |> <| t_page := t_page k + n / PAGE_SIZE |> <| t_mdls := <[t_addr k := seqZ (t_page k) (n / PAGE_SIZE)]> (t_mdls k) |>);
  MmGetMdlByteCount := fun p k => Ok (zlen (default [] (t_mdls k !! p)) * PAGE_SIZE, k);
  MmGetMdlPfnArray := fun p k => Ok (default [] (t_mdls k !! p), k);
  MmFreePagesFromMdl := fun p k => Ok (tt, k <| t_mdls := <[p := []]> (t_mdls k) |>);
  ExFreePool := fun p k => Ok (tt, k <| t_mdls := delete p (t_mdls k) |>);
  ExAllocateFromNPagedLookasideList := fun k => Ok (t_addr k, k <| t_addr := t_addr k + 1 |> <| t_entries := t_addr k :: t_entries k |>);
  ExFreeToNPagedLookasideList := fun p k => Ok (tt, k <| t_entries := remove_one p (t_entries k) |>);
  ExDeleteNPagedLookasideList := fun k => Ok (tt, k);
  wait_low_memory := fun k => Ok (STATUS_TIMEOUT, k);
  IoCreateNotificationEvent := fun k => Ok (0x6000, k);
  ZwClose := fun k => Ok (tt, k);
  PsCreateSystemThread := fun k => Ok (STATUS_SUCCESS, k);
  ZwQueryBasic := fun k => Ok ((STATUS_SUCCESS, 0x100000), k);
  ZwQueryPerformance := fun k => Ok ((STATUS_SUCCESS, mk_perf 1 2 3 4 5 6 7 8), k);
  ZwQueryFileCache := fun k => Ok ((STATUS_SUCCESS, mk_cache 0x20000 0 0), k);
  framework_create := fun k => Ok (STATUS_SUCCESS, k);
  VirtIOWdfInitialize := fun k => Ok (STATUS_SUCCESS, k);
  VirtIOWdfShutdown := fun k => Ok (tt, k);
  VirtIOWdfDeviceAllocDmaMemory := fun _ k => Ok (toy_table, k);
  VirtIOWdfDeviceFreeDmaMemoryByTag := fun k => Ok (tt, k);
  VirtIOWdfDeviceGetPhysicalAddress := fun p k => Ok (p, k);
  VirtIOWdfGetDeviceFeatures := fun k => Ok (2, k);
  VirtIOWdfSetDriverFeatures := fun _ k => Ok (STATUS_SUCCESS, k);
  VirtIOWdfInitQueues := fun n k => Ok ((if 0 <=? n then STATUS_SUCCESS else STATUS_UNSUCCESSFUL, replicate (Z.to_nat n) sys0), k);
  VirtIOWdfDestroyQueues := fun k => Ok (tt, k);
  VirtIOWdfSetDriverOK := fun k => Ok (tt, k);
  VirtIOWdfSetDriverFailed := fun k => Ok (tt, k);
  VirtIOWdfGetISRStatus := fun k => Ok (1, k);
  VirtIOWdfDeviceGet_u32 := fun _ k => Ok (toy_target, k);
  VirtIOWdfDeviceSet_u32 := fun _ v k => Ok (tt, k <| t_actual := v |>);
  meanwhile := fun k => match t_late k with O => Ok ([DeviceRuns; DpcRuns], k) | S n => Ok ([], k <| t_late := n |>) end;
  device_runs := fun w q t k =>
    match host_take q with
    | Some (pa, n, q1) => Ok (q1, k <| t_host := toy_told w pa n t (t_host k) |>)
    | None => Ok (q, k)
    end |}.

(** Addresses and pages not given out yet lie above those that are. *)
Record toy_ok (k : toy) : Prop := {
  to_addr : 0 < t_addr k;
  to_fresh p : t_addr k <= p -> t_mdls k !! p = None;
  to_entries : Forall (fun p => p < t_addr k) (t_entries k);
  to_pages p l x : t_mdls k !! p = Some l -> x ∈ l -> x < t_page k;
  to_late : t_late k = O }.
#[local] Instance toy_ledger : BalloonLedger toy := {| kok := toy_ok; mdls := t_mdls; entries := t_entries; host := t_host |}.

Lemma harmless_toy {A} (R : A -> Prop) (m : M toy A) : (forall k, exists a, R a /\ m k = Ok (a, k)) -> harmless R m.
Proof. intros Hm k Hk. destruct (Hm k) as (a & Ra & E). unfold wp. by rewrite E. Qed.

Lemma sys0_idle : idle sys0.
Proof. apply new_ring_live. exists 2, 0, SplitExamples.dev0, 0. split; [lia|]. split; [exact q4_new|done]. Qed.

(** The host does steps of a device on its ring. *)
Lemma host_take_live q l : ring_live q l -> ring_live (match host_take q with Some (_, q1) => q1 | None => q end) l.
Proof.
  intros [G Hl]. unfold host_take. destruct (Z.eqb_spec (s_seen q) (av_idx (avail (s_vq q)))) as [|Hne]; [done|]. destruct (_⟦_⟧) as [h|] eqn:Eh; [|done]. destruct ((desc (s_vq q))⟦h⟧) as [d|]; [|done].
  split; [|done]. pose proof (inv_use _ h 0 (s_held q) (inv_fetch q h G Hne Eh) ltac:(done)) as G2. exact G2.
Qed.

Ltac toy_done := by (intros; apply harmless_toy; intros; eexists; split; [|done]).

#[local] Instance toy_laws : BalloonLaws sys toy.
Proof.
  split; try toy_done.
  - intros n k Hn [K1 K2 K3 K4 K5]. assert (0 <= n / PAGE_SIZE) by (by apply Z.div_pos). cbn. unfold wp. split; [split; cbn; [lia| | | |done]|].
    + intros p Hp. rewrite lookup_insert_ne by lia. apply K2. lia.
    + eapply Forall_impl; [exact K3|]. cbn. lia.
    + intros p l x. rewrite lookup_insert_Some. intros [[<- <-]|[Hne Hl]] Hx; [apply elem_of_seqZ in Hx; lia|]. specialize (K4 p l x Hl Hx). lia.
    + split; [done|]. split; [done|]. right. split; [lia|]. split; [by apply K2|]. eexists. split; [done|]. split; [apply NoDup_seqZ|]. split.
      * unfold zlen. rewrite length_seqZ, Z2Nat.id by done. pose proof (Z.mul_div_le n PAGE_SIZE). lia.
      * intros q l x Hl Hx Hs%elem_of_seqZ. specialize (K4 q l x Hl Hx). lia.
  - intros p l k _ E _. cbn. cbn in E. by rewrite E.
  - intros p l k _ E. cbn. cbn in E. by rewrite E.
  - intros p l k [K1 K2 K3 K4 K5] E. cbn in E. split; [split; cbn; try done|done].
    + intros q Hq. rewrite lookup_insert_ne; [by apply K2|]. intros ->. by rewrite K2 in E.
    + intros q l' x. rewrite lookup_insert_Some. intros [[<- <-]|[Hne Hl]]; [by intros ?%not_elem_of_nil|by eapply K4].
  - intros p k [K1 K2 K3 K4 K5] E. split; [split; cbn; try done|done].
    + intros q Hq. apply lookup_delete_None. right. by apply K2.
    + intros q l' x [_ Hl]%lookup_delete_Some. by eapply K4.
  - intros k [K1 K2 K3 K4 K5]. split; [split; cbn; try done; [lia| |]|].
    + intros p Hp. apply K2. lia.
    + constructor; [lia|]. eapply Forall_impl; [exact K3|]. cbn. lia.
    + split; [done|]. split; [done|]. right. split; [lia|]. split; [|done]. intros Hin. rewrite Forall_forall in K3. specialize (K3 _ Hin). lia.
  - intros p l k [K1 K2 K3 K4 K5] E. cbn in E. split; [split; cbn; try done|].
    + assert (t_entries k ≡ₚ p :: remove_one p (t_entries k)) as Ep by (apply toy_remove_perm; rewrite E; left). rewrite Ep in K3. by apply Forall_cons in K3 as [_ ?].
    + split; [done|]. split; [done|]. assert (t_entries k ≡ₚ p :: remove_one p (t_entries k)) as Ep by (apply toy_remove_perm; rewrite E; left). apply (Permutation_cons_inv (a := p)). by rewrite <- Ep.
  - intros n. apply harmless_toy. intros k. eexists. split; [|done]. cbn.
    destruct (Z.leb_spec 0 n); [|done]. intros _. split; [rewrite zlen_replicate; lia|]. apply Forall_replicate. exact sys0_idle.
  - intros o v k K. by destruct K.
  - intros k K. cbn. unfold wp. by rewrite (to_late k K).
  - intros w q t k K. cbn. unfold wp. pose proof (host_take_live q) as Hq. destruct (host_take q) as [[[pa n] q1]|]; [|by split_and!]. split; [done|]. by destruct K.
Qed.

(** ** From addition to removal *)

Definition toy_start : toy := mk_toy 0x10000 0x100 ∅ [] ∅ 0 0.
Lemma toy_added : added toy_start.
Proof. split; [|done]. by split. Qed.

Definition toy_balloon : balloon sys toy := mk_balloon (zero_context 0x9000) [] toy_start.
Definition result_of {A} (d : A) (m : res (Z * A)) : A := match m with Ok (_, a) => a | Fault _ => d end.
Definition toy_run (e : event) (s : balloon sys toy) : balloon sys toy := result_of s (run_event 10 e s).

Definition toy0 : balloon sys toy := result_of toy_balloon (BalloonDeviceAdd toy_balloon).
Definition toy1 : balloon sys toy := toy_run PrepareHardware toy0.
Definition toy2 : balloon sys toy := toy_run D0Entry toy1.
Definition toy3 : balloon sys toy := toy_run WorkerWakes toy2.
Definition toy4 : balloon sys toy := toy_run WorkerWakes toy3.

(** Two passes fill the balloon, and the host has the pages. *)
Example toy_inflated : num_pages (dctx toy4) = 700 /\ t_actual (kern toy4) = 700 /\ size (t_host (kern toy4)) = 700%nat /\ length (PageListHead (dctx toy4)) = 2%nat.
Proof. vm_compute. auto. Qed.

(** A step of the run. *)
Definition status_of {A} (m : res (Z * A)) : Z := match m with Ok (st, _) => st | Fault _ => STATUS_UNSUCCESSFUL end.
Lemma toy_step p e s : enabled p (dctx s) e -> is_ok (run_event 10 e s) = true ->
  balloon_step 10 (p, s) (next p e (status_of (run_event 10 e s)), toy_run e s).
Proof. intros En Hok. unfold toy_run. destruct (run_event 10 e s) as [[st s']|] eqn:E; [|done]. by apply (balloon_step_event 10 p s e st s'). Qed.

Lemma toy_powered : rtc (balloon_step 10) (Unprepared, toy0) (Powered, toy2).
Proof.
  apply (rtc_l _ _ (Prepared, toy1)); [exact (toy_step Unprepared PrepareHardware toy0 I eq_refl)|].
  apply (rtc_l _ _ (Powered, toy2)); [|done]. exact (toy_step Prepared D0Entry toy1 I eq_refl).
Qed.
Lemma toy_full : rtc (balloon_step 10) (Unprepared, toy0) (Powered, toy4).
Proof.
  apply (rtc_r _ (Powered, toy3)); [apply (rtc_r _ (Powered, toy2)); [exact toy_powered|]|].
  - exact (toy_step Powered WorkerWakes toy2 (conj eq_refl eq_refl) ltac:(vm_compute; reflexivity)).
  - exact (toy_step Powered WorkerWakes toy3 ltac:(vm_compute; auto) ltac:(vm_compute; reflexivity)).
Qed.
Lemma toy_add : BalloonDeviceAdd toy_balloon = Ok (STATUS_SUCCESS, toy0).
Proof. vm_compute. reflexivity. Qed.

(** Removal with a full balloon gives everything back. *)
Lemma balloon_lifecycle_witness : exists st s', run_event 10 (D0ExitPreInterruptsDisabled true) toy4 = Ok (st, s') /\
  num_pages (dctx s') = 0 /\ PageListHead (dctx s') = [] /\ t_mdls (kern s') = ∅ /\ t_entries (kern s') = [].
Proof.
  destruct (balloon_lifecycle 10 0x9000 toy_start [] STATUS_SUCCESS toy0 Powered toy4 ltac:(done) toy_added toy_add eq_refl toy_full) as (_ & _ & Hn).
  destruct (Hn (D0ExitPreInterruptsDisabled true) I) as (st & s' & E & Hd). exists st, s'. split; [exact E|]. exact (Hd eq_refl).
Defined.

Lemma toy_plenty : plenty (Q := sys) (K := toy).
Proof.
  split_and!; [|by intros k K; pose proof (to_addr k K); unfold wp; cbn; lia|done]. intros n k Hn K. unfold wp. cbn. rewrite Z.div_mul by done. split; [pose proof (to_addr k K); lia|].
  intros l. rewrite lookup_insert_eq. intros [= <-]. unfold zlen. rewrite length_seqZ. lia.
Qed.


(** ** The host *)

Lemma toy_attentive : attentive_host (K := toy) toy_table id.
Proof.
  split.
  - intros p. toy_done.
  - intros w q t k K. unfold wp. cbn. by destruct (host_take q) as [[[pa n] q1]|].
  - intros k K. unfold wp. cbn. rewrite (to_late k K). split; [|by split_and!]. split; [done|]. intros Hr. repeat (apply elem_of_cons in Hr as [?|Hr]; [done|]). by apply not_elem_of_nil in Hr.
Qed.

Lemma toy_in_step : in_step (K := toy) toy_table [] toy2.
Proof.
  destruct (reachable_ok 10 0x9000 toy_start [] STATUS_SUCCESS toy0 Powered toy2 ltac:(done) toy_added toy_add eq_refl toy_powered) as (L & P & R & _).
  assert (L = []) as ->. { pose proof (pg_list _ _ _ P) as E. assert (PageListHead (dctx toy2) = []) as E0 by (vm_compute; reflexivity). rewrite E0 in E. by destruct L. }
  split; [done|done| |vm_compute; reflexivity]. split; try (vm_compute; reflexivity). intros [] Hw; [| |done]; exists sys0; (split; [vm_compute; reflexivity|exact sys0_idle]).
Qed.


(** The host is late once: the first buffer waits on the ring while the driver writes the second
    set of pages over the first in the table.  The host reads the new pages twice, and 188 pages
    that the driver counts are never told. *)
Definition late_start : balloon sys toy := toy2 <| kern := (kern toy2) <| t_late := 1%nat |> |>.
Definition late_end : balloon sys toy := toy_run (Happens DeviceRuns) (toy_run WorkerWakes (toy_run WorkerWakes late_start)).
Example late_host : num_pages (dctx late_end) = 700 /\ t_actual (kern late_end) = 700 /\ size (t_host (kern late_end)) = 512%nat /\
  length (balloon_pages (kern late_end) (PageListHead (dctx late_end))) = 700%nat.
Proof. vm_compute. auto. Qed.

(** ** Statistics *)

Lemma statistics_correct_witness : exists s', GatherKernelStats toy2 = Ok (STATUS_SUCCESS, s') /\
  mem_stats (dctx s') = statistics (mk_counts 1 2 3 4 5 6 7) 8 0x100000 (mk_cache 0x20000 0 0) /\
  Counters s' = halves <$> counts_list (mk_counts 1 2 3 4 5 6 7) /\ kern s' = kern toy2.
Proof.
  apply (statistics_correct toy2 (kern toy2) (kern toy2) (kern toy2) STATUS_SUCCESS STATUS_SUCCESS STATUS_SUCCESS 0x100000 8 (mk_cache 0x20000 0 0)
    (mk_counts 0 0 0 0 0 0 0) (mk_counts 1 2 3 4 5 6 7)); try done; [|lia..]. repeat constructor; cbn; lia.
Defined.
