(* ===== verification/VioInputClasses.v ===== *)
(** * virtio-input: mouse, joystick, tablet and consumer controls
      (vioinput/sys/HidMouse.c, HidJoystick.c, HidTablet.c, HidConsumer.c, the configuration
      of Hid.c)

    Each class takes from the bitmaps of the device the events it can report, describes its
    report in the descriptor and later translates events into the report.  The probes run in
    the monad [M] over [probing]: the outside, the report descriptor and the axis map under
    construction.  As in VioInput, the pool answers whether an allocation succeeds; freeing
    is not visible to the driver. *)

From Stdlib Require Import ZArith Lia.
From stdpp Require Import base list numbers option.
From S2P Require Import Prelude.
From S2P Require Import VioInput.
From S2P Require Import Effects.

Definition EV_SYN : Z := 0x00.
Definition EV_REL : Z := 0x02.
Definition EV_ABS : Z := 0x03.
Definition EV_MSC : Z := 0x04.
Definition BTN_MOUSE : Z := 0x110.
Definition BTN_JOYSTICK : Z := 0x120.
Definition BTN_GAMEPAD : Z := 0x130.
Definition BTN_GEAR_DOWN : Z := 0x150.
Definition BTN_GEAR_UP : Z := 0x151.
Definition REL_HWHEEL : Z := 0x06.
Definition REL_DIAL : Z := 0x07.
Definition REL_WHEEL : Z := 0x08.
Definition ABS_X : Z := 0x00.
Definition ABS_Y : Z := 0x01.
Definition MAXSHORT : Z := 0x7fff.

Definition HID_TAG_PHYSICAL_MINIMUM : Z := 0x34.
Definition HID_TAG_PHYSICAL_MAXIMUM : Z := 0x44.
Definition HID_TAG_FEATURE : Z := 0xb0.
Definition HID_COLLECTION_PHYSICAL : Z := 0x00.
Definition HID_COLLECTION_LOGICAL : Z := 0x02.
Definition HID_DATA_FLAG_RELATIVE : Z := 0x04.

(** Usages of the WDK's hidusage.h. *)
Definition HID_USAGE_PAGE_SIMULATION : Z := 0x02.
Definition HID_USAGE_PAGE_BUTTON : Z := 0x09.
Definition HID_USAGE_GENERIC_POINTER : Z := 0x01.
Definition HID_USAGE_GENERIC_MOUSE : Z := 0x02.
Definition HID_USAGE_GENERIC_JOYSTICK : Z := 0x04.
Definition HID_USAGE_GENERIC_X : Z := 0x30.
Definition HID_USAGE_GENERIC_Y : Z := 0x31.
Definition HID_USAGE_GENERIC_Z : Z := 0x32.
Definition HID_USAGE_GENERIC_RX : Z := 0x33.
Definition HID_USAGE_GENERIC_RY : Z := 0x34.
Definition HID_USAGE_GENERIC_RZ : Z := 0x35.
Definition HID_USAGE_GENERIC_SLIDER : Z := 0x36.
Definition HID_USAGE_GENERIC_WHEEL : Z := 0x38.
Definition HID_USAGE_GENERIC_VX : Z := 0x40.
Definition HID_USAGE_GENERIC_VY : Z := 0x41.
Definition HID_USAGE_GENERIC_RESOLUTION_MULTIPLIER : Z := 0x48.
Definition HID_USAGE_SIMULATION_RUDDER : Z := 0xBA.
Definition HID_USAGE_SIMULATION_THROTTLE : Z := 0xBB.
Definition HID_USAGE_SIMULATION_ACCELERATOR : Z := 0xC4.
Definition HID_USAGE_SIMULATION_BRAKE : Z := 0xC5.
Definition HID_USAGE_SIMULATION_STEERING : Z := 0xC8.
Definition HID_USAGE_CONSUMERCTRL : Z := 0x01.
Definition HID_USAGE_CONSUMER_AC_PAN : Z := 0x238.

(** ** Reports *)

(** The part that all classes share. *)
Record INPUT_CLASS_COMMON := mk_common {
  cReport : list Z; cbHidReportSize : Z; cReportID : Z; cDirty : bool }.
#[export] Instance eta_common : Eta INPUT_CLASS_COMMON := fun c =>
  mk_common (cReport c) (cbHidReportSize c) (cReportID c) (cDirty c).

(** The bytes [bs] at [off]. *)
Fixpoint put_bytes (report : list Z) (off : Z) (bs : list Z) : res (list Z) :=
  match bs with
  | [] => Ok report
  | b :: bs => r ← zset report off b; put_bytes r (off + 1) bs
  end.

(** [pReport[off] |= mask] or [&= ~mask]. *)
Definition put_bits (report : list Z) (off mask : Z) (on : bool) : res (list Z) :=
  b ← zget report off;
  zset report off (if on then Z.lor b mask else Z.land b (u8 (Z.lnot mask))).

(** A button is bit [uButton % 8] of the byte [uButton / 8] from [off]. *)
Definition put_button (report : list Z) (off uButton value : Z) : res (list Z) :=
  put_bits report (off + uButton / 8) (u8 (Z.shiftl 1 (uButton mod 8))) (truth value).

(** The 32-bit integers of a buffer of bytes, as through a [PULONG]. *)
Fixpoint ulongs (bytes : list Z) : list Z :=
  match bytes with
  | a :: b :: c :: d :: rest => (a + 256 * b + 65536 * c + 16777216 * d) :: ulongs rest
  | _ => []
  end.

Definition MAP_END : Z := 0xFFFFFFFF.

(** ** The configuration of the device (Hid.c) *)

(** [u.bitmap] has 128 bytes, of which the device filled the first [size]. *)
Record VIRTIO_INPUT_CFG_DATA := mk_cfg { cfg_size : Z; cfg_bitmap : list Z }.
#[export] Instance eta_cfg : Eta VIRTIO_INPUT_CFG_DATA := fun d => mk_cfg (cfg_size d) (cfg_bitmap d).

Record virtio_input_absinfo := mk_absinfo { abs_min : Z; abs_max : Z; abs_fuzz : Z; abs_flat : Z; abs_res : Z }.

(** Access to the configuration space, one byte at an offset. *)
Record config_env {E : Type} := mk_config_env {
  VirtIOWdfDeviceSet : E -> Z -> Z -> E;
  VirtIOWdfDeviceGet : E -> Z -> Z * E }.
Arguments config_env : clear implicits.

Definition VIRTIO_INPUT_CFG_EV_BITS : Z := 0x11.
Definition VIRTIO_INPUT_CFG_ABS_INFO : Z := 0x12.
Definition offsetof_select : Z := 0.
Definition offsetof_subsel : Z := 1.
Definition offsetof_size : Z := 2.
Definition offsetof_bitmap : Z := 8.
Definition sizeof_bitmap : Z := 128.
Definition sizeof_absinfo : Z := 20.

Definition InputCfgDataHasBit (d : VIRTIO_INPUT_CFG_DATA) (bit : Z) : res bool :=
  if cfg_size d <=? bit / 8 then Ok false
  else b ← zget (cfg_bitmap d) (bit / 8); Ok (truth (Z.land b (Z.shiftl 1 (bit mod 8)))).

Definition InputCfgDataEmpty (d : VIRTIO_INPUT_CFG_DATA) : bool :=
  forallb (fun b => b =? 0) (take (Z.to_nat (cfg_size d)) (cfg_bitmap d)).

(** ** Probing *)

Record probing {E : Type} := mk_probing { penv : E; pDesc : DYNAMIC_ARRAY; pMap : DYNAMIC_ARRAY }.
Arguments probing : clear implicits.
#[export] Instance eta_probing E : Eta (probing E) := fun p => mk_probing _ (penv p) (pDesc p) (pMap p).

Section probing.
Context {E : Type} (I : input_env E) (C : config_env E).
Abbreviation P := (M (probing E)).

Definition config_set (off v : Z) : P unit := modify (fun p => p <| penv := VirtIOWdfDeviceSet C (penv p) off v |>).
Definition config_get (off : Z) : P Z :=
  fun p => let '(v, e) := VirtIOWdfDeviceGet C (penv p) off in Ok (u8 v, p <| penv := e |>).
Definition VIOInputAlloc (n : Z) : P bool :=
  fun p => let '(ok, e) := ExAllocatePool I (penv p) n in Ok (ok, p <| penv := e |>).

Definition SelectInputConfig (cfgSelect cfgSubSel : Z) : P Z :=
  config_set offsetof_select cfgSelect ;;
  config_set offsetof_subsel cfgSubSel ;;
  config_get offsetof_size.

(** [n] bytes of the configuration from index [i], each stored into [buf]. *)
Fixpoint read_config (n : nat) (i : Z) (buf : list Z) : P (list Z) :=
  match n with
  | O => mret buf
  | S n =>
      v ← config_get (offsetof_bitmap + i);
      buf ← pure (zset buf i v);
      read_config n (i + 1) buf
  end.

(** The bits of the event type [type]; [stack] is what the buffer held before. *)
Definition read_event_bits (stack : list Z) (type : Z) : P VIRTIO_INPUT_CFG_DATA :=
  size ← SelectInputConfig VIRTIO_INPUT_CFG_EV_BITS type;
  bitmap ← read_config (Z.to_nat size) 0 stack;
  mret (mk_cfg size bitmap).

Definition absinfo_of (bytes : list Z) : virtio_input_absinfo :=
  match ulongs bytes with
  | [a; b; c; d; e] => mk_absinfo a b c d e
  | _ => mk_absinfo 0 0 0 0 0
  end.

Definition GetAbsAxisInfo (uAbsAxis : Z) : P virtio_input_absinfo :=
  let zero := replicate (Z.to_nat sizeof_absinfo) 0 in
  if uAbsAxis <=? 255 then
    uSize ← SelectInputConfig VIRTIO_INPUT_CFG_ABS_INFO uAbsAxis;
    bytes ← read_config (Z.to_nat (Z.min uSize sizeof_absinfo)) 0 zero;
    mret (absinfo_of bytes)
  else mret (absinfo_of zero).

(** Calls of [HIDAppend2] and [HIDAppend1] on the report descriptor. *)
Definition describe (items : list (Z * Z)) : P unit :=
  fun p => '(a, e) ← append_items I (penv p) (pDesc p) items; Ok (tt, p <| pDesc := a |> <| penv := e |>).
Definition describe1 (tag : Z) : P unit :=
  fun p => '(a, e) ← HIDAppend1 I (penv p) (pDesc p) tag; Ok (tt, p <| pDesc := a |> <| penv := e |>).

(** [DynamicArrayReserve] and [DynamicArrayAppend] on the axis map, results ignored. *)
Definition map_reserve (n : Z) : P unit :=
  fun p => '(_, a, e) ← DynamicArrayReserve I (penv p) (pMap p) n; Ok (tt, p <| pMap := a |> <| penv := e |>).
Definition map_bytes (bs : list Z) : P unit :=
  fun p => '(_, a, e) ← DynamicArrayAppend I (penv p) (pMap p) bs; Ok (tt, p <| pMap := a |> <| penv := e |>).
Definition HIDMouseAxisMapAppend (uCode uAxisIndex : Z) : P unit :=
  map_bytes (le_bytes 4 uCode) ;; map_bytes (le_bytes 4 uAxisIndex).
Definition HIDJoystickAxisMapAppend (uCode uAxisIndex : Z) : P unit :=
  map_bytes (le_bytes 4 uCode) ;; map_bytes (le_bytes 4 uAxisIndex).

(** [DynamicArrayGet(&AxisMap, NULL)], read as an array of ULONG.  The local array, whose
    pointer is NULL now, is not used again but for its destruction. *)
Definition map_get : P (option (list Z)) :=
  fun p => Ok ((fun x => ulongs x.1) <$> (DynamicArrayGet (pMap p)).1,
               p <| pMap := match Ptr (pMap p) with PtrFailed => pMap p | _ => mk_array PtrNull 0 0 end |>).

(** [DYNAMIC_ARRAY AxisMap = {NULL}], and its end. *)
Definition map_new : P unit := modify (fun p => p <| pMap := mk_array PtrNull 0 0 |>).
Definition map_destroy : P unit := modify (fun p => p <| pMap := DynamicArrayDestroy (pMap p) |>).

Definition register (n cb : Z) : P (Z * list Z) :=
  fun p => let '(status, report, _, e) := RegisterClass I (penv p) n cb in Ok ((status, report), p <| penv := e |>).

(** The loops over a bitmap: [for (i = 0; i < size; i++) while (DecodeNextBit(&bitmap[i], &uValue))].
    A code that is not claimed is put back; [f] handles the others. *)
Fixpoint scan_bits {A} (claims : Z -> bool) (f : Z -> A -> P A) (bits : list Z) (i : Z) (non : Z) (acc : A) : P (Z * A) :=
  match bits with
  | [] => mret (non, acc)
  | uValue :: bits =>
      let code := uValue + 8 * i in
      if claims code then acc ← f code acc; scan_bits claims f bits i non acc
      else scan_bits claims f bits i (Z.lor non (u8 (Z.shiftl 1 uValue))) acc
  end.

Fixpoint scan_bytes {A} (claims : Z -> bool) (f : Z -> A -> P A) (bitmap : list Z) (i : Z) (acc : A) : P (list Z * A) :=
  match bitmap with
  | [] => mret ([], acc)
  | b :: bitmap =>
      '(non, acc) ← scan_bits claims f (decode_bits b) i 0 acc;
      '(rest, acc) ← scan_bytes claims f bitmap (i + 1) acc;
      mret (non :: rest, acc)
  end.

(** [n] bytes of the bitmap of [d]. *)
Definition scan {A} (claims : Z -> bool) (f : Z -> A -> P A) (n : Z) (d : VIRTIO_INPUT_CFG_DATA) (acc : A)
    : P (VIRTIO_INPUT_CFG_DATA * A) :=
  if n >? zlen (cfg_bitmap d) then throw OutOfBounds else
  '(bitmap, acc) ← scan_bytes claims f (take (Z.to_nat n) (cfg_bitmap d)) 0 acc;
  mret (d <| cfg_bitmap := bitmap ++ drop (Z.to_nat n) (cfg_bitmap d) |>, acc).
End probing.

(** A button page of [n] buttons, one bit each, padded to whole bytes. *)
Definition button_items (n cbButtonBytes : Z) : list (Z * Z) :=
  [(HID_TAG_USAGE_PAGE, HID_USAGE_PAGE_BUTTON); (HID_TAG_USAGE_MINIMUM, 0x01); (HID_TAG_USAGE_MAXIMUM, s32 n);
   (HID_TAG_LOGICAL_MINIMUM, 0x00); (HID_TAG_LOGICAL_MAXIMUM, 0x01); (HID_TAG_REPORT_COUNT, s32 n);
   (HID_TAG_REPORT_SIZE, 0x01); (HID_TAG_INPUT, HID_DATA_FLAG_VARIABLE)] ++
  (if truth (n mod 8) then
     [(HID_TAG_REPORT_COUNT, 0x01); (HID_TAG_REPORT_SIZE, s32 (u32 (u32 (cbButtonBytes * 8) - n)));
      (HID_TAG_INPUT, Z.lor HID_DATA_FLAG_VARIABLE HID_DATA_FLAG_CONSTANT)]
   else []).

(** ** The mouse (HidMouse.c) *)

Definition CLASS_MOUSE_HAS_V_WHEEL : Z := 0x01.
Definition CLASS_MOUSE_HAS_H_WHEEL : Z := 0x02.
Definition CLASS_MOUSE_SUPPORTS_REL_WHEEL : Z := 0x04.
Definition CLASS_MOUSE_SUPPORTS_REL_HWHEEL : Z := 0x08.
Definition CLASS_MOUSE_SUPPORTS_REL_DIAL : Z := 0x10.

Record INPUT_CLASS_MOUSE := mk_mouse {
  mCommon : INPUT_CLASS_COMMON; uNumOfButtons : Z; cbAxisOffset : Z; cbAxisLen : Z;
  pAxisMap : option (list Z); uFlags : Z }.
#[export] Instance eta_mouse : Eta INPUT_CLASS_MOUSE := fun m =>
  mk_mouse (mCommon m) (uNumOfButtons m) (cbAxisOffset m) (cbAxisLen m) (pAxisMap m) (uFlags m).

Definition has_flag (flags f : Z) : bool := truth (Z.land flags f).

Definition TrimRelative (val : Z) : Z :=
  if val <? -127 then u8 (-127) else if val >? 127 then 127 else u8 val.

(** [for (pMap = pAxisMap; pMap[0] != -1; pMap += 2)]: the offset of the first entry of [key]. *)
Fixpoint axis_find (map : list Z) (key : Z) : res (option Z) :=
  match map with
  | [] => Fault OutOfBounds
  | c :: map =>
      if c =? MAP_END then Ok None
      else match map with
           | [] => Fault OutOfBounds
           | off :: map => if c =? key then Ok (Some off) else axis_find map key
           end
  end.

(** The same loop, setting the bytes of all relative axes to 0. *)
Fixpoint axis_reset (map : list Z) (base : Z) (report : list Z) : res (list Z) :=
  match map with
  | [] => Fault OutOfBounds
  | c :: map =>
      if c =? MAP_END then Ok report
      else match map with
           | [] => Fault OutOfBounds
           | off :: map =>
               r ← (if Z.shiftr c 16 =? EV_REL then zset report (base + off) 0 else Ok report);
               axis_reset map base r
           end
  end.

Definition axis_key (type code : Z) : Z := Z.lor (Z.shiftl type 16) code.

Definition mouse_put (m : INPUT_CLASS_MOUSE) (report : list Z) : INPUT_CLASS_MOUSE :=
  m <| mCommon := (mCommon m) <| cReport := report |> <| cDirty := true |> |>.

(** The case [EV_ABS], [EV_REL]. *)
Definition mouse_axis (m : INPUT_CLASS_MOUSE) (ev : VIRTIO_INPUT_EVENT) : res INPUT_CLASS_MOUSE :=
  match pAxisMap m with
  | None => Ok m
  | Some map =>
      o ← axis_find map (axis_key (ev_type ev) (ev_code ev));
      match o with
      | None => Ok m
      | Some off =>
          let at_ := cbAxisOffset m + off in
          r ← (if ev_type ev =? EV_ABS then put_bytes (cReport (mCommon m)) at_ (le_bytes 2 (ev_value ev))
               else zset (cReport (mCommon m)) at_ (TrimRelative (s32 (ev_value ev))));
          Ok (mouse_put m r)
      end
  end.

(** The case [EV_KEY]. *)
Definition mouse_key (m : INPUT_CLASS_MOUSE) (ev : VIRTIO_INPUT_EVENT) : res INPUT_CLASS_MOUSE :=
  let code := ev_code ev in
  if (code =? BTN_GEAR_DOWN) || (code =? BTN_GEAR_UP) then
    if truth (ev_value ev) && has_flag (uFlags m) CLASS_MOUSE_HAS_V_WHEEL then
      let delta := if code =? BTN_GEAR_DOWN then -1 else 1 in
      let at_ := cbAxisOffset m + cbAxisLen m in
      b ← zget (cReport (mCommon m)) at_;
      r ← zset (cReport (mCommon m)) at_ (u8 (b + delta));
      Ok (mouse_put m r)
    else Ok m
  else if (code >=? BTN_MOUSE) && (code <? BTN_JOYSTICK) then
    let uButton := code - BTN_MOUSE in
    if uButton <? uNumOfButtons m then
      r ← put_button (cReport (mCommon m)) HID_REPORT_DATA_OFFSET uButton (ev_value ev);
      Ok (mouse_put m r)
    else Ok m
  else Ok m.

(** The case [EV_SYN]. *)
Definition mouse_syn (m : INPUT_CLASS_MOUSE) : res INPUT_CLASS_MOUSE :=
  match pAxisMap m with
  | None => Fault NullPointer
  | Some map =>
      r ← axis_reset map (cbAxisOffset m) (cReport (mCommon m));
      r ← (if Z.land (uFlags m) (Z.lor CLASS_MOUSE_HAS_V_WHEEL CLASS_MOUSE_SUPPORTS_REL_WHEEL) =? CLASS_MOUSE_HAS_V_WHEEL
           then zset r (cbAxisOffset m + cbAxisLen m) 0 else Ok r);
      Ok (m <| mCommon := (mCommon m) <| cReport := r |> |>)
  end.

Definition HIDMouseEventToReport (m : INPUT_CLASS_MOUSE) (ev : VIRTIO_INPUT_EVENT) : res INPUT_CLASS_MOUSE :=
  r ← zset (cReport (mCommon m)) HID_REPORT_ID_OFFSET (cReportID (mCommon m));
  let m := m <| mCommon := (mCommon m) <| cReport := r |> |> in
  if (ev_type ev =? EV_ABS) || (ev_type ev =? EV_REL) then mouse_axis m ev
  else if ev_type ev =? EV_KEY then mouse_key m ev
  else if ev_type ev =? EV_SYN then mouse_syn m
  else Ok m.

Definition HIDMouseCleanup (m : INPUT_CLASS_MOUSE) : INPUT_CLASS_MOUSE := m <| pAxisMap := None |>.

(** What the mouse takes from the key bits. *)
Definition mouse_button (c : Z) : bool := (c >=? BTN_MOUSE) && (c <? BTN_JOYSTICK).
Definition mouse_claims (c : Z) : bool := mouse_button c || (c =? BTN_GEAR_DOWN) || (c =? BTN_GEAR_UP).

(** The usage of a relative axis, 0 for none; wheels are flags. *)
Definition rel_usage (bHasRelXY : bool) (uRelCode : Z) : Z :=
  match uRelCode with
  | 0 => if bHasRelXY then HID_USAGE_GENERIC_X else 0
  | 1 => if bHasRelXY then HID_USAGE_GENERIC_Y else 0
  | 2 => HID_USAGE_GENERIC_Z
  | 3 => HID_USAGE_GENERIC_RX
  | 4 => HID_USAGE_GENERIC_RY
  | 5 => HID_USAGE_GENERIC_RZ
  | 6 | 7 | 8 => 0
  | _ => HID_USAGE_GENERIC_SLIDER
  end.
Definition rel_flags (uRelCode : Z) : Z :=
  if uRelCode =? REL_WHEEL then Z.lor CLASS_MOUSE_SUPPORTS_REL_WHEEL CLASS_MOUSE_HAS_V_WHEEL
  else if uRelCode =? REL_DIAL then Z.lor CLASS_MOUSE_SUPPORTS_REL_DIAL CLASS_MOUSE_HAS_H_WHEEL
  else if uRelCode =? REL_HWHEEL then Z.lor CLASS_MOUSE_SUPPORTS_REL_HWHEEL CLASS_MOUSE_HAS_H_WHEEL
  else 0.

Definition mouse_abs_usage (uAbsCode : Z) : Z :=
  match uAbsCode with
  | 0 => HID_USAGE_GENERIC_X
  | 1 => HID_USAGE_GENERIC_Y
  | 2 => HID_USAGE_GENERIC_Z
  | 3 => HID_USAGE_GENERIC_RX
  | 4 => HID_USAGE_GENERIC_RY
  | 5 => HID_USAGE_GENERIC_RZ
  | 8 => HID_USAGE_GENERIC_WHEEL
  | _ => 0
  end.

Definition mouse_head_items (id : Z) : list (Z * Z) :=
  [(HID_TAG_USAGE_PAGE, HID_USAGE_PAGE_GENERIC); (HID_TAG_USAGE, HID_USAGE_GENERIC_MOUSE);
   (HID_TAG_COLLECTION, HID_COLLECTION_APPLICATION); (HID_TAG_USAGE, HID_USAGE_GENERIC_POINTER);
   (HID_TAG_COLLECTION, HID_COLLECTION_PHYSICAL); (HID_TAG_REPORT_ID, id)].

Definition mouse_rel_items (n : Z) : list (Z * Z) :=
  [(HID_TAG_LOGICAL_MINIMUM, -127); (HID_TAG_LOGICAL_MAXIMUM, 127); (HID_TAG_REPORT_SIZE, 0x08);
   (HID_TAG_REPORT_COUNT, s32 n); (HID_TAG_INPUT, Z.lor HID_DATA_FLAG_VARIABLE HID_DATA_FLAG_RELATIVE)].

Definition mouse_abs_items (usage : Z) (a : virtio_input_absinfo) : list (Z * Z) :=
  [(HID_TAG_USAGE, usage); (HID_TAG_LOGICAL_MINIMUM, s32 (abs_min a)); (HID_TAG_LOGICAL_MAXIMUM, s32 (abs_max a))] ++
  (if negb (abs_min a =? 0) || negb (abs_max a =? MAXSHORT)
   then [(HID_TAG_PHYSICAL_MINIMUM, 0); (HID_TAG_PHYSICAL_MAXIMUM, 0x7fff)] else []) ++
  [(HID_TAG_REPORT_SIZE, 0x10); (HID_TAG_REPORT_COUNT, 0x01); (HID_TAG_INPUT, HID_DATA_FLAG_VARIABLE)].

Definition mouse_wheel_items (uUsagePage uWheelType : Z) : list (Z * Z) :=
  [(HID_TAG_COLLECTION, HID_COLLECTION_LOGICAL); (HID_TAG_USAGE, HID_USAGE_GENERIC_RESOLUTION_MULTIPLIER);
   (HID_TAG_LOGICAL_MINIMUM, 0x00); (HID_TAG_LOGICAL_MAXIMUM, 0x01); (HID_TAG_PHYSICAL_MINIMUM, 0x01);
   (HID_TAG_PHYSICAL_MAXIMUM, 0x04); (HID_TAG_REPORT_SIZE, 0x02); (HID_TAG_REPORT_COUNT, 0x01);
   (HID_TAG_FEATURE, HID_DATA_FLAG_VARIABLE)] ++
  (if negb (uUsagePage =? 0) then [(HID_TAG_USAGE_PAGE, uUsagePage)] else []) ++
  [(HID_TAG_USAGE, uWheelType); (HID_TAG_LOGICAL_MINIMUM, -127); (HID_TAG_LOGICAL_MAXIMUM, 127);
   (HID_TAG_PHYSICAL_MINIMUM, 0x00); (HID_TAG_PHYSICAL_MAXIMUM, 0x00); (HID_TAG_REPORT_SIZE, 0x08);
   (HID_TAG_REPORT_COUNT, 0x01); (HID_TAG_INPUT, Z.lor HID_DATA_FLAG_VARIABLE HID_DATA_FLAG_RELATIVE)].

Definition mouse_feature_items (bits bytes : Z) : list (Z * Z) :=
  [(HID_TAG_PHYSICAL_MINIMUM, 0x00); (HID_TAG_PHYSICAL_MAXIMUM, 0x00);
   (HID_TAG_REPORT_SIZE, s32 (u32 (u32 (bytes * 8) - bits))); (HID_TAG_REPORT_COUNT, 0x01);
   (HID_TAG_FEATURE, Z.lor HID_DATA_FLAG_VARIABLE HID_DATA_FLAG_CONSTANT)].

Definition sizeof_INPUT_CLASS_MOUSE : Z := 104.
Definition AXIS_MAP_INITIAL_LENGTH : Z := 4.

Section mouse.
Context {E : Type} (I : input_env E) (C : config_env E).
Abbreviation P := (M (probing E)).

(** The body of the loop over the buttons. *)
Definition mouse_take_button (c : Z) (m : INPUT_CLASS_MOUSE) : P INPUT_CLASS_MOUSE :=
  mret (if mouse_button c then m <| uNumOfButtons := Z.max (uNumOfButtons m) (c - BTN_MOUSE + 1) |>
        else m <| uFlags := Z.lor (uFlags m) CLASS_MOUSE_HAS_V_WHEEL |>).

(** The body of the loop over the relative axes; [n] counts them. *)
Definition mouse_take_rel (bHasRelXY : bool) (c : Z) (acc : INPUT_CLASS_MOUSE * Z) : P (INPUT_CLASS_MOUSE * Z) :=
  let '(m, n) := acc in
  let m := m <| uFlags := Z.lor (uFlags m) (rel_flags c) |> in
  let uAxisCode := rel_usage bHasRelXY c in
  if negb (uAxisCode =? 0) then
    describe I [(HID_TAG_USAGE, uAxisCode)] ;;
    HIDMouseAxisMapAppend I (axis_key EV_REL c) (cbAxisLen m) ;;
    mret (m <| cbAxisLen := cbAxisLen m + 1 |>, n + 1)
  else mret (m, n).

(** The body of the loop over the absolute axes. *)
Definition mouse_take_abs (c : Z) (acc : INPUT_CLASS_MOUSE * Z) : P (INPUT_CLASS_MOUSE * Z) :=
  let '(m, n) := acc in
  let uAxisCode := mouse_abs_usage c in
  if negb (uAxisCode =? 0) then
    a ← GetAbsAxisInfo C c;
    describe I (mouse_abs_items uAxisCode a) ;;
    HIDMouseAxisMapAppend I (axis_key EV_ABS c) (cbAxisLen m) ;;
    mret (m <| cbAxisLen := cbAxisLen m + 2 |>, n + 1)
  else mret (m, n).

Definition HIDMouseDescribeWheel (uUsagePage uWheelType : Z) : P unit :=
  describe I (mouse_wheel_items uUsagePage uWheelType) ;; describe1 I HID_TAG_END_COLLECTION.

(** The mappings of the wheels that are axes, and the end of the map. *)
Definition mouse_map_wheels (m : INPUT_CLASS_MOUSE) : P unit :=
  (if has_flag (uFlags m) CLASS_MOUSE_SUPPORTS_REL_WHEEL
   then HIDMouseAxisMapAppend I (axis_key EV_REL REL_WHEEL) (cbAxisLen m) else mret tt) ;;
  (let cbOffset := if has_flag (uFlags m) CLASS_MOUSE_HAS_V_WHEEL then cbAxisLen m + 1 else cbAxisLen m in
   (if has_flag (uFlags m) CLASS_MOUSE_SUPPORTS_REL_HWHEEL
    then HIDMouseAxisMapAppend I (axis_key EV_REL REL_HWHEEL) cbOffset else mret tt) ;;
   (if has_flag (uFlags m) CLASS_MOUSE_SUPPORTS_REL_DIAL
    then HIDMouseAxisMapAppend I (axis_key EV_REL REL_DIAL) cbOffset else mret tt)) ;;
  HIDMouseAxisMapAppend I MAP_END MAP_END.

(** The wheels and the padding of their feature report. *)
Definition mouse_describe_wheels (m : INPUT_CLASS_MOUSE) : P unit :=
  let v := has_flag (uFlags m) CLASS_MOUSE_HAS_V_WHEEL in
  let h := has_flag (uFlags m) CLASS_MOUSE_HAS_H_WHEEL in
  (if v then HIDMouseDescribeWheel 0 HID_USAGE_GENERIC_WHEEL else mret tt) ;;
  (if h then HIDMouseDescribeWheel HID_USAGE_PAGE_CONSUMER HID_USAGE_CONSUMER_AC_PAN else mret tt) ;;
  (let bits := (if v then 2 else 0) + (if h then 2 else 0) in
   if truth (bits mod 8) then describe I (mouse_feature_items bits ((bits + 7) / 8)) else mret tt).

(** From the axis map to the registration: the status and the class. *)
Definition mouse_finish (n : Z) (m : INPUT_CLASS_MOUSE) : P (Z * option INPUT_CLASS_MOUSE) :=
  mouse_map_wheels m ;;
  map ← map_get;
  match map with
  | None => mret (STATUS_INSUFFICIENT_RESOURCES, None)
  | Some map =>
      mouse_describe_wheels m ;;
      describe1 I HID_TAG_END_COLLECTION ;;
      describe1 I HID_TAG_END_COLLECTION ;;
      let cb := cbAxisOffset m + cbAxisLen m +
                (if has_flag (uFlags m) CLASS_MOUSE_HAS_V_WHEEL then 1 else 0) +
                (if has_flag (uFlags m) CLASS_MOUSE_HAS_H_WHEEL then 1 else 0) in
      '(status, report) ← register I n cb;
      if NT_SUCCESS status
      then mret (status, Some (m <| pAxisMap := Some map |>
             <| mCommon := (mCommon m) <| cReport := report |> <| cbHidReportSize := cb |> |>))
      else mret (status, None)
  end.

(** [pHidDesc->Size = cbInitialHidSize] *)
Definition desc_truncate (size : Z) : P unit :=
  modify (fun p => p <| pDesc := mk_array
    match Ptr (pDesc p) with PtrBuf bytes => PtrBuf (take (Z.to_nat size) bytes) | q => q end size (MaxSize (pDesc p)) |>).

(** Buttons and axes: the class, the numbers of relative and of absolute axes, and the bitmaps
    left to the other classes (relative axes, absolute axes, keys). *)
Definition mouse_describe (id : Z) (pRelAxes pAbsAxes pButtons : VIRTIO_INPUT_CFG_DATA)
    : P (INPUT_CLASS_MOUSE * Z * Z * (VIRTIO_INPUT_CFG_DATA * VIRTIO_INPUT_CFG_DATA * VIRTIO_INPUT_CFG_DATA)) :=
  describe I (mouse_head_items id) ;;
  '(pButtons, m) ← scan mouse_claims mouse_take_button (cfg_size pButtons) pButtons (mk_mouse (mk_common [] 0 id false) 0 0 0 None 0);
  let cbButtonBytes := (uNumOfButtons m + 7) / 8 in
  let m := m <| cbAxisOffset := HID_REPORT_DATA_OFFSET + cbButtonBytes |> in
  (if uNumOfButtons m >? 0 then describe I (button_items (uNumOfButtons m) cbButtonBytes) else mret tt) ;;
  describe I [(HID_TAG_USAGE_PAGE, HID_USAGE_PAGE_GENERIC)] ;;
  map_reserve I (AXIS_MAP_INITIAL_LENGTH * 2 * 4) ;;
  rx ← pure (InputCfgDataHasBit pRelAxes 0);
  ry ← pure (InputCfgDataHasBit pRelAxes 1);
  let bHasRelXY := rx && ry in
  ax ← pure (InputCfgDataHasBit pAbsAxes ABS_X);
  ay ← pure (InputCfgDataHasBit pAbsAxes ABS_Y);
  let bHasAbsXY := (uNumOfButtons m >? 0) && ax && ay in
  '(pRelAxes, (m, uNumOfRelAxes)) ←
    (if bHasRelXY || bHasAbsXY then scan (fun _ => true) (mouse_take_rel bHasRelXY) (cfg_size pRelAxes) pRelAxes (m, 0)
     else mret (pRelAxes, (m, 0)));
  (if uNumOfRelAxes >? 0 then describe I (mouse_rel_items uNumOfRelAxes) else mret tt) ;;
  '(pAbsAxes, (m, uNumOfAbsAxes)) ←
    (if negb bHasRelXY && bHasAbsXY then scan (fun _ => true) mouse_take_abs (cfg_size pAbsAxes) pAbsAxes (m, 0)
     else mret (pAbsAxes, (m, 0)));
  mret (m, uNumOfRelAxes, uNumOfAbsAxes, (pRelAxes, pAbsAxes, pButtons)).

(** The status, the class, and the bitmaps left to the other classes.  [n] classes are
    registered already. *)
Definition HIDMouseProbe (n : Z) (pRelAxes pAbsAxes pButtons : VIRTIO_INPUT_CFG_DATA)
    : P (Z * option INPUT_CLASS_MOUSE * (VIRTIO_INPUT_CFG_DATA * VIRTIO_INPUT_CFG_DATA * VIRTIO_INPUT_CFG_DATA)) :=
  map_new ;;
  cbInitialHidSize ← gets (fun p => Size (pDesc p));
  ok ← VIOInputAlloc I sizeof_INPUT_CLASS_MOUSE;
  if negb ok then mret (STATUS_INSUFFICIENT_RESOURCES, None, (pRelAxes, pAbsAxes, pButtons)) else
  '(m, uNumOfRelAxes, uNumOfAbsAxes, rest) ← mouse_describe (u8 (n + 1)) pRelAxes pAbsAxes pButtons;
  if (uNumOfRelAxes =? 0) && (uNumOfAbsAxes =? 0) then
    desc_truncate cbInitialHidSize ;;
    map_destroy ;;
    mret (STATUS_SUCCESS, None, rest)
  else
    '(status, r) ← mouse_finish n m;
    map_destroy ;;
    mret (status, r, rest).
End mouse.

(** ** The joystick (HidJoystick.c) *)

Record INPUT_CLASS_JOYSTICK := mk_joystick {
  jCommon : INPUT_CLASS_COMMON; jNumOfButtons : Z; jAxisLen : Z; jAxisMap : option (list Z) }.
#[export] Instance eta_joystick : Eta INPUT_CLASS_JOYSTICK := fun j =>
  mk_joystick (jCommon j) (jNumOfButtons j) (jAxisLen j) (jAxisMap j).

Definition joystick_put (j : INPUT_CLASS_JOYSTICK) (report : list Z) : INPUT_CLASS_JOYSTICK :=
  j <| jCommon := (jCommon j) <| cReport := report |> <| cDirty := true |> |>.

(** The loop over the axis map: every entry of [key] is written. *)
Fixpoint axis_store (map : list Z) (key value : Z) (j : INPUT_CLASS_JOYSTICK) : res INPUT_CLASS_JOYSTICK :=
  match map with
  | [] => Fault OutOfBounds
  | c :: map =>
      if c =? MAP_END then Ok j
      else match map with
           | [] => Fault OutOfBounds
           | off :: map =>
               if c =? key then
                 r ← put_bytes (cReport (jCommon j)) (HID_REPORT_DATA_OFFSET + off) (le_bytes 4 value);
                 axis_store map key value (joystick_put j r)
               else axis_store map key value j
           end
  end.

Definition HIDJoystickEventToReport (j : INPUT_CLASS_JOYSTICK) (ev : VIRTIO_INPUT_EVENT) : res INPUT_CLASS_JOYSTICK :=
  r ← zset (cReport (jCommon j)) HID_REPORT_ID_OFFSET (cReportID (jCommon j));
  let j := j <| jCommon := (jCommon j) <| cReport := r |> |> in
  if ev_type ev =? EV_ABS then
    match jAxisMap j with
    | None => Ok j
    | Some map => axis_store map (axis_key (ev_type ev) (ev_code ev)) (ev_value ev) j
    end
  else if ev_type ev =? EV_KEY then
    if (ev_code ev >=? BTN_JOYSTICK) && (ev_code ev <? BTN_GAMEPAD) then
      let uButton := ev_code ev - BTN_JOYSTICK in
      if uButton <? jNumOfButtons j then
        r ← put_button (cReport (jCommon j)) (HID_REPORT_DATA_OFFSET + jAxisLen j) uButton (ev_value ev);
        Ok (joystick_put j r)
      else Ok j
    else Ok j
  else Ok j.

Definition HIDJoystickCleanup (j : INPUT_CLASS_JOYSTICK) : INPUT_CLASS_JOYSTICK := j <| jAxisMap := None |>.

Definition joystick_button (c : Z) : bool := (c >=? BTN_JOYSTICK) && (c <? BTN_GAMEPAD).

(** The usage of an absolute axis, 0 for none, and whether it is on the simulation page. *)
Definition joystick_usage (uAbsCode : Z) : Z * bool :=
  match uAbsCode with
  | 0x00 => (HID_USAGE_GENERIC_X, false)
  | 0x01 => (HID_USAGE_GENERIC_Y, false)
  | 0x02 => (HID_USAGE_GENERIC_Z, false)
  | 0x03 => (HID_USAGE_GENERIC_RX, false)
  | 0x04 => (HID_USAGE_GENERIC_RY, false)
  | 0x05 => (HID_USAGE_GENERIC_RZ, false)
  | 0x1a => (HID_USAGE_GENERIC_VX, false)
  | 0x1b => (HID_USAGE_GENERIC_VY, false)
  | 0x28 => (HID_USAGE_GENERIC_SLIDER, false)
  | 0x06 => (HID_USAGE_SIMULATION_THROTTLE, true)
  | 0x07 => (HID_USAGE_SIMULATION_RUDDER, true)
  | 0x0a => (HID_USAGE_SIMULATION_BRAKE, true)
  | 0x08 => (HID_USAGE_SIMULATION_STEERING, true)
  | 0x09 => (HID_USAGE_SIMULATION_ACCELERATOR, true)
  | _ => (0, false)
  end.
Definition joystick_axis (c : Z) : bool := negb ((joystick_usage c).1 =? 0).

Definition joystick_head_items (id : Z) : list (Z * Z) :=
  [(HID_TAG_USAGE_PAGE, HID_USAGE_PAGE_GENERIC); (HID_TAG_USAGE, HID_USAGE_GENERIC_JOYSTICK);
   (HID_TAG_COLLECTION, HID_COLLECTION_APPLICATION); (HID_TAG_REPORT_ID, id);
   (HID_TAG_USAGE_PAGE, HID_USAGE_PAGE_GENERIC)].

Definition joystick_axis_items (usage : Z * bool) (a : virtio_input_absinfo) : list (Z * Z) :=
  [(HID_TAG_USAGE_PAGE, if usage.2 then HID_USAGE_PAGE_SIMULATION else HID_USAGE_PAGE_GENERIC);
   (HID_TAG_LOGICAL_MINIMUM, s32 (abs_min a)); (HID_TAG_LOGICAL_MAXIMUM, s32 (abs_max a));
   (HID_TAG_REPORT_SIZE, 0x20); (HID_TAG_REPORT_COUNT, 0x01); (HID_TAG_USAGE, usage.1);
   (HID_TAG_INPUT, HID_DATA_FLAG_VARIABLE)].

Definition sizeof_INPUT_CLASS_JOYSTICK : Z := 88.
Definition JOYSTICK_MAP_INITIAL_LENGTH : Z := 6.

Section joystick.
Context {E : Type} (I : input_env E) (C : config_env E).
Abbreviation P := (M (probing E)).

Definition joystick_take_button (c : Z) (n : Z) : P Z := mret (Z.max n (c - BTN_JOYSTICK + 1)).

Definition joystick_take_axis (c : Z) (acc : INPUT_CLASS_JOYSTICK * Z) : P (INPUT_CLASS_JOYSTICK * Z) :=
  let '(j, n) := acc in
  a ← GetAbsAxisInfo C c;
  describe I (joystick_axis_items (joystick_usage c) a) ;;
  HIDJoystickAxisMapAppend I (axis_key EV_ABS c) (jAxisLen j) ;;
  mret (j <| jAxisLen := jAxisLen j + 4 |>, n + 1).

(** The axes: the class, their number, and the axes left. *)
Definition joystick_describe (id uNumOfButtons : Z) (pAxes : VIRTIO_INPUT_CFG_DATA)
    : P (VIRTIO_INPUT_CFG_DATA * (INPUT_CLASS_JOYSTICK * Z)) :=
  describe I (joystick_head_items id) ;;
  map_reserve I (JOYSTICK_MAP_INITIAL_LENGTH * 2 * 4) ;;
  r ← scan joystick_axis joystick_take_axis (cfg_size pAxes) pAxes (mk_joystick (mk_common [] 0 id false) uNumOfButtons 0 None, 0);
  HIDJoystickAxisMapAppend I MAP_END MAP_END ;;
  mret r.

(** From the axis map to the registration. *)
Definition joystick_finish (n : Z) (j : INPUT_CLASS_JOYSTICK) (uNumOfAbsAxes : Z) : P (Z * option INPUT_CLASS_JOYSTICK) :=
  map ← map_get;
  match map with
  | None => mret (STATUS_INSUFFICIENT_RESOURCES, None)
  | Some map =>
      let cbButtonBytes := (jNumOfButtons j + 7) / 8 in
      describe I (button_items (jNumOfButtons j) cbButtonBytes) ;;
      describe1 I HID_TAG_END_COLLECTION ;;
      let cb := 1 + uNumOfAbsAxes * 4 + cbButtonBytes in
      '(status, report) ← register I n cb;
      mret (status,
            if NT_SUCCESS status
            then Some (j <| jAxisMap := Some map |> <| jCommon := (jCommon j) <| cReport := report |> <| cbHidReportSize := cb |> |>)
            else None)
  end.

Definition HIDJoystickProbe (n : Z) (pAxes pButtons : VIRTIO_INPUT_CFG_DATA)
    : P (Z * option INPUT_CLASS_JOYSTICK * (VIRTIO_INPUT_CFG_DATA * VIRTIO_INPUT_CFG_DATA)) :=
  map_new ;;
  '(pButtons, uNumOfButtons) ← scan joystick_button joystick_take_button (cfg_size pButtons) pButtons 0;
  if uNumOfButtons =? 0 then mret (STATUS_SUCCESS, None, (pAxes, pButtons)) else
  ok ← VIOInputAlloc I sizeof_INPUT_CLASS_JOYSTICK;
  if negb ok then mret (STATUS_INSUFFICIENT_RESOURCES, None, (pAxes, pButtons)) else
  '(pAxes, (j, uNumOfAbsAxes)) ← joystick_describe (u8 (n + 1)) uNumOfButtons pAxes;
  '(status, r) ← joystick_finish n j uNumOfAbsAxes;
  map_destroy ;;
  mret (status, r, (pAxes, pButtons)).
End joystick.

(** ** Consumer controls (HidConsumer.c) *)

Record INPUT_CLASS_CONSUMER := mk_consumer {
  sCommon : INPUT_CLASS_COMMON; uNumOfControls : Z; pControlMap : list Z; cbControlMapLen : Z }.
#[export] Instance eta_consumer : Eta INPUT_CLASS_CONSUMER := fun s =>
  mk_consumer (sCommon s) (uNumOfControls s) (pControlMap s) (cbControlMapLen s).

Definition consumer_usage (u : Z) : bool := negb (u =? 0) && (Z.land u KEY_TYPE_MASK =? KEY_TYPE_CONSUMER).

Definition HIDConsumerEventToReport (s : INPUT_CLASS_CONSUMER) (ev : VIRTIO_INPUT_EVENT) : res INPUT_CLASS_CONSUMER :=
  r ← zset (cReport (sCommon s)) HID_REPORT_ID_OFFSET (cReportID (sCommon s));
  let s := s <| sCommon := (sCommon s) <| cReport := r |> |> in
  if (ev_type ev =? EV_KEY) && (ev_code ev <? cbControlMapLen s) then
    uCode ← HIDKeyboardEventCodeToUsageCode (ev_code ev);
    if consumer_usage uCode then
      uBitIndex ← zget (pControlMap s) (ev_code ev);
      if uBitIndex <? uNumOfControls s then
        r ← put_button (cReport (sCommon s)) HID_REPORT_DATA_OFFSET uBitIndex (ev_value ev);
        Ok (s <| sCommon := (sCommon s) <| cReport := r |> <| cDirty := true |> |>)
      else Ok s
    else Ok s
  else Ok s.

(** The map is freed and its pointer set to NULL. *)
Definition HIDConsumerCleanup (s : INPUT_CLASS_CONSUMER) : INPUT_CLASS_CONSUMER := s <| pControlMap := [] |>.

Definition consumer_head_items (id : Z) : list (Z * Z) :=
  [(HID_TAG_USAGE_PAGE, HID_USAGE_PAGE_CONSUMER); (HID_TAG_USAGE, HID_USAGE_CONSUMERCTRL);
   (HID_TAG_COLLECTION, HID_COLLECTION_APPLICATION); (HID_TAG_REPORT_ID, id);
   (HID_TAG_LOGICAL_MINIMUM, 0x00); (HID_TAG_LOGICAL_MAXIMUM, 0x01); (HID_TAG_REPORT_SIZE, 0x01)].

Definition consumer_tail_items (n : Z) : list (Z * Z) :=
  [(HID_TAG_REPORT_COUNT, s32 n); (HID_TAG_INPUT, HID_DATA_FLAG_VARIABLE)] ++
  (if truth (n mod 8) then
     [(HID_TAG_REPORT_COUNT, 0x01); (HID_TAG_REPORT_SIZE, 8 - n mod 8);
      (HID_TAG_INPUT, Z.lor HID_DATA_FLAG_VARIABLE HID_DATA_FLAG_CONSTANT)]
   else []).

Definition sizeof_INPUT_CLASS_CONSUMER : Z := 88.

(** Whether an event code belongs to the consumer page. *)
Definition consumer_code (c : Z) : bool :=
  match HIDKeyboardEventCodeToUsageCode c with Ok u => consumer_usage u | Fault _ => false end.

Section consumer.
Context {E : Type} (I : input_env E).
Abbreviation P := (M (probing E)).

(** First pass: the highest code. *)
Definition consumer_find (c : Z) (acc : Z * bool) : P (Z * bool) :=
  uCode ← pure (HIDKeyboardEventCodeToUsageCode c);
  mret (if consumer_usage uCode then (Z.max acc.1 c, true) else acc).

(** Second pass: the usage of the control and its place in the map. *)
Definition consumer_take (c : Z) (s : INPUT_CLASS_CONSUMER) : P INPUT_CLASS_CONSUMER :=
  uCode ← pure (HIDKeyboardEventCodeToUsageCode c);
  describe I [(HID_TAG_USAGE, Z.land uCode KEY_USAGE_MASK)] ;;
  map ← pure (zset (pControlMap s) c (uNumOfControls s));
  mret (s <| pControlMap := map |> <| uNumOfControls := uNumOfControls s + 1 |>).

Definition HIDConsumerProbe (n : Z) (pKeys : VIRTIO_INPUT_CFG_DATA)
    : P (Z * option INPUT_CLASS_CONSUMER * VIRTIO_INPUT_CFG_DATA) :=
  '(_, (uMaxKeyCode, bGotKey)) ← scan (fun _ => true) consumer_find (cfg_size pKeys) pKeys (0, false);
  if negb bGotKey then mret (STATUS_SUCCESS, None, pKeys) else
  ok ← VIOInputAlloc I sizeof_INPUT_CLASS_CONSUMER;
  if negb ok then mret (STATUS_INSUFFICIENT_RESOURCES, None, pKeys) else
  let id := u8 (n + 1) in
  let len := uMaxKeyCode + 1 in
  ok ← VIOInputAlloc I (len * 4);
  if negb ok then mret (STATUS_INSUFFICIENT_RESOURCES, None, pKeys) else
  describe I (consumer_head_items id) ;;
  '(pKeys, s) ← scan consumer_code consumer_take (cfg_size pKeys) pKeys
                  (mk_consumer (mk_common [] 0 id false) 0 (replicate (Z.to_nat len) 0xFFFFFFFF) len);
  describe I (consumer_tail_items (uNumOfControls s)) ;;
  describe1 I HID_TAG_END_COLLECTION ;;
  let cb := HID_REPORT_DATA_OFFSET + (uNumOfControls s + 7) / 8 in
  '(status, report) ← register I n cb;
  mret (status,
        if NT_SUCCESS status
        then Some (s <| sCommon := (sCommon s) <| cReport := report |> <| cbHidReportSize := cb |> |>) else None, pKeys).
End consumer.

(** ** virtio-input: tablets and touch screens (vioinput/sys/HidTablet.c)

    A tablet reports one contact, a touch screen several: with tracking identifiers, collected
    from [pContactStat] before each report, or anonymous ones, written to the report in the
    order in which they come. *)

Definition MT_DEFAULT_MAXCONTACT : Z := 10.
Definition MT_MAX_MAXCONTACT : Z := 250.
Definition BTN_LEFT : Z := 0x110.
Definition BTN_RIGHT : Z := 0x111.
Definition BTN_TOUCH : Z := 0x14a.
Definition BTN_STYLUS : Z := 0x14b.
Definition ABS_MT_SLOT : Z := 0x2f.
Definition ABS_MT_TOUCH_MAJOR : Z := 0x30.
Definition ABS_MT_TOUCH_MINOR : Z := 0x31.
Definition ABS_MT_POSITION_X : Z := 0x35.
Definition ABS_MT_POSITION_Y : Z := 0x36.
Definition ABS_MT_TRACKING_ID : Z := 0x39.
Definition ABS_MT_TOOL_Y : Z := 0x3d.
Definition SYN_REPORT : Z := 0x00.
Definition SYN_MT_REPORT : Z := 0x02.
Definition MSC_TIMESTAMP : Z := 0x05.
Definition REPORTID_FEATURE_TABLET_MAX_COUNT : Z := MAX_INPUT_CLASS_COUNT + 1.
Definition HID_TAG_UNIT_EXPONENT : Z := 0x54.
Definition HID_TAG_UNIT : Z := 0x64.
Definition HID_USAGE_PAGE_DIGITIZER : Z := 0x0D.
Definition HID_USAGE_DIGITIZER : Z := 0x01.
Definition HID_USAGE_TOUCH_SCREEN : Z := 0x04.
Definition HID_USAGE_DIGITIZER_STYLUS : Z := 0x20.
Definition HID_USAGE_DIGITIZER_FINGER : Z := 0x22.
Definition HID_USAGE_DIGITIZER_IN_RANGE : Z := 0x32.
Definition HID_USAGE_DIGITIZER_TIP_SWITCH : Z := 0x42.
Definition HID_USAGE_DIGITIZER_BARREL_SWITCH : Z := 0x44.
Definition HID_USAGE_DIGITIZER_CONTACT_WIDTH : Z := 0x48.
Definition HID_USAGE_DIGITIZER_CONTACT_HEIGHT : Z := 0x49.
Definition HID_USAGE_DIGITIZER_CONTACT_ID : Z := 0x51.
Definition HID_USAGE_DIGITIZER_CONTACT_COUNT : Z := 0x54.
Definition HID_USAGE_DIGITIZER_CONTACT_COUNT_MAX : Z := 0x55.
Definition HID_USAGE_DIGITIZER_SCAN_TIME : Z := 0x56.
Definition LONG_MAX : Z := 0x7fffffff.

(** ** Slots *)

(** [INPUT_CLASS_TABLET_SLOT] is packed: the offsets of its fields. *)
Definition sizeof_SLOT : Z := 11.
Definition slot_uFlags : Z := 0.
Definition slot_uContactID : Z := 1.
Definition slot_uAxisX : Z := 3.
Definition slot_uAxisY : Z := 5.
Definition slot_uTouchWidth : Z := 7.
Definition slot_uTouchHeight : Z := 9.

(** [pContactStat] is kept as the bytes of its slots, like the report; [pTrackingID] as pairs
    of [uID] and [bPendingDel]. *)
Record INPUT_CLASS_TABLET := mk_tablet {
  tCommon : INPUT_CLASS_COMMON; bMT : bool; bIdentifiableMT : bool; bMscTs : bool;
  uMaxContacts : Z; uLastMTSlot : Z; pContactStat : list Z; pTrackingID : list (Z * bool) }.
#[export] Instance eta_tablet : Eta INPUT_CLASS_TABLET := fun t =>
  mk_tablet (tCommon t) (bMT t) (bIdentifiableMT t) (bMscTs t) (uMaxContacts t) (uLastMTSlot t)
    (pContactStat t) (pTrackingID t).

Definition tReport (t : INPUT_CLASS_TABLET) : list Z := cReport (tCommon t).
Definition set_report (r : list Z) (t : INPUT_CLASS_TABLET) : INPUT_CLASS_TABLET :=
  t <| tCommon := (tCommon t) <| cReport := r |> |>.
Definition set_dirty (t : INPUT_CLASS_TABLET) : INPUT_CLASS_TABLET :=
  t <| tCommon := (tCommon t) <| cDirty := true |> |>.

(** The offset of slot [i] of the report, and of the contact count behind the slots. *)
Definition report_slot (i : Z) : Z := HID_REPORT_DATA_OFFSET + sizeof_SLOT * i.
Definition count_offset (t : INPUT_CLASS_TABLET) : Z := report_slot (uMaxContacts t).

(** [pReportSlot]: a slot of [pContactStat] or of the report. *)
Inductive slot_ptr := StatSlot (i : Z) | ReportSlot (i : Z).

Definition slot_write (t : INPUT_CLASS_TABLET) (p : slot_ptr) (field : Z) (bs : list Z) : res INPUT_CLASS_TABLET :=
  match p with
  | StatSlot i => s ← put_bytes (pContactStat t) (sizeof_SLOT * i + field) bs; Ok (t <| pContactStat := s |>)
  | ReportSlot i => r ← put_bytes (tReport t) (report_slot i + field) bs; Ok (set_report r t)
  end.
Definition slot_flags (t : INPUT_CLASS_TABLET) (p : slot_ptr) (mask : Z) (on : bool) : res INPUT_CLASS_TABLET :=
  match p with
  | StatSlot i => s ← put_bits (pContactStat t) (sizeof_SLOT * i + slot_uFlags) mask on; Ok (t <| pContactStat := s |>)
  | ReportSlot i => r ← put_bits (tReport t) (report_slot i + slot_uFlags) mask on; Ok (set_report r t)
  end.

(** ** Feature report *)

(** The buffer of the request, of which [len] bytes belong to it. *)
Definition HIDTabletGetFeature (t : INPUT_CLASS_TABLET) (buffer : list Z) (len : Z) : res (Z * list Z) :=
  uReportID ← zget buffer 0;
  if uReportID =? REPORTID_FEATURE_TABLET_MAX_COUNT then
    if len >=? 2 then b ← zset buffer 1 (u8 (uMaxContacts t)); Ok (STATUS_SUCCESS, b)
    else Ok (STATUS_BUFFER_TOO_SMALL, buffer)
  else Ok (STATUS_INVALID_PARAMETER, buffer).

(** ** Collecting the contacts before a report *)

(** [n] slots from [i]: those with a tracking identifier are copied to the report. *)
Fixpoint collect (n : nat) (i uContacts : Z) (t : INPUT_CLASS_TABLET) : res (Z * INPUT_CLASS_TABLET) :=
  match n with
  | O => Ok (uContacts, t)
  | S n =>
      id ← zget (pTrackingID t) i;
      if negb (id.1 =? -1) then
        if sizeof_SLOT * i + sizeof_SLOT >? zlen (pContactStat t) then Fault OutOfBounds else
        r ← put_bytes (tReport t) (report_slot uContacts)
              (take (Z.to_nat sizeof_SLOT) (drop (Z.to_nat (sizeof_SLOT * i)) (pContactStat t)));
        collect n (i + 1) (u8 (uContacts + 1)) (set_report r t)
      else collect n (i + 1) uContacts t
  end.

Definition HIDTabletEventToCollect (t : INPUT_CLASS_TABLET) (ev : VIRTIO_INPUT_EVENT) : res INPUT_CLASS_TABLET :=
  if (ev_type ev =? EV_SYN) && (ev_code ev =? SYN_REPORT) && bIdentifiableMT t then
    r ← zset (tReport t) (count_offset t) 0;
    '(uContacts, t) ← collect (Z.to_nat (uMaxContacts t)) 0 0 (set_report r t);
    if truth uContacts then
      r ← zset (tReport t) (count_offset t) uContacts; Ok (set_dirty (set_report r t))
    else Ok t
  else Ok t.

(** ** Events *)

(** [EV_ABS] of a touch screen. *)
Definition tablet_mt (t : INPUT_CLASS_TABLET) (code value : Z) : res INPUT_CLASS_TABLET :=
  let p := if bIdentifiableMT t then StatSlot (uLastMTSlot t) else ReportSlot (uLastMTSlot t) in
  if code =? ABS_MT_SLOT then
    if bIdentifiableMT t then Ok (t <| uLastMTSlot := if value <? uMaxContacts t then value else 0 |>) else Ok t
  else if code =? ABS_MT_TOUCH_MAJOR then slot_write t p slot_uTouchWidth (le_bytes 2 value)
  else if code =? ABS_MT_TOUCH_MINOR then slot_write t p slot_uTouchHeight (le_bytes 2 value)
  else if (code =? ABS_MT_POSITION_X) || (code =? ABS_MT_POSITION_Y) then
    t ← slot_write t p (if code =? ABS_MT_POSITION_X then slot_uAxisX else slot_uAxisY) (le_bytes 2 value);
    if bMT t && negb (bIdentifiableMT t) then slot_flags t p 0x01 true else Ok t
  else if code =? ABS_MT_TRACKING_ID then
    id ← zget (pTrackingID t) (uLastMTSlot t);
    if s32 value <? 0 then
      slot_flags (t <| pTrackingID := zinsert (uLastMTSlot t) (id.1, true) (pTrackingID t) |>) p 0x01 false
    else
      t ← slot_write (t <| pTrackingID := zinsert (uLastMTSlot t) (s32 value, id.2) (pTrackingID t) |>) p
            slot_uContactID (le_bytes 2 value);
      slot_flags t p 0x01 true
  else Ok t.

(** [EV_ABS] of a tablet. *)
Definition tablet_st (t : INPUT_CLASS_TABLET) (code value : Z) : res INPUT_CLASS_TABLET :=
  if (code =? ABS_X) || (code =? ABS_Y) then
    t ← slot_write t (ReportSlot (uLastMTSlot t)) (if code =? ABS_X then slot_uAxisX else slot_uAxisY) (le_bytes 2 value);
    Ok (set_dirty t)
  else Ok t.

Definition tablet_bits (code : Z) : Z :=
  if (code =? BTN_LEFT) || (code =? BTN_TOUCH) then 0x03
  else if (code =? BTN_RIGHT) || (code =? BTN_STYLUS) then 0x04 else 0x00.

Definition tablet_key (t : INPUT_CLASS_TABLET) (code value : Z) : res INPUT_CLASS_TABLET :=
  let uBits := if bMT t then 0x00 else tablet_bits code in
  if truth uBits then
    t ← slot_flags t (ReportSlot (uLastMTSlot t)) uBits (truth value); Ok (set_dirty t)
  else Ok t.

(** The loop that ends the pending deletions, and the one that lifts all contacts. *)
Definition end_pending (ids : list (Z * bool)) : list (Z * bool) :=
  (fun id : Z * bool => if id.2 then (-1, false) else id) <$> ids.
Fixpoint lift_all (n : nat) (i : Z) (t : INPUT_CLASS_TABLET) : res INPUT_CLASS_TABLET :=
  match n with
  | O => Ok t
  | S n => t ← slot_flags t (ReportSlot i) 0x01 false; lift_all n (i + 1) t
  end.

(** [SYN_REPORT] after the report was sent. *)
Definition tablet_syn_report (t : INPUT_CLASS_TABLET) : res INPUT_CLASS_TABLET :=
  if bIdentifiableMT t then
    if zlen (pTrackingID t) <? uMaxContacts t then Fault OutOfBounds else
    r ← zset (tReport t) (count_offset t) 0;
    Ok (set_report r (t <| pTrackingID := end_pending (take (Z.to_nat (uMaxContacts t)) (pTrackingID t)) ++
                                          drop (Z.to_nat (uMaxContacts t)) (pTrackingID t) |>))
  else if bMT t then lift_all (Z.to_nat (uMaxContacts t)) 0 (t <| uLastMTSlot := 0 |>)
  else Ok t.

(** [SYN_MT_REPORT]: [uLastMTSlot] is incremented twice. *)
Definition tablet_syn_mt (t : INPUT_CLASS_TABLET) : res INPUT_CLASS_TABLET :=
  if bMT t && negb (bIdentifiableMT t) then
    let last := u32 (uLastMTSlot t + 1) in
    r ← (if last <=? uMaxContacts t then
           b ← zget (tReport t) (count_offset t); zset (tReport t) (count_offset t) (u8 (b + 1))
         else Ok (tReport t));
    let last := u32 (last + 1) in
    Ok (set_dirty (set_report r (t <| uLastMTSlot := if last >=? uMaxContacts t then 0 else last |>)))
  else Ok t.

Definition HIDTabletEventToReport (t : INPUT_CLASS_TABLET) (ev : VIRTIO_INPUT_EVENT) : res INPUT_CLASS_TABLET :=
  r ← zset (tReport t) HID_REPORT_ID_OFFSET (cReportID (tCommon t));
  let t := set_report r t in
  let '(type, code, value) := (ev_type ev, ev_code ev, ev_value ev) in
  if type =? EV_ABS then if bMT t then tablet_mt t code value else tablet_st t code value
  else if type =? EV_KEY then tablet_key t code value
  else if type =? EV_MSC then
    if (code =? MSC_TIMESTAMP) && bMscTs t then
      r ← put_bytes (tReport t) (count_offset t + 1) (le_bytes 4 (value / 100)); Ok (set_report r t)
    else Ok t
  else if type =? EV_SYN then
    if code =? SYN_REPORT then tablet_syn_report t
    else if code =? SYN_MT_REPORT then tablet_syn_mt t else Ok t
  else Ok t.

(** Both buffers are freed and their pointers set to NULL. *)
Definition HIDTabletCleanup (t : INPUT_CLASS_TABLET) : INPUT_CLASS_TABLET :=
  t <| pContactStat := [] |> <| pTrackingID := [] |>.

(** ** The probe *)

Definition physical (v res : Z) : Z := if res =? 0 then v else u32 (v * 10) / res.

(** Logical and physical range of an axis. *)
Definition range_items (a : virtio_input_absinfo) : list (Z * Z) :=
  [(HID_TAG_LOGICAL_MINIMUM, s32 (abs_min a)); (HID_TAG_LOGICAL_MAXIMUM, s32 (abs_max a));
   (HID_TAG_PHYSICAL_MINIMUM, s32 (physical (abs_min a) (abs_res a)));
   (HID_TAG_PHYSICAL_MAXIMUM, s32 (physical (abs_max a) (abs_res a)))].

Definition tablet_head_items (mt : bool) (id : Z) : list (Z * Z) :=
  [(HID_TAG_USAGE_PAGE, HID_USAGE_PAGE_DIGITIZER);
   (HID_TAG_USAGE, if mt then HID_USAGE_TOUCH_SCREEN else HID_USAGE_DIGITIZER);
   (HID_TAG_COLLECTION, HID_COLLECTION_APPLICATION); (HID_TAG_REPORT_ID, id);
   (HID_TAG_USAGE, if mt then HID_USAGE_DIGITIZER_FINGER else HID_USAGE_DIGITIZER_STYLUS)].

(** The switches, the padding and the identifier of one contact. *)
Definition contact_head_items (mt : bool) (max : Z) : list (Z * Z) :=
  [(HID_TAG_COLLECTION, HID_COLLECTION_LOGICAL); (HID_TAG_USAGE_PAGE, HID_USAGE_PAGE_DIGITIZER);
   (HID_TAG_LOGICAL_MINIMUM, 0x00); (HID_TAG_LOGICAL_MAXIMUM, 0x01); (HID_TAG_REPORT_SIZE, 0x01);
   (HID_TAG_REPORT_COUNT, 0x01); (HID_TAG_USAGE, HID_USAGE_DIGITIZER_TIP_SWITCH);
   (HID_TAG_INPUT, HID_DATA_FLAG_VARIABLE)] ++
  (if mt then [] else
   [(HID_TAG_USAGE, HID_USAGE_DIGITIZER_IN_RANGE); (HID_TAG_INPUT, HID_DATA_FLAG_VARIABLE);
    (HID_TAG_USAGE, HID_USAGE_DIGITIZER_BARREL_SWITCH); (HID_TAG_INPUT, HID_DATA_FLAG_VARIABLE)]) ++
  [(HID_TAG_LOGICAL_MAXIMUM, 0x00); (HID_TAG_REPORT_COUNT, if mt then 0x07 else 0x05);
   (HID_TAG_INPUT, Z.lor HID_DATA_FLAG_VARIABLE HID_DATA_FLAG_CONSTANT);
   (HID_TAG_REPORT_SIZE, 0x10); (HID_TAG_REPORT_COUNT, 0x01); (HID_TAG_USAGE, HID_USAGE_DIGITIZER_CONTACT_ID);
   (HID_TAG_LOGICAL_MAXIMUM, s32 (u32 (max - 1))); (HID_TAG_INPUT, HID_DATA_FLAG_VARIABLE);
   (HID_TAG_USAGE_PAGE, HID_USAGE_PAGE_GENERIC); (HID_TAG_UNIT_EXPONENT, 0x0E); (HID_TAG_UNIT, 0x11)].

Definition contact_axis_items (usage : Z) (a : virtio_input_absinfo) : list (Z * Z) :=
  range_items a ++ [(HID_TAG_USAGE, usage); (HID_TAG_INPUT, HID_DATA_FLAG_VARIABLE)].

Definition contact_size_items (usage : Z) (a : virtio_input_absinfo) : list (Z * Z) :=
  [(HID_TAG_USAGE, usage)] ++ range_items a ++ [(HID_TAG_INPUT, HID_DATA_FLAG_VARIABLE)].

Definition tablet_tail_items (max : Z) (ts : bool) : list (Z * Z) :=
  [(HID_TAG_USAGE_PAGE, HID_USAGE_PAGE_DIGITIZER); (HID_TAG_LOGICAL_MINIMUM, 0x00);
   (HID_TAG_LOGICAL_MAXIMUM, s32 max); (HID_TAG_REPORT_SIZE, 0x08); (HID_TAG_REPORT_COUNT, 0x01);
   (HID_TAG_USAGE, HID_USAGE_DIGITIZER_CONTACT_COUNT); (HID_TAG_INPUT, HID_DATA_FLAG_VARIABLE)] ++
  (if ts then
   [(HID_TAG_USAGE, HID_USAGE_DIGITIZER_SCAN_TIME); (HID_TAG_UNIT_EXPONENT, 0x0A); (HID_TAG_UNIT, 0x1001);
    (HID_TAG_LOGICAL_MAXIMUM, LONG_MAX); (HID_TAG_REPORT_SIZE, 0x20); (HID_TAG_REPORT_COUNT, 0x01);
    (HID_TAG_INPUT, HID_DATA_FLAG_VARIABLE); (HID_TAG_UNIT_EXPONENT, 0x00); (HID_TAG_UNIT, 0x00);
    (HID_TAG_LOGICAL_MAXIMUM, s32 max); (HID_TAG_REPORT_SIZE, 0x08); (HID_TAG_REPORT_COUNT, 0x01)] else []) ++
  [(HID_TAG_REPORT_ID, REPORTID_FEATURE_TABLET_MAX_COUNT); (HID_TAG_USAGE, HID_USAGE_DIGITIZER_CONTACT_COUNT_MAX);
   (HID_TAG_FEATURE, Z.lor HID_DATA_FLAG_VARIABLE HID_DATA_FLAG_CONSTANT)].

Definition sizeof_INPUT_CLASS_TABLET : Z := 96.
Definition sizeof_TRACKING_ID : Z := 8.

(** The axes that the tablet takes, and what it learns from them. *)
Definition tablet_axis (c : Z) : bool :=
  (c =? ABS_X) || (c =? ABS_Y) || (c =? ABS_MT_SLOT) || ((c >=? ABS_MT_TOUCH_MAJOR) && (c <=? ABS_MT_TOOL_Y)).

Record tablet_axes := mk_axes {
  a_mt : bool; a_ident : bool; a_max : Z; uNumOfAbsAxes : Z; uNumOfMTAbsAxes : Z;
  bContactWidth : bool; bContactHeight : bool }.
#[export] Instance eta_axes : Eta tablet_axes := fun a =>
  mk_axes (a_mt a) (a_ident a) (a_max a) (uNumOfAbsAxes a) (uNumOfMTAbsAxes a) (bContactWidth a) (bContactHeight a).

Section tablet.
Context {E : Type} (I : input_env E) (C : config_env E).
Abbreviation P := (M (probing E)).

Definition tablet_take_axis (c : Z) (a : tablet_axes) : P tablet_axes :=
  if (c =? ABS_X) || (c =? ABS_Y) then mret (a <| uNumOfAbsAxes := uNumOfAbsAxes a + 1 |>)
  else if c =? ABS_MT_SLOT then
    i ← GetAbsAxisInfo C c;
    let max := u32 (abs_max i + 1) in
    mret (a <| a_max := if max >? MT_MAX_MAXCONTACT then MT_MAX_MAXCONTACT else max |> <| a_mt := true |> <| a_ident := true |>)
  else
    let a := a <| a_mt := true |> in
    let a := if (c =? ABS_MT_POSITION_X) || (c =? ABS_MT_POSITION_Y) then a <| uNumOfMTAbsAxes := uNumOfMTAbsAxes a + 1 |> else a in
    let a := if c =? ABS_MT_TRACKING_ID then a <| a_ident := true |> else a in
    let a := if c =? ABS_MT_TOUCH_MAJOR then a <| bContactWidth := true |> else a in
    mret (if c =? ABS_MT_TOUCH_MINOR then a <| bContactHeight := true |> else a).

(** Kind of the device and number of contacts. *)
Definition tablet_kind (a : tablet_axes) : bool * bool * Z :=
  let max := if negb (a_ident a) && a_mt a then MT_DEFAULT_MAXCONTACT else a_max a in
  let '(mt, ident, max) := if a_mt a && negb (uNumOfMTAbsAxes a =? 2) then (false, false, 1) else (a_mt a, a_ident a, max) in
  (mt, ident, if max >? MT_MAX_MAXCONTACT then MT_MAX_MAXCONTACT else max).

(** One pass of the loop over the contacts. *)
Definition describe_contact (mt : bool) (max : Z) (a : tablet_axes) : P unit :=
  describe I (contact_head_items mt max) ;;
  let first := if truth (uNumOfMTAbsAxes a) then ABS_MT_POSITION_X else ABS_X in
  x ← GetAbsAxisInfo C first;
  describe I (contact_axis_items HID_USAGE_GENERIC_X x) ;;
  y ← GetAbsAxisInfo C (first + 1);
  describe I (contact_axis_items HID_USAGE_GENERIC_Y y) ;;
  describe I [(HID_TAG_USAGE_PAGE, HID_USAGE_PAGE_DIGITIZER)] ;;
  w ← (if bContactWidth a then GetAbsAxisInfo C HID_USAGE_DIGITIZER_CONTACT_WIDTH else mret x);
  describe I (contact_size_items HID_USAGE_DIGITIZER_CONTACT_WIDTH w) ;;
  h ← (if bContactHeight a then GetAbsAxisInfo C HID_USAGE_DIGITIZER_CONTACT_HEIGHT else mret y);
  describe I (contact_size_items HID_USAGE_DIGITIZER_CONTACT_HEIGHT h) ;;
  describe1 I HID_TAG_END_COLLECTION.

Fixpoint describe_contacts (n : nat) (mt : bool) (max : Z) (a : tablet_axes) : P unit :=
  match n with
  | O => mret tt
  | S n => describe_contact mt max a ;; describe_contacts n mt max a
  end.

(** The contact buffers of a touch screen: [inl] when an allocation fails. *)
Fixpoint init_stat (n : nat) (i : Z) (stat : list Z) : res (list Z) :=
  match n with
  | O => Ok stat
  | S n =>
      s ← put_bytes stat (sizeof_SLOT * i + slot_uTouchWidth) (le_bytes 2 1);
      s ← put_bytes s (sizeof_SLOT * i + slot_uTouchHeight) (le_bytes 2 1);
      init_stat n (i + 1) s
  end.
Definition tablet_buffers (mt : bool) (max : Z) : P (option (list Z * list (Z * bool))) :=
  if mt then
    ok ← VIOInputAlloc I (sizeof_SLOT * max);
    if negb ok then mret None else
    ok ← VIOInputAlloc I (sizeof_TRACKING_ID * max);
    if negb ok then mret None else
    stat ← pure (init_stat (Z.to_nat max) 0 (replicate (Z.to_nat (sizeof_SLOT * max)) 0));
    mret (Some (stat, replicate (Z.to_nat max) (-1, false)))
  else mret (Some ([], [])).

(** Identifiers and sizes of the contacts in the first report. *)
Fixpoint init_ids (n : nat) (i : Z) (report : list Z) : res (list Z) :=
  match n with
  | O => Ok report
  | S n => r ← put_bytes report (report_slot i + slot_uContactID) (le_bytes 2 (i + 1)); init_ids n (i + 1) r
  end.
Fixpoint init_sizes (n : nat) (i : Z) (report : list Z) : res (list Z) :=
  match n with
  | O => Ok report
  | S n =>
      r ← put_bytes report (report_slot i + slot_uTouchWidth) (le_bytes 2 1);
      r ← put_bytes r (report_slot i + slot_uTouchHeight) (le_bytes 2 1);
      init_sizes n (i + 1) r
  end.
Definition init_report (mt ident : bool) (max : Z) (report : list Z) : res (list Z) :=
  r ← (if ident then zset report (report_slot max) 0
       else if mt then r ← zset report (report_slot max) (u8 max); init_ids (Z.to_nat max) 0 r
       else r ← put_bytes report (report_slot 0 + slot_uContactID) (le_bytes 2 1); zset r (report_slot max) 1);
  init_sizes (Z.to_nat max) 0 r.

(** The loop that should claim the buttons: it runs over the axes. *)
Definition claims_button (c : Z) : bool := (c =? BTN_LEFT) || (c =? BTN_RIGHT) || (c =? BTN_TOUCH) || (c =? BTN_STYLUS).

Definition tablet_take_misc (c : Z) (ts : bool) : P bool := mret (ts || (u8 c =? MSC_TIMESTAMP)).

Definition HIDTabletProbe (n : Z) (pAxes pButtons pMisc : VIRTIO_INPUT_CFG_DATA)
    : P (Z * option INPUT_CLASS_TABLET * VIRTIO_INPUT_CFG_DATA) :=
  ok ← VIOInputAlloc I sizeof_INPUT_CLASS_TABLET;
  if negb ok then mret (STATUS_INSUFFICIENT_RESOURCES, None, pAxes) else
  '(pAxes, a) ← scan tablet_axis tablet_take_axis (cfg_size pAxes) pAxes (mk_axes false false 1 0 0 false false);
  if negb (uNumOfAbsAxes a =? 2) then mret (STATUS_INSUFFICIENT_RESOURCES, None, pAxes) else
  '(_, ts) ← scan (fun _ => true) tablet_take_misc (cfg_size pMisc) pMisc false;
  let '(mt, ident, max) := tablet_kind a in
  buffers ← tablet_buffers mt max;
  match buffers with
  | None => mret (STATUS_INSUFFICIENT_RESOURCES, None, pAxes)
  | Some (stat, ids) =>
      '(pAxes, _) ← scan claims_button (fun _ u => mret u) (cfg_size pButtons) pAxes tt;
      let id := u8 (n + 1) in
      describe I (tablet_head_items mt id) ;;
      describe_contacts (Z.to_nat max) mt max a ;;
      describe I (tablet_tail_items max ts) ;;
      describe1 I HID_TAG_END_COLLECTION ;;
      let cb := 1 + sizeof_SLOT * max + 1 + (if (ts : bool) then 4 else 0) in
      '(status, report) ← register I n cb;
      if NT_SUCCESS status then
        report ← pure (init_report mt ident max report);
        mret (status, Some (mk_tablet (mk_common report cb id false) mt ident ts max 0 stat ids), pAxes)
      else mret (status, None, pAxes)
  end.
End tablet.
