(* ===== verification/VioInputHid.v ===== *)
(** * virtio-input: the device as HID hears of it (vioinput/sys/Hid.c, Device.c)

    Which classes a device gets, the report descriptor, the distribution of events over the
    classes, and the requests of the HID class driver. *)

From Stdlib Require Import ZArith Lia.
From stdpp Require Import base list numbers option.
From S2P Require Import Prelude.
From S2P Require Import Effects.
From S2P Require Import VioInput.
From S2P Require Import VioInputClasses.

Definition STATUS_NONE_MAPPED : Z := 0xC0000073.
Definition STATUS_INVALID_BUFFER_SIZE : Z := 0xC0000206.
Definition STATUS_NOT_IMPLEMENTED : Z := 0xC0000002.
Definition STATUS_INVALID_DEVICE_REQUEST : Z := 0xC0000010.
Definition sizeof_HID_XFER_PACKET : Z := 16.
Definition sizeof_HID_DEVICE_ATTRIBUTES : Z := 32.

(** ** Classes *)

(** The classes and, by their constructor, the functions of [INPUT_CLASS_COMMON]. *)
Inductive input_class :=
  | MouseClass (m : INPUT_CLASS_MOUSE)
  | JoystickClass (j : INPUT_CLASS_JOYSTICK)
  | TabletClass (t : INPUT_CLASS_TABLET)
  | KeyboardClass (k : INPUT_CLASS_KEYBOARD)
  | ConsumerClass (s : INPUT_CLASS_CONSUMER).

Definition class_common (c : input_class) : INPUT_CLASS_COMMON :=
  match c with
  | MouseClass m => mCommon m
  | JoystickClass j => jCommon j
  | TabletClass t => tCommon t
  | KeyboardClass k => mk_common (pHidReport k) (HID_REPORT_DATA_OFFSET + 2 + HID_KEYBOARD_KEY_SLOTS) (uReportID k) (bDirty k)
  | ConsumerClass s => sCommon s
  end.

Definition class_clean (c : input_class) : input_class :=
  match c with
  | MouseClass m => MouseClass (m <| mCommon := (mCommon m) <| cDirty := false |> |>)
  | JoystickClass j => JoystickClass (j <| jCommon := (jCommon j) <| cDirty := false |> |>)
  | TabletClass t => TabletClass (t <| tCommon := (tCommon t) <| cDirty := false |> |>)
  | KeyboardClass k => KeyboardClass (k <| bDirty := false |>)
  | ConsumerClass s => ConsumerClass (s <| sCommon := (sCommon s) <| cDirty := false |> |>)
  end.

(** [EventToCollectFunc], where the class has one. *)
Definition EventToCollect (c : input_class) (ev : VIRTIO_INPUT_EVENT) : res input_class :=
  match c with
  | TabletClass t => t ← HIDTabletEventToCollect t ev; Ok (TabletClass t)
  | _ => Ok c
  end.

(** [EventToReportFunc] *)
Definition EventToReport (c : input_class) (ev : VIRTIO_INPUT_EVENT) : res input_class :=
  match c with
  | MouseClass m => m ← HIDMouseEventToReport m ev; Ok (MouseClass m)
  | JoystickClass j => j ← HIDJoystickEventToReport j ev; Ok (JoystickClass j)
  | TabletClass t => t ← HIDTabletEventToReport t ev; Ok (TabletClass t)
  | KeyboardClass k => k ← HIDKeyboardEventToReport k ev; Ok (KeyboardClass k)
  | ConsumerClass s => s ← HIDConsumerEventToReport s ev; Ok (ConsumerClass s)
  end.

(** [CleanupFunc] *)
Definition Cleanup (c : input_class) : input_class :=
  match c with
  | MouseClass m => MouseClass (HIDMouseCleanup m)
  | JoystickClass j => JoystickClass (HIDJoystickCleanup j)
  | TabletClass t => TabletClass (HIDTabletCleanup t)
  | KeyboardClass k => KeyboardClass (HIDKeyboardCleanup k)
  | ConsumerClass s => ConsumerClass (HIDConsumerCleanup s)
  end.

(** ** The device *)

(** [HidReportDescriptor] is [None] for NULL; [wReportLength] and the hash are those of the
    descriptor. *)
Record INPUT_DEVICE {E : Type} := mk_device {
  denv : E; InputClasses : list input_class; HidReportDescriptor : option (list Z);
  wReportLength : Z; HidReportDescriptorHash : Z }.
Arguments INPUT_DEVICE : clear implicits.
#[export] Instance eta_device E : Eta (INPUT_DEVICE E) := fun d =>
  mk_device _ (denv d) (InputClasses d) (HidReportDescriptor d) (wReportLength d) (HidReportDescriptorHash d).

Definition uNumOfClasses {E} (d : INPUT_DEVICE E) : Z := zlen (InputClasses d).

(** [*(PUINT64)pData] *)
Definition le64 (bytes : list Z) : Z :=
  match ulongs bytes with [lo; hi] => lo + 4294967296 * hi | _ => 0 end.

(** The loops of [ComputeHash]; the second shifts by whole bits, as [sizeof(UCHAR)] is 1. *)
Fixpoint hash_words (n : nat) (hash : Z) (bytes : list Z) : Z * list Z :=
  match n with
  | O => (hash, bytes)
  | S n => hash_words n (Z.lxor hash (le64 (take 8 bytes))) (drop 8 bytes)
  end.
Fixpoint hash_bytes (i hash : Z) (bytes : list Z) : Z :=
  match bytes with
  | [] => hash
  | b :: bytes => hash_bytes (i + 1) (Z.lxor hash (u64 (Z.shiftl b i))) bytes
  end.
Definition ComputeHash (bytes : list Z) : Z :=
  let '(hash, rest) := hash_words (Z.to_nat (zlen bytes / 8)) 0 bytes in
  hash_bytes 0 hash rest.

(** ** Building the report descriptor *)

Section build.
Context {E : Type} (I : input_env E) (C : config_env E).
Abbreviation P := (M (probing E)).

(** The keyboard probe takes the bytes of the bitmaps. *)
Definition cfg_bytes (d : VIRTIO_INPUT_CFG_DATA) : list Z := take (Z.to_nat (cfg_size d)) (cfg_bitmap d).
Definition keyboard_probe (n : Z) (pKeys pLeds : VIRTIO_INPUT_CFG_DATA)
    : P (Z * option INPUT_CLASS_KEYBOARD * VIRTIO_INPUT_CFG_DATA) :=
  fun p =>
    '(status, k, _, a, rest, e) ← HIDKeyboardProbe I (penv p) n (pDesc p) (cfg_bytes pKeys) (cfg_bytes pLeds);
    Ok ((status, k, pKeys <| cfg_bitmap := rest ++ drop (Z.to_nat (cfg_size pKeys)) (cfg_bitmap pKeys) |>),
        p <| pDesc := a |> <| penv := e |>).

(** The class that a probe registered comes after the others. *)
Definition registered {A} (f : A -> input_class) (cs : list input_class) (c : option A) : list input_class :=
  cs ++ match c with Some c => [f c] | None => [] end.

(** The probes in their order, up to the first that fails.  [stack] is what the local buffers
    held before: key, relative, absolute, misc and LED bits. *)
Definition probe_all (stack : Z -> list Z) (cs : list input_class) : P (Z * list input_class) :=
  KeyData ← read_event_bits C (stack EV_KEY) EV_KEY;
  RelData ← read_event_bits C (stack EV_REL) EV_REL;
  AbsData ← read_event_bits C (stack EV_ABS) EV_ABS;
  MscData ← read_event_bits C (stack EV_MSC) EV_MSC;
  '(status, cs, AbsData, KeyData) ←
    (if negb (InputCfgDataEmpty RelData) || negb (InputCfgDataEmpty AbsData) then
       '(status, m, (_, AbsData, KeyData)) ← HIDMouseProbe I C (zlen cs) RelData AbsData KeyData;
       mret (status, registered MouseClass cs m, AbsData, KeyData)
     else mret (STATUS_SUCCESS, cs, AbsData, KeyData));
  if negb (NT_SUCCESS status) then mret (status, cs) else
  '(status, cs, AbsData, KeyData) ←
    (if negb (InputCfgDataEmpty AbsData) then
       '(status, j, (AbsData, KeyData)) ← HIDJoystickProbe I C (zlen cs) AbsData KeyData;
       mret (status, registered JoystickClass cs j, AbsData, KeyData)
     else mret (STATUS_SUCCESS, cs, AbsData, KeyData));
  if negb (NT_SUCCESS status) then mret (status, cs) else
  '(status, cs) ←
    (if negb (InputCfgDataEmpty AbsData) then
       '(status, t, _) ← HIDTabletProbe I C (zlen cs) AbsData KeyData MscData;
       mret (status, registered TabletClass cs t)
     else mret (STATUS_SUCCESS, cs));
  if negb (NT_SUCCESS status) then mret (status, cs) else
  '(status, cs, KeyData) ←
    (if negb (InputCfgDataEmpty KeyData) then
       LedData ← read_event_bits C (stack EV_LED) EV_LED;
       '(status, k, KeyData) ← keyboard_probe (zlen cs) KeyData LedData;
       mret (status, registered KeyboardClass cs k, KeyData)
     else mret (STATUS_SUCCESS, cs, KeyData));
  if negb (NT_SUCCESS status) then mret (status, cs) else
  if negb (InputCfgDataEmpty KeyData) then
    '(status, s, _) ← HIDConsumerProbe I (zlen cs) KeyData;
    mret (status, registered ConsumerClass cs s)
  else mret (STATUS_SUCCESS, cs).

Definition VIOInputBuildReportDescriptor (stack : Z -> list Z) (d : INPUT_DEVICE E) : res (Z * INPUT_DEVICE E) :=
  let none := mk_array PtrNull 0 0 in
  '((status, cs), p) ← probe_all stack (InputClasses d) (mk_probing _ (denv d) none none);
  let d := d <| denv := penv p |> <| InputClasses := cs |> in
  if negb (NT_SUCCESS status) then Ok (status, d)
  else if DynamicArrayIsEmpty (pDesc p) then Ok (status, d <| HidReportDescriptor := None |>)
  else
    match (DynamicArrayGet (pDesc p)).1 with
    | None => Ok (STATUS_INSUFFICIENT_RESOURCES, d <| HidReportDescriptor := None |>)
    | Some (bytes, cb) =>
        Ok (status, d <| HidReportDescriptor := Some bytes |> <| wReportLength := u16 cb |>
                      <| HidReportDescriptorHash := ComputeHash bytes |>)
    end.
End build.

(** ** Events and requests *)

(** The framework: the queue of pending read requests, the output memory of a request (status
    and length), the copy into it (status), the count that is reported, forwarding a request to
    the queue (status), and the completion. *)
Record hid_env {E : Type} := mk_hid_env {
  WdfIoQueueRetrieveNextRequest : E -> option Z * E;
  WdfRequestRetrieveOutputMemory : E -> Z -> Z * Z;
  WdfMemoryCopyFromBuffer : E -> Z -> list Z -> Z * E;
  WdfRequestSetInformation : E -> Z -> Z -> E;
  WdfRequestForwardToIoQueue : E -> Z -> Z * E;
  hid_complete : E -> Z -> Z -> E }.
Arguments hid_env : clear implicits.

Section requests.
Context {E : Type} (I : input_env E) (H : hid_env E).

(** The first [n] bytes of [src]. *)
Definition RequestCopyFromBuffer (e : E) (Request : Z) (src : list Z) (n : Z) : res (Z * E) :=
  let '(status, len) := WdfRequestRetrieveOutputMemory H e Request in
  if negb (NT_SUCCESS status) then Ok (status, e)
  else if len <? n then Ok (STATUS_INVALID_BUFFER_SIZE, e)
  else if n >? zlen src then Fault OutOfBounds
  else
    let '(status, e) := WdfMemoryCopyFromBuffer H e Request (take (Z.to_nat n) src) in
    if negb (NT_SUCCESS status) then Ok (status, e)
    else Ok (status, WdfRequestSetInformation H e Request n).

(** The report that was sent up, if any, the class and the outside. *)
Definition CompleteHIDQueueRequest (e : E) (c : input_class) : res (option (list Z) * input_class * E) :=
  let common := class_common c in
  if negb (cDirty common) then Ok (None, c, e)
  else
    match WdfIoQueueRetrieveNextRequest H e with
    | (None, e) => Ok (None, c, e)
    | (Some request, e) =>
        '(status, e) ← RequestCopyFromBuffer e request (cReport common) (cbHidReportSize common);
        let e := hid_complete H e request status in
        if NT_SUCCESS status then Ok (Some (cReport common), class_clean c, e) else Ok (None, c, e)
    end.

(** Collect and send, class by class; the reports sent, oldest first. *)
Fixpoint send_reports (e : E) (ev : VIRTIO_INPUT_EVENT) (cs : list input_class) : res (list (list Z) * list input_class * E) :=
  match cs with
  | [] => Ok ([], [], e)
  | c :: cs =>
      c ← EventToCollect c ev;
      '(sent, c, e) ← CompleteHIDQueueRequest e c;
      '(more, cs, e) ← send_reports e ev cs;
      Ok (option_list sent ++ more, c :: cs, e)
  end.

Fixpoint translate (ev : VIRTIO_INPUT_EVENT) (cs : list input_class) : res (list input_class) :=
  match cs with
  | [] => Ok []
  | c :: cs => c ← EventToReport c ev; cs ← translate ev cs; Ok (c :: cs)
  end.

(** The reports that were sent up, and the device. *)
Definition ProcessInputEvent (d : INPUT_DEVICE E) (ev : VIRTIO_INPUT_EVENT) : res (list (list Z) * INPUT_DEVICE E) :=
  '(sent, cs, e) ← (if ev_type ev =? EV_SYN then send_reports (denv d) ev (InputClasses d)
                    else Ok ([], InputClasses d, denv d));
  cs ← translate ev cs;
  Ok (sent, d <| InputClasses := cs |> <| denv := e |>).

(** The class of the report, up to the first that has its identifier; only the keyboard has a
    [ReportToEventFunc]. *)
Fixpoint output_report (e : E) (Request id : Z) (buffer : list Z) (len : Z) (cs : list input_class)
    : res (Z * list input_class * E) :=
  match cs with
  | [] => Ok (STATUS_NONE_MAPPED, [], e)
  | c :: cs =>
      if cReportID (class_common c) =? id then
        match c with
        | KeyboardClass k =>
            '(status, k, e) ← HIDKeyboardReportToEvent I e k Request buffer len;
            Ok (status, KeyboardClass k :: cs, e)
        | _ => Ok (STATUS_NONE_MAPPED, c :: cs, e)
        end
      else '(status, cs, e) ← output_report e Request id buffer len cs; Ok (status, c :: cs, e)
  end.

(** [HID_XFER_PACKET]: the buffer, its length, and the report identifier. *)
Record HID_XFER_PACKET := mk_packet { reportBuffer : list Z; reportBufferLen : Z; reportId : Z }.

Definition ProcessOutputReport (d : INPUT_DEVICE E) (Request : Z) (p : HID_XFER_PACKET) : res (Z * INPUT_DEVICE E) :=
  '(status, cs, e) ← output_report (denv d) Request (reportId p) (reportBuffer p) (reportBufferLen p) (InputClasses d);
  Ok (status, d <| InputClasses := cs |> <| denv := e |>).

(** [GetFeatureFunc] of every class that has one, up to the first failure: the status and the
    buffer. *)
Fixpoint get_feature (cs : list input_class) (status : Z) (buffer : list Z) (len : Z) : res (Z * list Z) :=
  match cs with
  | [] => Ok (status, buffer)
  | TabletClass t :: cs =>
      '(status, buffer) ← HIDTabletGetFeature t buffer len;
      if negb (NT_SUCCESS status) then Ok (status, buffer) else get_feature cs status buffer len
  | _ :: cs => get_feature cs status buffer len
  end.

(** The bytes of [G_DefaultHidDescriptor] with the length of the report descriptor. *)
Definition HidDescriptor (wReportLength : Z) : list Z :=
  [0x09; 0x21; 0x00; 0x01; 0x00; 0x01; 0x22] ++ le_bytes 2 wReportLength.

(** [HidDeviceAttributes]: size, vendor, product and version. *)
Definition HidDeviceAttributes : list Z :=
  le_bytes 4 sizeof_HID_DEVICE_ATTRIBUTES ++ le_bytes 2 0x1AF4 ++ le_bytes 2 0x1052 ++ le_bytes 2 1 ++ replicate 22 0.

Inductive ioctl :=
  | IOCTL_HID_GET_DEVICE_DESCRIPTOR
  | IOCTL_HID_GET_DEVICE_ATTRIBUTES
  | IOCTL_HID_GET_REPORT_DESCRIPTOR
  | IOCTL_HID_READ_REPORT
  | IOCTL_HID_WRITE_REPORT (inputLength : Z) (packet : HID_XFER_PACKET)
  | IOCTL_HID_GET_FEATURE (outputLength : Z) (packet : option HID_XFER_PACKET)
  | IOCTL_OTHER.

(** Whether the request was completed here, the buffer of a feature request, and the device. *)
Definition EvtIoDeviceControl (d : INPUT_DEVICE E) (Request : Z) (code : ioctl) : res (option Z * list Z * INPUT_DEVICE E) :=
  let complete status d := Ok (Some status, [], d <| denv := hid_complete H (denv d) Request status |>) in
  let copy src n := '(status, e) ← RequestCopyFromBuffer (denv d) Request src n; complete status (d <| denv := e |>) in
  match code with
  | IOCTL_HID_GET_DEVICE_DESCRIPTOR => copy (HidDescriptor (wReportLength d)) 9
  | IOCTL_HID_GET_DEVICE_ATTRIBUTES => copy HidDeviceAttributes sizeof_HID_DEVICE_ATTRIBUTES
  | IOCTL_HID_GET_REPORT_DESCRIPTOR =>
      match HidReportDescriptor d with
      | Some bytes => copy bytes (wReportLength d)
      | None => Fault NullPointer
      end
  | IOCTL_HID_READ_REPORT =>
      let '(status, e) := WdfRequestForwardToIoQueue H (denv d) Request in
      if NT_SUCCESS status then Ok (None, [], d <| denv := e |>) else complete status (d <| denv := e |>)
  | IOCTL_HID_WRITE_REPORT inputLength packet =>
      if inputLength <? sizeof_HID_XFER_PACKET then complete STATUS_BUFFER_TOO_SMALL d
      else
        let d := d <| denv := WdfRequestSetInformation H (denv d) Request (reportBufferLen packet) |> in
        '(status, d) ← ProcessOutputReport d Request packet;
        if NT_SUCCESS status then Ok (None, [], d) else complete status d
  | IOCTL_HID_GET_FEATURE outputLength packet =>
      if outputLength <? sizeof_HID_XFER_PACKET then complete STATUS_BUFFER_TOO_SMALL d
      else
        match packet with
        | None => complete STATUS_INVALID_DEVICE_REQUEST d
        | Some p =>
            '(status, buffer) ← get_feature (InputClasses d) STATUS_NOT_IMPLEMENTED (reportBuffer p) (reportBufferLen p);
            Ok (Some status, buffer, d <| denv := hid_complete H (denv d) Request status |>)
        end
  | IOCTL_OTHER => complete STATUS_NOT_IMPLEMENTED d
  end.
End requests.
