(* ===== verification/VioInputHidSpec.v ===== *)
(** * virtio-input: report descriptors

    What a report descriptor means, by the HID specification: a sequence of items that
    declares, for every report identifier, a sequence of fields.  And how the probes extend the
    descriptor under construction. *)

From Stdlib Require Import ZArith Lia.
From stdpp Require Import base list numbers option sets.
From S2P Require Import Prelude.
From S2P Require Import Effects.
From S2P Require Import VioInput.
From S2P Require Import VioInputSpec.
From S2P Require Import VioInputProbe.
From S2P Require Import VioInputClasses.

(** ** Items and their bytes *)

(** The item of a [HIDAppend2] call, or the end of a collection. *)
Inductive ditem := Item (tag value : Z) | EndCollection.

Definition ditem_bytes (d : ditem) : list Z :=
  match d with Item t v => encode_item (t, v) | EndCollection => [HID_TAG_END_COLLECTION] end.
Definition ditem_pair (d : ditem) : Z * Z :=
  match d with Item t v => (t, v) | EndCollection => (HID_TAG_END_COLLECTION, 0) end.
Definition ditem_ok (d : ditem) : Prop := match d with Item t v => item_ok (t, v) | EndCollection => True end.
Definition descriptor_bytes (ds : list ditem) : list Z := ds ≫= ditem_bytes.
Definition ditems (items : list (Z * Z)) : list ditem := (fun i => Item i.1 i.2) <$> items.

Lemma descriptor_bytes_app a b : descriptor_bytes (a ++ b) = descriptor_bytes a ++ descriptor_bytes b.
Proof. apply bind_app. Qed.

Lemma ditems_bytes items : descriptor_bytes (ditems items) = encode_items items.
Proof.
  unfold descriptor_bytes, encode_items, ditems. induction items as [|[t v] items IH]; [done|].
  rewrite fmap_cons, !bind_cons, IH. done.
Qed.

Lemma zlen_ditems items : zlen (ditems items) = zlen items.
Proof. unfold zlen, ditems. by rewrite length_fmap. Qed.

Lemma ditems_ok items : Forall item_ok items -> Forall ditem_ok (ditems items).
Proof. intros H. apply Forall_fmap. eapply Forall_impl; [exact H|]. by intros []. Qed.

Lemma ditem_size d : ditem_ok d -> 1 <= zlen (ditem_bytes d) <= 5.
Proof. destruct d as [t v|]; [|done]. intros H. apply (length_encode_item (t, v)) in H. cbn [ditem_bytes]. lia. Qed.

(** The parser of the HID specification reads the items back. *)
Lemma descriptor_parse ds : forall fuel, Forall ditem_ok ds ->
  parse_items (length ds + fuel) (descriptor_bytes ds) = Some (ditem_pair <$> ds).
Proof.
  induction ds as [|d ds IH]; intros fuel Hok; [by destruct fuel|].
  apply list.Forall_cons in Hok as [Hd Hok]. unfold descriptor_bytes. rewrite bind_cons. cbn [length Nat.add fmap list_fmap].
  change (ds ≫= ditem_bytes) with (descriptor_bytes ds). destruct d as [t v|].
  - pose proof (parse_encode_items [(t, v)] (length ds + fuel) (descriptor_bytes ds) _
      (list.Forall_cons_2 item_ok _ _ Hd (list.Forall_nil_2 _)) (IH fuel Hok)) as P.
    unfold encode_items in P. rewrite bind_cons, app_nil_r in P. exact P.
  - cbn [ditem_bytes app parse_items]. change (HID_TAG_END_COLLECTION mod 4) with 0. rewrite bool_decide_false by lia. rewrite drop_0, (IH fuel Hok). done.
Qed.

Lemma descriptor_length ds : Forall ditem_ok ds -> (length ds <= length (descriptor_bytes ds))%nat.
Proof.
  induction ds as [|d ds IH]; [done|]. intros H. apply list.Forall_cons in H as [Hd H]. unfold descriptor_bytes.
  rewrite bind_cons, length_app. pose proof (ditem_size d Hd) as L. unfold zlen in L. specialize (IH H).
  unfold descriptor_bytes in IH. cbn [length]. lia.
Qed.

(** ** What items declare *)

(** One main item for input: [f_count] values of [f_size] bits each, for the usages in order;
    padding is constant. *)
Record field := mk_field { f_id : Z; f_page : Z; f_usages : list Z; f_size : Z; f_count : Z; f_flags : Z }.

(** The state of the parser: the global items, the usages since the last main item, and the
    input items so far. *)
Record hid := mk_hid {
  h_page : Z; h_size : Z; h_count : Z; h_id : Z; h_umin : Z; h_usages : list Z; h_fields : list field }.
#[export] Instance eta_hid : Eta hid := fun h =>
  mk_hid (h_page h) (h_size h) (h_count h) (h_id h) (h_umin h) (h_usages h) (h_fields h).

Definition hid_main (h : hid) : hid := h <| h_usages := [] |> <| h_umin := 0 |>.

Definition hid_item (h : hid) (item : Z * Z) : hid :=
  let '(t, v) := item in
  if t =? HID_TAG_USAGE_PAGE then h <| h_page := v |>
  else if t =? HID_TAG_USAGE then h <| h_usages := h_usages h ++ [v] |>
  else if t =? HID_TAG_USAGE_MINIMUM then h <| h_umin := v |>
  else if t =? HID_TAG_USAGE_MAXIMUM then h <| h_usages := h_usages h ++ seqZ (h_umin h) (v - h_umin h + 1) |>
  else if t =? HID_TAG_REPORT_SIZE then h <| h_size := v |>
  else if t =? HID_TAG_REPORT_COUNT then h <| h_count := v |>
  else if t =? HID_TAG_REPORT_ID then h <| h_id := v |>
  else if t =? HID_TAG_INPUT then
    hid_main (h <| h_fields := h_fields h ++ [mk_field (h_id h) (h_page h) (h_usages h) (h_size h) (h_count h) v] |>)
  else if (t =? HID_TAG_OUTPUT) || (t =? HID_TAG_FEATURE) || (t =? HID_TAG_COLLECTION) || (t =? HID_TAG_END_COLLECTION)
  then hid_main h
  else h.

Definition hid_start : hid := mk_hid 0 0 0 0 0 [] [].
Definition hid_run (h : hid) (ds : list ditem) : hid := foldl (fun h d => hid_item h (ditem_pair d)) h ds.

(** The input items of a descriptor. *)
Definition declared (items : list (Z * Z)) : list field := h_fields (foldl hid_item hid_start items).

(** The length in bits of the input report [id], without the identifier. *)
Definition report_bits (id : Z) (fs : list field) : Z :=
  foldr (fun f n => (if f_id f =? id then f_size f * f_count f else 0) + n) 0 fs.

(** Report [id] has, from bit [pos], [size] bits for the usage [usage] of [page]. *)
Definition located (fs : list field) (id pos page usage size : Z) : Prop :=
  exists pre f post k, fs = pre ++ f :: post /\ f_id f = id /\ f_page f = page /\ f_size f = size /\
    Z.testbit (f_flags f) 0 = false /\ Z.testbit (f_flags f) 1 = true /\
    f_usages f !! k = Some usage /\ Z.of_nat k < f_count f /\ pos = report_bits id pre + Z.of_nat k * size.

Lemma report_bits_app id a b : report_bits id (a ++ b) = report_bits id a + report_bits id b.
Proof. unfold report_bits. induction a as [|f a IH]; cbn [app foldr]; [done|]. rewrite IH. lia. Qed.

Lemma report_bits_other id fs : Forall (fun f => f_id f <> id) fs -> report_bits id fs = 0.
Proof.
  induction 1 as [|f fs Hf _ IH]; [done|]. unfold report_bits in *. cbn [foldr]. rewrite IH.
  by destruct (Z.eqb_spec (f_id f) id).
Qed.

Lemma located_app_l a b id pos page usage size : located a id pos page usage size -> located (a ++ b) id pos page usage size.
Proof.
  intros (pre & f & post & k & -> & H). exists pre, f, (post ++ b), k. split; [|done]. by rewrite <- app_assoc.
Qed.

Lemma located_app_r a b id pos page usage size :
  located b id pos page usage size -> located (a ++ b) id (report_bits id a + pos) page usage size.
Proof.
  intros (pre & f & post & k & -> & H1 & H2 & H3 & H4 & H5 & H6 & H7 & ->). exists (a ++ pre), f, post, k.
  split; [by rewrite <- app_assoc|]. split_and!; try done. rewrite report_bits_app. lia.
Qed.

Lemma hid_run_app h a b : hid_run h (a ++ b) = hid_run (hid_run h a) b.
Proof. apply foldl_app. Qed.

(** The usages of the fields that follow do not depend on the fields before. *)
Lemma hid_item_fields h item fs : 
  hid_item (h <| h_fields := fs ++ h_fields h |>) item =
  (hid_item h item) <| h_fields := fs ++ h_fields (hid_item h item) |>.
Proof. destruct item as [t v]. destruct h. unfold hid_item, hid_main. repeat case_match; cbn; rewrite <- ?app_assoc; done. Qed.

Lemma hid_run_fields ds : forall h fs,
  hid_run (h <| h_fields := fs ++ h_fields h |>) ds = (hid_run h ds) <| h_fields := fs ++ h_fields (hid_run h ds) |>.
Proof.
  induction ds as [|d ds IH]; intros h fs; cbn [hid_run foldl] in *; [done|].
  rewrite hid_item_fields. apply IH.
Qed.

(** ** Extending the descriptor and the axis map *)

(** [p'] is [p] after the items [ds] were appended to the descriptor and [bs] to the axis map. *)
Definition step {E} (p p' : probing E) (ds : list ditem) (bs : list Z) : Prop :=
  appended (pDesc p) (pDesc p') (descriptor_bytes ds) /\ appended (pMap p) (pMap p') bs /\ Forall ditem_ok ds.

(** Both arrays are well formed and have room for [k] more bytes. *)
Definition room {E} (k : Z) (p : probing E) : Prop :=
  (array_ok (pDesc p) /\ array_ok (pMap p)) /\ 0 <= k /\ Size (pDesc p) + k <= 2 ^ 61 /\ Size (pMap p) + k <= 2 ^ 61.

Definition cost (ds : list ditem) (bs : list Z) : Z := zlen (descriptor_bytes ds) + zlen bs.

Section step.
Context {E : Type}.
Implicit Types p : probing E.

Lemma step_refl p k : room k p -> step p p [] [].
Proof. intros ((? & ?) & _). split_and!; [by apply appended_nil..|done]. Qed.

Lemma step_trans p1 p2 p3 d1 b1 d2 b2 : step p1 p2 d1 b1 -> step p2 p3 d2 b2 -> step p1 p3 (d1 ++ d2) (b1 ++ b2).
Proof.
  intros (A1 & B1 & O1) (A2 & B2 & O2). split_and!; [rewrite descriptor_bytes_app|..].
  - by eapply appended_trans.
  - by eapply appended_trans.
  - by apply Forall_app.
Qed.

Lemma step_room p p' ds bs k c : room k p -> step p p' ds bs -> cost ds bs <= c -> c <= k -> room (k - c) p'.
Proof.
  intros (_ & K & D & B) ((O1 & S1 & _) & (O2 & S2 & _) & _) Hc Hk. unfold cost in Hc.
  pose proof (zlen_nonneg (descriptor_bytes ds)). pose proof (zlen_nonneg bs). split_and!; [done|done|lia..].
Qed.

Lemma room_le p k k' : room k p -> 0 <= k' <= k -> room k' p.
Proof. intros (O & K & D & B) H. split; [done|lia]. Qed.

Lemma cost_app d1 b1 d2 b2 : cost (d1 ++ d2) (b1 ++ b2) = cost d1 b1 + cost d2 b2.
Proof. unfold cost. rewrite descriptor_bytes_app, !zlen_app. lia. Qed.

Lemma cost_nonneg ds bs : 0 <= cost ds bs.
Proof. unfold cost. pose proof (zlen_nonneg (descriptor_bytes ds)). pose proof (zlen_nonneg bs). lia. Qed.
End step.

(** [adds m c Q p]: from [p], [m] ends without a fault, having appended items and map bytes of
    at most [c] bytes; with the result they satisfy [Q]. *)
Definition adds {E A} (m : M (probing E) A) (c : Z) (Q : A -> list ditem -> list Z -> Prop) (p : probing E) : Prop :=
  wp m (fun a p' => exists ds bs, step p p' ds bs /\ cost ds bs <= c /\ Q a ds bs) p.

Section adds.
Context {E : Type} (I : input_env E) (C : config_env E).
Implicit Types p : probing E.

Lemma adds_ret {A} (a : A) c Q p : room c p -> Q a [] [] -> adds (mret a) c Q p.
Proof. intros R H. exists [], []. split; [by eapply step_refl|]. split; [apply R|done]. Qed.

Lemma adds_bind {A B} (m : M (probing E) A) (f : A -> M (probing E) B) c c1 c2 (Q1 : A -> list ditem -> list Z -> Prop) Q p :
  room c p -> 0 <= c2 -> c1 + c2 <= c -> adds m c1 Q1 p ->
  (forall a ds bs p', Q1 a ds bs -> step p p' ds bs -> room c2 p' ->
     adds (f a) c2 (fun b ds' bs' => Q b (ds ++ ds') (bs ++ bs')) p') ->
  adds (m ≫= f) c Q p.
Proof.
  intros R H0 Hc H Hf. apply wp_bind. eapply wp_mono; [exact H|]. intros a p' (ds & bs & S & Hd & HQ).
  pose proof (cost_nonneg ds bs).
  eapply wp_mono; [eapply Hf; [exact HQ|exact S|]|].
  - eapply room_le; [eapply (step_room p p' ds bs c (c - c2)); [exact R|exact S|lia|lia]|lia].
  - intros b p2 (ds' & bs' & S' & Hd' & HQ'). exists (ds ++ ds'), (bs ++ bs').
    split; [by eapply step_trans|]. rewrite cost_app. split; [lia|done].
Qed.

Lemma adds_mono {A} (m : M (probing E) A) c c' (Q Q' : A -> list ditem -> list Z -> Prop) p :
  adds m c Q p -> c <= c' -> (forall a ds bs, Q a ds bs -> Q' a ds bs) -> adds m c' Q' p.
Proof.
  intros H Hc HQ. eapply wp_mono; [exact H|]. intros a p' (ds & bs & S & Hd & H'). exists ds, bs. split_and!; [done|lia|auto].
Qed.

(** An action on the outside only. *)
Lemma adds_outside {A} (m : M (probing E) A) (P : A -> Prop) p :
  room 0 p -> wp m (fun a p' => pDesc p' = pDesc p /\ pMap p' = pMap p /\ P a) p -> adds m 0 (fun a ds bs => P a /\ ds = [] /\ bs = []) p.
Proof.
  intros ((O1 & O2) & _) H. eapply wp_mono; [exact H|]. intros a p' (E1 & E2 & HP). exists [], [].
  split; [|done]. unfold step. rewrite E1, E2. split_and!; [by apply appended_nil..|done].
Qed.

Lemma adds_describe items c p : room c p -> Forall item_ok items -> zlen (encode_items items) <= c -> 5 * zlen items < 2 ^ 60 ->
  adds (describe I items) c (fun _ ds bs => ds = ditems items /\ bs = []) p.
Proof.
  intros ((O1 & O2) & K & D & B) Hi Hc Hz.
  destruct (append_items_ok I items (penv p) (pDesc p) O1 ltac:(lia) Hi) as (a & e & Ea & A).
  unfold adds, wp, describe. rewrite Ea. cbn [mbind res_bind]. exists (ditems items), []. split; [|split; [|done]].
  - split_and!; [by rewrite ditems_bytes|by apply appended_nil|by apply ditems_ok].
  - unfold cost. rewrite ditems_bytes, zlen_nil. lia.
Qed.

Lemma adds_end c p : room c p -> 1 <= c ->
  adds (describe1 I HID_TAG_END_COLLECTION) c (fun _ ds bs => ds = [EndCollection] /\ bs = []) p.
Proof.
  intros ((O1 & O2) & K & D & B) Hc.
  destruct (append1_ok I (penv p) (pDesc p) HID_TAG_END_COLLECTION O1 ltac:(lia)) as (a & e & Ea & A).
  unfold adds, wp, describe1. rewrite Ea. cbn [mbind res_bind]. exists [EndCollection], []. split; [|done].
  split_and!; [done|by apply appended_nil|by repeat constructor].
Qed.

Lemma adds_map_bytes b c p : room c p -> 0 < zlen b <= c ->
  adds (map_bytes I b) c (fun _ ds bs => ds = [] /\ bs = b) p.
Proof.
  intros ((O1 & O2) & K & D & B) Hc.
  destruct (append_ok I (penv p) (pMap p) b O2 ltac:(lia) ltac:(lia)) as (ok & a & e & Ea & A & _).
  unfold adds, wp, map_bytes. rewrite Ea. cbn [mbind res_bind]. exists [], b. split; [|split; [|done]].
  - split_and!; [by apply appended_nil|done|done].
  - unfold cost. change (zlen (descriptor_bytes [])) with 0. lia.
Qed.

Lemma adds_map_reserve n p : room 0 p -> 0 < n <= 2 ^ 62 -> adds (map_reserve I n) 0 (fun _ ds bs => ds = [] /\ bs = []) p.
Proof.
  intros ((O1 & O2) & K & D & B) Hn.
  destruct (reserve_ok I (penv p) (pMap p) n O2 ltac:(lia)) as (ok & a & e & Ea & A & Sz & Hr).
  unfold adds, wp, map_reserve. rewrite Ea. cbn [mbind res_bind]. exists [], []. split; [|done].
  split_and!; [by apply appended_nil| |done]. split; [done|]. split; [cbn; change (zlen []) with 0; lia|]. cbn.
  destruct ok; [|by left]. destruct Hr as (H1 & _ & H2 & _). rewrite H2. destruct (contents (pMap p)) as [b|]; [|done].
  right. exists b. by rewrite app_nil_r.
Qed.

(** One entry of an axis map. *)
Definition map_entry (code off : Z) : list Z := le_bytes 4 code ++ le_bytes 4 off.

Lemma adds_map_append code off p : room 8 p -> adds (HIDMouseAxisMapAppend I code off) 8 (fun _ ds bs => ds = [] /\ bs = map_entry code off) p.
Proof.
  intros R. unfold HIDMouseAxisMapAppend. pose proof (length_le_bytes 4 code). pose proof (length_le_bytes 4 off).
  eapply (adds_bind _ _ 8 4 4 (fun _ ds bs => ds = [] /\ bs = le_bytes 4 code)); [done|lia|lia| |].
  - apply adds_map_bytes; [eapply room_le; [exact R|lia]|unfold zlen; lia].
  - intros [] ds bs p' (-> & ->) _ R'. eapply adds_mono; [apply adds_map_bytes; [exact R'|unfold zlen; lia]|lia|].
    by intros _ ds bs (-> & ->).
Qed.
End adds.

(** ** Bitmaps *)

Definition cfg_ok (d : VIRTIO_INPUT_CFG_DATA) : Prop :=
  zlen (cfg_bitmap d) = sizeof_bitmap /\ 0 <= cfg_size d <= sizeof_bitmap /\ Forall byte_ok (cfg_bitmap d).

(** The codes of the bits that are set, in ascending order. *)
Fixpoint bitmap_codes (i : Z) (bitmap : list Z) : list Z :=
  match bitmap with
  | [] => []
  | b :: bitmap => ((fun v => v + 8 * i) <$> decode_bits b) ++ bitmap_codes (i + 1) bitmap
  end.

Definition codes_of (d : VIRTIO_INPUT_CFG_DATA) : list Z := bitmap_codes 0 (take (Z.to_nat (cfg_size d)) (cfg_bitmap d)).

Lemma bitmap_codes_range bitmap : forall i, Forall byte_ok bitmap ->
  Forall (fun c => 8 * i <= c < 8 * (i + zlen bitmap)) (bitmap_codes i bitmap).
Proof.
  induction bitmap as [|b bitmap IH]; intros i H; cbn [bitmap_codes]; [done|].
  apply list.Forall_cons in H as [Hb H]. rewrite zlen_cons. pose proof (zlen_nonneg bitmap). apply Forall_app. split.
  - apply Forall_fmap. eapply Forall_impl; [by apply decode_bits_range|]. intros v Hv. cbn beta in *. unfold compose. lia.
  - eapply Forall_impl; [by apply IH|]. intros c Hc. cbn beta in *. lia.
Qed.

Lemma decode_bits_few b : byte_ok b -> (length (decode_bits b) <= 8)%nat.
Proof. intros Hb. rewrite decode_bits_eq by done. rewrite List.filter_length_le. done. Qed.

Lemma bitmap_codes_few bitmap : forall i, Forall byte_ok bitmap -> (length (bitmap_codes i bitmap) <= 8 * length bitmap)%nat.
Proof.
  induction bitmap as [|b bitmap IH]; intros i H; cbn [bitmap_codes length]; [lia|].
  apply list.Forall_cons in H as [Hb H]. rewrite length_app, length_fmap. pose proof (decode_bits_few b Hb). specialize (IH (i + 1) H). lia.
Qed.

Lemma lor_bit_ok non v : byte_ok non -> 0 <= v < 8 -> byte_ok (Z.lor non (u8 (Z.shiftl 1 v))).
Proof.
  intros Hn Hv. unfold byte_ok in *. split; [apply Z.lor_nonneg; split; [lia|apply u8_range]|].
  apply (Z.log2_lt_cancel _ (2 ^ 8)). rewrite Z.log2_lor by (lia || apply u8_range). change (Z.log2 (2 ^ 8)) with 8.
  assert (forall x, 0 <= x < 256 -> Z.log2 x < 8) as L.
  { intros x Hx. destruct (Z.eq_dec x 0) as [->|]; [done|]. apply Z.log2_lt_pow2; lia. }
  pose proof (L non Hn). pose proof (L (u8 (Z.shiftl 1 v)) (u8_range _)). lia.
Qed.

Lemma codes_few d : cfg_ok d -> zlen (codes_of d) <= 1024.
Proof.
  intros (Hz & Hs & Hb). unfold codes_of. pose proof (bitmap_codes_few (take (Z.to_nat (cfg_size d)) (cfg_bitmap d)) 0 ltac:(by apply Forall_take)) as L.
  rewrite length_take in L. unfold zlen, sizeof_bitmap in *. lia.
Qed.

Lemma codes_range d : cfg_ok d -> Forall (fun c => 0 <= c < 1024) (codes_of d).
Proof.
  intros (Hz & Hs & Hb). eapply Forall_impl; [apply bitmap_codes_range; by apply Forall_take|].
  intros c Hc. cbn beta in *. assert (zlen (take (Z.to_nat (cfg_size d)) (cfg_bitmap d)) <= 128)
    by (unfold zlen, sizeof_bitmap in *; rewrite length_take; lia). lia.
Qed.

Lemma codes_nodup d : cfg_ok d -> NoDup (codes_of d).
Proof.
  intros (Hz & Hs & Hb). unfold codes_of. apply (Forall_take _ (Z.to_nat (cfg_size d))) in Hb. revert Hb. generalize (take (Z.to_nat (cfg_size d)) (cfg_bitmap d)) as bm.
  intros bm. generalize 0. induction bm as [|b bm IH]; intros i H; cbn [bitmap_codes]; [constructor|].
  apply list.Forall_cons in H as [Hb H]. apply NoDup_app. split_and!.
  - apply NoDup_fmap_2; [intros x y; lia|]. rewrite decode_bits_eq by done. apply NoDup_ListNoDup, List.NoDup_filter, NoDup_ListNoDup, NoDup_seqZ.
  - intros c Hc Hc'. apply list_elem_of_fmap in Hc as (v & -> & Hv). pose proof (decode_bits_range b Hb) as Hr. rewrite list.Forall_forall in Hr. specialize (Hr v Hv).
    pose proof (bitmap_codes_range bm (i + 1) H) as Hr'. rewrite list.Forall_forall in Hr'. specialize (Hr' _ Hc'). cbn beta in *. lia.
  - by apply IH.
Qed.

Lemma filter_true {A} (l : list A) : List.filter (fun _ => true) l = l.
Proof. induction l as [|x l IH]; [done|]. cbn. by rewrite IH. Qed.

Section scan.
Context {E A : Type}.
Implicit Types p : probing E.
Context (claims : Z -> bool) (f : Z -> A -> M (probing E) A) (c : Z) (R : A -> list Z -> list ditem -> list Z -> Prop) (inb : Z -> Prop).
Hypothesis Hf : forall code acc done ds bs p, claims code = true -> 0 <= code < 1024 -> inb code -> R acc done ds bs -> room c p ->
  adds (f code acc) c (fun acc' ds' bs' => R acc' (done ++ [code]) (ds ++ ds') (bs ++ bs')) p.
Hypothesis Hc : 0 <= c.

Lemma scan_bits_ok bits i : forall non acc done ds bs p, 0 <= i < 128 -> Forall (fun v => 0 <= v < 8) bits -> Forall inb ((fun v => v + 8 * i) <$> bits) -> byte_ok non ->
  R acc done ds bs -> room (c * Z.of_nat (length bits)) p ->
  adds (scan_bits claims f bits i non acc) (c * Z.of_nat (length bits)) (fun r ds' bs' =>
    byte_ok r.1 /\ R r.2 (done ++ List.filter claims ((fun v => v + 8 * i) <$> bits)) (ds ++ ds') (bs ++ bs')) p.
Proof.
  induction bits as [|v bits IH]; intros non acc done ds bs p Hi Hb Hin Hn HR Hp; cbn [scan_bits length] in *.
  - eapply adds_mono; [apply adds_ret; [exact Hp|]|lia|by intros ? ? ? H; exact H]. cbn. by rewrite !app_nil_r.
  - apply list.Forall_cons in Hb as [Hv Hb]. apply list.Forall_cons in Hin as [Hv' Hin]. rewrite Nat2Z.inj_succ in Hp |- *. cbn [fmap list_fmap List.filter].
    destruct (claims (v + 8 * i)) eqn:Ec.
    + eapply (adds_bind _ _ _ c (c * Z.of_nat (length bits)) (fun acc' ds' bs' => R acc' (done ++ [v + 8 * i]) (ds ++ ds') (bs ++ bs'))); [exact Hp|nia|nia| |].
      * apply Hf; [done|lia|done|done|]. eapply room_le; [exact Hp|nia].
      * intros acc' ds' bs' p' HR' _ Hp'.
        eapply adds_mono; [apply (IH non acc' (done ++ [v + 8 * i]) (ds ++ ds') (bs ++ bs') p'); done|lia|].
        intros r ds2 bs2 (H1 & H2). split; [done|]. rewrite <- !app_assoc in H2. exact H2.
    + eapply adds_mono; [apply (IH (Z.lor non (u8 (Z.shiftl 1 v))) acc done ds bs p); [done|done|done|by apply lor_bit_ok|done|eapply room_le; [exact Hp|nia]]|nia|].
      intros r ds2 bs2 H. exact H.
Qed.

Lemma scan_bytes_ok bitmap : forall i acc done ds bs p, 0 <= i -> i + zlen bitmap <= 128 -> Forall byte_ok bitmap -> Forall inb (bitmap_codes i bitmap) ->
  R acc done ds bs -> room (8 * c * zlen bitmap) p ->
  adds (scan_bytes claims f bitmap i acc) (8 * c * zlen bitmap) (fun r ds' bs' =>
    (zlen r.1 = zlen bitmap /\ Forall byte_ok r.1) /\ R r.2 (done ++ List.filter claims (bitmap_codes i bitmap)) (ds ++ ds') (bs ++ bs')) p.
Proof.
  induction bitmap as [|b bitmap IH]; intros i acc done ds bs p Hi Hl Hb Hin HR Hp; cbn [scan_bytes bitmap_codes] in *.
  - apply adds_ret; [done|]. cbn. rewrite !app_nil_r. done.
  - apply list.Forall_cons in Hb as [Hb Hbs]. apply Forall_app in Hin as [Hin1 Hin]. rewrite zlen_cons in *. pose proof (zlen_nonneg bitmap).
    pose proof (decode_bits_few b Hb). pose proof (decode_bits_range b Hb) as Hr.
    eapply (adds_bind _ _ _ (8 * c) (8 * c * zlen bitmap)); [exact Hp|nia|nia| |].
    + eapply adds_mono; [apply (scan_bits_ok (decode_bits b) i 0 acc done ds bs p); [lia|done|done|done|done|eapply room_le; [exact Hp|nia]]|nia|].
      intros r ds' bs' H'. exact H'.
    + cbv beta. intros [non acc'] ds' bs' p' (Hn & HR') _ Hp'. cbn [fst snd] in *.
      eapply (adds_bind _ _ _ (8 * c * zlen bitmap) 0); [exact Hp'|lia|lia| |].
      * apply (IH (i + 1) acc' (done ++ List.filter claims ((fun v => v + 8 * i) <$> decode_bits b)) (ds ++ ds') (bs ++ bs') p'); [lia|lia|done|done|exact HR'|done].
      * cbv beta. intros [rest acc2] ds2 bs2 p2 ((Hl2 & Hb2) & HR2) _ Hp2. cbn [fst snd] in *.
        apply adds_ret; [done|].
        cbn [fst snd]. rewrite zlen_cons, !app_nil_r, List.filter_app. split; [split; [lia|by constructor]|].
        rewrite <- !app_assoc in HR2. exact HR2.
Qed.

(** A scan handles the claimed codes in order, and leaves a bitmap of the same size. *)
Lemma scan_in_ok n d acc p : cfg_ok d -> 0 <= n <= sizeof_bitmap -> Forall inb (bitmap_codes 0 (take (Z.to_nat n) (cfg_bitmap d))) -> R acc [] [] [] -> room (1024 * c) p ->
  adds (scan claims f n d acc) (1024 * c) (fun r ds bs =>
    (cfg_ok r.1 /\ cfg_size r.1 = cfg_size d) /\ R r.2 (List.filter claims (bitmap_codes 0 (take (Z.to_nat n) (cfg_bitmap d)))) ds bs) p.
Proof.
  intros (Hz & Hs & Hb) Hn Hin HR Hp. unfold scan. rewrite Hz. unfold sizeof_bitmap in *. destruct (Z.gtb_spec n 128); [lia|].
  set (bm := take (Z.to_nat n) (cfg_bitmap d)). assert (zlen bm = n) as Hbm.
  { unfold bm, zlen in *. rewrite length_take. lia. }
  eapply (adds_bind _ _ _ (1024 * c) 0); [exact Hp|lia|lia| |].
  - eapply adds_mono; [apply (scan_bytes_ok bm 0 acc [] [] [] p); [lia|lia|by apply Forall_take|done|done|eapply room_le; [exact Hp|nia]]|nia|].
    intros r ds bs H1. exact H1.
  - cbv beta. intros [bm' acc'] ds bs p' ((Hl' & Hb') & HR') _ Hp'. cbn [fst snd] in *. apply adds_ret; [done|]. cbn [fst snd].
    rewrite !app_nil_r. split; [|exact HR']. split; [|done]. unfold cfg_ok. cbn [set_field cfg_bitmap cfg_size].
    split; [|split; [unfold sizeof_bitmap; lia|]].
    + rewrite zlen_app, Hl', Hbm. unfold zlen in *. rewrite length_drop. unfold sizeof_bitmap. lia.
    + apply Forall_app. split; [done|]. by apply Forall_drop.
Qed.
End scan.

Lemma scan_ok {E A} (claims : Z -> bool) (f : Z -> A -> M (probing E) A) (c : Z) (R : A -> list Z -> list ditem -> list Z -> Prop) :
  (forall code acc done ds bs p, claims code = true -> 0 <= code < 1024 -> R acc done ds bs -> room c p ->
    adds (f code acc) c (fun acc' ds' bs' => R acc' (done ++ [code]) (ds ++ ds') (bs ++ bs')) p) -> 0 <= c ->
  forall n d acc p, cfg_ok d -> 0 <= n <= sizeof_bitmap -> R acc [] [] [] -> room (1024 * c) p ->
  adds (scan claims f n d acc) (1024 * c) (fun r ds bs =>
    (cfg_ok r.1 /\ cfg_size r.1 = cfg_size d) /\ R r.2 (List.filter claims (bitmap_codes 0 (take (Z.to_nat n) (cfg_bitmap d)))) ds bs) p.
Proof.
  intros Hf Hc n d acc p Hd Hn HR Hp. apply (scan_in_ok claims f c R (fun _ => True)); try done; [|by apply Forall_true].
  intros code acc' done ds bs p' H1 H2 _. by apply Hf.
Qed.

(** ** The configuration space *)

Section config.
Context {E : Type} (I : input_env E) (C : config_env E).
Implicit Types p : probing E.

Definition same_arrays {A} p (P : A -> Prop) (a : A) p' : Prop := pDesc p' = pDesc p /\ pMap p' = pMap p /\ P a.

Lemma config_get_ok off p : wp (config_get C off) (same_arrays p byte_ok) p.
Proof. unfold wp, config_get. destruct (VirtIOWdfDeviceGet C (penv p) off) as [v e]. split_and!; [done..|]. apply u8_range. Qed.

Lemma select_ok sel sub p : wp (SelectInputConfig C sel sub) (same_arrays p byte_ok) p.
Proof.
  unfold SelectInputConfig. do 2 (apply wp_bind; apply wp_modify). eapply wp_mono; [apply config_get_ok|].
  intros a p' (E1 & E2 & H). by split_and!.
Qed.

Lemma read_config_ok n : forall i buf p, 0 <= i -> i + Z.of_nat n <= zlen buf -> Forall byte_ok buf ->
  wp (read_config C n i buf) (same_arrays p (fun b => zlen b = zlen buf /\ Forall byte_ok b)) p.
Proof.
  induction n as [|n IH]; intros i buf p Hi Hn Hb; cbn [read_config]; [done|].
  apply wp_bind. eapply wp_mono; [apply config_get_ok|]. intros v p1 (E1 & E2 & Hv).
  apply wp_bind. eapply wp_pure; [apply zset_ok; lia|]. eapply wp_mono; [apply IH; [lia|rewrite zlen_zinsert; lia|]|].
  - unfold zinsert. destruct (0 <=? i); [|done]. by apply list.Forall_insert.
  - intros b p2 (E3 & E4 & H1 & H2). rewrite zlen_zinsert in H1. split_and!; [congruence..|done|done].
Qed.

Lemma absinfo_ok axis p : wp (GetAbsAxisInfo C axis) (same_arrays p (fun _ => True)) p.
Proof.
  unfold GetAbsAxisInfo. destruct (axis <=? 255); [|done]. apply wp_bind. eapply wp_mono; [apply select_ok|].
  intros n p1 (E1 & E2 & Hn). apply wp_bind. eapply wp_mono; [apply read_config_ok; [done| |by apply Forall_replicate]|].
  - rewrite zlen_replicate. unfold byte_ok, sizeof_absinfo in *. lia.
  - intros b p2 (E3 & E4 & _). split_and!; [congruence..|done].
Qed.

Lemma adds_absinfo axis c p : room c p -> adds (GetAbsAxisInfo C axis) c (fun _ ds bs => ds = [] /\ bs = []) p.
Proof.
  intros R. eapply adds_mono; [eapply adds_outside; [eapply room_le; [exact R|split; [lia|apply R]]|apply absinfo_ok]|apply R|].
  by intros ? ? ? (_ & ?).
Qed.

Lemma adds_alloc n c p : room c p -> adds (VIOInputAlloc I n) c (fun _ ds bs => ds = [] /\ bs = []) p.
Proof.
  intros R. eapply adds_mono; [eapply (adds_outside _ (fun _ => True)); [eapply room_le; [exact R|split; [lia|apply R]]|]|apply R|by intros ? ? ? (_ & ?)].
  unfold wp, VIOInputAlloc. by destruct (ExAllocatePool I (penv p) n).
Qed.

(** A report is allocated and zero, or the registration fails. *)
Lemma adds_register n cb c p : room c p -> 0 <= cb ->
  adds (register I n cb) c (fun r ds bs => (ds = [] /\ bs = []) /\
    (NT_SUCCESS r.1 = true -> r.1 = STATUS_SUCCESS /\ n < MAX_INPUT_CLASS_COUNT /\ r.2 = replicate (Z.to_nat cb) 0)) p.
Proof.
  intros R Hcb. eapply adds_mono; [eapply (adds_outside _ (fun r => NT_SUCCESS r.1 = true -> r.1 = STATUS_SUCCESS /\ n < MAX_INPUT_CLASS_COUNT /\
    r.2 = replicate (Z.to_nat cb) 0)); [eapply room_le; [exact R|split; [lia|apply R]]|]|apply R|by intros ? ? ? (? & ?)].
  unfold wp, register, RegisterClass. destruct (Z.geb_spec n MAX_INPUT_CLASS_COUNT); [by split_and!|].
  destruct (ExAllocatePool I (penv p) cb) as [[|] e]; split_and!; done.
Qed.

Lemma adds_pure {A} (m : res A) a c p : room c p -> m = Ok a -> adds (pure m) c (fun x ds bs => x = a /\ ds = [] /\ bs = []) p.
Proof. intros R ->. exists [], []. split; [by eapply step_refl|]. split; [apply R|done]. Qed.
End config.

(** ** Between the axis map and the registration *)

(** What a probe does to the descriptor, whatever happened to the axis map. *)
Definition dstep {E} (p p' : probing E) (ds : list ditem) : Prop :=
  appended (pDesc p) (pDesc p') (descriptor_bytes ds) /\ Forall ditem_ok ds.

Definition droom {E} (k : Z) (p : probing E) : Prop := array_ok (pDesc p) /\ 0 <= k /\ Size (pDesc p) + k <= 2 ^ 61.

Section dstep.
Context {E : Type}.
Implicit Types p : probing E.

Lemma step_dstep p p' ds bs : step p p' ds bs -> dstep p p' ds.
Proof. by intros (H & _ & O). Qed.

Lemma dstep_trans p1 p2 p3 d1 d2 : dstep p1 p2 d1 -> dstep p2 p3 d2 -> dstep p1 p3 (d1 ++ d2).
Proof. intros (A1 & O1) (A2 & O2). split; [rewrite descriptor_bytes_app; by eapply appended_trans|by apply Forall_app]. Qed.

Lemma dstep_eq p p' ds : pDesc p' = pDesc p -> dstep p p ds -> dstep p p' ds.
Proof. unfold dstep. by intros ->. Qed.

Lemma dstep_refl p k : droom k p -> dstep p p [].
Proof. intros (O & _). split; [by apply appended_nil|done]. Qed.

Lemma fresh_room p k : droom k p -> k <= 2 ^ 61 -> room k (p <| pMap := mk_array PtrNull 0 0 |>).
Proof. intros (O & K & D) Hk. split_and!; try done. Qed.

(** The axis map can be used again. *)
Definition map_quiet p : Prop := array_ok (pMap p) /\ Size (pMap p) = 0.

Lemma quiet_step p p' ds : step p p' ds [] -> map_quiet p -> map_quiet p'.
Proof.
  intros (_ & (O & S & _) & _) (_ & Hs). split; [done|]. pose proof (array_ok_size _ O). change (zlen (@nil Z)) with 0 in S. lia.
Qed.

Lemma step_size p p' ds bs c : step p p' ds bs -> cost ds bs <= c -> Size (pDesc p') <= Size (pDesc p) + c.
Proof. intros ((_ & S & _) & _) Hc. unfold cost in Hc. pose proof (zlen_nonneg bs). lia. Qed.

Lemma quiet_room p k : droom k p -> map_quiet p -> k <= 2 ^ 61 -> room k p.
Proof. intros (O & K & D) (O' & S) Hk. split_and!; try done; lia. Qed.

Lemma destroy_quiet p : map_quiet p -> map_quiet (p <| pMap := DynamicArrayDestroy (pMap p) |>).
Proof.
  intros [O S]. unfold map_quiet, DynamicArrayDestroy, array_ok in *. cbn. destruct (Ptr (pMap p)) eqn:Ep; cbn; rewrite ?Ep, S; split; lia.
Qed.

Lemma map_get_ok p b k : room k p -> contents (pMap p) = None \/ contents (pMap p) = Some b -> b <> [] ->
  wp map_get (fun r p' => room k p' /\ pDesc p' = pDesc p /\ (r = None \/ (r = Some (ulongs b) /\ Size (pMap p') = 0))) p.
Proof.
  intros ((O1 & O2) & K & D & B) Hc Hb. unfold wp, map_get, DynamicArrayGet, contents in *.
  destruct (Ptr (pMap p)) as [| |bytes] eqn:Ep; cbn.
  - destruct Hc as [Hc|Hc]; congruence.
  - split; [|by auto]. by split_and!.
  - destruct Hc as [Hc|Hc]; [done|]. injection Hc as ->. pose proof (array_ok_size _ O2). split; [|by auto]. split_and!; try done. change (0 + k <= 2 ^ 61). lia.
Qed.
End dstep.

Lemma s32_range x : - 2 ^ 31 <= s32 x < 2 ^ 31.
Proof. unfold s32. pose proof (Z.mod_pos_bound (x + 2147483648) 4294967296 ltac:(lia)). lia. Qed.

Lemma elem_bitmap_codes bitmap : forall i c, Forall byte_ok bitmap -> 0 <= c - 8 * i ->
  c ∈ bitmap_codes i bitmap <-> exists b, bitmap !! Z.to_nat ((c - 8 * i) / 8) = Some b /\ Z.testbit b (c mod 8) = true.
Proof.
  induction bitmap as [|b bitmap IH]; intros i c H Hc; cbn [bitmap_codes].
  - split; [by intros ?%elem_of_nil|by intros (? & ? & _)].
  - apply list.Forall_cons in H as [Hb H]. rewrite elem_of_app, list_elem_of_fmap. setoid_rewrite elem_of_decode_bits; [|done..].
    destruct (Z.ltb_spec (c - 8 * i) 8) as [Hl|Hl].
    + rewrite (Z.div_small (c - 8 * i)) by lia. cbn [Z.to_nat lookup list_lookup].
      assert (c mod 8 = c - 8 * i) as -> by (Z.to_euclidean_division_equations; lia). split.
      * intros [(v & -> & Hv & Ht)|Hin]; [exists b; split; [done|]; by replace (v + 8 * i - 8 * i) with v by lia|].
        pose proof (bitmap_codes_range bitmap (i + 1) H) as Hr. rewrite list.Forall_forall in Hr. specialize (Hr c Hin). cbn beta in Hr. lia.
      * intros (b' & [= <-] & Ht). left. exists (c - 8 * i). split; [lia|]. split; [lia|done].
    + rewrite (IH (i + 1) c H) by lia. replace (Z.to_nat ((c - 8 * i) / 8)) with (S (Z.to_nat ((c - 8 * (i + 1)) / 8))); [|].
      * cbn [lookup list_lookup]. split; [intros [(v & -> & Hv & _)|Hin]; [lia|exact Hin]|by right].
      * replace (c - 8 * i) with (c - 8 * (i + 1) + 1 * 8) by lia. rewrite Z.div_add by lia. assert (0 <= (c - 8 * (i + 1)) / 8) by (apply Z.div_pos; lia). lia.
Qed.

Lemma has_flag_bit f k : 0 <= k -> has_flag f (2 ^ k) = Z.testbit f k.
Proof.
  intros Hk. unfold has_flag, truth. replace (2 ^ k) with (Z.shiftl 1 k) by (rewrite Z.shiftl_mul_pow2; lia).
  destruct (Z.testbit f k) eqn:Et.
  - destruct (Z.eqb_spec (Z.land f (Z.shiftl 1 k)) 0) as [E0|]; [|done]. apply (f_equal (fun x => Z.testbit x k)) in E0.
    rewrite Z.land_spec, Et, Z.shiftl_spec, Z.sub_diag, Z.bits_0 in E0 by lia. done.
  - replace (Z.land f (Z.shiftl 1 k)) with 0; [done|]. symmetry. apply Z.bits_inj_0. intros j. rewrite Z.land_spec.
    destruct (Z.eq_dec j k) as [->|]; [by rewrite Et|]. apply andb_false_intro2.
    destruct (Z.ltb_spec j 0); [by apply Z.testbit_neg_r|]. rewrite Z.shiftl_spec by lia.
    destruct (Z.ltb_spec j k); [by apply Z.testbit_neg_r; lia|]. apply Z.bits_above_log2; cbn; lia.
Qed.

(** Whether the bitmap has a code. *)
Definition has_code (d : VIRTIO_INPUT_CFG_DATA) (c : Z) : bool := bool_decide (c ∈ codes_of d).

Lemma has_bit_ok d bit : cfg_ok d -> 0 <= bit -> InputCfgDataHasBit d bit = Ok (has_code d bit).
Proof.
  intros (Hz & Hs & Hb) H0. unfold InputCfgDataHasBit, has_code, codes_of.
  assert (bit ∈ bitmap_codes 0 (take (Z.to_nat (cfg_size d)) (cfg_bitmap d)) <->
    exists b, take (Z.to_nat (cfg_size d)) (cfg_bitmap d) !! Z.to_nat (bit / 8) = Some b /\ Z.testbit b (bit mod 8) = true) as He.
  { rewrite elem_bitmap_codes by (lia || by apply Forall_take). by replace (bit - 8 * 0) with bit by lia. }
  assert (0 <= bit / 8) by (apply Z.div_pos; lia). destruct (Z.leb_spec (cfg_size d) (bit / 8)).
  - rewrite bool_decide_false; [done|]. rewrite He. intros (b & Hl & _). rewrite lookup_take_ge in Hl by lia. done.
  - destruct (zlookup_in_range (cfg_bitmap d) (bit / 8)) as [b Eb]; [unfold sizeof_bitmap in *; lia|].
    rewrite (zget_ok _ _ _ Eb). cbn [mbind res_bind]. f_equal. unfold zlookup in Eb; rewrite (proj2 (Z.leb_le 0 _)) in Eb by lia.
    pose proof (Z.mod_pos_bound bit 8 ltac:(lia)).
    rewrite Z.shiftl_mul_pow2, Z.mul_1_l by lia. fold (has_flag b (2 ^ (bit mod 8))). rewrite has_flag_bit by lia.
    apply eq_true_iff_eq. rewrite bool_decide_eq_true, He, lookup_take_lt, Eb by lia. split; [by eauto|]. by intros (b' & [= <-] & Ht).
Qed.
