(* ===== verification/VioInputMouseSpec.v ===== *)
(** * virtio-input: the mouse

    The probe of a mouse describes in the descriptor exactly the report that the class fills:
    every button, axis and wheel is declared where [HIDMouseEventToReport] writes it. *)

From Stdlib Require Import ZArith Lia.
From stdpp Require Import base list numbers option sets.
From S2P Require Import Prelude.
From S2P Require Import Effects.
From S2P Require Import VioInput.
From S2P Require Import VioInputSpec.
From S2P Require Import VioInputProbe.
From S2P Require Import VioInputClasses.
From S2P Require Import VioInputHidSpec.

(** ** Pieces of a descriptor *)

(** Within report [id], from page [pg] to page [pg'], the items declare the fields [fs]. *)
Definition emits (id pg : Z) (ds : list ditem) (fs : list field) (pg' : Z) : Prop :=
  forall h, h_id h = id -> h_page h = pg -> h_usages h = [] ->
    let h' := hid_run h ds in
    h_id h' = id /\ h_page h' = pg' /\ h_usages h' = [] /\ h_fields h' = h_fields h ++ fs.

Lemma emits_nil id pg : emits id pg [] [] pg.
Proof. intros h H1 H2 H3. cbn. by rewrite app_nil_r. Qed.

Lemma emits_app id pg pg1 pg2 ds1 ds2 fs1 fs2 :
  emits id pg ds1 fs1 pg1 -> emits id pg1 ds2 fs2 pg2 -> emits id pg (ds1 ++ ds2) (fs1 ++ fs2) pg2.
Proof.
  intros H1 H2 h Hi Hp Hu. destruct (H1 h Hi Hp Hu) as (Hi1 & Hp1 & Hu1 & Hf1). rewrite hid_run_app.
  destruct (H2 _ Hi1 Hp1 Hu1) as (Hi2 & Hp2 & Hu2 & Hf2). split_and!; [done..|]. by rewrite Hf2, Hf1, app_assoc.
Qed.

(** A whole class: from any state of the parser, the items declare the fields [fs]. *)
Definition class_emits (ds : list ditem) (fs : list field) : Prop :=
  forall h, h_fields (hid_run h ds) = h_fields h ++ fs.

Lemma class_emits_head id pg head ds fs pg' :
  (forall h, h_id (hid_run h head) = id /\ h_page (hid_run h head) = pg /\ h_usages (hid_run h head) = [] /\ h_fields (hid_run h head) = h_fields h) ->
  emits id pg ds fs pg' -> class_emits (head ++ ds) fs.
Proof.
  intros Hh He h. destruct (Hh h) as (H1 & H2 & H3 & H4). rewrite hid_run_app.
  destruct (He _ H1 H2 H3) as (_ & _ & _ & ->). by rewrite H4.
Qed.

(** Buttons and their padding. *)
Definition button_fields (id n : Z) : list field :=
  mk_field id HID_USAGE_PAGE_BUTTON (seqZ 1 n) 1 n HID_DATA_FLAG_VARIABLE ::
  (if truth (n mod 8) then [mk_field id HID_USAGE_PAGE_BUTTON [] (8 * ((n + 7) / 8) - n) 1 3] else []).

Lemma button_pad n : 0 < n <= 4096 -> s32 (u32 (u32 ((n + 7) / 8 * 8) - n)) = 8 * ((n + 7) / 8) - n /\ 0 <= 8 * ((n + 7) / 8) - n < 8.
Proof.
  intros Hn. assert (0 <= 8 * ((n + 7) / 8) - n < 8) by (Z.to_euclidean_division_equations; lia).
  split; [|done]. rewrite (u32_small ((n + 7) / 8 * 8)), (u32_small (_ - n)) by lia.
  unfold s32. rewrite Z.mod_small by lia. lia.
Qed.

Lemma s32_small x : - 2 ^ 31 <= x < 2 ^ 31 -> s32 x = x.
Proof. intros H. unfold s32. rewrite Z.mod_small; lia. Qed.

Lemma button_emits id pg n : 0 < n <= 4096 ->
  emits id pg (ditems (button_items n ((n + 7) / 8))) (button_fields id n) HID_USAGE_PAGE_BUTTON.
Proof.
  intros Hn h Hi Hp Hu. destruct (button_pad n Hn) as [Hpad _]. unfold button_items, button_fields. rewrite Hpad, !s32_small by lia.
  destruct h as [hp hs hc hi hm hu hf]. cbn in Hi, Hp, Hu. subst. destruct (truth (n mod 8)); cbn.
  - replace (n - 1 + 1) with n by lia. rewrite <- app_assoc. done.
  - replace (n - 1 + 1) with n by lia. done.
Qed.

Lemma button_bits id n : 0 < n <= 4096 -> report_bits id (button_fields id n) = 8 * ((n + 7) / 8).
Proof.
  intros Hn. unfold button_fields, report_bits, truth. cbn [foldr f_id f_size f_count]. rewrite Z.eqb_refl.
  destruct (Z.eqb_spec (n mod 8) 0); cbn [negb foldr f_id f_size f_count]; rewrite ?Z.eqb_refl; Z.to_euclidean_division_equations; lia.
Qed.

Lemma button_located id n i : 0 <= i < n -> located (button_fields id n) id i HID_USAGE_PAGE_BUTTON (i + 1) 1.
Proof.
  intros Hi. eexists [], _, _, (Z.to_nat i). split; [done|]. split_and!; try done; cbn [f_usages f_count f_size].
  - rewrite lookup_seqZ. lia.
  - lia.
  - cbn [report_bits foldr]. lia.
Qed.

Lemma button_items_ok n : 0 < n <= 4096 -> Forall item_ok (button_items n ((n + 7) / 8)) /\ zlen (button_items n ((n + 7) / 8)) <= 11.
Proof.
  intros Hn. destruct (button_pad n Hn) as [Hpad ?]. unfold button_items. rewrite Hpad, !s32_small by lia. split.
  - apply Forall_app. split; [items_ok|]. destruct (truth _); items_ok.
  - by destruct (truth _).
Qed.

(** ** The axes *)

Definition rel_axes (xy : bool) (codes : list Z) : list Z := List.filter (fun c => negb (rel_usage xy c =? 0)) codes.
Definition all_flags (f : Z) (codes : list Z) : Z := foldl (fun f c => Z.lor f (rel_flags c)) f codes.

(** The bytes of an axis map with these entries. *)
Definition map_of (entries : list (Z * Z)) : list Z := entries ≫= (fun e => map_entry e.1 e.2).
Definition rel_entries (xy : bool) (codes : list Z) : list (Z * Z) :=
  imap (fun i c => (axis_key EV_REL c, Z.of_nat i)) (rel_axes xy codes).

Definition usage_items (us : list Z) : list ditem := (fun u => Item HID_TAG_USAGE u) <$> us.

Lemma map_of_app a b : map_of (a ++ b) = map_of a ++ map_of b.
Proof. apply bind_app. Qed.

Lemma imap_snoc {A B} (f : nat -> A -> B) l x : imap f (l ++ [x]) = imap f l ++ [f (length l) x].
Proof. rewrite imap_app. cbn. by rewrite Nat.add_0_r. Qed.

Lemma rel_usage_range xy c : 0 <= rel_usage xy c <= 0x36.
Proof. unfold rel_usage. destruct xy; repeat case_match; unfold HID_USAGE_GENERIC_X, HID_USAGE_GENERIC_Y, HID_USAGE_GENERIC_Z, HID_USAGE_GENERIC_RX, HID_USAGE_GENERIC_RY, HID_USAGE_GENERIC_RZ, HID_USAGE_GENERIC_SLIDER; lia. Qed.

Section axes.
Context {E : Type} (I : input_env E) (C : config_env E).
Implicit Types p : probing E.

(** After the codes [done]. *)
Definition rel_taken (xy : bool) (m : INPUT_CLASS_MOUSE) (acc : INPUT_CLASS_MOUSE * Z) (done : list Z) (ds : list ditem) (bs : list Z) : Prop :=
  let n := zlen (rel_axes xy done) in
  acc = (m <| uFlags := all_flags (uFlags m) done |> <| cbAxisLen := n |>, n) /\
  ds = usage_items (rel_usage xy <$> rel_axes xy done) /\ bs = map_of (rel_entries xy done).

Lemma take_rel_ok xy m code acc done ds bs p : rel_taken xy m acc done ds bs -> room 13 p ->
  adds (mouse_take_rel I xy code acc) 13 (fun acc' ds' bs' => rel_taken xy m acc' (done ++ [code]) (ds ++ ds') (bs ++ bs')) p.
Proof.
  intros (-> & -> & ->) R. unfold mouse_take_rel. cbv beta iota zeta. pose proof (rel_usage_range xy code) as Hu.
  assert (all_flags (uFlags m) (done ++ [code]) = Z.lor (all_flags (uFlags m) done) (rel_flags code)) as Ef by (unfold all_flags; by rewrite foldl_app).
  unfold rel_taken, rel_entries, rel_axes. rewrite List.filter_app. cbn [List.filter]. fold (rel_axes xy done). rewrite Ef.
  destruct (rel_usage xy code =? 0) eqn:Eu; cbn [negb].
  - apply adds_ret; [done|]. rewrite !app_nil_r. done.
  - eapply (adds_bind _ _ _ 5 8); [exact R|lia|lia|apply adds_describe; [eapply room_le; [exact R|lia]| | |done]|].
    + items_ok.
    + pose proof (length_encode_item (HID_TAG_USAGE, rel_usage xy code)) as L. unfold encode_items. cbn [mbind list_bind]. rewrite app_nil_r.
      apply L. split_and!; [done..|cbn; lia|cbn; lia].
    + cbv beta. intros [] ds1 bs1 p1 (-> & ->) _ R1.
      eapply (adds_bind _ _ _ 8 0); [exact R1|lia|lia|by apply adds_map_append|].
      cbv beta. intros [] ds2 bs2 p2 (-> & ->) _ R2. apply adds_ret; [done|].
      rewrite imap_snoc, zlen_app, fmap_app, !app_nil_r, map_of_app. split_and!; [done| |].
      * unfold usage_items. by rewrite fmap_app.
      * cbn. by rewrite app_nil_r.
Qed.

Lemma usage_items_run us : forall h, hid_run h (usage_items us) = h <| h_usages := h_usages h ++ us |>.
Proof.
  induction us as [|u us IH]; intros h.
  - destruct h. cbn. by rewrite app_nil_r.
  - unfold usage_items in *. cbn [fmap list_fmap hid_run foldl] in *. etrans; [apply IH|]. destruct h. cbn. by rewrite <- app_assoc.
Qed.

Definition rel_fields (id : Z) (us : list Z) : list field :=
  match us with [] => [] | _ => [mk_field id HID_USAGE_PAGE_GENERIC us 8 (zlen us) 6] end.

Lemma rel_emits id us : zlen us <= 4096 ->
  emits id HID_USAGE_PAGE_GENERIC (usage_items us ++ ditems (if zlen us >? 0 then mouse_rel_items (zlen us) else []))
    (rel_fields id us) HID_USAGE_PAGE_GENERIC.
Proof.
  intros Hz h Hi Hp Hu. pose proof (zlen_nonneg us). rewrite hid_run_app, usage_items_run. unfold rel_fields.
  destruct us as [|u us]; [cbn; rewrite !app_nil_r; by destruct h|]. set (l := u :: us) in *.
  assert (0 < zlen l) by (unfold l; rewrite zlen_cons; pose proof (zlen_nonneg us); lia).
  destruct (Z.gtb_spec (zlen l) 0); [|lia]. unfold mouse_rel_items. rewrite s32_small by lia. destruct h. cbn in *. subst. done.
Qed.

(** ** Absolute axes *)

Definition abs_axes (codes : list Z) : list Z := List.filter (fun c => negb (mouse_abs_usage c =? 0)) codes.
Definition abs_entries (base : Z) (codes : list Z) : list (Z * Z) :=
  imap (fun i c => (axis_key EV_ABS c, base + 2 * Z.of_nat i)) (abs_axes codes).
Definition abs_fields (id : Z) (us : list Z) : list field :=
  (fun u => mk_field id HID_USAGE_PAGE_GENERIC [u] 16 1 HID_DATA_FLAG_VARIABLE) <$> us.

Lemma abs_usage_range c : 0 <= mouse_abs_usage c <= 0x38.
Proof. unfold mouse_abs_usage. repeat case_match; unfold HID_USAGE_GENERIC_X, HID_USAGE_GENERIC_Y, HID_USAGE_GENERIC_Z, HID_USAGE_GENERIC_RX, HID_USAGE_GENERIC_RY, HID_USAGE_GENERIC_RZ, HID_USAGE_GENERIC_WHEEL; lia. Qed.

Lemma abs_items_ok u a : 0 <= u <= 0x38 -> Forall item_ok (mouse_abs_items u a) /\ zlen (mouse_abs_items u a) <= 8.
Proof.
  intros Hu. pose proof (s32_range (abs_min a)). pose proof (s32_range (abs_max a)). unfold mouse_abs_items. split.
  - rewrite !Forall_app. split_and!; [items_ok| |items_ok]. destruct (_ || _); items_ok.
  - by destruct (_ || _).
Qed.

Lemma abs_items_emit id u a : emits id HID_USAGE_PAGE_GENERIC (ditems (mouse_abs_items u a)) (abs_fields id [u]) HID_USAGE_PAGE_GENERIC.
Proof. intros h Hi Hp Hu. unfold mouse_abs_items. destruct h. cbn in Hi, Hp, Hu. subst. destruct (_ || _); done. Qed.

Definition abs_taken (id : Z) (m : INPUT_CLASS_MOUSE) (acc : INPUT_CLASS_MOUSE * Z) (done : list Z) (ds : list ditem) (bs : list Z) : Prop :=
  let n := zlen (abs_axes done) in
  acc = (m <| cbAxisLen := cbAxisLen m + 2 * n |>, n) /\ bs = map_of (abs_entries (cbAxisLen m) done) /\
  emits id HID_USAGE_PAGE_GENERIC ds (abs_fields id (mouse_abs_usage <$> abs_axes done)) HID_USAGE_PAGE_GENERIC /\
  Forall ditem_ok ds /\ zlen ds <= 8 * n.

Lemma abs_taken_nil id m : abs_taken id m (m, 0) [] [] [].
Proof.
  split_and!; [|done|apply emits_nil|done|done]. change (zlen (abs_axes [])) with 0. f_equal.
  replace (cbAxisLen m + 2 * 0) with (cbAxisLen m) by lia. by destruct m.
Qed.

Lemma take_abs_ok id m code acc done ds bs p : abs_taken id m acc done ds bs -> room 48 p ->
  adds (mouse_take_abs I C code acc) 48 (fun acc' ds' bs' => abs_taken id m acc' (done ++ [code]) (ds ++ ds') (bs ++ bs')) p.
Proof.
  intros (-> & -> & He & Ho & Hz) R. unfold mouse_take_abs. cbv beta iota zeta. pose proof (abs_usage_range code) as Hu.
  unfold abs_taken, abs_entries, abs_axes in *. rewrite List.filter_app. cbn [List.filter].
  destruct (mouse_abs_usage code =? 0) eqn:Eu; cbn [negb].
  - apply adds_ret; [done|]. by rewrite !app_nil_r.
  - fold (abs_axes done) in *.
    eapply (adds_bind _ _ _ 0 48); [exact R|lia|lia|apply adds_absinfo; eapply room_le; [exact R|lia]|].
    cbv beta. intros a ds0 bs0 p0 (-> & ->) _ R0. destruct (abs_items_ok _ a Hu) as [Hio Hil].
    eapply (adds_bind _ _ _ 40 8); [exact R0|lia|lia|apply adds_describe; [eapply room_le; [exact R0|lia]|done|pose proof (length_encode_items _ Hio); lia|lia]|].
    cbv beta. intros [] ds1 bs1 p1 (-> & ->) _ R1.
    eapply (adds_bind _ _ _ 8 0); [exact R1|lia|lia|by apply adds_map_append|].
    cbv beta. intros [] ds2 bs2 p2 (-> & ->) _ R2. apply adds_ret; [done|]. cbn [app].
    rewrite imap_snoc, !zlen_app, fmap_app, !app_nil_r, map_of_app. split_and!.
    + change (zlen [code]) with 1. replace (cbAxisLen m + 2 * (zlen (abs_axes done) + 1)) with (cbAxisLen m + 2 * zlen (abs_axes done) + 2) by lia. done.
    + by f_equal.
    + unfold abs_fields. rewrite fmap_app. eapply emits_app; [exact He|apply abs_items_emit].
    + apply Forall_app. split; [done|by apply ditems_ok].
    + change (zlen [code]) with 1. change (zlen (@nil ditem)) with 0. rewrite zlen_ditems. lia.
Qed.
End axes.

(** ** The wheels *)

Definition v_wheel (f : Z) : bool := has_flag f CLASS_MOUSE_HAS_V_WHEEL.
Definition h_wheel (f : Z) : bool := has_flag f CLASS_MOUSE_HAS_H_WHEEL.
Definition wheel_entries (f len : Z) : list (Z * Z) :=
  let off := if v_wheel f then len + 1 else len in
  (if has_flag f CLASS_MOUSE_SUPPORTS_REL_WHEEL then [(axis_key EV_REL REL_WHEEL, len)] else []) ++
  (if has_flag f CLASS_MOUSE_SUPPORTS_REL_HWHEEL then [(axis_key EV_REL REL_HWHEEL, off)] else []) ++
  (if has_flag f CLASS_MOUSE_SUPPORTS_REL_DIAL then [(axis_key EV_REL REL_DIAL, off)] else []).

Definition wheel_field (id pg u : Z) : field := mk_field id pg [u] 8 1 6.
Definition wheel_fields (id f : Z) : list field :=
  (if v_wheel f then [wheel_field id HID_USAGE_PAGE_GENERIC HID_USAGE_GENERIC_WHEEL] else []) ++
  (if h_wheel f then [wheel_field id HID_USAGE_PAGE_CONSUMER HID_USAGE_CONSUMER_AC_PAN] else []).

(** The page after the wheels. *)
Definition wheel_page (f : Z) : Z := if h_wheel f then HID_USAGE_PAGE_CONSUMER else HID_USAGE_PAGE_GENERIC.

Lemma emits_describe {E} (I : input_env E) id pg items fs pg' c p : room c p -> Forall item_ok items -> 5 * zlen items <= c -> c < 2 ^ 40 ->
  emits id pg (ditems items) fs pg' ->
  adds (describe I items) c (fun _ ds bs => bs = [] /\ emits id pg ds fs pg' /\ zlen ds = zlen items) p.
Proof.
  intros R Hi Hc Hb He. pose proof (length_encode_items items Hi). eapply adds_mono; [apply adds_describe; [exact R|done|lia|lia]|lia|].
  cbv beta. intros _ ds bs (-> & ->). split_and!; [done..|apply zlen_ditems].
Qed.

Section wheels.
Context {E : Type} (I : input_env E).
Implicit Types p : probing E.

(** An optional entry of the map. *)
Lemma adds_map_if b code off p : room 8 p ->
  adds (if (b : bool) then HIDMouseAxisMapAppend I code off else mret tt) 8
    (fun _ ds bs => ds = [] /\ bs = map_of (if b then [(code, off)] else [])) p.
Proof.
  intros R. destruct b; [|by apply adds_ret]. eapply adds_mono; [by apply adds_map_append|lia|]. cbv beta.
  intros _ ds bs (-> & ->). split; [done|]. unfold map_of. by rewrite bind_cons, app_nil_r.
Qed.

Lemma map_wheels_ok m p : room 32 p ->
  adds (mouse_map_wheels I m) 32 (fun _ ds bs => ds = [] /\ bs = map_of (wheel_entries (uFlags m) (cbAxisLen m) ++ [(MAP_END, MAP_END)])) p.
Proof.
  intros R. unfold mouse_map_wheels, wheel_entries. cbv zeta. fold (v_wheel (uFlags m)).
  set (off := if v_wheel (uFlags m) then cbAxisLen m + 1 else cbAxisLen m).
  eapply (adds_bind _ _ _ 8 24); [exact R|lia|lia|apply adds_map_if; eapply room_le; [exact R|lia]|]. cbv beta. intros [] ds1 bs1 p1 (-> & ->) _ R1.
  eapply (adds_bind _ _ _ 16 8 (fun _ ds bs => ds = [] /\ bs = map_of ((if has_flag (uFlags m) CLASS_MOUSE_SUPPORTS_REL_HWHEEL then [(axis_key EV_REL REL_HWHEEL, off)] else []) ++
    (if has_flag (uFlags m) CLASS_MOUSE_SUPPORTS_REL_DIAL then [(axis_key EV_REL REL_DIAL, off)] else [])))); [exact R1|lia|lia| |].
  - eapply (adds_bind _ _ _ 8 8); [eapply room_le; [exact R1|lia]|lia|lia|apply adds_map_if; eapply room_le; [exact R1|lia]|].
    cbv beta. intros [] ds2 bs2 p2 (-> & ->) _ R2. eapply adds_mono; [apply adds_map_if; exact R2|lia|].
    cbv beta. intros _ ds3 bs3 (-> & ->). by rewrite map_of_app.
  - cbv beta. intros [] ds2 bs2 p2 (-> & ->) _ R2. eapply adds_mono; [by apply adds_map_append|lia|].
    cbv beta. intros _ ds4 bs4 (-> & ->). split; [done|]. rewrite !map_of_app, <- !app_assoc. done.
Qed.

Lemma wheel_items_ok pg u : 0 <= pg < 128 -> 0 <= u < 1024 -> Forall item_ok (mouse_wheel_items pg u) /\ zlen (mouse_wheel_items pg u) <= 18.
Proof.
  intros Hp Hu. unfold mouse_wheel_items. split; [|by destruct (negb _)].
  rewrite !Forall_app. split_and!; [items_ok| |items_ok]. destruct (negb _); items_ok.
Qed.

Lemma wheel_emits id pg0 pg u : emits id pg0 (ditems (mouse_wheel_items pg u) ++ [EndCollection])
  [wheel_field id (if pg =? 0 then pg0 else pg) u] (if pg =? 0 then pg0 else pg).
Proof. intros h Hi Hp Hu. destruct h. cbn in Hi, Hp, Hu. subst. unfold mouse_wheel_items. by destruct (pg =? 0). Qed.

Lemma describe_wheel_ok id pg0 pg u p : 0 <= pg < 128 -> 0 <= u < 1024 -> room 91 p ->
  adds (HIDMouseDescribeWheel I pg u) 91 (fun _ ds bs => bs = [] /\
    emits id pg0 ds [wheel_field id (if pg =? 0 then pg0 else pg) u] (if pg =? 0 then pg0 else pg) /\ zlen ds <= 19) p.
Proof.
  intros Hpg Hu R. destruct (wheel_items_ok pg u Hpg Hu) as [Hio Hil]. pose proof (length_encode_items _ Hio). unfold HIDMouseDescribeWheel.
  eapply (adds_bind _ _ _ 90 1); [exact R|lia|lia|apply adds_describe; [eapply room_le; [exact R|lia]|done|lia|lia]|].
  cbv beta. intros [] ds1 bs1 p1 (-> & ->) _ R1. eapply adds_mono; [apply adds_end; [exact R1|lia]|lia|].
  cbv beta. intros _ ds2 bs2 (-> & ->). split_and!; [done|apply wheel_emits|]. rewrite zlen_app, zlen_ditems. change (zlen [EndCollection]) with 1. lia.
Qed.

Lemma feature_items_ok bits : bits = 2 \/ bits = 4 -> Forall item_ok (mouse_feature_items bits ((bits + 7) / 8)).
Proof. intros [-> | ->]; items_ok. Qed.

Lemma feature_emits id pg bits bytes : emits id pg (ditems (mouse_feature_items bits bytes)) [] pg.
Proof. intros h Hi Hp Hu. destruct h. cbn in *. subst. by rewrite app_nil_r. Qed.

Lemma describe_wheels_ok id m p : room 207 p ->
  adds (mouse_describe_wheels I m) 207 (fun _ ds bs => bs = [] /\
    emits id HID_USAGE_PAGE_GENERIC ds (wheel_fields id (uFlags m)) (wheel_page (uFlags m)) /\ zlen ds <= 43) p.
Proof.
  intros R. unfold mouse_describe_wheels, wheel_fields, wheel_page. cbv zeta. fold (v_wheel (uFlags m)) (h_wheel (uFlags m)).
  eapply (adds_bind _ _ _ 91 116 (fun _ ds bs => bs = [] /\
    emits id HID_USAGE_PAGE_GENERIC ds (if v_wheel (uFlags m) then [wheel_field id HID_USAGE_PAGE_GENERIC HID_USAGE_GENERIC_WHEEL] else []) HID_USAGE_PAGE_GENERIC /\ zlen ds <= 19)); [exact R|lia|lia| |].
  { destruct (v_wheel (uFlags m)); [apply (describe_wheel_ok id HID_USAGE_PAGE_GENERIC 0); [lia|unfold HID_USAGE_GENERIC_WHEEL; lia|eapply room_le; [exact R|lia]]|].
    apply adds_ret; [eapply room_le; [exact R|lia]|]. split_and!; [done|apply emits_nil|done]. }
  cbv beta. intros [] ds1 bs1 p1 (-> & E1 & L1) _ R1.
  eapply (adds_bind _ _ _ 91 25 (fun _ ds bs => bs = [] /\
    emits id HID_USAGE_PAGE_GENERIC ds (if h_wheel (uFlags m) then [wheel_field id HID_USAGE_PAGE_CONSUMER HID_USAGE_CONSUMER_AC_PAN] else []) (wheel_page (uFlags m)) /\ zlen ds <= 19)); [exact R1|lia|lia| |].
  { unfold wheel_page. destruct (h_wheel (uFlags m)); [apply (describe_wheel_ok id HID_USAGE_PAGE_GENERIC HID_USAGE_PAGE_CONSUMER); [unfold HID_USAGE_PAGE_CONSUMER; lia|unfold HID_USAGE_CONSUMER_AC_PAN; lia|eapply room_le; [exact R1|lia]]|].
    apply adds_ret; [eapply room_le; [exact R1|lia]|]. split_and!; [done|apply emits_nil|done]. }
  cbv beta. intros [] ds2 bs2 p2 (-> & E2 & L2) _ R2. set (bits := _ + _).
  eapply (adds_mono _ 25 25 (fun _ ds bs => bs = [] /\ emits id (wheel_page (uFlags m)) ds [] (wheel_page (uFlags m)) /\ zlen ds <= 5)); [|lia|].
  - destruct (truth (bits mod 8)) eqn:Eb; [|apply adds_ret; [done|]; split_and!; [done|apply emits_nil|done]].
    assert (bits = 2 \/ bits = 4) as Hbits by (unfold bits in *; destruct (v_wheel _), (h_wheel _); cbn in Eb |- *; lia || done).
    eapply adds_mono; [apply emits_describe; [exact R2|by apply feature_items_ok|done|lia|apply feature_emits]|lia|].
    cbv beta. intros _ ds bs (-> & He & Hl). split_and!; [done|exact He|]. rewrite Hl. done.
  - cbv beta. intros _ ds bs (-> & He & Hl). split_and!; [done| |rewrite !zlen_app; lia].
    rewrite <- (app_nil_r (if h_wheel _ then _ else _)). eapply emits_app; [exact E1|]. eapply emits_app; [exact E2|exact He].
Qed.
End wheels.

(** ** The map as the driver reads it *)

Definition flat (entries : list (Z * Z)) : list Z := entries ≫= (fun e => [u32 e.1; u32 e.2]).

Lemma ulongs_le v rest : ulongs (le_bytes 4 v ++ rest) = u32 v :: ulongs rest.
Proof.
  pose proof (le_value_bytes (u32 v) 4 0 ltac:(lia)) as L. rewrite le_bytes_n.
  change (seqZ 0 (Z.of_nat 4)) with [0; 1; 2; 3] in *. cbn [fmap list_fmap le_value app ulongs] in *. f_equal.
  change (2 ^ (8 * 0)) with 1 in L. rewrite !Z.div_1_r in L. change (256 ^ Z.of_nat 4) with 4294967296 in L.
  rewrite (Z.mod_small (u32 v) 4294967296) in L by apply u32_range. change (2 ^ (8 * 0)) with 1. rewrite Z.div_1_r. lia.
Qed.

Lemma ulongs_map entries : ulongs (map_of entries) = flat entries.
Proof.
  induction entries as [|[c o] entries IH]; [done|]. unfold map_of, flat. rewrite !bind_cons. unfold map_entry. cbn [fst snd].
  rewrite <- app_assoc, !ulongs_le. cbn [app]. do 2 f_equal. exact IH.
Qed.

(** ** Flags *)

Lemma all_flags_bit codes : forall f k, Z.testbit (all_flags f codes) k = Z.testbit f k || existsb (fun c => Z.testbit (rel_flags c) k) codes.
Proof.
  induction codes as [|c codes IH]; intros f k; cbn [all_flags foldl existsb]; [by rewrite orb_false_r|].
  unfold all_flags in IH. rewrite IH, Z.lor_spec, orb_assoc. done.
Qed.

(** The wheels that are axes are wheels of the report; a horizontal wheel is an axis. *)
Record flags_ok (f : Z) : Prop := {
  fl_v : has_flag f CLASS_MOUSE_SUPPORTS_REL_WHEEL = true -> v_wheel f = true;
  fl_h : has_flag f CLASS_MOUSE_SUPPORTS_REL_HWHEEL = true -> h_wheel f = true;
  fl_d : has_flag f CLASS_MOUSE_SUPPORTS_REL_DIAL = true -> h_wheel f = true;
  fl_hd : h_wheel f = true -> has_flag f CLASS_MOUSE_SUPPORTS_REL_HWHEEL = true \/ has_flag f CLASS_MOUSE_SUPPORTS_REL_DIAL = true }.

Lemma rel_flags_bits c : (Z.testbit (rel_flags c) 2 = true -> Z.testbit (rel_flags c) 0 = true) /\
  (Z.testbit (rel_flags c) 3 = true -> Z.testbit (rel_flags c) 1 = true) /\ (Z.testbit (rel_flags c) 4 = true -> Z.testbit (rel_flags c) 1 = true) /\
  (Z.testbit (rel_flags c) 1 = true -> Z.testbit (rel_flags c) 3 = true \/ Z.testbit (rel_flags c) 4 = true).
Proof. unfold rel_flags. repeat case_match; cbn; auto. Qed.

Lemma all_flags_ok f codes : f = 0 \/ f = 1 -> flags_ok (all_flags f codes).
Proof.
  intros Hf. assert (forall k k', (k = 2 \/ k = 3 \/ k = 4) -> 0 <= k' -> (forall c, Z.testbit (rel_flags c) k = true -> Z.testbit (rel_flags c) k' = true) ->
    Z.testbit (all_flags f codes) k = true -> Z.testbit (all_flags f codes) k' = true) as H.
  { intros k k' Hk _ Hc. rewrite !all_flags_bit. rewrite !orb_true_iff. intros [H|H].
    - destruct Hf as [-> | ->]; destruct Hk as [-> |[-> | ->]]; done.
    - right. rewrite List.existsb_exists in *. destruct H as (c & Hi & H). eauto. }
  pose proof rel_flags_bits as Hr. constructor; unfold v_wheel, h_wheel.
  - change CLASS_MOUSE_SUPPORTS_REL_WHEEL with (2 ^ 2). change CLASS_MOUSE_HAS_V_WHEEL with (2 ^ 0). rewrite !has_flag_bit by lia. apply H; [lia..|apply Hr].
  - change CLASS_MOUSE_SUPPORTS_REL_HWHEEL with (2 ^ 3). change CLASS_MOUSE_HAS_H_WHEEL with (2 ^ 1). rewrite !has_flag_bit by lia. apply H; [lia..|apply Hr].
  - change CLASS_MOUSE_SUPPORTS_REL_DIAL with (2 ^ 4). change CLASS_MOUSE_HAS_H_WHEEL with (2 ^ 1). rewrite !has_flag_bit by lia. apply H; [lia..|apply Hr].
  - change CLASS_MOUSE_SUPPORTS_REL_HWHEEL with (2 ^ 3). change CLASS_MOUSE_SUPPORTS_REL_DIAL with (2 ^ 4). change CLASS_MOUSE_HAS_H_WHEEL with (2 ^ 1).
    rewrite !has_flag_bit, !all_flags_bit, !orb_true_iff by lia. intros [H1|H1]; [destruct Hf as [-> | ->]; done|].
    rewrite !List.existsb_exists in *. destruct H1 as (c & Hi & Hc). destruct (Hr c) as (_ & _ & _ & Hcc). destruct (Hcc Hc); [left|right]; right; by exists c.
Qed.

(** ** Buttons *)

Section buttons.
Context {E : Type}.
Implicit Types p : probing E.

Definition buttons_taken (m0 m : INPUT_CLASS_MOUSE) (done : list Z) (ds : list ditem) (bs : list Z) : Prop :=
  (ds = [] /\ bs = []) /\ (exists n f, m = m0 <| uNumOfButtons := n |> <| uFlags := f |> /\ 0 <= n <= 16 /\ (f = 0 \/ f = 1)) /\
  (forall c, c ∈ done -> mouse_button c = true -> c - BTN_MOUSE < uNumOfButtons m) /\
  (uNumOfButtons m > 0 -> BTN_MOUSE + uNumOfButtons m - 1 ∈ done).

Lemma take_button_ok m0 code m done ds bs p : mouse_claims code = true -> buttons_taken m0 m done ds bs -> room 0 p ->
  adds (E := E) (mouse_take_button code m) 0 (fun m' ds' bs' => buttons_taken m0 m' (done ++ [code]) (ds ++ ds') (bs ++ bs')) p.
Proof.
  intros _ ((-> & ->) & (n & f & -> & Hn & Hf) & Hmax & Hlast) R. apply adds_ret; [done|]. split; [done|].
  change (uNumOfButtons _) with n in Hlast. destruct (mouse_button code) eqn:Eb.
  - assert (0 <= code - BTN_MOUSE + 1 <= 16) by (unfold mouse_button, BTN_MOUSE, BTN_JOYSTICK in *; lia). split_and!.
    + exists (Z.max n (code - BTN_MOUSE + 1)), f. split; [done|]. split; [lia|exact Hf].
    + intros c Hc Hb. change (c - BTN_MOUSE < Z.max n (code - BTN_MOUSE + 1)).
      apply elem_of_app in Hc as [Hc|Hc%list_elem_of_singleton]; [|subst; lia].
      specialize (Hmax c Hc Hb). change (c - BTN_MOUSE < n) in Hmax. lia.
    + change (uNumOfButtons _) with (Z.max n (code - BTN_MOUSE + 1)). intros H0. apply elem_of_app.
      destruct (Z.leb_spec n (code - BTN_MOUSE + 1)); [right; apply list_elem_of_singleton; lia|].
      left. rewrite Z.max_l in * by lia. by apply Hlast.
  - split_and!.
    + exists n, (Z.lor f CLASS_MOUSE_HAS_V_WHEEL). split; [done|]. split; [lia|]. destruct Hf as [-> | ->]; auto.
    + intros c Hc Hb. apply elem_of_app in Hc as [Hc|Hc%list_elem_of_singleton]; [exact (Hmax c Hc Hb)|congruence].
    + intros H0. apply elem_of_app. left. by apply Hlast.
Qed.
End buttons.

(** ** The whole class *)

Definition mouse_fields (id nb : Z) (xy : bool) (rels abss : list Z) : list field :=
  (if nb >? 0 then button_fields id nb else []) ++ rel_fields id (rel_usage xy <$> rel_axes xy rels) ++
  abs_fields id (mouse_abs_usage <$> abs_axes abss).

(** The bitmaps that are left have the shape of those that were given. *)
Definition cfg_like (d d' : VIRTIO_INPUT_CFG_DATA) : Prop := cfg_ok d' /\ cfg_size d' = cfg_size d.

(** Both axes of a plane. *)
Definition has_xy (d : VIRTIO_INPUT_CFG_DATA) : bool := has_code d ABS_X && has_code d ABS_Y.

(** What the buttons and axes of the device make of the class. *)
Record mouse_found (id : Z) (rel abs key : VIRTIO_INPUT_CFG_DATA) (m : INPUT_CLASS_MOUSE) (nr na : Z) (xy : bool) (rels abss : list Z) (f0 : Z) : Prop := {
  mf_m : m = mk_mouse (mk_common [] 0 id false) (uNumOfButtons m) (HID_REPORT_DATA_OFFSET + (uNumOfButtons m + 7) / 8) (nr + 2 * na) None (all_flags f0 rels);
  mf_nb : 0 <= uNumOfButtons m <= 16;
  mf_keys : forall c, c ∈ codes_of key -> mouse_button c = true -> c - BTN_MOUSE < uNumOfButtons m;
  mf_f0 : f0 = 0 \/ f0 = 1;
  mf_nr : nr = zlen (rel_axes xy rels);
  mf_na : na = zlen (abs_axes abss);
  mf_last : uNumOfButtons m > 0 -> BTN_MOUSE + uNumOfButtons m - 1 ∈ codes_of key;
  mf_xy : xy = has_xy rel;
  mf_rels : rels = if xy || ((uNumOfButtons m >? 0) && has_xy abs) then codes_of rel else [];
  mf_abss : abss = if negb xy && ((uNumOfButtons m >? 0) && has_xy abs) then codes_of abs else [] }.

Definition mouse_described (id : Z) (rel abs key : VIRTIO_INPUT_CFG_DATA)
    (r : INPUT_CLASS_MOUSE * Z * Z * (VIRTIO_INPUT_CFG_DATA * VIRTIO_INPUT_CFG_DATA * VIRTIO_INPUT_CFG_DATA)) (ds : list ditem) (bs : list Z) : Prop :=
  let '(m, nr, na, (rel', abs', key')) := r in
  (cfg_like rel rel' /\ cfg_like abs abs' /\ cfg_like key key') /\
  exists xy rels abss f0, mouse_found id rel abs key m nr na xy rels abss f0 /\
    bs = map_of (rel_entries xy rels ++ abs_entries nr abss) /\
    exists ds', ds = ditems (mouse_head_items id) ++ ds' /\
      emits id HID_USAGE_PAGE_GENERIC ds' (mouse_fields id (uNumOfButtons m) xy rels abss) HID_USAGE_PAGE_GENERIC.

Lemma emits_page id pg pg' : emits id pg (ditems [(HID_TAG_USAGE_PAGE, pg')]) [] pg'.
Proof. intros h Hi Hp Hu. destruct h. cbn in *. subst. by rewrite app_nil_r. Qed.

Lemma rel_axes_few xy rels d : cfg_ok d -> rels = [] \/ rels = codes_of d -> zlen (rel_axes xy rels) <= 1024.
Proof.
  intros Hd H. pose proof (codes_few d Hd). unfold rel_axes, zlen in *.
  pose proof (List.filter_length_le (fun c => negb (rel_usage xy c =? 0)) rels). destruct H as [-> | ->]; cbn in *; lia.
Qed.

Section describe.
Context {E : Type} (I : input_env E) (C : config_env E).
Implicit Types p : probing E.

Lemma mouse_head_ok id : 0 <= id < 256 -> Forall item_ok (mouse_head_items id).
Proof. intros H. items_ok. Qed.

Lemma mouse_describe_ok id rel abs key p : 0 <= id < 256 -> cfg_ok rel -> cfg_ok abs -> cfg_ok key -> room 100000 p ->
  adds (mouse_describe I C id rel abs key) 100000 (mouse_described id rel abs key) p.
Proof.
  intros Hid Kr Ka Kk R. unfold mouse_describe.
  eapply (adds_bind _ _ _ 30 90000); [exact R|lia|lia|apply adds_describe; [eapply room_le; [exact R|lia]|by apply mouse_head_ok| |done]|].
  { pose proof (length_encode_items _ (mouse_head_ok id Hid)) as L. change (zlen (mouse_head_items id)) with 6 in L. lia. }
  cbv beta. intros [] ds0 bs0 p0 (-> & ->) _ R0. cbn [app].
  set (m0 := mk_mouse (mk_common [] 0 id false) 0 0 0 None 0).
  eapply (adds_bind _ _ _ (1024 * 0) 89000); [exact R0|lia|lia| |].
  { apply (scan_ok mouse_claims mouse_take_button 0 (buttons_taken m0)); [|lia|exact Kk|apply Kk| |eapply room_le; [exact R0|lia]].
    - intros code acc done ds bs q Hc _ HR Hq. by apply take_button_ok.
    - split; [done|]. split; [exists 0, 0; split; [done|]; split; [lia|by left]|]. split; [|done]. intros c Hc. by apply not_elem_of_nil in Hc. }
  cbv beta. intros [key' m1] ds1 bs1 p1 ((K1 & S1) & (-> & ->) & (nb & f0 & Em & Hnb & Hf0) & Hmax & Hlast) _ R1. cbn [fst snd] in *. subst m1.
  change (uNumOfButtons m0 <| uNumOfButtons := nb |> <| uFlags := f0 |>) with nb in *. cbv zeta.
  set (m2 := _ <| cbAxisOffset := _ |>). change (uNumOfButtons m2) with nb.
  eapply (adds_bind _ _ _ 55 88000 (fun _ ds bs => bs = [] /\ emits id HID_USAGE_PAGE_GENERIC ds (if nb >? 0 then button_fields id nb else [])
    (if nb >? 0 then HID_USAGE_PAGE_BUTTON else HID_USAGE_PAGE_GENERIC))); [exact R1|lia|lia| |].
  { destruct (Z.gtb_spec nb 0).
    - destruct (button_items_ok nb ltac:(lia)) as [Hio Hil].
      eapply adds_mono; [apply (emits_describe I id HID_USAGE_PAGE_GENERIC _ (button_fields id nb) HID_USAGE_PAGE_BUTTON 55); [eapply room_le; [exact R1|lia]|done|lia|lia|apply button_emits; lia]|lia|].
      cbv beta. intros _ ds bs (-> & He & _). by split.
    - apply adds_ret; [eapply room_le; [exact R1|lia]|]. split; [done|apply emits_nil]. }
  cbv beta. intros [] ds2 bs2 p2 (-> & E2) _ R2.
  eapply (adds_bind _ _ _ 5 87000); [exact R2|lia|lia|apply (emits_describe I id (if nb >? 0 then HID_USAGE_PAGE_BUTTON else HID_USAGE_PAGE_GENERIC) _ [] HID_USAGE_PAGE_GENERIC 5); [eapply room_le; [exact R2|lia]|items_ok|done|lia|apply emits_page]|].
  cbv beta. intros [] ds3 bs3 p3 (-> & E3 & _) _ R3.
  eapply (adds_bind _ _ _ 0 87000); [exact R3|lia|lia|apply adds_map_reserve; [eapply room_le; [exact R3|lia]|unfold AXIS_MAP_INITIAL_LENGTH; lia]|].
  cbv beta. intros [] ds4 bs4 p4 (-> & ->) _ R4.
  pose proof (has_bit_ok rel 0 Kr ltac:(lia)) as Erx. pose proof (has_bit_ok rel 1 Kr ltac:(lia)) as Ery.
  pose proof (has_bit_ok abs ABS_X Ka ltac:(unfold ABS_X; lia)) as Eax. pose proof (has_bit_ok abs ABS_Y Ka ltac:(unfold ABS_Y; lia)) as Eay.
  eapply (adds_bind _ _ _ 0 87000); [exact R4|lia|lia|apply adds_pure; [eapply room_le; [exact R4|lia]|exact Erx]|]. cbv beta. intros ? ds5 bs5 p5 (-> & -> & ->) _ R5.
  eapply (adds_bind _ _ _ 0 87000); [exact R5|lia|lia|apply adds_pure; [eapply room_le; [exact R5|lia]|exact Ery]|]. cbv beta. intros ? ds6 bs6 p6 (-> & -> & ->) _ R6.
  cbv zeta. set (xy := has_code rel 0 && has_code rel 1).
  eapply (adds_bind _ _ _ 0 87000); [exact R6|lia|lia|apply adds_pure; [eapply room_le; [exact R6|lia]|exact Eax]|]. cbv beta. intros ? ds7 bs7 p7 (-> & -> & ->) _ R7.
  eapply (adds_bind _ _ _ 0 87000); [exact R7|lia|lia|apply adds_pure; [eapply room_le; [exact R7|lia]|exact Eay]|]. cbv beta. intros ? ds8 bs8 p8 (-> & -> & ->) _ R8.
  set (axy := (_ >? 0) && _ && _).
  eapply (adds_bind _ _ _ (1024 * 13) 60000 (fun r ds bs => cfg_like rel r.1 /\ rel_taken xy m2 r.2 (if xy || axy then codes_of rel else []) ds bs)); [exact R8|lia|lia| |].
  { destruct (xy || axy).
    - eapply adds_mono; [apply (scan_ok (fun _ => true) (mouse_take_rel I xy) 13 (rel_taken xy m2)); [|lia|exact Kr|apply Kr|by split_and!|eapply room_le; [exact R8|lia]]|lia|].
      + intros code acc done ds bs q _ _ HR Hq. by apply take_rel_ok.
      + cbv beta. intros r ds bs (Hl & HR). rewrite filter_true in HR. by split.
    - apply adds_ret; [eapply room_le; [exact R8|lia]|]. split; [by split|by split_and!]. }
  cbv beta. intros [rel' acc] ds9 bs9 p9 (Lr & (Hacc & -> & ->)) _ R9. cbn [fst snd] in *. subst acc.
  set (rels := if xy || axy then codes_of rel else []) in *. assert (rels = [] \/ rels = codes_of rel) as Hrels by (unfold rels; destruct (xy || axy); auto).
  set (nr := zlen (rel_axes xy rels)). assert (0 <= nr <= 1024) as Hnr by (split; [apply zlen_nonneg|exact (rel_axes_few xy rels rel Kr Hrels)]).
  set (us := rel_usage xy <$> rel_axes xy rels). assert (zlen us = nr) as Eus by (unfold us, nr, zlen; by rewrite length_fmap).
  eapply (adds_bind _ _ _ 25 50000 (fun _ ds bs => bs = [] /\ ds = ditems (if nr >? 0 then mouse_rel_items nr else []))); [exact R9|lia|lia| |].
  { destruct (nr >? 0); [|apply adds_ret; [eapply room_le; [exact R9|lia]|done]].
    assert (Forall item_ok (mouse_rel_items nr)) as Hio by (unfold mouse_rel_items; pose proof (s32_range nr); items_ok).
    pose proof (length_encode_items _ Hio) as L. change (zlen (mouse_rel_items nr)) with 5 in L.
    eapply adds_mono; [apply (adds_describe I _ 25); [eapply room_le; [exact R9|lia]|exact Hio|lia|done]|lia|].
    cbv beta. by intros _ ds bs (-> & ->). }
  cbv beta. intros [] ds10 bs10 p10 (-> & ->) _ R10. set (m3 := _ <| cbAxisLen := nr |>).
  eapply (adds_bind _ _ _ (1024 * 48) 0 (fun r ds bs => cfg_like abs r.1 /\ abs_taken id m3 r.2 (if negb xy && axy then codes_of abs else []) ds bs)); [exact R10|lia|lia| |].
  { destruct (negb xy && axy) eqn:Exy.
    - eapply adds_mono; [apply (scan_ok (fun _ => true) (mouse_take_abs I C) 48 (abs_taken id m3)); [|lia|exact Ka|apply Ka| |eapply room_le; [exact R10|lia]]|lia|].
      + intros code acc done ds bs q _ _ HR Hq. by apply take_abs_ok.
      + apply abs_taken_nil.
      + cbv beta. intros r ds bs (Hl & HR). rewrite filter_true in HR. by split.
    - apply adds_ret; [eapply room_le; [exact R10|lia]|]. split; [by split|]. apply abs_taken_nil. }
  cbv beta. intros [abs' acc] ds11 bs11 p11 (La & (Hacc & -> & E11 & _)) _ R11. cbn [fst snd] in *. subst acc.
  set (abss := if negb xy && axy then codes_of abs else []) in *.
  apply adds_ret; [done|]. split; [by split_and!|]. exists xy, rels, abss, f0. split; [|split].
  - constructor; try done.
    + intros c Hc Hb. apply Hmax; [|done]. apply list_elem_of_In, List.filter_In. split; [by apply list_elem_of_In|].
      unfold mouse_claims. by rewrite Hb.
    + intros Hn. specialize (Hlast Hn). by apply list_elem_of_In, List.filter_In in Hlast as [Hlast%list_elem_of_In _].
    + unfold rels, axy. by rewrite <- andb_assoc.
    + unfold abss, axy. by rewrite <- andb_assoc.
  - rewrite map_of_app. cbn [app]. by rewrite app_nil_r.
  - eexists. split; [cbn [app]; reflexivity|]. unfold mouse_fields. rewrite app_nil_r.
    change (uNumOfButtons m3 <| cbAxisLen := cbAxisLen m3 + 2 * zlen (abs_axes abss) |>) with nb.
    eapply emits_app; [exact E2|]. rewrite <- (app_nil_l (rel_fields id _ ++ _)). eapply emits_app; [exact E3|]. rewrite app_assoc.
    eapply emits_app; [|exact E11]. rewrite <- Eus. apply (rel_emits id us). lia.
Qed.
End describe.

(** ** The probe *)

(** The entries of the axis map of a mouse. *)
Definition mouse_entries (xy : bool) (rels abss : list Z) (flags len : Z) : list (Z * Z) :=
  rel_entries xy rels ++ abs_entries (zlen (rel_axes xy rels)) abss ++ wheel_entries flags len ++ [(MAP_END, MAP_END)].

Definition mouse_size (m : INPUT_CLASS_MOUSE) : Z :=
  cbAxisOffset m + cbAxisLen m + (if v_wheel (uFlags m) then 1 else 0) + (if h_wheel (uFlags m) then 1 else 0).

(** The class that is registered, when [m] was found. *)
Definition mouse_done (m : INPUT_CLASS_MOUSE) (map : list Z) : INPUT_CLASS_MOUSE :=
  m <| pAxisMap := Some map |>
    <| mCommon := (mCommon m) <| cReport := replicate (Z.to_nat (mouse_size m)) 0 |> <| cbHidReportSize := mouse_size m |> |>.

Section probe.
Context {E : Type} (I : input_env E) (C : config_env E).
Implicit Types p : probing E.

Lemma mouse_finish_ok id n m p bs : room 300 p -> 0 <= mouse_size m -> contents (pMap p) = None \/ contents (pMap p) = Some bs ->
  wp (mouse_finish I n m) (fun r p' => exists ds, dstep p p' ds /\ 
    match r.2 with
    | None => NT_SUCCESS r.1 = false
    | Some m' => r.1 = STATUS_SUCCESS /\ n < MAX_INPUT_CLASS_COUNT /\
        m' = mouse_done m (ulongs (bs ++ map_of (wheel_entries (uFlags m) (cbAxisLen m) ++ [(MAP_END, MAP_END)]))) /\
        emits id HID_USAGE_PAGE_GENERIC ds (wheel_fields id (uFlags m)) (wheel_page (uFlags m)) /\ map_quiet p' /\ Size (pDesc p') <= Size (pDesc p) + 268
    end) p.
Proof.
  intros R Hsz Hc. unfold mouse_finish. apply wp_bind. eapply wp_mono; [apply (map_wheels_ok I m p); eapply room_le; [exact R|lia]|].
  cbv beta. set (w := map_of (_ ++ [_])). intros [] p1 (ds1 & bs1 & S1 & L1 & -> & ->).
  assert (room 268 p1) as R1 by (eapply room_le; [eapply (step_room p p1 [] w 300 32); [exact R|exact S1|lia|lia]|lia]).
  assert (contents (pMap p1) = None \/ contents (pMap p1) = Some (bs ++ w)) as Hc1.
  { destruct S1 as (_ & (_ & _ & [H|(b & H1 & H2)]) & _); [by left|]. destruct Hc as [Hc|Hc]; [congruence|]. right. rewrite H2. congruence. }
  apply wp_bind. eapply wp_mono; [apply (map_get_ok p1 (bs ++ w) 268 R1 Hc1)|].
  { unfold w. rewrite map_of_app. cbn. intros Hn%app_eq_nil. destruct Hn as [_ Hn%app_eq_nil]. by destruct Hn. }
  cbv beta. intros map p2 (R2 & E2 & Hm). assert (dstep p p2 []) as D2.
  { apply step_dstep in S1. unfold dstep in *. by rewrite E2. }
  destruct Hm as [-> | [-> Ez]]; [exists []; by split|].
  pose proof R2 as ((_ & O2) & _).
  assert (adds (mouse_describe_wheels I m ;; describe1 I HID_TAG_END_COLLECTION ;; describe1 I HID_TAG_END_COLLECTION ;; register I n (mouse_size m)) 268
    (fun r ds bs => (emits id HID_USAGE_PAGE_GENERIC ds (wheel_fields id (uFlags m)) (wheel_page (uFlags m)) /\ bs = []) /\
      (NT_SUCCESS r.1 = true -> r.1 = STATUS_SUCCESS /\ n < MAX_INPUT_CLASS_COUNT /\ r.2 = replicate (Z.to_nat (mouse_size m)) 0)) p2) as Ha.
  { eapply (adds_bind _ _ _ 207 2); [exact R2|lia|lia|apply (describe_wheels_ok I id m); eapply room_le; [exact R2|lia]|].
    cbv beta. intros [] ds bs' p3 (-> & He & Hl) _ R3.
    eapply (adds_bind _ _ _ 1 1); [exact R3|lia|lia|apply adds_end; [eapply room_le; [exact R3|lia]|lia]|]. cbv beta. intros [] ? ? p4 (-> & ->) _ R4.
    eapply (adds_bind _ _ _ 1 0); [exact R4|lia|lia|apply adds_end; [eapply room_le; [exact R4|lia]|lia]|]. cbv beta. intros [] ? ? p5 (-> & ->) _ R5.
    eapply adds_mono; [apply adds_register; [exact R5|done]|lia|]. cbv beta. intros r ? ? ((-> & ->) & Hr). split; [|exact Hr].
    split; [|done]. rewrite <- (app_nil_r (wheel_fields _ _)). eapply emits_app; [exact He|].
    intros h Hi Hp Hu. destruct h. cbn in *. subst. by rewrite app_nil_r. }
  unfold adds, wp in Ha |- *. unfold mbind, M_bind in *. cbv beta zeta in *. fold (v_wheel (uFlags m)) (h_wheel (uFlags m)) (mouse_size m) in *.
  destruct (mouse_describe_wheels I m p2) as [[[] q1]|]; [|done]. destruct (describe1 I _ q1) as [[[] q2]|]; [|done].
  destruct (describe1 I _ q2) as [[[] q3]|]; [|done]. destruct (register I n _ q3) as [[[st report] q4]|]; [|done].
  destruct Ha as (ds & bs2 & S4 & C4 & (He & ->) & Hr).
  pose proof (step_size _ _ _ _ _ S4 C4) as Z4. pose proof D2 as ((_ & Z2 & _) & _). change (zlen (descriptor_bytes [])) with 0 in Z2. cbn [fst snd] in *. pose proof (quiet_step _ _ _ S4 (conj O2 Ez)). apply step_dstep in S4.
  destruct (NT_SUCCESS st) eqn:Est; exists ds; (split; [exact (dstep_trans _ _ _ _ _ D2 S4)|]); [|done].
  destruct (Hr eq_refl) as (-> & Hn & ->). split_and!; try done. lia.
Qed.

(** Cutting off what was appended. *)
Lemma truncate_ok p p1 ds : array_ok (pDesc p) -> dstep p p1 ds ->
  wp (desc_truncate (Size (pDesc p))) (fun _ p' => dstep p p' [] /\ pMap p' = pMap p1) p1.
Proof.
  intros O ((O1 & S1 & Hc) & _). unfold wp, desc_truncate, modify. split; [|done]. split; [|done]. unfold appended, array_ok, contents in *. cbn.
  pose proof (array_ok_size _ O). change (zlen (@nil Z)) with 0.
  destruct (Ptr (pDesc p1)) as [| |b1] eqn:E1.
  - destruct Hc as [Hc|(b & Hb & Hc)]; [done|]. injection Hc as Hc. symmetry in Hc. apply app_eq_nil in Hc as [-> _].
    destruct (Ptr (pDesc p)) as [| |b] eqn:E0; try done.
    + split_and!; [lia|lia|right; by exists []].
    + injection Hb as ->. destruct O as (O & _). change (zlen (@nil Z)) with 0 in O. split_and!; [lia|lia|right; by exists []].
  - split_and!; [lia|lia|by left].
  - destruct Hc as [Hc|(b & Hb & Hc)]; [done|]. injection Hc as ->. destruct O1 as (Oz & O1 & O1').
    assert (zlen b = Size (pDesc p)) as Eb.
    { destruct (Ptr (pDesc p)) as [| |b0]; try done; [injection Hb as <-; by rewrite O|]. injection Hb as ->. apply O. }
    rewrite zlen_app in Oz. pose proof (zlen_nonneg (descriptor_bytes ds)).
    rewrite take_app_le by (unfold zlen in Eb; lia). rewrite take_ge by (unfold zlen in Eb; lia).
    split_and!; [done|lia|lia|lia|]. right. exists b. split; [done|]. by rewrite app_nil_r.
Qed.

(** The registered mouse, and what it declares. *)
Definition mouse_built (id : Z) (rel abs key : VIRTIO_INPUT_CFG_DATA) (m : INPUT_CLASS_MOUSE) (fs : list field) : Prop :=
  exists m0 nr na xy rels abss f0, mouse_found id rel abs key m0 nr na xy rels abss f0 /\ ~ (nr = 0 /\ na = 0) /\
    m = mouse_done m0 (flat (mouse_entries xy rels abss (uFlags m0) (cbAxisLen m0))) /\
    fs = mouse_fields id (uNumOfButtons m0) xy rels abss ++ wheel_fields id (uFlags m0).

(** A probe that succeeds registers a class that declares its fields, or adds nothing. *)
Definition probed {A} (Q : A -> list field -> Prop) (n st : Z) (r : option A) p p' : Prop :=
  match r with
  | None => NT_SUCCESS st = true -> dstep p p' [] /\ map_quiet p'
  | Some a => st = STATUS_SUCCESS /\ n < MAX_INPUT_CLASS_COUNT /\ map_quiet p' /\ Size (pDesc p') <= Size (pDesc p) + 200000 /\ exists ds fs, dstep p p' ds /\ class_emits ds fs /\ Q a fs
  end.

Lemma found_layout id rel abs key m nr na xy rels abss f0 : mouse_found id rel abs key m nr na xy rels abss f0 ->
  cbAxisOffset m = 1 + (uNumOfButtons m + 7) / 8 /\ cbAxisLen m = zlen (rel_axes xy rels) + 2 * zlen (abs_axes abss) /\
  uFlags m = all_flags f0 rels /\ mCommon m = mk_common [] 0 id false.
Proof.
  intros [Em _ _ _ -> -> _ _ _]. split_and!; [exact (f_equal cbAxisOffset Em)|exact (f_equal cbAxisLen Em)|exact (f_equal uFlags Em)|exact (f_equal mCommon Em)].
Qed.

Lemma mouse_found_size id rel abs key m nr na xy rels abss f0 : mouse_found id rel abs key m nr na xy rels abss f0 -> 1 <= mouse_size m.
Proof.
  intros F. pose proof (mf_nb _ _ _ _ _ _ _ _ _ _ _ F). destruct (found_layout _ _ _ _ _ _ _ _ _ _ _ F) as (E1 & E2 & _).
  unfold mouse_size. rewrite E1, E2. pose proof (zlen_nonneg (rel_axes xy rels)). pose proof (zlen_nonneg (abs_axes abss)).
  destruct (v_wheel _), (h_wheel _); Z.to_euclidean_division_equations; lia.
Qed.

Lemma mf_empty id rel abs key m nr na xy rels abss f0 : mouse_found id rel abs key m nr na xy rels abss f0 -> nr = 0 /\ na = 0 ->
  rel_entries xy rels = [] /\ abs_entries nr abss = [].
Proof.
  intros F [E1 E2]. rewrite (mf_nr _ _ _ _ _ _ _ _ _ _ _ F) in E1. rewrite (mf_na _ _ _ _ _ _ _ _ _ _ _ F) in E2. unfold zlen in *. unfold rel_entries, abs_entries.
  destruct (rel_axes xy rels); [|cbn in E1; lia]. destruct (abs_axes abss); [done|cbn in E2; lia].
Qed.

Lemma HIDMouseProbe_ok n rel abs key p : 0 <= n < 255 -> cfg_ok rel -> cfg_ok abs -> cfg_ok key -> droom 200000 p ->
  wp (HIDMouseProbe I C n rel abs key) (fun r p' => let '(st, m, (rel', abs', key')) := r in
    (cfg_like rel rel' /\ cfg_like abs abs' /\ cfg_like key key') /\ probed (mouse_built (n + 1) rel abs key) n st m p p') p.
Proof.
  intros Hn Kr Ka Kk D. unfold HIDMouseProbe. apply wp_bind, wp_modify, wp_bind, wp_gets. cbv beta.
  pose proof (fresh_room p 200000 D ltac:(lia)) as R0. set (p0 := p <| pMap := _ |>) in *. change (Size (pDesc p0)) with (Size (pDesc p)).
  apply wp_bind. eapply wp_mono; [apply (adds_alloc I sizeof_INPUT_CLASS_MOUSE 200000 p0 R0)|]. cbv beta. intros ok p1 (ds1 & bs1 & S1 & L1 & -> & ->).
  assert (room 100000 p1) as R1 by (eapply room_le; [eapply (step_room p0 p1 [] [] 200000 0); [exact R0|exact S1|done|lia]|lia]).
  destruct ok; cbn [negb]; [|apply wp_ret; split; [by split_and!|done]]. rewrite u8_small by lia.
  apply wp_bind. eapply wp_mono; [apply (mouse_describe_ok I C (n + 1) rel abs key p1 ltac:(lia) Kr Ka Kk R1)|].
  cbv beta. intros [[[m nr] na] [[rel' abs'] key']] p2 (ds2 & bs2 & S2 & L2 & Hl & xy & rels & abss & f0 & F & -> & ds' & -> & He).
  pose proof (step_trans _ _ _ _ _ _ _ S1 S2) as S12. cbn [app] in S12.
  destruct ((nr =? 0) && (na =? 0)) eqn:Ez.
  - apply wp_bind. eapply wp_mono; [apply (truncate_ok p p2 _ (proj1 D) (step_dstep _ _ _ _ S12))|]. cbv beta. intros [] p3 [D3 M3].
    apply wp_bind, wp_modify, wp_ret. split; [exact Hl|]. intros _. split; [exact D3|]. apply destroy_quiet. unfold map_quiet. rewrite M3. split; [apply S2|].
    destruct (mf_empty _ _ _ _ _ _ _ _ _ _ _ F ltac:(lia)) as [Er Ea]. rewrite Er, Ea in S12. destruct S12 as (_ & (O12 & Z12 & _) & _).
    pose proof (array_ok_size _ O12). change (zlen (map_of ([] ++ []))) with 0 in Z12. change (Size (pMap p0)) with 0 in Z12. lia.
  - assert (room 300 p2) as R2 by (eapply room_le; [eapply (step_room p0 p2 _ _ 200000 100000); [exact R0|exact S12|exact L2|lia]|lia]).
    apply wp_bind. eapply wp_mono; [apply (mouse_finish_ok (n + 1) n m p2 (map_of (rel_entries xy rels ++ abs_entries nr abss)) R2)|].
    + pose proof (mouse_found_size _ _ _ _ _ _ _ _ _ _ _ F). lia.
    + destruct S12 as (_ & (_ & _ & [H|(b & [= <-] & H2)]) & _); [by left|by right].
    + cbv beta. intros [st r] p3 (ds3 & D3 & Hr). apply wp_bind, wp_modify, wp_ret. split; [exact Hl|]. cbn [fst snd] in Hr.
      destruct r as [m'|]; [|cbn; rewrite Hr; done]. destruct Hr as (-> & Hmax & -> & Hw & Q3 & Z3). split; [done|]. split; [done|].
      split; [by apply destroy_quiet|]. pose proof (step_size _ _ _ _ _ S12 L2) as Z12. change (Size (pDesc p0)) with (Size (pDesc p)) in Z12. split; [cbn; lia|].
      eexists _, _. split; [exact (dstep_trans p0 p2 p3 _ _ (step_dstep _ _ _ _ S12) D3)|]. rewrite <- app_assoc. split.
      * eapply (class_emits_head (n + 1) HID_USAGE_PAGE_GENERIC); [|eapply emits_app; [exact He|exact Hw]].
        intros h. destruct h. done.
      * exists m, nr, na, xy, rels, abss, f0. split; [exact F|]. split; [lia|]. split; [|done].
        rewrite <- map_of_app, ulongs_map. unfold mouse_entries. by rewrite (mf_nr _ _ _ _ _ _ _ _ _ _ _ F), <- app_assoc.
Qed.
End probe.

(** ** What the descriptor says of the mouse *)

Lemma fields_ids id nb xy rels abss f : Forall (fun d => f_id d = id) (mouse_fields id nb xy rels abss ++ wheel_fields id f).
Proof.
  unfold mouse_fields, rel_fields, abs_fields, wheel_fields, button_fields. rewrite !Forall_app. split_and!.
  - destruct (nb >? 0); [|done]. destruct (truth _); by repeat constructor.
  - destruct (rel_usage xy <$> _); by repeat constructor.
  - apply Forall_fmap. by apply Forall_true.
  - destruct (v_wheel f); by repeat constructor.
  - destruct (h_wheel f); by repeat constructor.
Qed.

Lemma rel_bits id us : report_bits id (rel_fields id us) = 8 * zlen us.
Proof. unfold rel_fields, report_bits. destruct us; [done|]. cbn [foldr f_id f_size f_count]. rewrite Z.eqb_refl. lia. Qed.

Lemma abs_bits id us : report_bits id (abs_fields id us) = 16 * zlen us.
Proof.
  unfold abs_fields, report_bits. induction us as [|u us IH]; [done|]. cbn [fmap list_fmap foldr f_id f_size f_count] in *.
  rewrite Z.eqb_refl, zlen_cons. change (list_fmap Z field) with (@fmap list _ Z field). rewrite IH. lia.
Qed.

Lemma wheel_bits id f : report_bits id (wheel_fields id f) = 8 * ((if v_wheel f then 1 else 0) + (if h_wheel f then 1 else 0)).
Proof. unfold wheel_fields, report_bits. destruct (v_wheel f), (h_wheel f); cbn; rewrite ?Z.eqb_refl; done. Qed.

Lemma mouse_fields_bits id nb xy rels abss : 0 <= nb <= 16 ->
  report_bits id (mouse_fields id nb xy rels abss) = 8 * ((nb + 7) / 8 + zlen (rel_axes xy rels) + 2 * zlen (abs_axes abss)).
Proof.
  intros Hn. unfold mouse_fields. rewrite !report_bits_app, rel_bits, abs_bits.
  assert (forall A B (f : A -> B) (l : list A), zlen (f <$> l) = zlen l) as Hz by (intros; unfold zlen; by rewrite length_fmap). rewrite !Hz.
  destruct (Z.gtb_spec nb 0); [rewrite button_bits by lia; lia|]. replace nb with 0 by lia. change ((0 + 7) / 8) with 0. change (report_bits id []) with 0. lia.
Qed.

(** The declared length is that of the report of the class. *)
Lemma mouse_built_bits id rel abs key m fs : mouse_built id rel abs key m fs ->
  Forall (fun d => f_id d = id) fs /\ report_bits id fs = 8 * (cbHidReportSize (mCommon m) - 1).
Proof.
  intros (m0 & nr & na & xy & rels & abss & f0 & F & _ & -> & ->). split; [apply fields_ids|].
  rewrite report_bits_app, wheel_bits, mouse_fields_bits by apply F. change (cbHidReportSize (mCommon (mouse_done m0 _))) with (mouse_size m0).
  destruct (found_layout _ _ _ _ _ _ _ _ _ _ _ F) as (E1 & E2 & _). unfold mouse_size. rewrite E1, E2. lia.
Qed.
