(* ===== verification/VioInputMouseEvents.v ===== *)
(** * virtio-input: what a mouse reports

    The report of a mouse is, byte by byte, the encoding of an abstract pointer: the buttons
    held, the movement since the last synchronisation, the absolute position and the wheels.  Read
    through the descriptor that the probe wrote, the report shows that pointer. *)

From Stdlib Require Import ZArith Lia.
From stdpp Require Import base list numbers option sets.
From S2P Require Import Prelude.
From S2P Require Import VioInput.
From S2P Require Import VioInputSpec.
From S2P Require Import VioInputProbe.
From S2P Require Import Effects.
From S2P Require Import VioInputClasses.
From S2P Require Import VioInputHidSpec.
From S2P Require Import VioInputMouseSpec.

(** ** Lists of bytes *)

Lemma zset_app (pre : list Z) (x y : Z) post i : i = zlen pre -> zset (pre ++ x :: post) i y = Ok (pre ++ y :: post).
Proof.
  intros ->. pose proof (zlen_nonneg pre). rewrite zset_ok by (rewrite zlen_app, zlen_cons; pose proof (zlen_nonneg post); lia).
  unfold zinsert. replace (0 <=? zlen pre) with true by lia. f_equal. unfold zlen. rewrite Nat2Z.id. by rewrite insert_app_r_alt, Nat.sub_diag by lia.
Qed.

Lemma zget_app (pre : list Z) (x : Z) post i : i = zlen pre -> zget (pre ++ x :: post) i = Ok x.
Proof. intros ->. apply zget_ok. rewrite zlookup_app_r by lia. rewrite Z.sub_diag. done. Qed.

Lemma put_bytes_app (bs xs : list Z) : forall pre post i, i = zlen pre -> length xs = length bs ->
  put_bytes (pre ++ xs ++ post) i bs = Ok (pre ++ bs ++ post).
Proof.
  revert xs. induction bs as [|b bs IH]; intros [|x xs] pre post i Hi Hl; try done. cbn [put_bytes app].
  rewrite (zset_app pre x b) by done. cbn [mbind res_bind].
  change (pre ++ b :: xs ++ post) with (pre ++ [b] ++ xs ++ post). rewrite app_assoc. rewrite (IH xs); [|rewrite zlen_app; change (zlen [b]) with 1; lia|by injection Hl].
  by rewrite <- app_assoc.
Qed.

(** ** Buttons *)

(** The byte whose bits are [f]. *)
Definition bits_byte (f : Z -> bool) : Z :=
  b2z (f 0) + 2 * b2z (f 1) + 4 * b2z (f 2) + 8 * b2z (f 3) + 16 * b2z (f 4) + 32 * b2z (f 5) + 64 * b2z (f 6) + 128 * b2z (f 7).

(** [n] buttons from bit [i], padded. *)
Definition button_bytes (n : Z) (f : Z -> bool) : list Z :=
  (fun k => bits_byte (fun j => bool_decide (8 * k + j < n) && f (8 * k + j))) <$> seqZ 0 ((n + 7) / 8).

Lemma bits_byte_ext f g : (forall j, 0 <= j < 8 -> f j = g j) -> bits_byte f = bits_byte g.
Proof. intros H. unfold bits_byte. rewrite !H by lia. done. Qed.

Lemma bits_byte_range f : 0 <= bits_byte f < 256.
Proof. unfold bits_byte, b2z. repeat case_match; lia. Qed.

Lemma bits_byte_bit f j : 0 <= j < 8 -> Z.testbit (bits_byte f) j = f j.
Proof.
  intros Hj. assert (j = 0 \/ j = 1 \/ j = 2 \/ j = 3 \/ j = 4 \/ j = 5 \/ j = 6 \/ j = 7) as Hc by lia.
  unfold bits_byte. destruct (f 0) eqn:E0, (f 1) eqn:E1, (f 2) eqn:E2, (f 3) eqn:E3, (f 4) eqn:E4, (f 5) eqn:E5, (f 6) eqn:E6, (f 7) eqn:E7;
    repeat destruct Hc as [-> | Hc]; subst; rewrite ?E0, ?E1, ?E2, ?E3, ?E4, ?E5, ?E6, ?E7; reflexivity.
Qed.

Lemma byte_bits_ext a b : 0 <= a < 256 -> 0 <= b < 256 -> (forall j, 0 <= j < 8 -> Z.testbit a j = Z.testbit b j) -> a = b.
Proof.
  intros Ha Hb H. apply Z.bits_inj'. intros j Hj. destruct (Z.ltb_spec j 8); [by apply H|].
  rewrite !Z.bits_above_log2; try done; try lia.
  - destruct (Z.eq_dec b 0) as [->|]; [cbn; lia|]. assert (Z.log2 b < 8) by (apply Z.log2_lt_pow2; lia). lia.
  - destruct (Z.eq_dec a 0) as [->|]; [cbn; lia|]. assert (Z.log2 a < 8) by (apply Z.log2_lt_pow2; lia). lia.
Qed.

Definition set_button (f : Z -> bool) (i : Z) (v : bool) : Z -> bool := fun j => if j =? i then v else f j.

Lemma put_mask f i v : 0 <= i < 8 ->
  (if (v : bool) then Z.lor (bits_byte f) (u8 (Z.shiftl 1 i)) else Z.land (bits_byte f) (u8 (Z.lnot (u8 (Z.shiftl 1 i))))) = bits_byte (set_button f i v).
Proof.
  intros Hi. pose proof (bits_byte_range f) as Hr. assert (Hm : u8 (Z.shiftl 1 i) = Z.shiftl 1 i).
  { apply u8_small. rewrite Z.shiftl_mul_pow2, Z.mul_1_l by lia. assert (2 ^ i <= 2 ^ 7) by (apply Z.pow_le_mono_r; lia). change (2 ^ 7) with 128 in *. lia. }
  apply byte_bits_ext.
  - destruct v.
    + apply (lor_bit_ok (bits_byte f) i); [exact Hr|lia].
    + by apply byte_ok_land.
  - apply bits_byte_range.
  - intros j Hj. rewrite bits_byte_bit by lia. unfold set_button. rewrite Hm. destruct v.
    + rewrite Z.lor_spec, bits_byte_bit by lia. rewrite Z.shiftl_spec by lia. destruct (Z.eqb_spec j i) as [->|].
      * rewrite Z.sub_diag. by rewrite orb_true_r.
      * replace (Z.testbit 1 (j - i)) with false; [by rewrite orb_false_r|]. symmetry. destruct (Z.ltb_spec j i); [apply Z.testbit_neg_r; lia|]. apply Z.bits_above_log2; cbn; lia.
    + rewrite Z.land_spec, bits_byte_bit by lia. replace (Z.testbit (u8 (Z.lnot (Z.shiftl 1 i))) j) with (negb (Z.testbit (Z.shiftl 1 i) j)).
      * rewrite Z.shiftl_spec by lia. destruct (Z.eqb_spec j i) as [->|].
        { rewrite Z.sub_diag. by rewrite andb_false_r. }
        replace (Z.testbit 1 (j - i)) with false; [by rewrite andb_true_r|]. symmetry. destruct (Z.ltb_spec j i); [apply Z.testbit_neg_r; lia|]. apply Z.bits_above_log2; cbn; lia.
      * unfold u8. change 256 with (2 ^ 8). rewrite Z.mod_pow2_bits_low by lia. by rewrite Z.lnot_spec by lia.
Qed.

Lemma zlen_button_bytes n f : 0 <= n -> zlen (button_bytes n f) = (n + 7) / 8.
Proof. intros Hn. unfold button_bytes, zlen. rewrite length_fmap, length_seqZ. pose proof (Z.div_pos (n + 7) 8). lia. Qed.

(** Pressing or releasing button [i]. *)
Lemma put_button_ok n f i v pre post off : 0 <= i < n -> off = zlen pre ->
  put_button (pre ++ button_bytes n f ++ post) off i v = Ok (pre ++ button_bytes n (set_button f i (truth v)) ++ post).
Proof.
  intros Hi ->. unfold put_button, put_bits.
  assert (0 <= i / 8 < (n + 7) / 8) as Hk by (Z.to_euclidean_division_equations; lia).
  assert (forall g, button_bytes n g = ((fun k => bits_byte (fun j => bool_decide (8 * k + j < n) && g (8 * k + j))) <$> seqZ 0 (i / 8)) ++
    bits_byte (fun j => bool_decide (8 * (i / 8) + j < n) && g (8 * (i / 8) + j)) ::
    ((fun k => bits_byte (fun j => bool_decide (8 * k + j < n) && g (8 * k + j))) <$> seqZ (i / 8 + 1) ((n + 7) / 8 - (i / 8 + 1)))) as Hs.
  { intros g. unfold button_bytes. replace ((n + 7) / 8) with (i / 8 + (1 + ((n + 7) / 8 - (i / 8 + 1)))) by lia.
    rewrite seqZ_app, fmap_app by lia. f_equal. rewrite Z.add_0_l, (seqZ_cons (i / 8)) by lia. cbn [fmap list_fmap]. f_equal.
    do 2 f_equal; lia. }
  rewrite !Hs. set (l1 := _ <$> seqZ 0 (i / 8)). rewrite <- !app_assoc, app_assoc. cbn [app].
  assert (zlen pre + i / 8 = zlen (pre ++ l1)) as Hz by (rewrite zlen_app; f_equal; unfold l1, zlen; rewrite length_fmap, length_seqZ; lia).
  rewrite (zget_app (pre ++ l1)) by done. cbn [mbind res_bind]. rewrite (zset_app (pre ++ l1)) by done. f_equal. rewrite <- app_assoc. f_equal.
  assert (0 <= i mod 8 < 8) as Hm by (apply Z.mod_pos_bound; lia). pose proof (Z.div_mod i 8 ltac:(lia)) as Hd.
  rewrite put_mask by done. f_equal; [|f_equal]; [unfold l1| |f_equal].
  - apply list_fmap_ext. intros a k Hk'. apply lookup_seqZ in Hk' as [-> Hk']. apply bits_byte_ext. intros j Hj. f_equal. unfold set_button.
    by replace (8 * (0 + Z.of_nat a) + j =? i) with false by lia.
  - apply bits_byte_ext. intros j Hj. unfold set_button. destruct (Z.eqb_spec j (i mod 8)) as [->|].
    + rewrite bool_decide_true by lia. by replace (8 * (i / 8) + i mod 8 =? i) with true by lia.
    + f_equal. by replace (8 * (i / 8) + j =? i) with false by lia.
  - apply list_fmap_ext. intros a k Hk'. apply lookup_seqZ in Hk' as [-> Hk']. apply bits_byte_ext. intros j Hj. f_equal. unfold set_button.
    by replace (8 * (i / 8 + 1 + Z.of_nat a) + j =? i) with false by lia.
Qed.

(** ** The axis map *)

Definition entry_ok (e : Z * Z) : Prop := 0 <= e.1 < MAP_END /\ 0 <= e.2 < 4294967296.

Lemma flat_cons e es : entry_ok e -> flat (e :: es) = e.1 :: e.2 :: flat es.
Proof. intros (H1 & H2). unfold flat. rewrite bind_cons. unfold MAP_END in *. by rewrite !u32_small by lia. Qed.

Lemma flat_app a b : flat (a ++ b) = flat a ++ flat b.
Proof. apply bind_app. Qed.

Definition map_end : list (Z * Z) := [(MAP_END, MAP_END)].

Lemma find_hit e1 k o e2 : Forall entry_ok e1 -> entry_ok (k, o) -> Forall (fun e => e.1 <> k) e1 ->
  axis_find (flat (e1 ++ (k, o) :: e2)) k = Ok (Some o).
Proof.
  induction e1 as [|e e1 IH]; intros H1 Hk Hn; cbn [app].
  - rewrite flat_cons by done. destruct Hk as ((Hk & Hk') & _). cbn [fst snd axis_find] in *. destruct (Z.eqb_spec k MAP_END); [lia|]. by rewrite Z.eqb_refl.
  - apply list.Forall_cons in H1 as [(He & He') H1]. apply list.Forall_cons in Hn as [Hne Hn]. rewrite flat_cons by done.
    cbn [axis_find]. destruct (Z.eqb_spec e.1 MAP_END); [lia|]. destruct (Z.eqb_spec e.1 k); [done|]. by apply IH.
Qed.

Lemma find_miss es k : Forall entry_ok es -> Forall (fun e => e.1 <> k) es -> axis_find (flat (es ++ map_end)) k = Ok None.
Proof.
  induction es as [|e es IH]; intros H1 Hn; cbn [app]; [done|].
  apply list.Forall_cons in H1 as [(He & He') H1]. apply list.Forall_cons in Hn as [Hne Hn]. rewrite flat_cons by done.
  cbn [axis_find]. destruct (Z.eqb_spec e.1 MAP_END); [lia|]. destruct (Z.eqb_spec e.1 k); [done|]. by apply IH.
Qed.

Lemma axis_key_eq t c : 0 <= c < 65536 -> axis_key t c = t * 65536 + c.
Proof.
  intros Hc. unfold axis_key. rewrite Z.lor_comm. pose proof (lor_shiftl_add c t 16 ltac:(lia) ltac:(lia)) as L. rewrite L. lia.
Qed.

Lemma axis_key_type t c : 0 <= c < 65536 -> Z.shiftr (axis_key t c) 16 = t.
Proof. intros Hc. rewrite axis_key_eq, Z.shiftr_div_pow2 by lia. change (2 ^ 16) with 65536. rewrite Z.add_comm, Z.div_add by lia. rewrite Z.div_small; lia. Qed.

Lemma axis_key_inj t t' c c' : 0 <= c < 65536 -> 0 <= c' < 65536 -> axis_key t c = axis_key t' c' -> t = t' /\ c = c'.
Proof. intros H H' Hk. rewrite !axis_key_eq in Hk by done. lia. Qed.

(** Resetting the bytes of relative axes, one after the other. *)
Lemma reset_rel ra : forall k pre (xs post : list Z) es base, Forall (fun c => 0 <= c < 1024) ra -> 0 <= k -> k + zlen ra < 4096 -> zlen pre = base + k -> length xs = length ra ->
  axis_reset (flat (imap (fun i c => (axis_key EV_REL c, k + Z.of_nat i)) ra ++ es)) base (pre ++ xs ++ post) =
  axis_reset (flat es) base (pre ++ replicate (length ra) 0 ++ post).
Proof.
  induction ra as [|c ra IH]; intros k pre xs post es base Hr Hk Hl Hp Hx; destruct xs as [|x xs]; try done.
  apply list.Forall_cons in Hr as [Hc Hr]. rewrite zlen_cons in Hl. cbn [imap app length replicate].
  pose proof (zlen_nonneg ra). rewrite flat_cons; cbn [fst snd].
  2: { split; cbn [fst snd]; [rewrite axis_key_eq by lia; unfold EV_REL, MAP_END|]; lia. }
  cbn [axis_reset]. destruct (Z.eqb_spec (axis_key EV_REL c) MAP_END) as [He|_]; [rewrite axis_key_eq in He by lia; unfold EV_REL, MAP_END in He; lia|].
  rewrite axis_key_type, Z.eqb_refl by lia. rewrite (zset_app pre) by (rewrite Hp; lia). cbn [mbind res_bind].
  change (pre ++ 0 :: xs ++ post) with (pre ++ [0] ++ xs ++ post). rewrite app_assoc.
  transitivity (axis_reset (flat es) base ((pre ++ [0]) ++ replicate (length ra) 0 ++ post)); [|by rewrite <- app_assoc].
  rewrite <- (IH (k + 1) (pre ++ [0]) xs post es base); [|done|lia|lia|rewrite zlen_app; change (zlen [0]) with 1; lia|by injection Hx].
  do 2 f_equal. f_equal. apply imap_ext. intros i y _. cbn. f_equal. lia.
Qed.

Lemma reset_skip es' : forall es base r, Forall entry_ok es' -> Forall (fun e => Z.shiftr e.1 16 <> EV_REL) es' ->
  axis_reset (flat (es' ++ es)) base r = axis_reset (flat es) base r.
Proof.
  induction es' as [|e es' IH]; intros es base r H1 H2; [done|]. apply list.Forall_cons in H1 as [(He & He') H1]. apply list.Forall_cons in H2 as [Hn H2].
  cbn [app]. rewrite flat_cons by done. cbn [axis_reset]. destruct (Z.eqb_spec e.1 MAP_END); [lia|]. destruct (Z.eqb_spec (Z.shiftr e.1 16) EV_REL); [done|]. by apply IH.
Qed.

Lemma reset_one c off es base r : 0 <= c < 1024 -> 0 <= off < 4096 -> 
  axis_reset (flat ((axis_key EV_REL c, off) :: es)) base r = (r' ← zset r (base + off) 0; axis_reset (flat es) base r').
Proof.
  intros Hc Ho. rewrite flat_cons; cbn [fst snd]. 2: { split; cbn [fst snd]; [rewrite axis_key_eq by lia; unfold EV_REL, MAP_END|]; lia. }
  cbn [axis_reset]. destruct (Z.eqb_spec (axis_key EV_REL c) MAP_END) as [He|_]; [rewrite axis_key_eq in He by lia; unfold EV_REL, MAP_END in He; lia|].
  by rewrite axis_key_type, Z.eqb_refl by lia.
Qed.

(** ** The abstract pointer *)

(** Buttons; the movement of each relative axis since the last synchronisation; the position on
    each absolute axis; the wheels. *)
Record pointer := mk_pointer { pt_buttons : Z -> bool; pt_rel : Z -> Z; pt_abs : Z -> Z; pt_v : Z; pt_h : Z }.
#[export] Instance eta_pointer : Eta pointer := fun p => mk_pointer (pt_buttons p) (pt_rel p) (pt_abs p) (pt_v p) (pt_h p).

Definition at_rest : pointer := mk_pointer (fun _ => false) (fun _ => 0) (fun _ => 0) 0 0.
Definition upd (f : Z -> Z) (c v : Z) : Z -> Z := fun c' => if c' =? c then v else f c'.

(** What an event does to the pointer of a device with the wheels of [flags] and [nb] buttons. *)
Definition pointer_event (flags nb : Z) (p : pointer) (ev : VIRTIO_INPUT_EVENT) : pointer :=
  let '(t, c, v) := (ev_type ev, ev_code ev, ev_value ev) in
  let trim := TrimRelative (s32 v) in
  if t =? EV_REL then
    if c =? REL_WHEEL then if has_flag flags CLASS_MOUSE_SUPPORTS_REL_WHEEL then p <| pt_v := trim |> else p
    else if c =? REL_HWHEEL then if has_flag flags CLASS_MOUSE_SUPPORTS_REL_HWHEEL then p <| pt_h := trim |> else p
    else if c =? REL_DIAL then if has_flag flags CLASS_MOUSE_SUPPORTS_REL_DIAL then p <| pt_h := trim |> else p
    else p <| pt_rel := upd (pt_rel p) c trim |>
  else if t =? EV_ABS then p <| pt_abs := upd (pt_abs p) c v |>
  else if t =? EV_KEY then
    if c =? BTN_GEAR_DOWN then if truth v then p <| pt_v := u8 (pt_v p - 1) |> else p
    else if c =? BTN_GEAR_UP then if truth v then p <| pt_v := u8 (pt_v p + 1) |> else p
    else if mouse_button c then p <| pt_buttons := set_button (pt_buttons p) (c - BTN_MOUSE) (truth v) |>
    else p
  else if t =? EV_SYN then p <| pt_rel := fun _ => 0 |> <| pt_v := 0 |> <| pt_h := 0 |>
  else p.

(** The report that shows the pointer. *)
Definition pointer_report (first nb : Z) (ra aa : list Z) (v h : bool) (p : pointer) : list Z :=
  [first] ++ button_bytes nb (pt_buttons p) ++ (pt_rel p <$> ra) ++ (aa ≫= (fun c => le_bytes 2 (pt_abs p c))) ++
  (if v then [pt_v p] else []) ++ (if h then [pt_h p] else []).

(** ** The class that shows a pointer *)

Record mouse_conf := mk_conf { k_id : Z; k_nb : Z; k_rel : list Z; k_abs : list Z; k_flags : Z }.

Record conf_ok (K : mouse_conf) : Prop := {
  ko_nb : 0 <= k_nb K <= 16;
  ko_rel : Forall (fun c => 0 <= c < 1024 /\ c <> REL_WHEEL /\ c <> REL_HWHEEL /\ c <> REL_DIAL) (k_rel K);
  ko_abs : Forall (fun c => 0 <= c < 1024) (k_abs K);
  ko_nodup : NoDup (k_rel K) /\ NoDup (k_abs K);
  ko_few : zlen (k_rel K) <= 1024 /\ zlen (k_abs K) <= 1024;
  ko_flags : flags_ok (k_flags K) }.

Definition k_offset (K : mouse_conf) : Z := 1 + (k_nb K + 7) / 8.
Definition k_len (K : mouse_conf) : Z := zlen (k_rel K) + 2 * zlen (k_abs K).
Definition k_v (K : mouse_conf) : bool := v_wheel (k_flags K).
Definition k_h (K : mouse_conf) : bool := h_wheel (k_flags K).
Definition k_size (K : mouse_conf) : Z := k_offset K + k_len K + (if k_v K then 1 else 0) + (if k_h K then 1 else 0).
Definition k_entries (K : mouse_conf) : list (Z * Z) :=
  imap (fun i c => (axis_key EV_REL c, 0 + Z.of_nat i)) (k_rel K) ++
  imap (fun i c => (axis_key EV_ABS c, zlen (k_rel K) + 2 * Z.of_nat i)) (k_abs K) ++ wheel_entries (k_flags K) (k_len K).

(** The class with a report that shows [p]. *)
Definition mouse_showing (K : mouse_conf) (first : Z) (dirty : bool) (p : pointer) : INPUT_CLASS_MOUSE :=
  mk_mouse (mk_common (pointer_report first (k_nb K) (k_rel K) (k_abs K) (k_v K) (k_h K) p) (k_size K) (k_id K) dirty)
    (k_nb K) (k_offset K) (k_len K) (Some (flat (k_entries K ++ map_end))) (k_flags K).

Lemma fst_imap (k o : Z -> Z) (l : list Z) : forall n : nat,
  fst <$> imap (fun i c => (k c, o (Z.of_nat (i + n)))) l = k <$> l.
Proof.
  induction l as [|c l IH]; intros n; [done|]. cbn [imap fmap list_fmap fst]. f_equal. rewrite <- (IH (S n)).
  unfold fmap. f_equal. apply imap_ext. intros i x _. cbn. do 3 f_equal. lia.
Qed.

Lemma elem_imap (k o : Z -> Z) (l l1 l2 : list Z) c : l = l1 ++ c :: l2 -> (k c, o (zlen l1)) ∈ imap (fun i c => (k c, o (Z.of_nat i))) l.
Proof. intros ->. rewrite imap_app. apply elem_of_app. right. cbn. apply elem_of_cons. left. by rewrite Nat.add_0_r. Qed.

Section conf.
Context (K : mouse_conf) (OK : conf_ok K).

Definition rel_keys : list Z := axis_key EV_REL <$> k_rel K.
Definition abs_keys : list Z := axis_key EV_ABS <$> k_abs K.

Lemma keys_eq : fst <$> k_entries K = rel_keys ++ abs_keys ++ (fst <$> wheel_entries (k_flags K) (k_len K)).
Proof.
  unfold k_entries, rel_keys, abs_keys. rewrite !fmap_app. f_equal; [|f_equal].
  - rewrite <- (fst_imap (axis_key EV_REL) (fun x => 0 + x) (k_rel K) 0). f_equal. apply imap_ext. intros i x _. cbn. do 3 f_equal. lia.
  - rewrite <- (fst_imap (axis_key EV_ABS) (fun x => zlen (k_rel K) + 2 * x) (k_abs K) 0). f_equal. apply imap_ext. intros i x _. do 4 f_equal. lia.
Qed.

Lemma wheel_keys e : e ∈ wheel_entries (k_flags K) (k_len K) ->
  (e.1 = axis_key EV_REL REL_WHEEL \/ e.1 = axis_key EV_REL REL_HWHEEL \/ e.1 = axis_key EV_REL REL_DIAL) /\ k_len K <= e.2 <= k_len K + 1.
Proof.
  unfold wheel_entries. rewrite !elem_of_app.
  repeat case_match; rewrite ?list_elem_of_singleton, ?elem_of_nil; intros H'; destruct_or?; subst; cbn [fst snd]; try done; (split; [auto|lia]).
Qed.

Lemma key_of_rel c : 0 <= c < 65536 -> axis_key EV_REL c ∈ rel_keys <-> c ∈ k_rel K.
Proof.
  intros Hc. unfold rel_keys. rewrite list_elem_of_fmap. split; [|eauto]. intros (c' & E & Hc'). pose proof (ko_rel K OK) as Hr. rewrite list.Forall_forall in Hr.
  specialize (Hr c' Hc'). apply axis_key_inj in E as [_ ->]; [done|lia|lia].
Qed.

Lemma key_of_abs c : 0 <= c < 65536 -> axis_key EV_ABS c ∈ abs_keys <-> c ∈ k_abs K.
Proof.
  intros Hc. unfold abs_keys. rewrite list_elem_of_fmap. split; [|eauto]. intros (c' & E & Hc'). pose proof (ko_abs K OK) as Hr. rewrite list.Forall_forall in Hr.
  specialize (Hr c' Hc'). cbn in Hr. apply axis_key_inj in E as [_ ->]; [done|lia|lia].
Qed.

Lemma len_range : 0 <= k_len K <= 3072.
Proof. destruct (ko_few K OK). unfold k_len. pose proof (zlen_nonneg (k_rel K)). pose proof (zlen_nonneg (k_abs K)). lia. Qed.

Lemma entries_ok : Forall entry_ok (k_entries K).
Proof.
  pose proof len_range as Hl. destruct (ko_few K OK). pose proof (zlen_nonneg (k_rel K)). unfold k_entries. rewrite !Forall_app. split_and!.
  - apply Forall_lookup_2. intros i e. rewrite list_lookup_imap, fmap_Some. intros (c & Hc & ->). pose proof (ko_rel K OK) as Hr.
    rewrite Forall_lookup in Hr. specialize (Hr i c Hc). apply lookup_lt_Some in Hc. unfold zlen in *.
    split; cbn [fst snd]; [rewrite axis_key_eq by lia; unfold EV_REL, MAP_END|]; lia.
  - apply Forall_lookup_2. intros i e. rewrite list_lookup_imap, fmap_Some. intros (c & Hc & ->). pose proof (ko_abs K OK) as Hr.
    rewrite Forall_lookup in Hr. specialize (Hr i c Hc). apply lookup_lt_Some in Hc. unfold zlen in *. cbn beta in Hr.
    split; cbn [fst snd]; [rewrite axis_key_eq by lia; unfold EV_ABS, MAP_END|]; lia.
  - apply list.Forall_forall. intros e He. destruct (wheel_keys e He) as [Hk Ho]. split; [|lia].
    destruct Hk as [-> |[-> | ->]]; vm_compute; split; congruence.
Qed.

Lemma keys_nodup : NoDup (fst <$> k_entries K).
Proof.
  rewrite keys_eq. pose proof (ko_nodup K OK) as [N1 N2]. pose proof (ko_rel K OK) as Hr. pose proof (ko_abs K OK) as Ha. rewrite list.Forall_forall in Hr, Ha.
  apply NoDup_app. split_and!.
  - apply NoDup_fmap_2_strong; [|done]. intros x y Hx Hy E. pose proof (Hr x Hx). pose proof (Hr y Hy). apply axis_key_inj in E as [_ ?]; lia.
  - intros k Hk Hk'. unfold rel_keys in Hk. apply list_elem_of_fmap in Hk as (c & -> & Hc). specialize (Hr c Hc). apply elem_of_app in Hk' as [Hk'|Hk'].
    + unfold abs_keys in Hk'. apply list_elem_of_fmap in Hk' as (c' & E & Hc'). specialize (Ha c' Hc'). cbn in Ha. apply axis_key_inj in E as [? _]; [done|lia|lia].
    + apply list_elem_of_fmap in Hk' as (e & E & He). destruct (wheel_keys e He) as [[Ek|[Ek|Ek]] _]; rewrite Ek in E; apply axis_key_inj in E as [_ ?]; unfold REL_WHEEL, REL_HWHEEL, REL_DIAL in *; lia.
  - apply NoDup_app. split_and!.
    + apply NoDup_fmap_2_strong; [|done]. intros x y Hx Hy E. pose proof (Ha x Hx) as H1. pose proof (Ha y Hy) as H2. cbn in H1, H2. apply axis_key_inj in E as [_ ?]; lia.
    + intros k Hk Hk'. unfold abs_keys in Hk. apply list_elem_of_fmap in Hk as (c & -> & Hc). specialize (Ha c Hc). cbn in Ha. apply list_elem_of_fmap in Hk' as (e & E & He).
      destruct (wheel_keys e He) as [[Ek|[Ek|Ek]] _]; rewrite Ek in E; apply axis_key_inj in E as [? _]; unfold EV_ABS, EV_REL, REL_WHEEL, REL_HWHEEL, REL_DIAL in *; lia.
    + unfold wheel_entries. repeat case_match; cbn; apply NoDup_ListNoDup; repeat (constructor; [cbn; intuition discriminate|]); constructor.
Qed.

(** Looking up a key that the map has, or has not. *)
Lemma find_in k o : (k, o) ∈ k_entries K -> axis_find (flat (k_entries K ++ map_end)) k = Ok (Some o).
Proof.
  intros Hi. pose proof entries_ok as Ho. pose proof keys_nodup as Hn. apply list_elem_of_split in Hi as (e1 & e2 & E). rewrite E in *.
  rewrite <- app_assoc. cbn [app]. apply Forall_app in Ho as [Ho1 Ho2]. apply list.Forall_cons in Ho2 as [Hk _]. apply find_hit; [done|done|].
  rewrite fmap_app, fmap_cons in Hn. apply NoDup_app in Hn as (_ & Hd & _). apply list.Forall_forall. intros e He Ee. apply (Hd e.1).
  - apply list_elem_of_fmap. eauto.
  - rewrite Ee. left.
Qed.

Lemma find_out k : k ∉ (fst <$> k_entries K) -> axis_find (flat (k_entries K ++ map_end)) k = Ok None.
Proof.
  intros Hk. apply find_miss; [apply entries_ok|]. apply list.Forall_forall. intros e He Ee. apply Hk. apply list_elem_of_fmap. eauto.
Qed.
(** ** Events *)

Definition rep (first : Z) (p : pointer) : list Z := pointer_report first (k_nb K) (k_rel K) (k_abs K) (k_v K) (k_h K) p.
Definition head (first : Z) (p : pointer) : list Z := [first] ++ button_bytes (k_nb K) (pt_buttons p).
Definition tail (p : pointer) : list Z := (if k_v K then [pt_v p] else []) ++ (if k_h K then [pt_h p] else []).
Definition words (f : Z -> Z) (l : list Z) : list Z := l ≫= (fun c => le_bytes 2 (f c)).

Lemma rep_eq first p : rep first p = head first p ++ (pt_rel p <$> k_rel K) ++ words (pt_abs p) (k_abs K) ++ tail p.
Proof. unfold rep, pointer_report, head, tail, words. by rewrite <- !app_assoc. Qed.

Lemma zlen_head first p : zlen (head first p) = k_offset K.
Proof. unfold head, k_offset. rewrite zlen_app, zlen_button_bytes by apply OK. done. Qed.

Lemma zlen_words f l : zlen (words f l) = 2 * zlen l.
Proof.
  unfold words. induction l as [|c l IH]; [done|]. rewrite bind_cons, zlen_app, zlen_cons, IH. unfold zlen at 1. rewrite length_le_bytes. lia.
Qed.

Lemma upd_other f c v (l : list Z) : c ∉ l -> upd f c v <$> l = f <$> l.
Proof. intros Hc. apply list_fmap_ext. intros i x Hx. unfold upd. destruct (Z.eqb_spec x c) as [->|]; [|done]. by apply list_elem_of_lookup_2 in Hx. Qed.

Lemma words_other f c v (l : list Z) : c ∉ l -> words (upd f c v) l = words f l.
Proof.
  unfold words, upd. induction l as [|x l IH]; [done|]. rewrite not_elem_of_cons. intros [Hx Hl]. rewrite !bind_cons, IH by done.
  by destruct (Z.eqb_spec x c) as [->|].
Qed.

Definition report_of (m : INPUT_CLASS_MOUSE) (r : list Z) : INPUT_CLASS_MOUSE := m <| mCommon := (mCommon m) <| cReport := r |> |>.

Lemma put_showing first dirty p p' : mouse_put (mouse_showing K first dirty p) (rep first p') = mouse_showing K first true p'.
Proof. done. Qed.

(** A byte of the tail. *)
Lemma set_tail first p i x p' t1 y t2 : tail p = t1 ++ y :: t2 -> tail p' = t1 ++ x :: t2 ->
  pt_buttons p' = pt_buttons p -> pt_rel p' = pt_rel p -> pt_abs p' = pt_abs p -> i = k_offset K + (k_len K + zlen t1) ->
  zget (rep first p) i = Ok y /\ zset (rep first p) i x = Ok (rep first p').
Proof.
  intros Et Et' Eb Er Ea ->. rewrite !rep_eq, Et, Et'. unfold head. rewrite Eb, Er, Ea. fold (head first p).
  set (pre := head first p ++ (pt_rel p <$> k_rel K) ++ words (pt_abs p) (k_abs K) ++ t1).
  assert (forall z, head first p ++ (pt_rel p <$> k_rel K) ++ words (pt_abs p) (k_abs K) ++ t1 ++ z :: t2 = pre ++ z :: t2) as Hz
    by (intros; unfold pre; by rewrite <- !app_assoc).
  assert (k_offset K + (k_len K + zlen t1) = zlen pre) as Hi.
  { unfold pre. rewrite !zlen_app, zlen_head, zlen_fmap, zlen_words. unfold k_len. lia. }
  change ([first] ++ button_bytes (k_nb K) (pt_buttons p)) with (head first p). rewrite !Hz. split; [by apply zget_app|by apply zset_app].
Qed.

Lemma set_v first p x : k_v K = true ->
  zget (rep first p) (k_offset K + k_len K) = Ok (pt_v p) /\ zset (rep first p) (k_offset K + k_len K) x = Ok (rep first (p <| pt_v := x |>)).
Proof. intros Hv. eapply (set_tail _ _ _ _ _ []); unfold tail; rewrite ?Hv; cbn [app]; try done. change (zlen []) with 0. lia. Qed.

Lemma set_h first p x : k_h K = true ->
  zset (rep first p) (k_offset K + (if k_v K then k_len K + 1 else k_len K)) x = Ok (rep first (p <| pt_h := x |>)).
Proof.
  intros Hh. destruct (k_v K) eqn:Hv; [eapply (set_tail _ _ _ _ _ [pt_v p])|eapply (set_tail _ _ _ _ _ [])]; unfold tail; rewrite ?Hv, ?Hh; cbn [app]; try done.
  change (zlen []) with 0. lia.
Qed.

Lemma set_rel first p x c i : k_rel K !! i = Some c ->
  zset (rep first p) (k_offset K + Z.of_nat i) x = Ok (rep first (p <| pt_rel := upd (pt_rel p) c x |>)).
Proof.
  intros Hi. pose proof (list_elem_of_split_length _ _ _ Hi) as (l1 & l2 & El & Hl). rewrite !rep_eq, El. pose proof (proj1 (ko_nodup K OK)) as Hn. rewrite El in Hn.
  apply NoDup_app in Hn as (_ & Hn1 & Hn2). apply list.NoDup_cons in Hn2 as [Hn2 _]. rewrite !fmap_app, !fmap_cons.
  change (pt_rel (p <| pt_rel := upd (pt_rel p) c x |>)) with (upd (pt_rel p) c x).
  rewrite !upd_other; [|done|intros Hx; apply (Hn1 _ Hx); left]. replace (upd (pt_rel p) c x c) with x by (unfold upd; by rewrite Z.eqb_refl).
  change (head first (p <| pt_rel := upd (pt_rel p) c x |>)) with (head first p). change (tail (p <| pt_rel := _ |>)) with (tail p).
  change (pt_abs (p <| pt_rel := _ |>)) with (pt_abs p).
  rewrite <- !(app_assoc _ (_ :: _)), !(app_assoc (head first p)). cbn [app]. apply zset_app. rewrite zlen_app, zlen_head, zlen_fmap. unfold zlen. lia.
Qed.

Lemma set_abs first p x c i : k_abs K !! i = Some c ->
  put_bytes (rep first p) (k_offset K + (zlen (k_rel K) + 2 * Z.of_nat i)) (le_bytes 2 x) = Ok (rep first (p <| pt_abs := upd (pt_abs p) c x |>)).
Proof.
  intros Hi. pose proof (list_elem_of_split_length _ _ _ Hi) as (l1 & l2 & El & Hl). rewrite !rep_eq, El. pose proof (proj2 (ko_nodup K OK)) as Hn. rewrite El in Hn.
  apply NoDup_app in Hn as (_ & Hn1 & Hn2). apply list.NoDup_cons in Hn2 as [Hn2 _].
  assert (forall f, words f (l1 ++ c :: l2) = words f l1 ++ le_bytes 2 (f c) ++ words f l2) as Hw by (intros; unfold words; by rewrite bind_app, bind_cons). rewrite !Hw.
  change (pt_abs (p <| pt_abs := upd (pt_abs p) c x |>)) with (upd (pt_abs p) c x).
  rewrite !words_other; [|done|intros Hx; apply (Hn1 _ Hx); left]. replace (upd (pt_abs p) c x c) with x by (unfold upd; by rewrite Z.eqb_refl).
  change (head first (p <| pt_abs := upd (pt_abs p) c x |>)) with (head first p). change (tail (p <| pt_abs := _ |>)) with (tail p).
  change (pt_rel (p <| pt_abs := _ |>)) with (pt_rel p). set (pre := head first p ++ (pt_rel p <$> k_rel K) ++ words (pt_abs p) l1).
  assert (forall z, head first p ++ (pt_rel p <$> k_rel K) ++ (words (pt_abs p) l1 ++ z ++ words (pt_abs p) l2) ++ tail p = pre ++ z ++ words (pt_abs p) l2 ++ tail p) as Hz
    by (intros; unfold pre; by rewrite <- !app_assoc). rewrite !Hz. apply put_bytes_app; [|by rewrite !length_le_bytes].
  unfold pre. rewrite !zlen_app, zlen_head, zlen_fmap, zlen_words. unfold zlen at 3. lia.
Qed.

(** A value for a relative axis or wheel of the map. *)
Lemma put_rel first p c v o : 0 <= c < 65536 -> (axis_key EV_REL c, o) ∈ k_entries K ->
  zset (rep first p) (k_offset K + o) (TrimRelative (s32 v)) = Ok (rep first (pointer_event (k_flags K) (k_nb K) p (mk_ev EV_REL c v))).
Proof.
  intros Hc Hin. pose proof (ko_flags K OK) as [Fv Fh Fd _]. unfold k_entries in Hin. rewrite !elem_of_app in Hin.
  unfold pointer_event. cbn [ev_type ev_code ev_value]. change (EV_REL =? EV_REL) with true. cbv iota. destruct Hin as [Hin|[Hin|Hin]].
  - apply elem_of_lookup_imap in Hin as (i & c' & E & Hi). injection E as Ec ->. pose proof (ko_rel K OK) as Hr. rewrite Forall_lookup in Hr. specialize (Hr i c' Hi).
    apply axis_key_inj in Ec as [_ ->]; [|lia|lia]. destruct Hr as (_ & H1 & H2 & H3).
    destruct (Z.eqb_spec c' REL_WHEEL); [done|]. destruct (Z.eqb_spec c' REL_HWHEEL); [done|]. destruct (Z.eqb_spec c' REL_DIAL); [done|]. by apply set_rel.
  - apply elem_of_lookup_imap in Hin as (i & c' & E & Hi). injection E as Ec ->. pose proof (ko_abs K OK) as Hr. rewrite Forall_lookup in Hr. specialize (Hr i c' Hi). cbn in Hr.
    apply axis_key_inj in Ec as [? _]; [done|lia|lia].
  - unfold wheel_entries in Hin. fold (k_v K) in Hin. rewrite !elem_of_app in Hin.
    assert (forall d, 0 <= d < 65536 -> axis_key EV_REL c = axis_key EV_REL d -> c = d) as Hinj by (intros d Hd E; by apply axis_key_inj in E as [_ ?]).
    destruct Hin as [Hin|[Hin|Hin]].
    + destruct (has_flag (k_flags K) CLASS_MOUSE_SUPPORTS_REL_WHEEL) eqn:Ef; [|by apply elem_of_nil in Hin]. apply list_elem_of_singleton in Hin. injection Hin as Ek ->.
      apply Hinj in Ek as ->; [|by unfold REL_WHEEL]. cbn. apply set_v. by apply Fv.
    + destruct (has_flag (k_flags K) CLASS_MOUSE_SUPPORTS_REL_HWHEEL) eqn:Ef; [|by apply elem_of_nil in Hin]. apply list_elem_of_singleton in Hin. injection Hin as Ek ->.
      apply Hinj in Ek as ->; [|by unfold REL_HWHEEL]. cbn. apply set_h. by apply Fh.
    + destruct (has_flag (k_flags K) CLASS_MOUSE_SUPPORTS_REL_DIAL) eqn:Ef; [|by apply elem_of_nil in Hin]. apply list_elem_of_singleton in Hin. injection Hin as Ek ->.
      apply Hinj in Ek as ->; [|by unfold REL_DIAL]. cbn. apply set_h. by apply Fd.
Qed.
Lemma showing_ext first dirty p p' : rep first p = rep first p' -> mouse_showing K first dirty p = mouse_showing K first dirty p'.
Proof. unfold mouse_showing, rep. by intros ->. Qed.

(** An axis that the map does not have does not show. *)
Lemma rel_hidden first p c v : 0 <= c < 65536 -> axis_key EV_REL c ∉ (fst <$> k_entries K) ->
  rep first (pointer_event (k_flags K) (k_nb K) p (mk_ev EV_REL c v)) = rep first p.
Proof.
  intros Hc Hk. rewrite keys_eq, !not_elem_of_app, key_of_rel in Hk by done. destruct Hk as (Hr & _ & Hw).
  unfold pointer_event. cbn [ev_type ev_code ev_value]. change (EV_REL =? EV_REL) with true. cbv iota. unfold wheel_entries in Hw. rewrite !fmap_app, !not_elem_of_app in Hw.
  destruct Hw as (H1 & H2 & H3). destruct (Z.eqb_spec c REL_WHEEL) as [->|].
  { destruct (has_flag _ CLASS_MOUSE_SUPPORTS_REL_WHEEL); [|done]. exfalso. apply H1. left. }
  destruct (Z.eqb_spec c REL_HWHEEL) as [->|].
  { destruct (has_flag _ CLASS_MOUSE_SUPPORTS_REL_HWHEEL); [|done]. exfalso. apply H2. left. }
  destruct (Z.eqb_spec c REL_DIAL) as [->|].
  { destruct (has_flag _ CLASS_MOUSE_SUPPORTS_REL_DIAL); [|done]. exfalso. apply H3. left. }
  rewrite !rep_eq. change (pt_rel (p <| pt_rel := upd (pt_rel p) c (TrimRelative (s32 v)) |>)) with (upd (pt_rel p) c (TrimRelative (s32 v))).
  by rewrite upd_other by done.
Qed.

Lemma abs_hidden first p c v : 0 <= c < 65536 -> axis_key EV_ABS c ∉ (fst <$> k_entries K) ->
  rep first (p <| pt_abs := upd (pt_abs p) c v |>) = rep first p.
Proof.
  intros Hc Hk. rewrite keys_eq, !not_elem_of_app, key_of_abs in Hk by done. destruct Hk as (_ & Ha & _).
  rewrite !rep_eq. change (pt_abs (p <| pt_abs := upd (pt_abs p) c v |>)) with (upd (pt_abs p) c v). by rewrite words_other by done.
Qed.

(** Whether an event shows, so that the report is sent. *)
Definition shows_event (ev : VIRTIO_INPUT_EVENT) : bool :=
  let '(t, c, v) := (ev_type ev, ev_code ev, ev_value ev) in
  if (t =? EV_ABS) || (t =? EV_REL) then bool_decide (axis_key t c ∈ (fst <$> k_entries K))
  else if t =? EV_KEY then
    if (c =? BTN_GEAR_DOWN) || (c =? BTN_GEAR_UP) then truth v && k_v K
    else mouse_button c && (c - BTN_MOUSE <? k_nb K)
  else false.

Lemma axis_ok first dirty p t c v : t = EV_ABS \/ t = EV_REL -> 0 <= c < 65536 ->
  mouse_axis (mouse_showing K first dirty p) (mk_ev t c v) =
    Ok (mouse_showing K first (dirty || shows_event (mk_ev t c v)) (pointer_event (k_flags K) (k_nb K) p (mk_ev t c v))).
Proof.
  intros Ht Hc. unfold mouse_axis, shows_event. cbn [pAxisMap mouse_showing ev_type ev_code ev_value mCommon cReport cbAxisOffset].
  assert ((t =? EV_ABS) || (t =? EV_REL) = true) as -> by (destruct Ht as [-> | ->]; done). fold (rep first p).
  destruct (decide (axis_key t c ∈ (fst <$> k_entries K))) as [Hin|Hout].
  - rewrite bool_decide_true, orb_true_r by done. apply list_elem_of_fmap in Hin as ([k o] & Ek & Hin). cbn [fst] in Ek. subst k.
    rewrite (find_in _ _ Hin). cbn [mbind res_bind]. destruct Ht as [-> | ->].
    + change (EV_ABS =? EV_ABS) with true. cbv iota. unfold k_entries in Hin. rewrite !elem_of_app in Hin. destruct Hin as [Hin|[Hin|Hin]].
      * apply elem_of_lookup_imap in Hin as (i & c' & E & Hi). injection E as Ec ->. pose proof (ko_rel K OK) as Hr. rewrite Forall_lookup in Hr. specialize (Hr i c' Hi).
        apply axis_key_inj in Ec as [? _]; [done|lia|lia].
      * apply elem_of_lookup_imap in Hin as (i & c' & E & Hi). injection E as Ec ->. pose proof (ko_abs K OK) as Hr. rewrite Forall_lookup in Hr. specialize (Hr i c' Hi). cbn in Hr.
        apply axis_key_inj in Ec as [_ ->]; [|lia|lia]. rewrite (set_abs _ _ v _ _ Hi). done.
      * destruct (wheel_keys _ Hin) as [[Ek|[Ek|Ek]] _]; cbn [fst] in Ek; apply axis_key_inj in Ek as [? _]; unfold EV_ABS, EV_REL, REL_WHEEL, REL_HWHEEL, REL_DIAL in *; lia.
    + change (EV_REL =? EV_ABS) with false. cbv iota. rewrite (put_rel _ _ _ _ _ Hc Hin). done.
  - rewrite bool_decide_false, orb_false_r by done. rewrite (find_out _ Hout). cbn [mbind res_bind]. f_equal. apply showing_ext.
    destruct Ht as [-> | ->]; symmetry; [by apply abs_hidden|by apply rel_hidden].
Qed.

Lemma key_ok first dirty p c v : 0 <= c < 65536 ->
  mouse_key (mouse_showing K first dirty p) (mk_ev EV_KEY c v) =
    Ok (mouse_showing K first (dirty || shows_event (mk_ev EV_KEY c v)) (pointer_event (k_flags K) (k_nb K) p (mk_ev EV_KEY c v))).
Proof.
  intros Hc. unfold mouse_key, shows_event, pointer_event. cbn [mouse_showing ev_type ev_code ev_value mCommon cReport cbAxisOffset cbAxisLen uFlags uNumOfButtons]. fold (rep first p).
  change (EV_KEY =? EV_ABS) with false. change (EV_KEY =? EV_REL) with false. change (EV_KEY =? EV_KEY) with true. cbn [orb]. cbv iota.
  change (has_flag (k_flags K) CLASS_MOUSE_HAS_V_WHEEL) with (k_v K).
  assert (forall x, k_v K = false -> rep first (p <| pt_v := x |>) = rep first p) as Hv.
  { intros x Hv. rewrite !rep_eq. unfold tail. by rewrite Hv. }
  destruct (Z.eqb_spec c BTN_GEAR_DOWN) as [->|H1]; [|destruct (Z.eqb_spec c BTN_GEAR_UP) as [->|H2]]; cbn [orb].
  - change (BTN_GEAR_DOWN =? BTN_GEAR_UP) with false. cbn [orb]. destruct (truth v); cbn [andb]; [|by rewrite orb_false_r].
    destruct (k_v K) eqn:Ev; [|rewrite orb_false_r; f_equal; apply showing_ext; by rewrite Hv]. rewrite orb_true_r.
    destruct (set_v first p (u8 (pt_v p + -1)) Ev) as [-> Hz]. cbn [mbind res_bind]. rewrite Hz. cbn [mbind res_bind]. by rewrite put_showing.
  - destruct (truth v); cbn [andb]; [|by rewrite orb_false_r].
    destruct (k_v K) eqn:Ev; [|rewrite orb_false_r; f_equal; apply showing_ext; by rewrite Hv]. rewrite orb_true_r.
    destruct (set_v first p (u8 (pt_v p + 1)) Ev) as [-> Hz]. cbn [mbind res_bind]. rewrite Hz. cbn [mbind res_bind]. by rewrite put_showing.
  - fold (mouse_button c). destruct (mouse_button c) eqn:Eb; cbn [andb]; [|by rewrite orb_false_r]. destruct (Z.ltb_spec (c - BTN_MOUSE) (k_nb K)).
    + rewrite orb_true_r. unfold rep, pointer_report. rewrite (put_button_ok (k_nb K)); [|unfold mouse_button, BTN_MOUSE in *; lia|done]. done.
    + rewrite orb_false_r. f_equal. apply showing_ext. rewrite !rep_eq. unfold head. cbn [pt_buttons].
      change (pt_buttons (p <| pt_buttons := ?x |>)) with x.
      f_equal. f_equal. unfold button_bytes. apply list_fmap_ext. intros i k Hk. apply bits_byte_ext. intros j Hj. 
      change (pt_buttons (p <| pt_buttons := set_button (pt_buttons p) (c - BTN_MOUSE) (truth v) |>)) with (set_button (pt_buttons p) (c - BTN_MOUSE) (truth v)).
      destruct (bool_decide_reflect (8 * k + j < k_nb K)); [|done]. cbn [andb]. unfold set_button. by replace (8 * k + j =? c - BTN_MOUSE) with false by lia.
Qed.
(** ** Synchronisation *)

Definition still (p : pointer) : pointer := p <| pt_rel := fun _ => 0 |>.

Lemma abs_skipped : Forall entry_ok (imap (fun i c => (axis_key EV_ABS c, zlen (k_rel K) + 2 * Z.of_nat i)) (k_abs K)) /\
  Forall (fun e => Z.shiftr e.1 16 <> EV_REL) (imap (fun i c => (axis_key EV_ABS c, zlen (k_rel K) + 2 * Z.of_nat i)) (k_abs K)).
Proof.
  split; [pose proof entries_ok as H; unfold k_entries in H; rewrite !Forall_app in H; apply H|].
  apply Forall_lookup_2. intros i e. rewrite list_lookup_imap, fmap_Some. intros (c & Hc & ->). pose proof (ko_abs K OK) as Hr.
  rewrite Forall_lookup in Hr. specialize (Hr i c Hc). cbn beta in Hr. cbn [fst]. rewrite axis_key_type by lia. done.
Qed.

(** The loop over the map sets the relative axes to rest; the wheels that are axes follow. *)
Lemma reset_axes first p : axis_reset (flat (k_entries K ++ map_end)) (k_offset K) (rep first p) =
  axis_reset (flat (wheel_entries (k_flags K) (k_len K) ++ map_end)) (k_offset K) (rep first (still p)).
Proof.
  unfold k_entries. rewrite <- !app_assoc, rep_eq. destruct (ko_few K OK). pose proof (zlen_head first p).
  rewrite (reset_rel (k_rel K) 0 (head first p)); [| |lia|lia|lia|by rewrite length_fmap].
  2: { eapply Forall_impl; [apply (ko_rel K OK)|]. by intros c (? & _). }
  rewrite reset_skip by apply abs_skipped. f_equal. rewrite rep_eq. f_equal. f_equal. symmetry. 
  clear. induction (k_rel K) as [|c l IH]; [done|]. cbn [fmap list_fmap length replicate]. f_equal. exact IH.
Qed.

Lemma reset_wheels first p : exists r, axis_reset (flat (wheel_entries (k_flags K) (k_len K) ++ map_end)) (k_offset K) (rep first p) = Ok r /\
  r = rep first (let p := if has_flag (k_flags K) CLASS_MOUSE_SUPPORTS_REL_WHEEL then p <| pt_v := 0 |> else p in if k_h K then p <| pt_h := 0 |> else p).
Proof.
  pose proof (ko_flags K OK) as [Fv Fh Fd Fhd]. pose proof len_range as Hl. unfold wheel_entries. fold (k_v K).
  assert (forall q es, axis_reset (flat ((if has_flag (k_flags K) CLASS_MOUSE_SUPPORTS_REL_WHEEL then [(axis_key EV_REL REL_WHEEL, k_len K)] else []) ++ es)) (k_offset K) (rep first q) =
    axis_reset (flat es) (k_offset K) (rep first (if has_flag (k_flags K) CLASS_MOUSE_SUPPORTS_REL_WHEEL then q <| pt_v := 0 |> else q))) as H1.
  { intros q es. destruct (has_flag _ CLASS_MOUSE_SUPPORTS_REL_WHEEL) eqn:E; [|done]. cbn [app]. rewrite reset_one by (unfold REL_WHEEL; lia).
    destruct (set_v first q 0 (Fv eq_refl)) as [_ ->]. done. }
  assert (forall d q es (b : bool), 0 <= d < 1024 -> (b = true -> k_h K = true) ->
    axis_reset (flat ((if b then [(axis_key EV_REL d, if k_v K then k_len K + 1 else k_len K)] else []) ++ es)) (k_offset K) (rep first q) =
    axis_reset (flat es) (k_offset K) (rep first (if b then q <| pt_h := 0 |> else q))) as H2.
  { intros d q es b Hd Hb. destruct b; [|done]. cbn [app]. rewrite reset_one by (destruct (k_v K); lia). rewrite (set_h first q 0 (Hb eq_refl)). done. }
  eexists. split; [|reflexivity]. rewrite <- !app_assoc, H1, (H2 REL_HWHEEL), (H2 REL_DIAL); [|by unfold REL_DIAL|exact Fd|by unfold REL_HWHEEL|exact Fh].
  cbv zeta. set (q := if has_flag _ CLASS_MOUSE_SUPPORTS_REL_WHEEL then _ else _). cbn. f_equal.
  destruct (k_h K) eqn:Eh.
  - destruct (Fhd Eh) as [-> | ->]; [by destruct (has_flag _ CLASS_MOUSE_SUPPORTS_REL_DIAL)|by destruct (has_flag _ CLASS_MOUSE_SUPPORTS_REL_HWHEEL)].
  - destruct (has_flag _ CLASS_MOUSE_SUPPORTS_REL_DIAL) eqn:Ed; [specialize (Fd eq_refl); unfold k_h in Eh; congruence|].
    destruct (has_flag _ CLASS_MOUSE_SUPPORTS_REL_HWHEEL) eqn:Ew; [specialize (Fh eq_refl); unfold k_h in Eh; congruence|]. done.
Qed.

Lemma button_wheel_test : (Z.land (k_flags K) (Z.lor CLASS_MOUSE_HAS_V_WHEEL CLASS_MOUSE_SUPPORTS_REL_WHEEL) =? CLASS_MOUSE_HAS_V_WHEEL) =
  k_v K && negb (has_flag (k_flags K) CLASS_MOUSE_SUPPORTS_REL_WHEEL).
Proof.
  unfold k_v, v_wheel. change CLASS_MOUSE_SUPPORTS_REL_WHEEL with (2 ^ 2). change CLASS_MOUSE_HAS_V_WHEEL with (2 ^ 0). rewrite !has_flag_bit by lia.
  replace (Z.land (k_flags K) (Z.lor (2 ^ 0) (2 ^ 2))) with (Z.land (k_flags K mod 8) 5)
    by (change 8 with (2 ^ 3); rewrite <- land_pow2_mod, <- Z.land_assoc by lia; done).
  rewrite <- (Z.mod_pow2_bits_low (k_flags K) 3 0), <- (Z.mod_pow2_bits_low (k_flags K) 3 2) by lia. change (2 ^ 3) with 8. change (2 ^ 0) with 1.
  pose proof (Z.mod_pos_bound (k_flags K) 8 ltac:(lia)) as Hm. generalize dependent (k_flags K mod 8). intros x Hx.
  assert (x = 0 \/ x = 1 \/ x = 2 \/ x = 3 \/ x = 4 \/ x = 5 \/ x = 6 \/ x = 7) as Hc by lia. repeat destruct Hc as [-> | Hc]; subst; done.
Qed.

Lemma syn_ok first dirty p c v :
  mouse_syn (mouse_showing K first dirty p) = Ok (mouse_showing K first dirty (pointer_event (k_flags K) (k_nb K) p (mk_ev EV_SYN c v))).
Proof.
  unfold mouse_syn. cbn [mouse_showing pAxisMap mCommon cReport cbAxisOffset cbAxisLen uFlags]. fold (rep first p). rewrite reset_axes.
  destruct (reset_wheels first (still p)) as (r & -> & ->). cbn [mbind res_bind]. rewrite button_wheel_test.
  set (q := if k_h K then _ else _).
  assert (exists r, (if k_v K && negb (has_flag (k_flags K) CLASS_MOUSE_SUPPORTS_REL_WHEEL) then zset (rep first q) (k_offset K + k_len K) 0 else Ok (rep first q)) = Ok r /\
    r = rep first (pointer_event (k_flags K) (k_nb K) p (mk_ev EV_SYN c v))) as (r & -> & ->); [|done].
  change (pointer_event (k_flags K) (k_nb K) p (mk_ev EV_SYN c v)) with (still p <| pt_v := 0 |> <| pt_h := 0 |>).
  assert (forall a b, pt_buttons a = pt_buttons b -> pt_rel a = pt_rel b -> pt_abs a = pt_abs b -> tail a = tail b -> rep first a = rep first b) as Hrep.
  { intros a b E1 E2 E3 E4. rewrite !rep_eq. unfold head. by rewrite E1, E2, E3, E4. }
  destruct (k_v K) eqn:Ev; cbn [andb].
  - destruct (has_flag (k_flags K) CLASS_MOUSE_SUPPORTS_REL_WHEEL) eqn:Ew; cbn [negb].
    + eexists. split; [done|]. apply Hrep; unfold q; destruct (k_h K) eqn:Eh; try done; unfold tail; by rewrite Ev, Eh.
    + destruct (set_v first q 0 Ev) as [_ ->]. eexists. split; [done|]. apply Hrep; unfold q; destruct (k_h K) eqn:Eh; try done; unfold tail; by rewrite Ev, Eh.
  - eexists. split; [done|]. pose proof (fl_v _ (ko_flags K OK)) as Fv. fold (k_v K) in Fv. rewrite Ev in Fv.
    apply Hrep; unfold q; destruct (has_flag (k_flags K) CLASS_MOUSE_SUPPORTS_REL_WHEEL); try (by specialize (Fv eq_refl)); destruct (k_h K) eqn:Eh; try done; unfold tail; by rewrite Ev, Eh.
Qed.

Definition event_ranges (ev : VIRTIO_INPUT_EVENT) : Prop := 0 <= ev_type ev < 65536 /\ 0 <= ev_code ev < 65536 /\ 0 <= ev_value ev < 4294967296.

(** Every event updates the report as it updates the pointer. *)
Lemma mouse_event_ok first dirty p ev : event_ranges ev ->
  HIDMouseEventToReport (mouse_showing K first dirty p) ev =
    Ok (mouse_showing K (k_id K) (dirty || shows_event ev) (pointer_event (k_flags K) (k_nb K) p ev)).
Proof.
  intros (Ht & Hc & _). destruct ev as [t c v]. cbn [ev_type ev_code ev_value] in *. unfold HIDMouseEventToReport. cbn [mouse_showing mCommon cReport cReportID].
  assert (zset (rep first p) HID_REPORT_ID_OFFSET (k_id K) = Ok (rep (k_id K) p)) as Hz by exact (zset_app [] first (k_id K) _ 0 eq_refl).
  fold (rep first p). rewrite Hz. cbn [mbind res_bind].
  change (_ <| mCommon := _ |>) with (mouse_showing K (k_id K) dirty p). cbn [ev_type].
  destruct ((t =? EV_ABS) || (t =? EV_REL)) eqn:Ea; [apply axis_ok; [lia|done]|]. apply orb_false_iff in Ea as [Ea Er].
  destruct (Z.eqb_spec t EV_KEY) as [->|Hk]; [by apply key_ok|].
  assert (shows_event (mk_ev t c v) = false) as ->.
  { unfold shows_event. cbn [ev_type ev_code ev_value]. rewrite Ea, Er. cbn [orb]. by destruct (Z.eqb_spec t EV_KEY). }
  rewrite orb_false_r. destruct (Z.eqb_spec t EV_SYN) as [->|Hs]; [apply syn_ok|].
  unfold pointer_event. cbn [ev_type ev_code ev_value]. rewrite Ea, Er. destruct (Z.eqb_spec t EV_KEY); [done|]. by destruct (Z.eqb_spec t EV_SYN).
Qed.
End conf.

(** ** Reading a report through the descriptor *)

(** The [size] bits from bit [pos] of the data behind the report identifier. *)
Definition field_value (report : list Z) (pos size : Z) : Z := (le_value (drop 1 report) / 2 ^ pos) mod 2 ^ size.

Lemma le_value_nonneg l : Forall byte_ok l -> 0 <= le_value l.
Proof. induction 1 as [|b l Hb _ IH]; cbn [le_value]; [done|]. unfold byte_ok in Hb. lia. Qed.

Lemma le_value_drop pre l : Forall byte_ok pre -> le_value (pre ++ l) / 2 ^ (8 * zlen pre) = le_value l.
Proof.
  revert l. induction pre as [|b pre IH]; intros l H; cbn [app le_value].
  - change (2 ^ (8 * zlen [])) with 1. by rewrite Z.div_1_r.
  - apply list.Forall_cons in H as [Hb H]. rewrite zlen_cons. pose proof (zlen_nonneg pre). unfold byte_ok in Hb.
    replace (8 * (zlen pre + 1)) with (8 + 8 * zlen pre) by lia. rewrite Z.pow_add_r by lia. rewrite <- Z.div_div by lia.
    change (2 ^ 8) with 256. rewrite (Z.mul_comm 256), Z.div_add by done. rewrite (Z.div_small b 256), Z.add_0_l by lia. by apply IH.
Qed.

Lemma field_byte first pre b post : Forall byte_ok pre -> byte_ok b ->
  field_value (first :: pre ++ b :: post) (8 * zlen pre) 8 = b.
Proof.
  intros Hp Hb. unfold field_value. cbn [drop]. rewrite drop_0, le_value_drop by done. cbn [le_value]. change (2 ^ 8) with 256.
  rewrite Z.mul_comm, Z.mod_add, Z.mod_small by (unfold byte_ok in Hb; lia). done.
Qed.

Lemma field_word first pre v post : Forall byte_ok pre -> field_value (first :: pre ++ le_bytes 2 v ++ post) (8 * zlen pre) 16 = u16 v.
Proof.
  intros Hp. unfold field_value. cbn [drop]. rewrite drop_0, le_value_drop by done. rewrite le_bytes_n. change (seqZ 0 (Z.of_nat 2)) with [0; 1].
  cbn [fmap list_fmap app le_value]. change (2 ^ (8 * 0)) with 1. change (2 ^ (8 * 1)) with 256. rewrite Z.div_1_r. unfold u16, u32. change (2 ^ 16) with 65536.
  Z.to_euclidean_division_equations; lia.
Qed.

Lemma field_bit first pre b post j : Forall byte_ok pre -> byte_ok b -> 0 <= j < 8 ->
  field_value (first :: pre ++ b :: post) (8 * zlen pre + j) 1 = b2z (Z.testbit b j).
Proof.
  intros Hp Hb Hj. unfold field_value. cbn [drop]. pose proof (zlen_nonneg pre). rewrite drop_0, Z.pow_add_r, <- Z.div_div, le_value_drop by (done || lia). cbn [le_value].
  rewrite <- Z.shiftr_div_pow2 by lia. change (2 ^ 1) with 2. rewrite <- Z.bit0_mod, Z.shiftr_spec, Z.add_0_l by lia. f_equal.
  replace (b + 256 * le_value post) with (Z.lor b (Z.shiftl (le_value post) 8)).
  - rewrite Z.lor_spec, Z.shiftl_spec_low by lia. apply orb_false_r.
  - rewrite lor_shiftl_add; [lia|lia|exact Hb].
Qed.

Lemma button_bytes_ok n f : 0 <= n -> Forall byte_ok (button_bytes n f) /\ zlen (button_bytes n f) = (n + 7) / 8.
Proof. intros Hn. split; [|by apply zlen_button_bytes]. apply Forall_fmap, Forall_true. intros k. apply bits_byte_range. Qed.

Lemma field_button first pre n f post i : Forall byte_ok pre -> 0 <= i < n ->
  field_value (first :: pre ++ button_bytes n f ++ post) (8 * zlen pre + i) 1 = b2z (f i).
Proof.
  intros Hp Hi. assert (0 <= i / 8 < (n + 7) / 8) as Hk by (Z.to_euclidean_division_equations; lia).
  pose proof (Z.div_mod i 8 ltac:(lia)) as Hd. pose proof (Z.mod_pos_bound i 8 ltac:(lia)).
  destruct (button_bytes_ok n f ltac:(lia)) as [Hb Hz]. set (btns := button_bytes n f) in *.
  assert (exists b, btns !! Z.to_nat (i / 8) = Some b) as [b Eb] by (apply lookup_lt_is_Some; unfold zlen in Hz; lia).
  assert (Z.testbit b (i mod 8) = f i) as Ht.
  { unfold btns, button_bytes in Eb. rewrite list_lookup_fmap, fmap_Some in Eb. destruct Eb as (k & Ek & ->). apply lookup_seqZ in Ek as [-> _].
    rewrite bits_byte_bit by lia. replace (8 * (0 + Z.of_nat (Z.to_nat (i / 8))) + i mod 8) with i by lia. rewrite bool_decide_true by lia. done. }
  pose proof (lookup_lt_Some _ _ _ Eb). rewrite <- (take_drop_middle _ _ _ Eb) in Hb |- *. apply Forall_app in Hb as [Hb1 Hb2].
  apply list.Forall_cons in Hb2 as [Hb2 _]. rewrite <- app_assoc, app_assoc. cbn [app].
  set (l1 := take _ btns) in *. assert (zlen (pre ++ l1) = zlen pre + i / 8) as Hl by (rewrite zlen_app; f_equal; unfold l1, zlen; rewrite length_take; lia).
  rewrite <- Ht. etrans; [|apply (field_bit first (pre ++ l1) b); [by apply Forall_app|done|done]]. f_equal. lia.
Qed.

Lemma field_dword first pre v post : Forall byte_ok pre -> field_value (first :: pre ++ le_bytes 4 v ++ post) (8 * zlen pre) 32 = u32 v.
Proof.
  intros Hp. unfold field_value. cbn [drop]. rewrite drop_0, le_value_drop by done. pose proof (u32_range v) as Hv.
  pose proof (le_value_bytes (u32 v) 4 0 ltac:(lia)) as L. rewrite <- le_bytes_n in L. change (2 ^ (8 * 0)) with 1 in L. rewrite Z.div_1_r, Z.mod_small in L by exact Hv.
  assert (forall a b, le_value (a ++ b) = le_value a + 256 ^ zlen a * le_value b) as Ha.
  { induction a as [|x a IH]; intros b; cbn [app le_value]; [change (256 ^ zlen []) with 1; lia|]. rewrite IH, zlen_cons, Z.pow_add_r by (done || apply zlen_nonneg).
    change (256 ^ 1) with 256. lia. }
  rewrite Ha, L. unfold zlen. rewrite length_le_bytes. change (256 ^ Z.of_nat 4) with (2 ^ 32). rewrite Z.mul_comm, Z.mod_add, Z.mod_small by (done || lia). done.
Qed.

(** ** virtio-input: the mouse, through its descriptor

    The values that the report descriptor locates in the report of a mouse are those of the
    abstract pointer, after any sequence of events. *)

(** ** The configuration that the probe finds *)

(** The device is a pointer by its relative axes, or by its absolute axes and a button. *)
Definition rel_pointer (rel : VIRTIO_INPUT_CFG_DATA) : bool := has_xy rel.
Definition abs_pointer (nb : Z) (abs : VIRTIO_INPUT_CFG_DATA) : bool := (nb >? 0) && has_xy abs.

Record mouse_has (id : Z) (rel abs key : VIRTIO_INPUT_CFG_DATA) (K : mouse_conf) : Prop := {
  mh_id : k_id K = id;
  mh_buttons : forall c, c ∈ codes_of key -> mouse_button c = true -> c - BTN_MOUSE < k_nb K;
  mh_last : k_nb K > 0 -> BTN_MOUSE + k_nb K - 1 ∈ codes_of key;
  mh_rel : k_rel K = if rel_pointer rel || abs_pointer (k_nb K) abs then rel_axes (rel_pointer rel) (codes_of rel) else [];
  mh_abs : k_abs K = if negb (rel_pointer rel) && abs_pointer (k_nb K) abs then abs_axes (codes_of abs) else [];
  mh_wheels : rel_pointer rel || abs_pointer (k_nb K) abs = true ->
    has_flag (k_flags K) CLASS_MOUSE_SUPPORTS_REL_WHEEL = has_code rel REL_WHEEL /\
    has_flag (k_flags K) CLASS_MOUSE_SUPPORTS_REL_HWHEEL = has_code rel REL_HWHEEL /\
    has_flag (k_flags K) CLASS_MOUSE_SUPPORTS_REL_DIAL = has_code rel REL_DIAL }.

Lemma existsb_code codes k c : (forall c', Z.testbit (rel_flags c') k = (c' =? c)) ->
  existsb (fun c' => Z.testbit (rel_flags c') k) codes = bool_decide (c ∈ codes).
Proof.
  intros H. apply eq_true_iff_eq. rewrite bool_decide_eq_true, List.existsb_exists. split.
  - intros (c' & Hc & Ht). rewrite H in Ht. apply Z.eqb_eq in Ht as ->. by apply list_elem_of_In.
  - intros Hc. exists c. split; [by apply list_elem_of_In|]. rewrite H. apply Z.eqb_refl.
Qed.

Lemma rel_flags_codes : (forall c, Z.testbit (rel_flags c) 2 = (c =? REL_WHEEL)) /\
  (forall c, Z.testbit (rel_flags c) 3 = (c =? REL_HWHEEL)) /\ (forall c, Z.testbit (rel_flags c) 4 = (c =? REL_DIAL)).
Proof.
  split_and!; intros c; unfold rel_flags; destruct (Z.eqb_spec c REL_WHEEL) as [->|]; try done; destruct (Z.eqb_spec c REL_DIAL) as [->|]; try done;
    destruct (Z.eqb_spec c REL_HWHEEL) as [->|]; done.
Qed.

Lemma flags_wheels f rel : f = 0 \/ f = 1 ->
  has_flag (all_flags f (codes_of rel)) CLASS_MOUSE_SUPPORTS_REL_WHEEL = has_code rel REL_WHEEL /\
  has_flag (all_flags f (codes_of rel)) CLASS_MOUSE_SUPPORTS_REL_HWHEEL = has_code rel REL_HWHEEL /\
  has_flag (all_flags f (codes_of rel)) CLASS_MOUSE_SUPPORTS_REL_DIAL = has_code rel REL_DIAL.
Proof.
  intros Hf. change CLASS_MOUSE_SUPPORTS_REL_WHEEL with (2 ^ 2). change CLASS_MOUSE_SUPPORTS_REL_HWHEEL with (2 ^ 3).
  change CLASS_MOUSE_SUPPORTS_REL_DIAL with (2 ^ 4). rewrite !has_flag_bit, !all_flags_bit by lia. unfold has_code.
  rewrite (existsb_code _ 2 REL_WHEEL), (existsb_code _ 3 REL_HWHEEL), (existsb_code _ 4 REL_DIAL).
  - destruct Hf as [-> | ->]; by split_and!.
  - apply rel_flags_codes.
  - apply rel_flags_codes.
  - apply rel_flags_codes.
Qed.

Definition conf_fields (xy : bool) (K : mouse_conf) : list field :=
  (if k_nb K >? 0 then button_fields (k_id K) (k_nb K) else []) ++ rel_fields (k_id K) (rel_usage xy <$> k_rel K) ++
  abs_fields (k_id K) (mouse_abs_usage <$> k_abs K) ++ wheel_fields (k_id K) (k_flags K).

Lemma zero_buttons n : 0 <= n -> button_bytes n (fun _ => false) = replicate (Z.to_nat ((n + 7) / 8)) 0.
Proof.
  intros Hn. unfold button_bytes. rewrite (list_fmap_ext _ (fun _ => 0)).
  - rewrite <- (length_seqZ 0 ((n + 7) / 8)). generalize (seqZ 0 ((n + 7) / 8)) as l. induction l; cbn; congruence.
  - intros i k _. unfold bits_byte. rewrite !andb_false_r. done.
Qed.

Lemma zero_report first K : conf_ok K -> pointer_report first (k_nb K) (k_rel K) (k_abs K) (k_v K) (k_h K) at_rest =
  first :: replicate (Z.to_nat (k_size K - 1)) 0.
Proof.
  intros OK. pose proof (ko_nb K OK) as Hn. unfold pointer_report, at_rest. cbn [pt_buttons pt_rel pt_abs pt_v pt_h]. rewrite zero_buttons by lia.
  assert (forall l : list Z, (fun _ : Z => 0) <$> l = replicate (length l) 0) as H1 by (induction l; cbn; congruence).
  assert (forall l : list Z, l ≫= (fun _ => le_bytes 2 0) = replicate (2 * length l) 0) as H2.
  { induction l as [|c l IH]; [done|]. rewrite bind_cons, IH. cbn [length]. by replace (2 * S (length l))%nat with (2 + 2 * length l)%nat by lia. }
  rewrite H1, H2. assert ((if k_v K then [0] else []) = replicate (if k_v K then 1 else 0) 0) as -> by by destruct (k_v K).
  assert ((if k_h K then [0] else []) = replicate (if k_h K then 1 else 0) 0) as -> by by destruct (k_h K).
  rewrite <- !replicate_add. cbn [app]. do 2 f_equal. unfold k_size, k_offset, k_len, zlen. assert (0 <= (k_nb K + 7) / 8) by (apply Z.div_pos; lia).
  destruct (k_v K), (k_h K); lia.
Qed.

(** The class that the probe registers shows a pointer at rest. *)
Lemma built_showing id rel abs key m fs : cfg_ok rel -> cfg_ok abs -> mouse_built id rel abs key m fs ->
  exists K, conf_ok K /\ mouse_has id rel abs key K /\ fs = conf_fields (rel_pointer rel) K /\ m = mouse_showing K 0 false at_rest.
Proof.
  intros Kr Ka (m0 & nr & na & xy & rels & abss & f0 & F & Hz & -> & ->).
  destruct F as [Em Hnb Hkeys Hf0 Hnr Hna Hlast Hxy Hrels Habss]. remember (uNumOfButtons m0) as nb eqn:Enb. clear Enb. subst m0.
  exists (mk_conf id nb (rel_axes xy rels) (abs_axes abss) (all_flags f0 rels)). set (K := mk_conf _ _ _ _ _).
  pose proof (codes_range rel Kr) as Cr. pose proof (codes_range abs Ka) as Ca. pose proof (codes_few rel Kr). pose proof (codes_few abs Ka).
  pose proof (codes_nodup rel Kr). pose proof (codes_nodup abs Ka).
  assert (conf_ok K) as OK.
  { assert (forall (f : Z -> bool) l, zlen (List.filter f l) <= zlen l) as Hfl by (intros f l; unfold zlen; pose proof (List.filter_length_le f l); lia).
    assert (rels = [] \/ rels = codes_of rel) as Hr by (rewrite Hrels; destruct (xy || _); auto).
    assert (abss = [] \/ abss = codes_of abs) as Ha by (rewrite Habss; destruct (negb xy && _); auto).
    constructor; cbn [k_nb k_rel k_abs k_flags K].
    - lia.
    - apply list.Forall_forall. intros c Hc. unfold rel_axes in Hc. apply list_elem_of_In, List.filter_In in Hc as [Hc%list_elem_of_In Hu].
      rewrite list.Forall_forall in Cr. destruct Hr as [-> | ->]; [by apply elem_of_nil in Hc|]. specialize (Cr c Hc). cbn beta in Cr.
      split; [lia|]. unfold REL_WHEEL, REL_HWHEEL, REL_DIAL. split_and!; intros ->; by destruct xy.
    - apply list.Forall_forall. intros c Hc. unfold abs_axes in Hc. apply list_elem_of_In, List.filter_In in Hc as [Hc%list_elem_of_In _].
      rewrite list.Forall_forall in Ca. destruct Ha as [-> | ->]; [by apply elem_of_nil in Hc|]. by apply Ca.
    - unfold rel_axes, abs_axes. split; apply NoDup_ListNoDup, List.NoDup_filter, NoDup_ListNoDup; [destruct Hr as [-> | ->]|destruct Ha as [-> | ->]]; (done || constructor).
    - split; [etrans; [apply Hfl|destruct Hr as [-> | ->]]|etrans; [apply Hfl|destruct Ha as [-> | ->]]]; (done || (change (zlen []) with 0; lia)).
    - by apply all_flags_ok. }
  split; [exact OK|]. split; [|split].
  - constructor; cbn [k_id k_nb k_rel k_abs k_flags K]; try done.
    + unfold rel_pointer, abs_pointer. rewrite Hrels, Hxy. by destruct (has_xy rel || _).
    + unfold rel_pointer, abs_pointer. rewrite Habss, Hxy. by destruct (negb (has_xy rel) && _).
    + unfold rel_pointer, abs_pointer. rewrite <- Hxy. intros Hb. rewrite Hrels, Hb. by apply flags_wheels.
  - unfold conf_fields, mouse_fields, rel_pointer. cbn [k_id k_nb k_rel k_abs k_flags K]. rewrite <- Hxy, <- !app_assoc. done.
  - unfold mouse_showing. rewrite zero_report by exact OK.
    set (m0 := mk_mouse _ _ _ _ _ _). assert (mouse_size m0 = k_size K) as Es by (subst nr na; done). unfold mouse_done. rewrite Es.
    assert (cbAxisLen m0 = k_len K) as El by (subst nr na; done).
    assert (mouse_entries xy rels abss (uFlags m0) (cbAxisLen m0) = k_entries K ++ map_end) as ->.
    { rewrite El. unfold mouse_entries, k_entries, rel_entries, abs_entries. rewrite <- !app_assoc. done. }
    assert (replicate (Z.to_nat (k_size K)) 0 = 0 :: replicate (Z.to_nat (k_size K - 1)) 0) as ->.
    { assert (1 <= k_size K). { unfold k_size, k_offset, k_len. pose proof (Z.div_pos (nb + 7) 8). pose proof (zlen_nonneg (k_rel K)). pose proof (zlen_nonneg (k_abs K)).
        cbn [k_nb K]. destruct (k_v K), (k_h K); lia. }
      replace (Z.to_nat (k_size K)) with (S (Z.to_nat (k_size K - 1))) by lia. done. }
    unfold k_offset. rewrite <- El. done.
Qed.

(** ** Where the fields are *)

Lemma rel_located id us i u : us !! i = Some u -> located (rel_fields id us) id (8 * Z.of_nat i) HID_USAGE_PAGE_GENERIC u 8.
Proof.
  intros Hi. destruct us as [|u0 us]; [done|]. pose proof (lookup_lt_Some _ _ _ Hi) as Hl. eexists [], _, [], i. split; [done|].
  split_and!; try done; cbn [f_count f_size report_bits foldr]; unfold zlen; lia.
Qed.

Lemma abs_located id us i u : us !! i = Some u -> located (abs_fields id us) id (16 * Z.of_nat i) HID_USAGE_PAGE_GENERIC u 16.
Proof.
  intros Hi. pose proof (lookup_lt_Some _ _ _ Hi) as Hl. apply list_elem_of_split_length in Hi as (l1 & l2 & -> & ->).
  exists (abs_fields id l1), (mk_field id HID_USAGE_PAGE_GENERIC [u] 16 1 HID_DATA_FLAG_VARIABLE), (abs_fields id l2), 0%nat.
  split; [unfold abs_fields; by rewrite fmap_app|]. split_and!; try done. rewrite abs_bits. unfold zlen. lia.
Qed.

(** ** Reading *)

(** Every byte of the report is a byte. *)
Record pointer_ok (q : pointer) : Prop := {
  po_rel : forall c, byte_ok (pt_rel q c);
  po_v : byte_ok (pt_v q);
  po_h : byte_ok (pt_h q) }.

Lemma trim_byte v : byte_ok (TrimRelative v).
Proof. unfold TrimRelative. destruct (v <? -127); [apply u8_range|]. destruct (v >? 127); [by split|apply u8_range]. Qed.

Lemma at_rest_ok : pointer_ok at_rest.
Proof. by repeat split. Qed.

Lemma pointer_event_ok flags nb q ev : pointer_ok q -> pointer_ok (pointer_event flags nb q ev).
Proof.
  intros [Hr Hv Hh]. unfold pointer_event. pose proof (trim_byte (s32 (ev_value ev))).
  assert (forall c c', byte_ok (upd (pt_rel q) c (TrimRelative (s32 (ev_value ev))) c')) as Hu by (intros; unfold upd; by destruct (_ =? _)).
  repeat case_match; constructor; try done; intros; first [apply u8_range|apply Hu|done].
Qed.

(** The report [report] read through the fields [fs] of the descriptor shows [q]. *)
Record reads (fs : list field) (xy : bool) (K : mouse_conf) (report : list Z) (q : pointer) : Prop := {
  rd_size : report_bits (k_id K) fs = 8 * (zlen report - 1);
  rd_button : forall i, 0 <= i < k_nb K ->
    located fs (k_id K) i HID_USAGE_PAGE_BUTTON (i + 1) 1 /\ field_value report i 1 = b2z (pt_buttons q i);
  rd_rel : forall c, c ∈ k_rel K -> exists pos,
    located fs (k_id K) pos HID_USAGE_PAGE_GENERIC (rel_usage xy c) 8 /\ field_value report pos 8 = pt_rel q c;
  rd_abs : forall c, c ∈ k_abs K -> exists pos,
    located fs (k_id K) pos HID_USAGE_PAGE_GENERIC (mouse_abs_usage c) 16 /\ field_value report pos 16 = u16 (pt_abs q c);
  rd_v : k_v K = true -> exists pos,
    located fs (k_id K) pos HID_USAGE_PAGE_GENERIC HID_USAGE_GENERIC_WHEEL 8 /\ field_value report pos 8 = pt_v q;
  rd_h : k_h K = true -> exists pos,
    located fs (k_id K) pos HID_USAGE_PAGE_CONSUMER HID_USAGE_CONSUMER_AC_PAN 8 /\ field_value report pos 8 = pt_h q }.

Section reads.
Context (K : mouse_conf) (OK : conf_ok K) (xy : bool) (first : Z) (q : pointer) (PO : pointer_ok q).

Local Definition btns : list Z := button_bytes (k_nb K) (pt_buttons q).
Local Definition rels : list Z := pt_rel q <$> k_rel K.
Local Definition abss : list Z := k_abs K ≫= (fun c => le_bytes 2 (pt_abs q c)).
Local Definition report : list Z := pointer_report first (k_nb K) (k_rel K) (k_abs K) (k_v K) (k_h K) q.
Local Definition fbtn : list field := if k_nb K >? 0 then button_fields (k_id K) (k_nb K) else [].

Lemma btns_ok : Forall byte_ok btns /\ zlen btns = (k_nb K + 7) / 8.
Proof.
  split; [|apply zlen_button_bytes, OK]. apply Forall_fmap. apply Forall_true. intros k. apply bits_byte_range.
Qed.

Lemma rels_ok l : Forall byte_ok (pt_rel q <$> l) /\ zlen (pt_rel q <$> l) = zlen l.
Proof. split; [apply Forall_fmap, Forall_true; intros; apply PO|]. unfold zlen. by rewrite length_fmap. Qed.

Lemma abss_ok l : Forall byte_ok (l ≫= (fun c => le_bytes 2 (pt_abs q c))) /\ zlen (l ≫= (fun c => le_bytes 2 (pt_abs q c))) = 2 * zlen l.
Proof.
  induction l as [|c l [IH1 IH2]]; [done|]. rewrite bind_cons, zlen_app, zlen_cons. split; [apply Forall_app; split; [rewrite le_bytes_n; apply Forall_fmap, Forall_true; intros; apply Z.mod_pos_bound; lia|done]|].
  pose proof (length_le_bytes 2 (pt_abs q c)). unfold zlen in *. lia.
Qed.

Lemma fbtn_bits : report_bits (k_id K) fbtn = 8 * ((k_nb K + 7) / 8).
Proof.
  pose proof (ko_nb K OK). unfold fbtn. destruct (Z.gtb_spec (k_nb K) 0); [apply button_bits; lia|]. by replace (k_nb K) with 0 by lia.
Qed.

Lemma reads_button i : 0 <= i < k_nb K ->
  located (conf_fields xy K) (k_id K) i HID_USAGE_PAGE_BUTTON (i + 1) 1 /\ field_value report i 1 = b2z (pt_buttons q i).
Proof.
  intros Hi. split.
  - unfold conf_fields. apply located_app_l. destruct (Z.gtb_spec (k_nb K) 0); [|lia]. by apply button_located.
  - unfold report, pointer_report. cbn [app]. exact (field_button first [] (k_nb K) (pt_buttons q) _ i (list.Forall_nil_2 _) Hi).
Qed.

Lemma reads_rel c : c ∈ k_rel K -> exists pos,
  located (conf_fields xy K) (k_id K) pos HID_USAGE_PAGE_GENERIC (rel_usage xy c) 8 /\ field_value report pos 8 = pt_rel q c.
Proof.
  intros Hc. apply list_elem_of_split in Hc as (l1 & l2 & El). exists (8 * ((k_nb K + 7) / 8) + 8 * Z.of_nat (length l1)). split.
  - unfold conf_fields. fold fbtn. rewrite <- fbtn_bits. apply located_app_r, located_app_l, rel_located.
    rewrite list_lookup_fmap, El, list_lookup_middle by done. done.
  - destruct btns_ok as [Hb Hz]. destruct (rels_ok l1) as [Hr Hrz]. unfold report, pointer_report. fold btns. rewrite El, fmap_app, fmap_cons. cbn [app].
    rewrite <- !app_assoc, (app_assoc btns). cbn [app].
    replace (8 * _ + _) with (8 * zlen (btns ++ (pt_rel q <$> l1))) by (rewrite zlen_app, Hz, Hrz; unfold zlen; lia).
    apply field_byte; [by apply Forall_app|apply PO].
Qed.

Lemma reads_abs c : c ∈ k_abs K -> exists pos,
  located (conf_fields xy K) (k_id K) pos HID_USAGE_PAGE_GENERIC (mouse_abs_usage c) 16 /\ field_value report pos 16 = u16 (pt_abs q c).
Proof.
  intros Hc. apply list_elem_of_split in Hc as (l1 & l2 & El). exists (8 * ((k_nb K + 7) / 8) + (8 * zlen (k_rel K) + 16 * Z.of_nat (length l1))). split.
  - unfold conf_fields. fold fbtn. rewrite <- fbtn_bits. apply located_app_r.
    replace (8 * zlen (k_rel K)) with (report_bits (k_id K) (rel_fields (k_id K) (rel_usage xy <$> k_rel K))) by (rewrite rel_bits; unfold zlen; by rewrite length_fmap).
    apply located_app_r, located_app_l, abs_located. rewrite list_lookup_fmap, El, list_lookup_middle by done. done.
  - destruct btns_ok as [Hb Hz]. destruct (rels_ok (k_rel K)) as [Hr Hrz]. destruct (abss_ok l1) as [Ha Haz].
    unfold report, pointer_report. fold btns rels. rewrite El, bind_app, bind_cons. cbn [app].
    rewrite <- !app_assoc, (app_assoc rels), (app_assoc btns).
    replace (8 * _ + _) with (8 * zlen (btns ++ rels ++ (l1 ≫= (fun c => le_bytes 2 (pt_abs q c)))))
      by (unfold rels; rewrite !zlen_app, Hz, Hrz, Haz; unfold zlen; lia).
    apply field_word. by rewrite !Forall_app.
Qed.

(** The bytes before the wheels. *)
Lemma wheels_at : exists pre, report = first :: pre ++ (if k_v K then [pt_v q] else []) ++ (if k_h K then [pt_h q] else []) /\
  Forall byte_ok pre /\ exists fpre, conf_fields xy K = fpre ++ wheel_fields (k_id K) (k_flags K) /\ report_bits (k_id K) fpre = 8 * zlen pre.
Proof.
  destruct btns_ok as [Hb Hz]. destruct (rels_ok (k_rel K)) as [Hr Hrz]. destruct (abss_ok (k_abs K)) as [Ha Haz].
  exists (btns ++ rels ++ abss). split; [unfold report, pointer_report; cbn [app]; by rewrite <- !app_assoc|]. split; [by rewrite !Forall_app|].
  exists (fbtn ++ rel_fields (k_id K) (rel_usage xy <$> k_rel K) ++ abs_fields (k_id K) (mouse_abs_usage <$> k_abs K)).
  split; [unfold conf_fields, fbtn; by rewrite <- !app_assoc|].
  rewrite !report_bits_app, fbtn_bits, rel_bits, abs_bits. unfold rels, abss. rewrite !zlen_app, Hz, Hrz, Haz. unfold zlen. rewrite !length_fmap. lia.
Qed.

Lemma report_reads : reads (conf_fields xy K) xy K report q.
Proof.
  destruct wheels_at as (pre & Er & Hp & fpre & Ef & Eb). constructor.
  - rewrite Ef, report_bits_app, wheel_bits, Eb, Er, zlen_cons, !zlen_app. fold (k_v K) (k_h K). destruct (k_v K), (k_h K); unfold zlen; cbn; lia.
  - apply reads_button.
  - apply reads_rel.
  - apply reads_abs.
  - intros Hv. exists (8 * zlen pre). rewrite Er, Ef, Hv. split; [|apply field_byte; [done|apply PO]].
    rewrite <- Eb, <- (Z.add_0_r (report_bits _ fpre)). apply located_app_r. unfold wheel_fields. fold (k_v K). rewrite Hv. apply located_app_l.
    eexists [], _, [], 0%nat. by split_and!.
  - intros Hh. rewrite Er, Ef, Hh. unfold wheel_fields. fold (k_v K) (k_h K). rewrite Hh.
    exists (8 * zlen (pre ++ (if k_v K then [pt_v q] else []))). split.
    + replace (8 * zlen _) with (report_bits (k_id K) fpre + (report_bits (k_id K) (if k_v K then [wheel_field (k_id K) HID_USAGE_PAGE_GENERIC HID_USAGE_GENERIC_WHEEL] else []) + 0)).
      * do 2 apply located_app_r. eexists [], _, [], 0%nat. by split_and!.
      * rewrite Eb, zlen_app. destruct (k_v K); unfold report_bits, zlen; cbn -[Z.mul Z.add Z.of_nat]; rewrite ?Z.eqb_refl; lia.
    + rewrite app_assoc. apply field_byte; [|apply PO]. apply Forall_app. split; [done|]. destruct (k_v K); [|done]. constructor; [apply PO|done].
Qed.
End reads.

Lemma pointer_report_len K first q : conf_ok K -> zlen (pointer_report first (k_nb K) (k_rel K) (k_abs K) (k_v K) (k_h K) q) = k_size K.
Proof.
  intros OK. pose proof (ko_nb K OK). unfold pointer_report, k_size, k_offset, k_len. rewrite !zlen_app, zlen_button_bytes, (proj2 (abss_ok q (k_abs K))) by lia.
  unfold zlen. rewrite length_fmap. destruct (k_v K), (k_h K); cbn [length]; lia.
Qed.

(** ** The refinement *)

(** A sequence of events. *)
Fixpoint mouse_events (m : INPUT_CLASS_MOUSE) (evs : list VIRTIO_INPUT_EVENT) : res INPUT_CLASS_MOUSE :=
  match evs with
  | [] => Ok m
  | ev :: evs => m ← HIDMouseEventToReport m ev; mouse_events m evs
  end.

Definition pointer_events (K : mouse_conf) : pointer -> list VIRTIO_INPUT_EVENT -> pointer := foldl (pointer_event (k_flags K) (k_nb K)).

Lemma mouse_events_ok K evs : conf_ok K -> Forall event_ranges evs -> forall first dirty p,
  exists first' dirty', mouse_events (mouse_showing K first dirty p) evs = Ok (mouse_showing K first' dirty' (pointer_events K p evs)) /\
    dirty' = dirty || existsb (shows_event K) evs /\ (evs <> [] \/ first = k_id K -> first' = k_id K).
Proof.
  intros OK. induction 1 as [|ev evs Hev _ IH]; intros first dirty p; cbn [mouse_events existsb].
  - exists first, dirty. rewrite orb_false_r. split; [done|]. split; [done|]. by intros [?|?].
  - rewrite mouse_event_ok by done. cbn [mbind res_bind]. destruct (IH (k_id K) (dirty || shows_event K ev) (pointer_event (k_flags K) (k_nb K) p ev)) as (f' & d' & E & -> & Hf).
    exists f', (dirty || shows_event K ev || existsb (shows_event K) evs). split; [exact E|]. split; [by rewrite orb_assoc|]. intros _. apply Hf. by right.
Qed.

Lemma pointer_events_ok K evs : forall p, pointer_ok p -> pointer_ok (pointer_events K p evs).
Proof. induction evs as [|ev evs IH]; intros p Hp; [done|]. apply IH. by apply pointer_event_ok. Qed.

