(* ===== verification/VioInputControlsSpec.v ===== *)
(** * virtio-input: joystick and consumer controls

    Probe and reports of a joystick: 32 bits for each axis, then the buttons, as its descriptor
    declares them.  Probe and reports of the consumer controls: one bit for each control. *)

From Stdlib Require Import ZArith Lia.
From stdpp Require Import base list numbers option sets.
From S2P Require Import Prelude.
From S2P Require Import VioInput.
From S2P Require Import VioInputSpec.
From S2P Require Import VioInputProbe.
From S2P Require Import Effects.
From S2P Require Import VioInputClasses.
From S2P Require Import VioInputHidSpec.
From S2P Require Import VioInputMouseSpec.
From S2P Require Import VioInputMouseEvents.

(** ** The probe *)

Definition stick_entries (codes : list Z) : list (Z * Z) := imap (fun i c => (axis_key EV_ABS c, 4 * Z.of_nat i)) codes.
Definition stick_field (id c : Z) : field :=
  mk_field id (if (joystick_usage c).2 then HID_USAGE_PAGE_SIMULATION else HID_USAGE_PAGE_GENERIC) [(joystick_usage c).1] 32 1 HID_DATA_FLAG_VARIABLE.

(** A joystick: its report identifier, its buttons and its axes. *)
Record stick_conf := mk_stick { s_id : Z; s_nb : Z; s_axes : list Z }.
Record stick_ok (J : stick_conf) : Prop := {
  so_nb : 0 < s_nb J <= 16;
  so_axes : Forall (fun c => 0 <= c < 1024) (s_axes J);
  so_nodup : NoDup (s_axes J);
  so_few : zlen (s_axes J) <= 1024 }.

Definition stick_fields (J : stick_conf) : list field := (stick_field (s_id J) <$> s_axes J) ++ button_fields (s_id J) (s_nb J).
Definition stick_size (J : stick_conf) : Z := 1 + zlen (s_axes J) * 4 + (s_nb J + 7) / 8.

(** The position on each axis and the buttons held. *)
Record stick := mk_position { st_axes : Z -> Z; st_buttons : Z -> bool }.
#[export] Instance eta_stick : Eta stick := fun q => mk_position (st_axes q) (st_buttons q).
Definition centered : stick := mk_position (fun _ => 0) (fun _ => false).

Definition stick_report (first : Z) (J : stick_conf) (q : stick) : list Z :=
  first :: (s_axes J ≫= (fun c => le_bytes 4 (st_axes q c))) ++ button_bytes (s_nb J) (st_buttons q).

Definition stick_showing (J : stick_conf) (first : Z) (dirty : bool) (q : stick) : INPUT_CLASS_JOYSTICK :=
  mk_joystick (mk_common (stick_report first J q) (stick_size J) (s_id J) dirty) (s_nb J) (4 * zlen (s_axes J))
    (Some (flat (stick_entries (s_axes J) ++ map_end))).

Lemma joystick_usage_range c : 0 <= (joystick_usage c).1 <= 0xC8.
Proof.
  unfold joystick_usage. repeat case_match; cbn; unfold HID_USAGE_GENERIC_X, HID_USAGE_GENERIC_Y, HID_USAGE_GENERIC_Z, HID_USAGE_GENERIC_RX,
    HID_USAGE_GENERIC_RY, HID_USAGE_GENERIC_RZ, HID_USAGE_GENERIC_VX, HID_USAGE_GENERIC_VY, HID_USAGE_GENERIC_SLIDER, HID_USAGE_SIMULATION_THROTTLE,
    HID_USAGE_SIMULATION_RUDDER, HID_USAGE_SIMULATION_BRAKE, HID_USAGE_SIMULATION_STEERING, HID_USAGE_SIMULATION_ACCELERATOR; lia.
Qed.

Lemma joystick_items_ok c a : Forall item_ok (joystick_axis_items (joystick_usage c) a).
Proof.
  pose proof (joystick_usage_range c). pose proof (s32_range (abs_min a)). pose proof (s32_range (abs_max a)). unfold joystick_axis_items.
  destruct (joystick_usage c) as [u []]; cbn [fst snd] in *; items_ok.
Qed.

Lemma joystick_items_emit id pg c a : emits id pg (ditems (joystick_axis_items (joystick_usage c) a)) [stick_field id c] (f_page (stick_field id c)).
Proof. intros h Hi Hp Hu. destruct h. cbn in Hi, Hp, Hu. subst. unfold stick_field, joystick_axis_items. destruct (joystick_usage c) as [u []]; done. Qed.

Section probe.
Context {E : Type} (I : input_env E) (C : config_env E).
Implicit Types p : probing E.

(** After the axes [done]. *)
Definition stick_taken (id nb : Z) (acc : INPUT_CLASS_JOYSTICK * Z) (done : list Z) (ds : list ditem) (bs : list Z) : Prop :=
  acc = (mk_joystick (mk_common [] 0 id false) nb (4 * zlen done) None, zlen done) /\ bs = map_of (stick_entries done) /\
  exists pg, emits id HID_USAGE_PAGE_GENERIC ds (stick_field id <$> done) pg.

Lemma take_stick_ok id nb code acc done ds bs p : stick_taken id nb acc done ds bs -> room 43 p ->
  adds (joystick_take_axis I C code acc) 43 (fun acc' ds' bs' => stick_taken id nb acc' (done ++ [code]) (ds ++ ds') (bs ++ bs')) p.
Proof.
  intros (-> & -> & pg & He) R. unfold joystick_take_axis.
  eapply (adds_bind _ _ _ 0 43); [exact R|lia|lia|apply adds_absinfo; eapply room_le; [exact R|lia]|].
  cbv beta. intros a ds0 bs0 p0 (-> & ->) _ R0. pose proof (length_encode_items _ (joystick_items_ok code a)) as L.
  change (zlen (joystick_axis_items (joystick_usage code) a)) with 7 in L.
  eapply (adds_bind _ _ _ 35 8); [exact R0|lia|lia|apply adds_describe; [eapply room_le; [exact R0|lia]|apply joystick_items_ok|lia|done]|].
  cbv beta. intros [] ds1 bs1 p1 (-> & ->) _ R1.
  eapply (adds_bind _ _ _ 8 0); [exact R1|lia|lia|by apply adds_map_append|].
  cbv beta. intros [] ds2 bs2 p2 (-> & ->) _ R2. apply adds_ret; [done|]. unfold stick_taken, stick_entries.
  rewrite imap_snoc, zlen_app, fmap_app, !app_nil_r, map_of_app. change (zlen [code]) with 1. split_and!.
  - replace (4 * (zlen done + 1)) with (4 * zlen done + 4) by lia. done.
  - done.
  - eexists. eapply emits_app; [exact He|apply joystick_items_emit].
Qed.

Lemma joystick_head_ok id : 0 <= id < 256 -> Forall item_ok (joystick_head_items id).
Proof. intros H. items_ok. Qed.

(** The axes of the device that are axes of a joystick. *)
Definition stick_codes (abs : VIRTIO_INPUT_CFG_DATA) : list Z := List.filter joystick_axis (codes_of abs).

Lemma joystick_describe_ok id nb abs p : 0 <= id < 256 -> cfg_ok abs -> room 50000 p ->
  adds (joystick_describe I C id nb abs) 50000 (fun r ds bs => cfg_like abs r.1 /\
    r.2 = (mk_joystick (mk_common [] 0 id false) nb (4 * zlen (stick_codes abs)) None, zlen (stick_codes abs)) /\
    bs = map_of (stick_entries (stick_codes abs) ++ map_end) /\
    exists pg ds', ds = ditems (joystick_head_items id) ++ ds' /\ emits id HID_USAGE_PAGE_GENERIC ds' (stick_field id <$> stick_codes abs) pg) p.
Proof.
  intros Hid Ka R. unfold joystick_describe. pose proof (length_encode_items _ (joystick_head_ok id Hid)) as L. change (zlen (joystick_head_items id)) with 5 in L.
  eapply (adds_bind _ _ _ 25 49000); [exact R|lia|lia|apply adds_describe; [eapply room_le; [exact R|lia]|by apply joystick_head_ok|lia|done]|].
  cbv beta. intros [] ds0 bs0 p0 (-> & ->) _ R0.
  eapply (adds_bind _ _ _ 0 49000); [exact R0|lia|lia|apply adds_map_reserve; [eapply room_le; [exact R0|lia]|unfold JOYSTICK_MAP_INITIAL_LENGTH; lia]|].
  cbv beta. intros [] ds1 bs1 p1 (-> & ->) _ R1.
  eapply (adds_bind _ _ _ (1024 * 43) 8); [exact R1|lia|lia| |].
  { apply (scan_ok joystick_axis (joystick_take_axis I C) 43 (stick_taken id nb)); [|lia|exact Ka|apply Ka| |eapply room_le; [exact R1|lia]].
    - intros code acc done ds bs q _ _ HR Hq. by apply take_stick_ok.
    - split_and!; [done..|]. eexists. apply emits_nil. }
  cbv beta. intros [abs' acc] ds2 bs2 p2 (Hl & Hacc & -> & pg & He) _ R2. cbn [fst snd] in *. subst acc.
  eapply (adds_bind _ _ _ 8 0); [exact R2|lia|lia|by apply adds_map_append|].
  cbv beta. intros [] ds3 bs3 p3 (-> & ->) _ R3. apply adds_ret; [done|]. cbn [fst snd app]. rewrite !app_nil_r. split_and!; [done|done|..].
  - rewrite map_of_app. unfold map_of, map_end. rewrite bind_cons, app_nil_r. done.
  - exists pg. eexists. by split.
Qed.

(** The registered joystick at rest. *)
Definition joystick_built (id : Z) (abs key : VIRTIO_INPUT_CFG_DATA) (j : INPUT_CLASS_JOYSTICK) (fs : list field) : Prop :=
  exists nb, let J := mk_stick id nb (stick_codes abs) in
    stick_ok J /\ (forall c, c ∈ codes_of key -> joystick_button c = true -> c - BTN_JOYSTICK < nb) /\
    j = stick_showing J 0 false centered /\ fs = stick_fields J.

Lemma stick_zero J : stick_ok J -> replicate (Z.to_nat (stick_size J)) 0 = stick_report 0 J centered.
Proof.
  intros OK. pose proof (so_nb J OK). unfold stick_report, stick_size, centered. cbn [st_axes st_buttons]. rewrite zero_buttons by lia.
  assert (forall l : list Z, l ≫= (fun _ => le_bytes 4 0) = replicate (4 * length l) 0) as H1.
  { induction l as [|c l IH]; [done|]. rewrite bind_cons, IH. cbn [length]. by replace (4 * S (length l))%nat with (4 + 4 * length l)%nat by lia. }
  rewrite H1, <- replicate_add. change (0 :: replicate ?n 0) with (replicate (S n) 0). f_equal. unfold zlen. assert (0 <= (s_nb J + 7) / 8) by (apply Z.div_pos; lia). lia.
Qed.

Lemma joystick_finish_ok id n nb abs p : 0 < nb <= 16 -> cfg_ok abs -> room 60 p ->
  contents (pMap p) = None \/ contents (pMap p) = Some (map_of (stick_entries (stick_codes abs) ++ map_end)) ->
  wp (joystick_finish I n (mk_joystick (mk_common [] 0 id false) nb (4 * zlen (stick_codes abs)) None) (zlen (stick_codes abs)))
    (fun r p' => exists ds, dstep p p' ds /\
      match r.2 with
      | None => NT_SUCCESS r.1 = false
      | Some j => r.1 = STATUS_SUCCESS /\ n < MAX_INPUT_CLASS_COUNT /\
          (stick_ok (mk_stick id nb (stick_codes abs)) -> j = stick_showing (mk_stick id nb (stick_codes abs)) 0 false centered) /\
          (forall pg, emits id pg ds (button_fields id nb) HID_USAGE_PAGE_BUTTON) /\ map_quiet p' /\ Size (pDesc p') <= Size (pDesc p) + 60
      end) p.
Proof.
  intros Hnb Ka R Hc. unfold joystick_finish. cbn [jNumOfButtons]. set (J := mk_stick id nb (stick_codes abs)).
  apply wp_bind. eapply wp_mono; [apply (map_get_ok p _ 60 R Hc)|].
  { rewrite map_of_app. intros Hn%app_eq_nil. by destruct Hn. }
  cbv beta. intros map p2 (R2 & E2 & Hm). assert (dstep p p2 []) as D2 by (apply (dstep_eq _ _ _ E2); split; [apply appended_nil, R|done]).
  destruct Hm as [-> | [-> Ez]]; [exists []; by split|]. pose proof R2 as ((_ & O2) & _). rewrite ulongs_map. cbv zeta.
  assert (0 <= 1 + zlen (stick_codes abs) * 4 + (nb + 7) / 8) as Hcb by (pose proof (zlen_nonneg (stick_codes abs)); pose proof (Z.div_pos (nb + 7) 8); lia).
  destruct (button_items_ok nb ltac:(lia)) as [Hio Hil]. pose proof (length_encode_items _ Hio) as L.
  assert (adds (describe I (button_items nb ((nb + 7) / 8)) ;; describe1 I HID_TAG_END_COLLECTION ;; register I n (1 + zlen (stick_codes abs) * 4 + (nb + 7) / 8)) 60
    (fun r ds bs => ((forall pg, emits id pg ds (button_fields id nb) HID_USAGE_PAGE_BUTTON) /\ bs = []) /\
      (NT_SUCCESS r.1 = true -> r.1 = STATUS_SUCCESS /\ n < MAX_INPUT_CLASS_COUNT /\ r.2 = replicate (Z.to_nat (stick_size J)) 0)) p2) as Ha.
  { eapply (adds_bind _ _ _ 55 1); [exact R2|lia|lia|apply adds_describe; [eapply room_le; [exact R2|lia]|done|lia|lia]|]. cbv beta. intros [] ? ? p3 (-> & ->) _ R3.
    eapply (adds_bind _ _ _ 1 0); [exact R3|lia|lia|apply adds_end; [exact R3|lia]|]. cbv beta. intros [] ? ? p4 (-> & ->) _ R4.
    eapply adds_mono; [apply adds_register; [exact R4|done]|lia|]. cbv beta. intros r ? ? ((-> & ->) & Hr). split; [|exact Hr].
    split; [|done]. intros pg. rewrite <- (app_nil_r (button_fields id nb)). eapply emits_app; [apply button_emits; lia|].
    intros h Hi Hp Hu. destruct h. cbn in *. subst. by rewrite app_nil_r. }
  unfold adds, wp in Ha |- *. unfold mbind, M_bind in *. cbv beta zeta in *.
  destruct (describe I _ p2) as [[[] q1]|]; [|done]. destruct (describe1 I _ q1) as [[[] q2]|]; [|done].
  destruct (register I n _ q2) as [[[st report] q3]|]; [|done].
  destruct Ha as (ds & bs2 & S4 & C4 & (He & ->) & Hr). pose proof (step_size _ _ _ _ _ S4 C4) as Z4.
  pose proof D2 as ((_ & Z2 & _) & _). change (zlen (descriptor_bytes [])) with 0 in Z2. cbn [fst snd] in *. pose proof (quiet_step _ _ _ S4 (conj O2 Ez)). apply step_dstep in S4.
  destruct (NT_SUCCESS st) eqn:Est; exists ds; (split; [exact (dstep_trans _ _ _ _ _ D2 S4)|]); [|done].
  destruct (Hr eq_refl) as (-> & Hn & ->). cbn [snd fst]. split_and!; [done|done| |exact He|done|lia].
  intros OK. rewrite stick_zero by exact OK. done.
Qed.

Definition stick_buttons (n : Z) (done : list Z) (ds : list ditem) (bs : list Z) : Prop :=
  (ds = [] /\ bs = []) /\ 0 <= n <= 16 /\ (n = 0 -> done = []) /\ forall c, c ∈ done -> c - BTN_JOYSTICK < n.

Lemma take_stick_button_ok code n done ds bs p : joystick_button code = true -> stick_buttons n done ds bs -> room 0 p ->
  adds (E := E) (joystick_take_button code n) 0 (fun n' ds' bs' => stick_buttons n' (done ++ [code]) (ds ++ ds') (bs ++ bs')) p.
Proof.
  intros Hb ((-> & ->) & Hn & H0 & Hmax) R. apply adds_ret; [done|]. unfold joystick_button, BTN_JOYSTICK, BTN_GAMEPAD in *. split; [done|]. split; [lia|].
  split; [lia|]. intros c [Hc|Hc%list_elem_of_singleton]%elem_of_app; [specialize (Hmax c Hc); unfold BTN_JOYSTICK in *; lia|subst; unfold BTN_JOYSTICK; lia].
Qed.

Lemma stick_conf_ok id nb abs : 0 < nb <= 16 -> cfg_ok abs -> stick_ok (mk_stick id nb (stick_codes abs)).
Proof.
  intros Hn Ka. pose proof (codes_range abs Ka) as Hr. pose proof (codes_few abs Ka) as Hf. pose proof (codes_nodup abs Ka) as Hd. constructor; cbn [s_nb s_axes]; [lia|..]; unfold stick_codes.
  - rewrite list.Forall_forall in *. intros c Hc. apply list_elem_of_In, List.filter_In in Hc as [Hc%list_elem_of_In _]. by apply Hr.
  - by apply NoDup_ListNoDup, List.NoDup_filter, NoDup_ListNoDup.
  - unfold zlen in *. pose proof (List.filter_length_le joystick_axis (codes_of abs)). lia.
Qed.

Lemma HIDJoystickProbe_ok n abs key p : 0 <= n < 255 -> cfg_ok abs -> cfg_ok key -> droom 100000 p ->
  wp (HIDJoystickProbe I C n abs key) (fun r p' => let '(st, j, (abs', key')) := r in
    (cfg_like abs abs' /\ cfg_like key key') /\ probed (joystick_built (n + 1) abs key) n st j p p') p.
Proof.
  intros Hn Ka Kk D. unfold HIDJoystickProbe. apply wp_bind, wp_modify. pose proof (fresh_room p 100000 D ltac:(lia)) as R0. set (p0 := p <| pMap := _ |>) in *.
  apply wp_bind. eapply wp_mono; [eapply (scan_ok joystick_button joystick_take_button 0 stick_buttons); [|lia|exact Kk|apply Kk| |eapply room_le; [exact R0|lia]]|].
  { intros code acc done ds bs q Hc _ HR Hq. by apply take_stick_button_ok. }
  { split_and!; try done. intros c Hc. by apply elem_of_nil in Hc. }
  cbv beta. intros [key' nb] p1 (ds1 & bs1 & S1 & L1 & Hl & (-> & ->) & Hnb & H0 & Hmax). cbn [fst snd] in *.
  assert (room 100000 p1) as R1 by (eapply room_le; [eapply (step_room p0 p1 [] [] 100000 0); [exact R0|exact S1|done|lia]|lia]).
  destruct (Z.eqb_spec nb 0); [apply wp_ret; split; [by split|]; intros _; split; [exact (step_dstep _ _ _ _ S1)|]; by eapply (quiet_step p0)|].
  apply wp_bind. eapply wp_mono; [apply (adds_alloc I sizeof_INPUT_CLASS_JOYSTICK 100000 p1 R1)|]. cbv beta. intros ok p2 (ds2 & bs2 & S2 & L2 & -> & ->).
  assert (room 50000 p2) as R2 by (eapply room_le; [eapply (step_room p1 p2 [] [] 100000 0); [exact R1|exact S2|done|lia]|lia]).
  destruct ok; cbn [negb]; [|apply wp_ret; split; [by split|done]]. rewrite u8_small by lia.
  apply wp_bind. eapply wp_mono; [apply (joystick_describe_ok (n + 1) nb abs p2 ltac:(lia) Ka R2)|].
  cbv beta. intros [abs' acc] p3 (ds3 & bs3 & S3 & L3 & Hla & Hacc & -> & pg & ds' & -> & He). cbn [fst snd] in *. subst acc.
  pose proof (step_trans _ _ _ _ _ _ _ (step_trans _ _ _ _ _ _ _ S1 S2) S3) as S13. cbn [app] in S13.
  assert (room 60 p3) as R3 by (eapply room_le; [eapply (step_room p0 p3 _ _ 100000 50000); [exact R0|exact S13|exact L3|lia]|lia]).
  apply wp_bind. eapply wp_mono; [apply (joystick_finish_ok (n + 1) n nb abs p3 ltac:(lia) Ka R3)|].
  { destruct S13 as (_ & (_ & _ & [H|(b & [= <-] & H2)]) & _); [by left|by right]. }
  cbv beta. intros [st r] p4 (ds4 & D4 & Hr). apply wp_bind, wp_modify, wp_ret. split; [by split|]. cbn [fst snd] in Hr.
  destruct r as [j|]; [|cbn; rewrite Hr; done]. destruct Hr as (-> & Hmx & Hj & Hb & Q4 & Z4). split; [done|]. split; [done|]. split; [by apply destroy_quiet|].
  pose proof (step_size _ _ _ _ _ S13 L3) as Z13. change (Size (pDesc p0)) with (Size (pDesc p)) in Z13. split; [cbn; lia|].
  pose proof (stick_conf_ok (n + 1) nb abs ltac:(lia) Ka) as OK.
  eexists _, (stick_fields (mk_stick (n + 1) nb (stick_codes abs))). split; [exact (dstep_trans p0 p3 p4 _ _ (step_dstep _ _ _ _ S13) D4)|]. rewrite <- app_assoc. split.
  - eapply (class_emits_head (n + 1) HID_USAGE_PAGE_GENERIC); [|eapply emits_app; [exact He|apply Hb]]. intros h. by destruct h.
  - exists nb. split_and!; [done| |by apply Hj|done]. intros c Hc Hb'. apply Hmax, list_elem_of_In, List.filter_In. split; [by apply list_elem_of_In|done].
Qed.
End probe.

(** ** Events *)

Definition stick_event (q : stick) (ev : VIRTIO_INPUT_EVENT) : stick :=
  if ev_type ev =? EV_ABS then q <| st_axes := upd (st_axes q) (ev_code ev) (ev_value ev) |>
  else if (ev_type ev =? EV_KEY) && joystick_button (ev_code ev)
  then q <| st_buttons := set_button (st_buttons q) (ev_code ev - BTN_JOYSTICK) (truth (ev_value ev)) |>
  else q.

Definition stick_shows (J : stick_conf) (ev : VIRTIO_INPUT_EVENT) : bool :=
  if ev_type ev =? EV_ABS then bool_decide (ev_code ev ∈ s_axes J)
  else (ev_type ev =? EV_KEY) && joystick_button (ev_code ev) && (ev_code ev - BTN_JOYSTICK <? s_nb J).

Lemma store_skip es' : forall es key v j, Forall entry_ok es' -> Forall (fun e => e.1 <> key) es' ->
  axis_store (flat (es' ++ es)) key v j = axis_store (flat es) key v j.
Proof.
  induction es' as [|e es' IH]; intros es key v j H1 H2; [done|]. apply list.Forall_cons in H1 as [(He & He') H1]. apply list.Forall_cons in H2 as [Hn H2].
  cbn [app]. rewrite flat_cons by done. cbn [axis_store]. destruct (Z.eqb_spec e.1 MAP_END); [lia|]. destruct (Z.eqb_spec e.1 key); [done|]. by apply IH.
Qed.

Lemma store_hit e1 key o e2 v j r : Forall entry_ok (e1 ++ (key, o) :: e2) -> NoDup (fst <$> (e1 ++ (key, o) :: e2)) ->
  put_bytes (cReport (jCommon j)) (HID_REPORT_DATA_OFFSET + o) (le_bytes 4 v) = Ok r ->
  axis_store (flat ((e1 ++ (key, o) :: e2) ++ map_end)) key v j = Ok (joystick_put j r).
Proof.
  intros Ho Hn Hr. apply Forall_app in Ho as [Ho1 Ho2]. apply list.Forall_cons in Ho2 as [Hk Ho2]. rewrite fmap_app, fmap_cons in Hn.
  apply NoDup_app in Hn as (_ & Hd & Hn). apply NoDup_cons in Hn as [Hn _]. rewrite <- app_assoc. cbn [app]. rewrite store_skip; [|done|].
  - rewrite flat_cons by done. destruct Hk as ((Hk & Hk') & _). cbn [axis_store fst snd] in *. destruct (Z.eqb_spec key MAP_END); [lia|].
    rewrite Z.eqb_refl, Hr. cbn [mbind res_bind]. rewrite store_skip; [done|done|].
    apply list.Forall_forall. intros e He Ee. apply Hn. rewrite <- Ee. apply list_elem_of_fmap. eauto.
  - apply list.Forall_forall. intros e He Ee. apply (Hd e.1); [apply list_elem_of_fmap; eauto|]. rewrite Ee. left.
Qed.

Section events.
Context (J : stick_conf) (OK : stick_ok J).

Lemma stick_entries_ok : Forall entry_ok (stick_entries (s_axes J)) /\ fst <$> stick_entries (s_axes J) = axis_key EV_ABS <$> s_axes J.
Proof.
  pose proof (so_few J OK). split.
  - apply Forall_lookup_2. intros i e. unfold stick_entries. rewrite list_lookup_imap, fmap_Some. intros (c & Hc & ->). pose proof (so_axes J OK) as Hr.
    rewrite Forall_lookup in Hr. specialize (Hr i c Hc). apply lookup_lt_Some in Hc. unfold zlen in *. cbn beta in Hr.
    split; cbn [fst snd]; [rewrite axis_key_eq by lia; unfold EV_ABS, MAP_END|]; lia.
  - rewrite <- (fst_imap (axis_key EV_ABS) (fun x => 4 * x) (s_axes J) 0). unfold stick_entries. f_equal. apply imap_ext. intros i x _. do 3 f_equal. lia.
Qed.

Lemma axes_bytes_len (f : Z -> Z) l : zlen (l ≫= (fun c => le_bytes 4 (f c))) = 4 * zlen l.
Proof. induction l as [|c l IH]; [done|]. rewrite bind_cons, zlen_app, zlen_cons, IH. pose proof (length_le_bytes 4 (f c)). unfold zlen in *. lia. Qed.

Lemma axes_bytes_upd (f : Z -> Z) l c v : c ∉ l -> l ≫= (fun c' => le_bytes 4 (upd f c v c')) = l ≫= (fun c' => le_bytes 4 (f c')).
Proof.
  induction l as [|x l IH]; [done|]. rewrite not_elem_of_cons. intros [Hx Hl]. rewrite !bind_cons, IH by done. f_equal. unfold upd. by destruct (Z.eqb_spec x c).
Qed.

Lemma stick_axis_ok first dirty q c v : 0 <= c < 65536 ->
  axis_store (flat (stick_entries (s_axes J) ++ map_end)) (axis_key EV_ABS c) v (stick_showing J first dirty q) =
    Ok (stick_showing J first (dirty || bool_decide (c ∈ s_axes J)) (q <| st_axes := upd (st_axes q) c v |>)).
Proof.
  intros Hc. destruct stick_entries_ok as [Ho Hk]. pose proof (so_axes J OK) as Hr. rewrite list.Forall_forall in Hr. cbn beta in Hr.
  assert (NoDup (fst <$> stick_entries (s_axes J))) as Hn.
  { rewrite Hk. apply NoDup_fmap_2_strong; [|apply OK]. intros x y Hx Hy E. pose proof (Hr x Hx). pose proof (Hr y Hy). apply axis_key_inj in E as [_ ?]; lia. }
  destruct (decide (c ∈ s_axes J)) as [Hi|Hi].
  - rewrite bool_decide_true, orb_true_r by done. apply list_elem_of_split in Hi as (l1 & l2 & El).
    assert (stick_entries (s_axes J) = stick_entries l1 ++ (axis_key EV_ABS c, 4 * zlen l1) ::
      imap (fun i c => (axis_key EV_ABS c, 4 * Z.of_nat (length l1 + S i))) l2) as Ee.
    { rewrite El. unfold stick_entries. rewrite imap_app. cbn. rewrite Nat.add_0_r. done. }
    rewrite Ee in Ho, Hn |- *. pose proof (so_nodup J OK) as Hd. rewrite El in Hd. apply NoDup_app in Hd as (_ & Hd1 & Hd2). apply NoDup_cons in Hd2 as [Hd2 _].
    assert (c ∉ l1) by (intros Hc1; apply (Hd1 c Hc1); left).
    rewrite (store_hit _ _ _ _ _ _ (stick_report first J (q <| st_axes := upd (st_axes q) c v |>))); [|done|done|].
    + done.
    + cbn [stick_showing jCommon cReport]. unfold stick_report. rewrite El, !bind_app, !bind_cons. cbn [st_axes set_field]. rewrite !axes_bytes_upd by done.
      assert (upd (st_axes q) c v c = v) as -> by (unfold upd; by rewrite Z.eqb_refl). rewrite <- !app_assoc, !(app_comm_cons _ _ first).
      apply put_bytes_app; [rewrite zlen_cons, axes_bytes_len; unfold HID_REPORT_DATA_OFFSET; lia|by rewrite !length_le_bytes].
  - rewrite bool_decide_false, orb_false_r by done. rewrite store_skip; [|done|].
    + unfold stick_showing, stick_report. cbn [st_axes st_buttons set_field]. by rewrite axes_bytes_upd.
    + apply list.Forall_forall. intros e He Ek. apply Hi. assert (e.1 ∈ fst <$> stick_entries (s_axes J)) as He' by (apply list_elem_of_fmap; eauto).
      rewrite Hk, list_elem_of_fmap in He'. destruct He' as (c' & Ec & Hc'). rewrite Ek in Ec. pose proof (Hr c' Hc'). apply axis_key_inj in Ec as [_ ->]; [done|lia|lia].
Qed.

(** Every event updates the report as it updates the stick. *)
Lemma stick_event_ok first dirty q ev : event_ranges ev ->
  HIDJoystickEventToReport (stick_showing J first dirty q) ev = Ok (stick_showing J (s_id J) (dirty || stick_shows J ev) (stick_event q ev)).
Proof.
  intros (Ht & Hc & _). destruct ev as [t c v]. cbn [ev_type ev_code ev_value] in *. unfold HIDJoystickEventToReport, stick_shows, stick_event.
  cbn [ev_type ev_code ev_value stick_showing jCommon cReport cReportID].
  rewrite (zset_app [] first (s_id J) _ 0 eq_refl : zset (stick_report first J q) HID_REPORT_ID_OFFSET (s_id J) = Ok (stick_report (s_id J) J q)). cbn [mbind res_bind].
  change (_ <| jCommon := _ |>) with (stick_showing J (s_id J) dirty q).
  destruct (Z.eqb_spec t EV_ABS) as [->|Ha]; [cbn [jAxisMap stick_showing]; by apply stick_axis_ok|].
  destruct (Z.eqb_spec t EV_KEY) as [->|]; cbn [andb]; [|by rewrite orb_false_r]. fold (joystick_button c). destruct (joystick_button c) eqn:Eb; [|by rewrite orb_false_r].
  cbn [jNumOfButtons stick_showing andb]. pose proof (so_nb J OK). unfold joystick_button, BTN_JOYSTICK, BTN_GAMEPAD in Eb.
  assert (0 <= c - BTN_JOYSTICK) by (unfold BTN_JOYSTICK; lia).
  destruct (Z.ltb_spec (c - BTN_JOYSTICK) (s_nb J)).
  - cbn [jCommon cReport stick_showing jAxisLen]. unfold stick_report at 1. rewrite app_comm_cons. rewrite <- (app_nil_r (button_bytes _ _)).
    rewrite (put_button_ok (s_nb J) (st_buttons q) (c - BTN_JOYSTICK) v (s_id J :: (s_axes J ≫= (fun c => le_bytes 4 (st_axes q c)))) [])
      by (lia || (rewrite zlen_cons, axes_bytes_len; unfold HID_REPORT_DATA_OFFSET; lia)). cbn [mbind res_bind]. rewrite app_nil_r, orb_true_r. done.
  - rewrite orb_false_r. unfold stick_showing, stick_report. cbn [st_axes st_buttons set_field]. do 5 f_equal. unfold button_bytes. apply list_fmap_ext. intros i k _.
    apply bits_byte_ext. intros j Hj. unfold set_button. destruct (Z.eqb_spec (8 * k + j) (c - BTN_JOYSTICK)); [|done]. by rewrite bool_decide_false by lia.
Qed.
End events.

(** ** Through the descriptor *)

Record stick_reads (fs : list field) (J : stick_conf) (report : list Z) (q : stick) : Prop := {
  sr_size : report_bits (s_id J) fs = 8 * (zlen report - 1);
  sr_axis : forall c, c ∈ s_axes J -> exists pos, let f := stick_field (s_id J) c in
    located fs (s_id J) pos (f_page f) (joystick_usage c).1 32 /\ field_value report pos 32 = u32 (st_axes q c);
  sr_button : forall i, 0 <= i < s_nb J -> exists pos,
    located fs (s_id J) pos HID_USAGE_PAGE_BUTTON (i + 1) 1 /\ field_value report pos 1 = b2z (st_buttons q i) }.

Lemma stick_axes_bits id l : report_bits id (stick_field id <$> l) = 32 * zlen l.
Proof.
  unfold report_bits. induction l as [|u us IH]; [done|]. cbn [fmap list_fmap foldr f_id f_size f_count stick_field] in *.
  rewrite Z.eqb_refl, zlen_cons. change (list_fmap Z field) with (@fmap list _ Z field). rewrite IH. lia.
Qed.

Lemma stick_bits J : stick_ok J -> report_bits (s_id J) (stick_fields J) = 8 * (stick_size J - 1).
Proof. intros OK. pose proof (so_nb J OK). unfold stick_fields, stick_size. rewrite report_bits_app, stick_axes_bits, button_bits by lia. lia. Qed.

Lemma stick_ids J : Forall (fun f => f_id f = s_id J) (stick_fields J).
Proof.
  unfold stick_fields, button_fields. apply Forall_app. split; [by apply Forall_fmap, Forall_true|]. destruct (truth _); by repeat constructor.
Qed.

Lemma stick_report_len first J q : stick_ok J -> zlen (stick_report first J q) = stick_size J.
Proof.
  intros OK. pose proof (so_nb J OK). unfold stick_report, stick_size. rewrite zlen_cons, zlen_app, axes_bytes_len, zlen_button_bytes by lia. lia.
Qed.

Lemma axes_bytes_ok (f : Z -> Z) l : Forall byte_ok (l ≫= (fun c => le_bytes 4 (f c))).
Proof.
  induction l as [|c l IH]; [done|]. rewrite bind_cons. apply Forall_app. split; [|done]. rewrite le_bytes_n. apply Forall_fmap, Forall_true. intros. apply Z.mod_pos_bound. lia.
Qed.

Lemma stick_report_reads first J q : stick_ok J -> stick_reads (stick_fields J) J (stick_report first J q) q.
Proof.
  intros OK. pose proof (so_nb J OK). constructor.
  - rewrite stick_bits, stick_report_len by done. done.
  - intros c Hc. apply list_elem_of_split in Hc as (l1 & l2 & El). exists (8 * (4 * zlen l1)). cbv zeta. split.
    + unfold stick_fields. rewrite El, fmap_app, fmap_cons, <- app_assoc. replace (8 * (4 * zlen l1)) with (report_bits (s_id J) (stick_field (s_id J) <$> l1) + 0)
        by (rewrite stick_axes_bits; lia). apply located_app_r. eexists [], _, _, 0%nat. by split_and!.
    + unfold stick_report. rewrite El, bind_app, bind_cons, <- !app_assoc, <- (axes_bytes_len (st_axes q) l1). apply field_dword, axes_bytes_ok.
  - intros i Hi. exists (32 * zlen (s_axes J) + i). split.
    + unfold stick_fields. rewrite <- (stick_axes_bits (s_id J)). apply located_app_r. by apply button_located.
    + unfold stick_report. rewrite <- (app_nil_r (button_bytes _ _)). pose proof (axes_bytes_len (st_axes q) (s_axes J)) as L.
      replace (32 * zlen (s_axes J)) with (8 * zlen (s_axes J ≫= (fun c => le_bytes 4 (st_axes q c)))) by lia. apply field_button; [apply axes_bytes_ok|done].
Qed.

(** ** virtio-input: consumer controls

    Probe and reports of the consumer controls: one bit for each control that the device has,
    in the order of their event codes, as the descriptor declares them. *)

(** ** The control map *)

(** The map after the codes were numbered from [i]. *)
Fixpoint number_codes (i : Z) (codes : list Z) (map : list Z) : list Z :=
  match codes with
  | [] => map
  | c :: codes => number_codes (i + 1) codes (zinsert c i map)
  end.

Lemma number_snoc codes c : forall i map, number_codes i (codes ++ [c]) map = zinsert c (i + zlen codes) (number_codes i codes map).
Proof.
  induction codes as [|x codes IH]; intros i map; cbn [app number_codes]; [change (zlen []) with 0; by rewrite Z.add_0_r|].
  rewrite IH, zlen_cons. f_equal. lia.
Qed.

Lemma zlen_number codes : forall i map, zlen (number_codes i codes map) = zlen map.
Proof. induction codes as [|c codes IH]; intros i map; [done|]. cbn [number_codes]. by rewrite IH, zlen_zinsert. Qed.

Lemma number_miss codes c : forall i map, c ∉ codes -> zlookup (number_codes i codes map) c = zlookup map c.
Proof.
  induction codes as [|x codes IH]; intros i map; [done|]. rewrite not_elem_of_cons. intros [Hx Hc]. cbn [number_codes].
  rewrite IH by done. by apply zlookup_zinsert_ne.
Qed.

Lemma number_hit l1 c l2 : forall i map, c ∉ l2 -> 0 <= c < zlen map -> zlookup (number_codes i (l1 ++ c :: l2) map) c = Some (i + zlen l1).
Proof.
  induction l1 as [|x l1 IH]; intros i map Hc Hr; cbn [app number_codes].
  - rewrite number_miss by done. change (zlen []) with 0. rewrite Z.add_0_r. by apply zlookup_zinsert_eq.
  - rewrite IH by (done || by rewrite zlen_zinsert). rewrite zlen_cons. f_equal. lia.
Qed.

(** ** The class *)

Record control_conf := mk_controls { c_id : Z; c_len : Z; c_codes : list Z }.
Record controls_ok (K : control_conf) : Prop := {
  co_some : 0 < zlen (c_codes K) <= 1024;
  co_codes : Forall (fun c => 0 <= c < c_len K /\ consumer_code c = true) (c_codes K);
  co_nodup : NoDup (c_codes K) }.

Definition control_size (K : control_conf) : Z := 1 + (zlen (c_codes K) + 7) / 8.

(** The controls held down, by event code. *)
Definition held_bits (codes : list Z) (held : Z -> bool) (i : Z) : bool :=
  match zlookup codes i with Some c => held c | None => false end.
Definition control_report (first : Z) (K : control_conf) (held : Z -> bool) : list Z :=
  first :: button_bytes (zlen (c_codes K)) (held_bits (c_codes K) held).

Definition controls_showing (K : control_conf) (first : Z) (dirty : bool) (held : Z -> bool) : INPUT_CLASS_CONSUMER :=
  mk_consumer (mk_common (control_report first K held) (control_size K) (c_id K) dirty) (zlen (c_codes K))
    (number_codes 0 (c_codes K) (replicate (Z.to_nat (c_len K)) 0xFFFFFFFF)) (c_len K).

Definition consumer_usage_of (c : Z) : Z := match HIDKeyboardEventCodeToUsageCode c with Ok u => Z.land u KEY_USAGE_MASK | Fault _ => 0 end.
Definition consumer_fields (id : Z) (codes : list Z) : list field :=
  let n := zlen codes in
  mk_field id HID_USAGE_PAGE_CONSUMER (consumer_usage_of <$> codes) 1 n HID_DATA_FLAG_VARIABLE ::
  (if truth (n mod 8) then [mk_field id HID_USAGE_PAGE_CONSUMER [] (8 - n mod 8) 1 3] else []).

Lemma consumer_bits id codes : report_bits id (consumer_fields id codes) = 8 * ((zlen codes + 7) / 8).
Proof.
  pose proof (zlen_nonneg codes). unfold consumer_fields, report_bits, truth. cbv zeta. cbn [foldr f_id f_size f_count]. rewrite Z.eqb_refl.
  destruct (Z.eqb_spec (zlen codes mod 8) 0); cbn [negb foldr f_id f_size f_count]; rewrite ?Z.eqb_refl; Z.to_euclidean_division_equations; lia.
Qed.

Lemma consumer_ids id codes : Forall (fun f => f_id f = id) (consumer_fields id codes).
Proof. unfold consumer_fields. cbv zeta. destruct (truth _); by repeat constructor. Qed.

Lemma control_report_len first K held : zlen (control_report first K held) = control_size K.
Proof. unfold control_report, control_size. rewrite zlen_cons, zlen_button_bytes by apply zlen_nonneg. lia. Qed.

(** ** Events *)

Lemma button_bytes_ext n f g : (forall i, 0 <= i < n -> f i = g i) -> button_bytes n f = button_bytes n g.
Proof.
  intros H. apply list_fmap_ext. intros i k Hk. apply lookup_seqZ in Hk as [-> _]. apply bits_byte_ext. intros j Hj.
  destruct (Z.ltb_spec (8 * (0 + Z.of_nat i) + j) n); [rewrite H by lia; done|]. by rewrite !bool_decide_false by lia.
Qed.

Definition control_event (held : Z -> bool) (ev : VIRTIO_INPUT_EVENT) : Z -> bool :=
  if ev_type ev =? EV_KEY then set_button held (ev_code ev) (truth (ev_value ev)) else held.
Definition control_shows (K : control_conf) (ev : VIRTIO_INPUT_EVENT) : bool := (ev_type ev =? EV_KEY) && bool_decide (ev_code ev ∈ c_codes K).

Lemma held_other codes held c v i : c ∉ codes -> held_bits codes (set_button held c v) i = held_bits codes held i.
Proof.
  intros Hc. unfold held_bits. destruct (zlookup codes i) as [c'|] eqn:E; [|done]. unfold set_button. destruct (Z.eqb_spec c' c) as [->|]; [|done].
  exfalso. apply Hc. unfold zlookup in E. destruct (0 <=? i); [|done]. by eapply list_elem_of_lookup_2.
Qed.

Lemma held_set l1 c l2 held v i : NoDup (l1 ++ c :: l2) -> 0 <= i ->
  held_bits (l1 ++ c :: l2) (set_button held c v) i = set_button (held_bits (l1 ++ c :: l2) held) (zlen l1) v i.
Proof.
  intros Hn Hi. unfold held_bits, set_button. destruct (Z.eqb_spec i (zlen l1)) as [->|Hne].
  - rewrite zlookup_app_r, Z.sub_diag, zlookup_cons_0 by lia. by rewrite Z.eqb_refl.
  - destruct (zlookup (l1 ++ c :: l2) i) as [c'|] eqn:E; [|done]. destruct (Z.eqb_spec c' c) as [->|]; [|done]. exfalso. apply Hne.
    unfold zlookup in E. rewrite (proj2 (Z.leb_le 0 i)) in E by done.
    assert (Z.to_nat i = length l1) as Hx; [|unfold zlen; lia]. eapply NoDup_lookup; [exact Hn|exact E|]. by apply list_lookup_middle.
Qed.

(** Every event updates the report as it updates the controls. *)
Lemma control_event_ok K first dirty held ev : controls_ok K -> event_ranges ev ->
  HIDConsumerEventToReport (controls_showing K first dirty held) ev =
    Ok (controls_showing K (c_id K) (dirty || control_shows K ev) (control_event held ev)).
Proof.
  intros OK (Ht & Hc & _). destruct ev as [t c v]. cbn [ev_type ev_code ev_value] in *. unfold HIDConsumerEventToReport, control_shows, control_event.
  cbn [ev_type ev_code ev_value controls_showing sCommon cReport cReportID].
  rewrite (zset_app [] first (c_id K) _ 0 eq_refl : zset (control_report first K held) HID_REPORT_ID_OFFSET (c_id K) = Ok (control_report (c_id K) K held)). cbn [mbind res_bind].
  change ((controls_showing K first dirty held) <| sCommon := (mk_common (control_report first K held) (control_size K) (c_id K) dirty) <| cReport := control_report (c_id K) K held |> |>)
    with (controls_showing K (c_id K) dirty held).
  destruct (Z.eqb_spec t EV_KEY) as [->|]; cbn [andb]; [|by rewrite orb_false_r]. cbn [cbControlMapLen controls_showing].
  pose proof (co_some K OK). pose proof (co_codes K OK) as Hr. rewrite list.Forall_forall in Hr.
  assert (c ∉ c_codes K -> Ok (controls_showing K (c_id K) dirty held) = Ok (controls_showing K (c_id K) (dirty || bool_decide (c ∈ c_codes K)) (set_button held c (truth v)))) as Hsame.
  { intros Hi. rewrite bool_decide_false, orb_false_r by done. unfold controls_showing, control_report. do 4 f_equal. apply button_bytes_ext.
    intros i _. by rewrite held_other. }
  destruct (Z.ltb_spec c (c_len K)) as [Hl|Hl]; [|apply Hsame; intros Hi; specialize (Hr c Hi); lia].
  destruct (usage_total c ltac:(lia)) as [u Eu]. rewrite Eu. cbn [mbind res_bind].
  assert (zlen (replicate (Z.to_nat (c_len K)) 0xFFFFFFFF) = c_len K) as Hz by (rewrite zlen_replicate; lia).
  destruct (decide (c ∈ c_codes K)) as [Hi|Hi].
  - destruct (Hr c Hi) as [_ Hu]. unfold consumer_code in Hu. rewrite Eu in Hu. rewrite Hu. cbn [pControlMap controls_showing].
    rewrite bool_decide_true, orb_true_r by done. pose proof (co_nodup K OK) as Hn.
    apply list_elem_of_split in Hi as (l1 & l2 & El). assert (c ∉ l2) by (rewrite El in Hn; apply NoDup_app in Hn as (_ & _ & Hn); by apply NoDup_cons in Hn as [? _]).
    rewrite El in *. rewrite (zget_ok _ _ (0 + zlen l1)) by (apply number_hit; [done|lia]). cbn [mbind res_bind uNumOfControls controls_showing].
    assert (zlen (l1 ++ c :: l2) = zlen l1 + 1 + zlen l2) as Hlen by (rewrite zlen_app, zlen_cons; lia). pose proof (zlen_nonneg l1). pose proof (zlen_nonneg l2).
    rewrite El. replace (0 + zlen l1 <? zlen (l1 ++ c :: l2)) with true by lia. cbn [sCommon cReport controls_showing].
    assert (put_button (control_report (c_id K) K held) HID_REPORT_DATA_OFFSET (0 + zlen l1) v =
      Ok (control_report (c_id K) K (set_button held c (truth v)))) as ->; [|done].
    unfold control_report. rewrite El.
    pose proof (put_button_ok (zlen (l1 ++ c :: l2)) (held_bits (l1 ++ c :: l2) held) (0 + zlen l1) v [c_id K] [] HID_REPORT_DATA_OFFSET ltac:(lia) eq_refl) as P.
    rewrite !app_nil_r in P. cbn [app] in P |- *. rewrite P.
    do 2 f_equal. apply button_bytes_ext. intros i Hi. symmetry. apply held_set; [exact Hn|lia].
  - destruct (consumer_usage u) eqn:Eus; [|by apply Hsame]. cbn [pControlMap controls_showing].
    rewrite (zget_ok _ _ 0xFFFFFFFF) by (rewrite number_miss by done; apply zlookup_replicate; lia). cbn [mbind res_bind uNumOfControls controls_showing].
    replace (0xFFFFFFFF <? zlen (c_codes K)) with false by lia. by apply Hsame.
Qed.

(** ** The probe *)

Lemma consumer_emits id codes : zlen codes <= 4096 ->
  emits id HID_USAGE_PAGE_CONSUMER (ditems [(HID_TAG_LOGICAL_MINIMUM, 0x00); (HID_TAG_LOGICAL_MAXIMUM, 0x01); (HID_TAG_REPORT_SIZE, 0x01)] ++
      usage_items (consumer_usage_of <$> codes) ++ ditems (consumer_tail_items (zlen codes)) ++ [EndCollection])
    (consumer_fields id codes) HID_USAGE_PAGE_CONSUMER.
Proof.
  intros Hz h Hi Hp Hu. pose proof (zlen_nonneg codes). rewrite !hid_run_app, usage_items_run. unfold consumer_fields, consumer_tail_items. cbv zeta. rewrite s32_small by lia.
  destruct h as [hp hs hc hi hm hu hf]. cbn in Hi, Hp, Hu. subst. destruct (truth _); cbn; rewrite <- ?app_assoc; done.
Qed.

Lemma consumer_tail_ok n : 0 <= n <= 4096 -> Forall item_ok (consumer_tail_items n) /\ zlen (consumer_tail_items n) <= 5.
Proof.
  intros Hn. unfold consumer_tail_items. rewrite s32_small by lia. pose proof (Z.mod_pos_bound n 8 ltac:(lia)). split.
  - apply Forall_app. split; [items_ok|]. destruct (truth _); items_ok.
  - by destruct (truth _).
Qed.

Lemma consumer_head_ok id : 0 <= id < 256 -> Forall item_ok (consumer_head_items id).
Proof. intros H. items_ok. Qed.

Lemma consumer_usage_range c : 0 <= consumer_usage_of c < 65536.
Proof.
  unfold consumer_usage_of. destruct (HIDKeyboardEventCodeToUsageCode c); [|lia]. unfold KEY_USAGE_MASK. change 0x0000FFFF with (2 ^ 16 - 1).
  rewrite land_pow2_mod by lia. by apply Z.mod_pos_bound.
Qed.

Section probe.
Context {E : Type} (I : input_env E).
Implicit Types p : probing E.

(** After the first pass over the codes [done]. *)
Definition consumer_found (acc : Z * bool) (done : list Z) (ds : list ditem) (bs : list Z) : Prop :=
  (ds = [] /\ bs = []) /\ 0 <= acc.1 < 1024 /\ acc.2 = existsb consumer_code done /\ forall c, c ∈ done -> consumer_code c = true -> c <= acc.1.

Lemma consumer_find_ok code acc done ds bs p : 0 <= code < 1024 -> consumer_found acc done ds bs -> room 0 p ->
  adds (consumer_find (E := E) code acc) 0 (fun acc' ds' bs' => consumer_found acc' (done ++ [code]) (ds ++ ds') (bs ++ bs')) p.
Proof.
  intros Hc ((-> & ->) & Hm & Hg & Hmax) R. unfold consumer_find. destruct (usage_total code ltac:(lia)) as [u Eu].
  eapply (adds_bind _ _ _ 0 0); [exact R|lia|lia|apply adds_pure; [exact R|exact Eu]|]. cbv beta. intros ? ? ? p' (-> & -> & ->) _ R'.
  apply adds_ret; [done|]. split; [done|]. rewrite existsb_app. cbn [existsb]. assert (consumer_code code = consumer_usage u) as Ec by (unfold consumer_code; by rewrite Eu).
  rewrite Ec, orb_false_r. destruct (consumer_usage u) eqn:Eus; cbn [fst snd].
  - split; [lia|]. split; [by rewrite orb_true_r|]. intros c [Hi|Hi%list_elem_of_singleton]%elem_of_app Hcc; [specialize (Hmax c Hi Hcc)|]; lia.
  - split; [lia|]. split; [by rewrite orb_false_r|]. intros c [Hi|Hi%list_elem_of_singleton]%elem_of_app Hcc; [by apply Hmax|]. subst. congruence.
Qed.

(** After the second pass. *)
Definition consumer_taken (id len : Z) (s : INPUT_CLASS_CONSUMER) (done : list Z) (ds : list ditem) (bs : list Z) : Prop :=
  s = mk_consumer (mk_common [] 0 id false) (zlen done) (number_codes 0 done (replicate (Z.to_nat len) 0xFFFFFFFF)) len /\
  ds = usage_items (consumer_usage_of <$> done) /\ bs = [].

Lemma consumer_take_ok id len code s done ds bs p : consumer_code code = true -> 0 <= code < len -> consumer_taken id len s done ds bs -> room 5 p ->
  adds (consumer_take I code s) 5 (fun s' ds' bs' => consumer_taken id len s' (done ++ [code]) (ds ++ ds') (bs ++ bs')) p.
Proof.
  intros Hcc Hc (-> & -> & ->) R. unfold consumer_take. destruct (usage_total code ltac:(lia)) as [u Eu]. pose proof (consumer_usage_range code) as Hu.
  assert (Z.land u KEY_USAGE_MASK = consumer_usage_of code) as Eus by (unfold consumer_usage_of; by rewrite Eu).
  eapply (adds_bind _ _ _ 0 5); [exact R|lia|lia|apply adds_pure; [eapply room_le; [exact R|lia]|exact Eu]|]. cbv beta. intros ? ? ? p1 (-> & -> & ->) _ R1. rewrite Eus.
  assert (Forall item_ok [(HID_TAG_USAGE, consumer_usage_of code)]) as Hio by items_ok. pose proof (length_encode_items _ Hio) as L. change (zlen [_]) with 1 in L.
  eapply (adds_bind _ _ _ 5 0); [exact R1|lia|lia|apply adds_describe; [exact R1|done|lia|done]|]. cbv beta. intros [] ? ? p2 (-> & ->) _ R2.
  cbn [pControlMap uNumOfControls].
  eapply (adds_bind _ _ _ 0 0); [exact R2|lia|lia|apply adds_pure; [exact R2|apply zset_ok; rewrite zlen_number, zlen_replicate; lia]|].
  cbv beta. intros ? ? ? p3 (-> & -> & ->) _ R3. apply adds_ret; [done|]. unfold consumer_taken. rewrite number_snoc, zlen_app, fmap_app, !app_nil_r. cbn [app].
  split_and!; [done| |done]. unfold usage_items. by rewrite fmap_app.
Qed.

Definition consumer_codes (key : VIRTIO_INPUT_CFG_DATA) : list Z := List.filter consumer_code (codes_of key).

(** The registered class, with no control held. *)
Definition consumer_built (id : Z) (key : VIRTIO_INPUT_CFG_DATA) (s : INPUT_CLASS_CONSUMER) (fs : list field) : Prop :=
  exists len, let K := mk_controls id len (consumer_codes key) in
    controls_ok K /\ s = controls_showing K 0 false (fun _ => false) /\ fs = consumer_fields id (consumer_codes key).

Lemma control_zero K : replicate (Z.to_nat (control_size K)) 0 = control_report 0 K (fun _ => false).
Proof.
  pose proof (zlen_nonneg (c_codes K)). unfold control_report, control_size. rewrite (button_bytes_ext _ _ (fun _ => false)), zero_buttons.
  - change (0 :: replicate ?n 0) with (replicate (S n) 0). f_equal. assert (0 <= (zlen (c_codes K) + 7) / 8) by (apply Z.div_pos; lia). lia.
  - lia.
  - intros i _. unfold held_bits. by destruct (zlookup _ _).
Qed.

(** From the descriptor head to the registration. *)
Lemma consumer_describe_ok id n len key p : 0 <= id < 256 -> cfg_ok key -> room 6000 p -> (forall c, c ∈ codes_of key -> consumer_code c = true -> c < len) ->
  adds (describe I (consumer_head_items id) ;;
    '(pKeys, s) ← scan consumer_code (consumer_take I) (cfg_size key) key (mk_consumer (mk_common [] 0 id false) 0 (replicate (Z.to_nat len) 0xFFFFFFFF) len);
    describe I (consumer_tail_items (uNumOfControls s)) ;; describe1 I HID_TAG_END_COLLECTION ;;
    let cb := HID_REPORT_DATA_OFFSET + (uNumOfControls s + 7) / 8 in
    '(status, report) ← register I n cb;
    mret (status, if NT_SUCCESS status then Some (s <| sCommon := (sCommon s) <| cReport := report |> <| cbHidReportSize := cb |> |>) else None, pKeys)) 6000
    (fun r ds bs => bs = [] /\ cfg_like key r.2 /\ class_emits ds (consumer_fields id (consumer_codes key)) /\
      match r.1.2 with
      | None => NT_SUCCESS r.1.1 = false
      | Some s => r.1.1 = STATUS_SUCCESS /\ n < MAX_INPUT_CLASS_COUNT /\ s = controls_showing (mk_controls id len (consumer_codes key)) 0 false (fun _ => false)
      end) p.
Proof.
  intros Hid Kk R Hlen. pose proof (length_encode_items _ (consumer_head_ok id Hid)) as L. change (zlen (consumer_head_items id)) with 7 in L.
  eapply (adds_bind _ _ _ 35 5900); [exact R|lia|lia|apply adds_describe; [eapply room_le; [exact R|lia]|by apply consumer_head_ok|lia|done]|]. cbv beta. intros [] ? ? p1 (-> & ->) _ R1.
  eapply (adds_bind _ _ _ (1024 * 5) 26); [exact R1|lia|lia| |].
  { apply (scan_in_ok consumer_code (consumer_take I) 5 (consumer_taken id len) (fun c => consumer_code c = true -> c < len)); [|lia|exact Kk|apply Kk| |done|eapply room_le; [exact R1|lia]].
    - intros code acc done ds bs q Hcc Hr Hl HR Hq. apply consumer_take_ok; [done| |done|done]. specialize (Hl Hcc). lia.
    - apply list.Forall_forall. intros c Hc. by apply Hlen. }
  cbv beta. intros [key' s] ds2 bs2 p2 (Hl & Hs & Hds & Hbs) _ R2. cbn [fst snd] in *. fold (codes_of key) (consumer_codes key) in Hs, Hds. subst s ds2 bs2. cbn [uNumOfControls].
  set (codes := consumer_codes key) in *. assert (0 <= zlen codes <= 1024) as Hz.
  { split; [apply zlen_nonneg|]. unfold codes, consumer_codes. pose proof (codes_few key Kk). pose proof (List.filter_length_le consumer_code (codes_of key)). unfold zlen in *. lia. }
  destruct (consumer_tail_ok (zlen codes) ltac:(lia)) as [Hio Hil]. pose proof (length_encode_items _ Hio) as L'.
  eapply (adds_bind _ _ _ 25 1); [exact R2|lia|lia|apply adds_describe; [eapply room_le; [exact R2|lia]|done|lia|lia]|]. cbv beta. intros [] ? ? p3 (-> & ->) _ R3.
  eapply (adds_bind _ _ _ 1 0); [exact R3|lia|lia|apply adds_end; [exact R3|lia]|]. cbv beta. intros [] ? ? p4 (-> & ->) _ R4. cbv zeta.
  set (K := mk_controls id len codes). change (HID_REPORT_DATA_OFFSET + (zlen codes + 7) / 8) with (control_size K).
  eapply (adds_bind _ _ _ 0 0); [exact R4|lia|lia|apply adds_register; [exact R4|unfold control_size; pose proof (Z.div_pos (zlen codes + 7) 8); cbn [c_codes K]; lia]|].
  cbv beta. intros [st report] ? ? p5 ((-> & ->) & Hr) _ R5. cbn [fst snd] in *. apply adds_ret; [done|]. cbn [fst snd]. split; [done|]. split; [done|]. split.
  - rewrite !app_nil_r. change (ditems (consumer_head_items id)) with
      (ditems [(HID_TAG_USAGE_PAGE, HID_USAGE_PAGE_CONSUMER); (HID_TAG_USAGE, HID_USAGE_CONSUMERCTRL); (HID_TAG_COLLECTION, HID_COLLECTION_APPLICATION); (HID_TAG_REPORT_ID, id)] ++
       ditems [(HID_TAG_LOGICAL_MINIMUM, 0x00); (HID_TAG_LOGICAL_MAXIMUM, 0x01); (HID_TAG_REPORT_SIZE, 0x01)]).
    rewrite <- app_assoc. eapply (class_emits_head id HID_USAGE_PAGE_CONSUMER); [intros h; by destruct h|]. apply consumer_emits. lia.
  - destruct (NT_SUCCESS st); [|done]. destruct (Hr eq_refl) as (-> & Hn & ->). split_and!; [done..|]. rewrite control_zero. done.
Qed.

Lemma HIDConsumerProbe_ok n key p : 0 <= n < 255 -> cfg_ok key -> map_quiet p -> droom 6000 p ->
  wp (HIDConsumerProbe I n key) (fun r p' => let '(st, s, key') := r in cfg_like key key' /\ probed (consumer_built (n + 1) key) n st s p p') p.
Proof.
  intros Hn Kk Q D. pose proof (quiet_room p 6000 D Q ltac:(lia)) as R. unfold HIDConsumerProbe.
  apply wp_bind. eapply wp_mono; [eapply (scan_ok (fun _ => true) consumer_find 0 consumer_found); [|lia|exact Kk|apply Kk| |eapply room_le; [exact R|lia]]|].
  { intros code acc done ds bs q _ Hc HR Hq. by apply consumer_find_ok. }
  { split_and!; try done. intros c Hc. by apply elem_of_nil in Hc. }
  cbv beta. intros [key0 [max got]] p1 (ds1 & bs1 & S1 & L1 & _ & (-> & ->) & Hm & Hg & Hmax). cbn [fst snd] in *. rewrite filter_true in Hg, Hmax. fold (codes_of key) in Hg, Hmax.
  pose proof (step_room p p1 [] [] 6000 0 R S1 ltac:(done) ltac:(lia)) as R1.
  destruct got; cbn [negb]; [|apply wp_ret; split; [by split|]; intros _; split; [exact (step_dstep _ _ _ _ S1)|by eapply quiet_step]].
  apply wp_bind. eapply wp_mono; [apply (adds_alloc I sizeof_INPUT_CLASS_CONSUMER 6000 p1); exact R1|]. cbv beta. intros ok p2 (ds2 & bs2 & S2 & L2 & -> & ->).
  pose proof (step_room p1 p2 [] [] 6000 0 R1 S2 ltac:(done) ltac:(lia)) as R2. destruct ok; cbn [negb]; [|apply wp_ret; split; [by split|done]].
  apply wp_bind. eapply wp_mono; [apply (adds_alloc I ((max + 1) * 4) 6000 p2); exact R2|]. cbv beta. intros ok p3 (ds3 & bs3 & S3 & L3 & -> & ->).
  pose proof (step_room p2 p3 [] [] 6000 0 R2 S3 ltac:(done) ltac:(lia)) as R3. destruct ok; cbn [negb]; [|apply wp_ret; split; [by split|done]]. rewrite u8_small by lia.
  assert (forall c, c ∈ codes_of key -> consumer_code c = true -> c < max + 1) as Hlen by (intros c Hc Hcc; specialize (Hmax c Hc Hcc); lia).
  eapply wp_mono; [apply (consumer_describe_ok (n + 1) n (max + 1) key p3 ltac:(lia) Kk R3 Hlen)|]. cbv beta.
  intros [[st s] key'] p4 (ds4 & bs4 & S4 & C4 & -> & Hl & He & Hs). cbn [fst snd] in *. split; [exact Hl|].
  destruct s as [s|]; [|cbn; by rewrite Hs]. destruct Hs as (-> & Hmx & ->). split; [done|]. split; [done|].
  split; [eapply quiet_step; [exact S4|]; eapply quiet_step; [exact S3|]; eapply quiet_step; [exact S2|]; by eapply quiet_step|].
  pose proof (step_size _ _ _ _ _ S1 L1). pose proof (step_size _ _ _ _ _ S2 L2). pose proof (step_size _ _ _ _ _ S3 L3). pose proof (step_size _ _ _ _ _ S4 C4). split; [lia|].
  exists ds4, (consumer_fields (n + 1) (consumer_codes key)).
  split; [exact (dstep_trans _ _ _ [] _ (dstep_trans _ _ _ [] [] (dstep_trans _ _ _ [] [] (step_dstep _ _ _ _ S1) (step_dstep _ _ _ _ S2)) (step_dstep _ _ _ _ S3)) (step_dstep _ _ _ _ S4))|]. split; [exact He|].
  exists (max + 1). split_and!; [|done..]. pose proof (codes_range key Kk) as Hr. constructor; cbn [c_codes c_len].
  - symmetry in Hg. apply List.existsb_exists in Hg as (c & Hc & Hcc). unfold consumer_codes. split.
    + assert (c ∈ List.filter consumer_code (codes_of key)) as Hin by (apply list_elem_of_In, List.filter_In; done). destruct (List.filter _ _); [by apply elem_of_nil in Hin|]. rewrite zlen_cons. pose proof (zlen_nonneg l). lia.
    + pose proof (codes_few key Kk). pose proof (List.filter_length_le consumer_code (codes_of key)). unfold zlen in *. lia.
  - rewrite list.Forall_forall in *. intros c Hc. apply list_elem_of_In, List.filter_In in Hc as [Hc%list_elem_of_In Hcc]. specialize (Hr c Hc). specialize (Hlen c Hc Hcc). cbn beta in Hr. split; [lia|done].
  - apply NoDup_ListNoDup, List.NoDup_filter, NoDup_ListNoDup. by apply codes_nodup.
Qed.
End probe.
