(* ===== verification/VioInputTabletSpec.v ===== *)
(** * virtio-input: tablets and touch screens

    The probe of a tablet declares eleven bytes for each contact, the contact count and, for a
    device with timestamps, the scan time; no event makes the class leave its report or its
    contact buffers. *)

From Stdlib Require Import ZArith Lia.
From stdpp Require Import base list numbers option sets.
From S2P Require Import Prelude.
From S2P Require Import Effects.
From S2P Require Import VioInput.
From S2P Require Import VioInputSpec.
From S2P Require Import VioInputProbe.
From S2P Require Import VioInputClasses.
From S2P Require Import VioInputHidSpec.
From S2P Require Import VioInputMouseSpec.
From S2P Require Import VioInputMouseEvents.

(** ** Writing within a buffer *)

(** [r'] has the length of [r], and its first byte. *)
Definition like (r r' : list Z) : Prop := zlen r' = zlen r /\ zlookup r' 0 = zlookup r 0.

Lemma like_trans r r1 r2 : like r r1 -> like r1 r2 -> like r r2.
Proof. intros [] []. split; congruence. Qed.

Lemma zset_in (r : list Z) off x : 0 < off < zlen r -> exists r', zset r off x = Ok r' /\ like r r'.
Proof. intros H. rewrite zset_ok by lia. eexists. split; [done|]. split; [apply zlen_zinsert|]. by rewrite zlookup_zinsert_ne by lia. Qed.

Lemma put_bytes_in bs : forall r off, 0 < off -> off + zlen bs <= zlen r -> exists r', put_bytes r off bs = Ok r' /\ like r r'.
Proof.
  induction bs as [|b bs IH]; intros r off H0 Hl; cbn [put_bytes]; [by exists r|]. rewrite zlen_cons in Hl. pose proof (zlen_nonneg bs).
  destruct (zset_in r off b) as (r1 & -> & L1); [lia|]. cbn [mbind res_bind]. destruct (IH r1 (off + 1)) as (r' & -> & Hr); [lia|destruct L1; lia|].
  exists r'. split; [done|by eapply like_trans].
Qed.

Lemma put_bytes_len bs : forall r off, 0 <= off -> off + zlen bs <= zlen r -> exists r', put_bytes r off bs = Ok r' /\ zlen r' = zlen r.
Proof.
  induction bs as [|b bs IH]; intros r off H0 Hl; cbn [put_bytes]; [by exists r|]. rewrite zlen_cons in Hl. pose proof (zlen_nonneg bs).
  rewrite zset_ok by lia. cbn [mbind res_bind]. destruct (IH (zinsert off b r) (off + 1)) as (r' & -> & Hr); [lia|rewrite zlen_zinsert; lia|].
  exists r'. by rewrite Hr, zlen_zinsert.
Qed.

Lemma put_bits_len r off mask on : 0 <= off < zlen r -> exists r', put_bits r off mask on = Ok r' /\ zlen r' = zlen r /\ (0 < off -> like r r').
Proof.
  intros H. unfold put_bits. destruct (zlookup_in_range r off H) as [b Eb]. rewrite (zget_ok _ _ _ Eb). cbn [mbind res_bind].
  rewrite zset_ok by lia. eexists. split; [done|]. split; [apply zlen_zinsert|]. intros H0. split; [apply zlen_zinsert|]. by rewrite zlookup_zinsert_ne by lia.
Qed.

(** ** The class *)

Definition tablet_size (max : Z) (ts : bool) : Z := 1 + sizeof_SLOT * max + 1 + (if ts then 4 else 0).

(** What never changes of a class. *)
Definition tablet_const (t : INPUT_CLASS_TABLET) : Z * Z * bool * bool * bool * Z :=
  (cReportID (tCommon t), cbHidReportSize (tCommon t), bMT t, bIdentifiableMT t, bMscTs t, uMaxContacts t).

Record tablet_ok (t : INPUT_CLASS_TABLET) : Prop := {
  to_max : 1 <= uMaxContacts t <= 250;
  to_size : cbHidReportSize (tCommon t) = tablet_size (uMaxContacts t) (bMscTs t);
  to_report : zlen (tReport t) = tablet_size (uMaxContacts t) (bMscTs t);
  to_slot : 0 <= uLastMTSlot t < uMaxContacts t;
  to_ident : bIdentifiableMT t = true -> bMT t = true;
  to_bufs : bMT t = true -> zlen (pContactStat t) = sizeof_SLOT * uMaxContacts t /\ zlen (pTrackingID t) = uMaxContacts t }.

(** [r] succeeds with a class that is well formed and the same but for its buffers. *)
Definition keeps (t : INPUT_CLASS_TABLET) (r : res INPUT_CLASS_TABLET) : Prop :=
  exists t', r = Ok t' /\ tablet_ok t' /\ tablet_const t' = tablet_const t /\ zlookup (tReport t') 0 = zlookup (tReport t) 0.

Lemma slot_ret t : tablet_ok t -> keeps t (Ok t).
Proof. by exists t. Qed.

Lemma slot_bind t r f : keeps t r -> (forall t', tablet_ok t' -> tablet_const t' = tablet_const t -> keeps t' (f t')) -> keeps t (r ≫= f).
Proof. intros (t' & -> & O & C) Hf. destruct (Hf t' O (proj1 C)) as (t2 & E & O2 & C2 & H2). destruct C as [C H]. exists t2. cbn [mbind res_bind]. split_and!; [done|done|congruence|congruence]. Qed.

Lemma report_ok t r : tablet_ok t -> zlen r = zlen (tReport t) -> tablet_ok (set_report r t).
Proof. intros [H1 H2 H3 H4 H5 H6] Hr. constructor; try done. unfold tReport, set_report in *. cbn. by rewrite Hr. Qed.

Lemma stat_ok t s : tablet_ok t -> zlen s = zlen (pContactStat t) -> tablet_ok (t <| pContactStat := s |>).
Proof. intros [H1 H2 H3 H4 H5 H6] Hr. constructor; try done. intros Hm. destruct (H6 Hm). cbn. by rewrite Hr. Qed.

Lemma ids_ok t s : tablet_ok t -> zlen s = zlen (pTrackingID t) -> tablet_ok (t <| pTrackingID := s |>).
Proof. intros [H1 H2 H3 H4 H5 H6] Hr. constructor; try done. intros Hm. destruct (H6 Hm). cbn. by rewrite Hr. Qed.

Lemma dirty_ok t : tablet_ok t -> tablet_ok (set_dirty t).
Proof. by intros [H1 H2 H3 H4 H5 H6]. Qed.

(** The slots that a pointer may be to. *)
Definition slot_in (t : INPUT_CLASS_TABLET) (p : slot_ptr) : Prop :=
  match p with StatSlot i => bMT t = true /\ 0 <= i < uMaxContacts t | ReportSlot i => 0 <= i < uMaxContacts t end.

Lemma slot_const t t' p : tablet_const t' = tablet_const t -> slot_in t p -> slot_in t' p.
Proof. intros E. unfold tablet_const in E. injection E as _ _ E2 _ _ E3. destruct p; unfold slot_in; by rewrite ?E2, ?E3. Qed.

Lemma slot_write_keeps t p field bs : tablet_ok t -> slot_in t p -> 0 <= field -> field + zlen bs <= sizeof_SLOT -> keeps t (slot_write t p field bs).
Proof.
  intros O Hp Hf Hl. pose proof (to_max t O). pose proof (to_report t O) as Hr. unfold tablet_size, sizeof_SLOT in *. destruct p as [i|i]; cbn [slot_write slot_in] in *.
  - destruct Hp as [Hm Hp]. destruct (to_bufs t O Hm) as [Hs _]. unfold sizeof_SLOT in Hs.
    destruct (put_bytes_len bs (pContactStat t) (sizeof_SLOT * i + field)) as (s & -> & Hs'); [unfold sizeof_SLOT; lia|unfold sizeof_SLOT; lia|].
    eexists. split; [done|]. split; [by apply stat_ok|done].
  - destruct (put_bytes_in bs (tReport t) (report_slot i + field)) as (s & -> & Hs');
      [unfold report_slot, HID_REPORT_DATA_OFFSET, sizeof_SLOT; lia|unfold report_slot, HID_REPORT_DATA_OFFSET, sizeof_SLOT; destruct (bMscTs t); lia|].
    eexists. split; [done|]. split; [by apply report_ok, Hs'|]. split; [done|apply Hs'].
Qed.

Lemma keeps_flags t p mask on : tablet_ok t -> slot_in t p -> keeps t (slot_flags t p mask on).
Proof.
  intros O Hp. pose proof (to_max t O). pose proof (to_report t O) as Hr. unfold tablet_size, sizeof_SLOT in *. destruct p as [i|i]; cbn [slot_flags slot_in] in *.
  - destruct Hp as [Hm Hp]. destruct (to_bufs t O Hm) as [Hs _]. unfold sizeof_SLOT in Hs.
    destruct (put_bits_len (pContactStat t) (sizeof_SLOT * i + slot_uFlags) mask on) as (s & -> & Hs' & _); [unfold sizeof_SLOT, slot_uFlags; lia|].
    eexists. split; [done|]. split; [by apply stat_ok|done].
  - destruct (put_bits_len (tReport t) (report_slot i + slot_uFlags) mask on) as (s & -> & _ & Hs');
      [unfold report_slot, HID_REPORT_DATA_OFFSET, sizeof_SLOT, slot_uFlags; destruct (bMscTs t); lia|].
    assert (like (tReport t) s) as L by (apply Hs'; unfold report_slot, HID_REPORT_DATA_OFFSET, sizeof_SLOT, slot_uFlags; lia).
    eexists. split; [done|]. split; [by apply report_ok, L|]. split; [done|apply L].
Qed.

Lemma count_in t : tablet_ok t -> 0 < count_offset t < zlen (tReport t).
Proof.
  intros O. pose proof (to_max t O). rewrite (to_report t O). unfold count_offset, report_slot, tablet_size, HID_REPORT_DATA_OFFSET, sizeof_SLOT. destruct (bMscTs t); lia.
Qed.

Lemma keeps_count t x : tablet_ok t -> exists r, zset (tReport t) (count_offset t) x = Ok r /\ tablet_ok (set_report r t) /\ tablet_const (set_report r t) = tablet_const t /\ zlookup r 0 = zlookup (tReport t) 0.
Proof. intros O. destruct (zset_in (tReport t) (count_offset t) x (count_in t O)) as (r & E & Hr). exists r. split; [done|]. split; [by apply report_ok, Hr|]. split; [done|apply Hr]. Qed.

(** ** Events *)

Lemma tablet_mt_ok t code value : tablet_ok t -> bMT t = true -> 0 <= value -> keeps t (tablet_mt t code value).
Proof.
  intros O Hm Hv. pose proof (to_slot t O) as Hs. unfold tablet_mt. set (p := if bIdentifiableMT t then StatSlot (uLastMTSlot t) else ReportSlot (uLastMTSlot t)).
  assert (slot_in t p) as Hp by (unfold p; destruct (bIdentifiableMT t); by split_and?).
  assert (forall v, zlen (le_bytes 2 v) = 2) as L2 by (intros v; unfold zlen; by rewrite length_le_bytes).
  destruct (code =? ABS_MT_SLOT).
  { destruct (bIdentifiableMT t) eqn:Ei; [|by apply slot_ret]. eexists. split; [done|]. split; [|done]. destruct O as [H1 H2 H3 H4 H5 H6]. constructor; try done.
    change (0 <= (if value <? uMaxContacts t then value else 0) < uMaxContacts t). destruct (Z.ltb_spec value (uMaxContacts t)); lia. }
  destruct (code =? ABS_MT_TOUCH_MAJOR); [apply slot_write_keeps; [done|done|done|rewrite L2; done]|].
  destruct (code =? ABS_MT_TOUCH_MINOR); [apply slot_write_keeps; [done|done|done|rewrite L2; done]|].
  destruct (_ || _).
  { eapply slot_bind; [apply slot_write_keeps; [done|done|by destruct (code =? _)|rewrite L2; by destruct (code =? _)]|]. intros t' O' C'.
    destruct (bMT t' && _); [|by apply slot_ret]. apply keeps_flags; [done|by eapply slot_const]. }
  destruct (code =? ABS_MT_TRACKING_ID); [|by apply slot_ret]. destruct (to_bufs t O Hm) as [_ Hz].
  destruct (zlookup_in_range (pTrackingID t) (uLastMTSlot t) ltac:(lia)) as [id Eid]. rewrite (zget_ok _ _ _ Eid). cbn [mbind res_bind].
  assert (forall x, tablet_ok (t <| pTrackingID := zinsert (uLastMTSlot t) x (pTrackingID t) |>)) as O' by (intros x; apply ids_ok; [done|apply zlen_zinsert]).
  destruct (s32 value <? 0).
  - destruct (keeps_flags _ p 0x01 false (O' (id.1, true)) Hp) as (t' & E & O2 & C2 & H2). by exists t'.
  - eapply slot_bind.
    + destruct (slot_write_keeps _ p slot_uContactID (le_bytes 2 value) (O' (s32 value, id.2)) Hp) as (t' & E & O2 & C2 & H2); [done|rewrite L2; done|]. exists t'. split; [exact E|by split].
    + intros t' O2 C2. apply keeps_flags; [done|by eapply slot_const].
Qed.

Lemma lift_all_ok n : forall i t, tablet_ok t -> 0 <= i -> i + Z.of_nat n <= uMaxContacts t -> keeps t (lift_all n i t).
Proof.
  induction n as [|n IH]; intros i t O Hi Hn; cbn [lift_all]; [by apply slot_ret|].
  eapply slot_bind; [apply keeps_flags; [done|cbn; lia]|]. intros t' O' C'. apply IH; [done|lia|]. injection C' as _ _ _ _ _ ->. lia.
Qed.

Lemma tablet_syn_ok t : tablet_ok t -> keeps t (tablet_syn_report t) /\ keeps t (tablet_syn_mt t).
Proof.
  intros O. pose proof (to_max t O). pose proof (to_slot t O). unfold tablet_syn_report, tablet_syn_mt. split.
  - destruct (bIdentifiableMT t) eqn:Ei.
    + destruct (to_bufs t O (to_ident t O Ei)) as [_ Hz]. rewrite Hz. replace (uMaxContacts t <? uMaxContacts t) with false by lia.
      destruct (keeps_count t 0 O) as (r & -> & O' & C' & H'). cbn [mbind res_bind]. eexists. split; [done|]. split; [|by split].
      set (ids := _ ++ _). pose proof (ids_ok _ ids O') as O2. apply O2. unfold ids, end_pending, zlen. rewrite length_app, length_fmap, <- length_app, take_drop. done.
    + destruct (bMT t) eqn:Em; [|by apply slot_ret].
      assert (tablet_ok (t <| uLastMTSlot := 0 |>)) as O' by (destruct O; constructor; try done; change (0 <= 0 < uMaxContacts t); lia).
      destruct (lift_all_ok (Z.to_nat (uMaxContacts t)) 0 _ O') as (t' & E & O2 & C2 & H2); [lia|change (0 + Z.of_nat (Z.to_nat (uMaxContacts t)) <= uMaxContacts t); lia|].
      by exists t'.
  - destruct (bMT t && _); [|by apply slot_ret]. cbv zeta. set (last := u32 (uLastMTSlot t + 1)).
    assert (exists r, (if last <=? uMaxContacts t then b ← zget (tReport t) (count_offset t); zset (tReport t) (count_offset t) (u8 (b + 1)) else Ok (tReport t)) = Ok r /\ like (tReport t) r) as (r & -> & Hr).
    { destruct (last <=? _); [|by eexists]. pose proof (count_in t O). destruct (zlookup_in_range (tReport t) (count_offset t) ltac:(lia)) as [b Eb]. rewrite (zget_ok _ _ _ Eb). cbn [mbind res_bind]. by apply zset_in. }
    cbn [mbind res_bind]. eexists. split; [done|]. split; [|split; [done|apply Hr]]. apply dirty_ok, report_ok; [|apply Hr]. destruct O as [H1 H2 H3 H4 H5 H6]. constructor; try done.
    set (x := u32 (last + 1)). change (0 <= (if x >=? uMaxContacts t then 0 else x) < uMaxContacts t). pose proof (u32_range (last + 1)) as Hu. fold x in Hu.
    destruct (Z.geb_spec x (uMaxContacts t)); lia.
Qed.

(** Every event is handled, and leaves the report with its identifier. *)
Lemma tablet_event_ok t ev : tablet_ok t -> event_ranges ev ->
  exists t', HIDTabletEventToReport t ev = Ok t' /\ tablet_ok t' /\ tablet_const t' = tablet_const t /\ zlookup (tReport t') 0 = Some (cReportID (tCommon t)).
Proof.
  intros O (Ht & Hc & Hv). destruct ev as [ty c v]. cbn [ev_type ev_code ev_value] in *. unfold HIDTabletEventToReport. cbn [ev_type ev_code ev_value].
  pose proof (count_in t O). unfold HID_REPORT_ID_OFFSET. rewrite zset_ok by lia. set (r := zinsert 0 _ _).
  assert (zlookup r 0 = Some (cReportID (tCommon t))) as Hr by (apply zlookup_zinsert_eq; lia).
  cbn [mbind res_bind]. pose proof (report_ok t r O (zlen_zinsert _ _ _)) as O1. set (t1 := set_report r t) in *.
  enough (forall x, keeps t1 x -> exists t', x = Ok t' /\ tablet_ok t' /\ tablet_const t' = tablet_const t /\ zlookup (tReport t') 0 = Some (cReportID (tCommon t))) as Hk.
  2: { intros x (t' & E & O' & C' & H'). exists t'. split_and!; [done|done|done|]. rewrite H'. exact Hr. }
  apply Hk. clear Hk.
  assert (slot_in t1 (ReportSlot (uLastMTSlot t1))) as Hs by exact (to_slot t1 O1).
  assert (forall v, zlen (le_bytes 2 v) = 2) as L2 by (intros v'; unfold zlen; by rewrite length_le_bytes).
  assert (forall t', tablet_ok t' -> tablet_const t' = tablet_const t1 -> keeps t' (Ok (set_dirty t'))) as Hd.
  { intros t' O' C'. exists (set_dirty t'). split; [done|]. split; [by apply dirty_ok|done]. }
  destruct (ty =? EV_ABS).
  { destruct (bMT t1) eqn:Em; [apply tablet_mt_ok; [done|done|lia]|]. unfold tablet_st. destruct (_ || _); [|by apply slot_ret].
    eapply slot_bind; [apply slot_write_keeps; [done|done|by destruct (c =? _)|rewrite L2; by destruct (c =? _)]|done]. }
  destruct (ty =? EV_KEY).
  { unfold tablet_key. cbv zeta. destruct (truth _); [|by apply slot_ret]. eapply slot_bind; [by apply keeps_flags|done]. }
  destruct (ty =? EV_MSC).
  { destruct (_ && bMscTs t1) eqn:Ets; [|by apply slot_ret]. apply andb_true_iff in Ets as [_ Ets].
    destruct (put_bytes_in (le_bytes 4 (v / 100)) (tReport t1) (count_offset t1 + 1)) as (r' & -> & Hr').
    - pose proof (count_in t1 O1). lia.
    - rewrite (to_report t1 O1), Ets. unfold zlen. rewrite length_le_bytes. unfold count_offset, report_slot, tablet_size, HID_REPORT_DATA_OFFSET. lia.
    - cbn [mbind res_bind]. eexists. split; [done|]. split; [by apply report_ok, Hr'|]. split; [done|apply Hr']. }
  destruct (ty =? EV_SYN); [|by apply slot_ret]. destruct (tablet_syn_ok t1 O1) as [H1 H2].
  destruct (c =? SYN_REPORT); [exact H1|]. destruct (c =? SYN_MT_REPORT); [exact H2|by apply slot_ret].
Qed.

(** No contact is tracked. *)
Definition idle (t : INPUT_CLASS_TABLET) : Prop := Forall (fun id => id.1 = -1) (pTrackingID t).

Lemma collect_ok n : forall i k t, tablet_ok t -> bMT t = true -> 0 <= i -> 0 <= k <= i -> i + Z.of_nat n <= uMaxContacts t ->
  exists k' t', collect n i k t = Ok (k', t') /\ 0 <= k' <= i + Z.of_nat n /\ tablet_ok t' /\ tablet_const t' = tablet_const t /\
    zlookup (tReport t') 0 = zlookup (tReport t) 0 /\ pTrackingID t' = pTrackingID t /\ cDirty (tCommon t') = cDirty (tCommon t) /\ (idle t -> k' = k).
Proof.
  induction n as [|n IH]; intros i k t O Hm Hi Hk Hn; cbn [collect].
  - exists k, t. split; [done|]. split; [lia|done].
  - pose proof (to_max t O). destruct (to_bufs t O Hm) as [Hs Hz]. destruct (zlookup_in_range (pTrackingID t) i ltac:(lia)) as [id Eid]. rewrite (zget_ok _ _ _ Eid). cbn [mbind res_bind].
    destruct (Z.eqb_spec id.1 (-1)) as [Hneg|Hneg]; cbn [negb].
    + destruct (IH (i + 1) k t O Hm) as (k' & t' & E & Hk' & O'); [lia..|]. exists k', t'. split; [exact E|]. split; [lia|done].
    + rewrite Hs. unfold sizeof_SLOT in *. destruct (Z.gtb_spec (11 * i + 11) (11 * uMaxContacts t)); [lia|].
      set (bytes := take _ _). assert (zlen bytes = 11) as Hb by (unfold bytes, zlen in *; rewrite length_take, length_drop; lia).
      destruct (put_bytes_in bytes (tReport t) (report_slot k)) as (r & -> & Hr).
      * unfold report_slot, HID_REPORT_DATA_OFFSET, sizeof_SLOT. lia.
      * rewrite Hb, (to_report t O). unfold report_slot, HID_REPORT_DATA_OFFSET, tablet_size, sizeof_SLOT. destruct (bMscTs t); lia.
      * cbn [mbind res_bind]. rewrite u8_small by lia.
        destruct (IH (i + 1) (k + 1) (set_report r t)) as (k' & t' & E & Hk' & O' & C' & H' & T' & D' & _); [by apply report_ok, Hr|done|lia|lia|cbn; lia|].
        exists k', t'. split; [exact E|]. split; [lia|]. split; [done|]. split; [done|]. split; [rewrite H'; apply Hr|]. split; [done|]. split; [done|].
        intros Hi'. exfalso. apply Hneg. unfold idle in Hi'. exact (zlookup_Forall _ _ _ _ Hi' Eid).
Qed.

(** Before a report: the contacts are collected, and without one nothing is to be sent. *)
Lemma tablet_collect_ok t ev : tablet_ok t -> exists t', HIDTabletEventToCollect t ev = Ok t' /\ tablet_ok t' /\ tablet_const t' = tablet_const t /\
  zlookup (tReport t') 0 = zlookup (tReport t) 0 /\ (idle t -> idle t' /\ cDirty (tCommon t') = cDirty (tCommon t)).
Proof.
  intros O. unfold HIDTabletEventToCollect. destruct (_ && bIdentifiableMT t) eqn:Ei; [|by exists t]. apply andb_true_iff in Ei as [_ Ei].
  destruct (keeps_count t 0 O) as (r & -> & O1 & C1 & H1). cbn [mbind res_bind]. pose proof (to_max t O).
  destruct (collect_ok (Z.to_nat (uMaxContacts t)) 0 0 _ O1 (to_ident t O Ei)) as (k & t2 & -> & Hk & O2 & C2 & H2 & T2 & D2 & K2);
    [lia|lia|change (0 + Z.of_nat (Z.to_nat (uMaxContacts t)) <= uMaxContacts t); lia|].
  assert (idle t -> idle t2) as Hid by (unfold idle; by rewrite T2). cbn [mbind res_bind]. destruct (truth k) eqn:Et.
  - destruct (keeps_count t2 k O2) as (r' & -> & O3 & C3 & H3). cbn [mbind res_bind]. eexists. split; [done|]. split; [by apply dirty_ok|].
    split; [change (tablet_const (set_report r' t2) = tablet_const t); congruence|].
    split; [etrans; [exact H3|]; etrans; [exact H2|exact H1]|]. intros Hi. specialize (K2 Hi). by subst k.
  - exists t2. split; [done|]. split; [done|]. split; [congruence|]. split; [etrans; [exact H2|exact H1]|]. intros Hi. split; [by apply Hid|]. by rewrite D2.
Qed.

(** ** What the descriptor declares *)

Definition dig_field (id usage size : Z) : field := mk_field id HID_USAGE_PAGE_DIGITIZER [usage] size 1 HID_DATA_FLAG_VARIABLE.

(** One contact. *)
Definition contact_fields (id : Z) (mt : bool) : list field :=
  [dig_field id HID_USAGE_DIGITIZER_TIP_SWITCH 1] ++
  (if mt then [] else [dig_field id HID_USAGE_DIGITIZER_IN_RANGE 1; dig_field id HID_USAGE_DIGITIZER_BARREL_SWITCH 1]) ++
  [mk_field id HID_USAGE_PAGE_DIGITIZER [] 1 (if mt then 7 else 5) 3; dig_field id HID_USAGE_DIGITIZER_CONTACT_ID 16;
   mk_field id HID_USAGE_PAGE_GENERIC [HID_USAGE_GENERIC_X] 16 1 HID_DATA_FLAG_VARIABLE;
   mk_field id HID_USAGE_PAGE_GENERIC [HID_USAGE_GENERIC_Y] 16 1 HID_DATA_FLAG_VARIABLE;
   dig_field id HID_USAGE_DIGITIZER_CONTACT_WIDTH 16; dig_field id HID_USAGE_DIGITIZER_CONTACT_HEIGHT 16].

(** Without a contact the usage of the finger is left over for the count. *)
Definition count_fields (id : Z) (us : list Z) (ts : bool) : list field :=
  mk_field id HID_USAGE_PAGE_DIGITIZER (us ++ [HID_USAGE_DIGITIZER_CONTACT_COUNT]) 8 1 HID_DATA_FLAG_VARIABLE ::
  (if ts then [dig_field id HID_USAGE_DIGITIZER_SCAN_TIME 32] else []).

Definition contacts_fields (n : nat) (id : Z) (mt : bool) : list field := concat (replicate n (contact_fields id mt)).
Definition finger (mt : bool) : Z := if mt then HID_USAGE_DIGITIZER_FINGER else HID_USAGE_DIGITIZER_STYLUS.
Definition tablet_fields (id : Z) (mt : bool) (max : Z) (ts : bool) : list field :=
  contacts_fields (Z.to_nat max) id mt ++ count_fields id (if max =? 0 then [finger mt] else []) ts.

Lemma contact_bits id mt : report_bits id (contact_fields id mt) = 88.
Proof. unfold contact_fields, report_bits, dig_field. destruct mt; cbn; rewrite !Z.eqb_refl; done. Qed.

Lemma tablet_bits_ok id mt max ts : 0 <= max -> report_bits id (tablet_fields id mt max ts) = 8 * (tablet_size max ts - 1).
Proof.
  intros Hm. unfold tablet_fields. rewrite report_bits_app.
  assert (forall n, report_bits id (contacts_fields n id mt) = 88 * Z.of_nat n) as ->.
  { induction n as [|n IH]; [done|]. unfold contacts_fields in *. cbn [replicate concat]. rewrite report_bits_app, contact_bits, IH. lia. }
  assert (report_bits id (count_fields id (if max =? 0 then [finger mt] else []) ts) = 8 + (if ts then 32 else 0)) as ->.
  { unfold count_fields, report_bits, dig_field. destruct ts; cbn -[app]; rewrite ?Z.eqb_refl; done. }
  unfold tablet_size, sizeof_SLOT. destruct ts; lia.
Qed.

Lemma tablet_ids id mt max ts : Forall (fun f => f_id f = id) (tablet_fields id mt max ts).
Proof.
  unfold tablet_fields. apply Forall_app. split.
  - unfold contacts_fields. apply Forall_concat, Forall_replicate. destruct mt; by repeat constructor.
  - unfold count_fields. destruct ts; by repeat constructor.
Qed.

(** The items of one contact. *)
Definition contact_items (mt : bool) (max : Z) (x y w h : virtio_input_absinfo) : list (Z * Z) :=
  contact_head_items mt max ++ contact_axis_items HID_USAGE_GENERIC_X x ++ contact_axis_items HID_USAGE_GENERIC_Y y ++
  [(HID_TAG_USAGE_PAGE, HID_USAGE_PAGE_DIGITIZER)] ++ contact_size_items HID_USAGE_DIGITIZER_CONTACT_WIDTH w ++
  contact_size_items HID_USAGE_DIGITIZER_CONTACT_HEIGHT h.

Lemma contact_emits id mt max x y w h : emits id HID_USAGE_PAGE_DIGITIZER (ditems (contact_items mt max x y w h) ++ [EndCollection]) (contact_fields id mt) HID_USAGE_PAGE_DIGITIZER.
Proof. intros h' Hi Hp Hu. destruct h'. cbn in Hi, Hp, Hu. subst. destruct mt; cbn; rewrite <- ?app_assoc; done. Qed.

Lemma range_items_ok a : Forall item_ok (range_items a).
Proof.
  pose proof (s32_range (abs_min a)). pose proof (s32_range (abs_max a)). pose proof (s32_range (physical (abs_min a) (abs_res a))).
  pose proof (s32_range (physical (abs_max a) (abs_res a))). unfold range_items. items_ok.
Qed.

Lemma contact_parts_ok mt max a u : 0 <= u < 128 ->
  Forall item_ok (contact_head_items mt max) /\ Forall item_ok (contact_axis_items u a) /\ Forall item_ok (contact_size_items u a).
Proof.
  intros Hu. pose proof (s32_range (u32 (max - 1))). split_and!.
  - unfold contact_head_items. rewrite !Forall_app. split_and!; [items_ok| |]; destruct mt; items_ok.
  - unfold contact_axis_items. apply Forall_app. split; [apply range_items_ok|items_ok].
  - unfold contact_size_items. rewrite !Forall_app. split_and!; [items_ok|apply range_items_ok|items_ok].
Qed.

Section probe.
Context {E : Type} (I : input_env E) (C : config_env E).
Implicit Types p : probing E.

(** A [describe] of at most [n] items within a bind. *)
Lemma describe_then {A} items n (f : unit -> M (probing E) A) c Q p : Forall item_ok items -> zlen items <= n -> n <= 100 -> 0 <= c -> room (5 * n + c) p ->
  (forall p', step p p' (ditems items) [] -> room c p' -> adds (f tt) c (fun b ds bs => Q b (ditems items ++ ds) bs) p') ->
  adds (describe I items ≫= f) (5 * n + c) Q p.
Proof.
  intros Hi Hn Hs Hc R Hf. pose proof (length_encode_items _ Hi). pose proof (zlen_nonneg items).
  eapply (adds_bind _ _ _ (5 * n) c (fun _ ds bs => ds = ditems items /\ bs = [])); [exact R|lia|lia|apply adds_describe; [eapply room_le; [exact R|lia]|done|lia|lia]|].
  intros [] ds bs p' (-> & ->) S R'. by apply Hf.
Qed.

Lemma absinfo_then {A} axis (f : virtio_input_absinfo -> M (probing E) A) c Q p : room c p ->
  (forall a p', step p p' [] [] -> room c p' -> adds (f a) c Q p') -> adds (GetAbsAxisInfo C axis ≫= f) c Q p.
Proof.
  intros R Hf. eapply (adds_bind _ _ _ 0 c (fun _ ds bs => ds = [] /\ bs = [])); [exact R|apply R|lia|apply adds_absinfo; eapply room_le; [exact R|split; [lia|apply R]]|].
  intros a ds bs p' (-> & ->) S R'. by apply Hf.
Qed.

Lemma absinfo_if {A} (b : bool) axis d (f : virtio_input_absinfo -> M (probing E) A) c Q p : room c p ->
  (forall a p', step p p' [] [] -> room c p' -> adds (f a) c Q p') -> adds ((if b then GetAbsAxisInfo C axis else mret d) ≫= f) c Q p.
Proof. intros R Hf. destruct b; [by apply absinfo_then|]. apply (Hf d); [by eapply step_refl|done]. Qed.

Definition contact_cost : Z := 241.

Lemma describe_contact_ok id mt max a p : room contact_cost p ->
  adds (describe_contact I C mt max a) contact_cost (fun _ ds bs => bs = [] /\ (exists rest, ds = Item HID_TAG_COLLECTION HID_COLLECTION_LOGICAL :: rest) /\
    emits id HID_USAGE_PAGE_DIGITIZER ds (contact_fields id mt) HID_USAGE_PAGE_DIGITIZER) p.
Proof.
  intros R. unfold contact_cost in *. unfold describe_contact. cbv zeta.
  assert (forall u z, 0 <= u < 128 -> Forall item_ok (contact_axis_items u z) /\ Forall item_ok (contact_size_items u z)) as Hio by (intros u z Hu; by apply (contact_parts_ok mt max z u)).
  apply (describe_then _ 23 _ 126); [apply (contact_parts_ok mt max (mk_absinfo 0 0 0 0 0) 0); lia|by destruct mt|lia|lia|exact R|]. intros p1 _ R1.
  apply absinfo_then; [exact R1|]. intros x p2 _ R2.
  apply (describe_then _ 6 _ 96); [apply Hio; unfold HID_USAGE_GENERIC_X; lia|done|lia|lia|exact R2|]. intros p3 _ R3.
  apply absinfo_then; [exact R3|]. intros y p4 _ R4.
  apply (describe_then _ 6 _ 66); [apply Hio; unfold HID_USAGE_GENERIC_Y; lia|done|lia|lia|exact R4|]. intros p5 _ R5.
  apply (describe_then _ 1 _ 61); [items_ok|done|lia|lia|exact R5|]. intros p6 _ R6.
  apply absinfo_if; [exact R6|]. intros w p7 _ R7.
  apply (describe_then _ 6 _ 31); [apply Hio; unfold HID_USAGE_DIGITIZER_CONTACT_WIDTH; lia|done|lia|lia|exact R7|]. intros p8 _ R8.
  apply absinfo_if; [exact R8|]. intros h p9 _ R9.
  apply (describe_then _ 6 _ 1); [apply Hio; unfold HID_USAGE_DIGITIZER_CONTACT_HEIGHT; lia|done|lia|lia|exact R9|]. intros p10 _ R10.
  eapply adds_mono; [apply adds_end; [exact R10|lia]|lia|]. cbv beta. intros _ ds bs (-> & ->). split; [done|]. split; [by eexists|].
  pose proof (contact_emits id mt max x y w h) as He. unfold contact_items, ditems in He. rewrite !fmap_app, <- !app_assoc in He. exact He.
Qed.

Lemma describe_contacts_ok id mt max a n : forall p, room (contact_cost * Z.of_nat n) p ->
  adds (describe_contacts I C n mt max a) (contact_cost * Z.of_nat n) (fun _ ds bs => bs = [] /\
    (n <> O -> exists rest, ds = Item HID_TAG_COLLECTION HID_COLLECTION_LOGICAL :: rest) /\ (n = O -> ds = []) /\
    emits id HID_USAGE_PAGE_DIGITIZER ds (contacts_fields n id mt) HID_USAGE_PAGE_DIGITIZER) p.
Proof.
  induction n as [|n IH]; intros p R; cbn [describe_contacts].
  - eapply adds_mono; [apply adds_ret; [exact R|]|lia|by intros ? ? ? H; exact H]. split_and!; [done|done|done|apply emits_nil].
  - unfold contact_cost in *. eapply (adds_bind _ _ _ 241 (241 * Z.of_nat n)); [exact R|lia|lia|apply (describe_contact_ok id); eapply room_le; [exact R|unfold contact_cost; lia]|].
    cbv beta. intros [] ds bs p1 (-> & (rest & Er) & He) _ R1. eapply adds_mono; [apply IH; exact R1|lia|]. cbv beta. intros [] ds' bs' (-> & _ & _ & He').
    split; [done|]. split; [intros _; exists (rest ++ ds'); by rewrite Er|]. split; [done|]. unfold contacts_fields. cbn [replicate concat]. by eapply emits_app.
Qed.

Lemma tablet_head_ok mt id : 0 <= id < 256 -> Forall item_ok (tablet_head_items mt id).
Proof. intros H. unfold tablet_head_items. destruct mt; items_ok. Qed.

Lemma tablet_tail_ok max ts : Forall item_ok (tablet_tail_items max ts) /\ zlen (tablet_tail_items max ts) <= 22.
Proof.
  pose proof (s32_range max). unfold tablet_tail_items. split; [|by destruct ts]. rewrite !Forall_app. split_and!; [items_ok| |items_ok]. destruct ts; [unfold LONG_MAX|]; items_ok.
Qed.

(** From the head to the end of the collection, the items declare the fields of the tablet. *)
Lemma tablet_class_emits id mt max ts ds : 0 <= max -> (Z.to_nat max <> O -> exists rest, ds = Item HID_TAG_COLLECTION HID_COLLECTION_LOGICAL :: rest) -> (Z.to_nat max = O -> ds = []) ->
  emits id HID_USAGE_PAGE_DIGITIZER ds (contacts_fields (Z.to_nat max) id mt) HID_USAGE_PAGE_DIGITIZER ->
  class_emits (ditems (tablet_head_items mt id) ++ ds ++ ditems (tablet_tail_items max ts) ++ [EndCollection]) (tablet_fields id mt max ts).
Proof.
  intros Hm Hne Hz He h. rewrite !hid_run_app. set (h1 := hid_run h (ditems (tablet_head_items mt id))).
  assert (forall h us, h_id h = id -> h_page h = HID_USAGE_PAGE_DIGITIZER -> h_usages h = us ->
    h_fields (hid_run (hid_run h (ditems (tablet_tail_items max ts))) [EndCollection]) = h_fields h ++ count_fields id us ts) as Ht.
  { intros h' us Hi Hp Hu. destruct h'. cbn in Hi, Hp, Hu. subst. destruct ts; cbn; rewrite <- ?app_assoc; done. }
  unfold tablet_fields. destruct (Z.eqb_spec max 0) as [->|Hn].
  - rewrite Hz by done. change (Z.to_nat 0) with O. cbn [contacts_fields replicate concat app]. change (hid_run h1 []) with h1. rewrite (Ht h1 [finger mt]); by destruct h, mt.
  - destruct (Hne ltac:(lia)) as (rest & ->). destruct (He (h1 <| h_usages := [] |>)) as (Hi & Hp & Hu & Hf); [by destruct h, mt..|].
    change (hid_run (h1 <| h_usages := [] |>) (Item HID_TAG_COLLECTION HID_COLLECTION_LOGICAL :: rest)) with (hid_run h1 (Item HID_TAG_COLLECTION HID_COLLECTION_LOGICAL :: rest)) in *.
    rewrite (Ht _ [] Hi Hp Hu), Hf. by rewrite <- app_assoc.
Qed.

(** ** The scans and the buffers *)

Definition axes_taken (a : tablet_axes) (done : list Z) (ds : list ditem) (bs : list Z) : Prop :=
  (ds = [] /\ bs = []) /\ 0 <= a_max a <= 250 /\ (a_ident a = true -> a_mt a = true) /\ (a_mt a = false -> a_max a = 1).

Lemma take_axis_ok code a done ds bs p : axes_taken a done ds bs -> room 0 p ->
  adds (tablet_take_axis C code a) 0 (fun a' ds' bs' => axes_taken a' (done ++ [code]) (ds ++ ds') (bs ++ bs')) p.
Proof.
  intros ((-> & ->) & Hm & Hi & H1) R. unfold tablet_take_axis. destruct (_ || _); [apply adds_ret; [done|]; split_and!; cbn; try done; lia|].
  destruct (code =? ABS_MT_SLOT).
  - apply absinfo_then; [exact R|]. intros i p' _ R'. apply adds_ret; [done|]. pose proof (u32_range (abs_max i + 1)). unfold MT_MAX_MAXCONTACT. split; [done|]. split; [|done].
    change (0 <= (if u32 (abs_max i + 1) >? 250 then 250 else u32 (abs_max i + 1)) <= 250). destruct (Z.gtb_spec (u32 (abs_max i + 1)) 250); lia.
  - cbv zeta. apply adds_ret; [done|]. split; [done|]. repeat case_match; split_and!; cbn; (done || lia).
Qed.

Lemma tablet_kind_ok a done ds bs : axes_taken a done ds bs -> let '(mt, ident, max) := tablet_kind a in
  0 <= max <= 250 /\ (ident = true -> mt = true) /\ (mt = false -> max = 1).
Proof.
  intros (_ & Hm & Hi & H1). unfold tablet_kind, MT_DEFAULT_MAXCONTACT, MT_MAX_MAXCONTACT. cbv zeta.
  destruct (a_mt a) eqn:Em; cbn [andb].
  - destruct (negb (uNumOfMTAbsAxes a =? 2)); [by split_and!|]. rewrite andb_true_r. destruct (a_ident a); cbn [negb]; [|by split_and!].
    destruct (Z.gtb_spec (a_max a) 250); split_and!; (done || lia).
  - rewrite andb_false_r. destruct (a_ident a); [by specialize (Hi eq_refl)|]. rewrite H1 by done. by split_and!.
Qed.

Lemma init_stat_ok n : forall i stat, 0 <= i -> sizeof_SLOT * (i + Z.of_nat n) <= zlen stat -> exists s, init_stat n i stat = Ok s /\ zlen s = zlen stat.
Proof.
  induction n as [|n IH]; intros i stat Hi Hn; cbn [init_stat]; [by exists stat|]. unfold sizeof_SLOT, slot_uTouchWidth, slot_uTouchHeight in *.
  assert (zlen (le_bytes 2 1) = 2) as L2 by done.
  destruct (put_bytes_len (le_bytes 2 1) stat (11 * i + 7)) as (s1 & -> & H1); [lia|rewrite L2; lia|]. cbn [mbind res_bind].
  destruct (put_bytes_len (le_bytes 2 1) s1 (11 * i + 9)) as (s2 & -> & H2); [lia|rewrite L2; lia|]. cbn [mbind res_bind].
  destruct (IH (i + 1) s2) as (s & -> & H3); [lia|lia|]. exists s. split; [done|lia].
Qed.

Lemma tablet_buffers_ok mt max p : 0 <= max <= 250 -> room 0 p ->
  adds (tablet_buffers I mt max) 0 (fun r ds bs => (ds = [] /\ bs = []) /\
    match r with None => True | Some (stat, ids) => (mt = true -> zlen stat = sizeof_SLOT * max /\ zlen ids = max) /\ Forall (fun id => id.1 = -1) ids end) p.
Proof.
  intros Hm R. unfold tablet_buffers. destruct mt; [|apply adds_ret; [done|by split_and!]].
  eapply (adds_bind _ _ _ 0 0); [exact R|lia|lia|by apply adds_alloc|]. cbv beta. intros ok ? ? p1 (-> & ->) _ R1. destruct ok; cbn [negb]; [|apply adds_ret; [done|by split]].
  eapply (adds_bind _ _ _ 0 0); [exact R1|lia|lia|by apply adds_alloc|]. cbv beta. intros ok ? ? p2 (-> & ->) _ R2. destruct ok; cbn [negb]; [|apply adds_ret; [done|by split]].
  assert (zlen (replicate (Z.to_nat (sizeof_SLOT * max)) 0) = sizeof_SLOT * max) as Hz by (rewrite zlen_replicate; unfold sizeof_SLOT; lia).
  destruct (init_stat_ok (Z.to_nat max) 0 (replicate (Z.to_nat (sizeof_SLOT * max)) 0)) as (s & Es & Hs); [lia|rewrite Hz; unfold sizeof_SLOT; lia|].
  eapply (adds_bind _ _ _ 0 0); [exact R2|lia|lia|by apply adds_pure|]. cbv beta. intros ? ? ? p3 (-> & -> & ->) _ R3. apply adds_ret; [done|]. split; [done|]. split; [|by apply Forall_replicate]. intros _.
  rewrite Hs, Hz, zlen_replicate. split; [done|lia].
Qed.

Lemma init_ids_ok n : forall i r, 0 <= i -> report_slot (i + Z.of_nat n) <= zlen r -> exists r', init_ids n i r = Ok r' /\ zlen r' = zlen r.
Proof.
  induction n as [|n IH]; intros i r Hi Hn; cbn [init_ids]; [by exists r|]. unfold report_slot, HID_REPORT_DATA_OFFSET, sizeof_SLOT in *.
  assert (forall v, zlen (le_bytes 2 v) = 2) as L2 by (intros v; unfold zlen; by rewrite length_le_bytes).
  destruct (put_bytes_len (le_bytes 2 (i + 1)) r (1 + 11 * i + slot_uContactID)) as (s1 & -> & H1); [unfold slot_uContactID; lia|rewrite L2; unfold slot_uContactID; lia|]. cbn [mbind res_bind].
  destruct (IH (i + 1) s1) as (s & -> & H3); [lia|lia|]. exists s. split; [done|lia].
Qed.

Lemma init_sizes_ok n : forall i r, 0 <= i -> report_slot (i + Z.of_nat n) <= zlen r -> exists r', init_sizes n i r = Ok r' /\ zlen r' = zlen r.
Proof.
  induction n as [|n IH]; intros i r Hi Hn; cbn [init_sizes]; [by exists r|]. unfold report_slot, HID_REPORT_DATA_OFFSET, sizeof_SLOT in *.
  assert (zlen (le_bytes 2 1) = 2) as L2 by done.
  destruct (put_bytes_len (le_bytes 2 1) r (1 + 11 * i + slot_uTouchWidth)) as (s1 & -> & H1); [unfold slot_uTouchWidth; lia|rewrite L2; unfold slot_uTouchWidth; lia|]. cbn [mbind res_bind].
  destruct (put_bytes_len (le_bytes 2 1) s1 (1 + 11 * i + slot_uTouchHeight)) as (s2 & -> & H2); [unfold slot_uTouchHeight; lia|rewrite L2; unfold slot_uTouchHeight; lia|]. cbn [mbind res_bind].
  destruct (IH (i + 1) s2) as (s & -> & H3); [lia|lia|]. exists s. split; [done|lia].
Qed.

Lemma init_report_ok mt ident max ts r : 0 <= max <= 250 -> (mt = false -> max = 1) -> (ident = true -> mt = true) -> zlen r = tablet_size max ts ->
  exists r', init_report mt ident max r = Ok r' /\ zlen r' = zlen r.
Proof.
  intros Hm Hmt Hid Hr. unfold init_report. assert (2 + 11 * max <= zlen r) as Hz by (rewrite Hr; unfold tablet_size, sizeof_SLOT; destruct ts; lia).
  assert (0 < report_slot max < zlen r) as Hs by (unfold report_slot, HID_REPORT_DATA_OFFSET, sizeof_SLOT; lia).
  assert (report_slot (0 + Z.of_nat (Z.to_nat max)) <= zlen r) as Hn by (unfold report_slot, HID_REPORT_DATA_OFFSET, sizeof_SLOT; lia).
  assert (exists r1, (if ident then zset r (report_slot max) 0 else if mt then r ← zset r (report_slot max) (u8 max); init_ids (Z.to_nat max) 0 r
    else r ← put_bytes r (report_slot 0 + slot_uContactID) (le_bytes 2 1); zset r (report_slot max) 1) = Ok r1 /\ zlen r1 = zlen r) as (r1 & -> & H1).
  { destruct ident; [destruct (zset_in r (report_slot max) 0 Hs) as (r1 & Ez & L & _); by exists r1|]. destruct mt.
    - destruct (zset_in r (report_slot max) (u8 max) Hs) as (r1 & -> & H1 & _). cbn [mbind res_bind]. destruct (init_ids_ok (Z.to_nat max) 0 r1) as (r2 & -> & H2); [lia|lia|]. exists r2. split; [done|lia].
    - specialize (Hmt eq_refl). subst max. destruct (put_bytes_len (le_bytes 2 1) r (report_slot 0 + slot_uContactID)) as (r1 & -> & H1); [done|change (zlen (le_bytes 2 1)) with 2; unfold report_slot, slot_uContactID, HID_REPORT_DATA_OFFSET, sizeof_SLOT; lia|].
      cbn [mbind res_bind]. destruct (zset_in r1 (report_slot 1) 1) as (r2 & -> & H2 & _); [lia|]. exists r2. split; [done|lia]. }
  cbn [mbind res_bind]. destruct (init_sizes_ok (Z.to_nat max) 0 r1) as (r2 & -> & H2); [lia|lia|]. exists r2. split; [done|lia].
Qed.

(** The registered tablet. *)
Definition tablet_built (id : Z) (t : INPUT_CLASS_TABLET) (fs : list field) : Prop :=
  0 <= uMaxContacts t <= 250 /\ cReportID (tCommon t) = id /\ cbHidReportSize (tCommon t) = tablet_size (uMaxContacts t) (bMscTs t) /\
  zlen (tReport t) = tablet_size (uMaxContacts t) (bMscTs t) /\ (1 <= uMaxContacts t -> tablet_ok t) /\ (idle t /\ cDirty (tCommon t) = false) /\
  fs = tablet_fields id (bMT t) (uMaxContacts t) (bMscTs t).

Lemma HIDTabletProbe_ok n abs key msc p : 0 <= n < 255 -> cfg_ok abs -> cfg_ok key -> cfg_ok msc -> map_quiet p -> droom 100000 p ->
  wp (HIDTabletProbe I C n abs key msc) (fun r p' => let '(st, t, abs') := r in probed (tablet_built (n + 1)) n st t p p') p.
Proof.
  intros Hn Ka Kk Km Q D. pose proof (quiet_room p 100000 D Q ltac:(lia)) as R.
  assert (adds (HIDTabletProbe I C n abs key msc) 100000 (fun r ds bs => bs = [] /\ match r.1.2 with
    | None => NT_SUCCESS r.1.1 = false
    | Some t => r.1.1 = STATUS_SUCCESS /\ n < MAX_INPUT_CLASS_COUNT /\ exists fs, class_emits ds fs /\ tablet_built (n + 1) t fs end) p) as Ha.
  - unfold HIDTabletProbe.
    eapply (adds_bind _ _ _ 0 100000); [exact R|lia|lia|by apply adds_alloc; eapply room_le; [exact R|lia]|]. cbv beta. intros ok ? ? p1 (-> & ->) _ R1. destruct ok; cbn [negb]; [|by apply adds_ret].
    eapply (adds_bind _ _ _ (1024 * 0) 100000); [exact R1|lia|lia|apply (scan_ok tablet_axis (tablet_take_axis C) 0 axes_taken); [|lia|exact Ka|apply Ka|by split_and!|eapply room_le; [exact R1|lia]]|].
    { intros code acc done ds bs q _ _ HR Hq. by apply take_axis_ok. }
    cbv beta. intros [abs' a] ds2 bs2 p2 ((Ka' & _) & Hax) _ R2. cbn [fst snd] in *. pose proof (tablet_kind_ok a _ _ _ Hax) as Hk. destruct Hax as ((-> & ->) & _).
    destruct (negb (uNumOfAbsAxes a =? 2)); [by apply adds_ret|].
    eapply (adds_bind _ _ _ (1024 * 0) 100000); [exact R2|lia|lia|apply (scan_ok (fun _ => true) tablet_take_misc 0 (fun _ _ ds bs => ds = [] /\ bs = [])); [|lia|exact Km|apply Km|done|eapply room_le; [exact R2|lia]]|].
    { intros code acc done ds bs q _ _ (-> & ->) Hq. by apply adds_ret. }
    cbv beta. intros [msc' ts] ? ? p3 (_ & -> & ->) _ R3. cbn [fst snd] in *. destruct (tablet_kind a) as [[mt ident] max]. destruct Hk as (Hm & Hid & Hmt).
    eapply (adds_bind _ _ _ 0 100000); [exact R3|lia|lia|apply (tablet_buffers_ok mt max); [done|eapply room_le; [exact R3|lia]]|]. cbv beta. intros bufs ? ? p4 ((-> & ->) & Hb) _ R4.
    destruct bufs as [[stat ids]|]; [destruct Hb as [Hb Hidle]|by apply adds_ret].
    eapply (adds_bind _ _ _ (1024 * 0) 100000); [exact R4|lia|lia|apply (scan_ok claims_button (fun _ u => mret u) 0 (fun _ _ ds bs => ds = [] /\ bs = [])); [|lia|exact Ka'|apply Kk|done|eapply room_le; [exact R4|lia]]|].
    { intros code acc done ds bs q _ _ (-> & ->) Hq. by apply adds_ret. }
    cbv beta. intros [abs2 []] ? ? p5 (_ & -> & ->) _ R5. cbn [fst snd app] in *. cbv zeta. rewrite u8_small by lia. change 100000 with (5 * 5 + 99975).
    apply (describe_then _ 5 _ 99975); [apply tablet_head_ok; lia|by destruct mt|lia|lia|exact R5|]. intros p6 _ R6.
    eapply (adds_bind _ _ _ (contact_cost * Z.of_nat (Z.to_nat max)) 1000); [exact R6|lia|unfold contact_cost; lia|apply (describe_contacts_ok (n + 1)); eapply room_le; [exact R6|unfold contact_cost; lia]|].
    cbv beta. intros [] ds7 bs7 p7 (-> & Hne & Hz & He) _ R7. destruct (tablet_tail_ok max ts) as [Hto Htl]. change 1000 with (5 * 22 + 890).
    apply (describe_then _ 22 _ 890); [exact Hto|exact Htl|lia|lia|exact R7|]. intros p8 _ R8.
    eapply (adds_bind _ _ _ 1 800); [exact R8|lia|lia|apply adds_end; [eapply room_le; [exact R8|lia]|lia]|]. cbv beta. intros [] ? ? p9 (-> & ->) _ R9. fold (tablet_size max ts).
    eapply (adds_bind _ _ _ 0 800); [exact R9|lia|lia|apply adds_register; [eapply room_le; [exact R9|lia]|unfold tablet_size, sizeof_SLOT; destruct ts; lia]|].
    cbv beta. intros [st report] ? ? p10 ((-> & ->) & Hr) _ R10. cbn [fst snd] in *. destruct (NT_SUCCESS st) eqn:Est; [|apply adds_ret; [done|by split]].
    destruct (Hr eq_refl) as (-> & Hmx & ->). set (zero := replicate _ 0).
    assert (zlen zero = tablet_size max ts) as Hzl by (unfold zero; rewrite zlen_replicate; unfold tablet_size, sizeof_SLOT; destruct ts; lia).
    destruct (init_report_ok mt ident max ts zero Hm Hmt Hid Hzl) as (r & Er & Hrl). 
    eapply (adds_bind _ _ _ 0 0); [eapply room_le; [exact R10|lia]|lia|lia|apply adds_pure; [eapply room_le; [exact R10|lia]|exact Er]|]. cbv beta. intros ? ? ? p11 (-> & -> & ->) _ R11.
    apply adds_ret; [done|]. cbn [fst snd]. split; [done|]. split; [done|]. split; [done|]. exists (tablet_fields (n + 1) mt max ts). split.
    + rewrite !app_nil_r. cbn [app]. pose proof (tablet_class_emits (n + 1) mt max ts ds7 ltac:(lia) Hne Hz He) as Hc. exact Hc.
    + split_and!; cbn; try done; try lia. intros H1. constructor; cbn; try done; lia.
  - eapply wp_mono; [exact Ha|]. cbv beta. intros [[st t] abs'] p' (ds & bs & S & Cs & -> & Ht). cbn [fst snd] in Ht. destruct t as [t|]; [|cbn; by rewrite Ht].
    destruct Ht as (-> & Hmx & fs & He & Hb). split; [done|]. split; [done|]. split; [by eapply quiet_step|]. pose proof (step_size _ _ _ _ _ S Cs). split; [lia|]. exists ds, fs. split; [by eapply step_dstep|done].
Qed.
End probe.
