(* ===== verification/VioInputBuildSpec.v ===== *)
(** * virtio-input: descriptor and reports of a device

    The report descriptor that the driver builds declares, for each class of the device, a
    report of exactly the size that the class sends; and whatever events arrive, every report
    that goes up has the identifier and the size of one of these classes. *)

From Stdlib Require Import ZArith Lia.
From stdpp Require Import base list numbers option sets.
From S2P Require Import Prelude.
From S2P Require Import Effects.
From S2P Require Import VioInput.
From S2P Require Import VioInputSpec.
From S2P Require Import VioInputProbe.
From S2P Require Import VioInputClasses.
From S2P Require Import VioInputHid.
From S2P Require Import VioInputHidSpec.
From S2P Require Import VioInputMouseSpec.
From S2P Require Import VioInputMouseEvents.
From S2P Require Import VioInputControlsSpec.
From S2P Require Import VioInputTabletSpec.

Definition class_id (c : input_class) : Z := cReportID (class_common c).
Definition class_size (c : input_class) : Z := cbHidReportSize (class_common c).
Definition class_report (c : input_class) : list Z := cReport (class_common c).

(** ** What a class keeps *)

(** The class is well formed, and a report that is to be sent has its identifier. *)
Definition class_inv (c : input_class) : Prop :=
  match c with
  | MouseClass m => exists K first dirty q, conf_ok K /\ pointer_ok q /\ m = mouse_showing K first dirty q /\ (dirty = true -> first = k_id K)
  | JoystickClass j => exists J first dirty q, stick_ok J /\ j = stick_showing J first dirty q /\ (dirty = true -> first = s_id J)
  | TabletClass t => tablet_ok t /\ (zlookup (tReport t) 0 = Some (cReportID (tCommon t)) \/ idle t /\ cDirty (tCommon t) = false)
  | KeyboardClass k => exists M S, kb_shows k M S /\ (bDirty k = true -> zlookup (pHidReport k) 0 = Some (uReportID k))
  | ConsumerClass s => exists K first dirty held, controls_ok K /\ s = controls_showing K first dirty held /\ (dirty = true -> first = c_id K)
  end.

(** The events that a class can translate: those whose key a keyboard has room for. *)
Definition class_fits (ev : VIRTIO_INPUT_EVENT) (c : input_class) : Prop :=
  match c with KeyboardClass k => event_fits (cbKeysPressedLen k) ev | _ => True end.

(** What no event changes: identifier, size, and the keys that a keyboard has room for. *)
Definition class_sig (c : input_class) : Z * Z * Z :=
  (class_id c, class_size c, match c with KeyboardClass k => cbKeysPressedLen k | _ => 0 end).

(** The bytes of the report are those of its size, and the first is the identifier once the
    report is to be sent. *)
Lemma inv_report c : class_inv c -> zlen (class_report c) = class_size c /\
  (cDirty (class_common c) = true -> zlookup (class_report c) HID_REPORT_ID_OFFSET = Some (class_id c)).
Proof.
  destruct c as [m|j|t|k|s]; cbn [class_inv].
  - intros (K & first & dirty & q & OK & PO & -> & Hd). split; [|cbn; intros H; by rewrite Hd].
    exact (pointer_report_len K first q OK).
  - intros (J & first & dirty & q & OK & -> & Hd). split; [by apply (stick_report_len first J q)|cbn; intros H; by rewrite Hd].
  - intros (O & Hd). split; [exact (eq_trans (to_report t O) (eq_sym (to_size t O)))|]. intros H. destruct Hd as [Hd|[_ Hd]]; [exact Hd|]. cbn in H. congruence.
  - intros (M & S & [W _] & Hd). split; [exact (kw_report _ _ W)|exact Hd].
  - intros (K & first & dirty & held & OK & -> & Hd). split; [apply (control_report_len first K held)|cbn; intros H; by rewrite Hd].
Qed.

(** An event is translated. *)
Lemma class_inv_event c ev : class_inv c -> event_ranges ev -> class_fits ev c ->
  exists c', EventToReport c ev = Ok c' /\ class_inv c' /\ class_sig c' = class_sig c /\ (forall ev', class_fits ev' c -> class_fits ev' c').
Proof.
  intros H Hev Hf. destruct c as [m|j|t|k|s]; cbn [class_inv EventToReport class_fits] in *.
  - destruct H as (K & first & dirty & q & OK & PO & -> & Hd). rewrite (mouse_event_ok K OK) by done. cbn [mbind res_bind]. eexists. split; [done|]. split; [|done].
    eexists K, _, _, _. split_and!; [done| |done|done]. by apply pointer_event_ok.
  - destruct H as (J & first & dirty & q & OK & -> & Hd). rewrite (stick_event_ok J OK) by done. cbn [mbind res_bind]. eexists. split; [done|]. split; [|done].
    eexists J, _, _, _. by split_and!.
  - destruct H as (O & Hd). destruct (tablet_event_ok t ev O Hev) as (t' & -> & O' & C' & H'). cbn [mbind res_bind]. eexists. split; [done|].
    injection C' as C1 C2 _ _ _ _. split; [|split; [unfold class_sig, class_id, class_size; cbn; congruence|done]]. split; [done|]. left. congruence.
  - destruct H as (M & S & Hk & Hd). destruct (event_ok k M S ev Hk Hf) as (k' & -> & Hk' & Hl & Hi & H0). cbn [mbind res_bind]. eexists. split; [done|].
    split; [|split]; [|unfold class_sig, class_id, class_size; cbn; congruence|cbn [class_fits]; by rewrite Hl]. eexists _, _. split; [exact Hk'|]. intros _. rewrite Hi. exact H0.
  - destruct H as (K & first & dirty & held & OK & -> & Hd). rewrite (control_event_ok K) by done. cbn [mbind res_bind]. eexists. split; [done|]. split; [|done].
    eexists K, _, _, _. by split_and!.
Qed.

(** Contacts are collected. *)
Lemma inv_collect c ev : class_inv c ->
  exists c', EventToCollect c ev = Ok c' /\ class_inv c' /\ class_sig c' = class_sig c /\ (forall ev', class_fits ev' c -> class_fits ev' c').
Proof.
  intros H. destruct c as [m|j|t|k|s]; try (by eexists; split; [done|]; split). destruct H as (O & Hd). cbn [EventToCollect].
  destruct (tablet_collect_ok t ev O) as (t' & -> & O' & C' & H' & Hid). cbn [mbind res_bind]. eexists. split; [done|]. injection C' as C1 C2 _ _ _ _.
  split; [|split; [unfold class_sig, class_id, class_size; cbn; congruence|done]]. split; [done|]. destruct Hd as [Hd|[Hi Hd]]; [left; congruence|]. right. destruct (Hid Hi). by split; [|congruence].
Qed.

Lemma inv_clean c : class_inv c -> class_inv (class_clean c) /\ class_sig (class_clean c) = class_sig c /\ (forall ev', class_fits ev' c -> class_fits ev' (class_clean c)).
Proof.
  intros H. split; [|by destruct c]. destruct c as [m|j|t|k|s]; cbn [class_inv class_clean] in *.
  - destruct H as (K & first & dirty & q & OK & PO & -> & Hd). by exists K, first, false, q.
  - destruct H as (J & first & dirty & q & OK & -> & Hd). by exists J, first, false, q.
  - destruct H as (O & Hd). split; [by destruct O|]. destruct Hd as [Hd|[Hi _]]; [by left|by right].
  - destruct H as (M & S & [W Hm] & Hd). exists M, S. split; [|done]. split; [by destruct W|exact Hm].
  - destruct H as (K & first & dirty & held & OK & -> & Hd). by exists K, first, false, held.
Qed.

(** ** Events of a device *)

(** [r] is a report of one of the classes [cs]. *)
Definition report_of (cs : list input_class) (r : list Z) : Prop :=
  exists c, c ∈ cs /\ zlen r = class_size c /\ zlookup r HID_REPORT_ID_OFFSET = Some (class_id c).

Section events.
Context {E : Type} (H : hid_env E).

(** One class, before and after. *)
Definition evolves (c c' : input_class) : Prop :=
  class_inv c' /\ class_sig c' = class_sig c /\ (forall ev, class_fits ev c -> class_fits ev c').

Lemma evolves_trans c1 c2 c3 : evolves c1 c2 -> evolves c2 c3 -> evolves c1 c3.
Proof. intros (_ & S1 & F1) (I2 & S2 & F2). split_and!; [done|congruence|auto]. Qed.

Lemma complete_ok (e : E) c : class_inv c -> exists sent c' e', CompleteHIDQueueRequest H e c = Ok (sent, c', e') /\ evolves c c' /\
  (forall r, sent = Some r -> zlen r = class_size c /\ zlookup r HID_REPORT_ID_OFFSET = Some (class_id c)).
Proof.
  intros Hi. destruct (inv_report c Hi) as [Hl Hid]. unfold CompleteHIDQueueRequest. destruct (cDirty (class_common c)) eqn:Ed; cbn [negb].
  2: { do 3 eexists. split; [done|]. split; [by split_and!|done]. }
  destruct (WdfIoQueueRetrieveNextRequest H e) as [[q|] e1]; [|do 3 eexists; split; [done|]; split; [by split_and!|done]].
  assert (exists st e2, RequestCopyFromBuffer H e1 q (cReport (class_common c)) (cbHidReportSize (class_common c)) = Ok (st, e2)) as (st & e2 & ->).
  { unfold RequestCopyFromBuffer. destruct (WdfRequestRetrieveOutputMemory H e1 q) as [st len]. destruct (NT_SUCCESS st); cbn [negb]; [|by do 2 eexists].
    destruct (len <? _); [by do 2 eexists|]. change (cbHidReportSize (class_common c)) with (class_size c). change (cReport (class_common c)) with (class_report c). rewrite Hl.
    destruct (Z.gtb_spec (class_size c) (class_size c)); [lia|]. destruct (WdfMemoryCopyFromBuffer H e1 q _) as [st' e']. destruct (NT_SUCCESS st'); by do 2 eexists. }
  cbn [mbind res_bind]. destruct (NT_SUCCESS st).
  - do 3 eexists. split; [done|]. split; [by apply inv_clean|]. intros r [= <-]. split; [done|by apply Hid].
  - do 3 eexists. split; [done|]. split; [by split_and!|done].
Qed.

Lemma send_ok ev cs : forall e : E, Forall class_inv cs -> exists sent cs' e', send_reports H e ev cs = Ok (sent, cs', e') /\
  Forall2 evolves cs cs' /\ Forall (report_of cs) sent.
Proof.
  induction cs as [|c cs IH]; intros e Hcs; cbn [send_reports]; [by do 3 eexists|]. apply list.Forall_cons in Hcs as [Hc Hcs].
  destruct (inv_collect c ev Hc) as (c1 & -> & V1). cbn [mbind res_bind]. destruct (complete_ok e c1 (proj1 V1)) as (sent & c2 & e1 & -> & V2 & Hs). cbn [mbind res_bind].
  destruct (IH e1 Hcs) as (more & cs' & e2 & -> & V3 & Hm). cbn [mbind res_bind]. do 3 eexists. split; [done|]. split; [constructor; [by eapply evolves_trans|done]|].
  assert (forall r, report_of cs r -> report_of (c :: cs) r) as Hw by (intros r (c' & Hin & Hr); exists c'; split; [by right|done]).
  apply Forall_app. split; [|eapply Forall_impl; [exact Hm|exact Hw]]. destruct sent as [r|]; [|constructor]. constructor; [|constructor].
  destruct (Hs r eq_refl) as [H1 H2]. destruct V1 as (_ & Hsig & _). injection Hsig as S1 S2 _. exists c. split; [left|]. by rewrite H1, H2, S1, S2.
Qed.

Lemma translate_ok ev cs : event_ranges ev -> Forall class_inv cs -> Forall (class_fits ev) cs -> exists cs', translate ev cs = Ok cs' /\ Forall2 evolves cs cs'.
Proof.
  intros Hev. induction cs as [|c cs IH]; intros Hi Hf; cbn [translate]; [by eexists|]. apply list.Forall_cons in Hi as [Hi His]. apply list.Forall_cons in Hf as [Hf Hfs].
  destruct (class_inv_event c ev Hi Hev Hf) as (c' & -> & V). cbn [mbind res_bind]. destruct (IH His Hfs) as (cs' & -> & Vs). cbn [mbind res_bind]. eexists. split; [done|]. by constructor.
Qed.

Lemma evolves_all cs cs' : Forall2 evolves cs cs' -> Forall class_inv cs' /\ class_sig <$> cs' = class_sig <$> cs /\ (forall ev, Forall (class_fits ev) cs -> Forall (class_fits ev) cs').
Proof.
  induction 1 as [|c c' cs cs' (V1 & V2 & V3) _ (I1 & I2 & I3)]; [done|]. split_and!.
  - by constructor.
  - cbn. by rewrite V2, I2.
  - intros ev [Hc Hcs]%list.Forall_cons. constructor; [by apply V3|by apply I3].
Qed.

Lemma report_of_sig cs cs' r : class_sig <$> cs' = class_sig <$> cs -> report_of cs' r -> report_of cs r.
Proof.
  intros Hs (c & Hc & Hl & Hr). assert (class_sig c ∈ class_sig <$> cs) as Hin by (rewrite <- Hs; apply list_elem_of_fmap; eauto).
  apply list_elem_of_fmap in Hin as (c' & E' & Hc'). injection E' as E1 E2 _. exists c'. split; [done|]. by rewrite <- E1, <- E2.
Qed.

(** A sequence of events; the reports that were sent, oldest first. *)
Fixpoint process_events (d : INPUT_DEVICE E) (evs : list VIRTIO_INPUT_EVENT) : res (list (list Z) * INPUT_DEVICE E) :=
  match evs with
  | [] => Ok ([], d)
  | ev :: evs => '(sent, d) ← ProcessInputEvent H d ev; '(more, d) ← process_events d evs; Ok (sent ++ more, d)
  end.

Lemma process_event_ok d ev : event_ranges ev -> Forall class_inv (InputClasses d) -> Forall (class_fits ev) (InputClasses d) ->
  exists sent d', ProcessInputEvent H d ev = Ok (sent, d') /\ Forall (report_of (InputClasses d)) sent /\
    Forall class_inv (InputClasses d') /\ class_sig <$> InputClasses d' = class_sig <$> InputClasses d /\
    (forall ev', Forall (class_fits ev') (InputClasses d) -> Forall (class_fits ev') (InputClasses d')).
Proof.
  intros Hev Hi Hf. unfold ProcessInputEvent.
  assert (exists sent cs e, (if ev_type ev =? EV_SYN then send_reports H (denv d) ev (InputClasses d) else Ok ([], InputClasses d, denv d)) = Ok (sent, cs, e) /\
    Forall2 evolves (InputClasses d) cs /\ Forall (report_of (InputClasses d)) sent) as (sent & cs & e & -> & V & Hs).
  { destruct (ev_type ev =? EV_SYN); [by apply send_ok|]. do 3 eexists. split; [done|]. split; [|constructor]. clear Hf. induction Hi; constructor; [by split_and!|done]. }
  cbn [mbind res_bind]. destruct (evolves_all _ _ V) as (I1 & S1 & F1). destruct (translate_ok ev cs Hev I1 (F1 ev Hf)) as (cs' & -> & V').
  cbn [mbind res_bind]. destruct (evolves_all _ _ V') as (I2 & S2 & F2). do 2 eexists. split; [done|]. split; [exact Hs|]. cbn. split_and!; [done|congruence|auto].
Qed.

Lemma process_events_ok evs : forall d, Forall event_ranges evs -> Forall class_inv (InputClasses d) -> Forall (fun ev => Forall (class_fits ev) (InputClasses d)) evs ->
  exists sent d', process_events d evs = Ok (sent, d') /\ Forall (report_of (InputClasses d)) sent /\
    Forall class_inv (InputClasses d') /\ class_sig <$> InputClasses d' = class_sig <$> InputClasses d.
Proof.
  induction evs as [|ev evs IH]; intros d Hev Hi Hf; cbn [process_events]; [by do 2 eexists|]. apply list.Forall_cons in Hev as [Hev Hevs]. apply list.Forall_cons in Hf as [Hf Hfs].
  destruct (process_event_ok d ev Hev Hi Hf) as (sent & d1 & -> & Hs & I1 & S1 & F1). cbn [mbind res_bind].
  destruct (IH d1 Hevs I1) as (more & d2 & -> & Hm & I2 & S2); [eapply Forall_impl; [exact Hfs|]; intros ev' Hf'; by apply F1|].
  cbn [mbind res_bind]. do 2 eexists. split; [done|]. split; [|split; [done|congruence]]. apply Forall_app. split; [done|]. eapply Forall_impl; [exact Hm|]. intros r. by apply report_of_sig.
Qed.
End events.

(** ** What the probes build *)

(** A new class, and the fields that the descriptor has for it. *)
Definition class_built (c : input_class) (fs : list field) : Prop :=
  (Forall (fun f => f_id f = class_id c) fs /\ report_bits (class_id c) fs = 8 * (class_size c - 1)) /\
  match c with TabletClass t => 0 <= uMaxContacts t /\ (uMaxContacts t = 0 \/ class_inv c) | _ => class_inv c end.

Lemma mouse_class id rel abs key m fs : cfg_ok rel -> cfg_ok abs -> mouse_built id rel abs key m fs -> class_built (MouseClass m) fs /\ class_id (MouseClass m) = id.
Proof.
  intros Kr Ka Hb. pose proof (mouse_built_bits _ _ _ _ _ _ Hb) as Hbits. destruct (built_showing _ _ _ _ _ _ Kr Ka Hb) as (K & OK & Hh & Ef & ->).
  assert (class_id (MouseClass (mouse_showing K 0 false at_rest)) = id) as Hid by exact (mh_id _ _ _ _ _ Hh). split; [|done]. split; [by rewrite Hid|].
  exists K, 0, false, at_rest. by split_and!; [|apply at_rest_ok|..].
Qed.

Lemma joystick_class id abs key j fs : joystick_built id abs key j fs -> class_built (JoystickClass j) fs /\ class_id (JoystickClass j) = id.
Proof.
  intros (nb & OK & _ & -> & ->). set (J := mk_stick id nb (stick_codes abs)) in *. split; [|done]. split; [split; [apply stick_ids|exact (stick_bits J OK)]|].
  by exists J, 0, false, centered.
Qed.

Lemma tablet_class id t fs : tablet_built id t fs -> class_built (TabletClass t) fs /\ class_id (TabletClass t) = id.
Proof.
  intros (Hm & Hid & Hs & Hl & Hok & Hidle & ->). assert (class_id (TabletClass t) = id) as Ei by exact Hid. split; [|done]. rewrite <- Ei. split.
  - split; [apply tablet_ids|]. rewrite tablet_bits_ok by lia. rewrite <- Hs. done.
  - split; [lia|]. destruct (Z.eq_dec (uMaxContacts t) 0); [by left|right]. split; [apply Hok; lia|by right].
Qed.

Lemma consumer_class id key s fs : consumer_built id key s fs -> class_built (ConsumerClass s) fs /\ class_id (ConsumerClass s) = id.
Proof.
  intros (len & OK & -> & ->). set (K := mk_controls id len (consumer_codes key)) in *. split; [|done]. split; [split; [apply consumer_ids|]|].
  - change (report_bits id (consumer_fields id (consumer_codes key)) = 8 * (control_size K - 1)). rewrite consumer_bits. unfold control_size. cbn [c_codes K]. lia.
  - by exists K, 0, false, (fun _ => false).
Qed.

(** ** The keyboard as a class of the device *)

Definition keyboard_fields (id uMaxKey : Z) : list field :=
  [mk_field id HID_USAGE_PAGE_KEYBOARD (seqZ 0xE0 8) 1 8 HID_DATA_FLAG_VARIABLE;
   mk_field id HID_USAGE_PAGE_KEYBOARD [] 1 8 HID_DATA_FLAG_CONSTANT;
   mk_field id HID_USAGE_PAGE_KEYBOARD (seqZ 0 (uMaxKey + 1)) 8 HID_KEYBOARD_KEY_SLOTS 0].

Lemma keyboard_emits id m led : class_emits (ditems (keyboard_items id m led) ++ [EndCollection]) (keyboard_fields id m).
Proof.
  intros h. unfold keyboard_items, keyboard_fields. destruct h. destruct led as [l|]; [unfold keyboard_led_items; destruct (truth _)|];
    cbn -[seqZ]; rewrite <- !app_assoc, Z.sub_0_r; done.
Qed.

Lemma keyboard_bits id m : Forall (fun f => f_id f = id) (keyboard_fields id m) /\ report_bits id (keyboard_fields id m) = 64.
Proof. split; [by repeat constructor|]. unfold report_bits, keyboard_fields. cbn [foldr f_id f_size f_count]. by rewrite Z.eqb_refl. Qed.

Lemma probe_bits_byte bits i : forall m g non m' g' non', Forall (fun v => 0 <= v < 8) bits -> byte_ok non -> probe_key_bits bits i m g non = Ok (m', g', non') -> byte_ok non'.
Proof.
  induction bits as [|v bits IH]; intros m g non m' g' non' Hb Hn; cbn [probe_key_bits]; [by intros [= _ _ <-]|]. apply list.Forall_cons in Hb as [Hv Hb].
  destruct (HIDKeyboardEventCodeToUsageCode _) as [u|]; [|done]. cbn [mbind res_bind]. destruct (_ && _); [by apply IH|]. apply IH; [done|by apply lor_bit_ok].
Qed.

Lemma probe_keys_shape bitmap : forall i m g m' g' rest, Forall byte_ok bitmap -> probe_keys bitmap i m g = Ok (m', g', rest) -> zlen rest = zlen bitmap /\ Forall byte_ok rest.
Proof.
  induction bitmap as [|b bitmap IH]; intros i m g m' g' rest Hb; cbn [probe_keys]; [by intros [= _ _ <-]|]. apply list.Forall_cons in Hb as [Hb Hbs].
  destruct (probe_key_bits _ i m g 0) as [[[m1 g1] non]|] eqn:Ep; [|done]. cbn [mbind res_bind]. destruct (probe_keys bitmap (i + 1) m1 g1) as [[[m2 g2] rest']|] eqn:Er; [|done].
  intros [= _ _ <-]. destruct (IH _ _ _ _ _ _ Hbs Er) as [Hl Hr]. rewrite !zlen_cons, Hl. split; [done|]. constructor; [|done].
  eapply probe_bits_byte; [by apply decode_bits_range| |exact Ep]. done.
Qed.

Section build.
Context {E : Type} (I : input_env E) (C : config_env E).
Implicit Types p : probing E.

Definition keyboard_built (id : Z) (k : INPUT_CLASS_KEYBOARD) (fs : list field) : Prop :=
  exists m led, 0 <= m < 256 /\ k = fresh_class id m led (replicate 9 0) /\ fs = keyboard_fields id m.

Lemma keyboard_class id k fs : keyboard_built id k fs -> class_built (KeyboardClass k) fs /\ class_id (KeyboardClass k) = id.
Proof.
  intros (m & led & Hm & -> & ->). split; [|done]. destruct (keyboard_bits id m) as [H1 H2]. split; [split; [exact H1|exact H2]|].
  exists ∅, ∅. split; [by apply fresh_class_shows|done].
Qed.

Lemma cfg_bytes_ok d : cfg_ok d -> Forall byte_ok (cfg_bytes d) /\ zlen (cfg_bytes d) = cfg_size d.
Proof. intros (Hz & Hs & Hb). split; [by apply Forall_take|]. unfold cfg_bytes, zlen in *. unfold sizeof_bitmap in *. rewrite length_take. lia. Qed.

Lemma keyboard_probe_ok n keys leds p : 0 <= n < 255 -> cfg_ok keys -> cfg_ok leds -> map_quiet p -> array_ok (pDesc p) -> Size (pDesc p) < 2 ^ 39 ->
  wp (keyboard_probe I n keys leds) (fun r p' => let '(st, k, keys') := r in cfg_ok keys' /\ probed (keyboard_built (n + 1)) n st k p p') p.
Proof.
  intros Hn Kk Kl Q O Hs. destruct (cfg_bytes_ok keys Kk) as [Bk Lk]. destruct (cfg_bytes_ok leds Kl) as [Bl Ll].
  assert (cfg_size keys <= 128 /\ cfg_size leds <= 128) as [Sk Sl] by (split; [apply Kk|apply Kl]). pose proof (zlen_nonneg (cfg_bytes keys)). pose proof (zlen_nonneg (cfg_bytes leds)).
  destruct (probe_keys_ok (cfg_bytes keys) 0 0 false) as (m & g & rest & Ek & Hm & _); [lia..|done|].
  destruct (probe_leds_ok (cfg_bytes leds) 0 (0, false)) as (Hl & _ & _); [lia|lia|cbn; lia|done|].
  destruct (probe_keys_shape _ _ _ _ _ _ _ Bk Ek) as [Hrl Hrb].
  destruct (probe_ok I (penv p) n (pDesc p) (cfg_bytes keys) (cfg_bytes leds) m g rest) as (st & kopt & n' & a' & e' & Ep & _ & Hr); [done|done|lia|lia|done|cbn in Hl; lia|].
  unfold wp, keyboard_probe. rewrite Ep. cbn [mbind res_bind]. split.
  - destruct Kk as (Kz & Ks & Kb). split; [|split; [done|]].
    + cbn [set_field cfg_bitmap]. rewrite zlen_app, Hrl, Lk. unfold zlen in *. rewrite length_drop. unfold sizeof_bitmap in *. lia.
    + cbn [set_field cfg_bitmap]. apply Forall_app. split; [done|by apply Forall_drop].
  - destruct kopt as [k|].
    + destruct Hr as (-> & -> & Hmx & -> & Ha). split; [done|]. split; [done|]. split; [exact Q|]. set (led := led_option _) in *.
      assert (Forall item_ok (keyboard_items (n + 1) m led)) as Hio.
      { apply keyboard_items_ok; [lia|lia|]. intros lm. unfold led, led_option. destruct (probe_leds _ _ _) as [x [|]]; [|done]. intros [= <-]. cbn in Hl. lia. }
      pose proof (length_encode_items _ Hio) as L. assert (zlen (keyboard_items (n + 1) m led) <= 40) as L40.
      { unfold keyboard_items. destruct led as [l|]; [unfold keyboard_led_items; destruct (truth _)|]; vm_compute; congruence. }
      split; [destruct Ha as (_ & Hz & _); rewrite zlen_app in Hz; change (zlen [HID_TAG_END_COLLECTION]) with 1 in Hz; cbn; lia|].
      exists (ditems (keyboard_items (n + 1) m led) ++ [EndCollection]), (keyboard_fields (n + 1) m). split; [split|split].
      * rewrite descriptor_bytes_app, ditems_bytes. exact Ha.
      * apply Forall_app. split; [by apply ditems_ok|by repeat constructor].
      * apply keyboard_emits.
      * exists m, led. by split_and!; [lia..| |].
    + intros Hst. destruct Hr as [(-> & -> & -> & ->)|(-> & Hf)]; [|congruence]. split; [|exact Q]. split; [by apply appended_nil|done].
Qed.

(** ** All probes *)

Lemma class_emits_app ds1 ds2 fs1 fs2 : class_emits ds1 fs1 -> class_emits ds2 fs2 -> class_emits (ds1 ++ ds2) (fs1 ++ fs2).
Proof. intros H1 H2 h. by rewrite hid_run_app, H2, H1, app_assoc. Qed.

(** The classes so far, the items for them, and room for more. *)
Definition built p0 (cs : list input_class) p : Prop :=
  exists ds fss, dstep p0 p ds /\ class_emits ds (concat fss) /\ Forall2 class_built cs fss /\ class_id <$> cs = seqZ 1 (zlen cs) /\
    map_quiet p /\ zlen cs <= MAX_INPUT_CLASS_COUNT /\ Size (pDesc p) <= 200000 * zlen cs.

Lemma built_room p0 cs p : built p0 cs p -> map_quiet p /\ droom 200000 p /\ Size (pDesc p) < 2 ^ 39 /\ 0 <= zlen cs < 255.
Proof.
  intros (ds & fss & ((O & _) & _) & _ & _ & _ & Q & Hn & Hs). unfold MAX_INPUT_CLASS_COUNT in Hn. pose proof (zlen_nonneg cs). split; [done|]. split; [split; [done|lia]|]. lia.
Qed.

Lemma built_register {A} (Q : A -> list field -> Prop) (f : A -> input_class) p0 cs st (r : option A) p p' :
  built p0 cs p -> (forall a fs, Q a fs -> class_built (f a) fs /\ class_id (f a) = zlen cs + 1) -> probed Q (zlen cs) st r p p' -> NT_SUCCESS st = true ->
  built p0 (registered f cs r) p'.
Proof.
  intros (ds & fss & D & He & Hb & Hid & Q0 & Hn & Hs) HQ Hp Hst. unfold registered. destruct r as [a|]; cbn [probed] in Hp.
  - destruct Hp as (-> & Hmx & Q1 & Hz & ds' & fs & D' & He' & Ha). destruct (HQ a fs Ha) as [Hc Hi]. exists (ds ++ ds'), (fss ++ [fs]).
    rewrite zlen_app. change (zlen [f a]) with 1. pose proof (zlen_nonneg cs). split_and!; [by eapply dstep_trans| | | |done|unfold MAX_INPUT_CLASS_COUNT in *; lia|lia].
    + rewrite concat_app. cbn [concat]. rewrite app_nil_r. by apply class_emits_app.
    + apply Forall2_app; [done|]. constructor; [done|constructor].
    + rewrite fmap_app, Hid, seqZ_app by lia. f_equal. change (class_id <$> [f a]) with [class_id (f a)]. rewrite Hi, (seqZ_cons (1 + zlen cs)) by lia. f_equal. lia.
  - destruct (Hp Hst) as [D' Q']. rewrite app_nil_r. exists ds, fss. split_and!; try done.
    + rewrite <- (app_nil_r ds). by eapply dstep_trans.
    + destruct D' as ((_ & Hz & _) & _). change (zlen (descriptor_bytes [])) with 0 in Hz. lia.
Qed.

(** What the framework promises of the configuration: no more bytes than the structure has. *)
Hypothesis config_size : forall e, u8 (VirtIOWdfDeviceGet C e offsetof_size).1 <= sizeof_bitmap.

Definition buffer_ok (b : list Z) : Prop := zlen b = sizeof_bitmap /\ Forall byte_ok b.

Lemma read_bits_ok stack type p : buffer_ok stack -> wp (read_event_bits C stack type) (same_arrays p cfg_ok) p.
Proof.
  intros (Hz & Hb). unfold read_event_bits, SelectInputConfig. do 2 apply wp_bind. apply wp_modify. apply wp_bind. apply wp_modify. unfold wp at 1, config_get.
  set (p1 := _ <| penv := _ |>). pose proof (config_size (penv p1)) as Hs. destruct (VirtIOWdfDeviceGet C (penv p1) offsetof_size) as [v e]. cbn [fst] in Hs.
  pose proof (u8_range v). apply wp_bind. eapply wp_mono; [apply read_config_ok; [done|lia|done]|]. cbv beta. intros b p2 (E1 & E2 & Hl & Hby). apply wp_ret.
  split; [done|]. split; [done|]. split; [cbn; lia|]. split; [cbn; lia|done].
Qed.

Lemma same_built p0 cs p p' : pDesc p' = pDesc p -> pMap p' = pMap p -> built p0 cs p -> built p0 cs p'.
Proof.
  intros E1 E2 (ds & fss & D & He & Hb & Hid & Q & Hn & Hs). exists ds, fss. unfold dstep, map_quiet in *. rewrite E1, E2. split; [exact D|]. split; [exact He|]. split; [exact Hb|]. split; [exact Hid|]. by split.
Qed.

Lemma cfg_like_ok d d' : cfg_like d d' -> cfg_ok d'.
Proof. by intros [? _]. Qed.

Lemma probe_all_ok stack p : (forall t, buffer_ok (stack t)) -> built p [] p ->
  wp (probe_all I C stack []) (fun r p' => NT_SUCCESS r.1 = true -> built p r.2 p') p.
Proof.
  intros Hst B0. set (p0 := p) in B0 at 1. change (wp (probe_all I C stack []) (fun r p' => NT_SUCCESS r.1 = true -> built p0 r.2 p') p). clearbody p0. unfold probe_all.
  apply wp_bind. eapply wp_mono; [apply (read_bits_ok _ _ _ (Hst _))|]. intros key p1 (E1 & F1 & Kk). apply (same_built _ _ _ _ E1 F1) in B0.
  apply wp_bind. eapply wp_mono; [apply (read_bits_ok _ _ _ (Hst _))|]. intros rel p2 (E2 & F2 & Kr). apply (same_built _ _ _ _ E2 F2) in B0.
  apply wp_bind. eapply wp_mono; [apply (read_bits_ok _ _ _ (Hst _))|]. intros abs p3 (E3 & F3 & Ka). apply (same_built _ _ _ _ E3 F3) in B0.
  apply wp_bind. eapply wp_mono; [apply (read_bits_ok _ _ _ (Hst _))|]. intros msc p4 (E4 & F4 & Km). apply (same_built _ _ _ _ E4 F4) in B0.
  apply wp_bind. eapply (wp_mono _ (fun r p' => let '(st, cs, abs, key) := r in cfg_ok abs /\ cfg_ok key /\ (NT_SUCCESS st = true -> built p0 cs p'))).
  { destruct (_ || _); [|apply wp_ret; by split_and!]. apply wp_bind. destruct (built_room _ _ _ B0) as (_ & D & _ & Hn).
    eapply wp_mono; [apply (HIDMouseProbe_ok I C (zlen []) rel abs key p4); done|]. intros [[st m] [[rel' abs'] key']] p5 ((L1 & L2 & L3) & Hp). apply wp_ret.
    split; [by eapply cfg_like_ok|]. split; [by eapply cfg_like_ok|]. intros Hs. eapply (built_register _ MouseClass p0 [] st m p4); [done| |exact Hp|done]. intros a fs. by apply mouse_class. }
  clear dependent abs key. intros [[[st cs] abs] key] p5 (Ka & Kk & B1). destruct (NT_SUCCESS st) eqn:Est; cbn [negb]; [specialize (B1 eq_refl)|apply wp_ret; cbn [fst]; by rewrite Est].
  apply wp_bind. eapply (wp_mono _ (fun r p' => let '(st, cs, abs, key) := r in cfg_ok abs /\ cfg_ok key /\ (NT_SUCCESS st = true -> built p0 cs p'))).
  { destruct (negb _); [|apply wp_ret; by split_and!]. apply wp_bind. destruct (built_room _ _ _ B1) as (_ & (Od & _ & Sd) & _ & Hn).
    eapply wp_mono; [apply (HIDJoystickProbe_ok I C (zlen cs) abs key p5); [done..|split; [done|lia]]|]. intros [[st' j] [abs' key']] p6 ((L1 & L2) & Hp). apply wp_ret.
    split; [by eapply cfg_like_ok|]. split; [by eapply cfg_like_ok|]. intros Hs. eapply (built_register _ JoystickClass p0 cs st' j p5); [done| |exact Hp|done]. intros a fs. by apply joystick_class. }
  clear dependent cs abs key st. intros [[[st cs] abs] key] p6 (Ka & Kk & B1). destruct (NT_SUCCESS st) eqn:Est; cbn [negb]; [specialize (B1 eq_refl)|apply wp_ret; cbn [fst]; by rewrite Est].
  apply wp_bind. eapply (wp_mono _ (fun r p' => let '(st, cs) := r in NT_SUCCESS st = true -> built p0 cs p')).
  { destruct (negb _); [|by apply wp_ret]. apply wp_bind. destruct (built_room _ _ _ B1) as (Q & (Od & _ & Sd) & _ & Hn).
    eapply wp_mono; [apply (HIDTabletProbe_ok I C (zlen cs) abs key msc p6); [done..|split; [done|lia]]|]. intros [[st' t] abs'] p7 Hp. apply wp_ret.
    intros Hs. eapply (built_register _ TabletClass p0 cs st' t p6); [done| |exact Hp|done]. intros a fs. by apply tablet_class. }
  clear dependent cs abs st. intros [st cs] p7 B1. destruct (NT_SUCCESS st) eqn:Est; cbn [negb]; [specialize (B1 eq_refl)|apply wp_ret; cbn [fst]; by rewrite Est].
  apply wp_bind. eapply (wp_mono _ (fun r p' => let '(st, cs, key) := r in cfg_ok key /\ (NT_SUCCESS st = true -> built p0 cs p'))).
  { destruct (negb _); [|apply wp_ret; by split]. apply wp_bind. eapply wp_mono; [apply (read_bits_ok _ _ _ (Hst _))|]. intros led p8 (E8 & F8 & Kl). apply (same_built _ _ _ _ E8 F8) in B1.
    apply wp_bind. destruct (built_room _ _ _ B1) as (Q & (Od & _) & Sd & Hn).
    eapply wp_mono; [apply (keyboard_probe_ok (zlen cs) key led p8); done|]. intros [[st' k] key'] p9 (Kk' & Hp). apply wp_ret. split; [done|].
    intros Hs. eapply (built_register _ KeyboardClass p0 cs st' k p8); [done| |exact Hp|done]. intros a fs. by apply keyboard_class. }
  clear dependent cs key st. intros [[st cs] key] p8 (Kk & B1). destruct (NT_SUCCESS st) eqn:Est; cbn [negb]; [specialize (B1 eq_refl)|apply wp_ret; cbn [fst]; by rewrite Est].
  destruct (negb _); [|by apply wp_ret]. apply wp_bind. destruct (built_room _ _ _ B1) as (Q & (Od & _ & Sd) & _ & Hn).
  eapply wp_mono; [apply (HIDConsumerProbe_ok I (zlen cs) key p8); [done..|split; [done|lia]]|]. intros [[st' s] key'] p9 (_ & Hp). apply wp_ret.
  cbn [fst snd]. intros Hs. eapply (built_register _ ConsumerClass p0 cs st' s p8); [done| |exact Hp|done]. intros a fs. by apply consumer_class.
Qed.
End build.

(** ** The descriptor of the device *)

(** A class that can take events: of tablets, those with a slot for a contact. *)
Definition takes_events (c : input_class) : Prop := match c with TabletClass t => uMaxContacts t <> 0 | _ => True end.

Lemma built_inv c fs : class_built c fs -> takes_events c -> class_inv c.
Proof. intros (_ & Hc) Ht. destruct c; try exact Hc. destruct Hc as (_ & [Hc|Hc]); [done|exact Hc]. Qed.

Lemma declared_run ds : declared (ditem_pair <$> ds) = h_fields (hid_run hid_start ds).
Proof. unfold declared, hid_run. f_equal. generalize hid_start. induction ds as [|d ds IH]; intros h; [done|]. cbn. apply IH. Qed.

(** The fields of one class among those of all. *)
Lemma bits_concat cs fss : forall i, Forall2 class_built cs fss -> class_id <$> cs = seqZ i (zlen cs) ->
  Forall (fun f => i <= f_id f < i + zlen cs) (concat fss) /\
  forall c, c ∈ cs -> report_bits (class_id c) (concat fss) = 8 * (class_size c - 1).
Proof.
  intros i Hb. revert i. induction Hb as [|c fs cs fss ((Hf & Hs) & _) _ IH]; intros i Hid; cbn [concat]; [split; [constructor|]; by intros c ?%elem_of_nil|].
  rewrite zlen_cons in *. pose proof (zlen_nonneg cs). rewrite fmap_cons, seqZ_cons in Hid by lia. injection Hid as Hi Hid.
  replace (Z.pred (zlen cs + 1)) with (zlen cs) in Hid by lia. destruct (IH (Z.succ i) Hid) as [Hr Hc]. split.
  - apply Forall_app. split; [eapply Forall_impl; [exact Hf|]; intros f Ef; cbn beta in *; lia|]. eapply Forall_impl; [exact Hr|]. intros f Ef. cbn beta in *. lia.
  - intros c' [->|Hc']%elem_of_cons; rewrite report_bits_app.
    + rewrite Hs, (report_bits_other _ (concat fss)); [lia|]. eapply Forall_impl; [exact Hr|]. intros f Ef. cbn beta in *. lia.
    + rewrite (Hc c' Hc'), (report_bits_other _ fs); [lia|]. eapply Forall_impl; [exact Hf|]. intros f Ef. cbn beta in *.
      assert (class_id c' ∈ seqZ (Z.succ i) (zlen cs)) as Hin by (rewrite <- Hid; apply list_elem_of_fmap; eauto). apply elem_of_seqZ in Hin. lia.
Qed.

(** What a built device has. *)
Definition device_built {E} (d : INPUT_DEVICE E) : Prop :=
  zlen (InputClasses d) <= MAX_INPUT_CLASS_COUNT /\ class_id <$> InputClasses d = seqZ 1 (zlen (InputClasses d)) /\
  Forall (fun c => takes_events c -> class_inv c) (InputClasses d) /\
  forall bytes, HidReportDescriptor d = Some bytes -> exists items, parse_items (length bytes) bytes = Some items /\
    Forall (fun f => 1 <= f_id f <= zlen (InputClasses d)) (declared items) /\
    forall c, c ∈ InputClasses d -> report_bits (class_id c) (declared items) = 8 * (class_size c - 1).

Lemma build_ok {E} (I : input_env E) (C : config_env E) stack d :
  (forall e, u8 (VirtIOWdfDeviceGet C e offsetof_size).1 <= sizeof_bitmap) -> (forall t, buffer_ok (stack t)) -> InputClasses d = [] ->
  exists st d', VIOInputBuildReportDescriptor I C stack d = Ok (st, d') /\ (NT_SUCCESS st = true -> device_built d').
Proof.
  intros Hc Hst Hd. unfold VIOInputBuildReportDescriptor. rewrite Hd. set (p := mk_probing _ _ _ _).
  assert (built p [] p) as B0.
  { exists [], []. split; [split; [by apply appended_nil|done]|]. split; [intros h; cbn; by rewrite app_nil_r|]. split; [constructor|]. by split_and!. }
  pose proof (probe_all_ok I C Hc stack p Hst B0) as W. unfold wp in W. destruct (probe_all I C stack [] p) as [[[st cs] p']|]; [|done]. cbn [mbind res_bind fst snd] in *.
  destruct (NT_SUCCESS st) eqn:Est; cbn [negb]; [|do 2 eexists; split; [done|]; congruence]. destruct (W eq_refl) as (ds & fss & D & He & Hb & Hid & _ & Hn & _).
  assert (Forall (fun c => takes_events c -> class_inv c) cs) as Hinv.
  { clear -Hb. induction Hb as [|c fs cs fss Hc _ IH]; constructor; [by eapply built_inv|done]. }
  destruct (DynamicArrayIsEmpty (pDesc p')); [do 2 eexists; split; [done|]; intros _; by split_and!|].
  destruct D as ((_ & _ & Ha) & Ho). unfold DynamicArrayGet, contents in *. change (Ptr (pDesc p)) with PtrNull in Ha.
  destruct (Ptr (pDesc p')) as [| |bytes] eqn:Ep; cbn [fst]; [do 2 eexists; split; [done|]; intros _; by split_and!..|].
  destruct Ha as [Ha|(b & [= <-] & [= Eb])]; [done|]. do 2 eexists. split; [done|]. intros _. split; [done|]. split; [done|]. split; [done|].
  cbn. intros bytes' [= <-]. exists (ditem_pair <$> ds). split.
  - rewrite Eb. cbn [app]. pose proof (descriptor_length ds Ho) as L. replace (length (descriptor_bytes ds)) with (length ds + (length (descriptor_bytes ds) - length ds))%nat by lia.
    by apply descriptor_parse.
  - rewrite declared_run, (He hid_start). cbn [hid_start h_fields app]. destruct (bits_concat cs fss 1 Hb Hid) as [H1 H2]. split; [|exact H2].
    eapply Forall_impl; [exact H1|]. intros f Hf. cbn beta in *. lia.
Qed.


