(* ===== verification/VioInputExamples.v ===== *)
(** * The virtio-input theorems on concrete devices

    A fresh keyboard with 13 bytes of key bitmap and one LED byte, an environment
    whose allocations succeed and whose status queue logs the events; and a device with a
    button, two relative axes, a wheel and a key, which becomes a mouse and a keyboard. *)

From Stdlib Require Import ZArith Lia.
From stdpp Require Import base list numbers option sets gmap.
From S2P Require Import Prelude.
From S2P Require Import Effects.
From S2P Require Import VioInput.
From S2P Require Import VioInputSpec.
From S2P Require Import VioInputLed.
From S2P Require Import VioInputProbe.
From S2P Require Import VioInputClasses.
From S2P Require Import VioInputHid.
From S2P Require Import VioInputHidSpec.
From S2P Require Import VioInputMouseSpec.
From S2P Require Import VioInputMouseEvents.
From S2P Require Import VioInputBuildSpec.

(** The log of the status queue and of completed requests. *)
Definition log := list (VIRTIO_INPUT_EVENT * option Z).
Definition log_env : input_env log :=
  mk_env _ (fun e _ => (true, e)) (fun e => (Some 0, e)) (fun e _ => e)
    (fun e _ ev req => (STATUS_SUCCESS, (ev, req) :: e)) (fun e _ _ => e).

(** Keys up to usage 0x65 and LEDs up to usage 3. *)
Definition kb0 : INPUT_CLASS_KEYBOARD := fresh_class 1 0x65 (Some 3) (replicate 9 0).

Lemma kb0_shows : kb_shows kb0 ∅ ∅.
Proof. apply fresh_class_shows. lia. Qed.

(** KEY_A is pressed with the left shift held. *)
Definition typed : list VIRTIO_INPUT_EVENT := [mk_ev EV_KEY 42 1; mk_ev EV_KEY 30 1].

Lemma typed_fits : Forall (event_fits (cbKeysPressedLen kb0)) typed.
Proof.
  repeat (apply list.Forall_cons; split; [|]); [..|done]; (split; [done|]); intros u Hu;
    vm_compute in Hu; injection Hu as <-; change (cbKeysPressedLen kb0) with 13; lia.
Qed.

Lemma keyboard_report_refines_witness :
  exists k', run_events kb0 typed = Ok k' /\ kb_shows k' {[0xE1]} {[0x04]}.
Proof.
  destruct (keyboard_report_refines kb0 ∅ ∅ typed kb0_shows typed_fits) as (k' & E & S).
  exists k'. split; [exact E|].
  replace (foldl abs_event (∅, ∅) typed) with (({[0xE1]} : gset Z), ({[0x04]} : gset Z)) in S
    by (vm_compute; reflexivity).
  exact S.
Defined.

Lemma consumer_keys_hit_keyboard_witness :
  HIDKeyboardEventToReport kb0 (mk_ev EV_KEY 113 1) = Fault OutOfBounds.
Proof. by apply consumer_keys_hit_keyboard. Defined.

Lemma HIDKeyboardReportToEvent_correct_witness :
  HIDKeyboardReportToEvent log_env [] kb0 9 [1; 2] 2 =
    Ok (STATUS_SUCCESS, kb0 <| pLastOutputReport := [1; 2] |>, [(mk_ev EV_LED 1 1, Some 9)]).
Proof.
  change 2 with (zlen [1; 2]) at 2.
  rewrite (HIDKeyboardReportToEvent_correct log_env [] kb0 9 [1; 2] 1).
  - vm_compute. reflexivity.
  - repeat (apply list.Forall_cons; split; [done|]). done.
  - repeat (apply list.Forall_cons; split; [done|]). done.
  - done.
  - done.
  - done.
Defined.

Lemma led_codes_roundtrip_witness :
  HIDLEDUsageCodeToEventCode (HIDLEDEventCodeToUsageCode 5) = 5.
Proof. by apply (led_codes_roundtrip 5 0x27). Defined.

Definition empty_array : DYNAMIC_ARRAY := mk_array PtrNull 0 0.

Lemma DynamicArrayAppend_correct_witness :
  exists a' e', DynamicArrayAppend log_env [] empty_array [1; 2; 3] = Ok (true, a', e') /\
    contents a' = Some [1; 2; 3].
Proof.
  destruct (DynamicArrayAppend_correct log_env [] empty_array [1; 2; 3]) as (ok & a' & e' & E & _ & C);
    [done|done|done|].
  assert (ok = true) as -> by (vm_compute in E; congruence).
  exists a', e'. split; [exact E|]. destruct C as (b & [= <-] & C). exact C.
Defined.

Definition some_items : list (Z * Z) := [(HID_TAG_USAGE_MINIMUM, 0xE0); (HID_TAG_LOGICAL_MINIMUM, -1);
  (HID_TAG_LOGICAL_MAXIMUM, 100000)].

Lemma HIDAppend2_roundtrip_witness :
  exists a' e', append_items log_env [] empty_array some_items = Ok (a', e') /\
    (contents a' = None \/
     exists bytes, contents a' = Some bytes /\ parse_items 3 bytes = Some some_items).
Proof.
  apply (HIDAppend2_roundtrip log_env [] empty_array some_items); [done|done|done|].
  repeat (apply list.Forall_cons; split; [by apply item_ok_const|]). done.
Defined.

(** KEY_A and the NumLock LED. *)
Definition key_bits : list Z := [0; 0; 0; 0x40].
Definition led_bits1 : list Z := [1].

Lemma HIDKeyboardProbe_correct_witness :
  exists st kopt n' a' rest e', HIDKeyboardProbe log_env [] 0 empty_array key_bits led_bits1 =
    Ok (st, kopt, n', a', rest, e') /\ key_bit rest 30 = false.
Proof.
  destruct (HIDKeyboardProbe_correct log_env [] 0 empty_array key_bits led_bits1) as
    (st & kopt & n' & a' & rest & e' & E & _ & R & _);
    [done|done|done|lia|by repeat (apply list.Forall_cons; split)|
     by repeat (apply list.Forall_cons; split)|done|done|].
  exists st, kopt, n', a', rest, e'. split; [exact E|]. rewrite R. vm_compute. reflexivity.
Defined.

Lemma keyboard_report_sizes_witness :
  field_bits HID_TAG_OUTPUT 0 0 (keyboard_items 1 0x65 (Some 3)) = 16.
Proof. apply (keyboard_report_sizes 1 0x65 3). lia. Defined.

(** ** A mouse with a key *)

(** The outside: the selectors of the configuration space, and the reports that were read. *)
Record desk := mk_desk { dk_select : Z; dk_subsel : Z; dk_read : list (list Z) }.

(** Buttons and keys: BTN_LEFT and KEY_A; relative axes: x, y and the wheel. *)
Definition desk_bits (type : Z) : list Z :=
  if type =? EV_KEY then [0; 0; 0; 0x40] ++ replicate 30 0 ++ [1] else if type =? EV_REL then [3; 1] else [].

Definition desk_env : input_env desk :=
  mk_env _ (fun e _ => (true, e)) (fun e => (Some 0, e)) (fun e _ => e) (fun e _ _ _ => (STATUS_SUCCESS, e)) (fun e _ _ => e).

Definition desk_config : config_env desk :=
  mk_config_env _ (fun e off v => if off =? offsetof_select then mk_desk v (dk_subsel e) (dk_read e) else mk_desk (dk_select e) v (dk_read e))
    (fun e off =>
       let bits := if dk_select e =? VIRTIO_INPUT_CFG_EV_BITS then desk_bits (dk_subsel e) else [] in
       (if off =? offsetof_size then zlen bits else default 0 (zlookup bits (off - offsetof_bitmap)), e)).

(** A read request with 64 bytes is always pending. *)
Definition desk_hid : hid_env desk :=
  mk_hid_env _ (fun e => (Some 7, e)) (fun _ _ => (STATUS_SUCCESS, 64))
    (fun e _ r => (STATUS_SUCCESS, mk_desk (dk_select e) (dk_subsel e) (dk_read e ++ [r]))) (fun e _ _ => e) (fun e _ => (STATUS_SUCCESS, e)) (fun e _ _ => e).

Definition desk0 : desk := mk_desk 0 0 [].
Definition cfg_of (bits : list Z) : VIRTIO_INPUT_CFG_DATA := mk_cfg (zlen bits) (bits ++ replicate (128 - length bits) 0).
Definition probing0 : probing desk := mk_probing _ desk0 empty_array empty_array.

Lemma cfg_of_ok bits : forallb (fun b => (0 <=? b) && (b <? 256)) bits && (zlen bits <=? 128) = true -> cfg_ok (cfg_of bits).
Proof.
  rewrite andb_true_iff, List.forallb_forall. intros [Hb Hl]. pose proof (zlen_nonneg bits). unfold cfg_ok, cfg_of, sizeof_bitmap. cbn [cfg_bitmap cfg_size]. split_and!; [|lia|lia|].
  - rewrite zlen_app, zlen_replicate. unfold zlen in *. lia.
  - apply Forall_app. split; [|by apply Forall_replicate]. apply list.Forall_forall. intros b Hin. specialize (Hb b). rewrite <- list_elem_of_In in Hb. specialize (Hb Hin). unfold byte_ok. lia.
Qed.

(** Three to the right with the button held. *)
Definition dragged : list VIRTIO_INPUT_EVENT := [mk_ev EV_KEY BTN_MOUSE 1; mk_ev EV_REL 0 3].

Lemma dragged_ranges : Forall event_ranges dragged.
Proof. by repeat constructor. Qed.

Lemma dragged_pointer K : pt_rel (pointer_events K at_rest dragged) 0 = 3 /\ pt_buttons (pointer_events K at_rest dragged) 0 = true.
Proof. done. Qed.

Definition desk_probe : M (probing desk) (Z * option INPUT_CLASS_MOUSE * (VIRTIO_INPUT_CFG_DATA * VIRTIO_INPUT_CFG_DATA * VIRTIO_INPUT_CFG_DATA)) :=
  HIDMouseProbe desk_env desk_config 0 (cfg_of (desk_bits EV_REL)) (cfg_of []) (cfg_of (desk_bits EV_KEY)).

(** The probe registers a mouse with a button and the x axis. *)
Lemma desk_probe_some : match desk_probe probing0 with Ok (_, Some _, _, _) => True | _ => False end.
Proof. vm_compute. exact I. Qed.

Lemma desk_button : BTN_MOUSE ∈ codes_of (cfg_of (desk_bits EV_KEY)).
Proof. apply (bool_decide_eq_true_1 _). vm_compute. reflexivity. Qed.

Lemma desk_pointer : rel_pointer (cfg_of (desk_bits EV_REL)) = true /\ 0 ∈ rel_axes true (codes_of (cfg_of (desk_bits EV_REL))).
Proof. split; [vm_compute; reflexivity|]. apply (bool_decide_eq_true_1 _). vm_compute. reflexivity. Qed.

(** What the descriptor locates for the button and the x axis. *)
Definition shows_drag (fs : list field) (report : list Z) : Prop :=
  (located fs 1 0 HID_USAGE_PAGE_BUTTON 1 1 /\ field_value report 0 1 = 1) /\
  exists pos, located fs 1 pos HID_USAGE_PAGE_GENERIC HID_USAGE_GENERIC_X 8 /\ field_value report pos 8 = 3.

Lemma reads_drag fs K report : mouse_has 1 (cfg_of (desk_bits EV_REL)) (cfg_of []) (cfg_of (desk_bits EV_KEY)) K ->
  reads fs (rel_pointer (cfg_of (desk_bits EV_REL))) K report (pointer_events K at_rest dragged) -> shows_drag fs report.
Proof.
  intros Hh Hr. destruct desk_pointer as [Hp Hax]. destruct (dragged_pointer K) as [D1 D2].
  assert (0 < k_nb K) as Hn by (pose proof (mh_buttons _ _ _ _ _ Hh BTN_MOUSE desk_button eq_refl); unfold BTN_MOUSE in *; lia).
  assert (0 ∈ k_rel K) as Hx by (rewrite (mh_rel _ _ _ _ _ Hh), Hp; exact Hax).
  pose proof (mh_id _ _ _ _ _ Hh) as Hid. destruct (rd_rel _ _ _ _ _ Hr 0 Hx) as (pos & L & V). destruct (rd_button _ _ _ _ _ Hr 0 ltac:(lia)) as (LB & VB).
  rewrite Hid in L, LB. rewrite Hp in L. rewrite D1 in V. rewrite D2 in VB. split; [by split|]. by exists pos.
Qed.

Lemma desk_ok : cfg_ok (cfg_of (desk_bits EV_REL)) /\ cfg_ok (cfg_of []) /\ cfg_ok (cfg_of (desk_bits EV_KEY)) /\ droom 200000 probing0.
Proof. split; [by apply cfg_of_ok|]. split; [by apply cfg_of_ok|]. split; [by apply cfg_of_ok|]. unfold droom, array_ok. by split_and!. Qed.


(** ** The device *)

Definition device0 : INPUT_DEVICE desk := mk_device _ desk0 [] None 0 0.
Definition stack0 : Z -> list Z := fun _ => replicate 128 0.

Lemma stack0_ok t : buffer_ok (stack0 t).
Proof. split; [done|]. by apply Forall_replicate. Qed.

Lemma desk_size e : u8 (VirtIOWdfDeviceGet desk_config e offsetof_size).1 <= sizeof_bitmap.
Proof.
  destruct e as [s t r]. unfold desk_config. cbn [VirtIOWdfDeviceGet fst dk_select dk_subsel]. change (offsetof_size =? offsetof_size) with true. cbv iota.
  destruct (s =? _); [|done]. unfold desk_bits. destruct (t =? EV_KEY); [done|]. by destruct (t =? EV_REL).
Qed.

(** The drag, KEY_A and the end of the frame. *)
Definition desk_frame : list VIRTIO_INPUT_EVENT := dragged ++ [mk_ev EV_KEY 30 1; mk_ev EV_SYN 0 0].

Lemma desk_frame_ranges : Forall event_ranges desk_frame.
Proof. by repeat constructor. Qed.

(** What the device becomes: a mouse, and a keyboard with the keys up to KEY_A.  The frame
    fills a report of each. *)
Definition desk_built (r : res (Z * INPUT_DEVICE desk)) : Prop :=
  match r with
  | Ok (st, d) => NT_SUCCESS st = true /\ zlen (InputClasses d) = 2 /\ (exists bytes, HidReportDescriptor d = Some bytes) /\
      Forall takes_events (InputClasses d) /\
      Forall (fun c => match c with MouseClass _ => True | KeyboardClass k => cbKeysPressedLen k = 1 | _ => False end) (InputClasses d) /\
      match process_events desk_hid d desk_frame with Ok (sent, _) => zlen sent = 2 | Fault _ => False end
  | Fault _ => False
  end.

Lemma desk_builds : desk_built (VIOInputBuildReportDescriptor desk_env desk_config stack0 device0).
Proof.
  vm_compute. split; [reflexivity|]. split; [reflexivity|]. split; [eexists; reflexivity|].
  split; [|split; [|reflexivity]]; (apply List.Forall_cons; [done|]; apply List.Forall_cons; [done|]; apply List.Forall_nil).
Qed.


Lemma desk_frame_fits : Forall (event_fits 1) desk_frame.
Proof.
  repeat (apply list.Forall_cons; split; [|]); [..|done]; (split; [done|]); intros u Hu; vm_compute in Hu; try done; injection Hu as <-; lia.
Qed.

Lemma desk_classes_fit cs :
  Forall (fun c => match c with MouseClass _ => True | KeyboardClass k => cbKeysPressedLen k = 1 | _ => False end) cs ->
  Forall (fun ev => Forall (class_fits ev) cs) desk_frame.
Proof.
  intros Hc. eapply Forall_impl; [exact desk_frame_fits|]. intros ev He. eapply Forall_impl; [exact Hc|]. intros c Hk. destruct c; try done. cbn in *. by rewrite Hk.
Qed.

